(* ===== verification/_CoqProject ===== *)
-Q . S2P
Prelude.v
Bytes.v
Ring.v
Text.v
Sync.v
Pmm.v
Allocator.v
Paging.v
UserSpace.v
Spare.v
PageTree.v
OwnTables.v
Faults.v
NewSpace.v
Ipc.v
Context.v
Task.v
Elf.v
ElfLoad.v
Lifetime.v
LoadElf.v
Sched.v
Smp.v
Calls.v
Sleep.v
Vfs.v
VfsTree.v
VfsPath.v
Io.v
Errors.v
Ata.v
Fat32.v
FatVol.v
FatChain.v
FatDir.v
FatFile.v
FatWrite.v
FatFormat.v
FatFs.v
Serial.v
Vga.v
Klog.v
Keyboard.v
Mouse.v
Clock.v
Acpi.v
AcpiMapped.v
AcpiInit.v
Descriptors.v
Pic.v
Apic.v
SmpBoot.v
Uefi.v
UefiBoot.v
Trampoline.v
SyscallEntry.v
Syscall.v
KernelPages.v
Handlers.v
Power.v
Shell.v
Commands.v
Proc.v
TaskCommands.v
Canvas.v
Shapes.v
Pci.v
Bga.v
Gui.v
E1000.v
Packets.v
NetText.v
Network.v
NetCommands.v
Reports.v
Console.v
Main.v
