(* ===== verification/Prelude.v ===== *)
(** * A verification of the AuraOS kernel

    AuraOS (src/src) is an x86_64 kernel written in Rust, with a UEFI loader
    (src/boot/uefi).  This library models it as executable definitions and proves what
    makes it correct.

    ** The program and the files that model it

    Foundations: this file (outcomes, machine integers, panicking list accesses,
    automation), [Bytes] (little-endian words), [Ring] (ring buffers) and [Text]
    (ASCII, UTF-8 and decimal text).

    - src/sync.rs, the spinlock that every global uses: [Sync].  Its state is the
      flag and the data, CPUs are state machines with an interrupt flag, and the
      interleavings are a step relation.
    - src/memory/pmm.rs, the bitmap of physical frames: [Pmm].  Also the class
      [FrameAllocator] that clients are proved against.
    - src/memory/allocator.rs, the kernel heap: [Allocator].  The nodes that Rust
      keeps inside the free blocks are a list of (address, size).
    - src/memory/paging.rs, addresses, entries, the table walk and the identity map
      of devices: [Paging], over a word-addressed memory.
    - src/memory/vmm.rs and user_space.rs, user address spaces: [UserSpace] holds
      the data, every operation and the theorems on areas; [PageTree] the ownership
      tree of page tables with mapping, unmapping and teardown; [Faults] demand
      paging and the program break; [NewSpace] the creation of an address space;
      [Spare] how many frames an operation can need; [OwnTables] which frames an
      operation writes; [Lifetime] sequences of operations from creation to drop.
    - src/task/ipc.rs, mailboxes: [Ipc].
    - src/task/mod.rs, tasks and schedulers: [Context] is switch_context and the
      first stack frame at the level of machine words; [Task] has every definition
      of the schedulers; [Sched] the theorems on one run queue; [Smp] the machine of
      several CPUs, whose steps are the critical sections under each queue's lock;
      [Calls] an abstract specification of every scheduler call and its refinement;
      [Sleep] sleeping, the idle loop and the tasks of the kernel.
    - src/fs/elf.rs, the program loader: [Elf] (headers and the loader), [ElfLoad]
      (one segment), [LoadElf] (a whole file built by the kernel).
    - src/fs/mod.rs, the virtual file system: [Vfs] has the definitions; [VfsTree]
      the tree invariant and the operations that change it; [VfsPath] paths and the
      initial tree; [Proc] the generated files of /proc, with src/arch/cpuid.rs.
    - src/fs/errors.rs: [Errors]; src/arch/io.rs: [Io], with the class [Hardware] of
      port and memory-mapped accesses over which all drivers are written.
    - src/drivers/ata.rs: [Ata], with the class of a working drive; src/fs/fat32.rs:
      [Fat32] has the definitions, [FatVol] the Hoare logic of sectors, [FatChain],
      [FatDir], [FatFile], [FatWrite], [FatFormat] and [FatFs] the theorems from the
      allocation table up to whole sessions.
    - src/drivers/serial.rs, vga.rs, src/klog.rs, drivers/keyboard.rs, mouse.rs,
      cmos.rs with pit.rs: [Serial], [Vga], [Klog], [Keyboard], [Mouse], [Clock].
    - src/arch/acpi.rs: [Acpi] and [AcpiInit], over memory all of which can be read,
      and [AcpiMapped], the same parsers where a pointer into unmapped memory is a page
      fault; gdt.rs, idt.rs and msr.rs: [Descriptors]; pic.rs and apic.rs: [Pic] and [Apic]; the handlers of idt.rs:
      [Handlers]; power.rs: [Power].
    - src/arch/smp.rs: [SmpBoot], the boot processor and the others interleaved step
      by step, and [Trampoline], the machine code that takes a processor from real
      to long mode, instruction by instruction.
    - src/arch/syscall.rs and user mode entry: [SyscallEntry] (the entry code over
      registers), [Syscall] (the dispatcher and every call) and [KernelPages] (calls on
      pages of the kernel).
    - src/boot/ and boot/uefi/: [Uefi] has the loader from efi_main to the jump into
      the kernel with the firmware as a class; the instructions behind mov cr3 and the
      entry point are fetched through the new tables, and a page that these do not map
      is a fault.  [UefiBoot] has its theorems.
    - src/shell/mod.rs: [Shell] (line editor and parsers), [Commands] (files and
      disks), [TaskCommands] (tasks, messages, programs), [NetCommands] (network),
      [Reports] (the reports on the machine), [Console] (the whole dispatch, and the
      way from the keys to the screen).
    - src/main.rs: [Main], from the first line of kernel_main to the prompt over the
      state of every component, and the panic handler.  Its class [Board] says that
      the other devices of the machine leave the serial line alone, its class [Chips]
      that the interrupt controllers and the timer are programmed by their ports only.
    - src/drivers/framebuffer.rs, bga.rs and src/gui/: [Canvas] and [Shapes], [Bga],
      [Gui].
    - src/drivers/pci.rs: [Pci]; e1000.rs: [E1000]; src/net/ethernet.rs, arp.rs,
      ipv4.rs, icmp.rs, udp.rs: [Packets]; net/mod.rs: [NetText] and [Network], over
      the class [NetDevice] of which the e1000 driver is an instance.

    The components call each other as in the kernel: user address spaces take
    frames from the physical memory manager through [FrameAllocator]; schedulers
    own tasks that own address spaces; the loader reads files of the virtual file
    system into address spaces; system calls and handlers work on all of these; the
    FAT32 driver sits on the disk driver, that on the ports; the network manager
    sits on the packet formats and on a card, the card on the PCI bus; the shell
    runs the operations of every component.

    ** How code is modelled

    A function that can panic returns an [outcome] ([Ret], [Panic], and [NoFuel] for
    a loop whose model ran out of iterations).  The kernel is built in release
    mode, so integer arithmetic wraps: [u64_add] and its like.  [usize] indices that
    the code keeps in range are [nat] in the file system and in the schedulers.
    State is passed explicitly; a function that runs under a lock is one step.
    Rust references and slots of vectors are positions in lists, with the
    panicking reads and writes of this file ([index], [store], [at_], [update]).
    Drivers are state-passing computations over any type with the class [Hardware];
    what a device does is a class with the laws its documentation gives, and each
    class has an instance, a small machine, on which the witnesses run.

    Loops whose bound the source fixes run on that bound (the polls of the drivers,
    the waits of smp.rs, the EEPROM polls, the 100,000 turns of ping).  Where the
    source has no bound, the definition carries one that the theorems show to be
    enough: the release of a memory region (the frames of the window), the search of
    mmap (one turn for each area), munmap and populate (the pages of the range),
    reaping (the length of the queue), the path of an inode and the descendants of a
    directory (the number of inodes, by the tree invariant), the carry fold of the
    checksum (three turns for 32 bits), the cluster chains (the number of clusters
    of the volume).  The waits for a device that no bound ends (the transmitter of
    the serial port, the status of the disk) take a fuel argument, and the law of the
    device says after how many polls it is ready.

    ** What the theorems show

    - Memory safety of the frame and heap allocators: blocks handed out are free,
      aligned, in range and disjoint; freeing checks its argument; nothing is lost
      ([Pmm], [Allocator]).
    - Virtual memory: whatever is done with an address space at addresses between 1
      and 3 GiB (the code does not check them; outside, [KernelPages] shows what goes
      wrong), no frame in use elsewhere changes, and dropping it gives every frame back
      ([Lifetime]); exactly the requested translations change; areas stay
      aligned and disjoint; faults are served with the rights of their area or
      refused without effect, and a refused one ends its program and no other; page
      tables are never shared ([UserSpace], [PageTree], [Faults], [Handlers]).
    - Concurrency: mutual exclusion and the interrupt discipline of the spinlock;
      no task in two queues in any interleaving of CPUs; every scheduler call returns
      and does what its specification says, and is a sequence of the critical sections
      of that machine; round-robin fairness;
      a switch out and back restores the registers; processors are started with
      blocks, stacks and numbers of their own; a sleep never ends before its deadline,
      and on the CPU where it began at the first look after it ([Sync], [Smp], [Calls],
      [Sched], [Context], [SmpBoot], [Trampoline], [Sleep]).
    - Programs: a file built by the kernel is loaded with every byte in place, from
      the shell as well, and loading fails only when memory is short; a system call preserves what its convention says; messages
      pass through system calls; message passing refines one bounded queue for each
      process ([LoadElf], [TaskCommands], [SyscallEntry], [Syscall], [Ipc]).
    - File systems: the virtual one stays a tree under every sequence of calls,
      files read back what was written and printed paths resolve; on the disk,
      writing then reading a file gives its bytes, chains end, and whole sessions of
      the shell round-trip ([VfsTree], [VfsPath], [FatFs], [Commands]).
    - Devices: the consoles show what is printed; the ACPI parsers stay in bounds
      and find the tables; the solid and the translucent rounded rectangles agree;
      the desktop never indexes outside its pixels ([Vga], [Klog], [AcpiInit],
      [Shapes], [Gui]).
    - Networking: packets are parsed back from their bytes with valid checksums,
      echo and ARP requests are answered end to end through the ring of the card,
      the bus scan finds exactly the functions present ([Packets], [Network],
      [E1000], [Pci]).
    - Booting: with firmware that keeps to its specification and pages below 512 MiB
      the loader enters the kernel with image, tables, stack and memory map in place
      ([UefiBoot]); from there kernel_main brings every component to its invariant without a panic or
      an endless wait, and the shell answers what is typed ([Main], [Console]).
    - Defects of the code are theorems too: among them a task stolen while it is
      switched out ([Smp]), a system call entered on the stack of another task
      ([SyscallEntry]), a program that replaces or unmaps pages of the kernel
      ([KernelPages]), a late processor that shares the stack of the next one
      ([SmpBoot]), a frame that makes the kernel panic ([Network]), a ping that
      believes any reply ([NetCommands]), a kernel image listed as free memory and a
      loader above 512 MiB that faults ([UefiBoot]), a stolen sleeper that oversleeps
      ([Sleep]), a root pointer outside the mapped memory that faults ([AcpiMapped]).

    ** What is not modelled

    - The self tests of src/tests/mod.rs: they are a computation on the whole state that
      is an argument of [Main], and their results an argument of the test command.
    - Translation caches: a flush changes no table and is no operation of the model;
      nor are the instructions that set the interrupt flag around a section, which
      is what makes the section one step.
    - How long a delay takes: a delay is an opportunity for everyone else to run.
    - The lines that acpi.rs, apic.rs, smp.rs, e1000.rs and task/mod.rs write on the
      serial line only, and debug_dump_walk, a debugging aid that nothing calls.
    - Where the containers of the kernel lie on its heap: [Allocator] is the
      allocator, the tables of the other components are mathematical lists.
    - The bootloader crate of the BIOS path, the firmware, the devices and the
      programs of user mode: they are classes, functions and arguments with the laws
      of their documentation. *)

From Stdlib Require Import ZArith Lia.
From stdpp Require Import prelude list numbers gmap.

#[global] Open Scope Z_scope.

(** ** Outcomes

    Rust code returns, panics (an index out of bounds, an [unwrap] of [None]) or
    loops.  [Panic] is the kernel's panic handler; the release image is built
    without overflow checks, so arithmetic never panics, it wraps.  [NoFuel] is a
    loop whose model ran out of iterations; the theorems show that it does not
    happen. *)
Inductive outcome (A : Type) : Type :=
| Ret (a : A)
| Panic
| NoFuel.
Arguments Ret {A} _.
Arguments Panic {A}.
Arguments NoFuel {A}.

#[global] Instance outcome_ret : MRet outcome := fun A a => Ret a.
#[global] Instance outcome_bind : MBind outcome := fun A B f m =>
  match m with Ret a => f a | Panic => Panic | NoFuel => NoFuel end.

(** [slice[i]]: the panicking index of Rust slices and vectors. *)
Definition index {A} (l : list A) (i : Z) : outcome A :=
  match l !! Z.to_nat i with Some x => Ret x | None => Panic end.

(** [slice[i] = x]: the panicking assignment. *)
Definition store {A} (l : list A) (i : Z) (x : A) : outcome (list A) :=
  match l !! Z.to_nat i with Some _ => Ret (<[Z.to_nat i := x]> l) | None => Panic end.

(** [v[i]], and [v[i].field = x] as a read and a write. *)
Definition at_ {B} (l : list B) (i : nat) : outcome B := index l (Z.of_nat i).
Definition update {B} (l : list B) (i : nat) (f : B -> B) : outcome (list B) :=
  x ← at_ l i; Ret (<[i := f x]> l).

(** Rust's [Result]. *)
Inductive result (A E : Type) : Type :=
| Ok (a : A)
| Err (e : E).
Arguments Ok {A E} _.
Arguments Err {A E} _.

Definition result_ok {A E} (r : result A E) : bool :=
  match r with Ok _ => true | Err _ => false end.

(** ** Machine words

    [u64] and [usize] (x86_64) are integers in [0, 2^64); addition and
    subtraction wrap.  Bit operations are the ones of [Z]. *)
Definition u64_max : Z := 2 ^ 64 - 1.
Definition wrap (w x : Z) : Z := x mod 2 ^ w.
Definition u64_add (a b : Z) : Z := wrap 64 (a + b).
Definition u64_sub (a b : Z) : Z := wrap 64 (a - b).
Definition u64_mul (a b : Z) : Z := wrap 64 (a * b).
Definition u64_not (x : Z) : Z := Z.land (Z.lnot x) u64_max.
Definition u64_shl (x n : Z) : Z := wrap 64 (Z.shiftl x n).
Definition saturating_sub (a b : Z) : Z := Z.max 0 (a - b).
Definition in_u (w x : Z) : Prop := 0 <= x < 2 ^ w.

(** [u64::trailing_zeros] and [u64::count_ones]. *)
Fixpoint pos_trailing (p : positive) : Z :=
  match p with xO q => 1 + pos_trailing q | _ => 0 end.
Definition trailing_zeros (x : Z) : Z :=
  match x with Zpos p => pos_trailing p | _ => 64 end.
Fixpoint pos_ones (p : positive) : Z :=
  match p with xH => 1 | xO q => pos_ones q | xI q => 1 + pos_ones q end.
Definition count_ones (x : Z) : Z :=
  match x with Zpos p => pos_ones p | _ => 0 end.

#[global] Instance in_u_dec w x : Decision (in_u w x).
Proof. unfold in_u. apply _. Defined.

(** ** Automation *)
Create HintDb aura.
Create HintDb words.
Create Rewrite HintDb words.

(** Case analysis on the boolean comparisons of a goal or hypothesis. *)
Ltac zbool :=
  repeat match goal with
  | H : (_ && _)%bool = true |- _ => apply andb_prop in H; destruct H
  | H : (_ || _)%bool = false |- _ => apply orb_false_elim in H; destruct H
  | H : negb _ = true |- _ => apply negb_true_iff in H
  | H : negb _ = false |- _ => apply negb_false_iff in H
  | H : (_ <? _) = true |- _ => apply Z.ltb_lt in H
  | H : (_ <? _) = false |- _ => apply Z.ltb_ge in H
  | H : (_ <=? _) = true |- _ => apply Z.leb_le in H
  | H : (_ <=? _) = false |- _ => apply Z.leb_gt in H
  | H : (_ =? _) = true |- _ => apply Z.eqb_eq in H
  | H : (_ =? _) = false |- _ => apply Z.eqb_neq in H
  end.

(** A boolean comparison with a known value, through the proposition. *)
Ltac by_zbool :=
  symmetry; first [ apply Z.ltb_lt | apply Z.ltb_ge | apply Z.leb_le | apply Z.leb_gt
                  | apply Z.eqb_eq | apply Z.eqb_neq ]; lia.

(** A decidable closed goal, by evaluation. *)
Ltac by_compute := apply (bool_decide_unpack _); vm_compute; exact I.

(** Splits every [if] of the goal on its condition, keeping the equation. *)
Ltac cases_if :=
  repeat match goal with
  | |- context [if ?b then _ else _] => let E := fresh "E" in destruct b eqn:E
  end.

(** ** Words: bounds and bits *)
Lemma in_u_mod w x : 0 <= w -> in_u w (x mod 2 ^ w).
Proof. intros. unfold in_u. apply Z.mod_pos_bound. lia. Qed.

(** A wrapped sum is a word again. *)
Lemma in_u_add a b : in_u 64 (u64_add a b).
Proof. unfold u64_add, wrap. split; apply Z.mod_pos_bound; lia. Qed.

Lemma wrap_small w x : in_u w x -> wrap w x = x.
Proof. intros H. unfold wrap. by apply Z.mod_small. Qed.

Lemma u64_add_small a b : 0 <= a + b < 2 ^ 64 -> u64_add a b = a + b.
Proof. intros. by apply wrap_small. Qed.

Lemma u64_sub_small a b : 0 <= a - b < 2 ^ 64 -> u64_sub a b = a - b.
Proof. intros. by apply wrap_small. Qed.

Lemma u64_mul_small a b : 0 <= a * b < 2 ^ 64 -> u64_mul a b = a * b.
Proof. intros. by apply wrap_small. Qed.

#[export] Hint Rewrite u64_add_small u64_sub_small u64_mul_small using lia : words.

(** A word of [w] bits has no bit at or above [w]. *)
Lemma testbit_high w x i : in_u w x -> w <= i -> Z.testbit x i = false.
Proof.
  intros [H0 H1] Hi. destruct (decide (x = 0)) as [->|Hne]; [apply Z.bits_0|].
  destruct (Z.ltb_spec w 0).
  { rewrite Z.pow_neg_r in H1 by lia. lia. }
  apply Z.bits_above_log2; [lia|]. apply Z.log2_lt_pow2 in H1; lia.
Qed.

(** Conversely a non-negative number without bits above [w] is a [w]-bit word. *)
Lemma in_u_bits w x :
  0 <= w -> 0 <= x -> (forall i, w <= i -> Z.testbit x i = false) -> in_u w x.
Proof.
  intros Hw H0 Hb. split; [done|]. destruct (decide (x = 0)) as [->|Hne]; [lia|].
  apply Z.log2_lt_pow2; [lia|]. destruct (Z.ltb_spec (Z.log2 x) w); [done|].
  specialize (Hb (Z.log2 x) H). rewrite Z.bit_log2 in Hb by lia. done.
Qed.

Lemma testbit_u64_max i : 0 <= i -> Z.testbit u64_max i = (i <? 64).
Proof.
  intros. change u64_max with (Z.ones 64). destruct (Z.ltb_spec i 64).
  - by rewrite Z.ones_spec_low by lia.
  - by rewrite Z.ones_spec_high by lia.
Qed.

Lemma testbit_u64_not x i :
  0 <= i -> Z.testbit (u64_not x) i = (negb (Z.testbit x i) && (i <? 64))%bool.
Proof.
  intros. unfold u64_not. by rewrite Z.land_spec, Z.lnot_spec, testbit_u64_max.
Qed.

Lemma in_u_land w x y : 0 <= w -> 0 <= x -> in_u w y -> in_u w (Z.land x y).
Proof.
  intros Hw Hx Hy. apply in_u_bits; [done|apply Z.land_nonneg; auto|].
  intros i Hi. rewrite Z.land_spec, (testbit_high w y) by done. apply andb_false_r.
Qed.

Lemma in_u_lor w x y : 0 <= w -> in_u w x -> in_u w y -> in_u w (Z.lor x y).
Proof.
  intros Hw Hx Hy. apply in_u_bits; [done|apply Z.lor_nonneg; unfold in_u in *; lia|].
  intros i Hi. by rewrite Z.lor_spec, (testbit_high w x), (testbit_high w y).
Qed.

Lemma in_u_not x : in_u 64 (u64_not x).
Proof.
  unfold u64_not. change u64_max with (Z.ones 64). rewrite Z.land_ones by lia.
  apply in_u_mod; lia.
Qed.

Lemma u64_not_eq x : in_u 64 x -> u64_not x = u64_max - x.
Proof.
  intros Hx. unfold u64_not. change u64_max with (Z.ones 64).
  rewrite Z.land_ones by lia. unfold Z.lnot. rewrite Z.ones_equiv. unfold in_u in Hx.
  replace (Z.pred (- x)) with (Z.pred (2 ^ 64) - x + (-1) * 2 ^ 64) by lia.
  rewrite Z.mod_add by lia. rewrite Z.mod_small; lia.
Qed.

#[export] Hint Resolve in_u_not in_u_lor in_u_land : words.

(** Masking with [!(2^k - 1)] rounds down to a multiple of [2^k]. *)
Lemma land_not_mask x k :
  in_u 64 x -> 0 <= k <= 64 -> Z.land x (u64_not (2 ^ k - 1)) = x - x mod 2 ^ k.
Proof.
  intros Hx Hk.
  assert (Hd : Z.land x (u64_not (2 ^ k - 1)) = Z.ldiff x (Z.ones k)).
  { apply Z.bits_inj'. intros i Hi. rewrite Z.land_spec, Z.ldiff_spec, testbit_u64_not by done.
    rewrite Z.ones_equiv, <- Z.sub_1_r.
    destruct (Z.ltb_spec i 64); [by rewrite andb_true_r|].
    by rewrite (testbit_high 64 x). }
  rewrite Hd, Z.ldiff_ones_r, Z.shiftr_div_pow2, Z.shiftl_mul_pow2 by lia.
  pose proof (Z.div_mod x (2 ^ k)). lia.
Qed.

(** Masking with [2^k - 1] is the remainder. *)
Lemma land_mask x k : 0 <= k -> Z.land x (2 ^ k - 1) = x mod 2 ^ k.
Proof. intros. rewrite <- Z.land_ones by done. by rewrite Z.ones_equiv, Z.sub_1_r. Qed.

(** Disjoint low and high bits: [|] is [+]. *)
Lemma land_low_high a b k : 0 <= k -> 0 <= a < 2 ^ k -> Z.land a (b * 2 ^ k) = 0.
Proof.
  intros Hk Ha. apply Z.bits_inj'. intros i Hi. rewrite Z.land_spec, Z.bits_0, <- Z.shiftl_mul_pow2, Z.shiftl_spec by lia.
  destruct (Z.ltb_spec i k); [rewrite (Z.testbit_neg_r b) by lia; apply andb_false_r|]. by rewrite (testbit_high k a).
Qed.

Lemma lor_low_high a b k : 0 <= k -> 0 <= a < 2 ^ k -> Z.lor a (b * 2 ^ k) = a + b * 2 ^ k.
Proof. intros Hk Ha. rewrite <- (Z.add_0_r (Z.lor _ _)), <- (land_low_high a b k Hk Ha). apply Z.add_lor_land. Qed.

(** The idiom [(x + align - 1) & !(align - 1)] for a power of two: the least
    multiple of [align] not below [x], as long as it is a word. *)
Lemma align_up_word x k :
  0 <= k <= 63 -> 0 <= x -> x + 2 ^ k <= 2 ^ 64 ->
  Z.land (u64_sub (u64_add x (2 ^ k)) 1) (u64_not (u64_sub (2 ^ k) 1))
  = (x + 2 ^ k - 1) - (x + 2 ^ k - 1) mod 2 ^ k.
Proof.
  intros Hk H0 H1. assert (0 < 2 ^ k) by lia.
  assert (2 ^ k < 2 ^ 64) by (apply Z.pow_lt_mono_r; lia).
  assert (u64_sub (u64_add x (2 ^ k)) 1 = x + 2 ^ k - 1) as ->.
  { unfold u64_sub, u64_add, wrap. rewrite Zminus_mod_idemp_l. apply Z.mod_small. lia. }
  rewrite (u64_sub_small (2 ^ k)) by lia. apply land_not_mask; [split; lia|lia].
Qed.

Lemma align_up_bounds x k :
  0 <= k <= 63 -> 0 <= x -> x + 2 ^ k <= 2 ^ 64 ->
  let r := Z.land (u64_sub (u64_add x (2 ^ k)) 1) (u64_not (u64_sub (2 ^ k) 1)) in
  x <= r < x + 2 ^ k /\ r mod 2 ^ k = 0.
Proof.
  intros Hk H0 H1. cbv zeta. rewrite align_up_word by done. assert (0 < 2 ^ k) by lia.
  pose proof (Z.mod_pos_bound (x + 2 ^ k - 1) (2 ^ k)). split; [lia|].
  rewrite Zminus_mod_idemp_r, Z.sub_diag. apply Z.mod_0_l. lia.
Qed.

(** Multiples of a power of two are multiples of the smaller ones. *)
Lemma mod_pow2_le x j k : 0 <= j <= k -> x mod 2 ^ k = 0 -> x mod 2 ^ j = 0.
Proof.
  intros Hjk Hx. apply Z.mod_divide; [lia|]. apply Z.mod_divide in Hx; [|lia].
  etrans; [|done]. exists (2 ^ (k - j)). rewrite <- Z.pow_add_r by lia. f_equal. lia.
Qed.

(** ** Trailing zeros and population count *)
Lemma pos_trailing_nonneg p : 0 <= pos_trailing p.
Proof. induction p; simpl; lia. Qed.

Lemma pos_trailing_bit p : Z.testbit (Zpos p) (pos_trailing p) = true.
Proof.
  induction p as [p _|p IH|]; [done| |done]. cbn [pos_trailing].
  pose proof (pos_trailing_nonneg p).
  replace (Zpos p~0) with (2 * Zpos p) by lia.
  replace (1 + pos_trailing p) with (Z.succ (pos_trailing p)) by lia.
  by rewrite Z.testbit_even_succ.
Qed.

Lemma pos_trailing_low p i : 0 <= i < pos_trailing p -> Z.testbit (Zpos p) i = false.
Proof.
  revert i. induction p as [p _|p IH|]; cbn [pos_trailing]; intros i Hi; [lia| |lia].
  replace (Zpos p~0) with (2 * Zpos p) by lia.
  destruct (decide (i = 0)) as [->|]; [apply Z.testbit_even_0|].
  replace i with (Z.succ (i - 1)) by lia. rewrite Z.testbit_even_succ by lia. apply IH. lia.
Qed.

(** [trailing_zeros] of a non-zero word is the index of its lowest set bit. *)
Lemma trailing_zeros_spec x :
  0 < x ->
  0 <= trailing_zeros x /\ Z.testbit x (trailing_zeros x) = true /\
  forall i, 0 <= i < trailing_zeros x -> Z.testbit x i = false.
Proof.
  intros Hx. destruct x as [|p|p]; [lia| |lia].
  repeat split; [apply pos_trailing_nonneg|apply pos_trailing_bit|apply pos_trailing_low].
Qed.

Lemma count_ones_double x : count_ones (2 * x) = count_ones x.
Proof. by destruct x. Qed.

Lemma count_ones_succ_double x : 0 <= x -> count_ones (2 * x + 1) = 1 + count_ones x.
Proof. destruct x; [done| |lia]. intros _. done. Qed.

Lemma count_ones_nonneg x : 0 <= count_ones x.
Proof.
  destruct x as [|p|p]; simpl; try lia. induction p; simpl; lia.
Qed.

(** Adding a bit that is not set adds one to the population count. *)
Lemma count_ones_add_bit b x :
  0 <= b -> 0 <= x -> Z.testbit x b = false -> count_ones (x + 2 ^ b) = 1 + count_ones x.
Proof.
  intros Hb. revert x. pattern b. apply natlike_ind; [| |done]; clear b Hb.
  - intros x Hx Hb. rewrite Z.bit0_odd in Hb. rewrite <- Z.negb_even in Hb.
    apply negb_false_iff, Z.even_spec in Hb. destruct Hb as [y ->].
    change (2 ^ 0) with 1. rewrite count_ones_succ_double, count_ones_double by lia. done.
  - intros b Hb IH x Hx Hbit.
    pose proof (Z.div_mod x 2 ltac:(lia)) as Hdm.
    assert (Hbit' : Z.testbit (x / 2) b = false) by (by rewrite Z.div2_bits || rewrite <- Z.div2_div, Z.div2_bits by done).
    specialize (IH (x / 2) ltac:(apply Z.div_pos; lia) Hbit').
    assert (Hx' : x = 2 * (x / 2) \/ x = 2 * (x / 2) + 1).
    { pose proof (Z.mod_pos_bound x 2). lia. }
    rewrite Z.pow_succ_r by lia.
    assert (0 <= x / 2) by (apply Z.div_pos; lia). assert (0 < 2 ^ b) by lia.
    destruct Hx' as [E|E]; rewrite E.
    + replace (2 * (x / 2) + 2 * 2 ^ b) with (2 * (x / 2 + 2 ^ b)) by lia.
      by rewrite !count_ones_double.
    + replace (2 * (x / 2) + 1 + 2 * 2 ^ b) with (2 * (x / 2 + 2 ^ b) + 1) by lia.
      rewrite !count_ones_succ_double by lia. lia.
Qed.

(** ** Setting and clearing one bit of a word *)
Definition bit_set (w b : Z) : Z := Z.lor w (u64_shl 1 b).
Definition bit_clear (w b : Z) : Z := Z.land w (u64_not (u64_shl 1 b)).

Lemma u64_shl_1 b : 0 <= b < 64 -> u64_shl 1 b = 2 ^ b.
Proof.
  intros. unfold u64_shl. rewrite Z.shiftl_1_l. apply wrap_small.
  split; [lia|]. apply Z.pow_lt_mono_r; lia.
Qed.

Lemma in_u_pow2 b : 0 <= b < 64 -> in_u 64 (2 ^ b).
Proof. intros. split; [lia|]. apply Z.pow_lt_mono_r; lia. Qed.

Lemma testbit_bit_set w b i :
  0 <= b < 64 -> 0 <= i ->
  Z.testbit (bit_set w b) i = (Z.testbit w i || (b =? i))%bool.
Proof.
  intros. unfold bit_set. rewrite u64_shl_1, Z.lor_spec by done. f_equal.
  by rewrite Z.pow2_bits_eqb by lia.
Qed.

Lemma testbit_bit_clear w b i :
  0 <= b < 64 -> 0 <= i < 64 ->
  Z.testbit (bit_clear w b) i = (Z.testbit w i && negb (b =? i))%bool.
Proof.
  intros. unfold bit_clear. rewrite u64_shl_1, Z.land_spec, testbit_u64_not by lia.
  rewrite Z.pow2_bits_eqb by lia. replace (i <? 64) with true by lia.
  by rewrite andb_true_r.
Qed.

Lemma in_u_bit_set w b : 0 <= b < 64 -> in_u 64 w -> in_u 64 (bit_set w b).
Proof.
  intros. unfold bit_set. rewrite u64_shl_1 by done. apply in_u_lor; auto using in_u_pow2. lia.
Qed.

Lemma in_u_bit_clear w b : in_u 64 w -> in_u 64 (bit_clear w b).
Proof. intros [? ?]. apply in_u_land; [lia|lia|apply in_u_not]. Qed.

#[export] Hint Resolve in_u_bit_set in_u_bit_clear in_u_pow2 : words.

(** Two [w]-bit words with the same [w] low bits are equal. *)
Lemma word_ext w x y :
  in_u w x -> in_u w y -> (forall i, 0 <= i < w -> Z.testbit x i = Z.testbit y i) -> x = y.
Proof.
  intros Hx Hy H. apply Z.bits_inj'. intros i Hi. destruct (Z.ltb_spec i w); [by apply H|].
  by rewrite (testbit_high w x), (testbit_high w y).
Qed.

Lemma testbit_lnot_word w b :
  0 <= b < 64 -> Z.testbit (u64_not w) b = negb (Z.testbit w b).
Proof.
  intros. rewrite testbit_u64_not by lia. replace (b <? 64) with true by lia. apply andb_true_r.
Qed.

(** The free bits of a word ([!w]) count one less once a clear bit is set. *)
Lemma count_free_bit_set w b :
  0 <= b < 64 -> in_u 64 w -> Z.testbit w b = false ->
  count_ones (u64_not w) = 1 + count_ones (u64_not (bit_set w b)).
Proof.
  intros Hb Hw Hbit.
  pose proof (in_u_bit_set w b Hb Hw) as Hs.
  rewrite <- (count_ones_add_bit b (u64_not (bit_set w b)));
    [|lia|apply in_u_not|rewrite testbit_lnot_word, testbit_bit_set, Hbit by lia; by rewrite Z.eqb_refl].
  f_equal. rewrite !u64_not_eq by done.
  assert (bit_set w b = w + 2 ^ b); [|lia].
  unfold bit_set. rewrite u64_shl_1 by done. rewrite <- Z.lxor_lor, <- Z.add_nocarry_lxor; [done| |];
  apply Z.bits_inj'; intros i Hi; rewrite Z.land_spec, Z.pow2_bits_eqb, Z.bits_0 by lia;
  (destruct (Z.eqb_spec b i) as [<-|]; [by rewrite Hbit|apply andb_false_r]).
Qed.

(** Setting back a cleared bit, and clearing back a set bit. *)
Lemma bit_set_clear w b :
  0 <= b < 64 -> in_u 64 w -> Z.testbit w b = true -> bit_set (bit_clear w b) b = w.
Proof.
  intros Hb Hw Hbit. apply (word_ext 64); auto with words. intros i Hi.
  rewrite testbit_bit_set, testbit_bit_clear by lia.
  destruct (Z.eqb_spec b i) as [<-|]; [by rewrite Hbit|]. by rewrite orb_false_r, andb_true_r.
Qed.

Lemma bit_clear_set w b :
  0 <= b < 64 -> in_u 64 w -> Z.testbit w b = false -> bit_clear (bit_set w b) b = w.
Proof.
  intros Hb Hw Hbit. apply (word_ext 64); auto with words. intros i Hi.
  rewrite testbit_bit_clear, testbit_bit_set by lia.
  destruct (Z.eqb_spec b i) as [<-|]; [by rewrite Hbit|]. by rewrite orb_false_r, andb_true_r.
Qed.

(** The test [(w & (1 << b)) != 0] of the source reads bit [b]. *)
Lemma land_bit_test w b :
  0 <= b < 64 -> (Z.land w (u64_shl 1 b) =? 0) = negb (Z.testbit w b).
Proof.
  intros Hb. rewrite u64_shl_1 by done. destruct (Z.testbit w b) eqn:E; simpl.
  - apply Z.eqb_neq. intros H0. assert (Z.testbit (Z.land w (2 ^ b)) b = false) by (rewrite H0; apply Z.bits_0).
    rewrite Z.land_spec, E, Z.pow2_bits_true in H by lia. done.
  - apply Z.eqb_eq. apply Z.bits_inj'. intros i Hi. rewrite Z.land_spec, Z.pow2_bits_eqb, Z.bits_0 by lia.
    destruct (Z.eqb_spec b i) as [<-|]; [by rewrite E|apply andb_false_r].
Qed.

(** ** Panicking accesses *)
Lemma index_Ret {A} (l : list A) i x : index l i = Ret x <-> l !! Z.to_nat i = Some x.
Proof. unfold index. destruct (l !! Z.to_nat i); split; congruence. Qed.

Lemma store_Ret {A} (l : list A) i x :
  (Z.to_nat i < length l)%nat -> store l i x = Ret (<[Z.to_nat i := x]> l).
Proof. intros H. unfold store. apply lookup_lt_is_Some in H as [y ->]. done. Qed.

(** Positions as natural numbers. *)
Lemma at_Ret {B} (l : list B) i x : l !! i = Some x -> at_ l i = Ret x.
Proof. intros H. unfold at_, index. by rewrite Nat2Z.id, H. Qed.

Lemma update_Ret {B} (l : list B) i f x : l !! i = Some x -> update l i f = Ret (<[i := f x]> l).
Proof. intros H. unfold update. by rewrite (at_Ret _ _ _ H). Qed.

Lemma at_inv {B} (l : list B) i x : at_ l i = Ret x -> l !! i = Some x.
Proof. unfold at_, index. rewrite Nat2Z.id. destruct (l !! i); [by intros [= ->]|done]. Qed.

Lemma update_inv {B} (l : list B) i f l' : update l i f = Ret l' -> exists x, l !! i = Some x /\ l' = <[i := f x]> l.
Proof. unfold update. destruct (at_ l i) as [x| |] eqn:E; [|done..]. intros [= <-]. exists x. split; [by apply at_inv|done]. Qed.
