(* ===== verification/Bytes.v ===== *)
(** * Bytes

    Little-endian encodings and the bytes of text, shared by the executable
    loader, the file systems and the consoles. *)

From stdpp Require Import prelude numbers list strings.
From Stdlib Require Import Ascii.
From S2P Require Import Prelude.

Module Bytes.

(** Little-endian fields. *)
Fixpoint le_value (l : list Z) : Z :=
  match l with [] => 0 | b :: l' => b + 256 * le_value l' end.
Fixpoint to_le (n : nat) (x : Z) : list Z :=
  match n with O => [] | S n' => x mod 256 :: to_le n' (x / 256) end.

Definition is_bytes (l : list Z) : Prop := Forall (in_u 8) l.
Definition len (l : list Z) : Z := Z.of_nat (length l).

Lemma length_to_le n x : length (to_le n x) = n.
Proof. revert x. induction n as [|n IH]; intros x; cbn [to_le length]; [done|]. by rewrite IH. Qed.

Lemma le_value_to_le n x : 0 <= x < 256 ^ Z.of_nat n -> le_value (to_le n x) = x.
Proof.
  revert x. induction n as [|n IH]; intros x Hx; [cbn in *; lia|]. cbn [to_le le_value].
  rewrite Nat2Z.inj_succ, Z.pow_succ_r in Hx by lia. rewrite IH.
  - pose proof (Z.div_mod x 256). lia.
  - split; [apply Z.div_pos; lia|apply Z.div_lt_upper_bound; lia].
Qed.

Lemma le_value_bound l : is_bytes l -> 0 <= le_value l < 256 ^ len l.
Proof.
  unfold len. induction l as [|b l IH]; intros Hl; [cbn; lia|]. apply Forall_cons_1 in Hl as [[? Hb] Hl]. specialize (IH Hl).
  change (2 ^ 8) with 256 in Hb. cbn [le_value length]. rewrite Nat2Z.inj_succ, Z.pow_succ_r by lia. lia.
Qed.

Definition ascii_bytes (s : string) : list Z := (fun c => Z.of_nat (Ascii.nat_of_ascii c)) <$> String.list_ascii_of_string s.
Definition newline : string := String (Ascii.ascii_of_nat 10) EmptyString.

(** ** Decimal numbers, as [{}] prints a [u64] *)
Fixpoint digits (fuel : nat) (n : Z) : list Z :=
  match fuel with O => [] | S f => (if n <? 10 then [] else digits f (n / 10)) ++ [48 + n mod 10] end.
Definition decimal (n : Z) : list Z := digits 20 n.
(** [{:0w$}] *)
Definition zero_padded (w : nat) (n : Z) : list Z := replicate (w - length (decimal n)) 48 ++ decimal n.

Definition value (l : list Z) : Z := fold_left (fun acc b => acc * 10 + (b - 48)) l 0.
Definition is_digit (b : Z) : bool := ((48 <=? b) && (b <=? 57))%bool.

Lemma value_snoc l b : value (l ++ [b]) = value l * 10 + (b - 48).
Proof. unfold value. by rewrite fold_left_app. Qed.

Lemma digits_spec fuel : forall n, 0 <= n < 10 ^ Z.of_nat fuel -> (0 < fuel)%nat -> value (digits fuel n) = n /\ Forall (fun b => is_digit b = true) (digits fuel n) /\ digits fuel n <> [].
Proof.
  induction fuel as [|fuel IH]; intros n Hn Hf; [lia|]. cbn [digits]. assert (Hm : 0 <= n mod 10 < 10) by (apply Z.mod_pos_bound; lia).
  assert (Hd : is_digit (48 + n mod 10) = true) by (unfold is_digit; rewrite !(proj2 (Z.leb_le _ _)) by lia; done).
  destruct (Z.ltb_spec n 10) as [Hs|Hs].
  - cbn [app]. split; [unfold value; cbn; rewrite Z.mod_small; lia|]. split; [by constructor|done].
  - destruct fuel as [|fuel]; [cbn in Hn; lia|]. rewrite Nat2Z.inj_succ, Z.pow_succ_r in Hn by lia.
    destruct (IH (n / 10)) as (H1 & H2 & _); [split; [apply Z.div_pos; lia|apply Z.div_lt_upper_bound; lia]|lia|].
    rewrite value_snoc, H1. split; [pose proof (Z.div_mod n 10); lia|]. split; [apply Forall_app; by split; [|constructor]|]. by destruct (digits (S fuel) (n / 10)).
Qed.

Lemma decimal_spec n : in_u 64 n -> value (decimal n) = n /\ Forall (fun b => is_digit b = true) (decimal n) /\ decimal n <> [].
Proof. intros [H1 H2]. apply digits_spec; [|lia]. split; [done|]. eapply Z.lt_trans; [exact H2|]. done. Qed.

End Bytes.
