(* ===== verification/Ring.v ===== *)
(** * Ring buffers

    The indices of a byte ring, as the serial buffers and the keyboard queue use
    them: one slot stays empty, so that equal indices mean an empty ring.  What the
    ring holds is a list, pushing appends to it and popping takes its head. *)

From stdpp Require Import prelude numbers list.
From S2P Require Import Prelude.

Module Ring.
Section Ring.
Variable cap : Z.
Hypothesis Hcap : 2 <= cap.

Definition next (i : Z) : Z := (i + 1) mod cap.
Definition ring_ok (data : list Z) (head tail : Z) : Prop := Z.of_nat (length data) = cap /\ 0 <= head < cap /\ 0 <= tail < cap.
Definition held (head tail : Z) : Z := (tail - head) mod cap.
Definition contents (data : list Z) (head tail : Z) : list Z :=
  (fun k => nth (Z.to_nat ((head + Z.of_nat k) mod cap)) data 0) <$> seq 0 (Z.to_nat (held head tail)).

Lemma next_range i : 0 <= next i < cap.
Proof. apply Z.mod_pos_bound. lia. Qed.

Lemma mod_cases x : 0 <= x < 2 * cap -> x mod cap = if x <? cap then x else x - cap.
Proof. intros Hx. destruct (Z.ltb_spec x cap); [apply Z.mod_small; lia|]. replace x with (x - cap + 1 * cap) at 1 by lia. rewrite Z.mod_add, Z.mod_small; lia. Qed.

Lemma next_cases i : 0 <= i < cap -> next i = if i =? cap - 1 then 0 else i + 1.
Proof.
  intros Hi. unfold next. rewrite mod_cases by lia. destruct (Z.eqb_spec i (cap - 1)) as [->|].
  - rewrite (proj2 (Z.ltb_ge _ _)); lia.
  - rewrite (proj2 (Z.ltb_lt _ _)); lia.
Qed.

Lemma held_cases head tail : 0 <= head < cap -> 0 <= tail < cap -> held head tail = if head <=? tail then tail - head else tail - head + cap.
Proof.
  intros Hh Ht. unfold held. destruct (Z.leb_spec head tail); [apply Z.mod_small; lia|].
  rewrite <- (Z.mod_add (tail - head) 1), Z.mul_1_l by lia. apply Z.mod_small. lia.
Qed.

Lemma length_contents data head tail : length (contents data head tail) = Z.to_nat (held head tail).
Proof. unfold contents. by rewrite length_fmap, length_seq. Qed.

Lemma full_iff head tail : 0 <= head < cap -> 0 <= tail < cap -> next tail = head <-> held head tail = cap - 1.
Proof. intros Hh Ht. rewrite next_cases, held_cases by done. destruct (Z.eqb_spec tail (cap - 1)), (Z.leb_spec head tail); lia. Qed.

Lemma empty_iff head tail : 0 <= head < cap -> 0 <= tail < cap -> head = tail <-> held head tail = 0.
Proof. intros Hh Ht. rewrite held_cases by done. destruct (Z.leb_spec head tail); lia. Qed.

Lemma contents_bound data head tail : ring_ok data head tail -> Z.of_nat (length (contents data head tail)) < cap.
Proof. intros (_ & Hh & Ht). rewrite length_contents. unfold held. pose proof (Z.mod_pos_bound (tail - head) cap). lia. Qed.

Lemma contents_empty data head tail : ring_ok data head tail -> contents data head tail = [] <-> head = tail.
Proof.
  intros (_ & Hh & Ht). rewrite (empty_iff head tail Hh Ht). pose proof (Z.mod_pos_bound (tail - head) cap) as Hm. rewrite <- length_zero_iff_nil, length_contents.
  unfold held. lia.
Qed.

Lemma push_contents data head tail b : ring_ok data head tail -> next tail <> head ->
  ring_ok (<[Z.to_nat tail := b]> data) head (next tail) /\ contents (<[Z.to_nat tail := b]> data) head (next tail) = contents data head tail ++ [b].
Proof.
  intros (Hl & Hh & Ht) Hn. assert (Hheld : held head (next tail) = held head tail + 1).
  { rewrite !held_cases by (done || apply next_range). rewrite next_cases in * by done. destruct (Z.eqb_spec tail (cap - 1)), (Z.leb_spec head tail); destruct (Z.leb_spec head (tail + 1)), (Z.leb_spec head 0); lia. }
  assert (H0 : 0 <= held head tail < cap) by (apply Z.mod_pos_bound; lia).
  split; [split; [by rewrite length_insert|split; [done|apply next_range]]|]. unfold contents. rewrite Hheld, Z2Nat.inj_add, Nat.add_comm by lia. cbn [Nat.add Z.to_nat Pos.to_nat Pos.iter_op].
  rewrite seq_S, fmap_app. cbn [fmap list_fmap Nat.add]. assert (Hlast : (head + Z.of_nat (Z.to_nat (held head tail))) mod cap = tail).
  { rewrite Z2Nat.id by lia. unfold held. rewrite Z.add_mod_idemp_r by lia. replace (head + (tail - head)) with tail by lia. apply Z.mod_small. lia. }
  f_equal.
  - apply list_fmap_ext. intros i k Hk. apply lookup_seq in Hk as [-> Hk]. rewrite !nth_lookup, list_lookup_insert_ne; [done|].
    intros Heq. cbn [Nat.add] in Heq. assert (Hm : 0 <= (head + Z.of_nat i) mod cap < cap) by (apply Z.mod_pos_bound; lia).
    assert (E : (head + Z.of_nat i) mod cap = tail) by lia. rewrite mod_cases in E by lia. rewrite held_cases in Hk by done.
    destruct (Z.ltb_spec (head + Z.of_nat i) cap), (Z.leb_spec head tail); lia.
  - rewrite Hlast, nth_lookup, list_lookup_insert_eq by lia. done.
Qed.

Lemma pop_contents data head tail : ring_ok data head tail -> head <> tail ->
  ring_ok data (next head) tail /\ contents data head tail = nth (Z.to_nat head) data 0 :: contents data (next head) tail.
Proof.
  intros (Hl & Hh & Ht) Hn. split; [split; [done|split; [apply next_range|done]]|]. assert (Hheld : held head tail = held (next head) tail + 1).
  { rewrite !held_cases by (done || apply next_range). rewrite next_cases by done. destruct (Z.eqb_spec head (cap - 1)), (Z.leb_spec head tail); destruct (Z.leb_spec (head + 1) tail), (Z.leb_spec 0 tail); lia. }
  assert (H0 : 0 <= held (next head) tail) by (apply Z.mod_pos_bound; lia). unfold contents. rewrite Hheld, Z2Nat.inj_add, Nat.add_comm by lia.
  change (Z.to_nat 1 + Z.to_nat (held (next head) tail))%nat with (S (Z.to_nat (held (next head) tail))). cbn [seq fmap list_fmap]. f_equal.
  - change (Z.of_nat 0) with 0. by rewrite Z.add_0_r, Z.mod_small.
  - rewrite <- fmap_S_seq, <- list_fmap_compose. apply list_fmap_ext. intros i k _. cbn [compose]. f_equal. f_equal. unfold next. rewrite Z.add_mod_idemp_l by lia. f_equal. lia.
Qed.

End Ring.
End Ring.
