(* ===== verification/Text.v ===== *)
(** * Strings of the core library

    The functions of [core::str] the kernel uses on bytes: cutting, searching,
    trimming white space, and the check of UTF-8. *)

From stdpp Require Import prelude numbers list strings.
From S2P Require Import Prelude Bytes.
Import Bytes.

Module Text.

Definition upper_byte (b : Z) : Z := if ((97 <=? b) && (b <=? 122))%bool then b - 32 else b.
Definition to_ascii_uppercase (l : list Z) : list Z := upper_byte <$> l.

(** [trim_matches('/')] *)
Fixpoint trim_start_byte (c : Z) (l : list Z) : list Z :=
  match l with b :: l' => if b =? c then trim_start_byte c l' else l | [] => [] end.
Definition trim_matches (c : Z) (l : list Z) : list Z := reverse (trim_start_byte c (reverse (trim_start_byte c l))).

(** [split(c)] *)
Fixpoint split_byte (c : Z) (l : list Z) : list (list Z) :=
  match l with
  | [] => [[]]
  | b :: l' =>
      if b =? c then [] :: split_byte c l'
      else match split_byte c l' with s :: ss => (b :: s) :: ss | [] => [[b]] end
  end.

(** [rfind(c)]: the position of the last occurrence. *)
Fixpoint rfind (c : Z) (l : list Z) : option nat :=
  match l with
  | [] => None
  | b :: l' => match rfind c l' with Some i => Some (S i) | None => if b =? c then Some O else None end
  end.

(** [core::str::from_utf8(..).is_ok()]: the well-formed byte sequences of Unicode. *)
Definition cont (b : Z) : bool := ((0x80 <=? b) && (b <=? 0xBF))%bool.
Definition between (lo b hi : Z) : bool := ((lo <=? b) && (b <=? hi))%bool.
Fixpoint utf8_valid (fuel : nat) (l : list Z) : bool :=
  match fuel, l with
  | _, [] => true
  | O, _ => false
  | S n, b0 :: l1 =>
      if b0 <? 0x80 then utf8_valid n l1 else
      match l1 with
      | b1 :: l2 =>
          if between 0xC2 b0 0xDF then (cont b1 && utf8_valid n l2)%bool else
          match l2 with
          | b2 :: l3 =>
              if between 0xE0 b0 0xEF then
                ((if b0 =? 0xE0 then between 0xA0 b1 0xBF else if b0 =? 0xED then between 0x80 b1 0x9F else cont b1)
                 && cont b2 && utf8_valid n l3)%bool
              else
              match l3 with
              | b3 :: l4 =>
                  if between 0xF0 b0 0xF4 then
                    ((if b0 =? 0xF0 then between 0x90 b1 0xBF else if b0 =? 0xF4 then between 0x80 b1 0x8F else cont b1)
                     && cont b2 && cont b3 && utf8_valid n l4)%bool
                  else false
              | [] => false
              end
          | [] => false
          end
      | [] => false
      end
  end.
Definition str_or_empty (l : list Z) : list Z := if utf8_valid (length l) l then l else [].

(** The white space of Unicode in UTF-8: one, two and three bytes. *)
Definition ws1 (b : Z) : bool := (between 9 b 13 || (b =? 32))%bool.
Definition ws2 (b0 b1 : Z) : bool := ((b0 =? 0xC2) && ((b1 =? 0x85) || (b1 =? 0xA0)))%bool.
Definition ws3 (b0 b1 b2 : Z) : bool :=
  (((b0 =? 0xE1) && (b1 =? 0x9A) && (b2 =? 0x80)) ||
   ((b0 =? 0xE2) && (b1 =? 0x80) && (between 0x80 b2 0x8A || (b2 =? 0xA8) || (b2 =? 0xA9) || (b2 =? 0xAF))) ||
   ((b0 =? 0xE2) && (b1 =? 0x81) && (b2 =? 0x9F)) || ((b0 =? 0xE3) && (b1 =? 0x80) && (b2 =? 0x80)))%bool.

(** [trim_start], and [trim_end] on the reversed bytes. *)
Fixpoint trim_start (fuel : nat) (l : list Z) : list Z :=
  match fuel, l with
  | S n, b0 :: l1 =>
      if ws1 b0 then trim_start n l1 else
      match l1 with
      | b1 :: l2 =>
          if ws2 b0 b1 then trim_start n l2 else
          match l2 with b2 :: l3 => if ws3 b0 b1 b2 then trim_start n l3 else l | [] => l end
      | [] => l
      end
  | _, _ => l
  end.
Fixpoint trim_rev (fuel : nat) (l : list Z) : list Z :=
  match fuel, l with
  | S n, b0 :: l1 =>
      if ws1 b0 then trim_rev n l1 else
      match l1 with
      | b1 :: l2 =>
          if ws2 b1 b0 then trim_rev n l2 else
          match l2 with b2 :: l3 => if ws3 b2 b1 b0 then trim_rev n l3 else l | [] => l end
      | [] => l
      end
  | _, _ => l
  end.
Definition trim_end (l : list Z) : list Z := reverse (trim_rev (length l) (reverse l)).
Definition trim (l : list Z) : list Z := trim_end (trim_start (length l) l).


Lemma rfind_none c l : c ∉ l -> rfind c l = None.
Proof.
  induction l as [|b l IH]; intros Hc; [done|]. cbn [rfind]. rewrite IH by (intros ?; apply Hc; by right). destruct (Z.eqb_spec b c) as [->|]; [|done].
  exfalso. apply Hc. by left.
Qed.

Lemma split_byte_none c l : c ∉ l -> split_byte c l = [l].
Proof.
  induction l as [|b l IH]; intros Hc; [done|]. cbn [split_byte]. rewrite IH by (intros ?; apply Hc; by right). destruct (Z.eqb_spec b c) as [->|]; [|done].
  exfalso. apply Hc. by left.
Qed.

Lemma trim_rev_length k : forall l, (length (trim_rev k l) <= length l)%nat.
Proof.
  induction k as [|k IH]; intros [|b0 l1]; cbn [trim_rev]; try lia. destruct (ws1 b0); [specialize (IH l1); cbn; lia|]. destruct l1 as [|b1 l2]; [lia|].
  destruct (ws2 b1 b0); [specialize (IH l2); cbn; lia|]. destruct l2 as [|b2 l3]; [lia|]. destruct (ws3 b2 b1 b0); [specialize (IH l3); cbn; lia|lia].
Qed.

Lemma trim_end_length l : (length (trim_end l) <= length l)%nat.
Proof. unfold trim_end. rewrite length_reverse. etransitivity; [apply trim_rev_length|]. by rewrite length_reverse. Qed.

Lemma ascii_utf8 l : forall n, Forall (fun b => 0x20 <= b <= 0x7E) l -> (length l <= n)%nat -> utf8_valid n l = true.
Proof.
  induction l as [|b l IH]; intros n Hl Hn; [by destruct n|]. destruct n as [|n]; [cbn in Hn; lia|]. apply Forall_cons_1 in Hl as [Hb Hl]. cbn [utf8_valid].
  rewrite (proj2 (Z.ltb_lt b 0x80)) by lia. apply IH; [done|cbn in Hn; lia].
Qed.

(** *** Text that trimming leaves as it is *)
Lemma ws2_lead b0 b1 : b0 <> 0xC2 -> ws2 b0 b1 = false.
Proof. intros Hb. unfold ws2. by rewrite (proj2 (Z.eqb_neq _ _) Hb). Qed.
Lemma ws2_ascii b0 b1 : b1 < 0x80 -> ws2 b0 b1 = false.
Proof. intros Hb. unfold ws2. by rewrite !(proj2 (Z.eqb_neq b1 _)), andb_false_r by lia. Qed.
Lemma ws3_lead b0 b1 b2 : b0 < 0x80 -> ws3 b0 b1 b2 = false.
Proof. intros Hb. unfold ws3. by rewrite !(proj2 (Z.eqb_neq b0 _)) by lia. Qed.
Lemma ws3_ascii b0 b1 b2 : b1 < 0x80 -> ws3 b0 b1 b2 = false.
Proof. intros Hb. unfold ws3. by rewrite !(proj2 (Z.eqb_neq b1 _)), !andb_false_r by lia. Qed.

(** An ASCII character that is no white space stops both. *)
Lemma trim_start_stop n b l : ws1 b = false -> b < 0x80 -> trim_start n (b :: l) = b :: l.
Proof. intros H1 Hb. destruct n, l as [|b1 [|b2 l]]; cbn [trim_start]; rewrite ?H1, ?ws2_lead, ?ws3_lead by lia; done. Qed.
Lemma trim_rev_stop n b l : ws1 b = false -> b < 0x80 -> trim_rev n (b :: l) = b :: l.
Proof.
  intros H1 Hb. destruct n, l as [|b1 [|b2 l]]; cbn [trim_rev]; rewrite ?H1, ?ws2_ascii by done; try done.
  by replace (ws3 b2 b1 b) with false by (unfold ws3, between; rewrite (proj2 (Z.leb_gt 0x80 b)), !(proj2 (Z.eqb_neq b _)), !andb_false_r by lia; done).
Qed.
Ltac shrunk H := exfalso; cbv iota in H; match type of H with trim_rev ?k ?x = _ => pose proof (trim_rev_length k x) as Hk; rewrite H in Hk; cbn [length] in Hk; lia end.
(** What trimming leaves ends where it does, whatever precedes it behind a slash. *)
Lemma trim_rev_slash r l n : r <> [] -> trim_rev (length r) r = r -> trim_rev n (r ++ 47 :: l) = r ++ 47 :: l.
Proof.
  intros Hne Hr0. destruct n as [|n]; [done|]. assert (exists k, trim_rev (S k) r = r) as [k Hr] by (exists (pred (length r)); by destruct r). clear Hr0.
  destruct r as [|b0 [|b1 [|b2 r]]]; [done|..]; cbn [app]; cbn [trim_rev] in *;
    (destruct (ws1 b0); [shrunk Hr|]).
  - rewrite ws2_lead by done. destruct l as [|b l]; [done|]. by rewrite ws3_ascii.
  - destruct (ws2 b1 b0); [shrunk Hr|]. by rewrite ws3_lead.
  - destruct (ws2 b1 b0); [shrunk Hr|]. destruct (ws3 b2 b1 b0); [shrunk Hr|done].
Qed.
Lemma trim_end_slash l r : r <> [] -> trim_end r = r -> trim_end (l ++ 47 :: r) = l ++ 47 :: r.
Proof.
  unfold trim_end. intros Hne Hr. apply (f_equal reverse) in Hr. rewrite reverse_involutive, <- length_reverse in Hr.
  rewrite reverse_app, reverse_cons, <- (app_assoc (reverse r)). change ([47] ++ reverse l) with (47 :: reverse l).
  rewrite trim_rev_slash; [|by intros E%(f_equal reverse); rewrite reverse_involutive in E|done].
  rewrite reverse_app, reverse_involutive. cbn [app]. by rewrite reverse_cons, reverse_involutive, <- app_assoc.
Qed.
Lemma trim_end_plain l : Forall (fun b => ws1 b = false /\ b < 0x80) l -> trim_end l = l.
Proof.
  intros Hl. unfold trim_end. destruct (reverse l) as [|b r] eqn:E; [apply (f_equal reverse) in E; rewrite reverse_involutive in E; by rewrite E|].
  apply Forall_reverse in Hl. rewrite E in Hl. apply Forall_inv in Hl as [H1 Hb]. rewrite trim_rev_stop by done. by rewrite <- E, reverse_involutive.
Qed.
Lemma trim_digits l : Forall (fun b => ws1 b = false /\ b < 0x80) l -> trim l = l.
Proof.
  intros Hl. unfold trim. assert (trim_start (length l) l = l) as ->; [|by apply trim_end_plain].
  destruct l as [|b l]; [done|]. apply Forall_inv in Hl as [H1 Hb]. by apply trim_start_stop.
Qed.

Lemma digits_plain l : Forall (fun b => is_digit b = true) l -> Forall (fun b => ws1 b = false /\ b < 0x80) l.
Proof.
  intros Hl. eapply Forall_impl; [exact Hl|]. intros b Hb. unfold is_digit in Hb. zbool. unfold ws1, between.
  rewrite (proj2 (Z.leb_gt b 13)), (proj2 (Z.eqb_neq b 32)), andb_false_r by lia. split; [done|lia].
Qed.

Lemma split_dot l1 l2 : 46 ∉ l1 -> split_byte 46 (l1 ++ 46 :: l2) = l1 :: split_byte 46 l2.
Proof.
  induction l1 as [|b l IH]; intros Hl; [done|]. cbn [app split_byte]. rewrite (proj2 (Z.eqb_neq _ _)) by (intros ->; apply Hl; by left). rewrite IH by (intros ?; apply Hl; by right). done.
Qed.

End Text.
