(* ===== verification/Sync.v ===== *)
(** * Spinlocks (src/src/sync.rs)

    The interrupt-safe [Spinlock<T>]: the atomic flag, the protected data, the
    guard that remembers whether interrupts were enabled, and the per-CPU
    interrupt flag.  The operations are functions; the interleavings of several
    CPUs are the step relation [step], one transition per access to the shared
    flag.  The theorems: mutual exclusion, no interrupt while a lock is taken,
    the interrupt flag is what it was once the guard is dropped. *)

From stdpp Require Import prelude list relations.
From S2P Require Import Prelude.

Module Sync.
Section Spin.
Context {T : Type}.

(** [Spinlock<T>]: the [AtomicBool] and the [UnsafeCell]. *)
Record Spinlock := mkSpinlock { locked : bool; data : T }.

(** [Spinlock::new]. *)
Definition new (d : T) : Spinlock := {| locked := false; data := d |}.

(** What a CPU is doing with the lock: nothing, spinning in [lock], or holding
    a [SpinlockGuard] whose [interrupts_enabled] field is [saved]. *)
Inductive phase := Idle | Spinning (saved : bool) | Holding (saved : bool).

(** A CPU: bit 9 of RFLAGS (IF) and its phase. *)
Record cpu := mkCpu { rflags_if : bool; ph : phase }.

(** Reads IF and clears it. *)
Definition pushfq_and_cli (c : cpu) : bool * cpu :=
  (rflags_if c, {| rflags_if := false; ph := ph c |}).

(** [sti] when interrupts were enabled before. *)
Definition restore_interrupts (enabled : bool) (c : cpu) : cpu :=
  if enabled then {| rflags_if := true; ph := ph c |} else c.

Definition set_phase (c : cpu) (p : phase) : cpu := {| rflags_if := rflags_if c; ph := p |}.

(** [lock.swap(true, Acquire)]: the old value and the lock now taken. *)
Definition swap_true (s : Spinlock) : bool * Spinlock :=
  (locked s, {| locked := true; data := data s |}).

(** [lock]: the prologue (interrupts off), then one turn of the spin loop. *)
Definition lock_begin (c : cpu) : cpu :=
  let '(b, c') := pushfq_and_cli c in set_phase c' (Spinning b).

Definition lock_spin (saved : bool) (s : Spinlock) (c : cpu) : Spinlock * cpu :=
  let '(old, s') := swap_true s in
  if old then (s', set_phase c (Spinning saved)) else (s', set_phase c (Holding saved)).

(** [try_lock]: one swap; interrupts are given back when it fails. *)
Definition try_lock (s : Spinlock) (c : cpu) : bool * Spinlock * cpu :=
  let '(b, c') := pushfq_and_cli c in
  let '(old, s') := swap_true s in
  if negb old then (true, s', set_phase c' (Holding b))
  else (false, s', restore_interrupts b c').

(** [Drop for SpinlockGuard]: the flag is released first, then interrupts. *)
Definition guard_drop (saved : bool) (s : Spinlock) (c : cpu) : Spinlock * cpu :=
  ({| locked := false; data := data s |}, restore_interrupts saved (set_phase c Idle)).

(** [force_unlock] (panic handlers only). *)
Definition force_unlock (s : Spinlock) : Spinlock := {| locked := false; data := data s |}.

(** [DerefMut] through the guard: an update of the data. *)
Definition deref_mut (f : T -> T) (s : Spinlock) : Spinlock :=
  {| locked := locked s; data := f (data s) |}.

(** ** Several CPUs *)
Record machine := mkMachine { spin : Spinlock; cpus : list cpu }.

Definition with_cpu (m : machine) (i : nat) (s : Spinlock) (c : cpu) : machine :=
  {| spin := s; cpus := <[i := c]> (cpus m) |}.

(** The steps of CPU [i].  [step_env] is the rest of the kernel, which may turn
    interrupts on or off on a CPU that holds no guard. *)
Inductive step (m : machine) : nat -> machine -> Prop :=
| step_env i c b :
    cpus m !! i = Some c -> ph c = Idle ->
    step m i (with_cpu m i (spin m) {| rflags_if := b; ph := Idle |})
| step_lock i c :
    cpus m !! i = Some c -> ph c = Idle ->
    step m i (with_cpu m i (spin m) (lock_begin c))
| step_spin i c b s' c' :
    cpus m !! i = Some c -> ph c = Spinning b ->
    lock_spin b (spin m) c = (s', c') -> step m i (with_cpu m i s' c')
| step_try i c r s' c' :
    cpus m !! i = Some c -> ph c = Idle ->
    try_lock (spin m) c = (r, s', c') -> step m i (with_cpu m i s' c')
| step_deref i c b f :
    cpus m !! i = Some c -> ph c = Holding b ->
    step m i (with_cpu m i (deref_mut f (spin m)) c)
| step_drop i c b s' c' :
    cpus m !! i = Some c -> ph c = Holding b ->
    guard_drop b (spin m) c = (s', c') -> step m i (with_cpu m i s' c').

Definition any_step (m m' : machine) : Prop := exists i, step m i m'.

Definition initial (m : machine) : Prop :=
  locked (spin m) = false /\ forall i c, cpus m !! i = Some c -> ph c = Idle.

Definition is_holding (c : cpu) : bool := match ph c with Holding _ => true | _ => false end.
Definition is_idle (c : cpu) : bool := match ph c with Idle => true | _ => false end.

(** The interrupt flag a CPU has, or will have once its guard is dropped. *)
Definition if_view (c : cpu) : bool :=
  match ph c with Idle => rflags_if c | Spinning b | Holding b => b end.

(** ** The invariant *)
Record inv (m : machine) : Prop := {
  inv_free : locked (spin m) = false -> forall i c, cpus m !! i = Some c -> is_holding c = false;
  inv_one : forall i j ci cj, cpus m !! i = Some ci -> cpus m !! j = Some cj ->
              is_holding ci = true -> is_holding cj = true -> i = j;
  inv_cli : forall i c, cpus m !! i = Some c -> is_idle c = false -> rflags_if c = false;
  inv_held : locked (spin m) = true -> exists i c, cpus m !! i = Some c /\ is_holding c = true
}.

Lemma initial_inv m : initial m -> inv m.
Proof.
  intros [Hl Hi]. split; intros; repeat match goal with
    | H : cpus m !! _ = Some _ |- _ => apply Hi in H end;
    unfold is_holding, is_idle in *; try congruence.
  all: by repeat match goal with H : ph _ = Idle |- _ => rewrite H in * end.
Qed.

(** A CPU of the updated machine is the stepping CPU or an old one. *)
Lemma with_cpu_lookup m i s c j d (ci : cpu) :
  cpus m !! i = Some ci ->
  cpus (with_cpu m i s c) !! j = Some d -> (j = i /\ d = c) \/ (j <> i /\ cpus m !! j = Some d).
Proof.
  intros Hi. simpl. destruct (decide (i = j)) as [<-|Hne].
  - rewrite list_lookup_insert_eq by (by eapply lookup_lt_Some). intros [= <-]. by left.
  - rewrite list_lookup_insert_ne by done. right. auto.
Qed.

Lemma with_cpu_self m i s c (ci : cpu) :
  cpus m !! i = Some ci -> cpus (with_cpu m i s c) !! i = Some c.
Proof. intros H. apply list_lookup_insert_eq. by eapply lookup_lt_Some. Qed.

Lemma with_cpu_other m i j s c : i <> j -> cpus (with_cpu m i s c) !! j = cpus m !! j.
Proof. intros. by apply list_lookup_insert_ne. Qed.

(** The invariant is kept when CPU [i] moves to [c] and the lock to [s],
    provided the new pair is locally consistent. *)
Lemma inv_update m i ci s c :
  inv m -> cpus m !! i = Some ci ->
  (is_idle c = false -> rflags_if c = false) ->
  (is_holding c = true -> locked s = true /\ (is_holding ci = true \/ locked (spin m) = false)) ->
  (is_holding c = false -> is_holding ci = true -> locked s = false) ->
  (is_holding c = is_holding ci -> locked s = locked (spin m)) ->
  inv (with_cpu m i s c).
Proof.
  intros [Hf Ho Hc Hh] Hi HIF Hhold Hrel Hsame. split.
  - intros Hl j d Hj. destruct (with_cpu_lookup _ _ _ _ _ _ _ Hi Hj) as [[-> ->]|[Hne Hj']].
    + destruct (is_holding c) eqn:E; [|done]. destruct (Hhold eq_refl). simpl in *. congruence.
    + destruct (is_holding ci) eqn:Eci.
      * destruct (is_holding d) eqn:Ed; [|done]. by destruct (Ho _ _ _ _ Hj' Hi Ed Eci).
      * destruct (is_holding c) eqn:Ec; [destruct (Hhold eq_refl); simpl in *; congruence|].
        eapply Hf; [|done]. rewrite <- Hsame by done. done.
  - intros j k cj ck Hj Hk Hhj Hhk.
    destruct (with_cpu_lookup _ _ _ _ _ _ _ Hi Hj) as [[-> ->]|[Hnj Hj']];
    destruct (with_cpu_lookup _ _ _ _ _ _ _ Hi Hk) as [[-> ->]|[Hnk Hk']]; [done| | |by eauto].
    + destruct (Hhold Hhj) as [_ [H|H]]; [by eauto|]. by rewrite (Hf H _ _ Hk') in Hhk.
    + destruct (Hhold Hhk) as [_ [H|H]]; [by eauto|]. by rewrite (Hf H _ _ Hj') in Hhj.
  - intros j d Hj Hd. destruct (with_cpu_lookup _ _ _ _ _ _ _ Hi Hj) as [[-> ->]|[Hne Hj']]; eauto.
  - intros Hl. simpl in Hl. destruct (is_holding c) eqn:Ec.
    { exists i, c. split; [by eapply with_cpu_self|done]. }
    destruct (is_holding ci) eqn:Eci; [by rewrite Hrel in Hl|].
    rewrite Hsame in Hl by done. destruct (Hh Hl) as (j & d & Hj & Hd).
    exists j, d. split; [|done]. rewrite with_cpu_other; [done|]. intros <-. congruence.
Qed.

Lemma inv_step m i m' : inv m -> step m i m' -> inv m'.
Proof.
  intros Hinv Hs. destruct Hs as [i c b Hi Hp|i c Hi Hp|i c b s' c' Hi Hp E|i c r s' c' Hi Hp E|
                                  i c b f Hi Hp|i c b s' c' Hi Hp E];
  pose proof (inv_cli _ Hinv _ _ Hi) as HIF; unfold is_idle in HIF; rewrite ?Hp in HIF.
  - apply (inv_update _ _ c); unfold is_holding, is_idle; simpl; rewrite ?Hp; naive_solver.
  - apply (inv_update _ _ c); unfold is_holding, is_idle; simpl; rewrite ?Hp; naive_solver.
  - unfold lock_spin in E. simpl in E. destruct (locked (spin m)) eqn:El; simplify_eq;
    apply (inv_update _ _ c); unfold is_holding, is_idle; simpl; rewrite ?Hp; naive_solver.
  - unfold try_lock in E. simpl in E. destruct (locked (spin m)) eqn:El; simpl in E; simplify_eq;
    apply (inv_update _ _ c); unfold is_holding, is_idle, restore_interrupts; simpl;
    rewrite ?Hp; try destruct (rflags_if c); simpl; rewrite ?Hp; naive_solver.
  - assert (is_holding c = true) as Hh by (unfold is_holding; by rewrite Hp).
    assert (locked (spin m) = true) as Hl.
    { destruct (locked (spin m)) eqn:El; [done|]. by rewrite (inv_free _ Hinv El _ _ Hi) in Hh. }
    apply (inv_update _ _ c); simpl; try congruence; [by apply (inv_cli _ Hinv i)|by auto].
  - unfold guard_drop in E. simplify_eq.
    apply (inv_update _ _ c); unfold is_holding, is_idle, restore_interrupts; simpl; rewrite ?Hp;
    destruct b; simpl; naive_solver.
Qed.

Lemma inv_reachable m m' : initial m -> rtc any_step m m' -> inv m'.
Proof.
  intros Hi Hr. apply initial_inv in Hi. induction Hr as [|x y z [i Hs] _ IH]; [done|].
  eauto using inv_step.
Qed.

(** Holding a guard implies the flag is set. *)
Lemma holding_locked m i c : inv m -> cpus m !! i = Some c -> is_holding c = true -> locked (spin m) = true.
Proof.
  intros Hinv Hi Hh. destruct (locked (spin m)) eqn:E; [done|].
  by rewrite (inv_free _ Hinv E _ _ Hi) in Hh.
Qed.

(** ** Properties *)

(** C11: mutual exclusion.  From a free lock, in every interleaving of any
    number of CPUs, at most one CPU holds a guard, and the flag is set exactly
    when one does. *)
Theorem mutual_exclusion m m' :
  initial m -> rtc any_step m m' ->
  (forall i j ci cj, cpus m' !! i = Some ci -> cpus m' !! j = Some cj ->
     is_holding ci = true -> is_holding cj = true -> i = j) /\
  (locked (spin m') = true <-> exists i c, cpus m' !! i = Some c /\ is_holding c = true).
Proof.
  intros Hi Hr. pose proof (inv_reachable _ _ Hi Hr) as Hinv. split; [apply (inv_one _ Hinv)|].
  split; [apply (inv_held _ Hinv)|]. intros (i & c & Hc & Hh). eauto using holding_locked.
Qed.

(** Interrupt discipline.  A CPU that spins on or holds the lock has
    interrupts off, so no handler can run on it and deadlock; and every step of
    the lock protocol leaves unchanged the interrupt flag each CPU will have
    once its guard is gone: the state saved by [lock] is what [drop] restores. *)
Theorem interrupts_off_and_restored m m' i m'' c c' :
  initial m -> rtc any_step m m' -> step m' i m'' ->
  cpus m' !! i = Some c -> cpus m'' !! i = Some c' ->
  (is_idle c = false -> rflags_if c = false) /\
  (if_view c' = if_view c \/
   (ph c = Idle /\ ph c' = Idle /\ spin m'' = spin m')).
Proof.
  intros Hi Hr Hs Hc Hc'. pose proof (inv_reachable _ _ Hi Hr) as Hinv.
  pose proof (inv_cli _ Hinv _ _ Hc) as HIF. split; [done|].
  destruct Hs as [i d b Hd Hp|i d Hd Hp|i d b s' d' Hd Hp E|i d r s' d' Hd Hp E|
                  i d b f Hd Hp|i d b s' d' Hd Hp E];
  assert (d = c) as -> by congruence;
  rewrite (with_cpu_self _ _ _ _ _ Hd) in Hc'; simplify_eq; unfold is_idle in HIF;
  rewrite Hp in HIF; unfold if_view; rewrite Hp; try (by left); try (by right).
  - left. unfold lock_spin in E. simpl in E. by destruct (locked (spin m')); simplify_eq.
  - left. unfold try_lock in E. simpl in E. destruct (locked (spin m')); simpl in E; simplify_eq; [|done].
    unfold restore_interrupts. destruct (rflags_if c) eqn:Ei; simpl; by rewrite Hp.
  - left. unfold guard_drop in E. simplify_eq. specialize (HIF eq_refl).
    unfold restore_interrupts. by destruct b; simpl.
Qed.

(** Exclusive access.  While a CPU holds the guard no step of another CPU
    changes the protected data or the flag. *)
Theorem data_stable_while_held m m' i c j m'' :
  initial m -> rtc any_step m m' -> cpus m' !! i = Some c -> is_holding c = true ->
  step m' j m'' -> j <> i -> spin m'' = spin m'.
Proof.
  intros Hi Hr Hc Hh Hs Hne. pose proof (inv_reachable _ _ Hi Hr) as Hinv.
  pose proof (holding_locked _ _ _ Hinv Hc Hh) as Hl.
  assert (Hsp : {| locked := true; data := data (spin m') |} = spin m') by (rewrite <- Hl; by destruct (spin m')).
  destruct Hs as [j d b Hd Hp|j d Hd Hp|j d b s' d' Hd Hp E|j d r s' d' Hd Hp E|
                  j d b f Hd Hp|j d b s' d' Hd Hp E]; simpl; try done.
  - unfold lock_spin in E. simpl in E. rewrite Hl in E. by simplify_eq.
  - unfold try_lock in E. simpl in E. rewrite Hl in E. simpl in E. by simplify_eq.
  - exfalso. apply Hne. eapply (inv_one _ Hinv); [done..| |done]. unfold is_holding. by rewrite Hp.
  - exfalso. apply Hne. eapply (inv_one _ Hinv); [done..| |done]. unfold is_holding. by rewrite Hp.
Qed.

(** A whole critical section run on one CPU: [let g = l.lock(); f(&mut g); drop(g)].
    [None] when the lock is taken (the loop spins). *)
Definition critical {A} (f : T -> A * T) (s : Spinlock) (c : cpu) : option (A * Spinlock * cpu) :=
  let c1 := lock_begin c in
  match ph c1 with
  | Spinning b =>
      let '(s1, c2) := lock_spin b s c1 in
      match ph c2 with
      | Holding b' =>
          let '(a, d) := f (data s1) in
          let '(s2, c3) := guard_drop b' (deref_mut (fun _ => d) s1) c2 in
          Some (a, s2, c3)
      | _ => None
      end
  | _ => None
  end.

(** A critical section on a free lock runs its body once, leaves the lock free
    and the CPU as it was. *)
Lemma critical_free {A} (f : T -> A * T) d c :
  ph c = Idle ->
  critical f (new d) c = Some ((f d).1, new ((f d).2), c).
Proof.
  intros Hp. unfold critical, lock_begin, lock_spin, guard_drop, restore_interrupts. simpl.
  destruct (f d) as [a d']. destruct c as [[] p]; simpl in *; by subst.
Qed.

End Spin.
Arguments Spinlock : clear implicits.
Arguments machine : clear implicits.

(** ** Witnesses: two CPUs, the first takes the lock *)
Definition demo0 : machine nat :=
  {| spin := new 0%nat; cpus := [mkCpu true Idle; mkCpu true Idle] |}.
Definition demo1 : machine nat := with_cpu demo0 0 (spin demo0) (mkCpu false (Spinning true)).
Definition demo2 : machine nat :=
  with_cpu demo1 0 {| locked := true; data := 0%nat |} (mkCpu false (Holding true)).
Definition demo3 : machine nat := with_cpu demo2 0 (new 0%nat) (mkCpu true Idle).
Definition demo4 : machine nat := with_cpu demo2 1 (spin demo2) (mkCpu false (Spinning true)).

Lemma demo_initial : initial demo0.
Proof. split; [done|]. intros [|[|i]] c H; simpl in H; by simplify_eq. Qed.

Lemma demo_run : rtc any_step demo0 demo2.
Proof.
  eapply rtc_l; [exists 0%nat; by eapply (step_lock demo0 0 (mkCpu true Idle))|].
  eapply rtc_l; [exists 0%nat; by eapply (step_spin demo1 0 (mkCpu false (Spinning true)))|].
  apply rtc_refl.
Qed.

Lemma mutual_exclusion_witness :
  locked (spin demo2) = true /\ exists i c, cpus demo2 !! i = Some c /\ is_holding c = true.
Proof.
  destruct (mutual_exclusion demo0 demo2 demo_initial demo_run) as [_ H]. split; [done|]. by apply H.
Defined.

Lemma interrupts_off_and_restored_witness :
  rflags_if (mkCpu false (Holding true)) = false /\ if_view (mkCpu true Idle) = if_view (mkCpu false (Holding true)).
Proof.
  destruct (interrupts_off_and_restored demo0 demo2 0 demo3 (mkCpu false (Holding true)) (mkCpu true Idle)
    demo_initial demo_run (step_drop demo2 0 _ true (new 0%nat) (mkCpu true Idle) eq_refl eq_refl eq_refl)
    eq_refl eq_refl) as [H1 H2].
  split; [by apply H1|]. destruct H2 as [H2|[? _]]; [exact H2|done].
Defined.

Lemma data_stable_while_held_witness : spin demo4 = spin demo2.
Proof.
  apply (data_stable_while_held demo0 demo2 0 (mkCpu false (Holding true)) 1 demo4 demo_initial demo_run);
    [done|done| |done].
  apply (step_lock demo2 1 (mkCpu true Idle)); done.
Defined.

End Sync.
