(* ===== verification/Pmm.v ===== *)
(** * Physical memory manager (src/src/memory/pmm.rs, src/src/boot/mod.rs)

    The frame bitmap over the identity-mapped window [2 MiB, 512 MiB): one bit
    per 4 KiB frame, 0 free, 1 used.  The file holds the data model, every
    operation of [Pmm] and of the module, the abstract view (a frame is free or
    used), and the theorems: allocation takes the lowest free frame, frees are
    checked, the free byte count follows, [init] frees exactly the frames of the
    usable regions.  [FrameAllocator] is the contract the address-space code is
    proved against. *)

From stdpp Require Import prelude list numbers.
From S2P Require Import Prelude Sync.

Module Pmm.

Definition PAGE_SIZE : Z := 4096.
Definition PMM_BASE : Z := 0x200000.
Definition PMM_END : Z := 0x20000000.
Definition PMM_FRAMES : Z := (PMM_END - PMM_BASE) / PAGE_SIZE.
Definition BITMAP_WORDS : Z := (PMM_FRAMES + 63) / 64.
Definition MAX_REGIONS : Z := 64.

(** ** Memory map of the boot loader *)
Inductive MemoryRegionKind :=
| Usable | Reserved | AcpiReclaimable | AcpiNvs | BadMemory | Bootloader | Kernel | Mmio.

Record MemoryRegion := { mr_start : Z; mr_end : Z; mr_kind : MemoryRegionKind }.

Definition is_usable (r : MemoryRegion) : bool :=
  match mr_kind r with Usable => true | _ => false end.

Definition region_len (r : MemoryRegion) : Z := saturating_sub (mr_end r) (mr_start r).

(** ** State *)
Record PmmRegion := { start : Z; rend : Z; usable : bool }.

Record Pmm := mkPmm {
  regions : list PmmRegion;
  region_count : Z;
  total_memory : Z;
  max_phys_addr : Z;
  bitmap : list Z
}.

Definition set_bitmap (p : Pmm) (b : list Z) : Pmm :=
  {| regions := regions p; region_count := region_count p; total_memory := total_memory p;
     max_phys_addr := max_phys_addr p; bitmap := b |}.

(** [Pmm::new]: everything marked used. *)
Definition new : Pmm :=
  {| regions := replicate (Z.to_nat MAX_REGIONS) {| start := 0; rend := 0; usable := false |};
     region_count := 0; total_memory := 0; max_phys_addr := 0;
     bitmap := replicate (Z.to_nat BITMAP_WORDS) u64_max |}.

(** [(PMM_BASE..PMM_END).contains(&addr)] *)
Definition in_window (addr : Z) : bool := (PMM_BASE <=? addr) && (addr <? PMM_END).

Definition frame_of (addr : Z) : Z := (addr - PMM_BASE) / PAGE_SIZE.
Definition addr_of (frame : Z) : Z := PMM_BASE + frame * PAGE_SIZE.

(** ** Operations of [Pmm] *)
Definition release_frame (p : Pmm) (addr : Z) : outcome Pmm :=
  if negb (in_window addr) then Ret p else
  let frame := frame_of addr in
  let word := frame / 64 in
  let bit := frame mod 64 in
  w ← index (bitmap p) word;
  b ← store (bitmap p) word (bit_clear w bit);
  Ret (set_bitmap p b).

Definition reserve_frame (p : Pmm) (addr : Z) : outcome (bool * Pmm) :=
  if (negb (in_window addr) || negb (Z.land addr 0xFFF =? 0))%bool then Ret (false, p) else
  let frame := frame_of addr in
  let word := frame / 64 in
  let bit := frame mod 64 in
  let mask := u64_shl 1 bit in
  w ← index (bitmap p) word;
  if negb (Z.land w mask =? 0) then Ret (false, p) else
  b ← store (bitmap p) word (Z.lor w mask);
  Ret (true, set_bitmap p b).

(** The [for (word_idx, word)] loop of [alloc_frame], from word [idx] on. *)
Fixpoint alloc_scan (idx : Z) (words : list Z) : option (Z * list Z) :=
  match words with
  | [] => None
  | w :: rest =>
      if negb (w =? u64_max) then
        let free := u64_not w in
        let bit := trailing_zeros free in
        Some (idx * 64 + bit, bit_set w bit :: rest)
      else
        match alloc_scan (idx + 1) rest with
        | Some (f, rest') => Some (f, w :: rest')
        | None => None
        end
  end.

Definition alloc_frame (p : Pmm) : option Z * Pmm :=
  match alloc_scan 0 (bitmap p) with
  | Some (frame, b) => (Some (addr_of frame), set_bitmap p b)
  | None => (None, p)
  end.

Definition free_frame (p : Pmm) (addr : Z) : outcome (bool * Pmm) :=
  if (negb (in_window addr) || negb (Z.land addr 0xFFF =? 0))%bool then Ret (false, p) else
  let frame := frame_of addr in
  let word := frame / 64 in
  let bit := frame mod 64 in
  let mask := u64_shl 1 bit in
  w ← index (bitmap p) word;
  if Z.land w mask =? 0 then Ret (false, p) else
  b ← store (bitmap p) word (Z.land w (u64_not mask));
  Ret (true, set_bitmap p b).

Definition free_memory_locked (p : Pmm) : Z :=
  foldr (fun w acc => count_ones (u64_not w) + acc) 0 (bitmap p) * PAGE_SIZE.

Definition used_memory_locked (p : Pmm) : Z :=
  saturating_sub (total_memory p) (free_memory_locked p).

(** ** [init] *)

(** The first loop: copies the regions and accumulates the statistics. *)
Fixpoint init_regions (rs : list PmmRegion) (count total max_addr : Z) (mm : list MemoryRegion)
  : outcome (list PmmRegion * Z * Z * Z) :=
  match mm with
  | [] => Ret (rs, count, total, max_addr)
  | r :: mm' =>
      '(rs', count') ←
        (if count <? MAX_REGIONS then
           rs' ← store rs count {| start := mr_start r; rend := mr_end r; usable := is_usable r |};
           Ret (rs', count + 1)
         else Ret (rs, count));
      let max' := if max_addr <? mr_end r then mr_end r else max_addr in
      let total' := if is_usable r then u64_add total (u64_sub (mr_end r) (mr_start r)) else total in
      init_regions rs' count' total' max' mm'
  end.

(** [while addr < end { release_frame(addr); addr += PAGE_SIZE }] *)
Fixpoint release_range (fuel : nat) (p : Pmm) (addr end_ : Z) : outcome Pmm :=
  if addr <? end_ then
    match fuel with
    | O => NoFuel
    | S fuel' =>
        p' ← release_frame p addr;
        release_range fuel' p' (u64_add addr PAGE_SIZE) end_
    end
  else Ret p.

Definition align_up_page (x : Z) : Z :=
  Z.land (u64_sub (u64_add x PAGE_SIZE) 1) (u64_not (u64_sub PAGE_SIZE 1)).

(** One usable region: clamp it to the window and release its frames.  The loop
    runs at most once per frame below [PMM_END]. *)
Definition release_region (p : Pmm) (se : Z * Z) : outcome Pmm :=
  let start := Z.max se.1 PMM_BASE in
  let end_ := Z.min se.2 PMM_END in
  let addr := align_up_page start in
  release_range (Z.to_nat (PMM_END / PAGE_SIZE)) p addr end_.

Fixpoint release_regions (p : Pmm) (l : list (Z * Z)) : outcome Pmm :=
  match l with
  | [] => Ret p
  | se :: l' => p' ← release_region p se; release_regions p' l'
  end.

Definition usable_ranges (rs : list PmmRegion) : list (Z * Z) :=
  map (fun r => (start r, rend r)) (filter (fun r => usable r = true) rs).

Definition init (p : Pmm) (memory_map : list MemoryRegion) : outcome Pmm :=
  '(rs, count, total, max_addr) ← init_regions (regions p) 0 0 0 memory_map;
  let p1 := {| regions := rs; region_count := count; total_memory := total;
               max_phys_addr := max_addr;
               bitmap := replicate (Z.to_nat BITMAP_WORDS) u64_max |} in
  release_regions p1 (usable_ranges (take (Z.to_nat count) rs)).

(** ** The module's functions: one critical section of [PMM] each *)
Definition allocate_frame (s : Sync.Spinlock Pmm) (c : Sync.cpu) :=
  Sync.critical alloc_frame s c.
Definition free_frame_global (addr : Z) (s : Sync.Spinlock Pmm) (c : Sync.cpu) :=
  Sync.critical (fun p => match free_frame p addr with
                          | Ret (r, p') => (Ret r, p')
                          | Panic => (Panic, p)
                          | NoFuel => (NoFuel, p)
                          end) s c.
Definition free_memory (s : Sync.Spinlock Pmm) (c : Sync.cpu) :=
  Sync.critical (fun p => (free_memory_locked p, p)) s c.
Definition used_memory (s : Sync.Spinlock Pmm) (c : Sync.cpu) :=
  Sync.critical (fun p => (used_memory_locked p, p)) s c.

(** ** Abstract view *)

(** Well-formedness: the bitmap has its 2040 words and each is a [u64]. *)
Definition wf (p : Pmm) : Prop :=
  length (bitmap p) = Z.to_nat BITMAP_WORDS /\ Forall (in_u 64) (bitmap p).

#[global] Instance wf_dec p : Decision (wf p).
Proof. unfold wf. apply _. Defined.

(** Bit [f mod 64] of word [f / 64]. *)
Definition used_in (b : list Z) (f : Z) : bool :=
  match b !! Z.to_nat (f / 64) with Some w => Z.testbit w (f mod 64) | None => true end.
Definition frame_used (p : Pmm) (f : Z) : bool := used_in (bitmap p) f.

(** A physical address is free when it is the base of a managed frame whose bit
    is clear. *)
Definition is_frame (a : Z) : Prop := PMM_BASE <= a < PMM_END /\ a mod PAGE_SIZE = 0.
Definition addr_free (p : Pmm) (a : Z) : Prop := is_frame a /\ frame_used p (frame_of a) = false.

(** ** Bitmap lemmas *)

Lemma frame_eq_split f g : f / 64 = g / 64 -> f mod 64 = g mod 64 -> f = g.
Proof. intros. rewrite (Z.div_mod f 64), (Z.div_mod g 64) by lia. congruence. Qed.

Lemma div64_inj f g : 0 <= f -> 0 <= g -> Z.to_nat (f / 64) = Z.to_nat (g / 64) -> f / 64 = g / 64.
Proof.
  intros Hf Hg. assert (0 <= f / 64) by (apply Z.div_pos; lia).
  assert (0 <= g / 64) by (apply Z.div_pos; lia). lia.
Qed.

Lemma mod64 f : 0 <= f mod 64 < 64.
Proof. apply Z.mod_pos_bound. lia. Qed.

(** Reading a frame's bit after one word was replaced. *)
Lemma used_in_insert b f g w w' :
  0 <= f -> 0 <= g -> b !! Z.to_nat (f / 64) = Some w ->
  used_in (<[Z.to_nat (f / 64) := w']> b) g =
  if f / 64 =? g / 64 then Z.testbit w' (g mod 64) else used_in b g.
Proof.
  intros Hf Hg Hw. unfold used_in. destruct (Z.eqb_spec (f / 64) (g / 64)) as [E|E].
  - rewrite <- E, list_lookup_insert_eq by (by eapply lookup_lt_Some). done.
  - rewrite list_lookup_insert_ne; [done|]. intros H. apply E. by apply div64_inj.
Qed.

Lemma used_in_set b f g w :
  0 <= f -> 0 <= g -> b !! Z.to_nat (f / 64) = Some w ->
  used_in (<[Z.to_nat (f / 64) := bit_set w (f mod 64)]> b) g = (used_in b g || (f =? g))%bool.
Proof.
  intros Hf Hg Hw. rewrite (used_in_insert _ _ _ w) by done.
  pose proof (mod64 f). pose proof (mod64 g).
  destruct (Z.eqb_spec (f / 64) (g / 64)) as [E|E].
  - unfold used_in. rewrite <- E, Hw, testbit_bit_set by lia. f_equal.
    apply eq_true_iff_eq. rewrite !Z.eqb_eq. split; [by apply frame_eq_split|congruence].
  - destruct (Z.eqb_spec f g) as [<-|]; [done|]. by rewrite orb_false_r.
Qed.

Lemma used_in_clear b f g w :
  0 <= f -> 0 <= g -> b !! Z.to_nat (f / 64) = Some w ->
  used_in (<[Z.to_nat (f / 64) := bit_clear w (f mod 64)]> b) g = (used_in b g && negb (f =? g))%bool.
Proof.
  intros Hf Hg Hw. rewrite (used_in_insert _ _ _ w) by done.
  pose proof (mod64 f). pose proof (mod64 g).
  destruct (Z.eqb_spec (f / 64) (g / 64)) as [E|E].
  - unfold used_in. rewrite <- E, Hw, testbit_bit_clear by lia. do 2 f_equal.
    apply eq_true_iff_eq. rewrite !Z.eqb_eq. split; [by apply frame_eq_split|congruence].
  - destruct (Z.eqb_spec f g) as [<-|]; [done|]. by rewrite andb_true_r.
Qed.

(** A frame below [64 * length b] has its word. *)
Lemma word_of_frame (b : list Z) f : 0 <= f < 64 * Z.of_nat (length b) -> is_Some (b !! Z.to_nat (f / 64)).
Proof.
  intros. apply lookup_lt_is_Some. assert (0 <= f / 64) by (apply Z.div_pos; lia).
  assert (f / 64 < Z.of_nat (length b)) by (apply Z.div_lt_upper_bound; lia). lia.
Qed.

Lemma frame_of_range a : is_frame a -> 0 <= frame_of a < PMM_FRAMES /\ addr_of (frame_of a) = a.
Proof.
  unfold is_frame, frame_of, addr_of, PMM_FRAMES, PMM_BASE, PMM_END, PAGE_SIZE. intros [H1 H2].
  pose proof (Z.div_mod (a - 0x200000) 4096).
  assert ((a - 0x200000) mod 4096 = 0) by (rewrite Zminus_mod, H2; done).
  split; [split|lia]; [apply Z.div_pos; lia|].
  change ((536870912 - 2097152) / 4096) with 130560. apply Z.div_lt_upper_bound; lia.
Qed.

Lemma addr_of_range f : 0 <= f < PMM_FRAMES -> is_frame (addr_of f) /\ frame_of (addr_of f) = f.
Proof.
  unfold is_frame, frame_of, addr_of, PMM_FRAMES, PMM_BASE, PMM_END, PAGE_SIZE. intros H.
  change ((536870912 - 2097152) / 4096) with 130560 in H.
  split; [split; [lia|]|].
  - change 2097152 with (512 * 4096). rewrite <- Z.mul_add_distr_r. apply Z.mod_mul. lia.
  - replace (2097152 + f * 4096 - 2097152) with (f * 4096) by lia. apply Z.div_mul. lia.
Qed.

Lemma addr_of_inj a a' : is_frame a -> is_frame a' -> frame_of a = frame_of a' -> a = a'.
Proof.
  intros H H' E. apply frame_of_range in H as [_ <-]. apply frame_of_range in H' as [_ <-]. by rewrite E.
Qed.

(** The validity test of [free_frame] and [reserve_frame] is [is_frame]. *)
Lemma frame_check a :
  (negb (in_window a) || negb (Z.land a 0xFFF =? 0))%bool = false <-> is_frame a.
Proof.
  unfold in_window, is_frame, PAGE_SIZE. change 0xFFF with (2 ^ 12 - 1). rewrite land_mask by lia.
  change (2 ^ 12) with 4096. split.
  - intros H. zbool. lia.
  - intros [H1 H2]. rewrite H2. replace (PMM_BASE <=? a) with true by lia.
    by replace (a <? PMM_END) with true by lia.
Qed.

Lemma wf_word p a :
  wf p -> is_frame a ->
  exists w, bitmap p !! Z.to_nat (frame_of a / 64) = Some w /\ in_u 64 w /\
            index (bitmap p) (frame_of a / 64) = Ret w /\
            frame_used p (frame_of a) = Z.testbit w (frame_of a mod 64).
Proof.
  intros [Hl Hw] Ha. apply frame_of_range in Ha as [Hf _].
  destruct (word_of_frame (bitmap p) (frame_of a)) as [w Ew].
  { rewrite Hl. change (64 * Z.of_nat (Z.to_nat BITMAP_WORDS)) with PMM_FRAMES. done. }
  exists w. split; [done|]. split; [by eapply Forall_lookup_1|]. split; [by apply index_Ret|].
  unfold frame_used, used_in. by rewrite Ew.
Qed.

Lemma wf_insert p i w : wf p -> in_u 64 w -> wf (set_bitmap p (<[i := w]> (bitmap p))).
Proof.
  intros [Hl Hw] Hi. split; simpl; [by rewrite length_insert|]. by apply Forall_insert.
Qed.

#[local] Hint Resolve wf_insert : aura.

(** ** The allocation scan *)

(** A word different from [u64::MAX] has a clear bit; the lowest one is found. *)
Lemma lowest_clear w :
  in_u 64 w -> w <> u64_max ->
  let bit := trailing_zeros (u64_not w) in
  0 <= bit < 64 /\ Z.testbit w bit = false /\ forall i, 0 <= i < bit -> Z.testbit w i = true.
Proof.
  intros Hw Hne. cbv zeta. pose proof (in_u_not w) as Hn.
  assert (0 < u64_not w) as Hp by (rewrite u64_not_eq by done; unfold in_u, u64_max in *; lia).
  destruct (trailing_zeros_spec _ Hp) as (H0 & Hb & Hlow).
  assert (trailing_zeros (u64_not w) < 64) as Hlt.
  { destruct (Z.ltb_spec (trailing_zeros (u64_not w)) 64); [done|].
    rewrite (testbit_high 64) in Hb; done. }
  rewrite testbit_lnot_word in Hb by lia. repeat split; [done|done| |].
  - by apply negb_true_iff.
  - intros i Hi. specialize (Hlow i Hi). rewrite testbit_lnot_word in Hlow by lia.
    by apply negb_false_iff.
Qed.

(** Frame numbers relative to the first word of a bitmap. *)
Lemma used_in_cons_0 w b g : 0 <= g < 64 -> used_in (w :: b) g = Z.testbit w g.
Proof. intros. unfold used_in. by rewrite Z.div_small, Z.mod_small by lia. Qed.

Lemma shift64 g : g / 64 = (g - 64) / 64 + 1 /\ g mod 64 = (g - 64) mod 64.
Proof.
  pose proof (Z.div_add (g - 64) 1 64). pose proof (Z.mod_add (g - 64) 1 64).
  replace (g - 64 + 1 * 64) with g in * by lia. lia.
Qed.

Lemma used_in_cons_S w b g : 64 <= g -> used_in (w :: b) g = used_in b (g - 64).
Proof.
  intros. unfold used_in. destruct (shift64 g) as [-> ->].
  assert (0 <= (g - 64) / 64) by (apply Z.div_pos; lia).
  by rewrite Z2Nat.inj_add, Nat.add_1_r by lia.
Qed.

Lemma used_in_max b g : 0 <= g < 64 -> used_in (u64_max :: b) g = true.
Proof. intros. rewrite used_in_cons_0, testbit_u64_max by lia. lia. Qed.

(** The scan takes the lowest frame whose bit is clear and sets that bit. *)
Lemma alloc_scan_Some idx words frame words' :
  Forall (in_u 64) words -> alloc_scan idx words = Some (frame, words') ->
  let f := frame - idx * 64 in
  0 <= f < 64 * Z.of_nat (length words) /\ used_in words f = false /\
  (forall g, 0 <= g < f -> used_in words g = true) /\
  exists w, words !! Z.to_nat (f / 64) = Some w /\
            words' = <[Z.to_nat (f / 64) := bit_set w (f mod 64)]> words.
Proof.
  revert idx frame words'. induction words as [|w words IH]; intros idx frame words' HF H; [done|].
  apply Forall_cons_1 in HF as [Hw HF]. cbn [alloc_scan] in H.
  destruct (w =? u64_max) eqn:E; cbn [negb] in H.
  - apply Z.eqb_eq in E as ->. destruct (alloc_scan (idx + 1) words) as [[f r]|] eqn:Es; [|done].
    simplify_eq. destruct (IH _ _ _ HF Es) as (Hr & Hfree & Hlow & w' & Hw' & ->). cbv zeta in *.
    set (f := frame - idx * 64) in *. replace (frame - (idx + 1) * 64) with (f - 64) in * by lia.
    destruct (shift64 f) as [Hd Hm].
    assert (0 <= (f - 64) / 64) by (apply Z.div_pos; lia).
    rewrite Hd, Hm, Z2Nat.inj_add, Nat.add_1_r by lia.
    split; [rewrite length_cons; lia|]. split; [by rewrite used_in_cons_S by lia|]. split.
    + intros g Hg. destruct (Z.ltb_spec g 64); [apply used_in_max; lia|].
      rewrite used_in_cons_S by lia. apply Hlow. lia.
    + exists w'. split; done.
  - apply Z.eqb_neq in E. destruct (lowest_clear w Hw E) as (Hb & Hfree & Hlow).
    simplify_eq. cbv zeta. replace (idx * 64 + trailing_zeros (u64_not w) - idx * 64)
      with (trailing_zeros (u64_not w)) by lia.
    rewrite Z.div_small, Z.mod_small, used_in_cons_0 by lia.
    split; [simpl; lia|]. split; [done|]. split; [|by exists w].
    intros g Hg. rewrite used_in_cons_0 by lia. auto.
Qed.

Lemma alloc_scan_None idx words :
  alloc_scan idx words = None -> forall g, 0 <= g < 64 * Z.of_nat (length words) -> used_in words g = true.
Proof.
  revert idx. induction words as [|w words IH]; intros idx H g Hg; [simpl in Hg; lia|].
  cbn [alloc_scan] in H. destruct (w =? u64_max) eqn:E; [|done]. cbn [negb] in H.
  apply Z.eqb_eq in E as ->.
  destruct (alloc_scan (idx + 1) words) as [[]|] eqn:Es; [done|].
  destruct (Z.ltb_spec g 64); [apply used_in_max; lia|]. rewrite used_in_cons_S by lia.
  eapply IH; [done|]. simpl in Hg. lia.
Qed.

(** ** Accounting *)
Definition free_words (b : list Z) : Z := foldr (fun w acc => count_ones (u64_not w) + acc) 0 b.

Lemma free_words_insert b i w w' :
  b !! i = Some w ->
  free_words (<[i := w']> b) = free_words b - count_ones (u64_not w) + count_ones (u64_not w').
Proof.
  revert i. induction b as [|v b IH]; intros [|i] H; simpl in *; [done..| |]; simplify_eq; [lia|].
  rewrite IH by done. lia.
Qed.

(** One more used frame is one page less of free memory. *)
Lemma free_memory_set p f w :
  bitmap p !! Z.to_nat (f / 64) = Some w -> in_u 64 w ->
  Z.testbit w (f mod 64) = false ->
  free_memory_locked (set_bitmap p (<[Z.to_nat (f / 64) := bit_set w (f mod 64)]> (bitmap p)))
  = free_memory_locked p - PAGE_SIZE.
Proof.
  intros Hw Hu Hb. unfold free_memory_locked. fold (free_words (bitmap p)). simpl.
  fold (free_words (<[Z.to_nat (f / 64) := bit_set w (f mod 64)]> (bitmap p))).
  rewrite (free_words_insert _ _ w), (count_free_bit_set w (f mod 64)) by auto using mod64. lia.
Qed.

Lemma free_memory_clear p f w :
  bitmap p !! Z.to_nat (f / 64) = Some w -> in_u 64 w ->
  Z.testbit w (f mod 64) = true ->
  free_memory_locked (set_bitmap p (<[Z.to_nat (f / 64) := bit_clear w (f mod 64)]> (bitmap p)))
  = free_memory_locked p + PAGE_SIZE.
Proof.
  intros Hw Hu Hb. pose proof (mod64 f). unfold free_memory_locked. fold (free_words (bitmap p)). simpl.
  fold (free_words (<[Z.to_nat (f / 64) := bit_clear w (f mod 64)]> (bitmap p))).
  rewrite (free_words_insert _ _ w) by done.
  rewrite (count_free_bit_set (bit_clear w (f mod 64)) (f mod 64)), bit_set_clear;
    auto with words; [lia|]. rewrite testbit_bit_clear by lia. by rewrite Z.eqb_refl, andb_false_r.
Qed.

(** ** The operations on the abstract view *)

(** What an allocation does: [None] when no frame is free, otherwise the lowest
    free frame, now used, every other frame unchanged. *)
Lemma alloc_frame_cases p r p' :
  wf p -> alloc_frame p = (r, p') ->
  match r with
  | None => p' = p /\ forall a, ~ addr_free p a
  | Some a =>
      wf p' /\ addr_free p a /\ (forall a', addr_free p a' -> a <= a') /\
      (forall a', addr_free p' a' <-> addr_free p a' /\ a' <> a) /\
      free_memory_locked p' = free_memory_locked p - PAGE_SIZE
  end.
Proof.
  intros Hwf H. pose proof Hwf as [Hl HF]. unfold alloc_frame in H.
  assert (64 * Z.of_nat (length (bitmap p)) = PMM_FRAMES) as Hn by (by rewrite Hl).
  destruct (alloc_scan 0 (bitmap p)) as [[f b]|] eqn:Es; simplify_eq.
  - destruct (alloc_scan_Some _ _ _ _ HF Es) as (Hr & Hfree & Hlow & w & Hw & ->).
    cbv zeta in *. rewrite Z.sub_0_r in *. rewrite Hn in Hr.
    destruct (addr_of_range f Hr) as [Hfr Hfo].
    assert (in_u 64 w) as Hu by (by eapply Forall_lookup_1).
    pose proof (mod64 f) as Hm.
    split; [auto with aura words|]. split; [split; [done|by rewrite Hfo]|]. split; [|split].
    + intros a' [Ha' Hf']. apply frame_of_range in Ha' as [Hr' <-].
      destruct (Z.leb_spec (addr_of f) (addr_of (frame_of a'))) as [|Hlt]; [done|].
      unfold addr_of, PAGE_SIZE in Hlt. unfold frame_used in Hf'.
      rewrite Hlow in Hf'; [done|lia].
    + intros a'. unfold addr_free, frame_used. simpl. split.
      * intros [Ha' Hf']. pose proof (frame_of_range _ Ha') as [? _].
        rewrite (used_in_set _ _ _ w) in Hf' by (done || lia).
        apply orb_false_elim in Hf' as [Hf' Hne]. apply Z.eqb_neq in Hne.
        split; [by split|]. intros ->. by rewrite Hfo in Hne.
      * intros [[Ha' Hf'] Hne]. pose proof (frame_of_range _ Ha') as [? Hao].
        split; [done|]. rewrite (used_in_set _ _ _ w), Hf' by (done || lia). simpl.
        apply Z.eqb_neq. intros Heq. apply Hne. by rewrite Heq.
    + apply free_memory_set; try done.
      unfold used_in in Hfree. by rewrite Hw in Hfree.
  - split; [done|]. intros a [Ha Hf]. apply frame_of_range in Ha as [Hr _].
    unfold frame_used in Hf. by rewrite (alloc_scan_None _ _ Es) in Hf by (rewrite Hn; done).
Qed.

(** Marking a valid frame free, and used: the effect on the view. *)
Lemma clear_view p a w :
  wf p -> is_frame a -> bitmap p !! Z.to_nat (frame_of a / 64) = Some w -> in_u 64 w ->
  let p' := set_bitmap p (<[Z.to_nat (frame_of a / 64) := bit_clear w (frame_of a mod 64)]> (bitmap p)) in
  wf p' /\ forall a', addr_free p' a' <-> addr_free p a' \/ a' = a.
Proof.
  intros Hwf Ha Hw Hu. cbv zeta. split; [auto with aura words|]. intros a'.
  pose proof (frame_of_range _ Ha) as [Hr _]. unfold addr_free, frame_used. simpl. split.
  - intros [Ha' Hf']. pose proof (frame_of_range _ Ha') as [? _].
    rewrite (used_in_clear _ _ _ w) in Hf' by (done || lia).
    apply andb_false_iff in Hf' as [|Hf']; [by left|]. right. apply negb_false_iff, Z.eqb_eq in Hf'.
    by apply addr_of_inj.
  - intros [[Ha' Hf']| ->].
    + pose proof (frame_of_range _ Ha') as [? _]. split; [done|].
      by rewrite (used_in_clear _ _ _ w), Hf' by (done || lia).
    + split; [done|]. rewrite (used_in_clear _ _ _ w) by (done || lia). by rewrite Z.eqb_refl, andb_false_r.
Qed.

(** What a free does: refused (state unchanged) exactly when the address is not
    a managed frame or is already free; otherwise the frame becomes free. *)
Lemma free_frame_cases p a :
  wf p ->
  exists r p', free_frame p a = Ret (r, p') /\
  if r then is_frame a /\ ~ addr_free p a /\ wf p' /\
            (forall a', addr_free p' a' <-> addr_free p a' \/ a' = a) /\
            free_memory_locked p' = free_memory_locked p + PAGE_SIZE
  else p' = p /\ (~ is_frame a \/ addr_free p a).
Proof.
  intros Hwf. unfold free_frame.
  destruct (negb (in_window a) || negb (Z.land a 0xFFF =? 0))%bool eqn:E.
  { exists false, p. split; [done|]. split; [done|]. left. intros Ha. apply frame_check in Ha. congruence. }
  apply frame_check in E. destruct (wf_word p a Hwf E) as (w & Hw & Hu & Hi & Hf). rewrite Hi. cbn.
  pose proof (mod64 (frame_of a)) as Hm.
  rewrite land_bit_test by done. destruct (Z.testbit w (frame_of a mod 64)) eqn:Eb; cbn [negb].
  - rewrite store_Ret by (by eapply lookup_lt_Some). cbn.
    exists true. eexists. split; [done|]. split; [done|].
    split; [intros [_ ?]; congruence|]. destruct (clear_view p a w Hwf E Hw Hu). split; [done|].
    split; [done|]. by apply free_memory_clear.
  - exists false, p. split; [done|]. split; [done|]. right. by split.
Qed.

(** ** [init] on the abstract view *)

(** Only the bitmap changes. *)
Definition same_stats (p p' : Pmm) : Prop := p' = set_bitmap p (bitmap p').

Lemma same_stats_trans p q r : same_stats p q -> same_stats q r -> same_stats p r.
Proof. unfold same_stats. intros -> ->. done. Qed.

Lemma release_frame_view p a :
  wf p -> a mod PAGE_SIZE = 0 ->
  exists p', release_frame p a = Ret p' /\ wf p' /\ same_stats p p' /\
    forall a', addr_free p' a' <-> addr_free p a' \/ (is_frame a /\ a' = a).
Proof.
  intros Hwf Hal. unfold release_frame. destruct (in_window a) eqn:E; cbn [negb].
  - assert (is_frame a) as Ha by (unfold in_window in E; zbool; by split).
    destruct (wf_word p a Hwf Ha) as (w & Hw & Hu & Hi & Hf). rewrite Hi. cbn.
    rewrite store_Ret by (by eapply lookup_lt_Some). cbn. eexists. split; [done|].
    destruct (clear_view p a w Hwf Ha Hw Hu) as [? Hv]. split; [done|]. split; [done|].
    intros a'. rewrite Hv. tauto.
  - exists p. split; [done|]. split; [done|]. split; [by destruct p|]. intros a'. split; [by left|].
    intros [|[[? ?] _]]; [done|]. unfold in_window in E. apply andb_false_iff in E as [E|E]; zbool; lia.
Qed.

Lemma release_range_view fuel p addr end_ :
  wf p -> addr mod PAGE_SIZE = 0 -> 0 <= addr -> end_ <= PMM_END ->
  end_ - addr <= Z.of_nat fuel * PAGE_SIZE ->
  exists p', release_range fuel p addr end_ = Ret p' /\ wf p' /\ same_stats p p' /\
    forall a, addr_free p' a <-> addr_free p a \/ (is_frame a /\ addr <= a < end_).
Proof.
  revert p addr. induction fuel as [|fuel IH]; intros p addr Hwf Hal H0 Hend Hfuel; cbn [release_range].
  - destruct (Z.ltb_spec addr end_); [unfold PAGE_SIZE in *; lia|].
    exists p. split; [done|]. split; [done|]. split; [by destruct p|]. intros a. split; [by left|].
    intros [|[_ ?]]; [done|lia].
  - destruct (Z.ltb_spec addr end_).
    + destruct (release_frame_view p addr Hwf Hal) as (p1 & -> & Hwf1 & Hs1 & Hv1). cbn.
      assert (u64_add addr PAGE_SIZE = addr + PAGE_SIZE) as ->.
      { apply u64_add_small. unfold PAGE_SIZE, PMM_END in *. lia. }
      destruct (IH p1 (addr + PAGE_SIZE)) as (p2 & -> & Hwf2 & Hs2 & Hv2); [done| |unfold PAGE_SIZE in *; lia..|].
      { replace (addr + PAGE_SIZE) with (addr + 1 * PAGE_SIZE) by lia. by rewrite Z.mod_add. }
      exists p2. split; [done|]. split; [done|]. split; [by eapply same_stats_trans|].
      intros a. rewrite Hv2, Hv1. split.
      * intros [[|[Ha ->]]|[Ha ?]]; [by left|right..]; (split; [done|]); [|unfold PAGE_SIZE in *]; lia.
      * intros [|[Ha Hr]]; [by left; left|]. destruct (decide (a = addr)) as [->|]; [by left; right|].
        right. split; [done|]. destruct Ha as [_ Ham]. unfold PAGE_SIZE in *.
        pose proof (Z.div_mod a 4096). pose proof (Z.div_mod addr 4096). lia.
    + exists p. split; [done|]. split; [done|]. split; [by destruct p|]. intros a. split; [by left|].
      intros [|[_ ?]]; [done|lia].
Qed.

Lemma align_up_page_eq x :
  0 <= x -> x + PAGE_SIZE <= 2 ^ 64 ->
  align_up_page x = (x + PAGE_SIZE - 1) - (x + PAGE_SIZE - 1) mod PAGE_SIZE.
Proof.
  intros H0 H1. apply (align_up_word x 12); [lia|done|done].
Qed.

(** A region a boot loader may report: an interval of physical addresses. *)
Definition region_ok (r : Z * Z) : Prop := 0 <= r.1 /\ r.1 + PAGE_SIZE <= 2 ^ 64.

Lemma release_region_view p se :
  wf p -> region_ok se ->
  exists p', release_region p se = Ret p' /\ wf p' /\ same_stats p p' /\
    forall a, addr_free p' a <-> addr_free p a \/ (is_frame a /\ se.1 <= a < se.2).
Proof.
  intros Hwf [H0 H1]. unfold release_region.
  set (st := Z.max se.1 PMM_BASE).
  assert (0 <= st /\ st + PAGE_SIZE <= 2 ^ 64) as [Hst0 Hst1] by (unfold st, PMM_BASE, PAGE_SIZE in *; lia).
  pose proof (align_up_page_eq st Hst0 Hst1) as Hal.
  pose proof (Z.div_mod (st + PAGE_SIZE - 1) PAGE_SIZE ltac:(done)) as Hdm.
  pose proof (Z.mod_pos_bound (st + PAGE_SIZE - 1) PAGE_SIZE ltac:(done)) as Hmb.
  assert (align_up_page st = PAGE_SIZE * ((st + PAGE_SIZE - 1) / PAGE_SIZE)) as Hal' by lia.
  assert (align_up_page st mod PAGE_SIZE = 0) as Ham by (rewrite Hal', Z.mul_comm; by apply Z.mod_mul).
  destruct (release_range_view (Z.to_nat (PMM_END / PAGE_SIZE)) p (align_up_page st) (Z.min se.2 PMM_END))
    as (p' & E & Hwf' & Hs & Hv); [done|done|unfold PAGE_SIZE in *; lia|lia| |].
  { change (Z.of_nat (Z.to_nat (PMM_END / PAGE_SIZE)) * PAGE_SIZE) with PMM_END. unfold PAGE_SIZE in *. lia. }
  exists p'. split; [exact E|]. split; [done|]. split; [done|]. intros a. rewrite Hv.
  assert (is_frame a -> (align_up_page st <= a < Z.min se.2 PMM_END <-> se.1 <= a < se.2)); [|tauto].
  intros [Hr Hm]. assert (st <= a <-> align_up_page st <= a) as Hiff.
  { split; [|unfold PAGE_SIZE in *; lia]. intros. pose proof (Z.div_mod a PAGE_SIZE ltac:(done)).
    unfold PAGE_SIZE in *. lia. }
  unfold st in *. lia.
Qed.

Lemma release_regions_view p l :
  wf p -> Forall region_ok l ->
  exists p', release_regions p l = Ret p' /\ wf p' /\ same_stats p p' /\
    forall a, addr_free p' a <-> addr_free p a \/ (is_frame a /\ exists r, r ∈ l /\ r.1 <= a < r.2).
Proof.
  revert p. induction l as [|se l IH]; intros p Hwf HF.
  - exists p. split; [done|]. split; [done|]. split; [by destruct p|]. intros a. split; [by left|].
    intros [|(_ & r & Hr & _)]; [done|]. by apply elem_of_nil in Hr.
  - apply Forall_cons_1 in HF as [Hse HF]. cbn [release_regions].
    destruct (release_region_view p se Hwf Hse) as (p1 & -> & Hwf1 & Hs1 & Hv1). cbn.
    destruct (IH p1 Hwf1 HF) as (p2 & -> & Hwf2 & Hs2 & Hv2). exists p2.
    split; [done|]. split; [done|]. split; [by eapply same_stats_trans|].
    intros a. rewrite Hv2, Hv1. setoid_rewrite elem_of_cons. split.
    + intros [[|[? ?]]|(? & r & ? & ?)]; [by left|right; split; [done|]..]; [exists se|exists r]; auto.
    + intros [|(? & r & [->|?] & ?)]; [by left; left|by left; right|right]. split; [done|]. by exists r.
Qed.

(** The copy of one region, and the statistics as sums over the map. *)
Definition copy_region (r : MemoryRegion) : PmmRegion :=
  {| start := mr_start r; rend := mr_end r; usable := is_usable r |}.

Definition usable_bytes (mm : list MemoryRegion) : Z :=
  foldr (fun r acc => (if is_usable r then mr_end r - mr_start r else 0) + acc) 0 mm.

Lemma init_regions_spec rs n total mx mm :
  length rs = Z.to_nat MAX_REGIONS -> (n <= 64)%nat ->
  exists rs', init_regions rs (Z.of_nat n) total mx mm =
    Ret (rs', Z.of_nat (Nat.min 64 (n + length mm)), foldl (fun t r => if is_usable r then u64_add t (u64_sub (mr_end r) (mr_start r)) else t) total mm,
         foldl (fun m r => Z.max m (mr_end r)) mx mm) /\
    length rs' = length rs /\
    take (Nat.min 64 (n + length mm)) rs' = take n rs ++ map copy_region (take (64 - n) mm).
Proof.
  revert rs n total mx. induction mm as [|r mm IH]; intros rs n total mx Hl Hn; cbn [init_regions].
  - exists rs. rewrite Nat.add_0_r, Nat.min_r by lia. split; [done|]. split; [done|].
    by rewrite take_nil, app_nil_r.
  - assert ((if mx <? mr_end r then mr_end r else mx) = Z.max mx (mr_end r)) as -> by (destruct (Z.ltb_spec mx (mr_end r)); lia).
    destruct (Z.ltb_spec (Z.of_nat n) MAX_REGIONS) as [Hlt|Hge]; unfold MAX_REGIONS in *.
    + rewrite store_Ret by lia. cbn. rewrite Nat2Z.id. replace (Z.of_nat n + 1) with (Z.of_nat (S n)) by lia.
      destruct (IH (<[n := copy_region r]> rs) (S n) (if is_usable r then u64_add total (u64_sub (mr_end r) (mr_start r)) else total)
                 (Z.max mx (mr_end r))) as (rs' & E & Hl' & Ht); [by rewrite length_insert|lia|].
      exists rs'. rewrite length_insert in Hl'. rewrite Nat.add_succ_r. split; [exact E|]. split; [done|].
      simpl in Ht. rewrite Ht. rewrite (take_S_r _ _ (copy_region r)) by (apply list_lookup_insert_eq; lia).
      rewrite take_insert_ge by lia. rewrite <- app_assoc. f_equal.
      replace (64 - n)%nat with (S (63 - n))%nat by lia. done.
    + cbn. destruct (IH rs n (if is_usable r then u64_add total (u64_sub (mr_end r) (mr_start r)) else total)
                 (Z.max mx (mr_end r))) as (rs' & E & Hl' & Ht); [done|lia|].
      assert (n = 64%nat) as -> by lia. exists rs'. split; [exact E|]. split; [done|]. exact Ht.
Qed.

(** The bitmap of all ones has no free frame. *)
Lemma all_used_not_free rs c t m a :
  ~ addr_free {| regions := rs; region_count := c; total_memory := t; max_phys_addr := m;
                 bitmap := replicate (Z.to_nat BITMAP_WORDS) u64_max |} a.
Proof.
  intros [Ha Hf]. apply frame_of_range in Ha as [Hr _]. unfold frame_used, used_in in Hf. cbn [bitmap] in Hf.
  destruct (replicate (Z.to_nat BITMAP_WORDS) u64_max !! Z.to_nat (frame_of a / 64)) as [w|] eqn:E; [|done].
  apply lookup_replicate in E as [-> _]. rewrite testbit_u64_max in Hf by apply mod64.
  pose proof (mod64 (frame_of a)). lia.
Qed.

Lemma usable_ranges_In mm n r :
  r ∈ usable_ranges (map copy_region (take n mm)) <->
  exists m, m ∈ take n mm /\ is_usable m = true /\ r = (mr_start m, mr_end m).
Proof.
  unfold usable_ranges. rewrite list_elem_of_In, in_map_iff. setoid_rewrite <- list_elem_of_In.
  setoid_rewrite list_elem_of_filter. split.
  - intros (c & <- & Hu & Hc). apply list_elem_of_In, in_map_iff in Hc as (m & <- & Hm).
    exists m. split; [by apply list_elem_of_In|done].
  - intros (m & Hm & Hu & ->). exists (copy_region m). split; [done|]. split; [done|].
    apply list_elem_of_In, in_map_iff. exists m. split; [done|]. by apply list_elem_of_In.
Qed.

(** The allocator [init] makes of a memory map. *)
Lemma init_view p mm :
  length (regions p) = Z.to_nat MAX_REGIONS ->
  Forall (fun r => region_ok (mr_start r, mr_end r)) mm ->
  exists p', init p mm = Ret p' /\ wf p' /\
    region_count p' = Z.min MAX_REGIONS (Z.of_nat (length mm)) /\
    max_phys_addr p' = foldl (fun m r => Z.max m (mr_end r)) 0 mm /\
    forall a, addr_free p' a <->
      is_frame a /\ exists r, r ∈ take 64 mm /\ is_usable r = true /\ mr_start r <= a < mr_end r.
Proof.
  intros Hl HF. unfold init.
  destruct (init_regions_spec (regions p) 0 0 0 mm Hl ltac:(lia)) as (rs & E & Hl' & Ht).
  change (Z.of_nat 0) with 0 in E. rewrite E. cbn -[take BITMAP_WORDS Nat.min]. rewrite Nat2Z.id.
  rewrite Nat.add_0_l in *. rewrite Nat.sub_0_r in Ht. rewrite Ht.
  change (take 0 (regions p)) with (@nil PmmRegion). rewrite app_nil_l.
  edestruct release_regions_view as (p' & Er & Hwf & Hs & Hv); [| |exists p'; split; [exact Er|]].
  - split; [done|]. apply Forall_replicate. split; [done|]. by vm_compute.
  - apply Forall_forall. intros r Hr%list_elem_of_In. apply usable_ranges_In in Hr as (m & Hm & _ & ->).
    rewrite Forall_forall in HF. apply HF, list_elem_of_In. apply elem_of_take in Hm as (i & Hi & _). by eapply list_elem_of_lookup_2.
  - split; [done|]. pose proof (f_equal region_count Hs) as H1. pose proof (f_equal max_phys_addr Hs) as H2.
    cbn [region_count max_phys_addr set_bitmap] in H1, H2. rewrite H1, H2. unfold MAX_REGIONS.
    split; [lia|]. split; [done|]. intros a. rewrite Hv. split.
    + intros [Hf|(Ha & r & Hr & Hra)]; [by apply all_used_not_free in Hf|].
      apply usable_ranges_In in Hr as (m & Hm & Hu & ->). split; [done|]. by exists m.
    + intros (Ha & r & Hr & Hu & Hra). right. split; [done|]. exists (mr_start r, mr_end r).
      split; [|done]. apply usable_ranges_In. by exists r.
Qed.

(** ** Contract for clients *)

(** What the address-space code needs of a frame allocator: an abstract set of
    free frames, allocation takes one of them, freeing gives one back. *)
Class FrameAllocator (S : Type) := {
  fa_wf : S -> Prop;
  fa_free : S -> Z -> Prop;
  fa_alloc : S -> option Z * S;
  fa_dealloc : S -> Z -> outcome (bool * S);
  fa_alloc_Some : forall s a s', fa_wf s -> fa_alloc s = (Some a, s') ->
    fa_wf s' /\ is_frame a /\ fa_free s a /\ forall b, fa_free s' b <-> fa_free s b /\ b <> a;
  fa_alloc_None : forall s s', fa_wf s -> fa_alloc s = (None, s') ->
    s' = s /\ forall b, ~ fa_free s b;
  fa_dealloc_spec : forall s a, fa_wf s ->
    exists r s', fa_dealloc s a = Ret (r, s') /\
      if r then is_frame a /\ ~ fa_free s a /\ fa_wf s' /\ (forall b, fa_free s' b <-> fa_free s b \/ b = a)
      else s' = s /\ (~ is_frame a \/ fa_free s a)
}.

(** The bitmap allocator honours it. *)
#[global] Program Instance pmm_allocator : FrameAllocator Pmm := {|
  fa_wf := wf; fa_free := addr_free; fa_alloc := alloc_frame; fa_dealloc := free_frame
|}.
Next Obligation.
  intros s a s' Hwf H. pose proof (alloc_frame_cases _ _ _ Hwf H) as (? & Hf & _ & ? & _).
  split; [done|]. split; [apply Hf|]. by split.
Qed.
Next Obligation. intros s s' Hwf H. apply (alloc_frame_cases _ _ _ Hwf H). Qed.
Next Obligation.
  intros s a Hwf. destruct (free_frame_cases s a Hwf) as ([] & p' & E & Hr); [exists true, p'|exists false, p']; (split; [exact E|]).
  - by destruct Hr as (? & ? & ? & ? & _).
  - done.
Qed.

(** ** Properties *)

(** Allocation.  On a well-formed bitmap [alloc_frame] returns [None] and
    changes nothing when no frame is free; otherwise it returns the base of the
    lowest free frame, that frame is now used, every other frame is as before
    and the free byte count drops by one page. *)
Theorem alloc_frame_lowest p r p' :
  wf p -> alloc_frame p = (r, p') ->
  match r with
  | None => p' = p /\ forall a, ~ addr_free p a
  | Some a =>
      wf p' /\ addr_free p a /\ (forall a', addr_free p a' -> a <= a') /\
      (forall a', addr_free p' a' <-> addr_free p a' /\ a' <> a) /\
      free_memory_locked p' = free_memory_locked p - PAGE_SIZE
  end.
Proof. apply alloc_frame_cases. Qed.

(** Checked frees.  [free_frame] never panics on a well-formed bitmap; it
    answers [false] and changes nothing exactly for an address outside the
    window, an unaligned one or a frame already free (double free), and
    otherwise the frame, and only it, becomes free and a page is added to the
    free byte count. *)
Theorem free_frame_checked p a :
  wf p ->
  exists r p', free_frame p a = Ret (r, p') /\
  if r then is_frame a /\ ~ addr_free p a /\ wf p' /\
            (forall a', addr_free p' a' <-> addr_free p a' \/ a' = a) /\
            free_memory_locked p' = free_memory_locked p + PAGE_SIZE
  else p' = p /\ (~ is_frame a \/ addr_free p a).
Proof. apply free_frame_cases. Qed.

(** Alloc/free round trip.  Freeing the frame an allocation returned
    succeeds and restores the bitmap word for word. *)
Theorem alloc_free_roundtrip p a p' :
  wf p -> alloc_frame p = (Some a, p') -> free_frame p' a = Ret (true, p).
Proof.
  intros Hwf H. pose proof (alloc_frame_cases _ _ _ Hwf H) as (Hwf' & [Ha Hfree] & _ & Hv & _).
  pose proof Hwf as [Hl HF]. unfold alloc_frame in H.
  destruct (alloc_scan 0 (bitmap p)) as [[f b]|] eqn:Es; simplify_eq.
  destruct (alloc_scan_Some _ _ _ _ HF Es) as (Hr & Hf & _ & w & Hw & ->). cbv zeta in *.
  rewrite Z.sub_0_r in *. rewrite Hl in Hr. change (64 * Z.of_nat (Z.to_nat BITMAP_WORDS)) with PMM_FRAMES in Hr.
  destruct (addr_of_range f Hr) as [_ Hfo]. unfold free_frame. simpl.
  rewrite (proj2 (frame_check _) Ha), Hfo. pose proof (mod64 f) as Hm.
  assert (Z.to_nat (f / 64) < length (bitmap p))%nat as Hlen by (by eapply lookup_lt_Some).
  assert (in_u 64 w) as Hu by (by eapply Forall_lookup_1).
  assert (Z.testbit w (f mod 64) = false) as Hb by (unfold used_in in Hf; by rewrite Hw in Hf).
  unfold index. rewrite list_lookup_insert_eq by done. cbn.
  rewrite land_bit_test, testbit_bit_set, Z.eqb_refl, orb_true_r by lia. cbn [negb].
  rewrite store_Ret by (by rewrite length_insert). cbn.
  fold (bit_clear (bit_set w (f mod 64)) (f mod 64)).
  rewrite bit_clear_set by done. rewrite list_insert_insert_eq. rewrite (list_insert_id (bitmap p) _ w Hw). by destruct p.
Qed.

(** C25: boot-time initialisation.  From the memory map [init] returns (its loops
    end and no index panics) a well-formed allocator in which a frame is free
    exactly when its base lies in one of the first 64 regions and that region is
    usable; the region count and the highest address are those of the map. *)
Theorem init_frees_usable_regions p mm :
  length (regions p) = Z.to_nat MAX_REGIONS ->
  Forall (fun r => region_ok (mr_start r, mr_end r)) mm ->
  exists p', init p mm = Ret p' /\ wf p' /\
    region_count p' = Z.min MAX_REGIONS (Z.of_nat (length mm)) /\
    max_phys_addr p' = foldl (fun m r => Z.max m (mr_end r)) 0 mm /\
    forall a, addr_free p' a <->
      is_frame a /\ exists r, r ∈ take 64 mm /\ is_usable r = true /\ mr_start r <= a < mr_end r.
Proof. apply init_view. Qed.

(** ** Witnesses *)

(** The first 256 frames free. *)
Definition stocked : Pmm := set_bitmap new (replicate 4 0 ++ replicate (Z.to_nat BITMAP_WORDS - 4) u64_max).
Lemma stocked_wf : wf stocked.
Proof. by_compute. Qed.

(** Frames 64 and 66 free, the rest used. *)
Definition demo_pmm : Pmm :=
  set_bitmap new (<[1%nat := bit_clear (bit_clear u64_max 0) 2]> (bitmap new)).

Definition demo_map : list MemoryRegion :=
  [ {| mr_start := 0; mr_end := 0x9FC00; mr_kind := Usable |};
    {| mr_start := 0xF0000; mr_end := 0x100000; mr_kind := Reserved |};
    {| mr_start := 0x100000; mr_end := 0x203000; mr_kind := Usable |} ].

Lemma alloc_frame_lowest_witness :
  wf demo_pmm /\ (alloc_frame demo_pmm).1 = Some 0x240000 /\
  addr_free demo_pmm 0x240000 /\ (forall a', addr_free demo_pmm a' -> 0x240000 <= a').
Proof.
  assert (wf demo_pmm) as Hwf by by_compute.
  assert (alloc_frame demo_pmm = (Some 0x240000, (alloc_frame demo_pmm).2)) as E by (by vm_compute).
  pose proof (alloc_frame_lowest _ _ _ Hwf E) as (_ & H1 & H2 & _).
  split; [exact Hwf|]. split; [by rewrite E|]. split; [exact H1|exact H2].
Defined.

Lemma free_frame_checked_witness :
  wf demo_pmm /\ free_frame demo_pmm 0x241000 <> Panic /\ free_frame demo_pmm 0x240000 = Ret (false, demo_pmm).
Proof.
  assert (wf demo_pmm) as Hwf by by_compute. split; [exact Hwf|]. split.
  - destruct (free_frame_checked demo_pmm 0x241000 Hwf) as (r & p' & E & _). rewrite E. discriminate.
  - by vm_compute.
Defined.

Lemma alloc_free_roundtrip_witness :
  free_frame (alloc_frame demo_pmm).2 0x240000 = Ret (true, demo_pmm).
Proof.
  apply (alloc_free_roundtrip demo_pmm 0x240000 (alloc_frame demo_pmm).2); [by_compute|by vm_compute].
Defined.

Lemma init_frees_usable_regions_witness :
  exists p', init new demo_map = Ret p' /\ addr_free p' 0x202000.
Proof.
  destruct (init_frees_usable_regions new demo_map) as (p' & E & _ & _ & _ & Hv).
  - reflexivity.
  - repeat constructor; simpl; unfold PAGE_SIZE; lia.
  - exists p'. split; [exact E|]. apply Hv. split; [split; [unfold PMM_BASE, PMM_END; lia|done]|].
    exists {| mr_start := 0x100000; mr_end := 0x203000; mr_kind := Usable |}.
    split; [|split; [done|simpl; lia]]. unfold demo_map. cbn [take]. rewrite !elem_of_cons. auto.
Defined.

End Pmm.
