(* ===== verification/Allocator.v ===== *)
(** * Kernel heap (src/src/memory/allocator.rs)

    The first-fit linked-list allocator.  The free list lives in the free blocks
    themselves; here it is the list of its nodes (address, size) behind the
    zero-sized [head].  The file models every operation and proves: the free list
    stays sorted, disjoint and fully coalesced; [alloc] returns an aligned block
    taken out of free memory; [dealloc] gives it back and merges; freeing what was
    just allocated restores the list; and over any run of allocations and frees
    the live blocks never overlap and no byte is lost. *)

From stdpp Require Import prelude list numbers relations.
From S2P Require Import Prelude.

Module Allocator.

Definition HEAP_SIZE : Z := 8 * 1024 * 1024.

(** [size_of::<ListNode>()] and [align_of::<ListNode>()]: a [usize] and a
    nullable pointer. *)
Definition NODE_SIZE : Z := 16.
Definition NODE_ALIGN : Z := 8.

Definition align_up (addr align : Z) : Z :=
  Z.land (u64_sub (u64_add addr align) 1) (u64_not (u64_sub align 1)).

Record ListNode := mkNode { start_addr : Z; size : Z }.

Definition end_addr (n : ListNode) : Z := u64_add (start_addr n) (size n).

(** [head] and the nodes reachable from it through [next]. *)
Record LinkedListAllocator := mkAlloc { head : ListNode; nodes : list ListNode }.

Definition set_nodes (a : LinkedListAllocator) (l : list ListNode) : LinkedListAllocator :=
  {| head := head a; nodes := l |}.

(** [LinkedListAllocator::new], the head stored at address [at_]. *)
Definition new (at_ : Z) : LinkedListAllocator := {| head := mkNode at_ 0; nodes := [] |}.

(** The insertion loop of [add_free_region]. *)
Fixpoint insert_node (n : ListNode) (l : list ListNode) : list ListNode :=
  match l with
  | [] => [n]
  | x :: t => if start_addr n <? start_addr x then n :: x :: t else x :: insert_node n t
  end.

(** The loop of [coalesce], at node [current] whose successors are [rest]. *)
Fixpoint coalesce_from (current : ListNode) (rest : list ListNode) : ListNode * list ListNode :=
  match rest with
  | [] => (current, [])
  | n :: rest' =>
      if ((0 <? size current) && (end_addr current =? start_addr n))%bool
      then coalesce_from (mkNode (start_addr current) (u64_add (size current) (size n))) rest'
      else let '(n', rest'') := coalesce_from n rest' in (current, n' :: rest'')
  end.

Definition coalesce (a : LinkedListAllocator) : LinkedListAllocator :=
  let '(h, l) := coalesce_from (head a) (nodes a) in {| head := h; nodes := l |}.

Definition add_free_region (a : LinkedListAllocator) (addr sz : Z) : LinkedListAllocator :=
  if sz <? NODE_SIZE then a
  else coalesce (set_nodes a (insert_node (mkNode addr sz) (nodes a))).

Definition init (a : LinkedListAllocator) (heap_start heap_size : Z) : LinkedListAllocator :=
  add_free_region a heap_start heap_size.

(** [checked_add] on [usize]. *)
Definition checked_add (a b : Z) : option Z :=
  if a + b <? 2 ^ 64 then Some (a + b) else None.

Definition alloc_from_region (region : ListNode) (sz align : Z) : result Z unit :=
  let alloc_start := align_up (start_addr region) align in
  match checked_add alloc_start sz with
  | None => Err tt
  | Some alloc_end =>
      if end_addr region <? alloc_end then Err tt else
      let excess_prefix := u64_sub alloc_start (start_addr region) in
      if ((0 <? excess_prefix) && (excess_prefix <? NODE_SIZE))%bool then Err tt else
      let excess_suffix := u64_sub (end_addr region) alloc_end in
      if ((0 <? excess_suffix) && (excess_suffix <? NODE_SIZE))%bool then Err tt else
      Ok alloc_start
  end.

(** First fit: the region, the start of the block in it, the list without it. *)
Fixpoint find_region (l : list ListNode) (sz align : Z) : option (ListNode * Z * list ListNode) :=
  match l with
  | [] => None
  | region :: t =>
      match alloc_from_region region sz align with
      | Ok alloc_start => Some (region, alloc_start, t)
      | Err _ =>
          match find_region t sz align with
          | Some (r, s, t') => Some (r, s, region :: t')
          | None => None
          end
      end
  end.

(** [core::alloc::Layout]. *)
Record Layout := mkLayout { l_size : Z; l_align : Z }.

(** [Layout::align_to(NODE_ALIGN)]: fails when the size rounded up to the new
    alignment would exceed [isize::MAX]; [pad_to_align] rounds the size up. *)
Definition size_align (l : Layout) : outcome (Z * Z) :=
  let align := Z.max (l_align l) NODE_ALIGN in
  if 2 ^ 63 - align <? l_size l then Panic
  else
    let padded := align_up (l_size l) align in
    Ret (Z.max padded NODE_SIZE, align).

(** [alloc]: 0 is the null pointer. *)
Definition alloc (a : LinkedListAllocator) (l : Layout) : outcome (Z * LinkedListAllocator) :=
  '(sz, align) ← size_align l;
  match find_region (nodes a) sz align with
  | Some (region, alloc_start, rest) =>
      let a0 := set_nodes a rest in
      let alloc_end := u64_add alloc_start sz in
      let excess_suffix := u64_sub (end_addr region) alloc_end in
      let excess_prefix := u64_sub alloc_start (start_addr region) in
      let a1 := if 0 <? excess_suffix then add_free_region a0 alloc_end excess_suffix else a0 in
      let a2 := if 0 <? excess_prefix then add_free_region a1 (start_addr region) excess_prefix else a1 in
      Ret (alloc_start, a2)
  | None => Ret (0, a)
  end.

Definition dealloc (a : LinkedListAllocator) (ptr : Z) (l : Layout) : outcome LinkedListAllocator :=
  '(sz, _) ← size_align l;
  Ret (add_free_region a ptr sz).

Definition free_memory (a : LinkedListAllocator) : Z :=
  foldr (fun n acc => size n + acc) 0 (nodes a).

(** [used_memory] of the module. *)
Definition used_memory (a : LinkedListAllocator) : Z := saturating_sub HEAP_SIZE (free_memory a).

(** ** Invariant *)

Definition nend (n : ListNode) : Z := start_addr n + size n.

(** A node of the free list: room for its header, aligned for it. *)
Definition node_ok (n : ListNode) : Prop :=
  NODE_SIZE <= size n /\ start_addr n mod NODE_ALIGN = 0 /\ size n mod NODE_ALIGN = 0.

(** Nodes in address order inside [lo, hi), at least [g] bytes apart: [g = 0] is
    a sorted disjoint list, [g = 1] one in which no two blocks touch. *)
Fixpoint sorted (g lo hi : Z) (l : list ListNode) : Prop :=
  match l with
  | [] => lo <= hi
  | n :: t => lo + g <= start_addr n /\ node_ok n /\ sorted g (nend n) hi t
  end.

(** The bytes a list of blocks covers. *)
Definition covers (l : list ListNode) (x : Z) : Prop :=
  exists n, n ∈ l /\ start_addr n <= x < nend n.

Definition total (l : list ListNode) : Z := foldr (fun n acc => size n + acc) 0 l.

(** The allocator serving the heap [lo, hi). *)
Definition wf (lo hi : Z) (a : LinkedListAllocator) : Prop :=
  size (head a) = 0 /\ sorted 1 (lo - 1) hi (nodes a).

(** The heap: aligned for nodes and in the lower half of the address space. *)
Definition heap_ok (lo hi : Z) : Prop := 0 < lo /\ lo <= hi /\ hi <= 2 ^ 63.

(** ** Lists of blocks *)
Lemma covers_nil x : ~ covers [] x.
Proof. intros (n & Hn & _). by apply elem_of_nil in Hn. Qed.

Lemma covers_cons n l x : covers (n :: l) x <-> (start_addr n <= x < nend n) \/ covers l x.
Proof.
  unfold covers. setoid_rewrite elem_of_cons. split.
  - intros (m & [->|Hm] & Hx); [by left|right; eauto].
  - intros [Hx|(m & Hm & Hx)]; [exists n|exists m]; auto.
Qed.

Lemma sorted_lo g lo hi l : 0 <= g -> sorted g lo hi l -> lo <= hi.
Proof.
  intros Hg. revert lo. induction l as [|n l IH]; intros lo; [done|]. cbn. intros (H & [? _] & Hs).
  apply IH in Hs. unfold nend, NODE_SIZE in *. lia.
Qed.

Lemma sorted_weaken_lo g lo lo' hi l : lo' <= lo -> sorted g lo hi l -> sorted g lo' hi l.
Proof. destruct l; cbn; [lia|]. intuition lia. Qed.

Lemma covers_range g lo hi l x : 0 <= g -> sorted g lo hi l -> covers l x -> lo + g <= x < hi.
Proof.
  intros Hg. revert lo. induction l as [|n l IH]; intros lo; [intros _ H; by apply covers_nil in H|].
  cbn [sorted]. intros (H & [Hz _] & Hs) Hc. pose proof (sorted_lo _ _ _ _ Hg Hs).
  apply covers_cons in Hc as [Hc|Hc]; [unfold nend, NODE_SIZE in *; lia|].
  pose proof (IH _ Hs Hc). unfold nend, NODE_SIZE in *. lia.
Qed.

(** A node of a sorted list lies in the bounds. *)
Lemma sorted_elem g lo hi l n :
  0 <= g -> sorted g lo hi l -> n ∈ l -> node_ok n /\ lo + g <= start_addr n /\ nend n <= hi.
Proof.
  intros Hg. revert lo. induction l as [|m l IH]; intros lo; [intros _ H; by apply elem_of_nil in H|].
  cbn [sorted]. intros (H & Hm & Hs) Hin. pose proof (sorted_lo _ _ _ _ Hg Hs).
  apply elem_of_cons in Hin as [->|Hin]; [done|]. destruct (IH _ Hs Hin) as (? & ? & ?).
  destruct Hm as [? _]. unfold nend, NODE_SIZE in *. split; [done|]. lia.
Qed.

(** Coalesced lists are canonical: the covered bytes determine the list. *)
Lemma sorted_canonical lo hi l1 l2 :
  sorted 1 lo hi l1 -> sorted 1 lo hi l2 -> (forall x, covers l1 x <-> covers l2 x) -> l1 = l2.
Proof.
  revert lo l2. induction l1 as [|n1 t1 IH]; intros lo [|n2 t2] H1 H2 Hc; [done| | |].
  - destruct H2 as (_ & [? _] & _). destruct (proj2 (Hc (start_addr n2))) as (? & Hn & _).
    + apply covers_cons. left. unfold nend, NODE_SIZE in *. lia.
    + by apply elem_of_nil in Hn.
  - destruct H1 as (_ & [? _] & _). destruct (proj1 (Hc (start_addr n1))) as (? & Hn & _).
    + apply covers_cons. left. unfold nend, NODE_SIZE in *. lia.
    + by apply elem_of_nil in Hn.
  - destruct H1 as (Hl1 & [Hz1 Ha1] & Hs1), H2 as (Hl2 & [Hz2 Ha2] & Hs2).
    unfold NODE_SIZE in *.
    assert (Hlow1 : forall x, covers t1 x -> nend n1 + 1 <= x) by (intros x Hx; by apply (covers_range 1 _ _ _ _ ltac:(lia) Hs1 Hx)).
    assert (Hlow2 : forall x, covers t2 x -> nend n2 + 1 <= x) by (intros x Hx; by apply (covers_range 1 _ _ _ _ ltac:(lia) Hs2 Hx)).
    setoid_rewrite covers_cons in Hc. unfold nend in *.
    assert (start_addr n1 = start_addr n2) as Est.
    { pose proof (proj1 (Hc (start_addr n1)) ltac:(left; lia)) as [?|?%Hlow2];
      pose proof (proj2 (Hc (start_addr n2)) ltac:(left; lia)) as [?|?%Hlow1]; lia. }
    assert (size n1 = size n2) as Esz.
    { destruct (Z.lt_trichotomy (size n1) (size n2)) as [Hlt|[|Hlt]]; [exfalso|done|exfalso].
      - pose proof (proj2 (Hc (start_addr n1 + size n1)) ltac:(left; lia)) as [?|?%Hlow1]; lia.
      - pose proof (proj1 (Hc (start_addr n2 + size n2)) ltac:(left; lia)) as [?|?%Hlow2]; lia. }
    destruct n1 as [s1 z1], n2 as [s2 z2]; simpl in *. subst. f_equal.
    eapply IH; [exact Hs1|exact Hs2|]. intros x. split; intros Hx.
    + pose proof (Hlow1 _ Hx). by destruct (proj1 (Hc x) ltac:(by right)); [lia|].
    + pose proof (Hlow2 _ Hx). by destruct (proj2 (Hc x) ltac:(by right)); [lia|].
Qed.

(** ** Insertion and coalescing *)
Lemma covers_insert n l x : covers (insert_node n l) x <-> covers (n :: l) x.
Proof.
  induction l as [|m l IH]; [done|]. cbn [insert_node].
  destruct (start_addr n <? start_addr m); [done|]. rewrite !covers_cons in *. rewrite IH. tauto.
Qed.

Lemma total_insert n l : total (insert_node n l) = size n + total l.
Proof.
  induction l as [|m l IH]; [done|]. cbn [insert_node].
  destruct (start_addr n <? start_addr m); unfold total in *; cbn in *; lia.
Qed.

Lemma sorted_insert lo hi l n :
  sorted 1 lo hi l -> node_ok n -> lo <= start_addr n -> nend n <= hi ->
  (forall x, start_addr n <= x < nend n -> ~ covers l x) -> sorted 0 lo hi (insert_node n l).
Proof.
  revert lo. induction l as [|m l IH]; intros lo Hs Hn Hlo Hhi Hd; cbn [insert_node].
  { cbn. rewrite Z.add_0_r. auto. }
  destruct Hs as (Hm & [Hmz Hma] & Hs). pose proof Hn as [Hnz _]. unfold NODE_SIZE in *.
  assert (Hdm : nend n <= start_addr m \/ nend m <= start_addr n).
  { destruct (decide (nend n <= start_addr m)); [by left|]. destruct (decide (nend m <= start_addr n)); [by right|].
    exfalso. apply (Hd (Z.max (start_addr n) (start_addr m))); [|apply covers_cons; left]; unfold nend in *; lia. }
  destruct (Z.ltb_spec (start_addr n) (start_addr m)).
  - cbn. rewrite !Z.add_0_r. unfold nend in *. split; [done|]. split; [done|]. split; [lia|]. split; [done|].
    clear -Hs. revert Hs. generalize (start_addr m + size m) as e. intros e Hs. revert e Hs.
    induction l as [|k l IHl]; intros e; cbn; [done|]. intros (? & ? & ?).
    split; [lia|]. split; [done|]. by apply IHl.
  - cbn. split; [lia|]. split; [done|]. apply IH; [done|done|unfold nend in *; lia|done|].
    intros x Hx Hc. apply (Hd x Hx). apply covers_cons. by right.
Qed.

(** Sums of multiples of the node alignment. *)
Lemma mod8_add a b : a mod NODE_ALIGN = 0 -> b mod NODE_ALIGN = 0 -> (a + b) mod NODE_ALIGN = 0.
Proof. intros Ha Hb. rewrite Zplus_mod, Ha, Hb. done. Qed.

Lemma mod8_sub a b : a mod NODE_ALIGN = 0 -> b mod NODE_ALIGN = 0 -> (a - b) mod NODE_ALIGN = 0.
Proof. intros Ha Hb. rewrite Zminus_mod, Ha, Hb. done. Qed.

#[local] Hint Resolve mod8_add mod8_sub : aura.

Lemma end_addr_small n hi : node_ok n -> 0 <= start_addr n -> nend n <= hi -> hi <= 2 ^ 63 -> end_addr n = nend n.
Proof. intros [? _] ? ? ?. apply u64_add_small. unfold nend, NODE_SIZE in *. lia. Qed.

Lemma coalesce_from_spec lo hi cur rest :
  hi <= 2 ^ 63 -> 0 <= start_addr cur -> lo + 1 <= start_addr cur -> node_ok cur -> sorted 0 (nend cur) hi rest ->
  let '(n, l) := coalesce_from cur rest in
  sorted 1 lo hi (n :: l) /\ (forall x, covers (n :: l) x <-> covers (cur :: rest) x) /\
  total (n :: l) = total (cur :: rest).
Proof.
  intros Hhi. revert lo cur. induction rest as [|m rest IH]; intros lo cur H0 Hlo Hok Hs.
  { cbn. auto. }
  cbn [coalesce_from]. pose proof Hs as (Hm & Hmok & Hs'). pose proof (sorted_lo 0 _ _ _ ltac:(lia) Hs').
  pose proof Hok as (Hz & Ha1 & Ha2). pose proof Hmok as (Hmz & Hma1 & Hma2). unfold NODE_SIZE in *.
  assert (Hend : end_addr cur = nend cur).
  { apply (end_addr_small _ hi); auto. unfold nend in *. lia. }
  rewrite Hend. replace (0 <? size cur) with true by lia. cbn [andb].
  destruct (Z.eqb_spec (nend cur) (start_addr m)) as [E|E].
  - assert (u64_add (size cur) (size m) = size cur + size m) as Hsum.
    { apply u64_add_small. unfold nend in *. lia. }
    rewrite Hsum. set (cur' := mkNode (start_addr cur) (size cur + size m)).
    assert (nend cur' = nend m) as Hn' by (unfold nend in *; cbn; lia).
    specialize (IH lo cur'). destruct (coalesce_from cur' rest) as [n l].
    destruct IH as (Hs1 & Hc1 & Ht1); [done|done| |by rewrite Hn'|].
    { split; [unfold NODE_SIZE; cbn; lia|]. cbn. auto with aura. }
    split; [done|]. split.
    + intros x. rewrite Hc1, !covers_cons.
      assert (start_addr cur' <= x < nend cur' <-> start_addr cur <= x < nend cur \/ start_addr m <= x < nend m); [|tauto].
      unfold nend in *. cbn. lia.
    + rewrite Ht1. cbn. lia.
  - specialize (IH (nend cur) m). destruct (coalesce_from m rest) as [n l].
    destruct IH as (Hs1 & Hc1 & Ht1); [unfold nend in *; lia|lia|done|done|].
    split; [split; [done|]; by split|]. split.
    + intros x. rewrite (covers_cons cur (n :: l)), Hc1, (covers_cons cur (m :: rest)). done.
    + change (size cur + total (n :: l) = size cur + total (m :: rest)). by rewrite Ht1.
Qed.

(** Giving a block back: the whole effect of [add_free_region]. *)
Lemma add_free_region_spec lo hi a addr sz :
  heap_ok lo hi -> wf lo hi a -> node_ok (mkNode addr sz) -> lo <= addr -> addr + sz <= hi ->
  (forall x, addr <= x < addr + sz -> ~ covers (nodes a) x) ->
  let a' := add_free_region a addr sz in
  wf lo hi a' /\ head a' = head a /\
  (forall x, covers (nodes a') x <-> (addr <= x < addr + sz) \/ covers (nodes a) x) /\
  free_memory a' = free_memory a + sz.
Proof.
  intros (H0 & Hlh & Hhi) [Hh Hs] Hok Hlo Hend Hd. cbv zeta. unfold add_free_region.
  pose proof Hok as [Hz _]. cbn in Hz. replace (sz <? NODE_SIZE) with false by lia.
  assert (Hins : sorted 0 lo hi (insert_node (mkNode addr sz) (nodes a))).
  { pose proof (sorted_insert (lo - 1) hi (nodes a) (mkNode addr sz) Hs Hok) as Hi.
    cbn in Hi. specialize (Hi ltac:(lia) Hend Hd).
    destruct (insert_node (mkNode addr sz) (nodes a)) as [|n l] eqn:E; [done|].
    destruct Hi as (_ & Hn & Ht). split; [|done]. rewrite Z.add_0_r.
    assert (n ∈ insert_node (mkNode addr sz) (nodes a)) as Hin by (rewrite E; left).
    assert (covers (insert_node (mkNode addr sz) (nodes a)) (start_addr n)) as Hc.
    { exists n. split; [done|]. destruct Hn as [? _]. unfold nend, NODE_SIZE in *. lia. }
    apply covers_insert, covers_cons in Hc as [Hc|Hc]; [cbn in Hc; lia|].
    apply (covers_range 1 _ _ _ _ ltac:(lia) Hs) in Hc. lia. }
  unfold coalesce. cbn [head nodes set_nodes].
  destruct (insert_node (mkNode addr sz) (nodes a)) as [|n l] eqn:E; [by destruct (nodes a) as [|x t]; cbn in E; [|destruct (addr <? start_addr x)]|].
  cbn [coalesce_from]. rewrite Hh. cbn [andb Z.ltb Z.compare]. destruct Hins as (Hn1 & Hn2 & Hn3).
  pose proof (coalesce_from_spec (lo - 1) hi n l Hhi ltac:(lia) ltac:(lia) Hn2 Hn3) as Hc.
  destruct (coalesce_from n l) as [n' l']. destruct Hc as (Hs1 & Hc1 & Ht1).
  split; [by split|]. split; [done|]. cbn [nodes]. split.
  - intros x. rewrite Hc1, <- E, covers_insert, covers_cons. done.
  - unfold free_memory. cbn [nodes]. change (total (n' :: l') = total (nodes a) + sz).
    rewrite Ht1, <- E, total_insert. cbn. lia.
Qed.

(** ** Requests *)

(** A layout Rust can build: a power-of-two alignment, and a size that stays
    within [isize::MAX] once rounded up to it (or to the node alignment). *)
Definition layout_ok (l : Layout) : Prop :=
  0 <= l_size l /\ (exists k, 0 <= k <= 63 /\ l_align l = 2 ^ k) /\
  l_size l + Z.max (l_align l) NODE_ALIGN <= 2 ^ 63.

Lemma size_align_spec l :
  layout_ok l ->
  exists sz k, size_align l = Ret (sz, 2 ^ k) /\ 3 <= k <= 63 /\ l_align l <= 2 ^ k /\ 2 ^ k mod l_align l = 0 /\
    l_size l <= sz <= 2 ^ 63 /\ NODE_SIZE <= sz /\ sz mod NODE_ALIGN = 0.
Proof.
  intros (H0 & (k & Hk & Ek) & Hmax). unfold size_align.
  assert (Z.max (l_align l) NODE_ALIGN = 2 ^ Z.max k 3) as Emax.
  { unfold NODE_ALIGN. change 8 with (2 ^ 3). rewrite Ek. destruct (Z.le_ge_cases k 3).
    - pose proof (Z.pow_le_mono_r 2 k 3). replace (Z.max k 3) with 3 by lia. lia.
    - pose proof (Z.pow_le_mono_r 2 3 k). replace (Z.max k 3) with k by lia. lia. }
  rewrite Emax in *. set (j := Z.max k 3) in *.
  replace (2 ^ 63 - 2 ^ j <? l_size l) with false by lia.
  destruct (align_up_bounds (l_size l) j) as [Hb Hm]; [lia|done|lia|].
  fold (align_up (l_size l) (2 ^ j)) in Hb, Hm.
  apply (mod_pow2_le _ 3) in Hm; [|lia].
  exists (Z.max (align_up (l_size l) (2 ^ j)) NODE_SIZE), j.
  split; [done|]. split; [lia|]. split; [rewrite Ek; apply Z.pow_le_mono_r; lia|].
  split; [rewrite Ek; apply (mod_pow2_le _ k j); [lia|apply Z.mod_same; lia]|].
  unfold NODE_SIZE, NODE_ALIGN. change (2 ^ 3) with 8 in Hm. split; [lia|]. split; [lia|].
  destruct (Z.max_spec (align_up (l_size l) (2 ^ j)) 16) as [[_ ->]|[_ ->]]; done.
Qed.

(** What an accepted region guarantees: the block lies in it, aligned, and what is
    left on each side is empty or can hold a node. *)
Lemma alloc_from_region_Ok r sz k s hi :
  hi <= 2 ^ 63 -> node_ok r -> 0 <= start_addr r -> nend r <= hi -> 3 <= k <= 63 -> 0 <= sz ->
  alloc_from_region r sz (2 ^ k) = Ok s ->
  start_addr r <= s /\ s + sz <= nend r /\ s mod 2 ^ k = 0 /\
  (s = start_addr r \/ start_addr r + NODE_SIZE <= s) /\ (s + sz = nend r \/ s + sz + NODE_SIZE <= nend r).
Proof.
  intros Hhi Hok H0 Hend Hk Hsz. pose proof Hok as [Hz _].
  assert (2 ^ k <= 2 ^ 63) by (apply Z.pow_le_mono_r; lia).
  assert (start_addr r < 2 ^ 63) by (unfold nend, NODE_SIZE in *; lia).
  destruct (align_up_bounds (start_addr r) k) as [Hb Hm]; [lia|done|lia|].
  fold (align_up (start_addr r) (2 ^ k)) in Hb, Hm. unfold alloc_from_region.
  rewrite (end_addr_small r hi) by done. set (s0 := align_up (start_addr r) (2 ^ k)) in *.
  unfold checked_add. destruct (Z.ltb_spec (s0 + sz) (2 ^ 64)); [|done].
  destruct (Z.ltb_spec (nend r) (s0 + sz)); [done|].
  assert (u64_sub s0 (start_addr r) = s0 - start_addr r) as -> by (apply u64_sub_small; lia).
  assert (u64_sub (nend r) (s0 + sz) = nend r - (s0 + sz)) as -> by (apply u64_sub_small; lia).
  destruct ((0 <? s0 - start_addr r) && (s0 - start_addr r <? NODE_SIZE))%bool eqn:E1; [done|].
  destruct ((0 <? nend r - (s0 + sz)) && (nend r - (s0 + sz) <? NODE_SIZE))%bool eqn:E2; [done|].
  intros [= <-]. apply andb_false_iff in E1, E2.
  split; [lia|]. split; [lia|]. split; [done|]. split; [destruct E1|destruct E2]; zbool; lia.
Qed.

Lemma find_region_Some l sz align r s rest :
  find_region l sz align = Some (r, s, rest) ->
  alloc_from_region r sz align = Ok s /\
  exists l1 l2, l = l1 ++ r :: l2 /\ rest = l1 ++ l2 /\ Forall (fun n => alloc_from_region n sz align = Err tt) l1.
Proof.
  revert r s rest. induction l as [|n l IH]; intros r s rest; [done|]. cbn [find_region].
  destruct (alloc_from_region n sz align) as [s'|[]] eqn:E.
  - intros [= <- <- <-]. split; [done|]. exists [], l. auto.
  - destruct (find_region l sz align) as [[[r' s'] t']|] eqn:Ef; [|done]. intros [= <- <- <-].
    destruct (IH _ _ _ eq_refl) as (Ho & l1 & l2 & -> & -> & HF). split; [done|].
    exists (n :: l1), l2. auto.
Qed.

Lemma find_region_None l sz align :
  find_region l sz align = None -> Forall (fun n => alloc_from_region n sz align = Err tt) l.
Proof.
  induction l as [|n l IH]; [constructor|]. cbn [find_region].
  destruct (alloc_from_region n sz align) as [s'|[]] eqn:E; [done|].
  destruct (find_region l sz align) as [[[? ?] ?]|]; [done|]. auto.
Qed.

(** Taking one node out. *)
Lemma sorted_remove lo hi l1 r l2 :
  sorted 1 lo hi (l1 ++ r :: l2) ->
  sorted 1 lo hi (l1 ++ l2) /\ (forall x, start_addr r <= x < nend r -> ~ covers (l1 ++ l2) x).
Proof.
  revert lo. induction l1 as [|n l1 IH]; intros lo; cbn [app sorted].
  - intros (Hlo & [Hz _] & Hs). split.
    + eapply sorted_weaken_lo; [|done]. unfold nend, NODE_SIZE in *. lia.
    + intros x Hx Hc. apply (covers_range 1 _ _ _ _ ltac:(lia) Hs) in Hc. lia.
  - intros (Hlo & Hn & Hs). destruct (IH _ Hs) as [Hs' Hd]. split; [done|].
    intros x Hx Hc. apply covers_cons in Hc as [Hc|Hc]; [|by apply (Hd x)].
    destruct (sorted_elem 1 _ _ _ r ltac:(lia) Hs) as (_ & ? & _); [set_solver|]. lia.
Qed.

Lemma covers_app l1 l2 x : covers (l1 ++ l2) x <-> covers l1 x \/ covers l2 x.
Proof.
  induction l1 as [|n l1 IH]; cbn [app]; [|rewrite !covers_cons, IH; tauto].
  split; [by right|]. intros [Hc|]; [by apply covers_nil in Hc|done].
Qed.

Lemma total_cons n l : total (n :: l) = size n + total l.
Proof. done. Qed.

Lemma total_app l1 l2 : total (l1 ++ l2) = total l1 + total l2.
Proof. unfold total. induction l1 as [|n l1 IH]; cbn; [done|]. rewrite IH. lia. Qed.

(** The excess of a split region, when there is any, goes back to the list. *)
Lemma add_excess_spec lo hi a addr e :
  heap_ok lo hi -> wf lo hi a -> (e = 0 \/ node_ok (mkNode addr e)) -> lo <= addr -> addr + e <= hi ->
  (forall x, addr <= x < addr + e -> ~ covers (nodes a) x) ->
  let a' := if 0 <? e then add_free_region a addr e else a in
  wf lo hi a' /\ head a' = head a /\
  (forall x, covers (nodes a') x <-> (addr <= x < addr + e) \/ covers (nodes a) x) /\
  free_memory a' = free_memory a + e.
Proof.
  intros Hh Hwf [->|He] Hlo Hhi Hd; cbv zeta.
  - cbn. split; [done|]. split; [done|]. split; [|lia]. intros x. split; [by right|]. intros [|]; [lia|done].
  - pose proof He as [Hz _]. cbn in Hz. replace (0 <? e) with true by (unfold NODE_SIZE in *; lia).
    by apply add_free_region_spec.
Qed.

(** The effect of [alloc], failing or not. *)
Lemma alloc_spec lo hi a l :
  heap_ok lo hi -> wf lo hi a -> layout_ok l ->
  exists sz k p a',
    size_align l = Ret (sz, 2 ^ k) /\ 3 <= k <= 63 /\ NODE_SIZE <= sz /\ sz mod NODE_ALIGN = 0 /\
    alloc a l = Ret (p, a') /\ wf lo hi a' /\ head a' = head a /\
    ((p = 0 /\ a' = a /\ Forall (fun n => alloc_from_region n sz (2 ^ k) = Err tt) (nodes a)) \/
     (lo <= p /\ p + sz <= hi /\ p mod 2 ^ k = 0 /\
      (forall x, p <= x < p + sz -> covers (nodes a) x) /\
      (forall x, covers (nodes a') x <-> covers (nodes a) x /\ ~ (p <= x < p + sz)) /\
      free_memory a' = free_memory a - sz)).
Proof.
  intros Hheap Hwf Hl. pose proof Hheap as (H0 & Hlh & Hhi). pose proof Hwf as [Hhd Hs].
  destruct (size_align_spec l Hl) as (sz & k & Esa & Hk & _ & _ & Hsz & Hnz & Hsz8).
  exists sz, k. unfold alloc. rewrite Esa. cbn.
  destruct (find_region (nodes a) sz (2 ^ k)) as [[[r s] rest]|] eqn:Ef.
  2:{ exists 0, a. apply find_region_None in Ef. do 7 (split; [done|]). by left. }
  destruct (find_region_Some _ _ _ _ _ _ Ef) as (Ho & l1 & l2 & El & -> & _).
  rewrite El in Hs. destruct (sorted_remove _ _ _ _ _ Hs) as [Hs' Hd].
  destruct (sorted_elem 1 _ _ _ r ltac:(lia) Hs) as (Hrok & Hrlo & Hrhi); [set_solver|].
  destruct (alloc_from_region_Ok r sz k s hi) as (Hs1 & Hs2 & Hs3 & Hpre & Hsuf);
    [done|done|lia|done|done|unfold NODE_SIZE in *; lia|done|].
  pose proof (mod_pow2_le s 3 k ltac:(lia) Hs3) as Hs8. change (2 ^ 3) with NODE_ALIGN in Hs8.
  pose proof Hrok as (Hrz & Hr1 & Hr2).
  assert (0 <= start_addr r) as Hr0 by lia. rewrite (end_addr_small r hi Hrok Hr0 Hrhi Hhi).
  unfold NODE_SIZE in *.
  assert (u64_add s sz = s + sz) as -> by (apply u64_add_small; unfold nend in *; lia).
  assert (u64_sub s (start_addr r) = s - start_addr r) as -> by (apply u64_sub_small; unfold nend in *; lia).
  assert (u64_sub (nend r) (s + sz) = nend r - (s + sz)) as -> by (apply u64_sub_small; unfold nend in *; lia).
  set (a0 := set_nodes a (l1 ++ l2)). assert (wf lo hi a0) as Hwf0 by (by split).
  destruct (add_excess_spec lo hi a0 (s + sz) (nend r - (s + sz))) as (Hwf1 & Hh1 & Hc1 & Hf1); [done|done| |lia|lia| |].
  { destruct Hsuf; [left; lia|right]. split; [unfold NODE_SIZE; cbn; lia|]. cbn. unfold nend. auto with aura. }
  { intros x Hx. apply Hd. lia. }
  set (a1 := if 0 <? nend r - (s + sz) then _ else _) in *.
  destruct (add_excess_spec lo hi a1 (start_addr r) (s - start_addr r)) as (Hwf2 & Hh2 & Hc2 & Hf2); [done|done| |lia|lia| |].
  { destruct Hpre; [left; lia|right]. split; [unfold NODE_SIZE; cbn; lia|]. cbn. auto with aura. }
  { intros x Hx. rewrite Hc1. intros [|Hc]; [lia|]. apply (Hd x); [lia|done]. }
  set (a2 := if 0 <? s - start_addr r then _ else _) in *.
  exists s, a2. split; [done|]. split; [done|]. split; [done|]. split; [done|]. split; [done|].
  split; [done|]. split; [by rewrite Hh2, Hh1|]. right. split; [lia|]. split; [lia|]. split; [done|].
  assert (Hin : forall x, covers (nodes a) x <-> (start_addr r <= x < nend r) \/ covers (l1 ++ l2) x).
  { intros x. rewrite El, !covers_app, covers_cons. tauto. }
  split; [intros x Hx; apply Hin; left; lia|]. split.
  - intros x. rewrite Hc2, Hc1, Hin. cbn [nodes a0 set_nodes]. specialize (Hd x). split.
    + intros [?|[?|Hc]]; [split; [left|]; lia..|]. split; [by right|]. intros ?. apply Hd; [lia|done].
    + intros [[Hx|Hc] Hn]; [|by right; right]. lia.
  - rewrite Hf2, Hf1. unfold free_memory. fold (total (nodes a)) (total (nodes a0)).
    rewrite El. cbn [nodes a0 set_nodes]. rewrite !total_app, total_cons. unfold nend. lia.
Qed.

(** The effect of [dealloc] on a block that is not free. *)
Lemma dealloc_spec lo hi a l sz al p :
  heap_ok lo hi -> wf lo hi a -> layout_ok l -> size_align l = Ret (sz, al) ->
  p mod NODE_ALIGN = 0 -> lo <= p -> p + sz <= hi ->
  (forall x, p <= x < p + sz -> ~ covers (nodes a) x) ->
  exists a', dealloc a p l = Ret a' /\ wf lo hi a' /\ head a' = head a /\
    (forall x, covers (nodes a') x <-> (p <= x < p + sz) \/ covers (nodes a) x) /\
    free_memory a' = free_memory a + sz.
Proof.
  intros Hheap Hwf Hl Esa Hp Hlo Hhi Hd.
  destruct (size_align_spec l Hl) as (sz' & k & Esa' & _ & _ & _ & _ & Hnz & Hsz8).
  rewrite Esa in Esa'. simplify_eq. unfold dealloc. rewrite Esa. cbn. eexists. split; [done|].
  by apply add_free_region_spec.
Qed.

(** ** Properties *)

(** Allocation.  On a well-formed heap and for a layout Rust can build,
    [alloc] returns.  Either it returns null, leaves the heap unchanged and no
    free region could hold the request, or it returns a block of at least the
    requested size, aligned as requested, that lies in the heap and was entirely
    free; afterwards exactly the bytes of the block are no longer free, the free
    list is still sorted, disjoint and coalesced, and the free count dropped by
    the size of the block. *)
Theorem alloc_correct lo hi a l :
  heap_ok lo hi -> wf lo hi a -> layout_ok l ->
  exists sz k p a',
    size_align l = Ret (sz, 2 ^ k) /\ l_size l <= sz /\ alloc a l = Ret (p, a') /\ wf lo hi a' /\
    ((p = 0 /\ a' = a /\ Forall (fun n => alloc_from_region n sz (2 ^ k) = Err tt) (nodes a)) \/
     (lo <= p /\ p + sz <= hi /\ p mod l_align l = 0 /\
      (forall x, p <= x < p + sz -> covers (nodes a) x) /\
      (forall x, covers (nodes a') x <-> covers (nodes a) x /\ ~ (p <= x < p + sz)) /\
      free_memory a' = free_memory a - sz)).
Proof.
  intros Hheap Hwf Hl. destruct (alloc_spec lo hi a l Hheap Hwf Hl) as (sz & k & p & a' & Esa & _ & _ & _ & E & Hwf' & _ & H).
  destruct (size_align_spec l Hl) as (sz' & k' & Esa' & Hk' & _ & Hdiv & Hsz & _).
  rewrite Esa in Esa'. injection Esa' as <- Ek. exists sz, k, p, a'.
  split; [done|]. split; [lia|]. split; [done|]. split; [done|].
  destruct H as [H|(H1 & H2 & H3 & H4)]; [by left|right]. split; [done|]. split; [done|]. split; [|done].
  destruct Hl as (_ & (j & Hj & Ej) & _). rewrite Ej, <- Ek in *.
  apply Z.mod_divide in Hdiv; [|lia]. apply Z.mod_divide in H3; [|lia]. apply Z.mod_divide; [lia|]. by etrans.
Qed.

(** Deallocation.  Giving back a block that is not free, with its layout,
    succeeds, makes exactly its bytes free, keeps the list sorted, disjoint and
    coalesced, and adds its size to the free count. *)
Theorem dealloc_correct lo hi a l sz al p :
  heap_ok lo hi -> wf lo hi a -> layout_ok l -> size_align l = Ret (sz, al) ->
  p mod NODE_ALIGN = 0 -> lo <= p -> p + sz <= hi ->
  (forall x, p <= x < p + sz -> ~ covers (nodes a) x) ->
  exists a', dealloc a p l = Ret a' /\ wf lo hi a' /\
    (forall x, covers (nodes a') x <-> (p <= x < p + sz) \/ covers (nodes a) x) /\
    free_memory a' = free_memory a + sz.
Proof.
  intros. destruct (dealloc_spec lo hi a l sz al p) as (a' & ? & ? & _ & ?); eauto.
Qed.

(** Alloc/dealloc round trip.  Freeing at once the block an allocation
    returned restores the allocator exactly: splitting and coalescing are inverse
    and leave no fragmentation. *)
Theorem alloc_dealloc_roundtrip lo hi a l p a' :
  heap_ok lo hi -> wf lo hi a -> layout_ok l -> alloc a l = Ret (p, a') -> p <> 0 ->
  dealloc a' p l = Ret a.
Proof.
  intros Hheap Hwf Hl E Hp.
  destruct (alloc_spec lo hi a l Hheap Hwf Hl) as (sz & k & p1 & a1 & Esa & Hk & Hnz & Hsz8 & E1 & Hwf1 & Hh1 & H).
  rewrite E in E1. injection E1 as <- <-. destruct H as [[? _]|(Hlo & Hhi & Hal & Hin & Hc & _)]; [done|].
  destruct (dealloc_spec lo hi a' l sz (2 ^ k) p) as (a2 & -> & [_ Hs2] & Hh2 & Hc2 & _); [done..| |done|done| |].
  { apply (mod_pow2_le _ 3 k); [lia|done]. }
  { intros x Hx Hf. by apply Hc in Hf as [_ ?]. }
  f_equal. destruct a as [h ns], a2 as [h2 ns2]. cbn in *. f_equal; [congruence|].
  apply (sorted_canonical (lo - 1) hi); [done|apply Hwf|]. intros x. rewrite Hc2, Hc.
  split; [intros [Hx|[? _]]; auto|]. intros Hx. destruct (decide (p <= x < p + sz)); tauto.
Qed.

(** ** Runs of the heap *)

(** The allocator and the blocks its clients hold, with the layouts they were
    requested with. *)
Record heap := mkHeap { alc : LinkedListAllocator; live : list (Z * Layout) }.

(** The bytes a live block occupies. *)
Definition block (b : Z * Layout) : ListNode :=
  mkNode b.1 (match size_align b.2 with Ret (sz, _) => sz | _ => 0 end).

(** A client allocates (successfully or not) or gives back a block it holds, as
    [GlobalAlloc] requires of it. *)
Inductive hstep : heap -> heap -> Prop :=
| h_alloc a bs l p a' :
    layout_ok l -> alloc a l = Ret (p, a') -> p <> 0 -> hstep (mkHeap a bs) (mkHeap a' ((p, l) :: bs))
| h_null a bs l a' :
    layout_ok l -> alloc a l = Ret (0, a') -> hstep (mkHeap a bs) (mkHeap a' bs)
| h_dealloc a bs1 p l bs2 a' :
    dealloc a p l = Ret a' -> hstep (mkHeap a (bs1 ++ (p, l) :: bs2)) (mkHeap a' (bs1 ++ bs2)).

(** Blocks of a list share no byte. *)
Fixpoint disjoint_blocks (l : list ListNode) : Prop :=
  match l with
  | [] => True
  | b :: t => (forall x, start_addr b <= x < nend b -> ~ covers t x) /\ disjoint_blocks t
  end.

Lemma disjoint_blocks_remove l1 b l2 :
  disjoint_blocks (l1 ++ b :: l2) ->
  disjoint_blocks (l1 ++ l2) /\ forall x, start_addr b <= x < nend b -> ~ covers (l1 ++ l2) x.
Proof.
  induction l1 as [|c l1 IH]; cbn [app disjoint_blocks]; [tauto|].
  intros [Hc Hd]. apply IH in Hd as [Hd Hb]. split; [split; [|done]|].
  - intros x Hx Hcov. apply (Hc x Hx). rewrite !covers_app, ?covers_cons in *. tauto.
  - intros x Hx Hcov. apply covers_cons in Hcov as [Hcov|Hcov]; [|by apply (Hb x)].
    apply (Hc x Hcov). rewrite covers_app, covers_cons. tauto.
Qed.

(** A block serves its layout: aligned as requested, and at least as long. *)
Definition fits (b : Z * Layout) : Prop := b.1 mod l_align b.2 = 0 /\ l_size b.2 <= size (block b).

Lemma block_fits l s k p : layout_ok l -> size_align l = Ret (s, 2 ^ k) -> p mod 2 ^ k = 0 -> fits (p, l).
Proof.
  intros Hl Es Hp. destruct (size_align_spec l Hl) as (s' & k' & E & Hk & Hle & Hm & Hs & _). rewrite Es in E. injection E as <- E.
  destruct Hl as (_ & (j & Hj & Ej) & _). rewrite <- E in Hm. unfold fits, block. cbn. rewrite Es. split; [|cbn; lia].
  rewrite Ej in *. pose proof (Z.div_mod p (2 ^ k)) as Hd. pose proof (Z.div_mod (2 ^ k) (2 ^ j)) as Hd2.
  rewrite Hd, Hp, Hd2, Hm by lia. rewrite !Z.add_0_r, <- Z.mul_assoc, Z.mul_comm. apply Z.mod_mul. lia.
Qed.

(** Every byte of the heap is free or in exactly one live block. *)
Record heap_inv (lo hi : Z) (h : heap) : Prop := {
  hi_wf : wf lo hi (alc h);
  hi_live : Forall (fun b => layout_ok b.2 /\ b.1 mod NODE_ALIGN = 0 /\ lo <= b.1 /\ nend (block b) <= hi) (live h);
  hi_fits : Forall fits (live h);
  hi_disjoint : disjoint_blocks (map block (live h));
  hi_apart : forall x, covers (nodes (alc h)) x -> ~ covers (map block (live h)) x;
  hi_all : forall x, lo <= x < hi -> covers (nodes (alc h)) x \/ covers (map block (live h)) x;
  hi_sum : free_memory (alc h) + total (map block (live h)) = hi - lo
}.

Lemma block_nend p l sz al : size_align l = Ret (sz, al) -> nend (block (p, l)) = p + sz.
Proof. intros E. unfold nend, block. cbn. by rewrite E. Qed.

Lemma heap_inv_step lo hi h h' : heap_ok lo hi -> heap_inv lo hi h -> hstep h h' -> heap_inv lo hi h'.
Proof.
  intros Hheap Hinv Hs. pose proof Hinv as [Hwf Hlive Hfit Hdis Hap Hall Hsum].
  destruct Hs as [a bs l p a' Hl E Hp|a bs l a' Hl E|a bs1 p l bs2 a' E]; cbn [alc live map] in *.
  - destruct (alloc_spec lo hi a l Hheap Hwf Hl) as (sz & k & p1 & a1 & Esa & Hk & Hnz & Hsz8 & E1 & Hwf1 & _ & H).
    rewrite E in E1. injection E1 as <- <-. destruct H as [[? _]|(Hlo & Hhi & Hal & Hin & Hc & Hf)]; [done|].
    pose proof (block_nend p l sz (2 ^ k) Esa) as Hbe.
    split; cbn [alc live map]; [done| | | | | |].
    + constructor; [|done]. cbn. rewrite Hbe. split; [done|]. split; [|done]. apply (mod_pow2_le _ 3 k); [lia|done].
    + constructor; [by apply (block_fits _ sz k)|done].
    + split; [|done]. intros x Hx Hcov. rewrite Hbe in Hx. cbn in Hx. apply (Hap x); [by apply Hin|done].
    + intros x Hx Hcov. apply Hc in Hx as [Hx Hn]. apply covers_cons in Hcov as [Hcov|Hcov]; [|by apply (Hap x)].
      rewrite Hbe in Hcov. by apply Hn.
    + intros x Hx. rewrite covers_cons, Hbe, Hc. cbn. destruct (decide (p <= x < p + sz)); [tauto|].
      destruct (Hall x Hx); tauto.
    + rewrite Hf, total_cons. cbn. rewrite Esa. cbn in Hsum. lia.
  - destruct (alloc_spec lo hi a l Hheap Hwf Hl) as (sz & k & p1 & a1 & _ & _ & _ & _ & E1 & _ & _ & H).
    rewrite E in E1. injection E1 as <- <-. destruct Hheap as (? & _ & _).
    destruct H as [(_ & -> & _)|(? & _)]; [done|lia].
  - rewrite map_app in *. cbn [map] in *.
    destruct (disjoint_blocks_remove _ _ _ Hdis) as [Hdis' Hb].
    apply Forall_app in Hlive as [Hl1 Hl2]. apply Forall_cons_1 in Hl2 as [(Hlok & Hp8 & Hplo & Hphi) Hl2].
    destruct (size_align_spec l Hlok) as (sz & k & Esa & _). cbn in Hplo, Hphi, Hp8.
    pose proof (block_nend p l sz (2 ^ k) Esa) as Hbe. rewrite Hbe in *. cbn [start_addr block fst] in Hb.
    destruct (dealloc_spec lo hi a l sz (2 ^ k) p) as (a1 & E1 & Hwf1 & _ & Hc1 & Hf1); [done..| |].
    { intros x Hx Hf. apply (Hap x Hf). rewrite covers_app, covers_cons, Hbe. cbn. tauto. }
    rewrite E in E1. injection E1 as <-.
    split; cbn [alc live]; rewrite ?map_app; [done| | |done| | |].
    + by apply Forall_app.
    + apply Forall_app in Hfit as [Hf1' Hf2']. apply Forall_cons_1 in Hf2' as [_ Hf2']. by apply Forall_app.
    + intros x Hx. apply Hc1 in Hx as [Hx|Hx]; [by apply Hb|]. intros Hcov. apply (Hap x Hx).
      rewrite !covers_app, ?covers_cons in *. tauto.
    + intros x Hx. rewrite Hc1. pose proof (Hall x Hx) as [|Hcov]; [tauto|].
      rewrite !covers_app, ?covers_cons in *. rewrite Hbe in Hcov. cbn in Hcov. tauto.
    + rewrite Hf1. rewrite !total_app, ?total_cons in *. cbn in Hsum. rewrite Esa in Hsum. lia.
Qed.

(** A heap on which nothing is allocated yet: [init] on an empty allocator. *)
Definition fresh_heap (at_ lo hi : Z) : heap := mkHeap (init (new at_) lo (hi - lo)) [].

(** Bounds of a region that can be handed to [init]. *)
Definition region_ok (lo hi : Z) : Prop :=
  heap_ok lo hi /\ NODE_SIZE <= hi - lo /\ lo mod NODE_ALIGN = 0 /\ hi mod NODE_ALIGN = 0.

Lemma fresh_nodes at_ lo hi :
  region_ok lo hi -> nodes (init (new at_) lo (hi - lo)) = [mkNode lo (hi - lo)].
Proof.
  intros (_ & Hz & _). unfold init, add_free_region. replace (hi - lo <? NODE_SIZE) with false by lia. done.
Qed.

Lemma fresh_heap_inv at_ lo hi : region_ok lo hi -> heap_inv lo hi (fresh_heap at_ lo hi).
Proof.
  intros Hr. pose proof Hr as (Hheap & Hz & Hl8 & Hh8). unfold fresh_heap.
  assert (head (init (new at_) lo (hi - lo)) = mkNode at_ 0) as Hh.
  { unfold init, add_free_region. replace (hi - lo <? NODE_SIZE) with false by lia. done. }
  split; cbn [alc live map]; unfold free_memory, wf; rewrite ?Hh, ?fresh_nodes by done; cbn.
  - split; [done|]. split; [lia|]. split; [split; [done|]; cbn; auto with aura|]. unfold nend. cbn. lia.
  - constructor.
  - constructor.
  - done.
  - intros x _ Hc. by apply covers_nil in Hc.
  - intros x Hx. left. apply covers_cons. left. unfold nend. cbn. lia.
  - lia.
Qed.

Lemma heap_inv_reachable at_ lo hi h :
  region_ok lo hi -> rtc hstep (fresh_heap at_ lo hi) h -> heap_inv lo hi h.
Proof.
  intros Hr. pose proof (fresh_heap_inv at_ lo hi Hr) as H0. destruct Hr as [Hheap _].
  generalize dependent (fresh_heap at_ lo hi). intros h0 H0 Hs.
  induction Hs as [|x y z Hxy _ IH]; [done|]. eauto using heap_inv_step.
Qed.

(** C2: heap safety.  After any sequence of allocations and frees of live blocks,
    every live block has the alignment it was requested with and at least the
    requested size, the live blocks are pairwise disjoint, lie in the heap, share no
    byte with the free list, and together with it account for every byte: free memory
    plus the live sizes is the size of the heap. *)
Theorem heap_safety at_ lo hi h :
  region_ok lo hi -> rtc hstep (fresh_heap at_ lo hi) h ->
  (forall p l, (p, l) ∈ live h -> p mod l_align l = 0 /\ l_size l <= size (block (p, l))) /\
  disjoint_blocks (map block (live h)) /\
  (forall x, covers (map block (live h)) x -> lo <= x < hi /\ ~ covers (nodes (alc h)) x) /\
  free_memory (alc h) + total (map block (live h)) = hi - lo.
Proof.
  intros Hr Hs. destruct (heap_inv_reachable _ _ _ _ Hr Hs) as [Hwf Hlive Hfit Hdis Hap Hall Hsum].
  split; [intros p l Hb; by apply (proj1 (Forall_forall _ _) Hfit (p, l))|]. split; [done|]. split; [|done]. intros x Hx. split; [|intros Hf; by apply (Hap x)].
  destruct Hx as (n & Hn & Hx). apply list_elem_of_In, in_map_iff in Hn as (b & <- & Hb%list_elem_of_In).
  rewrite Forall_forall in Hlive. destruct (Hlive b Hb) as (_ & _ & ? & ?). cbn in *. lia.
Qed.

(** No leak and no fragmentation.  Once every block has been given back the
    free list is again the single block that [init] created. *)
Theorem all_freed_single_block at_ lo hi h :
  region_ok lo hi -> rtc hstep (fresh_heap at_ lo hi) h -> live h = [] ->
  nodes (alc h) = [mkNode lo (hi - lo)].
Proof.
  intros Hr Hs Hlive. destruct (heap_inv_reachable _ _ _ _ Hr Hs) as [[_ Hsort] _ _ _ _ Hall _].
  destruct (fresh_heap_inv at_ lo hi Hr) as [[_ Hsort0] _ _ _ _ _ _]. cbn [alc fresh_heap] in Hsort0.
  rewrite fresh_nodes in Hsort0 by done. apply (sorted_canonical (lo - 1) hi); [done|done|].
  intros x. rewrite covers_cons. unfold nend. cbn. split.
  - intros Hc. apply (covers_range 1 _ _ _ _ ltac:(lia) Hsort) in Hc. left. lia.
  - intros [Hx|Hx]; [|by apply covers_nil in Hx]. rewrite Hlive in Hall.
    destruct (Hall x ltac:(lia)) as [|Hc]; [done|by apply covers_nil in Hc].
Qed.

(** ** Witnesses: a 64 KiB heap at 1 MiB *)
Definition demo_heap : heap := fresh_heap 0x9000 0x100000 0x110000.
Definition demo_layout : Layout := mkLayout 100 64.

Lemma demo_region : region_ok 0x100000 0x110000.
Proof. unfold region_ok, heap_ok, NODE_SIZE, NODE_ALIGN. split; [lia|]. split; [lia|]. split; reflexivity. Qed.

Lemma demo_layout_ok : layout_ok demo_layout.
Proof. split; [cbn; lia|]. split; [exists 6; split; [lia|reflexivity]|cbn; unfold NODE_ALIGN; lia]. Qed.

Lemma demo_step : hstep demo_heap (mkHeap (mkAlloc (mkNode 0x9000 0) [mkNode 0x100080 0xFF80]) [(0x100000, demo_layout)]).
Proof. apply (h_alloc _ _ demo_layout 0x100000); [apply demo_layout_ok|reflexivity|done]. Qed.

Lemma demo_step_back :
  hstep (mkHeap (mkAlloc (mkNode 0x9000 0) [mkNode 0x100080 0xFF80]) [(0x100000, demo_layout)]) demo_heap.
Proof. apply (h_dealloc _ [] 0x100000 demo_layout []). reflexivity. Qed.

Lemma alloc_correct_witness :
  exists a', alloc (alc demo_heap) demo_layout = Ret (0x100000, a') /\ wf 0x100000 0x110000 a'.
Proof.
  destruct (alloc_correct 0x100000 0x110000 (alc demo_heap) demo_layout) as (sz & k & p & a' & _ & _ & E & Hwf & _).
  - apply demo_region.
  - split; [reflexivity|]. repeat split; cbn; unfold nend, NODE_SIZE; cbn; lia.
  - apply demo_layout_ok.
  - exists a'. split; [|exact Hwf]. rewrite E. vm_compute in E. by simplify_eq.
Defined.

Lemma dealloc_correct_witness :
  exists a', dealloc (mkAlloc (mkNode 0x9000 0) [mkNode 0x100080 0xFF80]) 0x100000 demo_layout = Ret a' /\
             free_memory a' = 0xFF80 + 128.
Proof.
  destruct (dealloc_correct 0x100000 0x110000 (mkAlloc (mkNode 0x9000 0) [mkNode 0x100080 0xFF80]) demo_layout 128 64 0x100000)
    as (a' & E & _ & _ & Hf).
  - apply demo_region.
  - split; [reflexivity|]. repeat split; cbn; unfold nend, NODE_SIZE; cbn; lia.
  - apply demo_layout_ok.
  - reflexivity.
  - reflexivity.
  - lia.
  - lia.
  - intros x Hx Hc. apply covers_cons in Hc as [Hc|Hc]; [unfold nend in Hc; cbn in Hc; lia|by apply covers_nil in Hc].
  - exists a'. split; [exact E|exact Hf].
Defined.

Lemma alloc_dealloc_roundtrip_witness :
  dealloc (mkAlloc (mkNode 0x9000 0) [mkNode 0x100080 0xFF80]) 0x100000 demo_layout = Ret (alc demo_heap).
Proof.
  apply (alloc_dealloc_roundtrip 0x100000 0x110000 (alc demo_heap) demo_layout).
  - apply demo_region.
  - split; [reflexivity|]. repeat split; cbn; unfold nend, NODE_SIZE; cbn; lia.
  - apply demo_layout_ok.
  - reflexivity.
  - lia.
Defined.

Lemma heap_safety_witness :
  free_memory (mkAlloc (mkNode 0x9000 0) [mkNode 0x100080 0xFF80]) + 128 = 0x10000 /\ 0x100000 mod 64 = 0.
Proof.
  destruct (heap_safety 0x9000 0x100000 0x110000
           (mkHeap (mkAlloc (mkNode 0x9000 0) [mkNode 0x100080 0xFF80]) [(0x100000, demo_layout)])) as (Ha & _ & _ & Hsum).
  - apply demo_region.
  - eapply rtc_l; [apply demo_step|apply rtc_refl].
  - split; [exact Hsum|]. apply (Ha 0x100000 demo_layout). by left.
Defined.

Lemma all_freed_single_block_witness : nodes (alc demo_heap) = [mkNode 0x100000 0x10000].
Proof.
  apply (all_freed_single_block 0x9000 0x100000 0x110000 demo_heap).
  - apply demo_region.
  - eapply rtc_l; [apply demo_step|]. eapply rtc_l; [apply demo_step_back|apply rtc_refl].
  - reflexivity.
Defined.

End Allocator.
