(* ===== verification/Paging.v ===== *)
(** * Paging (src/src/memory/paging.rs)

    Addresses, page-table entries, page tables in physical memory, the four-level
    walk [virt_to_phys] and the boot-time hardware mappings.  Physical memory is a
    map from 8-byte aligned addresses to 64-bit words; tables are read and written
    through their physical address, which is also their virtual address in the
    identity-mapped window.  Reading CR3 gives the [cr3] argument; TLB flushes do
    not change memory. *)

From stdpp Require Import prelude numbers list.
From S2P Require Import Prelude.

Module Paging.

Definition PAGE_SIZE : Z := 4096.

(** ** Addresses ([PhysAddr], [VirtAddr]) *)
Definition is_aligned_to (a align : Z) : bool := Z.land a (u64_sub align 1) =? 0.
Definition align_up (a align : Z) : Z :=
  Z.land (u64_sub (u64_add a align) 1) (u64_not (u64_sub align 1)).
Definition align_down (a align : Z) : Z := Z.land a (u64_not (u64_sub align 1)).

Definition p4_index (v : Z) : Z := Z.land (Z.shiftr v 39) 511.
Definition p3_index (v : Z) : Z := Z.land (Z.shiftr v 30) 511.
Definition p2_index (v : Z) : Z := Z.land (Z.shiftr v 21) 511.
Definition p1_index (v : Z) : Z := Z.land (Z.shiftr v 12) 511.
Definition page_offset (v : Z) : Z := Z.land v 0xFFF.

(** ** Flags and entries *)
Definition PRESENT : Z := 2 ^ 0.
Definition WRITABLE : Z := 2 ^ 1.
Definition USER_ACCESSIBLE : Z := 2 ^ 2.
Definition HUGE_PAGE : Z := 2 ^ 7.
Definition COW : Z := 2 ^ 9.
Definition NO_EXECUTE : Z := 2 ^ 63.

Definition ADDR_MASK : Z := 0x000FFFFFFFFFF000.
Definition FLAGS_MASK : Z := 0xFFF0000000000FFF.

Definition is_present (e : Z) : bool := negb (Z.land e PRESENT =? 0).
Definition is_huge (e : Z) : bool := negb (Z.land (Z.land e FLAGS_MASK) HUGE_PAGE =? 0).
Definition entry_addr (e : Z) : Z := Z.land e ADDR_MASK.
Definition entry_flags (e : Z) : Z := Z.land e FLAGS_MASK.
Definition entry_set (addr flags : Z) : Z := Z.lor (Z.land addr ADDR_MASK) (Z.land flags FLAGS_MASK).

(** ** Memory and tables *)
Definition memory := Z -> Z.

Definition read_word (m : memory) (a : Z) : Z := m a.
Definition write_word (m : memory) (a w : Z) : memory := fun x => if x =? a then w else m x.

(** Entry [i] of the table at physical address [t]. *)
Definition slot (t i : Z) : Z := t + 8 * i.
Definition entry (m : memory) (t i : Z) : Z := read_word m (slot t i).
Definition set_entry (m : memory) (t i e : Z) : memory := write_word m (slot t i) e.

(** [write_bytes(0, 4096)] at [t] ([PageTable::zero] on a table). *)
Definition zero_frame (m : memory) (t : Z) : memory :=
  fun x => if ((t <=? x) && (x <? t + PAGE_SIZE))%bool then 0 else m x.

(** ** The walk *)
Definition virt_to_phys (m : memory) (cr3 virt : Z) : option Z :=
  let p4_idx := Z.land (Z.shiftr virt 39) 0x1FF in
  let p3_idx := Z.land (Z.shiftr virt 30) 0x1FF in
  let p2_idx := Z.land (Z.shiftr virt 21) 0x1FF in
  let p1_idx := Z.land (Z.shiftr virt 12) 0x1FF in
  let p4e := entry m cr3 p4_idx in
  if negb (is_present p4e) then None else
  let p3e := entry m (entry_addr p4e) p3_idx in
  if negb (is_present p3e) then None else
  if is_huge p3e then Some (Z.lor (entry_addr p3e) (Z.land virt 0x3FFFFFFF)) else
  let p2e := entry m (entry_addr p3e) p2_idx in
  if negb (is_present p2e) then None else
  if is_huge p2e then Some (Z.lor (entry_addr p2e) (Z.land virt 0x1FFFFF)) else
  let p1e := entry m (entry_addr p2e) p1_idx in
  if negb (is_present p1e) then None else
  Some (Z.lor (entry_addr p1e) (Z.land virt 0xFFF)).

(** ** Boot-time mappings *)

(** [for j in lo..lo+n]: fills the non-present entries of the table at [t]. *)
Fixpoint fill_entries (n : nat) (m : memory) (t j shift flags : Z) : memory :=
  match n with
  | O => m
  | S n' =>
      let m' :=
        if negb (is_present (entry m t j))
        then set_entry m t j (Z.lor (u64_shl j shift) flags) else m in
      fill_entries n' m' t (j + 1) shift flags
  end.

Definition init_hardware_mappings (m : memory) (cr3 : Z) : memory :=
  let p4_entry0 := entry m cr3 0 in
  if negb (is_present p4_entry0) then m else
  let p3 := entry_addr p4_entry0 in
  let m1 := set_entry m p3 3 (Z.lor 0xC0000000 (Z.lor PRESENT (Z.lor WRITABLE HUGE_PAGE))) in
  let p3_entry0 := entry m1 p3 0 in
  if (is_present p3_entry0 && negb (is_huge p3_entry0))%bool then
    let p2 := entry_addr p3_entry0 in
    let m2 := fill_entries 255 m1 p2 1 21 (Z.lor PRESENT (Z.lor WRITABLE HUGE_PAGE)) in
    let p2_entry0 := entry m2 p2 0 in
    if (is_present p2_entry0 && negb (is_huge p2_entry0))%bool then
      fill_entries 128 m2 (entry_addr p2_entry0) 0x80 12 (Z.lor PRESENT WRITABLE)
    else m2
  else m1.

(** ** Masks, bit by bit *)
Lemma testbit_range a b i :
  0 <= a <= b -> 0 <= i -> Z.testbit (Z.shiftl (Z.ones (b - a)) a) i = ((a <=? i) && (i <? b))%bool.
Proof.
  intros Hab Hi. rewrite Z.shiftl_spec by done. destruct (Z.leb_spec a i) as [Ha|Ha]; cbn.
  - destruct (Z.ltb_spec i b); [apply Z.ones_spec_low|apply Z.ones_spec_high]; lia.
  - apply Z.testbit_neg_r. lia.
Qed.

Lemma testbit_addr_mask i : 0 <= i -> Z.testbit ADDR_MASK i = ((12 <=? i) && (i <? 52))%bool.
Proof. intros. change ADDR_MASK with (Z.shiftl (Z.ones (52 - 12)) 12). by apply testbit_range. Qed.

Lemma testbit_flags_mask i :
  0 <= i -> Z.testbit FLAGS_MASK i = ((i <? 12) || ((52 <=? i) && (i <? 64)))%bool.
Proof.
  intros. change FLAGS_MASK with (Z.lor (Z.shiftl (Z.ones (12 - 0)) 0) (Z.shiftl (Z.ones (64 - 52)) 52)).
  rewrite Z.lor_spec, !testbit_range by lia. by replace (0 <=? i) with true by lia.
Qed.

(** Testing a one-bit flag. *)
Lemma flag_test e b : 0 <= b -> (Z.land e (2 ^ b) =? 0) = negb (Z.testbit e b).
Proof.
  intros Hb. destruct (Z.testbit e b) eqn:E; cbn.
  - apply Z.eqb_neq. intros H. assert (Z.testbit (Z.land e (2 ^ b)) b = true) as Ht.
    { by rewrite Z.land_spec, E, Z.pow2_bits_true by done. }
    by rewrite H, Z.bits_0 in Ht.
  - apply Z.eqb_eq, Z.bits_inj'. intros i Hi. rewrite Z.land_spec, Z.pow2_bits_eqb, Z.bits_0 by done.
    destruct (Z.eqb_spec b i) as [<-|]; [by rewrite E|apply andb_false_r].
Qed.

Lemma is_present_bit e : is_present e = Z.testbit e 0.
Proof. unfold is_present, PRESENT. rewrite flag_test by lia. apply negb_involutive. Qed.

Lemma is_huge_bit e : is_huge e = Z.testbit e 7.
Proof.
  unfold is_huge, HUGE_PAGE. rewrite flag_test, negb_involutive, Z.land_spec, testbit_flags_mask by lia.
  cbn. apply andb_true_r.
Qed.

Lemma testbit_entry_set a f i :
  0 <= i -> Z.testbit (entry_set a f) i =
  ((Z.testbit a i && ((12 <=? i) && (i <? 52))) || (Z.testbit f i && ((i <? 12) || ((52 <=? i) && (i <? 64)))))%bool.
Proof.
  intros. unfold entry_set. by rewrite Z.lor_spec, !Z.land_spec, testbit_addr_mask, testbit_flags_mask.
Qed.

(** A frame address: page aligned and below the 52-bit physical limit. *)
Definition frame_addr (a : Z) : Prop := 0 <= a < 2 ^ 52 /\ a mod PAGE_SIZE = 0.

Lemma frame_addr_bits a i :
  frame_addr a -> 0 <= i -> (Z.testbit a i && ((12 <=? i) && (i <? 52)))%bool = Z.testbit a i.
Proof.
  intros [Hr Hm] Hi. destruct (Z.leb_spec 12 i); cbn.
  - destruct (Z.ltb_spec i 52); [apply andb_true_r|]. by rewrite (testbit_high 52 a).
  - rewrite andb_false_r. symmetry.
    assert (a = Z.shiftl (a / 2 ^ 12) 12) as ->.
    { rewrite Z.shiftl_mul_pow2 by lia. pose proof (Z.div_mod a 4096). change (2 ^ 12) with 4096. unfold PAGE_SIZE in *. lia. }
    rewrite Z.shiftl_spec by done. apply Z.testbit_neg_r. lia.
Qed.

(** An entry gives back the frame it was set with. *)
Lemma entry_addr_set a f : frame_addr a -> entry_addr (entry_set a f) = a.
Proof.
  intros Ha. apply Z.bits_inj'. intros i Hi. unfold entry_addr.
  rewrite Z.land_spec, testbit_entry_set, testbit_addr_mask by done.
  rewrite <- (frame_addr_bits a i Ha Hi). destruct (Z.testbit a i), (Z.testbit f i), (Z.leb_spec 12 i), (Z.ltb_spec i 52),
    (Z.ltb_spec i 12), (Z.leb_spec 52 i), (Z.ltb_spec i 64); cbn; try done; lia.
Qed.

(** ... and the flags. *)
Lemma entry_flags_set a f : entry_flags (entry_set a f) = Z.land f FLAGS_MASK.
Proof.
  apply Z.bits_inj'. intros i Hi. unfold entry_flags.
  rewrite !Z.land_spec, testbit_entry_set, testbit_flags_mask by done.
  destruct (Z.testbit a i), (Z.testbit f i), (Z.leb_spec 12 i), (Z.ltb_spec i 52),
    (Z.ltb_spec i 12), (Z.leb_spec 52 i), (Z.ltb_spec i 64); cbn; try done; lia.
Qed.

Lemma entry_set_low a f i : 0 <= i < 12 -> Z.testbit (entry_set a f) i = Z.testbit f i.
Proof.
  intros. rewrite testbit_entry_set by lia. replace (12 <=? i) with false by lia.
  replace (i <? 12) with true by lia. cbn. by rewrite andb_false_r, andb_true_r.
Qed.

Lemma entry_addr_frame e : frame_addr (entry_addr e).
Proof.
  unfold entry_addr. split.
  - apply in_u_bits; [lia|apply Z.land_nonneg; right; done|]. intros i Hi.
    rewrite Z.land_spec, testbit_addr_mask by lia. replace (i <? 52) with false by lia.
    by rewrite !andb_false_r.
  - change PAGE_SIZE with (2 ^ 12). rewrite <- land_mask by lia. apply Z.bits_inj'. intros i Hi.
    rewrite !Z.land_spec, testbit_addr_mask, Z.bits_0 by lia. change (2 ^ 12 - 1) with (Z.ones 12).
    destruct (Z.leb_spec 12 i); [rewrite Z.ones_spec_high by lia|]; by rewrite ?andb_false_r.
Qed.

(** ** Memory *)
Lemma entry_set_entry_eq m t i e : entry (set_entry m t i e) t i = e.
Proof. unfold entry, set_entry, read_word, write_word. by rewrite Z.eqb_refl. Qed.

Lemma entry_set_entry_ne m t i e t' i' :
  slot t' i' <> slot t i -> entry (set_entry m t i e) t' i' = entry m t' i'.
Proof. intros H. unfold entry, set_entry, read_word, write_word. by apply Z.eqb_neq in H as ->. Qed.

(** Slots of aligned tables determine the table and the index. *)
Lemma slot_inj t i t' i' :
  t mod PAGE_SIZE = 0 -> t' mod PAGE_SIZE = 0 -> 0 <= i < 512 -> 0 <= i' < 512 ->
  slot t i = slot t' i' -> t = t' /\ i = i'.
Proof.
  unfold slot, PAGE_SIZE. intros Ht Ht' Hi Hi' H.
  pose proof (Z.div_mod t 4096). pose proof (Z.div_mod t' 4096). lia.
Qed.

Lemma entry_zero_eq m t i : 0 <= i < 512 -> entry (zero_frame m t) t i = 0.
Proof.
  intros. unfold entry, zero_frame, read_word, slot, PAGE_SIZE.
  replace (t <=? t + 8 * i) with true by lia. by replace (t + 8 * i <? t + 4096) with true by lia.
Qed.

Lemma entry_zero_ne m t t' i :
  t mod PAGE_SIZE = 0 -> t' mod PAGE_SIZE = 0 -> t <> t' -> 0 <= i < 512 ->
  entry (zero_frame m t) t' i = entry m t' i.
Proof.
  unfold entry, zero_frame, read_word, slot, PAGE_SIZE. intros Ht Ht' Hne Hi.
  destruct ((t <=? t' + 8 * i) && (t' + 8 * i <? t + 4096))%bool eqn:E; [|done]. zbool.
  pose proof (Z.div_mod t 4096). pose proof (Z.div_mod t' 4096). lia.
Qed.

Lemma index_range v s : 0 <= Z.land (Z.shiftr v s) 511 < 512.
Proof. change 511 with (2 ^ 9 - 1). rewrite land_mask by lia. apply Z.mod_pos_bound. lia. Qed.

(** ** Filling a table *)
Lemma fill_entries_same n m t j sh fl i :
  t mod PAGE_SIZE = 0 -> 0 <= j -> j + Z.of_nat n <= 512 -> 0 <= i < 512 ->
  entry (fill_entries n m t j sh fl) t i =
  if ((j <=? i) && (i <? j + Z.of_nat n) && negb (is_present (entry m t i)))%bool
  then Z.lor (u64_shl i sh) fl else entry m t i.
Proof.
  intros Ht. revert m j. induction n as [|n IH]; intros m j Hj Hn Hi; cbn [fill_entries].
  { destruct (Z.leb_spec j i), (Z.ltb_spec i (j + Z.of_nat 0)); try done. exfalso. lia. }
  rewrite IH by lia. set (m' := if negb (is_present (entry m t j)) then _ else _).
  destruct (Z.eq_dec i j) as [->|Hne].
  - replace (j + 1 <=? j) with false by lia. replace (j <=? j) with true by lia.
    replace (j <? j + Z.of_nat (S n)) with true by by_zbool. cbn [andb]. unfold m'.
    destruct (negb (is_present (entry m t j))); [by rewrite entry_set_entry_eq|done].
  - assert (entry m' t i = entry m t i) as ->.
    { unfold m'. destruct (negb _); [|done]. apply entry_set_entry_ne. unfold slot. lia. }
    replace (j + 1 <=? i) with (j <=? i) by lia.
    by replace (j + 1 + Z.of_nat n) with (j + Z.of_nat (S n)) by lia.
Qed.

Lemma fill_entries_other n m t j sh fl t' i :
  t mod PAGE_SIZE = 0 -> t' mod PAGE_SIZE = 0 -> t <> t' -> 0 <= j -> j + Z.of_nat n <= 512 -> 0 <= i < 512 ->
  entry (fill_entries n m t j sh fl) t' i = entry m t' i.
Proof.
  intros Ht Ht' Hne. revert m j. induction n as [|n IH]; intros m j Hj Hn Hi; cbn [fill_entries]; [done|].
  rewrite IH by lia. destruct (negb _); [|done]. apply entry_set_entry_ne.
  intros H. apply slot_inj in H as [? _]; [congruence|done..|lia].
Qed.

(** A large-page or page entry built from an aligned base and low flags. *)
Lemma base_entry b fl i :
  frame_addr b -> in_u 12 fl -> 0 <= i ->
  Z.testbit (Z.lor b fl) i = if i <? 12 then Z.testbit fl i else Z.testbit b i.
Proof.
  intros Hb Hf Hi. rewrite Z.lor_spec, <- (frame_addr_bits b i Hb Hi).
  destruct (Z.ltb_spec i 12).
  - replace (12 <=? i) with false by lia. cbn. by rewrite andb_false_r.
  - rewrite (testbit_high 12 fl) by done. apply orb_false_r.
Qed.

Lemma base_entry_addr b fl : frame_addr b -> in_u 12 fl -> entry_addr (Z.lor b fl) = b.
Proof.
  intros Hb Hf. apply Z.bits_inj'. intros i Hi. unfold entry_addr.
  rewrite Z.land_spec, base_entry, testbit_addr_mask by done. rewrite <- (frame_addr_bits b i Hb Hi).
  destruct (Z.ltb_spec i 12); [|by destruct (Z.testbit b i), (12 <=? i), (i <? 52)].
  replace (12 <=? i) with false by lia. cbn. by rewrite !andb_false_r.
Qed.

(** An address is its page base or its offset. *)
Lemma lor_split a s : 0 <= s -> Z.lor (Z.shiftl (Z.shiftr a s) s) (Z.land a (2 ^ s - 1)) = a.
Proof.
  intros Hs. rewrite Z.sub_1_r, <- Z.ones_equiv. apply Z.bits_inj'. intros i Hi.
  rewrite Z.lor_spec, Z.land_spec, Z.shiftl_spec by done. destruct (Z.ltb_spec i s).
  - rewrite (Z.testbit_neg_r _ (i - s)), Z.ones_spec_low by lia. apply andb_true_r.
  - rewrite Z.shiftr_spec, Z.ones_spec_high, andb_false_r, orb_false_r by lia. f_equal. lia.
Qed.

Lemma index_low v s : 0 <= s -> 0 <= v < 2 ^ (s + 9) -> Z.land (Z.shiftr v s) 511 = Z.shiftr v s.
Proof.
  intros Hs Hv. change 511 with (2 ^ 9 - 1). rewrite land_mask by lia. apply Z.mod_small.
  rewrite Z.shiftr_div_pow2 by done. split; [apply Z.div_pos; lia|].
  apply Z.div_lt_upper_bound; [lia|]. rewrite <- Z.pow_add_r by lia. lia.
Qed.

Lemma shift_frame j s : 12 <= s <= 30 -> 0 <= j < 2 ^ 9 -> frame_addr (Z.shiftl j s) /\ u64_shl j s = Z.shiftl j s.
Proof.
  intros Hs Hj. assert (2 ^ s <= 2 ^ 30) by (apply Z.pow_le_mono_r; lia). assert (0 < 2 ^ s) by lia.
  rewrite Z.shiftl_mul_pow2 by lia. split; [split; [nia|]|].
  - change PAGE_SIZE with (2 ^ 12). apply (mod_pow2_le _ 12 s); [lia|]. apply Z.mod_mul. lia.
  - unfold u64_shl. rewrite Z.shiftl_mul_pow2 by lia. apply wrap_small. unfold in_u. nia.
Qed.

(** The boot loader's tables: PML4 at [cr3], and the PDPT, PD and PT that map the
    first 2 MiB, four different frames. *)
Record boot_tables (m : memory) (cr3 p3 p2 p1 : Z) : Prop := {
  bt_frames : Forall frame_addr [cr3; p3; p2; p1];
  bt_nodup : NoDup [cr3; p3; p2; p1];
  bt_p4 : is_present (entry m cr3 0) = true /\ entry_addr (entry m cr3 0) = p3;
  bt_p3 : is_present (entry m p3 0) = true /\ is_huge (entry m p3 0) = false /\ entry_addr (entry m p3 0) = p2;
  bt_p2 : is_present (entry m p2 0) = true /\ is_huge (entry m p2 0) = false /\ entry_addr (entry m p2 0) = p1
}.

(** The tables after [init_hardware_mappings], entry by entry. *)
Lemma hardware_entries m cr3 p3 p2 p1 i :
  boot_tables m cr3 p3 p2 p1 -> 0 <= i < 512 ->
  let m' := init_hardware_mappings m cr3 in
  let huge := Z.lor PRESENT (Z.lor WRITABLE HUGE_PAGE) in
  entry m' cr3 i = entry m cr3 i /\
  entry m' p3 i = (if i =? 3 then Z.lor 0xC0000000 huge else entry m p3 i) /\
  entry m' p2 i = (if ((1 <=? i) && (i <? 256) && negb (is_present (entry m p2 i)))%bool
                   then Z.lor (u64_shl i 21) huge else entry m p2 i) /\
  entry m' p1 i = (if ((0x80 <=? i) && (i <? 0x100) && negb (is_present (entry m p1 i)))%bool
                   then Z.lor (u64_shl i 12) (Z.lor PRESENT WRITABLE) else entry m p1 i).
Proof.
  intros [HF Hnd [P4 A4] (P3 & G3 & A3) (P2 & G2 & A2)] Hi. cbv zeta.
  rewrite !Forall_cons in HF. destruct HF as ([_ F4] & [_ F3] & [_ F2] & [_ F1] & _).
  rewrite !NoDup_cons, !elem_of_cons in Hnd. destruct Hnd as (N4 & N3 & N2 & _).
  unfold init_hardware_mappings. rewrite P4, A4. cbn [negb].
  set (huge := Z.lor PRESENT (Z.lor WRITABLE HUGE_PAGE)).
  set (m1 := set_entry m p3 3 (Z.lor 3221225472 huge)).
  assert (E1 : forall t k, t mod PAGE_SIZE = 0 -> 0 <= k < 512 -> (t <> p3 \/ k <> 3) -> entry m1 t k = entry m t k).
  { intros t k Ht Hk Hne. apply entry_set_entry_ne. intros H. apply slot_inj in H as [-> ->]; [naive_solver|done..]. }
  rewrite (E1 p3 0), P3, G3, A3 by (auto || lia). cbn [andb negb].
  set (m2 := fill_entries 255 m1 p2 1 21 huge).
  assert (E2 : forall t k, t mod PAGE_SIZE = 0 -> t <> p2 -> 0 <= k < 512 -> entry m2 t k = entry m1 t k).
  { intros t k Ht Hne Hk. apply fill_entries_other; auto; lia. }
  assert (E2' : forall k, 0 <= k < 512 -> entry m2 p2 k = if ((1 <=? k) && (k <? 256) && negb (is_present (entry m p2 k)))%bool
                   then Z.lor (u64_shl k 21) huge else entry m p2 k).
  { intros k Hk. unfold m2. rewrite fill_entries_same by (done || lia). rewrite E1 by (auto || lia || naive_solver). done. }
  assert (entry m2 p2 0 = entry m p2 0) as -> by (by rewrite (E2' 0) by lia).
  rewrite P2, G2, A2. cbn [andb negb].
  split; [|split; [|split]].
  - rewrite fill_entries_other, E2, E1 by (done || lia || naive_solver). done.
  - rewrite fill_entries_other, E2 by (done || lia || naive_solver).
    destruct (Z.eqb_spec i 3) as [->|]; [apply entry_set_entry_eq|apply E1; auto].
  - rewrite fill_entries_other, E2' by (done || lia || naive_solver). done.
  - rewrite fill_entries_same by (done || lia). rewrite E2, E1 by (done || lia || naive_solver). done.
Qed.

(** Identity mapping.  After [init_hardware_mappings], with the boot
    loader's tables in place, every address of [2 MiB, 512 MiB) whose 2 MiB entry
    was not present, every address of [0x80000, 0x100000) whose page was not
    present and every address of [3 GiB, 4 GiB) translates to itself, and the
    2 MiB entries that were present are unchanged. *)
Theorem hardware_identity_map m cr3 p3 p2 p1 a :
  boot_tables m cr3 p3 p2 p1 ->
  let m' := init_hardware_mappings m cr3 in
  (0x200000 <= a < 0x20000000 -> is_present (entry m p2 (p2_index a)) = false -> virt_to_phys m' cr3 a = Some a) /\
  (0x80000 <= a < 0x100000 -> is_present (entry m p1 (p1_index a)) = false -> virt_to_phys m' cr3 a = Some a) /\
  (0xC0000000 <= a < 0x100000000 -> virt_to_phys m' cr3 a = Some a) /\
  (forall i, 0 <= i < 512 -> is_present (entry m p2 i) = true -> entry m' p2 i = entry m p2 i).
Proof.
  intros Hbt. cbv zeta. pose proof Hbt as [_ _ [P4 A4] (P3 & G3 & A3) (P2 & G2 & A2)].
  pose proof (fun i Hi => hardware_entries m cr3 p3 p2 p1 i Hbt Hi) as He. cbv zeta in He.
  assert (entry (init_hardware_mappings m cr3) cr3 0 = entry m cr3 0) as E4 by apply (He 0 ltac:(lia)).
  assert (entry (init_hardware_mappings m cr3) p3 0 = entry m p3 0) as E3 by apply (He 0 ltac:(lia)).
  assert (entry (init_hardware_mappings m cr3) p2 0 = entry m p2 0) as E2 by apply (He 0 ltac:(lia)).
  assert (Hidx : forall s v, 0 <= s -> 0 <= v < 2 ^ (s + 9) -> Z.land (Z.shiftr v s) 511 = v / 2 ^ s).
  { intros s v Hs Hv. rewrite index_low by done. by apply Z.shiftr_div_pow2. }
  split; [|split; [|split]].
  - intros Ha Hnp. unfold virt_to_phys. rewrite (Hidx 39 a), (Hidx 30 a), (Z.div_small a), (Z.div_small a) by lia.
    rewrite E4, P4, A4. cbn [negb].
    rewrite E3, P3, G3, A3. cbn [negb].
    unfold p2_index in Hnp. rewrite (index_low a 21) in * by lia.
    assert (0 <= Z.shiftr a 21 < 512 /\ 1 <= Z.shiftr a 21 < 256) as [Hj Hj'].
    { rewrite Z.shiftr_div_pow2 by lia. pose proof (Z.div_le_lower_bound a (2 ^ 21) 1).
      pose proof (Z.div_lt_upper_bound a (2 ^ 21) 256). lia. }
    rewrite (proj1 (proj2 (proj2 (He _ Hj)))), Hnp. cbn [negb].
    replace (1 <=? Z.shiftr a 21) with true by lia. replace (Z.shiftr a 21 <? 256) with true by lia. cbn [andb].
    destruct (shift_frame (Z.shiftr a 21) 21) as [Hfr ->]; [lia|lia|].
    rewrite is_present_bit, is_huge_bit, (base_entry _ _ 0), (base_entry _ _ 7), base_entry_addr by (done || lia).
    change (Some (Z.lor (Z.shiftl (Z.shiftr a 21) 21) (Z.land a (2 ^ 21 - 1))) = Some a). by rewrite lor_split.
  - intros Ha Hnp. unfold virt_to_phys.
    rewrite (Hidx 39 a), (Hidx 30 a), (Hidx 21 a), !(Z.div_small a) by lia.
    rewrite E4, P4, A4. cbn [negb].
    rewrite E3, P3, G3, A3. cbn [negb].
    rewrite E2, P2, G2, A2. cbn [negb].
    unfold p1_index in Hnp. rewrite (index_low a 12) in * by lia.
    assert (0x80 <= Z.shiftr a 12 < 0x100) as Hj.
    { rewrite Z.shiftr_div_pow2 by lia. pose proof (Z.div_le_lower_bound a (2 ^ 12) 0x80).
      pose proof (Z.div_lt_upper_bound a (2 ^ 12) 0x100). lia. }
    rewrite (proj2 (proj2 (proj2 (He (Z.shiftr a 12) ltac:(lia))))), Hnp. cbn [negb].
    replace (0x80 <=? Z.shiftr a 12) with true by lia. replace (Z.shiftr a 12 <? 0x100) with true by lia. cbn [andb].
    destruct (shift_frame (Z.shiftr a 12) 12) as [Hfr ->]; [lia|lia|].
    rewrite is_present_bit, (base_entry _ _ 0), base_entry_addr by (done || lia).
    change (Some (Z.lor (Z.shiftl (Z.shiftr a 12) 12) (Z.land a (2 ^ 12 - 1))) = Some a). by rewrite lor_split.
  - intros Ha. unfold virt_to_phys. rewrite (Hidx 39 a), (Hidx 30 a), (Z.div_small a) by lia.
    assert (a / 2 ^ 30 = 3) as ->.
    { pose proof (Z.div_le_lower_bound a (2 ^ 30) 3). pose proof (Z.div_lt_upper_bound a (2 ^ 30) 4). lia. }
    rewrite E4, P4, A4. cbn [negb].
    rewrite (proj1 (proj2 (He 3 ltac:(lia)))). cbn [Z.eqb Pos.eqb].
    change (Some (Z.lor 0xC0000000 (Z.land a (2 ^ 30 - 1))) = Some a). f_equal.
    assert (Z.shiftl (Z.shiftr a 30) 30 = 0xC0000000) as <-; [|by apply lor_split].
    assert (Z.shiftr a 30 = 3) as ->; [|done]. rewrite Z.shiftr_div_pow2 by lia.
    pose proof (Z.div_le_lower_bound a (2 ^ 30) 3). pose proof (Z.div_lt_upper_bound a (2 ^ 30) 4). lia.
  - intros i Hi Hp. rewrite (proj1 (proj2 (proj2 (He i Hi)))), Hp. cbn. by rewrite andb_false_r.
Qed.

(** Entries.  An entry set with a frame address and flags gives back exactly
    that frame and those flags (restricted to the flag bits of the format): the
    address and the flags never mix. *)
Theorem entry_roundtrip a f :
  frame_addr a -> entry_addr (entry_set a f) = a /\ entry_flags (entry_set a f) = Z.land f FLAGS_MASK.
Proof. intros Ha. split; [by apply entry_addr_set|apply entry_flags_set]. Qed.

(** Address fields.  The four table indices and the page offset of a 48-bit
    virtual address are in range and rebuild the address. *)
Theorem address_fields v :
  0 <= v < 2 ^ 48 ->
  (0 <= p4_index v < 512 /\ 0 <= p3_index v < 512 /\ 0 <= p2_index v < 512 /\ 0 <= p1_index v < 512) /\
  v = p4_index v * 2 ^ 39 + p3_index v * 2 ^ 30 + p2_index v * 2 ^ 21 + p1_index v * 2 ^ 12 + page_offset v.
Proof.
  intros Hv. split; [repeat split; apply index_range|].
  unfold p4_index, p3_index, p2_index, p1_index, page_offset.
  change 511 with (2 ^ 9 - 1). change 0xFFF with (2 ^ 12 - 1). rewrite !land_mask, !Z.shiftr_div_pow2 by lia.
  rewrite (Z.mod_small (v / 2 ^ 39)).
  2:{ split; [apply Z.div_pos; lia|apply Z.div_lt_upper_bound; lia]. }
  assert (H : forall s, 0 <= s -> v / 2 ^ s = 2 ^ 9 * (v / 2 ^ (s + 9)) + (v / 2 ^ s) mod 2 ^ 9).
  { intros s Hs. rewrite Z.pow_add_r, <- Z.div_div by lia. apply Z.div_mod. lia. }
  pose proof (H 30 ltac:(lia)). pose proof (H 21 ltac:(lia)). pose proof (H 12 ltac:(lia)).
  change (30 + 9) with 39 in *. change (21 + 9) with 30 in *. change (12 + 9) with 21 in *.
  pose proof (Z.div_mod v (2 ^ 12)). lia.
Qed.

(** ** Witnesses: four tables at 0x1000 .. 0x4000 *)
Definition demo_mem : memory := fun x =>
  if x =? 0x1000 then 0x2003 else if x =? 0x2000 then 0x3003 else if x =? 0x3000 then 0x4003 else 0.

Lemma hardware_identity_map_witness :
  virt_to_phys (init_hardware_mappings demo_mem 0x1000) 0x1000 0x12345678 = Some 0x12345678.
Proof.
  refine (proj1 (hardware_identity_map demo_mem 0x1000 0x2000 0x3000 0x4000 0x12345678 _) _ _); [|lia|reflexivity].
  split; [repeat (constructor; [split; [lia|reflexivity]|]); constructor|by_compute|..]; repeat split; reflexivity.
Defined.

Lemma entry_roundtrip_witness : entry_addr (entry_set 0x5000 (Z.lor PRESENT NO_EXECUTE)) = 0x5000.
Proof. apply (entry_roundtrip 0x5000). split; [lia|reflexivity]. Defined.

Lemma address_fields_witness :
  0x40001234 = p4_index 0x40001234 * 2 ^ 39 + p3_index 0x40001234 * 2 ^ 30 + p2_index 0x40001234 * 2 ^ 21
               + p1_index 0x40001234 * 2 ^ 12 + page_offset 0x40001234.
Proof. apply (address_fields 0x40001234). lia. Defined.

End Paging.
