(* ===== verification/UserSpace.v ===== *)
(** * Virtual memory areas and address spaces
    (src/src/memory/vmm.rs, src/src/memory/user_space.rs)

    [VmArea], and [AddressSpace] with its page tables: mapping and unmapping of
    pages, [mmap], [munmap], demand paging, [brk], the stack and its guard page,
    teardown.  The operations work on a [world] (the frame allocator, physical
    memory, the CR3 values) and on the address space; they are written against the
    [FrameAllocator] contract of Pmm.v. *)

From stdpp Require Import prelude numbers list strings gmap.
From S2P Require Import Prelude Pmm Paging.
Import Paging.

Module UserSpace.

(** ** vmm.rs *)
Definition PROT_NONE : Z := 0x0.
Definition PROT_READ : Z := 0x1.
Definition PROT_WRITE : Z := 0x2.
Definition PROT_EXEC : Z := 0x4.
Definition MAP_SHARED : Z := 0x01.
Definition MAP_PRIVATE : Z := 0x02.
Definition MAP_FIXED : Z := 0x10.
Definition MAP_ANONYMOUS : Z := 0x20.
Definition MAP_POPULATE : Z := 0x8000.
Definition MMAP_BASE_START : Z := 0x60000000.
Definition MMAP_BASE_END : Z := 0x7F000000.

Inductive VmmError :=
| OutOfMemory | InvalidAddress | InvalidArguments | Overlap | PermissionDenied | NotFound.

Record VmArea := mkVma {
  start : Z;
  size : Z;
  prot : Z;
  flags : Z;
  is_guard : bool;
  name : string;
  populated_pages : gmap Z Z
}.

(** [VmArea::new]. *)
Definition vma_new (start size prot flags : Z) (guard : bool) (name : string) : VmArea :=
  mkVma start size prot flags guard name ∅.

Definition vend (v : VmArea) : Z := u64_add (start v) (size v).
Definition contains (v : VmArea) (addr : Z) : bool := ((start v <=? addr) && (addr <? vend v))%bool.
Definition overlaps (v : VmArea) (s sz : Z) : bool :=
  let e := u64_add s sz in negb ((e <=? start v) || (vend v <=? s))%bool.
Definition is_readable (v : VmArea) : bool := negb (Z.land (prot v) PROT_READ =? 0).
Definition is_writable (v : VmArea) : bool := negb (Z.land (prot v) PROT_WRITE =? 0).
Definition is_executable (v : VmArea) : bool := negb (Z.land (prot v) PROT_EXEC =? 0).

Definition align_up_page (a : Z) : Z :=
  Z.land (u64_sub (u64_add a PAGE_SIZE) 1) (u64_not (u64_sub PAGE_SIZE 1)).
Definition align_down_page (a : Z) : Z := Z.land a (u64_not (u64_sub PAGE_SIZE 1)).

Definition set_range (v : VmArea) (s sz : Z) : VmArea :=
  mkVma s sz (prot v) (flags v) (is_guard v) (name v) (populated_pages v).
Definition set_populated (v : VmArea) (m : gmap Z Z) : VmArea :=
  mkVma (start v) (size v) (prot v) (flags v) (is_guard v) (name v) m.

Section AddressSpace.
Context {A : Type} `{FA : Pmm.FrameAllocator A}.

(** ** State *)
Record world := mkWorld { fa : A; mem : memory; KERNEL_CR3 : Z; active_cr3 : Z }.
Definition set_fa (w : world) (a : A) : world := mkWorld a (mem w) (KERNEL_CR3 w) (active_cr3 w).
Definition set_mem (w : world) (m : memory) : world := mkWorld (fa w) m (KERNEL_CR3 w) (active_cr3 w).

Definition DEFAULT_USER_HEAP_START : Z := 0x50000000.

(** [AddressSpace]; [pml4_virt] and [pml4_phys] are the same address. *)
Record AddressSpace := mkSpace {
  pml4 : Z;
  allocated_frames : list Z;
  vmas : list VmArea;
  mmap_bump_ptr : Z;
  heap_start : Z;
  heap_end : Z
}.
Definition set_frames (s : AddressSpace) (l : list Z) : AddressSpace :=
  mkSpace (pml4 s) l (vmas s) (mmap_bump_ptr s) (heap_start s) (heap_end s).
Definition set_vmas (s : AddressSpace) (l : list VmArea) : AddressSpace :=
  mkSpace (pml4 s) (allocated_frames s) l (mmap_bump_ptr s) (heap_start s) (heap_end s).
Definition set_bump (s : AddressSpace) (b : Z) : AddressSpace :=
  mkSpace (pml4 s) (allocated_frames s) (vmas s) b (heap_start s) (heap_end s).
Definition set_heap_end (s : AddressSpace) (b : Z) : AddressSpace :=
  mkSpace (pml4 s) (allocated_frames s) (vmas s) (mmap_bump_ptr s) (heap_start s) b.
Definition push_frame (s : AddressSpace) (f : Z) : AddressSpace := set_frames s (allocated_frames s ++ [f]).

(** [init]: records the kernel's CR3. *)
Definition init (w : world) : world := mkWorld (fa w) (mem w) (Z.land (active_cr3 w) ADDR_MASK) (active_cr3 w).

(** One byte written through a [*mut u8]: memory is little-endian. *)
Definition write_byte (m : memory) (a b : Z) : memory :=
  let base := a - a mod 8 in
  let sh := 8 * (a mod 8) in
  write_word m base (Z.lor (Z.land (read_word m base) (u64_not (Z.shiftl 255 sh))) (Z.shiftl b sh)).

(** [copy_nonoverlapping] of a slice. *)
Fixpoint copy_bytes (m : memory) (dst : Z) (bs : list Z) : memory :=
  match bs with [] => m | b :: bs' => copy_bytes (write_byte m dst b) (dst + 1) bs' end.

(** [allocate_frame] of the physical memory manager. *)
Definition allocate_frame (w : world) : option Z * world :=
  let '(r, a) := Pmm.fa_alloc (fa w) in (r, set_fa w a).

(** [let _ = free_frame(phys)]. *)
Definition free_frame (w : world) (phys : Z) : outcome world :=
  '(_, a) ← Pmm.fa_dealloc (fa w) phys; Ret (set_fa w a).

(** A zeroed frame for a page table. *)
Definition alloc_page_table (w : world) : option Z * world :=
  match allocate_frame w with
  | (Some phys, w') => (Some phys, set_mem w' (zero_frame (mem w') phys))
  | (None, w') => (None, w')
  end.

(** [for i in 0..512 { dst[i] = src[i] }], from entry [i] on. *)
Fixpoint copy_entries (n : nat) (i : Z) (m : memory) (src dst : Z) : memory :=
  match n with
  | O => m
  | S n' => copy_entries n' (i + 1) (set_entry m dst i (entry m src i)) src dst
  end.

Definition TABLE_FLAGS : Z := Z.lor PRESENT (Z.lor WRITABLE USER_ACCESSIBLE).

Definition clone_kernel_mapping (w : world) (pml4 : Z) (frames : list Z)
  : option (list Z) * world :=
  let kernel_pml4 := if negb (KERNEL_CR3 w =? 0) then KERNEL_CR3 w else Z.land (active_cr3 w) ADDR_MASK in
  let w1 := set_mem w (copy_entries 512 0 (mem w) kernel_pml4 pml4) in
  let kernel_pml4_0 := entry (mem w1) kernel_pml4 0 in
  if is_present kernel_pml4_0 then
    let kernel_pdpt := entry_addr kernel_pml4_0 in
    match alloc_page_table w1 with
    | (Some user_pdpt, w2) =>
        let m3 := copy_entries 512 0 (mem w2) kernel_pdpt user_pdpt in
        let m4 := set_entry m3 pml4 0 (entry_set user_pdpt TABLE_FLAGS) in
        (Some (frames ++ [user_pdpt]), set_mem w2 m4)
    | (None, w2) => (None, w2)
    end
  else (Some frames, w1).

(** [AddressSpace::new]. *)
Definition new (w : world) : option AddressSpace * world :=
  match alloc_page_table w with
  | (None, w1) => (None, w1)
  | (Some pml4, w1) =>
      match clone_kernel_mapping w1 pml4 [pml4] with
      | (None, w2) => (None, w2)
      | (Some frames, w2) =>
          (Some (mkSpace pml4 frames [] MMAP_BASE_START DEFAULT_USER_HEAP_START DEFAULT_USER_HEAP_START), w2)
      end
  end.

(** One level of [map_user_page]: the next table, opened to user space if it is
    there, created otherwise. *)
Definition ensure_next (w : world) (s : AddressSpace) (table idx : Z) : option Z * world * AddressSpace :=
  let e := entry (mem w) table idx in
  if is_present e then
    let e' := entry_set (entry_addr e) (Z.lor (entry_flags e) (Z.lor USER_ACCESSIBLE WRITABLE)) in
    (Some (entry_addr e), set_mem w (set_entry (mem w) table idx e'), s)
  else
    match alloc_page_table w with
    | (Some t, w1) => (Some t, set_mem w1 (set_entry (mem w1) table idx (entry_set t TABLE_FLAGS)), push_frame s t)
    | (None, w1) => (None, w1, s)
    end.

Definition map_user_page (w : world) (s : AddressSpace) (virt phys : Z) (writable : bool)
  : bool * world * AddressSpace :=
  match ensure_next w s (pml4 s) (p4_index virt) with
  | (None, w, s) => (false, w, s)
  | (Some p3_table, w, s) =>
    match ensure_next w s p3_table (p3_index virt) with
    | (None, w, s) => (false, w, s)
    | (Some p2_table, w, s) =>
      match ensure_next w s p2_table (p2_index virt) with
      | (None, w, s) => (false, w, s)
      | (Some p1_table, w, s) =>
          let flags0 := Z.lor PRESENT USER_ACCESSIBLE in
          let flags := if writable then Z.lor flags0 WRITABLE else flags0 in
          (true, set_mem w (set_entry (mem w) p1_table (p1_index virt) (entry_set phys flags)), s)
      end
    end
  end.

Definition allocate_and_map_page (w : world) (s : AddressSpace) (virt : Z) (writable : bool)
  : option Z * world * AddressSpace :=
  match allocate_frame w with
  | (None, w1) => (None, w1, s)
  | (Some phys, w1) =>
      let w2 := set_mem w1 (write_byte (mem w1) phys 0) in
      let s2 := push_frame s phys in
      match map_user_page w2 s2 virt phys writable with
      | (true, w3, s3) => (Some phys, w3, s3)
      | (false, w3, s3) => (None, w3, s3)
      end
  end.

(** The page loop of [allocate_user_code] at [offset], [code] still to copy. *)
Fixpoint user_code_loop (fuel : nat) (w : world) (s : AddressSpace) (base offset : Z) (code : list Z)
  : outcome (bool * world * AddressSpace) :=
  if offset <? Z.of_nat (length code) then
    match fuel with
    | O => NoFuel
    | S fuel' =>
        let page_virt := u64_add base offset in
        match allocate_and_map_page w s page_virt true with
        | (None, w1, s1) => Ret (false, w1, s1)
        | (Some frame, w1, s1) =>
            let n := Z.min PAGE_SIZE (Z.of_nat (length code) - offset) in
            let bytes := take (Z.to_nat n) (drop (Z.to_nat offset) code) in
            let w2 := set_mem w1 (copy_bytes (mem w1) frame bytes) in
            user_code_loop fuel' w2 s1 base (offset + PAGE_SIZE) code
        end
    end
  else Ret (true, w, s).

Definition allocate_user_code (w : world) (s : AddressSpace) (base : Z) (code : list Z)
  : outcome (bool * world * AddressSpace) :=
  user_code_loop (S (Z.to_nat (Z.of_nat (length code) / PAGE_SIZE))) w s base 0 code.

(** ** Areas *)
Definition add_vma (s : AddressSpace) (v : VmArea) : result unit VmmError * AddressSpace :=
  if ((size v =? 0) || negb (Z.land (start v) (u64_sub PAGE_SIZE 1) =? 0))%bool then (Err InvalidArguments, s)
  else if existsb (fun e => overlaps e (start v) (size v)) (vmas s) then (Err Overlap, s)
  else (Ok tt, set_vmas s (vmas s ++ [v])).

Definition find_vma (s : AddressSpace) (addr : Z) : option VmArea :=
  List.find (fun v => contains v addr) (vmas s).

Definition is_guard_page (s : AddressSpace) (addr : Z) : bool :=
  match find_vma s addr with Some v => (is_guard v || (prot v =? PROT_NONE))%bool | None => false end.

Definition add_guard_page (s : AddressSpace) (guard_addr sz : Z) : result unit VmmError * AddressSpace :=
  add_vma s (vma_new guard_addr sz PROT_NONE (Z.lor MAP_PRIVATE MAP_ANONYMOUS) true "[guard]").

(** [for i in 1..=num_pages] of [allocate_user_stack], from [i] on. *)
Fixpoint stack_pages (n : nat) (i : Z) (w : world) (s : AddressSpace) (top : Z) : bool * world * AddressSpace :=
  match n with
  | O => (true, w, s)
  | S n' =>
      match allocate_and_map_page w s (u64_sub top (i * PAGE_SIZE)) true with
      | (None, w1, s1) => (false, w1, s1)
      | (Some _, w1, s1) => stack_pages n' (i + 1) w1 s1 top
      end
  end.

Definition allocate_user_stack (w : world) (s : AddressSpace) (top num_pages : Z) : bool * world * AddressSpace :=
  let stack_size := u64_mul num_pages PAGE_SIZE in
  let stack_base := u64_sub top stack_size in
  let guard_base := u64_sub stack_base PAGE_SIZE in
  let s1 := (add_guard_page s guard_base PAGE_SIZE).2 in
  match stack_pages (Z.to_nat num_pages) 1 w s1 top with
  | (false, w2, s2) => (false, w2, s2)
  | (true, w2, s2) =>
      let v := vma_new stack_base stack_size (Z.lor PROT_READ PROT_WRITE) (Z.lor MAP_PRIVATE MAP_ANONYMOUS) false "[stack]" in
      let pages := foldl (fun m i => <[u64_sub top (Z.of_nat i * PAGE_SIZE) := 0]> m) (populated_pages v)
                     (seq 1 (Z.to_nat num_pages)) in
      (true, w2, (add_vma s2 (set_populated v pages)).2)
  end.

(** [Vec::remove] at the first position of [x]. *)
Fixpoint remove_first (x : Z) (l : list Z) : list Z :=
  match l with [] => [] | y :: t => if y =? x then t else y :: remove_first x t end.

Definition unmap_user_page (w : world) (s : AddressSpace) (virt : Z) : option Z * world * AddressSpace :=
  let e4 := entry (mem w) (pml4 s) (p4_index virt) in
  if negb (is_present e4) then (None, w, s) else
  let e3 := entry (mem w) (entry_addr e4) (p3_index virt) in
  if negb (is_present e3) then (None, w, s) else
  let e2 := entry (mem w) (entry_addr e3) (p2_index virt) in
  if negb (is_present e2) then (None, w, s) else
  let e1 := entry (mem w) (entry_addr e2) (p1_index virt) in
  if negb (is_present e1) then (None, w, s) else
  let phys := entry_addr e1 in
  (Some phys, set_mem w (set_entry (mem w) (entry_addr e2) (p1_index virt) 0),
   set_frames s (remove_first phys (allocated_frames s))).

(** ** [munmap] *)
Fixpoint unmap_range (fuel : nat) (w : world) (s : AddressSpace) (curr unmap_end : Z)
  : outcome (world * AddressSpace) :=
  if curr <? unmap_end then
    match fuel with
    | O => NoFuel
    | S fuel' =>
        match unmap_user_page w s curr with
        | (Some phys, w1, s1) => w2 ← free_frame w1 phys; unmap_range fuel' w2 s1 (u64_add curr PAGE_SIZE) unmap_end
        | (None, w1, s1) => unmap_range fuel' w1 s1 (u64_add curr PAGE_SIZE) unmap_end
        end
    end
  else Ret (w, s).

(** What the update loop of [munmap] leaves of one area. *)
Definition munmap_vma (unmap_start aligned_len unmap_end : Z) (v : VmArea) : list VmArea :=
  if negb (overlaps v unmap_start aligned_len) then [v] else
  let pages := filter (fun kv : Z * Z => ~ (unmap_start <= kv.1 /\ kv.1 < unmap_end)) (populated_pages v) in
  let v := set_populated v pages in
  let vma_start := start v in
  let vma_end := vend v in
  if ((unmap_start <=? vma_start) && (vma_end <=? unmap_end))%bool then []
  else if ((unmap_start <=? vma_start) && (unmap_end <? vma_end))%bool then
    [set_range v unmap_end (u64_sub vma_end unmap_end)]
  else if ((vma_start <? unmap_start) && (vma_end <=? unmap_end))%bool then
    [set_range v vma_start (u64_sub unmap_start vma_start)]
  else
    let right := vma_new unmap_end (u64_sub vma_end unmap_end) (prot v) (flags v) (is_guard v) (name v) in
    let right_pages := filter (fun kv : Z * Z => unmap_end <= kv.1 /\ kv.1 < vma_end) pages in
    let left_pages := filter (fun kv : Z * Z => ~ (unmap_end <= kv.1 /\ kv.1 < vma_end)) pages in
    [set_populated (set_range v vma_start (u64_sub unmap_start vma_start)) left_pages;
     set_populated right right_pages].

Definition munmap_vmas (unmap_start aligned_len unmap_end : Z) (l : list VmArea) : list VmArea :=
  flat_map (munmap_vma unmap_start aligned_len unmap_end) l.

Definition munmap (w : world) (s : AddressSpace) (addr length : Z)
  : outcome (result unit VmmError * world * AddressSpace) :=
  if ((length =? 0) || negb (Z.land addr (u64_sub PAGE_SIZE 1) =? 0))%bool then Ret (Err InvalidArguments, w, s) else
  let aligned_len := align_up_page length in
  let unmap_end := u64_add addr aligned_len in
  '(w1, s1) ← unmap_range (S (Z.to_nat (aligned_len / PAGE_SIZE))) w s addr unmap_end;
  Ret (Ok tt, w1, set_vmas s1 (munmap_vmas addr aligned_len unmap_end (vmas s1))).

(** ** [mmap] *)

(** The [while] loop that looks for a free range. *)
Fixpoint mmap_search (fuel : nat) (l : list VmArea) (candidate aligned_len : Z) : outcome (option Z) :=
  if u64_add candidate aligned_len <=? MMAP_BASE_END then
    match fuel with
    | O => NoFuel
    | S fuel' =>
        match List.find (fun e => overlaps e candidate aligned_len) l with
        | Some existing => mmap_search fuel' l (align_up_page (vend existing)) aligned_len
        | None => Ret (Some candidate)
        end
    end
  else Ret None.

(** The eager population loop. *)
Fixpoint populate (fuel : nat) (w : world) (s : AddressSpace) (vaddr offset aligned_len prot_ : Z) (v : VmArea)
  : outcome (result VmArea VmmError * world * AddressSpace) :=
  if offset <? aligned_len then
    match fuel with
    | O => NoFuel
    | S fuel' =>
        let page_virt := u64_add vaddr offset in
        match allocate_frame w with
        | (None, w1) =>
            '(_, w2, s2) ← munmap w1 s vaddr offset;
            Ret (Err OutOfMemory, w2, s2)
        | (Some phys, w1) =>
            let w2 := set_mem w1 (zero_frame (mem w1) phys) in
            let s2 := push_frame s phys in
            match map_user_page w2 s2 page_virt phys (negb (Z.land prot_ PROT_WRITE =? 0)) with
            | (false, w3, s3) =>
                w4 ← free_frame w3 phys;
                '(_, w5, s5) ← munmap w4 s3 vaddr offset;
                Ret (Err OutOfMemory, w5, s5)
            | (true, w3, s3) =>
                populate fuel' w3 s3 vaddr (offset + PAGE_SIZE) aligned_len prot_
                  (set_populated v (<[page_virt := phys]> (populated_pages v)))
            end
        end
    end
  else Ret (Ok v, w, s).

(** The address [mmap] settles on, with the space after the bump pointer moved. *)
Definition mmap_place (s : AddressSpace) (addr_hint : option Z) (aligned_len flags_ : Z)
  : outcome (result Z VmmError * AddressSpace) :=
  if negb (Z.land flags_ MAP_FIXED =? 0) then
    match addr_hint with
    | None => Ret (Err InvalidAddress, s)
    | Some req =>
        if negb (Z.land req (u64_sub PAGE_SIZE 1) =? 0) then Ret (Err InvalidAddress, s)
        else if existsb (fun e => overlaps e req aligned_len) (vmas s) then Ret (Err Overlap, s)
        else Ret (Ok req, s)
    end
  else
    let hinted := match addr_hint with
                  | Some a => let a' := align_up_page a in
                              if ((MMAP_BASE_START <=? a') && (a' <? MMAP_BASE_END))%bool then Some a' else None
                  | None => None
                  end in
    let candidate0 := match hinted with Some a => a | None => align_up_page (mmap_bump_ptr s) end in
    let candidate := if candidate0 <? MMAP_BASE_START then MMAP_BASE_START else candidate0 in
    r ← mmap_search (S (length (vmas s))) (vmas s) candidate aligned_len;
    match r with
    | None => Ret (Err OutOfMemory, s)
    | Some c => Ret (Ok c, set_bump s (align_up_page (u64_add c aligned_len)))
    end.

Definition mmap (w : world) (s : AddressSpace) (addr_hint : option Z) (length prot_ flags_ : Z)
  : outcome (result Z VmmError * world * AddressSpace) :=
  if length =? 0 then Ret (Err InvalidArguments, w, s) else
  let aligned_len := align_up_page length in
  '(place, s1) ← mmap_place s addr_hint aligned_len flags_;
  match place with
  | Err e => Ret (Err e, w, s1)
  | Ok vaddr =>
      let v := vma_new vaddr aligned_len prot_ flags_ false "[mmap]" in
      if negb (Z.land flags_ MAP_POPULATE =? 0) then
        '(r, w2, s2) ← populate (S (Z.to_nat (aligned_len / PAGE_SIZE))) w s1 vaddr 0 aligned_len prot_ v;
        match r with
        | Err e => Ret (Err e, w2, s2)
        | Ok v' => Ret (Ok vaddr, w2, set_vmas s2 (vmas s2 ++ [v']))
        end
      else Ret (Ok vaddr, w, set_vmas s1 (vmas s1 ++ [v]))
  end.

(** ** Demand paging *)

(** [iter().position(p)] *)
Fixpoint position {B} (p : B -> bool) (l : list B) : option nat :=
  match l with
  | [] => None
  | x :: t => if p x then Some O else option_map S (position p t)
  end.

Definition handle_demand_fault (w : world) (s : AddressSpace) (fault_addr : Z) (is_write : bool)
  : outcome (bool * world * AddressSpace) :=
  match position (fun v => contains v fault_addr) (vmas s) with
  | None => Ret (false, w, s)
  | Some idx =>
      v ← index (vmas s) (Z.of_nat idx);
      if (is_guard v || (prot v =? PROT_NONE))%bool then Ret (false, w, s) else
      if (is_write && negb (is_writable v))%bool then Ret (false, w, s) else
      let base_page := align_down_page fault_addr in
      match allocate_frame w with
      | (None, w1) => Ret (false, w1, s)
      | (Some phys, w1) =>
          let w2 := set_mem w1 (zero_frame (mem w1) phys) in
          let s2 := push_frame s phys in
          match map_user_page w2 s2 base_page phys (is_writable v) with
          | (false, w3, s3) => w4 ← free_frame w3 phys; Ret (false, w4, s3)
          | (true, w3, s3) =>
              l ← store (vmas s3) (Z.of_nat idx) (set_populated v (<[base_page := phys]> (populated_pages v)));
              Ret (true, w3, set_vmas s3 l)
          end
      end
  end.

(** ** [brk] *)
Definition is_heap (v : VmArea) : bool := String.eqb (name v) "[heap]".

(** [any(|(i, v)| i != pos && v.overlaps(..))] *)
Definition overlaps_other (l : list VmArea) (pos : nat) (s sz : Z) : bool :=
  existsb (fun iv : nat * VmArea => negb (Nat.eqb iv.1 pos) && overlaps iv.2 s sz)%bool (imap pair l).

Definition brk (w : world) (s : AddressSpace) (new_brk : Z) : outcome (Z * world * AddressSpace) :=
  if ((new_brk =? 0) || (new_brk <? heap_start s))%bool then Ret (heap_end s, w, s) else
  if new_brk =? heap_end s then Ret (heap_end s, w, s) else
  if MMAP_BASE_START <? new_brk then Ret (heap_end s, w, s) else
  if heap_end s <? new_brk then
    let new_aligned_end := align_up_page new_brk in
    match position is_heap (vmas s) with
    | Some pos =>
        v ← index (vmas s) (Z.of_nat pos);
        let new_size := u64_sub new_aligned_end (start v) in
        if overlaps_other (vmas s) pos (start v) new_size then Ret (heap_end s, w, s) else
        l ← store (vmas s) (Z.of_nat pos) (set_range v (start v) new_size);
        Ret (new_brk, w, set_heap_end (set_vmas s l) new_brk)
    | None =>
        let sz := u64_sub new_aligned_end (heap_start s) in
        if existsb (fun e => overlaps e (heap_start s) sz) (vmas s) then Ret (heap_end s, w, s) else
        let v := vma_new (heap_start s) sz (Z.lor PROT_READ PROT_WRITE) (Z.lor MAP_PRIVATE MAP_ANONYMOUS) false "[heap]" in
        Ret (new_brk, w, set_heap_end (set_vmas s (vmas s ++ [v])) new_brk)
    end
  else
    let new_aligned_end := align_up_page new_brk in
    let old_aligned_end := align_up_page (heap_end s) in
    '(w1, s1) ← (if new_aligned_end <? old_aligned_end then
                   '(_, w1, s1) ← munmap w s new_aligned_end (u64_sub old_aligned_end new_aligned_end);
                   Ret (w1, s1)
                 else Ret (w, s));
    let s2 := match position is_heap (vmas s1) with
              | Some pos =>
                  match vmas s1 !! pos with
                  | Some v => set_vmas s1 (<[pos := set_range v (start v) (u64_sub new_aligned_end (start v))]> (vmas s1))
                  | None => s1
                  end
              | None => s1
              end in
    Ret (new_brk, w1, set_heap_end s2 new_brk).

(** ** Sizes, activation and teardown *)
Definition virtual_memory_size (s : AddressSpace) : Z := foldr (fun v acc => size v + acc) 0 (vmas s).
Definition populated_memory_size (s : AddressSpace) : Z :=
  foldr (fun v acc => Z.of_nat (stdpp.base.size (populated_pages v)) * PAGE_SIZE + acc) 0 (vmas s).
Definition allocated_frame_count (s : AddressSpace) : Z := Z.of_nat (length (allocated_frames s)).
Definition activate (w : world) (s : AddressSpace) : world := mkWorld (fa w) (mem w) (KERNEL_CR3 w) (pml4 s).
Definition deactivate (w : world) : world :=
  if negb (KERNEL_CR3 w =? 0) then mkWorld (fa w) (mem w) (KERNEL_CR3 w) (KERNEL_CR3 w) else w.

(** [Drop]: every frame goes back to the allocator. *)
Fixpoint drop_frames (w : world) (l : list Z) : outcome world :=
  match l with [] => Ret w | f :: l' => w' ← free_frame w f; drop_frames w' l' end.
Definition drop_space (w : world) (s : AddressSpace) : outcome world := drop_frames w (allocated_frames s).

End AddressSpace.
Arguments world : clear implicits.
Arguments mkWorld {A} _ _ _ _.

(** ** Areas as sets of addresses *)
Definition aend (v : VmArea) : Z := start v + size v.
Definition in_area (v : VmArea) (x : Z) : Prop := start v <= x < aend v.

(** An area as the address space keeps them: page aligned, not empty, and in the
    lower half of the address space. *)
Definition area_ok (v : VmArea) : Prop :=
  0 <= start v /\ start v mod PAGE_SIZE = 0 /\ 0 < size v /\ size v mod PAGE_SIZE = 0 /\ aend v <= 2 ^ 63.

Definition apart (v w : VmArea) : Prop := aend v <= start w \/ aend w <= start v.

Fixpoint all_apart (l : list VmArea) : Prop :=
  match l with [] => True | v :: t => Forall (apart v) t /\ all_apart t end.

Definition areas_ok (l : list VmArea) : Prop := Forall area_ok l /\ all_apart l.

(** Access rights and identity of an area. *)
Definition same_attrs (v w : VmArea) : Prop :=
  prot w = prot v /\ flags w = flags v /\ is_guard w = is_guard v /\ name w = name v.

Lemma vend_ok v : area_ok v -> vend v = aend v.
Proof. intros (? & _ & ? & _ & ?). apply u64_add_small. unfold aend in *. lia. Qed.

Lemma contains_ok v x : area_ok v -> contains v x = true <-> in_area v x.
Proof.
  intros Hv. unfold contains, in_area. rewrite vend_ok by done. rewrite andb_true_iff, Z.leb_le, Z.ltb_lt. done.
Qed.

Lemma overlaps_false v s sz :
  area_ok v -> 0 <= s -> s + sz < 2 ^ 64 -> 0 <= sz ->
  overlaps v s sz = false <-> s + sz <= start v \/ aend v <= s.
Proof.
  intros Hv Hs Hsz Hz. unfold overlaps. rewrite vend_ok, u64_add_small by (done || lia).
  rewrite negb_false_iff, orb_true_iff, !Z.leb_le. done.
Qed.

Lemma overlaps_true v s sz :
  area_ok v -> 0 <= s -> s + sz < 2 ^ 64 -> 0 <= sz ->
  overlaps v s sz = true <-> start v < s + sz /\ s < aend v.
Proof.
  intros Hv Hs Hsz Hz. rewrite <- not_false_iff_true, overlaps_false by done. lia.
Qed.

Lemma all_apart_app l1 l2 :
  all_apart (l1 ++ l2) <-> all_apart l1 /\ all_apart l2 /\ Forall (fun v => Forall (apart v) l2) l1.
Proof.
  induction l1 as [|v l1 IH]; cbn [app all_apart]; [rewrite Forall_nil; tauto|].
  rewrite Forall_app, Forall_cons, IH. tauto.
Qed.

Lemma apart_sym v w : apart v w -> apart w v.
Proof. unfold apart. tauto. Qed.

(** Alignment arithmetic. *)
Lemma page_mask a : Z.land a (u64_sub PAGE_SIZE 1) = a mod PAGE_SIZE.
Proof. change (u64_sub PAGE_SIZE 1) with (2 ^ 12 - 1). change PAGE_SIZE with (2 ^ 12). by apply land_mask. Qed.

Lemma align_up_page_bounds a :
  0 <= a -> a + PAGE_SIZE <= 2 ^ 64 ->
  a <= align_up_page a < a + PAGE_SIZE /\ align_up_page a mod PAGE_SIZE = 0.
Proof. intros. by apply (align_up_bounds a 12); [lia| |]. Qed.

Lemma align_up_page_id a : 0 <= a -> a + PAGE_SIZE <= 2 ^ 64 -> a mod PAGE_SIZE = 0 -> align_up_page a = a.
Proof.
  intros H0 H1 Hm. destruct (align_up_page_bounds a H0 H1) as [Hb Hb']. unfold PAGE_SIZE in *.
  pose proof (Z.div_mod a 4096). pose proof (Z.div_mod (align_up_page a) 4096). lia.
Qed.

Lemma page_mod_add a b : a mod PAGE_SIZE = 0 -> b mod PAGE_SIZE = 0 -> (a + b) mod PAGE_SIZE = 0.
Proof. intros Ha Hb. by rewrite Zplus_mod, Ha, Hb. Qed.

Lemma page_mod_sub a b : a mod PAGE_SIZE = 0 -> b mod PAGE_SIZE = 0 -> (a - b) mod PAGE_SIZE = 0.
Proof. intros Ha Hb. by rewrite Zminus_mod, Ha, Hb. Qed.

#[local] Hint Resolve page_mod_add page_mod_sub : aura.

(** ** [munmap] on areas *)

(** What is left of an area: the part outside the range, in at most two pieces. *)
Lemma munmap_vma_spec s len v :
  area_ok v -> 0 <= s -> s mod PAGE_SIZE = 0 -> 0 < len -> len mod PAGE_SIZE = 0 -> s + len <= 2 ^ 63 ->
  let r := munmap_vma s len (s + len) v in
  Forall (fun u => area_ok u /\ same_attrs v u /\ start v <= start u /\ aend u <= aend v /\
                   (aend u <= s \/ s + len <= start u)) r /\
  all_apart r /\
  (forall x, (exists u, u ∈ r /\ in_area u x) <-> in_area v x /\ ~ (s <= x < s + len)).
Proof.
  intros Hv Hs Hsm Hl Hlm Hend. cbv zeta. unfold munmap_vma.
  pose proof Hv as (Hv0 & Hvm & Hvs & Hvsm & Hvend).
  destruct (overlaps v s len) eqn:Eo; cbn [negb].
  2:{ apply overlaps_false in Eo; [|done|lia..]. split; [|split; [by cbn; auto using Forall_nil|]].
      - constructor; [|constructor]. split; [done|]. split; [by split|]. lia.
      - intros x. setoid_rewrite list_elem_of_singleton. unfold in_area. split; [|intros [? ?]; by exists v].
        intros (u & -> & Hx). split; [done|]. lia. }
  apply overlaps_true in Eo; [|done|lia..].
  change (vend (set_populated v _)) with (vend v). rewrite vend_ok by done.
  cbn [start set_populated prot flags is_guard name]. unfold aend in *.
  destruct ((s <=? start v) && (start v + size v <=? s + len))%bool eqn:E1.
  { zbool. split; [constructor|]. split; [done|]. intros x. unfold in_area, aend. split; [|lia].
    intros (u & Hu & _). by apply elem_of_nil in Hu. }
  destruct ((s <=? start v) && (s + len <? start v + size v))%bool eqn:E2.
  { zbool. rewrite u64_sub_small by lia. split; [|split; [by cbn; auto using Forall_nil|]].
    - constructor; [|constructor]. cbn. split; [|split; [by split|cbn; lia]].
      unfold area_ok, aend. cbn. split; [lia|]. split; [auto with aura|]. split; [lia|]. split; [auto with aura|lia].
    - intros x. setoid_rewrite list_elem_of_singleton. unfold in_area, aend. split.
      + intros (u & -> & Hx). cbn in Hx. lia.
      + intros Hx. eexists. split; [done|]. cbn. lia. }
  destruct ((start v <? s) && (start v + size v <=? s + len))%bool eqn:E3.
  { zbool. rewrite u64_sub_small by lia. split; [|split; [by cbn; auto using Forall_nil|]].
    - constructor; [|constructor]. cbn. split; [|split; [by split|cbn; lia]].
      unfold area_ok, aend. cbn. split; [lia|]. split; [auto with aura|]. split; [lia|]. split; [auto with aura|lia].
    - intros x. setoid_rewrite list_elem_of_singleton. unfold in_area, aend. split.
      + intros (u & -> & Hx). cbn in Hx. lia.
      + intros Hx. eexists. split; [done|]. cbn. lia. }
  apply andb_false_iff in E1, E2, E3. rewrite !u64_sub_small by (destruct E1, E2, E3; zbool; lia).
  assert (start v < s /\ s + len < start v + size v) as [Hlt Hgt] by (destruct E1, E2, E3; zbool; lia). clear E1 E2 E3.
  split; [|split].
  - constructor; [|constructor; [|constructor]]; (split; [|split; [by split|unfold aend; cbn; lia]]);
      unfold area_ok, aend; cbn; (split; [lia|]); (split; [auto with aura|]); (split; [lia|]); (split; [auto with aura|lia]).
  - cbn. split; [|auto using Forall_nil]. constructor; [|constructor]. left. unfold aend. cbn. lia.
  - intros x. setoid_rewrite elem_of_cons. setoid_rewrite list_elem_of_singleton. unfold in_area, aend. split.
    + intros (u & [->| ->] & Hx); cbn in Hx; lia.
    + intros [Hx Hn]. destruct (Z.lt_ge_cases x s); eexists; (split; [|]); [by left| |by right|]; cbn; lia.
Qed.

Lemma munmap_vmas_spec s len l :
  areas_ok l -> 0 <= s -> s mod PAGE_SIZE = 0 -> 0 < len -> len mod PAGE_SIZE = 0 -> s + len <= 2 ^ 63 ->
  let r := munmap_vmas s len (s + len) l in
  areas_ok r /\
  (forall u, u ∈ r -> aend u <= s \/ s + len <= start u) /\
  (forall u, u ∈ r -> exists v, v ∈ l /\ same_attrs v u /\ start v <= start u /\ aend u <= aend v) /\
  (forall x, (exists u, u ∈ r /\ in_area u x) <-> (exists v, v ∈ l /\ in_area v x) /\ ~ (s <= x < s + len)).
Proof.
  intros Hok Hs Hsm Hl Hlm Hend. cbv zeta. unfold munmap_vmas.
  induction l as [|v l IH]; cbn [flat_map].
  { split; [by split; [constructor|]|]. split; [intros u Hu; by apply elem_of_nil in Hu|].
    split; [intros u Hu; by apply elem_of_nil in Hu|]. intros x. split; [|intros [(u & Hu & _) _]];
      [intros (u & Hu & _)|]; by apply elem_of_nil in Hu. }
  destruct Hok as [HF [Hap Hall]]. apply Forall_cons_1 in HF as [Hv HF].
  destruct IH as ([IHF IHa] & IHo & IHs & IHx); [by split|].
  destruct (munmap_vma_spec s len v Hv Hs Hsm Hl Hlm Hend) as (HrF & Hra & Hrx).
  set (r1 := munmap_vma s len (s + len) v) in *. set (r2 := flat_map _ l) in *.
  rewrite Forall_forall in HrF.
  split; [split|split; [|split]].
  - apply Forall_app. split; [|done]. apply Forall_forall. intros u Hu. by apply HrF.
  - apply all_apart_app. split; [done|]. split; [done|]. apply Forall_forall. intros u Hu.
    apply Forall_forall. intros u' Hu'. destruct (IHs u' Hu') as (v' & Hv' & _ & ? & ?).
    rewrite Forall_forall in Hap. destruct (HrF u Hu) as (_ & _ & ? & ? & _). unfold apart in *.
    destruct (Hap v' Hv'); lia.
  - intros u Hu. apply elem_of_app in Hu as [Hu|Hu]; [|by apply IHo]. by apply HrF.
  - intros u Hu. apply elem_of_app in Hu as [Hu|Hu].
    + destruct (HrF u Hu) as (_ & ? & ? & ? & _). exists v. rewrite elem_of_cons. auto.
    + destruct (IHs u Hu) as (v' & ? & ?). exists v'. rewrite elem_of_cons. auto.
  - intros x. specialize (IHx x). specialize (Hrx x). setoid_rewrite elem_of_app. setoid_rewrite elem_of_cons.
    split.
    + intros (u & [Hu|Hu] & Hx).
      * destruct (proj1 Hrx) as [? ?]; [by exists u|]. split; [|done]. exists v. auto.
      * destruct (proj1 IHx) as [(v' & ? & ?) ?]; [by exists u|]. split; [|done]. exists v'. auto.
    + intros [(v' & [->|Hv'] & Hx) Hn].
      * destruct (proj2 Hrx) as (u & ? & ?); [done|]. exists u. auto.
      * destruct (proj2 IHx) as (u & ? & ?); [split; [by exists v'|done]|]. exists u. auto.
Qed.

(** ** Loops return *)
Section Loops.
Context {A : Type} `{FA : Pmm.FrameAllocator A}.

(** Only the frame list differs. *)
Definition same_areas (s s' : AddressSpace) : Prop := s' = set_frames s (allocated_frames s').

Lemma same_areas_refl s : same_areas s s.
Proof. by destruct s. Qed.

Lemma same_areas_trans s1 s2 s3 : same_areas s1 s2 -> same_areas s2 s3 -> same_areas s1 s3.
Proof. unfold same_areas. intros -> ->. done. Qed.

Lemma same_areas_vmas s s' : same_areas s s' -> vmas s' = vmas s.
Proof. by intros ->. Qed.

Lemma free_frame_ret (w : world A) phys :
  Pmm.fa_wf (fa w) -> exists w', free_frame w phys = Ret w' /\ Pmm.fa_wf (fa w') /\ mem w' = mem w.
Proof.
  intros Hwf. unfold free_frame. destruct (Pmm.fa_dealloc_spec (fa w) phys Hwf) as ([] & a & -> & Hr); cbn; eexists;
    (split; [done|]); (split; [|done]); cbn.
  - apply Hr.
  - by destruct Hr as [-> _].
Qed.

Lemma unmap_user_page_frame (w : world A) s virt r w' s' :
  unmap_user_page w s virt = (r, w', s') -> fa w' = fa w /\ same_areas s s'.
Proof.
  unfold unmap_user_page. intros H. repeat (destruct (negb _); [by simplify_eq; auto using same_areas_refl|]).
  simplify_eq. done.
Qed.

Lemma unmap_range_ret fuel (w : world A) s curr e :
  Pmm.fa_wf (fa w) -> 0 <= curr -> e <= 2 ^ 63 -> e - curr <= Z.of_nat fuel * PAGE_SIZE ->
  exists w' s', unmap_range fuel w s curr e = Ret (w', s') /\ Pmm.fa_wf (fa w') /\ same_areas s s'.
Proof.
  revert w s curr. induction fuel as [|fuel IH]; intros w s curr Hwf Hc He Hf; cbn [unmap_range];
    (destruct (Z.ltb_spec curr e); [|exists w, s; auto using same_areas_refl]).
  - exfalso. lia.
  - rewrite u64_add_small by (unfold PAGE_SIZE; lia).
    destruct (unmap_user_page w s curr) as [[r w1] s1] eqn:Eu.
    apply unmap_user_page_frame in Eu as [Efa Hs1]. rewrite <- Efa in Hwf.
    destruct r as [phys|].
    + destruct (free_frame_ret w1 phys Hwf) as (w2 & -> & Hwf2 & _). cbn.
      destruct (IH w2 s1 (curr + PAGE_SIZE)) as (w3 & s3 & -> & ? & ?); [done|unfold PAGE_SIZE in *; lia..|].
      exists w3, s3. eauto using same_areas_trans.
    + destruct (IH w1 s1 (curr + PAGE_SIZE)) as (w3 & s3 & -> & ? & ?); [done|unfold PAGE_SIZE in *; lia..|].
      exists w3, s3. eauto using same_areas_trans.
Qed.

(** Munmap.  For a page-aligned range in the lower half of the address space
    [munmap] returns [Ok]; afterwards an address belongs to an area exactly when it
    did before and is outside the range rounded up to pages, every area left is
    aligned, not empty, apart from the others, and keeps the protection, flags,
    guard mark and name of the area it comes from (whole, trimmed or split). *)
Theorem munmap_correct (w : world A) s addr len :
  Pmm.fa_wf (fa w) -> areas_ok (vmas s) ->
  0 <= addr -> addr mod PAGE_SIZE = 0 -> 0 < len -> addr + len + PAGE_SIZE <= 2 ^ 63 ->
  exists w' s', munmap w s addr len = Ret (Ok tt, w', s') /\ areas_ok (vmas s') /\
    (forall x, (exists u, u ∈ vmas s' /\ in_area u x) <->
               (exists v, v ∈ vmas s /\ in_area v x) /\ ~ (addr <= x < addr + align_up_page len)) /\
    (forall u, u ∈ vmas s' -> exists v, v ∈ vmas s /\ same_attrs v u /\ start v <= start u /\ aend u <= aend v).
Proof.
  intros Hwf Hok Ha Ham Hl Hend. unfold munmap. rewrite page_mask, Ham.
  replace (len =? 0) with false by lia. cbn [negb orb Z.eqb].
  destruct (align_up_page_bounds len) as [Hb Hbm]; [lia|unfold PAGE_SIZE in *; lia|].
  rewrite (u64_add_small addr) by (unfold PAGE_SIZE in *; lia).
  set (al := align_up_page len) in *.
  destruct (unmap_range_ret (S (Z.to_nat (al / PAGE_SIZE))) w s addr (addr + al)) as (w1 & s1 & -> & Hwf1 & Hs1);
    [done|done|unfold PAGE_SIZE in *; lia| |].
  { pose proof (Z.div_mod al PAGE_SIZE). pose proof (Z.div_pos al PAGE_SIZE). unfold PAGE_SIZE in *. lia. }
  cbn. eexists w1, _. split; [done|]. cbn [vmas set_vmas]. rewrite (same_areas_vmas s s1) by done.
  destruct (munmap_vmas_spec addr al (vmas s) Hok) as (H1 & _ & H2 & H3); [done|done|lia|done|unfold PAGE_SIZE in *; lia|].
  split; [done|]. split; [exact H3|exact H2].
Qed.

End Loops.

(** ** [mmap]: the search for a free range *)

(** Areas that end above [c]: each conflict of the search removes one. *)
Definition above (l : list VmArea) (c : Z) : list VmArea := filter (fun v => c < aend v) l.

Lemma above_shrinks l c c' v :
  v ∈ l -> c < aend v -> aend v <= c' -> (length (above l c') < length (above l c))%nat.
Proof.
  intros Hin Hc Hc'.
  assert (Hmono : forall k, (length (above k c') <= length (above k c))%nat).
  { unfold above. induction k as [|u k IH]; [done|]. rewrite !filter_cons. do 2 case_decide; cbn; lia. }
  unfold above in *. induction l as [|u l IH]; [by apply elem_of_nil in Hin|]. rewrite !filter_cons.
  apply elem_of_cons in Hin as [->|Hin].
  - specialize (Hmono l). rewrite decide_False, decide_True by lia. cbn. lia.
  - specialize (IH Hin). do 2 case_decide; cbn; lia.
Qed.

Lemma mmap_search_spec fuel l c len :
  Forall area_ok l -> 0 <= c <= 2 ^ 63 -> c mod PAGE_SIZE = 0 -> 0 < len < 2 ^ 63 ->
  (length (above l c) <= fuel)%nat ->
  exists r, mmap_search (S fuel) l c len = Ret r /\
    match r with
    | None => True
    | Some c' => c <= c' /\ c' mod PAGE_SIZE = 0 /\ c' + len <= MMAP_BASE_END /\
                 forall v, v ∈ l -> c' + len <= start v \/ aend v <= c'
    end.
Proof.
  intros HF. revert c. induction fuel as [|fuel IH]; intros c Hc Hcm Hlen Hf;
    cbn [mmap_search]; rewrite (u64_add_small c len) by lia;
    (destruct (Z.leb_spec (c + len) MMAP_BASE_END) as [Hle|Hgt]; [|by exists None]);
    destruct (List.find (fun e => overlaps e c len) l) as [v|] eqn:Ef.
  1, 3: apply List.find_some in Ef as [Hin%list_elem_of_In Ho];
        pose proof (proj1 (Forall_forall _ _) HF v Hin) as Hv; apply overlaps_true in Ho; [|done|lia..];
        pose proof (above_shrinks l c (aend v) v Hin ltac:(lia) ltac:(lia)) as Hsh.
  - exfalso. lia.
  - pose proof Hv as (? & ? & ? & ? & ?). rewrite vend_ok by done.
    rewrite align_up_page_id; [|unfold aend, PAGE_SIZE in *; lia..|unfold aend; auto with aura].
    destruct (IH (aend v)) as (r & E & Hr); [unfold aend in *; lia|unfold aend; auto with aura|done|lia|].
    cbn [mmap_search] in E |- *. exists r. split; [exact E|]. destruct r; [|done].
    destruct Hr as (? & ? & ? & ?). split; [lia|]. by split_and!.
  - exists (Some c). split; [done|]. split; [lia|]. split; [done|]. split; [done|]. intros v Hin.
    pose proof (List.find_none _ _ Ef v (proj1 (list_elem_of_In _ _) Hin)) as Ho.
    pose proof (proj1 (Forall_forall _ _) HF v Hin) as Hv. apply overlaps_false in Ho; [done|done|lia..].
  - exists (Some c). split; [done|]. split; [lia|]. split; [done|]. split; [done|]. intros v Hin.
    pose proof (List.find_none _ _ Ef v (proj1 (list_elem_of_In _ _) Hin)) as Ho.
    pose proof (proj1 (Forall_forall _ _) HF v Hin) as Hv. apply overlaps_false in Ho; [done|done|lia..].
Qed.

(** An area the range does not touch is left alone. *)
Lemma munmap_vma_apart s len v :
  area_ok v -> 0 <= s -> 0 <= len -> s + len < 2 ^ 64 -> s + len <= start v \/ aend v <= s ->
  munmap_vma s len (s + len) v = [v].
Proof. intros Hv ? ? ? H. unfold munmap_vma. by rewrite (proj2 (overlaps_false v s len Hv ltac:(lia) ltac:(lia) ltac:(lia)) H). Qed.

Section Mmap.
Context {A : Type} `{FA : Pmm.FrameAllocator A}.

(** Page tables do not touch the areas, and leave a well-formed allocator. *)
Lemma ensure_next_areas (w : world A) s t i : let '(_, w1, s1) := ensure_next w s t i in same_areas s s1 /\ (Pmm.fa_wf (fa w) -> Pmm.fa_wf (fa w1)).
Proof.
  unfold ensure_next, alloc_page_table, allocate_frame. destruct (is_present _); [by split; [apply same_areas_refl|]|].
  destruct (Pmm.fa_alloc (fa w)) as [[f|] a] eqn:E; (split; [done || apply same_areas_refl|]); intros Hwf.
  - by destruct (Pmm.fa_alloc_Some _ _ _ Hwf E).
  - by destruct (Pmm.fa_alloc_None _ _ Hwf E) as [-> _].
Qed.

Lemma map_user_page_kept (w : world A) s v f wr : let '(_, w1, s1) := map_user_page w s v f wr in same_areas s s1 /\ (Pmm.fa_wf (fa w) -> Pmm.fa_wf (fa w1)).
Proof.
  unfold map_user_page. pose proof (ensure_next_areas w s (pml4 s) (p4_index v)) as H1. destruct (ensure_next w s _ _) as [[[t3|] w1] s1]; [|done].
  pose proof (ensure_next_areas w1 s1 t3 (p3_index v)) as H2. destruct (ensure_next w1 s1 _ _) as [[[t2|] w2] s2]; [|split; [by eapply same_areas_trans; [apply H1|apply H2]|tauto]].
  pose proof (ensure_next_areas w2 s2 t2 (p2_index v)) as H3. destruct (ensure_next w2 s2 _ _) as [[[t1|] w3] s3];
    (split; [eapply same_areas_trans; [apply H1|]; eapply same_areas_trans; [apply H2|apply H3]|cbn [fa set_mem]; tauto]).
Qed.

Lemma map_user_page_areas (w : world A) s v f wr : same_areas s (map_user_page w s v f wr).2.
Proof. pose proof (map_user_page_kept w s v f wr) as H. destruct (map_user_page w s v f wr) as [[ok w1] s1]. apply H. Qed.

(** Unmapping a range that no area touches leaves the areas as they are. *)
Lemma munmap_outside (w : world A) s a n :
  Pmm.fa_wf (fa w) -> Forall area_ok (vmas s) -> 0 <= a -> a mod PAGE_SIZE = 0 -> 0 <= n -> n mod PAGE_SIZE = 0 -> a + n <= 2 ^ 63 ->
  (forall v, v ∈ vmas s -> a + n <= start v \/ aend v <= a) ->
  exists r w' s', munmap w s a n = Ret (r, w', s') /\ Pmm.fa_wf (fa w') /\ vmas s' = vmas s.
Proof.
  intros Hwf HF Ha Ham Hn Hnm He Hap. unfold munmap. rewrite page_mask, Ham. destruct (Z.eqb_spec n 0) as [->|Hn0]; [exists (Err InvalidArguments), w, s; by split_and!|].
  cbn [negb orb Z.eqb]. cbv zeta. rewrite (align_up_page_id n) by (done || unfold PAGE_SIZE; lia). rewrite (u64_add_small a) by lia.
  destruct (unmap_range_ret (S (Z.to_nat (n / PAGE_SIZE))) w s a (a + n)) as (w1 & s1 & -> & Hwf1 & Hs1); [done|done|done| |].
  { pose proof (Z.div_mod n PAGE_SIZE). pose proof (Z.div_pos n PAGE_SIZE). unfold PAGE_SIZE in *. lia. }
  cbn [mbind outcome_bind]. eexists (Ok tt), w1, _. split; [reflexivity|]. split; [done|]. cbn [vmas set_vmas]. rewrite (same_areas_vmas s s1 Hs1).
  unfold munmap_vmas. revert HF Hap. generalize (vmas s). intros l HF. induction HF as [|v l Hv HF IH]; intros Hap; [done|]. cbn [flat_map].
  rewrite (munmap_vma_apart a n v Hv), IH; [done|intros u Hu; apply Hap; by right|done|lia|lia|apply Hap; by left].
Qed.

(** The eager population: every page is recorded, or memory runs out and what was
    mapped is unmapped again. *)
Lemma populate_spec fuel : forall (w : world A) s a off n pr v,
  Pmm.fa_wf (fa w) -> Forall area_ok (vmas s) -> 0 <= a -> a mod PAGE_SIZE = 0 -> 0 <= off <= n -> off mod PAGE_SIZE = 0 -> n mod PAGE_SIZE = 0 -> a + n <= 2 ^ 63 ->
  (forall u, u ∈ vmas s -> a + n <= start u \/ aend u <= a) -> n - off <= Z.of_nat fuel * PAGE_SIZE ->
  exists r w' s', populate fuel w s a off n pr v = Ret (r, w', s') /\ Pmm.fa_wf (fa w') /\ vmas s' = vmas s /\
  match r with
  | Ok v' => exists m, v' = set_populated v m /\ (forall x, is_Some (populated_pages v !! x) -> is_Some (m !! x)) /\ forall i, off <= i < n -> i mod PAGE_SIZE = 0 -> is_Some (m !! (a + i))
  | Err e => e = OutOfMemory
  end.
Proof.
  induction fuel as [|fuel IH]; intros w s a off n pr v Hwf HF Ha Ham Hoff Hom Hnm He Hap Hf; cbn [populate];
    (destruct (Z.ltb_spec off n) as [Hlt|]; [|exists (Ok v), w, s; split; [done|]; split; [done|]; split; [done|]; exists (populated_pages v); split; [by destruct v|]; split; [done|lia]]); [exfalso; lia|].
  rewrite u64_add_small by lia. assert (Hstep : off + PAGE_SIZE <= n) by (pose proof (Z.div_mod off PAGE_SIZE); pose proof (Z.div_mod n PAGE_SIZE); unfold PAGE_SIZE in *; lia).
  assert (Hundo : forall w2 s2, Pmm.fa_wf (fa w2) -> vmas s2 = vmas s -> exists r w' s', munmap w2 s2 a off = Ret (r, w', s') /\ Pmm.fa_wf (fa w') /\ vmas s' = vmas s).
  { intros w2 s2 Hw2 Ev. destruct (munmap_outside w2 s2 a off) as (r & w3 & s3 & E & ? & Ev3); try done; try lia; [by rewrite Ev| |exists r, w3, s3; split; [done|]; split; [done|congruence]].
    intros u Hu. rewrite Ev in Hu. destruct (Hap u Hu); [left; lia|by right]. }
  unfold allocate_frame. destruct (Pmm.fa_alloc (fa w)) as [[f|] al] eqn:Ea.
  - destruct (Pmm.fa_alloc_Some _ _ _ Hwf Ea) as (Hwf1 & _). cbv zeta. pose proof (map_user_page_kept (set_mem (set_fa w al) (zero_frame (mem (set_fa w al)) f)) (push_frame s f) (a + off) f (negb (Z.land pr PROT_WRITE =? 0))) as Hm.
    destruct (map_user_page _ _ _ _ _) as [[ok w3] s3]. destruct Hm as [Sa Hw3]. specialize (Hw3 Hwf1). assert (Ev3 : vmas s3 = vmas s) by (by rewrite (same_areas_vmas _ _ Sa)). destruct ok.
    + destruct (IH w3 s3 a (off + PAGE_SIZE) n pr (set_populated v (<[a + off:=f]> (populated_pages v)))) as (r & w4 & s4 & E4 & Hw4 & Ev4 & Hr); try done; [by rewrite Ev3|unfold PAGE_SIZE in *; lia|by apply page_mod_add|by rewrite Ev3|unfold PAGE_SIZE in *; lia|].
      exists r, w4, s4. split; [exact E4|]. split; [done|]. split; [congruence|]. destruct r as [v'|e]; [|done]. destruct Hr as (m & -> & Hold & Hnew). exists m. split; [done|]. cbn [populated_pages set_populated] in Hold. split.
      * intros x Hx. apply Hold. destruct (decide (x = a + off)) as [->|Hne]; [by rewrite lookup_insert_eq|by rewrite lookup_insert_ne].
      * intros i Hi Him. destruct (decide (i = off)) as [->|Hne]; [apply Hold; by rewrite lookup_insert_eq|]. apply Hnew; [|done].
        pose proof (Z.div_mod off PAGE_SIZE). pose proof (Z.div_mod i PAGE_SIZE). unfold PAGE_SIZE in *. lia.
    + destruct (free_frame_ret w3 f Hw3) as (w4 & -> & Hw4 & _). cbn [mbind outcome_bind]. destruct (Hundo w4 s3 Hw4 Ev3) as (r & w5 & s5 & -> & ? & ?). cbn [mbind outcome_bind]. by exists (Err OutOfMemory), w5, s5.
  - destruct (Pmm.fa_alloc_None _ _ Hwf Ea) as [-> _]. destruct (Hundo (set_fa w (fa w)) s Hwf eq_refl) as (r & w5 & s5 & -> & ? & ?). cbn [mbind outcome_bind]. by exists (Err OutOfMemory), w5, s5.
Qed.

(** The address a lazy mapping gets. *)
Lemma mmap_place_spec s hint len fl :
  areas_ok (vmas s) -> 0 <= mmap_bump_ptr s <= 2 ^ 62 -> (forall a, hint = Some a -> 0 <= a <= 2 ^ 62) ->
  0 < len <= 2 ^ 62 -> len mod PAGE_SIZE = 0 ->
  exists r s', mmap_place s hint len fl = Ret (r, s') /\ vmas s' = vmas s /\
    match r with
    | Err e => s' = s
    | Ok c =>
        0 <= c /\ c mod PAGE_SIZE = 0 /\ c + len <= 2 ^ 63 /\
        (forall v, v ∈ vmas s -> c + len <= start v \/ aend v <= c) /\
        (if Z.land fl MAP_FIXED =? 0 then MMAP_BASE_START <= c /\ c + len <= MMAP_BASE_END
         else hint = Some c)
    end.
Proof.
  intros [HF Hap] Hb Hh Hlen Hlm. unfold mmap_place. destruct (Z.land fl MAP_FIXED =? 0); cbn [negb].
  - set (hinted := match hint with Some a => _ | None => _ end).
    set (c0 := match hinted with Some a => a | None => _ end).
    set (c := if c0 <? MMAP_BASE_START then MMAP_BASE_START else c0).
    assert (Hal : forall a, 0 <= a <= 2 ^ 62 -> a <= align_up_page a < a + PAGE_SIZE /\ align_up_page a mod PAGE_SIZE = 0).
    { intros a Ha. apply align_up_page_bounds; unfold PAGE_SIZE; lia. }
    assert (Hc0 : 0 <= c0 <= 2 ^ 63 /\ c0 mod PAGE_SIZE = 0).
    { unfold c0, hinted. destruct hint as [a|].
      - pose proof (Hh a eq_refl) as Ha. destruct (Hal a Ha). destruct (_ && _)%bool; [unfold PAGE_SIZE in *; split; [lia|done]|].
        destruct (Hal _ Hb). unfold PAGE_SIZE in *. split; [lia|done].
      - destruct (Hal _ Hb). unfold PAGE_SIZE in *. split; [lia|done]. }
    assert (Hc : MMAP_BASE_START <= c <= 2 ^ 63 /\ c mod PAGE_SIZE = 0).
    { unfold c. destruct (Z.ltb_spec c0 MMAP_BASE_START); [by vm_compute|]. split; [lia|apply Hc0]. }
    destruct Hc as [Hc Hcm]. clearbody c. unfold MMAP_BASE_START, MMAP_BASE_END in *.
    destruct (mmap_search_spec (length (vmas s)) (vmas s) c len HF) as (r & -> & Hr); [lia|done|lia| |].
    { unfold above. apply length_filter. }
    cbn. destruct r as [c'|]; eexists _, _; (split; [done|]); (split; [done|]); [|done].
    destruct Hr as (? & ? & ? & ?). unfold MMAP_BASE_END in *. split_and!; auto; lia.
  - destruct hint as [req|]; [|eexists _, s; by split_and!]. specialize (Hh req eq_refl).
    rewrite page_mask. destruct (Z.eqb_spec (req mod PAGE_SIZE) 0) as [Hm|]; cbn [negb]; [|eexists _, s; by split_and!].
    destruct (existsb _ (vmas s)) eqn:Eo; eexists _, s; (split; [done|]); (split; [done|]); [done|].
    split; [lia|]. split; [done|]. split; [lia|]. split; [|done]. intros v Hv.
    pose proof (proj1 (Forall_forall _ _) HF v Hv) as Hvok. apply overlaps_false; [done|lia..|].
    destruct (overlaps v req len) eqn:E; [|done]. exfalso.
    assert (existsb (fun e => overlaps e req len) (vmas s) = true) by (apply existsb_exists; exists v; by rewrite <- list_elem_of_In).
    congruence.
Qed.

(** C21: mmap.  A request of any length up to 2^62, lazy or eager, returns: the search
    for a range always ends.  On success the new area is page aligned, covers at least
    [length] bytes, lies in the mmap window (or exactly at the hint with [MAP_FIXED]),
    touches no earlier area, carries the requested protection and is the only change
    of the areas; with [MAP_POPULATE] every page of it is populated, and without it
    none is and no memory is touched.  On failure the areas are unchanged, and so is
    everything else unless memory ran out while pages were being populated.  The areas
    stay aligned and pairwise apart. *)
Theorem mmap_correct (w : world A) s hint len pr fl :
  Pmm.fa_wf (fa w) -> areas_ok (vmas s) -> 0 <= mmap_bump_ptr s <= 2 ^ 62 -> (forall a, hint = Some a -> 0 <= a <= 2 ^ 62) ->
  0 <= len -> len + PAGE_SIZE <= 2 ^ 62 ->
  exists r w' s', mmap w s hint len pr fl = Ret (r, w', s') /\ Pmm.fa_wf (fa w') /\ areas_ok (vmas s') /\
    match r with
    | Err e => vmas s' = vmas s /\ (w' = w /\ s' = s \/ e = OutOfMemory /\ Z.land fl MAP_POPULATE <> 0) /\ (len = 0 -> e = InvalidArguments)
    | Ok c =>
        0 < len /\ c mod PAGE_SIZE = 0 /\ len <= align_up_page len /\
        (if Z.land fl MAP_FIXED =? 0 then MMAP_BASE_START <= c /\ c + align_up_page len <= MMAP_BASE_END
         else hint = Some c) /\
        (forall v, v ∈ vmas s -> c + align_up_page len <= start v \/ aend v <= c) /\
        exists m, vmas s' = vmas s ++ [set_populated (vma_new c (align_up_page len) pr fl false "[mmap]") m] /\
          if Z.land fl MAP_POPULATE =? 0 then m = ∅ /\ w' = w
          else forall i, 0 <= i < align_up_page len -> i mod PAGE_SIZE = 0 -> is_Some (m !! (c + i))
    end.
Proof.
  intros Hwf Hok Hb Hh Hl Hl2. unfold mmap. destruct (Z.eqb_spec len 0) as [->|Hl0]; [exists (Err InvalidArguments), w, s; split_and!; auto|].
  destruct (align_up_page_bounds len) as [Hal Halm]; [lia|unfold PAGE_SIZE in *; lia|]. cbv zeta.
  destruct (mmap_place_spec s hint (align_up_page len) fl Hok Hb Hh) as (r & s1 & -> & Hv1 & Hr);
    [unfold PAGE_SIZE in *; lia|done|]. cbn [mbind outcome_bind].
  destruct r as [c|e]; [|exists (Err e), w, s1; rewrite Hr; split_and!; auto; lia].
  destruct Hr as (Hc0 & Hcm & Hcend & Hdis & Hwhere).
  assert (Hadd : forall m, areas_ok (vmas s ++ [set_populated (vma_new c (align_up_page len) pr fl false "[mmap]") m])).
  { intros m. destruct Hok as [HF Hap]. split.
    - apply Forall_app. split; [done|]. constructor; [|constructor]. unfold area_ok, aend. cbn. split_and!; try done; lia.
    - apply all_apart_app. split; [done|]. split; [by split|]. apply Forall_forall. intros v Hv.
      constructor; [|constructor]. unfold apart, aend at 2. cbn. destruct (Hdis v Hv); auto. }
  destruct (Z.eqb_spec (Z.land fl MAP_POPULATE) 0) as [Hp|Hp]; cbn [negb].
  - exists (Ok c), w. eexists. split; [done|]. cbn [vmas set_vmas]. rewrite Hv1. split; [done|]. split; [apply (Hadd ∅)|]. split_and!; try done; try lia. by exists ∅.
  - destruct (populate_spec (S (Z.to_nat (align_up_page len / PAGE_SIZE))) w s1 c 0 (align_up_page len) pr (vma_new c (align_up_page len) pr fl false "[mmap]")) as (r & w2 & s2 & -> & Hw2 & Ev2 & Hr);
      try done; [by rewrite Hv1; apply Hok|lia|by rewrite Hv1| |].
    { pose proof (Z.div_mod (align_up_page len) PAGE_SIZE). pose proof (Z.div_pos (align_up_page len) PAGE_SIZE). unfold PAGE_SIZE in *. lia. }
    cbn [mbind outcome_bind]. rewrite Hv1 in Ev2. destruct r as [v'|e].
    + destruct Hr as (m & -> & _ & Hm). exists (Ok c), w2. eexists. split; [done|]. cbn [vmas set_vmas]. rewrite Ev2. split; [done|]. split; [apply (Hadd m)|]. split_and!; try done; try lia. by exists m.
    + exists (Err e), w2, s2. rewrite Ev2. split; [done|]. split; [done|]. split; [done|]. split; [done|]. split; [by right|lia].
Qed.

End Mmap.

(** ** Witnesses *)

(** An area of four pages, out of which one is unmapped, and a request that does
    not fit at the first candidate. *)
Definition sample_world : world Pmm.Pmm := mkWorld Pmm.new (fun _ => 0) 0x1000 0x1000.
Definition sample_space : AddressSpace :=
  mkSpace 0x1000 [] [vma_new 0x60000000 0x4000 PROT_READ MAP_ANONYMOUS false "[mmap]"] MMAP_BASE_START
    DEFAULT_USER_HEAP_START DEFAULT_USER_HEAP_START.

Lemma sample_areas : areas_ok (vmas sample_space).
Proof. split; [|by cbn; auto using Forall_nil]. constructor; [|constructor]. by_compute. Qed.

Lemma munmap_correct_witness :
  exists w' s', munmap sample_world sample_space 0x60001000 0x800 = Ret (Ok tt, w', s') /\ areas_ok (vmas s').
Proof.
  destruct (munmap_correct sample_world sample_space 0x60001000 0x800) as (w' & s' & E & H & _).
  - by_compute.
  - apply sample_areas.
  - lia.
  - reflexivity.
  - lia.
  - unfold PAGE_SIZE. lia.
  - exists w', s'. split; [exact E|exact H].
Defined.

(** The same with free frames. *)
Definition stocked_world : world Pmm.Pmm := mkWorld Pmm.stocked (fun _ => 0) 0x1000 0x1000.

Lemma mmap_correct_witness :
  exists w' s' m, mmap stocked_world sample_space None 0x1800 PROT_READ (Z.lor MAP_ANONYMOUS MAP_POPULATE) = Ret (Ok 0x60004000, w', s') /\
    areas_ok (vmas s') /\ vmas s' = vmas sample_space ++ [set_populated (vma_new 0x60004000 0x2000 PROT_READ (Z.lor MAP_ANONYMOUS MAP_POPULATE) false "[mmap]") m] /\ is_Some (m !! 0x60005000).
Proof.
  assert (Hc : match mmap stocked_world sample_space None 0x1800 PROT_READ (Z.lor MAP_ANONYMOUS MAP_POPULATE) with Ret (Ok c, _, _) => c | _ => 0 end = 0x60004000) by (vm_compute; reflexivity).
  destruct (mmap_correct stocked_world sample_space None 0x1800 PROT_READ (Z.lor MAP_ANONYMOUS MAP_POPULATE)) as (r & w' & s' & E & _ & H & Hr).
  - exact Pmm.stocked_wf.
  - apply sample_areas.
  - cbn. unfold MMAP_BASE_START. lia.
  - discriminate.
  - lia.
  - unfold PAGE_SIZE. lia.
  - rewrite E in Hc. destruct r as [c|e]; [|discriminate Hc]. subst c. destruct Hr as (_ & _ & _ & _ & _ & m & Hv & Hm). exists w', s', m.
    split; [exact E|]. split; [exact H|]. split; [exact Hv|]. apply (Hm 0x1000); [by_compute|reflexivity].
Defined.

End UserSpace.
