(* ===== verification/Spare.v ===== *)
(** * Enough free frames (src/src/memory/user_space.rs)

    How many frames the operations of an address space take at most: with that many free
    frames they succeed.  So a failure of theirs means that memory ran out. *)

From stdpp Require Import prelude numbers list.
From S2P Require Import Prelude Pmm Paging UserSpace.
Import Paging UserSpace.

Module Spare.

Section Spare.
Context {A : Type} `{FA : Pmm.FrameAllocator A}.

(** At least [n] frames are free. *)
Definition spare (a : A) (n : nat) : Prop := exists l, NoDup l /\ length l = n /\ Forall (Pmm.fa_free a) l.

Lemma spare_le a n m : (m <= n)%nat -> spare a n -> spare a m.
Proof.
  intros Hle (l & Hnd & Hl & Hf). exists (take m l). split; [by eapply sublist_NoDup, sublist_take|]. split; [rewrite length_take; lia|by apply Forall_take].
Qed.

Lemma alloc_spare a n : Pmm.fa_wf a -> spare a (S n) -> exists f a', Pmm.fa_alloc a = (Some f, a') /\ Pmm.fa_wf a' /\ spare a' n.
Proof.
  intros Hwf (l & Hnd & Hl & Hf). destruct (Pmm.fa_alloc a) as [[f|] a'] eqn:E.
  - destruct (Pmm.fa_alloc_Some _ _ _ Hwf E) as (Hwf' & _ & _ & Hall). exists f, a'. split; [done|]. split; [done|].
    destruct (decide (f ∈ l)) as [Hin|Hin].
    + apply elem_of_Permutation in Hin as [l' Hp]. rewrite Hp in Hnd, Hl, Hf. apply NoDup_cons in Hnd as [Hn Hnd]. apply Forall_cons in Hf as [_ Hf]. injection Hl as Hl.
      exists l'. split; [done|]. split; [done|]. apply Forall_forall. intros x Hx. apply Hall. split; [by eapply Forall_forall in Hx|by intros ->].
    + apply (spare_le _ (S n)); [lia|]. exists l. split; [done|]. split; [done|]. apply Forall_forall. intros x Hx. apply Hall. split; [by eapply Forall_forall in Hx|by intros ->].
  - destruct (Pmm.fa_alloc_None _ _ Hwf E) as [_ Hno]. destruct l as [|x l]; [done|]. apply Forall_cons in Hf as [Hx _]. by destruct (Hno x).
Qed.

Lemma ensure_spare (w : world A) s t i n : Pmm.fa_wf (fa w) -> spare (fa w) (S n) -> exists t' w1 s1, ensure_next w s t i = (Some t', w1, s1) /\ Pmm.fa_wf (fa w1) /\ spare (fa w1) n.
Proof.
  intros Hwf Hs. unfold ensure_next. destruct (is_present _); [eexists _, _, _; split; [reflexivity|]; split; [done|]; eapply spare_le, Hs; lia|].
  unfold alloc_page_table, allocate_frame. destruct (alloc_spare _ _ Hwf Hs) as (f & a & -> & Hwf' & Hs'). by eexists _, _, _.
Qed.

Lemma map_spare (w : world A) s v f wr n : Pmm.fa_wf (fa w) -> spare (fa w) (3 + n) -> exists w1 s1, map_user_page w s v f wr = (true, w1, s1) /\ Pmm.fa_wf (fa w1) /\ spare (fa w1) n.
Proof.
  intros Hwf Hs. unfold map_user_page. destruct (ensure_spare w s (pml4 s) (p4_index v) _ Hwf Hs) as (t3 & w1 & s1 & -> & Hwf1 & Hs1).
  destruct (ensure_spare w1 s1 t3 (p3_index v) _ Hwf1 Hs1) as (t2 & w2 & s2 & -> & Hwf2 & Hs2). destruct (ensure_spare w2 s2 t2 (p2_index v) _ Hwf2 Hs2) as (t1 & w3 & s3 & -> & Hwf3 & Hs3). by eexists _, _.
Qed.

Lemma page_spare (w : world A) s v wr n : Pmm.fa_wf (fa w) -> spare (fa w) (4 + n) -> exists f w1 s1, allocate_and_map_page w s v wr = (Some f, w1, s1) /\ Pmm.fa_wf (fa w1) /\ spare (fa w1) n.
Proof.
  intros Hwf Hs. unfold allocate_and_map_page, allocate_frame. destruct (alloc_spare _ _ Hwf Hs) as (f & a & -> & Hwf' & Hs').
  destruct (map_spare (set_mem (set_fa w a) (write_byte (mem (set_fa w a)) f 0)) (push_frame s f) v f wr n Hwf' Hs') as (w1 & s1 & -> & Hwf1 & Hs1). by eexists _, _, _.
Qed.

Lemma stack_spare k : forall i (w : world A) s top n, Pmm.fa_wf (fa w) -> spare (fa w) (4 * k + n) -> exists w1 s1, stack_pages k i w s top = (true, w1, s1) /\ Pmm.fa_wf (fa w1) /\ spare (fa w1) n.
Proof.
  induction k as [|k IH]; intros i w s top n Hwf Hs; cbn [stack_pages]; [by eexists _, _|]. replace (4 * S k + n)%nat with (4 + (4 * k + n))%nat in Hs by lia.
  destruct (page_spare w s (u64_sub top (i * PAGE_SIZE)) true _ Hwf Hs) as (f & w1 & s1 & -> & Hwf1 & Hs1). by apply IH.
Qed.

(** A new space takes two frames: its first two tables. *)
Lemma new_spare (w : world A) n : Pmm.fa_wf (fa w) -> spare (fa w) (2 + n) -> exists s w1, new w = (Some s, w1) /\ Pmm.fa_wf (fa w1) /\ spare (fa w1) n.
Proof.
  intros Hwf Hs. unfold new, alloc_page_table at 1, allocate_frame. destruct (alloc_spare _ _ Hwf Hs) as (f & a & -> & Hwf1 & Hs1). unfold clone_kernel_mapping, alloc_page_table, allocate_frame. cbn [fa set_mem set_fa].
  destruct (is_present _).
  - destruct (alloc_spare _ _ Hwf1 Hs1) as (g & b & -> & Hwf2 & Hs2). eexists _, _. split; [reflexivity|]. by split.
  - eexists _, _. split; [reflexivity|]. split; [done|]. eapply spare_le, Hs1. lia.
Qed.
End Spare.
End Spare.
