(* ===== verification/PageTree.v ===== *)
(** * Page tables of an address space
    (src/src/memory/user_space.rs: [map_user_page], [unmap_user_page])

    The tables reachable from a PML4 form a tree: [T] assigns to each table frame
    its level and the virtual-address prefix it serves.  Under this invariant the
    file proves that [map_user_page] makes the page translate to its frame and to
    no one else's, keeps every other translation, and opens the path to Ring 3;
    and that [unmap_user_page] removes exactly one translation. *)

From stdpp Require Import prelude numbers list strings gmap.
From S2P Require Import Prelude Pmm Paging UserSpace.
Import Paging UserSpace.

Module PageTree.

(** ** The walk, level by level *)
Definition level_index (n : nat) (v : Z) : Z := Z.land (Z.shiftr v (12 + 9 * (Z.of_nat n - 1))) 511.

Fixpoint walk (n : nat) (m : memory) (t v : Z) : option Z :=
  match n with
  | O => None
  | S n' =>
      let e := entry m t (level_index n v) in
      if negb (is_present e) then None else
      match n' with
      | O => Some (Z.lor (entry_addr e) (Z.land v 0xFFF))
      | _ =>
          if (negb (Nat.eqb n 4) && is_huge e)%bool
          then Some (Z.lor (entry_addr e) (Z.land v (2 ^ (12 + 9 * Z.of_nat n') - 1)))
          else walk n' m (entry_addr e) v
      end
  end.

(** It is the walk of [virt_to_phys]. *)
Lemma virt_to_phys_walk m cr3 v : virt_to_phys m cr3 v = walk 4 m cr3 v.
Proof. reflexivity. Qed.

(** The entries a walk reads, in order. *)
Fixpoint path (n : nat) (m : memory) (t v : Z) : list Z :=
  match n with
  | O => []
  | S n' => let e := entry m t (level_index n v) in e :: path n' m (entry_addr e) v
  end.

(** Ring 3 may use a page when every entry on the path is present and
    user-accessible; it may write when all are writable too. *)
Definition user_ok (e : Z) : bool := (Z.testbit e 0 && Z.testbit e 2)%bool.
Definition write_ok (e : Z) : bool := Z.testbit e 1.

(** ** The tree of tables *)
Section Tree.
Context {A : Type} `{FA : Pmm.FrameAllocator A}.

Record tree (a : A) (m : memory) (root : Z) (T : Z -> option (nat * Z)) : Prop := {
  tr_root : T root = Some (4%nat, 0);
  tr_frame : forall t l p, T t = Some (l, p) -> frame_addr t /\ ~ Pmm.fa_free a t /\ (1 <= l <= 4)%nat;
  tr_child : forall t l p i, T t = Some (S (S l), p) -> 0 <= i < 512 ->
      is_present (entry m t i) = true -> (is_huge (entry m t i) = false \/ S (S l) = 4%nat) ->
      T (entry_addr (entry m t i)) = Some (S l, p * 512 + i)
}.

(** Entries that differ at most in flags the walk ignores. *)
Definition sim_entry (e e' : Z) : Prop :=
  is_present e' = is_present e /\ is_huge e' = is_huge e /\ entry_addr e' = entry_addr e.

Lemma level_index_range n v : 0 <= level_index n v < 512.
Proof. apply index_range. Qed.

Lemma zero_not_present : is_present 0 = false.
Proof. reflexivity. Qed.

(** A walk into a table of zeroes finds nothing. *)
Lemma walk_zero n m t v : (forall k, 0 <= k < 512 -> entry m t k = 0) -> walk n m t v = None.
Proof. intros H. destruct n; [done|]. cbn [walk]. rewrite H by apply level_index_range. done. Qed.

(** The tables of [T] changed at most in ignored flags and by linking empty tables
    where nothing was present. *)
Definition grows (T : Z -> option (nat * Z)) (m m' : memory) : Prop :=
  forall t l p j, T t = Some (l, p) -> 0 <= j < 512 ->
    sim_entry (entry m t j) (entry m' t j) \/
    ((1 < l)%nat /\ is_present (entry m t j) = false /\ is_present (entry m' t j) = true /\
     is_huge (entry m' t j) = false /\ forall k, 0 <= k < 512 -> entry m' (entry_addr (entry m' t j)) k = 0).

(** Changing ignored flags, or linking an empty table where nothing was present,
    changes no translation. *)
Lemma walk_equiv a m m' root T n t p v :
  tree a m root T ->
  grows T m m' ->
  T t = Some (n, p) -> walk n m' t v = walk n m t v.
Proof.
  intros Htr Hs. revert t p. induction n as [|n IH]; intros t p Ht; [done|]. cbn [walk].
  pose proof (level_index_range (S n) v) as Hi. set (i := level_index (S n) v) in *.
  destruct (Hs t (S n) p i Ht Hi) as [(Hp & Hh & Ha)|(Hl & Hp & Hp' & Hh' & Hz)].
  - rewrite Hp, Hh, Ha. destruct (is_present (entry m t i)) eqn:Ep; [|done]. cbn [negb].
    destruct n as [|n]; [done|]. destruct (negb (S (S n) =? 4)%nat && is_huge (entry m t i))%bool eqn:Eh; [done|].
    apply (IH _ (p * 512 + i)). apply (tr_child _ _ _ _ Htr t n p i Ht Hi Ep).
    apply andb_false_iff in Eh as [Eh|Eh]; [right|by left]. apply negb_false_iff, Nat.eqb_eq in Eh. done.
  - rewrite Hp, Hp'. cbn [negb]. destruct n as [|n]; [lia|]. rewrite Hh', andb_false_r. by apply walk_zero.
Qed.

(** A page-number prefix grows by the index of the next level. *)
Lemma prefix_step n v :
  0 <= v -> Z.shiftr v (12 + 9 * Z.of_nat (S n)) * 512 + level_index (S n) v = Z.shiftr v (12 + 9 * Z.of_nat n).
Proof.
  intros Hv. unfold level_index. replace (Z.of_nat (S n) - 1) with (Z.of_nat n) by lia.
  change 511 with (2 ^ 9 - 1). rewrite land_mask by lia.
  replace (12 + 9 * Z.of_nat (S n)) with (12 + 9 * Z.of_nat n + 9) by lia.
  rewrite <- (Z.shiftr_shiftr v (12 + 9 * Z.of_nat n) 9) by lia.
  set (x := Z.shiftr v (12 + 9 * Z.of_nat n)). rewrite Z.shiftr_div_pow2 by lia.
  pose proof (Z.div_mod x (2 ^ 9)). lia.
Qed.

(** Nothing of a 48-bit address is above the four indices. *)
Lemma top_prefix v : 0 <= v < 2 ^ 48 -> Z.shiftr v (12 + 9 * Z.of_nat 4) = 0.
Proof. intros. rewrite Z.shiftr_div_pow2 by lia. by apply Z.div_small. Qed.

(** The page number is made of the four indices. *)
Lemma page_number v :
  0 <= v < 2 ^ 48 ->
  Z.shiftr v 12 = ((level_index 4 v * 512 + level_index 3 v) * 512 + level_index 2 v) * 512 + level_index 1 v.
Proof.
  intros Hv. pose proof (prefix_step 0 v ltac:(lia)) as P0. pose proof (prefix_step 1 v ltac:(lia)) as P1.
  pose proof (prefix_step 2 v ltac:(lia)) as P2. pose proof (prefix_step 3 v ltac:(lia)) as P3.
  change (12 + 9 * Z.of_nat 0) with 12 in P0. rewrite (top_prefix v Hv) in P3. lia.
Qed.

(** Writing one leaf slot leaves the walks of all other pages alone. *)
Lemma walk_leaf_other a m root T n t v t1 p1 i1 e :
  tree a m root T -> T t1 = Some (1%nat, p1) -> 0 <= i1 < 512 -> 0 <= v ->
  Z.shiftr v 12 <> p1 * 512 + i1 ->
  T t = Some (n, Z.shiftr v (12 + 9 * Z.of_nat n)) ->
  walk n (set_entry m t1 i1 e) t v = walk n m t v.
Proof.
  intros Htr Ht1 Hi1 Hv Hne. revert t. induction n as [|n IH]; intros t Ht; [done|]. cbn [walk].
  pose proof (level_index_range (S n) v) as Hi. set (i := level_index (S n) v) in *.
  assert (entry (set_entry m t1 i1 e) t i = entry m t i) as ->.
  { apply entry_set_entry_ne. intros Hslot.
    destruct (tr_frame _ _ _ _ Htr _ _ _ Ht) as [[_ Htm] _]. destruct (tr_frame _ _ _ _ Htr _ _ _ Ht1) as [[_ Htm1] _].
    apply slot_inj in Hslot as [-> Hieq]; [|done..]. rewrite Ht1 in Ht. injection Ht as <- Hp.
    apply Hne. rewrite Hp, <- Hieq. symmetry. apply (prefix_step 0 v Hv). }
  destruct (is_present (entry m t i)) eqn:Ep; [|done]. cbn [negb]. destruct n as [|n]; [done|].
  destruct (negb (S (S n) =? 4)%nat && is_huge (entry m t i))%bool eqn:Eh; [done|]. apply IH.
  rewrite <- (prefix_step (S n) v Hv). apply (tr_child _ _ _ _ Htr t n _ i Ht Hi Ep).
  apply andb_false_iff in Eh as [Eh|Eh]; [right|by left]. apply negb_false_iff, Nat.eqb_eq in Eh. done.
Qed.

Lemma is_frame_addr f : Pmm.is_frame f -> frame_addr f.
Proof. intros [Hr Hm]. split; [unfold Pmm.PMM_BASE, Pmm.PMM_END in *; lia|exact Hm]. Qed.

(** The entry [ensure_next] leaves when the table was there. *)
Lemma opened_entry e :
  let e' := entry_set (entry_addr e) (Z.lor (entry_flags e) (Z.lor USER_ACCESSIBLE WRITABLE)) in
  is_present e = true -> sim_entry e e' /\ user_ok e' = true /\ write_ok e' = true.
Proof.
  cbv zeta. intros Hp. rewrite is_present_bit in Hp.
  assert (Hlow : forall i, 0 <= i < 12 -> Z.testbit (entry_set (entry_addr e) (Z.lor (entry_flags e) (Z.lor USER_ACCESSIBLE WRITABLE))) i
                 = (Z.testbit e i || Z.testbit (Z.lor USER_ACCESSIBLE WRITABLE) i)%bool).
  { intros i Hi. rewrite entry_set_low, Z.lor_spec by done. unfold entry_flags.
    rewrite Z.land_spec, testbit_flags_mask by lia. replace (i <? 12) with true by lia. cbn [orb]. by rewrite andb_true_r. }
  split; [split; [|split]|split].
  - rewrite !is_present_bit, Hlow, Hp by lia. done.
  - rewrite !is_huge_bit, Hlow by lia. apply orb_false_r.
  - apply entry_addr_set, entry_addr_frame.
  - unfold user_ok. rewrite !Hlow, Hp by lia. cbn. by rewrite orb_true_r.
  - unfold write_ok. rewrite Hlow by lia. cbn. apply orb_true_r.
Qed.

(** ... and when it had to be created. *)
Lemma linked_entry t :
  frame_addr t -> let e' := entry_set t TABLE_FLAGS in
  is_present e' = true /\ is_huge e' = false /\ entry_addr e' = t /\ user_ok e' = true /\ write_ok e' = true.
Proof.
  intros Ht. cbv zeta. unfold user_ok, write_ok. rewrite is_present_bit, is_huge_bit, !entry_set_low by lia.
  split; [done|]. split; [done|]. split; [by apply entry_addr_set|]. done.
Qed.

(** A frame in use that is no page table: its words are data. *)
Definition data_frame (a : A) (T : Z -> option (nat * Z)) (f : Z) : Prop :=
  frame_addr f /\ T f = None /\ ~ Pmm.fa_free a f.

(** Data frames stay data frames and keep their contents. *)
Definition data_kept (w w' : world A) (T T' : Z -> option (nat * Z)) : Prop :=
  forall f, data_frame (fa w) T f ->
    data_frame (fa w') T' f /\ forall k, 0 <= k < 512 -> entry (mem w') f k = entry (mem w) f k.

Lemma data_kept_refl w T : data_kept w w T T.
Proof. by intros f Hf. Qed.

Lemma data_kept_trans w1 w2 w3 T1 T2 T3 :
  data_kept w1 w2 T1 T2 -> data_kept w2 w3 T2 T3 -> data_kept w1 w3 T1 T3.
Proof.
  intros H1 H2 f Hf. destruct (H1 f Hf) as [Hf2 E1]. destruct (H2 f Hf2) as [Hf3 E2]. split; [done|].
  intros k Hk. by rewrite E2, E1.
Qed.

(** One level of [map_user_page]: either no frame is left and nothing changed, or
    the next table is linked and open, no translation changed, and the tree has at
    most grown by that table. *)
Lemma ensure_next_spec (w : world A) s root T t n p i :
  Pmm.fa_wf (fa w) -> tree (fa w) (mem w) root T -> T t = Some (S (S n), p) -> 0 <= i < 512 ->
  (is_present (entry (mem w) t i) = true -> is_huge (entry (mem w) t i) = false \/ S (S n) = 4%nat) ->
  let '(r, w1, s1) := ensure_next w s t i in
  same_areas s s1 /\ Pmm.fa_wf (fa w1) /\
  match r with
  | None => s1 = s /\ w1 = w /\ (forall b, ~ Pmm.fa_free (fa w) b)
  | Some t' =>
      exists T',
        tree (fa w1) (mem w1) root T' /\ (forall x y, T x = Some y -> T' x = Some y) /\
        T' t' = Some (S n, p * 512 + i) /\
        let e' := entry (mem w1) t i in
        entry_addr e' = t' /\ user_ok e' = true /\ write_ok e' = true /\
        (is_huge e' = false \/ S (S n) = 4%nat) /\
        (forall x l q j, T x = Some (l, q) -> 0 <= j < 512 -> (x <> t \/ j <> i) ->
           entry (mem w1) x j = entry (mem w) x j) /\
        ((is_present (entry (mem w) t i) = true /\ t' = entry_addr (entry (mem w) t i)) \/
         (forall k, 0 <= k < 512 -> entry (mem w1) t' k = 0)) /\
        data_kept w w1 T T' /\ grows T (mem w) (mem w1)
  end.
Proof.
  intros Hwf Htr Ht Hi Hh. unfold ensure_next.
  destruct (tr_frame _ _ _ _ Htr _ _ _ Ht) as [[Htr0 Htm] _].
  assert (Hother : forall m e x l q j, T x = Some (l, q) -> 0 <= j < 512 -> (x <> t \/ j <> i) ->
                   entry (set_entry m t i e) x j = entry m x j).
  { intros m e x l q j Hx Hj Hne. apply entry_set_entry_ne. intros Hslot.
    destruct (tr_frame _ _ _ _ Htr _ _ _ Hx) as [[_ Hxm] _].
    apply slot_inj in Hslot as [-> ->]; [|done..]. by destruct Hne. }
  destruct (is_present (entry (mem w) t i)) eqn:Ep.
  - destruct (opened_entry _ Ep) as (Hsim & Hu & Hw). set (e' := entry_set _ _) in *.
    pose proof (tr_child _ _ _ _ Htr t n p i Ht Hi Ep (Hh eq_refl)) as Hc.
    split; [apply same_areas_refl|]. split; [done|].
    assert (Hall : forall x l q j, T x = Some (l, q) -> 0 <= j < 512 ->
              sim_entry (entry (mem w) x j) (entry (set_entry (mem w) t i e') x j)).
    { intros x l q j Hx Hj. destruct (decide (x = t /\ j = i)) as [[-> ->]|Hne].
      - by rewrite entry_set_entry_eq.
      - rewrite (Hother _ _ x l q j) by (done || tauto || lia). by split. }
    exists T. cbn [mem fa set_mem]. split; [|split; [done|split; [done|]]].
    + split; [apply Htr|apply Htr|]. intros x l q j Hx Hj. destruct (Hall x _ _ j Hx Hj) as (Hp1 & Hh1 & Ha1).
      rewrite Hp1, Hh1, Ha1. by apply (tr_child _ _ _ _ Htr).
    + cbv zeta. rewrite entry_set_entry_eq. destruct Hsim as (_ & Hh2 & Ha2). rewrite Hh2, Ha2.
      split; [done|]. split; [done|]. split; [done|]. split; [by apply Hh|].
      split; [intros; eapply Hother; eauto|]. split; [by left|]. split.
      { intros g (Hg & HgT & Hgf). split; [done|]. intros k Hk. apply entry_set_entry_ne. intros Hslot.
        apply slot_inj in Hslot as [-> _]; [congruence|apply Hg|done..]. }
      intros x l q j Hx Hj. left. by eapply Hall.
  - unfold alloc_page_table, allocate_frame. destruct (Pmm.fa_alloc (fa w)) as [[f|] a1] eqn:Ea.
    2:{ destruct (Pmm.fa_alloc_None _ _ Hwf Ea) as [-> Hnone]. split; [apply same_areas_refl|]. split; [done|]. split; [done|].
        split; [by destruct w|done]. }
    destruct (Pmm.fa_alloc_Some _ _ _ Hwf Ea) as (Hwf1 & Hf & Hfree & Hfree1).
    apply is_frame_addr in Hf. destruct (linked_entry f Hf) as (Lp & Lh & La & Lu & Lw).
    set (e' := entry_set f TABLE_FLAGS) in *. split; [done|]. split; [done|].
    assert (HTf : T f = None).
    { destruct (T f) as [[l q]|] eqn:E; [|done]. by destruct (tr_frame _ _ _ _ Htr _ _ _ E) as (_ & Hnf & _). }
    assert (f <> t) as Hft by congruence.
    cbn [mem fa set_mem set_fa]. set (m1 := zero_frame (mem w) f).
    assert (Hold : forall x l q j, T x = Some (l, q) -> 0 <= j < 512 -> (x <> t \/ j <> i) ->
              entry (set_entry m1 t i e') x j = entry (mem w) x j).
    { intros x l q j Hx Hj Hne. rewrite (Hother _ _ x l q j) by done. apply entry_zero_ne; [apply Hf| | |done].
      - by destruct (tr_frame _ _ _ _ Htr _ _ _ Hx) as [[_ ?] _].
      - congruence. }
    assert (Hz : forall k, 0 <= k < 512 -> entry (set_entry m1 t i e') f k = 0).
    { intros k Hk. rewrite entry_set_entry_ne; [by apply entry_zero_eq|]. intros Hslot.
      apply slot_inj in Hslot as [? _]; [done|apply Hf|done..]. }
    exists (fun x => if x =? f then Some (S n, p * 512 + i) else T x).
    assert (HT' : forall x y, T x = Some y -> (if x =? f then Some (S n, p * 512 + i) else T x) = Some y).
    { intros x y Hx. destruct (Z.eqb_spec x f) as [->|]; [congruence|done]. }
    split; [|split; [done|split; [by rewrite Z.eqb_refl|]]].
    + split.
      * apply HT', Htr.
      * intros x l q. destruct (Z.eqb_spec x f) as [->|].
        { intros [= <- <-]. split; [done|]. rewrite Hfree1. split; [tauto|].
          destruct (tr_frame _ _ _ _ Htr _ _ _ Ht) as (_ & _ & ?). lia. }
        intros Hx. destruct (tr_frame _ _ _ _ Htr _ _ _ Hx) as (? & ? & ?). rewrite Hfree1. tauto.
      * intros x l q j Hx Hj Hp1 Hh1. destruct (Z.eqb_spec x f) as [->|].
        { rewrite Hz in Hp1 by done. done. }
        destruct (decide (x = t /\ j = i)) as [[-> ->]|Hne].
        { rewrite entry_set_entry_eq, La, Z.eqb_refl. rewrite Ht in Hx. by injection Hx as <- <-. }
        rewrite (Hold x (S (S l)) q j) in Hp1, Hh1 |- * by (done || tauto || lia). by apply HT', (tr_child _ _ _ _ Htr).
    + cbv zeta. rewrite entry_set_entry_eq. split; [done|]. split; [done|]. split; [done|]. split; [by left|].
      split; [exact Hold|]. split; [by right|]. split.
      { intros g (Hg & HgT & Hgf). assert (g <> f) as Hgne by congruence. split.
        - split; [done|]. split; [|cbn [fa set_mem set_fa]; rewrite Hfree1; tauto]. by destruct (Z.eqb_spec g f).
        - intros k Hk. rewrite <- (entry_zero_ne (mem w) f g k) by (done || apply Hf || apply Hg).
          apply entry_set_entry_ne. intros Hslot. apply slot_inj in Hslot as [-> _]; [congruence|apply Hg|done..]. }
      intros x l q j Hx Hj. destruct (decide (x = t /\ j = i)) as [[-> ->]|Hne].
      * right. rewrite entry_set_entry_eq, La. rewrite Ht in Hx. injection Hx as <- <-.
        split; [lia|]. by split_and!.
      * left. rewrite (Hold x l q j) by (done || tauto || lia). by split.
Qed.

(** The walk of [v] from level [n] on meets no large page. *)
Fixpoint no_huge (n : nat) (m : memory) (t v : Z) : Prop :=
  match n with
  | S (S _ as n') =>
      let e := entry m t (level_index n v) in
      is_present e = true -> (is_huge e = false \/ n = 4%nat) /\ no_huge n' m (entry_addr e) v
  | _ => True
  end.

(** It only depends on the tables at its level and below. *)
Lemma no_huge_ext a m m' root T k n t p v :
  tree a m root T -> T t = Some (n, p) -> (n < k)%nat ->
  (forall x l q j, T x = Some (l, q) -> (l < k)%nat -> 0 <= j < 512 -> entry m' x j = entry m x j) ->
  no_huge n m t v -> no_huge n m' t v.
Proof.
  intros Htr. revert t p. induction n as [|[|n] IH]; intros t p Ht Hn Hext; [done..|].
  cbn [no_huge]. pose proof (level_index_range (S (S n)) v) as Hi. rewrite (Hext t (S (S n)) p) by done.
  intros H Hp. destruct (H Hp) as [Hh Hrest]. split; [done|].
  apply (IH _ (p * 512 + level_index (S (S n)) v)); [|lia|done|done].
  by apply (tr_child _ _ _ _ Htr).
Qed.

Lemma no_huge_zero n m t v : (forall k, 0 <= k < 512 -> entry m t k = 0) -> no_huge n m t v.
Proof. intros H. destruct n as [|[|n]]; [done..|]. cbn [no_huge]. by rewrite H by apply level_index_range. Qed.

(** Like [walk_equiv]: the walks that met no large page still meet none. *)
Lemma no_huge_equiv a m m' root T n t p v :
  tree a m root T ->
  grows T m m' ->
  T t = Some (n, p) -> no_huge n m t v -> no_huge n m' t v.
Proof.
  intros Htr Hs. revert t p. induction n as [|[|n] IH]; intros t p Ht; [done..|]. cbn [no_huge].
  pose proof (level_index_range (S (S n)) v) as Hi. set (i := level_index (S (S n)) v) in *.
  destruct (Hs t (S (S n)) p i Ht Hi) as [(Hp & Hh & Ha)|(_ & _ & _ & Hh' & Hz)].
  - rewrite Hp, Hh, Ha. intros H Hpr. destruct (H Hpr) as [Hg Hrest]. split; [done|].
    apply (IH _ (p * 512 + i)); [|done]. by apply (tr_child _ _ _ _ Htr).
  - intros _ _. split; [by left|]. by apply (no_huge_zero (S n)).
Qed.

Lemma tables_ne (T : Z -> option (nat * Z)) x y l q l' q' :
  T x = Some (l, q) -> T y = Some (l', q') -> l <> l' -> x <> y.
Proof. congruence. Qed.

Lemma user_present e : user_ok e = true -> is_present e = true.
Proof. unfold user_ok. rewrite is_present_bit. intros H. by apply andb_prop in H as [? _]. Qed.

(** The leaf entry of [map_user_page]. *)
Lemma leaf_entry phys (writable : bool) :
  let flags0 := Z.lor PRESENT USER_ACCESSIBLE in
  let e := entry_set phys (if writable then Z.lor flags0 WRITABLE else flags0) in
  user_ok e = true /\ write_ok e = writable.
Proof. cbv zeta. unfold user_ok, write_ok. rewrite !entry_set_low by lia. by destruct writable. Qed.

(** A leaf write keeps the tree. *)
Lemma tree_leaf a m root T t1 p1 i1 e :
  tree a m root T -> T t1 = Some (1%nat, p1) -> 0 <= i1 < 512 -> tree a (set_entry m t1 i1 e) root T.
Proof.
  intros Htr Ht1 Hi1. split; [apply Htr|apply Htr|]. intros t l p i Ht Hi.
  rewrite entry_set_entry_ne; [by apply (tr_child _ _ _ _ Htr)|]. intros Hslot.
  destruct (tr_frame _ _ _ _ Htr _ _ _ Ht) as [[_ ?] _]. destruct (tr_frame _ _ _ _ Htr _ _ _ Ht1) as [[_ ?] _].
  apply slot_inj in Hslot as [-> _]; [congruence|done..].
Qed.

(** ... and cannot introduce a large page. *)
Lemma no_huge_leaf a m root T n t p t1 p1 i1 e v :
  tree a m root T -> T t1 = Some (1%nat, p1) -> 0 <= i1 < 512 -> T t = Some (n, p) ->
  no_huge n m t v -> no_huge n (set_entry m t1 i1 e) t v.
Proof.
  intros Htr Ht1 Hi1. revert t p. induction n as [|[|n] IH]; intros t p Ht; [done..|]. cbn [no_huge].
  pose proof (level_index_range (S (S n)) v) as Hi. set (i := level_index (S (S n)) v) in *.
  assert (entry (set_entry m t1 i1 e) t i = entry m t i) as ->.
  { apply entry_set_entry_ne. intros Hslot.
    destruct (tr_frame _ _ _ _ Htr _ _ _ Ht) as [[_ ?] _]. destruct (tr_frame _ _ _ _ Htr _ _ _ Ht1) as [[_ ?] _].
    apply slot_inj in Hslot as [-> _]; [congruence|done..]. }
  intros H Hp. destruct (H Hp) as [Hh Hrest]. split; [done|]. apply (IH _ (p * 512 + i)); [|done]. by apply (tr_child _ _ _ _ Htr).
Qed.

(** [ensure_next] along the walk of [v]: the step of [map_user_page]. *)
Lemma ensure_next_step (w : world A) s root T t n p v :
  Pmm.fa_wf (fa w) -> tree (fa w) (mem w) root T -> T t = Some (S (S n), p) ->
  no_huge (S (S n)) (mem w) t v ->
  let i := level_index (S (S n)) v in
  let '(r, w1, s1) := ensure_next w s t i in
  same_areas s s1 /\ Pmm.fa_wf (fa w1) /\
  match r with
  | None => w1 = w
  | Some t' =>
      exists T',
        tree (fa w1) (mem w1) root T' /\ (forall x y, T x = Some y -> T' x = Some y) /\
        T' t' = Some (S n, p * 512 + i) /\
        let e' := entry (mem w1) t i in
        entry_addr e' = t' /\ user_ok e' = true /\ write_ok e' = true /\ (is_huge e' = false \/ S (S n) = 4%nat) /\
        (forall x l q j, T x = Some (l, q) -> 0 <= j < 512 -> x <> t -> entry (mem w1) x j = entry (mem w) x j) /\
        no_huge (S n) (mem w1) t' v /\ data_kept w w1 T T' /\
        (forall v', walk 4 (mem w1) root v' = walk 4 (mem w) root v' /\
           (no_huge 4 (mem w) root v' -> no_huge 4 (mem w1) root v'))
  end.
Proof.
  intros Hwf Htr Ht Hnh. cbv zeta. pose proof (level_index_range (S (S n)) v) as Hi.
  pose proof Hnh as Hnh'. cbn [no_huge] in Hnh.
  pose proof (ensure_next_spec w s root T t n p _ Hwf Htr Ht Hi (fun Hp => proj1 (Hnh Hp))) as H.
  destruct (ensure_next w s t _) as [[[t'|] w1] s1]; destruct H as (Sa & Wf1 & H).
  2:{ by destruct H as (_ & -> & _). }
  split; [done|]. split; [done|].
  destruct H as (T' & Tr' & Ext & Q & Ad & Us & Wr & Hu & Oth & Old & Dk & Wk).
  exists T'. do 7 (split; [done|]). split; [intros x l q j Hx Hj Hne; eapply Oth; eauto|]. split; cycle 1.
  { split; [done|]. intros v'. split; [by apply (walk_equiv (fa w) _ _ root T 4 root 0); [| |apply Htr]|].
    by apply (no_huge_equiv (fa w) _ _ root T 4 root 0); [| |apply Htr]. }
  destruct Old as [[Hp Et]|Hz]; [|by apply no_huge_zero]. rewrite Et.
  destruct (Hnh Hp) as [Hh Hrest].
  apply (no_huge_ext (fa w) (mem w) _ root T (S (S n)) _ _ (p * 512 + level_index (S (S n)) v)); [done| |lia| |done].
  - by apply (tr_child _ _ _ _ Htr).
  - intros x l q j Hx Hl Hj. eapply Oth; [done|done|]. left. intros ->. rewrite Ht in Hx. injection Hx as <- _. lia.
Qed.

(** A write to a frame that is no table changes no table. *)
Lemma data_write a m m' root T f :
  tree a m root T -> T f = None ->
  (forall t k, frame_addr t -> t <> f -> 0 <= k < 512 -> entry m' t k = entry m t k) ->
  tree a m' root T /\ (forall v, no_huge 4 m root v -> no_huge 4 m' root v) /\ (forall v, walk 4 m' root v = walk 4 m root v).
Proof.
  intros Htr Hf He.
  assert (Hent : forall x l q j, T x = Some (l, q) -> 0 <= j < 512 -> entry m' x j = entry m x j).
  { intros x l q j Hx Hj. destruct (tr_frame _ _ _ _ Htr _ _ _ Hx) as [? _]. apply He; [done| |done]. congruence. }
  split; [|split].
  - split; [apply Htr|apply Htr|]. intros t l p i Ht Hi. rewrite (Hent _ _ _ _ Ht Hi). by apply (tr_child _ _ _ _ Htr).
  - intros v Hn. eapply (no_huge_ext a m _ root T 5 4 root 0); [done|apply Htr|lia| |done]. intros x l q j Hx _ Hj. by eapply Hent.
  - intros v. apply (walk_equiv a _ _ root T 4 root 0); [done| |apply Htr].
    intros x l q j Hx Hj. left. rewrite (Hent _ _ _ _ Hx Hj). by split.
Qed.

(** Taking a free frame. *)
Lemma tree_alloc (a a1 : A) m root T f :
  Pmm.fa_wf a -> tree a m root T -> Pmm.fa_alloc a = (Some f, a1) ->
  Pmm.fa_wf a1 /\ tree a1 m root T /\ data_frame a1 T f /\ Pmm.fa_free a f /\ (forall b, Pmm.fa_free a1 b <-> Pmm.fa_free a b /\ b <> f).
Proof.
  intros Hwf Htr Ha. destruct (Pmm.fa_alloc_Some _ _ _ Hwf Ha) as (Hwf1 & Hf & Hfree & Hfree1). apply is_frame_addr in Hf.
  split; [done|]. split; [|split; [|done]].
  - split; [apply Htr| |apply Htr]. intros t l p Ht. destruct (tr_frame _ _ _ _ Htr _ _ _ Ht) as (? & ? & ?). rewrite Hfree1. tauto.
  - split; [done|]. split; [|rewrite Hfree1; tauto].
    destruct (T f) as [[l q]|] eqn:E; [|done]. by destruct (tr_frame _ _ _ _ Htr _ _ _ E) as (_ & Hnf & _).
Qed.

Lemma map_user_page_spec (w : world A) s T v phys writable :
  Pmm.fa_wf (fa w) -> tree (fa w) (mem w) (pml4 s) T -> 0 <= v < 2 ^ 48 -> frame_addr phys ->
  no_huge 4 (mem w) (pml4 s) v ->
  let '(ok, w1, s1) := map_user_page w s v phys writable in
  same_areas s s1 /\ Pmm.fa_wf (fa w1) /\
  (exists T1, tree (fa w1) (mem w1) (pml4 s) T1 /\ data_kept w w1 T T1) /\
  (forall v', no_huge 4 (mem w) (pml4 s) v' -> no_huge 4 (mem w1) (pml4 s) v') /\
  if ok then
    walk 4 (mem w1) (pml4 s) v = Some (Z.lor phys (Z.land v 0xFFF)) /\
    (forall v', 0 <= v' < 2 ^ 48 -> Z.shiftr v' 12 <> Z.shiftr v 12 ->
       walk 4 (mem w1) (pml4 s) v' = walk 4 (mem w) (pml4 s) v') /\
    forallb user_ok (path 4 (mem w1) (pml4 s) v) = true /\
    forallb write_ok (path 4 (mem w1) (pml4 s) v) = writable
  else forall v', walk 4 (mem w1) (pml4 s) v' = walk 4 (mem w) (pml4 s) v'.
Proof.
  intros Hwf Htr Hv Hphys Hnh. unfold map_user_page. set (root := pml4 s) in *.
  change (p4_index v) with (level_index 4 v). change (p3_index v) with (level_index 3 v).
  change (p2_index v) with (level_index 2 v). change (p1_index v) with (level_index 1 v).
  pose proof (tr_root _ _ _ _ Htr) as R0.
  pose proof (ensure_next_step w s root T root 2 0 v Hwf Htr R0 Hnh) as S1. cbv zeta in S1.
  destruct (ensure_next w s root _) as [[[t3|] w1] s1]; destruct S1 as (Sa1 & Wf1 & S1).
  2:{ subst w1. split; [done|]. split; [done|]. split; [exists T; split; [done|apply data_kept_refl]|]. done. }
  destruct S1 as (T1 & Tr1 & Ext1 & Q3 & A4 & U4 & W4 & G4 & Oth1 & Nh1 & Dk1 & Wk1).
  pose proof (ensure_next_step w1 s1 root T1 t3 1 _ v Wf1 Tr1 Q3 Nh1) as S2. cbv zeta in S2.
  destruct (ensure_next w1 s1 t3 _) as [[[t2|] w2] s2]; destruct S2 as (Sa2 & Wf2 & S2).
  2:{ subst w2. split; [by eapply same_areas_trans|]. split; [done|]. split; [by exists T1|]. split; intros v'; apply Wk1. }
  destruct S2 as (T2 & Tr2 & Ext2 & Q2 & A3 & U3 & W3 & G3 & Oth2 & Nh2 & Dk2 & Wk2).
  pose proof (ensure_next_step w2 s2 root T2 t2 0 _ v Wf2 Tr2 Q2 Nh2) as S3. cbv zeta in S3.
  destruct (ensure_next w2 s2 t2 _) as [[[t1|] w3] s3]; destruct S3 as (Sa3 & Wf3 & S3).
  2:{ subst w3. split; [by do 2 (eapply same_areas_trans; [done|])|]. split; [done|].
      split; [exists T2; split; [done|by eapply data_kept_trans]|].
      split; intros v'; [intros Hv'; apply Wk2; by apply Wk1|]. by rewrite (proj1 (Wk2 v')), (proj1 (Wk1 v')). }
  destruct S3 as (T3 & Tr3 & Ext3 & Q1 & A2 & U2 & W2 & G2 & Oth3 & _ & Dk3 & Wk3).
  pose proof (level_index_range 4 v) as I4. pose proof (level_index_range 3 v) as I3.
  pose proof (level_index_range 2 v) as I2. pose proof (level_index_range 1 v) as I1.
  destruct (leaf_entry phys writable) as [Ul Wl]. set (e1 := entry_set phys _) in *.
  set (m4 := set_entry (mem w3) t1 (level_index 1 v) e1).
  assert (Hleaf : forall x l q j, T3 x = Some (l, q) -> l <> 1%nat -> 0 <= j < 512 -> entry m4 x j = entry (mem w3) x j).
  { intros x l q j Hx Hl Hj. apply entry_set_entry_ne. intros Hslot.
    destruct (tr_frame _ _ _ _ Tr3 _ _ _ Hx) as [[_ ?] _]. destruct (tr_frame _ _ _ _ Tr3 _ _ _ Q1) as [[_ ?] _].
    apply slot_inj in Hslot as [-> _]; [congruence|done..]. }
  assert (R3 : T3 root = Some (4%nat, 0)) by auto. assert (Q3' : T3 t3 = Some (3%nat, 0 * 512 + level_index 4 v)) by auto.
  assert (Q2' : T3 t2 = Some (2%nat, (0 * 512 + level_index 4 v) * 512 + level_index 3 v)) by auto.
  assert (root <> t3 /\ root <> t2 /\ t3 <> t2) as (N1 & N2 & N3) by (split_and!; congruence).
  assert (E4 : entry m4 root (level_index 4 v) = entry (mem w1) root (level_index 4 v)).
  { rewrite (Hleaf _ _ _ _ R3) by done. rewrite (Oth3 root 4%nat 0), (Oth2 root 4%nat 0) by auto. done. }
  assert (E3 : entry m4 t3 (level_index 3 v) = entry (mem w2) t3 (level_index 3 v)).
  { rewrite (Hleaf _ _ _ _ Q3') by done. eapply Oth3; eauto. }
  assert (E2 : entry m4 t2 (level_index 2 v) = entry (mem w3) t2 (level_index 2 v)) by (by rewrite (Hleaf _ _ _ _ Q2')).
  assert (E1 : entry m4 t1 (level_index 1 v) = e1) by apply entry_set_entry_eq.
  split; [by do 2 (eapply same_areas_trans; [done|])|]. split; [done|].
  cbn [mem fa set_mem]. fold m4. split.
  { exists T3. split; [by eapply tree_leaf|]. do 2 (eapply data_kept_trans; [done|]).
    intros g Hg. destruct (Dk3 g Hg) as [Hg3 E]. split; [done|]. intros k Hk. rewrite <- E by done.
    apply entry_set_entry_ne. intros Hslot. destruct (tr_frame _ _ _ _ Tr3 _ _ _ Q1) as [[_ ?] _].
    destruct Hg3 as ([_ ?] & ? & _). apply slot_inj in Hslot as [-> _]; [congruence|done..]. }
  assert (Hpath : path 4 m4 root v = [entry (mem w1) root (level_index 4 v); entry (mem w2) t3 (level_index 3 v);
                                       entry (mem w3) t2 (level_index 2 v); e1]).
  { cbn [path]. rewrite E4, A4, E3, A3, E2, A2, E1. done. }
  split; [|split; [|split; [|split]]].
  - intros v' Hv'. apply (no_huge_leaf (fa w3) (mem w3) root T3 4 root 0 t1 _ _ e1 v' Tr3 Q1); [done|done|].
    apply Wk3. apply Wk2. by apply Wk1.
  - cbn [walk Nat.eqb negb andb]. rewrite E4, (user_present _ U4), A4. cbn [negb].
    rewrite E3, (user_present _ U3), A3. destruct G3 as [->|]; [|done]. cbn [negb].
    rewrite E2, (user_present _ U2), A2. destruct G2 as [->|]; [|done]. cbn [negb].
    rewrite E1, (user_present _ Ul). unfold e1. by rewrite entry_addr_set.
  - intros v' Hv' Hne. rewrite <- (proj1 (Wk1 v')), <- (proj1 (Wk2 v')), <- (proj1 (Wk3 v')).
    apply (walk_leaf_other (fa w3) _ root T3 4 root v' t1 _ _ e1 Tr3 Q1); [done|lia| |].
    + rewrite Z.mul_0_l, Z.add_0_l. intros Heq. apply Hne. rewrite Heq. symmetry. by apply page_number.
    + rewrite R3. do 2 f_equal. symmetry. by apply top_prefix.
  - rewrite Hpath. cbn [forallb]. by rewrite U4, U3, U2, Ul.
  - rewrite Hpath. cbn [forallb]. rewrite W4, W3, W2, Wl. apply andb_true_r.
Qed.

(** C3: mapping a page.  Over a tree of page tables and a 48-bit address whose
    walk meets no large page, [map_user_page] either succeeds, and then the address
    translates to the given frame, every entry on its path is present and
    user-accessible, the page is writable exactly as requested, and every other
    page translates as before; or it runs out of frames, answers [false], and no
    translation has changed.  The tables stay a tree, frames that are not tables keep
    their contents, and the areas are untouched. *)
Theorem map_user_page_correct (w : world A) s T v phys writable ok w1 s1 :
  Pmm.fa_wf (fa w) -> tree (fa w) (mem w) (pml4 s) T -> 0 <= v < 2 ^ 48 -> frame_addr phys ->
  no_huge 4 (mem w) (pml4 s) v ->
  map_user_page w s v phys writable = (ok, w1, s1) ->
  same_areas s s1 /\ Pmm.fa_wf (fa w1) /\
  (exists T1, tree (fa w1) (mem w1) (pml4 s) T1 /\ data_kept w w1 T T1) /\
  if ok then
    virt_to_phys (mem w1) (pml4 s) v = Some (Z.lor phys (Z.land v 0xFFF)) /\
    (forall v', 0 <= v' < 2 ^ 48 -> Z.shiftr v' 12 <> Z.shiftr v 12 ->
       virt_to_phys (mem w1) (pml4 s) v' = virt_to_phys (mem w) (pml4 s) v') /\
    forallb user_ok (path 4 (mem w1) (pml4 s) v) = true /\
    forallb write_ok (path 4 (mem w1) (pml4 s) v) = writable
  else forall v', virt_to_phys (mem w1) (pml4 s) v' = virt_to_phys (mem w) (pml4 s) v'.
Proof.
  intros Hwf Htr Hv Hp Hnh E. pose proof (map_user_page_spec w s T v phys writable Hwf Htr Hv Hp Hnh) as H.
  rewrite E in H. by destruct H as (? & ? & ? & _ & ?).
Qed.

(** Unmapping: the path of the address ends in a leaf, whose entry is cleared. *)
Lemma unmap_user_page_spec (w : world A) s T v r w1 s1 :
  tree (fa w) (mem w) (pml4 s) T -> 0 <= v < 2 ^ 48 -> no_huge 4 (mem w) (pml4 s) v ->
  unmap_user_page w s v = (r, w1, s1) ->
  match r with
  | None => virt_to_phys (mem w) (pml4 s) v = None /\ w1 = w /\ s1 = s
  | Some phys =>
      virt_to_phys (mem w) (pml4 s) v = Some (Z.lor phys (Z.land v 0xFFF)) /\
      virt_to_phys (mem w1) (pml4 s) v = None /\
      (forall v', 0 <= v' < 2 ^ 48 -> Z.shiftr v' 12 <> Z.shiftr v 12 ->
         virt_to_phys (mem w1) (pml4 s) v' = virt_to_phys (mem w) (pml4 s) v') /\
      tree (fa w1) (mem w1) (pml4 s) T /\
      s1 = set_frames s (remove_first phys (allocated_frames s)) /\ fa w1 = fa w /\
      (forall v', no_huge 4 (mem w) (pml4 s) v' -> no_huge 4 (mem w1) (pml4 s) v')
  end.
Proof.
  intros Htr Hv Hnh. unfold unmap_user_page.
  change (p4_index v) with (level_index 4 v). change (p3_index v) with (level_index 3 v).
  change (p2_index v) with (level_index 2 v). change (p1_index v) with (level_index 1 v).
  set (root := pml4 s) in *. rewrite !virt_to_phys_walk.
  pose proof (level_index_range 4 v) as I4. pose proof (level_index_range 3 v) as I3.
  pose proof (level_index_range 2 v) as I2. pose proof (level_index_range 1 v) as I1.
  pose proof (tr_root _ _ _ _ Htr) as Q4. cbn [walk Nat.eqb negb andb]. cbn [no_huge] in Hnh.
  set (e4 := entry (mem w) root (level_index 4 v)) in *.
  destruct (is_present e4) eqn:P4; cbn [negb]; [|by intros [= <- <- <-]]. destruct (Hnh eq_refl) as [_ Hnh3].
  pose proof (tr_child _ _ _ _ Htr root 2 0 _ Q4 I4 P4 ltac:(by right)) as Q3. fold e4 in Q3.
  set (e3 := entry (mem w) (entry_addr e4) (level_index 3 v)) in *.
  destruct (is_present e3) eqn:P3; cbn [negb]; [|by intros [= <- <- <-]]. destruct (Hnh3 eq_refl) as [[G3|] Hnh2]; [|done].
  pose proof (tr_child _ _ _ _ Htr _ 1 _ _ Q3 I3 P3 ltac:(by left)) as Q2. fold e3 in Q2.
  set (e2 := entry (mem w) (entry_addr e3) (level_index 2 v)) in *.
  destruct (is_present e2) eqn:P2; cbn [negb]; [|rewrite G3; by intros [= <- <- <-]]. destruct (Hnh2 eq_refl) as [[G2|] _]; [|done].
  pose proof (tr_child _ _ _ _ Htr _ 0 _ _ Q2 I2 P2 ltac:(by left)) as Q1. fold e2 in Q1.
  set (e1 := entry (mem w) (entry_addr e2) (level_index 1 v)) in *.
  destruct (is_present e1) eqn:P1; cbn [negb]; rewrite ?G3, ?G2; [|by intros [= <- <- <-]].
  intros [= <- <- <-]. cbn [mem fa set_mem]. split; [done|].
  assert (Hleaf : forall x l q j, T x = Some (l, q) -> l <> 1%nat -> 0 <= j < 512 ->
            entry (set_entry (mem w) (entry_addr e2) (level_index 1 v) 0) x j = entry (mem w) x j).
  { intros x l q j Hx Hl Hj. apply entry_set_entry_ne. intros Hslot.
    destruct (tr_frame _ _ _ _ Htr _ _ _ Hx) as [[_ ?] _]. destruct (tr_frame _ _ _ _ Htr _ _ _ Q1) as [[_ ?] _].
    apply slot_inj in Hslot as [-> _]; [congruence|done..]. }
  split; [|split; [|split; [by eapply tree_leaf|split; [done|split; [done|]]]]].
  3: { intros v' Hn. by eapply (no_huge_leaf (fa w) (mem w) root T 4 root 0). }
  - rewrite virt_to_phys_walk. cbn [walk Nat.eqb negb andb]. rewrite (Hleaf _ _ _ _ Q4) by done. fold e4. rewrite P4. cbn [negb].
    rewrite (Hleaf _ _ _ _ Q3) by done. fold e3. rewrite P3, G3. cbn [negb].
    rewrite (Hleaf _ _ _ _ Q2) by done. fold e2. rewrite P2, G2. cbn [negb].
    by rewrite entry_set_entry_eq.
  - intros v' Hv' Hne. rewrite !virt_to_phys_walk.
    eapply (walk_leaf_other (fa w) _ root T 4 root v'); [done|exact Q1|done|lia| |].
    + rewrite Z.mul_0_l, Z.add_0_l. intros Heq. apply Hne. rewrite Heq. symmetry. by apply page_number.
    + rewrite Q4. do 2 f_equal. symmetry. by apply top_prefix.
Qed.

(** Unmapping a page.  Under the same conditions [unmap_user_page] answers
    [None] and changes nothing when the address does not translate; otherwise it
    returns the frame the address translated to, the address no longer
    translates, every other page translates as before, and the frame is taken off
    the list of owned frames. *)
Theorem unmap_user_page_correct (w : world A) s T v r w1 s1 :
  tree (fa w) (mem w) (pml4 s) T -> 0 <= v < 2 ^ 48 -> no_huge 4 (mem w) (pml4 s) v ->
  unmap_user_page w s v = (r, w1, s1) ->
  match r with
  | None => virt_to_phys (mem w) (pml4 s) v = None /\ w1 = w /\ s1 = s
  | Some phys =>
      virt_to_phys (mem w) (pml4 s) v = Some (Z.lor phys (Z.land v 0xFFF)) /\
      virt_to_phys (mem w1) (pml4 s) v = None /\
      (forall v', 0 <= v' < 2 ^ 48 -> Z.shiftr v' 12 <> Z.shiftr v 12 ->
         virt_to_phys (mem w1) (pml4 s) v' = virt_to_phys (mem w) (pml4 s) v') /\
      tree (fa w1) (mem w1) (pml4 s) T /\
      s1 = set_frames s (remove_first phys (allocated_frames s))
  end.
Proof.
  intros Htr Hv Hnh E. pose proof (unmap_user_page_spec w s T v r w1 s1 Htr Hv Hnh E) as H. destruct r; [|done]. destruct H as (? & ? & ? & ? & ? & _). by split_and!.
Qed.

(** ** Teardown *)
Lemma drop_frames_spec (w : world A) l :
  Pmm.fa_wf (fa w) -> Forall Pmm.is_frame l ->
  exists w', drop_frames w l = Ret w' /\ Pmm.fa_wf (fa w') /\
    forall b, Pmm.fa_free (fa w') b <-> Pmm.fa_free (fa w) b \/ b ∈ l.
Proof.
  revert w. induction l as [|f l IH]; intros w Hwf HF; cbn [drop_frames].
  { exists w. split; [done|]. split; [done|]. intros b. rewrite elem_of_nil. tauto. }
  apply Forall_cons_1 in HF as [Hf HF]. unfold free_frame.
  destruct (Pmm.fa_dealloc_spec (fa w) f Hwf) as (r & a & -> & Hr). cbn [mbind outcome_bind].
  assert (Pmm.fa_wf a /\ forall b, Pmm.fa_free a b <-> Pmm.fa_free (fa w) b \/ b = f) as [Hwfa Hfa].
  { destruct r; [by destruct Hr as (_ & _ & ? & ?)|]. destruct Hr as [-> [|Hfr]]; [done|]. split; [done|].
    intros b. split; [by left|]. by intros [| ->]. }
  destruct (IH (set_fa w a) Hwfa HF) as (w' & E & Hwf' & Hfree). exists w'. split; [exact E|]. split; [done|].
  intros b. rewrite Hfree. cbn [fa set_fa]. rewrite Hfa, elem_of_cons. tauto.
Qed.

(** Teardown.  Dropping an address space returns every frame it owns to the
    allocator, page tables and user pages alike, and frees nothing else. *)
Theorem drop_space_frees_all (w : world A) s :
  Pmm.fa_wf (fa w) -> Forall Pmm.is_frame (allocated_frames s) ->
  exists w', drop_space w s = Ret w' /\ Pmm.fa_wf (fa w') /\
    forall b, Pmm.fa_free (fa w') b <-> Pmm.fa_free (fa w) b \/ b ∈ allocated_frames s.
Proof. apply drop_frames_spec. Qed.

End Tree.

(** ** Witnesses *)

(** 256 free frames, an empty PML4 at 0x1000, an area at 0x60000000. *)
Definition demo_pmm : Pmm.Pmm := Pmm.stocked.
Definition demo_world : world Pmm.Pmm := mkWorld demo_pmm (fun _ => 0) 0x1000 0x1000.
Definition demo_space : AddressSpace :=
  mkSpace 0x1000 [] [vma_new 0x60000000 0x4000 PROT_READ MAP_ANONYMOUS false "[mmap]"] MMAP_BASE_START
    DEFAULT_USER_HEAP_START DEFAULT_USER_HEAP_START.
Definition demo_tree (x : Z) : option (nat * Z) := if x =? 0x1000 then Some (4%nat, 0) else None.

(** An empty PML4 outside the managed memory is a page tree by itself. *)
Lemma tree_empty (p : Pmm.Pmm) : tree p (fun _ => 0) 0x1000 demo_tree.
Proof.
  split; [done| |].
  - intros t l q. unfold demo_tree. destruct (Z.eqb_spec t 0x1000) as [->|]; [|done]. intros [= <- <-].
    split; [split; [lia|done]|]. split; [|lia]. intros [[H _] _]. unfold Pmm.PMM_BASE in H. lia.
  - intros t l q i _ _ Hp. done.
Qed.

Lemma demo_tree_ok : tree demo_pmm (fun _ => 0) 0x1000 demo_tree.
Proof. apply tree_empty. Qed.

Lemma demo_wf : Pmm.wf demo_pmm.
Proof. exact Pmm.stocked_wf. Qed.

Definition demo_mapped := map_user_page demo_world demo_space 0x60001000 0x203000 false.

Lemma demo_mapped_ok : demo_mapped.1.1 = true.
Proof. vm_compute. reflexivity. Qed.

Lemma demo_mapped_eq : demo_mapped = (true, demo_mapped.1.2, demo_mapped.2).
Proof. pose proof demo_mapped_ok as H. destruct demo_mapped as [[b w] s]. cbn in *. by rewrite H. Qed.

Lemma map_user_page_correct_witness :
  virt_to_phys (mem demo_mapped.1.2) 0x1000 0x60001000 = Some (Z.lor 0x203000 0) /\
  forallb user_ok (path 4 (mem demo_mapped.1.2) 0x1000 0x60001000) = true.
Proof.
  destruct (map_user_page_correct demo_world demo_space demo_tree 0x60001000 0x203000 false true demo_mapped.1.2 demo_mapped.2)
    as (_ & _ & _ & H1 & _ & H2 & _).
  - apply demo_wf.
  - apply demo_tree_ok.
  - lia.
  - split; [lia|reflexivity].
  - done.
  - apply demo_mapped_eq.
  - split; [exact H1|exact H2].
Defined.

Lemma unmap_user_page_correct_witness :
  virt_to_phys (fun _ => 0) 0x1000 0x60001000 = None.
Proof.
  apply (unmap_user_page_correct demo_world demo_space demo_tree 0x60001000 None demo_world demo_space).
  - apply demo_tree_ok.
  - lia.
  - done.
  - reflexivity.
Defined.

Lemma drop_space_frees_all_witness :
  exists w', drop_space demo_world (set_frames demo_space [0x300000]) = Ret w' /\ Pmm.fa_free (fa w') 0x300000.
Proof.
  destruct (drop_space_frees_all demo_world (set_frames demo_space [0x300000])) as (w' & E & _ & H).
  - apply demo_wf.
  - repeat constructor; unfold Pmm.PMM_BASE, Pmm.PMM_END; lia.
  - exists w'. split; [exact E|]. apply H. right. apply list_elem_of_singleton. reflexivity.
Defined.

End PageTree.
