(* ===== verification/OwnTables.v ===== *)
(** * Whose tables a space writes (src/src/memory/user_space.rs: [map_user_page],
    [unmap_user_page])

    The tables of a new address space are shared with the kernel except the first two.
    When the walk of an address goes through tables of the space alone, mapping and
    unmapping it writes those tables and fresh frames and nothing else.  [C] is the set
    of frames the space may use. *)

From stdpp Require Import prelude numbers list.
From S2P Require Import Prelude Pmm Paging UserSpace PageTree.
Import Paging UserSpace PageTree.

Module OwnTables.

Section Own.
Context {A : Type} `{FA : Pmm.FrameAllocator A}.
Context (C : Z -> Prop).

(** The tables on the walk of [v] are in [C]. *)
Fixpoint own (n : nat) (m : memory) (t v : Z) : Prop :=
  C t /\ match n with
         | S (S _ as n') => let e := entry m t (level_index n v) in is_present e = true -> own n' m (entry_addr e) v
         | _ => True
         end.

(** No word of a frame outside [C] differs. *)
Definition kept (m m' : memory) : Prop := forall t k, frame_addr t -> ~ C t -> 0 <= k < 512 -> entry m' t k = entry m t k.

(** Every link of [m'] was there in [m] or leads to an empty table of [C]. *)
Definition links (T : Z -> option (nat * Z)) (m m' : memory) : Prop :=
  forall t l p j, T t = Some (S (S l), p) -> 0 <= j < 512 -> is_present (entry m' t j) = true ->
    (is_present (entry m t j) = true /\ entry_addr (entry m' t j) = entry_addr (entry m t j)) \/
    (C (entry_addr (entry m' t j)) /\ forall k, 0 <= k < 512 -> entry m' (entry_addr (entry m' t j)) k = 0).

Lemma kept_refl m : kept m m.
Proof. done. Qed.
Lemma kept_trans m1 m2 m3 : kept m1 m2 -> kept m2 m3 -> kept m1 m3.
Proof. intros H1 H2 t k Ht HC Hk. by rewrite H2, H1. Qed.

(** Writing one entry of a table in [C], zeroing a frame of [C]. *)
Lemma kept_entry m t i e : frame_addr t -> C t -> 0 <= i < 512 -> kept m (set_entry m t i e).
Proof. intros [_ Ht] HC Hi t' k [_ Ht'] Hn Hk. apply entry_set_entry_ne. intros Hs. by apply slot_inj in Hs as [-> _]. Qed.
Lemma kept_zero m f : frame_addr f -> C f -> kept m (zero_frame m f).
Proof. intros [_ Hf] HC t k [_ Ht] Hn Hk. apply entry_zero_ne; congruence || done. Qed.

Lemma links_unchanged T m m' : (forall t l p j, T t = Some (S (S l), p) -> 0 <= j < 512 -> entry m' t j = entry m t j) -> links T m m'.
Proof. intros H t l p j Ht Hj. rewrite (H t l p j Ht Hj). by left. Qed.

Lemma own_empty n m t v : C t -> (forall k, 0 <= k < 512 -> entry m t k = 0) -> own n m t v.
Proof. intros HC Hz. destruct n as [|[|n]]; (split; [done|]); [done..|]. cbv zeta. rewrite Hz by apply level_index_range. done. Qed.

Lemma own_head n m t v : own n m t v -> C t.
Proof. by destruct n; intros []. Qed.

Lemma own_links a m m' root T n t p v : tree a m root T -> links T m m' -> T t = Some (n, p) -> no_huge n m t v -> own n m t v -> own n m' t v.
Proof.
  intros Htr Hl. revert t p. induction n as [|[|n] IH]; intros t p Ht; [done..|]. cbn [no_huge own]. intros Hh [HC Ho]. split; [done|]. intros Hp'.
  pose proof (level_index_range (S (S n)) v) as Hi. destruct (Hl t n p _ Ht Hi Hp') as [[Hp Ea]|[Hc Hz]].
  - rewrite Ea. destruct (Hh Hp) as [Hg Hrest]. apply (IH _ (p * 512 + level_index (S (S n)) v)); [by apply (tr_child _ _ _ _ Htr)|done|by apply Ho].
  - by apply (own_empty (S n)).
Qed.

(** [ensure_next] writes the table it is given, and a fresh one. *)
Lemma ensure_links (w : world A) s root T t n p i :
  Pmm.fa_wf (fa w) -> tree (fa w) (mem w) root T -> T t = Some (S (S n), p) -> 0 <= i < 512 -> C t -> (forall b, Pmm.fa_free (fa w) b -> C b) ->
  let '(r, w1, s1) := ensure_next w s t i in
  kept (mem w) (mem w1) /\ links T (mem w) (mem w1) /\ (forall b, Pmm.fa_free (fa w1) b -> C b) /\
  match r with
  | Some t' => (is_present (entry (mem w) t i) = true /\ t' = entry_addr (entry (mem w) t i)) \/ (C t' /\ forall k, 0 <= k < 512 -> entry (mem w1) t' k = 0)
  | None => True
  end.
Proof.
  intros Hwf Htr Ht Hi HC Hfree. destruct (tr_frame _ _ _ _ Htr _ _ _ Ht) as (Hft & _). pose proof Hft as [_ Htm]. unfold ensure_next. destruct (is_present (entry (mem w) t i)) eqn:Ep.
  - destruct (opened_entry _ Ep) as ((_ & _ & Ea) & _). set (e' := entry_set _ _) in *. cbn [mem fa set_mem]. split; [by apply kept_entry|]. split; [|split; [done|by left]].
    intros x l q j Hx Hj. destruct (decide (x = t /\ j = i)) as [[-> ->]|Hne]; [rewrite entry_set_entry_eq; by left|]. rewrite entry_set_entry_ne; [by left|]. intros Hs. apply Hne. apply slot_inj in Hs; [done|apply (tr_frame _ _ _ _ Htr _ _ _ Hx)|done..].
  - unfold alloc_page_table, allocate_frame. destruct (Pmm.fa_alloc (fa w)) as [[f|] a] eqn:Ea; [|destruct (Pmm.fa_alloc_None _ _ Hwf Ea) as [-> _]; split_and!; [done|by apply links_unchanged|done..]].
    destruct (tree_alloc _ _ _ _ _ _ Hwf Htr Ea) as (_ & _ & (Hf & HTf & _) & Hff & Hall). pose proof (linked_entry f Hf) as (_ & _ & La & _). pose proof (Hfree _ Hff) as HCf. assert (Hft' : f <> t) by congruence.
    set (e' := entry_set f TABLE_FLAGS) in *. cbn [mem fa set_mem set_fa].
    assert (Hz : forall k, 0 <= k < 512 -> entry (set_entry (zero_frame (mem w) f) t i e') f k = 0).
    { intros k Hk. rewrite entry_set_entry_ne; [by apply entry_zero_eq|]. intros Hs. by apply slot_inj in Hs as [? _]; [|apply Hf|..]. }
    split; [eapply kept_trans; [by apply kept_zero|by apply kept_entry]|]. split; [|split; [intros b Hb; apply Hfree; by apply Hall|by right]].
    intros x l q j Hx Hj. destruct (tr_frame _ _ _ _ Htr _ _ _ Hx) as ([_ Hxm] & _). destruct (decide (x = t /\ j = i)) as [[-> ->]|Hne]; [rewrite entry_set_entry_eq, La; by right|].
    rewrite entry_set_entry_ne by (intros Hs; apply Hne; by apply slot_inj in Hs). rewrite entry_zero_ne; [by left|apply Hf|done|congruence|done].
Qed.

(** The step of [map_user_page] on a walk through tables of [C]. *)
Lemma ensure_own (w : world A) s root T t n p v :
  Pmm.fa_wf (fa w) -> tree (fa w) (mem w) root T -> T t = Some (S (S n), p) -> no_huge (S (S n)) (mem w) t v -> own (S (S n)) (mem w) t v -> (forall b, Pmm.fa_free (fa w) b -> C b) ->
  let '(r, w1, s1) := ensure_next w s t (level_index (S (S n)) v) in
  kept (mem w) (mem w1) /\ (forall b, Pmm.fa_free (fa w1) b -> C b) /\
  (forall u, no_huge 4 (mem w) root u -> own 4 (mem w) root u -> own 4 (mem w1) root u) /\
  match r with Some t' => own (S n) (mem w1) t' v | None => True end.
Proof.
  intros Hwf Htr Ht Hnh Hown Hfree. pose proof (level_index_range (S (S n)) v) as Hi. pose proof (ensure_links w s root T t n p _ Hwf Htr Ht Hi (own_head _ _ _ _ Hown) Hfree) as H.
  destruct (ensure_next w s t _) as [[r w1] s1]. destruct H as (Hk & Hl & Hf & Hr). split; [done|]. split; [done|]. split; [intros u Hu Hou; eapply (own_links (fa w)); eauto using tr_root|].
  destruct r as [t'|]; [|done]. destruct Hr as [[Hp ->]|[Hc Hz]]; [|by apply own_empty]. cbn [no_huge own] in Hnh, Hown. destruct (Hnh Hp) as [Hg Hrest]. destruct Hown as [_ Hown].
  eapply (own_links (fa w)); [done..| |done|by apply Hown]. by apply (tr_child _ _ _ _ Htr).
Qed.

(** Mapping a page whose walk is in [C]. *)
Lemma map_writes (w : world A) s T v phys writable :
  Pmm.fa_wf (fa w) -> tree (fa w) (mem w) (pml4 s) T -> no_huge 4 (mem w) (pml4 s) v -> own 4 (mem w) (pml4 s) v -> (forall b, Pmm.fa_free (fa w) b -> C b) ->
  let '(ok, w1, s1) := map_user_page w s v phys writable in
  kept (mem w) (mem w1) /\ forall u, no_huge 4 (mem w) (pml4 s) u -> own 4 (mem w) (pml4 s) u -> own 4 (mem w1) (pml4 s) u.
Proof.
  intros Hwf Htr Hnh Hown Hfree. unfold map_user_page. set (root := pml4 s) in *. pose proof (tr_root _ _ _ _ Htr) as R0.
  change (p4_index v) with (level_index 4 v). change (p3_index v) with (level_index 3 v). change (p2_index v) with (level_index 2 v). change (p1_index v) with (level_index 1 v).
  pose proof (ensure_next_step w s root T root 2 0 v Hwf Htr R0 Hnh) as S1. pose proof (ensure_own w s root T root 2 0 v Hwf Htr R0 Hnh Hown Hfree) as O1. cbv zeta in S1.
  destruct (ensure_next w s root _) as [[[t3|] w1] s1]; destruct O1 as (K1 & F1 & G1 & O1); [|done]. destruct S1 as (_ & Wf1 & T1 & Tr1 & _ & Q3 & _ & _ & _ & _ & _ & Nh1 & _ & Wk1).
  pose proof (ensure_next_step w1 s1 root T1 t3 1 _ v Wf1 Tr1 Q3 Nh1) as S2. pose proof (ensure_own w1 s1 root T1 t3 1 _ v Wf1 Tr1 Q3 Nh1 O1 F1) as O2. cbv zeta in S2.
  destruct (ensure_next w1 s1 t3 _) as [[[t2|] w2] s2]; destruct O2 as (K2 & F2 & G2 & O2); [|split; [by eapply kept_trans|intros u Hu Ho; apply G2; [by apply Wk1|by apply G1]]].
  destruct S2 as (_ & Wf2 & T2 & Tr2 & _ & Q2 & _ & _ & _ & _ & _ & Nh2 & _ & Wk2).
  pose proof (ensure_next_step w2 s2 root T2 t2 0 _ v Wf2 Tr2 Q2 Nh2) as S3. pose proof (ensure_own w2 s2 root T2 t2 0 _ v Wf2 Tr2 Q2 Nh2 O2 F2) as O3. cbv zeta in S3.
  destruct (ensure_next w2 s2 t2 _) as [[[t1|] w3] s3]; destruct O3 as (K3 & F3 & G3 & O3); cycle 1.
  { split; [eapply kept_trans; [done|by eapply kept_trans]|]. intros u Hu Ho. apply G3; [by apply Wk2, Wk1|]. apply G2; [by apply Wk1|by apply G1]. }
  destruct S3 as (_ & _ & T3 & Tr3 & _ & Q1 & _ & _ & _ & _ & _ & _ & _ & Wk3). destruct (tr_frame _ _ _ _ Tr3 _ _ _ Q1) as (Ft1 & _). cbn [mem set_mem].
  split; [do 3 (eapply kept_trans; [done|]); apply kept_entry; [done|by eapply own_head|apply level_index_range]|]. intros u Hu Ho. pose proof (proj2 (Wk1 u) Hu) as Hu1. pose proof (proj2 (Wk2 u) Hu1) as Hu2.
  eapply (own_links (fa w3) (mem w3) _ root T3 4 root 0); [done| |apply Tr3|by apply Wk3|apply G3; [done|]; apply G2; [done|]; by apply G1].
  apply links_unchanged. intros x l q j Hx Hj. apply entry_set_entry_ne. intros Hs. destruct (tr_frame _ _ _ _ Tr3 _ _ _ Hx) as ([_ Hxm] & _). apply slot_inj in Hs as [-> _]; [congruence|done|apply Ft1|done|apply level_index_range].
Qed.

(** Unmapping a page whose walk is in [C]. *)
Lemma unmap_writes (w : world A) s T v :
  tree (fa w) (mem w) (pml4 s) T -> no_huge 4 (mem w) (pml4 s) v -> own 4 (mem w) (pml4 s) v ->
  let '(r, w1, s1) := unmap_user_page w s v in
  kept (mem w) (mem w1) /\ forall u, no_huge 4 (mem w) (pml4 s) u -> own 4 (mem w) (pml4 s) u -> own 4 (mem w1) (pml4 s) u.
Proof.
  intros Htr Hnh Hown. unfold unmap_user_page. set (root := pml4 s) in *.
  change (p4_index v) with (level_index 4 v). change (p3_index v) with (level_index 3 v). change (p2_index v) with (level_index 2 v). change (p1_index v) with (level_index 1 v).
  pose proof (level_index_range 4 v) as I4. pose proof (level_index_range 3 v) as I3. pose proof (level_index_range 2 v) as I2. pose proof (level_index_range 1 v) as I1. cbn [no_huge own] in Hnh, Hown.
  set (e4 := entry (mem w) root (level_index 4 v)) in *. destruct (is_present e4) eqn:P4; cbn [negb]; [|done]. destruct (Hnh eq_refl) as [_ Hnh3]. destruct Hown as [_ Hown]. destruct (Hown eq_refl) as [_ Ho3].
  pose proof (tr_child _ _ _ _ Htr root 2 0 _ (tr_root _ _ _ _ Htr) I4 P4 ltac:(by right)) as Q3. fold e4 in Q3.
  set (e3 := entry (mem w) (entry_addr e4) (level_index 3 v)) in *. destruct (is_present e3) eqn:P3; cbn [negb]; [|done]. destruct (Hnh3 eq_refl) as [G3 Hnh2]. destruct (Ho3 eq_refl) as [_ Ho2].
  pose proof (tr_child _ _ _ _ Htr _ 1 _ _ Q3 I3 P3 ltac:(tauto)) as Q2. fold e3 in Q2.
  set (e2 := entry (mem w) (entry_addr e3) (level_index 2 v)) in *. destruct (is_present e2) eqn:P2; cbn [negb]; [|done]. destruct (Hnh2 eq_refl) as [G2 _]. destruct (Ho2 eq_refl) as [Hc _].
  pose proof (tr_child _ _ _ _ Htr _ 0 _ _ Q2 I2 P2 ltac:(tauto)) as Q1. fold e2 in Q1. destruct (tr_frame _ _ _ _ Htr _ _ _ Q1) as (Ft1 & _).
  destruct (is_present (entry (mem w) (entry_addr e2) _)); cbn [negb]; [|done]. cbv beta iota zeta. cbn [mem set_mem]. split; [by apply kept_entry|]. intros u Hu Ho. eapply (own_links (fa w) (mem w) _ root T 4 root 0); [done| |apply Htr|done|done].
  apply links_unchanged. intros x l q j Hx Hj. apply entry_set_entry_ne. intros Hs. destruct (tr_frame _ _ _ _ Htr _ _ _ Hx) as ([_ Hxm] & _). apply slot_inj in Hs as [-> _]; [congruence|done|apply Ft1|done..].
Qed.
End Own.
End OwnTables.
