(* ===== verification/Faults.v ===== *)
(** * Demand paging and the process heap
    (src/src/memory/user_space.rs: [handle_demand_fault], [brk])

    When a page fault may be resolved and what it maps, growth of the heap, and
    what happens when memory runs out in the middle of a fault. *)

From stdpp Require Import prelude numbers list strings gmap.
From S2P Require Import Prelude Pmm Paging UserSpace PageTree.
Import Paging UserSpace PageTree.

Module Faults.

(** [position] and [find] agree. *)
Lemma position_find {B} (p : B -> bool) l :
  match position p l with
  | Some i => exists x, l !! i = Some x /\ List.find p l = Some x /\ p x = true
  | None => List.find p l = None
  end.
Proof.
  induction l as [|x l IH]; [done|]. cbn [position List.find]. destruct (p x) eqn:E; [by exists x|].
  destruct (position p l) as [i|]; cbn [option_map]; [|done]. destruct IH as (y & ? & ? & ?). by exists y.
Qed.

Section Faults.
Context {A : Type} `{FA : Pmm.FrameAllocator A}.

(** Protection of unmapped memory.  A fault outside every area, in a guard
    or [PROT_NONE] area, or a write to an area that is not writable is refused:
    [handle_demand_fault] answers [false] and neither memory, nor the allocator,
    nor the address space changes. *)
Theorem demand_fault_refused (w : world A) s addr is_write :
  match find_vma s addr with
  | None => True
  | Some v => is_guard v = true \/ prot v = PROT_NONE \/ (is_write = true /\ is_writable v = false)
  end ->
  handle_demand_fault w s addr is_write = Ret (false, w, s).
Proof.
  intros H. unfold handle_demand_fault, find_vma in *.
  pose proof (position_find (fun v => contains v addr) (vmas s)) as Hp.
  destruct (position _ (vmas s)) as [i|]; [|done]. destruct Hp as (v & Hi & Hf & _). rewrite Hf in H.
  unfold index. rewrite Nat2Z.id, Hi. cbn [mbind outcome_bind].
  destruct H as [->|[->|[-> ->]]]; [done|by rewrite orb_true_r|]. by destruct (is_guard v || _)%bool.
Qed.

(** Past the permission checks of [handle_demand_fault]. *)
Lemma fault_permitted (w : world A) s addr is_write v :
  find_vma s addr = Some v -> is_guard v = false -> prot v <> PROT_NONE -> (is_write = true -> is_writable v = true) ->
  exists i, vmas s !! i = Some v /\
  handle_demand_fault w s addr is_write =
    let base_page := align_down_page addr in
    match allocate_frame w with
    | (None, w1) => Ret (false, w1, s)
    | (Some phys, w1) =>
        let w2 := set_mem w1 (zero_frame (mem w1) phys) in
        match map_user_page w2 (push_frame s phys) base_page phys (is_writable v) with
        | (false, w3, s3) => w4 ← free_frame w3 phys; Ret (false, w4, s3)
        | (true, w3, s3) =>
            l ← store (vmas s3) (Z.of_nat i) (set_populated v (<[base_page := phys]> (populated_pages v)));
            Ret (true, w3, set_vmas s3 l)
        end
    end.
Proof.
  intros Hfind Hg Hpn Hwr. unfold handle_demand_fault, find_vma in *.
  pose proof (position_find (fun v => contains v addr) (vmas s)) as Hp.
  destruct (position _ (vmas s)) as [i|]; [|congruence]. destruct Hp as (v' & Hi & Hf & _).
  assert (v' = v) as -> by congruence. exists i. split; [done|].
  unfold index. rewrite Nat2Z.id, Hi. cbn [mbind outcome_bind]. rewrite Hg.
  replace (prot v =? PROT_NONE) with false by by_zbool. cbn [orb].
  destruct is_write; [by rewrite Hwr|done].
Qed.

(** Taking a frame for data and zeroing it changes no table. *)
Lemma alloc_data_spec (w : world A) root T f a1 :
  Pmm.fa_wf (fa w) -> tree (fa w) (mem w) root T -> Pmm.fa_alloc (fa w) = (Some f, a1) ->
  let m1 := zero_frame (mem w) f in
  Pmm.fa_wf a1 /\ tree a1 m1 root T /\ data_frame a1 T f /\ Pmm.fa_free (fa w) f /\
  (forall n v, no_huge n (mem w) root v -> n = 4%nat -> no_huge n m1 root v) /\
  (forall v, walk 4 m1 root v = walk 4 (mem w) root v).
Proof.
  intros Hwf Htr Ha. cbv zeta. destruct (tree_alloc _ _ _ _ _ _ Hwf Htr Ha) as (Hwf1 & Htr1 & Hd & Hfree & _).
  destruct (data_write a1 (mem w) (zero_frame (mem w) f) root T f Htr1) as (Htr2 & Hnh & Hwk); [apply Hd| |].
  { intros t k [_ ?] Hne Hk. apply entry_zero_ne; [apply Hd|done|congruence|done]. }
  do 4 (split; [done|]). split; [|done]. intros n v Hn ->. by apply Hnh.
Qed.

Lemma align_down_page_eq a : in_u 64 a -> align_down_page a = a - a mod PAGE_SIZE.
Proof.
  intros Ha. unfold align_down_page. change (u64_sub PAGE_SIZE 1) with (2 ^ 12 - 1).
  change PAGE_SIZE with (2 ^ 12). by apply land_not_mask.
Qed.

Lemma align_down_same_page a :
  0 <= a < 2 ^ 48 -> 0 <= align_down_page a < 2 ^ 48 /\ Z.shiftr (align_down_page a) 12 = Z.shiftr a 12.
Proof.
  intros Ha. rewrite align_down_page_eq by (split; lia). rewrite !Z.shiftr_div_pow2 by lia.
  unfold PAGE_SIZE. change (2 ^ 12) with 4096. pose proof (Z.div_mod a 4096). pose proof (Z.mod_pos_bound a 4096).
  split; [lia|]. replace (a - a mod 4096) with (a / 4096 * 4096) by lia. by apply Z.div_mul.
Qed.

(** The walk of an address only depends on its page, up to the offset. *)
Lemma level_index_page n a b : (1 <= n)%nat -> 0 <= a -> 0 <= b -> Z.shiftr a 12 = Z.shiftr b 12 -> level_index n a = level_index n b.
Proof.
  intros Hn Ha Hb H. unfold level_index.
  rewrite <- !(Z.shiftr_shiftr _ 12) by lia. by rewrite H.
Qed.

Lemma no_huge_page n m t a b : 0 <= a -> 0 <= b -> Z.shiftr a 12 = Z.shiftr b 12 -> no_huge n m t a -> no_huge n m t b.
Proof.
  intros Ha Hb H. revert t. induction n as [|[|n] IH]; intros t; [done..|]. cbn [no_huge].
  rewrite (level_index_page (S (S n)) a b) by (done || lia). intros Hn Hp.
  destruct (Hn Hp) as [? ?]. split; [done|by apply IH].
Qed.

(** What a permitted fault leads to. *)
Lemma demand_fault_spec (w : world A) s T addr is_write v :
  Pmm.fa_wf (fa w) -> tree (fa w) (mem w) (pml4 s) T -> 0 <= addr < 2 ^ 48 -> no_huge 4 (mem w) (pml4 s) addr ->
  find_vma s addr = Some v -> is_guard v = false -> prot v <> PROT_NONE ->
  (is_write = true -> is_writable v = true) ->
  exists ok w' s', handle_demand_fault w s addr is_write = Ret (ok, w', s') /\ pml4 s' = pml4 s /\
    let page := align_down_page addr in
    if ok then
      exists f, Pmm.fa_free (fa w) f /\
        virt_to_phys (mem w') (pml4 s) page = Some (Z.lor f (Z.land page 0xFFF)) /\
        (forall k, 0 <= k < 512 -> entry (mem w') f k = 0) /\
        forallb user_ok (path 4 (mem w') (pml4 s) page) = true /\
        forallb write_ok (path 4 (mem w') (pml4 s) page) = is_writable v /\
        (forall v', 0 <= v' < 2 ^ 48 -> Z.shiftr v' 12 <> Z.shiftr addr 12 ->
           virt_to_phys (mem w') (pml4 s) v' = virt_to_phys (mem w) (pml4 s) v')
    else forall v', virt_to_phys (mem w') (pml4 s) v' = virt_to_phys (mem w) (pml4 s) v'.
Proof.
  intros Hwf Htr Ha Hnh Hfind Hg Hpn Hwr. destruct (fault_permitted w s addr is_write v) as (i & Hi & ->); [done..|]. cbv zeta.
  unfold allocate_frame. destruct (Pmm.fa_alloc (fa w)) as [[f|] a1] eqn:Ea.
  2:{ destruct (Pmm.fa_alloc_None _ _ Hwf Ea) as [-> _]. eexists false, _, s. split; [done|]. done. }
  destruct (alloc_data_spec w (pml4 s) T f a1 Hwf Htr Ea) as (Hwf1 & Htr1 & Hd & Hfree & Hnh1 & Hwk).
  destruct (align_down_same_page addr Ha) as [Hpg Hsame].
  set (w2 := set_mem (set_fa w a1) (zero_frame (mem w) f)). set (s2 := push_frame s f).
  pose proof (map_user_page_spec w2 s2 T (align_down_page addr) f (is_writable v) Hwf1 Htr1 Hpg (proj1 Hd)) as Hm.
  specialize (Hm (no_huge_page 4 _ _ addr (align_down_page addr) ltac:(lia) ltac:(lia) (eq_sym Hsame) (Hnh1 4%nat addr Hnh eq_refl))).
  change (mem (set_fa w a1)) with (mem w). fold w2.
  destruct (map_user_page w2 s2 (align_down_page addr) f (is_writable v)) as [[ok w3] s3].
  destruct Hm as (Hs3 & Hwf3 & (T1 & Htr3 & Hkept) & _ & Hm). change (pml4 s2) with (pml4 s) in *.
  assert (pml4 s3 = pml4 s) as Hp3 by (by rewrite Hs3). assert (vmas s3 = vmas s) as Hv3 by (by rewrite Hs3).
  destruct ok.
  - unfold store. rewrite Hv3, Nat2Z.id, Hi. cbn [mbind outcome_bind]. eexists true, w3, _. split; [done|].
    split; [done|]. cbv zeta. destruct Hm as (H1 & H2 & H3 & H4). exists f. rewrite virt_to_phys_walk.
    split; [done|]. split; [done|]. split; [|split; [done|split; [done|]]].
    + intros k Hk. destruct (Hkept f Hd) as [_ Hz]. rewrite Hz by done. cbn [w2 mem set_mem]. by apply entry_zero_eq.
    + intros u Hu Hne. rewrite !virt_to_phys_walk, <- Hwk. apply H2; [done|]. by rewrite Hsame.
  - destruct (free_frame_ret w3 f Hwf3) as (w4 & -> & _ & Hm4). cbn [mbind outcome_bind].
    eexists false, w4, s3. split; [done|]. split; [done|]. cbv zeta. intros u.
    rewrite Hm4, !virt_to_phys_walk, <- Hwk. apply Hm.
Qed.

(** C19: resolving a fault.  When the area of the faulting address permits the
    access, [handle_demand_fault] returns.  If it answers [true], the page of the
    address now translates to a frame that was free, that frame holds only zeroes,
    Ring 3 can reach it, with write access exactly when the area is writable, and
    every other page translates as before; if it answers [false], memory had run
    out and no translation changed. *)
Theorem demand_fault_resolved (w : world A) s T addr is_write v :
  Pmm.fa_wf (fa w) -> tree (fa w) (mem w) (pml4 s) T -> 0 <= addr < 2 ^ 48 -> no_huge 4 (mem w) (pml4 s) addr ->
  find_vma s addr = Some v -> is_guard v = false -> prot v <> PROT_NONE ->
  (is_write = true -> is_writable v = true) ->
  exists ok w' s', handle_demand_fault w s addr is_write = Ret (ok, w', s') /\ pml4 s' = pml4 s /\
    let page := align_down_page addr in
    if ok then
      exists f, Pmm.fa_free (fa w) f /\
        virt_to_phys (mem w') (pml4 s) page = Some (Z.lor f (Z.land page 0xFFF)) /\
        (forall k, 0 <= k < 512 -> entry (mem w') f k = 0) /\
        forallb user_ok (path 4 (mem w') (pml4 s) page) = true /\
        forallb write_ok (path 4 (mem w') (pml4 s) page) = is_writable v /\
        (forall v', 0 <= v' < 2 ^ 48 -> Z.shiftr v' 12 <> Z.shiftr addr 12 ->
           virt_to_phys (mem w') (pml4 s) v' = virt_to_phys (mem w) (pml4 s) v')
    else forall v', virt_to_phys (mem w') (pml4 s) v' = virt_to_phys (mem w) (pml4 s) v'.
Proof. apply demand_fault_spec. Qed.

(** Memory exhausted inside a fault.  When the data frame is the last one free
    and the fault still needs a page table, the frame goes back to the allocator
    but stays in the list of frames the address space owns: a frame of the space
    is free, and teardown will free it again after its next owner took it. *)
Theorem demand_fault_stale_frame (w : world A) s T addr is_write v f a1 :
  Pmm.fa_wf (fa w) -> tree (fa w) (mem w) (pml4 s) T -> 0 <= addr < 2 ^ 48 ->
  find_vma s addr = Some v -> is_guard v = false -> prot v <> PROT_NONE ->
  (is_write = true -> is_writable v = true) ->
  is_present (entry (mem w) (pml4 s) (p4_index (align_down_page addr))) = false ->
  Pmm.fa_alloc (fa w) = (Some f, a1) -> (Pmm.fa_alloc a1).1 = None ->
  exists w' s', handle_demand_fault w s addr is_write = Ret (false, w', s') /\
    f ∈ allocated_frames s' /\ Pmm.fa_free (fa w') f.
Proof.
  intros Hwf Htr Ha Hfind Hg Hpn Hwr Hnp Ea Ea1. destruct (fault_permitted w s addr is_write v) as (i & Hi & ->); [done..|]. cbv zeta.
  unfold allocate_frame at 1. rewrite Ea.
  destruct (Pmm.fa_alloc_Some _ _ _ Hwf Ea) as (Hwf1 & Hfr & Hfree & Hfree1).
  assert (Hent : forall k, 0 <= k < 512 -> entry (zero_frame (mem w) f) (pml4 s) k = entry (mem w) (pml4 s) k).
  { intros k Hk. destruct (tr_frame _ _ _ _ Htr _ _ _ (tr_root _ _ _ _ Htr)) as ([_ ?] & Hnf & _).
    apply entry_zero_ne; [by apply is_frame_addr in Hfr as [_ ?]|done| |done]. congruence. }
  unfold map_user_page, ensure_next, alloc_page_table, allocate_frame.
  cbn [mem set_mem set_fa push_frame set_frames pml4 fa].
  rewrite Hent by (apply (level_index_range 4)). rewrite Hnp.
  destruct (Pmm.fa_alloc a1) as [r a2] eqn:Ea2. cbn in Ea1. subst r. destruct (Pmm.fa_alloc_None _ _ Hwf1 Ea2) as [-> _].
  unfold free_frame. cbn [fa set_fa set_mem].
  destruct (Pmm.fa_dealloc_spec a1 f Hwf1) as ([] & a3 & -> & H3); cbn [mbind outcome_bind].
  - eexists _, _. split; [done|]. cbn [allocated_frames push_frame set_frames fa set_fa]. split; [|apply H3; by right].
    rewrite elem_of_app, list_elem_of_singleton. by right.
  - exfalso. destruct H3 as [_ [H3|H3]]; [done|]. apply Hfree1 in H3 as [_ ?]. done.
Qed.

End Faults.

(** ** The process heap *)

(** The heap of an address space: aligned start, end below the mmap window; the
    area named [[heap]], present exactly when the heap is not empty, covers it up
    to a page. *)
Record heap_ok (s : AddressSpace) : Prop := {
  hk_aligned : heap_start s mod PAGE_SIZE = 0;
  hk_range : 0 <= heap_start s <= heap_end s;
  hk_limit : heap_end s <= MMAP_BASE_START;
  hk_area : forall v, v ∈ vmas s -> is_heap v = true -> start v = heap_start s /\ aend v = align_up_page (heap_end s);
  hk_some : heap_start s < heap_end s -> exists v, v ∈ vmas s /\ is_heap v = true;
}.

Lemma all_apart_split l1 v l2 :
  all_apart (l1 ++ v :: l2) <-> all_apart (l1 ++ l2) /\ Forall (apart v) (l1 ++ l2).
Proof.
  rewrite !all_apart_app. cbn [all_apart]. rewrite Forall_app, !Forall_forall.
  assert (forall a, Forall (apart a) (v :: l2) <-> apart a v /\ Forall (apart a) l2) as Hc by (intros; apply Forall_cons).
  setoid_rewrite Hc. split.
  - intros (H1 & [H2 H3] & H4). split_and!; try done; [intros a Ha; by apply H4|].
    intros a Ha. apply apart_sym. by apply H4.
  - intros ((H1 & H2 & H3) & H4 & H5). split_and!; try done. intros a Ha. split; [apply apart_sym; auto|auto].
Qed.

Lemma overlaps_other_false l1 v l2 s sz :
  overlaps_other (l1 ++ v :: l2) (length l1) s sz = false -> forall u, u ∈ l1 ++ l2 -> overlaps u s sz = false.
Proof.
  intros H u Hu. destruct (overlaps u s sz) eqn:E; [exfalso|done].
  enough (overlaps_other (l1 ++ v :: l2) (length l1) s sz = true) by congruence. clear H.
  unfold overlaps_other. apply existsb_exists.
  apply elem_of_app in Hu as [Hu|Hu]; apply list_elem_of_lookup in Hu as [i Hi];
    [exists (i, u)|exists ((length l1 + S i)%nat, u)]; rewrite <- list_elem_of_In; cbn [fst snd]; rewrite E, andb_true_r.
  - split; [|apply lookup_lt_Some in Hi; apply negb_true_iff, Nat.eqb_neq; lia].
    apply (list_elem_of_lookup_2 _ i). by rewrite list_lookup_imap, lookup_app_l, Hi by (by eapply lookup_lt_Some).
  - split; [|apply negb_true_iff, Nat.eqb_neq; lia].
    apply (list_elem_of_lookup_2 _ (length l1 + S i)). rewrite list_lookup_imap, lookup_app_r by lia.
    replace (length l1 + S i - length l1)%nat with (S i) by lia.
    change ((v :: l2) !! S i) with (l2 !! i). by rewrite Hi.
Qed.

(** Cutting the end of an area off, or all of it, or missing it. *)
Lemma munmap_vma_tail s len v :
  area_ok v -> start v <= s -> aend v = s + len -> 0 < len ->
  munmap_vma s len (s + len) v =
    if start v <? s then
      [set_range (set_populated v (filter (fun kv : Z * Z => ~ (s <= kv.1 /\ kv.1 < s + len)) (populated_pages v)))
         (start v) (s - start v)]
    else [].
Proof.
  intros Hv Hs He Hl. pose proof Hv as (H0 & _ & Hsz & _ & Hend). unfold munmap_vma.
  assert (overlaps v s len = true) as -> by (apply overlaps_true; [done|lia..]). cbn [negb].
  change (vend (set_populated v _)) with (vend v). rewrite vend_ok, He by done. cbn [start set_populated].
  replace (s + len <=? s + len) with true by lia. replace (s + len <? s + len) with false by lia.
  rewrite !andb_true_r, !andb_false_r. destruct (Z.ltb_spec (start v) s).
  - replace (s <=? start v) with false by lia. by rewrite u64_sub_small by lia.
  - by replace (s <=? start v) with true by lia.
Qed.

Lemma is_heap_attrs v u : same_attrs v u -> is_heap u = is_heap v.
Proof. intros (_ & _ & _ & H). unfold is_heap. by rewrite H. Qed.

(** Two areas of the list that share an address are the same area. *)
Lemma areas_same l u v x : areas_ok l -> u ∈ l -> v ∈ l -> in_area u x -> in_area v x -> u = v.
Proof.
  intros [HF Ha] Hu Hv Hxu Hxv. unfold in_area in *. induction l as [|y l IH]; [by apply elem_of_nil in Hu|].
  destruct Ha as [Hy Ha]. rewrite Forall_forall in Hy. unfold apart in Hy. apply Forall_cons_1 in HF as [_ HF].
  apply elem_of_cons in Hu as [->|Hu]; apply elem_of_cons in Hv as [->|Hv]; [done|..].
  - specialize (Hy v Hv). lia.
  - specialize (Hy u Hu). lia.
  - by apply IH.
Qed.

(** Releasing the pages [na .. oa) at the end of the heap. *)
Lemma heap_shrink s na :
  areas_ok (vmas s) -> heap_ok s -> heap_start s < heap_end s ->
  heap_start s <= na < align_up_page (heap_end s) ->
  let oa := align_up_page (heap_end s) in
  let r := munmap_vmas na (oa - na) oa (vmas s) in
  (forall u, is_heap u = false -> u ∈ r <-> u ∈ vmas s) /\
  (forall u, u ∈ r -> is_heap u = true -> start u = heap_start s /\ aend u = na) /\
  (heap_start s < na -> exists u, u ∈ r /\ is_heap u = true).
Proof.
  intros Hok Hk Hne Hna. cbv zeta. set (oa := align_up_page (heap_end s)) in *.
  destruct (hk_some _ Hk Hne) as (h & Hh & Hhn). destruct (hk_area _ Hk h Hh Hhn) as [Hs He]. fold oa in He.
  pose proof (proj1 (Forall_forall _ _) (proj1 Hok)) as HF.
  assert (Hheap : forall v, v ∈ vmas s -> is_heap v = true -> v = h).
  { intros v Hv Hvn. destruct (hk_area _ Hk v Hv Hvn) as [? Hve]. fold oa in Hve.
    apply (areas_same (vmas s) v h (heap_start s) Hok Hv Hh); unfold in_area; lia. }
  pose proof (HF h Hh) as Hhok. pose proof Hhok as (? & _ & ? & _ & ?).
  assert (Hcut := munmap_vma_tail na (oa - na) h Hhok ltac:(lia) ltac:(lia) ltac:(lia)).
  replace (na + (oa - na)) with oa in Hcut by lia.
  assert (Hother : forall v, v ∈ vmas s -> is_heap v = false -> munmap_vma na (oa - na) oa v = [v]).
  { intros v Hv Hvn. replace oa with (na + (oa - na)) at 2 by lia.
    apply munmap_vma_apart; [by apply HF|lia..|]. pose proof (HF v Hv) as (? & _ & ? & _ & ?).
    destruct (decide (na + (oa - na) <= start v \/ aend v <= na)) as [|Hn]; [done|exfalso].
    enough (v = h) by congruence.
    apply (areas_same (vmas s) v h (Z.max na (start v)) Hok Hv Hh); unfold in_area, aend in *; lia. }
  assert (Hin : forall u, u ∈ munmap_vmas na (oa - na) oa (vmas s) <-> exists v, v ∈ vmas s /\ u ∈ munmap_vma na (oa - na) oa v).
  { intros u. unfold munmap_vmas. rewrite list_elem_of_In, in_flat_map. by setoid_rewrite list_elem_of_In. }
  split_and!.
  - intros u Hu. rewrite Hin. split.
    + intros (v & Hv & Huv). destruct (is_heap v) eqn:Evh.
      * rewrite (Hheap v Hv Evh), Hcut in Huv. destruct (start h <? na); [|by apply elem_of_nil in Huv].
        apply list_elem_of_singleton in Huv as ->. by unfold is_heap in *; cbn in Hu; congruence.
      * rewrite (Hother v Hv Evh) in Huv. by apply list_elem_of_singleton in Huv as ->.
    + intros Hv. exists u. rewrite (Hother u Hv Hu). split; [done|by apply list_elem_of_singleton].
  - intros u Hu Hun. apply Hin in Hu as (v & Hv & Huv). destruct (is_heap v) eqn:Evh.
    + rewrite (Hheap v Hv Evh), Hcut in Huv. destruct (start h <? na); [|by apply elem_of_nil in Huv].
      apply list_elem_of_singleton in Huv as ->. unfold aend. cbn. lia.
    + rewrite (Hother v Hv Evh) in Huv. apply list_elem_of_singleton in Huv as ->. congruence.
  - intros Hlt. setoid_rewrite Hin. rewrite <- Hs in Hlt. apply Z.ltb_lt in Hlt. rewrite Hlt in Hcut.
    eexists. split; [exists h; split; [done|]; rewrite Hcut; by apply list_elem_of_singleton|done].
Qed.

Lemma align_up_page_mono a b : 0 <= a <= b -> b + PAGE_SIZE <= 2 ^ 64 -> align_up_page a <= align_up_page b.
Proof.
  intros. destruct (align_up_page_bounds a) as [? Ha]; [lia..|]. destruct (align_up_page_bounds b) as [? Hb]; [lia..|].
  unfold PAGE_SIZE in *. pose proof (Z.div_mod (align_up_page a) 4096). pose proof (Z.div_mod (align_up_page b) 4096). lia.
Qed.

(** Replacing the heap area [h] by a longer one that meets no other area. *)
Lemma heap_replace l1 h l2 sz :
  areas_ok (l1 ++ h :: l2) -> 0 < sz -> sz mod PAGE_SIZE = 0 -> start h + sz <= 2 ^ 63 ->
  (forall u, u ∈ l1 ++ l2 -> overlaps u (start h) sz = false) ->
  areas_ok (l1 ++ set_range h (start h) sz :: l2).
Proof.
  intros [HF Ha] Hsz Hm He Hov. apply Forall_app in HF as [HF1 HF2]. apply Forall_cons_1 in HF2 as [Hh HF2].
  pose proof Hh as (H0 & Hhm & _). apply all_apart_split in Ha as [Ha _].
  split.
  - apply Forall_app. split; [done|]. constructor; [|done]. unfold area_ok, aend. cbn. by split_and!.
  - apply all_apart_split. split; [done|]. apply Forall_forall. intros u Hu. specialize (Hov u Hu).
    assert (area_ok u) as Huok.
    { apply elem_of_app in Hu as [Hu|Hu]; [exact (proj1 (Forall_forall _ _) HF1 u Hu)|exact (proj1 (Forall_forall _ _) HF2 u Hu)]. }
    apply overlaps_false in Hov; [|done|lia..]. unfold apart, aend at 1. cbn. done.
Qed.

Section Brk.
Context {A : Type} `{FA : Pmm.FrameAllocator A}.

(** What every call of [brk] keeps. *)
Definition brk_ok (s s' : AddressSpace) : Prop :=
  areas_ok (vmas s') /\ heap_ok s' /\ heap_start s' = heap_start s /\
  (forall v, is_heap v = false -> v ∈ vmas s' <-> v ∈ vmas s).

(** The heap area grown in place. *)
Lemma grow_existing s l1 h l2 nb :
  areas_ok (vmas s) -> heap_ok s -> heap_end s < nb <= MMAP_BASE_START ->
  vmas s = l1 ++ h :: l2 -> is_heap h = true ->
  (forall u, u ∈ l1 ++ l2 -> overlaps u (start h) (align_up_page nb - start h) = false) ->
  brk_ok s (set_heap_end (set_vmas s (l1 ++ set_range h (start h) (align_up_page nb - start h) :: l2)) nb).
Proof.
  intros Hok Hk Hnb El Hh Hov. pose proof (hk_range _ Hk) as Hr.
  destruct (align_up_page_bounds nb) as [Hb Hbm]; [lia|unfold MMAP_BASE_START, PAGE_SIZE in *; lia|].
  assert (Hlim : align_up_page nb < 2 ^ 62) by (unfold MMAP_BASE_START, PAGE_SIZE in *; lia).
  destruct (hk_area _ Hk h) as [Hs He]; [rewrite El, elem_of_app, elem_of_cons; auto|done|]. rewrite El in Hok.
  pose proof (proj1 (Forall_forall _ _) (proj1 Hok)) as HF.
  assert (Hno : forall u, u ∈ l1 ++ l2 -> is_heap u = false).
  { intros u Hu. destruct (is_heap u) eqn:E; [exfalso|done].
    assert (Hu' : u ∈ l1 ++ h :: l2) by (rewrite elem_of_app, elem_of_cons in *; tauto).
    destruct (hk_area _ Hk u) as [? ?]; [by rewrite El|done|]. pose proof (HF u Hu') as (? & _ & ? & _ & ?).
    assert (overlaps u (start h) (align_up_page nb - start h) = true) as E'.
    { apply overlaps_true; [by apply HF|lia..|unfold aend in *; lia]. }
    rewrite (Hov u Hu) in E'. done. }
  unfold brk_ok. cbn [vmas set_heap_end set_vmas heap_start]. split_and!; [|split|done|];
    cbn [vmas set_heap_end set_vmas heap_start heap_end]; [|apply Hk|lia|lia|..].
  - apply heap_replace; [done|lia| |lia|done]. rewrite Hs. apply page_mod_sub; [done|apply Hk].
  - intros v Hv Hvh. rewrite elem_of_app, elem_of_cons in Hv.
    assert (v ∈ l1 ++ l2 \/ v = set_range h (start h) (align_up_page nb - start h)) as [Hi| ->]
      by (rewrite elem_of_app; tauto); [by rewrite Hno in Hvh|]. unfold aend. cbn. lia.
  - intros _. eexists. rewrite elem_of_app, elem_of_cons. split; [right; by left|done].
  - intros v Hv. rewrite El, !elem_of_app, !elem_of_cons.
    split; intros [?|[->|?]]; auto; unfold is_heap in *; cbn in *; congruence.
Qed.

(** The first growth creates the area. *)
Lemma grow_new s nb :
  areas_ok (vmas s) -> heap_ok s -> heap_end s < nb <= MMAP_BASE_START ->
  (forall u, u ∈ vmas s -> is_heap u = false) ->
  (forall u, u ∈ vmas s -> overlaps u (heap_start s) (align_up_page nb - heap_start s) = false) ->
  brk_ok s (set_heap_end (set_vmas s (vmas s ++
    [vma_new (heap_start s) (align_up_page nb - heap_start s) (Z.lor PROT_READ PROT_WRITE)
       (Z.lor MAP_PRIVATE MAP_ANONYMOUS) false "[heap]"])) nb).
Proof.
  intros Hok Hk Hnb Hno Hov. pose proof (hk_range _ Hk) as Hr.
  destruct (align_up_page_bounds nb) as [Hb Hbm]; [lia|unfold MMAP_BASE_START, PAGE_SIZE in *; lia|].
  assert (Hlim : align_up_page nb < 2 ^ 62) by (unfold MMAP_BASE_START, PAGE_SIZE in *; lia).
  pose proof (proj1 (Forall_forall _ _) (proj1 Hok)) as HF.
  assert (Hm : (align_up_page nb - heap_start s) mod PAGE_SIZE = 0) by (apply page_mod_sub; [done|apply Hk]).
  unfold brk_ok. cbn [vmas set_heap_end set_vmas heap_start]. split_and!; [split|split|done|];
    cbn [vmas set_heap_end set_vmas heap_start heap_end]; [| |apply Hk|lia|lia|..].
  - apply Forall_app. split; [apply Hok|]. constructor; [|constructor].
    unfold area_ok, aend. cbn. split_and!; [lia|apply Hk|lia|done|lia].
  - apply all_apart_split. rewrite app_nil_r. split; [apply Hok|]. apply Forall_forall. intros u Hu.
    specialize (Hov u Hu). apply overlaps_false in Hov; [|by apply HF|lia..]. unfold apart, aend at 1. cbn.
    replace (heap_start s + (align_up_page nb - heap_start s)) with (align_up_page nb) in * by lia. done.
  - intros v Hv Hvh. rewrite elem_of_app, list_elem_of_singleton in Hv.
    destruct Hv as [Hv| ->]; [by rewrite Hno in Hvh|]. unfold aend. cbn. lia.
  - intros _. eexists. rewrite elem_of_app, list_elem_of_singleton. split; [by right|done].
  - intros v Hv. rewrite elem_of_app, list_elem_of_singleton. split; [|by left].
    intros [?| ->]; [done|]. unfold is_heap in *; cbn in *; congruence.
Qed.

Lemma brk_grow (w : world A) s nb :
  areas_ok (vmas s) -> heap_ok s -> heap_end s < nb <= MMAP_BASE_START ->
  exists r s', brk w s nb = Ret (r, w, s') /\ brk_ok s s' /\ heap_end s' = r /\ (r = nb \/ s' = s).
Proof.
  intros Hok Hk Hnb. pose proof (hk_range _ Hk) as Hr. assert (Hid : brk_ok s s) by (by split).
  destruct (align_up_page_bounds nb) as [Hb _]; [lia|unfold MMAP_BASE_START, PAGE_SIZE in *; lia|].
  assert (Hlim : align_up_page nb < 2 ^ 62) by (unfold MMAP_BASE_START, PAGE_SIZE in *; lia).
  unfold brk. assert ((nb =? 0) || (nb <? heap_start s) = false)%bool as -> by (apply orb_false_iff; split; lia).
  replace (nb =? heap_end s) with false by lia. replace (MMAP_BASE_START <? nb) with false by lia.
  replace (heap_end s <? nb) with true by lia.
  pose proof (position_find is_heap (vmas s)) as Hp. destruct (position is_heap (vmas s)) as [pos|].
  - destruct Hp as (h & Hi & _ & Hh). unfold index, store. rewrite Nat2Z.id, Hi. cbn [mbind outcome_bind].
    destruct (list_elem_of_split_length _ _ _ Hi) as (l1 & l2 & El & ->).
    destruct (hk_area _ Hk h) as [Hs He]; [by eapply list_elem_of_lookup_2|done|].
    rewrite u64_sub_small by lia.
    destruct (overlaps_other _ _ _ _) eqn:Eo; [exists (heap_end s), s; by split_and!; [..|right]|].
    eexists _, _. split; [done|]. split; [|split; [done|by left]]. rewrite El in Eo |- *.
    replace (length l1) with (length l1 + 0)%nat by lia. rewrite insert_app_r. cbn [insert list_insert].
    apply grow_existing; [done..|]. by apply (overlaps_other_false _ h).
  - rewrite u64_sub_small by lia.
    destruct (existsb _ (vmas s)) eqn:Eo; [exists (heap_end s), s; by split_and!; [..|right]|].
    eexists _, _. split; [done|]. split; [|split; [done|by left]].
    apply grow_new; [done..| |].
    + intros u Hu. apply (List.find_none _ _ Hp). by apply list_elem_of_In.
    + intros u Hu. apply not_true_iff_false. intros E. apply not_true_iff_false in Eo. apply Eo, existsb_exists.
      exists u. by rewrite <- list_elem_of_In.
Qed.

(** Setting the end the heap area already has changes nothing. *)
Lemma trim_same l na :
  (forall v, v ∈ l -> is_heap v = true -> aend v = na) ->
  Forall area_ok l ->
  match position is_heap l with
  | Some pos =>
      match l !! pos with
      | Some v => <[pos := set_range v (start v) (u64_sub na (start v))]> l
      | None => l
      end
  | None => l
  end = l.
Proof.
  intros H HF. pose proof (position_find is_heap l) as Hp. destruct (position is_heap l) as [pos|]; [|done].
  destruct Hp as (v & Hi & _ & Hv). rewrite Hi. apply list_insert_id. rewrite Hi. f_equal.
  pose proof (list_elem_of_lookup_2 _ _ _ Hi) as Hin. specialize (H v Hin Hv).
  destruct (proj1 (Forall_forall _ _) HF v Hin) as (? & _ & ? & _ & ?). unfold aend in *.
  rewrite u64_sub_small by lia. replace (na - start v) with (size v) by lia. by destruct v.
Qed.

(** The pages given back when the break moves down to [na]. *)
Lemma shrink_areas (w : world A) s na :
  Pmm.fa_wf (fa w) -> areas_ok (vmas s) -> heap_ok s -> heap_start s < heap_end s ->
  let oa := align_up_page (heap_end s) in
  heap_start s <= na <= oa -> na mod PAGE_SIZE = 0 ->
  exists w1 s1, (if na <? oa then '(_, w1, s1) ← munmap w s na (u64_sub oa na); Ret (w1, s1) else Ret (w, s)) = Ret (w1, s1) /\
    areas_ok (vmas s1) /\ heap_start s1 = heap_start s /\
    (forall v, is_heap v = false -> v ∈ vmas s1 <-> v ∈ vmas s) /\
    (forall v, v ∈ vmas s1 -> is_heap v = true -> start v = heap_start s /\ aend v = na) /\
    (heap_start s < na -> exists v, v ∈ vmas s1 /\ is_heap v = true).
Proof.
  intros Hwf Hok Hk Hne oa Hna Hm. pose proof (hk_range _ Hk) as Hr. pose proof (hk_limit _ Hk) as Hlim.
  unfold MMAP_BASE_START in Hlim.
  destruct (align_up_page_bounds (heap_end s)) as [Ho Hom]; [lia|unfold PAGE_SIZE; lia|]. fold oa in Ho, Hom.
  assert (oa < 2 ^ 62) by (unfold PAGE_SIZE in Ho; lia).
  destruct (Z.ltb_spec na oa) as [Hlt|Hge].
  - rewrite u64_sub_small by lia. unfold munmap. rewrite page_mask, Hm.
    replace (oa - na =? 0) with false by lia. cbn [negb orb Z.eqb].
    rewrite align_up_page_id; [|lia|unfold PAGE_SIZE in *; lia|by apply page_mod_sub].
    rewrite u64_add_small by lia. replace (na + (oa - na)) with oa by lia.
    destruct (unmap_range_ret (S (Z.to_nat ((oa - na) / PAGE_SIZE))) w s na oa) as (w1 & s1 & -> & _ & Hsame);
      [done|lia|unfold PAGE_SIZE in *; lia| |].
    { pose proof (Z.div_mod (oa - na) PAGE_SIZE). pose proof (Z.div_pos (oa - na) PAGE_SIZE).
      pose proof (Z.mod_pos_bound (oa - na) PAGE_SIZE). unfold PAGE_SIZE in *. lia. }
    cbn [mbind outcome_bind]. eexists w1, _. split; [done|]. cbn [vmas set_vmas].
    rewrite (same_areas_vmas _ _ Hsame). destruct (heap_shrink s na Hok Hk) as (H1 & H2 & H3); [fold oa; lia..|].
    destruct (munmap_vmas_spec na (oa - na) (vmas s) Hok) as [H4 _]; [lia|done|lia|by apply page_mod_sub|lia|].
    replace (na + (oa - na)) with oa in H4 by lia.
    split; [done|]. split; [by rewrite Hsame|]. by split_and!.
  - exists w, s. split; [done|]. split; [done|]. split; [done|].
    split; [done|]. split; [|intros _; by apply (hk_some _ Hk)].
    intros v Hv Hvh. destruct (hk_area _ Hk v Hv Hvh) as [? He]. fold oa in He. lia.
Qed.

Lemma brk_shrink (w : world A) s nb :
  Pmm.fa_wf (fa w) -> areas_ok (vmas s) -> heap_ok s -> nb <> 0 -> heap_start s <= nb < heap_end s ->
  exists w' s', brk w s nb = Ret (nb, w', s') /\ brk_ok s s' /\ heap_end s' = nb.
Proof.
  intros Hwf Hok Hk Hnz Hnb. pose proof (hk_range _ Hk) as Hr. pose proof (hk_limit _ Hk) as Hlim.
  unfold MMAP_BASE_START in Hlim.
  destruct (align_up_page_bounds nb) as [Hb Hbm]; [lia|unfold PAGE_SIZE; lia|].
  pose proof (align_up_page_mono nb (heap_end s) ltac:(lia) ltac:(unfold PAGE_SIZE; lia)) as Hmono.
  unfold brk. assert ((nb =? 0) || (nb <? heap_start s) = false)%bool as -> by (apply orb_false_iff; split; lia).
  replace (nb =? heap_end s) with false by lia. replace (MMAP_BASE_START <? nb) with false by (unfold MMAP_BASE_START; lia).
  replace (heap_end s <? nb) with false by lia.
  destruct (shrink_areas w s (align_up_page nb)) as (w1 & s1 & -> & Hok1 & Hhs & Hoth & Hhp & Hsome); [done..|lia|lia|done|].
  cbn [mbind outcome_bind]. eexists w1, _. split; [done|].
  set (s2 := match position is_heap (vmas s1) with Some _ => _ | None => s1 end).
  assert (s2 = s1) as ->.
  { pose proof (trim_same (vmas s1) (align_up_page nb) ltac:(intros v Hv Hvh; by apply Hhp) (proj1 Hok1)) as Ht. subst s2.
    destruct (position is_heap (vmas s1)) as [pos|]; [|done]. destruct (vmas s1 !! pos); [|done]. rewrite Ht. by destruct s1. }
  split; [|done]. split; [done|]. split; [|by split].
  split; cbn [vmas set_heap_end heap_start heap_end]; rewrite ?Hhs; [apply Hk|lia|unfold MMAP_BASE_START; lia|done|].
  intros. apply Hsome. lia.
Qed.

(** The process heap.  [brk] always returns.  It either moves the break to
    the requested address or leaves everything as it was and answers the old
    break; a request between the start of the heap and the current break is always
    granted.  Afterwards the areas are still aligned and apart, the [[heap]] area
    still covers exactly the heap up to a page, and every other area is the same. *)
Theorem brk_correct (w : world A) s nb :
  Pmm.fa_wf (fa w) -> areas_ok (vmas s) -> heap_ok s ->
  exists r w' s', brk w s nb = Ret (r, w', s') /\ brk_ok s s' /\ heap_end s' = r /\
    (r = nb \/ (w', s') = (w, s)) /\
    (nb <> 0 -> heap_start s <= nb <= heap_end s -> r = nb).
Proof.
  intros Hwf Hok Hk. pose proof (hk_range _ Hk). assert (Hid : brk_ok s s) by (by split).
  destruct (decide (nb = 0 \/ nb < heap_start s \/ MMAP_BASE_START < nb)) as [Hrej|].
  { exists (heap_end s), w, s. pose proof (hk_limit _ Hk). split; [|split_and!; auto; lia].
    unfold brk. destruct ((nb =? 0) || (nb <? heap_start s))%bool eqn:E1; [done|]. apply orb_false_iff in E1.
    destruct (nb =? heap_end s); [done|]. by replace (MMAP_BASE_START <? nb) with true by lia. }
  destruct (Z.lt_trichotomy nb (heap_end s)) as [Hlt|[->|Hgt]].
  - destruct (brk_shrink w s nb) as (w' & s' & ? & ? & ?); [done..|lia|lia|]. exists nb, w', s'. split_and!; auto.
  - exists (heap_end s), w, s. split; [|split_and!; auto]. unfold brk. rewrite Z.eqb_refl. by destruct (_ || _)%bool.
  - destruct (brk_grow w s nb) as (r & s' & ? & ? & ? & Hc); [done..|lia|]. exists r, w, s'.
    split_and!; try done; [|lia]. destruct Hc as [->| ->]; auto.
Qed.

End Brk.

(** ** Witnesses *)
Import Pmm.

Definition demo_area : VmArea := vma_new 0x60000000 0x4000 PROT_READ MAP_ANONYMOUS false "[mmap]".

Lemma demand_fault_refused_witness :
  handle_demand_fault demo_world demo_space 0x60001008 true = Ret (false, demo_world, demo_space).
Proof. apply demand_fault_refused. right. right. split; reflexivity. Defined.

Lemma demand_fault_resolved_witness :
  exists ok w' s', handle_demand_fault demo_world demo_space 0x60001008 false = Ret (ok, w', s') /\ pml4 s' = 0x1000.
Proof.
  destruct (demand_fault_resolved demo_world demo_space demo_tree 0x60001008 false demo_area) as (ok & w' & s' & E & Hp & _).
  - apply demo_wf.
  - apply demo_tree_ok.
  - lia.
  - intros H. discriminate H.
  - reflexivity.
  - reflexivity.
  - discriminate.
  - discriminate.
  - exists ok, w', s'. split; [exact E|exact Hp].
Defined.

(** The same world with a single free frame. *)
Definition last_pmm : Pmm := set_bitmap Pmm.new (<[0%nat := u64_not 1]> (bitmap Pmm.new)).
Definition last_world : world Pmm := mkWorld last_pmm (fun _ => 0) 0x1000 0x1000.

Lemma last_tree_ok : tree last_pmm (fun _ => 0) 0x1000 demo_tree.
Proof. apply tree_empty. Qed.

Lemma demand_fault_stale_frame_witness :
  exists w' s', handle_demand_fault last_world demo_space 0x60001008 false = Ret (false, w', s') /\
    0x200000 ∈ allocated_frames s' /\ fa_free (fa w') 0x200000.
Proof.
  apply (demand_fault_stale_frame last_world demo_space demo_tree 0x60001008 false demo_area 0x200000 (alloc_frame last_pmm).2).
  - by_compute.
  - apply last_tree_ok.
  - lia.
  - reflexivity.
  - reflexivity.
  - discriminate.
  - discriminate.
  - reflexivity.
  - vm_compute. reflexivity.
  - vm_compute. reflexivity.
Defined.

Definition heap_space : AddressSpace :=
  mkSpace 0x1000 [] [vma_new 0x50000000 0x2000 (Z.lor PROT_READ PROT_WRITE) (Z.lor MAP_PRIVATE MAP_ANONYMOUS) false "[heap]"]
    MMAP_BASE_START DEFAULT_USER_HEAP_START 0x50001800.

Lemma brk_correct_witness :
  exists w' s', brk demo_world heap_space 0x50000400 = Ret (0x50000400, w', s') /\ areas_ok (vmas s').
Proof.
  destruct (brk_correct demo_world heap_space 0x50000400) as (r & w' & s' & E & [Hok _] & _ & _ & Hr).
  - apply demo_wf.
  - split; [|by cbn; auto using Forall_nil]. constructor; [|constructor]. by_compute.
  - split; [done|cbn; unfold DEFAULT_USER_HEAP_START; lia|cbn; unfold MMAP_BASE_START; lia| |].
    + intros v Hv _. apply list_elem_of_singleton in Hv as ->. by vm_compute.
    + intros _. eexists. split; [apply list_elem_of_singleton; reflexivity|reflexivity].
  - rewrite (Hr ltac:(lia) ltac:(cbn; unfold DEFAULT_USER_HEAP_START; lia)) in E. exists w', s'. split; [exact E|exact Hok].
Defined.

End Faults.
