(* ===== verification/NewSpace.v ===== *)
(** * New address spaces (src/src/memory/user_space.rs: [AddressSpace::new])

    [new] copies the kernel's PML4 and its first page-directory-pointer table, and
    shares the tables below.  The file proves that the copy is a page tree of its
    own on top of the kernel's, and that it translates every address exactly as the
    kernel does. *)

From stdpp Require Import prelude numbers list strings gmap.
From S2P Require Import Prelude Pmm Paging UserSpace PageTree.
Import Paging UserSpace PageTree.

Module NewSpace.

(** ** Copying a table *)
Lemma copy_entries_other n i m src dst t k :
  dst mod PAGE_SIZE = 0 -> t mod PAGE_SIZE = 0 -> 0 <= i -> i + Z.of_nat n <= 512 -> 0 <= k < 512 -> (t <> dst \/ k < i \/ i + Z.of_nat n <= k) ->
  entry (copy_entries n i m src dst) t k = entry m t k.
Proof.
  intros Hd Ht. revert i m. induction n as [|n IH]; intros i m Hi Hn Hk Hne; [done|]. cbn [copy_entries].
  rewrite IH by (lia || (destruct Hne as [?|[?|?]]; [by left|right; left; lia|right; right; lia])).
  apply entry_set_entry_ne. intros Hs. apply slot_inj in Hs as [-> ->]; [|done..|lia|lia]. destruct Hne as [?|[?|?]]; [done|lia|lia].
Qed.

Lemma copy_entries_copied n i m src dst k :
  dst mod PAGE_SIZE = 0 -> src mod PAGE_SIZE = 0 -> src <> dst -> 0 <= i -> i + Z.of_nat n <= 512 -> i <= k < i + Z.of_nat n ->
  entry (copy_entries n i m src dst) dst k = entry m src k.
Proof.
  intros Hd Hs Hne. revert i m. induction n as [|n IH]; intros i m Hi Hn Hk; [lia|]. cbn [copy_entries]. destruct (decide (k = i)) as [->|].
  - rewrite copy_entries_other by (done || lia). apply entry_set_entry_eq.
  - rewrite IH by lia. apply entry_set_entry_ne. intros Hq. apply slot_inj in Hq as [? _]; [done|done|done|lia|lia].
Qed.

Section New.
Context {A : Type} `{FA : Pmm.FrameAllocator A}.

(** The kernel's tables, under the one PML4 at [K]. *)
Definition kernel_tables (w : world A) (K : Z) (TK : Z -> option (nat * Z)) : Prop :=
  tree (fa w) (mem w) K TK /\ KERNEL_CR3 w = K /\ K <> 0 /\ forall x p, TK x = Some (4%nat, p) -> x = K.

(** The tables of the new space: its own PML4 and first directory pointer table,
    and the kernel's below. *)
Definition shared (K pdpt0 root pdpt : Z) (TK : Z -> option (nat * Z)) (x : Z) : option (nat * Z) :=
  if x =? root then Some (4%nat, 0) else if x =? pdpt then Some (3%nat, 0) else
  if ((x =? K) || (x =? pdpt0))%bool then None else TK x.

(** What [clone_kernel_mapping] leaves: every entry of the two new tables. *)
Record cloned (m : memory) (m' : memory) (K root pdpt : Z) : Prop := {
  cl_first : entry m' root 0 = entry_set pdpt TABLE_FLAGS;
  cl_rest : forall i, 0 < i < 512 -> entry m' root i = entry m K i;
  cl_pdpt : forall i, 0 <= i < 512 -> entry m' pdpt i = entry m (entry_addr (entry m K 0)) i;
  cl_kept : forall t i, frame_addr t -> t <> root -> t <> pdpt -> 0 <= i < 512 -> entry m' t i = entry m t i
}.

Section Cloned.
Variables (a a' : A) (m m' : memory) (K root pdpt : Z) (TK : Z -> option (nat * Z)).
Hypothesis Htr : tree a m K TK.
Hypothesis Huniq : forall x p, TK x = Some (4%nat, p) -> x = K.
Hypothesis Hpresent : is_present (entry m K 0) = true.
Hypothesis Hcl : cloned m m' K root pdpt.
Hypothesis Hfresh : frame_addr root /\ frame_addr pdpt /\ root <> pdpt /\ TK root = None /\ TK pdpt = None.
Hypothesis Hfree : ~ Pmm.fa_free a' root /\ ~ Pmm.fa_free a' pdpt /\ forall b, Pmm.fa_free a' b -> Pmm.fa_free a b.
Let pdpt0 := entry_addr (entry m K 0).
Let T := shared K pdpt0 root pdpt TK.

Lemma pdpt0_level : TK pdpt0 = Some (3%nat, 0).
Proof. apply (tr_child _ _ _ _ Htr K 2 0 0 (tr_root _ _ _ _ Htr)); [lia|done|by right]. Qed.

Lemma shared_old x y : TK x = Some y -> x <> K -> x <> pdpt0 -> T x = Some y.
Proof.
  intros Hx H1 H2. destruct Hfresh as (_ & _ & _ & Hr & Hp). unfold T, shared. rewrite !(proj2 (Z.eqb_neq x _)) by congruence. done.
Qed.

Lemma shared_inv x y : T x = Some y -> x = root /\ y = (4%nat, 0) \/ x = pdpt /\ y = (3%nat, 0) \/
  TK x = Some y /\ x <> K /\ x <> pdpt0 /\ x <> root /\ x <> pdpt.
Proof.
  unfold T, shared. destruct (Z.eqb_spec x root); [intros [= <-]; by left|]. destruct (Z.eqb_spec x pdpt); [intros [= <-]; right; by left|].
  destruct (Z.eqb_spec x K), (Z.eqb_spec x pdpt0); cbn [orb]; try done. intros Hx. right. right. done.
Qed.

(** Children of a kernel table other than the two replaced ones stay. *)
Lemma shared_child t l p i :
  TK t = Some (S (S l), p) -> 0 <= i < 512 -> is_present (entry m t i) = true -> (is_huge (entry m t i) = false \/ S (S l) = 4%nat) ->
  (t = K -> 0 < i) -> T (entry_addr (entry m t i)) = Some (S l, p * 512 + i).
Proof.
  intros Ht Hi Hp Hh Hne. pose proof (tr_child _ _ _ _ Htr t l p i Ht Hi Hp Hh) as Hc. apply shared_old; [done| |].
  - intros E. rewrite E, (tr_root _ _ _ _ Htr) in Hc. injection Hc as <- _. destruct (tr_frame _ _ _ _ Htr _ _ _ Ht) as (_ & _ & ?). lia.
  - intros E. rewrite E, pdpt0_level in Hc. injection Hc as <- Hc. pose proof (Huniq _ _ Ht) as ->. specialize (Hne eq_refl).
    rewrite (tr_root _ _ _ _ Htr) in Ht. injection Ht as Hp0. lia.
Qed.

Lemma cloned_tree : tree a' m' root T.
Proof.
  destruct Hfresh as (Fr & Fp & Hne & Hr & Hp). destruct Hfree as (Nr & Np & Hsub). pose proof (linked_entry pdpt Fp) as (Lp & Lh & La & _).
  split.
  - unfold T, shared. by rewrite Z.eqb_refl.
  - intros t l p Ht. apply shared_inv in Ht as [(-> & [= -> ->])|[(-> & [= -> ->])|(Ht & _)]]; [split_and!; try done; lia..|].
    destruct (tr_frame _ _ _ _ Htr _ _ _ Ht) as (? & ? & ?). split; [done|]. split; [by intros ?%Hsub|done].
  - intros t l p i Ht Hi. apply shared_inv in Ht as [(-> & [= -> ->])|[(-> & [= -> ->])|(Ht & N1 & N2 & N3 & N4)]].
    + destruct (decide (i = 0)) as [->|].
      * rewrite (cl_first _ _ _ _ _ Hcl), La. intros _ _. unfold T, shared. by rewrite (proj2 (Z.eqb_neq pdpt root)), Z.eqb_refl by done.
      * rewrite (cl_rest _ _ _ _ _ Hcl) by lia. intros Hpr _. apply (shared_child K 2 0 i (tr_root _ _ _ _ Htr) Hi Hpr); [by right|lia].
    + rewrite (cl_pdpt _ _ _ _ _ Hcl) by done. fold pdpt0. intros Hpr Hh. apply (shared_child pdpt0 1 0 i pdpt0_level Hi Hpr Hh).
      intros E. pose proof pdpt0_level as H3. rewrite E, (tr_root _ _ _ _ Htr) in H3. done.
    + destruct (tr_frame _ _ _ _ Htr _ _ _ Ht) as (Ft & _). rewrite (cl_kept _ _ _ _ _ Hcl) by done. intros Hpr Hh. by apply shared_child.
Qed.

(** Below the first level the walks are the kernel's. *)
Lemma shared_walk n t v : TK t = Some (n, Z.shiftr v (12 + 9 * Z.of_nat n)) \/ n = O -> t <> root -> t <> pdpt -> (n <= 3)%nat -> 0 <= v ->
  walk n m' t v = walk n m t v /\ (no_huge n m t v -> no_huge n m' t v).
Proof.
  revert t. induction n as [|n IH]; intros t Ht N1 N2 Hn Hv; [done|]. destruct Ht as [Ht|]; [|done]. cbn [walk].
  pose proof (level_index_range (S n) v) as Hi. destruct (tr_frame _ _ _ _ Htr _ _ _ Ht) as (Ft & _).
  assert (E : entry m' t (level_index (S n) v) = entry m t (level_index (S n) v)) by (by apply (cl_kept _ _ _ _ _ Hcl)).
  destruct n as [|n]; [by rewrite E|]. cbn [no_huge]. rewrite E. destruct (is_present (entry m t (level_index (S (S n)) v))) eqn:Ep; [|done]. cbn [negb].
  assert (Hc : (is_huge (entry m t (level_index (S (S n)) v)) = false \/ S (S n) = 4%nat) ->
    walk (S n) m' (entry_addr (entry m t (level_index (S (S n)) v))) v = walk (S n) m (entry_addr (entry m t (level_index (S (S n)) v))) v /\
    (no_huge (S n) m (entry_addr (entry m t (level_index (S (S n)) v))) v -> no_huge (S n) m' (entry_addr (entry m t (level_index (S (S n)) v))) v)).
  { intros Hh. pose proof (tr_child _ _ _ _ Htr t n _ _ Ht Hi Ep Hh) as Hch. rewrite prefix_step in Hch by done.
    destruct Hfresh as (_ & _ & _ & Hr & Hp). apply IH; [by left|congruence|congruence|lia|done]. }
  split.
  - destruct (negb (S (S n) =? 4)%nat && is_huge (entry m t (level_index (S (S n)) v)))%bool eqn:Eh; [done|]. apply Hc. apply andb_false_iff in Eh as [Eh|Eh]; [right|by left].
    by apply negb_false_iff, Nat.eqb_eq in Eh.
  - intros H _. destruct (H eq_refl) as [Hh Hrest]. split; [done|]. by apply Hc.
Qed.

Lemma cloned_walk v : 0 <= v < 2 ^ 48 ->
  walk 4 m' root v = walk 4 m K v /\ (no_huge 4 m K v -> no_huge 4 m' root v).
Proof.
  intros Hv. destruct Hfresh as (Fr & Fp & Hne & Hr & Hp). pose proof (linked_entry pdpt Fp) as (Lp & Lh & La & _).
  pose proof (level_index_range 4 v) as I4. pose proof (level_index_range 3 v) as I3.
  pose proof (tr_root _ _ _ _ Htr) as R. rewrite <- (top_prefix v Hv) in R.
  assert (Hsub : forall i, i = level_index 4 v -> is_present (entry m K i) = true ->
    TK (entry_addr (entry m K i)) = Some (3%nat, Z.shiftr v (12 + 9 * Z.of_nat 3))).
  { intros i -> Hpr. rewrite <- (prefix_step 3 v) by lia. apply (tr_child _ _ _ _ Htr K 2 _ _ R I4 Hpr). by right. }
  cbn [walk]. destruct (decide (level_index 4 v = 0)) as [E0|E0].
  - specialize (Hsub 0 (eq_sym E0) Hpresent). fold pdpt0 in Hsub. cbn [no_huge]. rewrite E0, (cl_first _ _ _ _ _ Hcl), Lp, La, Hpresent.
    cbn [negb Nat.eqb andb]. rewrite (cl_pdpt _ _ _ _ _ Hcl) by done. fold pdpt0.
    set (e := entry m pdpt0 (level_index 3 v)). destruct (is_present e) eqn:Ep; cbn [negb].
    2:{ split; [done|]. intros _ _. split; [by right|done]. }
    assert (Hc : is_huge e = false -> walk 2 m' (entry_addr e) v = walk 2 m (entry_addr e) v /\ (no_huge 2 m (entry_addr e) v -> no_huge 2 m' (entry_addr e) v)).
    { intros Hh. pose proof (tr_child _ _ _ _ Htr pdpt0 1 _ _ Hsub I3 Ep (or_introl Hh)) as Hch. rewrite prefix_step in Hch by lia.
      apply shared_walk; [by left|fold e in Hch; congruence|fold e in Hch; congruence|lia|lia]. }
    split.
    + destruct (is_huge e) eqn:Eh; [done|]. by apply Hc.
    + intros H _. destruct (H eq_refl) as [_ H3]. split; [by right|]. intros _. destruct (H3 eq_refl) as [[Hh|] H2]; [|done]. split; [by left|by apply Hc].
  - rewrite (cl_rest _ _ _ _ _ Hcl) by lia. cbn [no_huge]. rewrite (cl_rest _ _ _ _ _ Hcl) by lia.
    destruct (is_present (entry m K (level_index 4 v))) eqn:Ep; [|done]. cbn [negb Nat.eqb andb].
    specialize (Hsub _ eq_refl Ep).
    destruct (shared_walk 3 (entry_addr (entry m K (level_index 4 v))) v) as [W N]; [by left|congruence|congruence|lia|lia|].
    split; [exact W|]. intros H _. destruct (H eq_refl) as [_ H3]. split; [by right|by apply N].
Qed.

End Cloned.


(** The memory [new] leaves when both tables could be allocated. *)
Lemma cloned_memory m K root pdpt :
  K mod PAGE_SIZE = 0 -> frame_addr root -> frame_addr pdpt -> root <> pdpt -> K <> root -> K <> pdpt ->
  entry_addr (entry m K 0) <> root -> entry_addr (entry m K 0) <> pdpt ->
  cloned m (set_entry (copy_entries 512 0 (zero_frame (copy_entries 512 0 (zero_frame m root) K root) pdpt) (entry_addr (entry m K 0)) pdpt)
    root 0 (entry_set pdpt TABLE_FLAGS)) K root pdpt.
Proof.
  intros HK [_ Hr] [_ Hp] Hne N1 N2 N3 N4. set (p0 := entry_addr (entry m K 0)) in *.
  assert (Hp0 : p0 mod PAGE_SIZE = 0) by apply entry_addr_frame.
  set (m1 := copy_entries 512 0 (zero_frame m root) K root). set (m2 := zero_frame m1 pdpt).
  assert (E1 : forall t i, t mod PAGE_SIZE = 0 -> t <> root -> 0 <= i < 512 -> entry m1 t i = entry m t i).
  { intros t i Ht Hn Hi. unfold m1. rewrite copy_entries_other by (done || lia || (by left)). apply entry_zero_ne; congruence || done. }
  assert (E2 : forall t i, t mod PAGE_SIZE = 0 -> t <> pdpt -> 0 <= i < 512 -> entry m2 t i = entry m1 t i).
  { intros t i Ht Hn Hi. apply entry_zero_ne; congruence || done. }
  assert (E3 : forall t i, t mod PAGE_SIZE = 0 -> t <> pdpt -> 0 <= i < 512 -> entry (copy_entries 512 0 m2 p0 pdpt) t i = entry m2 t i).
  { intros t i Ht Hn Hi. apply copy_entries_other; done || lia || by left. }
  assert (E4 : forall t i e, t mod PAGE_SIZE = 0 -> 0 <= i < 512 -> (t <> root \/ i <> 0) ->
            entry (set_entry (copy_entries 512 0 m2 p0 pdpt) root 0 e) t i = entry (copy_entries 512 0 m2 p0 pdpt) t i).
  { intros t i e Ht Hi Hn. apply entry_set_entry_ne. intros Hs. apply slot_inj in Hs as [-> ->]; [|done..|lia]. by destruct Hn. }
  split.
  - apply entry_set_entry_eq.
  - intros i Hi. rewrite E4 by (done || lia || right; lia). rewrite E3, E2 by (done || lia). unfold m1.
    rewrite copy_entries_copied by (done || lia). apply entry_zero_ne; congruence || lia || done.
  - intros i Hi. rewrite E4 by (done || lia || by left). rewrite copy_entries_copied by (done || lia). rewrite E2, E1 by done. done.
  - intros t i [_ Ht] H1 H2 Hi. rewrite E4 by (done || by left). by rewrite E3, E2, E1.
Qed.

#[local] Opaque copy_entries zero_frame.

(** The two tables of a new space: taken from the free frames, one copied from the
    kernel's PML4 and the other from its first directory pointer table. *)
Record fresh_copy (w : world A) (K : Z) (TK : Z -> option (nat * Z)) (w' : world A) (root pdpt : Z) : Prop := {
  fc_cloned : cloned (mem w) (mem w') K root pdpt;
  fc_fresh : frame_addr root /\ frame_addr pdpt /\ root <> pdpt /\ TK root = None /\ TK pdpt = None;
  fc_taken : Pmm.fa_free (fa w) root /\ Pmm.fa_free (fa w) pdpt;
  fc_free : forall b, Pmm.fa_free (fa w') b <-> Pmm.fa_free (fa w) b /\ b <> root /\ b <> pdpt
}.

Lemma new_copies (w : world A) K TK :
  Pmm.fa_wf (fa w) -> kernel_tables w K TK -> is_present (entry (mem w) K 0) = true ->
  exists r w', new w = (r, w') /\ Pmm.fa_wf (fa w') /\ KERNEL_CR3 w' = KERNEL_CR3 w /\ active_cr3 w' = active_cr3 w /\
  match r with
  | None => True
  | Some s => exists pdpt, s = mkSpace (pml4 s) [pml4 s; pdpt] [] MMAP_BASE_START DEFAULT_USER_HEAP_START DEFAULT_USER_HEAP_START /\ fresh_copy w K TK w' (pml4 s) pdpt
  end.
Proof.
  intros Hwf (Htr & HK & HK0 & Huniq) Hpres. unfold new, alloc_page_table at 1, allocate_frame.
  destruct (Pmm.fa_alloc (fa w)) as [[root|] a1] eqn:E1.
  2:{ destruct (Pmm.fa_alloc_None _ _ Hwf E1) as [-> _]. by eexists _, _. }
  destruct (tree_alloc _ _ _ _ _ _ Hwf Htr E1) as (Hwf1 & Htr1 & (Fr & Tr & Nr) & Fr0 & Sub1).
  unfold clone_kernel_mapping. cbn [KERNEL_CR3 set_mem set_fa mem]. rewrite HK, (proj2 (Z.eqb_neq K 0)) by done. cbn [negb].
  destruct (tr_frame _ _ _ _ Htr _ _ _ (tr_root _ _ _ _ Htr)) as ([HKr HKm] & HKf & _).
  assert (HKroot : K <> root) by congruence.
  assert (EK : entry (copy_entries 512 0 (zero_frame (mem w) root) K root) K 0 = entry (mem w) K 0).
  { rewrite copy_entries_other by (apply Fr || done || lia || by left). apply entry_zero_ne; [apply Fr|done|congruence|lia]. }
  rewrite EK, Hpres. unfold alloc_page_table, allocate_frame. cbn [fa set_mem set_fa mem].
  destruct (Pmm.fa_alloc a1) as [[pdpt|] a2] eqn:E2.
  2:{ destruct (Pmm.fa_alloc_None _ _ Hwf1 E2) as [-> _]. cbv beta iota zeta.
      match goal with |- exists r w', (?x, ?y) = _ /\ _ => exists x, y end. split; [exact eq_refl|]. split; [exact Hwf1|]. split; [exact HK|]. split; [exact eq_refl|exact I]. }
  destruct (tree_alloc _ _ _ _ _ _ Hwf1 Htr1 E2) as (Hwf2 & _ & (Fp & Tp & Np) & Fp0 & Sub2).
  assert (Hne : root <> pdpt) by (intros <-; exact (Nr Fp0)).
  pose proof (pdpt0_level (fa w) (mem w) K TK Htr Hpres) as H3.
  assert (HKp : K <> pdpt) by (intros <-; rewrite (tr_root _ _ _ _ Htr) in Tp; discriminate Tp).
  assert (H0r : entry_addr (entry (mem w) K 0) <> root) by (intros <-; rewrite H3 in Tr; discriminate Tr).
  assert (H0p : entry_addr (entry (mem w) K 0) <> pdpt) by (intros <-; rewrite H3 in Tp; discriminate Tp).
  cbv beta iota zeta. match goal with |- exists r w', (?x, ?y) = _ /\ _ => exists x, y end.
  split; [exact eq_refl|]. split; [exact Hwf2|]. split; [exact HK|]. split; [exact eq_refl|]. cbn [pml4 fa mem set_mem set_fa].
  exists pdpt. split; [exact eq_refl|]. split; cbn [mem fa set_mem set_fa].
  - exact (cloned_memory (mem w) K root pdpt HKm Fr Fp Hne HKroot HKp H0r H0p).
  - exact (conj Fr (conj Fp (conj Hne (conj Tr Tp)))).
  - exact (conj Fr0 (proj1 (proj1 (Sub1 _) Fp0))).
  - intros b. rewrite Sub2, Sub1. tauto.
Qed.

Lemma fresh_unused w K TK w' root pdpt : fresh_copy w K TK w' root pdpt -> ~ Pmm.fa_free (fa w') root /\ ~ Pmm.fa_free (fa w') pdpt /\ forall b, Pmm.fa_free (fa w') b -> Pmm.fa_free (fa w) b.
Proof. intros F. split_and!; [| |intros b]; rewrite (fc_free _ _ _ _ _ _ F); tauto. Qed.

Lemma fresh_tree w K TK w' root pdpt : kernel_tables w K TK -> is_present (entry (mem w) K 0) = true -> fresh_copy w K TK w' root pdpt ->
  tree (fa w') (mem w') root (shared K (entry_addr (entry (mem w) K 0)) root pdpt TK).
Proof. intros (Htr & _ & _ & Huniq) Hpres F. eapply (cloned_tree (fa w) (fa w') (mem w)); eauto using fc_cloned, fc_fresh, fresh_unused. Qed.

Lemma new_spec (w : world A) K TK :
  Pmm.fa_wf (fa w) -> kernel_tables w K TK -> is_present (entry (mem w) K 0) = true ->
  exists r w', new w = (r, w') /\ Pmm.fa_wf (fa w') /\
  match r with
  | None => True
  | Some s => vmas s = [] /\ exists T, tree (fa w') (mem w') (pml4 s) T /\ data_kept w w' TK T /\
      forall v, 0 <= v < 2 ^ 48 -> walk 4 (mem w') (pml4 s) v = walk 4 (mem w) K v /\
        (no_huge 4 (mem w) K v -> no_huge 4 (mem w') (pml4 s) v)
  end.
Proof.
  intros Hwf Hk Hpres. destruct (new_copies w K TK Hwf Hk Hpres) as (r & w' & E & Hwf' & _ & _ & Hr). exists r, w'. split; [done|]. split; [done|].
  destruct r as [s|]; [|done]. destruct Hr as (pdpt & Es & F). split; [by rewrite Es|]. pose proof (fresh_tree _ _ _ _ _ _ Hk Hpres F) as Ht. eexists. split; [exact Ht|].
  destruct F as [Hcl Hfr [Fr0 Fp0] Hfree]. split.
  - intros g (Hg & HgT & Hgf). assert (Gr : g <> pml4 s) by (by intros ->). assert (Gp : g <> pdpt) by (by intros ->).
    split; [split; [exact Hg|]; split|].
    + unfold shared. rewrite (proj2 (Z.eqb_neq g (pml4 s)) Gr), (proj2 (Z.eqb_neq g pdpt) Gp), HgT. by destruct (_ || _)%bool.
    + rewrite Hfree. tauto.
    + intros k Hk'. exact (cl_kept _ _ _ _ _ Hcl g k Hg Gr Gp Hk').
  - destruct Hk as (Htr & _). intros v Hv. exact (cloned_walk (fa w) (mem w) _ K (pml4 s) pdpt TK Htr Hpres Hcl Hfr v Hv).
Qed.

(** A new address space is the kernel's: on kernel tables that form a tree
    and map low memory, [AddressSpace::new] returns; when it succeeds, every
    48-bit address translates through the new tables exactly as through the
    kernel's, the new space has no areas, its tables form a tree of their own over
    the shared ones, and no data frame changed. *)
Theorem new_space_maps_kernel (w : world A) K TK :
  Pmm.fa_wf (fa w) -> kernel_tables w K TK -> is_present (entry (mem w) K 0) = true ->
  exists r w', new w = (r, w') /\ Pmm.fa_wf (fa w') /\
  match r with
  | None => True
  | Some s => vmas s = [] /\
      (forall v, 0 <= v < 2 ^ 48 -> virt_to_phys (mem w') (pml4 s) v = virt_to_phys (mem w) K v) /\
      exists T, tree (fa w') (mem w') (pml4 s) T /\ data_kept w w' TK T
  end.
Proof.
  intros Hwf Hk Hp. destruct (new_spec w K TK Hwf Hk Hp) as (r & w' & E & Hwf' & Hr). exists r, w'. split; [done|]. split; [done|].
  destruct r as [s|]; [|done]. destruct Hr as (Hv & T & Ht & Hd & Hw). split; [done|]. split; [|by exists T].
  intros v Hv48. rewrite !virt_to_phys_walk. by apply Hw.
Qed.

End New.

(** *** Witness: a kernel that maps its first gigabyte with one large page *)
Definition kernel_mem : memory := fun x =>
  if x =? 0x1000 then entry_set 0x2000 TABLE_FLAGS else
  if x =? 0x2000 then entry_set 0 (Z.lor TABLE_FLAGS HUGE_PAGE) else 0.
Definition kernel_world : world Pmm.Pmm := mkWorld demo_pmm kernel_mem 0x1000 0x1000.
Definition kernel_tree (x : Z) : option (nat * Z) :=
  if x =? 0x1000 then Some (4%nat, 0) else if x =? 0x2000 then Some (3%nat, 0) else None.

Lemma kernel_entry t i : t mod PAGE_SIZE = 0 -> 0 <= i < 512 -> entry kernel_mem t i =
  if decide (t = 0x1000 /\ i = 0) then entry_set 0x2000 TABLE_FLAGS else
  if decide (t = 0x2000 /\ i = 0) then entry_set 0 (Z.lor TABLE_FLAGS HUGE_PAGE) else 0.
Proof.
  intros Ht Hi. unfold entry, read_word, kernel_mem. assert (H1 : slot t i = slot 0x1000 0 <-> t = 0x1000 /\ i = 0).
  { split; [intros H; apply slot_inj in H; done || lia|by intros [-> ->]]. }
  assert (H2 : slot t i = slot 0x2000 0 <-> t = 0x2000 /\ i = 0).
  { split; [intros H; apply slot_inj in H; done || lia|by intros [-> ->]]. }
  change (slot 0x1000 0) with 0x1000 in H1. change (slot 0x2000 0) with 0x2000 in H2.
  destruct (Z.eqb_spec (slot t i) 0x1000); [rewrite decide_True by tauto; done|]. rewrite (decide_False (P := t = 0x1000 /\ i = 0)) by tauto.
  destruct (Z.eqb_spec (slot t i) 0x2000); [rewrite decide_True by tauto; done|]. by rewrite decide_False by tauto.
Qed.

Lemma kernel_tables_ok : kernel_tables kernel_world 0x1000 kernel_tree.
Proof.
  split; [|split; [done|split; [done|]]].
  - split; [done| |].
    + intros t l q. unfold kernel_tree. destruct (Z.eqb_spec t 0x1000) as [->|]; [|destruct (Z.eqb_spec t 0x2000) as [->|]; [|done]]; intros [= <- <-];
        (split; [split; [lia|done]|]; split; [|lia]; intros [[H _] _]; unfold Pmm.PMM_BASE in H; lia).
    + intros t l q i Ht Hi. cbn [mem kernel_world]. assert (Ht0 : t = 0x1000 \/ t = 0x2000).
      { unfold kernel_tree in Ht. destruct (Z.eqb_spec t 0x1000); [by left|]. destruct (Z.eqb_spec t 0x2000); [by right|done]. }
      rewrite kernel_entry by (done || by destruct Ht0 as [->| ->]). destruct (decide (t = 0x1000 /\ i = 0)) as [[-> ->]|].
      * injection Ht as <- <-. intros _ _. reflexivity.
      * destruct (decide (t = 0x2000 /\ i = 0)) as [[-> ->]|]; [|done]. injection Ht as <- <-. intros _ [H|H]; done.
  - intros x p. unfold kernel_tree. destruct (Z.eqb_spec x 0x1000); [done|]. by destruct (x =? 0x2000).
Qed.

Lemma new_space_maps_kernel_witness :
  exists r w', new kernel_world = (r, w') /\ Pmm.fa_wf (fa w') /\
  match r with
  | None => True
  | Some s => vmas s = [] /\
      (forall v, 0 <= v < 2 ^ 48 -> virt_to_phys (mem w') (pml4 s) v = virt_to_phys (mem kernel_world) 0x1000 v) /\
      exists T, tree (fa w') (mem w') (pml4 s) T /\ data_kept kernel_world w' kernel_tree T
  end.
Proof. apply new_space_maps_kernel; [apply demo_wf|apply kernel_tables_ok|vm_compute; reflexivity]. Defined.

End NewSpace.
