(* ===== verification/Ipc.v ===== *)
(** * Message passing between processes (src/src/task/ipc.rs)

    [Message], the router with one bounded mailbox per process, and its
    operations.  The theorems relate every run of the router to the sequences of
    messages sent to and delivered to each process: bounded FIFO channels that
    neither lose, duplicate nor reorder what they accepted. *)

From stdpp Require Import prelude numbers list gmap.
From S2P Require Import Prelude.

Module Ipc.

Definition IPC_PAYLOAD_MAX : Z := 64.
Definition MAILBOX_CAPACITY : Z := 32.

Record Message := mkMessage {
  sender : Z;
  target : Z;
  msg_type : Z;
  payload : list Z;
  length_ : Z
}.

Definition empty : Message := mkMessage 0 0 0 (replicate (Z.to_nat IPC_PAYLOAD_MAX) 0) 0.

(** [dst[..n].copy_from_slice(&src[..n])] on arrays long enough. *)
Fixpoint copy_prefix (n : nat) (dst src : list Z) : list Z :=
  match n, dst, src with
  | S n', _ :: dst', x :: src' => x :: copy_prefix n' dst' src'
  | _, _, _ => dst
  end.

(** [Message::new]; [length as u32] cannot wrap since it is at most 64. *)
Definition message_new (sender target msg_type : Z) (data : list Z) : Message :=
  let zeroed := replicate (Z.to_nat IPC_PAYLOAD_MAX) 0 in
  let len := Z.min (Z.of_nat (length data)) IPC_PAYLOAD_MAX in
  mkMessage sender target msg_type (copy_prefix (Z.to_nat len) zeroed data) len.

Record IpcRouter := mkRouter {
  mailboxes : gmap Z (list Message);
  total_sent : Z;
  total_delivered : Z
}.

Definition new : IpcRouter := mkRouter ∅ 0 0.

(** The mailbox of [pid], and the router in which it exists. *)
Definition get_or_create_mailbox (r : IpcRouter) (pid : Z) : list Message * IpcRouter :=
  match mailboxes r !! pid with
  | Some q => (q, r)
  | None => ([], mkRouter (<[pid := []]> (mailboxes r)) (total_sent r) (total_delivered r))
  end.

Definition send (r : IpcRouter) (msg : Message) : bool * IpcRouter :=
  let '(mailbox, r1) := get_or_create_mailbox r (target msg) in
  if MAILBOX_CAPACITY <=? Z.of_nat (length mailbox) then (false, r1)
  else (true, mkRouter (<[target msg := mailbox ++ [msg]]> (mailboxes r1)) (u64_add (total_sent r1) 1) (total_delivered r1)).

Definition receive (r : IpcRouter) (my_pid : Z) : option Message * IpcRouter :=
  match mailboxes r !! my_pid with
  | Some [] => (None, r)
  | Some (m :: q) => (Some m, mkRouter (<[my_pid := q]> (mailboxes r)) (total_sent r) (u64_add (total_delivered r) 1))
  | None => (None, r)
  end.

Definition pending_count (r : IpcRouter) (pid : Z) : Z :=
  from_option (fun q => Z.of_nat (length q)) 0 (mailboxes r !! pid).

Definition active_mailboxes (r : IpcRouter) : Z := Z.of_nat (size (mailboxes r)).

(** The functions on the global router; each runs under its spinlock. *)
Definition send_message (r : IpcRouter) (sender target msg_type : Z) (data : list Z) : bool * IpcRouter :=
  send r (message_new sender target msg_type data).
Definition receive_message (r : IpcRouter) (my_pid : Z) : option Message * IpcRouter := receive r my_pid.
Definition stats (r : IpcRouter) : Z * Z * Z := (total_sent r, total_delivered r, active_mailboxes r).

(** ** Specification: one bounded queue per process

    The abstract state gives each process the queue of messages it has not
    received; mailboxes that do not exist are empty queues. *)
Definition channels := Z -> list Message.

Definition queue_of (r : IpcRouter) : channels := fun pid => default [] (mailboxes r !! pid).

(** A call and what it answered. *)
Inductive event :=
  | Sent (m : Message) (ok : bool)
  | Received (pid : Z) (m : option Message).

(** What the specification allows: a send is refused exactly when the queue holds
    [MAILBOX_CAPACITY] messages, a receive answers the oldest message. *)
Inductive spec_step (c : channels) : event -> channels -> Prop :=
  | spec_send m :
      Z.of_nat (length (c (target m))) < MAILBOX_CAPACITY ->
      spec_step c (Sent m true) (fun p => if decide (p = target m) then c p ++ [m] else c p)
  | spec_full m :
      Z.of_nat (length (c (target m))) = MAILBOX_CAPACITY -> spec_step c (Sent m false) c
  | spec_receive pid m q :
      c pid = m :: q ->
      spec_step c (Received pid (Some m)) (fun p => if decide (p = pid) then q else c p)
  | spec_none pid : c pid = [] -> spec_step c (Received pid None) c.

(** One call on the router. *)
Inductive call := Send (m : Message) | Receive (pid : Z).

Definition perform (r : IpcRouter) (c : call) : event * IpcRouter :=
  match c with
  | Send m => let '(ok, r') := send r m in (Sent m ok, r')
  | Receive pid => let '(o, r') := receive r pid in (Received pid o, r')
  end.

Fixpoint run (r : IpcRouter) (cs : list call) : list event * IpcRouter :=
  match cs with
  | [] => ([], r)
  | c :: cs' =>
      let '(e, r1) := perform r c in
      let '(es, r2) := run r1 cs' in (e :: es, r2)
  end.

(** Messages accepted for [pid] and messages delivered to [pid], in order. *)
Definition accepted (pid : Z) (es : list event) : list Message :=
  omap (fun e => match e with Sent m true => if decide (target m = pid) then Some m else None | _ => None end) es.
Definition delivered (pid : Z) (es : list event) : list Message :=
  omap (fun e => match e with Received p (Some m) => if decide (p = pid) then Some m else None | _ => None end) es.

Definition count_sent (es : list event) : Z :=
  Z.of_nat (length (List.filter (fun e => match e with Sent _ ok => ok | _ => false end) es)).
Definition count_delivered (es : list event) : Z :=
  Z.of_nat (length (List.filter (fun e => match e with Received _ (Some _) => true | _ => false end) es)).

(** No mailbox exceeds its capacity. *)
Definition bounded (r : IpcRouter) : Prop := forall pid, Z.of_nat (length (queue_of r pid)) <= MAILBOX_CAPACITY.

Lemma queue_insert r pid q s d p :
  queue_of (mkRouter (<[pid := q]> (mailboxes r)) s d) p = if decide (p = pid) then q else queue_of r p.
Proof.
  unfold queue_of. cbn [mailboxes]. destruct (decide (p = pid)) as [->|]; [by rewrite lookup_insert_eq|].
  by rewrite lookup_insert_ne.
Qed.

(** Opening a mailbox does not change any queue. *)
Lemma get_or_create_queue r pid q r1 :
  get_or_create_mailbox r pid = (q, r1) ->
  q = queue_of r pid /\ (forall p, queue_of r1 p = queue_of r p) /\
  total_sent r1 = total_sent r /\ total_delivered r1 = total_delivered r.
Proof.
  unfold get_or_create_mailbox. destruct (mailboxes r !! pid) as [q'|] eqn:E; intros [= <- <-].
  - split_and!; try done. unfold queue_of. by rewrite E.
  - split_and!; try done; [unfold queue_of; by rewrite E|]. intros p. rewrite queue_insert.
    destruct (decide (p = pid)) as [->|]; [|done]. unfold queue_of. by rewrite E.
Qed.

Lemma perform_spec r c e r' :
  bounded r -> perform r c = (e, r') ->
  exists ch, spec_step (queue_of r) e ch /\ (forall p, queue_of r' p = ch p) /\ bounded r'.
Proof.
  intros Hb. destruct c as [m|pid]; cbn [perform].
  - unfold send. destruct (get_or_create_mailbox r (target m)) as [q r1] eqn:E.
    destruct (get_or_create_queue _ _ _ _ E) as (-> & Hq & _). specialize (Hb (target m)) as Hbm.
    destruct (Z.leb_spec MAILBOX_CAPACITY (Z.of_nat (length (queue_of r (target m))))); intros [= <- <-].
    + exists (queue_of r). split; [constructor; lia|]. split; [done|]. intros p. rewrite Hq. apply Hb.
    + eexists. split; [by constructor|].
      assert (Heq : forall p, queue_of (mkRouter (<[target m:=queue_of r (target m) ++ [m]]> (mailboxes r1))
        (u64_add (total_sent r1) 1) (total_delivered r1)) p = if decide (p = target m) then queue_of r p ++ [m] else queue_of r p).
      { intros p. rewrite queue_insert, Hq. by destruct (decide (p = target m)) as [->|]. }
      split; [done|]. intros p. rewrite Heq. destruct (decide (p = target m)) as [->|]; [|apply Hb].
      rewrite length_app. cbn. lia.
  - unfold receive. destruct (mailboxes r !! pid) as [[|m q]|] eqn:E; intros [= <- <-].
    + exists (queue_of r). split; [constructor; unfold queue_of; by rewrite E|done].
    + assert (Hc : queue_of r pid = m :: q) by (unfold queue_of; by rewrite E).
      eexists. split; [by econstructor|]. split; [intros p; apply queue_insert|].
      intros p. rewrite queue_insert. destruct (decide (p = pid)) as [->|]; [|apply Hb].
      specialize (Hb pid). rewrite Hc in Hb. cbn in Hb. lia.
    + exists (queue_of r). split; [constructor; unfold queue_of; by rewrite E|done].
Qed.

Lemma bounded_new : bounded new.
Proof. intros p. unfold queue_of. cbn [mailboxes new]. rewrite lookup_empty. done. Qed.

(** The counters follow the events, modulo 2^64. *)
Lemma perform_counts r c e r' :
  perform r c = (e, r') ->
  total_sent r' = (if match e with Sent _ ok => ok | _ => false end then u64_add (total_sent r) 1 else total_sent r) /\
  total_delivered r' =
    (if match e with Received _ (Some _) => true | _ => false end then u64_add (total_delivered r) 1 else total_delivered r).
Proof.
  destruct c as [m|pid]; cbn [perform].
  - unfold send. destruct (get_or_create_mailbox r (target m)) as [q r1] eqn:E.
    destruct (get_or_create_queue _ _ _ _ E) as (_ & _ & <- & <-). destruct (_ <=? _); by intros [= <- <-].
  - unfold receive. destruct (mailboxes r !! pid) as [[|m q]|]; by intros [= <- <-].
Qed.

(** One step moves a message from the front of "queue, then accepted" to the end
    of "delivered" or extends the former. *)
Lemma spec_step_history c e ch pid :
  spec_step c e ch -> c pid ++ accepted pid [e] = delivered pid [e] ++ ch pid.
Proof.
  intros H. destruct H; cbn; repeat case_decide; subst; rewrite ?app_nil_r; auto; congruence.
Qed.

Lemma run_history cs : forall r es r' pid,
  bounded r -> run r cs = (es, r') ->
  queue_of r pid ++ accepted pid es = delivered pid es ++ queue_of r' pid /\ bounded r'.
Proof.
  induction cs as [|c cs IH]; intros r es r' pid Hb; cbn [run]; [intros [= <- <-]; by rewrite app_nil_r|].
  destruct (perform r c) as [e r1] eqn:E. destruct (run r1 cs) as [es1 r2] eqn:E2. intros [= <- <-].
  destruct (perform_spec r c e r1 Hb E) as (ch & Hs & Hq & Hb1). destruct (IH r1 es1 r2 pid Hb1 E2) as [IH1 IH2].
  split; [|done]. pose proof (spec_step_history _ _ _ pid Hs) as Hh. rewrite <- Hq in Hh.
  change (e :: es1) with ([e] ++ es1). unfold accepted, delivered in *. rewrite !omap_app.
  by rewrite app_assoc, Hh, <- app_assoc, IH1, app_assoc.
Qed.

Lemma run_counts cs : forall r es r',
  run r cs = (es, r') -> in_u 64 (total_sent r) -> in_u 64 (total_delivered r) ->
  total_sent r' = wrap 64 (total_sent r + count_sent es) /\
  total_delivered r' = wrap 64 (total_delivered r + count_delivered es).
Proof.
  induction cs as [|c cs IH]; intros r es r'; cbn [run].
  { intros [= <- <-] H1 H2. unfold count_sent, count_delivered. cbn. rewrite !Z.add_0_r. by rewrite !wrap_small. }
  destruct (perform r c) as [e r1] eqn:E. destruct (run r1 cs) as [es1 r2] eqn:E2. intros [= <- <-] H1 H2.
  destruct (perform_counts _ _ _ _ E) as [Hs Hd].
  destruct (IH r1 es1 r2 E2) as [IH1 IH2]; [rewrite Hs; by destruct (match e with Sent _ ok => ok | _ => false end); auto using in_u_add|
    rewrite Hd; by destruct (match e with Received _ (Some _) => true | _ => false end); auto using in_u_add|].
  rewrite IH1, IH2, Hs, Hd. unfold count_sent, count_delivered, u64_add, wrap. cbn [List.filter].
  split; [destruct e as [? []|? ?]|destruct e as [? ?|? []]]; cbn [length]; try done;
    rewrite Zplus_mod_idemp_l; f_equal; lia.
Qed.

(** Refinement.  Every operation of the router is a step of the bounded-queue
    specification, up to the invisible set of mailboxes that exist, and no mailbox
    ever exceeds its capacity. *)
Theorem router_refines_queues r c e r' :
  bounded r -> perform r c = (e, r') ->
  exists ch, spec_step (queue_of r) e ch /\ (forall p, queue_of r' p = ch p) /\ bounded r'.
Proof. apply perform_spec. Qed.

(** C27: reliable FIFO delivery.  In every run from the empty router, for every
    process, the messages accepted for it are exactly those delivered to it
    followed by those still pending, in the same order; the counters reported by
    [stats] are the numbers of accepted and delivered messages modulo 2^64. *)
Theorem fifo_delivery cs es r pid :
  run new cs = (es, r) ->
  accepted pid es = delivered pid es ++ queue_of r pid /\
  pending_count r pid = Z.of_nat (length (queue_of r pid)) /\ pending_count r pid <= MAILBOX_CAPACITY /\
  (stats r).1 = (wrap 64 (count_sent es), wrap 64 (count_delivered es)).
Proof.
  intros H. pose proof bounded_new as Hb.
  destruct (run_history cs new es r pid Hb H) as [Hh Hbr].
  destruct (run_counts cs new es r H) as [Hs Hd]; [done..|].
  split; [exact Hh|]. assert (Hp : pending_count r pid = Z.of_nat (length (queue_of r pid))).
  { unfold pending_count, queue_of. by destruct (mailboxes r !! pid). }
  split; [done|]. split; [rewrite Hp; apply Hbr|]. unfold stats. cbn. by rewrite Hs, Hd.
Qed.

Lemma copy_prefix_spec n dst src :
  (n <= length dst)%nat -> (n <= length src)%nat -> copy_prefix n dst src = take n src ++ drop n dst.
Proof.
  revert dst src. induction n as [|n IH]; intros [|d dst] [|x src]; cbn; try done; try lia.
  intros. rewrite IH by lia. done.
Qed.

(** The payload.  [Message::new] keeps the first 64 bytes of the data,
    pads with zeroes to 64 bytes, and records how many bytes are data. *)
Theorem message_new_payload snd tgt ty data :
  let m := message_new snd tgt ty data in
  length (payload m) = Z.to_nat IPC_PAYLOAD_MAX /\
  0 <= length_ m <= IPC_PAYLOAD_MAX /\
  take (Z.to_nat (length_ m)) (payload m) = take (Z.to_nat IPC_PAYLOAD_MAX) data /\
  (forall i, (Z.to_nat (length_ m) <= i < Z.to_nat IPC_PAYLOAD_MAX)%nat -> payload m !! i = Some 0) /\
  (Z.of_nat (length data) <= IPC_PAYLOAD_MAX -> take (Z.to_nat (length_ m)) (payload m) = data).
Proof.
  cbv zeta. unfold message_new. cbn [payload length_]. unfold IPC_PAYLOAD_MAX.
  set (n := Z.to_nat (Z.min (Z.of_nat (length data)) 64)).
  assert (Hn : n = Nat.min (length data) 64) by lia.
  rewrite copy_prefix_spec by (rewrite ?length_replicate; lia).
  assert (Hl : length (take n data) = n) by (rewrite length_take; lia).
  assert (Ht : take n (take n data ++ drop n (replicate (Z.to_nat 64) 0)) = take (Z.to_nat 64) data).
  { rewrite take_app_length' by done. destruct (Nat.le_gt_cases 64 (length data)); [f_equal; lia|].
    rewrite !take_ge by lia. done. }
  split_and!; try lia.
  - rewrite length_app, Hl, length_drop, length_replicate. lia.
  - exact Ht.
  - intros i Hi. rewrite lookup_app_r by lia. rewrite Hl, lookup_drop. apply lookup_replicate. lia.
  - intros Hd. rewrite Ht, take_ge by lia. done.
Qed.

(** ** Witnesses *)
Definition msg1 : Message := message_new 1 7 0 [104; 105].
Definition msg2 : Message := message_new 2 7 0 [111; 107].

Lemma router_refines_queues_witness :
  exists ch, spec_step (queue_of new) (Sent msg1 true) ch /\ ch 7 = [msg1].
Proof.
  destruct (router_refines_queues new (Send msg1) (Sent msg1 true) (perform new (Send msg1)).2) as (ch & Hs & Hq & _).
  - apply bounded_new.
  - reflexivity.
  - exists ch. split; [exact Hs|]. rewrite <- Hq. reflexivity.
Defined.

Lemma fifo_delivery_witness :
  accepted 7 (run new [Send msg1; Send msg2; Receive 7]).1 = [msg1] ++ [msg2].
Proof.
  refine (proj1 (fifo_delivery [Send msg1; Send msg2; Receive 7] (run new [Send msg1; Send msg2; Receive 7]).1
    (run new [Send msg1; Send msg2; Receive 7]).2 7 _)). vm_compute. reflexivity.
Defined.

End Ipc.
