(* ===== verification/Context.v ===== *)
(** * Context switching (src/src/task/mod.rs: [switch_context], the initial frames
    built by [Task::new] and [Task::new_user])

    The assembly routine as pushes and pops on a word-addressed memory, and the
    72-byte frame a task is created with. *)

From stdpp Require Import prelude numbers list.
From S2P Require Import Prelude Paging.
Import Paging.

Module Context.

(** The registers the routine saves, with the stack and instruction pointers. *)
Record cpu := mkCpu {
  r15 : Z; r14 : Z; r13 : Z; r12 : Z; rbx : Z; rbp : Z; rflags : Z;
  rsp : Z;
  rip : Z
}.

(** [push]: the stack grows down by eight bytes. *)
Definition push (st : Z * memory) (v : Z) : Z * memory :=
  let '(sp, m) := st in let sp' := u64_sub sp 8 in (sp', write_word m sp' v).

(** [pop]: the word and the stack pointer above it. *)
Definition pop (sp : Z) (m : memory) : Z * Z := (read_word m sp, u64_add sp 8).

(** [switch_context], entered by a [call] whose return address is the [rip] of the
    caller.  Answers the context that runs afterwards, the memory, and the stack
    pointer stored through [old_rsp]. *)
Definition switch_context (c : cpu) (m : memory) (new_rsp : Z) : cpu * memory * Z :=
  let st := push (rsp c, m) (rip c) in
  let st := push st (rflags c) in
  let st := push st (rbp c) in
  let st := push st (rbx c) in
  let st := push st (r12 c) in
  let st := push st (r13 c) in
  let st := push st (r14 c) in
  let st := push st (r15 c) in
  let '(old_rsp, m) := st in
  let sp := new_rsp in
  let '(v15, sp) := pop sp m in
  let '(v14, sp) := pop sp m in
  let '(v13, sp) := pop sp m in
  let '(v12, sp) := pop sp m in
  let '(vbx, sp) := pop sp m in
  let '(vbp, sp) := pop sp m in
  let '(vfl, sp) := pop sp m in
  let '(vip, sp) := pop sp m in
  (mkCpu v15 v14 v13 v12 vbx vbp vfl sp vip, m, old_rsp).

Definition STACK_SIZE : Z := 16 * 1024.

(** [(stack_top & !0xF) - 8] *)
Definition aligned_top (stack_top : Z) : Z := u64_sub (Z.land stack_top (u64_not 0xF)) 8.

(** The frame written below [aligned_top]: nine words, the entry point in the
    place of the return address. *)
Definition init_frame (m : memory) (stack_top entry : Z) : memory * Z :=
  let frame_ptr := u64_sub (aligned_top stack_top) 72 in
  let w m i v := write_word m (u64_add frame_ptr (8 * i)) v in
  let m := w m 8 0 in
  let m := w m 7 entry in
  let m := w m 6 0x202 in
  let m := w m 5 0 in
  let m := w m 4 0 in
  let m := w m 3 0 in
  let m := w m 2 0 in
  let m := w m 1 0 in
  let m := w m 0 0 in
  (m, frame_ptr).

(** ** Reading a saved frame *)

(** The eight words of a saved context at [sp]. *)
Definition saved_at (m : memory) (sp : Z) (c : cpu) : Prop :=
  read_word m sp = r15 c /\ read_word m (sp + 8) = r14 c /\ read_word m (sp + 16) = r13 c /\
  read_word m (sp + 24) = r12 c /\ read_word m (sp + 32) = rbx c /\ read_word m (sp + 40) = rbp c /\
  read_word m (sp + 48) = rflags c /\ read_word m (sp + 56) = rip c.

Lemma push_eq sp m v : 8 <= sp < 2 ^ 64 -> push (sp, m) v = (sp - 8, write_word m (sp - 8) v).
Proof. intros H. unfold push. by rewrite u64_sub_small by lia. Qed.

Lemma pop_eq sp m : 0 <= sp -> sp + 8 < 2 ^ 64 -> pop sp m = (read_word m sp, sp + 8).
Proof. intros H H2. unfold pop. by rewrite u64_add_small by lia. Qed.

(** Reads through a chain of writes at known addresses. *)
Ltac read_back :=
  unfold read_word, write_word;
  repeat (match goal with |- context [?x =? ?y] => destruct (Z.eqb_spec x y) as [?|?] end; [try done; lia|]);
  try done; try lia.

(** Leaving a context saves it below its stack pointer; the words from the stack
    pointer up, and everything below the frame, are kept. *)
Lemma switch_saves c m new c' m' old :
  64 <= rsp c < 2 ^ 64 -> switch_context c m new = (c', m', old) ->
  old = rsp c - 64 /\ saved_at m' old c /\
  (forall x, x < rsp c - 64 \/ rsp c <= x -> read_word m' x = read_word m x).
Proof.
  intros Hr. unfold switch_context. cbv zeta. rewrite !push_eq by lia. unfold pop. intros [= _ <- <-].
  split; [lia|]. split.
  - unfold saved_at. split_and!; read_back.
  - intros x Hx. read_back.
Qed.

(** Entering a saved context restores it, with the frame popped. *)
Lemma switch_restores d m c sp c' m' old :
  switch_context d m sp = (c', m', old) -> saved_at m' sp c -> 0 <= sp -> sp + 64 < 2 ^ 64 ->
  c' = mkCpu (r15 c) (r14 c) (r13 c) (r12 c) (rbx c) (rbp c) (rflags c) (sp + 64) (rip c).
Proof.
  intros H (H0 & H1 & H2 & H3 & H4 & H5 & H6 & H7) Hs Hs2. revert H. unfold switch_context. cbv zeta.
  destruct (push _ (r15 d)) as [sp' m2].
  do 8 (rewrite pop_eq by lia; cbv beta iota). intros [= <- <- <-].
  replace (sp + 8 + 8) with (sp + 16) by lia. replace (sp + 16 + 8 + 8) with (sp + 32) by lia.
  replace (sp + 16 + 8) with (sp + 24) by lia. replace (sp + 32 + 8 + 8) with (sp + 48) by lia.
  replace (sp + 32 + 8) with (sp + 40) by lia. replace (sp + 48 + 8 + 8) with (sp + 64) by lia.
  replace (sp + 48 + 8) with (sp + 56) by lia.
  by rewrite H0, H1, H2, H3, H4, H5, H6, H7.
Qed.

(** C31: context switches are transparent.  A task that switches away and is later
    resumed by a switch to the stack pointer saved for it, its saved frame not
    having been overwritten, continues after its call with the same callee-saved
    registers, flags and stack pointer. *)
Theorem switch_context_roundtrip c m new c1 m1 saved d m2 c3 m3 saved' :
  64 <= rsp c < 2 ^ 64 -> 64 <= rsp d < 2 ^ 64 ->
  switch_context c m new = (c1, m1, saved) ->
  (forall x, saved <= x < rsp c -> read_word m2 x = read_word m1 x) ->
  rsp d <= saved \/ rsp c <= rsp d - 64 ->
  switch_context d m2 saved = (c3, m3, saved') ->
  c3 = c.
Proof.
  intros Hc Hd H1 Hm Hdis H2. destruct (switch_saves _ _ _ _ _ _ Hc H1) as (-> & Hs & _).
  destruct (switch_saves _ _ _ _ _ _ Hd H2) as (_ & _ & Hk).
  rewrite (switch_restores d m2 c (rsp c - 64) c3 m3 saved' H2); [|unfold saved_at in *; rewrite !Hk, !Hm by lia; done|lia..].
  replace (rsp c - 64 + 64) with (rsp c) by lia. by destruct c.
Qed.

Lemma aligned_top_spec top :
  16 <= top < 2 ^ 64 -> aligned_top top = top - top mod 16 - 8.
Proof.
  intros H. unfold aligned_top. change 0xF with (2 ^ 4 - 1). rewrite land_not_mask by (split; lia).
  change (2 ^ 4) with 16. pose proof (Z.mod_pos_bound top 16). pose proof (Z.div_mod top 16). apply u64_sub_small. lia.
Qed.

(** A new task starts at its entry point.  The first switch to the stack
    pointer of a new task enters its entry function with interrupts enabled, the
    callee-saved registers zero, and a stack pointer inside its own stack that is a
    multiple of 16. *)
Theorem new_task_entered d m0 base entry m sp m' c' m'' old :
  0 <= base -> base + STACK_SIZE < 2 ^ 64 ->
  init_frame m0 (base + STACK_SIZE) entry = (m, sp) ->
  64 <= rsp d < 2 ^ 64 -> (rsp d <= sp \/ sp + 64 <= rsp d - 64) ->
  (forall x, sp <= x < sp + 64 -> read_word m' x = read_word m x) ->
  switch_context d m' sp = (c', m'', old) ->
  c' = mkCpu 0 0 0 0 0 0 0x202 (sp + 64) entry /\
  base <= sp /\ sp + 64 < base + STACK_SIZE /\ (sp + 64) mod 16 = 0.
Proof.
  intros Hb Hb2 Hi Hd Hdis Hm Hsw. revert Hi. unfold init_frame.
  pose proof (Z.mod_pos_bound (base + STACK_SIZE) 16 ltac:(lia)) as Hmod. unfold STACK_SIZE in *.
  set (top := base + 16 * 1024) in *. rewrite (aligned_top_spec top) by lia.
  set (b := top - top mod 16) in *. assert (Hbm : b mod 16 = 0).
  { unfold b. pose proof (Z.div_mod top 16). replace (top - top mod 16) with (top / 16 * 16) by lia. apply Z_mod_mult. }
  rewrite !u64_sub_small by lia. rewrite !u64_add_small by lia. intros [= <- <-].
  destruct (switch_saves _ _ _ _ _ _ Hd Hsw) as (_ & _ & Hk).
  set (fr := b - 8 - 72) in *.
  assert (Hs : saved_at m'' fr (mkCpu 0 0 0 0 0 0 0x202 0 entry)).
  { unfold saved_at. rewrite !Hk, !Hm by lia. cbn [r15 r14 r13 r12 rbx rbp rflags rip]. split_and!; read_back. }
  rewrite (switch_restores _ _ _ _ _ _ _ Hsw Hs) by lia. cbn [r15 r14 r13 r12 rbx rbp rflags rip].
  split; [done|]. split; [lia|]. split; [lia|]. replace (fr + 64) with (b - 16) by lia.
  by rewrite Zminus_mod, Hbm.
Qed.

(** ** Witnesses *)
Definition task_a : cpu := mkCpu 1 2 3 4 5 6 0x202 0x9000 0x1111.
Definition task_b : cpu := mkCpu 0 0 0 0 0 0 0x202 0x7000 0x2222.

Lemma switch_context_roundtrip_witness :
  (switch_context task_b (switch_context task_a (fun _ => 0) 0x7000).1.2 0x8FC0).1.1 = task_a.
Proof.
  apply (switch_context_roundtrip task_a (fun _ => 0) 0x7000 (switch_context task_a (fun _ => 0) 0x7000).1.1
    (switch_context task_a (fun _ => 0) 0x7000).1.2 0x8FC0 task_b (switch_context task_a (fun _ => 0) 0x7000).1.2 _
    (switch_context task_b (switch_context task_a (fun _ => 0) 0x7000).1.2 0x8FC0).1.2
    (switch_context task_b (switch_context task_a (fun _ => 0) 0x7000).1.2 0x8FC0).2).
  - cbn. lia.
  - cbn. lia.
  - reflexivity.
  - reflexivity.
  - left. cbn. lia.
  - reflexivity.
Defined.

Lemma new_task_entered_witness :
  (switch_context task_b (init_frame (fun _ => 0) 0x14000 0x3333).1 0x13FB0).1.1 = mkCpu 0 0 0 0 0 0 0x202 0x13FF0 0x3333.
Proof.
  refine (proj1 (new_task_entered task_b (fun _ => 0) 0x10000 0x3333 (init_frame (fun _ => 0) 0x14000 0x3333).1 0x13FB0
    (init_frame (fun _ => 0) 0x14000 0x3333).1 _ (switch_context task_b (init_frame (fun _ => 0) 0x14000 0x3333).1 0x13FB0).1.2
    (switch_context task_b (init_frame (fun _ => 0) 0x14000 0x3333).1 0x13FB0).2 _ _ _ _ _ _ _)).
  - lia.
  - unfold STACK_SIZE. lia.
  - reflexivity.
  - cbn. lia.
  - left. cbn. lia.
  - reflexivity.
  - reflexivity.
Defined.

End Context.
