(* ===== verification/Task.v ===== *)
(** * Tasks and the per-CPU schedulers (src/src/task/mod.rs)

    Task control blocks, the run queue of each CPU, and every operation on them:
    creation, round-robin choice, cooperative and preemptive switches, sleeping and
    waking, work stealing, killing and reaping.  A critical section under one
    [Spinlock] is one function; what a call does between two critical sections is
    kept separate, so that calls of several CPUs can be interleaved. *)

From stdpp Require Import prelude numbers list strings gmap.
From S2P Require Import Prelude Pmm Paging UserSpace Context.

Module Task.
Import UserSpace.

Definition MAX_CPUS : nat := 8.

Inductive TaskState := Ready | Running | Sleeping (wake_tick : Z) | Dead.

#[global] Instance TaskState_eq_dec : EqDecision TaskState.
Proof. solve_decision. Defined.

Definition is_state (a b : TaskState) : bool := bool_decide (a = b).

Definition as_str (s : TaskState) : string :=
  match s with
  | Ready => "READY" | Running => "RUNNING" | Sleeping _ => "SLEEPING" | Dead => "DEAD"
  end.

Definition DEFAULT_QUANTUM : Z := 10.

(** The task control block; [stack] is the base of the kernel stack it owns. *)
Record Task := mkTask {
  id : Z;
  name : string;
  rsp : Z;
  stack : option Z;
  state : TaskState;
  ticks : Z;
  quantum_remaining : Z;
  quantum : Z;
  priority : Z;
  is_user : bool;
  cr3 : option Z;
  kernel_stack_top : Z;
  user_entry : Z;
  user_stack_top : Z;
  address_space : option AddressSpace
}.

Definition set_state (t : Task) (s : TaskState) : Task :=
  mkTask (id t) (name t) (rsp t) (stack t) s (ticks t) (quantum_remaining t) (quantum t) (priority t)
    (is_user t) (cr3 t) (kernel_stack_top t) (user_entry t) (user_stack_top t) (address_space t).
Definition set_rsp (t : Task) (r : Z) : Task :=
  mkTask (id t) (name t) r (stack t) (state t) (ticks t) (quantum_remaining t) (quantum t) (priority t)
    (is_user t) (cr3 t) (kernel_stack_top t) (user_entry t) (user_stack_top t) (address_space t).
Definition set_ticks (t : Task) (n q : Z) : Task :=
  mkTask (id t) (name t) (rsp t) (stack t) (state t) n q (quantum t) (priority t)
    (is_user t) (cr3 t) (kernel_stack_top t) (user_entry t) (user_stack_top t) (address_space t).
Definition set_space (t : Task) (s : option AddressSpace) : Task :=
  mkTask (id t) (name t) (rsp t) (stack t) (state t) (ticks t) (quantum_remaining t) (quantum t) (priority t)
    (is_user t) (cr3 t) (kernel_stack_top t) (user_entry t) (user_stack_top t) s.
Definition reset_quantum (t : Task) : Task := set_ticks t (ticks t) (quantum t).

(** ** Creation

    The kernel stack is a fresh block of the heap at [base]; its frame is written
    to memory. *)
Definition task_new (m : Paging.memory) (id : Z) (name : string) (entry_point base : Z) : Task * Paging.memory :=
  let '(m', initial_rsp) := Context.init_frame m (u64_add base Context.STACK_SIZE) entry_point in
  (mkTask id name initial_rsp (Some base) Ready 0 DEFAULT_QUANTUM DEFAULT_QUANTUM 10 false None 0 0 0 None, m').

(** The frame of a user task enters [trampoline], the address of
    [user_task_trampoline]. *)
Definition task_new_user (m : Paging.memory) (trampoline id : Z) (name : string) (entry_point user_stack_top cr3 base : Z)
  : Task * Paging.memory :=
  let kstack_top := u64_add base Context.STACK_SIZE in
  let '(m', initial_rsp) := Context.init_frame m kstack_top trampoline in
  (mkTask id name initial_rsp (Some base) Ready 0 DEFAULT_QUANTUM DEFAULT_QUANTUM 10 true (Some cr3)
     kstack_top entry_point user_stack_top None, m').

Definition task_new_user_with_space (m : Paging.memory) (trampoline id : Z) (name : string) (entry_point user_stack_top : Z)
  (space : AddressSpace) (base : Z) : Task * Paging.memory :=
  let '(t, m') := task_new_user m trampoline id name entry_point user_stack_top (pml4 space) base in
  (set_space t (Some space), m').

Definition root_for_cpu (cpu_id : nat) (name : string) : Task :=
  mkTask (if Nat.eqb cpu_id 0 then 0 else 1000 + Z.of_nat cpu_id) name 0 None Running 0 DEFAULT_QUANTUM DEFAULT_QUANTUM 0
    false None 0 0 0 None.
Definition root (name : string) : Task := root_for_cpu 0 name.

(** ** The run queue of a CPU *)
Record CpuScheduler := mkSched {
  cpu_id : nat;
  tasks : list Task;
  current : nat;
  sticks : Z
}.

Definition sched_new (cpu : nat) : CpuScheduler := mkSched cpu [] 0 0.
Definition set_tasks (s : CpuScheduler) (l : list Task) : CpuScheduler := mkSched (cpu_id s) l (current s) (sticks s).
Definition set_current (s : CpuScheduler) (c : nat) : CpuScheduler := mkSched (cpu_id s) (tasks s) c (sticks s).
Definition push_task (s : CpuScheduler) (t : Task) : CpuScheduler := set_tasks s (tasks s ++ [t]).

(** The loop of [pick_next] over [i, i + 1, ..., total], [n] of them left. *)
Fixpoint pick_scan (s : CpuScheduler) (total i n : nat) : outcome (option nat) :=
  match n with
  | O => Ret None
  | S n' =>
      let idx := ((current s + i) mod total)%nat in
      t ← at_ (tasks s) idx;
      if is_state (state t) Ready then Ret (Some idx) else pick_scan s total (S i) n'
  end.

Definition pick_next (s : CpuScheduler) : outcome (option nat) :=
  match tasks s with
  | [] => Ret None
  | _ =>
      let total := length (tasks s) in
      r ← pick_scan s total 1 total;
      match r with
      | Some idx => Ret (Some idx)
      | None =>
          t ← at_ (tasks s) (current s);
          if (is_state (state t) Running || is_state (state t) Ready)%bool then Ret (Some (current s)) else Ret None
      end
  end.

(** What the switch code receives: the queue position whose [rsp] is saved, and
    the stack pointer, kind, kernel stack and page table of the next task. *)
Record switch := mkSwitch {
  old_idx : nat;
  new_rsp : Z;
  sw_user : bool;
  sw_kstack : Z;
  sw_cr3 : option Z
}.

(** The part shared by [yield_now] and [preempt_schedule_on_cpu]: hand the CPU
    from [curr_idx] to [next_idx], [wake] being applied to the next task. *)
Definition hand_over (wake : Task -> Task) (s : CpuScheduler) (curr_idx next_idx : nat) : outcome (switch * CpuScheduler) :=
  l1 ← update (tasks s) curr_idx (fun t => if is_state (state t) Running then set_state t Ready else t);
  l2 ← update l1 next_idx (fun t => wake (set_state t Running));
  t ← at_ l2 next_idx;
  Ret (mkSwitch curr_idx (rsp t) (is_user t) (kernel_stack_top t) (cr3 t), set_current (set_tasks s l2) next_idx).

(** The critical section of [yield_now]. *)
Definition yield_section (s : CpuScheduler) : outcome (option switch * CpuScheduler) :=
  if Nat.ltb (length (tasks s)) 2 then Ret (None, s) else
  let curr_idx := current s in
  r ← pick_next s;
  match r with
  | Some next_idx =>
      if Nat.eqb next_idx curr_idx then Ret (None, s) else
      '(sw, s') ← hand_over (fun t => t) s curr_idx next_idx;
      Ret (Some sw, s')
  | None => Ret (None, s)
  end.

(** The critical section of [preempt_schedule_on_cpu]. *)
Definition preempt_section (s : CpuScheduler) : outcome (option switch * CpuScheduler) :=
  if Nat.ltb (length (tasks s)) 2 then Ret (None, s) else
  let curr_idx := current s in
  if Nat.leb (length (tasks s)) curr_idx then Ret (None, s) else
  t ← at_ (tasks s) curr_idx;
  if 0 <? quantum_remaining t then Ret (None, s) else
  l ← update (tasks s) curr_idx reset_quantum;
  let s1 := set_tasks s l in
  r ← pick_next s1;
  match r with
  | Some next_idx =>
      if Nat.eqb next_idx curr_idx then Ret (None, s1) else
      '(sw, s') ← hand_over reset_quantum s1 curr_idx next_idx;
      Ret (Some sw, s')
  | None => Ret (None, s1)
  end.

(** [*old_rsp = rsp]: the store made by [switch_context] after the section. *)
Definition save_rsp (s : CpuScheduler) (i : nat) (r : Z) : CpuScheduler :=
  set_tasks s (alter (fun t => set_rsp t r) i (tasks s)).

(** Waking and accounting. *)
Definition wake (now : Z) (t : Task) : Task :=
  match state t with
  | Sleeping w => if w <=? now then set_state t Ready else t
  | _ => t
  end.
Definition wake_all (now : Z) (s : CpuScheduler) : CpuScheduler := set_tasks s (wake now <$> tasks s).

Definition charge (t : Task) : Task :=
  set_ticks t (u64_add (ticks t) 1)
    (if 0 <? quantum_remaining t then quantum_remaining t - 1 else quantum_remaining t).
Definition charge_current (s : CpuScheduler) : outcome CpuScheduler :=
  if Nat.ltb (current s) (length (tasks s)) then
    l ← update (tasks s) (current s) charge; Ret (set_tasks s l)
  else Ret s.

(** [Vec::remove]. *)
Definition remove_at {B} (l : list B) (i : nat) : outcome (B * list B) :=
  x ← at_ l i; Ret (x, delete i l).

Definition drop_index (idx curr : nat) : nat := if Nat.ltb idx curr then (curr - 1)%nat else curr.

(** The scan of [try_steal_task] over the victim's queue, from position [i]. *)
Fixpoint steal_idx (l : list Task) (i curr : nat) : option nat :=
  match l with
  | [] => None
  | t :: l' =>
      if (negb (Nat.eqb i 0) && negb (Nat.eqb i curr) && is_state (state t) Ready && negb (is_user t))%bool
      then Some i else steal_idx l' (S i) curr
  end.

(** The victim's critical section. *)
Definition steal_section (v : CpuScheduler) : outcome (option Task * CpuScheduler) :=
  if Nat.ltb 2 (length (tasks v)) then
    match steal_idx (tasks v) 0 (current v) with
    | Some idx =>
        '(t, l) ← remove_at (tasks v) idx;
        Ret (Some t, set_current (set_tasks v l) (drop_index idx (current v)))
    | None => Ret (None, v)
    end
  else Ret (None, v).

(** [iter_mut] with [break] at the first task of that id. *)
Fixpoint mark_dead (tid : Z) (l : list Task) : option (list Task) :=
  match l with
  | [] => None
  | t :: l' => if id t =? tid then Some (set_state t Dead :: l') else option_map (cons t) (mark_dead tid l')
  end.

(** The critical section of [sleep_ticks], and its test for waking up. *)
Definition sleep_section (s : CpuScheduler) (target_tick : Z) : outcome CpuScheduler :=
  l ← update (tasks s) (current s) (fun t => set_state t (Sleeping target_tick)); Ret (set_tasks s l).
Definition still_sleeping (s : CpuScheduler) (now : Z) : outcome bool :=
  t ← at_ (tasks s) (current s);
  Ret (match state t with Sleeping w => now <? w | _ => false end).
Definition sleep_ms_ticks (ms : Z) : Z := if ms =? 0 then 0 else Z.max (u64_add ms 9 / 10) 1.

Definition has_other_ready (s : CpuScheduler) : bool :=
  existsb (fun it : nat * Task => negb (Nat.eqb it.1 (current s)) && is_state (state it.2) Ready)%bool (imap pair (tasks s)).

Definition ap_name (cpu : nat) : string :=
  match cpu with
  | 1 => "idle-cpu-1" | 2 => "idle-cpu-2" | 3 => "idle-cpu-3" | 4 => "idle-cpu-4"
  | 5 => "idle-cpu-5" | 6 => "idle-cpu-6" | 7 => "idle-cpu-7" | _ => "idle-cpu-ap"
  end%nat.

Definition init_ap_section (s : CpuScheduler) (cpu : nat) : CpuScheduler :=
  match tasks s with
  | [] => set_current (push_task s (root_for_cpu cpu (ap_name cpu))) 0
  | _ => s
  end.

(** ** The whole kernel *)
Section Kernel.
Context {A : Type} `{FA : Pmm.FrameAllocator A}.

(** What a context switch programs: the TSS and the syscall stack shared by all
    CPUs, the copies in the per-CPU block, and the CR3 register of each CPU. *)
Record hardware := mkHw {
  tss_rsp0 : Z;
  kernel_rsp_scratch : Z;
  per_cpu_rsp0 : list Z;
  per_cpu_scratch : list Z;
  cpu_cr3 : list Z
}.

Record kernel := mkKernel {
  CPU_SCHEDULERS : list CpuScheduler;
  NEXT_TASK_ID : Z;
  cpu_count : nat;
  TICKS : Z;
  kworld : world A;
  hw : hardware
}.

Definition set_scheds (k : kernel) (l : list CpuScheduler) : kernel :=
  mkKernel l (NEXT_TASK_ID k) (cpu_count k) (TICKS k) (kworld k) (hw k).
Definition set_world (k : kernel) (w : world A) : kernel :=
  mkKernel (CPU_SCHEDULERS k) (NEXT_TASK_ID k) (cpu_count k) (TICKS k) w (hw k).
Definition set_hw (k : kernel) (h : hardware) : kernel :=
  mkKernel (CPU_SCHEDULERS k) (NEXT_TASK_ID k) (cpu_count k) (TICKS k) (kworld k) h.

(** [let cpu_id = if cpu_id < MAX_CPUS { cpu_id } else { 0 }] *)
Definition clamp_cpu (cpu : nat) : nat := if Nat.ltb cpu MAX_CPUS then cpu else O.

(** [CPU_SCHEDULERS[cpu].lock()] around a section. *)
Definition with_sched {B} (k : kernel) (cpu : nat) (f : CpuScheduler -> outcome (B * CpuScheduler)) : outcome (B * kernel) :=
  s ← at_ (CPU_SCHEDULERS k) cpu;
  '(b, s') ← f s;
  Ret (b, set_scheds k (<[cpu := s']> (CPU_SCHEDULERS k))).

(** Fresh identifiers: [NEXT_TASK_ID.fetch_add(1)]. *)
Definition next_id (k : kernel) : Z * kernel :=
  (NEXT_TASK_ID k, mkKernel (CPU_SCHEDULERS k) (u64_add (NEXT_TASK_ID k) 1) (cpu_count k) (TICKS k) (kworld k) (hw k)).

(** [init], the sentinel's entry point and stack being [entry] and [base]. *)
Definition init (k : kernel) (entry base : Z) : outcome kernel :=
  let '(tid, k) := next_id k in
  let '(t, m) := task_new (mem (kworld k)) tid "sentinel-worker" entry base in
  '(_, k) ← with_sched k 0 (fun s => Ret (tt, push_task (push_task s (root "kernel-shell")) t));
  Ret (set_world k (set_mem (kworld k) m)).

Definition init_ap (k : kernel) (cpu : nat) : outcome kernel :=
  if Nat.leb MAX_CPUS cpu then Ret k else
  '(_, k) ← with_sched k cpu (fun s => Ret (tt, init_ap_section s cpu)); Ret k.

(** [choose_target_cpu]: the first CPU with the fewest tasks. *)
Fixpoint choose_loop (k : kernel) (cpu n : nat) (best_cpu : nat) (min_load : Z) : outcome nat :=
  match n with
  | O => Ret best_cpu
  | S n' =>
      s ← at_ (CPU_SCHEDULERS k) cpu;
      let load := Z.of_nat (length (tasks s)) in
      if load <? min_load then choose_loop k (S cpu) n' cpu load else choose_loop k (S cpu) n' best_cpu min_load
  end.
Definition choose_target_cpu (k : kernel) : outcome nat :=
  if Nat.leb (cpu_count k) 1 then Ret O else
  choose_loop k 0 (Nat.min (cpu_count k) MAX_CPUS) 0 u64_max.

(** The three spawn functions differ in the task they build. *)
Definition spawn_with (make : Paging.memory -> Z -> Task * Paging.memory) (k : kernel) : outcome (Z * kernel) :=
  let '(tid, k) := next_id k in
  let '(t, m) := make (mem (kworld k)) tid in
  let k := set_world k (set_mem (kworld k) m) in
  target_cpu ← choose_target_cpu k;
  '(_, k) ← with_sched k target_cpu (fun s => Ret (tt, push_task s t));
  Ret (tid, k).

Definition spawn (k : kernel) (name : string) (entry base : Z) : outcome (Z * kernel) :=
  spawn_with (fun m tid => task_new m tid name entry base) k.
Definition spawn_user (k : kernel) (trampoline : Z) (name : string) (entry ustack cr3 base : Z) : outcome (Z * kernel) :=
  spawn_with (fun m tid => task_new_user m trampoline tid name entry ustack cr3 base) k.
Definition spawn_user_with_space (k : kernel) (trampoline : Z) (name : string) (entry ustack : Z) (space : AddressSpace)
  (base : Z) : outcome (Z * kernel) :=
  spawn_with (fun m tid => task_new_user_with_space m trampoline tid name entry ustack space base) k.

(** The address space of the task running on a CPU. *)
Definition current_space (k : kernel) (cpu : nat) : outcome (option AddressSpace) :=
  s ← at_ (CPU_SCHEDULERS k) (clamp_cpu cpu);
  if Nat.ltb (current s) (length (tasks s)) then t ← at_ (tasks s) (current s); Ret (address_space t) else Ret None.
Definition set_current_space (k : kernel) (cpu : nat) (sp : AddressSpace) : outcome kernel :=
  '(_, k') ← with_sched k (clamp_cpu cpu) (fun s =>
    l ← update (tasks s) (current s) (fun t => set_space t (Some sp)); Ret (tt, set_tasks s l));
  Ret k'.

Definition handle_current_page_fault (k : kernel) (cpu : nat) (fault_addr : Z) (is_write : bool) : outcome (bool * kernel) :=
  sp ← current_space k cpu;
  match sp with
  | Some space =>
      '(ok, w, space') ← handle_demand_fault (kworld k) space fault_addr is_write;
      k' ← set_current_space (set_world k w) cpu space';
      Ret (ok, k')
  | None => Ret (false, k)
  end.

Definition is_current_guard_page (k : kernel) (cpu : nat) (fault_addr : Z) : outcome bool :=
  sp ← current_space k cpu;
  Ret (match sp with Some space => is_guard_page space fault_addr | None => false end).

Definition current_task_brk (k : kernel) (cpu : nat) (new_brk : Z) : outcome (Z * kernel) :=
  sp ← current_space k cpu;
  match sp with
  | Some space =>
      '(r, w, space') ← brk (kworld k) space new_brk;
      k' ← set_current_space (set_world k w) cpu space';
      Ret (r, k')
  | None => Ret (u64_max, k)
  end.

(** [try_steal_task], from offset [offset] on, [n] CPUs left to try. *)
Fixpoint steal_loop (k : kernel) (my_cpu num_cpus offset n : nat) : outcome (bool * kernel) :=
  match n with
  | O => Ret (false, k)
  | S n' =>
      let victim_cpu := ((my_cpu + offset) mod num_cpus)%nat in
      '(stolen, k1) ← with_sched k victim_cpu steal_section;
      match stolen with
      | Some t =>
          '(_, k2) ← with_sched k1 my_cpu (fun s => Ret (tt, push_task s (reset_quantum t)));
          Ret (true, k2)
      | None => steal_loop k1 my_cpu num_cpus (S offset) n'
      end
  end.
Definition try_steal_task (k : kernel) (my_cpu : nat) : outcome (bool * kernel) :=
  if Nat.leb (cpu_count k) 1 then Ret (false, k) else
  let num_cpus := Nat.min (cpu_count k) MAX_CPUS in
  steal_loop k my_cpu num_cpus 1 (num_cpus - 1).

(** Dropping a task drops the address space it owns. *)
Definition drop_task (w : world A) (t : Task) : outcome (world A) :=
  match address_space t with Some sp => drop_space w sp | None => Ret w end.

(** The loop of [reap_dead_tasks_on_cpu]; each turn moves [i] on or shortens the
    queue. *)
Fixpoint reap_loop (fuel : nat) (w : world A) (s : CpuScheduler) (i : nat) (reaped : Z) : outcome (Z * world A * CpuScheduler) :=
  if Nat.ltb i (length (tasks s)) then
    match fuel with
    | O => NoFuel
    | S fuel' =>
        if Nat.eqb i (current s) then reap_loop fuel' w s (S i) reaped else
        t ← at_ (tasks s) i;
        if is_state (state t) Dead then
          '(dead_task, l) ← remove_at (tasks s) i;
          w' ← drop_task w dead_task;
          reap_loop fuel' w' (set_current (set_tasks s l) (drop_index i (current s))) i (reaped + 1)
        else reap_loop fuel' w s (S i) reaped
    end
  else Ret (reaped, w, s).
Definition reap_section (w : world A) (s : CpuScheduler) : outcome (Z * world A * CpuScheduler) :=
  reap_loop (length (tasks s)) w s 0 0.

Definition reap_dead_tasks_on_cpu (k : kernel) (cpu : nat) : outcome (Z * kernel) :=
  if Nat.leb MAX_CPUS cpu then Ret (0, k) else
  '((n, w), k1) ← with_sched k cpu (fun s => '(n, w, s') ← reap_section (kworld k) s; Ret ((n, w), s'));
  Ret (n, set_world k1 w).

Fixpoint reap_cpus (k : kernel) (cpu n : nat) (total : Z) : outcome (Z * kernel) :=
  match n with
  | O => Ret (total, k)
  | S n' => '(r, k') ← reap_dead_tasks_on_cpu k cpu; reap_cpus k' (S cpu) n' (total + r)
  end.
Definition num_cpus (k : kernel) : nat := Nat.min (Nat.max (cpu_count k) 1) MAX_CPUS.
Definition reap_dead_tasks (k : kernel) : outcome (Z * kernel) := reap_cpus k 0 (num_cpus k) 0.

Fixpoint kill_loop (k : kernel) (tid : Z) (cpu n : nat) : outcome (option nat * kernel) :=
  match n with
  | O => Ret (None, k)
  | S n' =>
      '(found, k1) ← with_sched k cpu (fun s =>
        match mark_dead tid (tasks s) with Some l => Ret (true, set_tasks s l) | None => Ret (false, s) end);
      if (found : bool) then Ret (Some cpu, k1) else kill_loop k1 tid (S cpu) n'
  end.
Definition kill_task (k : kernel) (tid : Z) : outcome (bool * kernel) :=
  '(found, k1) ← kill_loop k tid 0 (num_cpus k);
  match found with
  | Some cpu => '(_, k2) ← reap_dead_tasks_on_cpu k1 cpu; Ret (true, k2)
  | None => Ret (false, k1)
  end.

(** [on_context_switch] on a CPU already clamped. *)
Definition on_context_switch (k : kernel) (cpu : nat) (user : bool) (kstack_top : Z) (cr3_opt : option Z) : kernel :=
  let h := hw k in
  if user then
    set_hw k (mkHw kstack_top kstack_top (<[cpu := kstack_top]> (per_cpu_rsp0 h)) (<[cpu := kstack_top]> (per_cpu_scratch h))
      (match cr3_opt with Some c => <[cpu := c]> (cpu_cr3 h) | None => cpu_cr3 h end))
  else
    let kcr3 := KERNEL_CR3 (kworld k) in
    if negb (kcr3 =? 0) then
      set_hw k (mkHw (tss_rsp0 h) (kernel_rsp_scratch h) (per_cpu_rsp0 h) (per_cpu_scratch h) (<[cpu := kcr3]> (cpu_cr3 h)))
    else k.

Definition apply_switch (k : kernel) (cpu : nat) (sw : option switch) : kernel :=
  match sw with Some x => on_context_switch k cpu (sw_user x) (sw_kstack x) (sw_cr3 x) | None => k end.

(** [yield_now] up to the register switch it ends with, if any. *)
Definition yield_now (k : kernel) (cpu : nat) : outcome (option switch * kernel) :=
  let cpu := clamp_cpu cpu in
  s ← at_ (CPU_SCHEDULERS k) cpu;
  k1 ← (if (negb (has_other_ready s) && Nat.ltb 1 (length (tasks s)))%bool
        then '(_, k1) ← try_steal_task k cpu; Ret k1 else Ret k);
  '(sw, k2) ← with_sched k1 cpu yield_section;
  Ret (sw, apply_switch k2 cpu sw).

Definition preempt_schedule_on_cpu (k : kernel) (cpu : nat) : outcome (option switch * kernel) :=
  '(sw, k1) ← with_sched k cpu preempt_section;
  Ret (sw, apply_switch k1 cpu sw).

(** Entry of [sleep_ticks] for a positive number of ticks. *)
Definition sleep_ticks_begin (k : kernel) (cpu : nat) (n : Z) : outcome kernel :=
  '(_, k') ← with_sched k (clamp_cpu cpu) (fun s => s' ← sleep_section s (u64_add (TICKS k) n); Ret (tt, s'));
  Ret k'.

Fixpoint wake_cpus (k : kernel) (cpu n : nat) : outcome kernel :=
  match n with
  | O => Ret k
  | S n' => '(_, k') ← with_sched k cpu (fun s => Ret (tt, wake_all (TICKS k) s)); wake_cpus k' (S cpu) n'
  end.
Definition timer_tick (k : kernel) : outcome kernel :=
  k1 ← wake_cpus k 0 (num_cpus k);
  '(_, k2) ← with_sched k1 0 (fun s => s' ← charge_current s; Ret (tt, s'));
  Ret k2.

Definition smp_tick_section (now : Z) (s : CpuScheduler) : outcome CpuScheduler :=
  let s := mkSched (cpu_id s) (tasks s) (current s) (u64_add (sticks s) 1) in
  match tasks s with [] => Ret s | _ => s' ← charge_current s; Ret (wake_all now s') end.
Definition smp_timer_tick (k : kernel) (cpu : nat) : outcome (option switch * kernel) :=
  let cpu := clamp_cpu cpu in
  '(_, k1) ← with_sched k cpu (fun s => s' ← smp_tick_section (TICKS k) s; Ret (tt, s'));
  k2 ← (if TICKS k mod 25 =? 0 then '(_, k2) ← reap_dead_tasks_on_cpu k1 cpu; Ret k2 else Ret k1);
  preempt_schedule_on_cpu k2 cpu.

Fixpoint count_cpus (k : kernel) (cpu n : nat) (total : Z) : outcome Z :=
  match n with
  | O => Ret total
  | S n' => s ← at_ (CPU_SCHEDULERS k) cpu; count_cpus k (S cpu) n' (total + Z.of_nat (length (tasks s)))
  end.
Definition total_task_count (k : kernel) : outcome Z := count_cpus k 0 (num_cpus k) 0.

End Kernel.
Arguments kernel : clear implicits.

End Task.
