(* ===== verification/Elf.v ===== *)
(** * ELF executables (src/src/fs/elf.rs)

    The 64-bit headers, [ElfBinary::parse] and [program_headers], the loader and
    the built-in executables.  Reads through raw pointers are not checked by Rust:
    [outside] stands for the bytes of kernel memory around the slice, so that a
    theorem that does not depend on it is a statement of memory safety. *)

From stdpp Require Import prelude numbers list strings gmap.
From S2P Require Import Prelude Bytes Pmm Paging UserSpace Task.
Import Paging UserSpace.

Import Bytes.

Module Elf.

Definition ELF_MAGIC : list Z := [0x7F; 69; 76; 70].
Definition ELF_CLASS_64 : Z := 2.
Definition ELF_DATA_2LSB : Z := 1.
Definition ELF_VERSION_CURRENT : Z := 1.
Definition ELF_OSABI_SYSV : Z := 0.
Definition ELF_MACHINE_X86_64 : Z := 0x3E.
Definition ET_EXEC : Z := 2.
Definition ET_DYN : Z := 3.
Definition PT_LOAD : Z := 1.
Definition PF_X : Z := 1.
Definition PF_W : Z := 2.
Definition PF_R : Z := 4.

Record Elf64Header := mkEhdr {
  ident : list Z; elf_type : Z; machine : Z; version : Z; entry : Z; phoff : Z; shoff : Z; eflags : Z;
  ehsize : Z; phentsize : Z; phnum : Z; shentsize : Z; shnum : Z; shstrndx : Z
}.
Record Elf64ProgramHeader := mkPhdr {
  p_type : Z; p_flags : Z; p_offset : Z; p_vaddr : Z; p_paddr : Z; p_filesz : Z; p_memsz : Z; p_align : Z
}.

Inductive ElfError :=
| BinaryTooSmall | InvalidMagic | UnsupportedClass | UnsupportedEndianness | UnsupportedVersion | UnsupportedMachine
| UnsupportedType | InvalidProgramHeaders | AddressSpaceAllocationFailed | SegmentMappingFailed | NoLoadableSegments.

Definition as_str (e : ElfError) : string :=
  match e with
  | BinaryTooSmall => "File is smaller than 64-byte ELF header"
  | InvalidMagic => "Invalid ELF magic signature"
  | UnsupportedClass => "Unsupported ELF class (must be 64-bit)"
  | UnsupportedEndianness => "Unsupported endianness (must be little-endian)"
  | UnsupportedVersion => "Unsupported ELF specification version"
  | UnsupportedMachine => "Unsupported architecture (must be x86_64)"
  | UnsupportedType => "Unsupported file type (must be ET_EXEC or ET_DYN)"
  | InvalidProgramHeaders => "Corrupted or out-of-bounds program headers"
  | AddressSpaceAllocationFailed => "Failed to allocate per-process AddressSpace (PML4)"
  | SegmentMappingFailed => "Failed to allocate or map physical page for segment"
  | NoLoadableSegments => "Binary contains no PT_LOAD segments"
  end.

Record ElfBinary := mkElf { data : list Z; header : Elf64Header }.

(** [size_of::<Elf64Header>()] and [size_of::<Elf64ProgramHeader>()] *)
Definition EHDR_SIZE : Z := 64.
Definition PHDR_SIZE : Z := 56.

Definition checked_add (a b : Z) : option Z := if a + b <=? u64_max then Some (a + b) else None.
Definition checked_mul (a b : Z) : option Z := if a * b <=? u64_max then Some (a * b) else None.

Section Parse.
Variable outside : Z -> Z.

(** A byte at an offset from the start of the slice, and [n] of them. *)
Definition byte_at (d : list Z) (i : Z) : Z :=
  if ((0 <=? i) && (i <? Z.of_nat (length d)))%bool then nth (Z.to_nat i) d 0 else outside i.
Definition bytes_at (d : list Z) (i : Z) (n : nat) : list Z := (fun k => byte_at d (u64_add i (Z.of_nat k))) <$> seq 0 n.
Definition field (d : list Z) (i : Z) (n : nat) : Z := le_value (bytes_at d i n).

(** [read_unaligned] of the [repr(C)] structures. *)
Definition read_ehdr (d : list Z) : Elf64Header :=
  mkEhdr (bytes_at d 0 16) (field d 16 2) (field d 18 2) (field d 20 4) (field d 24 8) (field d 32 8) (field d 40 8) (field d 48 4)
    (field d 52 2) (field d 54 2) (field d 56 2) (field d 58 2) (field d 60 2) (field d 62 2).
Definition read_phdr (d : list Z) (o : Z) : Elf64ProgramHeader :=
  mkPhdr (field d o 4) (field d (o + 4) 4) (field d (o + 8) 8) (field d (o + 16) 8) (field d (o + 24) 8) (field d (o + 32) 8)
    (field d (o + 40) 8) (field d (o + 48) 8).

Definition ident_at (h : Elf64Header) (i : nat) : Z := nth i (ident h) 0.

(** [ElfBinary::parse] *)
Definition parse (d : list Z) : result ElfBinary ElfError :=
  if Z.of_nat (length d) <? EHDR_SIZE then Err BinaryTooSmall else
  let h := read_ehdr d in
  if negb (bool_decide (take 4 (ident h) = ELF_MAGIC)) then Err InvalidMagic else
  if negb (ident_at h 4 =? ELF_CLASS_64) then Err UnsupportedClass else
  if negb (ident_at h 5 =? ELF_DATA_2LSB) then Err UnsupportedEndianness else
  if (negb (ident_at h 6 =? ELF_VERSION_CURRENT) || negb (version h =? 1))%bool then Err UnsupportedVersion else
  if negb (machine h =? ELF_MACHINE_X86_64) then Err UnsupportedMachine else
  if (negb (elf_type h =? ET_EXEC) && negb (elf_type h =? ET_DYN))%bool then Err UnsupportedType else
  Ok (mkElf d h).

Definition program_headers (e : ElfBinary) : result (list Elf64ProgramHeader) ElfError :=
  let h := header e in
  if phnum h =? 0 then Ok [] else
  if phentsize h <? PHDR_SIZE then Err InvalidProgramHeaders else
  match checked_mul (phnum h) (phentsize h) with
  | None => Err InvalidProgramHeaders
  | Some table =>
    match checked_add (phoff h) table with
    | None => Err InvalidProgramHeaders
    | Some required_len =>
      if Z.of_nat (length (data e)) <? required_len then Err InvalidProgramHeaders else
      Ok ((fun i => read_phdr (data e) (u64_add (phoff h) (u64_mul (Z.of_nat i) (phentsize h)))) <$> seq 0 (Z.to_nat (phnum h)))
    end
  end.

Definition entry_point (e : ElfBinary) : Z := entry (header e).

End Parse.

Record LoadedElf := mkLoaded {
  l_entry_point : Z; user_stack_top : Z; space : AddressSpace; segments_loaded : Z; total_bytes : Z
}.

Definition DEFAULT_USER_CODE_BASE : Z := 0x40000000.
Definition DEFAULT_USER_STACK_TOP : Z := 0x80000000.
Definition DEFAULT_USER_STACK_PAGES : Z := 4.

Definition page_floor (a : Z) : Z := u64_mul (a / PAGE_SIZE) PAGE_SIZE.
Definition page_ceil (a : Z) : Z := page_floor (u64_sub (u64_add a PAGE_SIZE) 1).

Section Load.
Context {A : Type} `{FA : Pmm.FrameAllocator A}.
Variable outside : Z -> Z.

(** The loop over the pages that contain file data, at [curr_page]; the pages
    already done are in [done]. *)
Fixpoint load_pages (fuel : nat) (w : world A) (s : AddressSpace) (d : list Z) (file_offset vaddr file_data_end eager_page_end curr_page : Z)
  (done : list Z) : outcome (option (list Z) * world A * AddressSpace) :=
  if curr_page <? eager_page_end then
    match fuel with
    | O => NoFuel
    | S fuel' =>
      match allocate_and_map_page w s curr_page true with
      | (None, w1, s1) => Ret (None, w1, s1)
      | (Some frame_ptr, w1, s1) =>
        let overlap_start := Z.max curr_page vaddr in
        let overlap_end := Z.min (u64_add curr_page PAGE_SIZE) file_data_end in
        let w2 := if overlap_start <? overlap_end then
                    let frame_dest_offset := overlap_start - curr_page in
                    let data_src_offset := u64_add file_offset (overlap_start - vaddr) in
                    let copy_len := Z.to_nat (overlap_end - overlap_start) in
                    set_mem w1 (copy_bytes (mem w1) (frame_ptr + frame_dest_offset) (bytes_at outside d data_src_offset copy_len))
                  else w1 in
        load_pages fuel' w2 s1 d file_offset vaddr file_data_end eager_page_end (u64_add curr_page PAGE_SIZE) (done ++ [curr_page])
      end
    end
  else Ret (Some done, w, s).

Definition seg_prot (flags : Z) : Z :=
  Z.lor (Z.lor (if negb (Z.land flags PF_R =? 0) then PROT_READ else 0) (if negb (Z.land flags PF_W =? 0) then PROT_WRITE else 0))
    (if negb (Z.land flags PF_X =? 0) then PROT_EXEC else 0).

(** The last page, exclusive, that holds file data. *)
Definition eager_end (page_start page_end file_data_end file_sz : Z) : Z :=
  Z.min (if 0 <? file_sz then page_ceil file_data_end else page_start) page_end.

(** One segment: the checks, its pages, its area. *)
Definition load_segment (w : world A) (s : AddressSpace) (d : list Z) (ph : Elf64ProgramHeader)
  : outcome (result unit ElfError * world A * AddressSpace) :=
  let file_sz := p_filesz ph in let mem_sz := p_memsz ph in let vaddr := p_vaddr ph in
  if mem_sz <? file_sz then Ret (Err InvalidProgramHeaders, w, s) else
  if Z.of_nat (length d) <? u64_add (p_offset ph) file_sz then Ret (Err InvalidProgramHeaders, w, s) else
  let page_start := page_floor vaddr in
  let page_end := page_ceil (u64_add vaddr mem_sz) in
  let file_data_end := u64_add vaddr file_sz in
  let eager_page_end := eager_end page_start page_end file_data_end file_sz in
  r ← load_pages (Z.to_nat ((eager_page_end - page_start) / PAGE_SIZE)) w s d (p_offset ph) vaddr file_data_end eager_page_end page_start [];
  match r with
  | (None, w1, s1) => Ret (Err SegmentMappingFailed, w1, s1)
  | (Some pages, w1, s1) =>
    let nm := if ((eager_page_end =? page_start) && (file_sz =? 0))%bool then "[elf_bss]" else "[elf_segment]" in
    let vma := vma_new page_start (u64_sub page_end page_start) (seg_prot (p_flags ph)) MAP_PRIVATE false nm in
    let vma := set_populated vma (foldl (fun m p => <[p := 0]> m) (populated_pages vma) pages) in
    Ret (Ok tt, w1, (add_vma s1 vma).2)
  end.

(** The loop over the program headers, with the two counters. *)
Fixpoint load_segments (w : world A) (s : AddressSpace) (d : list Z) (phs : list Elf64ProgramHeader) (n total : Z)
  : outcome (result (Z * Z) ElfError * world A * AddressSpace) :=
  match phs with
  | [] => Ret (Ok (n, total), w, s)
  | ph :: phs' =>
    if (negb (p_type ph =? PT_LOAD) || (p_memsz ph =? 0))%bool then load_segments w s d phs' n total else
    r ← load_segment w s d ph;
    match r with
    | (Err e, w1, s1) => Ret (Err e, w1, s1)
    | (Ok _, w1, s1) => load_segments w1 s1 d phs' (n + 1) (u64_add total (p_memsz ph))
    end
  end.

(** [load_elf]; an error after the address space exists drops it. *)
Definition load_elf (w : world A) (d : list Z) : outcome (result LoadedElf ElfError * world A) :=
  match parse outside d with
  | Err e => Ret (Err e, w)
  | Ok elf =>
    match program_headers outside elf with
    | Err e => Ret (Err e, w)
    | Ok phdrs =>
      match UserSpace.new w with
      | (None, w1) => Ret (Err AddressSpaceAllocationFailed, w1)
      | (Some s, w1) =>
        r ← load_segments w1 s d phdrs 0 0;
        match r with
        | (Err e, w2, s2) => w3 ← drop_space w2 s2; Ret (Err e, w3)
        | (Ok (n, total), w2, s2) =>
          if n =? 0 then w3 ← drop_space w2 s2; Ret (Err NoLoadableSegments, w3) else
          match allocate_user_stack w2 s2 DEFAULT_USER_STACK_TOP DEFAULT_USER_STACK_PAGES with
          | (false, w3, s3) => w4 ← drop_space w3 s3; Ret (Err SegmentMappingFailed, w4)
          | (true, w3, s3) => Ret (Ok (mkLoaded (entry_point elf) DEFAULT_USER_STACK_TOP s3 n total), w3)
          end
        end
      end
    end
  end.

(** [load_and_spawn]; [trampoline] and [base] are the addresses [spawn_user_with_space] needs. *)
Definition load_and_spawn (k : Task.kernel A) (trampoline base : Z) (nm : string) (d : list Z) : outcome (result Z ElfError * Task.kernel A) :=
  r ← load_elf (Task.kworld k) d;
  let '(res, w) := r in
  let k1 := Task.set_world k w in
  match res with
  | Err e => Ret (Err e, k1)
  | Ok l => '(pid, k2) ← Task.spawn_user_with_space k1 trampoline nm (l_entry_point l) (user_stack_top l) (space l) base; Ret (Ok pid, k2)
  end.

End Load.

(** ** Building executables *)
Definition HEADER_OFFSET : Z := 0x80.

Definition ehdr_bytes (h : Elf64Header) : list Z :=
  ident h ++ to_le 2 (elf_type h) ++ to_le 2 (machine h) ++ to_le 4 (version h) ++ to_le 8 (entry h) ++ to_le 8 (phoff h) ++
  to_le 8 (shoff h) ++ to_le 4 (eflags h) ++ to_le 2 (ehsize h) ++ to_le 2 (phentsize h) ++ to_le 2 (phnum h) ++ to_le 2 (shentsize h) ++
  to_le 2 (shnum h) ++ to_le 2 (shstrndx h).
Definition phdr_bytes (p : Elf64ProgramHeader) : list Z :=
  to_le 4 (p_type p) ++ to_le 4 (p_flags p) ++ to_le 8 (p_offset p) ++ to_le 8 (p_vaddr p) ++ to_le 8 (p_paddr p) ++
  to_le 8 (p_filesz p) ++ to_le 8 (p_memsz p) ++ to_le 8 (p_align p).

Definition built_ehdr (vaddr : Z) : Elf64Header :=
  mkEhdr (ELF_MAGIC ++ [ELF_CLASS_64; ELF_DATA_2LSB; ELF_VERSION_CURRENT; ELF_OSABI_SYSV] ++ replicate 8 0)
    ET_EXEC ELF_MACHINE_X86_64 1 vaddr EHDR_SIZE 0 0 EHDR_SIZE PHDR_SIZE 1 64 0 0.
Definition built_phdr (vaddr payload_len : Z) : Elf64ProgramHeader :=
  mkPhdr PT_LOAD (Z.lor (Z.lor PF_R PF_W) PF_X) HEADER_OFFSET vaddr vaddr payload_len payload_len PAGE_SIZE.

(** The file is zeroed and the four parts are copied into it; 8 bytes of padding
    remain between the headers and the payload. *)
Definition create_elf_binary (vaddr : Z) (code dat : list Z) : list Z :=
  ehdr_bytes (built_ehdr vaddr) ++ phdr_bytes (built_phdr vaddr (Z.of_nat (length code + length dat))) ++ replicate 8 0 ++ code ++ dat.

(** The instructions the built-in programs are made of. *)
Definition mov_eax (n : Z) : list Z := [0xb8; n; 0; 0; 0].
Definition syscall : list Z := [0x0f; 0x05].
Definition sys_write (addr len : Z) : list Z :=
  mov_eax 4 ++ [0xbf; 1; 0; 0; 0] ++ [0x48; 0xbe] ++ to_le 8 addr ++ [0xba; wrap 8 len; 0; 0; 0] ++ syscall.
Definition sys_exit : list Z := mov_eax 1 ++ [0x48; 0x31; 0xff] ++ syscall.

Definition hello_msg1 : list Z := ascii_bytes ("Hello from AuraOS Ring 3 Userspace (ELF64)!" +:+ newline).
Definition hello_msg2 : list Z := ascii_bytes ("[OK] Process PID acquired, exiting cleanly." +:+ newline).
Definition build_hello_elf : list Z :=
  let vaddr := DEFAULT_USER_CODE_BASE in
  let msg1_addr := vaddr + 71 in
  let msg2_addr := msg1_addr + Z.of_nat (length hello_msg1) in
  let code := sys_write msg1_addr (Z.of_nat (length hello_msg1)) ++ mov_eax 0x27 ++ syscall ++
              sys_write msg2_addr (Z.of_nat (length hello_msg2)) ++ sys_exit in
  create_elf_binary vaddr code (hello_msg1 ++ hello_msg2).

Definition counter_msg1 : list Z := ascii_bytes ("[Counter] Ring 3 loop started." +:+ newline).
Definition counter_msg2 : list Z := ascii_bytes ("[Counter] Ring 3 iterations finished!" +:+ newline).
Definition build_counter_elf : list Z :=
  let vaddr := DEFAULT_USER_CODE_BASE in
  let msg1_addr := vaddr + 81 in
  let msg2_addr := msg1_addr + Z.of_nat (length counter_msg1) in
  let code := sys_write msg1_addr (Z.of_nat (length counter_msg1)) ++
              [0xbb; 3; 0; 0; 0] ++ mov_eax 0x18 ++ syscall ++ [0x48; 0xff; 0xcb] ++ [0x75; 0xf4] ++
              sys_write msg2_addr (Z.of_nat (length counter_msg2)) ++ sys_exit in
  create_elf_binary vaddr code (counter_msg1 ++ counter_msg2).

Definition init_banner : list Z := ascii_bytes ("=== AuraOS Microkernel Init (PID 1 Service) ===" +:+ newline).
Definition init_status : list Z := ascii_bytes ("[Init] Core userspace server initialized." +:+ newline).
Definition build_init_elf : list Z :=
  let vaddr := DEFAULT_USER_CODE_BASE in
  let banner_addr := vaddr + 71 in
  let status_addr := banner_addr + Z.of_nat (length init_banner) in
  let code := sys_write banner_addr (Z.of_nat (length init_banner)) ++ mov_eax 0x27 ++ syscall ++
              sys_write status_addr (Z.of_nat (length init_status)) ++ sys_exit in
  create_elf_binary vaddr code (init_banner ++ init_status).

(** ** Fields *)
(** A read inside the slice does not look outside. *)
Lemma bytes_at_in o d i n :
  0 <= i -> i + Z.of_nat n <= len d -> len d < 2 ^ 63 -> bytes_at o d i n = take n (drop (Z.to_nat i) d).
Proof.
  unfold len. intros Hi Hn Hl. unfold bytes_at. apply list_eq. intros k. rewrite list_lookup_fmap, lookup_take.
  destruct (decide (k < n)%nat) as [Hk|Hk].
  - rewrite lookup_seq_lt by done. cbn [fmap option_fmap option_map]. rewrite Nat.add_0_l. unfold byte_at.
    rewrite u64_add_small by lia. rewrite (proj2 (Z.leb_le _ _)), (proj2 (Z.ltb_lt _ _)) by lia. cbn [andb].
    rewrite lookup_drop. replace (Z.to_nat (i + Z.of_nat k)) with (Z.to_nat i + k)%nat by lia.
    destruct (nth_lookup_or_length d (Z.to_nat i + k) 0) as [->|]; [done|lia].
  - rewrite lookup_seq_ge by lia. done.
Qed.

Lemma read_ehdr_out o o' d : EHDR_SIZE <= len d < 2 ^ 63 -> read_ehdr o d = read_ehdr o' d.
Proof. intros [Hl Hu]. unfold EHDR_SIZE in Hl. unfold read_ehdr, field. by repeat rewrite bytes_at_in by lia. Qed.

Lemma read_phdr_out o o' d i : 0 <= i -> i + PHDR_SIZE <= len d -> len d < 2 ^ 63 -> read_phdr o d i = read_phdr o' d i.
Proof. intros Hi Hl Hu. unfold PHDR_SIZE in Hl. unfold read_phdr, field. by repeat rewrite bytes_at_in by lia. Qed.

Lemma field_bound o d i n : is_bytes d -> 0 <= i -> i + Z.of_nat n <= len d -> len d < 2 ^ 63 -> 0 <= field o d i n < 256 ^ Z.of_nat n.
Proof.
  intros Hb Hi Hn Hl. unfold field. rewrite bytes_at_in by done. set (l := take n (drop (Z.to_nat i) d)).
  assert (len l = Z.of_nat n) as <- by (unfold l, len in *; rewrite length_take, length_drop; lia).
  apply le_value_bound. by apply Forall_take, Forall_drop.
Qed.

(** What a successful [parse] has checked. *)
Lemma parse_Ok o d e :
  parse o d = Ok e -> e = mkElf d (read_ehdr o d) /\ EHDR_SIZE <= len d /\ take 4 (ident (header e)) = ELF_MAGIC /\
    ident_at (header e) 4 = ELF_CLASS_64 /\ ident_at (header e) 5 = ELF_DATA_2LSB /\ machine (header e) = ELF_MACHINE_X86_64 /\
    (elf_type (header e) = ET_EXEC \/ elf_type (header e) = ET_DYN).
Proof.
  unfold parse. destruct (Z.ltb_spec (Z.of_nat (length d)) EHDR_SIZE) as [|Hl]; [done|]. cbv zeta. set (h := read_ehdr o d).
  destruct (bool_decide_reflect (take 4 (ident h) = ELF_MAGIC)) as [Hm|]; [|done]. cbn [negb].
  destruct (Z.eqb_spec (ident_at h 4) ELF_CLASS_64) as [Hc|]; [|done]. cbn [negb].
  destruct (Z.eqb_spec (ident_at h 5) ELF_DATA_2LSB) as [He|]; [|done]. cbn [negb]. destruct (_ || _)%bool; [done|].
  destruct (Z.eqb_spec (machine h) ELF_MACHINE_X86_64) as [Hx|]; [|done]. cbn [negb].
  destruct (Z.eqb_spec (elf_type h) ET_EXEC) as [Ht|]; [|destruct (Z.eqb_spec (elf_type h) ET_DYN) as [Ht|]; [|done]]; cbn [negb andb];
    intros [= <-]; cbn [header]; repeat (split; [done|]); [by left|by right].
Qed.

(** The offset of each program header of an accepted table. *)
Lemma table_in_bounds o d e i :
  is_bytes d -> len d < 2 ^ 63 -> parse o d = Ok e -> PHDR_SIZE <= phentsize (header e) ->
  phoff (header e) + phnum (header e) * phentsize (header e) <= len d -> 0 <= i < phnum (header e) ->
  let off := u64_add (phoff (header e)) (u64_mul i (phentsize (header e))) in 0 <= off /\ off + PHDR_SIZE <= len d.
Proof.
  intros Hb Hu Hp Hs Hl Hi. apply parse_Ok in Hp as (-> & Hd & _). unfold EHDR_SIZE in Hd. cbn [header] in *. cbv zeta.
  pose proof (field_bound o d 32 8 Hb ltac:(lia) ltac:(lia) Hu) as Ho. change (field o d 32 8) with (phoff (read_ehdr o d)) in Ho.
  unfold PHDR_SIZE in *. set (po := phoff (read_ehdr o d)) in *. set (ps := phentsize (read_ehdr o d)) in *. set (pn := phnum (read_ehdr o d)) in *.
  assert (i * ps + ps <= pn * ps) by nia. assert (0 <= i * ps) by nia. rewrite u64_mul_small, u64_add_small by lia. lia.
Qed.

(** ** Properties *)

(** Parsing is memory safe: on any slice of bytes, [parse] and then
    [program_headers] look at no byte outside the slice, whatever the header
    claims (their results do not depend on the surrounding memory). *)
Theorem elf_parse_in_bounds o o' d :
  is_bytes d -> len d < 2 ^ 63 ->
  parse o d = parse o' d /\ forall e, parse o d = Ok e -> program_headers o e = program_headers o' e.
Proof.
  intros Hb Hu. split.
  - unfold parse. destruct (Z.ltb_spec (Z.of_nat (length d)) EHDR_SIZE); [done|]. by rewrite (read_ehdr_out o o') by (unfold len in *; lia).
  - intros e He. unfold program_headers. destruct (phnum (header e) =? 0); [done|].
    destruct (Z.ltb_spec (phentsize (header e)) PHDR_SIZE) as [|Hs]; [done|]. unfold checked_mul, checked_add.
    destruct (phnum _ * _ <=? u64_max); [|done]. cbv iota. destruct (phoff _ + _ <=? u64_max); [|done]. cbv iota. pose proof (parse_Ok o d e He) as (Ee & _).
    destruct (Z.ltb_spec (Z.of_nat (length (data e))) (phoff (header e) + phnum (header e) * phentsize (header e))) as [|Hl]; [done|].
    f_equal. apply list_fmap_ext. intros k x Hx. apply lookup_seq in Hx as [-> Hx].
    assert (Hd : data e = d) by (by rewrite Ee). rewrite Hd in *.
    destruct (table_in_bounds o d e (Z.of_nat (0 + k)) Hb Hu He Hs Hl) as [? ?]; [lia|]. by apply read_phdr_out.
Qed.

(** What the headers of a built file say. *)
Lemma built_file o vaddr code dat :
  in_u 64 vaddr -> len code + len dat < 2 ^ 62 ->
  let file := create_elf_binary vaddr code dat in
  let ph := built_phdr vaddr (len code + len dat) in
  exists e, parse o file = Ok e /\ entry_point e = vaddr /\ program_headers o e = Ok [ph] /\
    bytes_at o file (p_offset ph) (Z.to_nat (p_filesz ph)) = code ++ dat /\ len file = p_offset ph + p_filesz ph.
Proof.
  intros Hv Hl. cbv zeta. set (file := create_elf_binary vaddr code dat). set (n := len code + len dat) in *.
  assert (Hn : 0 <= n < 256 ^ Z.of_nat 8) by (unfold n, len in *; change (256 ^ Z.of_nat 8) with (2 ^ 64); lia).
  assert (Hlen : len file = 128 + n) by (unfold file, create_elf_binary, n, len; rewrite !length_app;
    change (length (ehdr_bytes _)) with 64%nat; change (length (phdr_bytes _)) with 56%nat; rewrite length_replicate; lia).
  pose proof (le_value_to_le 8 vaddr Hv) as Ev. pose proof (le_value_to_le 8 n Hn) as En.
  assert (Hfile : exists v0 v1 v2 v3 v4 v5 v6 v7 n0 n1 n2 n3 n4 n5 n6 n7,
    to_le 8 vaddr = [v0; v1; v2; v3; v4; v5; v6; v7] /\ to_le 8 n = [n0; n1; n2; n3; n4; n5; n6; n7]) by (do 16 eexists; split; reflexivity).
  destruct Hfile as (v0 & v1 & v2 & v3 & v4 & v5 & v6 & v7 & n0 & n1 & n2 & n3 & n4 & n5 & n6 & n7 & Tv & Tn).
  assert (Ef : file = ehdr_bytes (built_ehdr vaddr) ++ phdr_bytes (built_phdr vaddr n) ++ replicate 8 0 ++ code ++ dat).
  { unfold file, create_elf_binary, n, len. by rewrite Nat2Z.inj_add. }
  unfold ehdr_bytes, phdr_bytes in Ef. cbn [ident elf_type machine version entry phoff shoff eflags ehsize phentsize phnum shentsize shnum shstrndx
    built_ehdr p_type p_flags p_offset p_vaddr p_paddr p_filesz p_memsz p_align built_phdr] in Ef. rewrite Tv, Tn in Ef. rewrite Tv in Ev. rewrite Tn in En.
  assert (Eh : read_ehdr o file = built_ehdr vaddr).
  { unfold read_ehdr, field. repeat rewrite bytes_at_in by lia. rewrite Ef. unfold built_ehdr. f_equal; exact Ev || reflexivity. }
  assert (Ep : read_phdr o file 64 = built_phdr vaddr n).
  { unfold read_phdr, field. repeat rewrite bytes_at_in by lia. rewrite Ef. unfold built_phdr. f_equal; exact Ev || exact En || reflexivity. }
  exists (mkElf file (built_ehdr vaddr)). split.
  { unfold parse. rewrite (proj2 (Z.ltb_ge _ _)) by (unfold len, EHDR_SIZE in *; lia). by rewrite Eh. }
  split; [done|]. split; [|split; [|done]].
  - unfold program_headers. cbn [header data phnum phentsize phoff built_ehdr]. change (checked_mul 1 PHDR_SIZE) with (Some 56).
    change (1 =? 0) with false. change (PHDR_SIZE <? PHDR_SIZE) with false. cbv iota. change (checked_add EHDR_SIZE 56) with (Some 120). cbv iota.
    rewrite (proj2 (Z.ltb_ge _ _)) by (unfold len in *; lia). by rewrite <- Ep.
  - cbn [p_offset p_filesz built_phdr]. unfold HEADER_OFFSET. rewrite bytes_at_in by lia.
    transitivity (take (Z.to_nat n) (code ++ dat)); [by rewrite Ef|]. apply take_ge. rewrite length_app. unfold n, len. lia.
Qed.

Lemma built_file_bytes vaddr code dat : is_bytes code -> is_bytes dat -> is_bytes (create_elf_binary vaddr code dat).
Proof.
  assert (Hle : forall n x, is_bytes (to_le n x)).
  { induction n as [|n IH]; intros x; constructor; [|apply IH]. apply Z.mod_pos_bound. done. }
  intros Hc Hd. unfold create_elf_binary, ehdr_bytes, phdr_bytes. unfold is_bytes in *. rewrite !Forall_app.
  split_and!; try done; try (apply Hle); by_compute.
Qed.

(** Executables made by the kernel are read back: for any entry address and
    any code and data, [create_elf_binary] yields a file that [parse] accepts with
    that entry point, whose program headers are one loadable segment at that
    address, and whose bytes from the segment's file offset on are the code and
    the data. *)
Theorem create_elf_roundtrip o vaddr code dat :
  in_u 64 vaddr -> len code + len dat < 2 ^ 62 ->
  let file := create_elf_binary vaddr code dat in
  let ph := built_phdr vaddr (len code + len dat) in
  exists e, parse o file = Ok e /\ entry_point e = vaddr /\ program_headers o e = Ok [ph] /\
    bytes_at o file (p_offset ph) (Z.to_nat (p_filesz ph)) = code ++ dat /\ len file = p_offset ph + p_filesz ph.
Proof. apply built_file. Qed.

Lemma elf_parse_in_bounds_witness :
  (exists e, parse (fun _ => 0) build_hello_elf = Ok e) /\
  parse (fun _ => 0) build_hello_elf = parse (fun _ => 1) build_hello_elf /\
  forall e, parse (fun _ => 0) build_hello_elf = Ok e -> program_headers (fun _ => 0) e = program_headers (fun _ => 1) e.
Proof.
  split; [eexists; vm_compute; reflexivity|]. apply elf_parse_in_bounds; [unfold is_bytes; by_compute|vm_compute; reflexivity].
Defined.

Lemma create_elf_roundtrip_witness :
  let file := create_elf_binary DEFAULT_USER_CODE_BASE [0x0f; 0x05] [72; 105] in
  exists e, parse (fun _ => 0) file = Ok e /\ entry_point e = DEFAULT_USER_CODE_BASE /\
    program_headers (fun _ => 0) e = Ok [built_phdr DEFAULT_USER_CODE_BASE 4] /\
    bytes_at (fun _ => 0) file HEADER_OFFSET 4 = [0x0f; 0x05; 72; 105] /\ len file = HEADER_OFFSET + 4.
Proof.
  apply (create_elf_roundtrip (fun _ => 0) DEFAULT_USER_CODE_BASE [0x0f; 0x05] [72; 105]); [by_compute|vm_compute; reflexivity].
Defined.

End Elf.
