(* ===== verification/ElfLoad.v ===== *)
(** * Loading executables (src/src/fs/elf.rs: [load_elf])

    What the loader leaves in memory: each byte of a segment's file data is found
    through the page tables of the new address space at its virtual address.  The
    bounds check of the loader wraps, and then kernel memory outside the file is
    what the program finds. *)

From stdpp Require Import prelude numbers list strings gmap.
From S2P Require Import Prelude Pmm Paging UserSpace PageTree Bytes Elf.
Import Paging UserSpace PageTree.

Module ElfLoad.
Import Bytes Elf.

(** ** Bytes of a word-addressed memory *)
Definition read_byte (m : memory) (a : Z) : Z := Z.land (Z.shiftr (read_word m (a - a mod 8)) (8 * (a mod 8))) 255.

Lemma testbit_byte x i : 0 <= i -> Z.testbit (Z.land x 255) i = (Z.testbit x i && (i <? 8))%bool.
Proof.
  intros Hi. rewrite Z.land_spec. f_equal. change 255 with (Z.ones 8).
  destruct (Z.ltb_spec i 8); [by apply Z.ones_spec_low|by apply Z.ones_spec_high].
Qed.

Lemma write_byte_other m a b x : x <> a - a mod 8 -> write_byte m a b x = m x.
Proof. intros Hx. unfold write_byte, write_word. by rewrite (proj2 (Z.eqb_neq _ _)). Qed.

Lemma read_byte_write m a b a' :
  in_u 8 b -> read_byte (write_byte m a b) a' = if decide (a' = a) then b else read_byte m a'.
Proof.
  intros Hb. unfold read_byte at 1, read_word. destruct (decide (a' - a' mod 8 = a - a mod 8)) as [Hw|Hw].
  2:{ rewrite write_byte_other by done. rewrite decide_False by congruence. done. }
  unfold write_byte, write_word. rewrite Hw, Z.eqb_refl. pose proof (Z.mod_pos_bound a 8). pose proof (Z.mod_pos_bound a' 8).
  apply Z.bits_inj'. intros i Hi. rewrite testbit_byte, Z.shiftr_spec, Z.lor_spec, Z.land_spec by done.
  rewrite testbit_u64_not by lia. rewrite !Z.shiftl_spec by lia. unfold read_word.
  assert (H255 : forall j, Z.testbit 255 j = ((0 <=? j) && (j <? 8))%bool).
  { intros j. destruct (Z.leb_spec 0 j); [|by rewrite Z.testbit_neg_r]. change 255 with (Z.ones 8).
    destruct (Z.ltb_spec j 8); [by apply Z.ones_spec_low|by apply Z.ones_spec_high]. }
  rewrite H255. destruct (decide (a' = a)) as [->|Hne].
  - replace (i + 8 * (a mod 8) - 8 * (a mod 8)) with i by lia. rewrite (proj2 (Z.leb_le 0 i)) by done. cbn [andb].
    destruct (Z.ltb_spec i 8); [cbn; by rewrite andb_false_r, andb_true_r|]. rewrite andb_false_r. symmetry. by apply (testbit_high 8).
  - unfold read_byte, read_word. rewrite Hw, testbit_byte, Z.shiftr_spec by done. destruct (Z.ltb_spec i 8) as [Hi8|]; [|by rewrite !andb_false_r].
    rewrite !andb_true_r. assert (a' mod 8 <> a mod 8) by lia.
    rewrite (proj2 (Z.ltb_lt (i + 8 * (a' mod 8)) 64)), andb_true_r by lia.
    assert (Hout : ((0 <=? i + 8 * (a' mod 8) - 8 * (a mod 8)) && (i + 8 * (a' mod 8) - 8 * (a mod 8) <? 8))%bool = false).
    { apply andb_false_iff. destruct (decide (a' mod 8 < a mod 8)); [left; apply Z.leb_gt|right; apply Z.ltb_ge]; lia. }
    rewrite Hout, andb_true_r. assert (Z.testbit b (i + 8 * (a' mod 8) - 8 * (a mod 8)) = false) as ->; [|by rewrite orb_false_r].
    destruct (decide (a' mod 8 < a mod 8)); [apply Z.testbit_neg_r; lia|apply (testbit_high 8); [done|lia]].
Qed.

(** A copy changes the bytes it covers, and words of its frame only. *)
Lemma read_copy_bytes m dst bs a :
  is_bytes bs -> read_byte (copy_bytes m dst bs) a = if decide (dst <= a < dst + len bs) then nth (Z.to_nat (a - dst)) bs 0 else read_byte m a.
Proof.
  unfold len. revert m dst. induction bs as [|b bs IH]; intros m dst Hb; cbn [copy_bytes length].
  { rewrite decide_False by lia. done. }
  apply Forall_cons_1 in Hb as [Hb Hbs]. rewrite (IH _ (dst + 1)) by done. rewrite read_byte_write by done.
  destruct (decide (dst + 1 <= a < dst + 1 + Z.of_nat (length bs))) as [Hin|Hout].
  - rewrite decide_True by lia. replace (Z.to_nat (a - dst)) with (S (Z.to_nat (a - (dst + 1)))) by lia. done.
  - destruct (decide (a = dst)) as [->|]; [rewrite decide_True by lia; by rewrite Z.sub_diag|by rewrite decide_False by lia].
Qed.

Lemma copy_bytes_frame m dst bs f x :
  f mod PAGE_SIZE = 0 -> f <= dst -> dst + len bs <= f + PAGE_SIZE -> ~ (f <= x < f + PAGE_SIZE) -> copy_bytes m dst bs x = m x.
Proof.
  unfold len, PAGE_SIZE. intros Hf. revert m dst. induction bs as [|b bs IH]; intros m dst H1 H2 Hx; [done|].
  cbn [copy_bytes length] in *. rewrite IH by lia. apply write_byte_other.
  assert (f mod 8 = 0) by (apply (mod_pow2_le f 3 12); [lia|exact Hf]). pose proof (Z.div_mod f 8). pose proof (Z.div_mod dst 8).
  pose proof (Z.mod_pos_bound dst 8). assert (f / 8 <= dst / 8) by (apply Z.div_le_mono; lia). lia.
Qed.

(** The entries of other frames. *)
Lemma entry_copy m dst bs f t k :
  f mod PAGE_SIZE = 0 -> f <= dst -> dst + len bs <= f + PAGE_SIZE -> frame_addr t -> t <> f -> 0 <= k < 512 ->
  Paging.entry (copy_bytes m dst bs) t k = Paging.entry m t k.
Proof.
  intros Hf H1 H2 [_ Ht] Hne Hk. unfold Paging.entry, read_word, slot. apply (copy_bytes_frame _ _ _ f); [done..|].
  unfold PAGE_SIZE in *. pose proof (Z.div_mod f 4096). pose proof (Z.div_mod t 4096). intros Hin. apply Hne. nia.
Qed.

(** A byte of a frame is part of one of its entries. *)
Lemma read_byte_entry m m' f i :
  f mod PAGE_SIZE = 0 -> 0 <= i < PAGE_SIZE -> (forall k, 0 <= k < 512 -> Paging.entry m' f k = Paging.entry m f k) ->
  read_byte m' (f + i) = read_byte m (f + i).
Proof.
  intros Hf Hi He. unfold read_byte. do 2 f_equal. unfold PAGE_SIZE in *.
  assert (f mod 8 = 0) by (apply (mod_pow2_le f 3 12); [lia|exact Hf]).
  assert ((f + i) mod 8 = i mod 8) as -> by (rewrite Z.add_mod, H, Z.add_0_l, Z.mod_mod; lia).
  pose proof (Z.div_mod i 8). pose proof (Z.mod_pos_bound i 8).
  specialize (He (i / 8)). unfold Paging.entry, slot in He. replace (f + i - i mod 8) with (f + 8 * (i / 8)) by lia.
  apply He. split; [apply Z.div_pos; lia|apply Z.div_lt_upper_bound; lia].
Qed.

(** ** Pages *)
Lemma lor_offset f x : frame_addr f -> Z.lor f (Z.land x 0xFFF) = f + x mod PAGE_SIZE.
Proof.
  intros [_ Hf]. change 0xFFF with (2 ^ 12 - 1). rewrite land_mask by lia. change (2 ^ 12) with PAGE_SIZE.
  pose proof (Z.mod_pos_bound x PAGE_SIZE ltac:(done)). rewrite <- Z.add_lor_land.
  enough (Z.land f (x mod PAGE_SIZE) = 0) as -> by lia. apply Z.bits_inj'. intros i Hi. rewrite Z.land_spec, Z.bits_0.
  destruct (Z.ltb_spec i 12).
  - assert (Z.testbit f i = false) as ->; [|done]. assert (f = Z.shiftl (f / 2 ^ 12) 12) as ->.
    { rewrite Z.shiftl_mul_pow2 by lia. pose proof (Z.div_mod f 4096). change (2 ^ 12) with 4096. unfold PAGE_SIZE in *. lia. }
    rewrite Z.shiftl_spec by done. apply Z.testbit_neg_r. lia.
  - rewrite (testbit_high 12 (x mod PAGE_SIZE)) by (done || split; unfold PAGE_SIZE in *; lia). apply andb_false_r.
Qed.

Lemma page_eq a b : 0 <= a -> 0 <= b -> Z.shiftr a 12 = Z.shiftr b 12 <-> a / PAGE_SIZE = b / PAGE_SIZE.
Proof. intros Ha Hb. rewrite !Z.shiftr_div_pow2 by lia. done. Qed.

(** A page table maps whole pages. *)
Lemma walk_page n m t a b f :
  0 <= a -> 0 <= b -> Z.shiftr a 12 = Z.shiftr b 12 -> frame_addr f -> no_huge n m t a -> (n <= 4)%nat ->
  walk n m t a = Some (f + a mod PAGE_SIZE) -> walk n m t b = Some (f + b mod PAGE_SIZE).
Proof.
  intros Ha Hb Hp Hf. revert t. induction n as [|n IH]; intros t Hn Hn4 Hw; [done|]. cbn [walk] in *.
  assert (Hl : level_index (S n) b = level_index (S n) a).
  { unfold level_index. rewrite <- !(Z.shiftr_shiftr _ 12) by lia. by rewrite Hp. }
  rewrite Hl. set (e := Paging.entry m t (level_index (S n) a)) in *. destruct (is_present e) eqn:Ep; [|done]. cbn [negb] in *.
  destruct n as [|n].
  - rewrite (lor_offset _ a) in Hw by apply entry_addr_frame. rewrite lor_offset by apply entry_addr_frame.
    injection Hw as Hw. f_equal. lia.
  - cbn [no_huge] in Hn. fold e in Hn. destruct (Hn Ep) as [Hg Hrest].
    assert (Hh : (negb (S (S n) =? 4)%nat && is_huge e)%bool = false).
    { destruct Hg as [->| ->]; [apply andb_false_r|done]. }
    rewrite Hh in *. apply IH; [exact Hrest|lia|exact Hw].
Qed.

(** ** One page for user space *)
Section Load.
Context {A : Type} `{FA : Pmm.FrameAllocator A}.

Lemma allocate_and_map_spec (w : world A) s T v writable :
  Pmm.fa_wf (fa w) -> tree (fa w) (mem w) (pml4 s) T -> 0 <= v < 2 ^ 48 -> no_huge 4 (mem w) (pml4 s) v ->
  let '(r, w1, s1) := allocate_and_map_page w s v writable in
  same_areas s s1 /\ Pmm.fa_wf (fa w1) /\
  (forall v', no_huge 4 (mem w) (pml4 s) v' -> no_huge 4 (mem w1) (pml4 s) v') /\
  exists T1, tree (fa w1) (mem w1) (pml4 s) T1 /\ data_kept w w1 T T1 /\
  match r with
  | Some f => data_frame (fa w1) T1 f /\ ~ data_frame (fa w) T f /\ walk 4 (mem w1) (pml4 s) v = Some (f + v mod PAGE_SIZE) /\
      (forall v', 0 <= v' < 2 ^ 48 -> Z.shiftr v' 12 <> Z.shiftr v 12 -> walk 4 (mem w1) (pml4 s) v' = walk 4 (mem w) (pml4 s) v')
  | None => forall v', walk 4 (mem w1) (pml4 s) v' = walk 4 (mem w) (pml4 s) v'
  end.
Proof.
  intros Hwf Htr Hv Hnh. unfold allocate_and_map_page, allocate_frame. destruct (Pmm.fa_alloc (fa w)) as [[f|] a1] eqn:Ea.
  2:{ destruct (Pmm.fa_alloc_None _ _ Hwf Ea) as [-> _]. split; [apply same_areas_refl|]. split; [done|]. split; [done|].
      exists T. split; [done|]. split; [|done]. by intros g Hg. }
  destruct (tree_alloc _ _ _ _ _ _ Hwf Htr Ea) as (Hwf1 & Htr1 & Hd & Hfree & Hfree1).
  set (w2 := set_mem (set_fa w a1) (write_byte (mem w) f 0)).
  assert (Hent : forall t k, frame_addr t -> t <> f -> 0 <= k < 512 -> Paging.entry (mem w2) t k = Paging.entry (mem w) t k).
  { intros t k Ht Hne Hk. apply (entry_copy (mem w) f [0] f t k); [apply Hd|lia|unfold len, PAGE_SIZE; cbn [length]; lia|done..]. }
  destruct (data_write a1 (mem w) (mem w2) (pml4 s) T f Htr1) as (Htr2 & Hnh2 & Hwk2); [apply Hd|done|].
  pose proof (map_user_page_spec w2 (push_frame s f) T v f writable Hwf1 Htr2 Hv (proj1 Hd) (Hnh2 v Hnh)) as Hm.
  change (mem (set_fa w a1)) with (mem w). fold w2.
  destruct (map_user_page w2 (push_frame s f) v f writable) as [[ok w3] s3]. change (pml4 (push_frame s f)) with (pml4 s) in Hm.
  destruct Hm as (Hs3 & Hwf3 & (T1 & Htr3 & Hkept) & Hnh3 & Hm).
  assert (Hk : data_kept w w3 T T1).
  { intros g (Hg & HgT & Hgf). assert (g <> f) by congruence.
    assert (Hg2 : data_frame (fa w2) T g) by (split; [done|]; split; [done|]; cbn [fa w2 set_mem set_fa]; rewrite Hfree1; tauto).
    destruct (Hkept g Hg2) as [Hg3 E]. split; [done|]. intros k Hk. rewrite E by done. by apply Hent. }
  assert (Hsa : same_areas s s3) by (unfold same_areas in *; rewrite Hs3; reflexivity).
  destruct ok; (split; [done|]; split; [done|]; split; [by auto|]; exists T1; split; [done|]; split; [done|]).
  - destruct Hm as (H1 & H2 & _ & _). split; [by apply Hkept|]. split; [by intros (_ & _ & ?)|]. split.
    + rewrite H1, lor_offset; [done|apply Hd].
    + intros v' Hv' Hne. by rewrite H2, Hwk2.
  - intros v'. by rewrite Hm, Hwk2.
Qed.

(** *** The loader's page loop *)
Variable outside : Z -> Z.

(** Through the tables at [root], the byte [b] is at [x], in a frame of data. *)
Definition holds (w : world A) root T (x b : Z) : Prop :=
  exists f, data_frame (fa w) T f /\ walk 4 (mem w) root x = Some (f + x mod PAGE_SIZE) /\ read_byte (mem w) (f + x mod PAGE_SIZE) = b.

Lemma holds_kept w w' root T T' x b :
  data_kept w w' T T' -> walk 4 (mem w') root x = walk 4 (mem w) root x -> holds w root T x b -> holds w' root T' x b.
Proof.
  intros Hk Hw (f & Hf & Hx & Hb). exists f. destruct (Hk f Hf) as [Hf' He]. split; [done|]. split; [congruence|].
  rewrite <- Hb. apply read_byte_entry; [apply Hf|apply Z.mod_pos_bound; done|done].
Qed.

Lemma page_floor_eq a : in_u 64 a -> page_floor a = a - a mod PAGE_SIZE.
Proof.
  intros [H0 H1]. unfold page_floor. change PAGE_SIZE with 4096. pose proof (Z.div_mod a 4096). pose proof (Z.mod_pos_bound a 4096).
  rewrite u64_mul_small by lia. lia.
Qed.

Lemma page_ceil_eq a : 0 <= a < 2 ^ 63 -> page_ceil a = (a + (PAGE_SIZE - 1)) - (a + (PAGE_SIZE - 1)) mod PAGE_SIZE.
Proof.
  intros Ha. unfold page_ceil. pose proof (eq_refl : PAGE_SIZE = 4096). rewrite (u64_add_small a), u64_sub_small by lia.
  rewrite page_floor_eq by (split; lia). by replace (a + PAGE_SIZE - 1) with (a + (PAGE_SIZE - 1)) by lia.
Qed.

(** The byte of the file, or of what is around it, meant for address [x]. *)
Definition file_byte (d : list Z) (file_offset vaddr x : Z) : Z := byte_at outside d (u64_add file_offset (x - vaddr)).

Lemma length_bytes_at d i n : length (bytes_at outside d i n) = n.
Proof. unfold bytes_at. by rewrite length_fmap, length_seq. Qed.

Lemma nth_bytes_at d fo vaddr o n k :
  (k < n)%nat -> nth k (bytes_at outside d (u64_add fo (o - vaddr)) n) 0 = file_byte d fo vaddr (o + Z.of_nat k).
Proof.
  intros Hk. apply nth_lookup_Some. unfold bytes_at. rewrite list_lookup_fmap, lookup_seq_lt by done. cbn [fmap option_fmap option_map].
  unfold file_byte. do 2 f_equal. unfold u64_add, wrap. rewrite Zplus_mod_idemp_l. f_equal. lia.
Qed.

Hypothesis outside_bytes : forall i, in_u 8 (outside i).

Lemma bytes_at_bytes d i n : is_bytes d -> is_bytes (bytes_at outside d i n).
Proof.
  intros Hd. apply Forall_fmap, Forall_forall. intros k _. cbn. unfold byte_at. destruct (_ && _)%bool eqn:E; [|done].
  zbool. destruct (nth_lookup_or_length d (Z.to_nat (u64_add i (Z.of_nat k))) 0) as [Hl|Hl]; [|lia].
  by apply (proj1 (Forall_lookup _ _) Hd _ _ Hl).
Qed.

(** The copy into the frame [f] of the page at [curr]. *)
Lemma copy_page (w : world A) root T f d fo vaddr fend curr :
  tree (fa w) (mem w) root T -> data_frame (fa w) T f -> is_bytes d -> 0 <= vaddr -> 0 <= curr < 2 ^ 47 -> curr mod PAGE_SIZE = 0 ->
  no_huge 4 (mem w) root curr -> walk 4 (mem w) root curr = Some f ->
  let overlap_start := Z.max curr vaddr in
  let overlap_end := Z.min (u64_add curr PAGE_SIZE) fend in
  let w2 := if overlap_start <? overlap_end then
      set_mem w (copy_bytes (mem w) (f + (overlap_start - curr))
        (bytes_at outside d (u64_add fo (overlap_start - vaddr)) (Z.to_nat (overlap_end - overlap_start)))) else w in
  fa w2 = fa w /\ tree (fa w2) (mem w2) root T /\ (forall v, no_huge 4 (mem w) root v -> no_huge 4 (mem w2) root v) /\
  (forall v, walk 4 (mem w2) root v = walk 4 (mem w) root v) /\
  (forall t k, frame_addr t -> t <> f -> 0 <= k < 512 -> Paging.entry (mem w2) t k = Paging.entry (mem w) t k) /\
  (forall x, curr <= x < curr + PAGE_SIZE -> vaddr <= x < fend -> holds w2 root T x (file_byte d fo vaddr x)).
Proof.
  intros Htr Hf Hd Hv Hc Hcm Hnh Hwk. cbv zeta. pose proof (eq_refl : PAGE_SIZE = 4096) as HP. rewrite u64_add_small by lia.
  set (os := Z.max curr vaddr). set (oe := Z.min (curr + PAGE_SIZE) fend).
  destruct (Z.ltb_spec os oe) as [Hlt|Hge].
  2:{ do 5 (split; [done|]). intros x Hx1 Hx2. lia. }
  set (bs := bytes_at outside d _ _). set (w2 := set_mem w _).
  assert (Hlen : len bs = oe - os) by (unfold len, bs; rewrite length_bytes_at; lia).
  assert (Hent : forall t k, frame_addr t -> t <> f -> 0 <= k < 512 -> Paging.entry (mem w2) t k = Paging.entry (mem w) t k).
  { intros t k Ht Hne Hk. apply (entry_copy _ _ _ f); [apply Hf|lia|lia|done..]. }
  destruct (data_write (fa w) (mem w) (mem w2) root T f Htr) as (Htr2 & Hnh2 & Hwk2); [apply Hf|done|].
  do 5 (split; [done|]). intros x Hx1 Hx2. exists f. split; [exact Hf|].
  assert (Hxp : Z.shiftr curr 12 = Z.shiftr x 12).
  { apply page_eq; [lia..|]. rewrite HP in *. pose proof (Z.div_mod curr 4096). pose proof (Z.div_mod x 4096).
    pose proof (Z.mod_pos_bound x 4096). lia. }
  assert (Hxm : x mod PAGE_SIZE = x - curr).
  { symmetry. apply (Z.mod_unique _ _ (curr / PAGE_SIZE)); [lia|]. pose proof (Z.div_mod curr PAGE_SIZE). lia. }
  split.
  - rewrite Hwk2. apply (walk_page 4 (mem w) root curr x f); [lia..|exact Hxp|apply Hf|done|lia|]. rewrite Hcm, Z.add_0_r. exact Hwk.
  - cbn [w2 mem set_mem]. rewrite read_copy_bytes by (by apply bytes_at_bytes). rewrite decide_True by lia. unfold bs.
    rewrite nth_bytes_at by lia. f_equal. lia.
Qed.

Lemma load_pages_spec fuel (w : world A) s T d fo vaddr fend eend curr pages :
  Pmm.fa_wf (fa w) -> tree (fa w) (mem w) (pml4 s) T -> is_bytes d -> 0 <= vaddr -> eend <= 2 ^ 47 -> eend mod PAGE_SIZE = 0 ->
  0 <= curr -> curr mod PAGE_SIZE = 0 -> (Z.to_nat ((eend - curr) / PAGE_SIZE) <= fuel)%nat ->
  (forall v, curr <= v < eend -> no_huge 4 (mem w) (pml4 s) v) ->
  (forall x, vaddr <= x < fend -> x < curr -> holds w (pml4 s) T x (file_byte d fo vaddr x)) ->
  exists r w' s', load_pages outside fuel w s d fo vaddr fend eend curr pages = Ret (r, w', s') /\ same_areas s s' /\ Pmm.fa_wf (fa w') /\
    (forall v, no_huge 4 (mem w) (pml4 s) v -> no_huge 4 (mem w') (pml4 s) v) /\
    exists T', tree (fa w') (mem w') (pml4 s) T' /\ data_kept w w' T T' /\
      (forall v, 0 <= v < 2 ^ 48 -> ~ (curr <= v < eend) -> walk 4 (mem w') (pml4 s) v = walk 4 (mem w) (pml4 s) v) /\
      (r <> None -> forall x, vaddr <= x < fend -> x < Z.max curr eend -> holds w' (pml4 s) T' x (file_byte d fo vaddr x)).
Proof.
  revert w s T curr pages. induction fuel as [|fuel IH]; intros w s T curr pages Hwf Htr Hd Hv He Hem Hc Hcm Hfuel Hnh Hdone.
  all: pose proof (eq_refl : PAGE_SIZE = 4096) as HP; cbn [load_pages]; destruct (Z.ltb_spec curr eend) as [Hlt|Hge].
  1: { exfalso. assert (1 <= (eend - curr) / PAGE_SIZE); [|lia]. apply Z.div_le_lower_bound; [lia|].
       rewrite HP in *. pose proof (Z.div_mod curr 4096). pose proof (Z.div_mod eend 4096). lia. }
  1, 3: eexists (Some pages), w, s; split; [done|]; split; [apply same_areas_refl|]; split; [done|]; split; [done|];
    exists T; split; [done|]; split; [by intros g Hg|]; split; [done|]; intros _ x Hx Hxc; apply Hdone; lia.
  pose proof (allocate_and_map_spec w s T curr true Hwf Htr ltac:(lia) (Hnh curr ltac:(lia))) as Ha.
  destruct (allocate_and_map_page w s curr true) as [[[f|] w1] s1]; destruct Ha as (Hs1 & Hwf1 & Hnh1 & T1 & Htr1 & Hk1 & Ha).
  2:{ eexists None, w1, s1. split; [done|]. split; [done|]. split; [done|]. split; [done|]. exists T1. split; [done|]. split; [done|].
      split; [intros v _ _; apply Ha|done]. }
  destruct Ha as (Hf & Hfnew & Hwf_ & Hother). rewrite Hcm, Z.add_0_r in Hwf_. assert (Hp : pml4 s1 = pml4 s) by (by rewrite Hs1).
  pose proof (copy_page w1 (pml4 s) T1 f d fo vaddr fend curr Htr1 Hf Hd Hv ltac:(lia) Hcm (Hnh1 curr (Hnh curr ltac:(lia))) Hwf_) as Hcp.
  cbv zeta in *. set (w2 := if _ <? _ then _ else w1) in *. destruct Hcp as (Hfa & Htr2 & Hnh2 & Hwk2 & Hent & Hpage).
  assert (Hk2 : data_kept w w2 T T1).
  { intros g Hg. destruct (Hk1 g Hg) as [Hg1 E]. split; [by rewrite Hfa|]. intros k Hk. rewrite <- E by done.
    apply Hent; [apply Hg|congruence|done]. }
  assert (Hsame : forall x, 0 <= x < 2 ^ 48 -> ~ (curr <= x < curr + PAGE_SIZE) -> walk 4 (mem w2) (pml4 s) x = walk 4 (mem w) (pml4 s) x).
  { intros x Hx Hout. rewrite Hwk2. apply Hother; [done|]. rewrite page_eq by lia. intros Heq.
    rewrite HP in *. pose proof (Z.div_mod curr 4096). pose proof (Z.div_mod x 4096). pose proof (Z.mod_pos_bound x 4096). lia. }
  assert (Hnext : curr + PAGE_SIZE <= eend) by (rewrite HP in *; pose proof (Z.div_mod curr 4096); pose proof (Z.div_mod eend 4096); lia).
  rewrite u64_add_small by lia.
  destruct (IH w2 s1 T1 (curr + PAGE_SIZE) (pages ++ [curr])) as (r & w' & s' & E & Hs' & Hwf' & Hnh' & T' & Htr' & Hk' & Hwk' & Hh');
    rewrite ?Hp, ?Hfa; try done.
  - by rewrite Hfa in Htr2.
  - lia.
  - rewrite HP in *. rewrite Z.add_mod, Hcm by lia. done.
  - replace ((eend - (curr + PAGE_SIZE)) / PAGE_SIZE) with ((eend - curr) / PAGE_SIZE - 1); [lia|].
    replace (eend - curr) with (eend - (curr + PAGE_SIZE) + 1 * PAGE_SIZE) by lia. rewrite Z.div_add by lia. lia.
  - intros v Hvr. apply Hnh2, Hnh1, Hnh. lia.
  - intros x Hx Hxc. destruct (decide (curr <= x)); [apply Hpage; lia|]. eapply holds_kept; [exact Hk2| |apply Hdone; lia].
    apply Hsame; lia.
  - rewrite Hp in *. exists r, w', s'. split; [exact E|]. split; [by eapply same_areas_trans|]. split; [done|]. split; [by auto|].
    exists T'. split; [done|]. split; [by eapply data_kept_trans|]. split.
    + intros v Hvr Hout. rewrite Hwk' by lia. apply Hsame; lia.
    + intros Hr x Hx Hxc. apply Hh'; [done|done|lia].
Qed.


(** *** A segment *)

(** A segment of the lower half that passes the checks of the loader. *)
Record segment_ok (d : list Z) (ph : Elf64ProgramHeader) : Prop := {
  so_sizes : 0 <= p_filesz ph <= p_memsz ph;
  so_range : 0 <= p_vaddr ph /\ p_vaddr ph + p_memsz ph <= 2 ^ 46;
  so_offset : in_u 64 (p_offset ph);
  so_check : u64_add (p_offset ph) (p_filesz ph) <= len d
}.

(** The pages the segment touches. *)
Definition in_pages (ph : Elf64ProgramHeader) (v : Z) : Prop :=
  page_floor (p_vaddr ph) <= v < page_ceil (p_vaddr ph + p_memsz ph).

Lemma page_bounds a : 0 <= a <= 2 ^ 46 ->
  page_floor a <= a < page_floor a + PAGE_SIZE /\ page_floor a mod PAGE_SIZE = 0 /\ 0 <= page_floor a /\
  a <= page_ceil a < a + PAGE_SIZE /\ page_ceil a mod PAGE_SIZE = 0.
Proof.
  intros Ha. rewrite page_floor_eq by (split; lia). rewrite page_ceil_eq by lia. change PAGE_SIZE with 4096.
  assert (Hm : forall x, (x - x mod 4096) mod 4096 = 0) by (intros x; rewrite Zminus_mod_idemp_r, Z.sub_diag; done).
  pose proof (Z.mod_pos_bound a 4096). pose proof (Z.mod_pos_bound (a + (4096 - 1)) 4096). pose proof (Z.mod_le a 4096).
  split; [lia|]. split; [apply Hm|]. split; [lia|]. split; [lia|apply Hm].
Qed.

Lemma page_ceil_mono a b : 0 <= a <= b -> b <= 2 ^ 46 -> page_ceil a <= page_ceil b.
Proof.
  intros H1 H2. rewrite !page_ceil_eq by lia. change PAGE_SIZE with 4096. pose proof (Z.div_mod (a + (4096 - 1)) 4096).
  pose proof (Z.div_mod (b + (4096 - 1)) 4096). pose proof (Z.div_le_mono (a + (4096 - 1)) (b + (4096 - 1)) 4096). lia.
Qed.

Lemma add_vma_pml4 (s : AddressSpace) v : pml4 (add_vma s v).2 = pml4 s.
Proof. unfold add_vma. destruct (_ || _)%bool; [done|]. by destruct (existsb (fun e => overlaps e (start v) (size v)) (vmas s)). Qed.

Lemma load_segment_spec (w : world A) s T d ph :
  Pmm.fa_wf (fa w) -> tree (fa w) (mem w) (pml4 s) T -> is_bytes d -> segment_ok d ph ->
  (forall v, in_pages ph v -> no_huge 4 (mem w) (pml4 s) v) ->
  exists r w' s', load_segment outside w s d ph = Ret (r, w', s') /\ pml4 s' = pml4 s /\ Pmm.fa_wf (fa w') /\
    (forall v, no_huge 4 (mem w) (pml4 s) v -> no_huge 4 (mem w') (pml4 s) v) /\
    exists T', tree (fa w') (mem w') (pml4 s) T' /\ data_kept w w' T T' /\
      (forall v, 0 <= v < 2 ^ 48 -> ~ in_pages ph v -> walk 4 (mem w') (pml4 s) v = walk 4 (mem w) (pml4 s) v) /\
      match r with
      | Ok _ => forall x, p_vaddr ph <= x < p_vaddr ph + p_filesz ph ->
                  holds w' (pml4 s) T' x (file_byte d (p_offset ph) (p_vaddr ph) x)
      | Err e => e = SegmentMappingFailed
      end.
Proof.
  intros Hwf Htr Hd [Hsz Hr Ho Hck] Hnh. pose proof (eq_refl : PAGE_SIZE = 4096) as HP. unfold load_segment. cbv zeta.
  rewrite (proj2 (Z.ltb_ge _ _)) by lia. rewrite (proj2 (Z.ltb_ge _ _)) by (unfold len in Hck; lia).
  unfold in_pages in *. rewrite !(u64_add_small (p_vaddr ph)) by lia.
  set (va := p_vaddr ph) in *. set (fend := va + p_filesz ph).
  destruct (page_bounds va) as (F1 & F2 & F3 & _); [lia|]. destruct (page_bounds fend) as (_ & _ & _ & C1 & C2); [unfold fend; lia|].
  destruct (page_bounds (va + p_memsz ph)) as (_ & _ & _ & C3 & C4); [lia|].
  pose proof (page_ceil_mono fend (va + p_memsz ph) ltac:(unfold fend; lia) ltac:(lia)) as Hmono.
  set (ps := page_floor va) in *. set (pe := page_ceil (va + p_memsz ph)) in *.
  set (ee := eager_end ps pe fend (p_filesz ph)).
  assert (Hee : ee <= pe /\ ee mod PAGE_SIZE = 0 /\ (0 < p_filesz ph -> fend <= ee)).
  { unfold ee, eager_end. destruct (Z.ltb_spec 0 (p_filesz ph)); [rewrite Z.min_l by lia; split; [lia|]; split; [done|lia]|].
    destruct (Z.min_spec ps pe) as [[_ ->]|[_ ->]]; (split; [lia|]; split; [done|lia]). }
  destruct Hee as (He1 & He2 & He3).
  destruct (load_pages_spec (Z.to_nat ((ee - ps) / PAGE_SIZE)) w s T d (p_offset ph) va fend ee ps [])
    as (r & w' & s' & -> & Hs' & Hwf' & Hnh' & T' & Htr' & Hk' & Hwk' & Hh'); try done; [lia|lia|intros v Hv; apply Hnh; lia|lia|].
  cbn [mbind outcome_bind]. assert (Hp : pml4 s' = pml4 s) by (by rewrite Hs').
  destruct r as [pages|]; eexists _, w', _; (split; [reflexivity|]; split; [by rewrite ?add_vma_pml4|]; split; [done|]; split; [done|]; exists T';
    split; [done|]; split; [done|]; split; [intros v Hv Hout; apply Hwk'; [done|lia]|]); [|done].
  intros x Hx. apply Hh'; [done|unfold fend; lia|]. specialize (He3 ltac:(lia)). unfold fend in *. lia.
Qed.

(** The bytes of a segment whose file range really lies in the file. *)
Lemma file_byte_in d ph x :
  0 <= p_offset ph -> p_offset ph + p_filesz ph <= len d -> len d < 2 ^ 63 -> p_vaddr ph <= x < p_vaddr ph + p_filesz ph ->
  file_byte d (p_offset ph) (p_vaddr ph) x = nth (Z.to_nat (p_offset ph + (x - p_vaddr ph))) d 0.
Proof.
  intros Ho Hl Hu Hx. unfold file_byte, byte_at, len in *. rewrite u64_add_small by lia.
  by rewrite (proj2 (Z.leb_le _ _)), (proj2 (Z.ltb_lt _ _)) by lia.
Qed.

(** Loading a segment: over a tree of page tables without large pages in the
    range, [load_segment] of a segment whose file range lies in the file returns;
    when it answers [Ok], every byte of the file range is found at its virtual
    address through the new tables, no page outside the segment translates
    differently and no other data frame changed; otherwise it ran out of memory. *)
Theorem segment_loaded (w : world A) s T d ph :
  Pmm.fa_wf (fa w) -> tree (fa w) (mem w) (pml4 s) T -> is_bytes d -> len d < 2 ^ 63 -> segment_ok d ph ->
  p_offset ph + p_filesz ph <= len d -> (forall v, in_pages ph v -> no_huge 4 (mem w) (pml4 s) v) ->
  exists r w' s' T', load_segment outside w s d ph = Ret (r, w', s') /\ tree (fa w') (mem w') (pml4 s') T' /\ data_kept w w' T T' /\
    (forall v, 0 <= v < 2 ^ 48 -> ~ in_pages ph v -> virt_to_phys (mem w') (pml4 s') v = virt_to_phys (mem w) (pml4 s) v) /\
    match r with
    | Ok _ => forall x, p_vaddr ph <= x < p_vaddr ph + p_filesz ph ->
        exists pa, virt_to_phys (mem w') (pml4 s') x = Some pa /\
          read_byte (mem w') pa = nth (Z.to_nat (p_offset ph + (x - p_vaddr ph))) d 0
    | Err e => e = SegmentMappingFailed
    end.
Proof.
  intros Hwf Htr Hd Hu Hok Hin Hnh.
  destruct (load_segment_spec w s T d ph Hwf Htr Hd Hok Hnh) as (r & w' & s' & E & Hp & _ & _ & T' & Htr' & Hk & Hwk & Hr).
  exists r, w', s', T'. rewrite Hp. split; [done|]. split; [done|]. split; [done|]. split; [intros v; apply Hwk|].
  destruct r as [u|e]; [|done]. intros x Hx. destruct (Hr x Hx) as (f & _ & Hw & Hb). exists (f + x mod PAGE_SIZE).
  split; [done|]. rewrite Hb. apply file_byte_in; [apply Hok|done..].
Qed.

(** The bounds check of the loader wraps: a segment whose file offset lies
    beyond the file passes it when offset plus size exceed 2^64, and then, when
    the pages can be mapped, the program finds at its address the kernel memory
    around the file. *)
Theorem segment_reads_outside (w : world A) s T d ph w' s' u :
  Pmm.fa_wf (fa w) -> tree (fa w) (mem w) (pml4 s) T -> is_bytes d -> segment_ok d ph ->
  len d <= p_offset ph -> 0 < p_filesz ph -> (forall v, in_pages ph v -> no_huge 4 (mem w) (pml4 s) v) ->
  load_segment outside w s d ph = Ret (Ok u, w', s') ->
  exists pa, virt_to_phys (mem w') (pml4 s') (p_vaddr ph) = Some pa /\ read_byte (mem w') pa = outside (p_offset ph).
Proof.
  intros Hwf Htr Hd Hok Hout Hsz Hnh E.
  destruct (load_segment_spec w s T d ph Hwf Htr Hd Hok Hnh) as (r & w1 & s1 & E1 & Hp & _ & _ & T' & _ & _ & _ & Hr).
  rewrite E in E1. injection E1 as <- <- <-. destruct (Hr (p_vaddr ph) ltac:(lia)) as (f & _ & Hw & Hb).
  eexists. rewrite Hp. split; [exact Hw|]. rewrite Hb. unfold file_byte, byte_at. rewrite Z.sub_diag. destruct (so_offset _ _ Hok).
  rewrite u64_add_small by lia. rewrite Z.add_0_r, (proj2 (Z.ltb_ge _ _)) by (unfold len in *; lia). by rewrite andb_false_r.
Qed.

End Load.

(** *** Witnesses: a machine with four free frames *)
Definition small_file : list Z := create_elf_binary DEFAULT_USER_CODE_BASE [0x0f; 0x05] [72; 105].
Definition small_ph : Elf64ProgramHeader := built_phdr DEFAULT_USER_CODE_BASE 4.
Definition wild_ph : Elf64ProgramHeader := mkPhdr PT_LOAD PF_R (2 ^ 64 - 8) DEFAULT_USER_CODE_BASE 0 16 16 PAGE_SIZE.

Lemma demo_no_huge v : no_huge 4 (mem demo_world) (pml4 demo_space) v.
Proof. by apply no_huge_zero. Qed.

Lemma small_ok : segment_ok small_file small_ph.
Proof. split; by_compute. Qed.
Lemma wild_ok : segment_ok small_file wild_ph.
Proof. split; by_compute. Qed.

Lemma segment_loaded_witness :
  exists r w' s' T', load_segment (fun _ => 0) demo_world demo_space small_file small_ph = Ret (r, w', s') /\
    tree (fa w') (mem w') (pml4 s') T' /\ data_kept demo_world w' demo_tree T' /\
    (forall v, 0 <= v < 2 ^ 48 -> ~ in_pages small_ph v -> virt_to_phys (mem w') (pml4 s') v = virt_to_phys (mem demo_world) (pml4 demo_space) v) /\
    match r with
    | Ok _ => forall x, p_vaddr small_ph <= x < p_vaddr small_ph + p_filesz small_ph ->
        exists pa, virt_to_phys (mem w') (pml4 s') x = Some pa /\
          read_byte (mem w') pa = nth (Z.to_nat (p_offset small_ph + (x - p_vaddr small_ph))) small_file 0
    | Err e => e = SegmentMappingFailed
    end.
Proof.
  apply segment_loaded; [intros _; by_compute|apply demo_wf|apply demo_tree_ok|unfold is_bytes; by_compute|by_compute|apply small_ok|by_compute|].
  intros v _. apply demo_no_huge.
Defined.

(** The memory after loading the wild segment, when kernel memory holds 42s. *)
Definition wild_loaded := load_segment (fun _ => 42) demo_world demo_space small_file wild_ph.
Definition wild_world : world Pmm.Pmm := match wild_loaded with Ret (_, w, _) => w | _ => demo_world end.
Definition wild_space : AddressSpace := match wild_loaded with Ret (_, _, s) => s | _ => demo_space end.

Lemma wild_loads : load_segment (fun _ => 42) demo_world demo_space small_file wild_ph = Ret (Ok tt, wild_world, wild_space).
Proof.
  assert (Hok : match wild_loaded with Ret (Ok _, _, _) => true | _ => false end = true) by (vm_compute; reflexivity).
  unfold wild_world, wild_space. unfold wild_loaded in *. destruct (load_segment _ _ _ _ _) as [[[[u|e] w1] s1]| |]; [by destruct u|done..].
Qed.

Lemma byte_42 (i : Z) : in_u 8 42.
Proof. by_compute. Qed.

Lemma segment_reads_outside_witness :
  exists pa, virt_to_phys (mem wild_world) (pml4 wild_space) DEFAULT_USER_CODE_BASE = Some pa /\ read_byte (mem wild_world) pa = 42.
Proof.
  apply (segment_reads_outside (fun _ => 42) byte_42 demo_world demo_space demo_tree small_file wild_ph wild_world wild_space tt);
    [apply demo_wf|apply demo_tree_ok|unfold is_bytes; by_compute|apply wild_ok|by_compute|by_compute|intros v _; apply demo_no_huge|].
  exact wild_loads.
Defined.

End ElfLoad.
