(* ===== verification/Lifetime.v ===== *)
(** * The life of an address space
    (src/src/memory/user_space.rs, from [AddressSpace::new] to [Drop])

    An invariant of the frames, tables and areas of one address space that its creation
    establishes and every operation on it keeps, also when memory runs out in the
    middle; so that whatever is done with the space, dropping it leaves the allocator
    with the frames it had.  The operations are those of a program and of the loader,
    on addresses where the kernel maps nothing. *)

From stdpp Require Import prelude numbers list strings gmap.
From S2P Require Import Prelude Bytes Pmm Paging UserSpace PageTree OwnTables Faults NewSpace ElfLoad.
Import Paging UserSpace PageTree OwnTables Faults NewSpace.

Module Lifetime.

(** From 1 GiB to 3 GiB: below is the memory of the kernel, above are its devices. *)
Definition WINDOW_START : Z := 0x40000000.
Definition WINDOW_END : Z := 0xC0000000.
Definition window (v : Z) : Prop := WINDOW_START <= v < WINDOW_END.

(** ** Frames *)
Section Frames.
Context {A : Type} `{FA : Pmm.FrameAllocator A}.
(** The frames that were free when the space was created, and the memory then. *)
Context (C0 : Z -> Prop) (m0 : memory) (HC0 : forall b, C0 b -> Pmm.is_frame b).

(** Free, or on the list of the space. *)
Definition owned (w : world A) (s : AddressSpace) (b : Z) : Prop := Pmm.fa_free (fa w) b \/ b ∈ allocated_frames s.

(** The frame a page of the window is mapped to. *)
Definition maps (w : world A) (s : AddressSpace) (v x : Z) : Prop := window v /\ v mod PAGE_SIZE = 0 /\ walk 4 (mem w) (pml4 s) v = Some x.

Record frames_inv (w : world A) (s : AddressSpace) (T : Z -> option (nat * Z)) : Prop := {
  fi_wf : Pmm.fa_wf (fa w);
  fi_tree : tree (fa w) (mem w) (pml4 s) T;
  fi_small : forall v, window v -> no_huge 4 (mem w) (pml4 s) v;
  fi_leaf : forall v x, maps w s v x -> C0 x /\ data_frame (fa w) T x;
  fi_once : forall v v' x, maps w s v x -> maps w s v' x -> v = v';
  fi_owned : forall b, C0 b <-> owned w s b;
  fi_own : forall v, window v -> own C0 4 (mem w) (pml4 s) v;
  fi_kept : kept C0 m0 (mem w)
}.

Lemma window_48 v : window v -> 0 <= v < 2 ^ 48.
Proof. unfold window, WINDOW_START, WINDOW_END. lia. Qed.
Lemma aligned_lor f v : v mod PAGE_SIZE = 0 -> Z.lor f (Z.land v 0xFFF) = f.
Proof. intros Hv. change 0xFFF with (2 ^ 12 - 1). rewrite land_mask by lia. change (2 ^ 12) with PAGE_SIZE. by rewrite Hv, Z.lor_0_r. Qed.
Lemma aligned_page a b : 0 <= a -> 0 <= b -> a mod PAGE_SIZE = 0 -> b mod PAGE_SIZE = 0 -> Z.shiftr a 12 = Z.shiftr b 12 -> a = b.
Proof. intros Ha Hb Ea Eb. rewrite !Z.shiftr_div_pow2 by lia. change (2 ^ 12) with PAGE_SIZE. pose proof (Z.div_mod a PAGE_SIZE). pose proof (Z.div_mod b PAGE_SIZE). unfold PAGE_SIZE in *. lia. Qed.

(** Only the frame list of the space matters. *)
Lemma inv_areas w s s' T : pml4 s' = pml4 s -> allocated_frames s' = allocated_frames s -> frames_inv w s T -> frames_inv w s' T.
Proof. intros E1 E2 [I1 I2 I3 I4 I5 I6 I7 I8]. unfold maps, owned in *. constructor; unfold maps, owned; rewrite ?E1, ?E2; done. Qed.

(** Writing to a frame that is no table leaves the tables of the space its own. *)
Lemma own_data a m m' root T f v : tree a m root T -> T f = None -> (forall t k, frame_addr t -> t <> f -> 0 <= k < 512 -> entry m' t k = entry m t k) -> no_huge 4 m root v -> own C0 4 m root v -> own C0 4 m' root v.
Proof.
  intros Htr Hf Hm. apply (own_links C0 a m m' root T 4 root 0 v Htr); [|apply Htr]. apply links_unchanged. intros t l p j Ht Hj. destruct (tr_frame _ _ _ _ Htr _ _ _ Ht) as [? _]. apply Hm; [done|congruence|done].
Qed.
Lemma kept_data m m' f : C0 f -> (forall t k, frame_addr t -> t <> f -> 0 <= k < 512 -> entry m' t k = entry m t k) -> kept C0 m m'.
Proof. intros Hf Hm t k Ht Hn Hk. apply Hm; [done|congruence|done]. Qed.

(** Taking a frame, putting it on the list and writing to it. *)
Lemma take_frame w s T f a m : frames_inv w s T -> Pmm.fa_alloc (fa w) = (Some f, a) -> (forall t k, frame_addr t -> t <> f -> 0 <= k < 512 -> entry m t k = entry (mem w) t k) ->
  frames_inv (set_mem (set_fa w a) m) (push_frame s f) T /\ data_frame a T f /\ C0 f /\ forall v x, maps (set_mem (set_fa w a) m) (push_frame s f) v x -> x <> f.
Proof.
  intros [I1 I2 I3 I4 I5 I6 I7 I8] Ha Hm. destruct (tree_alloc _ _ _ _ _ _ I1 I2 Ha) as (Hwf & Ht & Hd & Hfree & Hall). destruct (data_write a (mem w) m (pml4 s) T f Ht) as (Ht2 & Hnh & Hwk); [apply Hd|exact Hm|].
  assert (Hmaps : forall v x, maps (set_mem (set_fa w a) m) (push_frame s f) v x <-> maps w s v x) by (intros v x; unfold maps; cbn [mem set_mem pml4 push_frame set_frames]; by rewrite Hwk).
  assert (Hf : C0 f) by (apply I6; by left).
  assert (Hne : forall v x, maps w s v x -> x <> f) by (intros v x Hx ->; destruct (I4 v f Hx) as [_ (_ & _ & Hn)]; done).
  split; [|split; [done|split; [done|intros v x Hx%Hmaps; by eapply Hne]]]. constructor; cbn [fa mem set_mem set_fa pml4 push_frame set_frames]; [done|done|intros v Hv; apply Hnh; by apply I3|..].
  - intros v x Hx%Hmaps. destruct (I4 v x Hx) as [Hc (F1 & F2 & F3)]. split; [done|]. split; [done|]. split; [done|]. rewrite Hall. tauto.
  - intros v v' x Hx%Hmaps Hx'%Hmaps. by eapply I5.
  - intros b. rewrite I6. unfold owned. cbn [fa set_mem set_fa allocated_frames push_frame set_frames]. rewrite Hall, elem_of_app, list_elem_of_singleton. split; [|intros [[? _]|[?| ->]]; tauto].
    intros [Hb|Hb]; [destruct (decide (b = f)); tauto|tauto].
  - intros v Hv. eapply (own_data (fa w) (mem w)); [done|apply Hd|done|by apply I3|by apply I7].
  - eapply kept_trans; [done|by eapply kept_data].
Qed.

(** Writing to a frame that is no table. *)
Lemma write_frame w s T f m : frames_inv w s T -> T f = None -> C0 f -> (forall t k, frame_addr t -> t <> f -> 0 <= k < 512 -> entry m t k = entry (mem w) t k) -> frames_inv (set_mem w m) s T.
Proof.
  intros [I1 I2 I3 I4 I5 I6 I7 I8] Hf HCf Hm. destruct (data_write (fa w) (mem w) m (pml4 s) T f I2 Hf Hm) as (Ht2 & Hnh & Hwk).
  assert (Hmaps : forall v x, maps (set_mem w m) s v x <-> maps w s v x) by (intros v x; unfold maps; cbn [mem set_mem]; by rewrite Hwk).
  constructor; cbn [fa mem set_mem]; [done|done|intros v Hv; apply Hnh; by apply I3|intros v x Hx%Hmaps; by eapply I4|intros v v' x Hx%Hmaps Hx'%Hmaps; by eapply I5|exact I6|intros v Hv; eapply (own_data (fa w) (mem w)); [done|exact Hf|done|by apply I3|by apply I7]|eapply kept_trans; [done|by eapply kept_data]].
Qed.

(** Giving back a frame of the space that nothing maps. *)
Lemma give_back w s T f : frames_inv w s T -> C0 f -> T f = None -> (forall v x, maps w s v x -> x <> f) -> exists w', free_frame w f = Ret w' /\ frames_inv w' s T /\ mem w' = mem w.
Proof.
  intros [I1 I2 I3 I4 I5 I6 I7 I8] Hf HT Hm. unfold free_frame. destruct (Pmm.fa_dealloc_spec (fa w) f I1) as (r & a & -> & Hr). cbn [mbind outcome_bind]. eexists. split; [reflexivity|]. split; [|reflexivity].
  assert (Hall : Pmm.fa_wf a /\ forall b, Pmm.fa_free a b <-> Pmm.fa_free (fa w) b \/ b = f).
  { destruct r; [by destruct Hr as (_ & _ & ? & ?)|]. destruct Hr as [-> [Hn|Hn]]; [by destruct Hn; apply HC0|]. split; [done|]. intros b. split; [by left|]. by intros [| ->]. }
  destruct Hall as [Hwf Hall]. constructor; cbn [fa mem set_fa]; [done| |exact I3|..].
  - split; [apply I2| |apply I2]. intros t l p Ht. destruct (tr_frame _ _ _ _ I2 _ _ _ Ht) as (? & ? & ?). split; [done|]. split; [|done]. rewrite Hall. intros [?| ->]; [done|congruence].
  - intros v x Hx. destruct (I4 v x Hx) as [Hc (F1 & F2 & F3)]. split; [done|]. split; [done|]. split; [done|]. rewrite Hall. intros [?| ->]; [done|by apply (Hm v f Hx)].
  - exact I5.
  - intros b. rewrite I6. unfold owned. cbn [fa set_fa]. rewrite Hall. split; [tauto|]. intros [[?| ->]|?]; [by left| |by right]. by apply I6.
  - exact I7.
  - exact I8.
Qed.

(** ** Mapping and unmapping *)
Lemma ensure_owned w s t i : Pmm.fa_wf (fa w) -> let '(_, w1, s1) := ensure_next w s t i in Pmm.fa_wf (fa w1) /\ forall b, owned w1 s1 b <-> owned w s b.
Proof.
  intros Hwf. unfold ensure_next. destruct (is_present _); [done|]. unfold alloc_page_table, allocate_frame. destruct (Pmm.fa_alloc (fa w)) as [[f|] a] eqn:Ea.
  - destruct (Pmm.fa_alloc_Some _ _ _ Hwf Ea) as (Hwf1 & _ & Hf & Hall). split; [done|]. intros b. unfold owned. cbn [fa set_mem set_fa allocated_frames push_frame set_frames]. rewrite Hall, elem_of_app, list_elem_of_singleton.
    destruct (decide (b = f)) as [->|]; tauto.
  - by destruct (Pmm.fa_alloc_None _ _ Hwf Ea) as [-> _].
Qed.

Lemma map_owned w s v f wr : Pmm.fa_wf (fa w) -> let '(_, w1, s1) := map_user_page w s v f wr in forall b, owned w1 s1 b <-> owned w s b.
Proof.
  intros Hwf. unfold map_user_page. pose proof (ensure_owned w s (pml4 s) (p4_index v) Hwf) as H1. destruct (ensure_next w s (pml4 s) (p4_index v)) as [[[t3|] w1] s1]; destruct H1 as [Hwf1 H1]; [|done].
  pose proof (ensure_owned w1 s1 t3 (p3_index v) Hwf1) as H2. destruct (ensure_next w1 s1 t3 (p3_index v)) as [[[t2|] w2] s2]; destruct H2 as [Hwf2 H2]; [|intros b; by rewrite H2].
  pose proof (ensure_owned w2 s2 t2 (p2_index v) Hwf2) as H3. destruct (ensure_next w2 s2 t2 (p2_index v)) as [[[t1|] w3] s3]; destruct H3 as [_ H3]; intros b; [|by rewrite H3, H2].
  change (owned w3 s3 b <-> owned w s b). by rewrite H3, H2, H1.
Qed.

(** A frame of the space that nothing maps is mapped at a page of the window, or
    memory runs out and it stays unmapped. *)
Lemma map_step w s T v f wr : frames_inv w s T -> window v -> v mod PAGE_SIZE = 0 -> data_frame (fa w) T f -> C0 f -> (forall u x, maps w s u x -> x <> f) ->
  exists ok w1 s1 T1, map_user_page w s v f wr = (ok, w1, s1) /\ frames_inv w1 s1 T1 /\ same_areas s s1 /\ T1 f = None /\ (ok = false -> forall u x, maps w1 s1 u x -> x <> f).
Proof.
  intros [I1 I2 I3 I4 I5 I6 I7 I8] Hv Hva Hd Hf Hne. pose proof (map_user_page_spec w s T v f wr I1 I2 (window_48 v Hv) (proj1 Hd) (I3 v Hv)) as H. pose proof (map_owned w s v f wr I1) as Ho.
  pose proof (map_writes C0 w s T v f wr I1 I2 (I3 v Hv) (I7 v Hv)) as Hwr.
  destruct (map_user_page w s v f wr) as [[ok w1] s1]. destruct Hwr as [Hk Hown]; [intros b Hb; apply I6; by left|]. destruct H as (Sa & Hwf1 & (T1 & Ht1 & Hkept) & Hnh & Hok). assert (Hroot : pml4 s1 = pml4 s) by (by rewrite Sa).
  exists ok, w1, s1, T1. split; [done|].
  assert (Hcases : forall u x, maps w1 s1 u x -> ok = true /\ u = v /\ x = f \/ maps w s u x).
  { intros u x (Hu & Hua & Hx). rewrite Hroot in Hx. pose proof (window_48 u Hu). pose proof (window_48 v Hv). destruct ok; [|right; split; [done|]; split; [done|]; by rewrite <- Hok].
    destruct Hok as (Hw & Hrest & _). destruct (decide (u = v)) as [->|Hn]; [left; rewrite Hw, aligned_lor in Hx by done; split; [done|]; split; [done|congruence]|].
    right. split; [done|]. split; [done|]. rewrite <- Hrest; [done|done|]. intros E. apply Hn. by apply aligned_page; [lia|lia|..]. }
  split; [|split; [done|split; [apply (Hkept f Hd)|intros -> u x Hx; destruct (Hcases u x Hx) as [[? _]|Hx']; [done|by eapply Hne]]]].
  constructor; rewrite ?Hroot; [done|done|intros u Hu; apply Hnh; by apply I3|..].
  - intros u x Hx. destruct (Hcases u x Hx) as [(_ & _ & ->)|Hx']; [split; [done|apply (Hkept f Hd)]|]. destruct (I4 u x Hx') as [Hc Hdx]. split; [done|apply (Hkept x Hdx)].
  - intros u u' x Hx Hx'. destruct (Hcases u x Hx) as [(_ & E1 & F1)|H1], (Hcases u' x Hx') as [(_ & E2 & F2)|H2]; [congruence|by destruct (Hne _ _ H2)|by destruct (Hne _ _ H1)|by eapply I5].
  - intros b. by rewrite I6, Ho.
  - intros u Hu. by apply Hown; [apply I3|apply I7].
  - by eapply kept_trans.
Qed.

Lemma in_remove_first x y l : y ∈ remove_first x l -> y ∈ l.
Proof. induction l as [|z l IH]; [done|]. cbn [remove_first]. destruct (Z.eqb_spec z x); rewrite !elem_of_cons; tauto. Qed.
Lemma remove_first_other x y l : y ∈ l -> y = x \/ y ∈ remove_first x l.
Proof. induction l as [|z l IH]; [by intros H%elem_of_nil|]. cbn [remove_first]. rewrite elem_of_cons. destruct (Z.eqb_spec z x) as [->|]; [tauto|]. rewrite elem_of_cons. tauto. Qed.

(** A page of the window is unmapped and its frame given back. *)
Lemma unmap_step w s T v : frames_inv w s T -> window v -> v mod PAGE_SIZE = 0 ->
  match unmap_user_page w s v with
  | (None, w1, s1) => w1 = w /\ s1 = s
  | (Some x, w1, s1) => exists w2, free_frame w1 x = Ret w2 /\ frames_inv w2 s1 T /\ same_areas s s1
  end.
Proof.
  intros I Hv Hva. pose proof I as [I1 I2 I3 I4 I5 I6 I7 I8]. pose proof (unmap_writes C0 w s T v I2 (I3 v Hv) (I7 v Hv)) as Hwr. destruct (unmap_user_page w s v) as [[r w1] s1] eqn:E. destruct Hwr as [Hk Hown]. pose proof (unmap_user_page_spec w s T v r w1 s1 I2 (window_48 v Hv) (I3 v Hv) E) as H.
  destruct r as [x|]; [|tauto]. destruct H as (Hx & Hno & Hrest & Ht1 & -> & Hfa & Hnh). rewrite !virt_to_phys_walk, aligned_lor in * by done.
  assert (Hm : maps w s v x) by done. destruct (I4 v x Hm) as [Hc (F1 & F2 & F3)].
  assert (Hcases : forall u y, maps w1 s u y -> u <> v /\ maps w s u y).
  { intros u y (Hu & Hua & Hy). pose proof (window_48 u Hu). pose proof (window_48 v Hv). assert (u <> v) by (intros ->; congruence). split; [done|]. split; [done|]. split; [done|]. rewrite <- Hy. symmetry.
    apply Hrest; [done|]. intros Eu. by apply aligned_page in Eu; [|lia|lia|..]. }
  set (s1 := set_frames s (remove_first x (allocated_frames s))) in *.
  assert (I' : frames_inv w1 s T).
  { constructor; rewrite ?Hfa; [done|by rewrite <- Hfa|intros u Hu; apply Hnh; by apply I3|intros u y Hy; by eapply I4, Hcases|intros u u' y Hy Hy'; eapply I5; by apply Hcases| |intros u Hu; by apply Hown; [apply I3|apply I7]|by eapply kept_trans].
    intros b. rewrite I6. unfold owned. by rewrite Hfa. }
  destruct (give_back w1 s T x I' Hc F2) as (w2 & Ef & I2' & Em); [intros u y Hy ->; destruct (Hcases u x Hy) as [Hn Hy']; apply Hn; by eapply I5|]. exists w2. split; [done|]. split; [|done].
  pose proof I2' as [J1 J2 J3 J4 J5 J6 J7 J8]. constructor; [done|done|done|done|done| |done|done]. intros b. split.
  - intros Hb%J6. destruct Hb as [Hb|Hb]; [by left|]. destruct (remove_first_other x b _ Hb) as [->|Hb']; [|by right]. left.
    unfold free_frame in Ef. destruct (Pmm.fa_dealloc_spec (fa w1) x) as (r & a & Ed & Hr); [by rewrite Hfa|]. rewrite Ed in Ef. injection Ef as <-. cbn [fa set_fa]. destruct r; [destruct Hr as (_ & _ & _ & Hr); apply Hr; by right|].
    destruct Hr as [-> [Hn|Hn]]; [by destruct Hn; apply HC0|done].
  - intros [Hb|Hb]; apply J6; [by left|right]. exact (in_remove_first _ _ _ Hb).
Qed.

(** ** Loops over pages *)
Lemma unmap_range_frames fuel w s T curr e : frames_inv w s T -> WINDOW_START <= curr -> e <= WINDOW_END -> curr mod PAGE_SIZE = 0 -> e - curr <= Z.of_nat fuel * PAGE_SIZE ->
  exists w' s', unmap_range fuel w s curr e = Ret (w', s') /\ frames_inv w' s' T /\ same_areas s s'.
Proof.
  revert w s curr. induction fuel as [|fuel IH]; intros w s curr I Hc He Hm Hf; cbn [unmap_range]; (destruct (Z.ltb_spec curr e); [|exists w, s; auto using same_areas_refl]); [exfalso; lia|].
  unfold WINDOW_START, WINDOW_END in *. rewrite u64_add_small by (unfold PAGE_SIZE; lia). assert (Hm' : (curr + PAGE_SIZE) mod PAGE_SIZE = 0) by (by apply page_mod_add).
  pose proof (unmap_step w s T curr I) as Hs. destruct (unmap_user_page w s curr) as [[[x|] w1] s1]; specialize (Hs ltac:(unfold window, WINDOW_START, WINDOW_END; lia) Hm).
  - destruct Hs as (w2 & -> & I2 & Sa). cbn [mbind outcome_bind]. destruct (IH w2 s1 (curr + PAGE_SIZE) I2) as (w3 & s3 & -> & I3 & Sa3); [unfold PAGE_SIZE in *; lia|done|done|unfold PAGE_SIZE in *; lia|]. exists w3, s3. eauto using same_areas_trans.
  - destruct Hs as [-> ->]. apply IH; [done|unfold PAGE_SIZE in *; lia|done|done|unfold PAGE_SIZE in *; lia].
Qed.

Lemma page_step w s T v wr : frames_inv w s T -> window v -> v mod PAGE_SIZE = 0 ->
  exists r w1 s1 T1, allocate_and_map_page w s v wr = (r, w1, s1) /\ frames_inv w1 s1 T1 /\ same_areas s s1 /\ match r with Some f => T1 f = None /\ frame_addr f /\ C0 f | None => True end.
Proof.
  intros I Hv Hm. unfold allocate_and_map_page, allocate_frame. destruct (Pmm.fa_alloc (fa w)) as [[f|] a] eqn:Ea.
  - assert (Hff : frame_addr f) by (by eapply is_frame_addr, Pmm.fa_alloc_Some, Ea; apply (fi_wf _ _ _ I)).
    destruct (take_frame w s T f a (write_byte (mem w) f 0) I Ea) as (I1 & Hd & Hf & Hne); [intros t k Ht Hn Hk; apply (ElfLoad.entry_copy (mem w) f [0] f); [apply Hff|done|unfold Bytes.len, PAGE_SIZE; cbn; lia|done..]|].
    cbn [mem set_fa]. destruct (map_step _ _ T v f wr I1 Hv Hm Hd Hf Hne) as (ok & w1 & s1 & T1 & -> & I2 & Sa & HT & _).
    exists (if ok then Some f else None), w1, s1, T1. split; [by destruct ok|]. split; [done|]. split; [exact (same_areas_trans s (push_frame s f) s1 eq_refl Sa)|]. by destruct ok.
  - destruct (Pmm.fa_alloc_None _ _ (fi_wf _ _ _ I) Ea) as [-> _]. exists None, w, s, T. split; [by destruct w|]. split; [done|]. split; [apply same_areas_refl|done].
Qed.

Lemma code_frames fuel w s T base off code : frames_inv w s T -> WINDOW_START <= base -> base + Z.of_nat (length code) + PAGE_SIZE <= WINDOW_END -> base mod PAGE_SIZE = 0 -> 0 <= off -> off mod PAGE_SIZE = 0 ->
  Z.of_nat (length code) - off <= Z.of_nat fuel * PAGE_SIZE -> exists ok w' s' T', user_code_loop fuel w s base off code = Ret (ok, w', s') /\ frames_inv w' s' T' /\ same_areas s s'.
Proof.
  revert w s T off. induction fuel as [|fuel IH]; intros w s T off I Hb He Hbm Ho Hom Hf; cbn [user_code_loop]; (destruct (Z.ltb_spec off (Z.of_nat (length code))); [|exists true, w, s, T; auto using same_areas_refl]); [exfalso; lia|].
  assert (Hw : window (base + off)) by (unfold window; unfold PAGE_SIZE in *; lia). rewrite u64_add_small by (unfold WINDOW_END, WINDOW_START, PAGE_SIZE in *; lia).
  destruct (page_step w s T (base + off) true I Hw) as (r & w1 & s1 & T1 & -> & I1 & Sa & Hr); [by apply page_mod_add|]. destruct r as [f|]; [|by exists false, w1, s1, T1]. destruct Hr as (HT & Hff & HCf).
  set (bytes := take _ _). assert (Hlen : Z.of_nat (length bytes) <= PAGE_SIZE) by (unfold bytes; rewrite length_take; lia).
  assert (I2 : frames_inv (set_mem w1 (copy_bytes (mem w1) f bytes)) s1 T1) by (apply (write_frame _ _ _ f); [done|done|done|intros t k Ht Hn Hk; apply (ElfLoad.entry_copy (mem w1) f bytes f); [apply Hff|lia|unfold Bytes.len; lia|done..]]).
  destruct (IH _ _ _ (off + PAGE_SIZE) I2) as (ok & w3 & s3 & T3 & E3 & I3 & Sa3); [done|done|done|unfold PAGE_SIZE; lia|by apply page_mod_add|unfold PAGE_SIZE in *; lia|].
  exists ok, w3, s3, T3. split; [exact E3|]. split; [done|by eapply same_areas_trans].
Qed.

Lemma stack_frames n w s T i top : frames_inv w s T -> 0 <= i -> top mod PAGE_SIZE = 0 -> top <= WINDOW_END + PAGE_SIZE -> top - i * PAGE_SIZE < WINDOW_END -> WINDOW_START <= top - (i + Z.of_nat n - 1) * PAGE_SIZE ->
  exists ok w' s' T', stack_pages n i w s top = (ok, w', s') /\ frames_inv w' s' T' /\ same_areas s s'.
Proof.
  revert w s T i. induction n as [|n IH]; intros w s T i I Hi Ht He Hlt Hs; cbn [stack_pages]; [exists true, w, s, T; auto using same_areas_refl|].
  rewrite u64_sub_small by (unfold WINDOW_START, WINDOW_END, PAGE_SIZE in *; lia). assert (Hw : window (top - i * PAGE_SIZE)) by (unfold window; unfold PAGE_SIZE in *; lia).
  destruct (page_step w s T _ true I Hw) as (r & w1 & s1 & T1 & -> & I1 & Sa & _); [apply page_mod_sub; [done|apply Z.mod_mul; done]|]. destruct r as [f|]; [|by exists false, w1, s1, T1].
  destruct (IH w1 s1 T1 (i + 1) I1) as (ok & w3 & s3 & T3 & E3 & I3 & Sa3); [lia|done|done|unfold PAGE_SIZE in *; lia|unfold PAGE_SIZE in *; lia|].
  exists ok, w3, s3, T3. split; [done|]. split; [done|by eapply same_areas_trans].
Qed.
End Frames.

(** ** Areas *)
(** Pages of the window outside the range kept for the heap. *)
Definition outside_heap (a n : Z) : Prop := WINDOW_START <= a /\ a + n <= WINDOW_END /\ (a + n <= DEFAULT_USER_HEAP_START \/ MMAP_BASE_START <= a).

Record areas_inv (s : AddressSpace) : Prop := {
  ai_areas : areas_ok (vmas s);
  ai_heap : heap_ok s;
  ai_start : heap_start s = DEFAULT_USER_HEAP_START;
  ai_bump : 0 <= mmap_bump_ptr s <= 2 ^ 62;
  ai_window : forall v, v ∈ vmas s -> WINDOW_START <= start v /\ aend v <= WINDOW_END
}.

Lemma areas_same_space s s' : same_areas s s' -> areas_inv s -> areas_inv s'.
Proof. intros -> [A1 A2 A3 A4 A5]. destruct A2. by constructor; [..|constructor| | |]. Qed.

Lemma heap_area s v : heap_ok s -> v ∈ vmas s -> is_heap v = true -> start v = heap_start s /\ aend v <= MMAP_BASE_START.
Proof.
  intros Hk Hv Hh. destruct (hk_area _ Hk v Hv Hh) as [Hs ->]. split; [done|]. pose proof (hk_range _ Hk). pose proof (hk_limit _ Hk). rewrite <- (align_up_page_id MMAP_BASE_START) by done. apply align_up_page_mono; unfold MMAP_BASE_START, PAGE_SIZE in *; lia.
Qed.

(** One more area. *)
Lemma areas_append s v : areas_inv s -> area_ok v -> is_heap v = false -> WINDOW_START <= start v -> aend v <= WINDOW_END -> (forall u, u ∈ vmas s -> apart u v) -> areas_inv (set_vmas s (vmas s ++ [v])).
Proof.
  intros [A1 A2 A3 A4 A5] Hv Hh Hs He Hap. assert (Hin : forall u, u ∈ vmas s ++ [v] <-> u ∈ vmas s \/ u = v) by (intros u; by rewrite elem_of_app, list_elem_of_singleton).
  constructor; cbn [vmas set_vmas heap_start mmap_bump_ptr]; [split| |done|done|].
  - apply Forall_app. split; [apply A1|by constructor].
  - apply all_apart_app. split; [apply A1|]. split; [by cbn; auto using Forall_nil|]. apply Forall_forall. intros u Hu. constructor; [by apply Hap|constructor].
  - destruct A2 as [K1 K2 K3 K4 K5]. constructor; cbn [vmas set_vmas heap_start heap_end]; [done..| |].
    + intros u [Hu| ->]%Hin Huh; [by apply K4|congruence].
    + intros Hlt. destruct (K5 Hlt) as (u & Hu & Huh). exists u. split; [apply Hin; by left|done].
  - intros u [Hu| ->]%Hin; [by apply A5|done].
Qed.

Lemma add_vma_inv s v : areas_inv s -> start v mod PAGE_SIZE = 0 -> 0 <= size v -> size v mod PAGE_SIZE = 0 -> is_heap v = false -> WINDOW_START <= start v -> aend v <= WINDOW_END -> areas_inv (add_vma s v).2.
Proof.
  intros A Hm Hz Hzm Hh Hs He. unfold add_vma. destruct (_ || _)%bool eqn:E1; [done|]. apply orb_false_iff in E1 as [E1 _]. apply Z.eqb_neq in E1. destruct (existsb _ _) eqn:Eo; [done|]. cbn [snd].
  assert (Hv : area_ok v) by (unfold area_ok; unfold WINDOW_START, WINDOW_END in *; split_and!; done || lia). apply areas_append; try done. intros u Hu.
  pose proof (proj1 (Forall_forall _ _) (proj1 (ai_areas _ A)) u Hu) as Hu'. assert (Ho : overlaps u (start v) (size v) = false).
  { apply not_true_iff_false. intros E. apply not_true_iff_false in Eo. apply Eo, existsb_exists. exists u. by rewrite <- list_elem_of_In. }
  apply overlaps_false in Ho; [|done|unfold aend, WINDOW_START, WINDOW_END in *; lia..]. unfold apart, aend in *. lia.
Qed.

(** Another set of populated pages. *)
Lemma areas_populated s i v m : areas_inv s -> vmas s !! i = Some v -> areas_inv (set_vmas s (<[i := set_populated v m]> (vmas s))).
Proof.
  intros [A1 A2 A3 A4 A5] Hi. destruct (list_elem_of_split_length _ _ _ Hi) as (l1 & l2 & El & ->). rewrite El in A1 |- *. replace (length l1) with (length l1 + 0)%nat by lia. rewrite insert_app_r. cbn [insert list_insert].
  assert (Hin : forall u, u ∈ l1 ++ set_populated v m :: l2 -> exists u', u' ∈ vmas s /\ start u = start u' /\ size u = size u' /\ is_heap u = is_heap u').
  { intros u. rewrite El, elem_of_app, elem_of_cons. intros [Hu|[->|Hu]]; [exists u|exists v|exists u]; (split; [rewrite elem_of_app, elem_of_cons; tauto|done]). }
  constructor; cbn [vmas set_vmas heap_start mmap_bump_ptr]; [split| |done|done|].
  - destruct A1 as [HF _]. rewrite Forall_app, Forall_cons in HF |- *. exact HF.
  - apply all_apart_split. exact (proj1 (all_apart_split l1 v l2) (proj2 A1)).
  - destruct A2 as [K1 K2 K3 K4 K5]. constructor; cbn [vmas set_vmas heap_start heap_end]; [done..| |].
    + intros u Hu Huh. destruct (Hin u Hu) as (u' & Hu' & E1 & E2 & E3). unfold aend. rewrite E1, E2. apply K4; [done|congruence].
    + intros Hlt. destruct (K5 Hlt) as (u & Hu & Huh). rewrite El, elem_of_app, elem_of_cons in Hu. destruct Hu as [Hu|[->|Hu]]; [exists u|exists (set_populated v m)|exists u]; (split; [rewrite elem_of_app, elem_of_cons; tauto|done]).
  - intros u Hu. destruct (Hin u Hu) as (u' & Hu' & E1 & E2 & _). unfold aend. rewrite E1, E2. by apply A5.
Qed.

(** What [munmap] leaves of the areas. *)
Lemma areas_munmap s a n : areas_inv s -> outside_heap a n -> a mod PAGE_SIZE = 0 -> 0 < n -> n mod PAGE_SIZE = 0 -> areas_inv (set_vmas s (munmap_vmas a n (a + n) (vmas s))).
Proof.
  intros [A1 A2 A3 A4 A5] (O1 & O2 & O3) Hm Hn Hnm. unfold WINDOW_START, WINDOW_END in *. destruct (munmap_vmas_spec a n (vmas s) A1) as (M1 & _ & M3 & _); [lia|done|done|done|lia|].
  assert (Hheap : forall v, v ∈ vmas s -> is_heap v = true -> munmap_vma a n (a + n) v = [v]).
  { intros v Hv Hh. pose proof (proj1 (Forall_forall _ _) (proj1 A1) v Hv) as Hok. destruct (heap_area s v A2 Hv Hh) as [E1 E2]. apply munmap_vma_apart; [done|lia..|]. rewrite E1, A3. unfold MMAP_BASE_START, DEFAULT_USER_HEAP_START in *. lia. }
  assert (Hin : forall u, u ∈ munmap_vmas a n (a + n) (vmas s) <-> exists v, v ∈ vmas s /\ u ∈ munmap_vma a n (a + n) v).
  { intros u. unfold munmap_vmas. rewrite list_elem_of_In, in_flat_map. by setoid_rewrite list_elem_of_In. }
  constructor; cbn [vmas set_vmas heap_start mmap_bump_ptr]; [done| |done|done|].
  - destruct A2 as [K1 K2 K3 K4 K5]. constructor; cbn [vmas set_vmas heap_start heap_end]; [done..| |].
    + intros u Hu Huh. apply Hin in Hu as (v & Hv & Hu). destruct (M3 u) as (v0 & Hv0 & Hat & _); [apply Hin; by exists v|].
      assert (Hvh : is_heap v = true). { destruct (munmap_vma_spec a n v (proj1 (Forall_forall _ _) (proj1 A1) v Hv)) as (HF & _); [lia|done|done|done|lia|]. destruct (proj1 (Forall_forall _ _) HF u Hu) as (_ & Ha & _). by rewrite <- (is_heap_attrs v u Ha). }
      rewrite (Hheap v Hv Hvh) in Hu. apply list_elem_of_singleton in Hu as ->. by apply K4.
    + intros Hlt. destruct (K5 Hlt) as (u & Hu & Huh). exists u. split; [|done]. apply Hin. exists u. split; [done|]. rewrite (Hheap u Hu Huh). by apply list_elem_of_singleton.
  - intros u Hu. destruct (M3 u Hu) as (v & Hv & _ & ? & ?). destruct (A5 v Hv). unfold WINDOW_START, WINDOW_END. lia.
Qed.

(** ** The operations *)
Section Operations.
Context {A : Type} `{FA : Pmm.FrameAllocator A}.
Context (C0 : Z -> Prop) (m0 : memory) (HC0 : forall b, C0 b -> Pmm.is_frame b).
Notation frames_inv := (frames_inv C0 m0).

Definition alive (w : world A) (s : AddressSpace) : Prop := (exists T, frames_inv w s T) /\ areas_inv s.

(** An operation keeps the invariant. *)
Definition keeps_alive {B} (o : outcome (B * world A * AddressSpace)) : Prop := exists b w s, o = Ret (b, w, s) /\ alive w s.

Lemma alive_frames w s w' s' T : alive w s -> frames_inv w' s' T -> same_areas s s' -> alive w' s'.
Proof. intros [_ Ha] I Sa. split; [by exists T|by eapply areas_same_space]. Qed.

Lemma munmap_frames w s T a n : frames_inv w s T -> 0 <= a -> 0 < n -> a mod PAGE_SIZE = 0 -> WINDOW_START <= a -> a + align_up_page n <= WINDOW_END -> n + PAGE_SIZE <= 2 ^ 62 ->
  exists w' s', munmap w s a n = Ret (Ok tt, w', set_vmas s' (munmap_vmas a (align_up_page n) (a + align_up_page n) (vmas s))) /\ frames_inv w' s' T /\ same_areas s s'.
Proof.
  intros I Ha Hn Hm Hs He Hbig. destruct (align_up_page_bounds n) as [Hb _]; [lia|lia|]. unfold munmap. rewrite page_mask, Hm. rewrite (proj2 (Z.eqb_neq n 0)) by lia. cbn [negb orb Z.eqb].
  unfold WINDOW_END in He. rewrite (u64_add_small a) by lia. set (al := align_up_page n) in *.
  destruct (unmap_range_frames C0 m0 HC0 (S (Z.to_nat (al / PAGE_SIZE))) w s T a (a + al) I Hs) as (w1 & s1 & -> & I1 & Sa); [done|done| |].
  { pose proof (Z.div_mod al PAGE_SIZE). pose proof (Z.div_pos al PAGE_SIZE). pose proof (Z.mod_pos_bound al PAGE_SIZE). unfold PAGE_SIZE in *. lia. }
  cbn [mbind outcome_bind]. exists w1, s1. rewrite (same_areas_vmas _ _ Sa). by split_and!.
Qed.

Lemma set_vmas_alive w s T l : frames_inv w s T -> areas_inv (set_vmas s l) -> alive w (set_vmas s l).
Proof. intros I Ha. split; [|done]. exists T. by apply (inv_areas C0 m0 w s). Qed.

Lemma same_set_vmas s s' l : same_areas s s' -> areas_inv (set_vmas s l) -> areas_inv (set_vmas s' l).
Proof. intros -> [A1 A2 A3 A4 A5]. destruct A2. by constructor; [..|constructor| | |]. Qed.

Lemma munmap_alive w s a n : alive w s -> 0 <= a -> 0 <= n -> n + PAGE_SIZE <= 2 ^ 62 -> outside_heap a (align_up_page n) -> keeps_alive (munmap w s a n).
Proof.
  intros Hal Ha Hn Hbig Ho. pose proof Ho as (O1 & O2 & _). pose proof Hal as [[T I] Har]. destruct (decide (n = 0 \/ a mod PAGE_SIZE <> 0)) as [Hbad|Hok].
  - exists (Err InvalidArguments), w, s. split; [|done]. unfold munmap. rewrite page_mask. destruct (Z.eqb_spec n 0); [done|]. destruct (Z.eqb_spec (a mod PAGE_SIZE) 0); [lia|done].
  - destruct (align_up_page_bounds n) as [Hb Hbm]; [lia|lia|]. assert (n <> 0 /\ a mod PAGE_SIZE = 0) as [Hn0 Hm] by lia. destruct (munmap_frames w s T a n I) as (w1 & s1 & E & I1 & Sa); [lia|lia|done|done|done|done|].
    exists (Ok tt), w1, (set_vmas s1 (munmap_vmas a (align_up_page n) (a + align_up_page n) (vmas s))). split; [exact E|]. apply (set_vmas_alive _ _ T); [done|]. eapply same_set_vmas; [exact Sa|]. apply areas_munmap; done || lia.
Qed.

Lemma fault_alive w s addr wr : alive w s -> keeps_alive (handle_demand_fault w s addr wr).
Proof.
  intros Hal. pose proof Hal as [[T I] Har]. unfold handle_demand_fault. pose proof (position_find (fun v => contains v addr) (vmas s)) as Hp. destruct (position _ (vmas s)) as [i|]; [|by exists false, w, s].
  destruct Hp as (v & Hi & _ & Hv). unfold index. rewrite Nat2Z.id, Hi. cbn [mbind outcome_bind]. destruct (is_guard v || (prot v =? PROT_NONE))%bool; [by exists false, w, s|]. destruct (wr && negb (is_writable v))%bool; [by exists false, w, s|]. cbv zeta.
  pose proof (list_elem_of_lookup_2 _ _ _ Hi) as Hin. pose proof (proj1 (Forall_forall _ _) (proj1 (ai_areas _ Har)) v Hin) as Hok. destruct (ai_window _ Har v Hin) as [Hw1 Hw2]. apply contains_ok in Hv; [|done]. unfold in_area in Hv. unfold WINDOW_START, WINDOW_END in *.
  assert (Hpage : window (align_down_page addr) /\ align_down_page addr mod PAGE_SIZE = 0).
  { rewrite align_down_page_eq by (split; lia). pose proof (Z.mod_pos_bound addr PAGE_SIZE ltac:(done)). pose proof (Z.div_mod addr PAGE_SIZE). split; [|rewrite Zminus_mod, Zmod_mod, Z.sub_diag; done].
    unfold window, WINDOW_START, WINDOW_END. unfold PAGE_SIZE in *. split; [|lia]. pose proof (Z.div_le_mono 0x40000000 addr 4096 ltac:(lia) ltac:(lia)) as Hd. change (0x40000000 / 4096) with 0x40000 in Hd. lia. }
  unfold allocate_frame. destruct (Pmm.fa_alloc (fa w)) as [[f|] a] eqn:Ea.
  - destruct (take_frame C0 m0 w s T f a (zero_frame (mem w) f) I Ea) as (I1 & Hd & Hf & Hne).
    { intros t k [_ Ht] Hn Hk. apply entry_zero_ne; [|done|congruence|done]. apply (is_frame_addr f). by eapply Pmm.fa_alloc_Some, Ea; apply I. }
    destruct (map_step C0 m0 _ _ T (align_down_page addr) f (is_writable v) I1 (proj1 Hpage) (proj2 Hpage) Hd Hf Hne) as (ok & w1 & s1 & T1 & E & I2 & Sa & HT & Hno). cbn [mem set_fa]. rewrite E.
    assert (Hs : same_areas s s1) by exact (same_areas_trans s (push_frame s f) s1 eq_refl Sa). destruct ok.
    + unfold store. rewrite (same_areas_vmas _ _ Hs), Nat2Z.id, Hi. cbn [mbind outcome_bind]. eexists true, w1, _. split; [reflexivity|]. apply (set_vmas_alive _ _ T1 _ I2). eapply same_set_vmas; [exact Hs|]. by apply areas_populated.
    + destruct (give_back C0 m0 HC0 w1 s1 T1 f I2 Hf HT (Hno eq_refl)) as (w2 & -> & I3 & _). cbn [mbind outcome_bind]. exists false, w2, s1. split; [reflexivity|]. by eapply alive_frames.
  - destruct (Pmm.fa_alloc_None _ _ (fi_wf _ _ _ _ _ I) Ea) as [-> _]. exists false, (set_fa w (fa w)), s. split; [reflexivity|]. by destruct w.
Qed.

(** [mmap]: what the choice of the address changes, the population, the call. *)
Lemma mmap_place_bump s hint n fl r s' : mmap_place s hint n fl = Ret (r, s') -> s' = s \/ exists c, r = Ok c /\ Z.land fl MAP_FIXED = 0 /\ s' = set_bump s (align_up_page (u64_add c n)).
Proof.
  unfold mmap_place. destruct (Z.eqb_spec (Z.land fl MAP_FIXED) 0); cbn [negb].
  - destruct (mmap_search _ _ _ _) as [[c|]| |]; cbn [mbind outcome_bind]; [intros [= <- <-]; right; by exists c|intros [= <- <-]; by left|done..].
  - destruct hint as [q|]; [|intros [= _ <-]; by left]. destruct (negb _); [intros [= _ <-]; by left|]. destruct (existsb _ _); intros [= _ <-]; by left.
Qed.

(** Undoing a population that ran out of memory. *)
Lemma undo_alive w s a off : alive w s -> outside_heap a off -> a mod PAGE_SIZE = 0 -> 0 <= off -> off mod PAGE_SIZE = 0 -> keeps_alive (munmap w s a off).
Proof.
  intros Hal Ho Hm Hoff Hom. pose proof Ho as (O1 & O2 & _). unfold WINDOW_START, WINDOW_END in *. apply munmap_alive; [done|lia|done|unfold PAGE_SIZE; lia|]. rewrite align_up_page_id by (done || unfold PAGE_SIZE; lia). done.
Qed.

Lemma populate_alive fuel w s a off n pr v : alive w s -> outside_heap a n -> a mod PAGE_SIZE = 0 -> 0 <= off <= n -> off mod PAGE_SIZE = 0 -> n mod PAGE_SIZE = 0 -> n - off <= Z.of_nat fuel * PAGE_SIZE ->
  exists r w' s', populate fuel w s a off n pr v = Ret (r, w', s') /\ alive w' s' /\ match r with Ok v' => (exists m, v' = set_populated v m) /\ same_areas s s' | Err _ => True end.
Proof.
  revert w s off v. induction fuel as [|fuel IH]; intros w s off v Hal Ho Hm Hoff Hom Hnm Hf; cbn [populate];
    (destruct (Z.ltb_spec off n) as [Hlt|]; [|exists (Ok v), w, s; split; [done|]; split; [done|]; split; [exists (populated_pages v); by destruct v|apply same_areas_refl]]); [exfalso; lia|].
  pose proof Ho as (O1 & O2 & O3). unfold WINDOW_START, WINDOW_END in *. rewrite u64_add_small by lia. assert (Hw : window (a + off)) by (unfold window, WINDOW_START, WINDOW_END; lia). assert (Ho' : outside_heap a off) by (unfold outside_heap, WINDOW_START, WINDOW_END; lia).
  pose proof Hal as [[T I] Har]. unfold allocate_frame. destruct (Pmm.fa_alloc (fa w)) as [[f|] al] eqn:Ea.
  - destruct (take_frame C0 m0 w s T f al (zero_frame (mem w) f) I Ea) as (I1 & Hd & Hf1 & Hne).
    { intros t k [_ Ht] Hn Hk. apply entry_zero_ne; [|done|congruence|done]. apply (is_frame_addr f). by eapply Pmm.fa_alloc_Some, Ea; apply I. }
    destruct (map_step C0 m0 _ _ T (a + off) f (negb (Z.land pr PROT_WRITE =? 0)) I1 Hw) as (ok & w1 & s1 & T1 & E & I2 & Sa & HT & Hno); [by apply page_mod_add|done|done|done|]. cbn [mem set_fa]. rewrite E.
    assert (Hs : same_areas s s1) by exact (same_areas_trans s (push_frame s f) s1 eq_refl Sa). pose proof (alive_frames _ _ _ _ _ Hal I2 Hs) as Hal1. destruct ok.
    + destruct (IH w1 s1 (off + PAGE_SIZE) (set_populated v (<[a + off:=f]> (populated_pages v))) Hal1) as (r & w3 & s3 & E3 & Hal3 & Hr); [done|done|pose proof (Z.div_mod off PAGE_SIZE); pose proof (Z.div_mod n PAGE_SIZE); unfold PAGE_SIZE in *; lia|by apply page_mod_add|done|unfold PAGE_SIZE in *; lia|].
      exists r, w3, s3. split; [exact E3|]. split; [done|]. destruct r; [|done]. destruct Hr as [[m ->] Sr]. split; [by exists m|by eapply same_areas_trans].
    + destruct (give_back C0 m0 HC0 w1 s1 T1 f I2 Hf1 HT (Hno eq_refl)) as (w2 & -> & I3 & _). cbn [mbind outcome_bind]. pose proof (alive_frames _ _ _ _ _ Hal I3 Hs) as Hal2.
      destruct (undo_alive w2 s1 a off Hal2 Ho' Hm) as (b & w3 & s3 & -> & Hal3); [lia|done|]. cbn [mbind outcome_bind]. by exists (Err OutOfMemory), w3, s3.
  - destruct (Pmm.fa_alloc_None _ _ (fi_wf _ _ _ _ _ I) Ea) as [-> _]. destruct (undo_alive (set_fa w (fa w)) s a off) as (b & w3 & s3 & -> & Hal3); [by destruct w|done|done|lia|done|]. cbn [mbind outcome_bind]. by exists (Err OutOfMemory), w3, s3.
Qed.

Lemma mmap_alive w s hint n pr fl : alive w s -> 0 <= n -> n + PAGE_SIZE <= 2 ^ 62 -> (forall a, hint = Some a -> 0 <= a <= 2 ^ 62) ->
  (Z.land fl MAP_FIXED <> 0 -> forall a, hint = Some a -> outside_heap a (align_up_page n)) -> keeps_alive (mmap w s hint n pr fl).
Proof.
  intros Hal Hn Hbig Hh Hfix. pose proof Hal as [[T I] Har]. unfold mmap. destruct (Z.eqb_spec n 0); [by exists (Err InvalidArguments), w, s|]. destruct (align_up_page_bounds n) as [Hb Hbm]; [lia|lia|]. cbv zeta. set (al := align_up_page n) in *.
  destruct (mmap_place_spec s hint al fl (ai_areas _ Har) (ai_bump _ Har) Hh) as (r & s1 & Ep & Hv & Hr); [lia|done|]. rewrite Ep. cbn [mbind outcome_bind]. destruct r as [c|e]; [|subst s1; by exists (Err e), w, s].
  destruct Hr as (Hc0 & Hcm & Hce & Hfree & Hwhere). assert (Ho : outside_heap c al).
  { destruct (Z.eqb_spec (Z.land fl MAP_FIXED) 0) as [E|E]; [|by apply Hfix]. unfold outside_heap, WINDOW_START, WINDOW_END, MMAP_BASE_START, MMAP_BASE_END, DEFAULT_USER_HEAP_START in *. lia. }
  assert (Hal1 : alive w s1).
  { destruct (mmap_place_bump _ _ _ _ _ _ Ep) as [->|(c' & [= <-] & Hf0 & ->)]; [done|]. split; [exists T; by apply (inv_areas C0 m0 w s)|]. rewrite Hf0 in Hwhere. cbn in Hwhere. destruct Har as [A1 A2 A3 A4 A5]. destruct A2. constructor; [done|by constructor|done| |done].
    cbn [mmap_bump_ptr set_bump]. unfold MMAP_BASE_START, MMAP_BASE_END in Hwhere. rewrite u64_add_small by lia. destruct (align_up_page_bounds (c + al)); unfold PAGE_SIZE in *; lia. }
  assert (Hadd : forall v' w2 s2, alive w2 s2 -> same_areas s1 s2 -> start v' = c -> size v' = al -> is_heap v' = false -> alive w2 (set_vmas s2 (vmas s2 ++ [v']))).
  { intros v' w2 s2 [[T2 I2] Ha2] Sa Es Ez Hnh. apply (set_vmas_alive _ _ T2 _ I2). destruct Ho as (O1 & O2 & _). unfold WINDOW_START, WINDOW_END in *. apply areas_append; [done| |done|rewrite Es; done|unfold aend; rewrite Es, Ez; done|].
    - unfold area_ok, aend. rewrite Es, Ez. split_and!; done || lia.
    - intros u Hu. rewrite (same_areas_vmas _ _ Sa), Hv in Hu. unfold apart, aend at 2. rewrite Es, Ez. destruct (Hfree u Hu); [by right|by left]. }
  destruct (Z.land fl MAP_POPULATE =? 0); cbn [negb].
  - eexists _, w, _. split; [reflexivity|]. apply Hadd; [done|apply same_areas_refl|done..].
  - destruct (populate_alive (S (Z.to_nat (al / PAGE_SIZE))) w s1 c 0 al pr (vma_new c al pr fl false "[mmap]") Hal1 Ho Hcm) as (r & w2 & s2 & -> & Hal2 & Hr); [lia|done|done| |].
    { pose proof (Z.div_mod al PAGE_SIZE). pose proof (Z.div_pos al PAGE_SIZE). pose proof (Z.mod_pos_bound al PAGE_SIZE). unfold PAGE_SIZE in *. lia. }
    cbn [mbind outcome_bind]. destruct r as [v'|e]; [|by exists (Err e), w2, s2]. destruct Hr as [[m ->] Sa]. eexists _, w2, _. split; [reflexivity|]. by apply Hadd.
Qed.

(** [brk]: its frames here, its areas by the theorem on [brk]. *)
Lemma brk_frames w s T nb r w' s' : frames_inv w s T -> areas_inv s -> brk w s nb = Ret (r, w', s') -> frames_inv w' s' T /\ mmap_bump_ptr s' = mmap_bump_ptr s.
Proof.
  intros I Ha. unfold brk. destruct ((nb =? 0) || (nb <? heap_start s))%bool eqn:E1; [by intros [= <- <- <-]|]. destruct (nb =? heap_end s); [by intros [= <- <- <-]|]. destruct (MMAP_BASE_START <? nb) eqn:E2; [by intros [= <- <- <-]|].
  apply orb_false_iff in E1 as [_ E1%Z.ltb_ge]. apply Z.ltb_ge in E2. destruct (Z.ltb_spec (heap_end s) nb) as [Hg|Hs].
  - cbv zeta. destruct (position is_heap (vmas s)) as [pos|].
    + destruct (index _ _) as [v| |]; [|done..]. cbn [mbind outcome_bind]. destruct (overlaps_other _ _ _ _); [by intros [= <- <- <-]|]. destruct (store _ _ _) as [l| |]; [|done..]. cbn [mbind outcome_bind]. intros [= <- <- <-]. split; [by apply (inv_areas C0 m0 w s)|done].
    + destruct (existsb _ _); intros [= <- <- <-]; split; try done. by apply (inv_areas C0 m0 w s).
  - cbv zeta. set (na := align_up_page nb). set (oa := align_up_page (heap_end s)). pose proof (ai_start _ Ha) as Est. pose proof (hk_limit _ (ai_heap _ Ha)) as Hlim. unfold DEFAULT_USER_HEAP_START, MMAP_BASE_START in *.
    destruct (align_up_page_bounds nb) as [Hb Hbm]; [lia|unfold PAGE_SIZE; lia|]. destruct (align_up_page_bounds (heap_end s)) as [Ho Hom]; [lia|unfold PAGE_SIZE; lia|]. fold na in Hb, Hbm. fold oa in Ho, Hom.
    assert (Hstep : exists w1 s1, (if na <? oa then '(_, w1, s1) ← munmap w s na (u64_sub oa na); Ret (w1, s1) else Ret (w, s)) = Ret (w1, s1) /\ frames_inv w1 s1 T /\ mmap_bump_ptr s1 = mmap_bump_ptr s).
    { destruct (Z.ltb_spec na oa) as [Hlt|]; [|by exists w, s]. rewrite u64_sub_small by (unfold PAGE_SIZE in *; lia). assert (Hd : align_up_page (oa - na) = oa - na) by (apply align_up_page_id; [lia|unfold PAGE_SIZE in *; lia|by apply page_mod_sub]).
      destruct (munmap_frames w s T na (oa - na) I) as (w1 & s1 & -> & I1 & Sa); rewrite ?Hd; unfold WINDOW_START, WINDOW_END, PAGE_SIZE in *; [lia|lia|done|lia|lia|lia|]. cbn [mbind outcome_bind]. eexists w1, _. split; [reflexivity|]. split; [by apply (inv_areas C0 m0 w1 s1)|]. by rewrite Sa. }
    destruct Hstep as (w1 & s1 & -> & I1 & Hbump). cbn [mbind outcome_bind]. intros [= <- <- <-]. destruct (position is_heap (vmas s1)) as [pos|]; [destruct (vmas s1 !! pos)|]; (split; [by apply (inv_areas C0 m0 w1 s1)|done]).
Qed.

Lemma brk_alive w s nb : alive w s -> keeps_alive (brk w s nb).
Proof.
  intros [[T I] Ha]. pose proof Ha as [A1 A2 A3 A4 A5]. destruct (brk_correct w s nb (fi_wf _ _ _ _ _ I) A1 A2) as (r & w' & s' & E & (B1 & B2 & B3 & B4) & _). destruct (brk_frames w s T nb r w' s' I Ha E) as [I' Hbump].
  exists r, w', s'. split; [done|]. split; [by exists T|]. constructor; [done|done|by rewrite B3|by rewrite Hbump|]. intros v Hv. destruct (is_heap v) eqn:Eh.
  - destruct (heap_area s' v B2 Hv Eh) as [-> He]. rewrite B3, A3. unfold DEFAULT_USER_HEAP_START, WINDOW_START, WINDOW_END, MMAP_BASE_START in *. lia.
  - by apply A5, B4.
Qed.

(** The loader and the process set-up. *)
Lemma page_alive w s v wr : alive w s -> window v -> v mod PAGE_SIZE = 0 -> exists r w' s', allocate_and_map_page w s v wr = (r, w', s') /\ alive w' s'.
Proof. intros Hal Hv Hm. pose proof Hal as [[T I] _]. destruct (page_step C0 m0 w s T v wr I Hv Hm) as (r & w1 & s1 & T1 & E & I1 & Sa & _). exists r, w1, s1. split; [done|by eapply alive_frames]. Qed.

Lemma code_alive w s base code : alive w s -> WINDOW_START <= base -> base + Z.of_nat (length code) + PAGE_SIZE <= WINDOW_END -> base mod PAGE_SIZE = 0 -> keeps_alive (allocate_user_code w s base code).
Proof.
  intros Hal Hb He Hm. pose proof Hal as [[T I] _]. unfold allocate_user_code. destruct (code_frames C0 m0 (S (Z.to_nat (Z.of_nat (length code) / PAGE_SIZE))) w s T base 0 code I Hb He Hm) as (ok & w1 & s1 & T1 & E & I1 & Sa); [lia|done| |].
  - pose proof (Z.div_mod (Z.of_nat (length code)) PAGE_SIZE). pose proof (Z.div_pos (Z.of_nat (length code)) PAGE_SIZE). pose proof (Z.mod_pos_bound (Z.of_nat (length code)) PAGE_SIZE). unfold PAGE_SIZE in *. lia.
  - exists ok, w1, s1. split; [done|by eapply alive_frames].
Qed.

Lemma guard_inv s a n : areas_inv s -> a mod PAGE_SIZE = 0 -> 0 <= n -> n mod PAGE_SIZE = 0 -> WINDOW_START <= a -> a + n <= WINDOW_END -> areas_inv (add_guard_page s a n).2.
Proof. intros Ha Hm Hn Hnm Hs He. by apply add_vma_inv. Qed.

Lemma add_vma_fields s v : pml4 (add_vma s v).2 = pml4 s /\ allocated_frames (add_vma s v).2 = allocated_frames s.
Proof. unfold add_vma. destruct (_ || _)%bool; [done|]. by destruct (existsb _ _). Qed.

Lemma add_alive w s v : alive w s -> areas_inv (add_vma s v).2 -> alive w (add_vma s v).2.
Proof. intros [[T I] _] Ha. split; [|done]. exists T. apply (inv_areas C0 m0 w s); [apply add_vma_fields..|done]. Qed.

Lemma stack_alive w s top n : alive w s -> top mod PAGE_SIZE = 0 -> 0 <= n -> WINDOW_START <= top - (n + 1) * PAGE_SIZE -> top <= WINDOW_END -> exists ok w' s', allocate_user_stack w s top n = (ok, w', s') /\ alive w' s'.
Proof.
  intros Hal Hm Hn Hs He. unfold allocate_user_stack, WINDOW_START, WINDOW_END in *. unfold PAGE_SIZE in Hs. assert (En : u64_mul n PAGE_SIZE = n * PAGE_SIZE) by (apply wrap_small; unfold in_u, PAGE_SIZE; lia). rewrite En. cbv zeta.
  assert (Hnm : (n * PAGE_SIZE) mod PAGE_SIZE = 0) by (by apply Z.mod_mul). rewrite (u64_sub_small top) by (unfold PAGE_SIZE; lia). rewrite (u64_sub_small (top - n * PAGE_SIZE)) by (unfold PAGE_SIZE; lia).
  assert (Hal1 : alive w (add_guard_page s (top - n * PAGE_SIZE - PAGE_SIZE) PAGE_SIZE).2).
  { apply add_alive; [done|]. apply guard_inv; [apply Hal|by repeat apply page_mod_sub|done|done|unfold WINDOW_START, PAGE_SIZE; lia|unfold WINDOW_END, PAGE_SIZE; lia]. }
  pose proof Hal1 as [[T I] _]. destruct (stack_frames C0 m0 (Z.to_nat n) w _ T 1 top I) as (ok & w1 & s1 & T1 & -> & I1 & Sa); [lia|done|unfold WINDOW_END, PAGE_SIZE; lia|unfold WINDOW_END, PAGE_SIZE; lia|unfold WINDOW_START, PAGE_SIZE; lia|].
  pose proof (alive_frames _ _ _ _ _ Hal1 I1 Sa) as Hal2. destruct ok; [|by exists false, w1, s1]. eexists true, w1, _. split; [reflexivity|]. apply add_alive; [done|]. apply add_vma_inv; cbn [start size set_populated vma_new]; [apply Hal2|by apply page_mod_sub|unfold PAGE_SIZE; lia|done|done|unfold WINDOW_START, PAGE_SIZE; lia|].
  unfold aend. cbn [start size set_populated vma_new]. unfold WINDOW_END, PAGE_SIZE. lia.
Qed.
End Operations.

(** ** From creation to drop *)
(** The operations on a space, with their arguments. *)
Inductive call :=
  | Mmap (hint : option Z) (length prot flags : Z) | Munmap (addr length : Z) | Brk (new_brk : Z) | Fault (addr : Z) (is_write : bool)
  | Page (virt : Z) (writable : bool) | Code (base : Z) (code : list Z) | Stack (top num_pages : Z) | Guard (addr size : Z).

Section Life.
Context {A : Type} `{FA : Pmm.FrameAllocator A}.

Definition perform (c : call) (w : world A) (s : AddressSpace) : outcome (world A * AddressSpace) :=
  match c with
  | Mmap h n p f => '(_, w', s') ← mmap w s h n p f; Ret (w', s')
  | Munmap a n => '(_, w', s') ← munmap w s a n; Ret (w', s')
  | Brk b => '(_, w', s') ← brk w s b; Ret (w', s')
  | Fault a wr => '(_, w', s') ← handle_demand_fault w s a wr; Ret (w', s')
  | Page v wr => let '(_, w', s') := allocate_and_map_page w s v wr in Ret (w', s')
  | Code b bs => '(_, w', s') ← allocate_user_code w s b bs; Ret (w', s')
  | Stack t n => let '(_, w', s') := allocate_user_stack w s t n in Ret (w', s')
  | Guard a n => Ret (w, (add_guard_page s a n).2)
  end.

Fixpoint perform_all (l : list call) (w : world A) (s : AddressSpace) : outcome (world A * AddressSpace) :=
  match l with [] => Ret (w, s) | c :: l' => '(w', s') ← perform c w s; perform_all l' w' s' end.

(** Addresses the caller chooses are in the window; [brk] and a page fault are given
    any address, [mmap] without MAP_FIXED any hint. *)
Definition call_ok (c : call) : Prop :=
  match c with
  | Mmap h n _ f => 0 <= n /\ n + PAGE_SIZE <= 2 ^ 62 /\ match h with Some a => 0 <= a <= 2 ^ 62 /\ (Z.land f MAP_FIXED <> 0 -> outside_heap a (align_up_page n)) | None => True end
  | Munmap a n => 0 <= a /\ 0 <= n /\ n + PAGE_SIZE <= 2 ^ 62 /\ outside_heap a (align_up_page n)
  | Brk _ | Fault _ _ => True
  | Page v _ => window v /\ v mod PAGE_SIZE = 0
  | Code b bs => b mod PAGE_SIZE = 0 /\ WINDOW_START <= b /\ b + Z.of_nat (length bs) + PAGE_SIZE <= WINDOW_END
  | Stack t n => t mod PAGE_SIZE = 0 /\ 0 <= n /\ WINDOW_START <= t - (n + 1) * PAGE_SIZE /\ t <= WINDOW_END
  | Guard a n => a mod PAGE_SIZE = 0 /\ 0 <= n /\ n mod PAGE_SIZE = 0 /\ WINDOW_START <= a /\ a + n <= WINDOW_END
  end.

Section Calls.
Context (C0 : Z -> Prop) (m0 : memory) (HC0 : forall b, C0 b -> Pmm.is_frame b).

Lemma kept_perform {B} (o : outcome (B * world A * AddressSpace)) : keeps_alive C0 m0 o -> exists w s, ('(_, w', s') ← o; Ret (w', s')) = Ret (w, s) /\ alive C0 m0 w s.
Proof. intros (b & w & s & -> & H). by exists w, s. Qed.

Lemma perform_alive c w s : call_ok c -> alive C0 m0 w s -> exists w' s', perform c w s = Ret (w', s') /\ alive C0 m0 w' s'.
Proof.
  intros Hc Hal. destruct c; cbn [perform call_ok] in *.
  - destruct Hc as (? & ? & Hh). apply kept_perform, mmap_alive; [done..|intros a ->; apply Hh|intros Hf a ->; by apply Hh].
  - destruct Hc as (? & ? & ? & ?). by apply kept_perform, munmap_alive.
  - by apply kept_perform, brk_alive.
  - by apply kept_perform, fault_alive.
  - destruct (page_alive C0 m0 w s virt writable Hal) as (r & w' & s' & -> & H); [apply Hc..|]. by exists w', s'.
  - destruct Hc as (? & ? & ?). by apply kept_perform, code_alive.
  - destruct (stack_alive C0 m0 w s top num_pages Hal) as (ok & w' & s' & -> & H); [apply Hc..|]. by exists w', s'.
  - eexists w, _. split; [reflexivity|]. apply add_alive; [done|]. apply guard_inv; [apply Hal|apply Hc..].
Qed.

Lemma perform_all_alive l w s : Forall call_ok l -> alive C0 m0 w s -> exists w' s', perform_all l w s = Ret (w', s') /\ alive C0 m0 w' s'.
Proof.
  intros Hl. revert w s. induction Hl as [|c l Hc Hl IH]; intros w s Hal; cbn [perform_all]; [by exists w, s|].
  destruct (perform_alive c w s Hc Hal) as (w1 & s1 & -> & Hal1). cbn [mbind outcome_bind]. by apply IH.
Qed.

(** Dropping a space gives back what it owns. *)
Lemma drop_alive w s : alive C0 m0 w s -> exists w', drop_space w s = Ret w' /\ forall b, Pmm.fa_free (fa w') b <-> C0 b.
Proof.
  intros [[T I] _]. destruct (drop_frames_spec w (allocated_frames s) (fi_wf _ _ _ _ _ I)) as (w' & E & _ & Hf).
  - apply Forall_forall. intros b Hb. apply HC0, (fi_owned _ _ _ _ _ I). by right.
  - exists w'. split; [exact E|]. intros b. rewrite Hf. symmetry. apply (fi_owned _ _ _ _ _ I).
Qed.
End Calls.

(** The kernel's tables map nothing in the window: the entries of its first directory
    pointer table are not present. *)
Definition window_empty (w : world A) (K : Z) : Prop := forall v, window v -> is_present (entry (mem w) (entry_addr (entry (mem w) K 0)) (level_index 3 v)) = false.

Lemma window_top v : window v -> level_index 4 v = 0.
Proof. intros Hv. unfold level_index. cbn [Nat.sub Z.of_nat]. rewrite Z.shiftr_div_pow2 by lia. unfold window, WINDOW_START, WINDOW_END in Hv. by rewrite Z.div_small by lia. Qed.

(** The walk of the window ends in the second table of a new space. *)
Lemma new_window (w : world A) K TK w' root pdpt v : window_empty w K -> fresh_copy w K TK w' root pdpt -> window v ->
  walk 4 (mem w') root v = None /\ no_huge 4 (mem w') root v /\ own (Pmm.fa_free (fa w)) 4 (mem w') root v.
Proof.
  intros Hwin [Hcl (Fr & Fp & _) [Hr Hp] _] Hv. pose proof (linked_entry pdpt Fp) as (Lp & _ & La & _). pose proof (level_index_range 3 v) as I3. pose proof (window_top v Hv) as E4. cbn [walk no_huge own].
  rewrite E4, (cl_first _ _ _ _ _ Hcl), Lp, La, (cl_pdpt _ _ _ _ _ Hcl), (Hwin v Hv) by done. cbn [negb Nat.eqb andb]. split; [done|]. split; [intros _; split; [by right|done]|]. split; [done|]. by split.
Qed.

(** Creation establishes the invariant. *)
Lemma new_alive w K TK s w1 : Pmm.fa_wf (fa w) -> kernel_tables w K TK -> is_present (entry (mem w) K 0) = true -> window_empty w K -> new w = (Some s, w1) -> alive (Pmm.fa_free (fa w)) (mem w) w1 s.
Proof.
  intros Hwf Hk Hp Hwin E. destruct (new_copies w K TK Hwf Hk Hp) as (r & w' & E' & Hwf' & _ & _ & Hr). rewrite E in E'. injection E' as <- <-. destruct Hr as (pdpt & Es & F). pose proof (fresh_tree _ _ _ _ _ _ Hk Hp F) as Ht.
  pose proof (fun v => new_window w K TK w1 (pml4 s) pdpt v Hwin F) as Hwk. assert (Hno : forall v x, ~ maps w1 s v x) by (intros v x (Hv & _ & Hx); destruct (Hwk v Hv) as [Hn _]; congruence).
  destruct (fc_taken _ _ _ _ _ _ F) as [T1 T2]. split.
  - eexists. constructor; [done|exact Ht|intros v Hv; by apply Hwk|intros v x Hx; by destruct (Hno v x)|intros v v' x Hx; by destruct (Hno v x)| |intros v Hv; by apply Hwk|].
    + intros b. unfold owned. rewrite Es, (fc_free _ _ _ _ _ _ F). cbn [allocated_frames]. rewrite !elem_of_cons, elem_of_nil.
      split; [destruct (decide (b = pml4 s)), (decide (b = pdpt)); tauto|]. by intros [[? _]|[->|[->|[]]]].
    + intros t k Hf Hn Hk'. apply (cl_kept _ _ _ _ _ (fc_cloned _ _ _ _ _ _ F)); [done|congruence|congruence|done].
  - rewrite Es. constructor; cbn [vmas heap_start mmap_bump_ptr]; [split; [constructor|done]|constructor; cbn; try done; by intros v ?%elem_of_nil|done|done|by intros v ?%elem_of_nil].
Qed.

End Life.

(** C5: The life of an address space leaks no frame.  On kernel tables that form a
    tree, cover low memory and map nothing between 1 and 3 GiB: whatever sequence of
    mappings, unmappings, heap moves, page faults, code, stack and guard page set-ups
    is performed on a space [AddressSpace::new] returned, each with its success and
    its failures, memory that runs out in the middle included, every call returns and
    dropping the space at the end leaves exactly the frames free that were free before
    it was created.  The addresses a caller fixes itself (MAP_FIXED, [munmap], code,
    stack and guard pages) lie between 1 and 3 GiB, those of MAP_FIXED and [munmap]
    outside the range of the heap: the code does not check that, and outside it the
    statement is false ([KernelPages]).  No other owner of frames acts in between
    (a failed fault leaves a frame both free and on the list of the space,
    [Faults.demand_fault_stale_frame]). *)
Theorem lifetime_returns_frames (w w1 : world Pmm.Pmm) s K TK calls :
  Pmm.fa_wf (fa w) -> kernel_tables w K TK -> is_present (entry (mem w) K 0) = true -> window_empty w K ->
  new w = (Some s, w1) -> Forall call_ok calls ->
  exists w2 s2 w3, perform_all calls w1 s = Ret (w2, s2) /\ drop_space w2 s2 = Ret w3 /\
    forall b, Pmm.addr_free (fa w3) b <-> Pmm.addr_free (fa w) b.
Proof.
  intros Hwf Hk Hp Hwin E Hc. assert (HC0 : forall b, Pmm.addr_free (fa w) b -> Pmm.is_frame b) by (by intros b [? _]).
  pose proof (new_alive w K TK s w1 Hwf Hk Hp Hwin E) as Hal.
  destruct (perform_all_alive _ _ HC0 calls w1 s Hc Hal) as (w2 & s2 & E2 & Hal2). destruct (drop_alive _ _ HC0 w2 s2 Hal2) as (w3 & E3 & Hf). by exists w2, s2, w3.
Qed.

(** C4: Isolation between 1 and 3 GiB.  Under the same conditions, creating the space
    and performing such a sequence of operations on it changes no word of a frame that
    was in use before: the kernel, its page tables, the data and the tables of every
    other space keep their contents.  A page of the window that is mapped at the end is
    mapped to a frame that was free at the start, and no frame is mapped at two pages. *)
Theorem space_stays_inside (w w1 : world Pmm.Pmm) s K TK calls :
  Pmm.fa_wf (fa w) -> kernel_tables w K TK -> is_present (entry (mem w) K 0) = true -> window_empty w K ->
  new w = (Some s, w1) -> Forall call_ok calls ->
  exists w2 s2, perform_all calls w1 s = Ret (w2, s2) /\
    (forall t k, frame_addr t -> ~ Pmm.addr_free (fa w) t -> 0 <= k < 512 -> entry (mem w2) t k = entry (mem w) t k) /\
    (forall v x, window v -> v mod PAGE_SIZE = 0 -> virt_to_phys (mem w2) (pml4 s2) v = Some x -> Pmm.addr_free (fa w) x) /\
    (forall v v' x, window v -> window v' -> v mod PAGE_SIZE = 0 -> v' mod PAGE_SIZE = 0 ->
       virt_to_phys (mem w2) (pml4 s2) v = Some x -> virt_to_phys (mem w2) (pml4 s2) v' = Some x -> v = v').
Proof.
  intros Hwf Hk Hp Hwin E Hc. assert (HC0 : forall b, Pmm.addr_free (fa w) b -> Pmm.is_frame b) by (by intros b [? _]).
  pose proof (new_alive w K TK s w1 Hwf Hk Hp Hwin E) as Hal.
  destruct (perform_all_alive _ _ HC0 calls w1 s Hc Hal) as (w2 & s2 & E2 & [[T I] _]). exists w2, s2. split; [exact E2|]. split; [apply (fi_kept _ _ _ _ _ I)|].
  split; [intros v x Hv Hm Hx; by eapply (fi_leaf _ _ _ _ _ I)|]. intros v v' x Hv Hv' Hm Hm' Hx Hx'. by eapply (fi_once _ _ _ _ _ I).
Qed.

(** *** Witness: a program is loaded, faults, moves its heap and maps memory *)
Definition sample_calls : list call :=
  [Code 0x40000000 [0x90; 0xC3]; Stack 0x80000000 2; Mmap None 8192 3 0x22; Fault 0x60000010 true; Brk 0x50003000; Fault 0x50001000 true;
   Munmap 0x60000000 4096; Brk 0x50000000; Mmap (Some 0x70000000) 4096 1 0x8032; Guard 0x41000000 4096; Page 0x42000000 true].

Lemma kernel_window_empty : window_empty kernel_world 0x1000.
Proof.
  intros v Hv. assert (E3 : level_index 3 v <> 0).
  { unfold level_index. rewrite Z.shiftr_div_pow2 by lia. unfold window, WINDOW_START, WINDOW_END in Hv. change 0x1FF with (2 ^ 9 - 1). rewrite land_mask by lia.
    match goal with |- (v / ?d) mod _ <> 0 => change d with 0x40000000 end. assert (1 <= v / 0x40000000 < 3) by (split; [apply Z.div_le_lower_bound; lia|apply Z.div_lt_upper_bound; lia]). rewrite Z.mod_small; lia. }
  pose proof (level_index_range 3 v) as I3. cbn [mem kernel_world]. rewrite (kernel_entry 0x1000 0) by (reflexivity || lia). change (entry_addr _) with 0x2000.
  rewrite kernel_entry by (reflexivity || done). by rewrite !decide_False by lia.
Qed.

Lemma sample_calls_ok : Forall call_ok sample_calls.
Proof. unfold sample_calls. repeat (apply Forall_cons; split; [cbn [call_ok]; unfold outside_heap, window; by_compute|]). by apply Forall_nil. Qed.

(** What the calls leave: fourteen frames of its own, and pages that are mapped. *)
Lemma sample_run : match new kernel_world with
  | (Some s, w1) => match perform_all sample_calls w1 s with Ret (w2, s2) => (length (allocated_frames s2), virt_to_phys (mem w2) (pml4 s2) 0x70000000, virt_to_phys (mem w2) (pml4 s2) 0x40000000) | _ => (O, None, None) end
  | (None, _) => (O, None, None)
  end = (14%nat, Some 0x208000, Some 0x202000).
Proof. vm_compute. reflexivity. Qed.

Lemma lifetime_returns_frames_witness :
  match new kernel_world with
  | (Some s, w1) => exists w2 s2 w3, perform_all sample_calls w1 s = Ret (w2, s2) /\ length (allocated_frames s2) = 14%nat /\ drop_space w2 s2 = Ret w3 /\
      forall b, Pmm.addr_free (fa w3) b <-> Pmm.addr_free (fa kernel_world) b
  | (None, _) => False
  end.
Proof.
  pose proof sample_run as H. destruct (new kernel_world) as [[s|] w1] eqn:E; [|discriminate H].
  destruct (lifetime_returns_frames kernel_world w1 s 0x1000 kernel_tree sample_calls) as (w2 & s2 & w3 & E2 & E3 & Hf);
    [apply demo_wf|apply kernel_tables_ok|vm_compute; reflexivity|apply kernel_window_empty|exact E|apply sample_calls_ok|].
  rewrite E2 in H. exists w2, s2, w3. split; [exact E2|]. split; [exact (f_equal (fun x => x.1.1) H)|]. split; [exact E3|exact Hf].
Defined.

Lemma space_stays_inside_witness :
  match new kernel_world with
  | (Some s, w1) => exists w2 s2, perform_all sample_calls w1 s = Ret (w2, s2) /\ entry (mem w2) 0x2000 0 = entry_set 0 (Z.lor TABLE_FLAGS HUGE_PAGE) /\
      virt_to_phys (mem w2) (pml4 s2) 0x70000000 = Some 0x208000 /\ Pmm.addr_free (fa kernel_world) 0x208000
  | (None, _) => False
  end.
Proof.
  pose proof sample_run as H. destruct (new kernel_world) as [[s|] w1] eqn:E; [|discriminate H].
  destruct (space_stays_inside kernel_world w1 s 0x1000 kernel_tree sample_calls) as (w2 & s2 & E2 & Hk & Hl & _);
    [apply demo_wf|apply kernel_tables_ok|vm_compute; reflexivity|apply kernel_window_empty|exact E|apply sample_calls_ok|].
  rewrite E2 in H. pose proof (f_equal (fun x => x.1.2) H) as Hp. cbn [fst snd] in Hp. exists w2, s2. split; [exact E2|]. split; [|split; [exact Hp|]].
  - rewrite (Hk 0x2000 0); [reflexivity|split; [lia|reflexivity]| |lia]. intros [[Hf _] _]. unfold Pmm.PMM_BASE in Hf. lia.
  - apply (Hl 0x70000000); [split; reflexivity || discriminate|reflexivity|exact Hp].
Defined.
End Lifetime.
