(* ===== verification/LoadElf.v ===== *)
(** * Loading a whole executable

    [load_elf] from end to end: the new address space of NewSpace, the segment
    loader of ElfLoad and the user stack put together, for the files the kernel
    builds with [create_elf_binary]. *)
From stdpp Require Import base list strings.
From S2P Require Import Prelude Pmm Paging UserSpace Spare PageTree Faults NewSpace Bytes Elf ElfLoad.
Import Paging UserSpace Spare PageTree Faults NewSpace Bytes Elf ElfLoad.

Module LoadElf.

Section Load.
Context {A : Type} `{FA : Pmm.FrameAllocator A}.
Variable outside : Z -> Z.

(** Dropping an address space always ends. *)
Lemma drop_frames_returns (l : list Z) : forall w : world A, Pmm.fa_wf (fa w) ->
  exists w', drop_frames w l = Ret w' /\ Pmm.fa_wf (fa w').
Proof.
  induction l as [|f l IH]; intros w Hwf; [by exists w|]. cbn [drop_frames]. unfold free_frame.
  destruct (Pmm.fa_dealloc_spec (fa w) f Hwf) as (r & a' & -> & Hr). cbn [mbind outcome_bind].
  apply IH. destruct r; [apply Hr|destruct Hr as [-> _]; done].
Qed.

Lemma drop_space_returns (w : world A) s : Pmm.fa_wf (fa w) -> exists w', drop_space w s = Ret w' /\ Pmm.fa_wf (fa w').
Proof. apply drop_frames_returns. Qed.

(** The pages of a stack of [n] pages from the [i]-th below [top] on. *)
Definition stack_range (n : nat) (i top v : Z) : Prop :=
  top - (i + Z.of_nat n - 1) * PAGE_SIZE <= v < top - (i - 1) * PAGE_SIZE.

Lemma stack_pages_spec n : forall i (w : world A) s T top,
  Pmm.fa_wf (fa w) -> tree (fa w) (mem w) (pml4 s) T -> 1 <= i -> top mod PAGE_SIZE = 0 ->
  0 <= top - (i + Z.of_nat n - 1) * PAGE_SIZE -> top < 2 ^ 47 ->
  (forall v, stack_range n i top v -> no_huge 4 (mem w) (pml4 s) v) ->
  exists ok w' s', stack_pages n i w s top = (ok, w', s') /\ pml4 s' = pml4 s /\ Pmm.fa_wf (fa w') /\
    exists T', tree (fa w') (mem w') (pml4 s) T' /\ data_kept w w' T T' /\
      (forall v, 0 <= v < 2 ^ 48 -> ~ stack_range n i top v -> walk 4 (mem w') (pml4 s) v = walk 4 (mem w) (pml4 s) v) /\
      (ok = true -> forall v, stack_range n i top v -> exists b, holds w' (pml4 s) T' v b).
Proof.
  unfold stack_range. change PAGE_SIZE with 4096.
  induction n as [|n IH]; intros i w s T top Hwf Htr Hi Ht H0 Hu Hnh.
  { exists true, w, s. split; [done|]. split; [done|]. split; [done|]. exists T. split; [done|]. split; [apply data_kept_refl|].
    split; [done|]. intros _ v Hv. lia. }
  cbn [stack_pages]. change PAGE_SIZE with 4096. rewrite Nat2Z.inj_succ in *.
  assert (Ep : u64_sub top (i * 4096) = top - i * 4096) by (apply u64_sub_small; lia). rewrite Ep.
  assert (Hm : (top - i * 4096) mod 4096 = 0) by (rewrite Zminus_mod, Ht, Z_mod_mult; done).
  pose proof (allocate_and_map_spec w s T (top - i * 4096) true Hwf Htr ltac:(lia) (Hnh (top - i * 4096) ltac:(lia))) as Ha.
  destruct (allocate_and_map_page w s (top - i * 4096) true) as [[r w1] s1]. destruct Ha as (Hs1 & Hwf1 & Hnh1 & T1 & Htr1 & Hk1 & Hr).
  assert (Hp1 : pml4 s1 = pml4 s) by (by rewrite Hs1).
  destruct r as [f|].
  2:{ exists false, w1, s1. split; [done|]. split; [done|]. split; [done|]. exists T1. split; [done|]. split; [done|]. split; [|done].
      intros v _ _. apply Hr. }
  destruct Hr as (Hf & _ & Hw & Hother). rewrite <- Hp1 in *.
  destruct (IH (i + 1) w1 s1 T1 top) as (ok & w' & s' & E & Hp' & Hwf' & T' & Htr' & Hk' & Hwk' & Hh'); try done; try lia.
  { intros v Hv. apply Hnh1, Hnh. lia. }
  exists ok, w', s'. split; [done|]. split; [done|]. split; [done|]. exists T'. split; [done|].
  split; [by eapply data_kept_trans|]. split.
  - intros v Hv Hout. rewrite Hwk' by lia. apply Hother; [done|]. rewrite page_eq by lia. change PAGE_SIZE with 4096.
    intros Hq. pose proof (Z.div_mod v 4096). pose proof (Z.mod_pos_bound v 4096). pose proof (Z.div_mod (top - i * 4096) 4096). lia.
  - intros Hok v Hv. destruct (Z_lt_le_dec v (top - i * 4096)) as [Hlt|Hge]; [apply Hh'; [done|lia]|].
    exists (read_byte (mem w1) (f + v mod PAGE_SIZE)). apply (holds_kept w1 w' (pml4 s1) T1); [done|apply Hwk'; lia|].
    exists f. split; [done|]. split; [|done]. apply (walk_page 4 (mem w1) (pml4 s1) (top - i * 4096) v f); [lia|lia| |apply Hf| |lia|done].
    + apply page_eq; [lia..|]. change PAGE_SIZE with 4096.
      pose proof (Z.div_mod v 4096). pose proof (Z.mod_pos_bound v 4096). pose proof (Z.div_mod (top - i * 4096) 4096). lia.
    + apply Hnh1, Hnh. lia.
Qed.

Lemma allocate_user_stack_spec (w : world A) s T :
  Pmm.fa_wf (fa w) -> tree (fa w) (mem w) (pml4 s) T ->
  (forall v, stack_range 4 1 DEFAULT_USER_STACK_TOP v -> no_huge 4 (mem w) (pml4 s) v) ->
  exists ok w' s', allocate_user_stack w s DEFAULT_USER_STACK_TOP DEFAULT_USER_STACK_PAGES = (ok, w', s') /\ pml4 s' = pml4 s /\ Pmm.fa_wf (fa w') /\
    exists T', tree (fa w') (mem w') (pml4 s) T' /\ data_kept w w' T T' /\
      (forall v, 0 <= v < 2 ^ 48 -> ~ stack_range 4 1 DEFAULT_USER_STACK_TOP v -> walk 4 (mem w') (pml4 s) v = walk 4 (mem w) (pml4 s) v) /\
      (ok = true -> forall v, stack_range 4 1 DEFAULT_USER_STACK_TOP v -> exists b, holds w' (pml4 s) T' v b).
Proof.
  intros Hwf Htr Hnh. unfold allocate_user_stack. cbv zeta. set (s1 := (add_guard_page s _ _).2).
  assert (Hs1 : pml4 s1 = pml4 s) by apply add_vma_pml4. rewrite <- Hs1 in *. change (Z.to_nat DEFAULT_USER_STACK_PAGES) with 4%nat.
  destruct (stack_pages_spec 4 1 w s1 T DEFAULT_USER_STACK_TOP) as (ok & w' & s' & -> & Hp & Hwf' & HT); try done.
  destruct ok; eexists _, w', _; (split; [reflexivity|]); (split; [by rewrite ?add_vma_pml4, Hp|]); by split.
Qed.

(** The code and the data of a built file, at their addresses. *)
Lemma built_bytes vaddr code dat x :
  in_u 64 vaddr -> len code + len dat < 2 ^ 62 -> vaddr <= x < vaddr + (len code + len dat) ->
  file_byte outside (create_elf_binary vaddr code dat) HEADER_OFFSET vaddr x = nth (Z.to_nat (x - vaddr)) (code ++ dat) 0.
Proof.
  intros Hv Hl Hx. destruct (built_file outside vaddr code dat Hv Hl) as (e & _ & _ & _ & Hb & Hlen).
  cbn [p_offset p_filesz built_phdr] in *. rewrite <- Hb. unfold file_byte, bytes_at. unfold HEADER_OFFSET in *.
  set (n := Z.to_nat (x - vaddr)). assert (Hn : (n < Z.to_nat (len code + len dat))%nat) by lia.
  rewrite (nth_lookup _ n), list_lookup_fmap, lookup_seq_lt by done. cbn. by replace (Z.of_nat n) with (x - vaddr) by lia.
Qed.

(** The pages of a program that ends below the user stack. *)
Lemma program_pages vaddr n : 0 <= vaddr -> 0 < n -> vaddr + n <= 2147467264 ->
  page_floor vaddr <= vaddr < page_floor vaddr + 4096 /\ 0 <= page_floor vaddr /\ vaddr + n <= page_ceil (vaddr + n) <= 2147467264.
Proof.
  intros Hv Hn Htop. destruct (page_bounds vaddr ltac:(lia)) as (F1 & _ & F0 & _). destruct (page_bounds (vaddr + n) ltac:(lia)) as (_ & _ & _ & C1 & C2).
  change PAGE_SIZE with 4096 in *. pose proof (Z.div_mod (page_ceil (vaddr + n)) 4096). lia.
Qed.

(** The frames the loader may need: two for the new space, and for each page of the
    program and of the stack one, and three for tables. *)
Definition frames_needed (vaddr n : Z) : nat := 2 + (4 * Z.to_nat ((page_ceil (vaddr + n) - page_floor vaddr) / PAGE_SIZE) + (4 * 4 + 0)).

Lemma load_pages_spare fuel d fo vaddr fend eend k : forall (w : world A) s curr pages r w' s',
  Pmm.fa_wf (fa w) -> spare (fa w) (4 * fuel + k) -> load_pages outside fuel w s d fo vaddr fend eend curr pages = Ret (r, w', s') ->
  (exists p, r = Some p) /\ spare (fa w') k.
Proof.
  induction fuel as [|fuel IH]; intros w s curr pages r w' s' Hwf Hs; cbn [load_pages]; (destruct (curr <? eend); [|intros [= <- <- <-]; split; [by eexists|eapply spare_le, Hs; lia]]); [done|].
  replace (4 * S fuel + k)%nat with (4 + (4 * fuel + k))%nat in Hs by lia. destruct (page_spare w s curr true _ Hwf Hs) as (f & w1 & s1 & -> & Hwf1 & Hs1). intros E. eapply IH, E; by case_match.
Qed.

Lemma load_segment_spare (w : world A) s d ph r w' s' k :
  Pmm.fa_wf (fa w) -> segment_ok d ph -> spare (fa w) (4 * Z.to_nat ((page_ceil (p_vaddr ph + p_memsz ph) - page_floor (p_vaddr ph)) / PAGE_SIZE) + k) ->
  load_segment outside w s d ph = Ret (r, w', s') -> (exists u, r = Ok u) /\ spare (fa w') k.
Proof.
  intros Hwf [Hsz Hr Ho Hck] Hs. unfold load_segment. cbv zeta. rewrite (proj2 (Z.ltb_ge _ _)) by lia. rewrite (proj2 (Z.ltb_ge _ _)) by (unfold len in Hck; lia). rewrite !(u64_add_small (p_vaddr ph)) by lia.
  set (ps := page_floor (p_vaddr ph)) in *. set (pe := page_ceil (p_vaddr ph + p_memsz ph)) in *. set (ee := eager_end ps pe _ _).
  assert (Hle : (Z.to_nat ((ee - ps) / PAGE_SIZE) <= Z.to_nat ((pe - ps) / PAGE_SIZE))%nat) by (assert ((ee - ps) / PAGE_SIZE <= (pe - ps) / PAGE_SIZE) by (apply Z.div_le_mono; [done|unfold ee, eager_end; lia]); lia).
  assert (Hs' : spare (fa w) (4 * Z.to_nat ((ee - ps) / PAGE_SIZE) + k)) by (eapply spare_le, Hs; lia).
  destruct (load_pages _ _ _ _ _ _ _ _ _ _ _) as [[[o w1] s1]| |] eqn:E; cbn [mbind outcome_bind]; [|done..].
  destruct (load_pages_spare _ _ _ _ _ _ k _ _ _ _ _ _ _ Hwf Hs' E) as ((pg & ->) & Hs1). intros [= <- <- _]. split; [by eexists|done].
Qed.

Lemma stack_spare_ok (w : world A) s ok w' s' : Pmm.fa_wf (fa w) -> spare (fa w) (4 * 4 + 0) -> allocate_user_stack w s DEFAULT_USER_STACK_TOP DEFAULT_USER_STACK_PAGES = (ok, w', s') -> ok = true.
Proof.
  intros Hwf Hs. unfold allocate_user_stack. cbv zeta. change (Z.to_nat DEFAULT_USER_STACK_PAGES) with 4%nat.
  destruct (stack_spare 4 1 w (add_guard_page s (u64_sub (u64_sub DEFAULT_USER_STACK_TOP (u64_mul DEFAULT_USER_STACK_PAGES PAGE_SIZE)) PAGE_SIZE) PAGE_SIZE).2 DEFAULT_USER_STACK_TOP _ Hwf Hs) as (w1 & s1 & -> & _ & _). by intros [= <- _ _].
Qed.

(** What [load_elf] promises of a program laid out below the user stack. *)
Definition program_ready (w' : world A) (l : LoadedElf) (vaddr : Z) (image : list Z) : Prop :=
  l_entry_point l = vaddr /\ user_stack_top l = DEFAULT_USER_STACK_TOP /\ segments_loaded l = 1 /\
  (forall i, 0 <= i < len image -> exists pa, virt_to_phys (mem w') (pml4 (space l)) (vaddr + i) = Some pa /\
     read_byte (mem w') pa = nth (Z.to_nat i) image 0) /\
  (forall v, DEFAULT_USER_STACK_TOP - 4 * PAGE_SIZE <= v < DEFAULT_USER_STACK_TOP -> virt_to_phys (mem w') (pml4 (space l)) v <> None).

(** What [load_elf] does with a file the kernel built. *)
Lemma load_built (w : world A) K TK vaddr code dat :
  (forall i, in_u 8 (outside i)) ->
  Pmm.fa_wf (fa w) -> kernel_tables w K TK -> is_present (Paging.entry (mem w) K 0) = true ->
  is_bytes code -> is_bytes dat -> 0 <= vaddr -> 0 < len code + len dat ->
  vaddr + (len code + len dat) <= DEFAULT_USER_STACK_TOP - 4 * PAGE_SIZE ->
  (forall v, page_floor vaddr <= v < DEFAULT_USER_STACK_TOP -> no_huge 4 (mem w) K v) ->
  exists r w', load_elf outside w (create_elf_binary vaddr code dat) = Ret (r, w') /\ Pmm.fa_wf (fa w') /\
  match r with
  | Ok l => program_ready w' l vaddr (code ++ dat) /\
      (forall v, 0 <= v < page_floor vaddr -> virt_to_phys (mem w') (pml4 (space l)) v = virt_to_phys (mem w) K v) /\
      exists T, tree (fa w') (mem w') (pml4 (space l)) T /\ data_kept w w' TK T
  | Err e => (e = AddressSpaceAllocationFailed \/ e = SegmentMappingFailed) /\ ~ spare (fa w) (frames_needed vaddr (len code + len dat))
  end.
Proof.
  intros Hout Hwf Hk Hpres Hc Hd Hv Hn Htop Hnh. unfold DEFAULT_USER_STACK_TOP, PAGE_SIZE in Htop. change (0x80000000 - 4 * 4096) with 2147467264 in Htop.
  destruct (built_file outside vaddr code dat) as (e & Hparse & Hentry & Hphs & _ & Hlen); [split; lia|lia|].
  set (n := len code + len dat) in *. set (file := create_elf_binary vaddr code dat) in *. set (ph := built_phdr vaddr n) in *.
  unfold load_elf. rewrite Hparse, Hphs.
  destruct (new_spec w K TK Hwf Hk Hpres) as (rs & w1 & Enew & Hwf1 & Hs).
  assert (Hnew : match rs with Some _ => spare (fa w) (frames_needed vaddr n) -> spare (fa w1) (4 * Z.to_nat ((page_ceil (vaddr + n) - page_floor vaddr) / PAGE_SIZE) + (4 * 4 + 0)) | None => ~ spare (fa w) (frames_needed vaddr n) end).
  { destruct rs; intros Hsp; destruct (new_spare w _ Hwf Hsp) as (s0 & w0 & E0 & _ & Hs0); rewrite Enew in E0; [by injection E0 as <- <-|done]. }
  rewrite Enew. destruct rs as [s|]; [|eexists _, w1; split; [reflexivity|]; split; [done|]; split; [by left|]; exact Hnew].
  destruct Hs as (_ & T1 & Htr1 & Hk1 & Hw1). cbn [load_segments].
  assert (Hm : p_memsz ph =? 0 = false) by (apply Z.eqb_neq; cbn; lia). change (p_type ph =? PT_LOAD) with true. rewrite Hm. cbn [negb orb].
  assert (Hok : segment_ok file ph).
  { split; cbn [p_filesz p_memsz p_vaddr p_offset ph built_phdr] in *; [lia|lia|by_compute|]. rewrite u64_add_small; unfold HEADER_OFFSET in *; lia. }
  destruct (program_pages vaddr n) as (F1 & F0 & C1); [done|lia|lia|].
  assert (Hnh1 : forall v, page_floor vaddr <= v < DEFAULT_USER_STACK_TOP -> no_huge 4 (mem w1) (pml4 s) v).
  { intros v Hv'. apply Hw1; [unfold DEFAULT_USER_STACK_TOP in Hv'; lia|by apply Hnh]. }
  destruct (load_segment_spec outside Hout w1 s T1 file ph Hwf1 Htr1 (built_file_bytes _ _ _ Hc Hd) Hok) as (r & w2 & s2 & Eseg & Hp2 & Hwf2 & Hnh2 & T2 & Htr2 & Hk2 & Hw2 & Hr).
  { intros v Hv'. apply Hnh1. unfold in_pages in Hv'. cbn [p_vaddr p_memsz ph built_phdr] in Hv'. unfold DEFAULT_USER_STACK_TOP. lia. }
  pose proof (fun Hsp => load_segment_spare w1 s file ph r w2 s2 (4 * 4 + 0) Hwf1 Hok (Hnew Hsp) Eseg) as Hsp2. rewrite Eseg.
  unfold in_pages in Hw2. cbn [p_vaddr p_memsz p_filesz p_offset ph built_phdr] in Hw2, Hr. cbn [mbind outcome_bind]. rewrite <- Hp2 in *.
  destruct r as [u|e']; cbn [mbind outcome_bind].
  2:{ subst e'. destruct (drop_space_returns w2 s2 Hwf2) as (w3 & -> & Hwf3). eexists _, w3. split; [reflexivity|]. split; [done|]. split; [by right|]. intros Hsp. by destruct (Hsp2 Hsp) as ((? & ?) & _). }
  destruct (allocate_user_stack_spec w2 s2 T2 Hwf2 Htr2) as (ok & w3 & s3 & Estk & Hp3 & Hwf3 & T3 & Htr3 & Hk3 & Hw3 & Hst).
  { intros v Hv'. apply Hnh2, Hnh1. unfold stack_range, DEFAULT_USER_STACK_TOP, PAGE_SIZE in *. lia. }
  rewrite Estk. destruct ok; cbn [mbind outcome_bind].
  2:{ destruct (drop_space_returns w3 s3 Hwf3) as (w4 & -> & Hwf4). eexists _, w4. split; [reflexivity|]. split; [done|]. split; [by right|]. intros Hsp. destruct (Hsp2 Hsp) as (_ & Hs3). by pose proof (stack_spare_ok _ _ _ _ _ Hwf2 Hs3 Estk). }
  eexists _, w3. split; [reflexivity|]. split; [done|]. unfold program_ready. cbn [space l_entry_point user_stack_top segments_loaded]. rewrite Hp3.
  assert (Hbelow : forall v, 0 <= v < 2147467264 -> walk 4 (mem w3) (pml4 s2) v = walk 4 (mem w2) (pml4 s2) v).
  { intros v Hv'. apply Hw3; [lia|]. unfold stack_range, DEFAULT_USER_STACK_TOP, PAGE_SIZE. lia. }
  split; [split; [done|]; split; [done|]; split; [done|]; split|split].
  - intros i Hi. unfold len in Hi at 1. rewrite length_app, Nat2Z.inj_add in Hi. fold (len code) (len dat) n in Hi.
    destruct (holds_kept w2 w3 (pml4 s2) T2 T3 (vaddr + i) _ Hk3 (Hbelow (vaddr + i) ltac:(lia)) (Hr (vaddr + i) ltac:(lia))) as (f & _ & Hx & Hb).
    exists (f + (vaddr + i) mod PAGE_SIZE). split; [done|]. rewrite Hb. unfold file. rewrite built_bytes; [f_equal; lia|split; lia|fold n; lia|fold n; lia].
  - intros v Hv'. destruct (Hst eq_refl v) as (b & f & _ & Hx & _); [unfold stack_range in *; lia|]. rewrite virt_to_phys_walk, Hx. done.
  - intros v Hv'. rewrite !virt_to_phys_walk, Hbelow, Hw2 by lia. apply Hw1. lia.
  - exists T3. split; [done|]. eapply data_kept_trans; [exact Hk1|]. by eapply data_kept_trans.
Qed.

(** C6: A program the kernel builds is loaded and runnable: over kernel tables
    that leave the user range without large pages, [load_elf] of
    [create_elf_binary vaddr code data] returns; it fails only when fewer frames are
    free than two for the space and four for each page of the program and its stack,
    and otherwise the program has the entry point [vaddr], every byte of code and data is found at
    its virtual address through the tables of the new space, the four stack pages
    are mapped, addresses below the program translate as in the kernel, and the
    data frames of all other spaces are untouched. *)
Theorem built_program_loaded (w : world A) K TK vaddr code dat :
  (forall i, in_u 8 (outside i)) ->
  Pmm.fa_wf (fa w) -> kernel_tables w K TK -> is_present (Paging.entry (mem w) K 0) = true ->
  is_bytes code -> is_bytes dat -> 0 <= vaddr -> 0 < len code + len dat ->
  vaddr + (len code + len dat) <= DEFAULT_USER_STACK_TOP - 4 * PAGE_SIZE ->
  (forall v, page_floor vaddr <= v < DEFAULT_USER_STACK_TOP -> no_huge 4 (mem w) K v) ->
  exists r w', load_elf outside w (create_elf_binary vaddr code dat) = Ret (r, w') /\ Pmm.fa_wf (fa w') /\
  match r with
  | Ok l => program_ready w' l vaddr (code ++ dat) /\
      (forall v, 0 <= v < page_floor vaddr -> virt_to_phys (mem w') (pml4 (space l)) v = virt_to_phys (mem w) K v) /\
      exists T, tree (fa w') (mem w') (pml4 (space l)) T /\ data_kept w w' TK T
  | Err e => (e = AddressSpaceAllocationFailed \/ e = SegmentMappingFailed) /\ ~ spare (fa w) (frames_needed vaddr (len code + len dat))
  end.
Proof. apply load_built. Qed.

End Load.

(** *** Witness: the built-in program [hello] *)
Lemma kernel_no_huge v : DEFAULT_USER_CODE_BASE <= v < DEFAULT_USER_STACK_TOP -> no_huge 4 kernel_mem 0x1000 v.
Proof.
  unfold DEFAULT_USER_CODE_BASE, DEFAULT_USER_STACK_TOP. intros Hv.
  assert (E4 : level_index 4 v = 0).
  { unfold level_index. rewrite Z.shiftr_div_pow2, Z.div_small; [done|cbn; lia|lia]. }
  assert (E3 : level_index 3 v = 1).
  { unfold level_index. rewrite Z.shiftr_div_pow2 by lia. by replace (v / _) with 1 by (apply (Z.div_unique v _ 1 (v - 1073741824)); cbn; lia). }
  cbn [no_huge]. rewrite E4, E3. intros _. split; [by right|]. intros H. vm_compute in H. done.
Qed.

(** Frames enough for a program of one page. *)
Lemma stocked_spare : spare (fa kernel_world) (frames_needed DEFAULT_USER_CODE_BASE 4).
Proof. exists ((fun i => 0x200000 + 4096 * Z.of_nat i) <$> seq 0 22). by_compute. Qed.

Lemma built_program_loaded_witness :
  exists l w', load_elf (fun _ => 0) kernel_world (create_elf_binary DEFAULT_USER_CODE_BASE [0x0f; 0x05] [72; 105]) = Ret (Ok l, w') /\
    program_ready w' l DEFAULT_USER_CODE_BASE [0x0f; 0x05; 72; 105] /\
    forall v, 0 <= v < page_floor DEFAULT_USER_CODE_BASE -> virt_to_phys (mem w') (pml4 (space l)) v = virt_to_phys (mem kernel_world) 0x1000 v.
Proof.
  destruct (built_program_loaded (fun _ => 0) kernel_world 0x1000 kernel_tree DEFAULT_USER_CODE_BASE [0x0f; 0x05] [72; 105]) as (r & w' & E & _ & Hr);
    [done|apply demo_wf|apply kernel_tables_ok|vm_compute; reflexivity|unfold is_bytes; by_compute..|done|done|done|intros v Hv; apply kernel_no_huge; exact Hv|].
  destruct r as [l|e]; [exists l, w'; split; [exact E|split; [apply Hr|apply Hr]]|]. destruct Hr as [_ Hno]. destruct Hno. exact stocked_spare.
Defined.

End LoadElf.
