(* ===== verification/Sched.v ===== *)
(** * The scheduler of one CPU: choice, switches, fairness, reaping
    (src/src/task/mod.rs)

    The invariant of a run queue and that every critical section keeps it, the
    round-robin choice, the fairness of repeated yields, and what reaping
    removes. *)

From stdpp Require Import prelude numbers list strings gmap.
From S2P Require Import Prelude Pmm Paging UserSpace PageTree Context Task.
Import UserSpace Task.

Module Sched.

(** ** The invariant of a run queue

    [current] is a position of the queue (0 while the queue is empty), and only
    the task there may be running. *)
Definition sched_ok (s : CpuScheduler) : Prop :=
  ((current s < length (tasks s))%nat \/ (tasks s = [] /\ current s = O)) /\
  (forall i t, tasks s !! i = Some t -> state t = Running -> i = current s).

Lemma is_state_true a b : is_state a b = true <-> a = b.
Proof. apply bool_decide_eq_true. Qed.

Lemma is_state_false a b : is_state a b = false <-> a <> b.
Proof. apply bool_decide_eq_false. Qed.

(** Position [d] places after the current one. *)
Definition after (s : CpuScheduler) (d : nat) : nat := ((current s + d) mod length (tasks s))%nat.

Definition ready_at (s : CpuScheduler) (i : nat) : Prop := exists t, tasks s !! i = Some t /\ state t = Ready.

Lemma after_lt s d : (0 < length (tasks s))%nat -> (after s d < length (tasks s))%nat.
Proof. intros. unfold after. apply Nat.mod_upper_bound. lia. Qed.

Lemma pick_scan_spec s n i :
  (0 < length (tasks s))%nat ->
  exists r, pick_scan s (length (tasks s)) i n = Ret r /\
  match r with
  | Some j => exists d, (i <= d < i + n)%nat /\ j = after s d /\ ready_at s j /\
                (forall e, (i <= e < d)%nat -> ~ ready_at s (after s e))
  | None => forall e, (i <= e < i + n)%nat -> ~ ready_at s (after s e)
  end.
Proof.
  intros Hl. revert i. induction n as [|n IH]; intros i; cbn [pick_scan].
  { exists None. split; [done|]. intros. lia. }
  destruct (lookup_lt_is_Some_2 (tasks s) (after s i) (after_lt s i Hl)) as [t Ht].
  fold (after s i). rewrite (at_Ret _ _ _ Ht). cbn [mbind outcome_bind].
  destruct (is_state (state t) Ready) eqn:E.
  - apply is_state_true in E. eexists. split; [done|]. exists i. split; [lia|]. split; [done|].
    split; [by exists t|]. intros. lia.
  - apply is_state_false in E. assert (Hn : ~ ready_at s (after s i)).
    { intros (t' & Ht' & ?). congruence. }
    destruct (IH (S i)) as (r & -> & Hr). exists r. split; [done|]. destruct r as [j|].
    + destruct Hr as (d & ? & ? & ? & Hd). exists d. split; [lia|]. split; [done|]. split; [done|].
      intros e He. destruct (decide (e = i)) as [->|]; [done|]. apply Hd. lia.
    + intros e He. destruct (decide (e = i)) as [->|]; [done|]. apply Hr. lia.
Qed.

(** Every position is reached within one turn. *)
Lemma after_surj s j :
  (current s < length (tasks s))%nat -> (j < length (tasks s))%nat ->
  exists d, (1 <= d <= length (tasks s))%nat /\ after s d = j.
Proof.
  intros Hc Hj. unfold after. destruct (decide (current s < j)%nat).
  - exists (j - current s)%nat. split; [lia|]. rewrite Nat.mod_small; lia.
  - exists (j + length (tasks s) - current s)%nat. split; [lia|].
    replace (current s + (j + length (tasks s) - current s))%nat with (j + 1 * length (tasks s))%nat by lia.
    rewrite Nat.Div0.mod_add. apply Nat.mod_small. lia.
Qed.

(** A whole turn, and nothing shorter, comes back. *)
Lemma after_self s d :
  (current s < length (tasks s))%nat -> (1 <= d <= length (tasks s))%nat -> current s = after s d -> d = length (tasks s).
Proof.
  intros Hc Hd Heq. unfold after in Heq. destruct (decide (d = length (tasks s))) as [|Hd2]; [done|exfalso].
  destruct (decide (current s + d < length (tasks s))%nat); [rewrite Nat.mod_small in Heq; lia|].
  rewrite (Nat.mod_eq (current s + d)) in Heq by lia.
  assert (((current s + d) / length (tasks s) = 1)%nat) as Hq; [|rewrite Hq in Heq; lia].
  symmetry. apply (Nat.div_unique _ _ _ (current s + d - length (tasks s))); lia.
Qed.

Lemma pick_next_ret s :
  sched_ok s -> tasks s <> [] ->
  exists r, pick_next s = Ret r /\
  match r with
  | Some j =>
      (exists d, (1 <= d <= length (tasks s))%nat /\ j = after s d /\ ready_at s j /\
         forall e, (1 <= e < d)%nat -> ~ ready_at s (after s e)) \/
      (j = current s /\ (forall i, ~ ready_at s i) /\ exists t, tasks s !! j = Some t /\ state t = Running)
  | None => (forall i, ~ ready_at s i) /\ forall i t, tasks s !! i = Some t -> state t <> Running
  end.
Proof.
  intros [[Hc|[? _]] Hrun] Hne; [|done]. unfold pick_next. destruct (tasks s) as [|t0 l0] eqn:El; [done|]. rewrite <- El in *.
  destruct (pick_scan_spec s (length (tasks s)) 1) as (r & -> & Hr); [lia|]. cbn [mbind outcome_bind].
  destruct r as [j|]; [exists (Some j); split; [done|]; left; destruct Hr as (d & ? & ?); exists d; split; [lia|done]|].
  assert (Hno : forall i, ~ ready_at s i).
  { intros i Hi. destruct Hi as (t & Ht & ?). destruct (after_surj s i Hc) as (d & ? & <-); [by eapply lookup_lt_Some|].
    apply (Hr d); [lia|by exists t]. }
  destruct (lookup_lt_is_Some_2 (tasks s) (current s) Hc) as [t Ht]. rewrite (at_Ret _ _ _ Ht). cbn [mbind outcome_bind].
  destruct (is_state (state t) Running) eqn:E; cbn [orb].
  - apply is_state_true in E. exists (Some (current s)). split; [done|]. right. split; [done|]. split; [done|by exists t].
  - apply is_state_false in E. destruct (is_state (state t) Ready) eqn:E2.
    + apply is_state_true in E2. destruct (Hno (current s)). by exists t.
    + exists None. split; [done|]. split; [done|]. intros i t' Ht' Hst. rewrite (Hrun i t' Ht' Hst) in Ht'. congruence.
Qed.

(** ** Handing the CPU over *)

(** State of position [i] after the switch from the current task to [j]. *)
Definition state_after (s : CpuScheduler) (j i : nat) (t : Task) : TaskState :=
  if decide (i = j) then Running
  else if decide (i = current s /\ state t = Running) then Ready else state t.

(** [s'] is [s] after the switch to [j]: same tasks at the same places. *)
Definition switched (s s' : CpuScheduler) (j : nat) : Prop :=
  current s' = j /\ length (tasks s') = length (tasks s) /\
  forall i t, tasks s !! i = Some t ->
    exists t', tasks s' !! i = Some t' /\ id t' = id t /\ rsp t' = rsp t /\ is_user t' = is_user t /\
      quantum t' = quantum t /\ state t' = state_after s j i t.

Lemma hand_over_spec wk s j tj :
  (forall t, state (wk t) = state t /\ id (wk t) = id t /\ rsp (wk t) = rsp t /\ is_user (wk t) = is_user t /\
             quantum (wk t) = quantum t) ->
  (current s < length (tasks s))%nat -> tasks s !! j = Some tj -> j <> current s ->
  exists sw s', hand_over wk s (current s) j = Ret (sw, s') /\ switched s s' j /\
    old_idx sw = current s /\ new_rsp sw = rsp tj /\ sw_user sw = is_user tj.
Proof.
  intros Hwk Hc Hj Hne. destruct (lookup_lt_is_Some_2 (tasks s) (current s) Hc) as [tc Htc].
  unfold hand_over. rewrite (update_Ret _ _ _ _ Htc). cbn [mbind outcome_bind].
  set (tc' := if is_state (state tc) Running then set_state tc Ready else tc).
  assert (Hj1 : <[current s := tc']> (tasks s) !! j = Some tj) by (rewrite list_lookup_insert_ne; done).
  rewrite (update_Ret _ _ _ _ Hj1). cbn [mbind outcome_bind].
  set (l2 := <[j := _]> _). set (tj' := wk (set_state tj Running)) in *.
  assert (Hj2 : l2 !! j = Some tj').
  { apply list_lookup_insert_eq. by eapply lookup_lt_Some. }
  rewrite (at_Ret _ _ _ Hj2). cbn [mbind outcome_bind]. eexists _, _. split; [done|].
  destruct (Hwk (set_state tj Running)) as (Hw1 & Hw2 & Hw3 & Hw4 & Hw5). fold tj' in Hw1, Hw2, Hw3, Hw4, Hw5.
  split; [|by split_and!].
  split; [done|]. split; [cbn; unfold l2; by rewrite !length_insert|].
  intros i t Hi. cbn [tasks set_current set_tasks]. unfold state_after. destruct (decide (i = j)) as [->|Hij].
  { exists tj'. assert (t = tj) as -> by congruence. by split_and!. }
  unfold l2. rewrite list_lookup_insert_ne by done. destruct (decide (i = current s)) as [->|Hic].
  - exists tc'. assert (t = tc) as -> by congruence. split; [apply list_lookup_insert_eq; by eapply lookup_lt_Some|].
    unfold tc'. destruct (is_state (state tc) Running) eqn:E.
    + apply is_state_true in E. split_and!; try done. cbn. by rewrite decide_True.
    + apply is_state_false in E. split_and!; try done. rewrite decide_False; [done|]. by intros [_ ?].
  - exists t. rewrite list_lookup_insert_ne by done. split_and!; try done. rewrite decide_False; [done|]. by intros [? _].
Qed.

Lemma switched_lookup s s' j i t' :
  switched s s' j -> tasks s' !! i = Some t' ->
  exists t, tasks s !! i = Some t /\ id t' = id t /\ rsp t' = rsp t /\ state t' = state_after s j i t.
Proof.
  intros (_ & Hl & H) Hi. destruct (lookup_lt_is_Some_2 (tasks s) i) as [t Ht].
  { rewrite <- Hl. by eapply lookup_lt_Some. }
  destruct (H i t Ht) as (t'' & Ht'' & ? & ? & _ & _ & ?). assert (t'' = t') as -> by congruence. by exists t.
Qed.

Lemma switched_ok s s' j : sched_ok s -> (j < length (tasks s))%nat -> switched s s' j -> sched_ok s'.
Proof.
  intros [_ Hrun] Hj Hs. pose proof Hs as (Hc & Hl & _). split; [left; lia|].
  intros i t' Hi Hst. destruct (switched_lookup _ _ _ _ _ Hs Hi) as (t & Ht & _ & _ & Hs').
  rewrite Hs' in Hst. unfold state_after in Hst. destruct (decide (i = j)) as [->|]; [done|].
  destruct (decide _) as [|Hn]; [done|]. destruct Hn. split; [by eapply Hrun|done].
Qed.

Lemma switched_ids s s' j : switched s s' j -> id <$> tasks s' = id <$> tasks s.
Proof.
  intros Hs. pose proof Hs as (_ & Hl & H). apply list_eq. intros i. rewrite !list_lookup_fmap.
  destruct (tasks s !! i) as [t|] eqn:E.
  - destruct (H i t E) as (t' & -> & Hid & _). cbn. by rewrite Hid.
  - apply lookup_ge_None in E. rewrite (proj2 (lookup_ge_None (tasks s') i)) by lia. done.
Qed.

(** The position a switch goes to: the next ready one. *)
Definition next_ready (s : CpuScheduler) (j : nat) : Prop :=
  exists d, (1 <= d <= length (tasks s))%nat /\ j = after s d /\ ready_at s j /\
    forall e, (1 <= e < d)%nat -> ~ ready_at s (after s e).

Lemma yield_section_ret s :
  sched_ok s ->
  exists o s', yield_section s = Ret (o, s') /\ sched_ok s' /\
  match o with
  | Some sw => exists j tj, next_ready s j /\ j <> current s /\ tasks s !! j = Some tj /\ switched s s' j /\
                 old_idx sw = current s /\ new_rsp sw = rsp tj
  | None => s' = s /\ ((length (tasks s) < 2)%nat \/ forall i, i <> current s -> ~ ready_at s i)
  end.
Proof.
  intros Hok. unfold yield_section. destruct (Nat.ltb_spec (length (tasks s)) 2) as [Hl|Hl].
  { exists None, s. by split_and!; [..|left]. }
  destruct (pick_next_ret s Hok) as (r & -> & Hr); [intros E; rewrite E in Hl; cbn in Hl; lia|].
  pose proof Hok as [[Hc|[E _]] _]; [|rewrite E in Hl; cbn in Hl; lia].
  cbn [mbind outcome_bind]. destruct r as [j|].
  2:{ exists None, s. split_and!; try done. right. intros i _. apply Hr. }
  destruct (Nat.eqb_spec j (current s)) as [->|Hne].
  - exists None, s. split_and!; try done. right. destruct Hr as [(d & Hd & Heq & _ & Hno)|(_ & Hno & _)]; [|auto].
    intros i Hi Hri. pose proof Hri as (t & Ht & _). destruct (after_surj s i Hc) as (e & He & <-); [by eapply lookup_lt_Some|].
    destruct (decide (e < d)%nat); [by apply (Hno e); [lia|]|].
    assert (d = length (tasks s)) as -> by (by apply (after_self s d)).
    assert (e = length (tasks s)) as -> by lia. by rewrite <- Heq in Hi.
  - destruct Hr as [Hr|(-> & _)]; [|done]. pose proof Hr as (d & _ & _ & (tj & Htj & _) & _).
    destruct (hand_over_spec (fun t => t) s j tj) as (sw & s' & -> & Hs & Ho & Hn & _); [done..|].
    cbn [mbind outcome_bind]. exists (Some sw), s'. split; [done|].
    split; [eapply switched_ok; [done| |done]; by eapply lookup_lt_Some|]. exists j, tj. by split_and!.
Qed.

(** ** Fairness *)

(** [n] consecutive yields on one CPU. *)
Fixpoint yields (n : nat) (s : CpuScheduler) : outcome CpuScheduler :=
  match n with
  | O => Ret s
  | S n' => '(_, s1) ← yield_section s; yields n' s1
  end.

Lemma after_switched s s' j d e :
  switched s s' j -> j = after s d -> after s' e = after s (d + e).
Proof.
  intros (Hc & Hl & _) ->. unfold after at 1. rewrite Hl, Hc. unfold after. rewrite Nat.add_assoc.
  rewrite Nat.Div0.add_mod_idemp_l. done.
Qed.

Lemma yields_reach n : forall s j d,
  sched_ok s -> (d <= n)%nat -> (1 <= d)%nat -> j = after s d -> ready_at s j -> j <> current s ->
  exists k s', (1 <= k <= d)%nat /\ yields k s = Ret s' /\ current s' = j /\ sched_ok s' /\
    (id <$> tasks s' = id <$> tasks s) /\ exists t, tasks s' !! j = Some t /\ state t = Running.
Proof.
  induction n as [|n IH]; intros s j d Hok Hdn Hd Hj Hr Hne; [lia|].
  destruct (yield_section_ret s Hok) as (o & s1 & E & Hok1 & Ho). pose proof Hr as (t & Ht & Hst).
  destruct o as [sw|].
  2:{ exfalso. destruct Ho as [_ [Hl|Hno]]; [|by apply (Hno j)].
      pose proof Hok as [[Hc|[E0 _]] _]; [|by rewrite E0 in Ht]. apply lookup_lt_Some in Ht. lia. }
  destruct Ho as (j1 & tj1 & (d1 & Hd1 & Hj1 & Hr1 & Hmin) & Hne1 & Htj1 & Hs & _).
  assert (d1 <= d)%nat as Hle.
  { destruct (decide (d1 <= d)%nat); [done|]. destruct (Hmin d); [lia|by rewrite <- Hj]. }
  pose proof Hs as (Hc1 & _ & Hsl). destruct (decide (j1 = j)) as [->|Hjj].
  - exists 1%nat, s1. split; [lia|]. split; [cbn [yields]; by rewrite E|]. split; [done|]. split; [done|].
    split; [by eapply switched_ids|]. destruct (Hsl j t Ht) as (t' & Ht' & _ & _ & _ & _ & Hst').
    exists t'. split; [done|]. rewrite Hst'. unfold state_after. by rewrite decide_True.
  - assert (d1 <> d) by (intros ->; congruence).
    destruct (IH s1 j (d - d1)%nat) as (k & s' & Hk & Hy & Hcur & Hok' & Hids & Hrun); [done|lia|lia| | | |].
    + rewrite (after_switched s s1 j1 d1); [|done..]. replace (d1 + (d - d1))%nat with d by lia. done.
    + destruct (Hsl j t Ht) as (t' & Ht' & _ & _ & _ & _ & Hst'). exists t'. split; [done|]. rewrite Hst'.
      unfold state_after. rewrite decide_False by done. rewrite decide_False; [done|]. by intros [? _].
    + congruence.
    + exists (S k), s'. split; [lia|]. split; [cbn [yields]; by rewrite E|]. split; [done|]. split; [done|].
      split; [|done]. rewrite Hids. by eapply switched_ids.
Qed.

(** Round-robin choice.  On a well-formed non-empty queue [pick_next] never
    panics.  It answers the first ready task after the current one in cyclic order;
    without any ready task it answers the current one if that is running, and
    [None] exactly when no task is ready and the current one is not running. *)
Theorem pick_next_round_robin s :
  sched_ok s -> tasks s <> [] ->
  exists r, pick_next s = Ret r /\
  match r with
  | Some j => next_ready s j \/
      (j = current s /\ (forall i, ~ ready_at s i) /\ exists t, tasks s !! j = Some t /\ state t = Running)
  | None => (forall i, ~ ready_at s i) /\ forall i t, tasks s !! i = Some t -> state t <> Running
  end.
Proof. apply pick_next_ret. Qed.

(** C30: fairness.  A task that is ready in the queue of a CPU gets the CPU after
    at most [length - 1] yields of the tasks that run before it, and the queue
    still holds the same tasks in the same order. *)
Theorem round_robin_fair s j t :
  sched_ok s -> tasks s !! j = Some t -> state t = Ready -> j <> current s ->
  exists k s', (1 <= k < length (tasks s))%nat /\ yields k s = Ret s' /\ current s' = j /\ sched_ok s' /\
    (id <$> tasks s' = id <$> tasks s) /\ exists t', tasks s' !! j = Some t' /\ state t' = Running.
Proof.
  intros Hok Ht Hst Hne. pose proof Hok as [[Hc|[E _]] _]; [|by rewrite E in Ht].
  destruct (after_surj s j Hc) as (d & Hd & Hj); [by eapply lookup_lt_Some|].
  assert (d <> length (tasks s)).
  { intros ->. unfold after in Hj. replace (current s + length (tasks s))%nat with (current s + 1 * length (tasks s))%nat in Hj by lia.
    rewrite Nat.Div0.mod_add, Nat.mod_small in Hj by lia. congruence. }
  destruct (yields_reach d s j d) as (k & s' & Hk & ?); [done|lia|lia|done|by exists t|done|].
  exists k, s'. split; [lia|done].
Qed.

(** ** Changes in place *)

(** The same tasks at the same places, none newly running. *)
Definition in_place (s s' : CpuScheduler) : Prop :=
  current s' = current s /\ length (tasks s') = length (tasks s) /\
  forall i t, tasks s !! i = Some t ->
    exists t', tasks s' !! i = Some t' /\ id t' = id t /\ (state t' = Running -> state t = Running).

Lemma in_place_ok s s' : in_place s s' -> sched_ok s -> sched_ok s' /\ id <$> tasks s' = id <$> tasks s.
Proof.
  intros (Hc & Hl & H) [Hcur Hrun]. split; [split|].
  - rewrite Hc, Hl. destruct Hcur as [?|[E ?]]; [by left|right]. split; [|done]. apply length_zero_iff_nil. by rewrite Hl, E.
  - intros i t' Hi Hst. destruct (lookup_lt_is_Some_2 (tasks s) i) as [t Ht]; [rewrite <- Hl; by eapply lookup_lt_Some|].
    destruct (H i t Ht) as (t'' & Ht'' & _ & Hr). assert (t'' = t') as -> by congruence. rewrite Hc. eapply Hrun; eauto.
  - apply list_eq. intros i. rewrite !list_lookup_fmap. destruct (tasks s !! i) as [t|] eqn:E.
    + destruct (H i t E) as (t' & -> & Hid & _). cbn. by rewrite Hid.
    + apply lookup_ge_None in E. rewrite (proj2 (lookup_ge_None (tasks s') i)) by lia. done.
Qed.

Lemma in_place_refl s : in_place s s.
Proof. split; [done|]. split; [done|]. intros i t Ht. by exists t. Qed.

Lemma in_place_trans s1 s2 s3 : in_place s1 s2 -> in_place s2 s3 -> in_place s1 s3.
Proof.
  intros (Hc1 & Hl1 & H1) (Hc2 & Hl2 & H2). split; [congruence|]. split; [congruence|].
  intros i t Ht. destruct (H1 i t Ht) as (t' & Ht' & ? & ?). destruct (H2 i t' Ht') as (t'' & ? & ? & ?).
  exists t''. split; [done|]. split; [congruence|auto].
Qed.

Lemma update_in_place s i f l :
  (forall t, id (f t) = id t /\ (state (f t) = Running -> state t = Running)) ->
  update (tasks s) i f = Ret l -> in_place s (set_tasks s l).
Proof.
  intros Hf. unfold update, at_, index. rewrite Nat2Z.id. destruct (tasks s !! i) as [t|] eqn:E; [|done].
  cbn. intros [= <-]. split; [done|]. split; [cbn; by rewrite length_insert|]. cbn. intros j u Hu.
  destruct (decide (i = j)) as [->|].
  - exists (f t). rewrite list_lookup_insert_eq by (by eapply lookup_lt_Some). assert (u = t) as -> by congruence.
    split; [done|]. apply Hf.
  - exists u. by rewrite list_lookup_insert_ne.
Qed.

Lemma fmap_in_place s f :
  (forall t, id (f t) = id t /\ (state (f t) = Running -> state t = Running)) -> in_place s (set_tasks s (f <$> tasks s)).
Proof.
  intros Hf. split; [done|]. split; [cbn; by rewrite length_fmap|]. cbn. intros i t Ht. exists (f t).
  rewrite list_lookup_fmap, Ht. split; [done|]. apply Hf.
Qed.

Lemma wake_id now t : id (wake now t) = id t /\ (state (wake now t) = Running -> state t = Running).
Proof. unfold wake. destruct (state t) eqn:E; [by rewrite E..| |by rewrite E]. destruct (_ <=? _); cbn; by rewrite ?E. Qed.

Lemma wake_all_in_place now s : in_place s (wake_all now s).
Proof. apply fmap_in_place. apply wake_id. Qed.

Lemma charge_current_in_place s s' : charge_current s = Ret s' -> in_place s s'.
Proof.
  unfold charge_current. destruct (Nat.ltb _ _); [|intros [= <-]; apply in_place_refl].
  destruct (update _ _ _) as [l| |] eqn:E; cbn; [|done..]. intros [= <-]. by eapply update_in_place; [|done].
Qed.

Lemma sleep_section_in_place s n s' : sleep_section s n = Ret s' -> in_place s s'.
Proof.
  unfold sleep_section. destruct (update _ _ _) as [l| |] eqn:E; cbn; [|done..]. intros [= <-].
  by eapply update_in_place; [|done].
Qed.

Lemma save_rsp_in_place s i r : in_place s (save_rsp s i r).
Proof.
  split; [done|]. split; [cbn; by rewrite length_alter|]. cbn. intros j t Ht. destruct (decide (i = j)) as [->|].
  - exists (set_rsp t r). by rewrite list_lookup_alter_eq, Ht.
  - exists t. by rewrite list_lookup_alter_ne.
Qed.

(** [kill_task] marks the first task of that id and no other. *)
Lemma mark_dead_spec tid l l' :
  mark_dead tid l = Some l' ->
  exists i t, l !! i = Some t /\ id t = tid /\ (forall j u, (j < i)%nat -> l !! j = Some u -> id u <> tid) /\
    l' = <[i := set_state t Dead]> l.
Proof.
  revert l'. induction l as [|x l IH]; intros l'; cbn [mark_dead]; [done|].
  destruct (Z.eqb_spec (id x) tid) as [Hx|Hx].
  - intros [= <-]. exists O, x. split; [done|]. split; [done|]. split; [lia|done].
  - destruct (mark_dead tid l) as [l1|]; [|done]. intros [= <-]. destruct (IH _ eq_refl) as (i & t & ? & ? & Hj & ->).
    exists (S i), t. split_and!; try done. intros [|j] u Hlt Hu; [by injection Hu as <-|]. apply (Hj j); [lia|done].
Qed.

Lemma mark_dead_in_place tid s l : mark_dead tid (tasks s) = Some l -> in_place s (set_tasks s l).
Proof.
  intros H. destruct (mark_dead_spec _ _ _ H) as (i & t & Hi & _ & _ & ->).
  apply (update_in_place s i (fun t => set_state t Dead)); [done|]. by rewrite (update_Ret _ _ _ _ Hi).
Qed.

(** ** Removal and insertion *)

(** Removing a task that is not the current one keeps the current task current. *)
Lemma remove_ok s i t :
  sched_ok s -> tasks s !! i = Some t -> i <> current s ->
  let s' := set_current (set_tasks s (delete i (tasks s))) (drop_index i (current s)) in
  sched_ok s' /\ tasks s' !! current s' = tasks s !! current s /\
  id <$> tasks s ≡ₚ id t :: (id <$> tasks s').
Proof.
  intros [Hcur Hrun] Hi Hne. cbv zeta. cbn [tasks current set_current set_tasks].
  pose proof (lookup_lt_Some _ _ _ Hi) as Hil. unfold drop_index.
  assert (Hlook : forall k, delete i (tasks s) !! k = if decide (k < i)%nat then tasks s !! k else tasks s !! S k).
  { intros k. destruct (decide (k < i)%nat); [by apply list_lookup_delete_lt|apply list_lookup_delete_ge; lia]. }
  destruct Hcur as [Hcur|[E _]]; [|by rewrite E in Hi].
  split; [split|split].
  - left. cbn [tasks current set_current set_tasks]. rewrite length_delete by eauto.
    destruct (Nat.ltb_spec i (current s)); lia.
  - cbn [tasks current set_current set_tasks]. intros k u Hk Hst. rewrite Hlook in Hk. destruct (decide (k < i)%nat) as [Hlt|Hge].
    + rewrite <- (Hrun k u Hk Hst). destruct (Nat.ltb_spec i k); lia.
    + pose proof (Hrun (S k) u Hk Hst). destruct (Nat.ltb_spec i (current s)); lia.
  - rewrite Hlook. destruct (Nat.ltb_spec i (current s)) as [Hlt|Hge].
    + rewrite decide_False by lia. f_equal. lia.
    + by rewrite decide_True by lia.
  - rewrite <- fmap_cons. apply fmap_Permutation. by apply delete_Permutation.
Qed.

Lemma push_ok s t : sched_ok s -> state t <> Running -> sched_ok (push_task s t).
Proof.
  intros [Hc Hrun] Hst. split; cbn; [left; rewrite length_app; cbn; destruct Hc as [?|[-> ->]]; cbn; lia|].
  intros i u Hu Hur. apply lookup_app_Some in Hu as [Hu|[_ Hu]]; [by eapply Hrun|].
  destruct (i - length (tasks s))%nat; [|done]. by injection Hu as <-.
Qed.

Lemma steal_idx_spec l : forall i curr k,
  steal_idx l i curr = Some k ->
  exists t, (i <= k)%nat /\ l !! (k - i)%nat = Some t /\ k <> O /\ k <> curr /\ state t = Ready /\ is_user t = false.
Proof.
  induction l as [|x l IH]; intros i curr k; cbn [steal_idx]; [done|].
  destruct (_ && _)%bool eqn:E.
  - intros [= <-]. rewrite !andb_true_iff, !negb_true_iff, !Nat.eqb_neq, is_state_true in E. exists x.
    rewrite Nat.sub_diag. split_and!; try done; tauto.
  - intros H. destruct (IH _ _ _ H) as (t & Hle & Ht & ?). exists t. split; [lia|]. split; [|done].
    replace (k - i)%nat with (S (k - S i)) by lia. done.
Qed.

(** A theft takes a ready kernel task that is neither the first nor current. *)
Lemma steal_section_spec v :
  sched_ok v ->
  exists o v', steal_section v = Ret (o, v') /\ sched_ok v' /\
  match o with
  | Some t => state t = Ready /\ is_user t = false /\ t ∈ tasks v /\ (id <$> tasks v ≡ₚ id t :: (id <$> tasks v')) /\
              tasks v' !! current v' = tasks v !! current v
  | None => v' = v
  end.
Proof.
  intros Hok. unfold steal_section. destruct (Nat.ltb _ _); [|by exists None, v].
  destruct (steal_idx (tasks v) 0 (current v)) as [k|] eqn:E; [|by exists None, v].
  destruct (steal_idx_spec _ _ _ _ E) as (t & _ & Ht & _ & Hne & Hst & Hu). rewrite Nat.sub_0_r in Ht.
  unfold remove_at. rewrite (at_Ret _ _ _ Ht). cbn [mbind outcome_bind].
  destruct (remove_ok v k t Hok Ht Hne) as (Hok' & Hcur & Hids).
  eexists (Some t), _. split; [done|]. split; [done|]. split_and!; try done. by eapply list_elem_of_lookup_2.
Qed.

(** ** Preemption *)

(** A preempting switch gives the next task a full quantum. *)
Lemma hand_over_woken s c j sw s' :
  hand_over reset_quantum s c j = Ret (sw, s') ->
  exists t, tasks s' !! j = Some t /\ state t = Running /\ quantum_remaining t = quantum t.
Proof.
  unfold hand_over. destruct (update (tasks s) c _) as [l1| |]; cbn [mbind outcome_bind]; [|done..].
  destruct (update l1 j _) as [l2| |] eqn:E2; cbn [mbind outcome_bind]; [|done..].
  destruct (at_ l2 j) as [t| |] eqn:E3; cbn [mbind outcome_bind]; [|done..]. intros [= <- <-]. cbn.
  apply at_inv in E3. exists t. split; [done|]. revert E2. unfold update.
  destruct (at_ l1 j) as [u| |] eqn:E5; cbn [mbind outcome_bind]; [|done..]. apply at_inv in E5. intros [= <-].
  rewrite list_lookup_insert_eq in E3 by (by eapply lookup_lt_Some). by injection E3 as <-.
Qed.

Lemma preempt_section_ret s :
  sched_ok s ->
  exists o s', preempt_section s = Ret (o, s') /\ sched_ok s' /\ (id <$> tasks s' = id <$> tasks s) /\
  match o with
  | Some sw => exists tc j tj, tasks s !! current s = Some tc /\ quantum_remaining tc <= 0 /\
      next_ready s j /\ j <> current s /\ current s' = j /\ tasks s' !! j = Some tj /\ state tj = Running /\
      quantum_remaining tj = quantum tj /\ old_idx sw = current s
  | None => current s' = current s
  end.
Proof.
  intros Hok. unfold preempt_section. destruct (Nat.ltb_spec (length (tasks s)) 2) as [Hl|Hl]; [by exists None, s|].
  destruct (Nat.leb_spec (length (tasks s)) (current s)) as [Hc|Hc]; [by exists None, s|].
  destruct (lookup_lt_is_Some_2 (tasks s) (current s) Hc) as [tc Htc]. rewrite (at_Ret _ _ _ Htc). cbn [mbind outcome_bind].
  destruct (Z.ltb_spec 0 (quantum_remaining tc)) as [Hq|Hq]; [by exists None, s|].
  rewrite (update_Ret _ _ _ _ Htc). cbn [mbind outcome_bind]. set (s1 := set_tasks s _).
  assert (Hin : in_place s s1) by (apply (update_in_place s (current s) reset_quantum); [done|by rewrite (update_Ret _ _ _ _ Htc)]).
  destruct (in_place_ok _ _ Hin Hok) as [Hok1 Hids1]. pose proof Hin as (Hc1 & Hl1 & _).
  assert (Hready : forall i, ready_at s1 i <-> ready_at s i).
  { intros i. unfold ready_at, s1. cbn [tasks set_tasks]. destruct (decide (current s = i)) as [<-|].
    - rewrite list_lookup_insert_eq by done. rewrite Htc. split; intros (t & [= <-] & ?); eauto.
    - by rewrite list_lookup_insert_ne. }
  destruct (pick_next_ret s1 Hok1) as (r & -> & Hr); [intros E; rewrite E in Hl1; cbn in Hl1; lia|]. cbn [mbind outcome_bind].
  destruct r as [j|]; [|by exists None, s1]. destruct (Nat.eqb_spec j (current s)) as [->|Hne]; [by exists None, s1|].
  destruct Hr as [Hr|(Hj & _)]; [|congruence]. pose proof Hr as (d & _ & _ & (tj & Htj & _) & _).
  rewrite <- Hc1 in Hne.
  destruct (hand_over_spec reset_quantum s1 j tj) as (sw & s' & E & Hs & Ho & _ & _); [done|lia|done|done|].
  rewrite Hc1 in E. rewrite E. cbn [mbind outcome_bind]. exists (Some sw), s'. split; [done|].
  split; [eapply switched_ok; [done| |done]; by eapply lookup_lt_Some|].
  split; [by rewrite (switched_ids _ _ _ Hs)|]. pose proof Hs as (Hcur & _ & Hsl).
  assert (exists tj', tasks s' !! j = Some tj' /\ state tj' = Running /\ quantum_remaining tj' = quantum tj') as (tj' & Hj1 & Hj2 & Hj3).
  { by eapply hand_over_woken. }
  exists tc, j, tj'. split_and!; try done; try congruence.
  destruct Hr as (d' & Hd & -> & Hrd & Hmin). exists d'. unfold after in *. rewrite Hc1, Hl1 in *.
  split; [done|]. split; [done|]. split; [by apply Hready|]. intros e He Hre. apply (Hmin e He). by apply Hready.
Qed.

(** ** Reaping *)
Section Reap.
Context {A : Type} `{FA : Pmm.FrameAllocator A}.

Definition dead (t : Task) : bool := is_state (state t) Dead.
Definition alive (t : Task) : bool := negb (dead t).

Fixpoint drop_tasks (w : world A) (l : list Task) : outcome (world A) :=
  match l with [] => Ret w | t :: l' => w' ← drop_task w t; drop_tasks w' l' end.

Lemma drop_tasks_app w l1 l2 : drop_tasks w (l1 ++ l2) = (w' ← drop_tasks w l1; drop_tasks w' l2).
Proof.
  revert w. induction l1 as [|t l1 IH]; intros w; [done|]. cbn [app drop_tasks].
  destruct (drop_task w t); cbn; [apply IH|done..].
Qed.

Lemma at_middle {B} (l1 l2 : list B) x i : length l1 = i -> at_ (l1 ++ x :: l2) i = Ret x.
Proof. intros <-. apply at_Ret. by rewrite list_lookup_middle. Qed.

Lemma remove_middle {B} (l1 l2 : list B) x i : length l1 = i -> remove_at (l1 ++ x :: l2) i = Ret (x, l1 ++ l2).
Proof.
  intros <-. unfold remove_at. rewrite at_middle by done. cbn. by rewrite delete_middle.
Qed.

(** The loop past the current task, and before it. *)
Lemma reap_loop_behind suf : forall fuel w s pre n,
  tasks s = pre ++ suf -> (current s < length pre)%nat -> (length suf <= fuel)%nat ->
  reap_loop fuel w s (length pre) n =
    (w' ← drop_tasks w (List.filter dead suf);
     Ret (n + Z.of_nat (length (List.filter dead suf)), w', set_tasks s (pre ++ List.filter alive suf))).
Proof.
  induction suf as [|t suf IH]; intros fuel w s pre n Ht Hc Hf.
  - cbn [List.filter drop_tasks mbind outcome_bind length].
    rewrite Z.add_0_r, <- Ht. replace (set_tasks s (tasks s)) with s by (by destruct s).
    rewrite app_nil_r in Ht. destruct fuel; cbn [reap_loop]; rewrite Ht, Nat.ltb_irrefl; done.
  - destruct fuel as [|fuel]; [cbn in Hf; lia|]. cbn [reap_loop]. rewrite Ht, length_app. cbn [length].
    replace (Nat.ltb (length pre) (length pre + S (length suf))) with true by (symmetry; apply Nat.ltb_lt; lia).
    replace (Nat.eqb (length pre) (current s)) with false by (symmetry; apply Nat.eqb_neq; lia).
    rewrite at_middle by done. cbn [mbind outcome_bind List.filter]. change (is_state (state t) Dead) with (dead t).
    change (alive t) with (negb (dead t)). destruct (dead t) eqn:E; cbn [negb].
    + rewrite remove_middle by done. cbn [mbind outcome_bind drop_tasks]. destruct (drop_task w t) as [w1| |]; cbn [mbind outcome_bind]; [|done..].
      unfold drop_index. replace (Nat.ltb (length pre) (current s)) with false by (symmetry; apply Nat.ltb_ge; lia).
      rewrite (IH fuel w1 _ pre); [|done|done|cbn in Hf; lia]. cbn [length].
      destruct (drop_tasks w1 _); cbn; [|done..]. do 3 f_equal. lia.
    + replace (S (length pre)) with (length (pre ++ [t])) by (rewrite length_app; cbn; lia).
      rewrite (IH fuel w s (pre ++ [t])); [|by rewrite <- app_assoc|rewrite length_app; lia|cbn in Hf; lia].
      destruct (drop_tasks w _); cbn; [|done..]. by rewrite <- app_assoc.
Qed.

Lemma reap_loop_ahead l1 : forall fuel w s pre c l2 n,
  tasks s = pre ++ l1 ++ c :: l2 -> current s = (length pre + length l1)%nat -> (length (l1 ++ c :: l2) <= fuel)%nat ->
  let d := List.filter dead l1 ++ List.filter dead l2 in
  reap_loop fuel w s (length pre) n =
    (w' ← drop_tasks w d;
     Ret (n + Z.of_nat (length d), w',
       set_current (set_tasks s (pre ++ List.filter alive l1 ++ c :: List.filter alive l2))
         (length pre + length (List.filter alive l1)))).
Proof.
  induction l1 as [|t l1 IH]; intros fuel w s pre c l2 n Ht Hc Hf; cbv zeta.
  - destruct fuel as [|fuel]; [cbn in Hf; lia|]. cbn [app List.filter length] in *. rewrite Nat.add_0_r in *.
    cbn [reap_loop]. rewrite Ht, length_app, Hc, Nat.eqb_refl. cbn [length].
    replace (Nat.ltb (length pre) (length pre + S (length l2))) with true by (symmetry; apply Nat.ltb_lt; lia).
    replace (S (length pre)) with (length (pre ++ [c])) by (rewrite length_app; cbn; lia).
    rewrite (reap_loop_behind l2); [|by rewrite <- app_assoc|rewrite length_app; cbn; lia|lia].
    destruct (drop_tasks w _); cbn [mbind outcome_bind]; [|done..]. rewrite <- app_assoc. cbn [app].
    destruct s. cbn in *. by subst.
  - destruct fuel as [|fuel]; [cbn in Hf; lia|]. cbn [reap_loop]. rewrite Ht, length_app. cbn [app length].
    cbn [app length] in Hf, Hc, Ht.
    replace (Nat.ltb _ _) with true by (symmetry; apply Nat.ltb_lt; lia).
    replace (Nat.eqb (length pre) (current s)) with false by (symmetry; apply Nat.eqb_neq; lia).
    rewrite at_middle by done. cbn [mbind outcome_bind List.filter]. change (is_state (state t) Dead) with (dead t).
    change (alive t) with (negb (dead t)). destruct (dead t) eqn:E; cbn [negb].
    + rewrite remove_middle by done. cbn [mbind outcome_bind app drop_tasks].
      destruct (drop_task w t) as [w1| |]; cbn [mbind outcome_bind]; [|done..].
      unfold drop_index. replace (Nat.ltb (length pre) (current s)) with true by (symmetry; apply Nat.ltb_lt; lia).
      rewrite (IH fuel w1 _ pre c l2); [|done|cbn; lia|lia].
      destruct (drop_tasks w1 _); cbn [mbind outcome_bind length]; [|done..]. do 3 f_equal. lia.
    + replace (S (length pre)) with (length (pre ++ [t])) by (rewrite length_app; cbn; lia).
      rewrite (IH fuel w s (pre ++ [t]) c l2); [|by rewrite <- app_assoc|rewrite length_app; cbn; lia|lia].
      destruct (drop_tasks w _); cbn [mbind outcome_bind]; [|done..]. rewrite <- app_assoc. cbn [app].
      by replace (length (pre ++ [t]) + length (List.filter alive l1))%nat with (length pre + S (length (List.filter alive l1)))%nat by (rewrite length_app; cbn; lia).
Qed.

(** Frames owned by a task. *)
Definition owned (t : Task) : list Z := match address_space t with Some sp => allocated_frames sp | None => [] end.

Lemma drop_tasks_spec l : forall w,
  Pmm.fa_wf (fa w) -> Forall (fun t => Forall Pmm.is_frame (owned t)) l ->
  exists w', drop_tasks w l = Ret w' /\ Pmm.fa_wf (fa w') /\
    forall b, Pmm.fa_free (fa w') b <-> Pmm.fa_free (fa w) b \/ exists t, t ∈ l /\ b ∈ owned t.
Proof.
  induction l as [|t l IH]; intros w Hwf HF; cbn [drop_tasks].
  { exists w. split; [done|]. split; [done|]. intros b. split; [by left|]. intros [?|(t & Ht & _)]; [done|]. by apply elem_of_nil in Ht. }
  apply Forall_cons_1 in HF as [Ht HF].
  assert (exists w1, drop_task w t = Ret w1 /\ Pmm.fa_wf (fa w1) /\
    forall b, Pmm.fa_free (fa w1) b <-> Pmm.fa_free (fa w) b \/ b ∈ owned t) as (w1 & -> & Hwf1 & H1).
  { unfold drop_task, owned in *. destruct (address_space t) as [sp|].
    - by apply PageTree.drop_frames_spec.
    - exists w. split; [done|]. split; [done|]. intros b. rewrite elem_of_nil. tauto. }
  cbn [mbind outcome_bind]. destruct (IH w1 Hwf1 HF) as (w' & -> & Hwf' & H'). exists w'. split; [done|]. split; [done|].
  intros b. rewrite H', H1. setoid_rewrite elem_of_cons. split.
  - intros [[?|?]|(u & ? & ?)]; [by left|right; exists t; auto|right; exists u; auto].
  - intros [?|(u & [->|?] & ?)]; [by left; left|by left; right|right; exists u; auto].
Qed.

(** Reaping.  [reap_dead_tasks_on_cpu] returns; it removes exactly the dead
    tasks other than the current one, keeps the order of the rest and the current
    task current, answers how many it removed, and gives the frames of their
    address spaces, and no others, back to the frame allocator. *)
Theorem reap_removes_dead (w : world A) s l1 c l2 :
  Pmm.fa_wf (fa w) -> Forall (fun t => Forall Pmm.is_frame (owned t)) (tasks s) ->
  tasks s = l1 ++ c :: l2 -> current s = length l1 ->
  exists w', reap_section w s =
      Ret (Z.of_nat (length (List.filter dead (l1 ++ l2))), w',
           mkSched (cpu_id s) (List.filter alive l1 ++ c :: List.filter alive l2) (length (List.filter alive l1)) (sticks s)) /\
    Pmm.fa_wf (fa w') /\
    forall b, Pmm.fa_free (fa w') b <-> Pmm.fa_free (fa w) b \/ exists t, t ∈ l1 ++ l2 /\ state t = Dead /\ b ∈ owned t.
Proof.
  intros Hwf HF Ht Hc. unfold reap_section. rewrite (reap_loop_ahead l1 _ w s [] c l2 0) by (rewrite ?Ht; done).
  rewrite <- List.filter_app. destruct (drop_tasks_spec (List.filter dead (l1 ++ l2)) w Hwf) as (w' & -> & Hwf' & Hfree).
  { apply Forall_forall. intros t Hin. apply list_elem_of_In, filter_In in Hin as [Hin _]. apply list_elem_of_In in Hin.
    rewrite Forall_forall in HF. apply HF. rewrite Ht, elem_of_app, elem_of_cons. apply elem_of_app in Hin. tauto. }
  exists w'. split; [done|]. split; [done|]. intros b. rewrite Hfree. f_equiv. f_equiv. intros t.
  rewrite list_elem_of_In, filter_In, <- list_elem_of_In. unfold dead. rewrite is_state_true. tauto.
Qed.

End Reap.

(** Preemption.  [preempt_schedule_on_cpu] never panics on a well-formed queue
    and takes the CPU away only when the quantum of the current task is used up;
    the next ready task in cyclic order then runs with a full quantum. *)
Theorem preempt_on_expiry s :
  sched_ok s ->
  exists o s', preempt_section s = Ret (o, s') /\ sched_ok s' /\ (id <$> tasks s' = id <$> tasks s) /\
  match o with
  | Some sw => exists tc j tj, tasks s !! current s = Some tc /\ quantum_remaining tc <= 0 /\
      next_ready s j /\ j <> current s /\ current s' = j /\ tasks s' !! j = Some tj /\ state tj = Running /\
      quantum_remaining tj = quantum tj /\ old_idx sw = current s
  | None => current s' = current s
  end.
Proof. apply preempt_section_ret. Qed.

(** ** Witnesses *)
Definition sample_task (i : Z) (st : TaskState) : Task :=
  mkTask i "t" 0 None st 0 0 DEFAULT_QUANTUM 10 false None 0 0 0 None.
Definition sample_queue : CpuScheduler :=
  mkSched 0 [sample_task 0 Running; sample_task 1 (Sleeping 50); sample_task 2 Ready; sample_task 3 Dead] 0 0.

Lemma sample_ok : sched_ok sample_queue.
Proof.
  split; [left; cbn; lia|]. intros [|[|[|[|i]]]] t Ht Hst; cbn in Ht; try done; injection Ht as <-; done.
Qed.

Lemma pick_next_round_robin_witness : exists r, pick_next sample_queue = Ret r /\ r = Some 2%nat.
Proof.
  destruct (pick_next_round_robin sample_queue sample_ok ltac:(discriminate)) as (r & E & _).
  exists r. split; [exact E|]. assert (pick_next sample_queue = Ret (Some 2%nat)) as E2 by (vm_compute; reflexivity).
  rewrite E2 in E. injection E as <-. reflexivity.
Defined.

Lemma round_robin_fair_witness : exists k s', (1 <= k < 4)%nat /\ yields k sample_queue = Ret s' /\ current s' = 2%nat.
Proof.
  destruct (round_robin_fair sample_queue 2 (sample_task 2 Ready) sample_ok eq_refl eq_refl ltac:(discriminate))
    as (k & s' & Hk & Hy & Hc & _).
  exists k, s'. split; [exact Hk|]. split; [exact Hy|exact Hc].
Defined.

Lemma preempt_on_expiry_witness : exists o s', preempt_section sample_queue = Ret (o, s') /\ sched_ok s'.
Proof.
  destruct (preempt_on_expiry sample_queue sample_ok) as (o & s' & E & H & _). exists o, s'. split; [exact E|exact H].
Defined.

Lemma reap_removes_dead_witness :
  exists w', reap_section PageTree.demo_world sample_queue =
    Ret (1, w', mkSched 0 [sample_task 0 Running; sample_task 1 (Sleeping 50); sample_task 2 Ready] 0 0).
Proof.
  destruct (reap_removes_dead PageTree.demo_world sample_queue [] (sample_task 0 Running)
    [sample_task 1 (Sleeping 50); sample_task 2 Ready; sample_task 3 Dead]) as (w' & E & _).
  - apply PageTree.demo_wf.
  - repeat constructor.
  - reflexivity.
  - reflexivity.
  - exists w'. exact E.
Defined.

(** A yield on a machine with one CPU looks for no work elsewhere. *)
Lemma yield_now_alone {A} `{FA : Pmm.FrameAllocator A} (k : kernel A) cpu q o q' : (cpu_count k <= 1)%nat -> (cpu < MAX_CPUS)%nat -> CPU_SCHEDULERS k !! cpu = Some q ->
  yield_section q = Ret (o, q') -> yield_now k cpu = Ret (o, apply_switch (set_scheds k (<[cpu := q']> (CPU_SCHEDULERS k))) cpu o).
Proof.
  intros Hcnt Hcpu Hq E. unfold yield_now. assert (Hc : clamp_cpu cpu = cpu) by (unfold clamp_cpu; by rewrite (proj2 (Nat.ltb_lt _ _))). rewrite Hc, (at_Ret _ _ _ Hq). cbn [mbind outcome_bind].
  assert (Hsteal : try_steal_task k cpu = Ret (false, k)) by (unfold try_steal_task; by rewrite (proj2 (Nat.leb_le _ _))). rewrite Hsteal. cbn [mbind outcome_bind].
  destruct (_ && _)%bool; cbn [mbind outcome_bind]; unfold with_sched; rewrite (at_Ret _ _ _ Hq); cbn [mbind outcome_bind]; rewrite E; reflexivity.
Qed.

End Sched.
