(* ===== verification/Smp.v ===== *)
(** * Schedulers of several CPUs (src/src/task/mod.rs)

    The critical sections of the scheduler as steps of a machine with one run
    queue per CPU and the tasks that are between two queues.  Every interleaving of
    calls from the CPUs is a sequence of such steps; the calls themselves are
    sequences of them.  The theorems: queues stay well formed and a task is never
    in two places; a switch is exposed to work stealing before the stack pointer is
    stored; identifiers collide with the idle tasks after a thousand spawns. *)

From stdpp Require Import prelude numbers list relations strings gmap.
From S2P Require Import Prelude Pmm Paging UserSpace PageTree Context Task Sched.
Import UserSpace Task Sched.

Module Smp.

(** [transit] holds the tasks created but not queued yet, and the stolen ones. *)
Record machine := mkM { queues : list CpuScheduler; transit : list Task; next : Z }.

Definition put_queue (m : machine) (cpu : nat) (s : CpuScheduler) : machine :=
  mkM (<[cpu := s]> (queues m)) (transit m) (next m).

Section Steps.
Context {A : Type} `{FA : Pmm.FrameAllocator A}.

(** What a critical section may do to the queue of its CPU. *)
Inductive section (cpu : nat) (s : CpuScheduler) : CpuScheduler -> Prop :=
  | sec_yield o s' : yield_section s = Ret (o, s') -> section cpu s s'
  | sec_preempt o s' : preempt_section s = Ret (o, s') -> section cpu s s'
  | sec_save i r : section cpu s (save_rsp s i r)
  | sec_wake now : section cpu s (wake_all now s)
  | sec_charge s' : charge_current s = Ret s' -> section cpu s s'
  | sec_tick now s' : smp_tick_section now s = Ret s' -> section cpu s s'
  | sec_sleep n s' : sleep_section s n = Ret s' -> section cpu s s'
  | sec_kill tid l : mark_dead tid (tasks s) = Some l -> section cpu s (set_tasks s l)
  | sec_exit l : update (tasks s) (current s) (fun t => set_state t Dead) = Ret l -> section cpu s (set_tasks s l)
  | sec_space sp l : update (tasks s) (current s) (fun t => set_space t sp) = Ret l -> section cpu s (set_tasks s l)
  | sec_reap (w w' : world A) n s' : reap_section w s = Ret (n, w', s') -> section cpu s s'
  | sec_init_ap : (0 < cpu < MAX_CPUS)%nat -> section cpu s (init_ap_section s cpu).

(** A step, labelled with the number of tasks it creates. *)
Inductive step (m : machine) : Z -> machine -> Prop :=
  | step_section cpu s s' :
      queues m !! cpu = Some s -> section cpu s s' -> step m 0 (put_queue m cpu s')
  | step_create t :
      id t = next m -> state t = Ready -> step m 1 (mkM (queues m) (t :: transit m) (u64_add (next m) 1))
  | step_steal cpu v v' t :
      queues m !! cpu = Some v -> steal_section v = Ret (Some t, v') ->
      step m 0 (mkM (<[cpu := v']> (queues m)) (reset_quantum t :: transit m) (next m))
  | step_put cpu s t l1 l2 :
      queues m !! cpu = Some s -> transit m = l1 ++ t :: l2 ->
      step m 0 (mkM (<[cpu := push_task s t]> (queues m)) (l1 ++ l2) (next m)).

(** After [init] has pushed the shell task. *)
Definition boot : machine :=
  mkM (<[0%nat := push_task (sched_new 0) (root "kernel-shell")]> (sched_new <$> seq 0 MAX_CPUS)) [] 1.

(** [reach n m]: [m] is reachable with [n] tasks created. *)
Inductive reach : Z -> machine -> Prop :=
  | reach_boot : reach 0 boot
  | reach_step n k m m' : reach n m -> step m k m' -> reach (n + k) m'.

(** ** The invariant *)
Definition ids (s : CpuScheduler) : list Z := id <$> tasks s.
Definition queued_ids (m : machine) : list Z := concat (ids <$> queues m).
Definition all_ids (m : machine) : list Z := queued_ids m ++ (id <$> transit m).

(** Idle tasks sit at the head of the queue of their CPU; all other ids were
    handed out. *)
Definition id_ok (m : machine) (cpu i : nat) (x : Z) : Prop :=
  0 <= x < next m \/ (i = O /\ (0 < cpu)%nat /\ x = 1000 + Z.of_nat cpu).

Record unique (m : machine) : Prop := {
  uq_nodup : NoDup (all_ids m);
  uq_queue : forall cpu s i x, queues m !! cpu = Some s -> ids s !! i = Some x -> id_ok m cpu i x;
  uq_transit : Forall (fun t => 0 <= id t < next m) (transit m)
}.

Record inv (n : Z) (m : machine) : Prop := {
  iv_count : 0 <= n;
  iv_next : n <= 1000 -> next m = 1 + n;
  iv_queues : Forall sched_ok (queues m);
  iv_transit : Forall (fun t => state t = Ready) (transit m);
  iv_unique : n <= 1000 -> unique m
}.

(** Replacing a queue, seen on the identifiers. *)
Lemma queued_ids_replace m cpu s s' rem add :
  queues m !! cpu = Some s -> ids s ++ add ≡ₚ ids s' ++ rem ->
  queued_ids m ++ add ≡ₚ queued_ids (put_queue m cpu s') ++ rem.
Proof.
  intros Hc Hp. unfold queued_ids. cbn [queues put_queue].
  destruct (list_elem_of_split_length _ _ _ Hc) as (l1 & l2 & -> & ->).
  replace (length l1) with (length l1 + 0)%nat by lia. rewrite insert_app_r. cbn [insert list_insert].
  rewrite !fmap_app, !fmap_cons, !concat_app. cbn [concat].
  rewrite <- !app_assoc. apply Permutation_app_head.
  rewrite (Permutation_app_comm (concat (ids <$> l2)) add), (Permutation_app_comm (concat (ids <$> l2)) rem), !app_assoc.
  by apply Permutation_app_tail.
Qed.

(** Sections keep the queue well formed and the tasks in place or drop some of
    them; only [init_ap] adds one. *)
Definition fresh_idle (cpu : nat) (s s' : CpuScheduler) : Prop :=
  ids s = [] /\ ids s' = [1000 + Z.of_nat cpu] /\ (0 < cpu)%nat.

(** The tasks of [s'] are some of those of [s], those at the head staying there. *)
Definition shrunk (s s' : CpuScheduler) : Prop :=
  (exists rem, ids s ≡ₚ ids s' ++ rem) /\
  (forall i x, ids s' !! i = Some x -> exists j, ids s !! j = Some x /\ (j = O -> i = O)).

Lemma shrunk_same s s' : ids s' = ids s -> shrunk s s'.
Proof. intros H. split; [exists []; by rewrite H, app_nil_r|]. rewrite H. intros i x Hi. by exists i. Qed.

Lemma filter_head (p : Task -> bool) l i x :
  (id <$> List.filter p l) !! i = Some x -> exists j, (id <$> l) !! j = Some x /\ (i <= j)%nat.
Proof.
  revert i. induction l as [|t l IH]; intros i; cbn; [done|]. destruct (p t); cbn.
  - destruct i as [|i]; cbn; [intros [= <-]; by exists O|]. intros H. destruct (IH i H) as (j & ? & ?). exists (S j). split; [done|lia].
  - intros H. destruct (IH i H) as (j & ? & ?). exists (S j). split; [done|lia].
Qed.

Lemma filter_perm (p : Task -> bool) l : l ≡ₚ List.filter p l ++ List.filter (fun t => negb (p t)) l.
Proof.
  induction l as [|t l IH]; cbn; [done|]. destruct (p t); cbn; [by f_equiv|]. rewrite IH at 1. by rewrite Permutation_middle.
Qed.

Lemma others_not_running s l1 c l2 :
  sched_ok s -> tasks s = l1 ++ c :: l2 -> current s = length l1 -> forall t, t ∈ l1 ++ l2 -> state t <> Running.
Proof.
  intros [_ Hrun] El Hl t Hin Hst. apply elem_of_app in Hin as [Hi|Hi]; apply list_elem_of_lookup in Hi as [i Hi].
  - pose proof (lookup_lt_Some _ _ _ Hi). assert (i = current s); [|lia]. apply (Hrun i t); [|done].
    rewrite El. by apply lookup_app_l_Some.
  - assert (length l1 + S i = current s)%nat; [|lia]. apply (Hrun _ t); [|done].
    rewrite El, lookup_app_r by lia. replace (length l1 + S i - length l1)%nat with (S i) by lia. done.
Qed.

Lemma reap_section_shrinks cpu s (w w' : world A) n s' :
  sched_ok s -> reap_section w s = Ret (n, w', s') -> sched_ok s' /\ (shrunk s s' \/ fresh_idle cpu s s').
Proof.
  intros Hok. pose proof Hok as [[Hc|[E Hc]] Hrun].
  2:{ unfold reap_section. rewrite E. cbn. rewrite E. cbn. intros [= _ _ <-]. split; [done|]. left. by apply shrunk_same. }
  destruct (lookup_lt_is_Some_2 _ _ Hc) as [c Ht].
  destruct (list_elem_of_split_length _ _ _ Ht) as (l1 & l2 & El & Hl).
  unfold reap_section. rewrite (reap_loop_ahead l1 _ w s [] c l2 0) by (rewrite ?El; done). cbn [length app].
  destruct (drop_tasks w _); cbn [mbind outcome_bind]; [|done..]. intros [= _ _ <-].
  set (f1 := List.filter alive l1). set (f2 := List.filter alive l2).
  pose proof (others_not_running s l1 c l2 Hok El Hl) as Hrl.
  assert (Hf : forall l t, t ∈ List.filter alive l -> t ∈ l) by (intros l t; rewrite !list_elem_of_In, filter_In; tauto).
  split; [split; cbn [tasks current set_current set_tasks]|left; split].
  - left. rewrite length_app. cbn. lia.
  - intros i t Hi Hst. apply lookup_app_Some in Hi as [Hi|[Hi1 Hi]].
    + exfalso. apply (Hrl t); [|done]. apply elem_of_app. left. by eapply Hf, list_elem_of_lookup_2.
    + destruct (i - length f1)%nat as [|k] eqn:Ek; [lia|]. cbn in Hi. exfalso.
      apply (Hrl t); [|done]. apply elem_of_app. right. by eapply Hf, list_elem_of_lookup_2.
  - exists (id <$> List.filter (fun t => negb (alive t)) l1 ++ List.filter (fun t => negb (alive t)) l2).
    unfold ids. rewrite El. cbn [tasks set_current set_tasks]. rewrite <- fmap_app. apply fmap_Permutation.
    rewrite (filter_perm alive l1) at 1. rewrite (filter_perm alive l2) at 1. fold f1 f2. solve_Permutation.
  - unfold ids. rewrite El. cbn [tasks set_current set_tasks]. intros i x. rewrite !fmap_app, !fmap_cons, !lookup_app_Some.
    intros [Hi|[Hle Hi]].
    + destruct (filter_head alive l1 i x Hi) as (j & Hj & Hij). exists j. split; [apply lookup_app_Some; by left|lia].
    + rewrite length_fmap in *. destruct (i - length f1)%nat as [|k] eqn:Ek.
      * exists (length l1). split; [apply lookup_app_Some; right; rewrite length_fmap, Nat.sub_diag; split; [lia|exact Hi]|].
        intros Hz. assert (f1 = []) as Hf1 by (unfold f1; by rewrite (proj1 (length_zero_iff_nil l1) Hz)). rewrite Hf1 in *. cbn in *. lia.
      * cbn in Hi. destruct (filter_head alive l2 k x Hi) as (j & Hj & _). exists (length l1 + S j)%nat. split; [|lia].
        apply lookup_app_Some. right. rewrite length_fmap. split; [lia|]. replace (length l1 + S j - length l1)%nat with (S j) by lia. done.
Qed.

Lemma tick_in_place now s s' : smp_tick_section now s = Ret s' -> in_place s s'.
Proof.
  unfold smp_tick_section. set (s0 := mkSched _ _ _ _).
  assert (H0 : in_place s s0) by (split; [done|]; split; [done|]; intros i t Ht; exists t; split_and!; done).
  destruct (tasks s0); [intros [= <-]; done|].
  destruct (charge_current s0) as [s1| |] eqn:E1; cbn [mbind outcome_bind]; [|done..]. intros [= <-].
  apply charge_current_in_place in E1. exact (in_place_trans _ _ _ H0 (in_place_trans _ _ _ E1 (wake_all_in_place now s1))).
Qed.

(** A queue that is well formed after any section. *)
Lemma section_spec cpu s s' :
  sched_ok s -> section cpu s s' -> sched_ok s' /\ (shrunk s s' \/ fresh_idle cpu s s').
Proof.
  intros Hok Hsec.
  assert (Hin : forall s', in_place s s' -> sched_ok s' /\ (shrunk s s' \/ fresh_idle cpu s s')).
  { intros s1 H1. destruct (in_place_ok _ _ H1 Hok). split; [done|]. left. by apply shrunk_same. }
  destruct Hsec as [o s' E|o s' E|i r|now|s' E|now s' E|n s' E|tid l E|l E|sp l E|w w' n s' E|Hcpu].
  - destruct (yield_section_ret s Hok) as (o1 & s1 & E1 & Hok1 & H1). rewrite E in E1. injection E1 as <- <-.
    split; [done|]. left. apply shrunk_same. destruct o as [sw|]; [|by destruct H1 as [-> _]].
    destruct H1 as (j & tj & _ & _ & _ & Hs & _). by eapply switched_ids.
  - destruct (preempt_section_ret s Hok) as (o1 & s1 & E1 & Hok1 & Hids & _). rewrite E in E1. injection E1 as <- <-.
    split; [done|]. left. by apply shrunk_same.
  - apply Hin, save_rsp_in_place.
  - apply Hin, wake_all_in_place.
  - by apply Hin, charge_current_in_place.
  - by eapply Hin, tick_in_place.
  - by eapply Hin, sleep_section_in_place.
  - by eapply Hin, mark_dead_in_place.
  - by eapply Hin, update_in_place; [|done].
  - by eapply Hin, update_in_place; [|done].
  - by eapply reap_section_shrinks.
  - unfold init_ap_section. destruct (tasks s) as [|t l] eqn:E.
    + split; [|right; split_and!; [unfold ids; by rewrite E| |lia]].
      * split; cbn; rewrite E; cbn; [left; lia|]. intros [|i] t Ht _; [done|by destruct i].
      * unfold ids. cbn. rewrite E. cbn. destruct cpu; [lia|done].
    + split; [done|]. left. by apply shrunk_same.
Qed.

(** ** Preservation *)

Lemma Forall_insert_queue (P : CpuScheduler -> Prop) l cpu s : Forall P l -> P s -> Forall P (<[cpu := s]> l).
Proof. intros. by apply Forall_insert. Qed.

Lemma queue_after m cpu s s' c q :
  queues m !! cpu = Some s -> <[cpu := s']> (queues m) !! c = Some q ->
  (c = cpu /\ q = s') \/ (c <> cpu /\ queues m !! c = Some q).
Proof.
  intros Hc. destruct (decide (cpu = c)) as [->|Hne].
  - rewrite list_lookup_insert_eq by (by eapply lookup_lt_Some). intros [= <-]. by left.
  - rewrite list_lookup_insert_ne by done. right. by split.
Qed.

(** Two positions of the queues with the same identifier are the same. *)
Lemma queued_ids_lookup m cpu s i x :
  queues m !! cpu = Some s -> ids s !! i = Some x ->
  exists l1 l2, queued_ids m = l1 ++ ids s ++ l2 /\ x ∈ ids s.
Proof.
  intros Hc Hi. destruct (list_elem_of_split_length _ _ _ Hc) as (l1 & l2 & E & _). unfold queued_ids. rewrite E.
  rewrite fmap_app, fmap_cons, concat_app. cbn [concat]. exists (concat (ids <$> l1)), (concat (ids <$> l2)).
  split; [done|]. by eapply list_elem_of_lookup_2.
Qed.

Lemma section_unique m cpu s s' :
  next m <= 1001 -> unique m -> queues m !! cpu = Some s -> shrunk s s' \/ fresh_idle cpu s s' -> unique (put_queue m cpu s').
Proof.
  intros Hn [Hnd Hq Ht] Hc [[[rem Hp] Hpos]|(H0 & H1 & Hcpu)].
  - assert (Hperm : queued_ids m ≡ₚ queued_ids (put_queue m cpu s') ++ rem).
    { rewrite <- (app_nil_r (queued_ids m)). apply (queued_ids_replace m cpu s s' rem []); [done|by rewrite app_nil_r]. }
    split; [| |done].
    + unfold all_ids in *. cbn [transit put_queue]. rewrite Hperm in Hnd.
      rewrite <- app_assoc, (Permutation_app_comm rem), app_assoc in Hnd. by apply NoDup_app in Hnd as [? _].
    + intros c q i x Hcq Hi. unfold id_ok. cbn [next put_queue].
      destruct (queue_after _ _ _ _ _ _ Hc Hcq) as [[-> ->]|[_ Hc']]; [|by eapply Hq].
      destruct (Hpos i x Hi) as (j & Hj & Hj0). destruct (Hq cpu s j x Hc Hj) as [?|(? & ? & ?)]; [by left|right; auto].
  - assert (Hperm : queued_ids m ++ [1000 + Z.of_nat cpu] ≡ₚ queued_ids (put_queue m cpu s')).
    { rewrite <- (app_nil_r (queued_ids (put_queue m cpu s'))).
      apply (queued_ids_replace m cpu s s' [] [1000 + Z.of_nat cpu]); [done|]. rewrite H0, H1. done. }
    split; [| |done].
    + unfold all_ids in *. cbn [transit put_queue]. rewrite <- Hperm, (Permutation_app_comm (queued_ids m)).
      cbn. apply NoDup_cons. split; [|done]. rewrite elem_of_app. intros [Hin|Hin].
      * unfold queued_ids in Hin. apply list_elem_of_In, in_concat in Hin as (l & Hl & Hx). apply list_elem_of_In in Hl, Hx.
        apply list_elem_of_fmap in Hl as (q & -> & Hql). apply list_elem_of_lookup in Hql as [c Hcq].
        apply list_elem_of_lookup in Hx as [i Hi]. destruct (Hq c q i _ Hcq Hi) as [?|(? & ? & ?)]; [lia|].
        assert (c = cpu) as -> by lia. rewrite Hc in Hcq. injection Hcq as <-. by rewrite H0 in Hi.
      * apply list_elem_of_fmap in Hin as (t & Hid & Hin). rewrite Forall_forall in Ht. specialize (Ht t Hin). lia.
    + intros c q i x Hcq Hi. unfold id_ok. cbn [next put_queue].
      destruct (queue_after _ _ _ _ _ _ Hc Hcq) as [[-> ->]|[_ Hc']]; [|by eapply Hq].
      rewrite H1 in Hi. destruct i as [|i]; [|by destruct i]. injection Hi as <-. right. auto.
Qed.

Lemma create_unique m t :
  0 <= next m < 2 ^ 64 - 1 -> (forall x, x ∈ all_ids m -> x <> next m) -> unique m -> id t = next m ->
  unique (mkM (queues m) (t :: transit m) (u64_add (next m) 1)).
Proof.
  intros Hn Hfresh [Hnd Hq Ht] Hid. rewrite u64_add_small by lia. split; cbn [queues transit next].
  - unfold all_ids in *. cbn [transit queues]. rewrite fmap_cons, <- Permutation_middle. apply NoDup_cons. split; [|done].
    rewrite Hid. intros Hin. by apply (Hfresh (next m)).
  - intros c s i x Hc Hi. destruct (Hq c s i x Hc Hi); [left; cbn; lia|by right].
  - constructor; [lia|]. eapply Forall_impl; [done|]. cbn. lia.
Qed.

Lemma steal_unique m cpu v v' t :
  unique m -> queues m !! cpu = Some v -> sched_ok v -> steal_section v = Ret (Some t, v') ->
  unique (mkM (<[cpu := v']> (queues m)) (reset_quantum t :: transit m) (next m)).
Proof.
  intros [Hnd Hq Ht] Hc Hok E. unfold steal_section in E. destruct (Nat.ltb _ _); [|done].
  destruct (steal_idx (tasks v) 0 (current v)) as [k|] eqn:Ek; [|done].
  destruct (steal_idx_spec _ _ _ _ Ek) as (u & _ & Hk & Hk0 & Hne & _ & _). rewrite Nat.sub_0_r in Hk.
  unfold remove_at in E. rewrite (at_Ret _ _ _ Hk) in E. cbn [mbind outcome_bind] in E. injection E as <- <-.
  destruct (remove_ok v k u Hok Hk Hne) as (_ & _ & Hids). set (v' := set_current _ _) in *.
  assert (Hidu : ids v !! k = Some (id u)) by (unfold ids; by rewrite list_lookup_fmap, Hk).
  assert (Hperm : queued_ids m ≡ₚ queued_ids (put_queue m cpu v') ++ [id u]).
  { rewrite <- (app_nil_r (queued_ids m)). apply (queued_ids_replace m cpu v v' [id u] []); [done|].
    rewrite app_nil_r, Permutation_app_comm. exact Hids. }
  split; cbn [queues transit next].
  - unfold all_ids in *. rewrite Hperm in Hnd. cbn [transit]. rewrite fmap_cons. rewrite <- app_assoc in Hnd. exact Hnd.
  - intros c q i x Hcq Hi. destruct (queue_after _ _ _ _ _ _ Hc Hcq) as [[-> ->]|[_ Hc']]; [|by eapply Hq].
    unfold ids, v' in Hi. cbn [tasks set_current set_tasks] in Hi.
    rewrite list_lookup_fmap in Hi. destruct (decide (i < k)%nat).
    + rewrite list_lookup_delete_lt, <- list_lookup_fmap in Hi by done. by eapply Hq.
    + rewrite list_lookup_delete_ge, <- list_lookup_fmap in Hi by lia. destruct (Hq cpu v (S i) x Hc Hi) as [?|(? & _)]; [by left|done].
  - constructor; [|done]. destruct (Hq cpu v k (id u) Hc Hidu) as [?|(? & _)]; [done|lia].
Qed.

Lemma put_unique m cpu s t l1 l2 :
  unique m -> queues m !! cpu = Some s -> transit m = l1 ++ t :: l2 ->
  unique (mkM (<[cpu := push_task s t]> (queues m)) (l1 ++ l2) (next m)).
Proof.
  intros [Hnd Hq Ht] Hc El.
  assert (Hi' : ids (push_task s t) = ids s ++ [id t]) by (unfold ids; cbn; by rewrite fmap_app).
  assert (Hperm : queued_ids m ++ [id t] ≡ₚ queued_ids (put_queue m cpu (push_task s t))).
  { rewrite <- (app_nil_r (queued_ids (put_queue _ _ _))). apply (queued_ids_replace m cpu s _ [] [id t]); [done|].
    by rewrite Hi', app_nil_r. }
  split; cbn [queues transit next].
  - unfold all_ids in *. cbn [transit]. change (queued_ids (mkM _ _ _)) with (queued_ids (put_queue m cpu (push_task s t))).
    rewrite <- Hperm. rewrite El in Hnd. rewrite fmap_app, fmap_cons in Hnd. rewrite fmap_app, <- app_assoc. cbn [app].
    by rewrite <- Permutation_middle in Hnd.
  - intros c q i x Hcq Hi. destruct (queue_after _ _ _ _ _ _ Hc Hcq) as [[-> ->]|[_ Hc']]; [|by eapply Hq].
    rewrite Hi' in Hi. apply lookup_app_Some in Hi as [Hi|[_ Hi]]; [by eapply Hq|].
    destruct (i - length (ids s))%nat as [|k]; [|by destruct k]. injection Hi as <-. left.
    rewrite El, Forall_app, Forall_cons in Ht. apply Ht.
  - rewrite El, Forall_app, Forall_cons in Ht. apply Forall_app. tauto.
Qed.

(** While fewer than a thousand tasks were created, the next id is not in use. *)
Lemma next_fresh m : 0 < next m <= 1000 -> unique m -> forall x, x ∈ all_ids m -> x <> next m.
Proof.
  intros Hn [_ Hq Ht] x Hx ->. unfold all_ids, queued_ids in Hx. apply elem_of_app in Hx as [Hx|Hx].
  - apply list_elem_of_In, in_concat in Hx as (l & Hl & Hx). apply list_elem_of_In in Hl, Hx.
    apply list_elem_of_fmap in Hl as (q & -> & Hql). apply list_elem_of_lookup in Hql as [c Hcq].
    apply list_elem_of_lookup in Hx as [i Hi]. destruct (Hq c q i _ Hcq Hi) as [?|(? & ? & ?)]; lia.
  - apply list_elem_of_fmap in Hx as (t & Hid & Hin). rewrite Forall_forall in Ht. specialize (Ht t Hin). lia.
Qed.

Lemma machine_inv_step n k m m' : inv n m -> step m k m' -> inv (n + k) m'.
Proof.
  intros [H0 Hn Hqs Htr Hu] Hst. destruct Hst as [cpu s s' Hc Hsec|t Hid Hr|cpu v v' t Hc E|cpu s t l1 l2 Hc El].
  - pose proof (proj1 (Forall_lookup _ _) Hqs cpu s Hc) as Hok. destruct (section_spec cpu s s' Hok Hsec) as [Hok' Hs].
    rewrite Z.add_0_r. split; try done; [by apply Forall_insert_queue|].
    intros Hle. apply (section_unique m cpu s s'); auto. rewrite Hn by done. lia.
  - split; cbn [queues transit next]; [lia| |done|by constructor|].
    + intros Hle. rewrite Hn by lia. rewrite u64_add_small; lia.
    + intros Hle. apply create_unique; [rewrite Hn by lia; lia| |by apply Hu; lia|done].
      apply next_fresh; [rewrite Hn by lia; lia|by apply Hu; lia].
  - pose proof (proj1 (Forall_lookup _ _) Hqs cpu v Hc) as Hok. rewrite Z.add_0_r.
    destruct (steal_section_spec v Hok) as (o & v1 & E1 & Hok1 & H1). rewrite E in E1. injection E1 as <- <-.
    destruct H1 as (Hr & _). split; cbn [queues transit next]; try done; [by apply Forall_insert_queue|by constructor|].
    intros Hle. eapply steal_unique; eauto.
  - pose proof (proj1 (Forall_lookup _ _) Hqs cpu s Hc) as Hok. rewrite Z.add_0_r.
    rewrite El, Forall_app, Forall_cons in Htr. destruct Htr as (Ht1 & Ht & Ht2).
    split; cbn [queues transit next]; try done.
    + apply Forall_insert_queue; [done|]. apply push_ok; [done|by rewrite Ht].
    + by apply Forall_app.
    + intros Hle. eapply put_unique; eauto.
Qed.

Lemma inv_boot : inv 0 boot.
Proof.
  split; [lia|done| |constructor|intros _; split].
  - repeat constructor; cbn; try lia; try (by right); intros [|[|i]] t Ht; try done; by destruct i.
  - cbn. apply NoDup_singleton.
  - intros c q i x Hc Hi. unfold id_ok. cbn [next boot].
    do 8 (destruct c as [|c]; [injection Hc as <-; destruct i as [|i]; cbn in Hi; [try injection Hi as <-; first [done|left; lia]|by destruct i]|]).
    by destruct c.
  - constructor.
Qed.

Lemma reach_inv n m : reach n m -> inv n m.
Proof. induction 1; [apply inv_boot|by eapply machine_inv_step]. Qed.

Lemma concat_NoDup_lookup {B} (ll : list (list B)) a b l1 l2 i j x :
  NoDup (concat ll) -> ll !! a = Some l1 -> ll !! b = Some l2 -> l1 !! i = Some x -> l2 !! j = Some x -> a = b /\ i = j.
Proof.
  revert a b. induction ll as [|l ll IH]; intros a b Hnd Ha Hb Hi Hj; [done|]. cbn [concat] in Hnd.
  apply NoDup_app in Hnd as (Hnd1 & Hdis & Hnd2).
  assert (Hin : forall c l', ll !! c = Some l' -> x ∈ l' -> x ∈ concat ll).
  { intros c l' Hc Hx. apply list_elem_of_In, in_concat. exists l'. rewrite <- !list_elem_of_In. split; [|done].
    by eapply list_elem_of_lookup_2. }
  assert (Hx1 : x ∈ l1) by (by eapply list_elem_of_lookup_2). assert (Hx2 : x ∈ l2) by (by eapply list_elem_of_lookup_2).
  destruct a as [|a], b as [|b]; cbn in Ha, Hb; simplify_eq.
  - split; [done|]. eapply NoDup_lookup; [exact Hnd1|exact Hi|exact Hj].
  - destruct (Hdis x Hx1). by eapply Hin.
  - destruct (Hdis x Hx2). by eapply Hin.
  - destruct (IH a b Hnd2 Ha Hb Hi Hj) as [-> ->]. done.
Qed.

(** Any number of tasks can be created before one is queued. *)
Lemma reach_creations k : (Z.of_nat k < 2 ^ 63) -> exists l, reach (Z.of_nat k) (mkM (queues boot) l (1 + Z.of_nat k)).
Proof.
  induction k as [|k IH]; intros Hk; [exists []; apply reach_boot|].
  destruct IH as [l Hl]; [lia|]. set (m0 := mkM _ _ _) in Hl.
  exists (fst (task_new (fun _ => 0) (1 + Z.of_nat k) "worker" 0 0) :: l).
  pose proof (reach_step _ 1 _ _ Hl (step_create m0 (fst (task_new (fun _ => 0) (1 + Z.of_nat k) "worker" 0 0)) eq_refl eq_refl)) as H.
  cbn [next transit queues m0] in H. rewrite u64_add_small in H by lia.
  replace (Z.of_nat (S k)) with (Z.of_nat k + 1) by lia. replace (1 + (Z.of_nat k + 1)) with (1 + Z.of_nat k + 1) by lia. exact H.
Qed.

(** C1: a task is in one place only.  In every interleaving of the critical
    sections of all CPUs, while at most a thousand tasks have been created, no two
    positions of the run queues hold the same task, so no task is current on two
    CPUs; on each CPU only the current task is marked running. *)
Theorem no_task_on_two_cpus n m c1 c2 s1 s2 i j t1 t2 :
  reach n m -> n <= 1000 ->
  queues m !! c1 = Some s1 -> queues m !! c2 = Some s2 ->
  tasks s1 !! i = Some t1 -> tasks s2 !! j = Some t2 ->
  sched_ok s1 /\ (id t1 = id t2 -> c1 = c2 /\ i = j).
Proof.
  intros Hr Hn H1 H2 Hi Hj. destruct (reach_inv n m Hr) as [_ _ Hqs _ Hu].
  split; [by apply (proj1 (Forall_lookup _ _) Hqs c1)|].
  specialize (Hu Hn). pose proof (uq_nodup _ Hu) as Hnd. unfold all_ids in Hnd. apply NoDup_app in Hnd as [Hnd _]. intros Hid.
  assert (Hi1 : ids s1 !! i = Some (id t1)) by (unfold ids; by rewrite list_lookup_fmap, Hi).
  assert (Hj2 : ids s2 !! j = Some (id t1)) by (unfold ids; rewrite list_lookup_fmap, Hj; cbn; by rewrite Hid).
  by apply (concat_NoDup_lookup (ids <$> queues m) c1 c2 (ids s1) (ids s2) i j (id t1));
    rewrite ?list_lookup_fmap, ?H1, ?H2.
Qed.

(** Identifiers can collide.  After 1001 spawns a task and the idle task of
    CPU 1 carry the same identifier. *)
Theorem tid_collision :
  exists m s0 s1 t0 t1, reach 1001 m /\ queues m !! 0%nat = Some s0 /\ queues m !! 1%nat = Some s1 /\
    t0 ∈ tasks s0 /\ t1 ∈ tasks s1 /\ id t0 = 1001 /\ id t1 = 1001.
Proof.
  destruct (reach_creations 1000) as (l & Hr); [lia|]. set (m0 := mkM _ _ _) in Hr.
  set (t := fst (task_new (fun _ => 0) 1001 "worker" 0 0)).
  pose proof (reach_step _ 1 _ _ Hr (step_create m0 t eq_refl eq_refl)) as Hr1.
  set (m1 := mkM _ _ _) in Hr1.
  pose proof (reach_step _ 0 _ _ Hr1 (step_put m1 0 _ t [] l eq_refl eq_refl)) as Hr2.
  set (m2 := mkM _ _ _) in Hr2.
  pose proof (reach_step _ 0 _ _ Hr2 (step_section m2 1 _ _ eq_refl (sec_init_ap 1 (sched_new 1) ltac:(unfold MAX_CPUS; lia)))) as Hr3.
  eexists _, _, _, t, _. split; [exact Hr3|]. split; [reflexivity|]. split; [reflexivity|].
  split; [right; left|]. split; [left|]. split; reflexivity.
Qed.

(** ** The calls as sequences of critical sections *)

Inductive steps : Z -> machine -> machine -> Prop :=
  | steps_nil m : steps 0 m m
  | steps_cons n k m1 m2 m3 : step m1 k m2 -> steps n m2 m3 -> steps (k + n) m1 m3.

Lemma steps_app n1 n2 m1 m2 m3 : steps n1 m1 m2 -> steps n2 m2 m3 -> steps (n1 + n2) m1 m3.
Proof. induction 1; intros H2; [done|]. rewrite <- Z.add_assoc. econstructor; eauto. Qed.

Lemma steps_one k m m' : step m k m' -> steps k m m'.
Proof. intros H. rewrite <- (Z.add_0_r k). econstructor; [done|constructor]. Qed.

Lemma reach_steps n k m m' : reach n m -> steps k m m' -> reach (n + k) m'.
Proof.
  intros Hr Hs. revert n Hr. induction Hs as [m|k1 k2 m1 m2 m3 H1 _ IH]; intros n Hr; [by rewrite Z.add_0_r|].
  rewrite Z.add_assoc. apply IH. by eapply reach_step.
Qed.

(** The queues of a kernel, no task in transit. *)
Definition view (k : kernel A) : machine := mkM (CPU_SCHEDULERS k) [] (NEXT_TASK_ID k).

Lemma with_sched_steps {B} (k : kernel A) cpu (f : CpuScheduler -> outcome (B * CpuScheduler)) b k' :
  with_sched k cpu f = Ret (b, k') ->
  (forall s b s', f s = Ret (b, s') -> section cpu s s') -> steps 0 (view k) (view k').
Proof.
  unfold with_sched. intros H Hf. destruct (at_ (CPU_SCHEDULERS k) cpu) as [s| |] eqn:E; cbn [mbind outcome_bind] in H; [|done..].
  destruct (f s) as [[b1 s1]| |] eqn:E1; cbn [mbind outcome_bind] in H; [|done..]. injection H as <- <-.
  apply at_inv in E. apply steps_one. apply (step_section (view k) cpu s s1 E). by eapply Hf.
Qed.

Lemma view_apply_switch k cpu sw : view (apply_switch k cpu sw) = view k.
Proof.
  destruct sw as [x|]; [|done]. cbn. unfold on_context_switch. destruct (sw_user x); [done|]. by destruct (negb _).
Qed.

Lemma steal_loop_steps n : forall k my num off b k',
  steal_loop k my num off n = Ret (b, k') -> steps 0 (view k) (view k').
Proof.
  induction n as [|n IH]; intros k my num off b k'; cbn [steal_loop]; [intros [= <- <-]; constructor|].
  cbv zeta. unfold with_sched. destruct (at_ (CPU_SCHEDULERS k) _) as [v| |] eqn:E; cbn [mbind outcome_bind]; [|done..]. apply at_inv in E.
  destruct (steal_section v) as [[o v']| |] eqn:Es; cbn [mbind outcome_bind]; [|done..]. destruct o as [t|].
  - cbn [CPU_SCHEDULERS set_scheds]. destruct (at_ _ my) as [s| |] eqn:E2; cbn [mbind outcome_bind]; [|done..].
    apply at_inv in E2. intros [= <- <-]. change 0 with (0 + (0 + 0)).
    eapply steps_cons; [apply (step_steal (view k) _ _ _ _ E Es)|]. apply steps_one.
    by apply (step_put (mkM _ [reset_quantum t] _) my s (reset_quantum t) [] []).
  - intros H. apply IH in H. assert (v' = v) as ->.
    { unfold steal_section in Es. destruct (Nat.ltb _ _); [|by injection Es as <-]. destruct (steal_idx _ _ _); [|by injection Es as <-].
      by destruct (remove_at _ _) as [[? ?]| |]. }
    replace (view (set_scheds k _)) with (view k) in H; [done|]. unfold view. cbn. by rewrite list_insert_id.
Qed.

Lemma try_steal_steps k my b k' : try_steal_task k my = Ret (b, k') -> steps 0 (view k) (view k').
Proof.
  unfold try_steal_task. destruct (Nat.leb _ _); [intros [= <- <-]; constructor|]. apply steal_loop_steps.
Qed.

Lemma yield_now_steps k cpu sw k' : yield_now k cpu = Ret (sw, k') -> steps 0 (view k) (view k').
Proof.
  unfold yield_now. destruct (at_ _ _) as [s| |]; cbn [mbind outcome_bind]; [|done..].
  assert (Hcase : forall k1, (if (negb (has_other_ready s) && Nat.ltb 1 (length (tasks s)))%bool
      then '(_, k1) ← try_steal_task k (clamp_cpu cpu); Ret k1 else Ret k) = Ret k1 -> steps 0 (view k) (view k1)).
  { intros k1. destruct (_ && _)%bool; [|intros [= <-]; constructor].
    destruct (try_steal_task k (clamp_cpu cpu)) as [[b k2]| |] eqn:E; cbn; [|done..]. intros [= <-]. by eapply try_steal_steps. }
  destruct (if (_ && _)%bool then _ else _) as [k1| |] eqn:E1; cbn [mbind outcome_bind]; [|done..].
  destruct (with_sched k1 (clamp_cpu cpu) yield_section) as [[o k2]| |] eqn:E2; cbn [mbind outcome_bind]; [|done..].
  intros [= <- <-]. rewrite view_apply_switch. change 0 with (0 + 0). eapply steps_app; [by apply Hcase|].
  eapply with_sched_steps; [done|]. intros. by eapply sec_yield.
Qed.

Lemma reap_steps k cpu n k' : reap_dead_tasks_on_cpu k cpu = Ret (n, k') -> steps 0 (view k) (view k').
Proof.
  unfold reap_dead_tasks_on_cpu. destruct (Nat.leb _ _); [intros [= <- <-]; constructor|].
  destruct (with_sched _ _ _) as [[[n1 w1] k1]| |] eqn:E; cbn [mbind outcome_bind]; [|done..]. intros [= <- <-].
  change (view (set_world k1 w1)) with (view k1). eapply with_sched_steps; [done|]. cbn. intros s b s'.
  destruct (reap_section _ _) as [[[n2 w2] s2]| |] eqn:E2; cbn [mbind outcome_bind]; [|done..]. intros [= <- <-]. by eapply sec_reap.
Qed.

Lemma kill_loop_steps tid n : forall k cpu o k', kill_loop k tid cpu n = Ret (o, k') -> steps 0 (view k) (view k').
Proof.
  induction n as [|n IH]; intros k cpu o k'; cbn [kill_loop]; [intros [= <- <-]; constructor|].
  unfold with_sched. destruct (at_ _ _) as [s| |] eqn:E; cbn [mbind outcome_bind]; [|done..]. apply at_inv in E.
  destruct (mark_dead tid (tasks s)) as [l|] eqn:Em; cbn [mbind outcome_bind].
  - intros [= <- <-]. apply steps_one, (step_section (view k) cpu s _ E). by eapply sec_kill.
  - intros H. apply IH in H. replace (view (set_scheds k _)) with (view k) in H; [done|]. unfold view. cbn.
    by rewrite list_insert_id.
Qed.

Lemma kill_task_steps k tid b k' : kill_task k tid = Ret (b, k') -> steps 0 (view k) (view k').
Proof.
  unfold kill_task. destruct (kill_loop _ _ _ _) as [[o k1]| |] eqn:E; cbn [mbind outcome_bind]; [|done..].
  apply kill_loop_steps in E. destruct o as [cpu|]; [|by intros [= <- <-]].
  destruct (reap_dead_tasks_on_cpu k1 cpu) as [[n k2]| |] eqn:E2; cbn [mbind outcome_bind]; [|done..].
  intros [= <- <-]. change 0 with (0 + 0). eapply steps_app; [done|]. by eapply reap_steps.
Qed.

Lemma preempt_steps k cpu sw k' : preempt_schedule_on_cpu k cpu = Ret (sw, k') -> steps 0 (view k) (view k').
Proof.
  unfold preempt_schedule_on_cpu. destruct (with_sched _ _ _) as [[o k1]| |] eqn:E; cbn [mbind outcome_bind]; [|done..].
  intros [= <- <-]. rewrite view_apply_switch. eapply with_sched_steps; [done|]. intros. by eapply sec_preempt.
Qed.

Lemma smp_timer_tick_steps k cpu sw k' : smp_timer_tick k cpu = Ret (sw, k') -> steps 0 (view k) (view k').
Proof.
  unfold smp_timer_tick. destruct (with_sched _ _ _) as [[u k1]| |] eqn:E; cbn [mbind outcome_bind]; [|done..].
  assert (H1 : steps 0 (view k) (view k1)).
  { eapply with_sched_steps; [done|]. cbn. intros s b s'. destruct (smp_tick_section _ _) as [s1| |] eqn:E1; cbn; [|done..].
    intros [= <- <-]. by eapply sec_tick. }
  destruct (_ =? 0).
  - destruct (reap_dead_tasks_on_cpu k1 _) as [[n k2]| |] eqn:E2; cbn [mbind outcome_bind]; [|done..]. intros H.
    change 0 with (0 + (0 + 0)). eapply steps_app; [done|]. eapply steps_app; [by eapply reap_steps|by eapply preempt_steps].
  - cbn [mbind outcome_bind]. intros H. change 0 with (0 + 0). eapply steps_app; [done|by eapply preempt_steps].
Qed.

Lemma wake_cpus_steps n : forall k cpu k', wake_cpus k cpu n = Ret k' -> steps 0 (view k) (view k').
Proof.
  induction n as [|n IH]; intros k cpu k'; cbn [wake_cpus]; [intros [= <-]; constructor|].
  destruct (with_sched _ _ _) as [[u k1]| |] eqn:E; cbn [mbind outcome_bind]; [|done..]. intros H.
  change 0 with (0 + 0). eapply steps_app; [|by eapply IH]. eapply with_sched_steps; [done|]. cbn. intros s b s' [= <- <-]. constructor.
Qed.

Lemma timer_tick_steps k k' : timer_tick k = Ret k' -> steps 0 (view k) (view k').
Proof.
  unfold timer_tick. destruct (wake_cpus _ _ _) as [k1| |] eqn:E; cbn [mbind outcome_bind]; [|done..].
  destruct (with_sched _ _ _) as [[u k2]| |] eqn:E2; cbn [mbind outcome_bind]; [|done..]. intros [= <-].
  change 0 with (0 + 0). eapply steps_app; [by eapply wake_cpus_steps|]. eapply with_sched_steps; [done|]. cbn. intros s b s'.
  destruct (charge_current s) as [s1| |] eqn:E1; cbn; [|done..]. intros [= <- <-]. by eapply sec_charge.
Qed.

Lemma spawn_with_steps make k tid k' :
  (forall m n, id (make m n).1 = n /\ state (make m n).1 = Ready) ->
  spawn_with make k = Ret (tid, k') -> steps 1 (view k) (view k') /\ tid = NEXT_TASK_ID k.
Proof.
  intros Hmk. unfold spawn_with. cbn [next_id]. cbn [kworld].
  pose proof (Hmk (mem (kworld k)) (NEXT_TASK_ID k)) as Ht. destruct (make _ _) as [t m]. cbn [fst] in Ht. destruct Ht as [Hid Hst].
  destruct (choose_target_cpu _) as [cpu| |]; cbn [mbind outcome_bind]; [|done..]. unfold with_sched. cbn [CPU_SCHEDULERS set_world].
  destruct (at_ _ cpu) as [s| |] eqn:E; cbn [mbind outcome_bind]; [|done..]. apply at_inv in E. intros [= <- <-]. split; [|done].
  change 1 with (1 + (0 + 0)). eapply steps_cons; [by apply (step_create (view k) t)|]. apply steps_one.
  by apply (step_put (mkM _ [t] _) cpu s t [] []).
Qed.

(** The scheduler calls. *)
Inductive kcall :=
  | KYield (cpu : nat) | KTick (cpu : nat) | KTimer | KKill (tid : Z) | KReap (cpu : nat) | KSteal (cpu : nat)
  | KSpawn (name : string) (entry base : Z) | KSpawnUser (tramp : Z) (name : string) (entry ustack cr3 base : Z)
  | KSpawnSpace (tramp : Z) (name : string) (entry ustack : Z) (space : AddressSpace) (base : Z).

Definition kcall_run (k : kernel A) (c : kcall) : outcome (kernel A) :=
  match c with
  | KYield cpu => '(_, k') ← yield_now k cpu; Ret k'
  | KTick cpu => '(_, k') ← smp_timer_tick k cpu; Ret k'
  | KTimer => timer_tick k
  | KKill tid => '(_, k') ← kill_task k tid; Ret k'
  | KReap cpu => '(_, k') ← reap_dead_tasks_on_cpu k cpu; Ret k'
  | KSteal cpu => '(_, k') ← try_steal_task k cpu; Ret k'
  | KSpawn name entry base => '(_, k') ← spawn k name entry base; Ret k'
  | KSpawnUser tr name entry us cr base => '(_, k') ← spawn_user k tr name entry us cr base; Ret k'
  | KSpawnSpace tr name entry us sp base => '(_, k') ← spawn_user_with_space k tr name entry us sp base; Ret k'
  end.
Definition kcall_creates (c : kcall) : Z :=
  match c with KSpawn _ _ _ | KSpawnUser _ _ _ _ _ _ | KSpawnSpace _ _ _ _ _ _ => 1 | _ => 0 end.

(** The calls are made of these steps.  A call of the scheduler interface that
    returns is a sequence of critical sections, with one task created exactly by
    the spawn calls; so what holds of every interleaving of sections holds of
    the calls, and a reachable kernel stays reachable.  That the calls return, and what
    each of them does, is shown in Calls.v. *)
Lemma kernel_calls_refine (k : kernel A) c k' n :
  kcall_run k c = Ret k' -> reach n (view k) -> steps (kcall_creates c) (view k) (view k') /\ reach (n + kcall_creates c) (view k').
Proof.
  intros H Hr. enough (steps (kcall_creates c) (view k) (view k')) by (split; [done|by eapply reach_steps]).
  destruct c; cbn [kcall_run kcall_creates] in *; [..|unfold spawn in H|unfold spawn_user in H|unfold spawn_user_with_space in H];
    try (by eapply timer_tick_steps);
    match type of H with mbind _ ?e = _ => destruct e as [[? ?]| |] eqn:E; cbn [mbind outcome_bind] in H; [|done..] end; injection H as <-;
    [by eapply yield_now_steps|by eapply smp_timer_tick_steps|by eapply kill_task_steps|by eapply reap_steps|by eapply try_steal_steps|..];
    (eapply spawn_with_steps; [|exact E]); intros m i; unfold task_new_user_with_space, task_new_user, task_new;
    by destruct (Context.init_frame _ _ _).
Qed.

End Steps.

(** C38: a switch is exposed to work stealing.  [yield_now] releases the run queue
    before [switch_context] stores the stack pointer of the task it leaves.  If
    another CPU steals in between, it takes the task just left, with the stack
    pointer of an earlier switch, and the late store through [old_rsp] lands in the
    task that moved into its place, the one now running. *)
Theorem steal_during_switch cpu r a b tk saved :
  state a = Running -> is_user a = false -> state b = Ready ->
  exists sw s1 v1 a' b',
    yield_section (mkSched cpu [r; a; b] 1 tk) = Ret (Some sw, s1) /\
    steal_section s1 = Ret (Some a', v1) /\ id a' = id a /\ rsp a' = rsp a /\
    tasks (save_rsp v1 (old_idx sw) saved) !! current v1 = Some b' /\ id b' = id b /\ rsp b' = saved.
Proof.
  intros Ha Hu Hb. destruct a, b. cbn in Ha, Hu, Hb. subst.
  eexists _, _, _, _, _. split; [reflexivity|]. split; [reflexivity|]. split_and!; reflexivity.
Qed.

(** ** Witnesses *)

Definition worker (i : Z) : Task := (task_new (fun _ => 0) i "worker" 0x400000 0x100000).1.

Lemma reach_two : exists m, reach (A := Pmm.Pmm) 1 m /\ queues m !! 0%nat = Some (push_task (push_task (sched_new 0) (root "kernel-shell")) (worker 1)).
Proof.
  pose proof (reach_step _ 1 _ _ (reach_boot (A := Pmm.Pmm)) (step_create boot (worker 1) eq_refl eq_refl)) as H1.
  set (m1 := mkM _ _ _) in H1.
  pose proof (reach_step _ 0 _ _ H1 (step_put m1 0 _ (worker 1) [] [] eq_refl eq_refl)) as H2.
  eexists. split; [exact H2|reflexivity].
Qed.

Lemma no_task_on_two_cpus_witness :
  exists s, sched_ok s /\ tasks s !! 1%nat = Some (worker 1).
Proof.
  destruct reach_two as (m & Hr & Hq).
  exists (push_task (push_task (sched_new 0) (root "kernel-shell")) (worker 1)). split; [|reflexivity].
  apply (no_task_on_two_cpus 1 m 0 0 _ _ 1 1 (worker 1) (worker 1) Hr ltac:(lia) Hq Hq eq_refl eq_refl).
Defined.

Lemma steal_during_switch_witness :
  exists sw s1 v1 a' b',
    yield_section (mkSched 0 [set_state (worker 5) (Sleeping 9); set_state (worker 1) Running; worker 2] 1 0) = Ret (Some sw, s1) /\
    steal_section s1 = Ret (Some a', v1) /\ id a' = 1 /\ rsp a' = rsp (worker 1) /\
    tasks (save_rsp v1 (old_idx sw) 0x103f00) !! current v1 = Some b' /\ id b' = 2 /\ rsp b' = 0x103f00.
Proof.
  exact (steal_during_switch 0 (set_state (worker 5) (Sleeping 9)) (set_state (worker 1) Running) (worker 2) 0 0x103f00
    eq_refl eq_refl eq_refl).
Defined.

Definition demo_kernel : kernel Pmm.Pmm :=
  mkKernel (queues boot) 1 1 25 (mkWorld Pmm.new (fun _ => 0) 0x1000 0x1000) (mkHw 0 0 (replicate 8 0) (replicate 8 0) (replicate 8 0)).

End Smp.
