(* ===== verification/Calls.v ===== *)
(** * What the calls of the scheduler promise (src/src/task/mod.rs)

    An abstract specification of every call: spawning, yielding, stealing, the two timer
    interrupts, killing and reaping.  It is stated on the queues as lists of tasks, without
    the scans, the index arithmetic and the critical sections of the code; the theorem is
    that each call of Task.v returns and does what its specification says, when no other
    CPU comes in between.  Interleavings are the subject of Smp.v. *)

From stdpp Require Import prelude numbers list strings gmap.
From S2P Require Import Prelude Pmm Paging UserSpace PageTree Context Task Sched Smp.
Import UserSpace Task Sched Smp.

Module Calls.
Section Spec.
Context {A : Type} `{FA : Pmm.FrameAllocator A}.

(** ** The specification *)

(** The CPUs that are online, and the one a call runs on. *)
Definition online (k : kernel A) : nat := Nat.min (cpu_count k) 8.
Definition own_cpu (cpu : nat) : nat := if decide (cpu < 8)%nat then cpu else O.

(** The first of the first [n] queues with the fewest tasks, as far as a [usize] counts. *)
Definition load (s : CpuScheduler) : Z := Z.min (Z.of_nat (length (tasks s))) u64_max.
Definition least_loaded (qs : list CpuScheduler) (n c : nat) (s : CpuScheduler) : Prop :=
  (c < n)%nat /\ qs !! c = Some s /\
  forall c' s', (c' < n)%nat -> qs !! c' = Some s' -> load s <= load s' /\ ((c' < c)%nat -> load s < load s').

(** A task that may be stolen: a ready kernel task, neither the first nor the current one
    of a queue of at least three. *)
Definition stealable (v : CpuScheduler) (i : nat) (t : Task) : Prop :=
  (3 <= length (tasks v))%nat /\ tasks v !! i = Some t /\ i <> O /\ i <> current v /\ state t = Ready /\ is_user t = false.

(** A full quantum. *)
Definition refilled (t : Task) : Task := set_ticks t (ticks t) (quantum t).

(** The theft by [my] among [n] CPUs: the first victim after [my] in cyclic order that has
    something to steal, and of its tasks the first; the victim keeps its current task. *)
Inductive steals (qs : list CpuScheduler) (n my : nat) : bool -> list CpuScheduler -> Prop :=
  | steals_nothing :
      (forall d v i t, (1 <= d < n)%nat -> qs !! ((my + d) mod n)%nat = Some v -> ~ stealable v i t) -> steals qs n my false qs
  | steals_task d v i t v' s :
      (1 <= d < n)%nat -> qs !! ((my + d) mod n)%nat = Some v -> stealable v i t ->
      (forall d' u i' t', (1 <= d' < d)%nat -> qs !! ((my + d') mod n)%nat = Some u -> ~ stealable u i' t') ->
      (forall i' t', (i' < i)%nat -> ~ stealable v i' t') ->
      tasks v' = delete i (tasks v) -> tasks v' !! current v' = tasks v !! current v -> cpu_id v' = cpu_id v -> sticks v' = sticks v ->
      qs !! my = Some s ->
      steals qs n my true (<[my := push_task s (refilled t)]> (<[((my + d) mod n)%nat := v']> qs)).

(** The queue after the CPU has gone from its current task to the one at [j]. *)
Definition handed (fresh : Task -> Task) (s : CpuScheduler) (j : nat) : CpuScheduler :=
  mkSched (cpu_id s)
    (imap (fun i t => if decide (i = j) then fresh (set_state t Running)
                      else if decide (i = current s /\ state t = Running) then set_state t Ready else t) (tasks s))
    j (sticks s).

(** The registers then: a program brings its kernel stack and its tables, a kernel task the
    tables of the kernel, if these are known. *)
Definition hw_for (k : kernel A) (cpu : nat) (t : Task) : hardware :=
  let h := hw k in
  let stk {B} (u o : B) := if is_user t then u else o in
  let root := if is_user t then cr3 t else if decide (KERNEL_CR3 (kworld k) = 0) then None else Some (KERNEL_CR3 (kworld k)) in
  mkHw (stk (kernel_stack_top t) (tss_rsp0 h)) (stk (kernel_stack_top t) (kernel_rsp_scratch h))
    (stk (<[cpu := kernel_stack_top t]> (per_cpu_rsp0 h)) (per_cpu_rsp0 h))
    (stk (<[cpu := kernel_stack_top t]> (per_cpu_scratch h)) (per_cpu_scratch h))
    (from_option (fun c => <[cpu := c]> (cpu_cr3 h)) (cpu_cr3 h) root).

(** The choice of the next task: the next ready one in cyclic order; without one the current
    task goes on. *)
Inductive switches (fresh : Task -> Task) (k : kernel A) (cpu : nat) (s : CpuScheduler) : option switch -> CpuScheduler -> hardware -> Prop :=
  | goes_on : (forall i, i <> current s -> ~ ready_at s i) -> switches fresh k cpu s None s (hw k)
  | goes_to j t :
      next_ready s j -> j <> current s -> tasks s !! j = Some t ->
      switches fresh k cpu s (Some (mkSwitch (current s) (rsp t) (is_user t) (kernel_stack_top t) (cr3 t))) (handed fresh s j) (hw_for k cpu t).

(** Reaping: the dead tasks but the current one leave, the others stay in order, and the
    frames of the dead, and no others, are free again. *)
Inductive reaps (w : world A) (s : CpuScheduler) : Z -> world A -> CpuScheduler -> Prop :=
  | reaps_none : tasks s = [] -> reaps w s 0 w s
  | reaps_dead l1 c l2 w' :
      tasks s = l1 ++ c :: l2 -> length l1 = current s ->
      mem w' = mem w -> KERNEL_CR3 w' = KERNEL_CR3 w -> active_cr3 w' = active_cr3 w -> Pmm.fa_wf (fa w') ->
      (forall b, Pmm.fa_free (fa w') b <-> Pmm.fa_free (fa w) b \/ exists t, t ∈ l1 ++ l2 /\ state t = Dead /\ b ∈ owned t) ->
      reaps w s (Z.of_nat (length (List.filter dead (l1 ++ l2)))) w'
        (mkSched (cpu_id s) (List.filter alive l1 ++ c :: List.filter alive l2) (length (List.filter alive l1)) (sticks s)).

(** A timer interrupt on a task: a sleeper whose time has come is ready; the running one
    ([cur]) is charged one tick of its quantum. *)
Definition charged (t : Task) : Task := set_ticks t (u64_add (ticks t) 1) (if decide (0 < quantum_remaining t) then quantum_remaining t - 1 else quantum_remaining t).
Definition woken (now : Z) (t : Task) : Task :=
  match state t with Sleeping w => if decide (now < w) then t else set_state t Ready | _ => t end.
Definition aged (now : Z) (cur : Prop) `{Decision cur} (t : Task) : Task := woken now (if decide cur then charged t else t).

(** Preemption: only when the quantum is used up; it is refilled, and so is that of the task
    that gets the CPU. *)
Inductive preempts (k : kernel A) (cpu : nat) (s : CpuScheduler) : option switch -> CpuScheduler -> hardware -> Prop :=
  | preempts_not : (forall t, tasks s !! current s = Some t -> (length (tasks s) < 2)%nat \/ 0 < quantum_remaining t) -> preempts k cpu s None s (hw k)
  | preempts_expired t sw s' h :
      (2 <= length (tasks s))%nat -> tasks s !! current s = Some t -> quantum_remaining t <= 0 ->
      switches refilled k cpu (set_tasks s (<[current s := refilled t]> (tasks s))) sw s' h -> preempts k cpu s sw s' h.

(** The task a spawn call makes, on the kernel stack at [base]: the frame that its first
    switch pops enters [entry]. *)
Definition fresh_task (k : kernel A) (name : string) (base : Z) (user : bool) (root : option Z) (entry uentry ustack : Z) (sp : option AddressSpace)
  (t : Task) (w' : world A) : Prop :=
  exists r, Context.init_frame (mem (kworld k)) (u64_add base Context.STACK_SIZE) entry = (mem w', r) /\ w' = set_mem (kworld k) (mem w') /\
    t = mkTask (NEXT_TASK_ID k) name r (Some base) Ready 0 10 10 10 user root (if user then u64_add base Context.STACK_SIZE else 0) uentry ustack sp.

(** What the three spawn calls ask for. *)
Definition asks (k : kernel A) (c : kcall) (t : Task) (w' : world A) : Prop :=
  match c with
  | KSpawn name entry base => fresh_task k name base false None entry 0 0 None t w'
  | KSpawnUser tramp name entry ustack cr base => fresh_task k name base true (Some cr) tramp entry ustack None t w'
  | KSpawnSpace tramp name entry ustack sp base => fresh_task k name base true (Some (pml4 sp)) tramp entry ustack (Some sp) t w'
  | _ => False
  end.

(** Answers of the calls. *)
Inductive answer := ANone | ASwitch (sw : option switch) | ABool (b : bool) | ACount (n : Z) | ATid (tid : Z).

(** [performs k c a k']: call [c] in [k] may answer [a] and leave [k']. *)
Inductive performs (k : kernel A) : kcall -> answer -> kernel A -> Prop :=
  (** With other tasks but none of them ready a yield looks for work on the other CPUs
      first. *)
  | yields_idle cpu s b qs s1 sw s' h :
      CPU_SCHEDULERS k !! own_cpu cpu = Some s -> (2 <= length (tasks s))%nat -> (forall i, i <> current s -> ~ ready_at s i) ->
      steals (CPU_SCHEDULERS k) (online k) (own_cpu cpu) b qs -> qs !! own_cpu cpu = Some s1 ->
      switches (fun t => t) k (own_cpu cpu) s1 sw s' h ->
      performs k (KYield cpu) (ASwitch sw) (set_hw (set_scheds k (<[own_cpu cpu := s']> qs)) h)
  | yields_busy cpu s sw s' h :
      CPU_SCHEDULERS k !! own_cpu cpu = Some s -> ((length (tasks s) < 2)%nat \/ exists i, i <> current s /\ ready_at s i) ->
      switches (fun t => t) k (own_cpu cpu) s sw s' h ->
      performs k (KYield cpu) (ASwitch sw) (set_hw (set_scheds k (<[own_cpu cpu := s']> (CPU_SCHEDULERS k))) h)
  (** The timer of a CPU: accounting and waking, reaping every 25 ticks, preemption. *)
  | ticks_cpu cpu s s1 n w' s2 sw s' h :
      CPU_SCHEDULERS k !! own_cpu cpu = Some s ->
      s1 = mkSched (cpu_id s) (imap (fun i t => aged (TICKS k) (i = current s) t) (tasks s)) (current s) (u64_add (sticks s) 1) ->
      (if decide (TICKS k mod 25 = 0) then reaps (kworld k) s1 n w' s2 else w' = kworld k /\ s2 = s1) ->
      preempts k (own_cpu cpu) s2 sw s' h ->
      performs k (KTick cpu) (ASwitch sw) (set_hw (set_world (set_scheds k (<[own_cpu cpu := s']> (CPU_SCHEDULERS k))) w') h)
  (** The interval timer: waking on every CPU online, accounting on the first. *)
  | ticks_all :
      performs k KTimer ANone (set_scheds k (imap (fun c s =>
        if decide (c < Nat.max 1 (online k))%nat
        then set_tasks s (imap (fun i t => aged (TICKS k) (c = O /\ i = current s) t) (tasks s)) else s) (CPU_SCHEDULERS k)))
  (** Killing: the first task of that number dies and its queue is reaped. *)
  | kills cpu s i t n w' s' :
      (cpu < Nat.max 1 (online k))%nat -> CPU_SCHEDULERS k !! cpu = Some s -> tasks s !! i = Some t ->
      (forall c q u, (c < cpu)%nat -> CPU_SCHEDULERS k !! c = Some q -> u ∈ tasks q -> id u <> id t) ->
      (forall j u, (j < i)%nat -> tasks s !! j = Some u -> id u <> id t) ->
      reaps (kworld k) (set_tasks s (<[i := set_state t Dead]> (tasks s))) n w' s' ->
      performs k (KKill (id t)) (ABool true) (set_world (set_scheds k (<[cpu := s']> (CPU_SCHEDULERS k))) w')
  | kills_nobody tid :
      (forall c q u, (c < Nat.max 1 (online k))%nat -> CPU_SCHEDULERS k !! c = Some q -> u ∈ tasks q -> id u <> tid) ->
      performs k (KKill tid) (ABool false) k
  | reaps_cpu cpu s n w' s' :
      (cpu < 8)%nat -> CPU_SCHEDULERS k !! cpu = Some s -> reaps (kworld k) s n w' s' ->
      performs k (KReap cpu) (ACount n) (set_world (set_scheds k (<[cpu := s']> (CPU_SCHEDULERS k))) w')
  | reaps_nowhere cpu : (8 <= cpu)%nat -> performs k (KReap cpu) (ACount 0) k
  | steals_cpu cpu b qs :
      steals (CPU_SCHEDULERS k) (online k) cpu b qs -> performs k (KSteal cpu) (ABool b) (set_scheds k qs)
  (** Spawning: a ready task with the next number on the least loaded CPU. *)
  | spawns c t w' cpu s :
      asks k c t w' -> least_loaded (CPU_SCHEDULERS k) (Nat.max 1 (online k)) cpu s ->
      performs k c (ATid (NEXT_TASK_ID k))
        (mkKernel (<[cpu := push_task s t]> (CPU_SCHEDULERS k)) (u64_add (NEXT_TASK_ID k) 1) (cpu_count k) (TICKS k) w' (hw k)).

(** The calls of Task.v with their answers. *)
Definition call (k : kernel A) (c : kcall) : outcome (answer * kernel A) :=
  match c with
  | KYield cpu => '(sw, k') ← yield_now k cpu; Ret (ASwitch sw, k')
  | KTick cpu => '(sw, k') ← smp_timer_tick k cpu; Ret (ASwitch sw, k')
  | KTimer => k' ← timer_tick k; Ret (ANone, k')
  | KKill tid => '(b, k') ← kill_task k tid; Ret (ABool b, k')
  | KReap cpu => '(n, k') ← reap_dead_tasks_on_cpu k cpu; Ret (ACount n, k')
  | KSteal cpu => '(b, k') ← try_steal_task k cpu; Ret (ABool b, k')
  | KSpawn name entry base => '(n, k') ← spawn k name entry base; Ret (ATid n, k')
  | KSpawnUser tr name entry us cr base => '(n, k') ← spawn_user k tr name entry us cr base; Ret (ATid n, k')
  | KSpawnSpace tr name entry us sp base => '(n, k') ← spawn_user_with_space k tr name entry us sp base; Ret (ATid n, k')
  end.

(** The invariant of the kernel between calls, and the arguments a call may have. *)
Definition queue_sound (s : CpuScheduler) : Prop := sched_ok s /\ Forall (fun t => Forall Pmm.is_frame (owned t)) (tasks s).
Definition sound (k : kernel A) : Prop :=
  length (CPU_SCHEDULERS k) = 8%nat /\ Forall queue_sound (CPU_SCHEDULERS k) /\ Pmm.fa_wf (fa (kworld k)).
Definition call_ok (c : kcall) : Prop :=
  match c with
  | KSteal cpu => (cpu < 8)%nat
  | KSpawnSpace _ _ _ _ sp _ => Forall Pmm.is_frame (allocated_frames sp)
  | _ => True
  end.

(** ** Theft *)

Lemma stealable_bool v i t : (negb (Nat.eqb i 0) && negb (Nat.eqb i (current v)) && is_state (state t) Ready && negb (is_user t))%bool = true <->
  i <> O /\ i <> current v /\ state t = Ready /\ is_user t = false.
Proof. rewrite !andb_true_iff, !negb_true_iff, !Nat.eqb_neq, is_state_true. tauto. Qed.

Lemma steal_idx_first v l : forall i,
  (forall j t, l !! j = Some t <-> tasks v !! (i + j)%nat = Some t) -> (3 <= length (tasks v))%nat ->
  match steal_idx l i (current v) with
  | Some k => (exists t, stealable v k t) /\ forall j t, (i <= j < k)%nat -> ~ stealable v j t
  | None => forall j t, (i <= j)%nat -> ~ stealable v j t
  end.
Proof.
  induction l as [|x l IH]; intros i Hl H3; cbn [steal_idx].
  { intros j t Hij (_ & Hj & _). replace j with (i + (j - i))%nat in Hj by lia. by apply Hl in Hj. }
  assert (Hx : tasks v !! i = Some x) by (rewrite <- (Nat.add_0_r i); by apply Hl).
  destruct (_ && _)%bool eqn:E.
  - apply stealable_bool in E as (? & ? & ? & ?). split; [exists x; by split_and!|]. intros. lia.
  - assert (Hl' : forall j t, l !! j = Some t <-> tasks v !! (S i + j)%nat = Some t).
    { intros j t. replace (S i + j)%nat with (i + S j)%nat by lia. apply (Hl (S j) t). }
    assert (Hno : forall t, ~ stealable v i t).
    { intros t (_ & Ht & Hs). assert (t = x) as -> by congruence. apply stealable_bool in Hs. congruence. }
    specialize (IH (S i)). destruct (steal_idx l (S i) (current v)) as [k|].
    + destruct IH as [Hk Hmin]; [done..|]. split; [done|].
      intros j t Hj. destruct (decide (j = i)) as [->|]; [apply Hno|apply Hmin; lia].
    + intros j t Hj. destruct (decide (j = i)) as [->|]; [apply Hno|]. apply IH; [done..|lia].
Qed.

Lemma steal_section_first v :
  queue_sound v ->
  (steal_section v = Ret (None, v) /\ forall i t, ~ stealable v i t) \/
  exists i t v', steal_section v = Ret (Some t, v') /\ stealable v i t /\ (forall i' t', (i' < i)%nat -> ~ stealable v i' t') /\
    tasks v' = delete i (tasks v) /\ tasks v' !! current v' = tasks v !! current v /\ cpu_id v' = cpu_id v /\ sticks v' = sticks v /\ queue_sound v'.
Proof.
  intros [Hok HF]. unfold steal_section. destruct (Nat.ltb_spec 2 (length (tasks v))) as [Hl|Hl].
  2:{ left. split; [done|]. intros i t (? & _). lia. }
  pose proof (steal_idx_first v (tasks v) 0 ltac:(done) Hl) as Hf.
  destruct (steal_idx (tasks v) 0 (current v)) as [i|]; [|left; split; [done|]; intros j t; apply Hf; lia].
  right. destruct Hf as [[t Ht] Hmin]. pose proof Ht as (_ & Hi & _ & Hne & _). exists i, t. unfold remove_at. rewrite (at_Ret _ _ _ Hi).
  cbn [mbind outcome_bind]. destruct (remove_ok v i t Hok Hi Hne) as (Hok' & Hcur & _). eexists. split; [done|]. split; [done|].
  split; [intros; apply Hmin; lia|]. split_and!; try done. split; [done|]. by apply Forall_delete.
Qed.

(** ** The kernel and its queues *)

Definition queues_sound (qs : list CpuScheduler) : Prop := length qs = 8%nat /\ Forall queue_sound qs.

Lemma sound_queue k c : sound k -> (c < 8)%nat -> exists s, CPU_SCHEDULERS k !! c = Some s /\ queue_sound s.
Proof.
  intros (Hl & HF & _) Hc. destruct (lookup_lt_is_Some_2 (CPU_SCHEDULERS k) c) as [s Hs]; [lia|]. exists s. split; [done|].
  by apply (proj1 (Forall_lookup _ _) HF c).
Qed.

Lemma queues_sound_insert qs c s : queues_sound qs -> queue_sound s -> queues_sound (<[c := s]> qs).
Proof. intros [Hl HF] Hs. split; [by rewrite length_insert|]. by apply Forall_insert. Qed.

Lemma set_scheds_id (k : kernel A) : set_scheds k (CPU_SCHEDULERS k) = k.
Proof. by destruct k. Qed.

(** A section on a queue that is there. *)
Lemma with_sched_at {B} (k : kernel A) c s (f : CpuScheduler -> outcome (B * CpuScheduler)) b s' :
  CPU_SCHEDULERS k !! c = Some s -> f s = Ret (b, s') -> with_sched k c f = Ret (b, set_scheds k (<[c := s']> (CPU_SCHEDULERS k))).
Proof. intros Hs Hf. unfold with_sched. rewrite (at_Ret _ _ _ Hs). cbn [mbind outcome_bind]. by rewrite Hf. Qed.

Lemma with_sched_same {B} (k : kernel A) c s (f : CpuScheduler -> outcome (B * CpuScheduler)) b :
  CPU_SCHEDULERS k !! c = Some s -> f s = Ret (b, s) -> with_sched k c f = Ret (b, k).
Proof. intros Hs Hf. rewrite (with_sched_at k c s f b s Hs Hf), list_insert_id by done. by rewrite set_scheds_id. Qed.

Lemma victim_other my num d : (1 <= d < num)%nat -> ((my + d) mod num)%nat <> my.
Proof.
  intros Hd E. assert (Hm : (my < num)%nat) by (rewrite <- E; apply Nat.mod_upper_bound; lia).
  destruct (decide (my + d < num)%nat) as [Hlt|Hge]; [rewrite Nat.mod_small in E by done; lia|].
  replace (my + d)%nat with (my + d - num + 1 * num)%nat in E by lia. rewrite Nat.Div0.mod_add, Nat.mod_small in E by lia. lia.
Qed.

Lemma steal_loop_steals my num n : forall k off,
  sound k -> (my < 8)%nat -> (num <= 8)%nat -> (off + n = num)%nat -> (1 <= off)%nat ->
  (forall d v i t, (1 <= d < off)%nat -> CPU_SCHEDULERS k !! ((my + d) mod num)%nat = Some v -> ~ stealable v i t) ->
  exists b qs, steal_loop k my num off n = Ret (b, set_scheds k qs) /\ steals (CPU_SCHEDULERS k) num my b qs /\ queues_sound qs.
Proof.
  induction n as [|n IH]; intros k off Hk Hmy Hnum Hoff Hoff1 Hno; cbn [steal_loop].
  { exists false, (CPU_SCHEDULERS k). rewrite set_scheds_id. split; [done|]. split; [|by destruct Hk as (? & ? & _)].
    constructor. intros d v i t Hd. apply Hno. lia. }
  cbv zeta. set (vc := ((my + off) mod num)%nat). assert (Hvc : (vc < 8)%nat) by (pose proof (Nat.mod_upper_bound (my + off) num ltac:(lia)); lia).
  destruct (sound_queue k vc Hk Hvc) as (v & Hv & Hvs). destruct (sound_queue k my Hk Hmy) as (s & Hs & Hss).
  destruct (steal_section_first v Hvs) as [[E Hnone]|(i & t & v' & E & Ht & Hmin & Hdel & Hcur & Hid & Htk & Hvs')].
  - rewrite (with_sched_same k vc v _ _ Hv E). cbn [mbind outcome_bind]. apply (IH k (S off)); try done; try lia.
    intros d u j w Hd Hu. destruct (decide (d = off)) as [->|]; [|apply (Hno d u); [lia|done]].
    fold vc in Hu. assert (u = v) as -> by congruence. apply Hnone.
  - rewrite (with_sched_at k vc v _ _ _ Hv E). cbn [mbind outcome_bind].
    assert (Hs' : CPU_SCHEDULERS (set_scheds k (<[vc := v']> (CPU_SCHEDULERS k))) !! my = Some s).
    { cbn. rewrite list_lookup_insert_ne; [done|]. apply victim_other. lia. }
    rewrite (with_sched_at _ my s _ tt (push_task s (refilled t)) Hs' eq_refl). cbn [mbind outcome_bind].
    eexists true, _. split; [reflexivity|]. split; [eapply steals_task; [|exact Hv|exact Ht|..]; try done; lia|].
    destruct Hvs as [_ HvF]. destruct Ht as (_ & Hi & _ & _ & Hst & _).
    apply queues_sound_insert; [apply queues_sound_insert; [by destruct Hk as (? & ? & _)|done]|].
    split; [apply push_ok; [apply Hss|cbn; by rewrite Hst]|]. cbn. apply Forall_app. split; [apply Hss|]. constructor; [|done].
    change (owned (refilled t)) with (owned t). by apply (proj1 (Forall_lookup _ _) HvF i).
Qed.

Lemma try_steal_steals k my :
  sound k -> (my < 8)%nat ->
  exists b qs, try_steal_task k my = Ret (b, set_scheds k qs) /\ steals (CPU_SCHEDULERS k) (online k) my b qs /\ queues_sound qs.
Proof.
  intros Hk Hmy. unfold try_steal_task, online, MAX_CPUS. destruct (Nat.leb_spec (cpu_count k) 1) as [Hc|Hc].
  - exists false, (CPU_SCHEDULERS k). rewrite set_scheds_id. split; [done|]. split; [|by destruct Hk as (? & ? & _)].
    constructor. intros. lia.
  - apply steal_loop_steals; try done; lia.
Qed.

(** ** Giving the CPU to the next task *)

Lemma hand_over_handed wk s j t :
  (current s < length (tasks s))%nat -> tasks s !! j = Some t -> j <> current s ->
  (forall t, rsp (wk t) = rsp t /\ is_user (wk t) = is_user t /\ kernel_stack_top (wk t) = kernel_stack_top t /\ cr3 (wk t) = cr3 t) ->
  hand_over wk s (current s) j = Ret (mkSwitch (current s) (rsp t) (is_user t) (kernel_stack_top t) (cr3 t), handed wk s j).
Proof.
  intros Hc Hj Hne Hwk. destruct (lookup_lt_is_Some_2 (tasks s) (current s) Hc) as [tc Htc]. unfold hand_over.
  rewrite (update_Ret _ _ _ _ Htc). cbn [mbind outcome_bind]. set (tc' := if is_state _ _ then _ else _).
  assert (Hj1 : <[current s := tc']> (tasks s) !! j = Some t) by (rewrite list_lookup_insert_ne; done).
  rewrite (update_Ret _ _ _ _ Hj1). cbn [mbind outcome_bind].
  assert (Hj2 : <[j := wk (set_state t Running)]> (<[current s := tc']> (tasks s)) !! j = Some (wk (set_state t Running))).
  { apply list_lookup_insert_eq. by eapply lookup_lt_Some. }
  rewrite (at_Ret _ _ _ Hj2). cbn [mbind outcome_bind]. destruct (Hwk (set_state t Running)) as (-> & -> & -> & ->). f_equal. f_equal.
  unfold handed, set_current, set_tasks. cbn. f_equal. apply list_eq. intros i. rewrite list_lookup_imap.
  destruct (decide (i = j)) as [->|Hij]; [by rewrite Hj2, Hj|]. rewrite list_lookup_insert_ne by done.
  destruct (decide (i = current s)) as [->|Hic].
  - rewrite list_lookup_insert_eq by done. rewrite Htc. cbn [fmap option_fmap option_map].
    unfold tc', is_state. f_equal. destruct (decide (state tc = Running)) as [Hr|Hr].
    + by rewrite bool_decide_eq_true_2, decide_True.
    + rewrite bool_decide_eq_false_2, decide_False; [done|by intros [_ ?]|done].
  - rewrite list_lookup_insert_ne by done. destruct (tasks s !! i); [|done]. cbn [fmap option_fmap option_map].
    rewrite decide_False; [done|by intros [? _]].
Qed.

Lemma handed_sound wk s j :
  (forall t, state (wk t) = state t /\ owned (wk t) = owned t) -> (j < length (tasks s))%nat -> queue_sound s -> queue_sound (handed wk s j).
Proof.
  intros Hwk Hj [[_ Hrun] HF]. split; [split|].
  - left. cbn. by rewrite length_imap.
  - cbn. intros i u Hi Hst. rewrite list_lookup_imap in Hi. destruct (tasks s !! i) as [t|] eqn:Et; [|done]. cbn in Hi. injection Hi as <-.
    destruct (decide (i = j)) as [|]; [done|]. destruct (decide _) as [|Hn]; [done|]. destruct Hn. split; [by eapply Hrun|done].
  - cbn. apply Forall_lookup. intros i u Hi. rewrite list_lookup_imap in Hi. destruct (tasks s !! i) as [t|] eqn:Et; [|done].
    cbn in Hi. injection Hi as <-. pose proof (proj1 (Forall_lookup _ _) HF i t Et) as Ho.
    destruct (decide (i = j)); [rewrite (proj2 (Hwk _)); exact Ho|]. by destruct (decide _).
Qed.

(** What [pick_next] answers where there is a choice. *)
Lemma pick_next_choice s :
  sched_ok s -> (2 <= length (tasks s))%nat ->
  exists r, pick_next s = Ret r /\
  match r with
  | Some j => (j = current s /\ forall i, i <> current s -> ~ ready_at s i) \/ (j <> current s /\ next_ready s j)
  | None => forall i, ~ ready_at s i
  end.
Proof.
  intros Hok Hl. destruct (pick_next_ret s Hok) as (r & Hr & H); [intros E; rewrite E in Hl; cbn in Hl; lia|].
  exists r. split; [done|]. destruct r as [j|]; [|by destruct H]. destruct H as [Hn|(-> & Hno & _)]; [|left; split; [done|auto]].
  destruct (decide (j = current s)) as [->|]; [left; split; [done|]|by right].
  destruct Hn as (d & Hd & Heq & _ & Hno). pose proof Hok as [[Hc|[E _]] _]; [|rewrite E in Hl; cbn in Hl; lia].
  intros i Hi Hri. pose proof Hri as (t & Ht & _). destruct (after_surj s i Hc) as (e & He & <-); [by eapply lookup_lt_Some|].
  destruct (decide (e < d)%nat); [by apply (Hno e); [lia|]|].
  assert (d = length (tasks s)) as -> by (by apply (after_self s d)). assert (e = length (tasks s)) as -> by lia. by rewrite <- Heq in Hi.
Qed.

Lemma few_tasks_alone s : sched_ok s -> (length (tasks s) < 2)%nat -> forall i, i <> current s -> ~ ready_at s i.
Proof. intros [[Hc|[E _]] _] Hl i Hi (t & Ht & _); apply lookup_lt_Some in Ht; [lia|rewrite E in Ht; cbn in Ht; lia]. Qed.

(** The choice and the hand-over as they stand in [yield_now] and in the preemption. *)
Lemma handing_switches wk fresh (k : kernel A) cpu s :
  (forall t, wk t = fresh t) ->
  (forall t, state (wk t) = state t /\ owned (wk t) = owned t /\ rsp (wk t) = rsp t /\ is_user (wk t) = is_user t /\
             kernel_stack_top (wk t) = kernel_stack_top t /\ cr3 (wk t) = cr3 t) ->
  queue_sound s -> (2 <= length (tasks s))%nat ->
  exists sw s' h,
    (r ← pick_next s;
     match r with
     | Some next_idx =>
         if Nat.eqb next_idx (current s) then Ret (None, s) else
         '(sw, s') ← hand_over wk s (current s) next_idx; Ret (Some sw, s')
     | None => Ret (None, s)
     end) = Ret (sw, s') /\ switches fresh k cpu s sw s' h /\ queue_sound s'.
Proof.
  intros Hfr Hwk Hq Hl. pose proof Hq as [Hok _]. destruct (pick_next_choice s Hok Hl) as (r & -> & Hr). cbn [mbind outcome_bind].
  assert (Hstay : (forall i, i <> current s -> ~ ready_at s i) -> exists sw s' h, Ret (None, s) = Ret (sw, s') /\ switches fresh k cpu s sw s' h /\ queue_sound s').
  { intros Hno. eexists None, s, _. split; [done|]. split; [by constructor|done]. }
  destruct r as [j|]; [|apply Hstay; auto]. destruct Hr as [[-> Hno]|[Hne Hn]]; [rewrite Nat.eqb_refl; by apply Hstay|].
  rewrite (proj2 (Nat.eqb_neq _ _) Hne). pose proof Hn as (d & _ & _ & (t & Ht & _) & _).
  pose proof Hok as [[Hc|[E _]] _]; [|rewrite E in Hl; cbn in Hl; lia].
  rewrite (hand_over_handed wk s j t Hc Ht Hne) by (intros u; destruct (Hwk u) as (_ & _ & ?); done). cbn [mbind outcome_bind].
  assert (Hh : handed wk s j = handed fresh s j).
  { unfold handed. f_equal. apply list_eq. intros i. rewrite !list_lookup_imap. destruct (tasks s !! i); [|done]. cbn. by rewrite Hfr. }
  eexists _, _, _. split; [reflexivity|]. split; [rewrite Hh; by constructor|].
  apply handed_sound; [intros u; destruct (Hwk u) as (? & ? & _); done|by eapply lookup_lt_Some|done].
Qed.

Lemma yield_section_switches (k : kernel A) cpu s :
  queue_sound s -> exists sw s' h, yield_section s = Ret (sw, s') /\ switches (fun t => t) k cpu s sw s' h /\ queue_sound s'.
Proof.
  intros Hq. unfold yield_section. destruct (Nat.ltb_spec (length (tasks s)) 2) as [Hl|Hl].
  - eexists None, s, _. split; [done|]. split; [|done]. constructor. apply few_tasks_alone; [apply Hq|done].
  - by apply handing_switches.
Qed.

Lemma preempt_section_preempts (k : kernel A) cpu s :
  queue_sound s -> exists sw s' h, preempt_section s = Ret (sw, s') /\ preempts k cpu s sw s' h /\ queue_sound s'.
Proof.
  intros Hq. pose proof Hq as [Hok HF]. unfold preempt_section. destruct (Nat.ltb_spec (length (tasks s)) 2) as [Hl|Hl].
  { eexists None, s, _. split; [done|]. split; [|done]. constructor. intros t _. by left. }
  pose proof Hok as [[Hc|[E _]] _]; [|rewrite E in Hl; cbn in Hl; lia]. rewrite (proj2 (Nat.leb_gt _ _)) by done.
  destruct (lookup_lt_is_Some_2 (tasks s) (current s) Hc) as [tc Htc]. rewrite (at_Ret _ _ _ Htc). cbn [mbind outcome_bind].
  destruct (Z.ltb_spec 0 (quantum_remaining tc)) as [Hqr|Hqr].
  { eexists None, s, _. split; [done|]. split; [|done]. constructor. intros t Ht. right. congruence. }
  rewrite (update_Ret _ _ _ _ Htc). cbn [mbind outcome_bind]. set (s1 := set_tasks s _).
  assert (Hq1 : queue_sound s1).
  { split; [|cbn; apply Forall_insert; [done|]; by apply (proj1 (Forall_lookup _ _) HF (current s) tc)].
    apply (in_place_ok s); [|done]. apply (update_in_place s (current s) reset_quantum); [done|]. by rewrite (update_Ret _ _ _ _ Htc). }
  destruct (handing_switches reset_quantum refilled k cpu s1) as (sw & s' & h & E & Hsw & Hq'); [done|done|done|cbn; by rewrite length_insert|].
  exists sw, s', h. split; [exact E|]. split; [|done]. by eapply preempts_expired.
Qed.

(** The registers are loaded as the switch says. *)
Lemma switches_apply fresh (k k2 : kernel A) cpu s sw s' h :
  switches fresh k cpu s sw s' h -> hw k2 = hw k -> KERNEL_CR3 (kworld k2) = KERNEL_CR3 (kworld k) -> apply_switch k2 cpu sw = set_hw k2 h.
Proof.
  intros [_|j t _ _ _] Hh Hw; [by destruct k2; cbn in Hh; subst|]. cbn [apply_switch]. unfold on_context_switch, hw_for.
  rewrite Hh, Hw. cbn [sw_user sw_kstack sw_cr3]. destruct (is_user t); [by destruct (cr3 t)|].
  destruct (decide (KERNEL_CR3 (kworld k) = 0)) as [->|Hne]; cbn; [destruct k2 as [? ? ? ? ? h2]; cbn in Hh; rewrite <- Hh; by destruct h2|].
  by rewrite (proj2 (Z.eqb_neq _ _) Hne).
Qed.

Lemma preempts_apply (k k2 : kernel A) cpu s sw s' h :
  preempts k cpu s sw s' h -> hw k2 = hw k -> KERNEL_CR3 (kworld k2) = KERNEL_CR3 (kworld k) -> apply_switch k2 cpu sw = set_hw k2 h.
Proof. intros [_|t sw' s1 h' _ _ _ Hs] Hh Hw; [by destruct k2; cbn in Hh; subst|]. by eapply switches_apply. Qed.

(** ** Reaping *)

(** Giving frames back changes nothing else of the machine's memory. *)
Definition same_memory (w w' : world A) : Prop := mem w' = mem w /\ KERNEL_CR3 w' = KERNEL_CR3 w /\ active_cr3 w' = active_cr3 w.

Lemma drop_task_memory (w w' : world A) t : drop_task w t = Ret w' -> same_memory w w'.
Proof.
  unfold drop_task, drop_space. destruct (address_space t) as [sp|]; [|by intros [= <-]].
  revert w. induction (allocated_frames sp) as [|f l IH]; intros w; cbn [drop_frames]; [by intros [= <-]|]. unfold free_frame.
  destruct (Pmm.fa_dealloc (fa w) f) as [[r a]| |]; cbn [mbind outcome_bind]; [|done..]. intros H. exact (IH (set_fa w a) H).
Qed.

Lemma reap_loop_memory fuel : forall (w w' : world A) s s' i r n, reap_loop fuel w s i r = Ret (n, w', s') -> same_memory w w'.
Proof.
  induction fuel as [|fuel IH]; intros w w' s s' i r n; cbn [reap_loop]; destruct (Nat.ltb _ _); try done; try by intros [= _ <- _].
  destruct (Nat.eqb _ _); [apply IH|]. destruct (at_ _ _) as [t| |]; cbn [mbind outcome_bind]; [|done..].
  destruct (is_state _ _); [|apply IH]. destruct (remove_at _ _) as [[d l]| |]; cbn [mbind outcome_bind]; [|done..].
  destruct (drop_task w d) as [w1| |] eqn:E; cbn [mbind outcome_bind]; [|done..]. intros H. apply IH in H.
  destruct (drop_task_memory _ _ _ E) as (? & ? & ?), H as (? & ? & ?). split_and!; congruence.
Qed.

Lemma reap_section_reaps (w : world A) s :
  Pmm.fa_wf (fa w) -> queue_sound s ->
  exists n w' s', reap_section w s = Ret (n, w', s') /\ reaps w s n w' s' /\ queue_sound s' /\ Pmm.fa_wf (fa w') /\ KERNEL_CR3 w' = KERNEL_CR3 w.
Proof.
  intros Hwf [Hok HF]. pose proof Hok as [[Hc|[E _]] _].
  2:{ exists 0, w, s. unfold reap_section. rewrite E. cbn. rewrite E. split; [done|]. split; [by constructor|done]. }
  destruct (lookup_lt_is_Some_2 _ _ Hc) as [c Ht]. destruct (list_elem_of_split_length _ _ _ Ht) as (l1 & l2 & El & Hl).
  destruct (reap_removes_dead w s l1 c l2 Hwf HF El Hl) as (w' & Er & Hwf' & Hfree).
  destruct (reap_loop_memory _ _ _ _ _ _ _ _ Er) as (Hm & Hk & Ha).
  eexists _, w', _. split; [exact Er|]. split; [by constructor|]. split; [|done].
  split; [by eapply (reap_section_shrinks O)|]. rewrite El in HF. cbn [tasks]. rewrite Forall_app, Forall_cons in HF |- *.
  destruct HF as (H1 & Hc1 & H2). assert (Hf : forall (P : Task -> Prop) l, Forall P l -> Forall P (List.filter alive l)).
  { intros P l. rewrite !Forall_forall. intros H t Hin. apply H. apply list_elem_of_In, filter_In in Hin as [Hin _]. by apply list_elem_of_In. }
  split_and!; auto.
Qed.

(** ** The timers *)

Lemma wake_woken now t : wake now t = woken now t.
Proof.
  unfold wake, woken. destruct (state t) as [| |w|]; try done. destruct (Z.leb_spec w now); [by rewrite decide_False by lia|by rewrite decide_True by lia].
Qed.

Lemma charge_charged t : charge t = charged t.
Proof.
  unfold charge, charged. destruct (Z.ltb_spec 0 (quantum_remaining t)); [by rewrite decide_True by lia|by rewrite decide_False by lia].
Qed.

Lemma charge_woken now t : charge (woken now t) = woken now (charge t).
Proof. unfold woken. cbn. destruct (state t) as [| |w|]; try done. by destruct (decide (now < w)). Qed.

(** A queue after its tasks have aged is as sound as before. *)
Lemma aged_fields now (P : Prop) `{Decision P} t : id (aged now P t) = id t /\ owned (aged now P t) = owned t /\ (state (aged now P t) = Running -> state t = Running).
Proof.
  unfold aged. assert (Hw : forall u, id (woken now u) = id u /\ owned (woken now u) = owned u /\ (state (woken now u) = Running -> state u = Running)).
  { intros u. unfold woken. destruct (state u) as [| |w|] eqn:E; [by rewrite ?E..| |by rewrite ?E]. destruct (decide (now < w)); cbn; by rewrite ?E. }
  destruct (decide P); [exact (Hw (charged t))|apply Hw].
Qed.

Lemma aged_sound s c now (P : nat -> Prop) `{forall i, Decision (P i)} k :
  queue_sound s -> queue_sound (mkSched c (imap (fun i t => aged now (P i) t) (tasks s)) (current s) k).
Proof.
  intros [Hok HF]. split.
  - apply (in_place_ok s); [|done]. split; [done|]. split; [by cbn; rewrite length_imap|]. cbn. intros i t Ht.
    exists (aged now (P i) t). rewrite list_lookup_imap, Ht. split; [done|]. destruct (aged_fields now (P i) t) as (? & _ & ?). done.
  - cbn. apply Forall_lookup. intros i u Hi. rewrite list_lookup_imap in Hi. destruct (tasks s !! i) as [t|] eqn:Et; [|done].
    cbn in Hi. injection Hi as <-. rewrite (proj1 (proj2 (aged_fields now (P i) t))). by apply (proj1 (Forall_lookup _ _) HF i).
Qed.

(** Charging the current task, then waking, is ageing. *)
Lemma charge_wake_aged s now :
  sched_ok s -> exists s', charge_current s = Ret s' /\
    wake_all now s' = set_tasks s (imap (fun i t => aged now (i = current s) t) (tasks s)).
Proof.
  intros [[Hc|[E E0]] _]; unfold charge_current.
  2:{ rewrite E, E0. exists s. split; [done|]. unfold wake_all. by rewrite E. }
  rewrite (proj2 (Nat.ltb_lt _ _) Hc). destruct (lookup_lt_is_Some_2 _ _ Hc) as [t Ht]. rewrite (update_Ret _ _ _ _ Ht). cbn [mbind outcome_bind].
  eexists. split; [done|]. unfold wake_all, set_tasks. cbn. f_equal. apply list_eq. intros i. rewrite list_lookup_fmap, list_lookup_imap.
  unfold aged. destruct (decide (i = current s)) as [->|Hne].
  - rewrite list_lookup_insert_eq, Ht by done. cbn [fmap option_fmap option_map]. by rewrite wake_woken, charge_charged.
  - rewrite list_lookup_insert_ne by done. destruct (tasks s !! i); [|done]. cbn [fmap option_fmap option_map]. by rewrite wake_woken.
Qed.

Lemma smp_tick_section_aged now s :
  sched_ok s -> smp_tick_section now s = Ret (mkSched (cpu_id s) (imap (fun i t => aged now (i = current s) t) (tasks s)) (current s) (u64_add (sticks s) 1)).
Proof.
  intros Hok. unfold smp_tick_section. set (s0 := mkSched _ _ _ _). assert (Hok0 : sched_ok s0) by exact Hok.
  destruct (tasks s0) as [|x l] eqn:E; [unfold s0 in *; cbn in E; by rewrite E|].
  destruct (charge_wake_aged s0 now Hok0) as (s' & -> & Hw). cbn [mbind outcome_bind]. by rewrite Hw.
Qed.

Lemma wake_cpus_wakes n : forall (k : kernel A) c, (c + n <= length (CPU_SCHEDULERS k))%nat ->
  wake_cpus k c n = Ret (set_scheds k (imap (fun i s => if decide (c <= i < c + n)%nat then wake_all (TICKS k) s else s) (CPU_SCHEDULERS k))).
Proof.
  induction n as [|n IH]; intros k c Hl; cbn [wake_cpus].
  - f_equal. rewrite <- (set_scheds_id k) at 1. f_equal. apply list_eq. intros i. rewrite list_lookup_imap.
    destruct (CPU_SCHEDULERS k !! i); [|done]. cbn [fmap option_fmap option_map]. rewrite decide_False by lia. done.
  - destruct (lookup_lt_is_Some_2 (CPU_SCHEDULERS k) c) as [s Hs]; [lia|]. rewrite (with_sched_at k c s _ tt _ Hs eq_refl). cbn [mbind outcome_bind].
    rewrite IH by (cbn; rewrite length_insert; lia). f_equal. unfold set_scheds. cbn. f_equal. apply list_eq. intros i. rewrite !list_lookup_imap.
    destruct (decide (i = c)) as [->|Hne].
    + rewrite list_lookup_insert_eq, Hs by lia. cbn [fmap option_fmap option_map]. rewrite decide_False, decide_True by lia. done.
    + rewrite list_lookup_insert_ne by done. destruct (CPU_SCHEDULERS k !! i); [|done]. cbn [fmap option_fmap option_map]. f_equal.
      by repeat case_decide; try lia.
Qed.

Lemma wake_charge_aged s now :
  sched_ok s -> charge_current (wake_all now s) = Ret (set_tasks s (imap (fun i t => aged now (O = O /\ i = current s) t) (tasks s))).
Proof.
  intros Hok. destruct (charge_wake_aged s now Hok) as (s' & Hs' & Hw). unfold charge_current in *. cbn [tasks current wake_all set_tasks] in *.
  rewrite length_fmap. assert (Heq : imap (fun i t => aged now (O = O /\ i = current s) t) (tasks s) = imap (fun i t => aged now (i = current s) t) (tasks s)).
  { apply imap_ext. intros i t _. unfold aged. f_equal. destruct (decide (i = current s)); [by rewrite decide_True|]. rewrite decide_False; [done|by intros [_ ?]]. }
  rewrite Heq. destruct (Nat.ltb_spec (current s) (length (tasks s))) as [Hc|Hc]; [|injection Hs' as <-; by rewrite <- Hw].
  destruct (lookup_lt_is_Some_2 _ _ Hc) as [t Ht]. rewrite (update_Ret _ _ _ _ Ht) in Hs'. cbn [mbind outcome_bind] in Hs'. injection Hs' as <-.
  assert (Ht' : (wake now <$> tasks s) !! current s = Some (wake now t)) by (by rewrite list_lookup_fmap, Ht).
  rewrite (update_Ret _ _ _ _ Ht'). cbn [mbind outcome_bind]. unfold wake_all, set_tasks in *. cbn in *. injection Hw as <-. f_equal. f_equal.
  rewrite list_fmap_insert. f_equal. by rewrite !wake_woken, charge_woken.
Qed.

Lemma timer_tick_performs (k : kernel A) : sound k -> exists k', timer_tick k = Ret k' /\ performs k KTimer ANone k' /\ sound k'.
Proof.
  intros Hk. pose proof Hk as (Hl & HF & Hwf). unfold timer_tick. rewrite wake_cpus_wakes by (unfold num_cpus, MAX_CPUS; lia). cbn [mbind outcome_bind].
  destruct (sound_queue k 0 Hk ltac:(lia)) as (s & Hs & Hok & HsF). set (k1 := set_scheds k _).
  assert (Hs1 : CPU_SCHEDULERS k1 !! O = Some (wake_all (TICKS k) s)).
  { cbn. rewrite list_lookup_imap, Hs. cbn [fmap option_fmap option_map]. by rewrite decide_True by (unfold num_cpus, MAX_CPUS; lia). }
  erewrite (with_sched_at k1 O _ _ tt _ Hs1); [|by rewrite (wake_charge_aged s (TICKS k) Hok)]. cbn [mbind outcome_bind].
  set (qs := imap (fun c s => if decide (c < Nat.max 1 (online k))%nat
        then set_tasks s (imap (fun i t => aged (TICKS k) (c = O /\ i = current s) t) (tasks s)) else s) (CPU_SCHEDULERS k)).
  assert (Hqs : <[O := set_tasks s (imap (fun i t => aged (TICKS k) (O = O /\ i = current s) t) (tasks s))]> (CPU_SCHEDULERS k1) = qs).
  { apply list_eq. intros c. unfold qs. rewrite list_lookup_imap. destruct (decide (c = O)) as [->|Hc].
    - rewrite list_lookup_insert_eq by (by eapply lookup_lt_Some). rewrite Hs. cbn [fmap option_fmap option_map]. by rewrite decide_True by lia.
    - rewrite list_lookup_insert_ne by done. cbn [CPU_SCHEDULERS set_scheds k1]. rewrite list_lookup_imap. destruct (CPU_SCHEDULERS k !! c) as [q|]; [|done].
      cbn [fmap option_fmap option_map]. f_equal. unfold num_cpus, online, MAX_CPUS.
      do 2 case_decide; try lia; [|done].
      unfold wake_all, set_tasks. f_equal. apply list_eq. intros i. rewrite list_lookup_fmap, list_lookup_imap. destruct (tasks q !! i); [|done].
      cbn [fmap option_fmap option_map]. f_equal. unfold aged. rewrite decide_False by (by intros [? _]). apply wake_woken. }
  eexists. split; [reflexivity|]. rewrite Hqs. change (set_scheds k1 qs) with (set_scheds k qs). split; [constructor|].
  split; [cbn; unfold qs; by rewrite length_imap|]. split; [|done]. cbn. apply Forall_lookup. intros c q Hq. unfold qs in Hq. rewrite list_lookup_imap in Hq.
  destruct (CPU_SCHEDULERS k !! c) as [q0|] eqn:Eq; [|done]. cbn [fmap option_fmap option_map] in Hq. injection Hq as <-.
  pose proof (proj1 (Forall_lookup _ _) HF c q0 Eq) as Hq0. destruct (decide _); [|done]. by apply (aged_sound q0 (cpu_id q0) (TICKS k) (fun i => c = O /\ i = current q0)).
Qed.

(** ** The calls *)

Lemma own_cpu_clamp cpu : clamp_cpu cpu = own_cpu cpu /\ (own_cpu cpu < 8)%nat.
Proof. unfold clamp_cpu, own_cpu, MAX_CPUS. destruct (Nat.ltb_spec cpu 8); case_decide; lia. Qed.

Lemma set_scheds_set (k : kernel A) qs qs' : set_scheds (set_scheds k qs) qs' = set_scheds k qs'.
Proof. done. Qed.

Lemma sound_set (k : kernel A) c s w h :
  sound k -> queue_sound s -> Pmm.fa_wf (fa w) -> sound (set_hw (set_world (set_scheds k (<[c := s]> (CPU_SCHEDULERS k))) w) h).
Proof. intros (Hl & HF & _) Hs Hw. destruct (queues_sound_insert (CPU_SCHEDULERS k) c s (conj Hl HF) Hs). done. Qed.

Lemma has_other_ready_spec s : has_other_ready s = true <-> exists i, i <> current s /\ ready_at s i.
Proof.
  unfold has_other_ready. rewrite existsb_exists. split.
  - intros ([i t] & Hin & H). apply list_elem_of_In, elem_of_lookup_imap in Hin as (j & u & [= -> ->] & Hj).
    apply andb_true_iff in H as [H1 H2]. apply negb_true_iff, Nat.eqb_neq in H1. apply is_state_true in H2. exists j. split; [done|]. by exists u.
  - intros (i & Hi & t & Ht & Hst). exists (i, t). split; [apply list_elem_of_In, elem_of_lookup_imap; by exists i, t|].
    cbn. apply andb_true_iff. split; [by apply negb_true_iff, Nat.eqb_neq|by apply is_state_true].
Qed.

(** The second half of a yield, on queues [qs]. *)
Lemma yield_rest (k : kernel A) qs cpu s1 :
  sound k -> queues_sound qs -> qs !! cpu = Some s1 ->
  exists sw s' h, ('(sw, k2) ← with_sched (set_scheds k qs) cpu yield_section; Ret (sw, apply_switch k2 cpu sw)) = Ret (sw, set_hw (set_scheds k (<[cpu := s']> qs)) h) /\
    switches (fun t => t) k cpu s1 sw s' h /\ sound (set_hw (set_scheds k (<[cpu := s']> qs)) h).
Proof.
  intros Hk Hqs Hs1. destruct (yield_section_switches k cpu s1) as (sw & s' & h & Ey & Hsw & Hs'); [by apply (proj1 (Forall_lookup _ _) (proj2 Hqs) cpu)|].
  exists sw, s', h. rewrite (with_sched_at (set_scheds k qs) cpu s1 _ _ _ Hs1 Ey). cbn [mbind outcome_bind]. rewrite set_scheds_set. cbn [CPU_SCHEDULERS set_scheds].
  erewrite (switches_apply _ k); [|exact Hsw|done|done]. split; [done|]. split; [done|].
  destruct (queues_sound_insert qs cpu s' Hqs Hs'). by destruct Hk as (_ & _ & ?).
Qed.

Lemma yield_performs (k : kernel A) cpu : sound k -> exists sw k', yield_now k cpu = Ret (sw, k') /\ performs k (KYield cpu) (ASwitch sw) k' /\ sound k'.
Proof.
  intros Hk. destruct (own_cpu_clamp cpu) as [Hcl Hlt]. unfold yield_now. rewrite Hcl. destruct (sound_queue k _ Hk Hlt) as (s & Hs & Hq).
  rewrite (at_Ret _ _ _ Hs). cbn [mbind outcome_bind].
  assert (Hqk : queues_sound (CPU_SCHEDULERS k)) by (by destruct Hk as (? & ? & _)).
  assert (Hbusy : ((length (tasks s) < 2)%nat \/ exists i, i <> current s /\ ready_at s i) -> exists sw k',
    ('(sw, k2) ← with_sched k (own_cpu cpu) yield_section; Ret (sw, apply_switch k2 (own_cpu cpu) sw)) = Ret (sw, k') /\ performs k (KYield cpu) (ASwitch sw) k' /\ sound k').
  { intros Hc. destruct (yield_rest k (CPU_SCHEDULERS k) (own_cpu cpu) s Hk Hqk Hs) as (sw & s' & h & E & Hsw & Hk'). rewrite set_scheds_id in E.
    exists sw, (set_hw (set_scheds k (<[own_cpu cpu := s']> (CPU_SCHEDULERS k))) h). split; [exact E|]. split; [|done]. by eapply yields_busy. }
  destruct (has_other_ready s) eqn:Eh; cbn [negb andb].
  { cbn [mbind outcome_bind]. apply Hbusy. right. by apply has_other_ready_spec. }
  destruct (Nat.ltb_spec 1 (length (tasks s))) as [H1|H1]; [|apply Hbusy; left; lia].
  destruct (try_steal_steals k _ Hk Hlt) as (b & qs & -> & Hst & Hqs). cbn [mbind outcome_bind].
  destruct (lookup_lt_is_Some_2 qs (own_cpu cpu)) as [s1 Hs1]; [destruct Hqs as [-> _]; lia|].
  destruct (yield_rest k qs (own_cpu cpu) s1 Hk Hqs Hs1) as (sw & s' & h & E & Hsw & Hk').
  exists sw, (set_hw (set_scheds k (<[own_cpu cpu := s']> qs)) h). split; [exact E|]. split; [|done].
  eapply yields_idle; try done. intros i Hi Hri. assert (has_other_ready s = true); [|congruence]. apply has_other_ready_spec. by exists i.
Qed.

Lemma reap_cpu_reaps (k : kernel A) cpu s :
  sound k -> (cpu < 8)%nat -> CPU_SCHEDULERS k !! cpu = Some s ->
  exists n w' s', reap_dead_tasks_on_cpu k cpu = Ret (n, set_world (set_scheds k (<[cpu := s']> (CPU_SCHEDULERS k))) w') /\
    reaps (kworld k) s n w' s' /\ queue_sound s' /\ Pmm.fa_wf (fa w') /\ KERNEL_CR3 w' = KERNEL_CR3 (kworld k).
Proof.
  intros Hk Hc Hs. pose proof Hk as (_ & HF & Hwf). destruct (reap_section_reaps (kworld k) s Hwf) as (n & w' & s' & E & Hr); [by apply (proj1 (Forall_lookup _ _) HF cpu)|].
  exists n, w', s'. split; [|done]. unfold reap_dead_tasks_on_cpu, MAX_CPUS. rewrite (proj2 (Nat.leb_gt _ _)) by done.
  erewrite (with_sched_at k cpu s _ (n, w') s' Hs); [done|]. by rewrite E.
Qed.

Lemma tick_performs (k : kernel A) cpu : sound k -> exists sw k', smp_timer_tick k cpu = Ret (sw, k') /\ performs k (KTick cpu) (ASwitch sw) k' /\ sound k'.
Proof.
  intros Hk. destruct (own_cpu_clamp cpu) as [Hcl Hlt]. unfold smp_timer_tick. rewrite Hcl. set (c := own_cpu cpu) in *.
  destruct (sound_queue k c Hk Hlt) as (s & Hs & Hq). pose proof Hk as (_ & _ & Hwf).
  set (s1 := mkSched (cpu_id s) (imap (fun i t => aged (TICKS k) (i = current s) t) (tasks s)) (current s) (u64_add (sticks s) 1)).
  assert (Hq1 : queue_sound s1) by (by apply (aged_sound s (cpu_id s) (TICKS k) (fun i => i = current s))).
  erewrite (with_sched_at k c s _ tt s1 Hs); [|by rewrite (smp_tick_section_aged (TICKS k) s (proj1 Hq))]. cbn [mbind outcome_bind].
  set (k1 := set_scheds k _). assert (Hk1 : sound k1) by (exact (sound_set k c s1 (kworld k) (hw k) Hk Hq1 Hwf)).
  assert (Hs1 : CPU_SCHEDULERS k1 !! c = Some s1) by (apply list_lookup_insert_eq; by eapply lookup_lt_Some).
  assert (exists n w' s2,
    (if TICKS k mod 25 =? 0 then '(_, k2) ← reap_dead_tasks_on_cpu k1 c; Ret k2 else Ret k1) = Ret (set_world (set_scheds k (<[c := s2]> (CPU_SCHEDULERS k))) w') /\
    (if decide (TICKS k mod 25 = 0) then reaps (kworld k) s1 n w' s2 else w' = kworld k /\ s2 = s1) /\
    queue_sound s2 /\ Pmm.fa_wf (fa w') /\ KERNEL_CR3 w' = KERNEL_CR3 (kworld k)) as (n & w' & s2 & -> & Hr & Hq2 & Hwf' & Hcr).
  { case_decide as Hd.
    - rewrite Hd. destruct (reap_cpu_reaps k1 c s1 Hk1 Hlt Hs1) as (n & w' & s2 & E & Hr & ? & ? & ?). exists n, w', s2. change (0 =? 0) with true. cbn iota. rewrite E.
      cbn [mbind outcome_bind]. cbn [k1 CPU_SCHEDULERS set_scheds]. by rewrite list_insert_insert_eq.
    - exists 0, (kworld k), s1. by rewrite (proj2 (Z.eqb_neq _ _) Hd). }
  cbn [mbind outcome_bind]. unfold preempt_schedule_on_cpu. destruct (preempt_section_preempts k c s2 Hq2) as (sw & s' & h & E & Hp & Hq').
  erewrite (with_sched_at _ c s2 _ sw s'); [|cbn; apply list_lookup_insert_eq; by eapply lookup_lt_Some|exact E]. cbn [mbind outcome_bind].
  erewrite (preempts_apply k); [|exact Hp|done|done]. cbn [CPU_SCHEDULERS set_scheds set_world]. rewrite list_insert_insert_eq.
  eexists sw, _. split; [reflexivity|]. change (set_scheds (set_world (set_scheds k ?a) w') ?b) with (set_world (set_scheds k b) w').
  split; [by eapply ticks_cpu|]. by apply sound_set.
Qed.

(** [mark_dead] on a queue: the first task of that number, or none of it. *)
Lemma mark_dead_none tid l : mark_dead tid l = None -> forall u, u ∈ l -> id u <> tid.
Proof.
  induction l as [|x l IH]; cbn [mark_dead]; intros H u Hu; [by apply elem_of_nil in Hu|].
  destruct (Z.eqb_spec (id x) tid); [done|]. destruct (mark_dead tid l); [done|]. apply elem_of_cons in Hu as [->|Hu]; [done|by apply IH].
Qed.

Lemma kill_loop_finds tid n : forall (k : kernel A) c,
  sound k -> (c + n <= 8)%nat -> (forall c' q u, (c' < c)%nat -> CPU_SCHEDULERS k !! c' = Some q -> u ∈ tasks q -> id u <> tid) ->
  (kill_loop k tid c n = Ret (None, k) /\ forall c' q u, (c' < c + n)%nat -> CPU_SCHEDULERS k !! c' = Some q -> u ∈ tasks q -> id u <> tid) \/
  exists cpu s i t, kill_loop k tid c n = Ret (Some cpu, set_scheds k (<[cpu := set_tasks s (<[i := set_state t Dead]> (tasks s))]> (CPU_SCHEDULERS k))) /\
    (cpu < c + n)%nat /\ CPU_SCHEDULERS k !! cpu = Some s /\ tasks s !! i = Some t /\ id t = tid /\
    (forall c' q u, (c' < cpu)%nat -> CPU_SCHEDULERS k !! c' = Some q -> u ∈ tasks q -> id u <> tid) /\
    (forall j u, (j < i)%nat -> tasks s !! j = Some u -> id u <> tid).
Proof.
  induction n as [|n IH]; intros k c Hk Hn Hno; cbn [kill_loop]; [left; rewrite Nat.add_0_r; done|].
  destruct (sound_queue k c Hk ltac:(lia)) as (s & Hs & Hq). destruct (mark_dead tid (tasks s)) as [l|] eqn:E.
  - right. destruct (mark_dead_spec _ _ _ E) as (i & t & Hi & Hid & Hmin & ->).
    erewrite (with_sched_at k c s _ true _ Hs); [|by rewrite E]. cbn [mbind outcome_bind]. exists c, s, i, t. split_and!; try done. lia.
  - erewrite (with_sched_same k c s _ false Hs); [|by rewrite E]. cbn [mbind outcome_bind].
    rewrite <- Nat.add_succ_comm. apply IH; [done|lia|]. intros c' q u Hc' Hqc Hu. destruct (decide (c' = c)) as [->|]; [|by apply (Hno c' q); [lia|..]].
    assert (q = s) as -> by congruence. by eapply mark_dead_none.
Qed.

Lemma kill_performs (k : kernel A) tid : sound k -> exists b k', kill_task k tid = Ret (b, k') /\ performs k (KKill tid) (ABool b) k' /\ sound k'.
Proof.
  intros Hk. pose proof Hk as (_ & HF & Hwf). unfold kill_task. assert (Hn : num_cpus k = Nat.max 1 (online k)) by (unfold num_cpus, online, MAX_CPUS; lia).
  rewrite Hn. destruct (kill_loop_finds tid (Nat.max 1 (online k)) k 0 Hk) as [[-> Hno]|(cpu & s & i & t & -> & Hc & Hs & Hi & <- & Hno & Hmin)]; [unfold online; lia|lia|..];
    cbn [mbind outcome_bind].
  { exists false, k. split; [done|]. split; [|done]. by constructor. }
  assert (Hlt : (cpu < 8)%nat) by (unfold online in Hc; lia). set (s1 := set_tasks s _).
  assert (Hq1 : queue_sound s1).
  { destruct (proj1 (Forall_lookup _ _) HF cpu s Hs) as [Hok HsF]. split.
    - apply (in_place_ok s); [|done]. apply (update_in_place s i (fun t => set_state t Dead)); [done|]. by rewrite (update_Ret _ _ _ _ Hi).
    - cbn. apply Forall_insert; [done|]. exact (proj1 (Forall_lookup _ _) HsF i t Hi). }
  set (k1 := set_scheds k _). assert (Hk1 : sound k1) by exact (sound_set k cpu s1 (kworld k) (hw k) Hk Hq1 Hwf).
  assert (Hs1 : CPU_SCHEDULERS k1 !! cpu = Some s1) by (apply list_lookup_insert_eq; by eapply lookup_lt_Some).
  destruct (reap_cpu_reaps k1 cpu s1 Hk1 Hlt Hs1) as (n & w' & s' & -> & Hr & Hq' & Hwf' & _). cbn [mbind outcome_bind].
  cbn [k1 CPU_SCHEDULERS set_scheds]. rewrite list_insert_insert_eq.
  exists true, (set_world (set_scheds k (<[cpu := s']> (CPU_SCHEDULERS k))) w'). split; [reflexivity|]. split; [by eapply kills|]. exact (sound_set k cpu s' w' (hw k) Hk Hq' Hwf').
Qed.

(** ** Spawning *)

Lemma choose_loop_least (k : kernel A) n : forall c best b,
  length (CPU_SCHEDULERS k) = 8%nat -> (c + n <= 8)%nat -> least_loaded (CPU_SCHEDULERS k) c best b ->
  exists cpu s, choose_loop k c n best (load b) = Ret cpu /\ least_loaded (CPU_SCHEDULERS k) (c + n) cpu s.
Proof.
  induction n as [|n IH]; intros c best b Hl Hn Hb; cbn [choose_loop]; [exists best, b; by rewrite Nat.add_0_r|].
  destruct (lookup_lt_is_Some_2 (CPU_SCHEDULERS k) c) as [s Hs]; [lia|]. rewrite (at_Ret _ _ _ Hs). cbn [mbind outcome_bind]. cbv zeta.
  destruct Hb as (Hbc & Hbest & Hmin). rewrite <- Nat.add_succ_comm.
  destruct (Z.ltb_spec (Z.of_nat (length (tasks s))) (load b)) as [Hlt|Hge].
  - assert (Hls : Z.of_nat (length (tasks s)) = load s) by (unfold load in *; lia). rewrite Hls in *. apply IH; [done|lia|].
    split; [lia|]. split; [done|]. intros c' s' Hc' Hs'. destruct (decide (c' = c)) as [->|]; [assert (s' = s) as -> by congruence; lia|].
    destruct (Hmin c' s' ltac:(lia) Hs'). lia.
  - apply IH; [done|lia|]. split; [lia|]. split; [done|]. intros c' s' Hc' Hs'. destruct (decide (c' = c)) as [->|]; [|apply Hmin; [lia|done]].
    assert (s' = s) as -> by congruence. unfold load in *. lia.
Qed.

Lemma choose_target_least (k : kernel A) :
  length (CPU_SCHEDULERS k) = 8%nat ->
  exists cpu s, choose_target_cpu k = Ret cpu /\ least_loaded (CPU_SCHEDULERS k) (Nat.max 1 (online k)) cpu s.
Proof.
  intros Hl. destruct (lookup_lt_is_Some_2 (CPU_SCHEDULERS k) 0) as [s0 Hs0]; [lia|].
  assert (H1 : least_loaded (CPU_SCHEDULERS k) 1 0 s0).
  { split; [lia|]. split; [done|]. intros c' s' Hc' Hs'. assert (c' = O) as -> by lia. assert (s' = s0) as -> by congruence. lia. }
  unfold choose_target_cpu. destruct (Nat.leb_spec (cpu_count k) 1) as [Hc|Hc].
  { exists O, s0. split; [done|]. replace (Nat.max 1 (online k)) with 1%nat by (unfold online; lia). done. }
  replace (Nat.min (cpu_count k) MAX_CPUS) with (S (Nat.min (cpu_count k) 8 - 1)) by (unfold MAX_CPUS; lia). cbn [choose_loop].
  rewrite (at_Ret _ _ _ Hs0). cbn [mbind outcome_bind]. cbv zeta.
  destruct (choose_loop_least k (Nat.min (cpu_count k) 8 - 1) 1 0 s0 Hl ltac:(lia) H1) as (cpu & s & E & Hcpu).
  exists cpu, s. replace (Nat.max 1 (online k)) with (1 + (Nat.min (cpu_count k) 8 - 1))%nat by (unfold online; lia). split; [|done]. rewrite <- E.
  unfold load. destruct (Z.ltb_spec (Z.of_nat (length (tasks s0))) u64_max); [by rewrite Z.min_l by lia|by rewrite Z.min_r by lia].
Qed.

Lemma spawn_performs (k : kernel A) c make :
  sound k -> (forall t m, make (mem (kworld k)) (NEXT_TASK_ID k) = (t, m) -> asks k c t (set_mem (kworld k) m) /\ state t = Ready /\ Forall Pmm.is_frame (owned t)) ->
  exists k', spawn_with make k = Ret (NEXT_TASK_ID k, k') /\ performs k c (ATid (NEXT_TASK_ID k)) k' /\ sound k'.
Proof.
  intros Hk Hm. pose proof Hk as (Hl & HF & Hwf). unfold spawn_with. cbn [next_id kworld]. destruct (make _ _) as [t m]. destruct (Hm t m eq_refl) as (Ha & Hst & Ho).
  set (k1 := set_world _ _). destruct (choose_target_least k1 Hl) as (cpu & s & -> & Hcpu). cbn [mbind outcome_bind].
  change (CPU_SCHEDULERS k1) with (CPU_SCHEDULERS k) in Hcpu. change (online k1) with (online k) in Hcpu. pose proof Hcpu as (Hlt & Hs & _).
  rewrite (with_sched_at k1 cpu s _ tt (push_task s t) Hs eq_refl). cbn [mbind outcome_bind]. eexists. split; [reflexivity|].
  split; [by apply (spawns k c t (set_mem (kworld k) m) cpu s)|].
  destruct (proj1 (Forall_lookup _ _) HF cpu s Hs) as [Hok HsF].
  assert (Hq : queue_sound (push_task s t)) by (split; [apply push_ok; [done|by rewrite Hst]|cbn; apply Forall_app; split; [done|by constructor]]).
  destruct (queues_sound_insert (CPU_SCHEDULERS k) cpu _ (conj Hl HF) Hq). done.
Qed.

(** C13: the scheduler calls do what they promise.  In a kernel with its eight queues in order
    every call (a yield, a steal, a tick of either timer, a kill, a reap, any of the three
    spawns) returns, its answer and the kernel it leaves are those of the specification, and
    that kernel is in order again, so the same holds of the next call.  No other CPU is
    assumed to come in between the critical sections of one call. *)
Theorem scheduler_calls_correct (k : kernel A) c :
  sound k -> call_ok c -> exists a k', call k c = Ret (a, k') /\ performs k c a k' /\ sound k'.
Proof.
  intros Hk Hc. destruct c as [cpu|cpu| |tid|cpu|cpu|name entry base|tr name entry us cr base|tr name entry us sp base]; cbn [call call_ok] in *.
  - destruct (yield_performs k cpu Hk) as (sw & k' & -> & ? & ?). by exists (ASwitch sw), k'.
  - destruct (tick_performs k cpu Hk) as (sw & k' & -> & ? & ?). by exists (ASwitch sw), k'.
  - destruct (timer_tick_performs k Hk) as (k' & -> & ? & ?). by exists ANone, k'.
  - destruct (kill_performs k tid Hk) as (b & k' & -> & ? & ?). by exists (ABool b), k'.
  - destruct (decide (cpu < 8)%nat) as [Hlt|Hge].
    + destruct (sound_queue k cpu Hk Hlt) as (s & Hs & _). destruct (reap_cpu_reaps k cpu s Hk Hlt Hs) as (n & w' & s' & -> & Hr & Hq & Hwf & _).
      exists (ACount n). eexists. split; [reflexivity|]. split; [by eapply reaps_cpu|]. exact (sound_set k cpu s' w' (hw k) Hk Hq Hwf).
    + exists (ACount 0), k. unfold reap_dead_tasks_on_cpu, MAX_CPUS. rewrite (proj2 (Nat.leb_le _ _)) by lia. split; [done|]. split; [|done]. constructor. lia.
  - destruct (try_steal_steals k cpu Hk Hc) as (b & qs & -> & Hst & Hl & HF). exists (ABool b), (set_scheds k qs).
    split; [done|]. split; [by constructor|]. by destruct Hk as (_ & _ & ?).
  - destruct (spawn_performs k (KSpawn name entry base) (fun m tid => task_new m tid name entry base) Hk) as (k' & E & ? & ?).
    { intros t m. unfold task_new. destruct (Context.init_frame _ _ _) as [m' r] eqn:E. intros [= <- <-]. split; [by exists r|done]. }
    unfold spawn. rewrite E. eexists _, k'. split; [reflexivity|done].
  - destruct (spawn_performs k (KSpawnUser tr name entry us cr base) (fun m tid => task_new_user m tr tid name entry us cr base) Hk) as (k' & E & ? & ?).
    { intros t m. unfold task_new_user. destruct (Context.init_frame _ _ _) as [m' r] eqn:E. intros [= <- <-]. split; [by exists r|done]. }
    unfold spawn_user. rewrite E. eexists _, k'. split; [reflexivity|done].
  - destruct (spawn_performs k (KSpawnSpace tr name entry us sp base) (fun m tid => task_new_user_with_space m tr tid name entry us sp base) Hk) as (k' & E & ? & ?).
    { intros t m. unfold task_new_user_with_space, task_new_user. destruct (Context.init_frame _ _ _) as [m' r] eqn:E. intros [= <- <-]. split; [by exists r|done]. }
    unfold spawn_user_with_space. rewrite E. eexists _, k'. split; [reflexivity|done].
Qed.

End Spec.

(** Two CPUs online: the first has a shell and two ready workers, the second a lone task beside a
    sleeper; a yield there steals the first worker and runs it. *)
Definition busy_kernel : kernel Pmm.Pmm :=
  mkKernel ([mkSched 0 [root "kernel-shell"; worker 1; worker 2] 0 0; mkSched 1 [root_for_cpu 1 (ap_name 1); set_state (worker 3) (Sleeping 99)] 0 0] ++ (sched_new <$> seq 2 6))
    4 2 25 PageTree.demo_world (mkHw 0 0 (replicate 8 0) (replicate 8 0) (replicate 8 0)).

Lemma busy_sound : sound busy_kernel.
Proof.
  split; [done|]. split; [|apply PageTree.demo_wf]. repeat (apply Forall_cons; split); try apply Forall_nil_2; (split; [split; [cbn; first [left; lia|right; done]|]|repeat constructor]);
    intros [|[|[|i]]] t Ht Hst; cbn in Ht; try done; injection Ht as <-; done.
Qed.

Lemma scheduler_calls_correct_witness :
  exists a k' s, call busy_kernel (KYield 1) = Ret (a, k') /\ performs busy_kernel (KYield 1) a k' /\
    CPU_SCHEDULERS k' !! 1%nat = Some s /\ (id <$> tasks s) = [1001; 3; 1] /\ current s = 2%nat.
Proof.
  destruct (scheduler_calls_correct busy_kernel (KYield 1) busy_sound I) as (a & k' & E & Hp & _).
  assert (E2 : exists a2 k2 s, call busy_kernel (KYield 1) = Ret (a2, k2) /\ CPU_SCHEDULERS k2 !! 1%nat = Some s /\ (id <$> tasks s) = [1001; 3; 1] /\ current s = 2%nat)
    by (eexists _, _, _; split; [reflexivity|]; split; [reflexivity|]; split; reflexivity).
  destruct E2 as (a2 & k2 & s & E2 & Hs). rewrite E2 in E. injection E as <- <-.
  exists a2, k2, s. split; [exact E2|]. split; [exact Hp|exact Hs].
Defined.

End Calls.
