(* ===== verification/Sleep.v ===== *)
(** * Sleeping tasks (src/src/task/mod.rs: [sleep_ticks], [sleep_ms] and the entries that use them)

    The loop of a sleeping task as a relation: between two looks at its state every
    other task, every other processor and the timer may run.  The loop ends at its
    first look at or after the deadline and never before; the timer wakes the sleepers
    of every processor that is online.  Then the entries of the kernel's own tasks and
    the idle loop of the application processors. *)

From stdpp Require Import prelude numbers list relations strings gmap.
From Stdlib Require Import ZifyBool.
From S2P Require Import Prelude Text Bytes Pmm Paging UserSpace PageTree Context Task Sched Smp.
Import Bytes Text UserSpace Task Sched Smp.

Module Sleep.

(** ** What the scheduler may do to the state of a task
    A call at tick [now] that kills [victim]: the state stays, or a task that is awake, due
    or killed has a state other than sleep. *)
Definition asleep (t : Task) : bool := match state t with Sleeping _ => true | _ => false end.
Definition sstep (now : Z) (victim : option Z) (t t' : Task) : Prop :=
  id t' = id t /\ (state t' = state t \/ (asleep t' = false /\ (asleep t = false \/ (exists x, state t = Sleeping x /\ x <= now) \/ victim = Some (id t)))).
Definition flows (now : Z) (victim : option Z) (l l' : list Task) : Prop := forall t', t' ∈ l' -> exists t, t ∈ l /\ sstep now victim t t'.

Lemma sstep_refl now v t : sstep now v t t.
Proof. split; [done|by left]. Qed.
Lemma sstep_trans now v t1 t2 t3 : sstep now v t1 t2 -> sstep now v t2 t3 -> sstep now v t1 t3.
Proof.
  intros [I1 H1] [I2 H2]. split; [congruence|]. destruct H2 as [E2|[A2 H2]]; [destruct H1 as [E1|[A1 H1]]; [left; congruence|right; split; [unfold asleep in *; by rewrite E2|done]]|].
  right. split; [done|]. destruct H1 as [E1|[_ H1]]; [|done]. unfold asleep in *. rewrite E1, I1 in H2. done.
Qed.
Lemma flows_refl now v l : flows now v l l.
Proof. intros t Ht. exists t. split; [done|apply sstep_refl]. Qed.
Lemma flows_sub now v l l' : (forall t, t ∈ l' -> t ∈ l) -> flows now v l l'.
Proof. intros H t Ht. exists t. split; [auto|apply sstep_refl]. Qed.
Lemma flows_trans now v l1 l2 l3 : flows now v l1 l2 -> flows now v l2 l3 -> flows now v l1 l3.
Proof. intros H1 H2 t3 Ht3. destruct (H2 t3 Ht3) as (t2 & Ht2 & S2). destruct (H1 t2 Ht2) as (t1 & Ht1 & S1). exists t1. split; [done|by eapply sstep_trans]. Qed.
Lemma flows_fmap now v f l : (forall t, sstep now v t (f t)) -> flows now v l (f <$> l).
Proof. intros Hf t' Ht'. apply list_elem_of_fmap in Ht' as (t & -> & Ht). by exists t. Qed.
Lemma flows_update now v l i f l' : (forall t, l !! i = Some t -> sstep now v t (f t)) -> update l i f = Ret l' -> flows now v l l'.
Proof.
  unfold update. intros Hf. destruct (at_ l i) as [t| |] eqn:E; cbn [mbind outcome_bind]; [|done..]. apply at_inv in E. intros [= <-] t' Ht'.
  apply list_elem_of_lookup in Ht' as [j Hj]. destruct (decide (i = j)) as [<-|Hne].
  - rewrite list_lookup_insert_eq in Hj by (by eapply lookup_lt_Some). injection Hj as <-. exists t. split; [by eapply list_elem_of_lookup_2|by apply Hf].
  - rewrite list_lookup_insert_ne in Hj by done. exists t'. split; [by eapply list_elem_of_lookup_2|apply sstep_refl].
Qed.

(** ** Sections of one queue *)
Lemma pick_scan_ready s total n : forall i idx, pick_scan s total i n = Ret (Some idx) -> ready_at s idx.
Proof.
  induction n as [|n IH]; intros i idx; cbn [pick_scan]; [done|]. destruct (at_ _ _) as [t| |] eqn:E; cbn [mbind outcome_bind]; [|done..].
  apply at_inv in E. destruct (is_state (state t) Ready) eqn:Es; [|apply IH]. intros [= <-]. apply is_state_true in Es. by exists t.
Qed.
Lemma pick_next_ready s idx : pick_next s = Ret (Some idx) -> idx <> current s -> ready_at s idx.
Proof.
  unfold pick_next. destruct (tasks s) as [|a l] eqn:E; [done|]. destruct (pick_scan _ _ _ _) as [[j|]| |] eqn:Ep; cbn [mbind outcome_bind]; [|..|done|done].
  - intros [= <-] _. by eapply pick_scan_ready.
  - destruct (at_ _ _) as [t| |]; cbn [mbind outcome_bind]; [|done..]. destruct (_ || _)%bool; [|done]. by intros [= <-].
Qed.
Lemma hand_over_flows now v wk s i sw s' : (forall t, sstep now v t (wk t)) -> i <> current s -> ready_at s i -> hand_over wk s (current s) i = Ret (sw, s') -> flows now v (tasks s) (tasks s').
Proof.
  intros Hwk Hne (ti & Hti & Hr). unfold hand_over. destruct (update (tasks s) _ _) as [l1| |] eqn:E1; cbn [mbind outcome_bind]; [|done..].
  destruct (update l1 i _) as [l2| |] eqn:E2; cbn [mbind outcome_bind]; [|done..]. destruct (at_ l2 i); cbn [mbind outcome_bind]; [|done..]. intros [= _ <-]. cbn [tasks set_current set_tasks].
  eapply flows_trans.
  - eapply flows_update; [|exact E1]. intros t _. cbv beta. destruct (is_state (state t) Running) eqn:Er; [|apply sstep_refl]. apply is_state_true in Er.
    split; [done|]. right. split; [done|]. left. unfold asleep. by rewrite Er.
  - eapply flows_update; [|exact E2]. intros t Ht. cbv beta. assert (t = ti) as ->.
    { unfold update in E1. destruct (at_ (tasks s) _) as [c| |]; cbn [mbind outcome_bind] in E1; [|done..]. injection E1 as <-. rewrite list_lookup_insert_ne in Ht by done. congruence. }
    eapply sstep_trans; [|apply Hwk]. split; [done|]. right. split; [done|]. left. unfold asleep. by rewrite Hr.
Qed.
Lemma reset_sstep now v t : sstep now v t (reset_quantum t).
Proof. split; [done|by left]. Qed.
Lemma yield_flows now v s o s' : yield_section s = Ret (o, s') -> flows now v (tasks s) (tasks s').
Proof.
  unfold yield_section. destruct (Nat.ltb _ _); [intros [= _ <-]; apply flows_refl|]. destruct (pick_next s) as [[j|]| |] eqn:E; cbn [mbind outcome_bind]; [|intros [= _ <-]; apply flows_refl|done..].
  destruct (Nat.eqb_spec j (current s)) as [->|Hne]; [intros [= _ <-]; apply flows_refl|]. destruct (hand_over _ _ _ _) as [[sw s1]| |] eqn:Eh; cbn [mbind outcome_bind]; [|done..].
  intros [= _ <-]. eapply hand_over_flows; [|exact Hne| |exact Eh]; [apply sstep_refl|by eapply pick_next_ready].
Qed.
Lemma preempt_flows now v s o s' : preempt_section s = Ret (o, s') -> flows now v (tasks s) (tasks s').
Proof.
  unfold preempt_section. destruct (Nat.ltb _ _); [intros [= _ <-]; apply flows_refl|]. destruct (Nat.leb _ _); [intros [= _ <-]; apply flows_refl|].
  destruct (at_ _ _) as [t| |]; cbn [mbind outcome_bind]; [|done..]. destruct (0 <? _); [intros [= _ <-]; apply flows_refl|].
  destruct (update _ _ _) as [l| |] eqn:Eu; cbn [mbind outcome_bind]; [|done..]. assert (H1 : flows now v (tasks s) l) by (eapply flows_update; [|exact Eu]; intros; apply reset_sstep).
  destruct (pick_next _) as [[j|]| |] eqn:E; cbn [mbind outcome_bind]; [|intros [= _ <-]; exact H1|done..].
  destruct (Nat.eqb_spec j (current s)) as [->|Hne]; [intros [= _ <-]; exact H1|]. destruct (hand_over _ _ _ _) as [[sw s1]| |] eqn:Eh; cbn [mbind outcome_bind]; [|done..].
  intros [= _ <-]. eapply flows_trans; [exact H1|]. change l with (tasks (set_tasks s l)). eapply hand_over_flows; [|exact Hne| |exact Eh]; [apply reset_sstep|by eapply pick_next_ready].
Qed.
Lemma wake_sstep now v t : sstep now v t (wake now t).
Proof.
  unfold wake. destruct (state t) as [| |w|] eqn:E; try apply sstep_refl. destruct (Z.leb_spec w now); [|apply sstep_refl].
  split; [done|]. right. split; [done|]. right. left. by exists w.
Qed.
Lemma charge_flows now v s s' : charge_current s = Ret s' -> flows now v (tasks s) (tasks s').
Proof.
  unfold charge_current. destruct (Nat.ltb _ _); [|intros [= <-]; apply flows_refl]. destruct (update _ _ _) as [l| |] eqn:E; cbn [mbind outcome_bind]; [|done..].
  intros [= <-]. eapply flows_update; [|exact E]. intros t _. split; [done|by left].
Qed.
Lemma tick_flows now v s s' : smp_tick_section now s = Ret s' -> flows now v (tasks s) (tasks s').
Proof.
  unfold smp_tick_section. set (s0 := mkSched _ _ _ _). assert (tasks s = tasks s0) as -> by done. destruct (tasks s0) eqn:E; [intros [= <-]; rewrite E; apply flows_refl|].
  destruct (charge_current s0) as [s1| |] eqn:Ec; cbn [mbind outcome_bind]; [|done..]. intros [= <-]. eapply flows_trans; [rewrite <- E; by eapply charge_flows|].
  apply flows_fmap, wake_sstep.
Qed.
Lemma kill_flows now tid l l' : mark_dead tid l = Some l' -> flows now (Some tid) l l'.
Proof.
  intros H. destruct (mark_dead_spec _ _ _ H) as (i & t & Hi & Hid & _ & ->). eapply (flows_update _ _ l i (fun u => set_state u Dead)).
  - intros u Hu. split; [done|]. right. split; [done|]. right. right. assert (u = t) as -> by congruence. by rewrite Hid.
  - by rewrite (update_Ret _ _ _ _ Hi).
Qed.
Lemma delete_flows now v (l : list Task) i : flows now v l (delete i l).
Proof. apply flows_sub. intros t Ht. apply list_elem_of_lookup in Ht as [j Hj]. rewrite list_lookup_delete in Hj. case_decide; by eapply list_elem_of_lookup_2. Qed.
Lemma remove_at_inv (l : list Task) i t l' : remove_at l i = Ret (t, l') -> l !! i = Some t /\ l' = delete i l.
Proof. unfold remove_at. destruct (at_ l i) as [x| |] eqn:E; cbn [mbind outcome_bind]; [|done..]. apply at_inv in E. by intros [= <- <-]. Qed.

Section Kernel.
Context {A : Type} `{FA : Pmm.FrameAllocator A}.

Lemma reap_flows now v fuel : forall (w : world A) s i n r w' s', reap_loop fuel w s i n = Ret (r, w', s') -> flows now v (tasks s) (tasks s').
Proof.
  induction fuel as [|fuel IH]; intros w s i n r w' s'; cbn [reap_loop].
  - destruct (Nat.ltb _ _); [done|]. intros [= _ _ <-]. apply flows_refl.
  - destruct (Nat.ltb _ _); [|intros [= _ _ <-]; apply flows_refl]. destruct (Nat.eqb _ _); [apply IH|]. destruct (at_ _ _) as [t| |]; cbn [mbind outcome_bind]; [|done..].
    destruct (is_state _ _); [|apply IH]. destruct (remove_at _ _) as [[t1 l]| |] eqn:Er; cbn [mbind outcome_bind]; [|done..]. apply remove_at_inv in Er as [_ ->].
    destruct (drop_task w t1) as [w1| |]; cbn [mbind outcome_bind]; [|done..]. intros H. apply IH in H. cbn [tasks set_current set_tasks] in H. eapply flows_trans; [apply delete_flows|exact H].
Qed.
Lemma steal_flows now v q o q' : steal_section q = Ret (o, q') -> flows now v (tasks q) (tasks q') /\ forall t, o = Some t -> t ∈ tasks q /\ asleep t = false.
Proof.
  unfold steal_section. destruct (Nat.ltb _ _); [|by intros [= <- <-]; split; [apply flows_refl|]]. destruct (steal_idx _ _ _) as [i|] eqn:Ei; [|by intros [= <- <-]; split; [apply flows_refl|]].
  destruct (steal_idx_spec _ _ _ _ Ei) as (u & _ & Hu & _ & _ & Hr & _). rewrite Nat.sub_0_r in Hu.
  destruct (remove_at _ _) as [[t l]| |] eqn:Er; cbn [mbind outcome_bind]; [|done..]. apply remove_at_inv in Er as [Ht ->]. intros [= <- <-].
  split; [apply delete_flows|]. intros ? [= <-]. split; [by eapply list_elem_of_lookup_2|]. assert (t = u) as -> by congruence. unfold asleep. by rewrite Hr.
Qed.

(** ** Calls of the kernel *)
(** Task [t] is in the queue of CPU [c]. *)
Definition on (k : kernel A) (c : nat) (t : Task) : Prop := exists q, CPU_SCHEDULERS k !! c = Some q /\ t ∈ tasks q.
(** The tasks flow, and one that changes its CPU is not asleep. *)
Definition comes_from (v : option Z) (k : kernel A) (c : nat) (t' : Task) : Prop := exists c0 t, on k c0 t /\ sstep (TICKS k) v t t' /\ (c0 = c \/ asleep t' = false).
Definition kflows (v : option Z) (k k' : kernel A) : Prop := TICKS k' = TICKS k /\ forall c t', on k' c t' -> comes_from v k c t'.
Lemma comes_same v k c t : on k c t -> comes_from v k c t.
Proof. intros H. exists c, t. split; [done|]. split; [apply sstep_refl|by left]. Qed.
Lemma kflows_refl v k : kflows v k k.
Proof. split; [done|]. intros c t. apply comes_same. Qed.
Lemma sstep_awake now v t t' : sstep now v t t' -> asleep t = false -> asleep t' = false.
Proof. intros [_ [E|[A' _]]] Ha; [|done]. unfold asleep in *. by rewrite E. Qed.
Lemma kflows_trans v k1 k2 k3 : kflows v k1 k2 -> kflows v k2 k3 -> kflows v k1 k3.
Proof.
  intros [T1 F1] [T2 F2]. split; [congruence|]. intros c t3 H3. destruct (F2 c t3 H3) as (c2 & t2 & H2 & S2 & L2). destruct (F1 c2 t2 H2) as (c1 & t1 & H1 & S1 & L1). rewrite T1 in S2.
  exists c1, t1. split; [done|]. split; [by eapply sstep_trans|]. destruct L2 as [->|]; [|by right]. destruct L1 as [->|]; [by left|]. right. by eapply sstep_awake.
Qed.
(** A section that only touches the tasks of its queue. *)
Lemma with_sched_own {B} v (k : kernel A) cpu (f : CpuScheduler -> outcome (B * CpuScheduler)) b k' :
  with_sched k cpu f = Ret (b, k') -> (forall s b s', f s = Ret (b, s') -> flows (TICKS k) v (tasks s) (tasks s')) -> kflows v k k'.
Proof.
  unfold with_sched. intros H Hf. destruct (at_ _ cpu) as [s| |] eqn:E; cbn [mbind outcome_bind] in H; [|done..]. apply at_inv in E.
  destruct (f s) as [[b1 s1]| |] eqn:E1; cbn [mbind outcome_bind] in H; [|done..]. injection H as <- <-. split; [done|]. intros c t' (q & Hc & Ht').
  cbn [CPU_SCHEDULERS set_scheds] in Hc. destruct (decide (cpu = c)) as [<-|Hne].
  - rewrite list_lookup_insert_eq in Hc by (by eapply lookup_lt_Some). injection Hc as <-. destruct (Hf s b1 s1 E1 t' Ht') as (t & Ht & Hst).
    exists cpu, t. split; [by exists s|]. split; [done|by left].
  - rewrite list_lookup_insert_ne in Hc by done. apply comes_same. by exists q.
Qed.
Lemma apply_switch_kflows v k cpu sw : kflows v k (apply_switch k cpu sw).
Proof.
  assert (CPU_SCHEDULERS (apply_switch k cpu sw) = CPU_SCHEDULERS k /\ TICKS (apply_switch k cpu sw) = TICKS k) as [H1 H2].
  { destruct sw as [x|]; [|done]. cbn. unfold on_context_switch. destruct (sw_user x); [done|]. by destruct (negb _). }
  split; [done|]. intros c t (q & Hq & Ht). rewrite H1 in Hq. apply comes_same. by exists q.
Qed.
Lemma steal_loop_kflows v n : forall k my num off b k', steal_loop k my num off n = Ret (b, k') -> kflows v k k'.
Proof.
  induction n as [|n IH]; intros k my num off b k'; cbn [steal_loop]; [intros [= _ <-]; apply kflows_refl|]. cbv zeta.
  destruct (with_sched k _ _) as [[o k1]| |] eqn:E; cbn [mbind outcome_bind]; [|done..].
  assert (H1 : kflows v k k1) by (eapply with_sched_own; [exact E|]; intros s b1 s' Hs; by apply (steal_flows (TICKS k) v) in Hs as [? _]).
  destruct o as [t|]; [|intros H; eapply kflows_trans; [exact H1|by eapply IH]]. destruct (with_sched k1 _ _) as [[u k2]| |] eqn:E2; cbn [mbind outcome_bind]; [|done..]. intros [= _ <-].
  assert (Ht : exists c, on k c t /\ asleep t = false).
  { unfold with_sched in E. destruct (at_ _ _) as [q| |] eqn:Eq; cbn [mbind outcome_bind] in E; [|done..]. apply at_inv in Eq. destruct (steal_section q) as [[o q']| |] eqn:Es; cbn [mbind outcome_bind] in E; [|done..].
    injection E as -> <-. apply (steal_flows 0 None) in Es as [_ Hs]. destruct (Hs t eq_refl). eexists. split; [eexists; split; [exact Eq|done]|done]. }
  unfold with_sched in E2. destruct (at_ _ my) as [q| |] eqn:Eq; cbn [mbind outcome_bind] in E2; [|done..]. apply at_inv in Eq. injection E2 as _ <-. destruct H1 as [T1 F1].
  split; [done|]. intros c t' (q2 & Hc & Ht'). cbn [CPU_SCHEDULERS set_scheds] in Hc. destruct (decide (my = c)) as [<-|Hne].
  - rewrite list_lookup_insert_eq in Hc by (by eapply lookup_lt_Some). injection Hc as <-. cbn [tasks push_task set_tasks] in Ht'. apply elem_of_app in Ht' as [Ht'|Ht'].
    + apply F1. by exists q.
    + apply list_elem_of_singleton in Ht' as ->. destruct Ht as (c & Ht & Ha). exists c, t. split; [done|]. split; [apply reset_sstep|by right].
  - rewrite list_lookup_insert_ne in Hc by done. apply F1. by exists q2.
Qed.
Lemma yield_now_kflows v k cpu sw k' : yield_now k cpu = Ret (sw, k') -> kflows v k k'.
Proof.
  unfold yield_now. destruct (at_ _ _) as [s| |]; cbn [mbind outcome_bind]; [|done..].
  destruct (if (_ && _)%bool then _ else _) as [k1| |] eqn:E1; cbn [mbind outcome_bind]; [|done..].
  assert (H1 : kflows v k k1).
  { destruct (_ && _)%bool; [|injection E1 as <-; apply kflows_refl]. unfold try_steal_task in E1. destruct (Nat.leb _ _); [injection E1 as <-; apply kflows_refl|].
    destruct (steal_loop _ _ _ _ _) as [[b k2]| |] eqn:E; cbn [mbind outcome_bind] in E1; [|done..]. injection E1 as <-. by eapply steal_loop_kflows. }
  destruct (with_sched k1 _ _) as [[o k2]| |] eqn:E2; cbn [mbind outcome_bind]; [|done..]. intros [= _ <-].
  eapply kflows_trans; [exact H1|]. eapply kflows_trans; [eapply with_sched_own; [exact E2|]; intros; by eapply yield_flows|apply apply_switch_kflows].
Qed.
Lemma reap_kflows v k cpu n k' : reap_dead_tasks_on_cpu k cpu = Ret (n, k') -> kflows v k k'.
Proof.
  unfold reap_dead_tasks_on_cpu. destruct (Nat.leb _ _); [intros [= _ <-]; apply kflows_refl|]. destruct (with_sched _ _ _) as [[[n1 w1] k1]| |] eqn:E; cbn [mbind outcome_bind]; [|done..].
  intros [= _ <-]. eapply (with_sched_own _ _ _ _ _ k1); [exact E|]. cbv beta. intros s b s'. destruct (reap_section _ _) as [[[n2 w2] s2]| |] eqn:E2; cbn [mbind outcome_bind]; [|done..].
  intros [= _ <-]. by eapply reap_flows.
Qed.
Lemma preempt_kflows v k cpu sw k' : preempt_schedule_on_cpu k cpu = Ret (sw, k') -> kflows v k k'.
Proof.
  unfold preempt_schedule_on_cpu. destruct (with_sched _ _ _) as [[o k1]| |] eqn:E; cbn [mbind outcome_bind]; [|done..]. intros [= _ <-].
  eapply kflows_trans; [eapply with_sched_own; [exact E|]; intros; by eapply preempt_flows|apply apply_switch_kflows].
Qed.
Lemma smp_timer_kflows v k cpu sw k' : smp_timer_tick k cpu = Ret (sw, k') -> kflows v k k'.
Proof.
  unfold smp_timer_tick. destruct (with_sched _ _ _) as [[u k1]| |] eqn:E; cbn [mbind outcome_bind]; [|done..].
  assert (H1 : kflows v k k1).
  { eapply with_sched_own; [exact E|]. cbv beta. intros s b s'. destruct (smp_tick_section _ _) as [s1| |] eqn:E1; cbn [mbind outcome_bind]; [|done..]. intros [= _ <-]. by eapply tick_flows. }
  destruct (_ =? 0); cbn [mbind outcome_bind].
  - destruct (reap_dead_tasks_on_cpu k1 _) as [[n k2]| |] eqn:E2; cbn [mbind outcome_bind]; [|done..]. intros H.
    eapply kflows_trans; [exact H1|]. eapply kflows_trans; [by eapply reap_kflows|by eapply preempt_kflows].
  - intros H. eapply kflows_trans; [exact H1|by eapply preempt_kflows].
Qed.
Lemma wake_cpus_kflows v n : forall k cpu k', wake_cpus k cpu n = Ret k' -> kflows v k k'.
Proof.
  induction n as [|n IH]; intros k cpu k'; cbn [wake_cpus]; [intros [= <-]; apply kflows_refl|]. destruct (with_sched _ _ _) as [[u k1]| |] eqn:E; cbn [mbind outcome_bind]; [|done..].
  intros H. eapply kflows_trans; [eapply with_sched_own; [exact E|]; cbv beta; intros s b s' [= _ <-]; apply flows_fmap, wake_sstep|by eapply IH].
Qed.
Lemma timer_kflows v k k' : timer_tick k = Ret k' -> kflows v k k'.
Proof.
  unfold timer_tick. destruct (wake_cpus _ _ _) as [k1| |] eqn:E; cbn [mbind outcome_bind]; [|done..]. destruct (with_sched _ _ _) as [[u k2]| |] eqn:E2; cbn [mbind outcome_bind]; [|done..].
  intros [= <-]. eapply kflows_trans; [by eapply wake_cpus_kflows|]. eapply with_sched_own; [exact E2|]. cbv beta. intros s b s'.
  destruct (charge_current s) as [s1| |] eqn:E3; cbn [mbind outcome_bind]; [|done..]. intros [= _ <-]. by eapply charge_flows.
Qed.
Lemma kill_loop_kflows tid n : forall k cpu o k', kill_loop k tid cpu n = Ret (o, k') -> kflows (Some tid) k k'.
Proof.
  induction n as [|n IH]; intros k cpu o k'; cbn [kill_loop]; [intros [= _ <-]; apply kflows_refl|]. destruct (with_sched _ _ _) as [[b k1]| |] eqn:E; cbn [mbind outcome_bind]; [|done..].
  assert (H1 : kflows (Some tid) k k1).
  { eapply with_sched_own; [exact E|]. cbv beta. intros s b1 s'. destruct (mark_dead _ _) as [l|] eqn:Em; intros [= _ <-]; [by eapply kill_flows|apply flows_refl]. }
  destruct b; [intros [= _ <-]; exact H1|]. intros H. eapply kflows_trans; [exact H1|by eapply IH].
Qed.
Lemma kill_task_kflows k tid b k' : kill_task k tid = Ret (b, k') -> kflows (Some tid) k k'.
Proof.
  unfold kill_task. destruct (kill_loop _ _ _ _) as [[o k1]| |] eqn:E; cbn [mbind outcome_bind]; [|done..]. apply kill_loop_kflows in E. destruct o as [cpu|]; [|by intros [= _ <-]].
  destruct (reap_dead_tasks_on_cpu k1 cpu) as [[n k2]| |] eqn:E2; cbn [mbind outcome_bind]; [|done..]. intros [= _ <-]. eapply kflows_trans; [exact E|by eapply reap_kflows].
Qed.
Lemma spawn_fresh make k tid k' : (forall m n, id (make m n).1 = n) -> spawn_with (A := A) make k = Ret (tid, k') -> TICKS k' = TICKS k /\ forall c t', on k' c t' -> on k c t' \/ id t' = NEXT_TASK_ID k.
Proof.
  intros Hmk. unfold spawn_with. cbn [next_id kworld]. pose proof (Hmk (mem (kworld k)) (NEXT_TASK_ID k)) as Hid. destruct (make _ _) as [t m]. cbn [fst] in Hid.
  destruct (choose_target_cpu _) as [cpu| |]; cbn [mbind outcome_bind]; [|done..]. unfold with_sched. cbn [CPU_SCHEDULERS set_world].
  destruct (at_ _ cpu) as [s| |] eqn:E; cbn [mbind outcome_bind]; [|done..]. apply at_inv in E. intros [= _ <-]. split; [done|]. intros c t' (q & Hc & Ht').
  cbn [CPU_SCHEDULERS set_scheds set_world] in Hc. destruct (decide (cpu = c)) as [<-|Hne].
  - rewrite list_lookup_insert_eq in Hc by (by eapply lookup_lt_Some). injection Hc as <-. cbn [tasks push_task set_tasks] in Ht'. apply elem_of_app in Ht' as [Ht'|Ht'].
    + left. by exists s.
    + apply list_elem_of_singleton in Ht' as ->. by right.
  - rewrite list_lookup_insert_ne in Hc by done. left. by exists q.
Qed.

Definition victim (c : kcall) : option Z := match c with KKill tid => Some tid | _ => None end.
(** What a call does to the tasks: they flow, and at most one with the next identifier is new. *)
Lemma call_flows k c k' : kcall_run k c = Ret k' -> TICKS k' = TICKS k /\ forall cpu t', on k' cpu t' -> comes_from (victim c) k cpu t' \/ id t' = NEXT_TASK_ID k.
Proof.
  intros H. assert (Hk : forall v, kflows v k k' -> TICKS k' = TICKS k /\ forall cpu t', on k' cpu t' -> comes_from v k cpu t' \/ id t' = NEXT_TASK_ID k).
  { intros v [HT HF]. split; [done|]. intros cpu t' Ht'. left. by apply HF. }
  assert (Hs : (TICKS k' = TICKS k /\ forall cpu t', on k' cpu t' -> on k cpu t' \/ id t' = NEXT_TASK_ID k) -> TICKS k' = TICKS k /\ forall cpu t', on k' cpu t' -> comes_from (victim c) k cpu t' \/ id t' = NEXT_TASK_ID k).
  { intros [HT HF]. split; [done|]. intros cpu t' Ht'. destruct (HF cpu t' Ht') as [?|?]; [left; by apply comes_same|by right]. }
  destruct c; cbn [kcall_run victim] in *; [..|unfold spawn in H|unfold spawn_user in H|unfold spawn_user_with_space in H];
    try (by apply Hk, timer_kflows);
    match type of H with mbind _ ?e = _ => destruct e as [[? ?]| |] eqn:E; cbn [mbind outcome_bind] in H; [|done..] end; injection H as <-;
    [by eapply Hk, yield_now_kflows|by eapply Hk, smp_timer_kflows|by eapply Hk, kill_task_kflows|by eapply Hk, reap_kflows|..];
    try (apply Hs; eapply spawn_fresh; [|exact E]; intros m i; unfold task_new_user_with_space, task_new_user, task_new; by destruct (Context.init_frame _ _ _)).
  apply Hk. unfold try_steal_task in E. destruct (Nat.leb _ _); [injection E as _ <-; apply kflows_refl|by eapply steal_loop_kflows].
Qed.

(** ** The loop of [sleep_ticks] *)
(** A timer interrupt: the count, then [timer_tick]. *)
Definition elapse (k : kernel A) : outcome (kernel A) := timer_tick (mkKernel (CPU_SCHEDULERS k) (NEXT_TASK_ID k) (cpu_count k) (u64_add (TICKS k) 1) (kworld k) (hw k)).
Definition current_id (k : kernel A) (cpu : nat) : option Z := q ← CPU_SCHEDULERS k !! cpu; t ← tasks q !! current q; Some (id t).
(** What everyone but task [tid] may do meanwhile: calls of the scheduler that do not kill
    it, other tasks going to sleep, timer interrupts. *)
Inductive others (tid : Z) : kernel A -> kernel A -> Prop :=
  | others_none k : others tid k k
  | others_call k c k1 k' : victim c <> Some tid -> NEXT_TASK_ID k <> tid -> kcall_run k c = Ret k1 -> others tid k1 k' -> others tid k k'
  | others_sleep k cpu n k1 k' : current_id k (clamp_cpu cpu) <> Some tid -> sleep_ticks_begin k cpu n = Ret k1 -> others tid k1 k' -> others tid k k'
  | others_timer k k1 k' : 0 <= TICKS k < 2 ^ 64 - 1 -> elapse k = Ret k1 -> others tid k1 k' -> others tid k k'.
(** The test of the loop, on the queue of the CPU on which the task began to sleep. *)
Definition still (k : kernel A) (cpu : nat) : outcome bool := q ← at_ (CPU_SCHEDULERS k) (clamp_cpu cpu); still_sleeping q (TICKS k).
(** The kernels at which the loop makes its test, and the CPU [c] on which the task then
    runs: after giving up the processor, when the scheduler has come back to it, on whichever
    CPU.  Between two tests the processor halts until an interrupt. *)
Inductive looks (tid : Z) (cpu : nat) (k0 : kernel A) : nat -> kernel A -> Prop :=
  | look_first sw k1 c k : yield_now k0 cpu = Ret (sw, k1) -> others tid k1 k -> current_id k c = Some tid -> looks tid cpu k0 c k
  | look_again c k c1 sw k1 k2 c' k' : looks tid cpu k0 c k -> still k cpu = Ret true -> others tid k k1 -> current_id k1 c1 = Some tid -> yield_now k1 c1 = Ret (sw, k2) -> others tid k2 k' ->
      current_id k' c' = Some tid -> looks tid cpu k0 c' k'.
(** [sleep_ticks n] of task [tid] from [k] to [k']. *)
Inductive sleep_ticks (tid : Z) (cpu : nat) (n : Z) (k k' : kernel A) : Prop :=
  | sleep_zero sw k1 c : n = 0 -> yield_now k cpu = Ret (sw, k1) -> others tid k1 k' -> current_id k' c = Some tid -> sleep_ticks tid cpu n k k'
  | sleep_loop k0 c : n <> 0 -> sleep_ticks_begin k cpu n = Ret k0 -> looks tid cpu k0 c k' -> still k' cpu = Ret false -> sleep_ticks tid cpu n k k'.
Definition sleep_ms (tid : Z) (cpu : nat) (ms : Z) : kernel A -> kernel A -> Prop := sleep_ticks tid cpu (sleep_ms_ticks ms).

(** The invariant of the sleeper: asleep until [w] on the CPU where it went to sleep, or past
    [w] and awake. *)
Definition dozing (w now : Z) (t : Task) : Prop := state t = Sleeping w \/ (w <= now /\ asleep t = false).
Definition dozes (tid w : Z) (home : nat) (k : kernel A) : Prop := forall c t, on k c t -> id t = tid -> dozing w (TICKS k) t /\ (c = home \/ asleep t = false).
Lemma dozing_step w now v t t' : v <> Some (id t) -> sstep now v t t' -> dozing w now t -> dozing w now t'.
Proof.
  intros Hv [_ [Hs|[Ha' Hc]]] Hd; [unfold dozing, asleep in *; by rewrite Hs|]. right. split; [|done]. destruct Hd as [Hw|[Hw _]]; [|done].
  destruct Hc as [Ha|[(x & Hx & Hle)|Hvt]]; [unfold asleep in Ha; by rewrite Hw in Ha| |done]. rewrite Hw in Hx. by injection Hx as ->.
Qed.
Lemma dozing_later w now now' t : now <= now' -> dozing w now t -> dozing w now' t.
Proof. intros Hn [?|[? ?]]; [by left|right; split; [lia|done]]. Qed.
Lemma dozes_from tid w home k v c t' : v <> Some tid -> id t' = tid -> comes_from v k c t' -> dozes tid w home k -> dozing w (TICKS k) t' /\ (c = home \/ asleep t' = false).
Proof.
  intros Hv Hid (c0 & t & Ht & Hs & Hl) Hd. assert (id t = tid) as Hi by (destruct Hs as [Hs _]; congruence). destruct (Hd c0 t Ht Hi) as [D L].
  split; [by eapply dozing_step; [rewrite Hi|..]|]. destruct Hl as [->|]; [|by right]. destruct L as [|]; [by left|]. right. by eapply sstep_awake.
Qed.
Lemma dozes_kflows tid w home k k' : kflows None k k' -> dozes tid w home k -> dozes tid w home k'.
Proof. intros [HT HF] Hd c t' Ht' Hid. rewrite HT. by eapply dozes_from; [|done|by apply HF|]. Qed.
Lemma begin_inv (k : kernel A) cpu n k' : sleep_ticks_begin k cpu n = Ret k' -> exists q t, CPU_SCHEDULERS k !! clamp_cpu cpu = Some q /\ tasks q !! current q = Some t /\
  k' = set_scheds k (<[clamp_cpu cpu := set_tasks q (<[current q := set_state t (Sleeping (u64_add (TICKS k) n))]> (tasks q))]> (CPU_SCHEDULERS k)).
Proof.
  unfold sleep_ticks_begin, with_sched. destruct (at_ (CPU_SCHEDULERS k) _) as [q| |] eqn:E; cbn [mbind outcome_bind]; [|done..]. apply at_inv in E. unfold sleep_section, update.
  destruct (at_ (tasks q) _) as [t| |] eqn:Et; cbn [mbind outcome_bind]; [|done..]. apply at_inv in Et. intros [= <-]. by exists q, t.
Qed.
(** The tasks after one went to sleep, with their places. *)
Lemma begin_tasks (k : kernel A) cpu q t st c q' i t' : CPU_SCHEDULERS k !! cpu = Some q -> tasks q !! current q = Some t ->
  <[cpu := set_tasks q (<[current q := set_state t st]> (tasks q))]> (CPU_SCHEDULERS k) !! c = Some q' -> tasks q' !! i = Some t' ->
  (c = cpu /\ i = current q /\ t' = set_state t st) \/ (exists q0, CPU_SCHEDULERS k !! c = Some q0 /\ tasks q0 !! i = Some t' /\ ~ (c = cpu /\ i = current q)).
Proof.
  intros Hq Ht Hc Hi. destruct (decide (cpu = c)) as [<-|Hne].
  - rewrite list_lookup_insert_eq in Hc by (by eapply lookup_lt_Some). injection Hc as <-. cbn [tasks set_tasks] in Hi. destruct (decide (current q = i)) as [<-|Hne].
    + rewrite list_lookup_insert_eq in Hi by (by eapply lookup_lt_Some). injection Hi as <-. by left.
    + rewrite list_lookup_insert_ne in Hi by done. right. exists q. split; [done|]. split; [done|]. intros [_ ?]; congruence.
  - rewrite list_lookup_insert_ne in Hc by done. right. exists q'. split; [done|]. split; [done|]. intros [? _]; congruence.
Qed.
Lemma others_dozes tid w home k k' : others tid k k' -> dozes tid w home k -> dozes tid w home k'.
Proof.
  induction 1 as [k|k c k1 k' Hv Hn E _ IH|k cpu n k1 k' Hc E _ IH|k k1 k' Hb E _ IH]; intros Hd; [done|apply IH..].
  - apply call_flows in E as [HT HF]. intros cpu t' Ht' Hid. rewrite HT. destruct (HF cpu t' Ht') as [Hs|?]; [by eapply dozes_from|congruence].
  - apply begin_inv in E as (q & t & Hq & Ht & ->). intros c t' (q' & Hc' & Ht') Hid. apply list_elem_of_lookup in Ht' as [i Hi].
    destruct (begin_tasks k _ q t _ c q' i t' Hq Ht Hc' Hi) as [(-> & -> & ->)|(q0 & Hq0 & Hi0 & _)].
    + destruct Hc. unfold current_id. rewrite Hq. cbn. rewrite Ht. cbn. by rewrite <- Hid.
    + apply (Hd c t'); [|done]. exists q0. split; [done|by eapply list_elem_of_lookup_2].
  - eapply dozes_kflows; [by eapply timer_kflows|]. intros c t Ht Hid. destruct (Hd c t Ht Hid) as [D L]. split; [|done]. eapply dozing_later; [|exact D]. cbn [TICKS]. rewrite u64_add_small by lia. lia.
Qed.
Lemma looks_dozes tid w home cpu k0 c k : dozes tid w home k0 -> looks tid cpu k0 c k -> dozes tid w home k /\ current_id k c = Some tid.
Proof.
  intros Hd. induction 1 as [sw k1 c k E Ho Hc|c k c1 sw k1 k2 c' k' _ [IH _] _ Ho _ E Ho' Hc]; (split; [|done]).
  - eapply others_dozes; [exact Ho|]. eapply dozes_kflows; [by eapply yield_now_kflows|done].
  - eapply others_dozes; [exact Ho'|]. eapply dozes_kflows; [by eapply yield_now_kflows|]. by eapply others_dozes.
Qed.
Lemma begin_dozes k cpu n tid k0 : NoDup (queued_ids (view k)) -> current_id k (clamp_cpu cpu) = Some tid -> 0 <= n -> 0 <= TICKS k -> TICKS k + n < 2 ^ 64 ->
  sleep_ticks_begin k cpu n = Ret k0 -> dozes tid (TICKS k + n) (clamp_cpu cpu) k0 /\ TICKS k0 = TICKS k.
Proof.
  intros Hnd Hc Hn HT Hb E. apply begin_inv in E as (q & t & Hq & Ht & ->). split; [|done]. rewrite u64_add_small by lia. intros c t' (q' & Hc' & Ht') Hid.
  apply list_elem_of_lookup in Ht' as [i Hi]. destruct (begin_tasks k _ q t _ c q' i t' Hq Ht Hc' Hi) as [(-> & -> & ->)|(q0 & Hq0 & Hi0 & Hne)]; [split; by left|].
  destruct Hne. unfold current_id in Hc. rewrite Hq in Hc. cbn in Hc. rewrite Ht in Hc. cbn in Hc. injection Hc as Hid2.
  apply (concat_NoDup_lookup (ids <$> CPU_SCHEDULERS k) c (clamp_cpu cpu) (ids q0) (ids q) i (current q) tid); [exact Hnd|by rewrite list_lookup_fmap, Hq0|by rewrite list_lookup_fmap, Hq|unfold ids; rewrite list_lookup_fmap, Hi0; cbn; by rewrite Hid|unfold ids; rewrite list_lookup_fmap, Ht; cbn; by rewrite Hid2].
Qed.
Lemma current_on k c tid : current_id k c = Some tid -> exists q t, CPU_SCHEDULERS k !! c = Some q /\ tasks q !! current q = Some t /\ id t = tid /\ on k c t.
Proof.
  unfold current_id. intros Hc. destruct (CPU_SCHEDULERS k !! c) as [q|] eqn:Hq; [|done]. cbn in Hc.
  destruct (tasks q !! current q) as [t|] eqn:Ht; [|done]. cbn in Hc. injection Hc as Hid. exists q, t. split; [done|]. split; [done|]. split; [done|]. exists q. split; [done|by eapply list_elem_of_lookup_2].
Qed.
(** What the test of the loop answers where the task went to sleep; it runs elsewhere only
    after its time. *)
Lemma still_ret tid w home cpu k : dozes tid w home k -> current_id k (clamp_cpu cpu) = Some tid -> still k cpu = Ret (TICKS k <? w).
Proof.
  intros Hd Hc. apply current_on in Hc as (q & t & Hq & Ht & Hid & Hon). unfold still, still_sleeping. rewrite (at_Ret _ _ _ Hq). cbn [mbind outcome_bind]. rewrite (at_Ret _ _ _ Ht). cbn [mbind outcome_bind].
  destruct (Hd _ t Hon Hid) as [[Hw|[Hw Ha]] _]; [by rewrite Hw|]. unfold asleep in Ha. destruct (state t); try done; f_equal; symmetry; by apply Z.ltb_ge.
Qed.
Lemma moved_late tid w home c k : dozes tid w home k -> current_id k c = Some tid -> c <> home -> w <= TICKS k.
Proof.
  intros Hd Hc Hne. apply current_on in Hc as (q & t & _ & _ & Hid & Hon). destruct (Hd _ t Hon Hid) as [[Hw|[Hw _]] [|Ha]]; try done. unfold asleep in Ha. by rewrite Hw in Ha.
Qed.

(** ** The timer wakes the sleepers *)
Definition awake_by (now : Z) (q : CpuScheduler) : Prop := forall t x, t ∈ tasks q -> state t = Sleeping x -> now < x.
Lemma wake_all_awake now q : awake_by now (wake_all now q).
Proof.
  intros t x Ht Hx. cbn [wake_all tasks set_tasks] in Ht. apply list_elem_of_fmap in Ht as (u & -> & _). unfold wake in Hx. destruct (state u) as [| |w|] eqn:E; [congruence..| |congruence].
  destruct (Z.leb_spec w now); [done|]. rewrite E in Hx. injection Hx as ->. done.
Qed.
Lemma wake_cpus_awake n : forall (k : kernel A) cpu k', wake_cpus k cpu n = Ret k' ->
  TICKS k' = TICKS k /\ forall c q, CPU_SCHEDULERS k' !! c = Some q -> (cpu <= c < cpu + n)%nat \/ (exists q0, CPU_SCHEDULERS k !! c = Some q0 /\ awake_by (TICKS k) q0) -> awake_by (TICKS k) q.
Proof.
  induction n as [|n IH]; intros k cpu k'; cbn [wake_cpus]; [intros [= <-]; split; [done|]; intros c q Hc [?|(q0 & Hq0 & ?)]; [lia|assert (q = q0) as -> by congruence; done]|].
  unfold with_sched. destruct (at_ _ cpu) as [s| |] eqn:E; cbn [mbind outcome_bind]; [|done..]. apply at_inv in E. intros H. destruct (IH _ _ _ H) as [HT Hw]. cbn [TICKS set_scheds] in *.
  split; [done|]. intros c q Hc Hor. apply (Hw c q Hc). destruct (decide (c = cpu)) as [->|Hne].
  - right. eexists. split; [cbn; by rewrite list_lookup_insert_eq by (by eapply lookup_lt_Some)|apply wake_all_awake].
  - destruct Hor as [?|(q0 & Hq0 & ?)]; [left; lia|]. right. exists q0. split; [cbn; by rewrite list_lookup_insert_ne|done].
Qed.
Lemma elapse_awake (k k' : kernel A) c q : elapse k = Ret k' -> (c < num_cpus k)%nat -> CPU_SCHEDULERS k' !! c = Some q -> awake_by (TICKS k') q.
Proof.
  unfold elapse, timer_tick. destruct (wake_cpus _ _ _) as [k1| |] eqn:E; cbn [mbind outcome_bind]; [|done..]. intros H Hc Hq.
  destruct (wake_cpus_awake _ _ _ _ E) as [HT Hw]. change (num_cpus (mkKernel _ _ _ _ _ _)) with (num_cpus k) in *.
  destruct (with_sched k1 0 _) as [[u k2]| |] eqn:E2; cbn [mbind outcome_bind] in H; [|done..]. injection H as <-. unfold with_sched in E2.
  destruct (at_ (CPU_SCHEDULERS k1) 0) as [s| |] eqn:Es; cbn [mbind outcome_bind] in E2; [|done..]. apply at_inv in Es. destruct (charge_current s) as [s1| |] eqn:Ec; cbn [mbind outcome_bind] in E2; [|done..]. injection E2 as _ <-.
  cbn [TICKS set_scheds CPU_SCHEDULERS] in *. rewrite HT. destruct (decide (c = 0%nat)) as [->|Hne].
  - rewrite list_lookup_insert_eq in Hq by (by eapply lookup_lt_Some). injection Hq as <-. intros t x Ht Hx.
    destruct (charge_flows 0 None s s1 Ec t Ht) as (t0 & Ht0 & _ & [Hs|[Ha _]]); [|unfold asleep in Ha; by rewrite Hx in Ha]. eapply (Hw 0%nat s Es ltac:(left; lia) t0 x Ht0). congruence.
  - rewrite list_lookup_insert_ne in Hq by done. apply (Hw c q Hq). left. lia.
Qed.

(** C29: sleeping ends on time.  Whatever the other tasks, the other processors and the
    timer do, short of killing the task: each time the loop of [sleep_ticks n] looks at its
    state on the CPU where it began it goes on sleeping exactly as long as fewer than [n]
    ticks have passed; a look on another CPU, which has stolen the task, comes only after
    them; so the call never returns early; and after a timer interrupt no task of an online
    CPU is still asleep whose tick has come. *)
Theorem sleep_ends_on_time (k : kernel A) cpu n tid k0 :
  NoDup (queued_ids (view k)) -> current_id k (clamp_cpu cpu) = Some tid -> 0 < n -> 0 <= TICKS k -> TICKS k + n < 2 ^ 64 -> sleep_ticks_begin k cpu n = Ret k0 ->
  (forall c k', looks tid cpu k0 c k' -> if decide (c = clamp_cpu cpu) then still k' cpu = Ret (TICKS k' <? TICKS k + n) else TICKS k + n <= TICKS k') /\
  (forall k', sleep_ticks tid cpu n k k' -> TICKS k + n <= TICKS k') /\
  (forall (k1 k2 : kernel A) c q t x, elapse k1 = Ret k2 -> (c < num_cpus k1)%nat -> CPU_SCHEDULERS k2 !! c = Some q -> t ∈ tasks q -> state t = Sleeping x -> TICKS k2 < x).
Proof.
  intros Hnd Hc Hn HT Hb E. assert (Hl : forall c k', looks tid cpu k0 c k' -> if decide (c = clamp_cpu cpu) then still k' cpu = Ret (TICKS k' <? TICKS k + n) else TICKS k + n <= TICKS k').
  { intros c k' Hk'. destruct (begin_dozes k cpu n tid k0) as [Hd _]; try done; [lia|]. destruct (looks_dozes _ _ _ _ _ _ _ Hd Hk') as [Hd' Hc']. destruct (decide (c = clamp_cpu cpu)) as [->|Hne]; [by eapply still_ret|by eapply moved_late]. }
  split; [exact Hl|]. split.
  - intros k' [sw k1 c Hz _ _ _|k1 c _ E1 Hk' Hs]; [lia|]. assert (k1 = k0) as -> by congruence. specialize (Hl c k' Hk'). destruct (decide _); [|done]. rewrite Hl in Hs. injection Hs as Hs. lia.
  - intros k1 k2 c q t x E2 Hcc Hq Ht Hx. by eapply (elapse_awake k1 k2 c q).
Qed.

(** ** The idle loop and the kernel's own tasks *)
(** One turn of [ap_idle_loop]: the switch made, and whether it ends in [sti; hlt]. *)
Definition ap_idle_turn (k : kernel A) (cpu : nat) : outcome (option switch * bool * kernel A) :=
  q ← at_ (CPU_SCHEDULERS k) cpu;
  let has_ready := has_other_ready q in
  let count := length (tasks q) in
  if has_ready then '(sw, k) ← yield_now k cpu; Ret (sw, false, k)
  else if Nat.ltb 1 count then '(_, k) ← try_steal_task k cpu; Ret (None, true, k)
  else Ret (None, true, k).
(** The entry and the stack that [user_task_trampoline] enters user mode with. *)
Definition user_task_trampoline (k : kernel A) (cpu : nat) : outcome (Z * Z) :=
  q ← at_ (CPU_SCHEDULERS k) (clamp_cpu cpu); t ← at_ (tasks q) (current q); Ret (user_entry t, user_stack_top t).

(** C39: an idle processor does not take work.  A CPU on which only its idle task is left
    never steals: giving up the processor and a turn of the idle loop leave the kernel as
    it is and halt, however many tasks are ready on the other CPUs. *)
Theorem idle_cpu_never_steals (k : kernel A) cpu q t :
  (cpu < MAX_CPUS)%nat -> CPU_SCHEDULERS k !! cpu = Some q -> tasks q = [t] -> current q = 0%nat ->
  yield_now k cpu = Ret (None, k) /\ ap_idle_turn k cpu = Ret (None, true, k).
Proof.
  intros Hm Hq Ht Hc. assert (Hr : has_other_ready q = false) by (unfold has_other_ready; by rewrite Ht, Hc). split.
  - unfold yield_now, clamp_cpu. replace (Nat.ltb cpu MAX_CPUS) with true by (symmetry; by apply Nat.ltb_lt). rewrite (at_Ret _ _ _ Hq). cbn [mbind outcome_bind]. rewrite Hr, Ht. cbn [length Nat.ltb andb negb Nat.leb].
    cbn [mbind outcome_bind]. unfold with_sched. rewrite (at_Ret _ _ _ Hq). cbn [mbind outcome_bind]. unfold yield_section. rewrite Ht. cbn [length Nat.ltb Nat.leb]. cbn [mbind outcome_bind]. cbn [apply_switch].
    do 2 f_equal. unfold set_scheds. rewrite list_insert_id by done. by destruct k.
  - unfold ap_idle_turn. rewrite (at_Ret _ _ _ Hq). cbn [mbind outcome_bind]. by rewrite Hr, Ht.
Qed.
End Kernel.

(** What the kernel's own tasks do, in order: printing, sleeping, and dying with a last
    [yield_now].  [cpu_at i] is the processor that runs the task at its [i]th question. *)
Inductive deed := SerialLine (l : list Z) | ScreenLine (l : list Z) | SleepMs (ms : Z) | Die (cpu : nat).
Definition sentinel_turn (heartbeats : Z) : list deed * Z :=
  let count := u64_add heartbeats 1 in
  ([SerialLine (ascii_bytes "[AuraOS Sentinel] Heartbeat #" ++ decimal count ++ ascii_bytes " - Kernel healthy"); SleepMs 2000], count).
Definition worker_line (my_id : Z) (l : list Z) : list Z := ascii_bytes "[Worker #" ++ decimal my_id ++ ascii_bytes "] " ++ l.
Definition work (my_id : Z) (cpu_at : nat -> nat) (i : nat) : list deed :=
  [SerialLine (worker_line my_id (ascii_bytes "Iteration " ++ decimal (Z.of_nat i) ++ ascii_bytes "/5 on CPU #" ++ decimal (Z.of_nat (cpu_at i)) ++ ascii_bytes " — performing work...")); SleepMs 600].
Definition demo_worker_entry (my_id : Z) (cpu_at : nat -> nat) : list deed :=
  let started := worker_line my_id (ascii_bytes "Started background execution on CPU #" ++ decimal (Z.of_nat (clamp_cpu (cpu_at 0%nat))) ++ ascii_bytes ".") in
  let fin_cpu := cpu_at 6%nat in
  let done := worker_line my_id (ascii_bytes "Completed all work on CPU #" ++ decimal (Z.of_nat fin_cpu) ++ ascii_bytes ". Terminating cleanly.") in
  [SerialLine started; ScreenLine started] ++ (seq 1 5 ≫= work my_id cpu_at) ++ [SerialLine done; ScreenLine done; Die (clamp_cpu fin_cpu)].

(** ** Witnesses: the shell sleeps one tick while a worker runs *)
Definition napping : kernel Pmm.Pmm :=
  mkKernel (<[0%nat := push_task (push_task (sched_new 0) (root "kernel-shell")) (worker 1)]> (sched_new <$> seq 0 MAX_CPUS)) 2 1 25
    (mkWorld (Pmm.set_bitmap Pmm.new []) (fun _ => 0) 0x1000 0x1000) (mkHw 0 0 (replicate 8 0) (replicate 8 0) (replicate 8 0)).
Notation ran o := (match o with Ret k => k | _ => napping end).
Definition nap0 := Eval vm_compute in (ran (sleep_ticks_begin napping 0 1)).
Definition nap1 := Eval vm_compute in (ran ('(_, k) ← yield_now nap0 0; Ret k)).
Definition nap2 := Eval vm_compute in (ran (elapse nap1)).
Definition nap3 := Eval vm_compute in (ran (kcall_run nap2 (KYield 0))).
Lemma nap_looks : looks 0 0 nap0 0 nap3.
Proof.
  eapply look_first; [vm_compute; reflexivity| |vm_compute; reflexivity].
  eapply others_timer; [by compute|vm_compute; reflexivity|]. eapply (others_call _ _ (KYield 0)); [done|by compute|vm_compute; reflexivity|]. apply others_none.
Qed.
Lemma sleep_ends_on_time_witness : still nap3 0 = Ret false /\ TICKS nap3 = 26.
Proof.
  split; [|vm_compute; reflexivity].
  destruct (sleep_ends_on_time napping 0 1 0 nap0) as [H _].
  - vm_compute. by repeat constructor; set_solver.
  - vm_compute. reflexivity.
  - reflexivity.
  - by compute.
  - reflexivity.
  - vm_compute. reflexivity.
  - etransitivity; [exact (H _ _ nap_looks)|vm_compute; reflexivity].
Defined.
(** CPU 0 runs worker 1, which sleeps one tick, beside the shell, which then sleeps fifty;
    each CPU has another task that sleeps for long. *)
Definition two_cpus_sleep : kernel Pmm.Pmm :=
  let q0 := push_task (push_task (sched_new 0) (root "kernel-shell")) (worker 1) in
  let q1 := push_task (init_ap_section (sched_new 1) 1) (set_state (worker 2) (Sleeping 500)) in
  mkKernel (<[1%nat := q1]> (<[0%nat := set_current (set_tasks q0 [set_state (root "kernel-shell") Ready; set_state (worker 1) Running; set_state (worker 3) (Sleeping 500)]) 1]> (sched_new <$> seq 0 MAX_CPUS))) 4 2 25
    (mkWorld (Pmm.set_bitmap Pmm.new []) (fun _ => 0) 0x1000 0x1000) (mkHw 0 0 (replicate 8 0) (replicate 8 0) (replicate 8 0)).
Definition two0 := Eval vm_compute in (ran (sleep_ticks_begin two_cpus_sleep 0 1)).
Definition two1 := Eval vm_compute in (ran ('(_, k) ← yield_now two0 0; Ret k)).
Definition two2 := Eval vm_compute in (ran (sleep_ticks_begin two1 0 50)).
Definition two3 := Eval vm_compute in (ran (elapse two2)).
Definition two4 := Eval vm_compute in (ran (kcall_run two3 (KYield 1))).

(** A sleeper that another CPU steals once it is awake looks at the state of the task that
    runs on its old CPU: it can go on sleeping after its time. *)
Theorem stolen_sleeper_oversleeps : looks 1 0 two0 1 two4 /\ TICKS two_cpus_sleep + 1 <= TICKS two4 /\ still two4 0 = Ret true.
Proof.
  split; [|split; [by vm_compute|vm_compute; reflexivity]].
  eapply look_first; [vm_compute; reflexivity| |vm_compute; reflexivity].
  eapply (others_sleep _ _ 0 50); [by vm_compute|vm_compute; reflexivity|].
  eapply others_timer; [by compute|vm_compute; reflexivity|]. eapply (others_call _ _ (KYield 1)); [done|by compute|vm_compute; reflexivity|]. apply others_none.
Qed.

Lemma idle_cpu_witness : exists k : kernel Pmm.Pmm, ap_idle_turn k 1 = Ret (None, true, k) /\ exists q, CPU_SCHEDULERS k !! 0%nat = Some q /\ has_other_ready q = true.
Proof.
  eexists (set_scheds napping (<[1%nat := init_ap_section (sched_new 1) 1]> (CPU_SCHEDULERS napping))). split.
  - refine (proj2 (idle_cpu_never_steals _ 1 _ _ _ _ _ _)); [unfold MAX_CPUS; lia|reflexivity|reflexivity|reflexivity].
  - eexists. split; reflexivity.
Defined.
End Sleep.
