(* ===== verification/Vfs.v ===== *)
(** * The virtual file system and RAM disk (src/src/fs/mod.rs, src/src/fs/errors.rs)

    Inodes in a vector with a free list, path resolution, creation, reading,
    listing and removal.  Paths and names are byte strings in UTF-8; [str::trim] removes
    the white space of Unicode. *)

From stdpp Require Import prelude numbers list strings.
From Stdlib Require Import Ascii.
From S2P Require Import Prelude Text.

Module Vfs.
Local Open Scope nat_scope.

Inductive VfsError :=
  | NotFound | NotADirectory | AlreadyExists | IsDirectory | NotAFile
  | PermissionDenied | DiskFull | BadPath | RootProtected | Deleted.

(** The [/proc] generators, functions of the kernel state. *)
Inductive Generator := proc_uptime | proc_meminfo | proc_cpuinfo | proc_tasks.

Inductive InodeKind :=
  | File (content : list Z)
  | Directory (children : list nat)
  | ProcFile (generator : Generator)
  | DevNull
  | DevZero
  | DevRandom
  | Tombstone.

#[global] Instance Generator_eq_dec : EqDecision Generator.
Proof. solve_decision. Defined.
#[global] Instance InodeKind_eq_dec : EqDecision InodeKind.
Proof. solve_decision. Defined.

Record Inode := mkInode { id : nat; parent_id : nat; name : string; kind : InodeKind }.

Definition is_dir (n : Inode) : bool := match kind n with Directory _ => true | _ => false end.
Definition isize (n : Inode) : nat :=
  match kind n with File content => length content | Directory children => length children | _ => 0 end.
Definition set_kind (n : Inode) (k : InodeKind) : Inode := mkInode (id n) (parent_id n) (name n) k.

Record DirectoryEntry := mkEntry { e_name : string; e_is_dir : bool; e_size : nat }.

Record Vfs := mkVfs { inodes : list Inode; current_inode : nat; free_inodes : list nat }.

Definition new : Vfs := mkVfs [] 0 [].
Definition set_inodes (v : Vfs) (l : list Inode) : Vfs := mkVfs l (current_inode v) (free_inodes v).

(** [Vec::pop] takes the last element. *)
Definition pop_last {B} (l : list B) : option (B * list B) :=
  match last l with Some x => Some (x, take (length l - 1) l) | None => None end.

Definition allocate_inode (v : Vfs) (parent : nat) (nm : string) (k : InodeKind) : outcome (nat * Vfs) :=
  match pop_last (free_inodes v) with
  | Some (reused_id, rest) =>
      l ← update (inodes v) reused_id (fun _ => mkInode reused_id parent nm k);
      Ret (reused_id, mkVfs l (current_inode v) rest)
  | None =>
      let new_id := length (inodes v) in
      Ret (new_id, set_inodes v (inodes v ++ [mkInode new_id parent nm k]))
  end.

(** ** Paths *)
Definition bytes_of (s : string) : list Z := (fun c => Z.of_nat (nat_of_ascii c)) <$> String.list_ascii_of_string s.
Definition string_of (l : list Z) : string := String.string_of_list_ascii ((fun b => ascii_of_nat (Z.to_nat b)) <$> l).

(** [str::trim] *)
Definition trim_end (s : string) : string := string_of (Text.trim_end (bytes_of s)).
Definition trim (s : string) : string := string_of (Text.trim (bytes_of s)).

Definition slash : ascii := "/"%char.

(** [str::split('/')]: at least one segment, possibly empty ones. *)
Fixpoint split_slash (s : string) : list string :=
  match s with
  | EmptyString => [EmptyString]
  | String c s' =>
      if Ascii.eqb c slash then EmptyString :: split_slash s'
      else match split_slash s' with
           | h :: t => String c h :: t
           | [] => [String c EmptyString]
           end
  end.

(** The first child of that name: the loops over [children]. *)
Fixpoint find_child (l : list Inode) (children : list nat) (nm : string) : outcome (option nat) :=
  match children with
  | [] => Ret None
  | child_id :: rest =>
      n ← at_ l child_id;
      if String.eqb (name n) nm then Ret (Some child_id) else find_child l rest nm
  end.

Fixpoint resolve_segments (v : Vfs) (curr : nat) (segs : list string) : outcome (result nat VfsError) :=
  match segs with
  | [] => Ret (Ok curr)
  | seg :: rest =>
      if (String.eqb seg "" || String.eqb seg ".")%bool then resolve_segments v curr rest else
      n ← at_ (inodes v) curr;
      if String.eqb seg ".." then resolve_segments v (parent_id n) rest else
      match kind n with
      | Directory children =>
          next ← find_child (inodes v) children seg;
          match next with
          | Some id => resolve_segments v id rest
          | None => Ret (Err NotFound)
          end
      | _ => Ret (Err NotADirectory)
      end
  end.

Definition resolve_path (v : Vfs) (path : string) : outcome (result nat VfsError) :=
  let trimmed := trim path in
  match trimmed with
  | EmptyString => Ret (Ok (current_inode v))
  | String c rest =>
      if Ascii.eqb c slash then resolve_segments v 0 (split_slash rest)
      else resolve_segments v (current_inode v) (split_slash trimmed)
  end.

(** ** Creation *)

(** [children.push(new_id)] when the parent is a directory. *)
Definition add_child (v : Vfs) (parent new_id : nat) : outcome Vfs :=
  l ← update (inodes v) parent (fun n =>
        match kind n with Directory ch => set_kind n (Directory (ch ++ [new_id])) | _ => n end);
  Ret (set_inodes v l).

(** Allocation of a node below a directory: the tail of every creation. *)
Definition create_child (v : Vfs) (parent : nat) (nm : string) (k : InodeKind) : outcome (result nat VfsError * Vfs) :=
  '(new_id, v1) ← allocate_inode v parent nm k;
  v2 ← add_child v1 parent new_id;
  Ret (Ok new_id, v2).

Definition mkdir_at (v : Vfs) (parent : nat) (nm : string) : outcome (result nat VfsError * Vfs) :=
  n ← at_ (inodes v) parent;
  match kind n with
  | Directory children =>
      dup ← find_child (inodes v) children nm;
      match dup with
      | Some _ => Ret (Err AlreadyExists, v)
      | None => create_child v parent nm (Directory [])
      end
  | _ => Ret (Err NotADirectory, v)
  end.

Definition create_file_at (v : Vfs) (parent : nat) (nm : string) (content : list Z) : outcome (result nat VfsError * Vfs) :=
  n ← at_ (inodes v) parent;
  match kind n with
  | Directory children =>
      dup ← find_child (inodes v) children nm;
      match dup with
      | Some child_id =>
          c ← at_ (inodes v) child_id;
          match kind c with
          | File _ =>
              l ← update (inodes v) child_id (fun c => set_kind c (File content));
              Ret (Ok child_id, set_inodes v l)
          | _ => Ret (Err IsDirectory, v)
          end
      | None => create_child v parent nm (File content)
      end
  | _ => Ret (Err NotADirectory, v)
  end.

Definition create_proc_file_at (v : Vfs) (parent : nat) (nm : string) (gen : Generator) : outcome (result nat VfsError * Vfs) :=
  n ← at_ (inodes v) parent;
  if negb (is_dir n) then Ret (Err NotADirectory, v) else create_child v parent nm (ProcFile gen).

Definition create_device_file_at (v : Vfs) (parent : nat) (nm : string) (k : InodeKind) : outcome (result nat VfsError * Vfs) :=
  n ← at_ (inodes v) parent;
  if negb (is_dir n) then Ret (Err NotADirectory, v) else create_child v parent nm k.

(** ** Reading and listing

    [run] gives the text of a generator in the current state of the kernel,
    [random] the bytes of [dev_random_generator]. *)
Definition read_kind (run : Generator -> list Z) (random : list Z) (k : InodeKind) : result (list Z) VfsError :=
  match k with
  | File content => Ok content
  | ProcFile generator => Ok (run generator)
  | DevNull => Ok []
  | DevZero => Ok (replicate 64 0%Z)
  | DevRandom => Ok random
  | Directory _ => Err IsDirectory
  | Tombstone => Err Deleted
  end.

Definition read_file (run : Generator -> list Z) (random : list Z) (v : Vfs) (file_id : nat) : outcome (result (list Z) VfsError) :=
  n ← at_ (inodes v) file_id; Ret (read_kind run random (kind n)).

Fixpoint list_entries (l : list Inode) (children : list nat) : outcome (list DirectoryEntry) :=
  match children with
  | [] => Ret []
  | child_id :: rest =>
      child ← at_ l child_id;
      es ← list_entries l rest;
      Ret (mkEntry (name child) (is_dir child) (isize child) :: es)
  end.
Definition list_directory (v : Vfs) (dir_id : nat) : outcome (result (list DirectoryEntry) VfsError) :=
  n ← at_ (inodes v) dir_id;
  match kind n with
  | Directory children => es ← list_entries (inodes v) children; Ret (Ok es)
  | _ => Ret (Err NotADirectory)
  end.

(** [get_path]: the names from the node up to the root; each turn of the loop
    moves to a parent, so the number of inodes bounds it in a tree. *)
Fixpoint path_segments (fuel : nat) (l : list Inode) (node_id : nat) : outcome (list string) :=
  if node_id =? 0 then Ret [] else
  match fuel with
  | O => NoFuel
  | S fuel' => n ← at_ l node_id; rest ← path_segments fuel' l (parent_id n); Ret (name n :: rest)
  end.
Fixpoint join_segments (segs : list string) : string :=
  match segs with [] => EmptyString | s :: rest => String slash (s +:+ join_segments rest) end.
Definition get_path (v : Vfs) (node_id : nat) : outcome string :=
  if node_id =? 0 then Ret "/" else
  segs ← path_segments (length (inodes v)) (inodes v) node_id;
  Ret (join_segments (rev segs)).

(** ** Removal *)

(** [collect_descendants], depth first; the fuel bounds the depth of the tree. *)
Fixpoint collect_descendants (fuel : nat) (l : list Inode) (node_id : nat) : outcome (list nat) :=
  n ← at_ l node_id;
  match kind n with
  | Directory children =>
      match fuel with
      | O => NoFuel
      | S fuel' =>
          (fix go (cs : list nat) : outcome (list nat) :=
             match cs with
             | [] => Ret []
             | child_id :: rest =>
                 sub ← collect_descendants fuel' l child_id;
                 tl ← go rest;
                 Ret (child_id :: sub ++ tl)
             end) children
      end
  | _ => Ret []
  end.

(** [children.iter().position(..)] followed by [children.remove(pos)]. *)
Fixpoint remove_child (x : nat) (l : list nat) : option (list nat) :=
  match l with
  | [] => None
  | y :: t => if y =? x then Some t else option_map (cons y) (remove_child x t)
  end.

(** The loop that turns the collected inodes into tombstones. *)
Fixpoint bury (l : list Inode) (free : list nat) (to_clean : list nat) : outcome (list Inode * list nat) :=
  match to_clean with
  | [] => Ret (l, free)
  | i :: rest =>
      l' ← update l i (fun n => mkInode (id n) 0 "" Tombstone);
      bury l' (free ++ [i]) rest
  end.

Definition remove_entry (v : Vfs) (target_id : nat) : outcome (result unit VfsError * Vfs) :=
  if target_id =? 0 then Ret (Err RootProtected, v) else
  sub ← collect_descendants (length (inodes v)) (inodes v) target_id;
  let to_clean := sub ++ [target_id] in
  t ← at_ (inodes v) target_id;
  let parent := parent_id t in
  p ← at_ (inodes v) parent;
  match kind p with
  | Directory children =>
      match remove_child target_id children with
      | Some ch =>
          l1 ← update (inodes v) parent (fun n => set_kind n (Directory ch));
          '(l2, free) ← bury l1 (free_inodes v) to_clean;
          Ret (Ok tt, mkVfs l2 (current_inode v) free)
      | None => Ret (Err NotFound, v)
      end
  | _ => Ret (Err NotFound, v)
  end.

(** ** Initial contents *)

Definition unwrap_or_0 (r : result nat VfsError) : nat := match r with Ok i => i | Err _ => 0 end.

Definition manifesto : string :=
"========================================
AuraOS 10-Year Vision & Core Principles
========================================
1. 100% Pure Rust bare-metal kernel.
2. Ultra-lightweight footprint (< 1 MB core).
3. Microkernel isolation with Ring 0/Ring 3.
4. Zero legacy technical debt.
".

(** [Vfs::init], with the three executables of [elf::build_*_elf]. *)
Definition init (hello_elf counter_elf init_elf : list Z) (v : Vfs) : outcome Vfs :=
  let v := mkVfs [mkInode 0 0 "/" (Directory [])] 0 [] in
  '(etc, v) ← mkdir_at v 0 "etc"; let etc_id := unwrap_or_0 etc in
  '(docs, v) ← mkdir_at v 0 "docs"; let docs_id := unwrap_or_0 docs in
  '(bin, v) ← mkdir_at v 0 "bin"; let bin_id := unwrap_or_0 bin in
  '(proc, v) ← mkdir_at v 0 "proc"; let proc_id := unwrap_or_0 proc in
  '(dev, v) ← mkdir_at v 0 "dev"; let dev_id := unwrap_or_0 dev in
  '(_, v) ← create_file_at v bin_id "hello" hello_elf;
  '(_, v) ← create_file_at v bin_id "counter" counter_elf;
  '(_, v) ← create_file_at v bin_id "init" init_elf;
  '(_, v) ← create_file_at v etc_id "hostname" (bytes_of "auraos-baremetal");
  '(_, v) ← create_file_at v etc_id "version" (bytes_of "AuraOS v0.1.0-alpha (x86_64 Long Mode Pure Rust Kernel)");
  '(_, v) ← create_file_at v etc_id "motd" (bytes_of "Welcome to AuraOS! Type 'help' for commands, 'ls' to inspect files.");
  '(_, v) ← create_file_at v docs_id "manifesto.txt" (bytes_of manifesto);
  '(_, v) ← create_proc_file_at v proc_id "uptime" proc_uptime;
  '(_, v) ← create_proc_file_at v proc_id "meminfo" proc_meminfo;
  '(_, v) ← create_proc_file_at v proc_id "cpuinfo" proc_cpuinfo;
  '(_, v) ← create_proc_file_at v proc_id "tasks" proc_tasks;
  '(_, v) ← create_device_file_at v dev_id "null" DevNull;
  '(_, v) ← create_device_file_at v dev_id "zero" DevZero;
  '(_, v) ← create_device_file_at v dev_id "random" DevRandom;
  '(_, v) ← create_device_file_at v dev_id "urandom" DevRandom;
  Ret v.

(** ** The functions on the global file system, each under the topology lock *)
Definition N_STRIPES : nat := 16.
Definition vfs_stripe_index (inode_id : nat) : nat := inode_id mod N_STRIPES.

Definition vfs_read_file (run : Generator -> list Z) (random : list Z) (v : Vfs) (path : string)
  : outcome (result (list Z) VfsError) :=
  r ← resolve_path v path;
  match r with
  | Ok i => n ← at_ (inodes v) i; Ret (read_kind run random (kind n))
  | Err e => Ret (Err e)
  end.
Definition vfs_read_file_by_id (run : Generator -> list Z) (random : list Z) (v : Vfs) (file_id : nat)
  : outcome (result (list Z) VfsError) :=
  if length (inodes v) <=? file_id then Ret (Err NotFound) else
  n ← at_ (inodes v) file_id; Ret (read_kind run random (kind n)).
Definition vfs_list_directory (v : Vfs) (path : string) : outcome (result (list DirectoryEntry) VfsError) :=
  r ← resolve_path v path;
  match r with Ok i => list_directory v i | Err e => Ret (Err e) end.
Definition vfs_current_path (v : Vfs) : outcome string := get_path v (current_inode v).
Definition vfs_set_current_inode (v : Vfs) (i : nat) : Vfs := mkVfs (inodes v) i (free_inodes v).
Definition vfs_is_dir (v : Vfs) (i : nat) : outcome bool :=
  if i <? length (inodes v) then n ← at_ (inodes v) i; Ret (is_dir n) else Ret false.
Definition vfs_remove_by_path (v : Vfs) (path : string) : outcome (result unit VfsError * Vfs) :=
  r ← resolve_path v path;
  match r with Ok i => remove_entry v i | Err e => Ret (Err e, v) end.

(** [dev_random_generator]: four draws of [rdrand] with their success flags, or
    the xorshift generator seeded from the time-stamp counter. *)
Fixpoint le_bytes (n : nat) (x : Z) : list Z :=
  match n with O => [] | S n' => (x mod 256)%Z :: le_bytes n' (x / 256)%Z end.

Fixpoint rdrand_bytes (draws : list (Z * bool * Z)) : list Z :=
  match draws with
  | [] => []
  | (val, ok, tsc) :: rest =>
      le_bytes 8 (if ok then val else u64_add (u64_mul tsc 6364136223846793005) 1) ++ rdrand_bytes rest
  end.

Definition xorshift (seed : Z) : Z :=
  let seed := Z.lxor seed (u64_shl seed 13) in
  let seed := Z.lxor seed (Z.shiftr seed 7) in
  let seed := Z.lxor seed (u64_shl seed 17) in
  u64_mul seed 0x2545F4914F6CDD1D.
Fixpoint xorshift_bytes (n : nat) (seed : Z) : list Z :=
  match n with O => [] | S n' => let seed := xorshift seed in le_bytes 8 seed ++ xorshift_bytes n' seed end.

Definition dev_random_generator (has_rdrand : bool) (d1 d2 d3 d4 : Z * bool * Z) (tsc : Z) : list Z :=
  take 32 (if has_rdrand then rdrand_bytes [d1; d2; d3; d4]
           else xorshift_bytes 4 (if (tsc =? 0)%Z then 0xDEADBEEFCAFEBABE%Z else tsc)).

End Vfs.
