(* ===== verification/VfsTree.v ===== *)
(** * The file system is a tree (src/src/fs/mod.rs)

    The invariant of the inode table, that every operation keeps it, what creation
    and removal change, and the round trip between inodes and paths. *)

From stdpp Require Import prelude numbers list strings.
From Stdlib Require Import Ascii.
From S2P Require Import Prelude Vfs.
Import Vfs.

Module VfsTree.
Local Open Scope nat_scope.

Definition children_of (n : Inode) : list nat := match kind n with Directory ch => ch | _ => [] end.
Definition live (n : Inode) : Prop := kind n <> Tombstone.

(** A name that identifies one child of a directory. *)
Definition child_named (v : Vfs) (n : Inode) (nm : string) (c : nat) : Prop :=
  c ∈ children_of n /\ exists m, inodes v !! c = Some m /\ name m = nm.

(** The inode table is a tree rooted at inode 0, with distinct names in each
    directory, whose unused slots are exactly the tombstones on the free list. *)
Record fs_ok (v : Vfs) : Prop := {
  fk_root : exists n, inodes v !! 0 = Some n /\ is_dir n = true /\ parent_id n = 0;
  fk_id : forall i n, inodes v !! i = Some n -> id n = i;
  fk_child : forall i n c, inodes v !! i = Some n -> c ∈ children_of n ->
    c <> 0 /\ exists m, inodes v !! c = Some m /\ live m /\ parent_id m = i;
  fk_nodup : forall i n, inodes v !! i = Some n -> NoDup (children_of n);
  fk_names : forall i n nm c1 c2, inodes v !! i = Some n -> child_named v n nm c1 -> child_named v n nm c2 -> c1 = c2;
  fk_parent : forall c m, inodes v !! c = Some m -> live m -> c <> 0 ->
    exists n, inodes v !! parent_id m = Some n /\ c ∈ children_of n;
  fk_rank : exists rank : nat -> nat, forall c m, inodes v !! c = Some m -> live m -> c <> 0 -> rank (parent_id m) < rank c;
  fk_tomb : forall i n, inodes v !! i = Some n -> kind n = Tombstone -> parent_id n = 0;
  fk_free_nodup : NoDup (free_inodes v);
  fk_free : forall i, i ∈ free_inodes v <-> exists n, inodes v !! i = Some n /\ kind n = Tombstone
}.

Lemma is_dir_children n : is_dir n = true -> kind n = Directory (children_of n).
Proof. unfold is_dir, children_of. by destruct (kind n). Qed.

(** [find_child] answers the child of that name. *)
Lemma find_child_ret v ch nm :
  (forall c, c ∈ ch -> exists m, inodes v !! c = Some m) ->
  exists r, find_child (inodes v) ch nm = Ret r /\
  match r with
  | Some c => c ∈ ch /\ exists m, inodes v !! c = Some m /\ name m = nm
  | None => forall c m, c ∈ ch -> inodes v !! c = Some m -> name m <> nm
  end.
Proof.
  induction ch as [|c ch IH]; intros Hex; cbn [find_child].
  { exists None. split; [done|]. intros c m Hc. by apply elem_of_nil in Hc. }
  destruct (Hex c) as [m Hm]; [by left|]. rewrite (at_Ret _ _ _ Hm). cbn [mbind outcome_bind].
  destruct (String.eqb_spec (name m) nm) as [E|E].
  - exists (Some c). split; [done|]. split; [by left|]. by exists m.
  - destruct IH as (r & -> & Hr); [intros; apply Hex; by right|]. exists r. split; [done|]. destruct r as [c'|].
    + destruct Hr as [? ?]. split; [by right|done].
    + intros c' m' Hc' Hm'. apply elem_of_cons in Hc' as [->|Hc']; [congruence|]. by apply (Hr c').
Qed.

Lemma find_child_dir v i n nm :
  fs_ok v -> inodes v !! i = Some n ->
  exists r, find_child (inodes v) (children_of n) nm = Ret r /\
  match r with
  | Some c => child_named v n nm c
  | None => forall c, ~ child_named v n nm c
  end.
Proof.
  intros Hok Hi. destruct (find_child_ret v (children_of n) nm) as (r & E & Hr).
  { intros c Hc. destruct (fk_child v Hok i n c Hi Hc) as (_ & m & Hm & _). by exists m. }
  exists r. split; [done|]. destruct r as [c|]; [done|]. intros c (Hc & m & Hm & Hn). by apply (Hr c m).
Qed.

(** ** Allocation *)

Lemma pop_last_spec {B} (l : list B) :
  match pop_last l with
  | Some (x, r) => l = r ++ [x]
  | None => l = []
  end.
Proof.
  unfold pop_last. destruct (last l) as [x|] eqn:E; [|by apply last_None].
  apply last_Some in E as [l' ->]. rewrite length_app. cbn. replace (length l' + 1 - 1) with (length l') by lia.
  by rewrite take_app_length.
Qed.

(** The slot given out was not live, and holds the new inode; no other changes. *)
Lemma allocate_inode_spec v p nm k :
  fs_ok v ->
  exists i v', allocate_inode v p nm k = Ret (i, v') /\ current_inode v' = current_inode v /\
    inodes v' !! i = Some (mkInode i p nm k) /\ i <> 0 /\
    (forall n, inodes v !! i = Some n -> kind n = Tombstone) /\
    (forall j, j <> i -> inodes v' !! j = inodes v !! j) /\
    NoDup (free_inodes v') /\ (forall j, j ∈ free_inodes v' <-> j ∈ free_inodes v /\ j <> i).
Proof.
  intros Hok. destruct (fk_root v Hok) as (n0 & Hn0 & Hd0 & _). unfold allocate_inode.
  pose proof (pop_last_spec (free_inodes v)) as Hp. destruct (pop_last (free_inodes v)) as [[i rest]|].
  - destruct (proj1 (fk_free v Hok i)) as (n & Hn & Hk); [rewrite Hp, elem_of_app, list_elem_of_singleton; by right|].
    rewrite (update_Ret _ _ _ _ Hn). cbn [mbind outcome_bind]. eexists i, _. split; [done|]. cbn [inodes current_inode free_inodes].
    pose proof (fk_free_nodup v Hok) as Hnd. rewrite Hp in Hnd. apply NoDup_app in Hnd as (Hnd & Hdis & _).
    split; [done|]. split; [apply list_lookup_insert_eq; by eapply lookup_lt_Some|].
    split; [intros ->; unfold is_dir in Hd0; assert (n0 = n) as -> by congruence; by rewrite Hk in Hd0|].
    split; [congruence|]. split; [intros j Hj; by rewrite list_lookup_insert_ne|]. split; [done|].
    intros j. rewrite Hp, elem_of_app, list_elem_of_singleton. split; [|tauto].
    intros Hj. split; [by left|]. intros ->. apply (Hdis i Hj). by left.
  - eexists _, _. split; [done|]. cbn [inodes current_inode free_inodes set_inodes]. split; [done|].
    split; [by rewrite list_lookup_middle|]. split; [apply lookup_lt_Some in Hn0; lia|].
    split; [intros n Hn; apply lookup_lt_Some in Hn; lia|].
    split; [|split; [apply (fk_free_nodup v Hok)|]].
    + intros j Hj. destruct (decide (j < length (inodes v))); [by rewrite lookup_app_l|].
      rewrite !(proj2 (lookup_ge_None _ _)); [done|lia|rewrite length_app; cbn; lia].
    + intros j. rewrite Hp. split; [by intros Hj%elem_of_nil|by intros [Hj%elem_of_nil _]].
Qed.

Lemma add_child_spec v p c n ch :
  inodes v !! p = Some n -> kind n = Directory ch ->
  add_child v p c = Ret (set_inodes v (<[p := set_kind n (Directory (ch ++ [c]))]> (inodes v))).
Proof. intros Hp Hk. unfold add_child. rewrite (update_Ret _ _ _ _ Hp). cbn. by rewrite Hk. Qed.

(** A new leaf below a directory: the table afterwards. *)
Lemma create_child_spec v p nm k n :
  fs_ok v -> inodes v !! p = Some n -> is_dir n = true ->
  exists i v', create_child v p nm k = Ret (Ok i, v') /\ current_inode v' = current_inode v /\ i <> 0 /\ i <> p /\
    (forall m, inodes v !! i = Some m -> kind m = Tombstone) /\
    inodes v' !! i = Some (mkInode i p nm k) /\
    inodes v' !! p = Some (set_kind n (Directory (children_of n ++ [i]))) /\
    (forall j, j <> i -> j <> p -> inodes v' !! j = inodes v !! j) /\
    NoDup (free_inodes v') /\ (forall j, j ∈ free_inodes v' <-> j ∈ free_inodes v /\ j <> i).
Proof.
  intros Hok Hp Hd. destruct (allocate_inode_spec v p nm k Hok) as (i & v1 & E & Hc & Hi & Hi0 & Ht & Hj & Hnd & Hfr).
  unfold create_child. rewrite E. cbn [mbind outcome_bind].
  assert (i <> p) as Hip. { intros ->. specialize (Ht n Hp). unfold is_dir in Hd. by rewrite Ht in Hd. }
  rewrite (add_child_spec v1 p i n (children_of n)); [|by rewrite Hj|by apply is_dir_children]. cbn [mbind outcome_bind].
  eexists i, _. split; [done|]. cbn [inodes set_inodes current_inode free_inodes].
  assert (p < length (inodes v1)) by (eapply lookup_lt_Some; by rewrite Hj).
  split_and!; try done.
  - by rewrite list_lookup_insert_ne.
  - by apply list_lookup_insert_eq.
  - intros j Hji Hjp. rewrite list_lookup_insert_ne by done. by apply Hj.
Qed.

Lemma dead_back m m0 : kind m = Tombstone -> (live m <-> live m0) -> kind m0 = Tombstone.
Proof. unfold live. intros Hk Hl. destruct (kind m0); try done; exfalso; by apply (proj2 Hl). Qed.

(** ** Creation keeps the tree *)

(** [v'] is [v] with the new leaf [i] below [p]. *)
Record grown (v v' : Vfs) (p i : nat) (n : Inode) (nm : string) (k : InodeKind) : Prop := {
  gr_parent : inodes v !! p = Some n;
  gr_dir : is_dir n = true;
  gr_nz : i <> 0;
  gr_ne : i <> p;
  gr_slot : forall m, inodes v !! i = Some m -> kind m = Tombstone;
  gr_new : inodes v' !! i = Some (mkInode i p nm k);
  gr_dir' : inodes v' !! p = Some (set_kind n (Directory (children_of n ++ [i])));
  gr_old : forall j, j <> i -> j <> p -> inodes v' !! j = inodes v !! j;
  gr_nodup : NoDup (free_inodes v');
  gr_free : forall j, j ∈ free_inodes v' <-> j ∈ free_inodes v /\ j <> i
}.

Lemma grown_cases v v' p i n nm k j m :
  grown v v' p i n nm k -> inodes v' !! j = Some m ->
  (j = i /\ m = mkInode i p nm k) \/
  (j <> i /\ exists m0, inodes v !! j = Some m0 /\ name m = name m0 /\ parent_id m = parent_id m0 /\ id m = id m0 /\
     (live m <-> live m0) /\ is_dir m = is_dir m0 /\
     (forall c, c ∈ children_of m <-> c ∈ children_of m0 \/ (j = p /\ c = i))).
Proof.
  intros G Hj. destruct (decide (j = i)) as [->|Hji]; [left; split; [done|]; pose proof (gr_new _ _ _ _ _ _ _ G); congruence|].
  right. split; [done|]. destruct (decide (j = p)) as [->|Hjp].
  - exists n. pose proof (gr_dir' _ _ _ _ _ _ _ G) as Hd. rewrite Hj in Hd. injection Hd as ->.
    pose proof (is_dir_children n (gr_dir _ _ _ _ _ _ _ G)) as Hk.
    split; [apply (gr_parent _ _ _ _ _ _ _ G)|]. split_and!; try done.
    + unfold live. rewrite Hk. done.
    + cbn. by rewrite (gr_dir _ _ _ _ _ _ _ G).
    + intros c. unfold children_of at 1. cbn. rewrite elem_of_app, list_elem_of_singleton. tauto.
  - exists m. rewrite (gr_old _ _ _ _ _ _ _ G) in Hj by done. split_and!; try done. intros c. split; [by left|]. intros [?|[? _]]; done.
Qed.

(** Every old inode is still there. *)
Lemma grown_old v v' p i n nm k j m0 :
  grown v v' p i n nm k -> inodes v !! j = Some m0 -> live m0 -> j <> i /\ exists m, inodes v' !! j = Some m /\ name m = name m0 /\
    parent_id m = parent_id m0 /\ (live m <-> live m0) /\ (forall c, c ∈ children_of m0 -> c ∈ children_of m).
Proof.
  intros G Hj Hl. assert (j <> i) as Hji. { intros ->. by apply Hl, (gr_slot _ _ _ _ _ _ _ G). }
  split; [done|]. destruct (decide (j = p)) as [->|Hjp].
  - assert (m0 = n) as -> by (pose proof (gr_parent _ _ _ _ _ _ _ G); congruence).
    eexists. split; [apply (gr_dir' _ _ _ _ _ _ _ G)|]. split; [done|]. split; [done|].
    split; [by unfold live; cbn; split|]. intros c Hc. unfold children_of at 1. cbn. apply elem_of_app. by left.
  - exists m0. by rewrite (gr_old _ _ _ _ _ _ _ G).
Qed.

Section Grown.
Context (v v' : Vfs) (p i : nat) (n : Inode) (nm : string) (k : InodeKind).
Hypothesis Hok : fs_ok v.
Hypothesis G : grown v v' p i n nm k.

Lemma grown_not_child j m : inodes v !! j = Some m -> i ∉ children_of m.
Proof.
  intros Hj Hc. destruct (fk_child v Hok j m i Hj Hc) as (_ & m' & Hm' & Hl & _). by apply Hl, (gr_slot _ _ _ _ _ _ _ G).
Qed.

Lemma grown_root : exists m, inodes v' !! 0 = Some m /\ is_dir m = true /\ parent_id m = 0.
Proof.
  destruct (fk_root v Hok) as (n0 & H0 & Hd & Hp0).
  destruct (grown_old _ _ _ _ _ _ _ 0 n0 G H0) as (_ & m & Hm & _ & Hpm & _); [unfold live; intros E; unfold is_dir in Hd; by rewrite E in Hd|].
  exists m. split; [done|]. destruct (grown_cases _ _ _ _ _ _ _ 0 m G Hm) as [[E _]|(_ & m0 & Hm0 & _ & _ & _ & _ & Hdir & _)];
    [by destruct (gr_nz _ _ _ _ _ _ _ G)|]. assert (m0 = n0) as -> by congruence. split; congruence.
Qed.

Hypothesis Hk : k <> Tombstone.
Hypothesis Hch : children_of (mkInode i p nm k) = [].

Lemma grown_child j m c :
  inodes v' !! j = Some m -> c ∈ children_of m -> c <> 0 /\ exists mc, inodes v' !! c = Some mc /\ live mc /\ parent_id mc = j.
Proof.
  intros Hj Hc. destruct (grown_cases _ _ _ _ _ _ _ j m G Hj) as [[-> ->]|(_ & m0 & Hm0 & _ & _ & _ & _ & _ & Hcs)].
  { rewrite Hch in Hc. by apply elem_of_nil in Hc. }
  destruct (proj1 (Hcs c) Hc) as [Hc'|[-> ->]].
  - destruct (fk_child v Hok j m0 c Hm0 Hc') as (Hc0 & mc & Hmc & Hl & Hpar). split; [done|].
    destruct (grown_old _ _ _ _ _ _ _ c mc G Hmc Hl) as (_ & mc' & Hmc' & _ & Hp' & Hl' & _). exists mc'.
    split; [done|]. split; [by apply Hl'|congruence].
  - split; [apply (gr_nz _ _ _ _ _ _ _ G)|]. eexists. split; [apply (gr_new _ _ _ _ _ _ _ G)|]. by split.
Qed.

Lemma grown_nodup j m : inodes v' !! j = Some m -> NoDup (children_of m).
Proof.
  intros Hj. destruct (decide (j = p)) as [->|Hjp].
  - rewrite (gr_dir' _ _ _ _ _ _ _ G) in Hj. injection Hj as <-. unfold children_of at 1. cbn.
    apply NoDup_app. split; [apply (fk_nodup v Hok p), (gr_parent _ _ _ _ _ _ _ G)|]. split; [|apply NoDup_singleton].
    intros c Hc ->%list_elem_of_singleton. by apply (grown_not_child p n (gr_parent _ _ _ _ _ _ _ G)).
  - destruct (decide (j = i)) as [->|Hji]; [rewrite (gr_new _ _ _ _ _ _ _ G) in Hj; injection Hj as <-; rewrite Hch; constructor|].
    rewrite (gr_old _ _ _ _ _ _ _ G) in Hj by done. by apply (fk_nodup v Hok j).
Qed.

Lemma grown_names j m nm' c1 c2 :
  (forall c, ~ child_named v n nm c) ->
  inodes v' !! j = Some m -> child_named v' m nm' c1 -> child_named v' m nm' c2 -> c1 = c2.
Proof.
  intros Hfresh Hj. pose proof (gr_parent _ _ _ _ _ _ _ G) as Hp.
  destruct (grown_cases _ _ _ _ _ _ _ j m G Hj) as [[-> ->]|(_ & m0 & Hm0 & _ & _ & _ & _ & _ & Hcs)].
  { intros [H1 _]. rewrite Hch in H1. by apply elem_of_nil in H1. }
  assert (Hback : forall c, child_named v' m nm' c -> child_named v m0 nm' c \/ (j = p /\ c = i /\ nm' = nm)).
  { intros c (Hc & mc & Hmc & Hn). destruct (proj1 (Hcs c) Hc) as [Hc'|[-> ->]].
    - left. split; [done|]. destruct (fk_child v Hok j m0 c Hm0 Hc') as (_ & mc0 & Hmc0 & Hl & _).
      destruct (grown_old _ _ _ _ _ _ _ c mc0 G Hmc0 Hl) as (_ & mc' & Hmc' & Hn' & _). exists mc0. split; [done|congruence].
    - right. rewrite (gr_new _ _ _ _ _ _ _ G) in Hmc. injection Hmc as <-. done. }
  intros H1 H2. destruct (Hback _ H1) as [H1'|(-> & -> & ->)], (Hback _ H2) as [H2'|(E & -> & E2)].
  - by apply (fk_names v Hok j m0 nm').
  - subst. destruct (Hfresh c1). by rewrite Hp in Hm0; injection Hm0 as ->.
  - destruct (Hfresh c2). by rewrite Hp in Hm0; injection Hm0 as ->.
  - done.
Qed.

Lemma grown_has_parent c m :
  inodes v' !! c = Some m -> live m -> c <> 0 -> exists q, inodes v' !! parent_id m = Some q /\ c ∈ children_of q.
Proof.
  intros Hc Hl Hc0. destruct (grown_cases _ _ _ _ _ _ _ c m G Hc) as [[-> ->]|(_ & m0 & Hm0 & _ & Hpar & _ & Hl0 & _ & _)].
  - cbn. eexists. split; [apply (gr_dir' _ _ _ _ _ _ _ G)|]. unfold children_of at 1. cbn. apply elem_of_app. right. by left.
  - destruct (fk_parent v Hok c m0 Hm0 (proj1 Hl0 Hl) Hc0) as (q & Hq & Hcq).
    destruct (grown_old _ _ _ _ _ _ _ (parent_id m0) q G Hq) as (_ & q' & Hq' & _ & _ & _ & Hcs).
    { unfold live. intros E. unfold children_of in Hcq. rewrite E in Hcq. by apply elem_of_nil in Hcq. }
    exists q'. rewrite Hpar. split; [done|by apply Hcs].
Qed.

Lemma grown_rank :
  exists rank : nat -> nat, forall c m, inodes v' !! c = Some m -> live m -> c <> 0 -> rank (parent_id m) < rank c.
Proof.
  destruct (fk_rank v Hok) as [rank Hr]. exists (fun x => if decide (x = i) then S (rank p) else rank x).
  intros c m Hc Hl Hc0. destruct (grown_cases _ _ _ _ _ _ _ c m G Hc) as [[-> ->]|(Hci & m0 & Hm0 & _ & Hpar & _ & Hl0 & _ & _)].
  - cbn. rewrite (decide_True (P := i = i)) by done. rewrite decide_False by (apply not_eq_sym, (gr_ne _ _ _ _ _ _ _ G)). lia.
  - rewrite (decide_False (P := c = i)) by done. rewrite Hpar. apply Hl0 in Hl.
    destruct (fk_parent v Hok c m0 Hm0 Hl Hc0) as (q & Hq & Hcq). rewrite decide_False; [by apply Hr|].
    intros E. rewrite E in Hq. pose proof (gr_slot _ _ _ _ _ _ _ G q Hq) as Et.
    unfold children_of in Hcq. rewrite Et in Hcq. by apply elem_of_nil in Hcq.
Qed.

Lemma grown_free j : j ∈ free_inodes v' <-> exists m, inodes v' !! j = Some m /\ kind m = Tombstone.
Proof.
  rewrite (gr_free _ _ _ _ _ _ _ G), (fk_free v Hok). split.
  - intros [(m & Hm & Hkm) Hji]. destruct (decide (j = p)) as [->|Hjp].
    { exfalso. pose proof (gr_dir _ _ _ _ _ _ _ G) as Hd. unfold is_dir in Hd.
      pose proof (gr_parent _ _ _ _ _ _ _ G). assert (m = n) as -> by congruence. by rewrite Hkm in Hd. }
    exists m. by rewrite (gr_old _ _ _ _ _ _ _ G).
  - intros (m & Hm & Hkm). destruct (grown_cases _ _ _ _ _ _ _ j m G Hm) as [[-> ->]|(Hji & m0 & Hm0 & _ & _ & _ & Hl0 & _)]; [done|].
    split; [|done]. exists m0. split; [done|]. by eapply dead_back.
Qed.

Lemma grown_ok : (forall c, ~ child_named v n nm c) -> fs_ok v'.
Proof.
  intros Hfresh. split.
  - apply grown_root.
  - intros j m Hj. destruct (grown_cases _ _ _ _ _ _ _ j m G Hj) as [[-> ->]|(_ & m0 & Hm0 & _ & _ & Hid & _)]; [done|].
    rewrite Hid. by apply (fk_id v Hok).
  - apply grown_child.
  - apply grown_nodup.
  - intros j m nm' c1 c2. by apply grown_names.
  - apply grown_has_parent.
  - apply grown_rank.
  - intros j m Hj Hkm. destruct (grown_cases _ _ _ _ _ _ _ j m G Hj) as [[-> ->]|(_ & m0 & Hm0 & _ & -> & _ & Hl0 & _)]; [done|].
    apply (fk_tomb v Hok j m0 Hm0). by eapply dead_back.
  - apply (gr_nodup _ _ _ _ _ _ _ G).
  - apply grown_free.
Qed.

End Grown.

Lemma create_child_grown v p nm k n :
  fs_ok v -> inodes v !! p = Some n -> is_dir n = true ->
  exists i v', create_child v p nm k = Ret (Ok i, v') /\ current_inode v' = current_inode v /\ grown v v' p i n nm k.
Proof.
  intros Hok Hp Hd. destruct (create_child_spec v p nm k n Hok Hp Hd) as (i & v' & E & Hc & ? & ? & ? & ? & ? & ? & ? & ?).
  exists i, v'. by split_and!.
Qed.

(** ** Subtrees *)

(** [x] is [i] or below it. *)
Inductive under (v : Vfs) (i : nat) : nat -> Prop :=
  | under_refl : under v i i
  | under_child p n c : under v i p -> inodes v !! p = Some n -> c ∈ children_of n -> under v i c.

Section Subtrees.
Context (v : Vfs) (Hok : fs_ok v).

Lemma child_inv p n c : inodes v !! p = Some n -> c ∈ children_of n -> exists m, inodes v !! c = Some m /\ live m /\ parent_id m = p /\ c <> 0.
Proof. intros Hp Hc. destruct (fk_child v Hok p n c Hp Hc) as (? & m & ? & ? & ?). by exists m. Qed.

(** The parent of a child is unique. *)
Lemma parent_unique p q n n' c :
  inodes v !! p = Some n -> c ∈ children_of n -> inodes v !! q = Some n' -> c ∈ children_of n' -> p = q.
Proof.
  intros Hp Hc Hq Hc'. destruct (child_inv p n c Hp Hc) as (m & Hm & _ & <- & _).
  destruct (child_inv q n' c Hq Hc') as (m' & Hm' & _ & <- & _). congruence.
Qed.

Lemma under_live i m x : inodes v !! i = Some m -> live m -> under v i x -> exists n, inodes v !! x = Some n /\ live n.
Proof.
  intros Hi Hl H. destruct H as [|p n c _ Hp Hc]; [by exists m|]. destruct (child_inv p n c Hp Hc) as (mc & ? & ? & _). by exists mc.
Qed.

Lemma under_rank rank i x :
  (forall c m, inodes v !! c = Some m -> live m -> c <> 0 -> rank (parent_id m) < rank c) ->
  under v i x -> x = i \/ rank i < rank x.
Proof.
  intros Hr H. induction H as [|p n c Hu IH Hp Hc]; [by left|right].
  destruct (child_inv p n c Hp Hc) as (m & Hm & Hl & <- & Hc0). specialize (Hr c m Hm Hl Hc0). destruct IH as [<-|?]; lia.
Qed.

Lemma under_not_root i x : i <> 0 -> under v i x -> x <> 0.
Proof. intros Hi H. destruct H as [|p n c _ Hp Hc]; [done|]. by destruct (child_inv p n c Hp Hc) as (_ & _ & _ & _ & ?). Qed.

(** Below [i], [x] is [i] or below a child of [i]. *)
Lemma under_down i n x : inodes v !! i = Some n -> under v i x <-> x = i \/ exists c, c ∈ children_of n /\ under v c x.
Proof.
  intros Hi. split.
  - induction 1 as [|p np c Hu IH Hp Hc]; [by left|right]. destruct IH as [->|(c' & Hc' & Hu')].
    + exists c. assert (np = n) as -> by congruence. split; [done|constructor].
    + exists c'. split; [done|]. by eapply under_child.
  - intros [->|(c & Hc & Hu)]; [constructor|]. induction Hu as [|p np c' Hu IH Hp Hc']; [|by eapply under_child].
    eapply under_child; [constructor|done|done].
Qed.

(** The subtrees of two siblings are disjoint. *)
Lemma siblings_disjoint i n c1 c2 x :
  inodes v !! i = Some n -> c1 ∈ children_of n -> c2 ∈ children_of n -> under v c1 x -> under v c2 x -> c1 = c2.
Proof.
  intros Hi H1 H2 Hu1. destruct (fk_rank v Hok) as [rank Hr].
  assert (Hno : forall c, c ∈ children_of n -> ~ under v c i).
  { intros c Hc Hu. destruct (child_inv i n c Hi Hc) as (m & Hm & Hl & Hp & Hc0). specialize (Hr c m Hm Hl Hc0) as Hlt.
    rewrite Hp in Hlt. destruct (under_rank rank c i Hr Hu) as [->|?]; lia. }
  induction Hu1 as [|p np c Hu IH Hp Hc]; intros Hu2.
  - inversion Hu2 as [|q nq c' Huq Hq Hcq]; subst; [done|]. rewrite (parent_unique q i nq n c1 Hq Hcq Hi H1) in Huq.
    by destruct (Hno c2 H2).
  - inversion Hu2 as [|q nq c' Huq Hq Hcq]; subst.
    + rewrite (parent_unique p i np n c Hp Hc Hi H2) in Hu. by destruct (Hno c1 H1).
    + rewrite (parent_unique q p nq np c Hq Hcq Hp Hc) in Huq. by apply IH.
Qed.

(** ** [collect_descendants] *)

(** The inner loop over the children. *)
Fixpoint collect_children (fuel : nat) (cs : list nat) : outcome (list nat) :=
  match cs with
  | [] => Ret []
  | c :: rest => sub ← collect_descendants fuel (inodes v) c; tl ← collect_children fuel rest; Ret (c :: sub ++ tl)
  end.

Lemma collect_descendants_eq fuel i n :
  inodes v !! i = Some n ->
  collect_descendants (S fuel) (inodes v) i = match kind n with Directory cs => collect_children fuel cs | _ => Ret [] end.
Proof.
  intros Hi. cbn [collect_descendants]. rewrite (at_Ret _ _ _ Hi). cbn [mbind outcome_bind]. destruct (kind n); [done| |done..].
  induction children as [|c cs IH]; [done|]. cbn [collect_children]. by rewrite <- IH.
Qed.

Lemma pigeonhole (l : list nat) (k : nat) : NoDup l -> (forall x, x ∈ l -> x < k) -> length l <= k.
Proof.
  intros Hnd Hl. assert (length l <= length (seq 0 k)) as H; [|by rewrite length_seq in H].
  apply NoDup_incl_length; [by apply NoDup_ListNoDup|]. intros x Hx. apply in_seq. apply list_elem_of_In in Hx. specialize (Hl x Hx). lia.
Qed.

Lemma collect_children_ret fuel i n cs :
  inodes v !! i = Some n -> (forall c, c ∈ cs -> c ∈ children_of n) -> NoDup cs ->
  (forall c, c ∈ cs -> exists l, collect_descendants fuel (inodes v) c = Ret l /\ NoDup l /\ (forall x, x ∈ l <-> under v c x /\ x <> c)) ->
  exists l, collect_children fuel cs = Ret l /\ NoDup l /\ (forall x, x ∈ l <-> exists c, c ∈ cs /\ under v c x).
Proof.
  intros Hi. induction cs as [|c cs IH]; intros Hin Hnd Hsub; cbn [collect_children].
  { exists []. split; [done|]. split; [constructor|]. intros x. split; [by intros H%elem_of_nil|]. intros (c & Hc & _). by apply elem_of_nil in Hc. }
  apply NoDup_cons in Hnd as [Hcn Hnd]. destruct (Hsub c) as (l1 & -> & Hn1 & H1); [by left|].
  destruct IH as (l2 & -> & Hn2 & H2); [intros; apply Hin; by right|done|intros; apply Hsub; by right|].
  cbn [mbind outcome_bind]. exists (c :: l1 ++ l2).
  assert (Hd : forall x, under v c x -> x ∉ l2).
  { intros x Hx Hx2. apply H2 in Hx2 as (c' & Hc' & Hu'). assert (c = c') as ->; [|done].
    apply (siblings_disjoint i n c c' x Hi); [apply Hin; by left|apply Hin; by right|done|done]. }
  split; [done|]. split.
  - apply NoDup_cons. split; [|apply NoDup_app; split; [done|]; split; [|done]; intros x Hx; apply Hd; by apply H1].
    rewrite elem_of_app. intros [Hx|Hx]; [by apply H1 in Hx as [_ ?]|]. by apply (Hd c (under_refl v c)).
  - intros x. rewrite elem_of_cons, elem_of_app, H1, H2. setoid_rewrite elem_of_cons. split.
    + intros [->|[[Hu _]|(c' & ? & ?)]]; [exists c; split; [by left|constructor]|exists c; auto|exists c'; auto].
    + intros (c' & [->|Hc'] & Hu); [destruct (decide (x = c)); auto|right; right; eauto].
Qed.

Lemma collect_ret rank fuel : forall i n anc,
  (forall c m, inodes v !! c = Some m -> live m -> c <> 0 -> rank (parent_id m) < rank c) ->
  inodes v !! i = Some n -> NoDup anc -> i ∈ anc -> (forall a, a ∈ anc -> a < length (inodes v) /\ rank a <= rank i) ->
  length (inodes v) < fuel + length anc ->
  exists l, collect_descendants fuel (inodes v) i = Ret l /\ NoDup l /\ (forall x, x ∈ l <-> under v i x /\ x <> i).
Proof.
  induction fuel as [|fuel IH]; intros i n anc Hr Hi Hnd Hia Hanc Hlen.
  { exfalso. pose proof (pigeonhole anc (length (inodes v)) Hnd ltac:(intros x Hx; by apply Hanc)). lia. }
  rewrite (collect_descendants_eq fuel i n Hi).
  assert (Hleaf : children_of n = [] -> exists l, Ret [] = Ret l /\ NoDup l /\ (forall x, x ∈ l <-> under v i x /\ x <> i)).
  { intros E. exists []. split; [done|]. split; [constructor|]. intros x. rewrite (under_down i n x Hi), E. split; [by intros H%elem_of_nil|].
    intros [[?|(c & Hc & _)] ?]; [done|]. by apply elem_of_nil in Hc. }
  destruct (kind n) as [ct|cs|gn| | | |] eqn:Ek; try (apply Hleaf; unfold children_of; by rewrite Ek). clear Hleaf.
  assert (Hcs : cs = children_of n) by (unfold children_of; by rewrite Ek).
  assert (Hsub : forall c, c ∈ cs -> exists l, collect_descendants fuel (inodes v) c = Ret l /\ NoDup l /\ (forall x, x ∈ l <-> under v c x /\ x <> c)).
  { intros c Hc. rewrite Hcs in Hc. destruct (child_inv i n c Hi Hc) as (m & Hm & Hl & Hp & Hc0).
    pose proof (Hr c m Hm Hl Hc0) as Hlt. rewrite Hp in Hlt.
    assert (c ∉ anc) as Hnew by (intros Hin; destruct (Hanc c Hin); lia).
    apply (IH c m (c :: anc)); [done|done|by constructor|by left| |cbn; lia].
    intros a Ha. apply elem_of_cons in Ha as [->|Ha]; [split; [by eapply lookup_lt_Some|lia]|]. destruct (Hanc a Ha). split; [done|lia]. }
  destruct (collect_children_ret fuel i n cs Hi) as (l & -> & Hnl & Hl); [intros c Hc; by rewrite <- Hcs|rewrite Hcs; by apply (fk_nodup v Hok i)|done|]. exists l. split; [done|]. split; [done|].
  intros x. rewrite Hl, (under_down i n x Hi), <- Hcs. split.
  - intros (c & Hc & Hu). split; [right; eauto|]. intros ->. rewrite Hcs in Hc.
    destruct (child_inv i n c Hi Hc) as (m & Hm & Hlv & Hp & Hc0). pose proof (Hr c m Hm Hlv Hc0) as Hlt. rewrite Hp in Hlt.
    destruct (under_rank rank c i Hr Hu) as [->|?]; lia.
  - intros [[?|?] ?]; [done|done].
Qed.

End Subtrees.

(** ** Removal *)

Lemma remove_child_spec x l :
  NoDup l -> x ∈ l -> exists l', remove_child x l = Some l' /\ NoDup l' /\ forall y, y ∈ l' <-> y ∈ l /\ y <> x.
Proof.
  induction l as [|z l IH]; intros Hnd Hx; [by apply elem_of_nil in Hx|]. apply NoDup_cons in Hnd as [Hz Hnd]. cbn [remove_child].
  destruct (Nat.eqb_spec z x) as [->|Hzx].
  - exists l. split; [done|]. split; [done|]. intros y. rewrite elem_of_cons. split; [|tauto].
    intros Hy. split; [by right|]. by intros ->.
  - apply elem_of_cons in Hx as [->|Hx]; [done|]. destruct (IH Hnd Hx) as (l' & -> & Hnd' & Hl'). exists (z :: l').
    split; [done|]. split; [apply NoDup_cons; split; [by rewrite Hl'; tauto|done]|]. intros y. rewrite !elem_of_cons, Hl'.
    split; [intros [->|[? ?]]; auto|]. intros [[->|?] ?]; auto.
Qed.

Definition grave (n : Inode) : Inode := mkInode (id n) 0 "" Tombstone.

Lemma bury_spec xs : forall l free,
  (forall x, x ∈ xs -> x < length l) ->
  exists l', bury l free xs = Ret (l', free ++ xs) /\
    forall j, l' !! j = if decide (j ∈ xs) then grave <$> l !! j else l !! j.
Proof.
  induction xs as [|x xs IH]; intros l free Hx; cbn [bury].
  { exists l. rewrite app_nil_r. split; [done|]. intros j. rewrite decide_False; [done|]. by intros H%elem_of_nil. }
  destruct (lookup_lt_is_Some_2 l x) as [n Hn]; [apply Hx; by left|]. rewrite (update_Ret _ _ _ _ Hn). cbn [mbind outcome_bind].
  destruct (IH (<[x := grave n]> l) (free ++ [x])) as (l' & E & Hl'); [intros y Hy; rewrite length_insert; apply Hx; by right|].
  fold (grave n) in *. rewrite E. exists l'. split; [by rewrite <- app_assoc|]. intros j. rewrite Hl'.
  destruct (decide (j = x)) as [->|Hjx].
  - rewrite list_lookup_insert_eq by (by eapply lookup_lt_Some). rewrite Hn. rewrite (decide_True (P := x ∈ x :: xs)) by (by left).
    by destruct (decide (x ∈ xs)).
  - rewrite list_lookup_insert_ne by done. destruct (decide (j ∈ xs)) as [H|H].
    + by rewrite decide_True by (by right).
    + rewrite decide_False; [done|]. rewrite elem_of_cons. tauto.
Qed.

(** [v'] is [v] without the subtree of [t], a child of [p]. *)
Record pruned (v v' : Vfs) (p t : nat) (n : Inode) : Prop := {
  pr_parent : inodes v !! p = Some n;
  pr_child : t ∈ children_of n;
  pr_above : ~ under v t p;
  pr_dec : forall x, under v t x \/ ~ under v t x;
  pr_gone : forall x, under v t x -> inodes v' !! x = Some (mkInode x 0 "" Tombstone);
  pr_dir : exists ch, inodes v' !! p = Some (set_kind n (Directory ch)) /\ NoDup ch /\ (forall c, c ∈ ch <-> c ∈ children_of n /\ c <> t);
  pr_old : forall x, ~ under v t x -> x <> p -> inodes v' !! x = inodes v !! x;
  pr_nodup : NoDup (free_inodes v');
  pr_last : exists l, free_inodes v' = l ++ [t];
  pr_free : forall x, x ∈ free_inodes v' <-> x ∈ free_inodes v \/ under v t x
}.

Lemma remove_entry_pruned v t m :
  fs_ok v -> t <> 0 -> inodes v !! t = Some m -> live m ->
  exists v' n, remove_entry v t = Ret (Ok tt, v') /\ current_inode v' = current_inode v /\ pruned v v' (parent_id m) t n.
Proof.
  intros Hok Ht Hm Hl. destruct (fk_parent v Hok t m Hm Hl Ht) as (n & Hn & Hc). destruct (fk_rank v Hok) as [rank Hr].
  unfold remove_entry. rewrite (proj2 (Nat.eqb_neq t 0) Ht).
  destruct (collect_ret v Hok rank (length (inodes v)) t m [t] Hr Hm) as (sub & -> & Hnd & Hsub);
    [apply NoDup_singleton|by left| |cbn; lia|].
  { intros a ->%list_elem_of_singleton. split; [by eapply lookup_lt_Some|lia]. }
  cbn [mbind outcome_bind]. rewrite (at_Ret _ _ _ Hm). cbn [mbind outcome_bind]. rewrite (at_Ret _ _ _ Hn). cbn [mbind outcome_bind].
  assert (Hk : kind n = Directory (children_of n)).
  { unfold children_of in *. destruct (kind n); try done; by apply elem_of_nil in Hc. }
  rewrite Hk. destruct (remove_child_spec t (children_of n)) as (ch & -> & Hndch & Hch); [by apply (fk_nodup v Hok (parent_id m))|done|].
  rewrite (update_Ret _ _ _ _ Hn). cbn [mbind outcome_bind]. set (l1 := <[parent_id m := _]> (inodes v)).
  assert (Hclean : forall x, x ∈ sub ++ [t] <-> under v t x).
  { intros x. rewrite elem_of_app, list_elem_of_singleton, Hsub. split; [intros [[? _]| ->]; [done|constructor]|].
    intros Hu. destruct (decide (x = t)); [by right|by left]. }
  assert (Hnp : ~ under v t (parent_id m)).
  { intros Hu. pose proof (Hr t m Hm Hl Ht). destruct (under_rank v Hok rank t (parent_id m) Hr Hu) as [E|?]; [rewrite E in *|]; lia. }
  destruct (bury_spec (sub ++ [t]) l1 (free_inodes v)) as (l2 & -> & Hl2).
  { intros x Hx. apply Hclean in Hx. destruct (under_live v Hok t m x Hm Hl Hx) as (y & Hy & _). unfold l1. rewrite length_insert.
    by eapply lookup_lt_Some. }
  cbn [mbind outcome_bind]. eexists _, n. split; [done|]. split; [done|].
  assert (Hlook : forall x, x <> parent_id m -> l1 !! x = inodes v !! x) by (intros x Hx; unfold l1; by rewrite list_lookup_insert_ne).
  split; cbn [inodes free_inodes]; [done|done|done|intros x; rewrite <- Hclean; destruct (decide (x ∈ sub ++ [t])); auto|..].
  - intros x Hx. rewrite Hl2, decide_True by (by apply Hclean). rewrite Hlook by (by intros ->).
    destruct (under_live v Hok t m x Hm Hl Hx) as (y & Hy & _). rewrite Hy. cbn. unfold grave. by rewrite (fk_id v Hok x y Hy).
  - exists ch. split; [|done]. rewrite Hl2, decide_False by (by rewrite Hclean). unfold l1.
    rewrite list_lookup_insert_eq by (by eapply lookup_lt_Some). done.
  - intros x Hx Hxp. rewrite Hl2, decide_False by (by rewrite Hclean). by apply Hlook.
  - apply NoDup_app. split; [apply (fk_free_nodup v Hok)|]. split.
    + intros x Hx Hx2. apply Hclean in Hx2. apply (fk_free v Hok) in Hx as (y & Hy & Hky).
      destruct (under_live v Hok t m x Hm Hl Hx2) as (y' & Hy' & Hl'). apply Hl'. congruence.
    + apply NoDup_app. split; [done|]. split; [|apply NoDup_singleton]. intros x Hx ->%list_elem_of_singleton. by apply Hsub in Hx as [_ ?].
  - exists (free_inodes v ++ sub). by rewrite <- app_assoc.
  - intros x. by rewrite elem_of_app, Hclean.
Qed.

Section Pruned.
Context (v v' : Vfs) (p t : nat) (n : Inode).
Hypothesis Hok : fs_ok v.
Hypothesis P : pruned v v' p t n.

Lemma pruned_old x m0 :
  inodes v !! x = Some m0 -> ~ under v t x ->
  exists m, inodes v' !! x = Some m /\ name m = name m0 /\ parent_id m = parent_id m0 /\ id m = id m0 /\
     (live m <-> live m0) /\ is_dir m = is_dir m0 /\ NoDup (children_of m) /\
     (forall c, c ∈ children_of m <-> c ∈ children_of m0 /\ (x = p -> c <> t)).
Proof.
  intros Hx Hu. destruct (decide (x = p)) as [->|Hxp].
  - destruct (pr_dir _ _ _ _ _ P) as (ch & Hd & Hnd & Hch). assert (m0 = n) as -> by (pose proof (pr_parent _ _ _ _ _ P); congruence).
    assert (Hdir : is_dir n = true).
    { pose proof (pr_child _ _ _ _ _ P) as Hc. unfold children_of in Hc. unfold is_dir. destruct (kind n); try done; by apply elem_of_nil in Hc. }
    eexists. split; [exact Hd|]. do 3 (split; [done|]).
    split; [unfold live; by rewrite (is_dir_children n Hdir)|]. split; [by rewrite Hdir|]. split; [done|].
    intros c. unfold children_of at 1. cbn. rewrite Hch. tauto.
  - exists m0. rewrite (pr_old _ _ _ _ _ P) by done. split_and!; try done; [by eapply fk_nodup|].
    intros c. split; [|tauto]. intros ?. by split.
Qed.

Lemma pruned_cases x m :
  inodes v' !! x = Some m ->
  (under v t x /\ m = mkInode x 0 "" Tombstone) \/
  (~ under v t x /\ exists m0, inodes v !! x = Some m0 /\ name m = name m0 /\ parent_id m = parent_id m0 /\ id m = id m0 /\
     (live m <-> live m0) /\ is_dir m = is_dir m0 /\ NoDup (children_of m) /\
     (forall c, c ∈ children_of m <-> c ∈ children_of m0 /\ (x = p -> c <> t))).
Proof.
  intros Hx. destruct (pr_dec _ _ _ _ _ P x) as [Hu|Hu]; [left; split; [done|]; rewrite (pr_gone _ _ _ _ _ P x Hu) in Hx; congruence|].
  right. split; [done|]. assert (exists m0, inodes v !! x = Some m0) as [m0 Hm0].
  { destruct (decide (x = p)) as [->|]; [exists n; apply (pr_parent _ _ _ _ _ P)|]. exists m. by rewrite <- (pr_old _ _ _ _ _ P). }
  exists m0. split; [done|]. destruct (pruned_old x m0 Hm0 Hu) as (m' & Hm' & H). assert (m' = m) as -> by congruence. done.
Qed.

(** Children of survivors, the removed one apart, survive. *)
Lemma survivor_child x m0 c :
  inodes v !! x = Some m0 -> ~ under v t x -> c ∈ children_of m0 -> (x = p -> c <> t) -> ~ under v t c.
Proof.
  intros Hx Hu Hc Hne Huc. inversion Huc as [|q nq c' Hq Hnq Hcq]; subst.
  - apply Hne; [|done]. eapply parent_unique; [done|exact Hx|done|apply (pr_parent _ _ _ _ _ P)|apply (pr_child _ _ _ _ _ P)].
  - apply Hu. by rewrite (parent_unique v Hok x q m0 nq c Hx Hc Hnq Hcq).
Qed.

Lemma pruned_child x m c :
  inodes v' !! x = Some m -> c ∈ children_of m -> c <> 0 /\ exists mc, inodes v' !! c = Some mc /\ live mc /\ parent_id mc = x.
Proof.
  intros Hx Hc. destruct (pruned_cases x m Hx) as [[_ ->]|(Hu & m0 & Hm0 & _ & _ & _ & _ & _ & _ & Hcs)]; [by apply elem_of_nil in Hc|].
  apply Hcs in Hc as [Hc Hne]. destruct (fk_child v Hok x m0 c Hm0 Hc) as (Hc0 & mc & Hmc & Hl & Hp). split; [done|].
  destruct (pruned_old c mc Hmc (survivor_child x m0 c Hm0 Hu Hc Hne)) as (mc' & ? & _ & Hp' & _ & Hl' & _).
  exists mc'. split; [done|]. split; [by apply Hl'|congruence].
Qed.

Lemma pruned_names x m nm c1 c2 :
  inodes v' !! x = Some m -> child_named v' m nm c1 -> child_named v' m nm c2 -> c1 = c2.
Proof.
  intros Hx. destruct (pruned_cases x m Hx) as [[_ ->]|(Hu & m0 & Hm0 & _ & _ & _ & _ & _ & _ & Hcs)]; [by intros [H%elem_of_nil _]|].
  assert (Hback : forall c, child_named v' m nm c -> child_named v m0 nm c).
  { intros c (Hc & mc & Hmc & Hn). apply Hcs in Hc as [Hc Hne]. split; [done|].
    destruct (pruned_cases c mc Hmc) as [[Hu' _]|(_ & mc0 & Hmc0 & Hn0 & _)]; [by destruct (survivor_child x m0 c Hm0 Hu Hc Hne)|].
    exists mc0. split; [done|congruence]. }
  intros H1 H2. apply (fk_names v Hok x m0 nm); auto.
Qed.

Lemma pruned_has_parent c m :
  inodes v' !! c = Some m -> live m -> c <> 0 -> exists q, inodes v' !! parent_id m = Some q /\ c ∈ children_of q.
Proof.
  intros Hc Hl Hc0. destruct (pruned_cases c m Hc) as [[_ ->]|(Hu & m0 & Hm0 & _ & Hp & _ & Hl0 & _)]; [by destruct Hl|].
  destruct (fk_parent v Hok c m0 Hm0 (proj1 Hl0 Hl) Hc0) as (q & Hq & Hcq).
  assert (Huq : ~ under v t (parent_id m0)) by (intros H; apply Hu; by eapply under_child).
  destruct (pruned_old _ q Hq Huq) as (q' & Hq' & _ & _ & _ & _ & _ & _ & Hcs). exists q'. rewrite Hp. split; [done|].
  apply Hcs. split; [done|]. intros _ ->. apply Hu. constructor.
Qed.

Lemma pruned_ok : t <> 0 -> fs_ok v'.
Proof.
  intros Ht. assert (Hroot : ~ under v t 0) by (intros H; by apply (under_not_root v Hok t 0 Ht H)). split.
  - destruct (fk_root v Hok) as (n0 & H0 & Hd & Hp0). destruct (pruned_old 0 n0 H0 Hroot) as (m & Hm & _ & Hp & _ & _ & Hd' & _).
    exists m. split; [done|]. split; congruence.
  - intros x m Hx. destruct (pruned_cases x m Hx) as [[_ ->]|(_ & m0 & Hm0 & _ & _ & -> & _)]; [done|by apply (fk_id v Hok)].
  - apply pruned_child.
  - intros x m Hx. destruct (pruned_cases x m Hx) as [[_ ->]|(_ & m0 & _ & _ & _ & _ & _ & _ & ? & _)]; [constructor|done].
  - apply pruned_names.
  - apply pruned_has_parent.
  - destruct (fk_rank v Hok) as [rank Hr]. exists rank. intros c m Hc Hl Hc0.
    destruct (pruned_cases c m Hc) as [[_ ->]|(_ & m0 & Hm0 & _ & -> & _ & Hl0 & _)]; [by destruct Hl|]. apply Hr; [done|by apply Hl0|done].
  - intros x m Hx Hk. destruct (pruned_cases x m Hx) as [[_ ->]|(_ & m0 & Hm0 & _ & -> & _ & Hl0 & _)]; [done|].
    apply (fk_tomb v Hok x m0 Hm0). by eapply dead_back.
  - apply (pr_nodup _ _ _ _ _ P).
  - intros x. rewrite (pr_free _ _ _ _ _ P), (fk_free v Hok). split.
    + intros [(m & Hm & Hk)|Hu]; [|eexists; split; [by apply (pr_gone _ _ _ _ _ P)|done]].
      destruct (pr_dec _ _ _ _ _ P x) as [Hu|Hu]; [eexists; split; [by apply (pr_gone _ _ _ _ _ P)|done]|].
      exists m. destruct (decide (x = p)) as [->|]; [|by rewrite (pr_old _ _ _ _ _ P)].
      exfalso. pose proof (pr_child _ _ _ _ _ P) as Hc. pose proof (pr_parent _ _ _ _ _ P). assert (m = n) as -> by congruence.
      unfold children_of in Hc. rewrite Hk in Hc. by apply elem_of_nil in Hc.
    + intros (m & Hm & Hk). destruct (pruned_cases x m Hm) as [[Hu _]|(_ & m0 & Hm0 & _ & _ & _ & Hl0 & _)]; [by right|left].
      exists m0. split; [done|]. by eapply dead_back.
Qed.

End Pruned.

(** ** Overwriting a file *)
Lemma overwrite_ok v i n c c0 :
  fs_ok v -> inodes v !! i = Some n -> kind n = File c0 ->
  fs_ok (set_inodes v (<[i := set_kind n (File c)]> (inodes v))).
Proof.
  intros Hok Hi Hk. set (l := <[i := _]> (inodes v)).
  assert (Hcase : forall j m, l !! j = Some m -> exists m0, inodes v !! j = Some m0 /\ name m = name m0 /\ parent_id m = parent_id m0 /\
    id m = id m0 /\ (live m <-> live m0) /\ is_dir m = is_dir m0 /\ children_of m = children_of m0).
  { intros j m Hj. destruct (decide (i = j)) as [<-|Hne].
    - unfold l in Hj. rewrite list_lookup_insert_eq in Hj by (by eapply lookup_lt_Some). injection Hj as <-. exists n.
      unfold live, is_dir, children_of. cbn. rewrite Hk. by split_and!.
    - unfold l in Hj. rewrite list_lookup_insert_ne in Hj by done. by exists m. }
  assert (Hold : forall j m0, inodes v !! j = Some m0 -> exists m, l !! j = Some m /\ name m = name m0 /\ parent_id m = parent_id m0 /\
    (live m <-> live m0) /\ is_dir m = is_dir m0 /\ children_of m = children_of m0).
  { intros j m0 Hj. destruct (lookup_lt_is_Some_2 l j) as [m Hm]; [unfold l; rewrite length_insert; by eapply lookup_lt_Some|].
    exists m. split; [done|]. destruct (Hcase j m Hm) as (m1 & Hm1 & ? & ? & ? & ? & ? & ?). assert (m1 = m0) as -> by congruence. done. }
  assert (Hnamed : forall m m0 nm x, children_of m = children_of m0 -> child_named (set_inodes v l) m nm x -> child_named v m0 nm x).
  { intros m m0 nm x Hc (Hx & mx & Hmx & Hn). split; [congruence|]. destruct (Hcase x mx Hmx) as (mx0 & ? & ? & _). exists mx0. split; [done|congruence]. }
  split; cbn [inodes set_inodes free_inodes].
  - destruct (fk_root v Hok) as (n0 & H0 & Hd & Hp). destruct (Hold 0 n0 H0) as (m & Hm & _ & Hpm & _ & Hdm & _). exists m. split; [done|]. split; congruence.
  - intros j m Hj. destruct (Hcase j m Hj) as (m0 & Hm0 & _ & _ & -> & _). by apply (fk_id v Hok).
  - intros j m x Hj Hx. destruct (Hcase j m Hj) as (m0 & Hm0 & _ & _ & _ & _ & _ & Hc). rewrite Hc in Hx.
    destruct (fk_child v Hok j m0 x Hm0 Hx) as (? & mx & Hmx & Hl & Hp). split; [done|].
    destruct (Hold x mx Hmx) as (mx' & ? & _ & Hp' & Hl' & _). exists mx'. split; [done|]. split; [by apply Hl'|congruence].
  - intros j m Hj. destruct (Hcase j m Hj) as (m0 & Hm0 & _ & _ & _ & _ & _ & ->). by apply (fk_nodup v Hok j).
  - intros j m nm x1 x2 Hj H1 H2. destruct (Hcase j m Hj) as (m0 & Hm0 & _ & _ & _ & _ & _ & Hc).
    apply (fk_names v Hok j m0 nm); eauto.
  - intros x m Hx Hl Hx0. destruct (Hcase x m Hx) as (m0 & Hm0 & _ & -> & _ & Hl0 & _).
    destruct (fk_parent v Hok x m0 Hm0 (proj1 Hl0 Hl) Hx0) as (q & Hq & Hxq). destruct (Hold _ q Hq) as (q' & ? & _ & _ & _ & _ & Hc).
    exists q'. rewrite Hc. done.
  - destruct (fk_rank v Hok) as [rank Hr]. exists rank. intros x m Hx Hl Hx0. destruct (Hcase x m Hx) as (m0 & Hm0 & _ & -> & _ & Hl0 & _).
    apply Hr; [done|by apply Hl0|done].
  - intros j m Hj Hkm. destruct (Hcase j m Hj) as (m0 & Hm0 & _ & -> & _ & Hl0 & _). apply (fk_tomb v Hok j m0 Hm0). by eapply dead_back.
  - apply (fk_free_nodup v Hok).
  - intros j. rewrite (fk_free v Hok). split; intros (m & Hm & Hkm).
    + destruct (Hold j m Hm) as (m' & ? & _ & _ & Hl & _). exists m'. split; [done|]. by eapply dead_back.
    + destruct (Hcase j m Hm) as (m0 & ? & _ & _ & _ & Hl & _). exists m0. split; [done|]. by eapply dead_back.
Qed.

(** ** The operations *)
Inductive fs_op :=
  | Mkdir (parent : nat) (nm : string)
  | CreateFile (parent : nat) (nm : string) (content : list Z)
  | CreateProc (parent : nat) (nm : string) (gen : Generator)
  | CreateDevice (parent : nat) (nm : string) (k : InodeKind)
  | Remove (target : nat).

(** The answer of an operation: the new inode where there is one. *)
Definition run_op (v : Vfs) (op : fs_op) : outcome (result nat VfsError * Vfs) :=
  match op with
  | Mkdir p nm => mkdir_at v p nm
  | CreateFile p nm c => create_file_at v p nm c
  | CreateProc p nm gen => create_proc_file_at v p nm gen
  | CreateDevice p nm k => create_device_file_at v p nm k
  | Remove t =>
      '(r, v') ← remove_entry v t;
      Ret (match r with Ok _ => Ok t | Err e => Err e end, v')
  end.

(** Inode numbers name slots of the table; pseudo-files get a new name. *)
Definition valid_op (v : Vfs) (op : fs_op) : Prop :=
  match op with
  | Mkdir p _ | CreateFile p _ _ => p < length (inodes v)
  | CreateProc p nm _ => exists n, inodes v !! p = Some n /\ forall c, ~ child_named v n nm c
  | CreateDevice p nm k => (k = DevNull \/ k = DevZero \/ k = DevRandom) /\
      exists n, inodes v !! p = Some n /\ forall c, ~ child_named v n nm c
  | Remove t => t < length (inodes v)
  end.

Lemma create_child_ok v p nm k n :
  fs_ok v -> inodes v !! p = Some n -> is_dir n = true -> k <> Tombstone -> (forall ch, k = Directory ch -> ch = []) ->
  (forall c, ~ child_named v n nm c) ->
  exists i v', create_child v p nm k = Ret (Ok i, v') /\ fs_ok v' /\ current_inode v' = current_inode v /\ grown v v' p i n nm k.
Proof.
  intros Hok Hp Hd Hk Hch Hfresh. destruct (create_child_grown v p nm k n Hok Hp Hd) as (i & v' & E & Hc & G).
  exists i, v'. split; [done|]. split; [|done]. apply (grown_ok v v' p i n nm k Hok G Hk); [|done].
  unfold children_of. cbn. destruct k; try done. by apply Hch.
Qed.

Lemma mkdir_at_ok v p nm :
  fs_ok v -> p < length (inodes v) ->
  exists r v', mkdir_at v p nm = Ret (r, v') /\ fs_ok v' /\ current_inode v' = current_inode v.
Proof.
  intros Hok Hp. destruct (lookup_lt_is_Some_2 _ _ Hp) as [n Hn]. unfold mkdir_at. rewrite (at_Ret _ _ _ Hn). cbn [mbind outcome_bind].
  destruct (kind n) as [| ch | | | | |] eqn:Ek; try (by exists (Err NotADirectory), v).
  assert (ch = children_of n) as -> by (unfold children_of; by rewrite Ek).
  destruct (find_child_dir v p n nm Hok Hn) as (r & -> & Hr). cbn [mbind outcome_bind]. destruct r; [by eexists _, v|].
  destruct (create_child_ok v p nm (Directory []) n) as (i & v' & -> & ? & ? & _); try done; [unfold is_dir; by rewrite Ek|by intros ch [= <-]|].
  by exists (Ok i), v'.
Qed.

(** What [create_file_at] does: a new leaf, or new content for the file of that
    name. *)
Lemma create_file_at_cases v p nm c :
  fs_ok v -> p < length (inodes v) ->
  exists r v', create_file_at v p nm c = Ret (r, v') /\ fs_ok v' /\ current_inode v' = current_inode v /\
  match r with
  | Ok i => exists n, inodes v !! p = Some n /\ is_dir n = true /\
      (grown v v' p i n nm (File c) \/
       exists m c0, child_named v n nm i /\ inodes v !! i = Some m /\ kind m = File c0 /\
         v' = set_inodes v (<[i := set_kind m (File c)]> (inodes v)))
  | Err e => v' = v
  end.
Proof.
  intros Hok Hp. destruct (lookup_lt_is_Some_2 _ _ Hp) as [n Hn]. unfold create_file_at. rewrite (at_Ret _ _ _ Hn). cbn [mbind outcome_bind].
  destruct (kind n) as [| ch | | | | |] eqn:Ek; try (by exists (Err NotADirectory), v).
  assert (ch = children_of n) as -> by (unfold children_of; by rewrite Ek).
  assert (Hd : is_dir n = true) by (unfold is_dir; by rewrite Ek).
  destruct (find_child_dir v p n nm Hok Hn) as (r & -> & Hr). cbn [mbind outcome_bind]. destruct r as [i|].
  - pose proof Hr as (_ & m & Hm & _). rewrite (at_Ret _ _ _ Hm). cbn [mbind outcome_bind].
    destruct (kind m) as [c0| | | | | |] eqn:Em; try (by exists (Err IsDirectory), v).
    rewrite (update_Ret _ _ _ _ Hm). cbn [mbind outcome_bind]. eexists (Ok i), _. split; [done|].
    split; [by apply (overwrite_ok v i m c c0)|]. split; [done|]. exists n. split; [done|]. split; [done|]. right. by exists m, c0.
  - destruct (create_child_ok v p nm (File c) n) as (i & v' & -> & ? & ? & ?); try done.
    exists (Ok i), v'. split; [done|]. split; [done|]. split; [done|]. exists n. auto.
Qed.

Lemma remove_entry_ok v t :
  fs_ok v -> t < length (inodes v) ->
  exists r v', remove_entry v t = Ret (r, v') /\ fs_ok v' /\ current_inode v' = current_inode v /\
  match r with
  | Ok _ => t <> 0 /\ exists m n, inodes v !! t = Some m /\ live m /\ pruned v v' (parent_id m) t n
  | Err e => v' = v /\ (e = RootProtected /\ t = 0 \/ e = NotFound /\ exists m, inodes v !! t = Some m /\ kind m = Tombstone)
  end.
Proof.
  intros Hok Ht. destruct (lookup_lt_is_Some_2 _ _ Ht) as [m Hm]. destruct (decide (t = 0)) as [->|Hne].
  { exists (Err RootProtected), v. by split_and!; [..|left]. }
  destruct (decide (kind m = Tombstone)) as [Hk|Hk].
  - unfold remove_entry. rewrite (proj2 (Nat.eqb_neq t 0) Hne). destruct (length (inodes v)) as [|k] eqn:El; [lia|].
    rewrite (collect_descendants_eq v k t m Hm), Hk. cbn [mbind outcome_bind]. rewrite (at_Ret _ _ _ Hm). cbn [mbind outcome_bind].
    rewrite (fk_tomb v Hok t m Hm Hk). destruct (fk_root v Hok) as (n0 & H0 & Hd & _). rewrite (at_Ret _ _ _ H0). cbn [mbind outcome_bind].
    rewrite (is_dir_children n0 Hd). assert (remove_child t (children_of n0) = None) as ->.
    { assert (t ∉ children_of n0) as Hnc. { intros Hc. destruct (fk_child v Hok 0 n0 t H0 Hc) as (_ & m' & Hm' & Hl & _). apply Hl. congruence. }
      clear -Hnc. induction (children_of n0) as [|y l IH]; [done|]. cbn. rewrite elem_of_cons in Hnc.
      destruct (Nat.eqb_spec y t) as [->|]; [tauto|]. by rewrite IH by tauto. }
    exists (Err NotFound), v. split_and!; try done. right. split; [done|by exists m].
  - destruct (remove_entry_pruned v t m Hok Hne Hm Hk) as (v' & n & -> & Hc & P). exists (Ok tt), v'.
    split; [done|]. split; [by apply (pruned_ok v v' (parent_id m) t n)|]. split; [done|]. split; [done|]. by exists m, n.
Qed.

(** C12: the file system stays a tree.  Every operation with existing inode numbers
    returns without panicking and leaves the inode table a tree: the root at inode
    0, each live inode exactly once among the children of its parent, no cycle,
    distinct names in each directory, and a free list of exactly the tombstones. *)
Theorem fs_ops_keep_tree v op :
  fs_ok v -> valid_op v op ->
  exists r v', run_op v op = Ret (r, v') /\ fs_ok v' /\ current_inode v' = current_inode v.
Proof.
  intros Hok Hv. destruct op as [p nm|p nm c|p nm gn|p nm k|t]; cbn [run_op valid_op] in *.
  - by apply mkdir_at_ok.
  - destruct (create_file_at_cases v p nm c Hok Hv) as (r & v' & ? & ? & ? & _). by exists r, v'.
  - destruct Hv as (n & Hn & Hfresh). unfold create_proc_file_at. rewrite (at_Ret _ _ _ Hn). cbn [mbind outcome_bind].
    destruct (is_dir n) eqn:Hd; cbn [negb]; [|by eexists _, v].
    destruct (create_child_ok v p nm (ProcFile gn) n) as (i & v' & ? & ? & ? & _); try done. by exists (Ok i), v'.
  - destruct Hv as (Hk & n & Hn & Hfresh). unfold create_device_file_at. rewrite (at_Ret _ _ _ Hn). cbn [mbind outcome_bind].
    destruct (is_dir n) eqn:Hd; cbn [negb]; [|by eexists _, v].
    destruct (create_child_ok v p nm k n) as (i & v' & ? & ? & ? & _); try done; [by destruct Hk as [->|[->| ->]]|by destruct Hk as [->|[->| ->]]|].
    by exists (Ok i), v'.
  - destruct (remove_entry_ok v t Hok Hv) as (r & v' & -> & ? & ? & _). cbn [mbind outcome_bind]. by eexists _, v'.
Qed.

(** The file a successful [create_file_at] leaves behind. *)
Lemma create_file_spec v p nm content i v' run random :
  fs_ok v -> p < length (inodes v) -> create_file_at v p nm content = Ret (Ok i, v') ->
  read_file run random v' i = Ret (Ok content) /\
  (exists n, inodes v' !! p = Some n /\ find_child (inodes v') (children_of n) nm = Ret (Some i)) /\
  (forall j n, j <> i -> inodes v !! j = Some n -> live n -> is_dir n = false ->
     read_file run random v' j = read_file run random v j).
Proof.
  intros Hok Hp E. destruct (create_file_at_cases v p nm content Hok Hp) as (r & v1 & E1 & Hok' & _ & Hc).
  rewrite E in E1. injection E1 as <- <-. destruct Hc as (n & Hn & Hd & Hc).
  assert (exists n' m, inodes v' !! p = Some n' /\ i ∈ children_of n' /\ inodes v' !! i = Some m /\ name m = nm /\ kind m = File content /\
     (forall j x, j <> i -> inodes v !! j = Some x -> is_dir x = false -> inodes v' !! j = Some x))
    as (n' & m & Hn' & Hin & Hm & Hnm & Hk & Hrest).
  { destruct Hc as [G|(m & c0 & (Hch & _) & Hm & Hk & ->)].
    - exists (set_kind n (Directory (children_of n ++ [i]))), (mkInode i p nm (File content)).
      split; [apply (gr_dir' _ _ _ _ _ _ _ G)|]. split; [unfold children_of at 1; cbn; apply elem_of_app; right; by left|].
      split; [apply (gr_new _ _ _ _ _ _ _ G)|]. do 2 (split; [done|]). intros j x Hji Hj Hdx.
      rewrite (gr_old _ _ _ _ _ _ _ G); [done|done|]. intros ->. congruence.
    - assert (i <> p) by (intros ->; unfold is_dir in Hd; assert (n = m) as -> by congruence; by rewrite Hk in Hd).
      exists n, (set_kind m (File content)). cbn [inodes set_inodes]. rewrite list_lookup_insert_ne by done.
      rewrite list_lookup_insert_eq by (by eapply lookup_lt_Some). do 3 (split; [done|]).
      split; [|split; [done|intros j x Hji Hj _; by rewrite list_lookup_insert_ne]].
      destruct (find_child_dir v p n nm Hok Hn) as (r & Ef & Hr). unfold create_file_at in E. rewrite (at_Ret _ _ _ Hn) in E.
      cbn [mbind outcome_bind] in E. rewrite (is_dir_children n Hd), Ef in E. cbn [mbind outcome_bind] in E. destruct r as [i'|].
      + destruct Hr as (_ & mi & Hmi & Hni). rewrite (at_Ret _ _ _ Hmi) in E. cbn [mbind outcome_bind] in E.
        destruct (kind mi); try done. destruct (update _ _ _); cbn in E; [|done..]. injection E as -> _. cbn. congruence.
      + destruct (create_child_grown v p nm (File content) n Hok Hn Hd) as (i2 & v2 & E2 & _ & G). rewrite E2 in E.
        injection E as -> _. pose proof (gr_slot _ _ _ _ _ _ _ G m Hm). congruence. }
  split; [unfold read_file; rewrite (at_Ret _ _ _ Hm); cbn; by rewrite Hk|]. split.
  - exists n'. split; [done|]. destruct (find_child_dir v' p n' nm Hok' Hn') as (r & -> & Hr). f_equal.
    assert (Hci : child_named v' n' nm i) by (split; [done|by exists m]).
    destruct r as [i'|]; [|by destruct (Hr i)]. f_equal. by apply (fk_names v' Hok' p n' nm).
  - intros j x Hji Hj Hl Hdx. unfold read_file. by rewrite (at_Ret _ _ _ Hj), (at_Ret _ _ _ (Hrest j x Hji Hj Hdx)).
Qed.

(** What is written is read back.  When [create_file_at] succeeds, the inode it
    answers holds exactly the content given, the directory leads to it under the
    name given, and every other file reads as before. *)
Theorem create_file_roundtrip v p nm content i v' run random :
  fs_ok v -> p < length (inodes v) -> create_file_at v p nm content = Ret (Ok i, v') ->
  read_file run random v' i = Ret (Ok content) /\
  (exists n, inodes v' !! p = Some n /\ find_child (inodes v') (children_of n) nm = Ret (Some i)) /\
  (forall j n, j <> i -> inodes v !! j = Some n -> live n -> is_dir n = false ->
     read_file run random v' j = read_file run random v j).
Proof. apply create_file_spec. Qed.

(** Removal takes the subtree and nothing else.  On success of [remove_entry]
    the target and everything below it are tombstones that read as deleted, the
    parent lost exactly that child, and every other inode is untouched; it fails
    exactly for the root and for slots already deleted. *)
Theorem remove_entry_exact v t :
  fs_ok v -> t < length (inodes v) ->
  exists r v', remove_entry v t = Ret (r, v') /\ fs_ok v' /\
  match r with
  | Ok _ => exists m n ch, inodes v !! t = Some m /\ inodes v !! parent_id m = Some n /\
      (forall x run random, under v t x -> read_file run random v' x = Ret (Err Deleted)) /\
      inodes v' !! parent_id m = Some (set_kind n (Directory ch)) /\ (forall c, c ∈ ch <-> c ∈ children_of n /\ c <> t) /\
      (forall x, ~ under v t x -> x <> parent_id m -> inodes v' !! x = inodes v !! x)
  | Err e => v' = v /\ (e = RootProtected /\ t = 0 \/ e = NotFound /\ exists m, inodes v !! t = Some m /\ kind m = Tombstone)
  end.
Proof.
  intros Hok Ht. destruct (remove_entry_ok v t Hok Ht) as (r & v' & E & Hok' & _ & Hr). exists r, v'. split; [done|]. split; [done|].
  destruct r as [u|e]; [|done]. destruct Hr as (_ & m & n & Hm & _ & P). destruct (pr_dir _ _ _ _ _ P) as (ch & Hd & _ & Hch).
  exists m, n, ch. split; [done|]. split; [apply (pr_parent _ _ _ _ _ P)|]. split; [|split; [done|split; [done|apply (pr_old _ _ _ _ _ P)]]].
  intros x run random Hu. unfold read_file. by rewrite (at_Ret _ _ _ (pr_gone _ _ _ _ _ P x Hu)).
Qed.

(** A removed working directory is reused.  Removing the directory the shell is
    in leaves [current_inode] on the freed slot, and the next file created takes
    that very slot: the working directory is then a regular file. *)
Theorem removed_cwd_reused v v' m p n nm c :
  fs_ok v -> current_inode v <> 0 -> inodes v !! current_inode v = Some m -> live m ->
  remove_entry v (current_inode v) = Ret (Ok tt, v') ->
  inodes v' !! p = Some n -> is_dir n = true -> (forall x, ~ child_named v' n nm x) ->
  exists v'', create_file_at v' p nm c = Ret (Ok (current_inode v'), v'') /\
    inodes v'' !! current_inode v'' = Some (mkInode (current_inode v'') p nm (File c)).
Proof.
  intros Hok H0 Hm Hl E Hn Hd Hfresh. destruct (remove_entry_pruned v _ m Hok H0 Hm Hl) as (v1 & q & E1 & Hc & P).
  rewrite E in E1. injection E1 as <-. pose proof (pruned_ok v v' _ _ q Hok P H0) as Hok'.
  destruct (pr_last _ _ _ _ _ P) as [l Hlast].
  assert (Hp : p < length (inodes v')) by (by eapply lookup_lt_Some).
  destruct (create_file_at_cases v' p nm c Hok' Hp) as (r & v'' & E2 & _ & Hc2 & Hr).
  assert (exists v3, create_file_at v' p nm c = Ret (Ok (current_inode v), v3)) as [v3 E3].
  { unfold create_file_at. rewrite (at_Ret _ _ _ Hn). cbn [mbind outcome_bind]. rewrite (is_dir_children n Hd).
    destruct (find_child_dir v' p n nm Hok' Hn) as ([i|] & -> & Hf); [by destruct (Hfresh i)|]. cbn [mbind outcome_bind].
    destruct (create_child_grown v' p nm (File c) n Hok' Hn Hd) as (i & v3 & E3 & _). rewrite E3. exists v3. do 3 f_equal.
    revert E3. unfold create_child, allocate_inode. pose proof (pop_last_spec (free_inodes v')) as Hpl.
    destruct (pop_last (free_inodes v')) as [[x rest]|]; [|rewrite Hlast in Hpl; by destruct l].
    rewrite Hlast in Hpl. apply app_inj_tail in Hpl as [_ <-].
    destruct (update _ _ _) as [l'| |]; cbn [mbind outcome_bind]; [|done..].
    destruct (add_child _ _ _) as [v4| |]; cbn [mbind outcome_bind]; [|done..]. by intros [= <- _]. }
  rewrite E3 in E2. injection E2 as <- <-. exists v3. rewrite Hc. split; [done|]. rewrite Hc2, Hc.
  destruct Hr as (n1 & Hn1 & _ & [G|(m1 & c0 & Hcn & _)]); [apply (gr_new _ _ _ _ _ _ _ G)|].
  assert (n1 = n) as -> by congruence. by destruct (Hfresh (current_inode v)).
Qed.

(** ** Witnesses *)

Definition root_fs : Vfs := mkVfs [mkInode 0 0 "/" (Directory [])] 0 [].

Lemma root_fs_ok : fs_ok root_fs.
Proof.
  assert (Hone : forall i n, inodes root_fs !! i = Some n -> i = 0 /\ n = mkInode 0 0 "/" (Directory [])).
  { intros [|i] n Hn; [by injection Hn as <-|by destruct i]. }
  split; cbn [inodes free_inodes root_fs].
  - eexists. by split.
  - intros i n Hn. by destruct (Hone i n Hn) as [-> ->].
  - intros i n c Hn Hc. destruct (Hone i n Hn) as [-> ->]. by apply elem_of_nil in Hc.
  - intros i n Hn. destruct (Hone i n Hn) as [-> ->]. constructor.
  - intros i n nm c1 c2 Hn [Hc _]. destruct (Hone i n Hn) as [-> ->]. by apply elem_of_nil in Hc.
  - intros c m Hc _ Hc0. by destruct (Hone c m Hc) as [-> _].
  - exists (fun x => x). intros c m Hc _ Hc0. by destruct (Hone c m Hc) as [-> _].
  - intros i n Hn. by destruct (Hone i n Hn) as [-> ->].
  - constructor.
  - intros i. split; [by intros H%elem_of_nil|]. intros (n & Hn & Hk). by destruct (Hone i n Hn) as [-> ->].
Qed.


(** The file system with one directory, which is the working directory. *)
Definition cwd_fs : Vfs := mkVfs [mkInode 0 0 "/" (Directory [1]); mkInode 1 0 "a" (Directory [])] 1 [].

Lemma fs_ok_cwd v i : fs_ok v -> fs_ok (vfs_set_current_inode v i).
Proof. intros H. destruct H. by split. Qed.

Lemma cwd_fs_ok : fs_ok cwd_fs.
Proof.
  destruct (mkdir_at_ok root_fs 0 "a" root_fs_ok ltac:(cbn; lia)) as (r & v' & E & H & _). vm_compute in E. injection E as <- <-.
  exact (fs_ok_cwd _ 1 H).
Qed.

Lemma fs_ops_keep_tree_witness :
  exists r v', run_op cwd_fs (CreateFile 1 "f" [1%Z; 2%Z]) = Ret (r, v') /\ fs_ok v'.
Proof.
  destruct (fs_ops_keep_tree cwd_fs (CreateFile 1 "f" [1%Z; 2%Z]) cwd_fs_ok ltac:(cbn; lia)) as (r & v' & E & H & _).
  exists r, v'. split; [exact E|exact H].
Defined.

Lemma create_file_roundtrip_witness :
  exists v', create_file_at cwd_fs 1 "f" [1%Z; 2%Z] = Ret (Ok 2, v') /\ read_file (fun _ => []) [] v' 2 = Ret (Ok [1%Z; 2%Z]).
Proof.
  eexists. split; [vm_compute; reflexivity|].
  refine (proj1 (create_file_roundtrip cwd_fs 1 "f" [1%Z; 2%Z] 2 _ (fun _ => []) [] cwd_fs_ok _ _)); [cbn; lia|vm_compute; reflexivity].
Defined.

Lemma remove_entry_exact_witness : exists r v', remove_entry cwd_fs 1 = Ret (r, v') /\ fs_ok v'.
Proof.
  destruct (remove_entry_exact cwd_fs 1 cwd_fs_ok ltac:(cbn; lia)) as (r & v' & E & H & _).
  exists r, v'. split; [exact E|exact H].
Defined.

Lemma removed_cwd_reused_witness :
  exists v'', create_file_at (mkVfs [mkInode 0 0 "/" (Directory []); mkInode 1 0 "" Tombstone] 1 [1]) 0 "b" [7%Z] = Ret (Ok 1, v'') /\
    inodes v'' !! current_inode v'' = Some (mkInode (current_inode v'') 0 "b" (File [7%Z])).
Proof.
  apply (removed_cwd_reused cwd_fs (mkVfs [mkInode 0 0 "/" (Directory []); mkInode 1 0 "" Tombstone] 1 [1])
    (mkInode 1 0 "a" (Directory [])) 0 (mkInode 0 0 "/" (Directory [])) "b" [7%Z]).
  - apply cwd_fs_ok.
  - discriminate.
  - reflexivity.
  - discriminate.
  - vm_compute. reflexivity.
  - reflexivity.
  - reflexivity.
  - intros x [Hx _]. apply elem_of_nil in Hx. exact Hx.
Defined.

End VfsTree.
