(* ===== verification/VfsPath.v ===== *)
(** * Paths (src/src/fs/mod.rs: [resolve_path], [get_path], [init])

    The absolute path of an inode leads back to it; the initial file system. *)

From stdpp Require Import prelude numbers list strings.
From Stdlib Require Import Ascii.
From S2P Require Import Prelude Text Vfs VfsTree.
Import Vfs VfsTree.

Module VfsPath.
Local Open Scope nat_scope.

(** ** Strings *)
Fixpoint no_slash (s : string) : bool :=
  match s with EmptyString => true | String c s' => (negb (Ascii.eqb c slash) && no_slash s')%bool end.

Lemma string_app_nil_r (s : string) : s +:+ EmptyString = s.
Proof. induction s as [|c s IH]; [done|]. change (String c s +:+ EmptyString) with (String c (s +:+ EmptyString)). by rewrite IH. Qed.

Lemma string_app_assoc (s t u : string) : s +:+ (t +:+ u) = (s +:+ t) +:+ u.
Proof. induction s as [|c s IH]; [done|]. change (String c s +:+ (t +:+ u)) with (String c (s +:+ (t +:+ u))). by rewrite IH. Qed.

(** A name that a path can carry. *)
Definition proper (s : string) : Prop :=
  s <> EmptyString /\ s <> "." /\ s <> ".." /\ no_slash s = true /\ trim_end s = s.

Lemma split_no_slash s : no_slash s = true -> split_slash s = [s].
Proof.
  induction s as [|c s IH]; [done|]. cbn. intros [Hc Hs]%andb_prop. apply negb_true_iff in Hc. rewrite Hc. by rewrite IH.
Qed.

Lemma split_app s r : no_slash s = true -> split_slash (s +:+ String slash r) = s :: split_slash r.
Proof.
  induction s as [|c s IH]; intros H; [done|]. cbn in H. apply andb_prop in H as [Hc Hs]. apply negb_true_iff in Hc.
  change (String c s +:+ String slash r) with (String c (s +:+ String slash r)). cbn [split_slash].
  rewrite Hc, (IH Hs). done.
Qed.

(** The text after the leading slash splits into the segments. *)
Lemma split_join s segs :
  Forall (fun x => no_slash x = true) (s :: segs) -> split_slash (s +:+ join_segments segs) = s :: segs.
Proof.
  revert s. induction segs as [|x segs IH]; intros s H; apply Forall_cons_1 in H as [Hs H].
  - cbn [join_segments]. rewrite string_app_nil_r. by apply split_no_slash.
  - cbn [join_segments]. rewrite split_app by done. by rewrite IH.
Qed.

Lemma string_of_bytes s : string_of (bytes_of s) = s.
Proof.
  unfold string_of, bytes_of. induction s as [|c s IH]; [done|]. cbn [String.list_ascii_of_string fmap list_fmap String.string_of_list_ascii] in *. rewrite IH.
  by rewrite Nat2Z.id, ascii_nat_embedding.
Qed.
Lemma bytes_of_app s t : bytes_of (s +:+ t) = bytes_of s ++ bytes_of t.
Proof. unfold bytes_of. induction s as [|c s IH]; [done|]. change (String c s +:+ t) with (String c (s +:+ t)). cbn. by rewrite IH. Qed.
Lemma bytes_of_string l : Forall (fun b => 0 <= b < 256)%Z l -> bytes_of (string_of l) = l.
Proof.
  unfold bytes_of, string_of. rewrite String.list_ascii_of_string_of_list_ascii, <- list_fmap_compose. induction 1 as [|b w Hb _ IH]; [done|].
  rewrite fmap_cons, IH. f_equal. cbn. rewrite nat_ascii_embedding; lia.
Qed.
Lemma bytes_of_range s : Forall (fun b => 0 <= b < 256)%Z (bytes_of s).
Proof. unfold bytes_of. apply Forall_fmap, Forall_true. intros c. cbn. pose proof (nat_ascii_bounded c). lia. Qed.

(** Trimming a name at the byte level. *)
Lemma trim_rev_sub n : forall l b, b ∈ Text.trim_rev n l -> b ∈ l.
Proof.
  induction n as [|n IH]; intros [|b0 l1] b; cbn [Text.trim_rev]; try done. destruct (Text.ws1 b0); [intros Hx; right; by apply IH|]. destruct l1 as [|b1 l2]; [done|].
  destruct (Text.ws2 b1 b0); [intros Hx; do 2 right; by apply IH|]. destruct l2 as [|b2 l3]; [done|]. destruct (Text.ws3 b2 b1 b0); [intros Hx; do 3 right; by apply IH|done].
Qed.
Lemma trim_end_bytes s : trim_end s = s -> Text.trim_end (bytes_of s) = bytes_of s.
Proof.
  unfold trim_end. intros E. apply (f_equal bytes_of) in E. rewrite bytes_of_string in E; [done|]. apply Forall_forall. intros b Hb.
  pose proof (bytes_of_range s) as Hr. rewrite Forall_forall in Hr. apply Hr. unfold Text.trim_end in Hb. rewrite elem_of_reverse in Hb. apply trim_rev_sub in Hb. by rewrite elem_of_reverse in Hb.
Qed.

(** A path ends in its last name. *)
Lemma join_last x segs : exists s y, join_segments (x :: segs) = s +:+ String slash y /\ y ∈ x :: segs.
Proof.
  revert x. induction segs as [|x' segs IH]; intros x.
  - exists EmptyString, x. cbn [join_segments]. rewrite string_app_nil_r. split; [done|left].
  - destruct (IH x') as (s & y & E & Hy). exists (String slash (x +:+ s)), y. split; [|by right].
    change (join_segments (x :: x' :: segs)) with (String slash (x +:+ join_segments (x' :: segs))). rewrite E.
    change (String slash (x +:+ s) +:+ String slash y) with (String slash ((x +:+ s) +:+ String slash y)). by rewrite string_app_assoc.
Qed.
Lemma trim_join x segs : Forall proper (x :: segs) -> trim (join_segments (x :: segs)) = join_segments (x :: segs).
Proof.
  intros Hp. unfold trim, Text.trim. assert (Hs : bytes_of (join_segments (x :: segs)) = 47%Z :: bytes_of (x +:+ join_segments segs)) by done.
  assert (Text.trim_start (length (bytes_of (join_segments (x :: segs)))) (bytes_of (join_segments (x :: segs))) = bytes_of (join_segments (x :: segs))) as ->.
  { rewrite Hs. by apply Text.trim_start_stop. }
  destruct (join_last x segs) as (s & y & -> & Hy). rewrite Forall_forall in Hp. destruct (Hp y Hy) as (Hne & _ & _ & _ & Ht%trim_end_bytes).
  rewrite bytes_of_app. change (bytes_of (String slash y)) with (47%Z :: bytes_of y). rewrite Text.trim_end_slash; [|by destruct y|done].
  change (47%Z :: bytes_of y) with (bytes_of (String slash y)). by rewrite <- bytes_of_app, string_of_bytes.
Qed.

(** ** The chain of names from the root *)
Inductive chain (v : Vfs) : nat -> list string -> Prop :=
  | chain_root : chain v 0 []
  | chain_child p n c m segs : chain v p segs -> inodes v !! p = Some n -> c ∈ children_of n -> inodes v !! c = Some m ->
      chain v c (name m :: segs).

Section Paths.
Context (v : Vfs) (Hok : fs_ok v).

(** [get_path] reaches the root. *)
Lemma path_segments_ret rank fuel : forall i m vis,
  (forall c m, inodes v !! c = Some m -> live m -> c <> 0 -> rank (parent_id m) < rank c) ->
  inodes v !! i = Some m -> live m -> NoDup vis -> (forall a, a ∈ vis -> a < length (inodes v) /\ rank i < rank a) ->
  length (inodes v) <= fuel + length vis ->
  exists segs, path_segments fuel (inodes v) i = Ret segs /\ chain v i segs.
Proof.
  induction fuel as [|fuel IH]; intros i m vis Hr Hi Hl Hnd Hvis Hlen; cbn [path_segments];
    (destruct (Nat.eqb_spec i 0) as [->|Hi0]; [exists []; split; [done|constructor]|]).
  - exfalso. assert (NoDup (i :: vis)) as Hnd'. { constructor; [|done]. intros H. destruct (Hvis i H). lia. }
    pose proof (pigeonhole (i :: vis) (length (inodes v)) Hnd') as Hp. cbn in Hp. assert (S (length vis) <= length (inodes v)); [|lia].
    apply Hp. intros x [->|Hx]%elem_of_cons; [by eapply lookup_lt_Some|by apply Hvis].
  - rewrite (at_Ret _ _ _ Hi). cbn [mbind outcome_bind]. destruct (fk_parent v Hok i m Hi Hl Hi0) as (n & Hn & Hc).
    pose proof (Hr i m Hi Hl Hi0) as Hlt.
    assert (live n) as Hln. { unfold live. intros E. unfold children_of in Hc. rewrite E in Hc. by apply elem_of_nil in Hc. }
    destruct (IH (parent_id m) n (i :: vis)) as (segs & -> & Hch); [done|done|done| | |cbn; lia|].
    + constructor; [|done]. intros H. destruct (Hvis i H). lia.
    + intros a [->|Ha]%elem_of_cons; [split; [by eapply lookup_lt_Some|done]|]. destruct (Hvis a Ha). split; [done|lia].
    + cbn [mbind outcome_bind]. exists (name m :: segs). split; [done|]. by eapply chain_child.
Qed.

Lemma resolve_app cur l1 l2 :
  resolve_segments v cur (l1 ++ l2) =
    (r ← resolve_segments v cur l1; match r with Ok c => resolve_segments v c l2 | Err e => Ret (Err e) end).
Proof.
  revert cur. induction l1 as [|s l1 IH]; intros cur; [done|]. cbn [app resolve_segments].
  destruct (_ || _)%bool; [done|]. destruct (at_ (inodes v) cur) as [n| |]; cbn [mbind outcome_bind]; [|done..].
  destruct (String.eqb s ".."); [done|]. destruct (kind n); try done.
  destruct (find_child _ _ _) as [[i|]| |]; cbn [mbind outcome_bind]; done.
Qed.

(** Following the names down leads to the inode. *)
Lemma resolve_chain i segs : chain v i segs -> Forall proper segs -> resolve_segments v 0 (rev segs) = Ret (Ok i).
Proof.
  induction 1 as [|p n c m segs Hch IH Hp Hc Hm]; intros Hpr; [done|]. apply Forall_cons_1 in Hpr as [(Hne & Hd & Hdd & _) Hpr].
  cbn [rev]. rewrite resolve_app, IH by done. cbn [mbind outcome_bind resolve_segments].
  rewrite (proj2 (String.eqb_neq _ _) Hne), (proj2 (String.eqb_neq _ _) Hd), (proj2 (String.eqb_neq _ _) Hdd). cbn [orb].
  rewrite (at_Ret _ _ _ Hp). cbn [mbind outcome_bind].
  assert (Hk : kind n = Directory (children_of n)).
  { unfold children_of in *. destruct (kind n); try done; by apply elem_of_nil in Hc. }
  rewrite Hk. destruct (find_child_dir v p n (name m) Hok Hp) as (r & -> & Hr). cbn [mbind outcome_bind].
  assert (Hci : child_named v n (name m) c) by (split; [done|by exists m]).
  destruct r as [c'|]; [|by destruct (Hr c)]. by rewrite (fk_names v Hok p n (name m) c' c Hp Hr Hci).
Qed.

Lemma resolve_joined i segs : chain v i segs -> segs <> [] -> Forall proper segs ->
  resolve_path v (join_segments (rev segs)) = Ret (Ok i).
Proof.
  intros Hch Hne Hpr. assert (Hpr' : Forall proper (rev segs)) by (by apply Forall_rev).
  pose proof (resolve_chain i segs Hch Hpr) as Hres.
  destruct (rev segs) as [|s l] eqn:E; [by destruct Hne; apply (f_equal (@rev string)) in E; rewrite rev_involutive in E|].
  unfold resolve_path. rewrite trim_join by done.
  cbn [join_segments]. rewrite Ascii.eqb_refl, split_join; [done|]. eapply Forall_impl; [exact Hpr'|]. by intros x (_ & _ & _ & ? & _).
Qed.

End Paths.

(** Every name on the way from the root can be written in a path. *)
Definition proper_names (v : Vfs) : Prop := forall c m, inodes v !! c = Some m -> live m -> c <> 0 -> proper (name m).

Lemma chain_proper v i segs : fs_ok v -> proper_names v -> chain v i segs -> Forall proper segs.
Proof.
  intros Hok Hp. induction 1 as [|p n c m segs _ IH Hn Hc Hm]; constructor; [|done].
  destruct (fk_child v Hok p n c Hn Hc) as (Hc0 & m' & Hm' & Hl & _). assert (m' = m) as -> by congruence. by apply (Hp c).
Qed.

(** C28: paths and inodes correspond.  For every live inode of a file system whose
    names are not empty, contain no slash, are not dots and do not end in white space (of
    Unicode, in UTF-8), [get_path]
    returns and [resolve_path] of the path it answers leads back to that inode,
    whatever the working directory. *)
Theorem get_path_resolves v i m :
  fs_ok v -> proper_names v -> inodes v !! i = Some m -> live m ->
  exists path, get_path v i = Ret path /\ resolve_path v path = Ret (Ok i).
Proof.
  intros Hok Hp Hi Hl. unfold get_path. destruct (Nat.eqb_spec i 0) as [->|Hi0]; [by exists "/"|].
  destruct (fk_rank v Hok) as [rank Hr].
  destruct (path_segments_ret v Hok rank (length (inodes v)) i m []) as (segs & E & Hch);
    [done|done|done|constructor|intros a Ha; by apply elem_of_nil in Ha|lia|].
  rewrite E. cbn [mbind outcome_bind]. eexists. split; [done|]. apply resolve_joined; [done|done| |by eapply chain_proper].
  intros ->. inversion Hch. done.
Qed.

(** ** The initial file system *)

(** The next table of a concrete run, from the lemma of the operation. *)
Ltac known E := vm_compute in E; injection E as <- <-.
Ltac step_mkdir H p nm :=
  match type of H with fs_ok ?v =>
    let H' := fresh in let E := fresh in
    destruct (mkdir_at_ok v p nm H ltac:(vm_compute; lia)) as (? & ? & E & H' & _); known E; clear H; rename H' into H
  end.
Ltac step_file H p nm c :=
  match type of H with fs_ok ?v =>
    let H' := fresh in let E := fresh in
    destruct (create_file_at_cases v p nm c H ltac:(vm_compute; lia)) as (? & ? & E & H' & _); known E; clear H; rename H' into H
  end.
(** A pseudo-file whose name is new in its directory. *)
Ltac step_special H p nm k :=
  match type of H with fs_ok ?v =>
    let H' := fresh in let E := fresh in let n := eval vm_compute in (inodes v !! p) in
    match n with Some ?n =>
      destruct (create_child_ok v p nm k n H eq_refl eq_refl ltac:(discriminate) ltac:(discriminate)) as (? & ? & E & H' & _);
      [intros ? (Hc & ? & Hm & Hn); cbn in Hc;
       repeat (apply elem_of_cons in Hc as [->|Hc]; [vm_compute in Hm; injection Hm as <-; discriminate Hn|]); by apply elem_of_nil in Hc|];
      known E; clear H; rename H' into H
    end
  end.

(** The names in the root directory. *)
Definition root_names : list string := ["etc"; "docs"; "bin"; "proc"; "dev"].
Lemma init_tree hello counter ini v0 run random :
  exists v, init hello counter ini v0 = Ret v /\ fs_ok v /\ proper_names v /\ current_inode v = 0 /\
    (exists n, inodes v !! 0 = Some n /\ is_dir n = true /\ forall nm i, child_named v n nm i -> nm ∈ root_names) /\
    vfs_read_file run random v "/bin/hello" = Ret (Ok hello) /\
    vfs_read_file run random v "/bin/counter" = Ret (Ok counter) /\
    vfs_read_file run random v "/bin/init" = Ret (Ok ini) /\
    vfs_read_file run random v "/etc/hostname" = Ret (Ok (bytes_of "auraos-baremetal")) /\
    vfs_read_file run random v "/proc/uptime" = Ret (Ok (run proc_uptime)) /\
    vfs_read_file run random v "/dev/zero" = Ret (Ok (replicate 64 0%Z)) /\
    vfs_read_file run random v "/dev" = Ret (Err IsDirectory).
Proof.
  eexists. split; [vm_compute; reflexivity|]. split; [|split; [|split; [done|split; [|by split_and!]]]].
  - pose proof root_fs_ok as H. unfold root_fs in H.
    step_mkdir H 0 "etc". step_mkdir H 0 "docs". step_mkdir H 0 "bin". step_mkdir H 0 "proc". step_mkdir H 0 "dev".
    step_file H 3 "hello" hello. step_file H 3 "counter" counter. step_file H 3 "init" ini.
    step_file H 1 "hostname" (bytes_of "auraos-baremetal").
    step_file H 1 "version" (bytes_of "AuraOS v0.1.0-alpha (x86_64 Long Mode Pure Rust Kernel)").
    step_file H 1 "motd" (bytes_of "Welcome to AuraOS! Type 'help' for commands, 'ls' to inspect files.").
    step_file H 2 "manifesto.txt" (bytes_of manifesto).
    step_special H 4 "uptime" (ProcFile proc_uptime). step_special H 4 "meminfo" (ProcFile proc_meminfo).
    step_special H 4 "cpuinfo" (ProcFile proc_cpuinfo). step_special H 4 "tasks" (ProcFile proc_tasks).
    step_special H 5 "null" DevNull. step_special H 5 "zero" DevZero.
    step_special H 5 "random" DevRandom. step_special H 5 "urandom" DevRandom.
    exact H.
  - intros c m Hc _ Hc0. do 21 (destruct c as [|c]; [first [done|injection Hc as <-; by vm_compute]|]). by destruct c.
  - exists (mkInode 0 0 "/" (Directory [1; 2; 3; 4; 5])). split; [reflexivity|]. split; [done|]. intros nm i (Hin & m & Hm & <-). change (i ∈ [1; 2; 3; 4; 5]) in Hin. repeat (apply elem_of_cons in Hin as [->|Hin]; [injection Hm as <-; cbn [name]; apply list_elem_of_In; cbn; tauto|]). by apply elem_of_nil in Hin.
Qed.

(** The initial file system.  [init] returns a tree in which every name can be
    written in a path, with the root as working directory, the executables under
    [/bin], the configuration under [/etc] and the devices under [/dev]. *)
Theorem init_contents hello counter ini v0 run random :
  exists v, init hello counter ini v0 = Ret v /\ fs_ok v /\ proper_names v /\ current_inode v = 0 /\
    vfs_read_file run random v "/bin/hello" = Ret (Ok hello) /\
    vfs_read_file run random v "/bin/counter" = Ret (Ok counter) /\
    vfs_read_file run random v "/bin/init" = Ret (Ok ini) /\
    vfs_read_file run random v "/etc/hostname" = Ret (Ok (bytes_of "auraos-baremetal")) /\
    vfs_read_file run random v "/proc/uptime" = Ret (Ok (run proc_uptime)) /\
    vfs_read_file run random v "/dev/zero" = Ret (Ok (replicate 64 0%Z)) /\
    vfs_read_file run random v "/dev" = Ret (Err IsDirectory).
Proof. destruct (init_tree hello counter ini v0 run random) as (v & E & H1 & H2 & H3 & _ & H4). exists v. exact (conj E (conj H1 (conj H2 (conj H3 H4)))). Qed.

(** ** Witness *)
Lemma get_path_resolves_witness : exists path, get_path cwd_fs 1 = Ret path /\ resolve_path cwd_fs path = Ret (Ok 1).
Proof.
  apply (get_path_resolves cwd_fs 1 (mkInode 1 0 "a" (Directory []))).
  - apply cwd_fs_ok.
  - intros [|[|c]] m Hc _ Hc0; [done|injection Hc as <-; by vm_compute|by destruct c].
  - reflexivity.
  - discriminate.
Defined.

End VfsPath.
