(* ===== verification/Io.v ===== *)
(** * Port I/O (src/src/arch/io.rs)

    The machine as seen by drivers: [Hardware] is the interface of port and
    memory-mapped accesses (their assembly is in src/src/arch/io.rs), [hw] the
    state monad of code that uses them. *)

From stdpp Require Import prelude numbers list gmap.
From S2P Require Import Prelude.

(** ** Accesses to devices *)
Class Hardware (H : Type) := {
  outb : H -> Z -> Z -> H;
  inb : H -> Z -> Z * H;
  outw : H -> Z -> Z -> H;
  inw : H -> Z -> Z * H;
  outl : H -> Z -> Z -> H;
  inl : H -> Z -> Z * H;
  write_volatile : H -> Z -> Z -> H;
  read_volatile : H -> Z -> Z * H
}.

(** Code that talks to devices. *)
Definition hw (H A : Type) : Type := H -> A * H.
#[global] Instance hw_ret H : MRet (hw H) := fun A a h => (a, h).
#[global] Instance hw_bind H : MBind (hw H) := fun A B f m h => let '(a, h') := m h in f a h'.

Definition port_out {H} `{Hardware H} (port v : Z) : hw H () := fun h => (tt, outl h port v).
Definition port_in {H} `{Hardware H} (port : Z) : hw H Z := fun h => inl h port.
Definition port_outw {H} `{Hardware H} (port v : Z) : hw H () := fun h => (tt, outw h port v).
Definition port_inw {H} `{Hardware H} (port : Z) : hw H Z := fun h => inw h port.
Definition port_outb {H} `{Hardware H} (port v : Z) : hw H () := fun h => (tt, outb h port v).
Definition port_inb {H} `{Hardware H} (port : Z) : hw H Z := fun h => inb h port.

(** A write to an unused port, to let a slow device settle. *)
Definition io_wait {H} `{Hardware H} : hw H () := port_outb 0x80 0.

(** [for x in l { body }] where the body may push to a vector. *)
Fixpoint collect {H A B} (l : list A) (body : A -> hw H (list B)) : hw H (list B) :=
  match l with
  | [] => mret []
  | x :: l' => y ← body x; ys ← collect l' body; mret (y ++ ys)
  end.

(** [0..n] *)
Definition range (n : nat) : list Z := Z.of_nat <$> seq 0 n.

(** Code that talks to devices and loops: [NoFuel] when the fuel of the model runs out. *)
Definition hwo (H A : Type) : Type := H -> outcome (A * H).
#[global] Instance hwo_ret H : MRet (hwo H) := fun A a h => Ret (a, h).
#[global] Instance hwo_bind H : MBind (hwo H) := fun A B f m h => match m h with Ret (a, h') => f a h' | Panic => Panic | NoFuel => NoFuel end.
Definition dev {H A} (m : hw H A) : hwo H A := fun h => Ret (m h).
Definition pure_ {H A} (o : outcome A) : hwo H A := fun h => a ← o; Ret (a, h).
Definition spin {H A} : hwo H A := fun _ => NoFuel.
