(* ===== verification/Errors.v ===== *)
(** * Error types of the storage layers (src/src/fs/errors.rs)

    The errors of the virtual file system (its type is in Vfs), of the disk driver
    and of the FAT32 file system, how they are printed, and how the old messages
    are mapped to them. *)

From stdpp Require Import prelude strings.
From S2P Require Import Prelude Vfs.

Module Errors.

Definition vfs_display (e : Vfs.VfsError) : string :=
  match e with
  | Vfs.NotFound => "not found"
  | Vfs.NotADirectory => "not a directory"
  | Vfs.AlreadyExists => "already exists"
  | Vfs.IsDirectory => "is a directory"
  | Vfs.NotAFile => "not a file"
  | Vfs.PermissionDenied => "permission denied"
  | Vfs.DiskFull => "disk full"
  | Vfs.BadPath => "invalid path"
  | Vfs.RootProtected => "cannot modify root"
  | Vfs.Deleted => "entry has been deleted"
  end.

(** [match msg { "a" | "b" => .. }]: is the message one of these? *)
Definition one_of (msg : string) (l : list string) : bool := existsb (fun s => bool_decide (s = msg)) l.

Definition vfs_from (msg : string) : Vfs.VfsError :=
  if one_of msg ["File or directory not found"; "Entry not found in parent"; "Path not found"] then Vfs.NotFound else
  if one_of msg ["Not a directory in path"; "Parent is not a directory"; "Not a directory"] then Vfs.NotADirectory else
  if one_of msg ["Entry already exists"] then Vfs.AlreadyExists else
  if one_of msg ["Target exists and is a directory"; "Cannot read directory as file"] then Vfs.IsDirectory else
  if one_of msg ["Cannot modify root"] then Vfs.RootProtected else
  if one_of msg ["Cannot read deleted file"; "Operation on a deleted file"] then Vfs.Deleted else
  Vfs.NotFound.

Inductive AtaError := DriveNotReady | DriveBusy | InvalidLba | DriveError | NoDrive.

Definition ata_display (e : AtaError) : string :=
  match e with
  | DriveNotReady => "drive not ready"
  | DriveBusy => "drive busy"
  | InvalidLba => "invalid LBA"
  | DriveError => "drive error"
  | NoDrive => "no such drive"
  end.

Definition ata_from (msg : string) : AtaError :=
  if one_of msg ["Drive not ready"; "Timeout waiting for drive"] then DriveNotReady else
  if one_of msg ["Drive busy"; "Drive still busy"; "Drive not ready after command"] then DriveBusy else
  if one_of msg ["Invalid LBA"; "LBA out of range"] then InvalidLba else
  DriveError.

Inductive Fat32Error := NotFound | BadSignature | Corrupt | IoError (e : AtaError) | InvalidName | NotADirectory | AlreadyExists.

#[global] Instance AtaError_eq_dec : EqDecision AtaError.
Proof. solve_decision. Defined.
#[global] Instance Fat32Error_eq_dec : EqDecision Fat32Error.
Proof. solve_decision. Defined.

Definition fat32_display (e : Fat32Error) : string :=
  match e with
  | NotFound => "not found (FAT32)"
  | BadSignature => "bad FAT32 signature"
  | Corrupt => "corrupt FAT32 structures"
  | IoError a => "I/O error: " +:+ ata_display a
  | InvalidName => "invalid FAT32 name"
  | NotADirectory => "not a directory (FAT32)"
  | AlreadyExists => "already exists (FAT32)"
  end.

Definition fat32_from (msg : string) : Fat32Error :=
  if one_of msg ["Entry not found"; "Path not found"; "File not found"; "Invalid path"] then NotFound else
  if one_of msg ["Bad signature"; "Invalid boot sector signature"] then BadSignature else
  if one_of msg ["Not a directory"; "Not a directory in path"] then NotADirectory else
  if one_of msg ["Entry already exists"; "Name already exists"; "Directory already exists"] then AlreadyExists else
  if one_of msg ["Invalid name"; "Name too long"] then InvalidName else
  if one_of msg ["Corrupt FAT"; "Corrupt directory"] then Corrupt else
  Corrupt.

Definition fat32_from_ata (e : AtaError) : Fat32Error := IoError e.

End Errors.
