(* ===== verification/Ata.v ===== *)
(** * The ATA disk driver (src/src/drivers/ata.rs)

    Single-sector reads and writes in PIO mode over any [Hardware].  What an ATA
    drive does with the task file registers is [ide]; the theorems hold for every
    machine whose ports 0x1F0 to 0x1F7 behave like one, with any delays below the
    number of polls of the driver.  [Disk] is what the file system above relies on,
    and the driver implements it. *)

From stdpp Require Import prelude numbers list.
From S2P Require Import Prelude Io Errors.
Import Errors.

Module Ata.

Definition ATA_DATA_PORT : Z := 0x1F0.
Definition ATA_SECTOR_COUNT : Z := 0x1F2.
Definition ATA_LBA_LOW : Z := 0x1F3.
Definition ATA_LBA_MID : Z := 0x1F4.
Definition ATA_LBA_HIGH : Z := 0x1F5.
Definition ATA_DRIVE_SELECT : Z := 0x1F6.
Definition ATA_COMMAND_STATUS : Z := 0x1F7.
Definition ATA_CMD_READ_SECTORS : Z := 0x20.
Definition ATA_CMD_WRITE_SECTORS : Z := 0x30.
Definition ATA_CMD_CACHE_FLUSH : Z := 0xE7.
Definition ATA_STATUS_BSY : Z := 0x80.
Definition ATA_STATUS_DRQ : Z := 0x08.
Definition ATA_STATUS_ERR : Z := 0x01.
Definition SECTOR_SIZE : Z := 512.

(** The bound of the polling loops. *)
Definition POLLS : Z := 100000.

Section Driver.
Context {H : Type} `{Hardware H}.

(** [?] on the results of the driver. *)
Definition and_then {A B E} (m : hw H (result A E)) (f : A -> hw H (result B E)) : hw H (result B E) :=
  r ← m; match r with Ok a => f a | Err e => mret (Err e) end.

(** [for _ in 0..100_000] of [wait_drive_ready], with [n] polls left. *)
Fixpoint poll_ready (n : nat) : hw H (result () AtaError) :=
  match n with
  | O => mret (Err DriveNotReady)
  | S n' =>
      status ← port_inb ATA_COMMAND_STATUS;
      if status =? 0xFF then mret (Err NoDrive) else
      if negb (Z.land status ATA_STATUS_ERR =? 0) then mret (Err DriveError) else
      if ((Z.land status ATA_STATUS_BSY =? 0) && negb (Z.land status ATA_STATUS_DRQ =? 0))%bool then mret (Ok tt) else
      io_wait;; poll_ready n'
  end.
Definition wait_drive_ready : hw H (result () AtaError) := poll_ready (Z.to_nat POLLS).

Fixpoint poll_not_busy (n : nat) : hw H (result () AtaError) :=
  match n with
  | O => mret (Err DriveBusy)
  | S n' =>
      status ← port_inb ATA_COMMAND_STATUS;
      if status =? 0xFF then mret (Err NoDrive) else
      if Z.land status ATA_STATUS_BSY =? 0 then mret (Ok tt) else
      io_wait;; poll_not_busy n'
  end.
Definition wait_drive_not_busy : hw H (result () AtaError) := poll_not_busy (Z.to_nat POLLS).

Definition drive_head (drive lba : Z) : Z :=
  Z.lor (if drive =? 0 then 0xE0 else 0xF0) (wrap 8 (Z.land (Z.shiftr lba 24) 0x0F)).

(** The register writes both commands share, up to the command itself. *)
Definition issue (drive lba command : Z) : hw H () :=
  port_outb ATA_DRIVE_SELECT (drive_head drive lba);;
  io_wait;;
  port_outb ATA_SECTOR_COUNT 1;;
  port_outb ATA_LBA_LOW (wrap 8 lba);;
  port_outb ATA_LBA_MID (wrap 8 (Z.shiftr lba 8));;
  port_outb ATA_LBA_HIGH (wrap 8 (Z.shiftr lba 16));;
  port_outb ATA_COMMAND_STATUS command.

(** The transfer loops over [n] words. *)
Fixpoint read_words (n : nat) : hw H (list Z) :=
  match n with
  | O => mret []
  | S n' =>
      word ← port_inw ATA_DATA_PORT;
      rest ← read_words n';
      mret (Z.land word 0xFF :: Z.land (Z.shiftr word 8) 0xFF :: rest)
  end.

Fixpoint write_words (n : nat) (i : nat) (buffer : list Z) : hw H () :=
  match n with
  | O => mret tt
  | S n' =>
      port_outw ATA_DATA_PORT (Z.lor (nth (i * 2) buffer 0) (Z.shiftl (nth (i * 2 + 1) buffer 0) 8));;
      write_words n' (S i) buffer
  end.

Definition read_sector_drive (drive lba : Z) : hw H (result (list Z) AtaError) :=
  if 0x0FFFFFFF <? lba then mret (Err InvalidLba) else
  and_then wait_drive_not_busy (fun _ =>
  issue drive lba ATA_CMD_READ_SECTORS;;
  and_then wait_drive_ready (fun _ =>
  buffer ← read_words 256;
  mret (Ok buffer))).

Definition read_sector (lba : Z) : hw H (result (list Z) AtaError) := read_sector_drive 0 lba.

Definition write_sector_drive (drive lba : Z) (buffer : list Z) : hw H (result () AtaError) :=
  if 0x0FFFFFFF <? lba then mret (Err InvalidLba) else
  and_then wait_drive_not_busy (fun _ =>
  issue drive lba ATA_CMD_WRITE_SECTORS;;
  and_then wait_drive_ready (fun _ =>
  write_words 256 0 buffer;;
  port_outb ATA_COMMAND_STATUS ATA_CMD_CACHE_FLUSH;;
  and_then wait_drive_not_busy (fun _ => mret (Ok tt)))).

Definition write_sector (lba : Z) (buffer : list Z) : hw H (result () AtaError) := write_sector_drive 0 lba buffer.

End Driver.
(** ** A drive *)

(** What the drive is transferring. *)
Inductive transfer :=
| Idle
| Reading (ws : list Z)
| Writing (drive lba : Z) (ws : list Z).

(** The drives of a channel: their sectors, the task file, how many more status
    reads answer busy, how long each command will take, and the transfer. *)
Record ide := mkIde {
  media : Z -> Z -> list Z; capacity : Z -> Z;
  r_select : Z; r_low : Z; r_mid : Z; r_high : Z;
  busy : nat; delays : nat -> nat; commands : nat;
  xfer : transfer; failed : bool
}.
#[global] Instance eta_ide : Inhabited transfer := populate Idle.

Definition reg_drive (d : ide) : Z := if Z.testbit (r_select d) 4 then 1 else 0.
Definition reg_lba (d : ide) : Z := r_low d + 256 * r_mid d + 65536 * r_high d + 16777216 * Z.land (r_select d) 15.

Fixpoint to_words (bytes : list Z) : list Z :=
  match bytes with b0 :: b1 :: l => Z.lor b0 (Z.shiftl b1 8) :: to_words l | _ => [] end.
Fixpoint of_words (ws : list Z) : list Z :=
  match ws with [] => [] | w :: l => Z.land w 0xFF :: Z.land (Z.shiftr w 8) 0xFF :: of_words l end.

Definition set_regs (d : ide) (s l m h : Z) : ide :=
  mkIde (media d) (capacity d) s l m h (busy d) (delays d) (commands d) (xfer d) (failed d).
Definition start (d : ide) (t : transfer) (f : bool) : ide :=
  mkIde (media d) (capacity d) (r_select d) (r_low d) (r_mid d) (r_high d) (delays d (commands d)) (delays d) (S (commands d)) t f.
Definition set_busy (d : ide) (n : nat) : ide :=
  mkIde (media d) (capacity d) (r_select d) (r_low d) (r_mid d) (r_high d) n (delays d) (commands d) (xfer d) (failed d).
Definition set_xfer (d : ide) (t : transfer) : ide :=
  mkIde (media d) (capacity d) (r_select d) (r_low d) (r_mid d) (r_high d) (busy d) (delays d) (commands d) t (failed d).
Definition set_media (d : ide) (m : Z -> Z -> list Z) : ide :=
  mkIde m (capacity d) (r_select d) (r_low d) (r_mid d) (r_high d) (busy d) (delays d) (commands d) (xfer d) (failed d).

Definition ide_command (d : ide) (c : Z) : ide :=
  if c =? ATA_CMD_CACHE_FLUSH then start d Idle false else
  if negb (reg_lba d <? capacity d (reg_drive d)) then start d Idle true else
  if c =? ATA_CMD_READ_SECTORS then start d (Reading (to_words (media d (reg_drive d) (reg_lba d)))) false else
  if c =? ATA_CMD_WRITE_SECTORS then start d (Writing (reg_drive d) (reg_lba d) []) false else start d Idle true.

Definition ide_outb (d : ide) (port v : Z) : ide :=
  if port =? ATA_DRIVE_SELECT then set_regs d v (r_low d) (r_mid d) (r_high d) else
  if port =? ATA_LBA_LOW then set_regs d (r_select d) v (r_mid d) (r_high d) else
  if port =? ATA_LBA_MID then set_regs d (r_select d) (r_low d) v (r_high d) else
  if port =? ATA_LBA_HIGH then set_regs d (r_select d) (r_low d) (r_mid d) v else
  if port =? ATA_COMMAND_STATUS then ide_command d v else d.

Definition drq (d : ide) : bool := match xfer d with Idle => false | _ => true end.

(** The status register: busy, or ready with data request and error bits. *)
Definition ide_status (d : ide) : Z * ide :=
  match busy d with
  | S n => (ATA_STATUS_BSY, set_busy d n)
  | O => (0x40 + (if drq d then ATA_STATUS_DRQ else 0) + (if failed d then ATA_STATUS_ERR else 0), d)
  end.

Definition ide_inw (d : ide) : Z * ide :=
  match xfer d with
  | Reading [w] => (w, set_xfer d Idle)
  | Reading (w :: ws) => (w, set_xfer d (Reading ws))
  | _ => (0xFFFF, d)
  end.

Definition put_sector (m : Z -> Z -> list Z) (drive lba : Z) (b : list Z) : Z -> Z -> list Z :=
  fun dr l => if decide (dr = drive /\ l = lba) then b else m dr l.

Definition ide_outw (d : ide) (v : Z) : ide :=
  match xfer d with
  | Writing drive lba ws =>
      if (length ws =? 255)%nat then set_media (set_xfer d Idle) (put_sector (media d) drive lba (of_words (ws ++ [v])))
      else set_xfer d (Writing drive lba (ws ++ [v]))
  | _ => d
  end.

(** A machine with such a channel at its ports; port 0x80 is not part of it. *)
Definition ata_port (p : Z) : Prop := 0x1F0 <= p <= 0x1F7 \/ p = 0x80.
Class AtaDevice (H : Type) `{Hardware H} := {
  view : H -> ide;
  view_outb : forall h p v, ata_port p -> view (outb h p v) = ide_outb (view h) p v;
  view_status : forall h, ((inb h ATA_COMMAND_STATUS).1, view (inb h ATA_COMMAND_STATUS).2) = ide_status (view h);
  view_inw : forall h, ((inw h ATA_DATA_PORT).1, view (inw h ATA_DATA_PORT).2) = ide_inw (view h);
  view_outw : forall h v, view (outw h ATA_DATA_PORT v) = ide_outw (view h) v
}.

(** A channel between commands, with drives that answer in time. *)
Record ready (d : ide) : Prop := {
  rd_idle : xfer d = Idle;
  rd_busy : (busy d < Z.to_nat POLLS)%nat;
  rd_delays : forall k, (delays d k < Z.to_nat POLLS)%nat
}.

(** ** Programs over the drive *)
Section Wp.
Context {H : Type} `{AtaDevice H}.

(** From every machine whose channel is [d], the code ends with a result and a
    channel that satisfy [Q]. *)
Definition wp {A} (m : hw H A) (Q : A -> ide -> Prop) (d : ide) : Prop :=
  forall h, view h = d -> Q (m h).1 (view (m h).2).

Lemma hwp_ret {A} (a : A) Q d : Q a d -> wp (mret a) Q d.
Proof. intros HQ h <-. exact HQ. Qed.

Lemma hwp_bind {A B} (m : hw H A) (f : A -> hw H B) Q d : wp m (fun a => wp (f a) Q) d -> wp (m ≫= f) Q d.
Proof.
  intros Hm h Hh. specialize (Hm h Hh). unfold mbind, hw_bind. destruct (m h) as [a h']. by apply Hm.
Qed.

Lemma wp_outb p v Q d : ata_port p -> Q tt (ide_outb d p v) -> wp (port_outb p v) Q d.
Proof. intros Hp HQ h <-. cbn. by rewrite view_outb. Qed.

Lemma wp_wait Q d : Q tt d -> wp io_wait Q d.
Proof. intros HQ. apply wp_outb; [by right|done]. Qed.

Lemma wp_status Q d : Q (ide_status d).1 (ide_status d).2 -> wp (port_inb ATA_COMMAND_STATUS) Q d.
Proof. intros HQ h <-. unfold port_inb. pose proof (view_status h) as E. destruct (inb h ATA_COMMAND_STATUS) as [s h']. by rewrite <- E in HQ. Qed.

Lemma wp_inw Q d : Q (ide_inw d).1 (ide_inw d).2 -> wp (port_inw ATA_DATA_PORT) Q d.
Proof. intros HQ h <-. unfold port_inw. pose proof (view_inw h) as E. destruct (inw h ATA_DATA_PORT) as [s h']. by rewrite <- E in HQ. Qed.

Lemma wp_outw v Q d : Q tt (ide_outw d v) -> wp (port_outw ATA_DATA_PORT v) Q d.
Proof. intros HQ h <-. cbn. by rewrite view_outw. Qed.

Lemma wp_and_then {A B E} (m : hw H (result A E)) (f : A -> hw H (result B E)) Q d :
  wp m (fun r => wp (match r with Ok a => f a | Err e => mret (Err e) end) Q) d -> wp (and_then m f) Q d.
Proof. apply hwp_bind. Qed.

Lemma hwp_mono {A} (m : hw H A) (Q Q' : A -> ide -> Prop) d : (forall a d', Q a d' -> Q' a d') -> wp m Q d -> wp m Q' d.
Proof. intros HQ Hm h Hh. by apply HQ, Hm. Qed.

(** *** The polling loops *)
Lemma wp_poll_not_busy n : forall d (Q : result () AtaError -> ide -> Prop),
  (busy d < n)%nat -> Q (Ok tt) (set_busy d 0) -> wp (poll_not_busy n) Q d.
Proof.
  induction n as [|n IH]; intros d Q Hn HQ; [lia|]. cbn [poll_not_busy]. apply hwp_bind, wp_status. unfold ide_status.
  destruct d as [md cp s l m hi b dl cm x f]. cbn [busy] in *. destruct b as [|b]; cbn [fst snd].
  - unfold drq. cbn [xfer failed]. destruct x, f; apply hwp_ret; exact HQ.
  - cbn -[poll_not_busy]. apply hwp_bind, wp_wait, IH; [cbn; lia|exact HQ].
Qed.

Lemma wp_poll_ready n : forall d (Q : result () AtaError -> ide -> Prop),
  (busy d < n)%nat -> failed d = false -> drq d = true -> Q (Ok tt) (set_busy d 0) -> wp (poll_ready n) Q d.
Proof.
  induction n as [|n IH]; intros d Q Hn Hf Hd HQ; [lia|]. cbn [poll_ready]. apply hwp_bind, wp_status. unfold ide_status.
  destruct d as [md cp s l m hi b dl cm x f]. cbn [busy failed] in *. destruct b as [|b]; cbn [fst snd].
  - subst f. rewrite Hd. apply hwp_ret. exact HQ.
  - cbn -[poll_ready]. apply hwp_bind, wp_wait, IH; [cbn; lia|done|exact Hd|exact HQ].
Qed.

Lemma wp_poll_timeout n : forall d (Q : result () AtaError -> ide -> Prop),
  (n <= busy d)%nat -> Q (Err DriveBusy) (set_busy d (busy d - n)) -> wp (poll_not_busy n) Q d.
Proof.
  induction n as [|n IH]; intros d Q Hn HQ; cbn [poll_not_busy].
  - apply hwp_ret. rewrite Nat.sub_0_r in HQ. by destruct d.
  - apply hwp_bind, wp_status. unfold ide_status. destruct d as [md cp s l m hi b dl cm x f]. cbn [busy] in *. destruct b as [|b]; [lia|].
    cbn -[poll_not_busy]. apply hwp_bind, wp_wait, IH; [cbn; lia|exact HQ].
Qed.

Lemma wp_poll_failed n : forall d (Q : result () AtaError -> ide -> Prop),
  (busy d < n)%nat -> failed d = true -> Q (Err DriveError) (set_busy d 0) -> wp (poll_ready n) Q d.
Proof.
  induction n as [|n IH]; intros d Q Hn Hf HQ; [lia|]. cbn [poll_ready]. apply hwp_bind, wp_status. unfold ide_status.
  destruct d as [md cp s l m hi b dl cm x f]. cbn [busy failed] in *. subst f. destruct b as [|b]; cbn [fst snd].
  - unfold drq. cbn [xfer failed]. destruct x; apply hwp_ret; exact HQ.
  - cbn -[poll_ready]. apply hwp_bind, wp_wait, IH; [cbn; lia|done|exact HQ].
Qed.

(** *** Issuing a command *)
Definition addressed (d : ide) (drive lba : Z) : ide :=
  set_regs d (drive_head drive lba) (wrap 8 lba) (wrap 8 (Z.shiftr lba 8)) (wrap 8 (Z.shiftr lba 16)).

Lemma wp_issue drive lba c Q d : Q tt (ide_command (addressed d drive lba) c) -> wp (issue drive lba c) Q d.
Proof.
  intros HQ. unfold issue. repeat (apply hwp_bind; first [apply wp_wait|apply wp_outb; [left; by split|]]; cbv beta).
  apply wp_outb; [left; by split|]. destruct d. exact HQ.
Qed.

(** *** The transfer loops *)
Lemma wp_read_words n : forall ws d (Q : list Z -> ide -> Prop),
  length ws = n -> xfer d = (match n with O => Idle | S _ => Reading ws end) ->
  Q (of_words ws) (set_xfer d Idle) -> wp (read_words n) Q d.
Proof.
  induction n as [|n IH]; intros ws d Q Hl Hx HQ; destruct ws as [|w ws]; try done.
  - apply hwp_ret. destruct d. cbn in Hx. subst. exact HQ.
  - cbn [read_words]. apply hwp_bind, wp_inw. injection Hl as Hl. cbn in Hx. unfold ide_inw. rewrite Hx. cbv beta.
    destruct ws as [|w' ws]; cbn [fst snd]; apply hwp_bind.
    + subst n. apply (IH []); [done|done|]. apply hwp_ret. by destruct d.
    + subst n. apply (IH (w' :: ws)); [done|done|]. apply hwp_ret. by destruct d.
Qed.

Definition word_at (buffer : list Z) (i : nat) : Z := Z.lor (nth (i * 2) buffer 0) (Z.shiftl (nth (i * 2 + 1) buffer 0) 8).

Lemma wp_write_words n : forall i acc buffer drive lba d (Q : () -> ide -> Prop),
  length acc = i -> (n + i = 256)%nat -> xfer d = (match n with O => Idle | S _ => Writing drive lba acc end) ->
  Q tt (match n with O => d | S _ => set_media (set_xfer d Idle) (put_sector (media d) drive lba (of_words (acc ++ (word_at buffer <$> seq i n)))) end) ->
  wp (write_words n i buffer) Q d.
Proof.
  induction n as [|n IH]; intros i acc buffer drive lba d Q Hl Hn Hx HQ; cbn [write_words].
  { apply hwp_ret. exact HQ. }
  apply hwp_bind, wp_outw. unfold ide_outw. rewrite Hx. fold (word_at buffer i). destruct (Nat.eqb_spec (length acc) 255) as [E|E].
  - assert (n = 0%nat) as -> by lia. apply hwp_ret. exact HQ.
  - destruct n as [|n]; [lia|]. apply (IH _ (acc ++ [word_at buffer i]) _ drive lba); [rewrite length_app; cbn; lia|lia|done|].
    rewrite <- app_assoc. destruct d. exact HQ.
Qed.

End Wp.

(** ** Words and addresses *)
Definition bytes512 (b : list Z) : Prop := length b = 512%nat /\ Forall (in_u 8) b.

Lemma of_to_words b : forall n, length b = (2 * n)%nat -> Forall (in_u 8) b -> of_words (to_words b) = b /\ length (to_words b) = n.
Proof.
  intros n. revert b. induction n as [|n IH]; intros b Hl Hb; [by destruct b|]. destruct b as [|b0 [|b1 b]]; try (cbn in Hl; lia).
  apply Forall_cons_1 in Hb as [H0 Hb]. apply Forall_cons_1 in Hb as [H1 Hb]. cbn [to_words of_words length].
  destruct (IH b) as [E L]; [cbn in Hl; lia|done|]. rewrite E, L. split; [|done].
  assert (B : forall i, 8 <= i -> Z.testbit b0 i = false) by (intros; by apply (testbit_high 8)).
  f_equal; [|f_equal]; apply Z.bits_inj'; intros i Hi; change 0xFF with (Z.ones 8); rewrite Z.land_spec, Z.testbit_ones_nonneg by lia.
  - rewrite Z.lor_spec, Z.shiftl_spec by lia. destruct (Z.ltb_spec i 8).
    + rewrite (Z.testbit_neg_r b1) by lia. by rewrite orb_false_r, andb_true_r.
    + by rewrite B, andb_false_r.
  - rewrite Z.shiftr_spec, Z.lor_spec, Z.shiftl_spec by lia. rewrite B by lia. replace (i + 8 - 8) with i by lia. cbn [orb].
    destruct (Z.ltb_spec i 8); [by rewrite andb_true_r|]. rewrite andb_false_r. by rewrite (testbit_high 8 b1).
Qed.

Lemma word_at_seq n : forall b, length b = (2 * n)%nat -> word_at b <$> seq 0 n = to_words b.
Proof.
  induction n as [|n IH]; intros b Hl; [by destruct b|]. destruct b as [|b0 [|b1 b]]; try (cbn in Hl; lia).
  cbn [seq to_words fmap list_fmap]. f_equal. rewrite <- (IH b) by (cbn in Hl; lia). rewrite <- fmap_S_seq, <- list_fmap_compose.
  apply list_fmap_ext. intros k x _. done.
Qed.

(** The task file holds the drive and the sector the driver asked for. *)
Lemma addressed_regs d drive lba : 0 <= lba < 2 ^ 28 ->
  reg_drive (addressed d drive lba) = (if drive =? 0 then 0 else 1) /\ reg_lba (addressed d drive lba) = lba.
Proof.
  intros Hl. unfold reg_drive, reg_lba, addressed, drive_head. cbn [r_select r_low r_mid r_high set_regs]. unfold wrap.
  rewrite !Z.shiftr_div_pow2 by lia. change 0x0F with (Z.ones 4). rewrite Z.land_ones by lia.
  assert (Hq : 0 <= lba / 2 ^ 24 < 16) by (split; [apply Z.div_pos; lia|apply Z.div_lt_upper_bound; lia]).
  rewrite (Z.mod_small (lba / 2 ^ 24)) by done. rewrite (Z.mod_small (lba / 2 ^ 24)) by (change (2 ^ 8) with 256; lia).
  change 15 with (Z.ones 4). rewrite Z.land_ones, Z.lor_spec by lia.
  assert (B4 : Z.testbit (lba / 2 ^ 24) 4 = false) by (apply (testbit_high 4); [split; lia|lia]). rewrite B4, orb_false_r. split; [by destruct (drive =? 0)|].
  assert (Hm : Z.lor (if drive =? 0 then 0xE0 else 0xF0) (lba / 2 ^ 24) mod 2 ^ 4 = lba / 2 ^ 24).
  { rewrite <- Z.land_ones, Z.land_lor_distr_l, !Z.land_ones, (Z.mod_small (lba / 2 ^ 24)) by lia. by destruct (drive =? 0). }
  rewrite Hm. change (2 ^ 8) with 256. change (2 ^ 16) with 65536. change (2 ^ 24) with 16777216.
  pose proof (Z.div_mod lba 256). pose proof (Z.div_mod (lba / 256) 256). pose proof (Z.div_mod (lba / 256 / 256) 256).
  rewrite !Z.div_div in * by lia. change (256 * 256) with 65536 in *. change (65536 * 256) with 16777216 in *. lia.
Qed.

(** ** Reads and writes *)
Definition unit_of (drive : Z) : Z := if drive =? 0 then 0 else 1.

(** What the driver expects of the sector it addresses. *)
Definition reachable (d : ide) (drive lba : Z) : Prop := 0 <= lba < 2 ^ 28 /\ lba < capacity d (unit_of drive).

Section Sectors.
Context {H : Type} `{AtaDevice H}.

Lemma command_addressed d drive lba c : reachable d drive lba -> c <> ATA_CMD_CACHE_FLUSH ->
  ide_command (addressed d drive lba) c =
  if c =? ATA_CMD_READ_SECTORS then start (addressed d drive lba) (Reading (to_words (media d (unit_of drive) lba))) false else
  if c =? ATA_CMD_WRITE_SECTORS then start (addressed d drive lba) (Writing (unit_of drive) lba []) false else start (addressed d drive lba) Idle true.
Proof.
  intros [Hl Hc] Hn. unfold ide_command. destruct (addressed_regs d drive lba Hl) as [-> ->]. rewrite (proj2 (Z.eqb_neq c _)) by done.
  fold (unit_of drive). change (capacity (addressed d drive lba)) with (capacity d). by rewrite (proj2 (Z.ltb_lt _ _)).
Qed.

Lemma wp_read_sector d drive lba : ready d -> reachable d drive lba -> bytes512 (media d (unit_of drive) lba) ->
  wp (read_sector_drive drive lba) (fun r d' => r = Ok (media d (unit_of drive) lba) /\
    media d' = media d /\ capacity d' = capacity d /\ ready d') d.
Proof.
  intros [Hi Hb Hd] Hr [Hlen Hby]. unfold read_sector_drive. rewrite (proj2 (Z.ltb_ge _ _)) by (destruct Hr; lia).
  apply wp_and_then, wp_poll_not_busy; [done|]. apply hwp_bind, wp_issue. rewrite command_addressed by done.
  change (ATA_CMD_READ_SECTORS =? ATA_CMD_READ_SECTORS) with true. cbv iota.
  apply wp_and_then, wp_poll_ready; [apply Hd|done|done|].
  destruct (of_to_words (media d (unit_of drive) lba) 256 Hlen Hby) as [E L].
  apply hwp_bind, (wp_read_words 256 (to_words (media d (unit_of drive) lba))); [done|done|]. apply hwp_ret. rewrite E. split; [done|].
  split; [done|]. split; [done|]. split; [done|cbn [busy set_busy set_xfer]; unfold POLLS; lia|done].
Qed.

Lemma wp_write_sector d drive lba b : ready d -> reachable d drive lba -> bytes512 b ->
  wp (write_sector_drive drive lba b) (fun r d' => r = Ok tt /\
    media d' = put_sector (media d) (unit_of drive) lba b /\ capacity d' = capacity d /\ ready d') d.
Proof.
  intros [Hi Hb Hd] Hr [Hlen Hby]. unfold write_sector_drive. rewrite (proj2 (Z.ltb_ge _ _)) by (destruct Hr; lia).
  apply wp_and_then, wp_poll_not_busy; [done|]. apply hwp_bind, wp_issue. rewrite command_addressed by done.
  change (ATA_CMD_WRITE_SECTORS =? ATA_CMD_READ_SECTORS) with false. change (ATA_CMD_WRITE_SECTORS =? ATA_CMD_WRITE_SECTORS) with true. cbv iota.
  apply wp_and_then, wp_poll_ready; [apply Hd|done|done|].
  destruct (of_to_words b 256 Hlen Hby) as [E L].
  apply hwp_bind, (wp_write_words 256 0 [] b (unit_of drive) lba); [done|done|done|]. rewrite word_at_seq by done. cbn [app]. rewrite E.
  apply hwp_bind, wp_outb; [left; by split|]. change (ide_outb ?d ATA_COMMAND_STATUS ATA_CMD_CACHE_FLUSH) with (start d Idle false).
  apply wp_and_then, wp_poll_not_busy; [apply Hd|]. apply hwp_ret. split; [done|]. split; [done|]. split; [done|].
  split; [done|cbn [busy set_busy]; unfold POLLS; lia|done].
Qed.

End Sectors.

Lemma fst_pair {A B} (p : A * B) a : p.1 = a -> p = (a, p.2).
Proof. by destruct p; intros <-. Qed.

(** ** What a file system needs of a disk *)
Class Disk (D : Type) := {
  disk_read : Z -> Z -> hw D (result (list Z) AtaError);
  disk_write : Z -> Z -> list Z -> hw D (result () AtaError);
  disk_ok : D -> Z -> Prop;
  disk_size : D -> Z -> Z;
  sector : D -> Z -> Z -> list Z;
  sector_bytes : forall d drive lba, disk_ok d drive -> 0 <= lba < disk_size d drive -> bytes512 (sector d drive lba);
  disk_read_ok : forall d drive lba, disk_ok d drive -> 0 <= lba < disk_size d drive ->
    exists d', disk_read drive lba d = (Ok (sector d drive lba), d') /\ disk_ok d' drive /\
      disk_size d' drive = disk_size d drive /\ forall l, sector d' drive l = sector d drive l;
  disk_write_ok : forall d drive lba b, disk_ok d drive -> 0 <= lba < disk_size d drive -> bytes512 b ->
    exists d', disk_write drive lba b d = (Ok tt, d') /\ disk_ok d' drive /\
      disk_size d' drive = disk_size d drive /\ forall l, sector d' drive l = if decide (l = lba) then b else sector d drive l
}.

(** The driver over an ATA channel is such a disk; 28-bit addressing bounds it. *)
Section AtaDisk.
Context {H : Type} `{AtaDevice H}.

Definition ata_ok (h : H) (drive : Z) : Prop :=
  ready (view h) /\ forall lba, 0 <= lba < capacity (view h) (unit_of drive) -> bytes512 (media (view h) (unit_of drive) lba).
Definition ata_size (h : H) (drive : Z) : Z := Z.min (2 ^ 28) (capacity (view h) (unit_of drive)).
Definition ata_sector (h : H) (drive lba : Z) : list Z := media (view h) (unit_of drive) lba.

Lemma ata_reachable h drive lba : 0 <= lba < ata_size h drive -> reachable (view h) drive lba /\ 0 <= lba < capacity (view h) (unit_of drive).
Proof. unfold ata_size, reachable. lia. Qed.

#[global] Program Instance ata_disk : Disk H := {|
  disk_read := read_sector_drive; disk_write := write_sector_drive;
  disk_ok := ata_ok; disk_size := ata_size; sector := ata_sector
|}.
Next Obligation. intros h drive lba [_ Hb] Hl. apply Hb. by apply ata_reachable. Qed.
Next Obligation.
  intros h drive lba [Hr Hb] Hl. apply ata_reachable in Hl as [Hre Hl].
  destruct (wp_read_sector (view h) drive lba Hr Hre (Hb lba Hl) h eq_refl) as (E & Em & Ec & Hr').
  exists (read_sector_drive drive lba h).2. split; [by apply fst_pair|].
  unfold ata_ok, ata_size, ata_sector. rewrite Em, Ec. done.
Qed.
Next Obligation.
  intros h drive lba b [Hr Hb] Hl Hb512. apply ata_reachable in Hl as [Hre Hl].
  destruct (wp_write_sector (view h) drive lba b Hr Hre Hb512 h eq_refl) as (E & Em & Ec & Hr').
  exists (write_sector_drive drive lba b h).2. split; [by apply fst_pair|].
  unfold ata_ok, ata_size, ata_sector. rewrite Em, Ec. unfold put_sector. split; [split; [done|]|split; [done|]].
  - intros l Hl'. by case_decide; [|apply Hb].
  - intros l. destruct (decide (l = lba)) as [->|]; [by rewrite decide_True|]. rewrite decide_False by tauto. done.
Qed.

End AtaDisk.

(** ** Theorems *)

(** A sector written is read back: on every machine whose ports lead to an
    ATA channel that answers within the driver's polls, writing a sector and then
    reading any sector of the drive succeeds, and the bytes read are the ones
    written, or for another sector the ones that were there before. *)
Theorem ata_roundtrip {H} `{AtaDevice H} (h : H) drive lba b l :
  ata_ok h drive -> 0 <= lba < ata_size h drive -> 0 <= l < ata_size h drive -> bytes512 b ->
  exists h1 h2, write_sector_drive drive lba b h = (Ok tt, h1) /\
    read_sector_drive drive l h1 = (Ok (if decide (l = lba) then b else ata_sector h drive l), h2).
Proof.
  intros Hok Hl Hl' Hb. destruct (disk_write_ok (Disk := ata_disk) h drive lba b Hok Hl Hb) as (h1 & E1 & Hok1 & Hs1 & Hsec1). exists h1.
  change (disk_size h1 drive) with (ata_size h1 drive) in Hs1. change (disk_size h drive) with (ata_size h drive) in Hs1.
  destruct (disk_read_ok (Disk := ata_disk) h1 drive l Hok1) as (h2 & E2 & _); [change (0 <= l < ata_size h1 drive); lia|]. exists h2. split; [exact E1|].
  rewrite <- Hsec1. exact E2.
Qed.

(** The driver reports what goes wrong and leaves the disk alone: a sector
    number above 28 bits is refused without touching a port, a channel that stays
    busy for all polls gives [DriveBusy], and a sector beyond the end of the drive
    gives [DriveError]; in no case does a sector change. *)
Theorem ata_errors {H} `{AtaDevice H} (h : H) drive lba b :
  (2 ^ 28 <= lba -> read_sector_drive drive lba h = (Err InvalidLba, h) /\ write_sector_drive drive lba b h = (Err InvalidLba, h)) /\
  (0 <= lba < 2 ^ 28 -> (Z.to_nat POLLS <= busy (view h))%nat ->
     exists h', write_sector_drive drive lba b h = (Err DriveBusy, h') /\ media (view h') = media (view h)) /\
  (0 <= lba < 2 ^ 28 -> ready (view h) -> capacity (view h) (unit_of drive) <= lba ->
     exists h', write_sector_drive drive lba b h = (Err DriveError, h') /\ media (view h') = media (view h)).
Proof.
  split; [|split].
  - intros Hl. unfold read_sector_drive, write_sector_drive. by rewrite (proj2 (Z.ltb_lt _ _)) by lia.
  - intros Hl Hb. exists (write_sector_drive drive lba b h).2. enough (Hw : wp (write_sector_drive drive lba b)
      (fun r d' => r = Err DriveBusy /\ media d' = media (view h)) (view h)) by (destruct (Hw h eq_refl) as [E Em]; split; [by apply fst_pair|done]).
    unfold write_sector_drive. rewrite (proj2 (Z.ltb_ge _ _)) by lia. apply wp_and_then, wp_poll_timeout; [done|]. by apply hwp_ret.
  - intros Hl [Hi Hb Hd] Hc. exists (write_sector_drive drive lba b h).2. enough (Hw : wp (write_sector_drive drive lba b)
      (fun r d' => r = Err DriveError /\ media d' = media (view h)) (view h)) by (destruct (Hw h eq_refl) as [E Em]; split; [by apply fst_pair|done]).
    unfold write_sector_drive. rewrite (proj2 (Z.ltb_ge _ _)) by lia. apply wp_and_then, wp_poll_not_busy; [done|]. apply hwp_bind, wp_issue.
    set (d1 := addressed _ drive lba). assert (E : ide_command d1 ATA_CMD_WRITE_SECTORS = start d1 Idle true).
    { unfold ide_command, d1. destruct (addressed_regs (set_busy (view h) 0) drive lba Hl) as [-> ->]. fold (unit_of drive).
      cbn [capacity addressed set_regs set_busy]. by rewrite (proj2 (Z.ltb_ge _ _)). }
    rewrite E. apply wp_and_then, wp_poll_failed; [apply Hd|done|]. by apply hwp_ret.
Qed.

(** *** Witness: a machine that is one channel with one drive *)
#[global] Instance ide_hardware : Hardware ide := {
  outb := ide_outb; inb d port := if port =? ATA_COMMAND_STATUS then ide_status d else (0, d);
  outw d port v := if port =? ATA_DATA_PORT then ide_outw d v else d; inw d port := if port =? ATA_DATA_PORT then ide_inw d else (0xFFFF, d);
  outl d _ _ := d; inl d _ := (0, d); write_volatile d _ _ := d; read_volatile d _ := (0, d)
}.
Lemma eta_pair {A B} (p : A * B) : (p.1, p.2) = p.
Proof. by destruct p. Qed.
#[global] Program Instance ide_device : AtaDevice ide := { view d := d }.
Solve All Obligations with (intros; first [done|apply eta_pair]).

(** Empty drives of [n] sectors, each command taking three polls. *)
Definition blank_disk (n : Z) : ide := mkIde (fun _ _ => replicate 512 0) (fun u => if u =? 0 then n else 0) 0 0 0 0 0 (fun _ => 3%nat) 0 Idle false.

Lemma blank_ok n : ata_ok (blank_disk n) 0.
Proof.
  split; [split; [done|change (0 < Z.to_nat POLLS)%nat; unfold POLLS; lia|intros k; change (3 < Z.to_nat POLLS)%nat; unfold POLLS; lia]|].
  intros lba _. split; [done|]. by apply Forall_replicate. Qed.

Definition pattern : list Z := (fun i => Z.of_nat i mod 256) <$> seq 0 512.

Lemma ata_roundtrip_witness :
  ata_ok (blank_disk 64) 0 /\
  exists h1 h2, write_sector_drive 0 5 pattern (blank_disk 64) = (Ok tt, h1) /\ read_sector_drive 0 5 h1 = (Ok pattern, h2).
Proof.
  split; [apply blank_ok|]. apply (ata_roundtrip (blank_disk 64) 0 5 pattern 5); [apply blank_ok|done|done|]. split; [done|]. by_compute.
Defined.

Lemma ata_errors_witness : (exists h', write_sector_drive 0 64 pattern (blank_disk 64) = (Err DriveError, h') /\ media h' = media (blank_disk 64)) /\
  write_sector_drive 0 (2 ^ 28) pattern (blank_disk 64) = (Err InvalidLba, blank_disk 64).
Proof.
  destruct (ata_errors (blank_disk 64) 0 64 pattern) as (_ & _ & H3). destruct (ata_errors (blank_disk 64) 0 (2 ^ 28) pattern) as (H1 & _ & _).
  split; [|by apply H1]. apply H3; [lia|apply blank_ok|done].
Defined.

End Ata.
