(* ===== verification/Fat32.v ===== *)
(** * The FAT32 file system (src/src/fs/fat32.rs)

    Formatting, mounting, the allocation table, cluster allocation and release,
    directory search and update, and the file operations, over any [Disk].  Names
    and paths are the bytes of Rust's UTF-8 strings.  Loops along cluster chains
    have [fuel] iterations; nothing in the code bounds them. *)

From stdpp Require Import prelude numbers list strings.
From S2P Require Import Prelude Io Errors Ata Bytes Text.
Import Bytes Errors Ata.

Module Fat32.
Export Text.

Definition ATTR_READ_ONLY : Z := 0x01.
Definition ATTR_HIDDEN : Z := 0x02.
Definition ATTR_SYSTEM : Z := 0x04.
Definition ATTR_VOLUME_ID : Z := 0x08.
Definition ATTR_DIRECTORY : Z := 0x10.
Definition ATTR_ARCHIVE : Z := 0x20.
Definition ATTR_LFN : Z := 0x0F.
Definition FAT_FREE : Z := 0.
Definition FAT_BAD : Z := 0x0FFFFFF7.
Definition FAT_EOC : Z := 0x0FFFFFFF.

Record FatDirEntry := mkDirEntry {
  name : list Z; is_directory : bool; first_cluster : Z; file_size : Z; attributes : Z
}.
Record Bpb := mkBpb {
  bytes_per_sector : Z; sectors_per_cluster : Z; reserved_sectors : Z; num_fats : Z; total_sectors : Z;
  sectors_per_fat : Z; root_cluster : Z; fs_info_sector : Z; volume_id : Z; volume_label : list Z
}.
Record Fat32Info := mkInfo {
  i_volume_label : list Z; i_total_sectors : Z; bytes_per_cluster : Z; i_total_clusters : Z; free_clusters : Z;
  total_space_kb : Z; free_space_kb : Z
}.
Record Fat32Fs := mkFs {
  drive : Z; lba_start : Z; bpb : Bpb; fat_start_lba : Z; data_start_lba : Z; total_clusters : Z
}.

(** ** Words of 16 and 32 bits *)
Definition u32_add (a b : Z) : Z := wrap 32 (a + b).
Definition u32_sub (a b : Z) : Z := wrap 32 (a - b).
Definition u32_mul (a b : Z) : Z := wrap 32 (a * b).

(** [buf[off..off + bs.len()].copy_from_slice(bs)], in range. *)
Definition put (buf : list Z) (off : nat) (bs : list Z) : list Z := take off buf ++ bs ++ drop (off + length bs) buf.
Definition get (buf : list Z) (off n : nat) : list Z := take n (drop off buf).
Definition le (buf : list Z) (off n : nat) : Z := le_value (get buf off n).
Definition le16 (x : Z) : list Z := to_le 2 x.
Definition le32 (x : Z) : list Z := to_le 4 x.
Definition byte (buf : list Z) (off : nat) : Z := nth off buf 0.
Definition zero_sector : list Z := replicate 512 0.

(** ** Strings *)
Definition bytes_of (s : string) : list Z := ascii_bytes s.
Definition SLASH : Z := 47.
Definition DOT : Z := 46.

(** ** Fallible code over a disk *)
Definition io (D A : Type) : Type := D -> outcome (result A Fat32Error * D).
#[global] Instance io_ret D : MRet (io D) := fun A a d => Ret (Ok a, d).
#[global] Instance io_bind D : MBind (io D) := fun A B f m d =>
  match m d with
  | Ret (Ok a, d') => f a d'
  | Ret (Err e, d') => Ret (Err e, d')
  | Panic => Panic
  | NoFuel => NoFuel
  end.
Definition fail {D A} (msg : string) : io D A := fun d => Ret (Err (fat32_from msg), d).
Definition out_of_fuel {D A} : io D A := fun _ => NoFuel.

Fixpoint for_each {D X} (l : list X) (body : X -> io D ()) : io D () :=
  match l with [] => mret tt | x :: l' => body x;; for_each l' body end.

(** [a..b] *)
Definition urange (a b : Z) : list Z := (fun k => a + Z.of_nat k) <$> seq 0 (Z.to_nat (b - a)).

Section Fs.
Context {D : Type} `{Disk D}.

Definition read_sec (dr lba : Z) : io D (list Z) := fun d =>
  let '(r, d') := disk_read dr lba d in Ret (match r with Ok b => Ok b | Err e => Err (fat32_from_ata e) end, d').
Definition write_sec (dr lba : Z) (b : list Z) : io D () := fun d =>
  let '(r, d') := disk_write dr lba b d in Ret (match r with Ok u => Ok u | Err e => Err (fat32_from_ata e) end, d').

(** ** Formatting and mounting *)

(** [[b' '; n]] with the first bytes of [src]. *)
Definition padded (n : nat) (src : list Z) : list Z := take n src ++ replicate (n - length (take n src)) 32.

Definition boot_sector (lba total spf : Z) (label : list Z) : list Z :=
  let b := zero_sector in
  let b := put b 0 [0xEB; 0x58; 0x90] in
  let b := put b 3 (bytes_of "AURA_OS ") in
  let b := put b 11 (le16 512) in
  let b := put b 13 [1] in
  let b := put b 14 (le16 32) in
  let b := put b 16 [2] in
  let b := put b 17 (le16 0) in
  let b := put b 19 (le16 0) in
  let b := put b 21 [0xF8] in
  let b := put b 22 (le16 0) in
  let b := put b 24 (le16 63) in
  let b := put b 26 (le16 255) in
  let b := put b 28 (le32 lba) in
  let b := put b 32 (le32 total) in
  let b := put b 36 (le32 spf) in
  let b := put b 40 (le16 0) in
  let b := put b 42 (le16 0) in
  let b := put b 44 (le32 2) in
  let b := put b 48 (le16 1) in
  let b := put b 50 (le16 6) in
  let b := put b 64 [0x80] in
  let b := put b 66 [0x29] in
  let b := put b 67 (le32 0x20260909) in
  let b := put b 71 label in
  let b := put b 82 (bytes_of "FAT32   ") in
  put b 510 [0x55; 0xAA].

Definition fsinfo_sector (clusters : Z) : list Z :=
  let b := zero_sector in
  let b := put b 0 (le32 0x41615252) in
  let b := put b 484 (le32 0x61417272) in
  let b := put b 488 (le32 (saturating_sub clusters 1)) in
  let b := put b 492 (le32 3) in
  put b 508 (le32 0xAA550000).

Definition fat_sector0 : list Z := put (put (put zero_sector 0 (le32 0x0FFFFFF8)) 4 (le32 FAT_EOC)) 8 (le32 FAT_EOC).

(** The number of sectors of each table. *)
Definition fat_size (total : Z) : Z :=
  let approx_data_sectors := saturating_sub total 32 in
  let approx_clusters := approx_data_sectors / 1 in
  let fat_bytes := u32_mul (u32_add approx_clusters 2) 4 in
  Z.max (u32_sub (u32_add fat_bytes SECTOR_SIZE) 1 / SECTOR_SIZE) 16.

Definition format (dr lba total : Z) (label : list Z) : io D Fat32Fs :=
  if total <? 1024 then fail "Volume too small for FAT32" else
  let spf := fat_size total in
  let data_start := u32_add (u32_add lba 32) (u32_mul 2 spf) in
  if negb (data_start <? u32_add lba total) then fail "Reserved & FAT sectors exceed volume size" else
  let clusters := u32_sub (u32_add lba total) data_start / 1 in
  let label_bytes := padded 11 label in
  write_sec dr lba (boot_sector lba total spf label_bytes);;
  write_sec dr (u32_add lba 1) (fsinfo_sector clusters);;
  let fat1_lba := u32_add lba 32 in
  let fat2_lba := u32_add fat1_lba spf in
  write_sec dr fat1_lba fat_sector0;;
  write_sec dr fat2_lba fat_sector0;;
  for_each (urange 1 spf) (fun s =>
    write_sec dr (u32_add fat1_lba s) zero_sector;;
    write_sec dr (u32_add fat2_lba s) zero_sector);;
  write_sec dr data_start (put (put zero_sector 0 label_bytes) 11 [ATTR_VOLUME_ID]);;
  for_each (urange 1 1) (fun s => write_sec dr (u32_add data_start s) zero_sector);;
  mret (mkFs dr lba (mkBpb 512 1 32 2 total spf 2 1 0x20260909 label_bytes) fat1_lba data_start clusters).

Definition mount (dr lba : Z) : io D Fat32Fs :=
  b ← read_sec dr lba;
  if (negb (byte b 510 =? 0x55) || negb (byte b 511 =? 0xAA))%bool then fail "Invalid boot sector signature (missing 0x55, 0xAA)" else
  if negb (bool_decide (get b 82 5 = bytes_of "FAT32")) then fail "Not a valid FAT32 filesystem (missing FAT32 signature)" else
  if negb (le b 11 2 =? 512) then fail "Unsupported sector size (only 512 bytes supported)" else
  let spc := byte b 13 in
  if spc =? 0 then fail "Invalid sectors per cluster (0)" else
  let reserved := le b 14 2 in
  let nf := byte b 16 in
  let total := le b 32 4 in
  let spf := le b 36 4 in
  let fat_start := u32_add lba reserved in
  let data_start := u32_add fat_start (u32_mul nf spf) in
  let data_sectors := saturating_sub total (saturating_sub data_start lba) in
  mret (mkFs dr lba (mkBpb (le b 11 2) spc reserved nf total spf (le b 44 4) (le b 48 2) (le b 67 4) (get b 71 11))
    fat_start data_start (data_sectors / spc)).

(** ** The allocation table *)
Variable fs : Fat32Fs.

Definition cluster_to_lba (cluster : Z) : Z :=
  u32_add (data_start_lba fs) (u32_mul (saturating_sub cluster 2) (sectors_per_cluster (bpb fs))).

Definition read_fat_entry (cluster : Z) : io D Z :=
  let fat_offset := u32_mul cluster 4 in
  let fat_sector := u32_add (fat_start_lba fs) (fat_offset / SECTOR_SIZE) in
  let offset_in_sec := Z.to_nat (fat_offset mod SECTOR_SIZE) in
  buf ← read_sec (drive fs) fat_sector;
  mret (Z.land (le buf offset_in_sec 4) 0x0FFFFFFF).

(** The entry's four bytes, with the upper four bits of the old value. *)
Definition patch_entry (buf : list Z) (off : nat) (value : Z) : list Z :=
  let old_top := Z.land (byte buf (off + 3)) 0xF0 in
  let val_bytes := le32 value in
  put (put buf off (take 3 val_bytes)) (off + 3) [Z.lor (Z.land (byte val_bytes 3) 0x0F) old_top].

Definition write_fat_entry (cluster value : Z) : io D () :=
  let fat_offset := u32_mul cluster 4 in
  let sector_offset := fat_offset / SECTOR_SIZE in
  let byte_offset := Z.to_nat (fat_offset mod SECTOR_SIZE) in
  for_each (urange 0 (num_fats (bpb fs))) (fun fat_idx =>
    let fat_lba := u32_add (u32_add (fat_start_lba fs) (u32_mul fat_idx (sectors_per_fat (bpb fs)))) sector_offset in
    buf ← read_sec (drive fs) fat_lba;
    write_sec (drive fs) fat_lba (patch_entry buf byte_offset value)).

(** [for c in 3..total_clusters], with [n] clusters left from [c] on. *)
Fixpoint alloc_scan (n : nat) (c : Z) (prev : option Z) : io D Z :=
  match n with
  | O => fail "FAT32: No free clusters available (disk full)"
  | S n' =>
      e ← read_fat_entry c;
      if e =? FAT_FREE then
        write_fat_entry c FAT_EOC;;
        match prev with Some p => write_fat_entry p c | None => mret tt end;;
        let lba := cluster_to_lba c in
        for_each (urange 0 (sectors_per_cluster (bpb fs))) (fun s => write_sec (drive fs) (u32_add lba s) zero_sector);;
        mret c
      else alloc_scan n' (c + 1) prev
  end.
Definition allocate_cluster (prev : option Z) : io D Z := alloc_scan (Z.to_nat (total_clusters fs - 3)) 3 prev.

(** [cluster >= 2 && cluster < 0x0FFF_FFF7] *)
Definition in_chain (cluster : Z) : bool := ((2 <=? cluster) && (cluster <? 0x0FFFFFF7))%bool.

Fixpoint free_cluster_chain (fuel : nat) (cluster : Z) : io D () :=
  if in_chain cluster then
    match fuel with
    | O => out_of_fuel
    | S fuel' =>
        next ← read_fat_entry cluster;
        write_fat_entry cluster FAT_FREE;;
        free_cluster_chain fuel' next
    end
  else mret tt.

(** ** Directories *)

(** One 32-byte slot: the end of the directory, a slot to skip, or an entry. *)
Inductive slot := SlotEnd | SlotSkip | SlotEntry (e : FatDirEntry).

Definition full_name (buf : list Z) (off : nat) : list Z :=
  let name_str := trim_end (str_or_empty (get buf off 8)) in
  let ext_str := trim_end (str_or_empty (get buf (off + 8) 3)) in
  if bool_decide (ext_str = []) then name_str else name_str ++ [DOT] ++ ext_str.

Definition read_slot (buf : list Z) (i : nat) : slot :=
  let off := (i * 32)%nat in
  let first_byte := byte buf off in
  if first_byte =? 0x00 then SlotEnd else
  if first_byte =? 0xE5 then SlotSkip else
  let attr := byte buf (off + 11) in
  if ((attr =? ATTR_LFN) || (negb (Z.land attr ATTR_VOLUME_ID =? 0) && (Z.land attr ATTR_DIRECTORY =? 0)))%bool then SlotSkip else
  let cluster_high := le buf (off + 20) 2 in
  let cluster_low := le buf (off + 26) 2 in
  SlotEntry (mkDirEntry (full_name buf off) (negb (Z.land attr ATTR_DIRECTORY =? 0))
    (Z.lor (wrap 32 (Z.shiftl cluster_high 16)) cluster_low) (le buf (off + 28) 4) attr).

(** The entries of a sector from slot [i] on, and whether its end was met. *)
Fixpoint list_slots (n : nat) (i : nat) (buf : list Z) : list FatDirEntry * bool :=
  match n with
  | O => ([], false)
  | S n' =>
      match read_slot buf i with
      | SlotEnd => ([], true)
      | SlotSkip => list_slots n' (S i) buf
      | SlotEntry e => let '(es, stop) := list_slots n' (S i) buf in (e :: es, stop)
      end
  end.

Fixpoint list_sectors (l : list Z) (lba : Z) (entries : list FatDirEntry) : io D (list FatDirEntry * bool) :=
  match l with
  | [] => mret (entries, false)
  | s :: l' =>
      buf ← read_sec (drive fs) (u32_add lba s);
      let '(es, stop) := list_slots 16 0 buf in
      if stop : bool then mret (entries ++ es, true) else list_sectors l' lba (entries ++ es)
  end.

Fixpoint list_chain (fuel : nat) (cluster : Z) (entries : list FatDirEntry) : io D (list FatDirEntry) :=
  if in_chain cluster then
    match fuel with
    | O => out_of_fuel
    | S fuel' =>
        r ← list_sectors (urange 0 (sectors_per_cluster (bpb fs))) (cluster_to_lba cluster) entries;
        let '(es, stop) := r in
        if stop : bool then mret es else
        next ← read_fat_entry cluster;
        list_chain fuel' next es
    end
  else mret entries.
Definition list_directory_cluster (fuel : nat) (cluster : Z) : io D (list FatDirEntry) := list_chain fuel cluster [].

(** The search of a sector: found in a slot, the end of the directory, or go on. *)
Inductive search := Found (e : FatDirEntry) (i : nat) | Ended | NotHere.
Fixpoint find_slots (n : nat) (i : nat) (buf : list Z) (name_upper : list Z) : search :=
  match n with
  | O => NotHere
  | S n' =>
      match read_slot buf i with
      | SlotEnd => Ended
      | SlotSkip => find_slots n' (S i) buf name_upper
      | SlotEntry e => if bool_decide (to_ascii_uppercase (name e) = name_upper) then Found e i else find_slots n' (S i) buf name_upper
      end
  end.

Fixpoint find_sectors (l : list Z) (lba : Z) (name_upper : list Z) : io D (option (option (FatDirEntry * Z * nat))) :=
  match l with
  | [] => mret None
  | s :: l' =>
      let sec_lba := u32_add lba s in
      buf ← read_sec (drive fs) sec_lba;
      match find_slots 16 0 buf name_upper with
      | Found e i => mret (Some (Some (e, sec_lba, i)))
      | Ended => mret (Some None)
      | NotHere => find_sectors l' lba name_upper
      end
  end.

Fixpoint find_chain (fuel : nat) (cluster : Z) (name_upper : list Z) : io D (option (FatDirEntry * Z * nat)) :=
  if in_chain cluster then
    match fuel with
    | O => out_of_fuel
    | S fuel' =>
        r ← find_sectors (urange 0 (sectors_per_cluster (bpb fs))) (cluster_to_lba cluster) name_upper;
        match r with
        | Some found => mret found
        | None =>
            next ← read_fat_entry cluster;
            find_chain fuel' next name_upper
        end
    end
  else mret None.
Definition find_entry_in_dir (fuel : nat) (cluster : Z) (nm : list Z) : io D (option (FatDirEntry * Z * nat)) :=
  find_chain fuel cluster (to_ascii_uppercase nm).

Definition root_entry : FatDirEntry := mkDirEntry [SLASH] true (root_cluster (bpb fs)) 0 ATTR_DIRECTORY.

Fixpoint resolve_segments (fuel : nat) (curr : Z) (segs : list (list Z)) : io D (option FatDirEntry * Z) :=
  match segs with
  | [] => fail "Failed to resolve path"
  | seg :: rest =>
      let is_last := bool_decide (rest = []) in
      found ← find_entry_in_dir fuel curr seg;
      match found with
      | Some (entry, _, _) =>
          if is_last then mret (Some entry, curr) else
          if negb (is_directory entry) then fail "Component in path is not a directory" else
          resolve_segments fuel (first_cluster entry) rest
      | None => if is_last then mret (None, curr) else fail "Directory in path not found"
      end
  end.

Definition segments (trimmed : list Z) : list (list Z) := filter (fun s => s <> []) (split_byte SLASH trimmed).

Definition resolve_path (fuel : nat) (path : list Z) : io D (option FatDirEntry * Z) :=
  let trimmed := trim_matches SLASH path in
  if bool_decide (trimmed = []) then mret (Some root_entry, root_cluster (bpb fs)) else
  resolve_segments fuel (root_cluster (bpb fs)) (segments trimmed).

(** ** Files *)

(** The sectors of one cluster, while bytes are left. *)
Fixpoint read_sectors (l : list Z) (lba : Z) (bytes_left : nat) (data : list Z) : io D (nat * list Z) :=
  match l with
  | [] => mret (bytes_left, data)
  | s :: l' =>
      if (bytes_left =? 0)%nat then mret (bytes_left, data) else
      buf ← read_sec (drive fs) (u32_add lba s);
      let chunk := Nat.min bytes_left 512 in
      read_sectors l' lba (bytes_left - chunk) (data ++ take chunk buf)
  end.

Fixpoint read_chain (fuel : nat) (cluster : Z) (bytes_left : nat) (data : list Z) : io D (list Z) :=
  if (in_chain cluster && negb (bytes_left =? 0)%nat)%bool then
    match fuel with
    | O => out_of_fuel
    | S fuel' =>
        r ← read_sectors (urange 0 (sectors_per_cluster (bpb fs))) (cluster_to_lba cluster) bytes_left data;
        let '(rest, data') := r in
        next ← read_fat_entry cluster;
        read_chain fuel' next rest data'
    end
  else mret data.

Definition read_file (fuel : nat) (path : list Z) : io D (list Z) :=
  r ← resolve_path fuel path;
  match r.1 with
  | None => fail "File not found"
  | Some entry =>
      if is_directory entry then fail "Cannot read directory as file" else
      read_chain fuel (first_cluster entry) (Z.to_nat (file_size entry)) []
  end.

(** The 8.3 form of a name. *)
Definition to_short_name (nm : list Z) : list Z * list Z :=
  let parts := split_byte DOT (to_ascii_uppercase nm) in
  (padded 8 (nth 0 parts []), match parts with _ :: ext :: _ => padded 3 ext | _ => replicate 3 32 end).

(** The directory part and the last component of a path. *)
Definition split_path (path : list Z) : list Z * list Z :=
  let trimmed := trim_matches SLASH path in
  match rfind SLASH trimmed with Some pos => (take pos trimmed, drop (S pos) trimmed) | None => ([], trimmed) end.

(** The cluster of the directory a path lies in. *)
Definition parent_cluster (fuel : nat) (parent_dir : list Z) : io D Z :=
  r ← resolve_path fuel parent_dir;
  match r.1 with
  | Some e => if is_directory e then mret (first_cluster e) else fail "Parent path is not a directory"
  | None => fail "Parent directory not found"
  end.

(** [for _ in 0..clusters_needed]: the first cluster of the new chain. *)
Fixpoint allocate_chain (n : nat) (first : Z) (prev : option Z) : io D Z :=
  match n with
  | O => mret first
  | S n' =>
      c ← allocate_cluster prev;
      allocate_chain n' (if first =? 0 then c else first) (Some c)
  end.

Fixpoint write_sectors (l : list Z) (lba : Z) (written : nat) (data : list Z) : io D nat :=
  match l with
  | [] => mret written
  | s :: l' =>
      if (length data <=? written)%nat then mret written else
      let to_copy := Nat.min (length data - written) 512 in
      write_sec (drive fs) (u32_add lba s) (put zero_sector 0 (get data written to_copy));;
      write_sectors l' lba (written + to_copy) data
  end.

Fixpoint write_chain (fuel : nat) (cluster : Z) (written : nat) (data : list Z) : io D () :=
  if (in_chain cluster && (written <? length data)%nat)%bool then
    match fuel with
    | O => out_of_fuel
    | S fuel' =>
        w ← write_sectors (urange 0 (sectors_per_cluster (bpb fs))) (cluster_to_lba cluster) written data;
        next ← read_fat_entry cluster;
        write_chain fuel' next w data
    end
  else mret tt.

Definition cluster_high (c : Z) : list Z := le16 (Z.land (Z.shiftr c 16) 0xFFFF).
Definition cluster_low (c : Z) : list Z := le16 (Z.land c 0xFFFF).

Definition entry_bytes (nm ext : list Z) (attr first size : Z) : list Z :=
  let e := replicate 32 0 in
  let e := put e 0 nm in
  let e := put e 8 ext in
  let e := put e 11 [attr] in
  let e := put e 20 (cluster_high first) in
  let e := put e 26 (cluster_low first) in
  put e 28 (le32 size).

(** The first free slot of a sector from [i] on. *)
Fixpoint free_slot (n : nat) (i : nat) (buf : list Z) : option nat :=
  match n with
  | O => None
  | S n' => let b := byte buf (i * 32) in if ((b =? 0x00) || (b =? 0xE5))%bool then Some i else free_slot n' (S i) buf
  end.

Fixpoint insert_sectors (l : list Z) (lba : Z) (entry : list Z) : io D bool :=
  match l with
  | [] => mret false
  | s :: l' =>
      let sec_lba := u32_add lba s in
      buf ← read_sec (drive fs) sec_lba;
      match free_slot 16 0 buf with
      | Some i => write_sec (drive fs) sec_lba (put buf (i * 32) entry);; mret true
      | None => insert_sectors l' lba entry
      end
  end.

Fixpoint insert_chain (fuel : nat) (cluster : Z) (entry : list Z) : io D () :=
  if in_chain cluster then
    match fuel with
    | O => out_of_fuel
    | S fuel' =>
        done ← insert_sectors (urange 0 (sectors_per_cluster (bpb fs))) (cluster_to_lba cluster) entry;
        if done : bool then mret tt else
        next ← read_fat_entry cluster;
        if 0x0FFFFFF7 <=? next then
          new_c ← allocate_cluster (Some cluster);
          write_sec (drive fs) (cluster_to_lba new_c) (put zero_sector 0 entry)
        else insert_chain fuel' next entry
    end
  else fail "FAT32: Directory slot allocation failure".
Definition insert_dir_entry (fuel : nat) (cluster : Z) (nm ext : list Z) (attr first size : Z) : io D () :=
  insert_chain fuel cluster (entry_bytes nm ext attr first size).

Definition clusters_needed (data : list Z) : nat :=
  let bytes_per_cluster := (Z.to_nat (sectors_per_cluster (bpb fs)) * 512)%nat in
  Nat.max ((length data + bytes_per_cluster - 1) / bytes_per_cluster) 1.

Definition write_file (fuel : nat) (path data : list Z) : io D () :=
  let '(parent_dir, filename) := split_path path in
  if bool_decide (filename = []) then fail "Invalid empty filename" else
  parent ← parent_cluster fuel parent_dir;
  existing ← find_entry_in_dir fuel parent filename;
  first ← allocate_chain (clusters_needed data) 0 None;
  write_chain fuel first 0 data;;
  let size := wrap 32 (Z.of_nat (length data)) in
  match existing with
  | Some (old_entry, sec_lba, entry_idx) =>
      free_cluster_chain fuel (first_cluster old_entry);;
      buf ← read_sec (drive fs) sec_lba;
      let off := (entry_idx * 32)%nat in
      let buf := put buf (off + 20) (cluster_high first) in
      let buf := put buf (off + 26) (cluster_low first) in
      let buf := put buf (off + 28) (le32 size) in
      write_sec (drive fs) sec_lba buf
  | None =>
      let '(s_name, s_ext) := to_short_name filename in
      insert_dir_entry fuel parent s_name s_ext ATTR_ARCHIVE first size
  end.

Definition dot_sector (new_cluster parent : Z) : list Z :=
  let b := zero_sector in
  let b := put b 0 (bytes_of ".          ") in
  let b := put b 11 [ATTR_DIRECTORY] in
  let b := put b 20 (cluster_high new_cluster) in
  let b := put b 26 (cluster_low new_cluster) in
  let b := put b 32 (bytes_of "..         ") in
  let b := put b 43 [ATTR_DIRECTORY] in
  let target := if parent =? root_cluster (bpb fs) then 0 else parent in
  let b := put b 52 (cluster_high target) in
  put b 58 (cluster_low target).

Definition create_dir (fuel : nat) (path : list Z) : io D Z :=
  let '(parent_dir, dirname) := split_path path in
  if bool_decide (dirname = []) then fail "Invalid empty directory name" else
  parent ← parent_cluster fuel parent_dir;
  existing ← find_entry_in_dir fuel parent dirname;
  match existing with
  | Some _ => fail "Directory already exists"
  | None =>
      new_cluster ← allocate_cluster None;
      write_sec (drive fs) (cluster_to_lba new_cluster) (dot_sector new_cluster parent);;
      let '(s_name, s_ext) := to_short_name dirname in
      insert_dir_entry fuel parent s_name s_ext ATTR_DIRECTORY new_cluster 0;;
      mret new_cluster
  end.

Definition delete_entry (fuel : nat) (path : list Z) : io D () :=
  let '(parent_dir, filename) := split_path path in
  parent ← parent_cluster fuel parent_dir;
  entry_info ← find_entry_in_dir fuel parent filename;
  match entry_info with
  | None => fail "File not found"
  | Some (entry, sec_lba, entry_idx) =>
      free_cluster_chain fuel (first_cluster entry);;
      buf ← read_sec (drive fs) sec_lba;
      write_sec (drive fs) sec_lba (put buf (entry_idx * 32) [0xE5])
  end.

(** The free clusters among the given ones; unreadable entries are not counted. *)
Fixpoint count_free (l : list Z) (free : Z) : D -> outcome (Z * D) := fun d =>
  match l with
  | [] => Ret (free, d)
  | c :: l' =>
      '(r, d') ← read_fat_entry c d;
      count_free l' (match r with Ok e => if e =? FAT_FREE then u32_add free 1 else free | Err _ => free end) d'
  end.

Definition fs_info : D -> outcome (Fat32Info * D) := fun d =>
  '(free, d') ← count_free (urange 2 (total_clusters fs)) 0 d;
  let bpc := u32_mul (sectors_per_cluster (bpb fs)) SECTOR_SIZE in
  let label := volume_label (bpb fs) in
  let label := trim (if utf8_valid (length label) label then label else bytes_of "AURAOS") in
  Ret (mkInfo label (total_sectors (bpb fs)) bpc (total_clusters fs) free
    (u64_mul (total_clusters fs) bpc / 1024) (u64_mul free bpc / 1024), d').

End Fs.
End Fat32.
