(* ===== verification/FatVol.v ===== *)
(** * A FAT32 volume as a table and clusters

    What the sectors of a volume mean: the entries of its allocation tables and
    the sectors of its clusters.  [vol] relates a disk to that view, [wp] is a
    program logic over it, and the rules for the four primitives (reading and
    writing a table entry, reading and writing a sector of a cluster) carry all
    theorems on the rest of the file system. *)

From stdpp Require Import prelude numbers list strings.
From S2P Require Import Prelude Io Errors Ata Bytes Fat32.
Import Bytes Errors Ata Fat32.

Module FatVol.

(** ** Bytes of a sector *)
Lemma length_put buf off bs : (off + length bs <= length buf)%nat -> length (put buf off bs) = length buf.
Proof. intros Hl. unfold put. rewrite !length_app, length_take, length_drop. lia. Qed.

Lemma nth_put buf off bs i : (off + length bs <= length buf)%nat ->
  nth i (put buf off bs) 0 = if decide (off <= i < off + length bs)%nat then nth (i - off) bs 0 else nth i buf 0.
Proof.
  intros Hl. unfold put. assert (Ht : length (take off buf) = off) by (rewrite length_take; lia). destruct (decide _) as [Hi|Hi].
  - rewrite app_nth2 by lia. rewrite Ht, app_nth1 by lia. done.
  - destruct (decide (i < off)%nat) as [Hlt|Hge].
    + rewrite app_nth1 by lia. rewrite !nth_lookup, lookup_take_lt by lia. done.
    + rewrite app_nth2, app_nth2 by lia. rewrite Ht, !nth_lookup, lookup_drop. f_equal. f_equal. lia.
Qed.

Lemma Forall_put P buf off bs : Forall P buf -> Forall P bs -> Forall P (put buf off bs).
Proof. intros Hb Hs. unfold put. rewrite !Forall_app. split; [by apply Forall_take|]. split; [done|by apply Forall_drop]. Qed.

Lemma bytes512_put buf off bs : bytes512 buf -> Forall (in_u 8) bs -> (off + length bs <= 512)%nat -> bytes512 (put buf off bs).
Proof. intros [Hl Hb] Hs Ho. split; [rewrite length_put; lia|by apply Forall_put]. Qed.

Lemma bytes512_zero : bytes512 zero_sector.
Proof. split; [done|]. by apply Forall_replicate. Qed.

Lemma to_le_bytes n x : Forall (in_u 8) (to_le n x) /\ length (to_le n x) = n.
Proof.
  revert x. induction n as [|n IH]; intros x; cbn [to_le]; [by split|]. destruct (IH (x / 256)) as [H1 H2].
  split; [|cbn; by rewrite H2]. constructor; [|done]. apply Z.mod_pos_bound. done.
Qed.

Lemma get_nth buf off n : (off + n <= length buf)%nat -> get buf off n = (fun k => nth (off + k) buf 0) <$> seq 0 n.
Proof.
  intros Hl. unfold get. apply list_eq. intros k. rewrite list_lookup_fmap. destruct (decide (k < n)%nat).
  - rewrite lookup_take_lt, lookup_drop, lookup_seq_lt by lia. cbn. destruct (nth_lookup_or_length buf (off + k) 0) as [->|]; [done|lia].
  - rewrite lookup_take_ge, lookup_seq_ge by lia. done.
Qed.

Lemma get_put_same buf off bs n : (off + length bs <= length buf)%nat -> length bs = n -> get (put buf off bs) off n = bs.
Proof.
  intros Hl <-. unfold get, put. rewrite drop_app_length'; [by rewrite take_app_length|]. rewrite length_take. lia.
Qed.

Lemma get_put_other buf off bs off' n : (off + length bs <= length buf)%nat -> (off' + n <= length buf)%nat ->
  (off' + n <= off \/ off + length bs <= off')%nat -> get (put buf off bs) off' n = get buf off' n.
Proof.
  intros Hl Hl' Hd. rewrite !get_nth by (rewrite ?length_put; lia). apply list_fmap_ext. intros k x Hk. apply lookup_seq in Hk as [-> Hk].
  rewrite nth_put by done. rewrite decide_False by lia. done.
Qed.

Lemma mixed_radix b k r k' r' : 0 <= r < b -> 0 <= r' < b -> k * b + r = k' * b + r' -> k = k' /\ r = r'.
Proof. intros Hr Hr' E. assert (k = k') as -> by (destruct (Z.lt_trichotomy k k') as [?|[?|?]]; [nia|done|nia]). lia. Qed.

(** ** The geometry of a volume of a disk of [n] sectors *)
Record geom (fs : Fat32Fs) (n : Z) : Prop := {
  g_spc : 1 <= sectors_per_cluster (bpb fs);
  g_fats : 1 <= num_fats (bpb fs);
  g_spf : 1 <= sectors_per_fat (bpb fs);
  g_start : 0 <= fat_start_lba fs;
  g_data : fat_start_lba fs + num_fats (bpb fs) * sectors_per_fat (bpb fs) <= data_start_lba fs;
  g_cover : total_clusters fs <= 128 * sectors_per_fat (bpb fs);
  g_end : data_start_lba fs + total_clusters fs * sectors_per_cluster (bpb fs) <= n;
  g_size : n <= 2 ^ 28;
  g_root : 2 <= root_cluster (bpb fs) < total_clusters fs
}.

(** ** Entries of a table *)
Definition slot_value (buf : list Z) (i : nat) : Z := Z.land (le buf (4 * i) 4) 0x0FFFFFFF.

Lemma land28 x : Z.land x 0x0FFFFFFF = x mod 2 ^ 28.
Proof. change 0x0FFFFFFF with (Z.ones 28). apply Z.land_ones. lia. Qed.

Lemma le4 buf off : (off + 4 <= length buf)%nat ->
  le buf off 4 = nth off buf 0 + 256 * nth (off + 1) buf 0 + 65536 * nth (off + 2) buf 0 + 16777216 * nth (off + 3) buf 0.
Proof.
  intros Hl. unfold le. rewrite get_nth by done. cbn [seq fmap list_fmap le_value]. rewrite Nat.add_0_r. lia.
Qed.

Lemma nth_byte buf i : Forall (in_u 8) buf -> 0 <= nth i buf 0 < 256.
Proof.
  intros Hb. destruct (nth_lookup_or_length buf i 0) as [E|E]; [|by rewrite nth_overflow].
  apply (Forall_lookup_1 _ _ _ _ Hb) in E. exact E.
Qed.

Lemma to_le4 v : to_le 4 v = [v mod 256; v / 256 mod 256; v / 256 / 256 mod 256; v / 256 / 256 / 256 mod 256].
Proof. done. Qed.

Lemma high_nibble b : 0 <= b < 256 -> Z.land b 0xF0 = b / 16 * 2 ^ 4.
Proof.
  intros Hb. replace b with (Z.of_nat (Z.to_nat b)) by lia. assert (Hn : (Z.to_nat b < 256)%nat) by lia. revert Hn. generalize (Z.to_nat b). intros k Hk.
  assert (HF : Forall (fun k => Z.land (Z.of_nat k) 0xF0 = Z.of_nat k / 16 * 2 ^ 4) (seq 0 256)) by by_compute.
  rewrite Forall_forall in HF. apply HF, elem_of_seq. lia.
Qed.

(** The value of an entry with the bytes of [v] and any upper half of the last. *)
Lemma entry_mod v b3 : 0 <= v -> 0 <= b3 < 256 -> b3 mod 16 = (v / 256 / 256 / 256 mod 256) mod 16 ->
  (v mod 256 + 256 * (v / 256 mod 256) + 65536 * (v / 256 / 256 mod 256) + 16777216 * b3) mod 2 ^ 28 = v mod 2 ^ 28.
Proof.
  intros Hv Hb Hm. pose proof (Z.div_mod b3 16). change (2 ^ 28) with (16777216 * 16).
  set (q := v / 256 / 256 / 256) in *.
  assert (Hq : v = v mod 256 + 256 * (v / 256 mod 256) + 65536 * (v / 256 / 256 mod 256) + 16777216 * q).
  { unfold q. pose proof (Z.div_mod v 256). pose proof (Z.div_mod (v / 256) 256). pose proof (Z.div_mod (v / 256 / 256) 256). lia. }
  set (low := v mod 256 + 256 * (v / 256 mod 256) + 65536 * (v / 256 / 256 mod 256)) in *.
  assert (Hq16 : q mod 16 = b3 mod 16) by (rewrite Hm; rewrite <- Znumtheory.Zmod_div_mod; [done|lia|lia|by exists 16]).
  pose proof (Z.div_mod q 16). rewrite Hq at 1. 
  replace (low + 16777216 * b3) with (low + 16777216 * (b3 mod 16) + b3 / 16 * (16777216 * 16)) by lia.
  replace (low + 16777216 * q) with (low + 16777216 * (b3 mod 16) + q / 16 * (16777216 * 16)) by lia. by rewrite !Z.mod_add by lia.
Qed.

(** Patching entry [i] of a sector of the table sets that entry only. *)
Lemma patch_spec buf i v : bytes512 buf -> (i < 128)%nat -> 0 <= v ->
  bytes512 (patch_entry buf (4 * i) v) /\
  forall j, (j < 128)%nat -> slot_value (patch_entry buf (4 * i) v) j = if decide (j = i) then v mod 2 ^ 28 else slot_value buf j.
Proof.
  intros [Hl Hb] Hi Hv. unfold patch_entry, le32. rewrite to_le4. cbn [take byte nth]. unfold byte.
  set (top := Z.land (nth (4 * i + 3) buf 0) 0xF0). set (v3 := v / 256 / 256 / 256 mod 256).
  assert (Hv3 : 0 <= v3 < 256) by (apply Z.mod_pos_bound; done).
  assert (H3 : Z.lor (Z.land v3 0x0F) top = v3 mod 16 + top /\ 0 <= v3 mod 16 + top < 256 /\ (v3 mod 16 + top) mod 16 = v3 mod 16).
  { change 0x0F with (Z.ones 4). rewrite Z.land_ones by lia. pose proof (nth_byte buf (4 * i + 3) Hb) as Hn.
    assert (Ht : top = nth (4 * i + 3) buf 0 / 16 * 2 ^ 4) by (unfold top; apply high_nibble; lia). rewrite Ht, lor_low_high by (lia || (apply Z.mod_pos_bound; done)).
    change (2 ^ 4) with 16. pose proof (Z.mod_pos_bound v3 16). rewrite Z.mod_add, Z.mod_mod by lia.
    assert (0 <= nth (4 * i + 3) buf 0 / 16 <= 15) by (split; [apply Z.div_pos; lia|apply Z.lt_succ_r, Z.div_lt_upper_bound; lia]). lia. }
  destruct H3 as (-> & Hr3 & Hm3). set (b3 := v3 mod 16 + top) in *. set (p := put buf (4 * i) _).
  assert (Hp : bytes512 p) by (apply bytes512_put; [done| |cbn; lia]; repeat (constructor; [apply Z.mod_pos_bound; done|]); constructor).
  assert (Hq : bytes512 (put p (4 * i + 3) [b3])) by (apply bytes512_put; [done|constructor; [exact Hr3|constructor]|cbn; lia]).
  split; [done|]. intros j Hj. unfold slot_value. destruct Hp as [Hpl _], Hq as [Hql _].
  rewrite !le4 by lia. rewrite !nth_put by (cbn [length]; lia). cbn [length]. destruct (decide (j = i)) as [->|Hne].
  - rewrite !(decide_False (P := (4 * i + 3 <= _ < _)%nat)) by lia. rewrite decide_True by lia. unfold p. rewrite !nth_put by (cbn [length]; lia). cbn [length].
    rewrite !decide_True by lia. replace (4 * i - 4 * i)%nat with 0%nat by lia. replace (4 * i + 1 - 4 * i)%nat with 1%nat by lia.
    replace (4 * i + 2 - 4 * i)%nat with 2%nat by lia. replace (4 * i + 3 - (4 * i + 3))%nat with 0%nat by lia. cbn [nth]. rewrite land28. by apply entry_mod.
  - rewrite !decide_False by lia. unfold p. rewrite !nth_put by (cbn [length]; lia). cbn [length]. by rewrite !decide_False by lia.
Qed.

(** ** The volume on a disk *)
Section Vol.
Context {D : Type} `{Disk D}.
Variables (fs : Fat32Fs) (n : Z).
Hypothesis Hg : geom fs n.
Local Notation spf := (sectors_per_fat (bpb fs)).
Local Notation spc := (sectors_per_cluster (bpb fs)).

(** Where the entry of a cluster is in the [k]-th table, and a sector of a cluster. *)
Definition fat_lba (k c : Z) : Z := fat_start_lba fs + k * spf + c / 128.
Definition data_lba (c s : Z) : Z := data_start_lba fs + (c - 2) * spc + s.

Definition valid (c : Z) : Prop := 0 <= c < total_clusters fs.
Definition data_cluster (c : Z) : Prop := 2 <= c < total_clusters fs.

(** The disk holds the tables [G k], one per copy, and the cluster sectors [S]. *)
Record tables (d : D) (G : Z -> Z -> Z) (S : Z -> Z -> list Z) : Prop := {
  t_ok : disk_ok d (drive fs);
  t_size : disk_size d (drive fs) = n;
  t_fat : forall k c, 0 <= k < num_fats (bpb fs) -> valid c ->
    slot_value (sector d (drive fs) (fat_lba k c)) (Z.to_nat (c mod 128)) = G k c;
  t_data : forall c s, data_cluster c -> 0 <= s < spc -> sector d (drive fs) (data_lba c s) = S c s
}.

(** The two tables agree: the volume is [F] and [S]. *)
Definition vol (d : D) (F : Z -> Z) (S : Z -> Z -> list Z) : Prop := tables d (fun _ => F) S.

Lemma geom_bounds : 0 <= fat_start_lba fs <= data_start_lba fs /\ 0 <= total_clusters fs * spc /\
  data_start_lba fs + total_clusters fs * spc <= n <= 2 ^ 28 /\ total_clusters fs < 0x0FFFFFF7.
Proof.
  destruct Hg. assert (1 * spf <= num_fats (bpb fs) * spf) by (apply Z.mul_le_mono_nonneg_r; lia).
  assert (total_clusters fs * 1 <= total_clusters fs * spc) by (apply Z.mul_le_mono_nonneg_l; lia). lia.
Qed.

Lemma fat_lba_bounds k c : 0 <= k < num_fats (bpb fs) -> valid c -> 0 <= fat_lba k c < data_start_lba fs /\ data_start_lba fs <= n.
Proof.
  intros Hk Hc. destruct Hg. unfold valid, fat_lba in *. assert (0 <= c / 128 < sectors_per_fat (bpb fs)).
  { split; [apply Z.div_pos; lia|apply Z.div_lt_upper_bound; lia]. } nia.
Qed.

Lemma fat_lba_inj k c k' c' : 0 <= k < num_fats (bpb fs) -> 0 <= k' < num_fats (bpb fs) -> valid c -> valid c' ->
  fat_lba k c = fat_lba k' c' -> k = k' /\ c / 128 = c' / 128.
Proof.
  intros Hk Hk' Hc Hc'. destruct Hg. unfold valid, fat_lba in *.
  assert (0 <= c / 128 < spf) by (split; [apply Z.div_pos; lia|apply Z.div_lt_upper_bound; lia]).
  assert (0 <= c' / 128 < spf) by (split; [apply Z.div_pos; lia|apply Z.div_lt_upper_bound; lia]).
  intros E. apply (mixed_radix spf); lia.
Qed.

Lemma data_lba_bounds c s : data_cluster c -> 0 <= s < spc -> data_start_lba fs <= data_lba c s < n.
Proof. intros Hc Hs. destruct Hg. unfold data_cluster, data_lba in *. nia. Qed.

Lemma data_lba_inj c s c' s' : data_cluster c -> data_cluster c' -> 0 <= s < spc -> 0 <= s' < spc ->
  data_lba c s = data_lba c' s' -> c = c' /\ s = s'.
Proof. intros Hc Hc' Hs Hs' E. unfold data_lba in E. destruct (mixed_radix spc (c - 2) s (c' - 2) s') as [? ?]; lia. Qed.

(** *** Programs over a volume *)
Definition upd (F : Z -> Z) (c v : Z) : Z -> Z := fun x => if decide (x = c) then v else F x.
Definition upd2 (S : Z -> Z -> list Z) (c s : Z) (b : list Z) : Z -> Z -> list Z :=
  fun x y => if decide (x = c /\ y = s) then b else S x y.

(** From every disk that holds the volume, the code returns, with a result and a
    volume that satisfy [Q]. *)
Definition wp {A} (m : io D A) (Q : result A Fat32Error -> (Z -> Z) -> (Z -> Z -> list Z) -> Prop) (F : Z -> Z) (S : Z -> Z -> list Z) : Prop :=
  forall d, vol d F S -> exists r d' F' S', m d = Ret (r, d') /\ vol d' F' S' /\ Q r F' S'.

Lemma wp_ret {A} (a : A) Q F S : Q (Ok a) F S -> wp (mret a) Q F S.
Proof. intros HQ d Hd. by exists (Ok a), d, F, S. Qed.

Lemma wp_fail {A} msg (Q : result A Fat32Error -> _) F S : Q (Err (fat32_from msg)) F S -> wp (fail msg) Q F S.
Proof. intros HQ d Hd. by exists (Err (fat32_from msg)), d, F, S. Qed.

Lemma wp_bind {A B} (m : io D A) (f : A -> io D B) Q F S :
  wp m (fun r F' S' => match r with Ok a => wp (f a) Q F' S' | Err e => Q (Err e) F' S' end) F S -> wp (m ≫= f) Q F S.
Proof.
  intros Hm d Hd. destruct (Hm d Hd) as (r & d' & F' & S' & E & Hd' & HQ). unfold mbind, io_bind. rewrite E.
  destruct r as [a|e]; [by apply HQ|by exists (Err e), d', F', S'].
Qed.

Lemma wp_mono {A} (m : io D A) (Q Q' : result A Fat32Error -> (Z -> Z) -> (Z -> Z -> list Z) -> Prop) F S :
  (forall r F' S', Q r F' S' -> Q' r F' S') -> wp m Q F S -> wp m Q' F S.
Proof.
  intros HQ Hm d Hd. destruct (Hm d Hd) as (r & d' & F' & S' & E & Hd' & HQ'). exists r, d', F', S'. split; [done|]. split; [done|by apply HQ].
Qed.

(** Reading and writing the sectors the view talks about. *)
Lemma read_sec_ok d lba : disk_ok d (drive fs) -> disk_size d (drive fs) = n -> 0 <= lba < n ->
  exists d', read_sec (drive fs) lba d = Ret (Ok (sector d (drive fs) lba), d') /\ disk_ok d' (drive fs) /\
    disk_size d' (drive fs) = n /\ forall l, sector d' (drive fs) l = sector d (drive fs) l.
Proof.
  intros Hok Hs Hl. destruct (disk_read_ok d (drive fs) lba Hok) as (d' & E & Hok' & Hs' & Hsec); [lia|].
  exists d'. unfold read_sec. rewrite E. split; [done|]. split; [done|]. split; [lia|done].
Qed.

Lemma write_sec_ok d lba b : disk_ok d (drive fs) -> disk_size d (drive fs) = n -> 0 <= lba < n -> bytes512 b ->
  exists d', write_sec (drive fs) lba b d = Ret (Ok tt, d') /\ disk_ok d' (drive fs) /\
    disk_size d' (drive fs) = n /\ forall l, sector d' (drive fs) l = if decide (l = lba) then b else sector d (drive fs) l.
Proof.
  intros Hok Hs Hl Hb. destruct (disk_write_ok d (drive fs) lba b Hok) as (d' & E & Hok' & Hs' & Hsec); [lia|done|].
  exists d'. unfold write_sec. rewrite E. split; [done|]. split; [done|]. split; [lia|done].
Qed.

Lemma tables_ext d d' G S : tables d G S -> disk_ok d' (drive fs) -> disk_size d' (drive fs) = n ->
  (forall l, sector d' (drive fs) l = sector d (drive fs) l) -> tables d' G S.
Proof. intros [H1 H2 H3 H4] Hok Hs He. split; [done|done| |]; intros; rewrite He; auto. Qed.

(** A sector of a cluster: [cluster_to_lba(c) + s]. *)
Definition sec_lba (c s : Z) : Z := u32_add (cluster_to_lba fs c) s.

Lemma sec_lba_eq c s : data_cluster c -> 0 <= s < spc -> sec_lba c s = data_lba c s.
Proof.
  intros Hc Hs. pose proof (data_lba_bounds c s Hc Hs) as Hb. pose proof geom_bounds as Hgb. unfold sec_lba, cluster_to_lba, data_lba, data_cluster, saturating_sub in *.
  rewrite Z.max_r by lia. assert (Hm : 0 <= (c - 2) * spc) by (apply Z.mul_nonneg_nonneg; lia).
  unfold u32_mul. rewrite (wrap_small 32 ((c - 2) * spc)) by (split; lia). unfold u32_add.
  rewrite (wrap_small 32 (_ + (c - 2) * spc)) by (split; lia). apply wrap_small. split; lia.
Qed.

Lemma wp_read_data c s Q F S : data_cluster c -> 0 <= s < spc -> Q (Ok (S c s)) F S -> wp (read_sec (drive fs) (sec_lba c s)) Q F S.
Proof.
  intros Hc Hs HQ d Hd. rewrite sec_lba_eq by done. pose proof (data_lba_bounds c s Hc Hs) as Hb. pose proof geom_bounds as Hgb.
  destruct (read_sec_ok d (data_lba c s) (t_ok _ _ _ Hd) (t_size _ _ _ Hd)) as (d' & E & H1 & H2 & H3); [lia|].
  exists (Ok (S c s)), d', F, S. rewrite E, (t_data _ _ _ Hd c s Hc Hs). split; [done|]. split; [by eapply tables_ext|done].
Qed.

Lemma wp_write_data c s b Q F S : data_cluster c -> 0 <= s < spc -> bytes512 b -> Q (Ok tt) F (upd2 S c s b) ->
  wp (write_sec (drive fs) (sec_lba c s) b) Q F S.
Proof.
  intros Hc Hs Hb HQ d Hd. rewrite sec_lba_eq by done. pose proof (data_lba_bounds c s Hc Hs) as Hl. pose proof geom_bounds as Hgb.
  destruct (write_sec_ok d (data_lba c s) b (t_ok _ _ _ Hd) (t_size _ _ _ Hd)) as (d' & E & H1' & H2' & H3'); [lia|done|].
  exists (Ok tt), d', F, (upd2 S c s b). split; [done|]. split; [|done]. destruct Hd as [T1 T2 T3 T4]. split; [done|done| |].
  - intros k c' Hk Hc'. rewrite H3', decide_False; [by apply T3|]. pose proof (fat_lba_bounds k c' Hk Hc'). lia.
  - intros c' s' Hc' Hs'. rewrite H3'. unfold upd2. destruct (decide (c' = c /\ s' = s)) as [[-> ->]|Hne]; [by rewrite decide_True|].
    rewrite decide_False; [by apply T4|]. intros Heq. apply Hne. by apply data_lba_inj.
Qed.

(** The position of an entry, as the code computes it. *)
Lemma fat_offset c : valid c -> u32_mul c 4 / SECTOR_SIZE = c / 128 /\ Z.to_nat (u32_mul c 4 mod SECTOR_SIZE) = (4 * Z.to_nat (c mod 128))%nat /\
  (Z.to_nat (c mod 128) < 128)%nat.
Proof.
  intros Hc. unfold valid in Hc. pose proof geom_bounds as Hgb. unfold u32_mul, SECTOR_SIZE. rewrite wrap_small by (unfold in_u; lia).
  pose proof (Z.mod_pos_bound c 128). change 512 with (128 * 4). rewrite Z.div_mul_cancel_r, Z.mul_mod_distr_r by lia. lia.
Qed.

Lemma fat_entry_lba k c : 0 <= k < num_fats (bpb fs) -> valid c ->
  u32_add (u32_add (fat_start_lba fs) (u32_mul k spf)) (c / 128) = fat_lba k c.
Proof.
  intros Hk Hc. pose proof (fat_lba_bounds k c Hk Hc) as [Hb _]. assert (0 <= c / 128) by (apply Z.div_pos; unfold valid in Hc; lia).
  pose proof geom_bounds as Hgb. assert (0 <= k * spf) by (pose proof (g_spf _ _ Hg); apply Z.mul_nonneg_nonneg; lia). unfold fat_lba in *.
  unfold u32_mul. rewrite (wrap_small 32 (k * spf)) by (split; lia). unfold u32_add.
  rewrite (wrap_small 32 (_ + k * spf)) by (split; lia). apply wrap_small. split; lia.
Qed.

Lemma wp_read_fat c Q F S : valid c -> Q (Ok (F c)) F S -> wp (read_fat_entry fs c) Q F S.
Proof.
  intros Hc HQ d Hd. destruct (fat_offset c Hc) as (E1 & E2 & _). unfold read_fat_entry. cbv zeta. rewrite E1, E2.
  pose proof (g_fats _ _ Hg) as Hf. pose proof (fat_entry_lba 0 c ltac:(lia) Hc) as El. change (u32_mul 0 spf) with 0 in El.
  pose proof (fat_lba_bounds 0 c ltac:(lia) Hc) as [Hb Hb'].
  assert (Es : u32_add (fat_start_lba fs) 0 = fat_start_lba fs).
  { pose proof geom_bounds as Hgb. unfold u32_add. rewrite wrap_small; unfold in_u; lia. }
  rewrite Es in El. rewrite El.
  destruct (read_sec_ok d (fat_lba 0 c) (t_ok _ _ _ Hd) (t_size _ _ _ Hd)) as (d' & E & H1 & H2 & H3); [lia|].
  exists (Ok (F c)), d', F, S. split; [|split; [by eapply tables_ext|done]]. unfold mbind, io_bind. rewrite E. unfold mret, io_ret. do 3 f_equal.
  rewrite <- (t_fat _ _ _ Hd 0 c ltac:(lia) Hc). done.
Qed.

(** One copy of the table. *)
Lemma write_copy d G S k c v : tables d G S -> 0 <= k < num_fats (bpb fs) -> valid c -> 0 <= v ->
  exists d', (buf ← read_sec (drive fs) (fat_lba k c); write_sec (drive fs) (fat_lba k c) (patch_entry buf (4 * Z.to_nat (c mod 128)) v)) d = Ret (Ok tt, d') /\
    tables d' (fun k' x => if decide (k' = k /\ x = c) then v mod 2 ^ 28 else G k' x) S.
Proof.
  intros Hd Hk Hc Hv. pose proof (fat_lba_bounds k c Hk Hc) as [Hb Hb'].
  destruct (read_sec_ok d (fat_lba k c) (t_ok _ _ _ Hd) (t_size _ _ _ Hd)) as (d1 & E1 & O1 & S1 & C1); [lia|].
  set (buf := sector d (drive fs) (fat_lba k c)) in *.
  assert (Hbuf : bytes512 buf) by (apply sector_bytes; [apply Hd|rewrite (t_size _ _ _ Hd); lia]).
  assert (H128 : (Z.to_nat (c mod 128) < 128)%nat) by (pose proof (Z.mod_pos_bound c 128); lia).
  destruct (patch_spec buf (Z.to_nat (c mod 128)) v Hbuf H128 Hv) as [Hp Hpv].
  destruct (write_sec_ok d1 (fat_lba k c) _ O1 S1 ltac:(lia) Hp) as (d2 & E2 & O2 & S2 & C2).
  exists d2. unfold mbind, io_bind. rewrite E1. split; [exact E2|]. destruct Hd as [T1 T2 T3 T4]. split; [done|done| |].
  - intros k' x Hk' Hx. rewrite C2. destruct (decide (fat_lba k' x = fat_lba k c)) as [El|El].
    + pose proof (fat_lba_inj _ _ _ _ Hk' Hk Hx Hc El) as [-> Eq]. rewrite Hpv by (pose proof (Z.mod_pos_bound x 128); lia).
      pose proof (Z.div_mod x 128). pose proof (Z.div_mod c 128). pose proof (Z.mod_pos_bound x 128). pose proof (Z.mod_pos_bound c 128).
      destruct (decide (x = c)) as [->|Hne]; [by rewrite !decide_True by done|]. rewrite !decide_False by (tauto || lia).
      rewrite <- (T3 k x Hk' Hx). unfold buf. by rewrite El.
    + rewrite decide_False by (intros [-> ->]; done). rewrite C1. by apply T3.
  - intros x s Hx Hs. rewrite C2, decide_False, C1; [by apply T4|]. pose proof (data_lba_bounds x s Hx Hs). lia.
Qed.

Lemma elem_of_urange a b x : x ∈ urange a b <-> a <= x < b.
Proof.
  unfold urange. rewrite list_elem_of_fmap. split.
  - intros (k & -> & Hk). apply elem_of_seq in Hk. lia.
  - intros Hx. exists (Z.to_nat (x - a)). split; [lia|]. apply elem_of_seq. lia.
Qed.

Lemma write_copies c v S ks : valid c -> 0 <= v -> forall d G, tables d G S -> Forall (fun k => 0 <= k < num_fats (bpb fs)) ks ->
  exists d', for_each ks (fun k => buf ← read_sec (drive fs) (u32_add (u32_add (fat_start_lba fs) (u32_mul k spf)) (c / 128));
      write_sec (drive fs) (u32_add (u32_add (fat_start_lba fs) (u32_mul k spf)) (c / 128)) (patch_entry buf (4 * Z.to_nat (c mod 128)) v)) d = Ret (Ok tt, d') /\
    tables d' (fun k' x => if decide (k' ∈ ks /\ x = c) then v mod 2 ^ 28 else G k' x) S.
Proof.
  intros Hc Hv. induction ks as [|k ks IH]; intros d G Hd Hks.
  { exists d. split; [done|]. destruct Hd as [T1 T2 T3 T4]. split; [done|done| |done]. intros k' x Hk' Hx. rewrite decide_False; [by apply T3|]. set_solver. }
  apply Forall_cons_1 in Hks as [Hk Hks]. destruct (write_copy d G S k c v Hd Hk Hc Hv) as (d1 & E1 & Hd1).
  destruct (IH d1 _ Hd1 Hks) as (d2 & E2 & Hd2). exists d2. cbn [for_each]. rewrite fat_entry_lba by done.
  split; [unfold mbind at 1, io_bind at 1; by rewrite E1|]. destruct Hd2 as [T1 T2 T3 T4]. split; [done|done| |done].
  intros k' x Hk' Hx. rewrite T3 by done. destruct (decide (k' ∈ ks /\ x = c)) as [[? ->]|Hn]; [rewrite decide_True; [done|set_solver]|].
  destruct (decide (k' = k /\ x = c)) as [[-> ->]|Hn']; [rewrite decide_True; [done|set_solver]|]. rewrite decide_False; [done|]. set_solver.
Qed.

Lemma wp_write_fat c v Q F S : valid c -> 0 <= v < 2 ^ 28 -> Q (Ok tt) (upd F c v) S -> wp (write_fat_entry fs c v) Q F S.
Proof.
  intros Hc Hv HQ d Hd. destruct (fat_offset c Hc) as (E1 & E2 & _). unfold write_fat_entry. cbv zeta. rewrite E1, E2.
  destruct (write_copies c v S (urange 0 (num_fats (bpb fs))) Hc ltac:(lia) d _ Hd) as (d' & E & Hd').
  { apply Forall_forall. intros k Hk. by apply elem_of_urange in Hk. }
  exists (Ok tt), d', (upd F c v), S. split; [exact E|]. split; [|done]. destruct Hd' as [T1 T2 T3 T4]. split; [done|done| |done].
  intros k x Hk Hx. rewrite T3 by done. unfold upd. rewrite Z.mod_small by done. destruct (decide (x = c)) as [->|]; [|rewrite decide_False; [done|tauto]].
  rewrite decide_True; [done|]. split; [by apply elem_of_urange|done].
Qed.

End Vol.
End FatVol.
