(* ===== verification/FatChain.v ===== *)
(** * Cluster chains of a FAT32 volume

    Allocation, release, reading and writing along chains, proved against the
    primitives of FatVol. *)

From stdpp Require Import prelude numbers list strings.
From S2P Require Import Prelude Io Errors Ata Bytes Fat32 FatVol.
Import Bytes Errors Ata Fat32 FatVol.

Module FatChain.

Section Chain.
Context {D : Type} `{Disk D}.
Variables (fs : Fat32Fs) (n : Z).
Hypothesis Hg : geom fs n.
Local Notation spc := (sectors_per_cluster (bpb fs)).
Local Notation total := (total_clusters fs).
Local Notation wp := (wp fs n).
Local Notation data_cluster := (data_cluster fs).
Local Notation valid := (valid fs).

(** ** Shared rules *)
Definition same_fat (F F' : Z -> Z) : Prop := forall c, valid c -> F' c = F c.
Definition same_data (S S' : Z -> Z -> list Z) : Prop := forall c s, data_cluster c -> 0 <= s < spc -> S' c s = S c s.

Lemma vol_conv d F S F' S' : vol fs n d F S -> same_fat F F' -> same_data S S' -> vol fs n d F' S'.
Proof. intros [T1 T2 T3 T4] HF HS. split; [done|done| |]; intros; [rewrite HF by done; auto|rewrite HS by done; auto]. Qed.

Lemma wp_conv {A} (m : io D A) Q F S F' S' : same_fat F F' -> same_data S S' -> wp m Q F' S' -> wp m Q F S.
Proof. intros HF HS Hm d Hd. apply Hm. by eapply vol_conv. Qed.

(** What every volume satisfies: entries are 28-bit, sectors are bytes. *)
Definition sane (F : Z -> Z) (S : Z -> Z -> list Z) : Prop :=
  (forall c, valid c -> 0 <= F c < 2 ^ 28) /\ (forall c s, data_cluster c -> 0 <= s < spc -> bytes512 (S c s)).

Lemma vol_sane d F S : vol fs n d F S -> sane F S.
Proof.
  intros Hd. pose proof (g_fats _ _ Hg). split.
  - intros c Hc. rewrite <- (t_fat _ _ _ _ _ Hd 0 c) by (done || lia). unfold slot_value. rewrite land28. apply Z.mod_pos_bound. lia.
  - intros c s Hc Hs. rewrite <- (t_data _ _ _ _ _ Hd c s) by done. apply sector_bytes; [apply Hd|]. rewrite (t_size _ _ _ _ _ Hd).
    pose proof (data_lba_bounds fs n Hg c s Hc Hs). pose proof (geom_bounds fs n Hg). lia.
Qed.

Lemma wp_sane {A} (m : io D A) Q F S : (sane F S -> wp m Q F S) -> wp m Q F S.
Proof. intros Hm d Hd. apply Hm; [by eapply vol_sane|done]. Qed.

Lemma wp_then {A B} (m : io D A) (f : A -> io D B) (R : result A Fat32Error -> (Z -> Z) -> (Z -> Z -> list Z) -> Prop) Q F S :
  wp m R F S -> (forall a F' S', R (Ok a) F' S' -> wp (f a) Q F' S') -> (forall e F' S', R (Err e) F' S' -> Q (Err e) F' S') -> wp (m ≫= f) Q F S.
Proof.
  intros Hm Hf He. apply wp_bind. eapply wp_mono; [|exact Hm]. intros [a|e] F' S' HR; [by apply Hf|by apply He].
Qed.

Lemma wp_read_data' c s Q F S : data_cluster c -> 0 <= s < spc -> Q (Ok (S c s)) F S -> wp (read_sec (drive fs) (u32_add (cluster_to_lba fs c) s)) Q F S.
Proof. apply (wp_read_data fs n Hg). Qed.

Lemma wp_write_data' c s b Q F S : data_cluster c -> 0 <= s < spc -> bytes512 b -> Q (Ok tt) F (upd2 S c s b) ->
  wp (write_sec (drive fs) (u32_add (cluster_to_lba fs c) s) b) Q F S.
Proof. apply (wp_write_data fs n Hg). Qed.

(** ** Allocation *)

(** The sectors of [c] are zeroed. *)
Definition zeroed (S : Z -> Z -> list Z) (c : Z) : Z -> Z -> list Z := fun x y => if decide (x = c) then zero_sector else S x y.

Lemma zero_loop c ss F : data_cluster c -> forall S, Forall (fun s => 0 <= s < spc) ss ->
  wp (for_each ss (fun s => write_sec (drive fs) (u32_add (cluster_to_lba fs c) s) zero_sector))
    (fun r F' S' => r = Ok tt /\ F' = F /\ forall x y, S' x y = if decide (x = c /\ y ∈ ss) then zero_sector else S x y) F S.
Proof.
  intros Hc. induction ss as [|s ss IH]; intros S Hss; cbn [for_each].
  - apply wp_ret. split; [done|]. split; [done|]. intros x y. rewrite decide_False; [done|]. set_solver.
  - apply Forall_cons_1 in Hss as [Hs Hss]. apply wp_bind, wp_write_data'; [done|done|apply bytes512_zero|].
    eapply wp_mono; [|by apply IH]. intros r F' S' (-> & -> & HS). split; [done|]. split; [done|]. intros x y. rewrite HS. unfold upd2.
    destruct (decide (x = c /\ y ∈ ss)) as [[-> ?]|]; [rewrite decide_True; [done|set_solver]|].
    destruct (decide (x = c /\ y = s)) as [[-> ->]|]; [rewrite decide_True; [done|set_solver]|]. rewrite decide_False; [done|]. set_solver.
Qed.

Definition linked (F : Z -> Z) (prev : option Z) (c : Z) : Z -> Z :=
  match prev with Some p => upd (upd F c FAT_EOC) p c | None => upd F c FAT_EOC end.
Definition prev_ok (prev : option Z) : Prop := match prev with Some p => valid p | None => True end.

(** What one allocation does: the lowest free cluster, marked, linked, zeroed. *)
Definition allocates (F : Z -> Z) (S : Z -> Z -> list Z) (prev : option Z) (from : Z) (r : result Z Fat32Error) (F' : Z -> Z) (S' : Z -> Z -> list Z) : Prop :=
  match r with
  | Ok c => from <= c < total /\ F c = FAT_FREE /\ (forall x, from <= x < c -> F x <> FAT_FREE) /\
      same_fat (linked F prev c) F' /\ same_data (zeroed S c) S'
  | Err e => e = Corrupt /\ F' = F /\ S' = S /\ forall x, from <= x < total -> F x <> FAT_FREE
  end.

Lemma alloc_scan_spec k : forall c prev F S, c = total - Z.of_nat k -> 3 <= c -> prev_ok prev ->
  wp (alloc_scan fs k c prev) (allocates F S prev c) F S.
Proof.
  induction k as [|k IH]; intros c prev F S Hk Hc Hp; cbn [alloc_scan].
  { apply wp_fail. split; [done|]. split; [done|]. split; [done|]. intros x Hx. lia. }
  assert (Hv : valid c) by (unfold FatVol.valid; lia). assert (Hdc : data_cluster c) by (unfold FatVol.data_cluster; lia).
  assert (Hc28 : 0 <= c < 2 ^ 28) by (pose proof (geom_bounds fs n Hg); lia).
  apply wp_bind, (wp_read_fat fs n Hg); [done|]. destruct (Z.eqb_spec (F c) FAT_FREE) as [E|E].
  - apply wp_bind, (wp_write_fat fs n Hg); [done|by vm_compute|]. apply wp_bind.
    assert (Hz : forall F1, F1 = linked F prev c -> wp (for_each (urange 0 spc) (fun s => write_sec (drive fs) (u32_add (cluster_to_lba fs c) s) zero_sector);; mret c)
      (allocates F S prev c) F1 S).
    { intros F1 ->. eapply wp_then; [apply zero_loop; [done|]| |by intros e F' S' (? & _)].
      - apply Forall_forall. intros s Hs. by apply elem_of_urange in Hs.
      - intros _ F' S' (_ & -> & HS). apply wp_ret. split; [lia|]. split; [done|]. split; [intros x Hx; lia|]. split; [done|].
        intros x y Hx Hy. rewrite HS. unfold zeroed. destruct (decide (x = c)) as [->|]; [|by rewrite decide_False by tauto].
        rewrite decide_True; [done|]. split; [done|by apply elem_of_urange]. }
    destruct prev as [p|]; [apply (wp_write_fat fs n Hg); [exact Hp|done|]|apply wp_ret]; by apply Hz.
  - eapply wp_mono; [|apply IH; [lia|lia|done]]. intros [x|e] F' S'; cbn [allocates].
    + intros (Hx & Hf & Hn & HF & HS). split; [lia|]. split; [done|]. split; [|done]. intros y Hy. destruct (decide (y = c)) as [->|]; [done|apply Hn; lia].
    + intros (He & HF & HS & Hn). split; [done|]. split; [done|]. split; [done|]. intros y Hy. destruct (decide (y = c)) as [->|]; [done|apply Hn; lia].
Qed.

Lemma allocate_spec prev F S : prev_ok prev -> wp (allocate_cluster fs prev) (allocates F S prev 3) F S.
Proof.
  intros Hp. unfold allocate_cluster. destruct (Z_le_gt_dec 3 total) as [Hle|Hgt]; [apply alloc_scan_spec; [lia|lia|done]|].
  replace (Z.to_nat (total - 3)) with 0%nat by lia. apply wp_fail. split; [done|]. split; [done|]. split; [done|]. intros x Hx. lia.
Qed.

(** ** Chains *)
Inductive chain (F : Z -> Z) : Z -> list Z -> Prop :=
| chain_nil c : in_chain c = false -> chain F c []
| chain_cons c cs : in_chain c = true -> data_cluster c -> chain F (F c) cs -> chain F c (c :: cs).

Lemma in_chain_spec c : in_chain c = true <-> 2 <= c < 0x0FFFFFF7.
Proof. unfold in_chain. rewrite andb_true_iff, Z.leb_le, Z.ltb_lt. lia. Qed.

Lemma chain_ext F F' c cs : chain F c cs -> (forall x, x ∈ cs -> F' x = F x) -> chain F' c cs.
Proof.
  induction 1 as [c Hc|c cs Hc Hd Hcs IH]; intros HF; [by constructor|]. constructor; [done|done|].
  rewrite HF by (by left). apply IH. intros x Hx. apply HF. by right.
Qed.

Lemma chain_data F c cs x : chain F c cs -> x ∈ cs -> data_cluster x.
Proof.
  induction 1 as [c Hc|c cs Hc Hd Hcs IH]; intros Hx; [by apply not_elem_of_nil in Hx|]. apply elem_of_cons in Hx as [->|Hx]; [done|by apply IH].
Qed.

(** The links made by allocating [cs] one after the other. *)
Fixpoint links (F : Z -> Z) (prev : option Z) (cs : list Z) : Z -> Z :=
  match cs with [] => F | c :: cs' => links (linked F prev c) (Some c) cs' end.

Fixpoint zero_all (S : Z -> Z -> list Z) (cs : list Z) : Z -> Z -> list Z :=
  match cs with [] => S | c :: cs' => zero_all (zeroed S c) cs' end.

(** Clusters that were free one after the other. *)
Fixpoint fresh (F : Z -> Z) (prev : option Z) (cs : list Z) : Prop :=
  match cs with
  | [] => True
  | c :: cs' => 3 <= c < total /\ F c = FAT_FREE /\ fresh (linked F prev c) (Some c) cs'
  end.

Lemma linked_same F F' prev c : same_fat F F' -> same_fat (linked F prev c) (linked F' prev c).
Proof. intros HF x Hx. unfold linked, upd. destruct prev as [p|]; repeat case_decide; auto. Qed.

Lemma links_same cs : forall F F' prev, same_fat F F' -> same_fat (links F prev cs) (links F' prev cs).
Proof. induction cs as [|c cs IH]; intros F F' prev HF; [done|]. cbn [links]. by apply IH, linked_same. Qed.

Lemma fresh_same cs : forall F F' prev, same_fat F F' -> fresh F prev cs -> fresh F' prev cs.
Proof.
  induction cs as [|c cs IH]; intros F F' prev HF; [done|]. cbn [fresh]. intros (Hc & H0 & Hf). split; [done|].
  split; [by rewrite HF by (unfold FatVol.valid; lia)|]. eapply IH; [|exact Hf]. by apply linked_same.
Qed.

Lemma zero_same cs : forall S S', same_data S S' -> same_data (zero_all S cs) (zero_all S' cs).
Proof. induction cs as [|c cs IH]; intros S S' HS; [done|]. cbn [zero_all]. apply IH. intros x y Hx Hy. unfold zeroed. case_decide; auto. Qed.

(** The table has fewer than [k] clusters that the allocator can hand out. *)
Definition scarce (F : Z -> Z) (k : nat) : Prop := forall l, NoDup l -> (forall x, x ∈ l -> 3 <= x < total /\ F x = FAT_FREE) -> (length l < k)%nat.

Lemma scarce_none F : (forall x, 3 <= x < total -> F x <> FAT_FREE) -> scarce F 1.
Proof. intros HF [|x l] _ Hl; [cbn; lia|]. destruct (Hl x ltac:(by left)). by destruct (HF x). Qed.

Lemma scarce_linked F F1 prev c k : 3 <= c < total -> (forall p, prev = Some p -> F p <> FAT_FREE) -> same_fat (linked F prev c) F1 -> scarce F1 k -> scarce F (Datatypes.S k).
Proof.
  intros Hc Hp HF1 Hk l Hnd Hl. assert (Hle : (length l <= length (c :: filter (fun x => x <> c) l))%nat).
  { apply submseteq_length, NoDup_submseteq; [done|]. intros x Hx. destruct (decide (x = c)) as [->|]; [by left|]. right. by apply list_elem_of_filter. }
  assert (Hlt : (length (filter (fun x => x <> c) l) < k)%nat); [|cbn [length] in Hle; lia]. apply Hk; [by apply NoDup_filter|].
  intros x [Hne Hx]%list_elem_of_filter. destruct (Hl x Hx) as [Hr Hf]. split; [done|]. rewrite HF1 by (unfold FatVol.valid; lia).
  unfold linked, upd. destruct prev as [p|]; [rewrite decide_False by (intros ->; by apply (Hp p))|]; by rewrite decide_False.
Qed.

Lemma linked_last F prev c : 3 <= c < total -> F c = FAT_FREE -> (forall p, prev = Some p -> F p <> FAT_FREE) -> linked F prev c c = FAT_EOC.
Proof.
  intros Hc Hf Hp. unfold linked, upd. destruct prev as [p|]; [rewrite (decide_False (P := c = p)) by (intros ->; by apply (Hp p))|]; by rewrite decide_True.
Qed.

Lemma allocate_chain_spec k : forall first prev F S, prev_ok prev -> (forall p, prev = Some p -> F p <> FAT_FREE) ->
  wp (allocate_chain fs k first prev) (fun r F' S' =>
    match r with
    | Ok f => exists cs, length cs = k /\ f = (if first =? 0 then hd first cs else first) /\ fresh F prev cs /\
        same_fat (links F prev cs) F' /\ same_data (zero_all S cs) S'
    | Err e => e = Corrupt /\ scarce F k
    end) F S.
Proof.
  induction k as [|k IH]; intros first prev F S Hp Hpf; cbn [allocate_chain].
  { apply wp_ret. exists []. split; [done|]. split; [by destruct (first =? 0)|]. by split. }
  eapply wp_then; [by apply allocate_spec| |].
  2:{ intros e F' S' (-> & _ & _ & Hn). split; [done|]. intros l Hnd Hl. pose proof (scarce_none F Hn l Hnd Hl). lia. }
  intros c F1 S1 (Hc & Hf & _ & HF1 & HS1). assert (Hv : valid c) by (unfold FatVol.valid; lia).
  eapply wp_mono; [|apply IH; [done|intros p [= <-]; by rewrite HF1, linked_last]].
  intros [f|e] F' S'; [|intros [-> Hs]; split; [done|by eapply scarce_linked]]. intros (cs & Hl & Hfst & Hfr & HF & HS). exists (c :: cs). cbn [length hd links zero_all fresh]. split; [by rewrite Hl|].
  split.
  { destruct (Z.eqb_spec first 0) as [->|]; [|by destruct (Z.eqb_spec first 0)]. by rewrite (proj2 (Z.eqb_neq c 0)) in Hfst by lia. }
  split; [split; [lia|]; split; [done|]; eapply fresh_same; [|exact Hfr]; intros x Hx; symmetry; by apply HF1|].
  split.
  - intros x Hx. rewrite HF by done. by apply links_same.
  - intros x y Hx Hy. rewrite HS by done. by apply zero_same.
Qed.

Lemma linked_ne F prev c x : x <> c -> Some x <> prev -> linked F prev c x = F x.
Proof. intros H1 H2. unfold linked, upd. destruct prev as [p|]; repeat case_decide; congruence || done. Qed.

(** The chain made is a chain, of clusters that were free, and nothing else changed. *)
Lemma links_spec cs : forall F prev, fresh F prev cs -> (forall p, prev = Some p -> F p <> FAT_FREE) ->
  NoDup cs /\ (forall x, x ∈ cs -> 3 <= x < total /\ F x = FAT_FREE) /\ chain (links F prev cs) (hd FAT_EOC cs) cs /\
  (forall x, x ∉ cs -> Some x <> prev -> links F prev cs x = F x) /\ (forall p, prev = Some p -> links F prev cs p = match cs with c :: _ => c | [] => F p end).
Proof.
  induction cs as [|c cs IH]; intros F prev Hfr Hp; cbn [fresh links] in *.
  { split; [constructor|]. split; [set_solver|]. split; [by constructor|]. split; [done|]. by intros p ->. }
  destruct Hfr as (Hc & H0 & Hfr).
  assert (Hcp : Some c <> prev) by (intros <-; by apply (Hp c)).
  assert (Hlc : linked F prev c c = FAT_EOC).
  { unfold linked, upd. destruct prev as [p|]; [rewrite (decide_False (P := c = p)) by congruence|]; by rewrite decide_True. }
  destruct (IH (linked F prev c) (Some c) Hfr) as (Hnd & Hin & Hch & Hout & Hpr); [intros p [= <-]; by rewrite Hlc|].
  assert (Hne : forall x, x ∈ cs -> x <> c /\ F x = FAT_FREE).
  { intros x Hx. destruct (Hin x Hx) as [_ Hx0]. assert (x <> c) by (intros ->; by rewrite Hlc in Hx0). split; [done|].
    unfold linked, upd in Hx0. destruct prev as [p|]; repeat case_decide; try done. unfold FAT_FREE in *. lia. }
  split; [constructor; [intros Hc'; by destruct (Hne c Hc')|done]|]. split; [|split; [|split]].
  - intros x [->|Hx]%elem_of_cons; [done|]. split; [by apply Hin|by apply Hne].
  - cbn [hd]. constructor; [apply in_chain_spec|unfold FatVol.data_cluster; lia|].
    + pose proof (geom_bounds fs n Hg). lia.
    + rewrite (Hpr c eq_refl). destruct cs as [|c2 cs]; [|exact Hch]. rewrite Hlc. by constructor.
  - intros x Hx Hxp. rewrite Hout by (set_solver || congruence). apply linked_ne; [set_solver|done].
  - intros p ->. rewrite Hout; [|intros Hx; by destruct (Hne p Hx) as [_ ?]; apply (Hp p)|congruence]. unfold linked, upd. by rewrite decide_True.
Qed.

(** ** Reading and writing along a chain *)
Definition cluster_bytes (S : Z -> Z -> list Z) (c : Z) : list Z := concat (S c <$> urange 0 spc).
Definition chain_bytes (S : Z -> Z -> list Z) (cs : list Z) : list Z := concat (cluster_bytes S <$> cs).

Lemma take_app_min {A} k m (l1 l2 : list A) : length l1 = m -> take k (l1 ++ l2) = take (Nat.min k m) l1 ++ take (k - Nat.min k m) l2.
Proof.
  intros <-. rewrite take_app. f_equal; [|f_equal; lia]. destruct (Nat.min_spec k (length l1)) as [[_ ->]|[Hle ->]]; [done|]. rewrite !take_ge; [done|lia|lia].
Qed.

Lemma length_urange a b : length (urange a b) = Z.to_nat (b - a).
Proof. unfold urange. by rewrite length_fmap, length_seq. Qed.

Lemma length_sectors (S : Z -> Z -> list Z) c ss : (forall s, s ∈ ss -> length (S c s) = 512%nat) -> length (concat (S c <$> ss)) = (512 * length ss)%nat.
Proof. induction ss as [|s ss IH]; intros Hs; [done|]. cbn [fmap list_fmap concat length].
  rewrite length_app, Hs, IH by (by left || intros s' Hs'; apply Hs; by right). lia.
Qed.

Lemma in_range_urange s : s ∈ urange 0 spc -> 0 <= s < spc.
Proof. apply elem_of_urange. Qed.

Lemma length_cluster F S c : sane F S -> data_cluster c -> length (cluster_bytes S c) = (512 * Z.to_nat spc)%nat.
Proof.
  intros [_ Hs] Hc. unfold cluster_bytes. rewrite length_sectors; [rewrite length_urange; lia|]. intros s Hx. by apply Hs, in_range_urange.
Qed.

Lemma read_sectors_spec ss c F S : data_cluster c -> (forall s, s ∈ ss -> 0 <= s < spc) -> sane F S -> forall lft data,
  wp (read_sectors fs ss (cluster_to_lba fs c) lft data) (fun r F' S' => F' = F /\ S' = S /\
    r = Ok ((lft - 512 * length ss)%nat, data ++ take lft (concat (S c <$> ss)))) F S.
Proof.
  intros Hc. induction ss as [|s ss IH]; intros Hss Hsane lft data; cbn [read_sectors].
  { apply wp_ret. split; [done|]. split; [done|]. cbn [fmap list_fmap concat length]. rewrite take_nil, app_nil_r. do 2 f_equal. lia. }
  destruct (Nat.eqb_spec lft 0) as [->|Hl].
  { apply wp_ret. split; [done|]. split; [done|]. cbn [take]. by rewrite app_nil_r. }
  apply wp_bind, wp_read_data'; [done|apply Hss; by left|]. eapply wp_mono; [|apply IH; [intros y Hy; apply Hss; by right|done]].
  intros r F' S' (-> & -> & ->). split; [done|]. split; [done|]. cbn [fmap list_fmap concat length].
  rewrite (take_app_min lft 512 (S c s)) by (apply Hsane; [done|apply Hss; by left]). rewrite <- app_assoc. do 2 f_equal. lia.
Qed.

Lemma read_chain_spec fuel : forall c cs F S lft data, chain F c cs -> (length cs <= fuel)%nat -> sane F S ->
  wp (read_chain fs fuel c lft data) (fun r F' S' => F' = F /\ S' = S /\ r = Ok (data ++ take lft (chain_bytes S cs))) F S.
Proof.
  induction fuel as [|fuel IH]; intros c cs F S lft data Hch Hf Hsane; destruct Hch as [c Hc|c cs Hc Hd Hch]; cbn [read_chain]; rewrite Hc; cbn [andb length] in *; try lia;
    [apply wp_ret; unfold chain_bytes; cbn [fmap list_fmap concat]; by rewrite take_nil, app_nil_r..|].
  destruct (Nat.eqb_spec lft 0) as [->|Hl]; cbn [negb].
  { apply wp_ret. cbn [take]. by rewrite app_nil_r. }
  apply wp_bind. eapply wp_mono; [|apply read_sectors_spec; [done|apply in_range_urange|done]]. intros r F' S' (-> & -> & ->).
  apply wp_bind, (wp_read_fat fs n Hg); [unfold FatVol.valid, FatVol.data_cluster in *; lia|].
  eapply wp_mono; [|apply (IH _ cs); [done|lia|done]]. intros r F' S' (-> & -> & ->). split; [done|]. split; [done|].
  unfold chain_bytes. cbn [fmap list_fmap concat]. fold (chain_bytes S cs). rewrite (take_app_min lft _ (cluster_bytes S c)) by (by apply (length_cluster F)).
  fold (cluster_bytes S c). rewrite <- app_assoc, length_urange. do 2 f_equal. f_equal; [|f_equal; lia].
  rewrite <- (take_ge (cluster_bytes S c) (512 * Z.to_nat spc)) at 1 by (by rewrite (length_cluster F)). by rewrite take_take.
Qed.

(** A sector filled from [data]. *)
Lemma put_prefix bs : (length bs <= 512)%nat -> put zero_sector 0 bs = bs ++ replicate (512 - length bs) 0.
Proof. intros Hl. unfold put, zero_sector. cbn [take app]. by rewrite drop_replicate. Qed.

Lemma write_sectors_spec data c : data_cluster c -> is_bytes data -> forall ss w F S, (w <= length data)%nat -> NoDup ss -> (forall s, s ∈ ss -> 0 <= s < spc) ->
  wp (write_sectors fs ss (cluster_to_lba fs c) w data) (fun r F' S' => F' = F /\ r = Ok (Nat.min (length data) (w + 512 * length ss)) /\
    (forall x y, x <> c \/ y ∉ ss -> S' x y = S x y) /\
    exists tail, concat (S' c <$> ss) = take (512 * length ss) (drop w data) ++ tail) F S.
Proof.
  intros Hc Hb. induction ss as [|s ss IH]; intros w F S Hw Hnd Hss; cbn [write_sectors].
  { apply wp_ret. split; [done|]. split; [f_equal; cbn; lia|]. split; [done|]. by exists []. }
  apply NoDup_cons in Hnd as [Hs Hnd]. destruct (Nat.leb_spec (length data) w) as [Hle|Hlt].
  { apply wp_ret. split; [done|]. split; [f_equal; lia|]. split; [done|]. rewrite drop_ge, take_nil by done. eexists. reflexivity. }
  set (k := Nat.min (length data - w) 512).
  assert (Hk : length (get data w k) = k) by (unfold get; rewrite length_take, length_drop; lia).
  apply wp_bind, wp_write_data'; [done|apply Hss; by left| |].
  { apply bytes512_put; [apply bytes512_zero|by apply Forall_take, Forall_drop|lia]. }
  eapply wp_mono; [|apply IH; [lia|done|intros y Hy; apply Hss; by right]]. intros r F' S' (-> & -> & Hout & tail & Htail). split; [done|].
  split; [f_equal; unfold k; cbn [length]; lia|]. split.
  - intros x y Hxy. rewrite Hout by (destruct Hxy as [?|Hy]; [by left|right; contradict Hy; by right]). unfold upd2. rewrite decide_False; [done|].
    intros [-> ->]. destruct Hxy as [?|Hy]; [done|]. apply Hy. by left.
  - cbn [fmap list_fmap concat length]. rewrite (Hout c s) by (by right). unfold upd2 at 1. rewrite decide_True by done. rewrite put_prefix by (rewrite Hk; lia).
    rewrite Htail, Hk. unfold get. destruct (decide (length data - w <= 512)%nat) as [Hsm|Hbig].
    + eexists. replace k with (length data - w)%nat by lia. rewrite (take_ge (drop w data)) by (rewrite length_drop; lia).
      rewrite (take_ge (drop w data) (512 * Datatypes.S (length ss))) by (rewrite length_drop; lia). rewrite <- app_assoc. reflexivity.
    + exists tail. replace k with 512%nat by lia. rewrite Nat.sub_diag. cbn [replicate]. rewrite app_nil_r, app_assoc. f_equal.
      rewrite <- drop_drop. replace (512 * Datatypes.S (length ss))%nat with (512 + 512 * length ss)%nat by lia. apply take_take_drop.
Qed.

Lemma NoDup_urange a b : NoDup (urange a b).
Proof. unfold urange. apply (NoDup_fmap_2_strong); [intros; lia|apply NoDup_seq]. Qed.

Lemma chain_bytes_same S S' cs : (forall x y, x ∈ cs -> S' x y = S x y) -> chain_bytes S' cs = chain_bytes S cs.
Proof.
  intros HS. unfold chain_bytes. f_equal. apply list_fmap_ext. intros i c Hc. apply list_elem_of_lookup_2 in Hc. unfold cluster_bytes. f_equal.
  apply list_fmap_ext. intros j s _. by apply HS.
Qed.

Lemma write_chain_spec data : is_bytes data -> forall fuel c cs w F S, chain F c cs -> NoDup cs -> (length cs <= fuel)%nat -> (w <= length data)%nat ->
  (length data - w <= length cs * (512 * Z.to_nat spc))%nat -> sane F S ->
  wp (write_chain fs fuel c w data) (fun r F' S' => r = Ok tt /\ F' = F /\ (forall x y, x ∉ cs -> S' x y = S x y) /\
    exists tail, chain_bytes S' cs = drop w data ++ tail) F S.
Proof.
  intros Hb. induction fuel as [|fuel IH]; intros c cs w F S Hch Hnd Hf Hw Hl Hsane; destruct Hch as [c Hc|c cs Hc Hd Hch];
    cbn [write_chain length] in *; rewrite Hc; cbn [andb]; try lia;
    [apply wp_ret; split; [done|]; split; [done|]; split; [done|]; exists []; rewrite drop_ge by lia; done..|].
  destruct (Nat.ltb_spec w (length data)) as [Hlt|Hge].
  2:{ apply wp_ret. split; [done|]. split; [done|]. split; [done|]. rewrite drop_ge by lia. eexists. reflexivity. }
  apply NoDup_cons in Hnd as [Hcs Hnd]. apply wp_bind.
  eapply wp_mono; [|apply write_sectors_spec; [done|done|lia|apply NoDup_urange|apply in_range_urange]].
  intros r F' S1 (-> & -> & Hout & tail1 & Ht1). rewrite length_urange, Z.sub_0_r in *. set (k := (512 * Z.to_nat spc)%nat) in *.
  apply wp_bind, (wp_read_fat fs n Hg); [unfold FatVol.valid, FatVol.data_cluster in *; lia|]. apply wp_sane. intros Hsane1.
  eapply wp_mono; [|apply (IH _ cs); [done|done|lia|lia|lia|done]]. intros r F' S' (-> & -> & Hout2 & tail2 & Ht2). split; [done|]. split; [done|]. split.
  { intros x y Hx. rewrite Hout2 by set_solver. apply Hout. left. set_solver. }
  assert (E1 : cluster_bytes S' c = take k (drop w data) ++ tail1).
  { unfold cluster_bytes. rewrite <- Ht1. f_equal. apply list_fmap_ext. intros i s _. by apply Hout2. }
  unfold chain_bytes in *. cbn [fmap list_fmap concat]. rewrite E1, Ht2.
  destruct (decide (length data - w <= k)%nat) as [Hsm|Hbig].
  - eexists. rewrite (take_ge (drop w data)) by (rewrite length_drop; lia). rewrite <- app_assoc. reflexivity.
  - exists tail2. assert (tail1 = []) as ->.
    { apply nil_length_inv. pose proof (length_cluster F S1 c Hsane1 Hd) as Hlen. unfold cluster_bytes in Hlen. rewrite Ht1, length_app, length_take, length_drop in Hlen. fold k in Hlen. lia. }
    rewrite app_nil_r, app_assoc. f_equal. rewrite Nat.min_r by lia. rewrite <- drop_drop. apply take_drop.
Qed.

(** ** Releasing a chain *)
Lemma chain_fun F c cs : chain F c cs -> forall cs', chain F c cs' -> cs' = cs.
Proof.
  induction 1 as [c Hc|c cs Hc Hd Hcs IH]; intros cs' Hcs'; inversion Hcs'; subst; try congruence. f_equal. by apply IH.
Qed.

Lemma chain_suffix F c cs x : chain F c cs -> x ∈ cs -> exists l1 l2, cs = l1 ++ x :: l2 /\ chain F x (x :: l2).
Proof.
  induction 1 as [c Hc|c cs Hc Hd Hcs IH]; intros Hx; [by apply not_elem_of_nil in Hx|]. apply elem_of_cons in Hx as [->|Hx]; [exists [], cs; by split; [|constructor]|].
  destruct (IH Hx) as (l1 & l2 & -> & Hs). by exists (c :: l1), l2.
Qed.

(** A chain that ends does not repeat a cluster. *)
Lemma chain_head_notin F c cs : chain F c (c :: cs) -> c ∉ cs.
Proof.
  intros Hc Hin. inversion Hc; subst. destruct (chain_suffix F (F c) cs c) as (l1 & l2 & -> & Hs); [done|done|].
  pose proof (chain_fun _ _ _ Hs _ Hc) as E. apply (f_equal length) in E. cbn in E. rewrite length_app in E. cbn in E. lia.
Qed.

Lemma chain_NoDup F c cs : chain F c cs -> NoDup cs.
Proof. induction 1 as [c Hc|c cs Hc Hd Hcs IH]; constructor; [|done]. apply (chain_head_notin F). by constructor. Qed.

Definition freed (F : Z -> Z) (cs : list Z) : Z -> Z := fun x => if decide (x ∈ cs) then FAT_FREE else F x.

Lemma free_chain_spec fuel : forall c cs F S, chain F c cs -> (length cs <= fuel)%nat ->
  wp (free_cluster_chain fs fuel c) (fun r F' S' => r = Ok tt /\ same_fat (freed F cs) F' /\ S' = S) F S.
Proof.
  induction fuel as [|fuel IH]; intros c cs F S Hch Hf; pose proof Hch as Hch0; destruct Hch as [c Hc|c cs Hc Hd Hch];
    cbn [free_cluster_chain length] in *; rewrite Hc; try lia; [apply wp_ret; split; [done|]; split; [|done]; intros x _; unfold freed; by rewrite decide_False by apply not_elem_of_nil..|].
  assert (Hv : valid c) by (unfold FatVol.valid, FatVol.data_cluster in *; lia). pose proof (chain_head_notin _ _ _ Hch0) as Hnot.
  apply wp_bind, (wp_read_fat fs n Hg); [done|]. apply wp_bind, (wp_write_fat fs n Hg); [done|by vm_compute|].
  eapply wp_mono; [|apply (IH (F c) cs); [|lia]].
  - intros r F' S' (-> & HF & ->). split; [done|]. split; [|done]. intros x Hx. rewrite HF by done. unfold freed, upd.
    destruct (decide (x ∈ cs)); [rewrite decide_True by (by right); done|]. destruct (decide (x = c)) as [->|]; [rewrite decide_True by (by left); done|].
    rewrite decide_False; [done|]. by intros [?|?]%elem_of_cons.
  - eapply chain_ext; [exact Hch|]. intros x Hx. unfold upd. rewrite decide_False; [done|]. by intros ->.
Qed.

(** *** Any table, chains with cycles included *)
Definition closed (F : Z -> Z) : Prop := forall c, data_cluster c -> in_chain (F c) = true -> data_cluster (F c).
Fixpoint count_used (F : Z -> Z) (l : list Z) : nat :=
  match l with [] => O | x :: l' => ((if (F x =? FAT_FREE)%Z then 0 else 1) + count_used F l')%nat end.
Definition used (F : Z -> Z) : nat := count_used F (urange 2 total).

Lemma upd_free F c x : (if (upd F c FAT_FREE x =? FAT_FREE)%Z then 0 else 1)%nat = if decide (x = c) then 0%nat else if (F x =? FAT_FREE)%Z then 0%nat else 1%nat.
Proof. unfold upd. by destruct (decide (x = c)). Qed.

Lemma count_upd_le F c l : (count_used (upd F c FAT_FREE) l <= count_used F l)%nat.
Proof. induction l as [|x l IH]; [done|]. cbn [count_used]. rewrite upd_free. destruct (decide (x = c)); lia. Qed.

Lemma used_upd F c : data_cluster c -> F c <> FAT_FREE -> (used (upd F c FAT_FREE) < used F)%nat.
Proof.
  intros Hc Hf. assert (Hin : c ∈ urange 2 total) by (by apply elem_of_urange). unfold used. revert Hin. generalize (urange 2 total). intros l Hl.
  induction l as [|x l IH]; [by apply not_elem_of_nil in Hl|]. cbn [count_used]. rewrite upd_free. destruct (decide (x = c)) as [->|Hne].
  - rewrite (proj2 (Z.eqb_neq _ _)) by done. pose proof (count_upd_le F c l). lia.
  - apply elem_of_cons in Hl as [->|Hl]; [done|]. specialize (IH Hl). lia.
Qed.

Lemma closed_upd F c : closed F -> closed (upd F c FAT_FREE).
Proof. intros Hcl x Hx. unfold upd. destruct (decide (x = c)); [done|by apply Hcl]. Qed.

Lemma free_chain_any k : forall c F S, (used F < k)%nat -> closed F -> (in_chain c = true -> data_cluster c) ->
  wp (free_cluster_chain fs k c) (fun r F' S' => r = Ok tt /\ S' = S /\ (in_chain c = true -> F' c = FAT_FREE) /\ forall x, F' x = F x \/ F' x = FAT_FREE) F S.
Proof.
  induction k as [|k IH]; intros c F S Hk Hcl Hc; [lia|]. cbn [free_cluster_chain]. destruct (in_chain c) eqn:Ec.
  2:{ apply wp_ret. split; [done|]. split; [done|]. split; [done|]. by left. }
  specialize (Hc eq_refl). assert (Hv : valid c) by (unfold FatVol.valid, FatVol.data_cluster in *; lia).
  apply wp_bind, (wp_read_fat fs n Hg); [done|]. apply wp_bind, (wp_write_fat fs n Hg); [done|by vm_compute|].
  destruct (decide (F c = FAT_FREE)) as [E|E].
  - rewrite E. destruct k as [|k]; cbn [free_cluster_chain]; change (in_chain FAT_FREE) with false; apply wp_ret; (split; [done|]; split; [done|];
      split; [intros _; unfold upd; by rewrite decide_True|]; intros x; unfold upd; destruct (decide (x = c)); auto).
  - eapply wp_mono; [|apply IH; [pose proof (used_upd F c Hc E); lia|by apply closed_upd|by apply Hcl]].
    intros r F' S' (-> & -> & _ & HF). split; [done|]. split; [done|]. split.
    + intros _. destruct (HF c) as [->| ->]; [|done]. unfold upd. by rewrite decide_True.
    + intros x. destruct (HF x) as [->| ->]; [|by right]. unfold upd. destruct (decide (x = c)); auto.
Qed.

Lemma used_bound F : (used F <= Z.to_nat total)%nat.
Proof.
  unfold used. transitivity (length (urange 2 total)); [|rewrite length_urange; lia].
  induction (urange 2 total) as [|x l IH]; [done|]. cbn [count_used length]. destruct (F x =? FAT_FREE); lia.
Qed.

End Chain.
End FatChain.
