(* ===== verification/FatDir.v ===== *)
(** * Directories of a FAT32 volume

    The slots of a directory as one list, in the order the code visits them;
    searching and inserting are operations on that list. *)

From stdpp Require Import prelude numbers list strings.
From S2P Require Import Prelude Io Errors Ata Bytes Fat32 FatVol FatChain.
Import Bytes Errors Ata Fat32 FatVol FatChain.

Module FatDir.

(** ** Lists of slots *)
Notation place := (Z * Z * nat)%type.
Notation cell := (place * (bool * slot))%type.

Fixpoint seek (l : list cell) (nm : list Z) : option (FatDirEntry * place) :=
  match l with
  | [] => None
  | (_, (_, SlotEnd)) :: _ => None
  | (_, (_, SlotSkip)) :: l' => seek l' nm
  | (p, (_, SlotEntry e)) :: l' => if bool_decide (to_ascii_uppercase (name e) = nm) then Some (e, p) else seek l' nm
  end.

(** The first free slot. *)
Fixpoint vacant (l : list cell) : option place :=
  match l with [] => None | (p, (fr, _)) :: l' => if fr : bool then Some p else vacant l' end.

(** Replacing the slot at a place. *)
Definition replace_at (p : place) (x : bool * slot) (l : list cell) : list cell :=
  (fun q => if decide (q.1 = p) then (p, x) else q) <$> l.

(** The end marker counts as free. *)
Definition marked (l : list cell) : Prop := forall p fr, (p, (fr, SlotEnd)) ∈ l -> fr = true.

Lemma marked_tail q l : marked (q :: l) -> marked l.
Proof. intros Hm p fr Hp. apply (Hm p). by right. Qed.

Lemma seek_insert l p en nm : marked l -> vacant l = Some p -> seek l nm = None -> to_ascii_uppercase (name en) = nm ->
  seek (replace_at p (false, SlotEntry en) l) nm = Some (en, p).
Proof.
  intros Hm Hv Hs Hn. induction l as [|[q [fr sl]] l IH]; [done|]. cbn [vacant] in Hv. unfold replace_at in *. cbn [fmap list_fmap fst].
  destruct (decide (q = p)) as [->|Hne]; [cbn [seek]; by rewrite bool_decide_true|]. destruct fr; [congruence|]. cbn [seek] in *. specialize (IH (marked_tail _ _ Hm) Hv).
  destruct sl as [| |e]; [|by apply IH|].
  - specialize (Hm q false ltac:(by left)). done.
  - destruct (bool_decide (to_ascii_uppercase (name e) = nm)); [done|by apply IH].
Qed.

(** Filling a free slot keeps what other names find. *)
Lemma seek_insert_other l p en nm r : (forall y, (p, y) ∈ l -> y.2 = SlotEnd \/ y.2 = SlotSkip) ->
  to_ascii_uppercase (name en) <> nm -> seek l nm = Some r -> seek (replace_at p (false, SlotEntry en) l) nm = Some r.
Proof.
  intros Hp Hn. induction l as [|[q [fr sl]] l IH]; [done|]. unfold replace_at in *. cbn [fmap list_fmap fst].
  specialize (IH (fun y Hy => Hp y (list_elem_of_further _ _ _ Hy))).
  destruct (decide (q = p)) as [->|Hne]; cbn [seek].
  - rewrite bool_decide_false by done. destruct (Hp (fr, sl) ltac:(by left)) as [E|E]; cbn in E; subst sl; [done|by apply IH].
  - destruct sl as [| |e]; [done|by apply IH|]. destruct (bool_decide _); [done|by apply IH].
Qed.

(** Changing an entry keeps what other names find. *)
Lemma seek_replace_other l p e e' nm r : (forall y, (p, y) ∈ l -> y.2 = SlotEntry e) -> name e' = name e -> to_ascii_uppercase (name e) <> nm ->
  seek l nm = Some r -> seek (replace_at p (false, SlotEntry e') l) nm = Some r.
Proof.
  intros Hp Hn Hne. induction l as [|[q [fr sl]] l IH]; [done|]. unfold replace_at in *. cbn [fmap list_fmap fst].
  specialize (IH (fun y Hy => Hp y (list_elem_of_further _ _ _ Hy))).
  destruct (decide (q = p)) as [->|Hq]; cbn [seek].
  - rewrite Hn, bool_decide_false by done. specialize (Hp (fr, sl) ltac:(by left)). cbn in Hp. subst sl. rewrite bool_decide_false by done. apply IH.
  - destruct sl as [| |e0]; [done|by apply IH|]. destruct (bool_decide _); [done|by apply IH].
Qed.

(** Changing an entry that was found, keeping its name. *)
Lemma seek_replace l p e e' nm : seek l nm = Some (e, p) -> name e' = name e -> NoDup (fst <$> l) ->
  seek (replace_at p (false, SlotEntry e') l) nm = Some (e', p).
Proof.
  intros Hs Hn Hnd. induction l as [|[q [fr sl]] l IH]; [done|]. cbn [fmap list_fmap fst] in Hnd. apply NoDup_cons in Hnd as [Hq Hnd].
  unfold replace_at in *. cbn [fmap list_fmap fst]. cbn [seek] in Hs. assert (Hp : forall l, seek l nm = Some (e, p) -> p ∈ fst <$> l).
  { clear. induction l as [|[q [fr sl]] l IH]; [done|]. cbn [seek fmap list_fmap fst]. destruct sl as [| |e0]; [done|intros; right; by apply IH|].
    destruct (bool_decide _); [intros [= -> ->]; by left|intros; right; by apply IH]. }
  destruct (decide (q = p)) as [->|Hne].
  - cbn [seek]. destruct sl as [| |e0]; [done|by apply Hp in Hs|]. destruct (bool_decide_reflect (to_ascii_uppercase (name e0) = nm)) as [E|E]; [|by apply Hp in Hs].
    injection Hs as ->. by rewrite Hn, bool_decide_true.
  - cbn [seek]. destruct sl as [| |e0]; [done|by apply IH|]. destruct (bool_decide (to_ascii_uppercase (name e0) = nm)); [congruence|by apply IH].
Qed.

(** A full directory, and what follows it. *)
Lemma seek_full l1 l2 nm : marked l1 -> vacant l1 = None -> seek l1 nm = None -> seek (l1 ++ l2) nm = seek l2 nm.
Proof.
  intros Hm Hv Hs. induction l1 as [|[q [fr sl]] l IH]; [done|]. cbn [vacant seek app] in *. destruct fr; [done|]. specialize (IH (marked_tail _ _ Hm) Hv).
  destruct sl as [| |e]; [|by apply IH|]; [by specialize (Hm q false ltac:(by left))|]. destruct (bool_decide _); [done|by apply IH].
Qed.

Lemma seek_app_Some l1 l2 nm r : seek l1 nm = Some r -> seek (l1 ++ l2) nm = Some r.
Proof.
  intros Hs. induction l1 as [|[q [fr sl]] l IH]; [done|]. cbn [seek app] in *. destruct sl as [| |e]; [done|by apply IH|]. destruct (bool_decide _); [done|by apply IH].
Qed.

(** ** The slots of a sector *)
Definition slot_free (buf : list Z) (i : nat) : bool := ((byte buf (i * 32) =? 0x00) || (byte buf (i * 32) =? 0xE5))%bool.
Definition cell_of (c s : Z) (buf : list Z) (i : nat) : cell := ((c, s, i), (slot_free buf i, read_slot buf i)).
Definition sector_cells (S : Z -> Z -> list Z) (q : Z * Z) : list cell := cell_of q.1 q.2 (S q.1 q.2) <$> seq 0 16.
Definition cells (S : Z -> Z -> list Z) (ps : list (Z * Z)) : list cell := ps ≫= sector_cells S.

Lemma read_slot_end buf i : read_slot buf i = SlotEnd <-> byte buf (i * 32) = 0.
Proof.
  unfold read_slot. destruct (Z.eqb_spec (byte buf (i * 32)) 0) as [->|]; [done|]. destruct (_ =? 0xE5); [by split|]. by destruct (_ || _)%bool.
Qed.

Lemma free_slot_kind buf i : slot_free buf i = true -> read_slot buf i = SlotEnd \/ read_slot buf i = SlotSkip.
Proof.
  unfold slot_free, read_slot. destruct (byte buf (i * 32) =? 0); [by left|]. cbn [orb]. intros ->. by right.
Qed.

Lemma marked_cells S ps : marked (cells S ps).
Proof.
  intros p fr Hin. unfold cells in Hin. apply list_elem_of_bind in Hin as (q & Hin & _).
  apply list_elem_of_fmap in Hin as (i & [= -> -> E] & _). symmetry in E. apply read_slot_end in E. unfold slot_free. by rewrite E.
Qed.

Lemma elem_of_cells S ps c s i y : ((c, s, i), y) ∈ cells S ps <-> (c, s) ∈ ps /\ (i < 16)%nat /\ y = (slot_free (S c s) i, read_slot (S c s) i).
Proof.
  unfold cells. rewrite list_elem_of_bind. unfold sector_cells. setoid_rewrite list_elem_of_fmap. split.
  - intros ([c' s'] & (j & E & Hj) & Hps). unfold cell_of in E. cbn [fst snd] in E. injection E as -> -> -> ->. apply elem_of_seq in Hj. split; [done|]. split; [lia|done].
  - intros (Hps & Hi & ->). exists (c, s). split; [|done]. exists i. split; [done|]. apply elem_of_seq. lia.
Qed.

Lemma seek_elem l nm e p : seek l nm = Some (e, p) -> to_ascii_uppercase (name e) = nm /\ exists fr, (p, (fr, SlotEntry e)) ∈ l.
Proof.
  induction l as [|[q [fr sl]] l IH]; [done|]. cbn [seek].
  assert (Hrec : seek l nm = Some (e, p) -> to_ascii_uppercase (name e) = nm /\ exists fr', (p, (fr', SlotEntry e)) ∈ (q, (fr, sl)) :: l).
  { intros Hs. destruct (IH Hs) as [Hn [fr' Hin]]. split; [done|]. exists fr'. by right. }
  destruct sl as [| |e0]; [done|done|]. destruct (bool_decide_reflect (to_ascii_uppercase (name e0) = nm)) as [E|E]; [|done].
  intros [= -> ->]. split; [done|]. exists fr. by left.
Qed.

Lemma vacant_elem l p : vacant l = Some p -> exists sl, (p, (true, sl)) ∈ l.
Proof.
  induction l as [|[q [fr sl]] l IH]; [done|]. cbn [vacant]. destruct fr; [intros [= ->]; exists sl; by left|]. intros Hv. destruct (IH Hv) as [sl' Hin]. exists sl'. by right.
Qed.

(** A slot depends on its 32 bytes only. *)
Lemma byte_get buf off k m : (off + m <= length buf)%nat -> (k < m)%nat -> byte (get buf off m) k = byte buf (off + k).
Proof.
  intros Hl Hk. unfold byte. rewrite get_nth by done. rewrite (nth_lookup _ k), list_lookup_fmap, lookup_seq_lt by done. done.
Qed.

Lemma get_get buf off m off' m' : (off + m <= length buf)%nat -> (off' + m' <= m)%nat -> get (get buf off m) off' m' = get buf (off + off') m'.
Proof.
  intros Hl Hl'. assert (length (get buf off m) = m) by (unfold get; rewrite length_take, length_drop; lia).
  rewrite !(get_nth _ _ m') by lia. apply list_fmap_ext. intros k x Hk. apply lookup_seq in Hk as [-> Hk]. fold (byte (get buf off m) (off' + (0 + k))).
  rewrite byte_get by lia. unfold byte. f_equal. lia.
Qed.

Lemma read_slot_get buf i : length buf = 512%nat -> (i < 16)%nat -> read_slot buf i = read_slot (get buf (i * 32) 32) 0.
Proof.
  intros Hl Hi. unfold read_slot, full_name, le. change (0 * 32)%nat with 0%nat. repeat rewrite byte_get by lia. repeat rewrite get_get by lia.
  rewrite !Nat.add_0_r, !Nat.add_0_l. done.
Qed.

Lemma slot_free_get buf i : length buf = 512%nat -> (i < 16)%nat -> slot_free buf i = slot_free (get buf (i * 32) 32) 0.
Proof. intros Hl Hi. unfold slot_free. change (0 * 32)%nat with 0%nat. repeat rewrite byte_get by lia. by rewrite !Nat.add_0_r. Qed.

(** The cells of a sector after 32 bytes were replaced. *)
Lemma cells_put c s buf i entry j : length buf = 512%nat -> (i < 16)%nat -> (j < 16)%nat -> length entry = 32%nat ->
  cell_of c s (put buf (i * 32) entry) j = if decide (j = i) then ((c, s, i), (slot_free entry 0, read_slot entry 0)) else cell_of c s buf j.
Proof.
  intros Hl Hi Hj He. assert (Hp : length (put buf (i * 32) entry) = 512%nat) by (rewrite length_put; lia). unfold cell_of.
  rewrite read_slot_get, slot_free_get by done. destruct (decide (j = i)) as [->|Hne].
  - rewrite get_put_same by lia. done.
  - rewrite get_put_other by lia. rewrite <- read_slot_get, <- slot_free_get by done. done.
Qed.

(** Writing an entry into a sector replaces one cell of the directory. *)
Lemma cells_insert S ps c s i entry : (forall c s, (c, s) ∈ ps -> length (S c s) = 512%nat) -> (i < 16)%nat -> length entry = 32%nat ->
  cells (upd2 S c s (put (S c s) (i * 32) entry)) ps = replace_at (c, s, i) (slot_free entry 0, read_slot entry 0) (cells S ps).
Proof.
  intros Hlen Hi He. unfold cells, replace_at. induction ps as [|[c' s'] ps IH]; [done|]. cbn [mbind list_bind]. rewrite fmap_app, IH by (intros; apply Hlen; by right).
  f_equal. unfold sector_cells. cbn [fst snd]. rewrite <- list_fmap_compose. apply list_fmap_ext. intros k j Hj. apply lookup_seq in Hj as [-> Hj]. rewrite Nat.add_0_l.
  cbn [compose]. unfold upd2. destruct (decide (c' = c /\ s' = s)) as [[-> ->]|Hne].
  - rewrite cells_put by (done || apply Hlen; by left). cbn [fst cell_of]. destruct (decide (k = i)) as [->|]; [by rewrite decide_True|]. rewrite decide_False; [done|congruence].
  - cbn [fst cell_of]. rewrite decide_False; [done|]. intros [= -> -> ->]. tauto.
Qed.

(** ** Searching and inserting, as the code does *)
Lemma find_slots_seek c s buf nm l2 k : forall i,
  seek ((cell_of c s buf <$> seq i k) ++ l2) nm =
  match find_slots k i buf nm with Found e j => Some (e, (c, s, j)) | Ended => None | NotHere => seek l2 nm end.
Proof.
  induction k as [|k IH]; intros i; [done|]. cbn [seq fmap list_fmap app find_slots]. unfold cell_of at 1. cbn [seek].
  destruct (read_slot buf i) as [| |e]; [done|apply IH|]. destruct (bool_decide _); [done|apply IH].
Qed.

Lemma find_slots_range buf nm k : forall i e j, find_slots k i buf nm = Found e j -> (i <= j < i + k)%nat.
Proof.
  induction k as [|k IH]; intros i e j; [done|]. cbn [find_slots]. destruct (read_slot buf i) as [| |e0]; [done|intros Hf; apply IH in Hf; lia|].
  destruct (bool_decide _); [intros [= _ <-]; lia|intros Hf; apply IH in Hf; lia].
Qed.

Lemma find_slots_first k i buf nm e : read_slot buf i = SlotEntry e -> to_ascii_uppercase (name e) = nm -> find_slots (S k) i buf nm = Found e i.
Proof. intros Hr Hn. cbn [find_slots]. by rewrite Hr, bool_decide_true. Qed.

Lemma free_slot_vacant c s buf l2 k : forall i,
  vacant ((cell_of c s buf <$> seq i k) ++ l2) = match free_slot k i buf with Some j => Some (c, s, j) | None => vacant l2 end.
Proof.
  induction k as [|k IH]; intros i; [done|]. cbn [seq fmap list_fmap app free_slot]. unfold cell_of at 1, slot_free. cbn [vacant].
  destruct (_ || _)%bool; [done|apply IH].
Qed.

Lemma free_slot_range buf k : forall i j, free_slot k i buf = Some j -> (i <= j < i + k)%nat.
Proof. induction k as [|k IH]; intros i j; [done|]. cbn [free_slot]. destruct (_ || _)%bool; [intros [= <-]; lia|intros Hf; apply IH in Hf; lia]. Qed.

Lemma cells_cons S q ps : cells S (q :: ps) = sector_cells S q ++ cells S ps.
Proof. done. Qed.

Lemma cells_app S l1 l2 : cells S (l1 ++ l2) = cells S l1 ++ cells S l2.
Proof. apply bind_app. Qed.

Section Dir.
Context {D : Type} `{Disk D}.
Variables (fs : Fat32Fs) (n : Z).
Hypothesis Hg : geom fs n.
Local Notation spc := (sectors_per_cluster (bpb fs)).
Local Notation total := (total_clusters fs).
Local Notation wp := (wp fs n).
Local Notation data_cluster := (data_cluster fs).
Local Notation valid := (valid fs).
Local Notation chain := (chain fs).
Local Notation sane := (sane fs).

Definition sectors_of (c : Z) : list (Z * Z) := pair c <$> urange 0 spc.
Definition positions (cs : list Z) : list (Z * Z) := cs ≫= sectors_of.

Lemma elem_of_positions cs c s : (c, s) ∈ positions cs <-> c ∈ cs /\ 0 <= s < spc.
Proof.
  unfold positions, sectors_of. rewrite list_elem_of_bind. setoid_rewrite list_elem_of_fmap. split.
  - intros (x & (y & [= -> ->] & Hy) & Hx). split; [done|]. by apply elem_of_urange.
  - intros [Hc Hs]. exists c. split; [|done]. exists s. split; [done|]. by apply elem_of_urange.
Qed.

Lemma NoDup_positions cs : NoDup cs -> NoDup (positions cs).
Proof.
  induction 1 as [|c cs Hc Hnd IH]; [constructor|]. change (positions (c :: cs)) with (sectors_of c ++ positions cs). apply NoDup_app. split; [|split; [|done]].
  - apply NoDup_fmap; [by intros ? ? [= ->]|apply NoDup_urange].
  - intros [c' s'] Hin. apply list_elem_of_fmap in Hin as (y & [= -> ->] & _). rewrite elem_of_positions. tauto.
Qed.

Lemma NoDup_cells S ps : NoDup ps -> NoDup (fst <$> cells S ps).
Proof.
  induction 1 as [|[c s] ps Hq Hnd IH]; [constructor|]. rewrite cells_cons, fmap_app. apply NoDup_app. split; [|split; [|done]].
  - unfold sector_cells. rewrite <- list_fmap_compose. apply NoDup_fmap; [intros i j [= ->]; done|apply NoDup_seq].
  - intros p Hp Hp'. apply list_elem_of_fmap in Hp as (x & -> & Hx). apply list_elem_of_fmap in Hx as (i & -> & _).
    apply list_elem_of_fmap in Hp' as (x & Hx & Hin). apply list_elem_of_bind in Hin as ([c' s'] & Hin & Hps). apply list_elem_of_fmap in Hin as (j & -> & _).
    cbn in Hx. injection Hx as -> -> ->. done.
Qed.

(** What a search answers. *)
Definition answers (S : Z -> Z -> list Z) (l : list cell) (nm : list Z) (o : option (FatDirEntry * Z * nat)) : Prop :=
  match o with
  | Some (e, lba, i) => exists c s, seek l nm = Some (e, (c, s, i)) /\ lba = u32_add (cluster_to_lba fs c) s /\ (i < 16)%nat /\ data_cluster c /\ 0 <= s < spc
  | None => seek l nm = None
  end.

Lemma find_sectors_spec nm c F S ss : data_cluster c -> (forall s, s ∈ ss -> 0 <= s < spc) ->
  wp (find_sectors fs ss (cluster_to_lba fs c) nm) (fun r F' S' => F' = F /\ S' = S /\ exists o, r = Ok o /\ forall l2,
    match o with
    | Some a => answers S (cells S (pair c <$> ss) ++ l2) nm a
    | None => seek (cells S (pair c <$> ss) ++ l2) nm = seek l2 nm
    end) F S.
Proof.
  intros Hc. induction ss as [|s ss IH]; intros Hss; cbn [find_sectors].
  { apply wp_ret. split; [done|]. split; [done|]. by exists None. }
  apply wp_bind, (wp_read_data' fs n Hg); [done|apply Hss; by left|]. cbn [fmap list_fmap].
  assert (E : forall l2, seek (cells S ((c, s) :: (pair c <$> ss)) ++ l2) nm = match find_slots 16 0 (S c s) nm with
    Found e j => Some (e, (c, s, j)) | Ended => None | NotHere => seek (cells S (pair c <$> ss) ++ l2) nm end).
  { intros l2. rewrite cells_cons, <- app_assoc. apply find_slots_seek. }
  destruct (find_slots 16 0 (S c s) nm) as [e i| |] eqn:Ef.
  - apply wp_ret. split; [done|]. split; [done|]. eexists. split; [done|]. intros l2. exists c, s. rewrite E. apply find_slots_range in Ef.
    split; [done|]. split; [done|]. split; [lia|]. split; [done|apply Hss; by left].
  - apply wp_ret. split; [done|]. split; [done|]. exists (Some None). split; [done|]. intros l2. apply E.
  - eapply wp_mono; [|apply IH; intros y Hy; apply Hss; by right]. intros r F' S' (-> & -> & o & -> & Ho). split; [done|]. split; [done|]. exists o. split; [done|].
    intros l2. specialize (Ho l2). destruct o as [[[[e lba] i]|]|]; cbn [answers] in *; setoid_rewrite E; done.
Qed.

Lemma find_chain_spec nm fuel : forall c cs F S, chain F c cs -> (length cs <= fuel)%nat ->
  wp (find_chain fs fuel c nm) (fun r F' S' => F' = F /\ S' = S /\ exists a, r = Ok a /\ answers S (cells S (positions cs)) nm a) F S.
Proof.
  induction fuel as [|fuel IH]; intros c cs F S Hch Hf; destruct Hch as [c Hc|c cs Hc Hd Hch]; cbn [find_chain length] in *; rewrite Hc; try lia;
    [apply wp_ret; split; [done|]; split; [done|]; by exists None..|].
  apply wp_bind. eapply wp_mono; [|apply find_sectors_spec; [done|intros s Hs; by apply elem_of_urange in Hs]]. intros r F' S' (-> & -> & o & -> & Ho).
  change (positions (c :: cs)) with (sectors_of c ++ positions cs). rewrite cells_app. specialize (Ho (cells S (positions cs))).
  destruct o as [a|]; [apply wp_ret; split; [done|]; split; [done|]; by exists a|].
  apply wp_bind, (wp_read_fat fs n Hg); [unfold FatVol.valid, FatVol.data_cluster in *; lia|].
  eapply wp_mono; [|apply (IH _ cs); [done|lia]]. intros r F' S' (-> & -> & a & -> & Ha). split; [done|]. split; [done|]. exists a. split; [done|].
  unfold sectors_of. destruct a as [[[e lba] i]|]; cbn [answers] in *; setoid_rewrite Ho; done.
Qed.

(** ** Directories end with an end-of-chain mark *)
Inductive dchain (F : Z -> Z) : Z -> list Z -> Prop :=
| dc_last c : in_chain c = true -> data_cluster c -> 0x0FFFFFF7 <= F c -> dchain F c [c]
| dc_cons c cs : in_chain c = true -> data_cluster c -> dchain F (F c) cs -> dchain F c (c :: cs).

Lemma dchain_chain F c cs : dchain F c cs -> chain F c cs.
Proof.
  induction 1 as [c Hc Hd Hl|c cs Hc Hd Hcs IH]; constructor; try done. constructor. unfold in_chain. rewrite andb_false_iff, Z.ltb_ge. auto.
Qed.

Lemma dchain_in F c cs : dchain F c cs -> exists cs', cs = c :: cs' /\ in_chain c = true.
Proof. destruct 1; eauto. Qed.

Lemma dchain_nonfree F c cs x : dchain F c cs -> x ∈ cs -> F x <> FAT_FREE.
Proof.
  induction 1 as [c Hc Hd Hl|c cs Hc Hd Hcs IH]; intros Hx.
  - apply list_elem_of_singleton in Hx as ->. unfold FAT_FREE. lia.
  - apply elem_of_cons in Hx as [->|Hx]; [|by apply IH]. apply dchain_in in Hcs as (cs' & _ & Hi). apply in_chain_spec in Hi. unfold FAT_FREE. lia.
Qed.

Lemma dchain_ext F F' c cs : dchain F c cs -> (forall x, x ∈ cs -> F' x = F x) -> dchain F' c cs.
Proof.
  induction 1 as [c Hc Hd Hl|c cs Hc Hd Hcs IH]; intros HF.
  - constructor; [done|done|]. by rewrite HF by (by left).
  - apply dc_cons; [done|done|]. rewrite HF by (by left). apply IH. intros x Hx. apply HF. by right.
Qed.

(** Extending a directory by a cluster. *)
Lemma dchain_extend F F' c cs nc : dchain F c cs -> nc ∉ cs -> data_cluster nc -> in_chain nc = true ->
  (forall x, x ∈ cs -> F' x = if decide (Some x = last cs) then nc else F x) -> 0x0FFFFFF7 <= F' nc -> NoDup cs -> dchain F' c (cs ++ [nc]).
Proof.
  induction 1 as [c Hc Hd Hl|c cs Hc Hd Hcs IH]; intros Hn Hnd Hni HF Hnl Hdup.
  - cbn [app]. apply dc_cons; [done|done|]. rewrite HF by (by left). rewrite decide_True by done. by constructor.
  - cbn [app]. apply NoDup_cons in Hdup as [Hcc Hdup]. pose proof (dchain_in _ _ _ Hcs) as (cs' & Ecs & _).
    assert (Hl : last (c :: cs) = last cs) by (by rewrite Ecs). apply dc_cons; [done|done|]. rewrite HF by (by left). rewrite Hl, decide_False.
    + apply IH; [by intros ?; apply Hn; right|done|done| |done|done]. intros x Hx. rewrite HF by (by right). by rewrite Hl.
    + intros E. apply Hcc. by apply last_Some_elem_of.
Qed.

Lemma insert_sectors_spec entry c F S ss : data_cluster c -> is_bytes entry -> length entry = 32%nat -> (forall s, s ∈ ss -> 0 <= s < spc) -> sane F S ->
  wp (insert_sectors fs ss (cluster_to_lba fs c) entry) (fun r F' S' => F' = F /\
    match vacant (cells S (pair c <$> ss)) with
    | Some (c', s, i) => r = Ok true /\ c' = c /\ 0 <= s < spc /\ (i < 16)%nat /\ S' = upd2 S c s (put (S c s) (i * 32) entry)
    | None => r = Ok false /\ S' = S
    end) F S.
Proof.
  intros Hc Hb He. induction ss as [|s ss IH]; intros Hss Hsane; cbn [insert_sectors].
  { apply wp_ret. by split. }
  assert (Hs : 0 <= s < spc) by (apply Hss; by left). apply wp_bind, (wp_read_data' fs n Hg); [done|done|]. cbn [fmap list_fmap]. rewrite cells_cons.
  unfold sector_cells at 1. cbn [fst snd]. rewrite free_slot_vacant. destruct (free_slot 16 0 (S c s)) as [i|] eqn:Ef.
  - apply free_slot_range in Ef. apply wp_bind, (wp_write_data' fs n Hg); [done|done| |].
    + apply bytes512_put; [by apply Hsane|done|lia].
    + apply wp_ret. split; [done|]. split; [done|]. split; [done|]. split; [done|]. split; [lia|done].
  - apply IH; [intros y Hy; apply Hss; by right|done].
Qed.

Lemma lba0 c : cluster_to_lba fs c = u32_add (cluster_to_lba fs c) 0.
Proof. unfold cluster_to_lba, u32_add, wrap. rewrite Z.add_0_r. by rewrite Z.mod_mod by lia. Qed.

(** What inserting an entry does: it fills the first free slot, or extends the
    directory by a cluster that holds it in its first slot. *)
Definition inserts (entry : list Z) (cs : list Z) (F : Z -> Z) (S : Z -> Z -> list Z) (r : result () Fat32Error) (F' : Z -> Z) (S' : Z -> Z -> list Z) : Prop :=
  match vacant (cells S (positions cs)) with
  | Some (c, s, i) => r = Ok tt /\ F' = F /\ c ∈ cs /\ 0 <= s < spc /\ (i < 16)%nat /\ S' = upd2 S c s (put (S c s) (i * 32) entry)
  | None =>
      match r with
      | Ok _ => exists lst nc, last cs = Some lst /\ 3 <= nc < total /\ F nc = FAT_FREE /\ same_fat fs (linked F (Some lst) nc) F' /\
          same_data fs (upd2 (zeroed S nc) nc 0 (put zero_sector 0 entry)) S'
      | Err e => e = Corrupt /\ forall x, 3 <= x < total -> F x <> FAT_FREE
      end
  end.

Lemma vacant_app l1 l2 : vacant (l1 ++ l2) = match vacant l1 with Some p => Some p | None => vacant l2 end.
Proof. induction l1 as [|[p [fr sl]] l1 IH]; [done|]. cbn [vacant app]. by destruct fr. Qed.

Lemma insert_chain_spec entry fuel : is_bytes entry -> length entry = 32%nat -> forall c cs F S, dchain F c cs -> (length cs <= fuel)%nat -> sane F S ->
  wp (insert_chain fs fuel c entry) (inserts entry cs F S) F S.
Proof.
  intros Hb He. induction fuel as [|fuel IH]; intros c cs F S Hch Hf Hsane.
  { apply dchain_in in Hch as (cs' & -> & _). cbn in Hf. lia. }
  pose proof (dchain_in _ _ _ Hch) as (cs' & -> & Hc). assert (Hd : data_cluster c) by (by inversion Hch). cbn [insert_chain length] in *. rewrite Hc.
  assert (Hv : valid c) by (unfold FatVol.valid, FatVol.data_cluster in *; lia).
  apply wp_bind. eapply wp_mono; [|apply insert_sectors_spec; [done|done|done|intros s Hs; by apply elem_of_urange in Hs|done]].
  unfold inserts. change (positions (c :: cs')) with (sectors_of c ++ positions cs'). rewrite cells_app, vacant_app. unfold sectors_of at 2.
  intros r F' S' (-> & Hr). destruct (vacant (cells S (pair c <$> urange 0 spc))) as [[[c1 s1] i1]|] eqn:Ev.
  { destruct Hr as (-> & -> & Hs & Hi & ->). apply wp_ret. unfold sectors_of. rewrite Ev. split; [done|]. split; [done|]. split; [by left|]. done. }
  destruct Hr as (-> & ->). apply wp_bind, (wp_read_fat fs n Hg); [done|]. unfold sectors_of. rewrite Ev. inversion Hch as [? _ _ Hlast|? ? _ _ Hcs]; subst.
  - rewrite (proj2 (Z.leb_le _ _)) by done. eapply wp_then; [apply (allocate_spec fs n Hg (Some c)); exact Hv| |by intros e F' S' (-> & _ & _ & ?)].
    intros nc F1 S1 (Hnc & Hfree & _ & HF1 & HS1). rewrite lba0. apply (wp_write_data' fs n Hg).
    + unfold FatVol.data_cluster. lia.
    + pose proof (g_spc _ _ Hg). lia.
    + apply bytes512_put; [apply bytes512_zero|done|lia].
    + exists c, nc. split; [done|]. split; [done|]. split; [done|]. split; [done|]. intros x y Hx Hy. unfold upd2. case_decide; [done|by apply HS1].
  - pose proof (dchain_in _ _ _ Hcs) as (cs2 & Ecs & Hin). apply in_chain_spec in Hin. rewrite (proj2 (Z.leb_gt _ _)) by lia.
    eapply wp_mono; [|apply (IH _ cs'); [done|lia|done]]. intros r F' S'. unfold inserts. destruct (vacant (cells S (positions cs'))) as [[[c2 s2] i2]|].
    + intros (-> & -> & Hc2 & Hs2 & Hi2 & ->). split; [done|]. split; [done|]. split; [by right|done].
    + by rewrite Ecs.
Qed.

End Dir.
End FatDir.
