(* ===== verification/FatFile.v ===== *)
(** * Files of a FAT32 volume

    Writing a file in the root directory and reading it back, on top of FatChain
    and FatDir; what else is on the volume stays as it was. *)

From stdpp Require Import prelude numbers list strings.
From S2P Require Import Prelude Io Errors Ata Bytes Fat32 FatVol FatChain FatDir.
Import Bytes Errors Ata Fat32 FatVol FatChain FatDir.

Module FatFile.

(** ** Directory entries as bytes *)

(** The name that a slot with these fields shows. *)
Definition display_name (base ext : list Z) : list Z :=
  let name_str := trim_end (str_or_empty base) in
  let ext_str := trim_end (str_or_empty ext) in
  if bool_decide (ext_str = []) then name_str else name_str ++ [DOT] ++ ext_str.

(** Names that survive the 8.3 form. *)
Definition name_ok (nm : list Z) : Prop :=
  is_bytes nm /\ to_ascii_uppercase (display_name (to_short_name nm).1 (to_short_name nm).2) = to_ascii_uppercase nm /\
  byte (to_short_name nm).1 0 <> 0 /\ byte (to_short_name nm).1 0 <> 0xE5.

Lemma split_byte_bytes c l : is_bytes l -> Forall is_bytes (split_byte c l).
Proof.
  unfold is_bytes. induction l as [|b l IH]; intros Hl; cbn [split_byte]; [constructor; [constructor|constructor]|].
  apply Forall_cons_1 in Hl as [Hb Hl]. specialize (IH Hl). destruct (b =? c); [constructor; [constructor|done]|].
  destruct (split_byte c l) as [|s ss]; [constructor; [constructor; [done|constructor]|constructor]|].
  apply Forall_cons_1 in IH as [Hs Hss]. constructor; [by constructor|done].
Qed.

Lemma upper_bytes l : is_bytes l -> is_bytes (to_ascii_uppercase l).
Proof.
  intros Hl. unfold to_ascii_uppercase, is_bytes in *. apply Forall_fmap. eapply Forall_impl; [exact Hl|]. intros b [H0 H1]. unfold upper_byte, compose.
  change (2 ^ 8) with 256 in *. destruct (Z.leb_spec 97 b), (Z.leb_spec b 122); cbn [andb]; split; lia.
Qed.

Lemma padded_ok k l : is_bytes l -> is_bytes (padded k l) /\ length (padded k l) = k.
Proof.
  intros Hl. unfold padded. split; [|rewrite length_app, length_replicate, length_take; lia]. apply Forall_app. split; [by apply Forall_take|by apply Forall_replicate].
Qed.

Lemma short_name_ok nm : is_bytes nm ->
  is_bytes (to_short_name nm).1 /\ length (to_short_name nm).1 = 8%nat /\ is_bytes (to_short_name nm).2 /\ length (to_short_name nm).2 = 3%nat.
Proof.
  intros Hn. pose proof (split_byte_bytes DOT _ (upper_bytes nm Hn)) as Hs. unfold to_short_name. cbn [fst snd].
  assert (Hnth : forall k, is_bytes (nth k (split_byte DOT (to_ascii_uppercase nm)) [])).
  { intros k. destruct (nth_lookup_or_length (split_byte DOT (to_ascii_uppercase nm)) k []) as [E|E]; [|by rewrite nth_overflow by done; constructor].
    by apply (Forall_lookup_1 _ _ _ _ Hs E). }
  destruct (padded_ok 8 _ (Hnth 0%nat)) as [H1 H2]. split; [done|]. split; [done|].
  destruct (split_byte DOT (to_ascii_uppercase nm)) as [|p0 [|p1 l]]; [split; [by apply Forall_replicate|done]..|]. by apply padded_ok, (Hnth 1%nat).
Qed.

(** The two halves of a cluster number. *)
Lemma join_halves c : 0 <= c < 2 ^ 32 ->
  Z.lor (wrap 32 (Z.shiftl (le_value (cluster_high c)) 16)) (le_value (cluster_low c)) = c.
Proof.
  intros Hc. unfold cluster_high, cluster_low, le16. change 0xFFFF with (Z.ones 16). rewrite !Z.land_ones, Z.shiftr_div_pow2 by lia.
  assert (H1 : 0 <= c / 2 ^ 16 < 2 ^ 16) by (split; [apply Z.div_pos; lia|apply Z.div_lt_upper_bound; lia]). pose proof (Z.mod_pos_bound c (2 ^ 16) ltac:(lia)) as H2.
  rewrite (Z.mod_small (c / 2 ^ 16)) by done. rewrite !le_value_to_le by (change (256 ^ Z.of_nat 2) with (2 ^ 16); done).
  rewrite Z.shiftl_mul_pow2, wrap_small by (try split; lia). rewrite Z.lor_comm, lor_low_high by (lia || done). pose proof (Z.div_mod c (2 ^ 16)). lia.
Qed.

Lemma read_slot_fields buf : length buf = 32%nat -> byte buf 0 <> 0 -> byte buf 0 <> 0xE5 ->
  byte buf 11 <> ATTR_LFN -> (Z.land (byte buf 11) ATTR_VOLUME_ID = 0 \/ Z.land (byte buf 11) ATTR_DIRECTORY <> 0) ->
  slot_free buf 0 = false /\ read_slot buf 0 = SlotEntry (mkDirEntry (display_name (get buf 0 8) (get buf 8 3)) (negb (Z.land (byte buf 11) ATTR_DIRECTORY =? 0))
    (Z.lor (wrap 32 (Z.shiftl (le buf 20 2) 16)) (le buf 26 2)) (le buf 28 4) (byte buf 11)).
Proof.
  intros Hl H0 H5 Hlfn Hvol. unfold slot_free, read_slot. change (0 * 32)%nat with 0%nat. rewrite (proj2 (Z.eqb_neq _ _) H0), (proj2 (Z.eqb_neq _ _) H5). split; [done|].
  rewrite !Nat.add_0_l. rewrite (proj2 (Z.eqb_neq _ _) Hlfn). destruct Hvol as [->|Hd]; [done|]. rewrite (proj2 (Z.eqb_neq _ _) Hd). by rewrite andb_false_r.
Qed.

Lemma cluster_high_ok c : is_bytes (cluster_high c) /\ length (cluster_high c) = 2%nat.
Proof. apply to_le_bytes. Qed.
Lemma cluster_low_ok c : is_bytes (cluster_low c) /\ length (cluster_low c) = 2%nat.
Proof. apply to_le_bytes. Qed.

(** The bytes of a slot whose cluster and size were set, fields first. *)
Definition set_fields (e : list Z) (first size : Z) : list Z :=
  put (put (put e 20 (cluster_high first)) 26 (cluster_low first)) 28 (le32 size).

Lemma set_fields_lens e first size : length e = 32%nat ->
  length (cluster_high first) = 2%nat /\ length (cluster_low first) = 2%nat /\ length (le32 size) = 4%nat /\
  length (put e 20 (cluster_high first)) = 32%nat /\ length (put (put e 20 (cluster_high first)) 26 (cluster_low first)) = 32%nat /\
  length (set_fields e first size) = 32%nat.
Proof.
  intros Hl. destruct (cluster_high_ok first) as [_ L1], (cluster_low_ok first) as [_ L2], (to_le_bytes 4 size) as [_ L3]. fold (le32 size) in L3.
  assert (A1 : length (put e 20 (cluster_high first)) = 32%nat) by (rewrite length_put; lia).
  assert (A2 : length (put (put e 20 (cluster_high first)) 26 (cluster_low first)) = 32%nat) by (rewrite length_put; lia).
  repeat (split; [done|]). unfold set_fields. rewrite length_put; lia.
Qed.

Lemma set_fields_bytes e first size : is_bytes e -> is_bytes (set_fields e first size).
Proof.
  intros Hb. unfold set_fields. apply Forall_put; [apply Forall_put; [apply Forall_put; [done|]|]|]; [apply cluster_high_ok|apply cluster_low_ok|apply to_le_bytes].
Qed.

Lemma set_fields_get e first size off k : length e = 32%nat -> (off + k <= 20)%nat -> get (set_fields e first size) off k = get e off k.
Proof.
  intros Hl Hk. destruct (set_fields_lens e first size Hl) as (L1 & L2 & L3 & A1 & A2 & _). unfold set_fields. by rewrite !get_put_other by lia.
Qed.

Lemma set_fields_le e first size : length e = 32%nat -> 0 <= first < 2 ^ 32 -> 0 <= size < 2 ^ 32 ->
  Z.lor (wrap 32 (Z.shiftl (le (set_fields e first size) 20 2) 16)) (le (set_fields e first size) 26 2) = first /\ le (set_fields e first size) 28 4 = size.
Proof.
  intros Hl Hf Hs. destruct (set_fields_lens e first size Hl) as (L1 & L2 & L3 & A1 & A2 & _). unfold le.
  assert (E1 : get (set_fields e first size) 20 2 = cluster_high first) by (unfold set_fields; rewrite !get_put_other by lia; apply get_put_same; lia).
  assert (E2 : get (set_fields e first size) 26 2 = cluster_low first) by (unfold set_fields; rewrite get_put_other by lia; apply get_put_same; lia).
  assert (E3 : get (set_fields e first size) 28 4 = le32 size) by (unfold set_fields; apply get_put_same; lia).
  rewrite E1, E2, E3. split; [by apply join_halves|]. unfold le32. apply le_value_to_le. exact Hs.
Qed.

(** A slot with new cluster and size shows the same name and attributes. *)
Lemma set_fields_slot e first size en : length e = 32%nat -> 0 <= first < 2 ^ 32 -> 0 <= size < 2 ^ 32 -> read_slot e 0 = SlotEntry en ->
  slot_free (set_fields e first size) 0 = false /\
  read_slot (set_fields e first size) 0 = SlotEntry (mkDirEntry (name en) (is_directory en) first size (attributes en)).
Proof.
  intros Hl Hf Hs Hr. destruct (set_fields_lens e first size Hl) as (_ & _ & _ & _ & _ & Ll).
  destruct (set_fields_le e first size Hl Hf Hs) as [Ec Es].
  assert (Eb : forall k, (k < 20)%nat -> byte (set_fields e first size) k = byte e k).
  { intros k Hk. pose proof (byte_get e 0 k 20 ltac:(lia) Hk) as E1. pose proof (byte_get (set_fields e first size) 0 k 20 ltac:(lia) Hk) as E2.
    rewrite set_fields_get, E1 in E2 by lia. done. }
  unfold read_slot, slot_free, full_name in *. change (0 * 32)%nat with 0%nat in *. rewrite !Nat.add_0_l in *. rewrite !Eb by lia. rewrite Ec, Es, !set_fields_get by lia.
  destruct (byte e 0 =? 0); [done|]. destruct (byte e 0 =? 0xE5); [done|]. destruct (_ || _)%bool; [done|]. injection Hr as <-. done.
Qed.

(** The entry of a new file. *)
Lemma entry_bytes_fields nm ext attr first size : entry_bytes nm ext attr first size = set_fields (put (put (put (replicate 32 0) 0 nm) 8 ext) 11 [attr]) first size.
Proof. done. Qed.

Lemma new_entry nm first size : name_ok nm -> 0 <= first < 2 ^ 32 -> 0 <= size < 2 ^ 32 ->
  let entry := entry_bytes (to_short_name nm).1 (to_short_name nm).2 ATTR_ARCHIVE first size in
  length entry = 32%nat /\ is_bytes entry /\ slot_free entry 0 = false /\
  exists en, read_slot entry 0 = SlotEntry en /\ to_ascii_uppercase (name en) = to_ascii_uppercase nm /\ is_directory en = false /\
    first_cluster en = first /\ file_size en = size.
Proof.
  intros (Hb & Hup & H0 & H5) Hf Hs. destruct (short_name_ok nm Hb) as (B1 & L1 & B2 & L2). cbv zeta. rewrite entry_bytes_fields.
  set (a := (to_short_name nm).1) in *. set (b := (to_short_name nm).2) in *.
  assert (R : length (replicate 32 0) = 32%nat) by done. set (z := replicate 32 0) in *.
  assert (A1 : length (put z 0 a) = 32%nat) by (rewrite length_put; lia). assert (A2 : length (put (put z 0 a) 8 b) = 32%nat) by (rewrite length_put; lia).
  set (e := put (put (put z 0 a) 8 b) 11 [ATTR_ARCHIVE]).
  assert (A3 : length e = 32%nat) by (unfold e; rewrite length_put; cbn [length]; lia).
  assert (Be : is_bytes e).
  { unfold e. apply Forall_put; [apply Forall_put; [apply Forall_put; [by apply Forall_replicate|done]|done]|]. constructor; [by vm_compute|constructor]. }
  assert (G0 : get e 0 8 = a) by (unfold e; rewrite !get_put_other by (cbn [length]; lia); apply get_put_same; lia).
  assert (G8 : get e 8 3 = b) by (unfold e; rewrite get_put_other by (cbn [length]; lia); apply get_put_same; lia).
  assert (G11 : byte e 11 = ATTR_ARCHIVE) by (unfold e, byte; rewrite nth_put by (cbn [length]; lia); by rewrite decide_True by (cbn [length]; lia)).
  assert (Gb : byte e 0 = byte a 0) by (rewrite <- G0, byte_get by lia; done).
  destruct (read_slot_fields e A3) as [F0 Fr]; [by rewrite Gb|by rewrite Gb|by rewrite G11|left; by rewrite G11|].
  destruct (set_fields_slot e first size _ A3 Hf Hs Fr) as [F1 Fr1]. destruct (set_fields_lens e first size A3) as (_ & _ & _ & _ & _ & Ll).
  split; [done|]. split; [by apply set_fields_bytes|]. split; [done|]. eexists. split; [exact Fr1|]. cbn [name is_directory first_cluster file_size]. rewrite G0, G8, G11.
  split; [exact Hup|]. by split.
Qed.

(** Setting the fields of slot [i] of a sector, as [write_file] does. *)
Lemma put_window buf off k bs : (off + 32 <= length buf)%nat -> (k + length bs <= 32)%nat ->
  put buf (off + k) bs = put buf off (put (get buf off 32) k bs).
Proof.
  intros Hl Hk. assert (Hg : length (get buf off 32) = 32%nat) by (unfold get; rewrite length_take, length_drop; lia).
  assert (Hp : length (put (get buf off 32) k bs) = 32%nat) by (rewrite length_put; lia).
  apply (nth_ext _ _ 0 0); [rewrite !length_put; lia|]. intros i Hi. rewrite !nth_put by lia. rewrite Hp.
  destruct (decide (off <= i < off + 32)%nat) as [Ho|Ho].
  - fold (byte (get buf off 32) (i - off)). destruct (decide (k <= i - off < k + length bs)%nat) as [Hin|Hin].
    + rewrite decide_True by lia. f_equal. lia.
    + rewrite decide_False by lia. rewrite byte_get by lia. unfold byte. f_equal. lia.
  - by rewrite decide_False by lia.
Qed.

Lemma put_put buf off a b : (off + length a <= length buf)%nat -> length b = length a -> put (put buf off a) off b = put buf off b.
Proof.
  intros Hl Hab. assert (Hp : length (put buf off a) = length buf) by (rewrite length_put; lia). apply (nth_ext _ _ 0 0); [rewrite !length_put; lia|].
  intros i Hi. rewrite !nth_put by lia. destruct (decide (off <= i < off + length b)%nat); [done|]. by rewrite decide_False by lia.
Qed.

Lemma put_fields buf i first size : length buf = 512%nat -> (i < 16)%nat ->
  put (put (put buf (i * 32 + 20) (cluster_high first)) (i * 32 + 26) (cluster_low first)) (i * 32 + 28) (le32 size) =
  put buf (i * 32) (set_fields (get buf (i * 32) 32) first size).
Proof.
  intros Hl Hi. set (off := (i * 32)%nat). assert (Ho : (off + 32 <= 512)%nat) by lia. set (w := get buf off 32).
  assert (Hw : length w = 32%nat) by (unfold w, get; rewrite length_take, length_drop; lia).
  destruct (set_fields_lens w first size Hw) as (L1 & L2 & L3 & A1 & A2 & A3).
  rewrite (put_window buf off 20) by lia. fold w. set (w1 := put w 20 (cluster_high first)) in *.
  assert (B1 : length (put buf off w1) = 512%nat) by (rewrite length_put; lia).
  rewrite (put_window (put buf off w1) off 26) by lia. rewrite (get_put_same buf off w1 32), put_put by lia. set (w2 := put w1 26 (cluster_low first)) in *.
  assert (B2 : length (put buf off w2) = 512%nat) by (rewrite length_put; lia).
  change (length (put w2 28 (le32 size)) = 32%nat) in A3. rewrite (put_window (put buf off w2) off 28) by lia. rewrite (get_put_same buf off w2 32), put_put by lia. done.
Qed.

End FatFile.
