(* ===== verification/FatWrite.v ===== *)
(** * Writing and reading files

    [write_file] and [read_file] on files of the root directory, from the table
    and the slots of the volume. *)

From stdpp Require Import prelude numbers list strings.
From S2P Require Import Prelude Io Errors Ata Bytes Fat32 FatVol FatChain FatDir FatFile.
Import Bytes Errors Ata Fat32 FatVol FatChain FatDir FatFile.

Module FatWrite.

(** ** Paths of one component *)
Definition root_path (path nm : list Z) : Prop := trim_matches SLASH path = nm /\ nm <> [] /\ SLASH ∉ nm.

Lemma root_path_split path nm : root_path path nm -> split_path path = ([], nm).
Proof. intros (Ht & _ & Hs). unfold split_path. by rewrite Ht, rfind_none. Qed.

Lemma root_path_segments path nm : root_path path nm -> segments (trim_matches SLASH path) = [nm].
Proof. intros (Ht & Hn & Hs). unfold segments. by rewrite Ht, split_byte_none, filter_cons_True. Qed.

Section Write.
Context {D : Type} `{Disk D}.
Variables (fs : Fat32Fs) (n : Z).
Hypothesis Hg : geom fs n.
Local Notation spc := (sectors_per_cluster (bpb fs)).
Local Notation total := (total_clusters fs).
Local Notation root := (root_cluster (bpb fs)).
Local Notation wp := (wp fs n).
Local Notation data_cluster := (data_cluster fs).
Local Notation valid := (valid fs).
Local Notation chain := (chain fs).
Local Notation dchain := (dchain fs).
Local Notation sane := (sane fs).
Local Notation cells_of S cs := (cells S (positions fs cs)).

Lemma chain_length F c cs : chain F c cs -> (length cs <= Z.to_nat total)%nat.
Proof.
  intros Hc. transitivity (length (urange 2 total)); [|rewrite length_urange; lia]. apply submseteq_length, NoDup_submseteq; [by eapply chain_NoDup|].
  intros x Hx. apply elem_of_urange. by eapply chain_data.
Qed.

(** The chain of a file: none, or one that ends with a mark. *)
Definition fchain (F : Z -> Z) (c : Z) (cs : list Z) : Prop := (in_chain c = false /\ cs = []) \/ dchain F c cs.

Lemma fchain_chain F c cs : fchain F c cs -> chain F c cs.
Proof. intros [[Hc ->]|Hd]; [by constructor|by apply dchain_chain]. Qed.

Lemma fchain_nonfree F c cs x : fchain F c cs -> x ∈ cs -> F x <> FAT_FREE.
Proof. intros [[_ ->]|Hd] Hx; [by apply not_elem_of_nil in Hx|by eapply dchain_nonfree]. Qed.

Lemma fchain_ext F F' c cs : fchain F c cs -> (forall x, x ∈ cs -> F' x = F x) -> fchain F' c cs.
Proof. intros [?|Hd] HF; [by left|right; by eapply dchain_ext]. Qed.

(** The file [nm] of the directory with clusters [ds] is [en] with chain [cs]. *)
Record file_in (F : Z -> Z) (S : Z -> Z -> list Z) (ds : list Z) (nm : list Z) (en : FatDirEntry) (cs : list Z) : Prop := {
  f_seek : exists p, seek (cells_of S ds) (to_ascii_uppercase nm) = Some (en, p);
  f_file : is_directory en = false;
  f_chain : fchain F (first_cluster en) cs;
  f_sep : forall x, x ∈ cs -> x ∉ ds
}.
Definition content (S : Z -> Z -> list Z) (en : FatDirEntry) (cs : list Z) : list Z := take (Z.to_nat (file_size en)) (chain_bytes fs S cs).

(** ** Reading *)
Lemma find_spec F S ds nm fuel : dchain F root ds -> (Z.to_nat total <= fuel)%nat ->
  wp (find_entry_in_dir fs fuel root nm) (fun r F' S' => F' = F /\ S' = S /\ exists a, r = Ok a /\ answers fs S (cells_of S ds) (to_ascii_uppercase nm) a) F S.
Proof.
  intros Hd Hf. apply (find_chain_spec fs n Hg); [by apply dchain_chain|]. etransitivity; [|exact Hf]. by eapply chain_length, dchain_chain.
Qed.

Lemma read_file_spec F S ds path nm en cs fuel : root_path path nm -> dchain F root ds -> file_in F S ds nm en cs -> (Z.to_nat total <= fuel)%nat ->
  wp (read_file fs fuel path) (fun r F' S' => F' = F /\ S' = S /\ r = Ok (content S en cs)) F S.
Proof.
  intros Hp Hd [[p Hseek] Hfile Hch _] Hf. unfold read_file, resolve_path. apply wp_sane with (1 := Hg). intros Hsane.
  rewrite (root_path_segments path nm Hp). pose proof Hp as (-> & Hne & _). rewrite bool_decide_false by done. cbn [resolve_segments]. apply wp_bind, wp_bind.
  eapply wp_mono; [|by apply find_spec]. intros r F' S' (-> & -> & a & -> & Ha). destruct a as [[[e lba] i]|]; cbn [answers] in Ha; [|congruence].
  destruct Ha as (c & s & Ha & _). assert (e = en) as -> by congruence. rewrite bool_decide_true by done. apply wp_ret. cbn [fst]. rewrite Hfile.
  eapply wp_mono; [|apply (read_chain_spec fs n Hg _ _ cs); [by apply fchain_chain|etransitivity; [|exact Hf]; by eapply chain_length, fchain_chain|done]].
  intros r F' S' (-> & -> & ->). done.
Qed.

(** ** The clusters of new data *)
Lemma chain_dchain F c cs : chain F c cs -> cs <> [] -> (forall x, x ∈ cs -> 2 <= F x) -> dchain F c cs.
Proof.
  induction 1 as [c Hc|c cs Hc Hd Hcs IH]; intros Hne HF; [done|]. destruct cs as [|c2 cs].
  - apply dc_last; [done|done|]. inversion Hcs as [? Hn|]; subst. unfold in_chain in Hn. specialize (HF c ltac:(by left)). rewrite (proj2 (Z.leb_le _ _)) in Hn by done. cbn in Hn. by apply Z.ltb_ge in Hn.
  - apply dc_cons; [done|done|]. apply IH; [done|]. intros x Hx. apply HF. by right.
Qed.

Lemma links_value cs : forall F prev, fresh fs F prev cs -> (forall p, prev = Some p -> F p <> FAT_FREE) -> forall x, x ∈ cs -> 3 <= links F prev cs x.
Proof.
  induction cs as [|c cs IH]; intros F prev Hfr Hp x Hx; [by apply not_elem_of_nil in Hx|]. pose proof Hfr as (Hc & H0 & Hfr'). cbn [links].
  assert (Hlc : linked F prev c c = FAT_EOC).
  { unfold linked, upd. destruct prev as [p|]; [rewrite (decide_False (P := c = p)) by (intros ->; by apply (Hp p))|]; by rewrite decide_True. }
  assert (Hp' : forall p, Some c = Some p -> linked F prev c p <> FAT_FREE) by (intros p [= <-]; by rewrite Hlc).
  apply elem_of_cons in Hx as [->|Hx]; [|by apply IH]. destruct (links_spec fs n Hg cs _ _ Hfr' Hp') as (_ & _ & _ & _ & Hpr). rewrite (Hpr c eq_refl).
  destruct cs as [|c2 cs]; [rewrite Hlc; unfold FAT_EOC; lia|]. destruct Hfr' as (Hc2 & _). lia.
Qed.

(** What allocating and filling the chain of new data leaves. *)
Record new_chain (F : Z -> Z) (S : Z -> Z -> list Z) (data : list Z) (first : Z) (F' : Z -> Z) (S' : Z -> Z -> list Z) (cs : list Z) : Prop := {
  n_chain : dchain F' first cs;
  n_free : forall x, x ∈ cs -> F x = FAT_FREE;
  n_length : length cs = clusters_needed fs data;
  n_data : exists tail, chain_bytes fs S' cs = data ++ tail;
  n_fat : forall x, valid x -> x ∉ cs -> F' x = F x;
  n_sectors : forall x y, data_cluster x -> 0 <= y < spc -> x ∉ cs -> S' x y = S x y
}.

Lemma zero_all_other cs S x y : x ∉ cs -> zero_all S cs x y = S x y.
Proof.
  revert S. induction cs as [|c cs IH]; intros S Hx; [done|]. cbn [zero_all]. rewrite IH by (intros ?; apply Hx; by right). unfold zeroed. rewrite decide_False; [done|].
  intros ->. apply Hx. by left.
Qed.

Lemma clusters_enough data : (1 <= clusters_needed fs data)%nat /\ (length data <= clusters_needed fs data * (512 * Z.to_nat spc))%nat.
Proof.
  unfold clusters_needed. pose proof (g_spc _ _ Hg). set (k := (Z.to_nat spc * 512)%nat). assert (Hk : (0 < k)%nat) by lia.
  split; [lia|]. replace (512 * Z.to_nat spc)%nat with k by lia. pose proof (Nat.div_mod_eq (length data + k - 1) k). pose proof (Nat.mod_upper_bound (length data + k - 1) k). nia.
Qed.

Lemma store_spec F S data fuel : is_bytes data -> (Z.to_nat total <= fuel)%nat ->
  wp (first ← allocate_chain fs (clusters_needed fs data) 0 None; write_chain fs fuel first 0 data;; mret first)
    (fun r F' S' => match r with Ok first => exists cs, new_chain F S data first F' S' cs | Err e => e = Corrupt /\ scarce fs F (clusters_needed fs data) end) F S.
Proof.
  intros Hb Hf. destruct (clusters_enough data) as [Hk1 Hk2].
  eapply wp_then; [by apply (allocate_chain_spec fs n Hg)| |done].
  intros first F1 S1 (cs & Hl & -> & Hfr & HF & HS). apply wp_sane with (1 := Hg). intros Hsane.
  destruct (links_spec fs n Hg cs F None Hfr ltac:(done)) as (Hnd & Hin & Hch & Hout & _). pose proof (links_value cs F None Hfr ltac:(done)) as Hval.
  destruct cs as [|c cs]; [cbn in Hl; lia|]. cbn [hd] in Hch |- *. change (0 =? 0) with true. cbv iota.
  assert (HF1 : forall x, x ∈ c :: cs -> F1 x = links F None (c :: cs) x) by (intros x Hx; apply HF; unfold FatVol.valid; apply Hin in Hx; lia).
  assert (Hd1 : dchain F1 c (c :: cs)).
  { apply chain_dchain; [by eapply chain_ext|done|]. intros x Hx. rewrite HF1 by done. specialize (Hval x Hx). lia. }
  pose proof (dchain_chain _ _ _ _ Hd1) as Hch1.
  eapply wp_then; [apply (write_chain_spec fs n Hg data Hb fuel c (c :: cs) 0 F1 S1)| |by intros e F' S' (? & _)]; try done; try lia.
  { etransitivity; [|exact Hf]. by eapply chain_length. }
  intros _ F2 S2 (_ & -> & Hout2 & tail & Ht). apply wp_ret. exists (c :: cs). split; [done| | |by exists tail| |].
  - intros x Hx. by apply Hin.
  - done.
  - intros x Hv Hx. rewrite HF by done. by apply Hout.
  - intros x y Hx Hy Hxc. rewrite Hout2, HS by done. by apply zero_all_other.
Qed.

Lemma wp_store {A B C} (a : io D A) (w : A -> io D B) (k : A -> io D C) R Q F S :
  wp (x ← a; w x;; mret x) R F S -> (forall x F' S', R (Ok x) F' S' -> wp (k x) Q F' S') -> (forall e F' S', R (Err e) F' S' -> Q (Err e) F' S') ->
  wp (x ← a; w x;; k x) Q F S.
Proof.
  intros Hm Hk He d Hd. destruct (Hm d Hd) as (r & d' & F' & S' & E & Hd' & HR). unfold mbind, io_bind in *. destruct (a d) as [[[x|e] d1]| |]; [|simplify_eq|done|done].
  - destruct (w x d1) as [[[y|e] d2]| |]; [|simplify_eq|done|done].
    + unfold mret, io_ret in E. simplify_eq. by eapply Hk.
    + exists (Err e), d', F', S'. split; [done|]. split; [done|by apply He].
  - exists (Err e), d', F', S'. split; [done|]. split; [done|by apply He].
Qed.

(** ** The directory after a write *)

(** What writing [data] to [nm] promises: the directory is one again, the file is
    there with its bytes, and the files of other names whose clusters are not
    those of the old file are what they were. *)
Record written (F : Z -> Z) (S : Z -> Z -> list Z) (ds : list Z) (nm data old : list Z) (F' : Z -> Z) (S' : Z -> Z -> list Z) (ds' : list Z) : Prop := {
  w_dir : dchain F' root ds';
  w_file : exists en cs, file_in F' S' ds' nm en cs /\ content S' en cs = data;
  w_others : forall nm2 en2 cs2, to_ascii_uppercase nm2 <> to_ascii_uppercase nm -> file_in F S ds nm2 en2 cs2 -> (forall x, x ∈ cs2 -> x ∉ old) ->
    file_in F' S' ds' nm2 en2 cs2 /\ content S' en2 cs2 = content S en2 cs2
}.

Lemma cells_same S S' ds : (forall x y, x ∈ ds -> 0 <= y < spc -> S' x y = S x y) -> cells_of S' ds = cells_of S ds.
Proof.
  intros HS. unfold cells. apply Forall_bind_ext, Forall_forall. intros [c s] Hq. apply elem_of_positions in Hq as [Hc Hs].
  unfold sector_cells. cbn [fst snd]. by rewrite HS.
Qed.

Lemma content_same S S' en cs : (forall x y, x ∈ cs -> 0 <= y < spc -> S' x y = S x y) -> content S' en cs = content S en cs.
Proof.
  intros HS. unfold content, chain_bytes. do 2 f_equal. apply list_fmap_ext. intros i c Hc. apply list_elem_of_lookup_2 in Hc. unfold cluster_bytes. f_equal.
  apply list_fmap_ext. intros j s Hs. apply list_elem_of_lookup_2, elem_of_urange in Hs. by apply HS.
Qed.

Lemma file_kept F S ds nm en cs F' S' ds' : file_in F S ds nm en cs -> (forall x, x ∈ cs -> F' x = F x) ->
  (forall x y, x ∈ cs -> 0 <= y < spc -> S' x y = S x y) -> (forall x, x ∈ cs -> x ∉ ds') ->
  (forall r, seek (cells_of S ds) (to_ascii_uppercase nm) = Some r -> seek (cells_of S' ds') (to_ascii_uppercase nm) = Some r) ->
  file_in F' S' ds' nm en cs /\ content S' en cs = content S en cs.
Proof.
  intros [[p Hs] Hf Hc Hd] HF HS Hd' Hseek. split; [|by apply content_same]. split; [exists p; by apply Hseek|done|by eapply fchain_ext|done].
Qed.

(** *** A new file *)
Section Insert.
Variables (F : Z -> Z) (S : Z -> Z -> list Z) (ds cs nm data : list Z) (first : Z) (F1 : Z -> Z) (S1 : Z -> Z -> list Z).
Hypothesis Hdir : dchain F root ds.
Hypothesis Hnew : new_chain F S data first F1 S1 cs.
Hypothesis Hlen : Z.of_nat (length data) < 2 ^ 32.
Hypothesis Hsane : sane F1 S1.

Lemma cs_not_ds x : x ∈ cs -> x ∉ ds.
Proof. intros Hx Hd. by apply (dchain_nonfree _ _ _ _ _ Hdir Hd), (n_free _ _ _ _ _ _ _ Hnew). Qed.

Lemma cs_not_chain c l x : fchain F c l -> x ∈ l -> x ∉ cs.
Proof. intros Hl Hx Hc. by apply (fchain_nonfree _ _ _ _ Hl Hx), (n_free _ _ _ _ _ _ _ Hnew). Qed.

Lemma data_valid x : data_cluster x -> valid x.
Proof. unfold FatVol.data_cluster, FatVol.valid. lia. Qed.

Lemma fat_kept c l x : fchain F c l -> x ∈ l -> F1 x = F x.
Proof.
  intros Hl Hx. apply (n_fat _ _ _ _ _ _ _ Hnew); [|by eapply cs_not_chain]. apply data_valid. by eapply chain_data; [apply fchain_chain|].
Qed.

Lemma sectors_kept c l x y : fchain F c l -> x ∈ l -> 0 <= y < spc -> S1 x y = S x y.
Proof.
  intros Hl Hx Hy. apply (n_sectors _ _ _ _ _ _ _ Hnew); [|done|by eapply cs_not_chain]. by eapply chain_data; [apply fchain_chain|].
Qed.

Lemma dir_kept : dchain F1 root ds.
Proof. eapply dchain_ext; [exact Hdir|]. intros x Hx. eapply fat_kept; [by right|done]. Qed.

Lemma dir_cells : cells_of S1 ds = cells_of S ds.
Proof. apply cells_same. intros x y Hx Hy. eapply sectors_kept; [right; exact Hdir|done|done]. Qed.

Lemma new_scarce : (forall x, 3 <= x < total -> F1 x <> FAT_FREE) -> scarce fs F (1 + clusters_needed fs data).
Proof.
  intros Hn l Hnd Hl. rewrite <- (n_length _ _ _ _ _ _ _ Hnew). apply (Nat.lt_succ_r (length l)), submseteq_length, NoDup_submseteq; [done|].
  intros x Hx. destruct (Hl x Hx) as [Hr Hf]. destruct (decide (x ∈ cs)) as [|Hc]; [done|]. exfalso. apply (Hn x Hr).
  rewrite (n_fat _ _ _ _ _ _ _ Hnew); [done|unfold FatVol.valid; lia|done].
Qed.

Lemma first_range : 0 <= first < 2 ^ 32.
Proof.
  pose proof (n_chain _ _ _ _ _ _ _ Hnew) as Hc. apply dchain_in in Hc as (l & _ & Hc). apply in_chain_spec in Hc. lia.
Qed.

Lemma size_range : 0 <= wrap 32 (Z.of_nat (length data)) < 2 ^ 32 /\ Z.to_nat (wrap 32 (Z.of_nat (length data))) = length data.
Proof. rewrite wrap_small by (split; lia). lia. Qed.

(** The data of the new chain, as long as nobody writes to it. *)
Lemma new_content en S' : file_size en = wrap 32 (Z.of_nat (length data)) -> (forall x y, x ∈ cs -> 0 <= y < spc -> S' x y = S1 x y) -> content S' en cs = data.
Proof.
  intros Hs HS. rewrite (content_same S1) by done. unfold content. rewrite Hs, (proj2 size_range). destruct (n_data _ _ _ _ _ _ _ Hnew) as [tail ->]. apply take_app_length.
Qed.

Section Entry.
Variables (entry : list Z) (en : FatDirEntry).
Hypothesis El : length entry = 32%nat.
Hypothesis Efree : slot_free entry 0 = false.
Hypothesis Eslot : read_slot entry 0 = SlotEntry en.
Hypothesis Ename : to_ascii_uppercase (name en) = to_ascii_uppercase nm.
Hypothesis Edir : is_directory en = false.
Hypothesis Efirst : first_cluster en = first.
Hypothesis Esize : file_size en = wrap 32 (Z.of_nat (length data)).
Hypothesis Hnone : seek (cells_of S ds) (to_ascii_uppercase nm) = None.

Lemma insert_slot c s i : vacant (cells_of S ds) = Some (c, s, i) -> c ∈ ds -> (i < 16)%nat ->
  written F S ds nm data [] F1 (upd2 S1 c s (put (S1 c s) (i * 32) entry)) ds.
Proof.
  intros Ev Hc Hi. pose proof dir_cells as Hcells. set (S2 := upd2 S1 c s (put (S1 c s) (i * 32) entry)).
  assert (E2 : cells_of S2 ds = replace_at (c, s, i) (false, SlotEntry en) (cells_of S ds)).
  { rewrite <- Efree, <- Eslot, <- Hcells. apply cells_insert; [|done|done]. intros c' s' Hq. apply elem_of_positions in Hq as [Hc' Hs'].
    apply Hsane; [|done]. by eapply chain_data; [apply dchain_chain, Hdir|]. }
  assert (Hkeep : forall x y, x ∉ ds -> S2 x y = S1 x y).
  { intros x y Hx. unfold S2, upd2. rewrite decide_False; [done|]. by intros [-> _]. }
  split; [apply dir_kept| |].
  - exists en, cs. split; [split|].
    + exists (c, s, i). rewrite E2. apply seek_insert; [apply marked_cells|done|done|done].
    + done.
    + right. rewrite Efirst. apply Hnew.
    + apply cs_not_ds.
    + apply new_content; [done|]. intros x y Hx _. apply Hkeep, cs_not_ds, Hx.
  - intros nm2 en2 cs2 Hne Hf2 _. apply (file_kept F S ds); [done| | |apply Hf2|].
    + intros x Hx. eapply fat_kept; [apply Hf2|done].
    + intros x y Hx Hy. rewrite Hkeep by (by apply (f_sep _ _ _ _ _ _ Hf2)). eapply sectors_kept; [apply Hf2|done|done].
    + intros r Hr. rewrite E2. apply seek_insert_other; [|congruence|done]. intros y Hy. apply elem_of_cells in Hy as (_ & _ & ->). apply free_slot_kind.
      apply vacant_elem in Ev as [sl Hv]. apply elem_of_cells in Hv as (_ & _ & Hv). congruence.
Qed.

(** The first slot of a cluster that starts with the entry. *)
Lemma seek_new_cluster S2 nc l : S2 nc 0 = put zero_sector 0 entry -> seek (cells S2 (sectors_of fs nc) ++ l) (to_ascii_uppercase nm) = Some (en, (nc, 0, 0%nat)).
Proof.
  intros HS2. unfold sectors_of. pose proof (g_spc _ _ Hg). assert (Hu : exists us, urange 0 spc = 0 :: us).
  { unfold urange. destruct (Z.to_nat (spc - 0)) as [|k] eqn:Ek; [lia|]. eexists. reflexivity. }
  destruct Hu as [us ->]. cbn [fmap list_fmap]. rewrite cells_cons, <- app_assoc. unfold sector_cells. cbn [fst snd]. rewrite HS2, find_slots_seek.
  pose proof (cells_put nc 0 zero_sector 0 entry 0 eq_refl ltac:(lia) ltac:(lia) El) as Ec. rewrite decide_True in Ec by done. unfold cell_of in Ec. injection Ec as _ Er.
  rewrite Eslot in Er. by rewrite (find_slots_first 15 0 _ _ en).
Qed.

Lemma insert_grow lst nc F2 S2 : vacant (cells_of S ds) = None -> last ds = Some lst -> 3 <= nc < total -> F1 nc = FAT_FREE ->
  same_fat fs (linked F1 (Some lst) nc) F2 -> same_data fs (upd2 (zeroed S1 nc) nc 0 (put zero_sector 0 entry)) S2 ->
  written F S ds nm data [] F2 S2 (ds ++ [nc]).
Proof.
  intros Ev Hlast Hnc Hfree HF2 HS2. pose proof dir_cells as Hcells. pose proof (g_spc _ _ Hg) as Hspc.
  assert (Nds : nc ∉ ds) by (intros Hx; by apply (dchain_nonfree _ _ _ _ _ dir_kept Hx)).
  assert (Ncs : nc ∉ cs) by (intros Hx; by apply (dchain_nonfree _ _ _ _ _ (n_chain _ _ _ _ _ _ _ Hnew) Hx)).
  assert (Dnc : data_cluster nc) by (unfold FatVol.data_cluster; lia).
  assert (Hl : lst ∈ ds) by (by apply last_Some_elem_of).
  assert (KF : forall x, data_cluster x -> x <> nc -> x <> lst -> F2 x = F1 x).
  { intros x Hx H1 H2. rewrite HF2 by (by apply data_valid). apply linked_ne; congruence. }
  assert (KS : forall x y, data_cluster x -> 0 <= y < spc -> x <> nc -> S2 x y = S1 x y).
  { intros x y Hx Hy H1. rewrite HS2 by done. unfold upd2, zeroed. rewrite !decide_False by tauto. done. }
  assert (Dds : forall x, x ∈ ds -> data_cluster x) by (intros x Hx; by eapply chain_data; [apply dchain_chain, Hdir|]).
  assert (E1 : cells_of S2 ds = cells_of S ds).
  { rewrite <- Hcells. apply cells_same. intros x y Hx Hy. apply KS; [by apply Dds|done|]. by intros ->. }
  assert (E2 : cells_of S2 (ds ++ [nc]) = cells_of S ds ++ cells S2 (sectors_of fs nc)).
  { unfold positions. rewrite bind_app, cells_app. f_equal; [exact E1|]. cbn [mbind list_bind]. by rewrite app_nil_r. }
  split.
  - eapply dchain_extend; [apply dir_kept|done|done| | | |by eapply chain_NoDup, dchain_chain, Hdir].
    + apply in_chain_spec. pose proof (geom_bounds fs n Hg). lia.
    + intros x Hx. rewrite HF2 by (by apply data_valid, Dds). rewrite Hlast. unfold linked, upd. destruct (decide (x = lst)) as [->|]; [by rewrite decide_True|].
      rewrite !decide_False; [done|congruence|]. by intros ->.
    + rewrite HF2 by (by apply data_valid). unfold linked, upd. rewrite decide_False, decide_True; [done|done|]. by intros ->.
  - exists en, cs. split; [split|].
    + exists (nc, 0, 0%nat). rewrite E2, seek_full by (done || apply marked_cells). rewrite <- (app_nil_r (cells S2 _)). apply seek_new_cluster.
      rewrite HS2 by (done || lia). unfold upd2. by rewrite decide_True.
    + done.
    + right. rewrite Efirst. eapply dchain_ext; [apply Hnew|]. intros x Hx. apply KF; [by eapply chain_data; [apply dchain_chain, Hnew|]|by intros ->|].
      intros ->. by apply (cs_not_ds lst).
    + intros x Hx. rewrite elem_of_app, list_elem_of_singleton. intros [Hd| ->]; [by apply (cs_not_ds x)|done].
    + apply new_content; [done|]. intros x y Hx Hy. apply KS; [by eapply chain_data; [apply dchain_chain, Hnew|]|done|by intros ->].
  - intros nm2 en2 cs2 Hne Hf2 _. assert (D2 : forall x, x ∈ cs2 -> data_cluster x) by (intros x Hx; by eapply chain_data; [apply fchain_chain, Hf2|]).
    assert (N2 : forall x, x ∈ cs2 -> x <> nc).
    { intros x Hx ->. apply (fchain_nonfree _ _ _ _ (f_chain _ _ _ _ _ _ Hf2) Hx). by rewrite <- (fat_kept _ _ _ (f_chain _ _ _ _ _ _ Hf2) Hx). }
    apply (file_kept F S ds); [done| | | |].
    + intros x Hx. rewrite KF; [eapply fat_kept; [apply Hf2|done]|by apply D2|by apply N2|]. intros ->. by apply (f_sep _ _ _ _ _ _ Hf2 lst).
    + intros x y Hx Hy. rewrite KS by (by auto). eapply sectors_kept; [apply Hf2|done|done].
    + intros x Hx. rewrite elem_of_app, list_elem_of_singleton. intros [Hd| ->]; [by apply (f_sep _ _ _ _ _ _ Hf2 x)|by apply (N2 nc)].
    + intros r Hr. rewrite E2. by apply seek_app_Some.
Qed.

End Entry.

Lemma insert_written r F2 S2 : name_ok nm -> seek (cells_of S ds) (to_ascii_uppercase nm) = None ->
  inserts fs (entry_bytes (to_short_name nm).1 (to_short_name nm).2 ATTR_ARCHIVE first (wrap 32 (Z.of_nat (length data)))) ds F1 S1 r F2 S2 ->
  match r with Ok _ => exists ds', written F S ds nm data [] F2 S2 ds' | Err e => e = Corrupt /\ scarce fs F (1 + clusters_needed fs data) end.
Proof.
  intros Hnm Hnone. destruct (new_entry nm first _ Hnm first_range (proj1 size_range)) as (El & Eb & Efree & en & Eslot & Ename & Edir & Efirst & Esize).
  unfold inserts. rewrite dir_cells. destruct (vacant (cells_of S ds)) as [[[c s] i]|] eqn:Ev.
  - intros (-> & -> & Hc & Hs & Hi & ->). exists ds. by eapply insert_slot.
  - destruct r as [u|e]; [|intros [-> Hn]; split; [done|by apply new_scarce]]. intros (lst & nc & Hlast & Hnc & Hfree & HF2 & HS2). exists (ds ++ [nc]). by eapply insert_grow.
Qed.

(** *** A file that exists *)
Lemma overwrite_written e old c s i F2 : seek (cells_of S ds) (to_ascii_uppercase nm) = Some (e, (c, s, i)) -> is_directory e = false ->
  fchain F (first_cluster e) old -> (forall x, x ∈ old -> x ∉ ds) -> same_fat fs (freed F1 old) F2 ->
  written F S ds nm data old F2 (upd2 S1 c s (put (S1 c s) (i * 32) (set_fields (get (S1 c s) (i * 32) 32) first (wrap 32 (Z.of_nat (length data)))))) ds.
Proof.
  intros Hseek Hfile Hold Hsep HF2. pose proof dir_cells as Hcells. destruct (seek_elem _ _ _ _ Hseek) as [Hname [fr Hin]].
  apply elem_of_cells in Hin as (Hpos & Hi & Hcell). apply elem_of_positions in Hpos as [Hc Hs]. injection Hcell as Hfr Hslot.
  assert (Dds : forall x, x ∈ ds -> data_cluster x) by (intros x Hx; by eapply chain_data; [apply dchain_chain, Hdir|]).
  assert (L512 : length (S1 c s) = 512%nat) by (apply Hsane; [by apply Dds|done]). set (w := get (S1 c s) (i * 32) 32).
  assert (Lw : length w = 32%nat) by (unfold w, get; rewrite length_take, length_drop; lia).
  assert (Hw : read_slot w 0 = SlotEntry e).
  { unfold w. rewrite <- read_slot_get by done. rewrite (sectors_kept root ds c s); [done|by right|done|done]. }
  destruct (set_fields_slot w first _ e Lw first_range (proj1 size_range) Hw) as [Wf Ws]. destruct (set_fields_lens w first (wrap 32 (Z.of_nat (length data))) Lw) as (_ & _ & _ & _ & _ & Wl).
  set (en := mkDirEntry _ _ _ _ _) in Ws. set (S2 := upd2 S1 c s _).
  assert (E2 : cells_of S2 ds = replace_at (c, s, i) (false, SlotEntry en) (cells_of S ds)).
  { rewrite <- Wf, <- Ws, <- Hcells. apply cells_insert; [|done|done]. intros c' s' Hq. apply elem_of_positions in Hq as [Hc' Hs']. apply Hsane; [by apply Dds|done]. }
  assert (Hkeep : forall x y, x ∉ ds -> S2 x y = S1 x y).
  { intros x y Hx. unfold S2, upd2. rewrite decide_False; [done|]. by intros [-> _]. }
  assert (KF : forall x, data_cluster x -> x ∉ old -> F2 x = F1 x).
  { intros x Hx Ho. rewrite HF2 by (by apply data_valid). unfold freed. by rewrite decide_False. }
  assert (Hnd : NoDup (fst <$> cells_of S ds)) by (apply NoDup_cells, NoDup_positions; by eapply chain_NoDup, dchain_chain, Hdir).
  split.
  - eapply dchain_ext; [apply dir_kept|]. intros x Hx. apply KF; [by apply Dds|]. intros Ho. by apply (Hsep x).
  - exists en, cs. split; [split|].
    + exists (c, s, i). rewrite E2. by apply (seek_replace _ _ e).
    + done.
    + right. cbn [first_cluster en]. eapply dchain_ext; [apply Hnew|]. intros x Hx. apply KF; [by eapply chain_data; [apply dchain_chain, Hnew|]|].
      intros Ho. by apply (cs_not_chain _ _ _ Hold Ho).
    + apply cs_not_ds.
    + apply new_content; [done|]. intros x y Hx _. apply Hkeep, cs_not_ds, Hx.
  - intros nm2 en2 cs2 Hne Hf2 Hd2. apply (file_kept F S ds); [done| | |apply Hf2|].
    + intros x Hx. rewrite KF; [eapply fat_kept; [apply Hf2|done]|by eapply chain_data; [apply fchain_chain, Hf2|]|by apply Hd2].
    + intros x y Hx Hy. rewrite Hkeep by (by apply (f_sep _ _ _ _ _ _ Hf2)). eapply sectors_kept; [apply Hf2|done|done].
    + intros r Hr. rewrite E2. apply (seek_replace_other _ _ e); [|done|congruence|done]. intros y Hy. apply elem_of_cells in Hy as (_ & _ & ->). done.
Qed.

End Insert.

(** ** Writing *)

(** The file being replaced, if there is one, is a file with its own clusters. *)
Definition replaceable (F : Z -> Z) (S : Z -> Z -> list Z) (ds nm old : list Z) : Prop :=
  match seek (cells_of S ds) (to_ascii_uppercase nm) with
  | Some (e, _) => is_directory e = false /\ fchain F (first_cluster e) old /\ forall x, x ∈ old -> x ∉ ds
  | None => old = []
  end.

Lemma write_file_spec F S ds path nm data old fuel : root_path path nm -> name_ok nm -> is_bytes data -> Z.of_nat (length data) < 2 ^ 32 ->
  dchain F root ds -> replaceable F S ds nm old -> (Z.to_nat total <= fuel)%nat ->
  wp (write_file fs fuel path data) (fun r F' S' =>
    match r with Ok _ => exists ds', written F S ds nm data old F' S' ds' | Err e => e = Corrupt /\ scarce fs F (1 + clusters_needed fs data) end) F S.
Proof.
  intros Hp Hnm Hb Hl Hdir Hrep Hf. unfold write_file. rewrite (root_path_split path nm Hp). pose proof Hp as (_ & Hne & _). rewrite bool_decide_false by done.
  apply wp_bind. unfold parent_cluster, resolve_path. change (trim_matches SLASH []) with (@nil Z). rewrite bool_decide_true by done.
  apply wp_bind, wp_ret. cbn [fst root_entry is_directory first_cluster]. apply wp_ret. apply wp_bind.
  eapply wp_mono; [|by apply find_spec]. intros r F' S' (-> & -> & a & -> & Ha).
  eapply wp_store; [by apply store_spec| |by intros e F' S' [-> Hs]; split; [done|intros l Hnd Hfr; specialize (Hs l Hnd Hfr); lia]]. intros first F1 S1 [cs Hnew]. apply wp_sane with (1 := Hg). intros Hsane1.
  pose proof (dir_kept F S ds cs data first F1 S1 Hdir Hnew) as Hdir1. unfold replaceable in Hrep.
  destruct a as [[[e lba] i]|]; cbn [answers] in Ha.
  - destruct Ha as (c & s & Hseek & -> & Hi & Hc & Hs). rewrite Hseek in Hrep. destruct Hrep as (Hfile & Hold & Hsep).
    assert (Hold1 : chain F1 (first_cluster e) old).
    { apply fchain_chain. eapply fchain_ext; [exact Hold|]. intros x Hx. by eapply (fat_kept F S cs data). }
    eapply wp_then; [apply (free_chain_spec fs n Hg fuel _ old F1 S1 Hold1); etransitivity; [by eapply chain_length|exact Hf]| |by intros e' F' S' (? & _)].
    intros _ F2 S2 (_ & HF2 & ->). apply wp_bind, (wp_read_data' fs n Hg); [done|done|]. rewrite put_fields by (done || by apply Hsane1).
    apply (wp_write_data' fs n Hg); [done|done| |exists ds; by eapply overwrite_written].
    assert (B512 : bytes512 (S1 c s)) by (by apply Hsane1). assert (Lw : length (get (S1 c s) (i * 32) 32) = 32%nat).
    { unfold get. rewrite length_take, length_drop. destruct B512. lia. }
    destruct (set_fields_lens _ first (wrap 32 (Z.of_nat (length data))) Lw) as (_ & _ & _ & _ & _ & Wl).
    apply bytes512_put; [done|apply set_fields_bytes; apply Forall_take, Forall_drop, B512|lia].
  - destruct (to_short_name nm) as [a b] eqn:En. unfold insert_dir_entry. pose proof (insert_written F S ds cs nm data first F1 S1 Hdir Hnew Hl Hsane1) as Hins.
    rewrite Ha in Hrep. subst old. rewrite En in Hins. cbn [fst snd] in Hins.
    destruct (new_entry nm first _ Hnm (first_range F S cs data first F1 S1 Hnew) (proj1 (size_range data Hl))) as (El & Eb & _). rewrite En in El, Eb. cbn [fst snd] in El, Eb.
    eapply wp_mono; [|apply (insert_chain_spec fs n Hg _ fuel Eb El root ds F1 S1 Hdir1); [|done]].
    + intros r F2 S2 Hi. by eapply Hins.
    + etransitivity; [|exact Hf]. by eapply chain_length, dchain_chain.
Qed.

End Write.
End FatWrite.
