(* ===== verification/FatFormat.v ===== *)
(** * Formatting and mounting a FAT32 volume

    [format] leaves an empty volume in the sense of FatVol, and [mount] reads the
    same file system back from its boot sector.  The theorems on the file system
    as a whole are stated here. *)

From stdpp Require Import prelude numbers list strings.
From S2P Require Import Prelude Io Errors Ata Bytes Fat32 FatVol FatChain FatDir FatFile FatWrite.
Import Bytes Errors Ata Fat32 FatVol FatChain FatDir FatFile FatWrite.

Module FatFormat.

(** ** Programs over the sectors of a drive *)
Section Raw.
Context {D : Type} `{Disk D}.
Variables (dr n : Z).

Definition on (d : D) (m : Z -> list Z) : Prop := disk_ok d dr /\ disk_size d dr = n /\ forall l, sector d dr l = m l.
Definition rwp {A} (p : io D A) (Q : result A Fat32Error -> (Z -> list Z) -> Prop) (m : Z -> list Z) : Prop :=
  forall d, on d m -> exists r d' m', p d = Ret (r, d') /\ on d' m' /\ Q r m'.
Definition updm (m : Z -> list Z) (l : Z) (b : list Z) : Z -> list Z := fun x => if decide (x = l) then b else m x.

Lemma rwp_ret {A} (a : A) Q m : Q (Ok a) m -> rwp (mret a) Q m.
Proof. intros HQ d Hd. by exists (Ok a), d, m. Qed.

Lemma rwp_bind {A B} (p : io D A) (f : A -> io D B) Q m :
  rwp p (fun r m' => match r with Ok a => rwp (f a) Q m' | Err e => Q (Err e) m' end) m -> rwp (p ≫= f) Q m.
Proof.
  intros Hp d Hd. destruct (Hp d Hd) as (r & d' & m' & E & Hd' & HQ). unfold mbind, io_bind. rewrite E. destruct r as [a|e]; [by apply HQ|by exists (Err e), d', m'].
Qed.

Lemma rwp_mono {A} (p : io D A) (Q Q' : result A Fat32Error -> (Z -> list Z) -> Prop) m : (forall r m', Q r m' -> Q' r m') -> rwp p Q m -> rwp p Q' m.
Proof. intros HQ Hp d Hd. destruct (Hp d Hd) as (r & d' & m' & E & Hd' & HQ'). exists r, d', m'. split; [done|]. split; [done|by apply HQ]. Qed.

Lemma rwp_write l b Q m : 0 <= l < n -> bytes512 b -> Q (Ok tt) (updm m l b) -> rwp (write_sec dr l b) Q m.
Proof.
  intros Hl Hb HQ d (Hok & Hs & Hm). destruct (disk_write_ok d dr l b Hok) as (d' & E & Hok' & Hs' & Hsec); [lia|done|].
  exists (Ok tt), d', (updm m l b). unfold write_sec. rewrite E. split; [done|]. split; [|done]. split; [done|]. split; [lia|]. intros x. rewrite Hsec. unfold updm. by case_decide.
Qed.

Lemma rwp_read l Q m : 0 <= l < n -> Q (Ok (m l)) m -> rwp (read_sec dr l) Q m.
Proof.
  intros Hl HQ d (Hok & Hs & Hm). destruct (disk_read_ok d dr l Hok) as (d' & E & Hok' & Hs' & Hsec); [lia|].
  exists (Ok (m l)), d', m. unfold read_sec. rewrite E, Hm. split; [done|]. split; [|done]. split; [done|]. split; [lia|]. intros x. by rewrite Hsec.
Qed.

(** Clearing the rest of both tables. *)
Lemma clear_tables f1 f2 ss : forall m, (forall s, s ∈ ss -> 0 <= f1 + s < n /\ 0 <= f2 + s < n) -> n <= 2 ^ 28 ->
  rwp (for_each ss (fun s => write_sec dr (u32_add f1 s) zero_sector;; write_sec dr (u32_add f2 s) zero_sector))
    (fun r m' => r = Ok tt /\ forall l, m' l = if decide (l - f1 ∈ ss \/ l - f2 ∈ ss) then zero_sector else m l) m.
Proof.
  induction ss as [|s ss IH]; intros m Hss Hn; cbn [for_each].
  { apply rwp_ret. split; [done|]. intros l. rewrite decide_False; [done|]. by intros [Hx|Hx]; apply not_elem_of_nil in Hx. }
  destruct (Hss s ltac:(by left)) as [H1 H2]. assert (E1 : u32_add f1 s = f1 + s) by (apply wrap_small; split; lia). assert (E2 : u32_add f2 s = f2 + s) by (apply wrap_small; split; lia).
  rewrite E1, E2. apply rwp_bind, rwp_bind, rwp_write; [done|apply bytes512_zero|].
  apply rwp_write; [done|apply bytes512_zero|]. eapply rwp_mono; [|apply IH; [intros y Hy; apply Hss; by right|done]].
  intros r m' [-> Hm]. split; [done|]. intros l. rewrite Hm. unfold updm.
  destruct (decide (l - f1 ∈ ss \/ l - f2 ∈ ss)) as [Hi|Hi]; [rewrite decide_True; [done|destruct Hi; [left; by right|right; by right]]|].
  destruct (decide (l = f2 + s)) as [->|N2]; [rewrite decide_True; [done|right; apply elem_of_cons; left; lia]|].
  destruct (decide (l = f1 + s)) as [->|N1]; [rewrite decide_True; [done|left; apply elem_of_cons; left; lia]|]. rewrite decide_False; [done|].
  intros [[E|?]%elem_of_cons|[E|?]%elem_of_cons]; [lia|tauto|lia|tauto].
Qed.

End Raw.

(** ** The boot sector *)
Lemma length4 (l : list Z) : length l = 4%nat -> exists a b c d, l = [a; b; c; d].
Proof. destruct l as [|a [|b [|c [|d [|]]]]]; try done. by exists a, b, c, d. Qed.

Lemma boot_fields lba total spf label : length label = 11%nat ->
  let b := boot_sector lba total spf label in
  length b = 512%nat /\ byte b 510 = 0x55 /\ byte b 511 = 0xAA /\ get b 82 5 = bytes_of "FAT32" /\ le b 11 2 = 512 /\ byte b 13 = 1 /\ le b 14 2 = 32 /\ byte b 16 = 2 /\
  get b 32 4 = le32 total /\ get b 36 4 = le32 spf /\ le b 44 4 = 2 /\ le b 48 2 = 1 /\ le b 67 4 = 0x20260909 /\ get b 71 11 = label.
Proof.
  intros Hl. unfold boot_sector. destruct (length4 (le32 lba)) as (a0 & a1 & a2 & a3 & ->); [done|]. destruct (length4 (le32 total)) as (t0 & t1 & t2 & t3 & ->); [done|].
  destruct (length4 (le32 spf)) as (s0 & s1 & s2 & s3 & ->); [done|].
  destruct label as [|l0 [|l1 [|l2 [|l3 [|l4 [|l5 [|l6 [|l7 [|l8 [|l9 [|l10 [|]]]]]]]]]]]]; done.
Qed.

Lemma boot_bytes lba total spf label : length label = 11%nat -> is_bytes label -> bytes512 (boot_sector lba total spf label).
Proof.
  intros Hl Hb. unfold boot_sector. cbv zeta.
  repeat (apply bytes512_put; [|first [exact Hb|apply to_le_bytes|unfold in_u; by_compute]|first [rewrite Hl; lia|by_compute]]). apply bytes512_zero.
Qed.

Lemma fsinfo_bytes c : bytes512 (fsinfo_sector c).
Proof. unfold fsinfo_sector. cbv zeta. repeat (apply bytes512_put; [|apply to_le_bytes|by_compute]). apply bytes512_zero. Qed.

Lemma le32_value x : 0 <= x < 2 ^ 32 -> le_value (le32 x) = x.
Proof. intros Hx. apply le_value_to_le. exact Hx. Qed.

Lemma padded_length k l : length (padded k l) = k.
Proof. unfold padded. rewrite length_app, length_replicate, length_take. lia. Qed.
Lemma padded_bytes k l : is_bytes l -> is_bytes (padded k l).
Proof. intros Hl. unfold padded. apply Forall_app. split; [by apply Forall_take|by apply Forall_replicate]. Qed.

(** ** The layout of a new volume *)
Section Format.
Context {D : Type} `{Disk D}.
Variables (dr n lba total : Z) (label : list Z).
Hypothesis Hlba : 0 <= lba.
Hypothesis Htotal : 1024 <= total.
Hypothesis Hend : lba + total <= n.
Hypothesis Hn : n <= 2 ^ 28.
Hypothesis Hlabel : is_bytes label.

Definition spf : Z := fat_size total.
Definition root_sector : list Z := put (put zero_sector 0 (padded 11 label)) 11 [ATTR_VOLUME_ID].
Definition new_fs : Fat32Fs :=
  mkFs dr lba (mkBpb 512 1 32 2 total spf 2 1 0x20260909 (padded 11 label)) (lba + 32) (lba + 32 + 2 * spf) (total - 32 - 2 * spf).

Lemma spf_value : spf = Z.max ((4 * (total - 30) + 511) / 512) 16.
Proof.
  unfold spf, fat_size, saturating_sub, SECTOR_SIZE. cbv zeta. rewrite (Z.max_r 0 (total - 32)), Z.div_1_r by lia. unfold u32_add, u32_mul, u32_sub.
  rewrite (wrap_small 32 (total - 32 + 2)) by (split; lia). rewrite (wrap_small 32 (_ * 4)) by (split; lia). rewrite (wrap_small 32 (_ + 512)) by (split; lia).
  rewrite wrap_small by (split; lia). do 2 f_equal. lia.
Qed.

Lemma spf_bounds : 16 <= spf /\ total - 30 <= 128 * spf /\ 64 * spf <= total.
Proof. rewrite spf_value. pose proof (Z.div_mod (4 * (total - 30) + 511) 512 ltac:(lia)). pose proof (Z.mod_pos_bound (4 * (total - 30) + 511) 512). lia. Qed.

Lemma new_fs_geom : geom new_fs n.
Proof. pose proof spf_bounds. split; cbn; lia. Qed.

Definition formatted (m : Z -> list Z) (l : Z) : list Z :=
  if decide (l = lba + 32 + 2 * spf) then root_sector else
  if decide (1 <= l - (lba + 32) < spf \/ 1 <= l - (lba + 32 + spf) < spf) then zero_sector else
  if decide (l = lba + 32 + spf) then fat_sector0 else
  if decide (l = lba + 32) then fat_sector0 else
  if decide (l = lba + 1) then fsinfo_sector (total - 32 - 2 * spf) else
  if decide (l = lba) then boot_sector lba total spf (padded 11 label) else m l.

Lemma root_bytes : bytes512 root_sector.
Proof.
  unfold root_sector. apply bytes512_put; [|unfold in_u; by_compute|cbn; lia]. apply bytes512_put; [apply bytes512_zero|by apply padded_bytes|rewrite padded_length; lia].
Qed.

Lemma format_spec m : rwp dr n (format dr lba total label) (fun r m' => r = Ok new_fs /\ forall l, m' l = formatted m l) m.
Proof.
  pose proof spf_bounds as Hs. unfold format. rewrite (proj2 (Z.ltb_ge _ _)) by lia. cbv zeta. fold spf.
  assert (E1 : u32_add lba 32 = lba + 32) by (apply wrap_small; split; lia). assert (E2 : u32_mul 2 spf = 2 * spf) by (apply wrap_small; split; lia).
  assert (E3 : u32_add (lba + 32) (2 * spf) = lba + 32 + 2 * spf) by (apply wrap_small; split; lia). assert (E4 : u32_add lba total = lba + total) by (apply wrap_small; split; lia).
  assert (E5 : u32_sub (lba + total) (lba + 32 + 2 * spf) = total - 32 - 2 * spf) by (unfold u32_sub; rewrite wrap_small by (split; lia); lia).
  assert (E6 : u32_add lba 1 = lba + 1) by (apply wrap_small; split; lia). assert (E7 : u32_add (lba + 32) spf = lba + 32 + spf) by (apply wrap_small; split; lia).
  rewrite E1, E2, E3, E4, E5, E6, E7, (proj2 (Z.ltb_lt _ _)), Z.div_1_r by lia. cbn [negb].
  apply rwp_bind, rwp_write; [lia|apply boot_bytes; [apply padded_length|by apply padded_bytes]|]. apply rwp_bind, rwp_write; [lia|apply fsinfo_bytes|].
  apply rwp_bind, rwp_write; [lia|split; [done|unfold in_u; by_compute]|]. apply rwp_bind, rwp_write; [lia|split; [done|unfold in_u; by_compute]|].
  apply rwp_bind. eapply rwp_mono; [|apply clear_tables; [intros s [Hs1 Hs2]%elem_of_urange; lia|done]]. intros r m' [-> Hm].
  apply rwp_bind, rwp_write; [lia|apply root_bytes|]. change (urange 1 1) with (@nil Z). cbn [for_each]. apply rwp_bind, rwp_ret, rwp_ret. split; [done|].
  intros l. unfold formatted. unfold updm at 1. destruct (decide (l = lba + 32 + 2 * spf)); [done|]. rewrite Hm.
  destruct (decide (_ ∈ _ \/ _)) as [Ha|Ha]; rewrite !elem_of_urange in Ha; [by rewrite decide_True|by rewrite decide_False].
Qed.

(** Mounting reads the same file system. *)
Lemma mount_spec m : rwp dr n (mount dr lba) (fun r m' => r = Ok new_fs /\ m' = formatted m) (formatted m).
Proof.
  pose proof spf_bounds as Hs. unfold mount. apply rwp_bind, rwp_read; [lia|].
  assert (Hb : formatted m lba = boot_sector lba total spf (padded 11 label)).
  { unfold formatted. repeat (rewrite decide_False by lia). by rewrite decide_True. }
  rewrite Hb. destruct (boot_fields lba total spf _ (padded_length 11 label)) as (_ & F1 & F2 & F3 & F4 & F5 & F6 & F7 & F8 & F9 & F10 & F11 & F12 & F13).
  set (b := boot_sector _ _ _ _) in *. unfold le in *. rewrite F1, F2, F3, F4, F5, F6, F7, F8, F9, F10, F11, F12, F13, !le32_value by lia.
  change (bool_decide _) with true. cbn [Z.eqb Pos.eqb negb orb]. cbv zeta.
  assert (E1 : u32_add lba 32 = lba + 32) by (apply wrap_small; split; lia). assert (E2 : u32_mul 2 spf = 2 * spf) by (apply wrap_small; split; lia).
  assert (E3 : u32_add (lba + 32) (2 * spf) = lba + 32 + 2 * spf) by (apply wrap_small; split; lia). rewrite E1, E2, E3, Z.div_1_r. apply rwp_ret. split; [|done].
  unfold new_fs, saturating_sub. do 2 f_equal. lia.
Qed.

(** The table and the root directory of a new volume. *)
Definition new_fat (c : Z) : Z := if c =? 0 then 0x0FFFFFF8 else if (c =? 1) || (c =? 2) then FAT_EOC else FAT_FREE.

Lemma sector0_slots : Forall (fun i => slot_value fat_sector0 i = new_fat (Z.of_nat i)) (seq 0 128).
Proof. by_compute. Qed.
Lemma zero_slots : Forall (fun i => slot_value zero_sector i = FAT_FREE) (seq 0 128).
Proof. by_compute. Qed.

Lemma formatted_vol m d : on dr n d (formatted m) -> vol new_fs n d new_fat (fun c s => formatted m (data_lba new_fs c s)).
Proof.
  intros (Hok & Hs & Hm). pose proof spf_bounds as Hb. split; [done|done| |intros c s _ _; apply Hm].
  intros k c Hk Hc. rewrite Hm. unfold valid, fat_lba in *. cbn [new_fs bpb num_fats sectors_per_fat fat_start_lba total_clusters] in *.
  pose proof (Z.div_mod c 128 ltac:(lia)) as Hdm. pose proof (Z.mod_pos_bound c 128 ltac:(lia)) as Hmod.
  assert (Hi : Z.to_nat (c mod 128) ∈ seq 0 128) by (apply elem_of_seq; lia).
  assert (Hk2 : k * spf = 0 \/ k * spf = spf) by (destruct (Z.eq_dec k 0) as [->|]; [by left|right; replace k with 1 by lia; lia]).
  unfold formatted. rewrite decide_False by lia. destruct (Z.eq_dec (c / 128) 0) as [E0|E0].
  - rewrite decide_False by lia. assert (Hc0 : c mod 128 = c) by lia.
    destruct Hk2 as [->| ->]; [rewrite decide_False, decide_True by lia|rewrite decide_True by lia]; rewrite (proj1 (Forall_forall _ _) sector0_slots) by done; f_equal; lia.
  - rewrite decide_True by lia. rewrite (proj1 (Forall_forall _ _) zero_slots) by done. unfold new_fat. rewrite !(proj2 (Z.eqb_neq _ _)) by lia. done.
Qed.

Lemma root_slots nm : find_slots 16 0 root_sector nm = Ended.
Proof.
  assert (L0 : length (put zero_sector 0 (padded 11 label)) = 512%nat) by (rewrite length_put; [done|]; rewrite padded_length, (length_replicate 512 0 : length zero_sector = 512%nat); lia).
  assert (H11 : byte root_sector 11 = ATTR_VOLUME_ID).
  { unfold byte, root_sector. rewrite nth_put by (rewrite L0; cbn; lia). by rewrite decide_True by (cbn; lia). }
  assert (H32 : byte root_sector 32 = 0).
  { unfold byte, root_sector. rewrite nth_put by (rewrite L0; cbn; lia). rewrite decide_False by (cbn; lia).
    rewrite nth_put by (rewrite padded_length, (length_replicate 512 0 : length zero_sector = 512%nat); lia). rewrite decide_False by (rewrite padded_length; lia). unfold zero_sector. by rewrite nth_lookup, lookup_replicate_2 by lia. }
  assert (S1 : read_slot root_sector 1 = SlotEnd) by (apply read_slot_end; exact H32).
  assert (S0 : read_slot root_sector 0 = SlotEnd \/ read_slot root_sector 0 = SlotSkip).
  { unfold read_slot. cbn [Nat.mul Nat.add]. rewrite H11. destruct (_ =? 0); [by left|]. destruct (_ =? 0xE5); by right. }
  change 16%nat with (2 + 14)%nat. generalize 14%nat. intros k. cbn [Nat.add find_slots]. rewrite S1. by destruct S0 as [->| ->].
Qed.

Lemma new_root S : S 2 0 = root_sector -> dchain new_fs new_fat 2 [2] /\ forall nm, seek (cells S (positions new_fs [2])) nm = None.
Proof.
  intros HS. pose proof spf_bounds. split; [apply dc_last; [reflexivity|unfold data_cluster; cbn [new_fs total_clusters]; lia|change (new_fat 2) with FAT_EOC; unfold FAT_EOC; lia]|]. intros nm.
  unfold positions, sectors_of. cbn [mbind list_bind new_fs bpb sectors_per_cluster]. change (urange 0 1) with [0]. cbn [fmap list_fmap app].
  rewrite cells_cons, <- (app_nil_r (cells S [])). rewrite app_assoc, app_nil_r. unfold sector_cells. cbn [fst snd]. rewrite HS, find_slots_seek, root_slots. reflexivity.
Qed.

Lemma formatted_root m : formatted m (data_lba new_fs 2 0) = root_sector.
Proof. unfold formatted, data_lba. cbn [new_fs data_start_lba bpb sectors_per_cluster]. apply decide_True. lia. Qed.

End Format.
End FatFormat.
