(* ===== verification/FatFs.v ===== *)
(** * The FAT32 file system as a whole

    What a user of [Fat32Fs] relies on: a volume that is formatted can be mounted
    again, a file that is written is read back and no other file changes, freeing
    a chain terminates on every table, and where the driver does not keep its word:
    directories whose chain loops, and names that do not fit 8.3. *)

From stdpp Require Import prelude numbers list strings.
From S2P Require Import Prelude Io Errors Ata Bytes Fat32 FatVol FatChain FatDir FatFile FatWrite FatFormat.
Import Bytes Errors Ata Fat32 FatVol FatChain FatDir FatFile FatWrite FatFormat.

Module FatFs.

(** ** From the program logic to runs *)
Section Runs.
Context {D : Type} `{Disk D}.

Lemma wp_run {A} fs n (p : io D A) Q F S d : wp fs n p Q F S -> vol fs n d F S -> exists r d' F' S', p d = Ret (r, d') /\ vol fs n d' F' S' /\ Q r F' S'.
Proof. intros Hp Hd. by apply Hp. Qed.

(** A stretch of [total] sectors from [lba] on of a working drive of [n] sectors. *)
Record space (d : D) (dr n lba total : Z) : Prop := {
  sp_ok : disk_ok d dr;
  sp_size : disk_size d dr = n;
  sp_lba : 0 <= lba;
  sp_total : 1024 <= total;
  sp_end : lba + total <= n;
  sp_max : n <= 2 ^ 28
}.

(** The disk after formatting, and after mounting it. *)
Lemma format_run d dr n lba total label : space d dr n lba total -> is_bytes label ->
  exists d1, format dr lba total label d = Ret (Ok (new_fs dr lba total label), d1) /\ on dr n d1 (formatted lba total label (sector d dr)).
Proof.
  intros [Hok Hs Hl Ht He Hn] Hb. destruct (format_spec dr n lba total label Hl Ht He Hn Hb (sector d dr) d) as (r & d1 & m1 & E & (O1 & Z1 & M1) & -> & Hm); [by split|].
  exists d1. split; [done|]. split; [done|]. split; [done|]. intros l. by rewrite M1, Hm.
Qed.

Lemma mount_run d d1 dr n lba total label m : space d dr n lba total -> on dr n d1 (formatted lba total label m) ->
  exists d2, mount dr lba d1 = Ret (Ok (new_fs dr lba total label), d2) /\ on dr n d2 (formatted lba total label m).
Proof.
  intros [_ _ Hl Ht He Hn] Hd. destruct (mount_spec dr n lba total label Hl Ht He Hn m d1 Hd) as (r & d2 & m2 & E & Hd2 & -> & ->). by exists d2.
Qed.

Lemma formatted_outside d dr n lba total label m l : space d dr n lba total -> ~ (lba <= l < lba + total) -> formatted lba total label m l = m l.
Proof. intros [_ _ Hl Ht He Hn] Ho. pose proof (spf_bounds n lba total Hl Ht He Hn) as Hs. unfold formatted. by rewrite !decide_False by lia. Qed.

(** What the program logic says of a new volume. *)
Lemma new_volume d d2 dr n lba total label m : space d dr n lba total -> on dr n d2 (formatted lba total label m) ->
  let fs := new_fs dr lba total label in
  geom fs n /\ exists S, vol fs n d2 new_fat S /\ dchain fs new_fat 2 [2] /\ forall nm, seek (cells S (positions fs [2])) nm = None.
Proof.
  intros [_ _ Hl Ht He Hn] Hd fs. split; [by apply new_fs_geom|]. eexists. split; [by apply formatted_vol|]. apply (new_root dr n); try done. apply formatted_root.
Qed.

(** Without a slot of that name, the search answers so. *)
Lemma find_none fs n d F S ds nm fuel : geom fs n -> vol fs n d F S -> dchain fs F (root_cluster (bpb fs)) ds ->
  seek (cells S (positions fs ds)) (to_ascii_uppercase nm) = None -> (Z.to_nat (total_clusters fs) <= fuel)%nat ->
  exists d', find_entry_in_dir fs fuel (root_cluster (bpb fs)) nm d = Ret (Ok None, d').
Proof.
  intros Hg Hd Hds Hs Hf. destruct (wp_run _ _ _ _ _ _ _ (find_spec fs n Hg F S ds nm fuel Hds Hf) Hd) as (r & d' & F' & S' & E & _ & _ & _ & a & -> & Ha).
  exists d'. rewrite E. destruct a as [[[e l] i]|]; [|done]. destruct Ha as (c & s & Ha & _). congruence.
Qed.
End Runs.

(** Formatting [total] sectors of a working drive and mounting them again gives
    the same file system: [format] returns it, [mount] reads it back from the boot
    sector, its label is the one asked for, padded, every sector outside the
    volume is what it was, and a lookup of any name in its root directory finds
    nothing. *)
Theorem format_mount_roundtrip {D} `{Disk D} (d : D) dr n lba total label : space d dr n lba total -> is_bytes label ->
  exists fs d1 d2, format dr lba total label d = Ret (Ok fs, d1) /\ mount dr lba d1 = Ret (Ok fs, d2) /\
    geom fs n /\ lba_start fs = lba /\ volume_label (bpb fs) = padded 11 label /\ total_clusters fs = total - 32 - 2 * fat_size total /\
    (forall l, ~ (lba <= l < lba + total) -> sector d2 dr l = sector d dr l) /\
    forall nm fuel, (Z.to_nat total <= fuel)%nat -> exists d3, find_entry_in_dir fs fuel (root_cluster (bpb fs)) nm d2 = Ret (Ok None, d3).
Proof.
  intros Hsp Hb. destruct (format_run d dr n lba total label Hsp Hb) as (d1 & E1 & Hd1). destruct (mount_run d d1 dr n lba total label _ Hsp Hd1) as (d2 & E2 & Hd2).
  exists (new_fs dr lba total label), d1, d2. split; [done|]. split; [done|]. destruct (new_volume _ _ _ _ _ _ _ _ Hsp Hd2) as (Hg & S & Hv & Hds & Hs).
  split; [done|]. split; [done|]. split; [done|]. split; [done|]. split.
  - intros l Hl. destruct Hd2 as (_ & _ & Hm). rewrite Hm. by eapply formatted_outside.
  - intros nm fuel Hf. eapply find_none; [done|done|exact Hds|apply Hs|]. etransitivity; [|exact Hf]. cbn [new_fs total_clusters].
    pose proof (spf_bounds n lba total) as Hsb. destruct Hsp. lia.
Qed.

Definition new_disk : ide := blank_disk 1024.
Lemma new_disk_space : space (H := ata_disk) new_disk 0 1024 0 1024.
Proof. split; [apply blank_ok|done|done|done|done|done]. Qed.

Lemma format_mount_witness : space (H := ata_disk) new_disk 0 1024 0 1024 /\
  exists fs d1 d2, format (H := ata_disk) 0 0 1024 (bytes_of "AURA") new_disk = Ret (Ok fs, d1) /\ mount (H := ata_disk) 0 0 d1 = Ret (Ok fs, d2).
Proof.
  split; [apply new_disk_space|]. destruct (format_mount_roundtrip (H := ata_disk) new_disk 0 1024 0 1024 (bytes_of "AURA") new_disk_space) as (fs & d1 & d2 & E1 & E2 & _).
  - unfold is_bytes, in_u. by_compute.
  - exists fs, d1, d2. exact (conj E1 E2).
Defined.

(** ** Writing and reading *)
Section Files.
Context {D : Type} `{Disk D}.

Lemma read_run fs n d F S ds path nm en cs fuel : geom fs n -> vol fs n d F S -> root_path path nm -> dchain fs F (root_cluster (bpb fs)) ds -> file_in fs F S ds nm en cs ->
  (Z.to_nat (total_clusters fs) <= fuel)%nat -> exists d', read_file fs fuel path d = Ret (Ok (content fs S en cs), d').
Proof.
  intros Hg Hd Hp Hds Hf Hfu. destruct (wp_run _ _ _ _ _ _ _ (read_file_spec fs n Hg F S ds path nm en cs fuel Hp Hds Hf Hfu) Hd) as (r & d' & ? & ? & E & _ & _ & _ & ->).
  by exists d'.
Qed.

(** The outcome of a write, as reads see it: the data, and the other files. *)
Lemma write_run fs n d F S ds path nm data old fuel : geom fs n -> vol fs n d F S -> root_path path nm -> name_ok nm -> is_bytes data -> Z.of_nat (length data) < 2 ^ 32 ->
  dchain fs F (root_cluster (bpb fs)) ds -> replaceable fs F S ds nm old -> (Z.to_nat (total_clusters fs) <= fuel)%nat ->
  exists r d1, write_file fs fuel path data d = Ret (r, d1) /\
    match r with
    | Ok _ => (exists d2, read_file fs fuel path d1 = Ret (Ok data, d2)) /\
        forall path2 nm2 en2 cs2, root_path path2 nm2 -> to_ascii_uppercase nm2 <> to_ascii_uppercase nm -> file_in fs F S ds nm2 en2 cs2 -> (forall x, x ∈ cs2 -> x ∉ old) ->
          exists d2, read_file fs fuel path2 d1 = Ret (Ok (content fs S en2 cs2), d2)
    | Err e => e = Corrupt /\ scarce fs F (1 + clusters_needed fs data)
    end.
Proof.
  intros Hg Hd Hp Hnm Hb Hl Hds Hrep Hfu.
  destruct (wp_run _ _ _ _ _ _ _ (write_file_spec fs n Hg F S ds path nm data old fuel Hp Hnm Hb Hl Hds Hrep Hfu) Hd) as (r & d1 & F1 & S1 & E & Hd1 & HQ).
  exists r, d1. split; [done|]. destruct r as [u|e]; [|done]. destruct HQ as (ds' & [Hdir (en & cs & Hfile & Hcont) Hoth]). split.
  - rewrite <- Hcont. by eapply read_run.
  - intros path2 nm2 en2 cs2 Hp2 Hne Hf2 Hsep. destruct (Hoth nm2 en2 cs2 Hne Hf2 Hsep) as [Hf2' <-]. by eapply read_run.
Qed.

(** A new volume has clusters for a file. *)
Lemma new_not_scarce dr lba total label k : Z.of_nat k <= total - 35 - 2 * spf total -> ~ scarce (new_fs dr lba total label) new_fat k.
Proof.
  intros Hk Hs. assert (Hl : (length (urange 3 (total - 32 - 2 * spf total)) < k)%nat); [|rewrite length_urange in Hl; lia]. apply Hs; [apply NoDup_urange|].
  intros x [H1 H2]%elem_of_urange. split; [done|]. unfold new_fat. by rewrite !(proj2 (Z.eqb_neq _ _)) by lia.
Qed.

(** A write on a volume with nothing in it. *)
Lemma new_write_run d d2 dr n lba total label S path nm data fuel (fs := new_fs dr lba total label) : space d dr n lba total -> geom fs n -> vol fs n d2 new_fat S ->
  dchain fs new_fat 2 [2] -> (forall nm, seek (cells S (positions fs [2])) nm = None) -> root_path path nm -> name_ok nm -> is_bytes data -> Z.of_nat (length data) < 2 ^ 32 ->
  Z.of_nat (length data) <= 512 * (total - 36 - 2 * fat_size total) -> (Z.to_nat total <= fuel)%nat ->
  exists d3 d4, write_file fs fuel path data d2 = Ret (Ok tt, d3) /\ read_file fs fuel path d3 = Ret (Ok data, d4).
Proof.
  intros Hsp Hg Hv Hds Hs Hp Hnm Hb H32 Hl Hfu. pose proof (sp_max _ _ _ _ _ Hsp). pose proof (sp_end _ _ _ _ _ Hsp). pose proof (sp_lba _ _ _ _ _ Hsp).
  pose proof (spf_bounds n lba total ltac:(done) (sp_total _ _ _ _ _ Hsp) ltac:(done) ltac:(done)) as Hspf. unfold spf in Hspf.
  destruct (write_run fs n d2 new_fat S [2] path nm data [] fuel Hg Hv Hp Hnm Hb) as ([u|e] & d3 & E3 & HQ).
  - lia.
  - exact Hds.
  - unfold replaceable. by rewrite Hs.
  - etransitivity; [|exact Hfu]. cbn [fs new_fs total_clusters]. unfold spf. lia.
  - destruct HQ as [[d4 E4] _]. exists d3, d4. destruct u. auto.
  - exfalso. destruct HQ as [_ Hsc]. revert Hsc. apply new_not_scarce. unfold clusters_needed, spf. cbn [fs new_fs bpb sectors_per_cluster].
    change (Z.to_nat 1 * 512)%nat with 512%nat. set (l := length data) in *.
    pose proof (Nat.div_mod_eq (l + 512 - 1) 512) as Hdm. pose proof (Nat.mod_upper_bound (l + 512 - 1) 512 ltac:(lia)). lia.
Qed.

(** Counting the free clusters changes nothing. *)
Lemma count_free_run fs n F S l : geom fs n -> forall d free, vol fs n d F S -> Forall (valid fs) l -> exists f d', count_free fs l free d = Ret (f, d') /\ vol fs n d' F S.
Proof.
  intros Hg. induction l as [|c l IH]; intros d free Hv Hl; cbn [count_free]; [by exists free, d|]. apply Forall_cons_1 in Hl as [Hc Hl].
  destruct (wp_read_fat fs n Hg c (fun r F' S' => F' = F /\ S' = S) F S Hc (conj eq_refl eq_refl) d Hv) as (r & d' & F' & S' & -> & Hv' & -> & ->). cbn [mbind outcome_bind].
  by apply IH.
Qed.
Lemma info_run fs n d F S : geom fs n -> vol fs n d F S -> exists info d', fs_info fs d = Ret (info, d') /\ vol fs n d' F S.
Proof.
  intros Hg Hv. unfold fs_info. destruct (count_free_run fs n F S (urange 2 (total_clusters fs)) Hg d 0 Hv) as (f & d' & -> & Hv'); [|by eexists _, d'].
  apply Forall_forall. intros x Hx%elem_of_urange. unfold valid. lia.
Qed.
End Files.

(** C10: Writing a file of the root directory and reading it: on every volume whose
    directory chain is sound, [write_file] returns; when it succeeds, [read_file]
    of the same path returns exactly the data written, and [read_file] of any
    other file (another name, with clusters that are not those of the file
    replaced) returns what it returned before; when it fails, the allocator had
    fewer free clusters than the data and one directory cluster need. *)
Theorem write_read_file {D} `{Disk D} (d : D) fs n F S ds path nm data old fuel :
  geom fs n -> vol fs n d F S -> root_path path nm -> name_ok nm -> is_bytes data -> Z.of_nat (length data) < 2 ^ 32 ->
  dchain fs F (root_cluster (bpb fs)) ds -> replaceable fs F S ds nm old -> (Z.to_nat (total_clusters fs) <= fuel)%nat ->
  exists r d1, write_file fs fuel path data d = Ret (r, d1) /\
    match r with
    | Ok _ => (exists d2, read_file fs fuel path d1 = Ret (Ok data, d2)) /\
        forall path2 nm2 en2 cs2, root_path path2 nm2 -> to_ascii_uppercase nm2 <> to_ascii_uppercase nm -> file_in fs F S ds nm2 en2 cs2 -> (forall x, x ∈ cs2 -> x ∉ old) ->
          (exists d0, read_file fs fuel path2 d = Ret (Ok (content fs S en2 cs2), d0)) /\
          exists d2, read_file fs fuel path2 d1 = Ret (Ok (content fs S en2 cs2), d2)
    | Err e => e = Corrupt /\ scarce fs F (1 + clusters_needed fs data)
    end.
Proof.
  intros Hg Hd Hp Hnm Hb Hl Hds Hrep Hfu. destruct (write_run fs n d F S ds path nm data old fuel) as (r & d1 & E & HQ); try done. exists r, d1. split; [done|].
  destruct r as [u|e]; [|done]. destruct HQ as [H1 H2]. split; [done|]. intros path2 nm2 en2 cs2 Hp2 Hne Hf2 Hsep. split; [by eapply read_run|by eapply H2].
Qed.

(** On a new volume nothing can go wrong: after [format] and [mount] on a
    working drive, a file of the root directory with an 8.3 name that leaves a
    cluster for the directory is written, and read back byte for byte. *)
Theorem new_volume_keeps_file {D} `{Disk D} (d : D) dr n lba total label path nm data fuel : space d dr n lba total -> is_bytes label ->
  root_path path nm -> name_ok nm -> is_bytes data -> Z.of_nat (length data) < 2 ^ 32 ->
  Z.of_nat (length data) <= 512 * (total - 36 - 2 * fat_size total) -> (Z.to_nat total <= fuel)%nat ->
  exists fs d1 d2 d3 d4, format dr lba total label d = Ret (Ok fs, d1) /\ mount dr lba d1 = Ret (Ok fs, d2) /\
    write_file fs fuel path data d2 = Ret (Ok tt, d3) /\ read_file fs fuel path d3 = Ret (Ok data, d4).
Proof.
  intros Hsp Hlab Hp Hnm Hb H32 Hl Hfu.
  destruct (format_run d dr n lba total label Hsp Hlab) as (d1 & E1 & Hd1). destruct (mount_run d d1 dr n lba total label _ Hsp Hd1) as (d2 & E2 & Hd2).
  destruct (new_volume _ _ _ _ _ _ _ _ Hsp Hd2) as (Hg & S & Hv & Hds & Hs).
  destruct (new_write_run d d2 dr n lba total label S path nm data fuel) as (d3 & d4 & E3 & E4); try done. by exists (new_fs dr lba total label), d1, d2, d3, d4.
Qed.

Definition hello_path : list Z := bytes_of "/hello.txt".
Definition hello_name : list Z := bytes_of "hello.txt".
Definition hello_data : list Z := bytes_of "Hello from AuraOS".
Lemma hello_bytes : is_bytes hello_data.
Proof. unfold is_bytes, in_u. by_compute. Qed.
Lemma hello_root : root_path hello_path hello_name.
Proof. split; [reflexivity|]. split; [done|]. by_compute. Qed.
Lemma hello_ok : name_ok hello_name.
Proof. split; [unfold is_bytes, in_u; by_compute|]. split; [reflexivity|]. split; done. Qed.
Lemma aura_bytes : is_bytes (bytes_of "AURA").
Proof. unfold is_bytes, in_u. by_compute. Qed.
Definition new_disk_fs : Fat32Fs := new_fs 0 0 1024 (bytes_of "AURA").

Lemma write_read_witness : exists d1, format (H := ata_disk) 0 0 1024 (bytes_of "AURA") new_disk = Ret (Ok new_disk_fs, d1) /\
  exists r d2, write_file (H := ata_disk) new_disk_fs 1024 hello_path hello_data d1 = Ret (r, d2).
Proof.
  destruct (format_run (H := ata_disk) new_disk 0 1024 0 1024 _ new_disk_space aura_bytes) as (d1 & E1 & Hd1). exists d1. split; [exact E1|].
  destruct (new_volume (H := ata_disk) _ _ _ _ _ _ _ _ new_disk_space Hd1) as (Hg & S & Hv & Hds & Hs).
  destruct (write_read_file (H := ata_disk) d1 new_disk_fs 1024 new_fat S [2] hello_path hello_name hello_data [] 1024 Hg Hv hello_root hello_ok hello_bytes ltac:(done) Hds) as (r & d2 & E & _).
  - unfold replaceable. rewrite Hs. reflexivity.
  - pose proof (spf_bounds 1024 0 1024 ltac:(done) ltac:(done) ltac:(done) ltac:(done)). cbn [new_disk_fs new_fs total_clusters]. lia.
  - exists r, d2. exact E.
Defined.

Lemma new_volume_witness : space (H := ata_disk) new_disk 0 1024 0 1024 /\
  exists fs d1 d2 d3 d4, format (H := ata_disk) 0 0 1024 (bytes_of "AURA") new_disk = Ret (Ok fs, d1) /\ mount (H := ata_disk) 0 0 d1 = Ret (Ok fs, d2) /\
    write_file (H := ata_disk) fs 1024 hello_path hello_data d2 = Ret (Ok tt, d3) /\ read_file (H := ata_disk) fs 1024 hello_path d3 = Ret (Ok hello_data, d4).
Proof.
  split; [apply new_disk_space|]. apply (new_volume_keeps_file (H := ata_disk) new_disk 0 1024 0 1024 (bytes_of "AURA") hello_path hello_name hello_data 1024 new_disk_space aura_bytes hello_root hello_ok hello_bytes); [done|by_compute|lia].
Defined.

(** ** Chains that loop *)
(** C35: Freeing a chain terminates on every volume whose table stays inside the
    volume, also when chains loop or merge: [free_cluster_chain] returns within as
    many steps as the volume has clusters plus one, the cluster it was given is
    free, no entry is changed but to free, and no data is touched. *)
Theorem free_chain_terminates {D} `{Disk D} (d : D) fs n F S c fuel : geom fs n -> vol fs n d F S -> closed fs F -> (in_chain c = true -> data_cluster fs c) ->
  (Z.to_nat (total_clusters fs) < fuel)%nat ->
  exists d' F', free_cluster_chain fs fuel c d = Ret (Ok tt, d') /\ vol fs n d' F' S /\ (in_chain c = true -> F' c = FAT_FREE) /\ forall x, F' x = F x \/ F' x = FAT_FREE.
Proof.
  intros Hg Hv Hcl Hc Hf. pose proof (used_bound fs F) as Hu.
  destruct (wp_run _ _ _ _ _ _ _ (free_chain_any fs n Hg fuel c F S ltac:(lia) Hcl Hc) Hv) as (r & d' & F' & S' & E & Hd & -> & -> & H1 & H2). by exists d', F'.
Qed.

(** One round over a cluster without the name and without an end. *)
Lemma find_sectors_none {D} `{Disk D} fs n nm c F S ss : geom fs n -> data_cluster fs c -> (forall s, s ∈ ss -> 0 <= s < sectors_per_cluster (bpb fs)) ->
  (forall s, s ∈ ss -> find_slots 16 0 (S c s) nm = NotHere) ->
  wp fs n (find_sectors fs ss (cluster_to_lba fs c) nm) (fun r F' S' => r = Ok None /\ F' = F /\ S' = S) F S.
Proof.
  intros Hg Hc. induction ss as [|s ss IH]; intros Hss Hn; cbn [find_sectors]; [by apply wp_ret|].
  apply wp_bind, (wp_read_data' fs n Hg); [done|apply Hss; by left|]. rewrite Hn by (by left). apply IH; intros y Hy; [apply Hss|apply Hn]; by right.
Qed.

(** A directory whose chain loops hangs the kernel: when a cluster of a
    directory is its own successor and none of its slots ends the directory, the
    search of a name that is not in it never returns, whatever the fuel. *)
Theorem directory_cycle_hangs {D} `{Disk D} fs n F S c nm : geom fs n -> data_cluster fs c -> F c = c ->
  (forall s, 0 <= s < sectors_per_cluster (bpb fs) -> find_slots 16 0 (S c s) (to_ascii_uppercase nm) = NotHere) ->
  forall fuel (d : D), vol fs n d F S -> find_entry_in_dir fs fuel c nm d = NoFuel.
Proof.
  intros Hg Hc HF Hn. pose proof (geom_bounds fs n Hg) as Hb. assert (Hi : in_chain c = true) by (apply in_chain_spec; unfold data_cluster in Hc; lia).
  assert (Hcv : valid fs c) by (unfold valid, data_cluster in *; lia). unfold find_entry_in_dir.
  induction fuel as [|fuel IH]; intros d Hd; cbn [find_chain]; rewrite Hi; [done|]. set (nmu := to_ascii_uppercase nm) in *.
  destruct (wp_run _ _ _ _ _ _ _ (find_sectors_none fs n nmu c F S (urange 0 (sectors_per_cluster (bpb fs))) Hg Hc (fun s => proj1 (elem_of_urange _ _ _))
    (fun s Hs => Hn s (proj1 (elem_of_urange _ _ _) Hs))) Hd) as (r & d1 & F1 & S1 & E1 & Hd1 & -> & -> & ->).
  destruct (wp_read_fat fs n Hg c (fun r F' S' => r = Ok c /\ F' = F /\ S' = S) F S Hcv ltac:(by rewrite HF) d1 Hd1) as (r & d2 & F2 & S2 & E2 & Hd2 & -> & -> & ->).
  unfold mbind, io_bind. rewrite E1, E2. by apply IH.
Qed.

(** A volume of four clusters whose cluster 2 is its own successor and is full of
    deleted entries. *)
Definition loop_fs : Fat32Fs := mkFs 0 0 (mkBpb 512 1 0 1 64 1 2 0 0 []) 0 1 4.
Definition loop_fat (c : Z) : Z := if c =? 2 then 2 else 0.
Definition deleted_sector : list Z := replicate 512 0xE5.
Definition loop_disk : ide :=
  mkIde (fun _ l => if l =? 0 then put zero_sector 8 (le32 2) else deleted_sector) (fun u => if u =? 0 then 64 else 0) 0 0 0 0 0 (fun _ => 3%nat) 0 Idle false.

Lemma loop_geom : geom loop_fs 64.
Proof. split; cbn; lia. Qed.

Lemma loop_disk_ok : disk_ok (Disk := ata_disk) loop_disk 0.
Proof.
  split; [split; [done|change (0 < Z.to_nat POLLS)%nat; unfold POLLS; lia|intros k; change (3 < Z.to_nat POLLS)%nat; unfold POLLS; lia]|].
  intros l _. change (bytes512 (if l =? 0 then put zero_sector 8 (le32 2) else deleted_sector)). destruct (l =? 0).
  - apply bytes512_put; [apply bytes512_zero|apply to_le_bytes|by_compute].
  - split; [done|]. by apply Forall_replicate.
Qed.

Lemma loop_vol : vol (H := ata_disk) loop_fs 64 loop_disk loop_fat (fun _ _ => deleted_sector).
Proof.
  split; [apply loop_disk_ok|done| |].
  - intros k c Hk Hc. unfold valid in Hc. cbn [loop_fs total_clusters bpb num_fats] in *. assert (k = 0) as -> by lia.
    assert (c = 0 \/ c = 1 \/ c = 2 \/ c = 3) as [->|[->|[->| ->]]] by lia; reflexivity.
  - intros c s Hc Hs. unfold data_cluster in Hc. cbn [loop_fs total_clusters bpb sectors_per_cluster] in *. assert (s = 0) as -> by lia.
    assert (c = 2 \/ c = 3) as [->| ->] by lia; reflexivity.
Qed.

Lemma loop_closed : closed loop_fs loop_fat.
Proof. intros c Hc. unfold loop_fat. destruct (c =? 2); [|done]. intros _. unfold data_cluster. cbn. lia. Qed.

Lemma free_chain_witness : closed loop_fs loop_fat /\ exists d', free_cluster_chain (H := ata_disk) loop_fs 5 2 loop_disk = Ret (Ok tt, d').
Proof.
  split; [apply loop_closed|]. destruct (free_chain_terminates (H := ata_disk) loop_disk loop_fs 64 loop_fat (fun _ _ => deleted_sector) 2 5 loop_geom loop_vol loop_closed) as (d' & F' & E & _).
  - intros _. unfold data_cluster. cbn. lia.
  - cbn. lia.
  - exists d'. exact E.
Defined.

Lemma directory_cycle_witness : loop_fat 2 = 2 /\ find_entry_in_dir (H := ata_disk) loop_fs 1000 2 hello_name loop_disk = NoFuel.
Proof.
  split; [done|]. apply (directory_cycle_hangs (H := ata_disk) loop_fs 64 loop_fat (fun _ _ => deleted_sector) 2 hello_name loop_geom); [unfold data_cluster; cbn; lia|done| |apply loop_vol].
  intros s _. vm_compute. reflexivity.
Defined.

(** ** Names that do not fit *)
Lemma full_name_length buf off : (length (full_name buf off) <= 12)%nat.
Proof.
  unfold full_name. assert (Hs : forall k o, (length (trim_end (str_or_empty (get buf o k))) <= k)%nat).
  { intros k o. etransitivity; [apply trim_end_length|]. unfold str_or_empty. destruct (utf8_valid _ _); [unfold get; rewrite length_take; lia|cbn; lia]. }
  pose proof (Hs 8%nat off). pose proof (Hs 3%nat (off + 8)%nat). destruct (bool_decide _); rewrite ?length_app; cbn [length]; lia.
Qed.

Lemma read_slot_name buf i e : read_slot buf i = SlotEntry e -> (length (name e) <= 12)%nat.
Proof.
  unfold read_slot. destruct (_ =? 0); [done|]. destruct (_ =? 0xE5); [done|]. destruct (_ || _)%bool; [done|]. intros [= <-]. apply full_name_length.
Qed.

Lemma seek_long S ps nm : (12 < length nm)%nat -> seek (cells S ps) (to_ascii_uppercase nm) = None.
Proof.
  intros Hl. destruct (seek _ _) as [[e [[c s] i]]|] eqn:E; [|done]. exfalso. apply seek_elem in E as [En [fr Hin]]. apply elem_of_cells in Hin as (_ & _ & Hc).
  injection Hc as _ Hs. symmetry in Hs. apply read_slot_name in Hs. apply (f_equal length) in En. unfold to_ascii_uppercase in En. rewrite !length_fmap in En. lia.
Qed.

(** Names longer than 8.3 are lost: [read_file] of a path of the root whose name
    has more than twelve bytes answers that the file is not found, on every
    volume, whatever was written to it before. *)
Theorem long_name_lost {D} `{Disk D} (d : D) fs n F S ds path nm fuel : geom fs n -> vol fs n d F S -> root_path path nm -> (12 < length nm)%nat ->
  dchain fs F (root_cluster (bpb fs)) ds -> (Z.to_nat (total_clusters fs) <= fuel)%nat -> exists d', read_file fs fuel path d = Ret (Err Errors.NotFound, d').
Proof.
  intros Hg Hd Hp Hl Hds Hf. destruct (find_none fs n d F S ds nm fuel Hg Hd Hds (seek_long _ _ _ Hl) Hf) as [d' E]. exists d'.
  unfold read_file, resolve_path. rewrite (root_path_segments path nm Hp). pose proof Hp as (-> & Hne & _). rewrite bool_decide_false by done. cbn [resolve_segments].
  unfold mbind, io_bind. rewrite E. rewrite bool_decide_true by done. reflexivity.
Qed.

Definition notes_path : list Z := bytes_of "/release_notes.txt".
Definition notes_name : list Z := bytes_of "release_notes.txt".

Definition then_ {A B} (o : outcome (result A Fat32Error * ide)) (k : A -> ide -> outcome (result B Fat32Error * ide)) : outcome (result B Fat32Error * ide) :=
  match o with Ret (Ok a, d) => k a d | Ret (Err e, d) => Ret (Err e, d) | Panic => Panic | NoFuel => NoFuel end.
Definition result_of {A} (o : outcome (result A Fat32Error * ide)) : option (result A Fat32Error) :=
  match o with Ret (r, _) => Some r | _ => None end.

(** The write of such a name succeeds, and creates a file of another name. *)
Example long_name_truncated :
  result_of (then_ (format (H := ata_disk) 0 0 1024 (bytes_of "AURA") new_disk) (fun fs d1 =>
    then_ (write_file (H := ata_disk) fs 1024 notes_path hello_data d1) (fun _ d2 =>
      list_directory_cluster (H := ata_disk) fs 1024 2 d2))) = Some (Ok [mkDirEntry (bytes_of "RELEASE_.TXT") false 3 17 ATTR_ARCHIVE]).
Proof. vm_compute. reflexivity. Qed.

Lemma long_name_witness : exists d1, format (H := ata_disk) 0 0 1024 (bytes_of "AURA") new_disk = Ret (Ok new_disk_fs, d1) /\
  exists d2, read_file (H := ata_disk) new_disk_fs 1024 notes_path d1 = Ret (Err Errors.NotFound, d2).
Proof.
  destruct (format_run (H := ata_disk) new_disk 0 1024 0 1024 _ new_disk_space aura_bytes) as (d1 & E1 & Hd1). exists d1. split; [exact E1|].
  destruct (new_volume (H := ata_disk) _ _ _ _ _ _ _ _ new_disk_space Hd1) as (Hg & S & Hv & Hds & Hs).
  apply (long_name_lost (H := ata_disk) d1 new_disk_fs 1024 new_fat S [2] notes_path notes_name 1024 Hg Hv); [split; [reflexivity|]; split; [done|by_compute]|by_compute|exact Hds|].
  pose proof (spf_bounds 1024 0 1024 ltac:(done) ltac:(done) ltac:(done) ltac:(done)). cbn [new_disk_fs new_fs total_clusters]. lia.
Defined.

End FatFs.
