(* ===== verification/Serial.v ===== *)
(** * The serial port (src/src/drivers/serial.rs)

    The 16550 UART behind its ports, the ring buffer each CPU writes to, and the
    flusher of the boot processor that drains them.  A spinning wait has fuel. *)

From stdpp Require Import prelude numbers list strings.
From S2P Require Import Prelude Bytes Ring Io Task.
Import Bytes Ring.
Local Notation MAX_CPUS := Task.MAX_CPUS.

Module Serial.

Definition COM1_BASE : Z := 0x3F8.
Definition SERIAL_BUF_SIZE : Z := 8192.
Definition CR : Z := 13.
Definition LF : Z := 10.

(** ** The UART *)
Section Port.
Context {H : Type} `{Hardware H}.
Variable port_base : Z.
Definition reg (k : Z) : Z := wrap 16 (port_base + k).

Definition init : hw H () :=
  port_outb (reg 1) 0x00;;
  port_outb (reg 3) 0x80;;
  port_outb port_base 0x01;;
  port_outb (reg 1) 0x00;;
  port_outb (reg 3) 0x03;;
  port_outb (reg 2) 0xC7;;
  port_outb (reg 4) 0x0B.

Definition is_transmit_empty : hw H bool := v ← port_inb (reg 5); mret (negb (Z.land v 0x20 =? 0)).

Fixpoint send_byte (fuel : nat) (b : Z) : hwo H () :=
  match fuel with
  | O => spin
  | S fuel' => e ← dev is_transmit_empty; if (e : bool) then dev (port_outb port_base b) else send_byte fuel' b
  end.

Fixpoint send_bytes (fuel : nat) (l : list Z) : hwo H () :=
  match l with [] => mret tt | b :: l' => send_byte fuel b;; send_bytes fuel l' end.

(** [send_string]: a carriage return before each line feed. *)
Fixpoint send_string (fuel : nat) (s : list Z) : hwo H () :=
  match s with
  | [] => mret tt
  | b :: s' => (if b =? LF then send_byte fuel CR else mret tt);; send_byte fuel b;; send_string fuel s'
  end.

Definition has_received : hw H bool := v ← port_inb (reg 5); mret (negb (Z.land v 1 =? 0)).
Definition receive_byte : hw H (option Z) :=
  r ← has_received; if (r : bool) then b ← port_inb port_base; mret (Some b) else mret None.
End Port.

Definition receive_byte_lockfree {H} `{Hardware H} : hw H (option Z) :=
  v ← port_inb (COM1_BASE + 5); if negb (Z.land v 1 =? 0) then b ← port_inb COM1_BASE; mret (Some b) else mret None.

(** ** The ring of a CPU *)
Record PerCpuSerialBuffer := mkBuf { data : list Z; head : Z; tail : Z; dropped : Z }.
Definition new : PerCpuSerialBuffer := mkBuf (replicate (Z.to_nat SERIAL_BUF_SIZE) 0) 0 0 0.

Definition push_byte (s : PerCpuSerialBuffer) (byte : Z) : PerCpuSerialBuffer :=
  let next_tail := (tail s + 1) mod SERIAL_BUF_SIZE in
  if next_tail =? head s then mkBuf (data s) (head s) (tail s) (u64_add (dropped s) 1) else
  mkBuf (<[Z.to_nat (tail s) := byte]> (data s)) (head s) next_tail (dropped s).

Definition pop_byte (s : PerCpuSerialBuffer) : option Z * PerCpuSerialBuffer :=
  if head s =? tail s then (None, s) else
  (Some (nth (Z.to_nat (head s)) (data s) 0), mkBuf (data s) ((head s + 1) mod SERIAL_BUF_SIZE) (tail s) (dropped s)).

Definition len (s : PerCpuSerialBuffer) : Z := if head s <=? tail s then tail s - head s else SERIAL_BUF_SIZE - head s + tail s.
Definition is_empty (s : PerCpuSerialBuffer) : bool := head s =? tail s.
Definition take_dropped (s : PerCpuSerialBuffer) : Z * PerCpuSerialBuffer := (dropped s, mkBuf (data s) (head s) (tail s) 0).

(** [PerCpuSerialWriter::write_str] *)
Fixpoint write_str (s : PerCpuSerialBuffer) (text : list Z) : PerCpuSerialBuffer :=
  match text with
  | [] => s
  | b :: l => write_str (push_byte (if b =? LF then push_byte s CR else s) b) l
  end.

(** ** The module's state: [SERIAL_BUFFERS], [PERCPU_SERIAL_READY], and whether the
    [SERIAL1] lock is held. *)
Record serial := mkSerial { buffers : list PerCpuSerialBuffer; percpu_ready : bool; serial1_held : bool }.
Definition boot : serial := mkSerial (replicate MAX_CPUS new) false false.
Definition enable_percpu_buffering (s : serial) : serial := mkSerial (buffers s) true (serial1_held s).
Definition is_percpu_buffering_active (s : serial) : bool := percpu_ready s.
Definition set_buffers (s : serial) (l : list PerCpuSerialBuffer) : serial := mkSerial l (percpu_ready s) (serial1_held s).

Section Flush.
Context {H : Type} `{Hardware H}.

(** [while let Some(byte) = buf.pop_byte()]: at most as many turns as slots. *)
Fixpoint drain (turns fuel : nat) (b : PerCpuSerialBuffer) : hwo H PerCpuSerialBuffer :=
  match turns with
  | O => spin
  | S n =>
      let '(o, b') := pop_byte b in
      match o with Some byte => send_byte COM1_BASE fuel byte;; drain n fuel b' | None => mret b' end
  end.

Definition DROPPED : list Z := ascii_bytes "[DROPPED]" ++ [CR; LF].

Definition flush_cpu (fuel : nat) (b : PerCpuSerialBuffer) : hwo H PerCpuSerialBuffer :=
  let '(n, b) := take_dropped b in
  (if 0 <? n then send_bytes COM1_BASE fuel DROPPED else mret tt);;
  drain (Z.to_nat SERIAL_BUF_SIZE) fuel b.

(** [for cpu_id in 0..online], with [n] buffers left from [cpu] on. *)
Fixpoint flush_cpus (fuel : nat) (l : list PerCpuSerialBuffer) (cpu n : nat) : hwo H (list PerCpuSerialBuffer) :=
  match n with
  | O => mret l
  | S n' => b ← pure_ (at_ l cpu); b' ← flush_cpu fuel b; flush_cpus fuel (<[cpu := b']> l) (S cpu) n'
  end.

Fixpoint any_pending (l : list PerCpuSerialBuffer) (cpu n : nat) : outcome bool :=
  match n with O => Ret false | S n' => b ← at_ l cpu; if negb (is_empty b) then Ret true else any_pending l (S cpu) n' end.

Definition online (cpu_count : nat) : nat := Nat.min (Nat.max cpu_count 1) MAX_CPUS.

Definition serial_flush_all (fuel : nat) (cpu_count : nat) (s : serial) : hwo H serial :=
  if negb (is_percpu_buffering_active s) then mret s else
  p ← pure_ (any_pending (buffers s) 0 (online cpu_count));
  if negb p then mret s else
  if serial1_held s then mret s else
  l ← flush_cpus fuel (buffers s) 0 (online cpu_count);
  mret (set_buffers s l).

(** [_print] of the text of [args] by [cpu_id]; before buffering is active the text
    goes to the UART under the lock, which spins while it is held. *)
Definition print_ (fuel : nat) (cpu_id : nat) (text : list Z) (s : serial) : hwo H serial :=
  if is_percpu_buffering_active s then
    let cpu := if decide (cpu_id < MAX_CPUS)%nat then cpu_id else 0%nat in
    b ← pure_ (at_ (buffers s) cpu);
    mret (set_buffers s (<[cpu := write_str b text]> (buffers s)))
  else if serial1_held s then spin else send_string COM1_BASE fuel text;; mret s.
End Flush.

Definition serial_buffer_pending (s : serial) (cpu_id : nat) : outcome Z :=
  if decide (cpu_id < MAX_CPUS)%nat then b ← at_ (buffers s) cpu_id; Ret (len b) else Ret 0.
Definition serial_global_lock_held (s : serial) : bool := serial1_held s.

(** ** What a buffer holds *)
Definition buf_ok (s : PerCpuSerialBuffer) : Prop := ring_ok SERIAL_BUF_SIZE (data s) (head s) (tail s).
Definition pending (s : PerCpuSerialBuffer) : list Z := contents SERIAL_BUF_SIZE (data s) (head s) (tail s).
Definition full (s : PerCpuSerialBuffer) : bool := (tail s + 1) mod SERIAL_BUF_SIZE =? head s.

Lemma buf_cap : 2 <= SERIAL_BUF_SIZE.
Proof. unfold SERIAL_BUF_SIZE. lia. Qed.

Lemma new_buf_ok : buf_ok new /\ pending new = [].
Proof. split; [|done]. split; [|done]. unfold new, data. rewrite length_replicate. done. Qed.

Lemma push_byte_spec s b : buf_ok s -> buf_ok (push_byte s b) /\ pending (push_byte s b) = if full s then pending s else pending s ++ [b].
Proof.
  intros Hok. unfold push_byte, full. destruct (Z.eqb_spec ((tail s + 1) mod SERIAL_BUF_SIZE) (head s)) as [E|E]; [by split|].
  apply (push_contents _ buf_cap); [exact Hok|exact E].
Qed.

Lemma pop_byte_spec s : buf_ok s ->
  match pop_byte s with
  | (Some b, s') => buf_ok s' /\ pending s = b :: pending s'
  | (None, s') => s' = s /\ pending s = []
  end.
Proof.
  intros Hok. unfold pop_byte. destruct (Z.eqb_spec (head s) (tail s)) as [E|E].
  - split; [done|]. by apply (contents_empty _ buf_cap).
  - by apply (pop_contents _ buf_cap).
Qed.

Lemma full_iff_held s : buf_ok s -> full s = true <-> Z.of_nat (length (pending s)) = SERIAL_BUF_SIZE - 1.
Proof.
  intros (_ & Hh & Ht). unfold full, pending. rewrite Z.eqb_eq, length_contents. fold (next SERIAL_BUF_SIZE (tail s)). rewrite (full_iff _ buf_cap) by done.
  unfold held. pose proof (Z.mod_pos_bound (tail s - head s) SERIAL_BUF_SIZE ltac:(done)). lia.
Qed.

(** ** Concurrent use

    Writers push to the buffer of their CPU while the flusher pops and takes the
    count of dropped bytes, one critical section after the other. *)
Inductive action := Push (cpu : nat) (b : Z) | Pop (cpu : nat) | Take (cpu : nat).
Inductive event := Accepted (cpu : nat) (b : Z) | Dropped (cpu : nat) | Popped (cpu : nat) (b : Z) | Quiet.
Definition cpu_of (a : action) : nat := match a with Push c _ => c | Pop c => c | Take c => c end.

Definition perform (l : list PerCpuSerialBuffer) (a : action) : outcome (event * list PerCpuSerialBuffer) :=
  s ← at_ l (cpu_of a);
  match a with
  | Push c b => Ret (if full s then Dropped c else Accepted c b, <[c := push_byte s b]> l)
  | Pop c => let '(o, s') := pop_byte s in Ret (match o with Some b => Popped c b | None => Quiet end, <[c := s']> l)
  | Take c => Ret (Quiet, <[c := (take_dropped s).2]> l)
  end.
Fixpoint run (l : list PerCpuSerialBuffer) (acts : list action) : outcome (list event * list PerCpuSerialBuffer) :=
  match acts with
  | [] => Ret ([], l)
  | a :: acts' => r ← perform l a; let '(e, l') := r in r2 ← run l' acts'; Ret (e :: r2.1, r2.2)
  end.

Definition accepted (cpu : nat) (es : list event) : list Z := omap (fun e => match e with Accepted c b => if decide (c = cpu) then Some b else None | _ => None end) es.
Definition popped (cpu : nat) (es : list event) : list Z := omap (fun e => match e with Popped c b => if decide (c = cpu) then Some b else None | _ => None end) es.

Lemma perform_ring_spec l a : Forall buf_ok l -> (cpu_of a < length l)%nat ->
  exists e l', perform l a = Ret (e, l') /\ length l' = length l /\ Forall buf_ok l' /\
    forall cpu, popped cpu [e] ++ default [] (pending <$> l' !! cpu) = default [] (pending <$> l !! cpu) ++ accepted cpu [e].
Proof.
  intros Hl Hc. destruct (lookup_lt_is_Some_2 l (cpu_of a) Hc) as [s Hs]. pose proof (Forall_lookup_1 _ _ _ _ Hl Hs) as Hok. unfold perform. rewrite (at_Ret l _ s Hs). cbn [mbind outcome_bind].
  assert (Hins : forall s', buf_ok s' -> Forall buf_ok (<[cpu_of a := s']> l)) by (intros s' Hs'; by apply Forall_insert).
  assert (Hother : forall s' cpu, cpu <> cpu_of a -> <[cpu_of a := s']> l !! cpu = l !! cpu) by (intros s' cpu Hne; by apply list_lookup_insert_ne).
  destruct a as [c b|c|c]; cbn [cpu_of] in *.
  - destruct (push_byte_spec s b Hok) as [Hok' Hp]. eexists _, _. split; [done|]. split; [apply length_insert|]. split; [by apply Hins|]. intros cpu.
    destruct (decide (cpu = c)) as [->|Hne].
    + rewrite list_lookup_insert_eq, Hs by done. cbn [fmap option_fmap option_map default]. rewrite Hp. destruct (full s); cbn; [by rewrite app_nil_r|by rewrite decide_True].
    + rewrite Hother by done. destruct (full s); cbn; [by rewrite app_nil_r|]. rewrite decide_False by done. by rewrite app_nil_r.
  - pose proof (pop_byte_spec s Hok) as Hp. destruct (pop_byte s) as [[b|] s'].
    + destruct Hp as [Hok' Hp]. eexists _, _. split; [done|]. split; [apply length_insert|]. split; [by apply Hins|]. intros cpu. destruct (decide (cpu = c)) as [->|Hne].
      * rewrite list_lookup_insert_eq, Hs by done. cbn. rewrite decide_True, Hp by done. by rewrite app_nil_r.
      * rewrite Hother by done. cbn. rewrite decide_False by done. by rewrite app_nil_r.
    + destruct Hp as [-> Hp]. eexists _, _. split; [done|]. split; [apply length_insert|]. split; [by apply Hins|]. intros cpu. rewrite list_insert_id by done. cbn. by rewrite app_nil_r.
  - eexists _, _. split; [done|]. split; [apply length_insert|]. split; [by apply Hins|]. intros cpu. cbn [popped accepted omap list_omap app]. rewrite app_nil_r. destruct (decide (cpu = c)) as [->|Hne].
    + by rewrite list_lookup_insert_eq, Hs.
    + by rewrite Hother.
Qed.

Lemma run_spec acts : forall l, Forall buf_ok l -> Forall (fun a => (cpu_of a < length l)%nat) acts ->
  exists es l', run l acts = Ret (es, l') /\ length l' = length l /\ Forall buf_ok l' /\
    forall cpu, popped cpu es ++ default [] (pending <$> l' !! cpu) = default [] (pending <$> l !! cpu) ++ accepted cpu es.
Proof.
  induction acts as [|a acts IH]; intros l Hl Ha; cbn [run].
  { exists [], l. split; [done|]. split; [done|]. split; [done|]. intros cpu. cbn. by rewrite app_nil_r. }
  apply Forall_cons_1 in Ha as [Ha Has]. destruct (perform_ring_spec l a Hl Ha) as (e & l1 & -> & Hlen & Hl1 & He). cbn [mbind outcome_bind].
  destruct (IH l1 Hl1) as (es & l2 & -> & Hlen2 & Hl2 & Hes); [by rewrite Hlen|]. cbn [mbind outcome_bind fst snd]. exists (e :: es), l2.
  split; [done|]. split; [lia|]. split; [done|]. intros cpu. change (e :: es) with ([e] ++ es). unfold popped, accepted in *. rewrite !omap_app, <- app_assoc, Hes, app_assoc, He.
  by rewrite app_assoc.
Qed.

(** INV-S1, the order of one CPU's output: however the writers of all CPUs and
    the flusher interleave, for each CPU the bytes popped so far followed by the
    bytes still in its buffer are exactly the bytes accepted from that CPU, in
    order; a byte is refused only when the buffer holds 8191 bytes. *)
Theorem serial_fifo acts : Forall (fun a => (cpu_of a < MAX_CPUS)%nat) acts ->
  exists es l, run (buffers boot) acts = Ret (es, l) /\
    forall cpu s, l !! cpu = Some s -> popped cpu es ++ pending s = accepted cpu es /\
      (full s = true <-> Z.of_nat (length (pending s)) = SERIAL_BUF_SIZE - 1).
Proof.
  intros Ha. destruct (run_spec acts (buffers boot)) as (es & l & E & Hlen & Hl & Hes).
  - apply Forall_replicate, new_buf_ok.
  - exact Ha.
  - exists es, l. split; [done|]. intros cpu s Hs. specialize (Hes cpu). rewrite Hs in Hes. cbn [fmap option_fmap option_map default] in Hes. split; [|apply full_iff_held; by eapply Forall_lookup_1].
    unfold id in Hes. rewrite Hes. destruct (buffers boot !! cpu) as [s0|] eqn:E0; [|done]. apply lookup_replicate in E0 as [-> _]. cbn [fmap option_fmap option_map default]. by rewrite (proj2 new_buf_ok).
Qed.

Definition demo_actions : list action := [Push 0 65; Push 1 66; Pop 0; Push 0 67; Take 0; Pop 1; Push 1 68].
Lemma serial_fifo_witness : Forall (fun a => (cpu_of a < MAX_CPUS)%nat) demo_actions /\ exists es l, run (buffers boot) demo_actions = Ret (es, l).
Proof.
  assert (Ha : Forall (fun a => (cpu_of a < MAX_CPUS)%nat) demo_actions) by by_compute. split; [exact Ha|].
  destruct (serial_fifo demo_actions Ha) as (es & l & E & _). exists es, l. exact E.
Defined.

(** Carriage returns as the writers insert them. *)
Definition crlf (text : list Z) : list Z := text ≫= fun b => if b =? LF then [CR; LF] else [b].

Lemma write_str_spec text : forall b, buf_ok b -> Z.of_nat (length (pending b) + length (crlf text)) < SERIAL_BUF_SIZE ->
  buf_ok (write_str b text) /\ pending (write_str b text) = pending b ++ crlf text /\ dropped (write_str b text) = dropped b.
Proof.
  assert (Hpush : forall b x, buf_ok b -> Z.of_nat (length (pending b)) < SERIAL_BUF_SIZE - 1 ->
    buf_ok (push_byte b x) /\ pending (push_byte b x) = pending b ++ [x] /\ dropped (push_byte b x) = dropped b).
  { intros b x Hok Hl. destruct (push_byte_spec b x Hok) as [Hok' Hp]. assert (Hf : full b = false) by (apply not_true_is_false; rewrite (full_iff_held b Hok); lia).
    rewrite Hf in Hp. split; [done|]. split; [done|]. unfold push_byte. unfold full in Hf. by rewrite Hf. }
  induction text as [|x text IH]; intros b Hok Hl; cbn [write_str]; [rewrite app_nil_r; done|]. change (crlf (x :: text)) with ((if x =? LF then [CR; LF] else [x]) ++ crlf text) in *.
  rewrite length_app in Hl. destruct (Z.eqb_spec x LF) as [->|]; cbn [length] in Hl.
  - destruct (Hpush b CR Hok) as (H1 & P1 & D1); [lia|]. destruct (Hpush _ LF H1) as (H2 & P2 & D2); [rewrite P1, length_app; cbn [length]; lia|].
    destruct (IH _ H2) as (H3 & P3 & D3); [rewrite P2, P1, !length_app; cbn [length]; lia|]. split; [done|]. rewrite P3, P2, P1, D3, D2, D1, <- !app_assoc. done.
  - destruct (Hpush b x Hok) as (H1 & P1 & D1); [lia|]. destruct (IH _ H1) as (H3 & P3 & D3); [rewrite P1, length_app; cbn [length]; lia|]. split; [done|].
    rewrite P3, P1, D3, D1, <- !app_assoc. done.
Qed.

Lemma any_pending_false l n : forall cpu, Forall buf_ok l -> (cpu + n <= length l)%nat -> exists p, any_pending l cpu n = Ret p /\ (p = false -> concat (pending <$> take n (drop cpu l)) = []).
Proof.
  induction n as [|n IH]; intros cpu Hl Hlen; cbn [any_pending]; [by exists false|].
  destruct (lookup_lt_is_Some_2 l cpu ltac:(lia)) as [b Hb]. rewrite (at_Ret l cpu b Hb). cbn [mbind outcome_bind]. unfold is_empty. destruct (Z.eqb_spec (head b) (tail b)) as [E|E]; cbn [negb].
  - destruct (IH (S cpu) Hl ltac:(lia)) as (p & -> & Hp). exists p. split; [done|]. intros Hf. rewrite (drop_S _ _ _ Hb). cbn [take fmap list_fmap concat]. rewrite (Hp Hf), app_nil_r.
    apply (proj2 (contents_empty _ buf_cap _ _ _ (Forall_lookup_1 _ _ _ _ Hl Hb))). exact E.
  - by exists true.
Qed.

(** ** Flushing to a UART *)

(** A port at COM1 that transmits: [line] is what has been sent, [polls] the number
    of status reads until the holding register is empty again. *)
Class Uart (H : Type) `{Hardware H} := {
  uart_ok : H -> Prop;
  line : H -> list Z;
  polls : H -> nat;
  max_polls : nat;
  polls_bound h : uart_ok h -> (polls h <= max_polls)%nat;
  status_law h v h' : uart_ok h -> inb h (COM1_BASE + 5) = (v, h') ->
    uart_ok h' /\ line h' = line h /\ polls h' = pred (polls h) /\ (Z.land v 0x20 = 0 <-> polls h <> O);
  transmit_law h b : uart_ok h -> polls h = O -> uart_ok (outb h COM1_BASE b) /\ line (outb h COM1_BASE b) = line h ++ [b]
}.

Section Flushing.
Context {H : Type} {HW : Hardware H} {HU : Uart H}.
Variable fuel : nat.
Hypothesis Hfuel : (max_polls < fuel)%nat.

(** The code returns [a] and has sent [bs]. *)
Definition sends {A} (m : hwo H A) (a : A) (bs : list Z) : Prop := forall h, uart_ok h -> exists h', m h = Ret (a, h') /\ uart_ok h' /\ line h' = line h ++ bs.

Lemma sends_ret {A} (a : A) : sends (mret a) a [].
Proof. intros h Hh. exists h. rewrite app_nil_r. done. Qed.

Lemma sends_bind {A B} (m : hwo H A) (f : A -> hwo H B) a b l1 l2 : sends m a l1 -> sends (f a) b l2 -> sends (m ≫= f) b (l1 ++ l2).
Proof.
  intros Hm Hf h Hh. destruct (Hm h Hh) as (h1 & E1 & H1 & L1). destruct (Hf h1 H1) as (h2 & E2 & H2 & L2). exists h2. unfold mbind, hwo_bind. rewrite E1, L2, L1, app_assoc. done.
Qed.

Lemma sends_pure {A} (o : outcome A) a : o = Ret a -> sends (pure_ o) a [].
Proof. intros -> h Hh. exists h. rewrite app_nil_r. done. Qed.

Lemma send_byte_polls b k : forall f h, uart_ok h -> polls h = k -> (k < f)%nat -> exists h', send_byte COM1_BASE f b h = Ret (tt, h') /\ uart_ok h' /\ line h' = line h ++ [b].
Proof.
  induction k as [|k IH]; intros [|f] h Hh Hp Hf; try lia; cbn [send_byte]; unfold mbind, hwo_bind, dev, is_transmit_empty, port_inb; change (reg COM1_BASE 5) with (COM1_BASE + 5);
    unfold mbind, hw_bind; destruct (inb h (COM1_BASE + 5)) as [v h1] eqn:E; destruct (status_law h v h1 Hh E) as (H1 & L1 & P1 & Hv); unfold mret, hw_ret.
  - rewrite (proj2 (Z.eqb_neq _ _)) by (intros Hz; by apply Hv in Hz). cbn [negb]. destruct (transmit_law h1 b H1) as [H2 L2]; [by rewrite P1, Hp|].
    exists (outb h1 COM1_BASE b). rewrite L2, L1. done.
  - rewrite (proj2 (Z.eqb_eq _ _)) by (apply Hv; lia). cbn [negb]. destruct (IH f h1 H1) as (h2 & E2 & H2 & L2); [by rewrite P1, Hp|lia|]. exists h2. rewrite L2, L1. done.
Qed.

Lemma sends_byte b : sends (send_byte COM1_BASE fuel b) tt [b].
Proof. intros h Hh. apply (send_byte_polls b (polls h)); [done|done|]. pose proof (polls_bound h Hh). lia. Qed.

Lemma sends_bytes l : sends (send_bytes COM1_BASE fuel l) tt l.
Proof. induction l as [|b l IH]; [apply sends_ret|]. cbn [send_bytes]. change (b :: l) with ([b] ++ l). eapply sends_bind; [apply sends_byte|exact IH]. Qed.

Definition emptied (b b' : PerCpuSerialBuffer) : Prop := buf_ok b' /\ pending b' = [] /\ dropped b' = dropped b.

Lemma sends_drain turns : forall b, buf_ok b -> (length (pending b) < turns)%nat -> exists b', emptied b b' /\ sends (drain turns fuel b) b' (pending b).
Proof.
  induction turns as [|n IH]; intros b Hok Hl; [lia|]. cbn [drain]. pose proof (pop_byte_spec b Hok) as Hp. assert (Hd : dropped (pop_byte b).2 = dropped b) by (unfold pop_byte; by destruct (_ =? _)).
  destruct (pop_byte b) as [[x|] b1].
  - destruct Hp as [Hok1 Hp]. rewrite Hp in Hl. cbn [length] in Hl. destruct (IH b1 Hok1) as (b' & (Hok' & Hp' & Hd') & Hs); [lia|]. exists b'. split; [split; [done|]; split; [done|]; cbn in Hd; congruence|].
    rewrite Hp. change (x :: pending b1) with ([x] ++ pending b1). eapply sends_bind; [apply sends_byte|exact Hs].
  - destruct Hp as [-> Hp]. exists b. split; [by split|]. rewrite Hp. apply sends_ret.
Qed.

(** What the flusher sends for one buffer. *)
Definition report (b : PerCpuSerialBuffer) : list Z := (if 0 <? dropped b then DROPPED else []) ++ pending b.

Lemma sends_flush_cpu b : buf_ok b -> exists b', buf_ok b' /\ pending b' = [] /\ dropped b' = 0 /\ sends (flush_cpu fuel b) b' (report b).
Proof.
  intros Hok. unfold flush_cpu, take_dropped. set (b0 := mkBuf (data b) (head b) (tail b) 0).
  destruct (sends_drain (Z.to_nat SERIAL_BUF_SIZE) b0 Hok) as (b' & (H1 & H2 & H3) & Hs).
  { pose proof (contents_bound _ buf_cap _ _ _ Hok) as Hb. change (pending b0) with (pending b). unfold pending. lia. }
  exists b'. split; [done|]. split; [done|]. split; [done|]. unfold report. eapply sends_bind; [|exact Hs]. destruct (0 <? dropped b); [apply sends_bytes|apply sends_ret].
Qed.

Lemma sends_flush_cpus n : forall l cpu, Forall buf_ok l -> (cpu + n <= length l)%nat -> exists l', length l' = length l /\ Forall buf_ok l' /\
  (forall i b, l' !! i = Some b -> (cpu <= i < cpu + n)%nat -> pending b = [] /\ dropped b = 0) /\ (forall i, ~ (cpu <= i < cpu + n)%nat -> l' !! i = l !! i) /\
  sends (flush_cpus fuel l cpu n) l' (concat (report <$> take n (drop cpu l))).
Proof.
  induction n as [|n IH]; intros l cpu Hl Hlen; cbn [flush_cpus].
  { exists l. split; [done|]. split; [done|]. split; [intros; lia|]. split; [done|]. apply sends_ret. }
  destruct (lookup_lt_is_Some_2 l cpu ltac:(lia)) as [b Hb]. destruct (sends_flush_cpu b (Forall_lookup_1 _ _ _ _ Hl Hb)) as (b' & Hok' & Hp' & Hd' & Hs).
  destruct (IH (<[cpu := b']> l) (S cpu)) as (l' & Hlen' & Hl' & Hin & Hout & Hs'); [by apply Forall_insert|rewrite length_insert; lia|]. rewrite length_insert in Hlen'.
  assert (Hcpu : l' !! cpu = Some b') by (rewrite Hout by lia; by rewrite list_lookup_insert_eq by lia).
  exists l'. split; [done|]. split; [done|]. split; [|split].
  - intros i x Hi Hr. destruct (decide (i = cpu)) as [->|]; [|apply (Hin i); [done|lia]]. assert (x = b') as -> by congruence. done.
  - intros i Hi. rewrite Hout by lia. apply list_lookup_insert_ne. lia.
  - rewrite (drop_S _ _ _ Hb). cbn [take fmap list_fmap concat]. rewrite <- (app_nil_l (report b ++ _)). eapply sends_bind; [by apply sends_pure, at_Ret|]. eapply sends_bind; [exact Hs|].
    rewrite drop_insert_lt in Hs' by lia. exact Hs'.
Qed.

End Flushing.

(** What a CPU prints reaches the wire: with buffering active and the port's
    lock free, printing a text on an online CPU whose buffer has room and then
    flushing sends, in the order of the CPUs, what each buffer held (with a notice
    for the CPUs that lost bytes), the text at its place with a carriage return
    before every line feed; afterwards the buffers of all online CPUs are empty
    and nothing is reported twice. *)
Theorem print_then_flush {H} `{Uart H} (h : H) fuel s cpu count text b : uart_ok h -> (max_polls < fuel)%nat -> length (buffers s) = MAX_CPUS -> Forall buf_ok (buffers s) ->
  percpu_ready s = true -> serial1_held s = false -> (cpu < online count)%nat -> buffers s !! cpu = Some b -> text <> [] ->
  Z.of_nat (length (pending b) + length (crlf text)) < SERIAL_BUF_SIZE ->
  exists s' h', (s1 ← print_ fuel cpu text s; serial_flush_all fuel count s1) h = Ret (s', h') /\
    line h' = line h ++ concat (report <$> take cpu (buffers s)) ++ report b ++ crlf text ++ concat (report <$> take (online count - S cpu) (drop (S cpu) (buffers s))) /\
    forall i b', buffers s' !! i = Some b' -> (i < online count)%nat -> pending b' = [] /\ dropped b' = 0.
Proof.
  intros Hh Hf Hlen Hl Hr Hheld Hc Hb Hne Hroom. assert (Hon : (online count <= MAX_CPUS)%nat) by (unfold online; lia).
  pose proof (Forall_lookup_1 _ _ _ _ Hl Hb) as Hokb. destruct (write_str_spec text b Hokb Hroom) as (Hok' & Hp' & Hd').
  set (bufs := <[cpu := write_str b text]> (buffers s)). assert (Hlb : length bufs = MAX_CPUS) by (unfold bufs; by rewrite length_insert).
  assert (Hbufs : Forall buf_ok bufs) by (by apply Forall_insert).
  destruct (sends_flush_cpus fuel Hf (online count) bufs 0 Hbufs) as (l' & Hlen' & Hl' & Hin & _ & Hs); [lia|]. rewrite drop_0 in Hs.
  assert (Hne2 : concat (pending <$> take (online count) bufs) <> []).
  { intros E. apply concat_nil_Forall in E. rewrite Forall_fmap, Forall_forall in E. assert (Hin' : write_str b text ∈ take (online count) bufs).
    { apply (list_elem_of_lookup_2 _ cpu). rewrite lookup_take_lt by lia. unfold bufs. by rewrite list_lookup_insert_eq by lia. }
    apply E in Hin'. cbn in Hin'. rewrite Hp' in Hin'. apply app_eq_nil in Hin' as [_ Hcr]. destruct text as [|x text]; [done|].
    unfold crlf in Hcr. cbn in Hcr. destruct (x =? LF); done. }
  destruct (any_pending_false bufs (online count) 0 Hbufs ltac:(lia)) as (p & Hp & Hpf). rewrite drop_0 in Hpf.
  assert (p = true) as -> by (destruct p; [done|by exfalso; apply Hne2, Hpf]).
  destruct (Hs h Hh) as (h' & E & _ & Hline). exists (set_buffers (set_buffers s bufs) l'), h'. split; [|split].
  - unfold print_, is_percpu_buffering_active. unfold mbind at 1, hwo_bind at 1. rewrite Hr, decide_True by lia.
    unfold mbind at 1, hwo_bind at 1, pure_ at 1. rewrite (at_Ret _ _ b Hb). cbn [mbind outcome_bind]. unfold mret at 1, hwo_ret at 1. fold bufs.
    unfold serial_flush_all, is_percpu_buffering_active. cbn [set_buffers percpu_ready serial1_held buffers]. rewrite Hr, Hheld. cbn [negb].
    unfold mbind at 1, hwo_bind at 1, pure_ at 1. rewrite Hp. cbn [mbind outcome_bind negb]. unfold mbind, hwo_bind. rewrite E. done.
  - rewrite Hline. f_equal. unfold bufs. rewrite insert_take_drop by lia. rewrite take_app, !fmap_app, !concat_app. rewrite length_take, take_take.
    replace (min (online count) cpu) with cpu by lia. replace (online count - min cpu (length (buffers s)))%nat with (S (online count - S cpu)) by lia.
    cbn [take fmap list_fmap concat]. assert (Er : report (write_str b text) = report b ++ crlf text) by (unfold report; by rewrite Hp', Hd', app_assoc). by rewrite Er, <- !app_assoc.
  - intros i b' Hi Hlt. apply (Hin i); [done|lia].
Qed.

(** *** Witness: a machine that is one UART *)
Record uart := mkUart { sent : list Z; busy : nat }.
#[global] Instance uart_hardware : Hardware uart := {
  outb u port v := if port =? COM1_BASE then mkUart (sent u ++ [v]) 2 else u;
  inb u port := if port =? COM1_BASE + 5 then (match busy u with O => 0x20 | _ => 0 end, mkUart (sent u) (pred (busy u))) else (0, u);
  outw u _ _ := u; inw u _ := (0, u); outl u _ _ := u; inl u _ := (0, u); write_volatile u _ _ := u; read_volatile u _ := (0, u)
}.
#[global] Program Instance uart_uart : Uart uart := { uart_ok u := (busy u <= 2)%nat; line := sent; polls := busy; max_polls := 2 }.
Next Obligation. done. Qed.
Next Obligation. intros h v h' Hok [= <- <-]. cbn in *. split; [lia|]. split; [done|]. split; [done|]. by destruct (busy h). Qed.
Next Obligation. intros h b Hok Hb. cbn in *. split; [lia|done]. Qed.

Definition active : serial := enable_percpu_buffering boot.
Lemma print_then_flush_witness : length (buffers active) = MAX_CPUS /\
  exists s' h', (s1 ← print_ 3 1 (ascii_bytes "ok") active; serial_flush_all 3 2 s1) (mkUart [] 0) = Ret (s', h') /\ sent h' = ascii_bytes "ok".
Proof.
  split; [done|]. destruct (print_then_flush (mkUart [] 0) 3 active 1 2 (ascii_bytes "ok") new) as (s' & h' & E & L & _).
  - cbn. lia.
  - cbn. lia.
  - done.
  - apply Forall_replicate, new_buf_ok.
  - done.
  - done.
  - by_compute.
  - done.
  - done.
  - rewrite (proj2 new_buf_ok). done.
  - exists s', h'. split; [exact E|]. exact L.
Defined.

End Serial.
