(* ===== verification/Vga.v ===== *)
(** * The text console (src/src/drivers/vga.rs)

    The 80x25 text buffer, the writer that scrolls it, and what the screen shows
    after any text: its last 25 lines, wrapped at 80 columns. *)

From stdpp Require Import prelude numbers list strings.
From S2P Require Import Prelude Bytes.
Import Bytes.

Module Vga.

Inductive Color :=
| Black | Blue | Green | Cyan | Red | Magenta | Brown | LightGray
| DarkGray | LightBlue | LightGreen | LightCyan | LightRed | Pink | Yellow | White.
Definition color_byte (c : Color) : Z :=
  match c with
  | Black => 0 | Blue => 1 | Green => 2 | Cyan => 3 | Red => 4 | Magenta => 5 | Brown => 6 | LightGray => 7
  | DarkGray => 8 | LightBlue => 9 | LightGreen => 10 | LightCyan => 11 | LightRed => 12 | Pink => 13 | Yellow => 14 | White => 15
  end.
(** [ColorCode::new] *)
Definition color_code_new (foreground background : Color) : Z := Z.lor (wrap 8 (Z.shiftl (color_byte background) 4)) (color_byte foreground).

Record ScreenChar := mkChar { ascii_character : Z; char_color : Z }.
Definition BUFFER_HEIGHT : nat := 25.
Definition BUFFER_WIDTH : nat := 80.

(** [Writer] with the buffer it points to. *)
Record Writer := mkWriter { column_position : nat; color_code : Z; chars : list (list ScreenChar) }.

(** [chars[row][col]], read and written with Rust's bounds checks. *)
Definition get_char (b : list (list ScreenChar)) (row col : nat) : outcome ScreenChar := r ← at_ b row; at_ r col.
Definition set_char (b : list (list ScreenChar)) (row col : nat) (c : ScreenChar) : outcome (list (list ScreenChar)) :=
  r ← at_ b row; r' ← update r col (fun _ => c); Ret (<[row := r']> b).

(** [for i in l] over a state. *)
Fixpoint for_in {A} (l : list nat) (body : nat -> A -> outcome A) (a : A) : outcome A :=
  match l with [] => Ret a | i :: l' => a' ← body i a; for_in l' body a' end.

Definition blank (color : Z) : ScreenChar := mkChar 32 color.

Definition clear_row (w : Writer) (row : nat) : outcome Writer :=
  b ← for_in (seq 0 BUFFER_WIDTH) (fun col b => set_char b row col (blank (color_code w))) (chars w);
  Ret (mkWriter (column_position w) (color_code w) b).

Definition new_line (w : Writer) : outcome Writer :=
  b ← for_in (seq 1 (BUFFER_HEIGHT - 1)) (fun row b =>
        for_in (seq 0 BUFFER_WIDTH) (fun col b => character ← get_char b row col; set_char b (row - 1) col character) b) (chars w);
  w' ← clear_row (mkWriter (column_position w) (color_code w) b) (BUFFER_HEIGHT - 1);
  Ret (mkWriter 0 (color_code w') (chars w')).

Definition LF : Z := 10.
Definition write_byte (w : Writer) (byte : Z) : outcome Writer :=
  if byte =? LF then new_line w else
  w ← (if Nat.leb BUFFER_WIDTH (column_position w) then new_line w else Ret w);
  b ← set_char (chars w) (BUFFER_HEIGHT - 1) (column_position w) (mkChar byte (color_code w));
  Ret (mkWriter (S (column_position w)) (color_code w) b).

(** The byte [write_string] hands to [write_byte]. *)
Definition printable (byte : Z) : Z := if (((0x20 <=? byte) && (byte <=? 0x7e)) || (byte =? LF))%bool then byte else 0xfe.
Fixpoint write_string (w : Writer) (s : list Z) : outcome Writer :=
  match s with [] => Ret w | byte :: s' => w' ← write_byte w (printable byte); write_string w' s' end.

Definition clear_screen (w : Writer) : outcome Writer :=
  w' ← for_in (seq 0 BUFFER_HEIGHT) (fun row w => clear_row w row) w;
  Ret (mkWriter 0 (color_code w') (chars w')).

Definition backspace (w : Writer) : outcome Writer :=
  if Nat.ltb 0 (column_position w) then
    let col := (column_position w - 1)%nat in
    b ← set_char (chars w) (BUFFER_HEIGHT - 1) col (blank (color_code w));
    Ret (mkWriter col (color_code w) b)
  else Ret w.

Definition set_color (w : Writer) (foreground background : Color) : Writer := mkWriter (column_position w) (color_code_new foreground background) (chars w).

(** The static [WRITER] over the video memory [b]. *)
Definition WRITER (b : list (list ScreenChar)) : Writer := mkWriter 0 (color_code_new LightCyan Black) b.

(** ** The operations on whole rows *)
Definition screen_ok (b : list (list ScreenChar)) : Prop := length b = BUFFER_HEIGHT /\ Forall (fun r => length r = BUFFER_WIDTH) b.
Definition blank_row (color : Z) : list ScreenChar := replicate BUFFER_WIDTH (blank color).

Lemma set_char_ret b row col c r : b !! row = Some r -> (col < length r)%nat -> set_char b row col c = Ret (<[row := <[col := c]> r]> b).
Proof.
  intros Hr Hc. unfold set_char. rewrite (at_Ret b row r Hr). cbn [mbind outcome_bind]. unfold update. destruct (lookup_lt_is_Some_2 r col Hc) as [x Hx]. by rewrite (at_Ret r col x Hx).
Qed.

Lemma get_char_ret b row col r x : b !! row = Some r -> r !! col = Some x -> get_char b row col = Ret x.
Proof. intros Hr Hx. unfold get_char. rewrite (at_Ret b row r Hr). cbn [mbind outcome_bind]. by apply at_Ret. Qed.

(** Filling a row from the left, while [P] holds of the buffer. *)
Lemma fill_row (P : list (list ScreenChar) -> Prop) f g row b r0 :
  (forall b col, P b -> (col < BUFFER_WIDTH)%nat -> f col b = set_char b row col (g col)) -> (forall b r, P b -> P (<[row := r]> b)) ->
  P b -> b !! row = Some r0 -> length r0 = BUFFER_WIDTH -> for_in (seq 0 BUFFER_WIDTH) f b = Ret (<[row := g <$> seq 0 BUFFER_WIDTH]> b).
Proof.
  intros Hf HP Hb Hr Hl. assert (Hlt : (row < length b)%nat) by (by eapply lookup_lt_Some).
  assert (Hgen : forall n k, (k + n = BUFFER_WIDTH)%nat -> for_in (seq k n) f (<[row := (g <$> seq 0 k) ++ drop k r0]> b) = Ret (<[row := g <$> seq 0 BUFFER_WIDTH]> b)).
  { induction n as [|n IH]; intros k Hk; cbn [seq for_in].
    - rewrite drop_ge, app_nil_r by lia. by replace k with BUFFER_WIDTH by lia.
    - rewrite Hf by (apply HP, Hb || lia). erewrite set_char_ret; [|by rewrite list_lookup_insert_eq|rewrite length_app, length_fmap, length_seq, length_drop; lia].
      cbn [mbind outcome_bind]. rewrite list_insert_insert_eq. rewrite <- (IH (S k) ltac:(lia)). do 2 f_equal. rewrite insert_app_r_alt by (rewrite length_fmap, length_seq; lia).
      rewrite length_fmap, length_seq, Nat.sub_diag. destruct (lookup_lt_is_Some_2 r0 k ltac:(lia)) as [x Hx]. rewrite (drop_S r0 x k Hx). cbn [insert list_insert].
      rewrite seq_S, fmap_app, <- app_assoc. done. }
  specialize (Hgen BUFFER_WIDTH 0%nat eq_refl). cbn [seq fmap list_fmap app] in Hgen. rewrite drop_0, list_insert_id in Hgen by done. exact Hgen.
Qed.

Lemma map_lookup_seq {A} (r : list A) d : (fun col => nth col r d) <$> seq 0 (length r) = r.
Proof.
  apply list_eq. intros i. rewrite list_lookup_fmap. destruct (decide (i < length r)%nat) as [Hi|Hi].
  - rewrite lookup_seq_lt by done. cbn. destruct (lookup_lt_is_Some_2 r i Hi) as [x Hx]. by rewrite (nth_lookup_Some _ _ _ _ Hx), Hx.
  - rewrite lookup_seq_ge, lookup_ge_None_2 by lia. done.
Qed.

Lemma clear_row_spec w row r : chars w !! row = Some r -> length r = BUFFER_WIDTH ->
  clear_row w row = Ret (mkWriter (column_position w) (color_code w) (<[row := blank_row (color_code w)]> (chars w))).
Proof.
  intros Hr Hl. unfold clear_row. rewrite (fill_row (fun _ => True) _ (fun _ => blank (color_code w)) row _ r) by done. cbn [mbind outcome_bind]. do 3 f_equal.
Qed.

(** Copying a row up. *)
Lemma copy_row b row r r0 : (1 <= row)%nat -> b !! row = Some r -> b !! (row - 1)%nat = Some r0 -> length r = BUFFER_WIDTH -> length r0 = BUFFER_WIDTH ->
  for_in (seq 0 BUFFER_WIDTH) (fun col b => character ← get_char b row col; set_char b (row - 1) col character) b = Ret (<[(row - 1)%nat := r]> b).
Proof.
  intros Hrow Hr Hr0 Hl Hl0. rewrite (fill_row (fun b => b !! row = Some r) _ (fun col => nth col r (mkChar 0 0)) (row - 1) b r0); try done.
  - by rewrite <- Hl, map_lookup_seq.
  - intros b' col Hb' Hc. destruct (lookup_lt_is_Some_2 r col ltac:(lia)) as [x Hx]. rewrite (get_char_ret b' row col r x Hb' Hx). cbn [mbind outcome_bind].
    by rewrite (nth_lookup_Some _ _ _ _ Hx).
  - intros b' r' Hb'. rewrite list_lookup_insert_ne; [done|lia].
Qed.

Lemma copy_rows n : forall k b b0, length b = BUFFER_HEIGHT -> (1 <= k)%nat -> (k + n = BUFFER_HEIGHT)%nat -> Forall (fun r => length r = BUFFER_WIDTH) b ->
  length b0 = BUFFER_HEIGHT -> Forall (fun r => length r = BUFFER_WIDTH) b0 -> b = take (k - 1) (drop 1 b0) ++ drop (k - 1) b0 ->
  for_in (seq k n) (fun row b => for_in (seq 0 BUFFER_WIDTH) (fun col b => character ← get_char b row col; set_char b (row - 1) col character) b) b =
  Ret (drop 1 b0 ++ drop (BUFFER_HEIGHT - 1) b0).
Proof.
  induction n as [|n IH]; intros k b b0 Hlb Hk Hn Hb Hlb0 Hb0 E; cbn [seq for_in].
  - rewrite E. f_equal. rewrite take_ge by (rewrite length_drop; lia). by replace (k - 1)%nat with (BUFFER_HEIGHT - 1)%nat by lia.
  - destruct (lookup_lt_is_Some_2 b0 k ltac:(lia)) as [r Hr]. destruct (lookup_lt_is_Some_2 b (k - 1) ltac:(lia)) as [r0 Hr0].
    assert (Hbk : b !! k = Some r). { rewrite E, lookup_app_r by (rewrite length_take, length_drop; lia). rewrite length_take, length_drop, lookup_drop, <- Hr. f_equal. lia. }
    rewrite (copy_row b k r r0 Hk Hbk Hr0) by (by eapply (Forall_lookup_1 _ _ _ _ Hb)). cbn [mbind outcome_bind]. apply (IH (S k)); try done; try lia.
    + by rewrite length_insert.
    + apply Forall_insert; [done|]. by eapply (Forall_lookup_1 _ _ _ _ Hb).
    + rewrite E. rewrite insert_app_r_alt by (rewrite length_take, length_drop; lia). rewrite length_take, length_drop.
      replace (k - 1 - min (k - 1) (length b0 - 1))%nat with 0%nat by lia. destruct (lookup_lt_is_Some_2 b0 (k - 1) ltac:(lia)) as [x Hx].
      rewrite (drop_S b0 x (k - 1) Hx). cbn [insert list_insert]. replace (S k - 1)%nat with (S (k - 1)) by lia. rewrite (take_S_r (drop 1 b0) (k - 1) r).
      * by rewrite <- app_assoc.
      * rewrite lookup_drop. replace (1 + (k - 1))%nat with k by lia. done.
Qed.

Lemma new_line_spec w : screen_ok (chars w) -> new_line w = Ret (mkWriter 0 (color_code w) (drop 1 (chars w) ++ [blank_row (color_code w)])).
Proof.
  intros [Hl Hr]. unfold new_line. rewrite (copy_rows (BUFFER_HEIGHT - 1) 1 (chars w) (chars w)); try done.
  cbn [mbind outcome_bind]. assert (Hd : exists r, drop (BUFFER_HEIGHT - 1) (chars w) = [r] /\ length r = BUFFER_WIDTH).
  { destruct (lookup_lt_is_Some_2 (chars w) (BUFFER_HEIGHT - 1) ltac:(rewrite Hl; by_compute)) as [r Hlast]. exists r. rewrite (drop_S _ _ _ Hlast), drop_ge by (rewrite Hl; by_compute).
    split; [done|]. by eapply (Forall_lookup_1 _ _ _ _ Hr). }
  destruct Hd as (r & -> & Hlr). assert (Hld : length (drop 1 (chars w)) = (BUFFER_HEIGHT - 1)%nat) by (rewrite length_drop; lia).
  rewrite (clear_row_spec _ _ r); [|cbn [chars]; rewrite lookup_app_r, Hld, Nat.sub_diag by lia; done|done].
  cbn [mbind outcome_bind chars color_code column_position]. do 2 f_equal. rewrite insert_app_r_alt by lia. by rewrite Hld, Nat.sub_diag.
Qed.

(** ** What a text looks like

    The reference: the text is cut at line feeds, each line into pieces of at most
    80 characters, and the screen shows the last 25 pieces, padded with blanks. *)
Fixpoint cut (s : list Z) : list (list Z) :=
  match s with
  | [] => [[]]
  | b :: s' => if b =? LF then [] :: cut s' else match cut s' with l :: ls => (b :: l) :: ls | [] => [[b]] end
  end.
Fixpoint pieces (fuel : nat) (l : list Z) : list (list Z) :=
  match fuel with
  | O => [l]
  | S f => if decide (length l <= BUFFER_WIDTH)%nat then [l] else take BUFFER_WIDTH l :: pieces f (drop BUFFER_WIDTH l)
  end.
Definition lines (s : list Z) : list (list Z) := cut s ≫= fun l => pieces (length l) l.
Definition pad (color : Z) (l : list Z) : list ScreenChar := ((fun b => mkChar b color) <$> l) ++ replicate (BUFFER_WIDTH - length l) (blank color).
Definition shown (color : Z) (rows : list (list Z)) : list (list ScreenChar) := drop (length rows) (replicate BUFFER_HEIGHT (blank_row color) ++ (pad color <$> rows)).

(** *** Adding one character *)
Definition add (rows : list (list Z)) (b : Z) : list (list Z) :=
  match last rows with
  | Some l => if b =? LF then rows ++ [[]] else if decide (length l < BUFFER_WIDTH)%nat then removelast rows ++ [l ++ [b]] else rows ++ [[b]]
  | None => rows
  end.

Lemma cut_nonempty s : cut s <> [].
Proof. destruct s as [|b s]; [done|]. cbn. destruct (b =? LF); [done|]. by destruct (cut s). Qed.

Lemma cut_snoc s b : exists ls l, cut s = ls ++ [l] /\ cut (s ++ [b]) = if b =? LF then ls ++ [l; []] else ls ++ [l ++ [b]].
Proof.
  induction s as [|x s (ls & l & E & E')]; [exists [], []; split; [done|]; cbn; by destruct (b =? LF)|]. cbn [cut app]. rewrite E, E'. destruct (x =? LF).
  - exists ([] :: ls), l. split; [done|]. by destruct (b =? LF).
  - destruct ls as [|l0 ls]; cbn [app].
    + exists [], (x :: l). split; [done|]. by destruct (b =? LF).
    + exists ((x :: l0) :: ls), l. split; [done|]. by destruct (b =? LF).
Qed.

Lemma pieces_snoc fuel : forall l b fuel', (length l <= fuel)%nat -> (length l < fuel')%nat ->
  exists ps p, pieces fuel l = ps ++ [p] /\ (length p <= BUFFER_WIDTH)%nat /\ pieces fuel' (l ++ [b]) = if decide (length p < BUFFER_WIDTH)%nat then ps ++ [p ++ [b]] else ps ++ [p; [b]].
Proof.
  induction fuel as [|fuel IH]; intros l b [|fuel'] Hl Hl'; try lia.
  { destruct l; [|cbn in Hl; lia]. exists [], []. split; [done|]. split; [cbn; lia|]. cbn. done. }
  cbn [pieces]. rewrite length_app. cbn [length]. destruct (decide (length l <= BUFFER_WIDTH)%nat) as [Hs|Hs].
  - exists [], l. split; [done|]. split; [done|]. destruct (decide (length l < BUFFER_WIDTH)%nat) as [Hlt|Hge]; [by rewrite decide_True by lia|]. rewrite decide_False by lia.
    rewrite take_app_le, take_ge, drop_app_ge by lia. replace (BUFFER_WIDTH - length l)%nat with 0%nat by lia. cbn [drop app]. f_equal.
    destruct fuel'; cbn [pieces]; [done|]. rewrite decide_True; [done|]. unfold BUFFER_WIDTH. cbn. lia.
  - assert (Hw : (0 < BUFFER_WIDTH)%nat) by (unfold BUFFER_WIDTH; lia). destruct (IH (drop BUFFER_WIDTH l) b fuel') as (ps & p & E1 & Hp & E2); [rewrite length_drop; lia|rewrite length_drop; lia|].
    exists (take BUFFER_WIDTH l :: ps), p. rewrite E1. split; [done|]. split; [done|]. rewrite decide_False by lia. rewrite take_app_le, drop_app_le by lia. rewrite E2.
    by destruct (decide (length p < BUFFER_WIDTH)%nat).
Qed.

Lemma lines_snoc s b : exists rows l, lines s = rows ++ [l] /\ (length l <= BUFFER_WIDTH)%nat /\ lines (s ++ [b]) = add (lines s) b.
Proof.
  destruct (cut_snoc s b) as (ls & l & E & E'). destruct (pieces_snoc (length l) l b (S (length l)) ltac:(lia) ltac:(lia)) as (ps & p & P & Hp & P').
  assert (El : lines s = ((ls ≫= fun l => pieces (length l) l) ++ ps) ++ [p]). { unfold lines. rewrite E, bind_app. cbn [mbind list_bind app]. by rewrite app_nil_r, P, app_assoc. }
  eexists _, p. split; [exact El|]. split; [done|]. unfold add. rewrite El, last_snoc. unfold lines. rewrite E'. destruct (b =? LF).
  - rewrite bind_app. cbn [mbind list_bind app length pieces]. by rewrite P, <- !app_assoc.
  - rewrite bind_app. cbn [mbind list_bind]. rewrite app_nil_r, length_app, Nat.add_1_r, P'. rewrite removelast_last.
    destruct (decide (length p < BUFFER_WIDTH)%nat); [by rewrite app_assoc|]. by rewrite <- !app_assoc.
Qed.

Lemma length_pad color l : (length l <= BUFFER_WIDTH)%nat -> length (pad color l) = BUFFER_WIDTH.
Proof. intros Hl. unfold pad. rewrite length_app, length_fmap, length_replicate. lia. Qed.

Lemma pad_snoc color l b : (length l < BUFFER_WIDTH)%nat -> <[length l := mkChar b color]> (pad color l) = pad color (l ++ [b]).
Proof.
  intros Hl. unfold pad. rewrite insert_app_r_alt by (rewrite length_fmap; lia). rewrite length_fmap, Nat.sub_diag, fmap_app, length_app. cbn [length fmap list_fmap].
  replace (BUFFER_WIDTH - length l)%nat with (S (BUFFER_WIDTH - (length l + 1))) by lia. cbn [replicate insert list_insert]. by rewrite <- app_assoc.
Qed.

(** The rows above the line being written. *)
Definition above (color : Z) (rows : list (list Z)) : list (list ScreenChar) := drop (S (length rows)) (replicate BUFFER_HEIGHT (blank_row color) ++ (pad color <$> rows)).

Lemma shown_snoc color rows l : shown color (rows ++ [l]) = above color rows ++ [pad color l].
Proof.
  unfold shown, above. rewrite fmap_app, length_app, app_assoc. cbn [fmap list_fmap length]. rewrite drop_app_le by (rewrite length_app, length_replicate, length_fmap; unfold BUFFER_HEIGHT; lia).
  by replace (length rows + 1)%nat with (S (length rows)) by lia.
Qed.

Lemma length_above color rows : length (above color rows) = (BUFFER_HEIGHT - 1)%nat.
Proof. unfold above. rewrite length_drop, length_app, length_replicate, length_fmap. lia. Qed.

Lemma above_snoc color rows l : above color (rows ++ [l]) = drop 1 (above color rows ++ [pad color l]).
Proof. rewrite <- shown_snoc. unfold above, shown. rewrite drop_drop, fmap_app, length_app. f_equal. cbn. lia. Qed.

Lemma set_last X r x col c : length X = (BUFFER_HEIGHT - 1)%nat -> (col < length r)%nat -> <[col := c]> r = x -> set_char (X ++ [r]) (BUFFER_HEIGHT - 1) col c = Ret (X ++ [x]).
Proof.
  intros HX Hc <-. rewrite (set_char_ret _ _ _ _ r); [|by rewrite lookup_app_r, HX, Nat.sub_diag by lia|done]. by rewrite insert_app_r_alt, HX, Nat.sub_diag by lia.
Qed.

Lemma shown_ok color rows : Forall (fun l => length l <= BUFFER_WIDTH)%nat rows -> screen_ok (shown color rows).
Proof.
  intros Hr. split; [unfold shown; rewrite length_drop, length_app, length_replicate, length_fmap; lia|]. unfold shown. apply Forall_drop, Forall_app. split; [by apply Forall_replicate|].
  apply Forall_fmap. eapply Forall_impl; [exact Hr|]. intros l. apply length_pad.
Qed.

Lemma lines_width s : Forall (fun l => length l <= BUFFER_WIDTH)%nat (lines s).
Proof.
  unfold lines. apply Forall_bind, Forall_forall. intros l _. assert (Hg : forall n l, (length l <= n)%nat -> Forall (fun l => length l <= BUFFER_WIDTH)%nat (pieces n l)); [|by apply Hg].
  clear. induction n as [|n IH]; intros l Hl; cbn [pieces]; [constructor; [lia|constructor]|]. destruct (decide _); [by constructor|]. constructor; [rewrite length_take; lia|].
  apply IH. rewrite length_drop. unfold BUFFER_WIDTH in *. lia.
Qed.

(** The writer shows [s]. *)
Definition shows (w : Writer) (s : list Z) : Prop := chars w = shown (color_code w) (lines s) /\ Some (column_position w) = length <$> last (lines s).

Lemma write_byte_shows w s b : shows w s -> exists w', write_byte w b = Ret w' /\ shows w' (s ++ [b]) /\ color_code w' = color_code w.
Proof.
  intros [Hc Hcol]. destruct (lines_snoc s b) as (rows & l & El & Hl & Ea). pose proof (shown_ok (color_code w) (lines s) (lines_width s)) as Hok. rewrite <- Hc in Hok.
  unfold shows. setoid_rewrite Ea. unfold add. rewrite El in *. rewrite last_snoc in *. injection Hcol as Hcol. rewrite shown_snoc in Hc. unfold write_byte.
  set (color := color_code w) in *. assert (Hpad : pad color [] = blank_row color) by done. destruct (b =? LF).
  - rewrite new_line_spec by done. fold color. rewrite Hc. eexists. split; [done|]. cbn [chars color_code column_position]. rewrite shown_snoc, above_snoc, last_snoc, Hpad. done.
  - destruct (decide (length l < BUFFER_WIDTH)%nat) as [Hlt|Hge].
    + rewrite (proj2 (Nat.leb_gt _ _)) by lia. cbn [mbind outcome_bind]. rewrite Hc, Hcol. fold color.
      rewrite (set_last _ (pad color l) (pad color (l ++ [b]))); [|apply length_above|rewrite length_pad by done; lia|by apply pad_snoc]. cbn [mbind outcome_bind].
      eexists. split; [done|]. cbn [chars color_code column_position]. rewrite removelast_last, shown_snoc, last_snoc. cbn [fmap option_fmap option_map]. rewrite length_app. cbn [length]. by rewrite Nat.add_1_r, ?Hcol.
    + rewrite (proj2 (Nat.leb_le _ _)) by lia. rewrite new_line_spec by done. cbn [mbind outcome_bind chars color_code column_position]. fold color. rewrite Hc, <- above_snoc, <- Hpad.
      rewrite (set_last _ (pad color []) (pad color [b])); [|apply length_above|rewrite length_pad; unfold BUFFER_WIDTH; cbn; lia|apply (pad_snoc color []); unfold BUFFER_WIDTH; cbn; lia]. cbn [mbind outcome_bind].
      eexists. split; [done|]. cbn [chars color_code column_position]. rewrite shown_snoc, last_snoc. done.
Qed.

Lemma write_string_shows s : forall w t, shows w t -> exists w', write_string w s = Ret w' /\ shows w' (t ++ (printable <$> s)) /\ color_code w' = color_code w.
Proof.
  induction s as [|b s IH]; intros w t Hw; cbn [write_string]; [exists w; by rewrite app_nil_r|]. destruct (write_byte_shows w t (printable b) Hw) as (w1 & -> & Hw1 & C1).
  cbn [mbind outcome_bind]. destruct (IH w1 _ Hw1) as (w2 & -> & Hw2 & C2). exists w2. split; [done|]. rewrite <- app_assoc in Hw2. split; [exact Hw2|congruence].
Qed.

Lemma clear_rows n : forall k w, length (chars w) = BUFFER_HEIGHT -> Forall (fun r => length r = BUFFER_WIDTH) (chars w) -> (k + n = BUFFER_HEIGHT)%nat ->
  for_in (seq k n) (fun row w => clear_row w row) w = Ret (mkWriter (column_position w) (color_code w) (take k (chars w) ++ replicate n (blank_row (color_code w)))).
Proof.
  induction n as [|n IH]; intros k w Hl Hr Hk; cbn [seq for_in].
  { rewrite app_nil_r, take_ge by lia. by destruct w. }
  destruct (lookup_lt_is_Some_2 (chars w) k ltac:(lia)) as [r Hx]. rewrite (clear_row_spec w k r Hx) by (by eapply (Forall_lookup_1 _ _ _ _ Hr)). cbn [mbind outcome_bind].
  rewrite IH; cbn [chars color_code column_position]; [|by rewrite length_insert|apply Forall_insert; [done|apply length_replicate]|lia].
  do 2 f_equal. rewrite (take_S_r _ k (blank_row (color_code w))) by (by rewrite list_lookup_insert_eq by lia). rewrite take_insert_ge by lia. by rewrite <- app_assoc.
Qed.

(** C26: The console is a terminal: after clearing the screen and writing any text,
    the 80x25 buffer is exactly the last 25 lines of the text, cut at line feeds
    and after 80 characters, left-justified and padded with blanks, with bytes
    outside the printable range replaced; the cursor is behind the last character,
    and no access is out of bounds. *)
Theorem console_shows_text w s : screen_ok (chars w) ->
  exists w', (w1 ← clear_screen w; write_string w1 s) = Ret w' /\
    chars w' = shown (color_code w) (lines (printable <$> s)) /\ Some (column_position w') = length <$> last (lines (printable <$> s)).
Proof.
  intros [Hl Hr]. unfold clear_screen. rewrite clear_rows by done. cbn [mbind outcome_bind chars color_code column_position take app].
  destruct (write_string_shows s (mkWriter 0 (color_code w) (replicate BUFFER_HEIGHT (blank_row (color_code w)))) []) as (w' & E & [Hc Hcol] & C); [by split|].
  exists w'. split; [exact E|]. cbn [color_code] in C. rewrite C in Hc. done.
Qed.

Lemma console_shows_text_witness : exists w', (w1 ← clear_screen (WRITER (replicate BUFFER_HEIGHT (blank_row 7))); write_string w1 (ascii_bytes "AuraOS")) = Ret w' /\ column_position w' = 6%nat.
Proof.
  destruct (console_shows_text (WRITER (replicate BUFFER_HEIGHT (blank_row 7))) (ascii_bytes "AuraOS")) as (w' & E & _ & Hcol).
  - split; [done|]. by apply Forall_replicate.
  - exists w'. split; [exact E|]. injection Hcol as Hcol. exact Hcol.
Defined.

End Vga.
