(* ===== verification/Klog.v ===== *)
(** * The kernel log (src/src/klog.rs)

    Levels, the global threshold and the line that a message becomes on the serial
    console. *)

From stdpp Require Import prelude numbers list strings.
From S2P Require Import Prelude Bytes Io Serial.
Import Bytes.

Module Klog.

Inductive LogLevel := Debug_ | Info_ | Warn_ | Error_.
Definition level_byte (l : LogLevel) : Z := match l with Debug_ => 0 | Info_ => 1 | Warn_ => 2 | Error_ => 3 end.
Definition display (l : LogLevel) : string := match l with Debug_ => "DEBUG" | Info_ => "INFO" | Warn_ => "WARN" | Error_ => "ERROR" end.

(** [MIN_LEVEL], set and read back. *)
Definition MIN_LEVEL : Z := level_byte Info_.
Definition set_level (level : LogLevel) : Z := level_byte level.
Definition min_level (stored : Z) : LogLevel := if stored =? 0 then Debug_ else if stored =? 1 then Info_ else if stored =? 2 then Warn_ else Error_.

Lemma min_level_set l : min_level (set_level l) = l.
Proof. by destruct l. Qed.

(** ["[{}] [{}] [#{:05}] {}\n"] *)
Definition format_line (level : LogLevel) (subsystem message : list Z) (tick : Z) : list Z :=
  ascii_bytes "[" ++ ascii_bytes (display level) ++ ascii_bytes "] [" ++ subsystem ++ ascii_bytes "] [#" ++ zero_padded 5 tick ++ ascii_bytes "] " ++ message ++ [10].

Definition log {H} `{Hardware H} (fuel : nat) (stored : Z) (cpu : nat) (level : LogLevel) (subsystem message : list Z) (tick : Z) (s : Serial.serial) : hwo H Serial.serial :=
  if level_byte level <? level_byte (min_level stored) then mret s else Serial.print_ fuel cpu (format_line level subsystem message tick) s.

End Klog.
