(* ===== verification/Keyboard.v ===== *)
(** * Keyboard (src/src/drivers/keyboard.rs)

    The interrupt handler of the PS/2 keyboard: scancodes to characters in a ring. *)

From stdpp Require Import prelude numbers list strings.
From S2P Require Import Prelude Bytes Ring Io.
Import Bytes Ring.

Module Keyboard.

Definition KEYBOARD_DATA_PORT : Z := 0x60.
Definition KEY_BUFFER_CAP : Z := 128.

Record KeyRingBuffer := mkRing { data : list Z; head : Z; tail : Z }.
Definition KEY_QUEUE : KeyRingBuffer := mkRing (replicate (Z.to_nat KEY_BUFFER_CAP) 0) 0 0.

(** [KEY_QUEUE], [SHIFT_ACTIVE] and the two flags of the graphical interface. *)
Record keyboard := mkKbd { queue : KeyRingBuffer; shift_active : bool; gui_active : bool; gui_exit_requested : bool }.

(** The characters of a row of the tables, as bytes. *)
Definition row (s : string) : list Z := ascii_bytes s.
Definition QUOTE : Z := 34.

Definition SCANCODE_LOWER : list Z :=
  [0; 27] ++ row "1234567890-=" ++ [8] ++
  [9] ++ row "qwertyuiop[]" ++ [10] ++
  [0] ++ row "asdfghjkl;'`" ++
  [0] ++ row "\zxcvbnm,./" ++ [0] ++
  row "*" ++ [0] ++ row " ".

Definition SCANCODE_UPPER : list Z :=
  [0; 27] ++ row "!@#$%^&*()_+" ++ [8] ++
  [9] ++ row "QWERTYUIOP{}" ++ [10] ++
  [0] ++ row "ASDFGHJKL:" ++ [QUOTE] ++ row "~" ++
  [0] ++ row "|ZXCVBNM<>?" ++ [0] ++
  row "*" ++ [0] ++ row " ".

Definition set_shift (k : keyboard) (b : bool) : keyboard := mkKbd (queue k) b (gui_active k) (gui_exit_requested k).
Definition set_queue (k : keyboard) (q : KeyRingBuffer) : keyboard := mkKbd q (shift_active k) (gui_active k) (gui_exit_requested k).
Definition request_exit (k : keyboard) : keyboard := if gui_active k then mkKbd (queue k) (shift_active k) (gui_active k) true else k.

(** The bytes that are queued. *)
Definition queued_byte (ascii : Z) : bool := ((ascii =? 8) || (ascii =? 9) || (ascii =? 10) || ((0x20 <=? ascii) && (ascii <=? 0x7E)))%bool.

Definition enqueue (q : KeyRingBuffer) (ascii : Z) : KeyRingBuffer :=
  let next_tail := (tail q + 1) mod KEY_BUFFER_CAP in
  if negb (next_tail =? head q) then mkRing (<[Z.to_nat (tail q) := ascii]> (data q)) (head q) next_tail else q.

(** The handler, from the scancode on. *)
Definition on_scancode (k : keyboard) (scancode : Z) : keyboard :=
  if scancode =? 0x01 then request_exit k else
  if (scancode =? 0x2A) || (scancode =? 0x36) then set_shift k true else
  if (scancode =? 0xAA) || (scancode =? 0xB6) then set_shift k false else
  if negb (Z.land scancode 0x80 =? 0) then k else
  match (if shift_active k then SCANCODE_UPPER else SCANCODE_LOWER) !! Z.to_nat scancode with
  | Some ascii => if queued_byte ascii then set_queue k (enqueue (queue k) ascii) else k
  | None => k
  end.

Definition handle_interrupt {H} `{Hardware H} (k : keyboard) : hw H keyboard :=
  scancode ← port_inb KEYBOARD_DATA_PORT; mret (on_scancode k scancode).

(** The removal of the oldest key in [process_pending_keys]. *)
Definition dequeue (q : KeyRingBuffer) : option Z * KeyRingBuffer :=
  if head q =? tail q then (None, q) else
  (Some (nth (Z.to_nat (head q)) (data q) 0), mkRing (data q) ((head q + 1) mod KEY_BUFFER_CAP) (tail q)).

(** ** What the queue holds *)
Definition queue_ok (q : KeyRingBuffer) : Prop := ring_ok KEY_BUFFER_CAP (data q) (head q) (tail q).
Definition keys (q : KeyRingBuffer) : list Z := contents KEY_BUFFER_CAP (data q) (head q) (tail q).

Lemma key_cap : 2 <= KEY_BUFFER_CAP.
Proof. unfold KEY_BUFFER_CAP. lia. Qed.

Lemma enqueue_spec q a : queue_ok q -> Z.of_nat (length (keys q)) < KEY_BUFFER_CAP - 1 -> queue_ok (enqueue q a) /\ keys (enqueue q a) = keys q ++ [a].
Proof.
  intros Hok Hl. unfold enqueue. assert (Hn : next KEY_BUFFER_CAP (tail q) <> head q).
  { pose proof Hok as (_ & Hh & Ht). rewrite (full_iff _ key_cap) by done. unfold keys in Hl. rewrite length_contents in Hl. unfold held in *.
    pose proof (Z.mod_pos_bound (tail q - head q) KEY_BUFFER_CAP ltac:(done)). lia. }
  fold (next KEY_BUFFER_CAP (tail q)). rewrite (proj2 (Z.eqb_neq _ _)) by done. cbn [negb]. by apply (push_contents _ key_cap).
Qed.

Lemma dequeue_spec q : queue_ok q ->
  match dequeue q with
  | (Some a, q') => queue_ok q' /\ keys q = a :: keys q'
  | (None, q') => q' = q /\ keys q = []
  end.
Proof.
  intros Hok. unfold dequeue. destruct (Z.eqb_spec (head q) (tail q)) as [E|E].
  - split; [done|]. apply (proj2 (contents_empty _ key_cap _ _ _ Hok)). exact E.
  - by apply (pop_contents _ key_cap).
Qed.

(** ** Typing

    The make and break codes a keyboard sends for a character, with the shift key
    held where the character needs it. *)
Fixpoint position (b : Z) (l : list Z) (i : Z) : option Z :=
  match l with [] => None | x :: l' => if x =? b then Some i else position b l' (i + 1) end.
Definition press (code : Z) : list Z := [code; Z.lor code 0x80].
Definition stroke (b : Z) : list Z :=
  match position b SCANCODE_LOWER 0 with
  | Some c => press c
  | None => match position b SCANCODE_UPPER 0 with Some c => [0x2A] ++ press c ++ [0xAA] | None => [] end
  end.

Definition typeable (b : Z) : Prop := b = 10 \/ 0x20 <= b <= 0x7E.

Definition decodes (b : Z) : Prop := forall k, shift_active k = false -> fold_left on_scancode (stroke b) k = set_queue k (enqueue (queue k) b).

Lemma kbd_eta k : shift_active k = false -> mkKbd (queue k) false (gui_active k) (gui_exit_requested k) = k.
Proof. by destruct k; cbn; intros ->. Qed.

Lemma stroke_decodes b : typeable b -> decodes b.
Proof.
  intros Hb [q s g e] Hs. cbn in Hs. subst s. assert (Hin : b ∈ ([10] ++ ((fun i => 0x20 + Z.of_nat i) <$> seq 0 95))).
  { destruct Hb as [->|Hb]; [by left|]. apply elem_of_app. right. apply list_elem_of_fmap. exists (Z.to_nat (b - 0x20)). split; [lia|]. apply elem_of_seq. lia. }
  assert (HF : Forall (fun b => fold_left on_scancode (stroke b) (mkKbd q false g e) = mkKbd (enqueue q b) false g e) ([10] ++ ((fun i => 0x20 + Z.of_nat i) <$> seq 0 95))).
  { cbn [seq fmap list_fmap app]. repeat (constructor; [reflexivity|]). constructor. }
  rewrite Forall_forall in HF. exact (HF b Hin).
Qed.

Lemma typed_queue t : forall k, Forall typeable t -> shift_active k = false -> queue_ok (queue k) -> Z.of_nat (length (keys (queue k)) + length t) < KEY_BUFFER_CAP ->
  let k' := fold_left on_scancode (t ≫= stroke) k in
  shift_active k' = false /\ queue_ok (queue k') /\ keys (queue k') = keys (queue k) ++ t /\ gui_active k' = gui_active k.
Proof.
  induction t as [|b t IH]; intros k Ht Hs Hok Hl; cbn [mbind list_bind]; [rewrite app_nil_r; done|]. apply Forall_cons_1 in Ht as [Hb Ht]. cbn [length] in Hl.
  cbv zeta. rewrite fold_left_app, (stroke_decodes b Hb k Hs). destruct (enqueue_spec (queue k) b Hok ltac:(lia)) as [Hok' Hk'].
  destruct (IH (set_queue k (enqueue (queue k) b)) Ht Hs Hok') as (H1 & H2 & H3 & H4); [cbn [set_queue queue]; rewrite Hk', length_app; cbn [length]; lia|].
  split; [exact H1|]. split; [exact H2|]. split; [|exact H4]. rewrite H3. cbn [set_queue queue]. by rewrite Hk', <- app_assoc.
Qed.

End Keyboard.
