(* ===== verification/Mouse.v ===== *)
(** * Mouse (src/src/drivers/mouse.rs)

    The interrupt handler of the PS/2 mouse: three-byte packets to a pointer on the
    screen. *)

From stdpp Require Import prelude numbers list strings.
From S2P Require Import Prelude Bytes Ring Io.
Import Bytes Ring.

Module Mouse.

Definition PORT_DATA : Z := 0x60.
Definition PORT_STATUS : Z := 0x64.
Definition PORT_CMD : Z := 0x64.

Record MouseState := mkMouse { x : Z; y : Z; left_button : bool; right_button : bool; middle_button : bool }.
Definition MOUSE : MouseState := mkMouse 512 384 false false false.
Record MouseBuffer := mkBuffer { bytes : list Z; idx : nat }.
Definition PACKET_BUFFER : MouseBuffer := mkBuffer [0; 0; 0] 0.

(** ** Commands to the controller *)
Section Controller.
Context {H : Type} `{Hardware H}.
Fixpoint poll_status (n : nat) (mask : Z) (set : bool) : hw H () :=
  match n with
  | O => mret tt
  | S n' => v ← port_inb PORT_STATUS; if bool_decide (negb (Z.land v mask =? 0) = set) then mret tt else io_wait;; poll_status n' mask set
  end.
Definition POLLS : Z := 100000.
Definition wait_input_ready : hw H () := poll_status (Z.to_nat POLLS) 0x02 false.
Definition wait_output_ready : hw H () := poll_status (Z.to_nat POLLS) 0x01 true.
Definition write_mouse_cmd (cmd : Z) : hw H () :=
  wait_input_ready;; port_outb PORT_CMD 0xD4;; wait_input_ready;; port_outb PORT_DATA cmd.
Definition read_data : hw H Z := wait_output_ready;; port_inb PORT_DATA.
Definition init : hw H () :=
  wait_input_ready;; port_outb PORT_CMD 0xA8;;
  wait_input_ready;; port_outb PORT_CMD 0x20;;
  status ← read_data;
  let status := Z.lor status 0x02 in
  let status := Z.land status (wrap 8 (Z.lnot 0x20)) in
  wait_input_ready;; port_outb PORT_CMD 0x60;;
  wait_input_ready;; port_outb PORT_DATA status;;
  write_mouse_cmd 0xF6;; read_data;;
  write_mouse_cmd 0xF4;; read_data;;
  mret tt.
End Controller.

(** ** Packets *)
Definition has (b mask : Z) : bool := negb (Z.land b mask =? 0).
Definition clamp (v lo hi : Z) : Z := if v <? lo then lo else if hi <? v then hi else v.
(** [let mut d = b as i32; if sign { d |= !0xFF }] *)
Definition delta (b : Z) (sign : bool) : Z := if sign then Z.lor b (Z.lnot 0xFF) else b.

(** A complete packet applied to the pointer. *)
Definition apply_packet (m : MouseState) (b0 b1 b2 : Z) : MouseState :=
  if (has b0 0x80 || has b0 0x40)%bool then m else
  let dx := delta b1 (has b0 0x10) in
  let dy := delta b2 (has b0 0x20) in
  mkMouse (clamp (x m + dx) 0 1023) (clamp (y m - dy) 0 767) (has b0 0x01) (has b0 0x02) (has b0 0x04).

(** The handler from the byte on; [bytes[idx]] has Rust's bounds check. *)
Definition on_byte (m : MouseState) (buf : MouseBuffer) (byte : Z) : outcome (MouseState * MouseBuffer) :=
  if (Nat.eqb (idx buf) 0 && negb (has byte 0x08))%bool then Ret (m, buf) else
  bs ← update (bytes buf) (idx buf) (fun _ => byte);
  if Nat.eqb (S (idx buf)) 3 then
    b0 ← at_ bs 0; b1 ← at_ bs 1; b2 ← at_ bs 2;
    Ret (apply_packet m b0 b1 b2, mkBuffer bs 0)
  else Ret (m, mkBuffer bs (S (idx buf))).

Definition handle_interrupt {H} `{Hardware H} (m : MouseState) (buf : MouseBuffer) : hwo H (MouseState * MouseBuffer) :=
  status ← dev (port_inb PORT_STATUS);
  if Z.land status 0x01 =? 0 then mret (m, buf) else
  byte ← dev (port_inb PORT_DATA);
  pure_ (on_byte m buf byte).

Definition get_state (m : MouseState) : MouseState := m.

(** ** The reference: packets are cut from the stream first *)
Fixpoint decode (l : list Z) : list (Z * Z * Z) :=
  match l with
  | [] => []
  | b0 :: l' =>
      if has b0 0x08 then match l' with b1 :: b2 :: l'' => (b0, b1, b2) :: decode l'' | _ => [] end
      else decode l'
  end.
Definition move (m : MouseState) (p : Z * Z * Z) : MouseState := let '(b0, b1, b2) := p in apply_packet m b0 b1 b2.

Fixpoint feed (m : MouseState) (buf : MouseBuffer) (l : list Z) : outcome (MouseState * MouseBuffer) :=
  match l with [] => Ret (m, buf) | b :: l' => r ← on_byte m buf b; feed r.1 r.2 l' end.

Definition on_screen (m : MouseState) : Prop := 0 <= x m < 1024 /\ 0 <= y m < 768.

Lemma clamp_range v lo hi : lo <= hi -> lo <= clamp v lo hi <= hi.
Proof. intros Hl. unfold clamp. destruct (Z.ltb_spec v lo); [lia|]. destruct (Z.ltb_spec hi v); lia. Qed.

Lemma move_on_screen m p : on_screen m -> on_screen (move m p).
Proof.
  intros Hm. destruct p as [[b0 b1] b2]. cbn [move]. unfold apply_packet. destruct (_ || _)%bool; [done|]. unfold on_screen. cbn [x y].
  pose proof (clamp_range (x m + delta b1 (has b0 0x10)) 0 1023 ltac:(lia)). pose proof (clamp_range (y m - delta b2 (has b0 0x20)) 0 767 ltac:(lia)). lia.
Qed.

Lemma feed_decode n : forall l m c0 c1 c2, (length l <= n)%nat ->
  exists buf, feed m (mkBuffer [c0; c1; c2] 0) l = Ret (fold_left move (decode l) m, buf) /\ length (bytes buf) = 3%nat /\ (idx buf < 3)%nat.
Proof.
  induction n as [|n IH]; intros [|b0 l] m c0 c1 c2 Hl; cbn [length] in Hl; try lia; [by eexists; split; [done|]; cbn; split; [done|lia]..|].
  cbn [feed decode]. unfold on_byte at 1. cbn [idx Nat.eqb andb]. destruct (has b0 0x08) eqn:E0; cbn [negb].
  - destruct l as [|b1 [|b2 l]]; [by eexists; split; [done|]; cbn; split; [done|lia]..|]. cbn. apply (IH l). cbn [length] in Hl. lia.
  - cbn [mbind outcome_bind fst snd]. apply IH. lia.
Qed.

(** The pointer follows the packets and stays on the screen: feeding any bytes
    to the handler one interrupt at a time never panics, moves the pointer exactly
    as cutting the bytes into packets first (three bytes each, from a byte with
    bit 3 set) and applying them in order, and leaves it inside 1024x768. *)
Theorem mouse_decodes_packets l m : on_screen m ->
  exists m' buf, feed m PACKET_BUFFER l = Ret (m', buf) /\ m' = fold_left move (decode l) m /\ on_screen m' /\ (idx buf < 3)%nat.
Proof.
  intros Hm. destruct (feed_decode (length l) l m 0 0 0 ltac:(lia)) as (buf & E & _ & Hi). exists (fold_left move (decode l) m), buf.
  split; [exact E|]. split; [done|]. split; [|done]. clear E. revert m Hm. induction (decode l) as [|p ps IH]; intros m Hm; [done|]. cbn [fold_left]. by apply IH, move_on_screen.
Qed.

Lemma mouse_decodes_witness : on_screen MOUSE /\ exists m' buf, feed MOUSE PACKET_BUFFER [0x00; 0x18; 0xF6; 0x05] = Ret (m', buf) /\ x m' = 502 /\ y m' = 379.
Proof.
  assert (Hm : on_screen MOUSE) by by_compute. split; [exact Hm|].
  destruct (mouse_decodes_packets [0x00; 0x18; 0xF6; 0x05] MOUSE Hm) as (m' & buf & E & -> & _). eexists _, buf. split; [exact E|]. done.
Defined.

End Mouse.
