(* ===== verification/Clock.v ===== *)
(** * Clock and timer (src/src/drivers/cmos.rs and pit.rs)

    Reading the calendar from the CMOS registers in each of its formats, and the
    programming of the interval timer. *)

From stdpp Require Import prelude numbers list.
From S2P Require Import Prelude Io.

Module Cmos.

Definition CMOS_INDEX : Z := 0x70.
Definition CMOS_DATA : Z := 0x71.

Record DateTime := mkDateTime { year : Z; month : Z; day : Z; hour : Z; minute : Z; second : Z }.
#[global] Instance DateTime_eq_dec : EqDecision DateTime.
Proof. solve_decision. Defined.
Definition zero : DateTime := mkDateTime 0 0 0 0 0 0.

(** [((val >> 4) * 10) + (val & 0x0F)] in [u8]. *)
Definition bcd_to_binary (val : Z) : Z := wrap 8 (wrap 8 (Z.shiftr val 4 * 10) + Z.land val 0x0F).

(** What [read_raw_rtc] makes of the registers. *)
Definition full_year (century year : Z) (is_bcd : bool) : Z :=
  if 0 <? century then
    let actual_century := if is_bcd then bcd_to_binary (wrap 8 century) else century in
    if ((19 <=? actual_century) && (actual_century <=? 21))%bool then wrap 16 (actual_century * 100 + year) else wrap 16 (2000 + year)
  else wrap 16 (2000 + year).

Definition hour_24 (hour : Z) : Z :=
  let is_pm := negb (Z.land hour 0x80 =? 0) in
  let raw_hour := Z.land hour 0x7F in
  if raw_hour =? 12 then (if is_pm then 12 else 0) else
  if is_pm then wrap 8 (raw_hour + 12) mod 24 else raw_hour mod 24.

Definition interpret (second minute hour day month year century register_b : Z) : DateTime :=
  let is_bcd := Z.land register_b 0x04 =? 0 in
  let conv v := if is_bcd then bcd_to_binary v else v in
  let hour := if is_bcd then Z.lor (bcd_to_binary (Z.land hour 0x7F)) (Z.land hour 0x80) else hour in
  let is_24hr := negb (Z.land register_b 0x02 =? 0) in
  let hour := if is_24hr then hour else hour_24 hour in
  mkDateTime (full_year century (conv year) is_bcd) (conv month) (conv day) hour (conv minute) (conv second).

Section Driver.
Context {H : Type} `{Hardware H}.

Definition read_cmos_register (reg : Z) : hw H Z := port_outb CMOS_INDEX reg;; port_inb CMOS_DATA.
Definition is_update_in_progress : hw H bool := v ← read_cmos_register 0x0A; mret (negb (Z.land v 0x80 =? 0)).

(** [while is_update_in_progress() && timeout > 0]: the condition reads the register
    also when the time is up. *)
Fixpoint wait_update (timeout : nat) : hw H () :=
  u ← is_update_in_progress;
  match timeout with
  | O => mret tt
  | S t => if (u : bool) then wait_update t else mret tt
  end.

Definition TIMEOUT : Z := 10000.
Definition read_raw_rtc : hw H DateTime :=
  wait_update (Z.to_nat TIMEOUT);;
  second ← read_cmos_register 0x00;
  minute ← read_cmos_register 0x02;
  hour ← read_cmos_register 0x04;
  day ← read_cmos_register 0x07;
  month ← read_cmos_register 0x08;
  year ← read_cmos_register 0x09;
  century ← read_cmos_register 0x32;
  register_b ← read_cmos_register 0x0B;
  mret (interpret second minute hour day month year century register_b).

(** [for _ in 0..5] until two consecutive readings agree. *)
Fixpoint reread (n : nat) (last : DateTime) : hw H DateTime :=
  match n with
  | O => mret last
  | S n' => current ← read_raw_rtc; if decide (current = last) then mret current else reread n' current
  end.
Definition read_rtc : hw H DateTime := last ← read_raw_rtc; reread 5 last.
End Driver.

(** ** A clock that stands still while it is read

    [reg_value] are the registers; [updating] is the number of further polls that
    see an update in progress. *)
Class RtcDevice (H : Type) `{Hardware H} := {
  reg_value : H -> Z -> Z;
  updating : H -> nat;
  select_read_law h r v h' : inb (outb h CMOS_INDEX r) CMOS_DATA = (v, h') ->
    (forall x, reg_value h' x = reg_value h x) /\
    (r = 0x0A -> updating h' = pred (updating h) /\ (Z.land v 0x80 = 0 <-> updating h = O)) /\
    (r <> 0x0A -> updating h' = updating h /\ v = reg_value h r)
}.

Definition decoded (f : Z -> Z) : DateTime := interpret (f 0x00) (f 0x02) (f 0x04) (f 0x07) (f 0x08) (f 0x09) (f 0x32) (f 0x0B).

Section Reading.
Context {H : Type} {HW : Hardware H} {HR : RtcDevice H}.

(** The code returns [a] and leaves a clock with the same registers. *)
Definition reads {A} (f : Z -> Z) (m : hw H A) (a : A) : Prop := forall h, (forall x, reg_value h x = f x) -> updating h = O -> exists h', m h = (a, h') /\ (forall x, reg_value h' x = f x) /\ updating h' = O.

Lemma rtc_reads_ret {A} f (a : A) : reads f (mret a) a.
Proof. intros h Hr Hu. by exists h. Qed.

Lemma rtc_reads_bind {A B} f (m : hw H A) (k : A -> hw H B) a b : reads f m a -> reads f (k a) b -> reads f (m ≫= k) b.
Proof. intros Hm Hk h Hr Hu. destruct (Hm h Hr Hu) as (h1 & E1 & R1 & U1). destruct (Hk h1 R1 U1) as (h2 & E2 & R2 & U2). exists h2. unfold mbind, hw_bind. by rewrite E1. Qed.

Lemma reads_register f r : r <> 0x0A -> reads f (read_cmos_register r) (f r).
Proof.
  intros Hne h Hr Hu. unfold read_cmos_register, port_outb, port_inb. unfold mbind, hw_bind. destruct (inb (outb h CMOS_INDEX r) CMOS_DATA) as [v h'] eqn:E.
  destruct (select_read_law h r v h' E) as (R & _ & Hv). destruct (Hv Hne) as [U ->]. exists h'. rewrite Hr. split; [done|]. split; [intros x; by rewrite R|congruence].
Qed.

Lemma wait_update_spec n : forall h, (updating h < n)%nat -> exists h', wait_update n h = (tt, h') /\ (forall x, reg_value h' x = reg_value h x) /\ updating h' = O.
Proof.
  induction n as [|n IH]; intros h Hn; [lia|]. cbn [wait_update]. unfold is_update_in_progress, read_cmos_register, port_outb, port_inb. unfold mbind, hw_bind.
  destruct (inb (outb h CMOS_INDEX 0x0A) CMOS_DATA) as [v h1] eqn:E. destruct (select_read_law h 0x0A v h1 E) as (R & Hv & _). destruct (Hv eq_refl) as [U Hz]. unfold mret, hw_ret.
  destruct (Z.eqb_spec (Z.land v 0x80) 0) as [Ez|Ez]; cbn [negb].
  - exists h1. split; [done|]. split; [done|]. apply Hz in Ez. lia.
  - assert (updating h <> O) by (intros Ez'; by apply Ez, Hz). destruct (IH h1 ltac:(lia)) as (h2 & E2 & R2 & U2). exists h2. split; [exact E2|]. split; [intros x; by rewrite R2, R|done].
Qed.

Lemma raw_spec h : (updating h < Z.to_nat TIMEOUT)%nat -> exists h', read_raw_rtc h = (decoded (reg_value h), h') /\ (forall x, reg_value h' x = reg_value h x) /\ updating h' = O.
Proof.
  intros Hu. unfold read_raw_rtc. destruct (wait_update_spec _ h Hu) as (h1 & E1 & R1 & U1).
  assert (Hreads : reads (reg_value h) (second ← read_cmos_register 0x00; minute ← read_cmos_register 0x02; hour ← read_cmos_register 0x04; day ← read_cmos_register 0x07;
    month ← read_cmos_register 0x08; year ← read_cmos_register 0x09; century ← read_cmos_register 0x32; register_b ← read_cmos_register 0x0B;
    mret (interpret second minute hour day month year century register_b)) (decoded (reg_value h))).
  { do 8 (eapply rtc_reads_bind; [by apply reads_register|]). apply rtc_reads_ret. }
  destruct (Hreads h1 R1 U1) as (h2 & E2 & R2 & U2). exists h2. unfold mbind at 1, hw_bind at 1. rewrite E1. done.
Qed.

Lemma read_rtc_spec h : (updating h < Z.to_nat TIMEOUT)%nat -> exists h', read_rtc h = (decoded (reg_value h), h').
Proof.
  intros Hu. unfold read_rtc. destruct (raw_spec h Hu) as (h1 & E1 & R1 & U1). destruct (raw_spec h1) as (h2 & E2 & R2 & U2); [rewrite U1; unfold TIMEOUT; lia|].
  exists h2. unfold mbind, hw_bind. rewrite E1. cbn [reread]. unfold mbind, hw_bind. rewrite E2. unfold decoded. rewrite !R1. by rewrite decide_True.
Qed.
End Reading.

(** ** Encodings of a date *)
Record civil (d : DateTime) : Prop := {
  c_year : 1900 <= year d < 2200; c_month : 1 <= month d <= 12; c_day : 1 <= day d <= 31;
  c_hour : 0 <= hour d < 24; c_minute : 0 <= minute d < 60; c_second : 0 <= second d < 60
}.
Definition bcd (n : Z) : Z := 16 * (n / 10) + n mod 10.
(** The registers of a clock in binary or BCD, with 24 or 12 hours, with a century
    register or (for dates of this century) without. *)
Definition hour_reg (binary h24 : bool) (h : Z) : Z :=
  let enc n := if binary then n else bcd n in
  if h24 then enc h else
  let h12 := if h mod 12 =? 0 then 12 else h mod 12 in
  enc h12 + (if 12 <=? h then 0x80 else 0).
Definition encode (binary h24 has_century : bool) (d : DateTime) (r : Z) : Z :=
  let enc n := if binary then n else bcd n in
  if r =? 0x00 then enc (second d) else if r =? 0x02 then enc (minute d) else if r =? 0x04 then hour_reg binary h24 (hour d) else
  if r =? 0x07 then enc (day d) else if r =? 0x08 then enc (month d) else if r =? 0x09 then enc (year d mod 100) else
  if r =? 0x32 then (if has_century then enc (year d / 100) else 0) else
  if r =? 0x0B then (if binary then 0x04 else 0) + (if h24 then 0x02 else 0) else 0.

Lemma bcd_inverse n : 0 <= n < 100 -> bcd_to_binary (bcd n) = n.
Proof.
  intros Hn. assert (HF : Forall (fun k => bcd_to_binary (bcd (Z.of_nat k)) = Z.of_nat k) (seq 0 100)) by by_compute.
  rewrite Forall_forall in HF. specialize (HF (Z.to_nat n)). rewrite Z2Nat.id in HF by lia. apply HF, elem_of_seq. lia.
Qed.

Definition reg_b (binary h24 : bool) : Z := (if binary then 0x04 else 0) + (if h24 then 0x02 else 0).
Lemma hour_inverse (binary h24 : bool) h : 0 <= h < 24 ->
  (let hr := hour_reg binary h24 h in let hr := if Z.land (reg_b binary h24) 0x04 =? 0 then Z.lor (bcd_to_binary (Z.land hr 0x7F)) (Z.land hr 0x80) else hr in
   if negb (Z.land (reg_b binary h24) 0x02 =? 0) then hr else hour_24 hr) = h.
Proof.
  intros Hh. assert (HF : Forall (fun k => (let h := Z.of_nat k in let hr := hour_reg binary h24 h in
     let hr := if Z.land (reg_b binary h24) 0x04 =? 0 then Z.lor (bcd_to_binary (Z.land hr 0x7F)) (Z.land hr 0x80) else hr in
     if negb (Z.land (reg_b binary h24) 0x02 =? 0) then hr else hour_24 hr) = Z.of_nat k) (seq 0 24)) by (destruct binary, h24; by_compute).
  rewrite Forall_forall in HF. specialize (HF (Z.to_nat h)). cbv zeta in *. rewrite Z2Nat.id in HF by lia. apply HF, elem_of_seq. lia.
Qed.

Lemma year_inverse (binary has_century : bool) y : 1900 <= y < 2200 -> (has_century = false -> 2000 <= y < 2100) ->
  full_year (if has_century then if binary then y / 100 else bcd (y / 100) else 0) (y mod 100) (negb binary) = y.
Proof.
  intros Hy Hc. pose proof (Z.div_mod y 100 ltac:(lia)) as Hd. pose proof (Z.mod_pos_bound y 100 ltac:(lia)) as Hm. assert (Hq : 19 <= y / 100 <= 21) by lia.
  unfold full_year. destruct has_century.
  - assert (Hb : 0 < (if binary then y / 100 else bcd (y / 100)) /\ (if negb binary then bcd_to_binary (wrap 8 (if binary then y / 100 else bcd (y / 100))) else if binary then y / 100 else bcd (y / 100)) = y / 100).
    { assert (y / 100 = 19 \/ y / 100 = 20 \/ y / 100 = 21) as [->|[->| ->]] by lia; by destruct binary. }
    destruct Hb as [Hb ->]. rewrite (proj2 (Z.ltb_lt _ _)) by done. rewrite !(proj2 (Z.leb_le _ _)) by lia. cbn [andb]. rewrite wrap_small by (split; lia). lia.
  - specialize (Hc eq_refl). change (0 <? 0) with false. cbv iota. rewrite wrap_small by (split; lia). lia.
Qed.

Lemma decode_encode binary h24 has_century d : civil d -> (has_century = false -> 2000 <= year d < 2100) -> decoded (encode binary h24 has_century d) = d.
Proof.
  intros [Hy Hmo Hd Hh Hmi Hs] Hc. unfold decoded. change (encode binary h24 has_century d 0x0B) with (reg_b binary h24). unfold interpret. cbv zeta.
  assert (Eb : (Z.land (reg_b binary h24) 0x04 =? 0) = negb binary) by (by destruct binary, h24).
  pose proof (hour_inverse binary h24 (hour d) Hh) as Hhour. cbv zeta in Hhour. change (encode binary h24 has_century d 0x04) with (hour_reg binary h24 (hour d)). rewrite Hhour, Eb.
  assert (Henc : forall n, 0 <= n < 100 -> (if negb binary then bcd_to_binary (if binary then n else bcd n) else if binary then n else bcd n) = n) by (intros n Hn; destruct binary; [done|by apply bcd_inverse]).
  pose proof (Z.mod_pos_bound (year d) 100 ltac:(lia)). cbn [encode Z.eqb Pos.eqb]. unfold encode. cbn [Z.eqb Pos.eqb]. rewrite !Henc by lia. rewrite year_inverse by done. by destruct d.
Qed.

(** The clock is read correctly in every format: for a device that answers as
    documented (with at most 9999 polls of an update in progress), whose registers
    encode a date in BCD or binary, with 12 or 24 hours, with a century register or
    (for the years 2000 to 2099) without one, [read_rtc] returns exactly that date
    and time. *)
Theorem rtc_read_correct {H} `{RtcDevice H} (h : H) binary h24 has_century d : civil d -> (has_century = false -> 2000 <= year d < 2100) ->
  (updating h < Z.to_nat TIMEOUT)%nat -> (forall r, reg_value h r = encode binary h24 has_century d r) -> exists h', read_rtc h = (d, h').
Proof.
  intros Hd Hc Hu Hr. destruct (read_rtc_spec h Hu) as [h' E]. exists h'. rewrite E. f_equal. rewrite <- (decode_encode binary h24 has_century d Hd Hc). unfold decoded. by rewrite !Hr.
Qed.

(** *** Witness: a clock chip *)
Record chip := mkChip { sel : Z; cells : Z -> Z; uip : nat }.
#[global] Instance chip_hardware : Hardware chip := {
  outb c port v := if port =? CMOS_INDEX then mkChip v (cells c) (uip c) else c;
  inb c port := if port =? CMOS_DATA then if sel c =? 0x0A then (match uip c with O => 0x26 | _ => 0xA6 end, mkChip (sel c) (cells c) (pred (uip c))) else (cells c (sel c), c) else (0, c);
  outw c _ _ := c; inw c _ := (0, c); outl c _ _ := c; inl c _ := (0, c); write_volatile c _ _ := c; read_volatile c _ := (0, c)
}.
#[global] Program Instance chip_rtc : RtcDevice chip := { reg_value := cells; updating := uip }.
Next Obligation.
  intros [s f u] r v h'. cbn. destruct (Z.eqb_spec r 0x0A) as [->|Hne]; intros [= <- <-]; cbn.
  - split; [done|]. split; [intros _|done]. split; [done|]. by destruct u.
  - split; [done|]. split; [done|]. done.
Qed.

Definition sample_date : DateTime := mkDateTime 2026 9 9 23 59 30.
Lemma rtc_read_witness : exists h', read_rtc (mkChip 0 (encode false false true sample_date) 7) = (sample_date, h').
Proof.
  apply (rtc_read_correct (mkChip 0 (encode false false true sample_date) 7) false false true sample_date); [split; cbn; lia|done|cbn; unfold TIMEOUT; lia|done].
Defined.

End Cmos.

Module Pit.
Definition PIT_CHANNEL0_DATA : Z := 0x40.
Definition PIT_COMMAND : Z := 0x43.
Definition PIT_BASE_FREQUENCY : Z := 1193182.
Definition TARGET_FREQUENCY : Z := 100.
Definition DIVISOR : Z := wrap 16 (PIT_BASE_FREQUENCY / TARGET_FREQUENCY).
Definition COMMAND_BYTE : Z := 0x36.

Definition init {H} `{Hardware H} : hw H () :=
  port_outb PIT_COMMAND COMMAND_BYTE;;
  port_outb PIT_CHANNEL0_DATA (Z.land DIVISOR 0xFF);;
  port_outb PIT_CHANNEL0_DATA (Z.land (Z.shiftr DIVISOR 8) 0xFF).

Definition tick_interval_ms : Z := 1000 / TARGET_FREQUENCY.
Definition actual_frequency : Z := PIT_BASE_FREQUENCY / DIVISOR.

(** The divisor fits its register and gives the target frequency. *)
Lemma divisor_exact : DIVISOR = PIT_BASE_FREQUENCY / TARGET_FREQUENCY /\ actual_frequency = TARGET_FREQUENCY /\ tick_interval_ms = 10.
Proof. done. Qed.
End Pit.
