(* ===== verification/Acpi.v ===== *)
(** * ACPI tables (src/src/arch/acpi.rs)

    Discovery of the root pointer in the memory of the firmware, the walk over the
    root tables, and the parsers of the tables that say how to switch the machine
    off (FADT, the [_S5] package of the DSDT) and which processors it has (MADT).

    The memory is any function from addresses to bytes, so all of it can be read
    (AcpiMapped.v has the same parsers where a part is not mapped); a slice made from a
    raw pointer checks its indices as the code does. *)

From stdpp Require Import prelude numbers list strings.
From S2P Require Import Prelude Bytes.
Import Bytes.

Module Acpi.

Record SdtHeader := mkSdt {
  signature : list Z; length_ : Z; revision : Z; checksum : Z; h_oem_id : list Z; oem_table_id : list Z; oem_revision : Z;
  creator_id : Z; creator_revision : Z
}.
Record RsdpDescriptorV1 := mkV1 { v1_signature : list Z; v1_checksum : Z; v1_oem_id : list Z; v1_revision : Z; rsdt_address : Z }.
Record RsdpDescriptorV2 := mkV2 { v1 : RsdpDescriptorV1; v2_length : Z; xsdt_address : Z; extended_checksum : Z; reserved : list Z }.
Record CpuCore := mkCore { processor_id : Z; apic_id : Z; is_enabled : bool }.
Record IoApicInfo := mkIoApic { io_id : Z; address : Z; gsi_base : Z }.
Record AcpiInfo := mkInfo {   is_initialized : bool; rsdp_addr : Z; rsdt_addr : Z; xsdt_addr : Z; fadt_addr : Z; madt_addr : Z; dsdt_addr : Z; oem_id
  : list Z; smi_cmd : Z; acpi_enable : Z; pm1a_cnt_blk : Z; pm1b_cnt_blk : Z; slp_typa : Z; slp_typb : Z; has_s5 : bool; lapic_addr : Z; cores : list
  CpuCore; io_apics : list IoApicInfo; tables_count : Z }.

Definition new : AcpiInfo := mkInfo false 0 0 0 0 0 0 (replicate 6 0) 0 0 0 0 0 0 false 0xFEE00000 [] [] 0.

(** Assignments to the fields. *)
Definition set_rsdp (a : Z) (oem : list Z) (i : AcpiInfo) : AcpiInfo :=
  mkInfo (is_initialized i) a (rsdt_addr i) (xsdt_addr i) (fadt_addr i) (madt_addr i) (dsdt_addr i) oem (smi_cmd i) (acpi_enable i) (pm1a_cnt_blk i) (pm1b_cnt_blk i) (slp_typa i) (slp_typb i) (has_s5 i) (lapic_addr i) (cores i) (io_apics i) (tables_count i).
Definition set_xsdt (a : Z) (i : AcpiInfo) : AcpiInfo :=
  mkInfo (is_initialized i) (rsdp_addr i) (rsdt_addr i) a (fadt_addr i) (madt_addr i) (dsdt_addr i) (oem_id i) (smi_cmd i) (acpi_enable i) (pm1a_cnt_blk i) (pm1b_cnt_blk i) (slp_typa i) (slp_typb i) (has_s5 i) (lapic_addr i) (cores i) (io_apics i) (tables_count i).
Definition set_rsdt (a : Z) (i : AcpiInfo) : AcpiInfo :=
  mkInfo (is_initialized i) (rsdp_addr i) a (xsdt_addr i) (fadt_addr i) (madt_addr i) (dsdt_addr i) (oem_id i) (smi_cmd i) (acpi_enable i) (pm1a_cnt_blk i) (pm1b_cnt_blk i) (slp_typa i) (slp_typb i) (has_s5 i) (lapic_addr i) (cores i) (io_apics i) (tables_count i).
Definition set_count (n : Z) (i : AcpiInfo) : AcpiInfo :=
  mkInfo (is_initialized i) (rsdp_addr i) (rsdt_addr i) (xsdt_addr i) (fadt_addr i) (madt_addr i) (dsdt_addr i) (oem_id i) (smi_cmd i) (acpi_enable i) (pm1a_cnt_blk i) (pm1b_cnt_blk i) (slp_typa i) (slp_typb i) (has_s5 i) (lapic_addr i) (cores i) (io_apics i) n.
Definition set_fadt (a : Z) (i : AcpiInfo) : AcpiInfo :=
  mkInfo (is_initialized i) (rsdp_addr i) (rsdt_addr i) (xsdt_addr i) a (madt_addr i) (dsdt_addr i) (oem_id i) (smi_cmd i) (acpi_enable i) (pm1a_cnt_blk i) (pm1b_cnt_blk i) (slp_typa i) (slp_typb i) (has_s5 i) (lapic_addr i) (cores i) (io_apics i) (tables_count i).
Definition set_madt (a : Z) (i : AcpiInfo) : AcpiInfo :=
  mkInfo (is_initialized i) (rsdp_addr i) (rsdt_addr i) (xsdt_addr i) (fadt_addr i) a (dsdt_addr i) (oem_id i) (smi_cmd i) (acpi_enable i) (pm1a_cnt_blk i) (pm1b_cnt_blk i) (slp_typa i) (slp_typb i) (has_s5 i) (lapic_addr i) (cores i) (io_apics i) (tables_count i).
Definition set_power (dsdt smi enable a b : Z) (i : AcpiInfo) : AcpiInfo :=
  mkInfo (is_initialized i) (rsdp_addr i) (rsdt_addr i) (xsdt_addr i) (fadt_addr i) (madt_addr i) dsdt (oem_id i) smi enable a b (slp_typa i) (slp_typb i) (has_s5 i) (lapic_addr i) (cores i) (io_apics i) (tables_count i).
Definition set_s5 (a b : Z) (has : bool) (i : AcpiInfo) : AcpiInfo :=
  mkInfo (is_initialized i) (rsdp_addr i) (rsdt_addr i) (xsdt_addr i) (fadt_addr i) (madt_addr i) (dsdt_addr i) (oem_id i) (smi_cmd i) (acpi_enable i) (pm1a_cnt_blk i) (pm1b_cnt_blk i) a b has (lapic_addr i) (cores i) (io_apics i) (tables_count i).
Definition set_lapic (a : Z) (i : AcpiInfo) : AcpiInfo :=
  mkInfo (is_initialized i) (rsdp_addr i) (rsdt_addr i) (xsdt_addr i) (fadt_addr i) (madt_addr i) (dsdt_addr i) (oem_id i) (smi_cmd i) (acpi_enable i) (pm1a_cnt_blk i) (pm1b_cnt_blk i) (slp_typa i) (slp_typb i) (has_s5 i) a (cores i) (io_apics i) (tables_count i).
Definition push_core (c : CpuCore) (i : AcpiInfo) : AcpiInfo :=
  mkInfo (is_initialized i) (rsdp_addr i) (rsdt_addr i) (xsdt_addr i) (fadt_addr i) (madt_addr i) (dsdt_addr i) (oem_id i) (smi_cmd i) (acpi_enable i) (pm1a_cnt_blk i) (pm1b_cnt_blk i) (slp_typa i) (slp_typb i) (has_s5 i) (lapic_addr i) (cores i ++ [c]) (io_apics i) (tables_count i).
Definition push_io_apic (c : IoApicInfo) (i : AcpiInfo) : AcpiInfo :=
  mkInfo (is_initialized i) (rsdp_addr i) (rsdt_addr i) (xsdt_addr i) (fadt_addr i) (madt_addr i) (dsdt_addr i) (oem_id i) (smi_cmd i) (acpi_enable i) (pm1a_cnt_blk i) (pm1b_cnt_blk i) (slp_typa i) (slp_typb i) (has_s5 i) (lapic_addr i) (cores i) (io_apics i ++ [c]) (tables_count i).
Definition set_initialized  (i : AcpiInfo) : AcpiInfo :=
  mkInfo true (rsdp_addr i) (rsdt_addr i) (xsdt_addr i) (fadt_addr i) (madt_addr i) (dsdt_addr i) (oem_id i) (smi_cmd i) (acpi_enable i) (pm1a_cnt_blk i) (pm1b_cnt_blk i) (slp_typa i) (slp_typb i) (has_s5 i) (lapic_addr i) (cores i) (io_apics i) (tables_count i).

(** [validate_checksum] *)
Definition validate_checksum (data : list Z) : bool := fold_left (fun acc b => wrap 8 (acc + b)) data 0 =? 0.

Definition RSD_PTR : list Z := ascii_bytes "RSD PTR ".
Definition S5 : list Z := ascii_bytes "_S5_".
Definition FACP : list Z := ascii_bytes "FACP".
Definition APIC : list Z := ascii_bytes "APIC".

Section Memory.
Variable mem : Z -> Z.

(** Reads through raw pointers. *)
Definition bytes_at (a : Z) (n : nat) : list Z := (fun i => mem (u64_add a (Z.of_nat i))) <$> seq 0 n.
Definition field (a : Z) (n : nat) : Z := le_value (bytes_at a n).

Definition read_sdt (a : Z) : SdtHeader :=
  mkSdt (bytes_at a 4) (field (u64_add a 4) 4) (field (u64_add a 8) 1) (field (u64_add a 9) 1) (bytes_at (u64_add a 10) 6) (bytes_at (u64_add a 16) 8)
    (field (u64_add a 24) 4) (field (u64_add a 28) 4) (field (u64_add a 32) 4).
Definition read_v1 (a : Z) : RsdpDescriptorV1 :=
  mkV1 (bytes_at a 8) (field (u64_add a 8) 1) (bytes_at (u64_add a 9) 6) (field (u64_add a 15) 1) (field (u64_add a 16) 4).
Definition read_v2 (a : Z) : RsdpDescriptorV2 :=
  mkV2 (read_v1 a) (field (u64_add a 20) 4) (field (u64_add a 24) 8) (field (u64_add a 32) 1) (bytes_at (u64_add a 33) 3).

(** A slice made by [from_raw_parts], and its checked index. *)
Record slice := mkSlice { base : Z; len : Z }.
Definition get (s : slice) (i : Z) : outcome Z := if ((0 <=? i) && (i <? len s))%bool then Ret (mem (u64_add (base s) i)) else Panic.
(** [&s[i..i + n]] and [uN::from_le_bytes] of it. *)
Fixpoint gets (s : slice) (i : Z) (n : nat) : outcome (list Z) :=
  match n with O => Ret [] | S n' => b ← get s i; l ← gets s (i + 1) n'; Ret (b :: l) end.
Definition le_at (s : slice) (i : Z) (n : nat) : outcome Z := l ← gets s i n; Ret (le_value l).

(** The extension of version 2, read when the revision says so and its checksum is
    right; at most 1024 bytes are summed. *)
Definition extension (addr : Z) (v : RsdpDescriptorV1) : option RsdpDescriptorV2 :=
  if 2 <=? v1_revision v then
    let v2_raw := read_v2 addr in
    let total_len := Z.min (v2_length v2_raw) 1024 in
    if 36 <=? total_len then if validate_checksum (bytes_at addr (Z.to_nat total_len)) then Some v2_raw else None else None
  else None.

Definition rsdp := (Z * RsdpDescriptorV1 * option RsdpDescriptorV2)%type.

(** [scan_region_for_rsdp]: the loop over the 16-byte boundaries of a region; [n]
    bounds the number of steps. *)
Fixpoint scan_from (n : nat) (addr end_ : Z) : option rsdp :=
  match n with
  | O => None
  | S n' =>
    if addr <? end_ then
      if (bool_decide (bytes_at addr 8 = RSD_PTR) && validate_checksum (bytes_at addr 20))%bool then Some (addr, read_v1 addr, extension addr (read_v1 addr))
      else scan_from n' (u64_add addr 16) end_
    else None
  end.
Definition scan_region_for_rsdp (base len : Z) : option rsdp := scan_from (Z.to_nat (len / 16 + 1)) base (u64_add base len).

Definition find_rsdp : option rsdp :=
  match scan_region_for_rsdp 0x000E0000 0x20000 with
  | Some res => Some res
  | None => match scan_region_for_rsdp 0x0009FC00 0x400 with Some res => Some res | None => scan_region_for_rsdp 0x00080000 0x1FC00 end
  end.

(** [parse_rsdp_at] *)
Definition parse_rsdp_at (addr : Z) : option rsdp :=
  if addr =? 0 then None else
  if negb (bool_decide (bytes_at addr 8 = RSD_PTR)) then None else
  if negb (validate_checksum (bytes_at addr 20)) then None else
  Some (addr, read_v1 addr, extension addr (read_v1 addr)).

(** [parse_aml_byte_integer]: the value and the new position. *)
Definition parse_aml_byte_integer (aml : slice) (ptr : Z) : outcome (option Z * Z) :=
  if len aml <=? ptr then Ret (None, ptr) else
  opcode ← get aml ptr;
  let ptr := ptr + 1 in
  if opcode =? 0x00 then Ret (Some 0, ptr) else if opcode =? 0x01 then Ret (Some 1, ptr) else if opcode =? 0xFF then Ret (Some 0xFF, ptr) else
  if opcode =? 0x0A then if ptr <? len aml then v ← get aml ptr; Ret (Some v, ptr + 1) else Ret (None, ptr) else
  if opcode <=? 0x3F then Ret (Some opcode, ptr) else Ret (None, ptr).

(** What follows a name [_S5_] at [i]: [Some] is the [return] of the function
    (which may be [None], by [?]), [None] goes on with the search. *)
Definition s5_package (aml : slice) (i : Z) : outcome (option (option (Z * Z))) :=
  let ptr := i + 4 in
  if ptr <? len aml then
    b ← get aml ptr;
    if b =? 0x12 then
      pkg_lead ← get aml (ptr + 1);
      let ptr := ptr + 1 + (1 + Z.shiftr pkg_lead 6) in
      if ptr <? len aml then
        a ← parse_aml_byte_integer aml (ptr + 1);
        match a.1 with
        | None => Ret (Some None)
        | Some slp_a => b ← parse_aml_byte_integer aml a.2; Ret (Some (Some (slp_a, default slp_a b.1)))
        end
      else Ret None
    else Ret None
  else Ret None.

(** [for i in 0..n]; [k] is what is left of the range. *)
Fixpoint s5_search (aml : slice) (k : nat) (i : Z) : outcome (option (Z * Z)) :=
  match k with
  | O => Ret None
  | S k' =>
    sig ← gets aml i 4;
    if bool_decide (sig = S5) then
      r ← s5_package aml i;
      match r with Some res => Ret res | None => s5_search aml k' (i + 1) end
    else s5_search aml k' (i + 1)
  end.

(** [parse_s5_from_dsdt] *)
Definition parse_s5_from_dsdt (dsdt_addr : Z) : outcome (option (Z * Z)) :=
  if dsdt_addr =? 0 then Ret None else
  let len := length_ (read_sdt dsdt_addr) in
  if ((len <? 36) || (0x100000 <? len))%bool then Ret None else
  s5_search (mkSlice dsdt_addr len) (Z.to_nat (len - 16)) 0.

(** The [match] on the type of a record of the MADT. *)
Definition madt_entry (data : slice) (offset entry_type entry_len : Z) (info : AcpiInfo) : outcome AcpiInfo :=
  if entry_type =? 0 then
    if 8 <=? entry_len then
      processor_id ← get data (offset + 2); apic_id ← get data (offset + 3); flags ← le_at data (offset + 4) 4;
      Ret (push_core (mkCore processor_id apic_id (negb (Z.land flags 1 =? 0) || negb (Z.land flags 2 =? 0))) info)
    else Ret info
  else if entry_type =? 1 then
    if 12 <=? entry_len then
      id ← get data (offset + 2); address ← le_at data (offset + 4) 4; gsi_base ← le_at data (offset + 8) 4;
      Ret (push_io_apic (mkIoApic id address gsi_base) info)
    else Ret info
  else Ret info.

(** [while offset + 2 <= total_len] *)
Fixpoint madt_loop (fuel : nat) (data : slice) (offset : Z) (info : AcpiInfo) : outcome AcpiInfo :=
  match fuel with
  | O => NoFuel
  | S f =>
    if offset + 2 <=? len data then
      entry_type ← get data offset; entry_len ← get data (offset + 1);
      if ((entry_len <? 2) || (len data <? offset + entry_len))%bool then Ret info else
      info ← madt_entry data offset entry_type entry_len info;
      madt_loop f data (offset + entry_len) info
    else Ret info
  end.

(** [parse_madt]; every record is at least two bytes long. *)
Definition parse_madt (madt_addr : Z) (info : AcpiInfo) : outcome AcpiInfo :=
  if madt_addr =? 0 then Ret info else
  let total_len := length_ (read_sdt madt_addr) in
  if ((total_len <? 44) || (0x10000 <? total_len))%bool then Ret info else
  let info := set_lapic (field (u64_add madt_addr 36) 4) info in
  madt_loop (Z.to_nat total_len) (mkSlice madt_addr total_len) 44 info.

(** [parse_fadt] *)
Definition parse_fadt (fadt_addr : Z) (info : AcpiInfo) : outcome AcpiInfo :=
  if fadt_addr =? 0 then Ret info else
  let total_len := length_ (read_sdt fadt_addr) in
  if total_len <? 76 then Ret info else
  let data := mkSlice fadt_addr total_len in
  dsdt_32 ← le_at data 40 4; smi_cmd ← le_at data 48 4; acpi_enable ← get data 52; pm1a_cnt ← le_at data 64 4; pm1b_cnt ← le_at data 68 4;
  dsdt ← (if 148 <=? total_len then x_dsdt ← le_at data 140 8; Ret (if x_dsdt =? 0 then dsdt_32 else x_dsdt) else Ret dsdt_32);
  let info := set_power dsdt smi_cmd acpi_enable pm1a_cnt pm1b_cnt info in
  s5 ← parse_s5_from_dsdt (dsdt_addr info);
  Ret (match s5 with Some (slp_a, slp_b) => set_s5 slp_a slp_b true info | None => set_s5 0 0 false info end).

(** The entries of a root table with pointers of [width] bytes, without the null
    ones; a table of an implausible length has none. *)
Definition table_entries (table : Z) (width : nat) : list Z :=
  let total_len := length_ (read_sdt table) in
  if ((36 <=? total_len) && (total_len <=? 0x10000))%bool then
    filter (fun a => a <> 0) ((fun i => field (u64_add (u64_add table 36) (Z.of_nat (width * i))) width) <$> seq 0 (Z.to_nat ((total_len - 36) / Z.of_nat width)))
  else [].

(** [for &addr in &table_addrs]: the last table of each signature counts. *)
Definition inspect (info : AcpiInfo) (addr : Z) : AcpiInfo :=
  let sig := signature (read_sdt addr) in
  if bool_decide (sig = FACP) then set_fadt addr info else if bool_decide (sig = APIC) then set_madt addr info else info.

Definition locate (rsdp_override : option Z) : option rsdp :=
  match rsdp_override with
  | Some addr => match parse_rsdp_at addr with Some res => Some res | None => find_rsdp end
  | None => find_rsdp
  end.

(** The tables of the XSDT, or of the RSDT when there are none. *)
Definition root_tables (rsdp_v1 : RsdpDescriptorV1) (rsdp_v2 : option RsdpDescriptorV2) (info : AcpiInfo) : AcpiInfo * list Z :=
  let '(info, table_addrs) :=
    match rsdp_v2 with
    | Some v2 => if xsdt_address v2 =? 0 then (info, []) else (set_xsdt (xsdt_address v2) info, table_entries (xsdt_address v2) 8)
    | None => (info, [])
    end in
  if (bool_decide (table_addrs = []) && negb (rsdt_address rsdp_v1 =? 0))%bool
  then (set_rsdt (rsdt_address rsdp_v1) info, table_entries (rsdt_address rsdp_v1) 4)
  else (info, table_addrs).

(** [init_with_rsdp] *)
Definition init_with_rsdp (rsdp_override : option Z) (info : AcpiInfo) : outcome (bool * AcpiInfo) :=
  match locate rsdp_override with
  | None => Ret (false, info)
  | Some (rsdp_addr, rsdp_v1, rsdp_v2) =>
    let info := set_rsdp rsdp_addr (v1_oem_id rsdp_v1) info in
    let '(info, table_addrs) := root_tables rsdp_v1 rsdp_v2 info in
    let info := set_count (Z.of_nat (length table_addrs)) info in
    let info := fold_left inspect table_addrs info in
    let fadt := fadt_addr info in
    let madt := madt_addr info in
    info ← (if fadt =? 0 then Ret info else parse_fadt fadt info);
    info ← (if madt =? 0 then Ret info else parse_madt madt info);
    let info := if bool_decide (cores info = []) then push_core (mkCore 0 0 true) info else info in
    Ret (true, set_initialized info)
  end.

Definition init (info : AcpiInfo) : outcome (bool * AcpiInfo) := init_with_rsdp None info.
End Memory.

(** ** The parsers stay inside the tables *)
Definition byte_memory (mem : Z -> Z) : Prop := forall a, in_u 8 (mem a).
Definition agree (mem mem' : Z -> Z) (a n : Z) : Prop := forall i, 0 <= i < n -> mem (u64_add a i) = mem' (u64_add a i).
(** The header and the bytes the header counts are the same. *)
Definition same_table (mem mem' : Z -> Z) (a : Z) : Prop := agree mem mem' a (Z.max 36 (length_ (read_sdt mem a))).

Lemma u64_add_assoc a b c : u64_add (u64_add a b) c = u64_add a (b + c).
Proof. unfold u64_add, wrap. rewrite Zplus_mod_idemp_l. f_equal. lia. Qed.

Lemma bytes_at_agree mem mem' a o n m : agree mem mem' a m -> 0 <= o -> o + Z.of_nat n <= m -> bytes_at mem (u64_add a o) n = bytes_at mem' (u64_add a o) n.
Proof. intros Ha Ho Hm. apply list_fmap_ext. intros i x Hi. apply lookup_seq in Hi as [-> Hi]. rewrite u64_add_assoc. apply Ha. lia. Qed.

Lemma bytes_at_agree_0 mem mem' a n m : agree mem mem' a m -> Z.of_nat n <= m -> bytes_at mem a n = bytes_at mem' a n.
Proof. intros Ha Hm. apply list_fmap_ext. intros i x Hi. apply lookup_seq in Hi as [-> Hi]. apply Ha. lia. Qed.

Lemma read_sdt_agree mem mem' a : agree mem mem' a 36 -> read_sdt mem a = read_sdt mem' a.
Proof.
  intros Ha. unfold read_sdt, field. rewrite (bytes_at_agree_0 mem mem' a 4 36 Ha) by lia.
  by repeat (rewrite (bytes_at_agree mem mem' a _ _ 36 Ha) by lia).
Qed.

Section Slices.
Context (mem mem' : Z -> Z) (s : slice) (Hs : agree mem mem' (base s) (len s)).

Lemma get_agree i : get mem s i = get mem' s i.
Proof. unfold get. destruct (Z.leb_spec 0 i), (Z.ltb_spec i (len s)); cbn [andb]; [|done..]. f_equal. by apply Hs. Qed.

Lemma gets_agree n : forall i, gets mem s i n = gets mem' s i n.
Proof. induction n as [|n IH]; intros i; [done|]. cbn [gets]. by rewrite get_agree, IH. Qed.

Lemma le_at_agree i n : le_at mem s i n = le_at mem' s i n.
Proof. unfold le_at. by rewrite gets_agree. Qed.

Lemma aml_integer_agree i : parse_aml_byte_integer mem s i = parse_aml_byte_integer mem' s i.
Proof. unfold parse_aml_byte_integer. by rewrite !get_agree. Qed.

Lemma bind_ext {A B} (m : outcome A) (f g : A -> outcome B) : (forall a, f a = g a) -> (m ≫= f) = (m ≫= g).
Proof. intros H. destruct m; [apply H|done..]. Qed.

Lemma s5_package_agree i : s5_package mem s i = s5_package mem' s i.
Proof.
  unfold s5_package. cbv zeta. destruct (_ <? _); [|done]. rewrite !get_agree. apply bind_ext. intros b. destruct (_ =? _); [|done].
  apply bind_ext. intros l. destruct (_ <? _); [|done]. rewrite aml_integer_agree. apply bind_ext. intros [[a|] q]; [|done]. cbn [fst snd]. by rewrite aml_integer_agree.
Qed.

Lemma s5_search_agree k : forall i, s5_search mem s k i = s5_search mem' s k i.
Proof.
  induction k as [|k IH]; intros i; [done|]. cbn [s5_search]. rewrite gets_agree. apply bind_ext. intros l. case_bool_decide; [|apply IH].
  rewrite s5_package_agree. apply bind_ext. intros [r|]; [done|apply IH].
Qed.

Lemma madt_entry_agree o t l info : madt_entry mem s o t l info = madt_entry mem' s o t l info.
Proof. unfold madt_entry. by rewrite !get_agree, !le_at_agree. Qed.

Lemma madt_loop_agree f : forall o info, madt_loop mem f s o info = madt_loop mem' f s o info.
Proof.
  induction f as [|f IH]; intros o info; [done|]. cbn [madt_loop]. destruct (_ <=? _); [|done]. rewrite !get_agree. apply bind_ext. intros t.
  apply bind_ext. intros l. destruct (_ || _)%bool; [done|]. rewrite madt_entry_agree. apply bind_ext. intros i'. apply IH.
Qed.
End Slices.

Section Safe.
Context (mem : Z -> Z) (Hm : byte_memory mem) (s : slice).

Lemma get_safe i : 0 <= i < len s -> exists b, get mem s i = Ret b /\ in_u 8 b.
Proof. intros Hi. exists (mem (u64_add (base s) i)). split; [|apply Hm]. unfold get. rewrite (proj2 (Z.leb_le _ _)), (proj2 (Z.ltb_lt _ _)) by lia. done. Qed.

Lemma gets_safe n : forall i, 0 <= i -> i + Z.of_nat n <= len s -> exists l, gets mem s i n = Ret l.
Proof.
  induction n as [|n IH]; intros i Hi Hn; [by eexists|]. cbn [gets]. destruct (get_safe i ltac:(lia)) as (b & -> & _). cbn [mbind outcome_bind].
  destruct (IH (i + 1) ltac:(lia) ltac:(lia)) as (l & ->). by eexists.
Qed.

Lemma le_at_safe i n : 0 <= i -> i + Z.of_nat n <= len s -> exists v, le_at mem s i n = Ret v.
Proof. intros Hi Hn. unfold le_at. destruct (gets_safe n i Hi Hn) as (l & ->). by eexists. Qed.

Lemma aml_integer_safe i : 0 <= i -> exists r p, parse_aml_byte_integer mem s i = Ret (r, p) /\ i <= p.
Proof.
  intros Hi. unfold parse_aml_byte_integer. destruct (Z.leb_spec (len s) i); [eexists _, _; split; [done|lia]|]. destruct (get_safe i ltac:(lia)) as (b & -> & _). cbn [mbind outcome_bind]. cbv zeta.
  repeat (case_match; try (eexists _, _; split; [done|lia])). destruct (get_safe (i + 1)) as (v & -> & _); [apply Z.ltb_lt in H4; lia|]. eexists _, _. split; [done|]. cbn [snd]. lia.
Qed.

Lemma s5_package_safe i : 0 <= i -> i + 16 < len s -> exists r, s5_package mem s i = Ret r.
Proof.
  intros Hi Hl. unfold s5_package. cbv zeta. rewrite (proj2 (Z.ltb_lt _ _)) by lia. destruct (get_safe (i + 4) ltac:(lia)) as (b & -> & _). cbn [mbind outcome_bind].
  destruct (b =? 0x12); [|by eexists]. destruct (get_safe (i + 4 + 1) ltac:(lia)) as (l & -> & Hb). cbn [mbind outcome_bind]. destruct (_ <? _); [|by eexists].
  pose proof (proj2 (Z.shiftr_nonneg l 6) (proj1 Hb)). destruct (aml_integer_safe (i + 4 + 1 + (1 + l ≫ 6) + 1) ltac:(lia)) as (r & p & -> & Hp). cbn [mbind outcome_bind fst snd].
  destruct r as [a|]; [|by eexists]. destruct (aml_integer_safe p ltac:(lia)) as (r' & p' & -> & _). by eexists.
Qed.

Lemma s5_search_safe k : forall i, 0 <= i -> i + Z.of_nat k + 16 <= len s -> exists r, s5_search mem s k i = Ret r.
Proof.
  induction k as [|k IH]; intros i Hi Hk; [by eexists|]. cbn [s5_search]. destruct (gets_safe 4 i Hi ltac:(lia)) as (l & ->). cbn [mbind outcome_bind].
  case_bool_decide; [|apply IH; lia]. destruct (s5_package_safe i Hi ltac:(lia)) as (r & ->). cbn [mbind outcome_bind]. destruct r; [by eexists|apply IH; lia].
Qed.

Lemma madt_entry_safe o t l info : 0 <= o -> o + l <= len s -> exists i', madt_entry mem s o t l info = Ret i'.
Proof.
  intros Ho Hl. unfold madt_entry. destruct (t =? 0); [destruct (Z.leb_spec 8 l); [|by eexists]|destruct (t =? 1); [destruct (Z.leb_spec 12 l); [|by eexists]|by eexists]];
    destruct (get_safe (o + 2) ltac:(lia)) as (a & -> & _); cbn [mbind outcome_bind].
  - destruct (get_safe (o + 3) ltac:(lia)) as (b & -> & _). cbn [mbind outcome_bind]. destruct (le_at_safe (o + 4) 4 ltac:(lia) ltac:(lia)) as (v & ->). by eexists.
  - destruct (le_at_safe (o + 4) 4 ltac:(lia) ltac:(lia)) as (v & ->), (le_at_safe (o + 8) 4 ltac:(lia) ltac:(lia)) as (w & ->). by eexists.
Qed.

Lemma madt_loop_safe f : forall o info, 0 <= o -> len s < o + Z.of_nat f + 1 -> exists i', madt_loop mem f s o info = Ret i' \/ f = O.
Proof.
  induction f as [|f IH]; intros o info Ho Hf; [exists info; by right|]. cbn [madt_loop]. destruct (Z.leb_spec (o + 2) (len s)) as [Hl|]; [|exists info; by left].
  destruct (get_safe o ltac:(lia)) as (t & -> & _). cbn [mbind outcome_bind]. destruct (get_safe (o + 1) ltac:(lia)) as (l & -> & _). cbn [mbind outcome_bind].
  destruct (Z.ltb_spec l 2), (Z.ltb_spec (len s) (o + l)); cbn [orb]; [exists info; by left..|]. destruct (madt_entry_safe o t l info Ho ltac:(lia)) as (i' & ->). cbn [mbind outcome_bind].
  destruct (IH (o + l) i' ltac:(lia) ltac:(lia)) as (i2 & [E| ->]); [exists i2; by left|lia].
Qed.
End Safe.

Lemma parse_s5_safe mem a : byte_memory mem -> exists r, parse_s5_from_dsdt mem a = Ret r.
Proof.
  intros Hm. unfold parse_s5_from_dsdt. destruct (a =? 0); [by eexists|]. cbv zeta. destruct (Z.ltb_spec (length_ (read_sdt mem a)) 36), (Z.ltb_spec 0x100000 (length_ (read_sdt mem a))); cbn [orb]; [by eexists..|].
  apply s5_search_safe; [done|lia|]. cbn [len]. rewrite Z2Nat.id by lia. lia.
Qed.

Lemma parse_s5_agree mem mem' a : same_table mem mem' a -> parse_s5_from_dsdt mem a = parse_s5_from_dsdt mem' a.
Proof.
  intros Ht. unfold parse_s5_from_dsdt. destruct (a =? 0); [done|]. cbv zeta. rewrite <- (read_sdt_agree mem mem' a) by (intros i Hi; apply Ht; lia). destruct (_ || _)%bool; [done|].
  apply s5_search_agree. intros i Hi. cbn [len base] in *. apply Ht. lia.
Qed.

Lemma parse_madt_safe mem a info : byte_memory mem -> exists i', parse_madt mem a info = Ret i'.
Proof.
  intros Hm. unfold parse_madt. destruct (a =? 0); [by eexists|]. cbv zeta. destruct (Z.ltb_spec (length_ (read_sdt mem a)) 44), (Z.ltb_spec 0x10000 (length_ (read_sdt mem a))); cbn [orb]; [by eexists..|].
  edestruct (madt_loop_safe mem Hm (mkSlice a (length_ (read_sdt mem a))) (Z.to_nat (length_ (read_sdt mem a))) 44) as (i' & [E|E]); [lia|cbn [len]; lia|by exists i'|lia].
Qed.

Lemma parse_madt_agree mem mem' a info : same_table mem mem' a -> parse_madt mem a info = parse_madt mem' a info.
Proof.
  intros Ht. unfold parse_madt. destruct (a =? 0); [done|]. cbv zeta. rewrite <- (read_sdt_agree mem mem' a) by (intros i Hi; apply Ht; lia).
  destruct (Z.ltb_spec (length_ (read_sdt mem a)) 44); [done|]. destruct (_ <? _); [done|]. cbn [orb]. unfold field.
  rewrite (bytes_at_agree mem mem' a 36 4 (Z.max 36 (length_ (read_sdt mem a))) Ht) by lia. apply madt_loop_agree. intros i Hi. cbn [len base] in *. apply Ht. lia.
Qed.

(** The fields of a FADT, before the DSDT is looked at. *)
Definition fadt_fields (mem : Z -> Z) (a : Z) : outcome (Z * Z * Z * Z * Z) :=
  let total_len := length_ (read_sdt mem a) in
  let data := mkSlice a total_len in
  dsdt_32 ← le_at mem data 40 4; smi_cmd ← le_at mem data 48 4; acpi_enable ← get mem data 52; pm1a_cnt ← le_at mem data 64 4; pm1b_cnt ← le_at mem data 68 4;
  dsdt ← (if 148 <=? total_len then x_dsdt ← le_at mem data 140 8; Ret (if x_dsdt =? 0 then dsdt_32 else x_dsdt) else Ret dsdt_32);
  Ret (dsdt, smi_cmd, acpi_enable, pm1a_cnt, pm1b_cnt).
Definition with_s5 (s5 : option (Z * Z)) (info : AcpiInfo) : AcpiInfo := match s5 with Some (a, b) => set_s5 a b true info | None => set_s5 0 0 false info end.

Lemma parse_fadt_fields mem a info : parse_fadt mem a info =
  if a =? 0 then Ret info else if length_ (read_sdt mem a) <? 76 then Ret info else
  '(dsdt, smi, enable, pa, pb) ← fadt_fields mem a; s5 ← parse_s5_from_dsdt mem dsdt; Ret (with_s5 s5 (set_power dsdt smi enable pa pb info)).
Proof.
  unfold parse_fadt, fadt_fields. destruct (a =? 0); [done|]. cbv zeta. destruct (_ <? 76); [done|].
  destruct (le_at _ _ 40 4); [|done..]. cbn [mbind outcome_bind]. destruct (le_at _ _ 48 4); [|done..]. cbn [mbind outcome_bind]. destruct (get _ _ 52); [|done..]. cbn [mbind outcome_bind].
  destruct (le_at _ _ 64 4); [|done..]. cbn [mbind outcome_bind]. destruct (le_at _ _ 68 4); [|done..]. cbn [mbind outcome_bind].
  destruct (148 <=? _); [destruct (le_at _ _ 140 8)|]; cbn [mbind outcome_bind]; done.
Qed.

Lemma fadt_fields_safe mem a : byte_memory mem -> 76 <= length_ (read_sdt mem a) -> exists d s e pa pb, fadt_fields mem a = Ret (d, s, e, pa, pb).
Proof.
  intros Hm Hl. unfold fadt_fields. cbv zeta. set (sl := mkSlice a _). assert (Hsl : 76 <= len sl) by done.
  destruct (le_at_safe mem Hm sl 40 4 ltac:(lia) ltac:(lia)) as (v1 & ->), (le_at_safe mem Hm sl 48 4 ltac:(lia) ltac:(lia)) as (v2 & ->), (get_safe mem Hm sl 52 ltac:(lia)) as (v3 & -> & _).
  destruct (le_at_safe mem Hm sl 64 4 ltac:(lia) ltac:(lia)) as (v4 & ->), (le_at_safe mem Hm sl 68 4 ltac:(lia) ltac:(lia)) as (v5 & ->). cbn [mbind outcome_bind].
  change (length_ (read_sdt mem a)) with (len sl). destruct (Z.leb_spec 148 (len sl)); cbn [mbind outcome_bind]; [|by eexists _, _, _, _, _].
  destruct (le_at_safe mem Hm sl 140 8 ltac:(lia) ltac:(lia)) as (v6 & ->). by eexists _, _, _, _, _.
Qed.

Lemma fadt_fields_agree mem mem' a : same_table mem mem' a -> fadt_fields mem a = fadt_fields mem' a.
Proof.
  intros Ht. unfold fadt_fields. rewrite <- (read_sdt_agree mem mem' a) by (intros i Hi; apply Ht; lia). cbv zeta. set (sl := mkSlice a _).
  assert (Hs : agree mem mem' (base sl) (len sl)) by (intros i Hi; apply Ht; cbn [sl len] in Hi; lia). by rewrite !(le_at_agree mem mem' sl Hs), (get_agree mem mem' sl Hs).
Qed.

Lemma parse_fadt_safe mem fadt info : byte_memory mem -> exists i', parse_fadt mem fadt info = Ret i'.
Proof.
  intros Hm. rewrite parse_fadt_fields. destruct (fadt =? 0); [by exists info|]. destruct (Z.ltb_spec (length_ (read_sdt mem fadt)) 76); [by exists info|].
  destruct (fadt_fields_safe mem fadt Hm ltac:(lia)) as (d & s & e & pa & pb & ->). cbn [mbind outcome_bind]. destruct (parse_s5_safe mem d Hm) as (r & E). rewrite E. cbn [mbind outcome_bind]. by eexists.
Qed.
(** [init_with_rsdp] returns whatever the firmware left in memory. *)
Lemma init_with_rsdp_safe mem rsdp info : byte_memory mem -> exists b i', init_with_rsdp mem rsdp info = Ret (b, i').
Proof.
  intros Hm. unfold init_with_rsdp. destruct (locate mem rsdp) as [[[a v1] v2]|]; [|by eexists _, _]. cbv zeta. destruct (root_tables mem v1 v2 _) as [i1 addrs].
  set (i2 := fold_left _ _ _). assert (Hf : exists i3, (if fadt_addr i2 =? 0 then Ret i2 else parse_fadt mem (fadt_addr i2) i2) = Ret i3) by (destruct (fadt_addr i2 =? 0); [by eexists|by apply parse_fadt_safe]).
  destruct Hf as (i3 & ->). cbn [mbind outcome_bind]. assert (Ha : exists i4, (if madt_addr i2 =? 0 then Ret i3 else parse_madt mem (madt_addr i2) i3) = Ret i4) by (destruct (madt_addr i2 =? 0); [by eexists|by apply parse_madt_safe]).
  destruct Ha as (i4 & ->). by eexists _, _.
Qed.

(** C34: The parsers of the firmware tables always return, without a panic, and read
    nothing outside the tables: on any memory (corrupt tables included) [parse_madt]
    depends only on the bytes that the header of the table counts, and
    [parse_fadt] only on those of the FADT and of the DSDT it names. *)
Theorem acpi_parsers_bounded mem mem' madt fadt info : byte_memory mem -> same_table mem mem' madt -> same_table mem mem' fadt ->
  (exists i', parse_madt mem madt info = Ret i' /\ parse_madt mem' madt info = Ret i') /\
  (exists i', parse_fadt mem fadt info = Ret i' /\ (same_table mem mem' (dsdt_addr i') -> parse_fadt mem' fadt info = Ret i')).
Proof.
  intros Hm Hmadt Hfadt. split.
  - destruct (parse_madt_safe mem madt info Hm) as (i' & E). exists i'. by rewrite <- (parse_madt_agree mem mem').
  - rewrite !parse_fadt_fields. rewrite <- (read_sdt_agree mem mem' fadt) by (intros i Hi; apply Hfadt; lia). rewrite <- (fadt_fields_agree mem mem' fadt Hfadt).
    destruct (fadt =? 0); [by exists info|]. destruct (Z.ltb_spec (length_ (read_sdt mem fadt)) 76); [by exists info|].
    destruct (fadt_fields_safe mem fadt Hm ltac:(lia)) as (d & s & e & pa & pb & ->). cbn [mbind outcome_bind]. destruct (parse_s5_safe mem d Hm) as (r & E). rewrite E. cbn [mbind outcome_bind].
    eexists. split; [done|]. intros Hd. rewrite <- (parse_s5_agree mem mem' d), E by (by destruct r as [[]|]). done.
Qed.

End Acpi.
