(* ===== verification/AcpiMapped.v ===== *)
(** * Reading the firmware tables through the page tables (src/src/arch/acpi.rs)

    The parsers of Acpi.v once more, over memory of which only a part is mapped: every raw
    pointer the code follows is one of the loads here, and a load outside the mapped part is
    a page fault, which ends the run.  Where there is no page fault the parsers answer what
    those of Acpi.v answer. *)

From stdpp Require Import prelude numbers list strings.
From S2P Require Import Prelude Bytes Acpi.
Import Bytes.

Module AcpiMapped.

(** A run that may end in a page fault ([None]). *)
Definition faulty (X : Type) : Type := option (outcome X).
Definition done_ {X} (x : X) : faulty X := Some (Ret x).
Definition then_ {X Y} (f : faulty X) (k : X -> faulty Y) : faulty Y :=
  match f with
  | None => None
  | Some (Ret x) => k x
  | Some Panic => Some Panic
  | Some NoFuel => Some NoFuel
  end.
Declare Scope faulty_scope.
Notation "x <~ f ; g" := (then_ f (fun x => g)) (at level 20, f at level 100, g at level 200, right associativity) : faulty_scope.
Notation "f ;~ g" := (then_ f (fun _ => g)) (at level 100, g at level 200, right associativity) : faulty_scope.
#[local] Open Scope faulty_scope.

Section Tables.
Variables (mem : Z -> Z) (mapped : Z -> bool).

(** An access to [n] bytes from [a] on. *)
Definition touch (a : Z) (n : nat) : faulty () :=
  if forallb (fun i => mapped (u64_add a (Z.of_nat i))) (seq 0 n) then done_ tt else None.
Definition header (a : Z) : faulty Acpi.SdtHeader := touch a 36 ;~ done_ (Acpi.read_sdt mem a).

Definition get (s : Acpi.slice) (i : Z) : faulty Z :=
  if ((0 <=? i) && (i <? Acpi.len s))%bool then touch (u64_add (Acpi.base s) i) 1 ;~ done_ (mem (u64_add (Acpi.base s) i)) else Some Panic.
Fixpoint gets (s : Acpi.slice) (i : Z) (n : nat) : faulty (list Z) :=
  match n with O => done_ [] | S n' => b <~ get s i; l <~ gets s (i + 1) n'; done_ (b :: l) end.
Definition le_at (s : Acpi.slice) (i : Z) (n : nat) : faulty Z := l <~ gets s i n; done_ (le_value l).

(** ** The root pointer *)
Definition extension (addr : Z) (v : Acpi.RsdpDescriptorV1) : faulty (option Acpi.RsdpDescriptorV2) :=
  if 2 <=? Acpi.v1_revision v then
    touch addr 36 ;~
    let v2_raw := Acpi.read_v2 mem addr in
    let total_len := Z.min (Acpi.v2_length v2_raw) 1024 in
    if 36 <=? total_len then
      touch addr (Z.to_nat total_len) ;~
      done_ (if Acpi.validate_checksum (Acpi.bytes_at mem addr (Z.to_nat total_len)) then Some v2_raw else None)
    else done_ None
  else done_ None.

Fixpoint scan_from (n : nat) (addr end_ : Z) : faulty (option Acpi.rsdp) :=
  match n with
  | O => done_ None
  | S n' =>
    if addr <? end_ then
      touch addr 8 ;~
      if bool_decide (Acpi.bytes_at mem addr 8 = Acpi.RSD_PTR) then
        touch addr 20 ;~
        if Acpi.validate_checksum (Acpi.bytes_at mem addr 20)
        then v2 <~ extension addr (Acpi.read_v1 mem addr); done_ (Some (addr, Acpi.read_v1 mem addr, v2))
        else scan_from n' (u64_add addr 16) end_
      else scan_from n' (u64_add addr 16) end_
    else done_ None
  end.
Definition scan_region_for_rsdp (base len : Z) : faulty (option Acpi.rsdp) := scan_from (Z.to_nat (len / 16 + 1)) base (u64_add base len).

Definition find_rsdp : faulty (option Acpi.rsdp) :=
  r <~ scan_region_for_rsdp 0x000E0000 0x20000;
  match r with
  | Some res => done_ (Some res)
  | None =>
      r <~ scan_region_for_rsdp 0x0009FC00 0x400;
      match r with Some res => done_ (Some res) | None => scan_region_for_rsdp 0x00080000 0x1FC00 end
  end.

Definition parse_rsdp_at (addr : Z) : faulty (option Acpi.rsdp) :=
  if addr =? 0 then done_ None else
  touch addr 8 ;~
  if negb (bool_decide (Acpi.bytes_at mem addr 8 = Acpi.RSD_PTR)) then done_ None else
  touch addr 20 ;~
  if negb (Acpi.validate_checksum (Acpi.bytes_at mem addr 20)) then done_ None else
  v2 <~ extension addr (Acpi.read_v1 mem addr); done_ (Some (addr, Acpi.read_v1 mem addr, v2)).

Definition locate (rsdp_override : option Z) : faulty (option Acpi.rsdp) :=
  match rsdp_override with
  | Some addr => r <~ parse_rsdp_at addr; match r with Some res => done_ (Some res) | None => find_rsdp end
  | None => find_rsdp
  end.

(** ** The package of the DSDT *)
Definition parse_aml_byte_integer (aml : Acpi.slice) (ptr : Z) : faulty (option Z * Z) :=
  if Acpi.len aml <=? ptr then done_ (None, ptr) else
  opcode <~ get aml ptr;
  let ptr := ptr + 1 in
  if opcode =? 0x00 then done_ (Some 0, ptr) else if opcode =? 0x01 then done_ (Some 1, ptr) else if opcode =? 0xFF then done_ (Some 0xFF, ptr) else
  if opcode =? 0x0A then if ptr <? Acpi.len aml then v <~ get aml ptr; done_ (Some v, ptr + 1) else done_ (None, ptr) else
  if opcode <=? 0x3F then done_ (Some opcode, ptr) else done_ (None, ptr).

Definition s5_package (aml : Acpi.slice) (i : Z) : faulty (option (option (Z * Z))) :=
  let ptr := i + 4 in
  if ptr <? Acpi.len aml then
    b <~ get aml ptr;
    if b =? 0x12 then
      pkg_lead <~ get aml (ptr + 1);
      let ptr := ptr + 1 + (1 + Z.shiftr pkg_lead 6) in
      if ptr <? Acpi.len aml then
        a <~ parse_aml_byte_integer aml (ptr + 1);
        match a.1 with
        | None => done_ (Some None)
        | Some slp_a => b <~ parse_aml_byte_integer aml a.2; done_ (Some (Some (slp_a, default slp_a b.1)))
        end
      else done_ None
    else done_ None
  else done_ None.

Fixpoint s5_search (aml : Acpi.slice) (k : nat) (i : Z) : faulty (option (Z * Z)) :=
  match k with
  | O => done_ None
  | S k' =>
    sig <~ gets aml i 4;
    if bool_decide (sig = Acpi.S5) then
      r <~ s5_package aml i;
      match r with Some res => done_ res | None => s5_search aml k' (i + 1) end
    else s5_search aml k' (i + 1)
  end.

Definition parse_s5_from_dsdt (dsdt_addr : Z) : faulty (option (Z * Z)) :=
  if dsdt_addr =? 0 then done_ None else
  h <~ header dsdt_addr;
  let len := Acpi.length_ h in
  if ((len <? 36) || (0x100000 <? len))%bool then done_ None else
  s5_search (Acpi.mkSlice dsdt_addr len) (Z.to_nat (len - 16)) 0.

(** ** The tables *)
Definition madt_entry (data : Acpi.slice) (offset entry_type entry_len : Z) (info : Acpi.AcpiInfo) : faulty Acpi.AcpiInfo :=
  if entry_type =? 0 then
    if 8 <=? entry_len then
      processor_id <~ get data (offset + 2); apic_id <~ get data (offset + 3); flags <~ le_at data (offset + 4) 4;
      done_ (Acpi.push_core (Acpi.mkCore processor_id apic_id (negb (Z.land flags 1 =? 0) || negb (Z.land flags 2 =? 0))) info)
    else done_ info
  else if entry_type =? 1 then
    if 12 <=? entry_len then
      id <~ get data (offset + 2); address <~ le_at data (offset + 4) 4; gsi_base <~ le_at data (offset + 8) 4;
      done_ (Acpi.push_io_apic (Acpi.mkIoApic id address gsi_base) info)
    else done_ info
  else done_ info.

Fixpoint madt_loop (fuel : nat) (data : Acpi.slice) (offset : Z) (info : Acpi.AcpiInfo) : faulty Acpi.AcpiInfo :=
  match fuel with
  | O => Some NoFuel
  | S f =>
    if offset + 2 <=? Acpi.len data then
      entry_type <~ get data offset; entry_len <~ get data (offset + 1);
      if ((entry_len <? 2) || (Acpi.len data <? offset + entry_len))%bool then done_ info else
      info <~ madt_entry data offset entry_type entry_len info;
      madt_loop f data (offset + entry_len) info
    else done_ info
  end.

Definition parse_madt (madt_addr : Z) (info : Acpi.AcpiInfo) : faulty Acpi.AcpiInfo :=
  if madt_addr =? 0 then done_ info else
  h <~ header madt_addr;
  let total_len := Acpi.length_ h in
  if ((total_len <? 44) || (0x10000 <? total_len))%bool then done_ info else
  touch (u64_add madt_addr 36) 4 ;~
  let info := Acpi.set_lapic (Acpi.field mem (u64_add madt_addr 36) 4) info in
  madt_loop (Z.to_nat total_len) (Acpi.mkSlice madt_addr total_len) 44 info.

Definition parse_fadt (fadt_addr : Z) (info : Acpi.AcpiInfo) : faulty Acpi.AcpiInfo :=
  if fadt_addr =? 0 then done_ info else
  h <~ header fadt_addr;
  let total_len := Acpi.length_ h in
  if total_len <? 76 then done_ info else
  let data := Acpi.mkSlice fadt_addr total_len in
  dsdt_32 <~ le_at data 40 4; smi_cmd <~ le_at data 48 4; acpi_enable <~ get data 52; pm1a_cnt <~ le_at data 64 4; pm1b_cnt <~ le_at data 68 4;
  dsdt <~ (if 148 <=? total_len then x_dsdt <~ le_at data 140 8; done_ (if x_dsdt =? 0 then dsdt_32 else x_dsdt) else done_ dsdt_32);
  let info := Acpi.set_power dsdt smi_cmd acpi_enable pm1a_cnt pm1b_cnt info in
  s5 <~ parse_s5_from_dsdt (Acpi.dsdt_addr info);
  done_ (match s5 with Some (slp_a, slp_b) => Acpi.set_s5 slp_a slp_b true info | None => Acpi.set_s5 0 0 false info end).

(** The entries of a root table lie behind its header, one after the other. *)
Definition table_entries (table : Z) (width : nat) : faulty (list Z) :=
  h <~ header table;
  let total_len := Acpi.length_ h in
  if ((36 <=? total_len) && (total_len <=? 0x10000))%bool then
    touch (u64_add table 36) (width * Z.to_nat ((total_len - 36) / Z.of_nat width)) ;~ done_ (Acpi.table_entries mem table width)
  else done_ [].

Fixpoint inspect_all (l : list Z) (info : Acpi.AcpiInfo) : faulty Acpi.AcpiInfo :=
  match l with
  | [] => done_ info
  | addr :: l' => touch addr 36 ;~ inspect_all l' (Acpi.inspect mem info addr)
  end.

Definition root_tables (rsdp_v1 : Acpi.RsdpDescriptorV1) (rsdp_v2 : option Acpi.RsdpDescriptorV2) (info : Acpi.AcpiInfo) : faulty (Acpi.AcpiInfo * list Z) :=
  first <~ match rsdp_v2 with
    | Some v2 => if Acpi.xsdt_address v2 =? 0 then done_ (info, []) else l <~ table_entries (Acpi.xsdt_address v2) 8; done_ (Acpi.set_xsdt (Acpi.xsdt_address v2) info, l)
    | None => done_ (info, [])
    end;
  if (bool_decide (first.2 = []) && negb (Acpi.rsdt_address rsdp_v1 =? 0))%bool
  then l <~ table_entries (Acpi.rsdt_address rsdp_v1) 4; done_ (Acpi.set_rsdt (Acpi.rsdt_address rsdp_v1) first.1, l)
  else done_ first.

Definition init_with_rsdp (rsdp_override : option Z) (info : Acpi.AcpiInfo) : faulty (bool * Acpi.AcpiInfo) :=
  found <~ locate rsdp_override;
  match found with
  | None => done_ (false, info)
  | Some (rsdp_addr, rsdp_v1, rsdp_v2) =>
    let info := Acpi.set_rsdp rsdp_addr (Acpi.v1_oem_id rsdp_v1) info in
    roots <~ root_tables rsdp_v1 rsdp_v2 info;
    let info := Acpi.set_count (Z.of_nat (length roots.2)) roots.1 in
    info <~ inspect_all roots.2 info;
    let fadt := Acpi.fadt_addr info in
    let madt := Acpi.madt_addr info in
    info <~ (if fadt =? 0 then done_ info else parse_fadt fadt info);
    info <~ (if madt =? 0 then done_ info else parse_madt madt info);
    let info := if bool_decide (Acpi.cores info = []) then Acpi.push_core (Acpi.mkCore 0 0 true) info else info in
    done_ (true, Acpi.set_initialized info)
  end.

(** ** Agreement with the parsers over total memory *)

(** [f] answers what [o] is, or hits an address that is not mapped. *)
Definition agrees {X} (f : faulty X) (o : outcome X) : Prop := match f with Some r => r = o | None => exists a, mapped a = false end.

Lemma agrees_done {X} (x : X) : agrees (done_ x) (Ret x).
Proof. done. Qed.

Lemma agrees_then {X Y} (f : faulty X) o (k : X -> faulty Y) k' :
  agrees f o -> (forall x, agrees (k x) (k' x)) -> agrees (then_ f k) (x ← o; k' x).
Proof. destruct f as [r|]; cbn [agrees then_]; [|by intros H _]. intros <- Hk. destruct r; [apply Hk|done..]. Qed.

Lemma agrees_touch {X} a n (f : faulty X) o : agrees f o -> agrees (touch a n ;~ f) o.
Proof.
  intros Hf. unfold touch. destruct (forallb _ _) eqn:E; [exact Hf|]. cbn. apply not_true_iff_false in E. rewrite forallb_forall in E.
  destruct (decide (Exists (fun i => mapped (u64_add a (Z.of_nat i)) = false) (seq 0 n))) as [Hex|Hno].
  - apply Exists_exists in Hex as (i & _ & Hi). by eexists.
  - exfalso. apply E. intros i Hi. apply not_false_iff_true. intros Hm. apply Hno, Exists_exists. exists i. split; [by apply list_elem_of_In|done].
Qed.

(** For a parser without index checks, its answer being known. *)
Lemma agrees_pure {X Y} (f : faulty X) x (k : X -> faulty Y) o : agrees f (Ret x) -> agrees (k x) o -> agrees (then_ f k) o.
Proof. destruct f as [r|]; cbn [agrees then_]; [|done]. intros ->. done. Qed.

Lemma agrees_header a : agrees (header a) (Ret (Acpi.read_sdt mem a)).
Proof. by apply agrees_touch. Qed.

Lemma agrees_get s i : agrees (get s i) (Acpi.get mem s i).
Proof. unfold get, Acpi.get. destruct (_ && _)%bool; [by apply agrees_touch|done]. Qed.

(** The two texts side by side: loads, then the same conditions. *)
Ltac agree :=
  repeat first
    [ apply agrees_done | apply agrees_get | apply agrees_touch
    | (eapply agrees_then; [|intros ?]) | (eapply agrees_pure; [apply agrees_header|])
    | match goal with |- agrees (if ?c then _ else _) _ => destruct c end
    | done ].

Lemma agrees_gets s n : forall i, agrees (gets s i n) (Acpi.gets mem s i n).
Proof. induction n as [|n IH]; intros i; cbn [gets Acpi.gets]; agree. Qed.
Lemma agrees_le s i n : agrees (le_at s i n) (Acpi.le_at mem s i n).
Proof. unfold le_at, Acpi.le_at. eapply agrees_then; [apply agrees_gets|]. agree. Qed.

Lemma agrees_extension a v : agrees (extension a v) (Ret (Acpi.extension mem a v)).
Proof. unfold extension, Acpi.extension. agree. Qed.

Lemma agrees_scan n : forall a e, agrees (scan_from n a e) (Ret (Acpi.scan_from mem n a e)).
Proof.
  induction n as [|n IH]; intros a e; cbn [scan_from Acpi.scan_from]; [done|]. destruct (a <? e); [|done]. apply agrees_touch.
  destruct (bool_decide _); [|apply IH]. apply agrees_touch. cbn [andb]. destruct (Acpi.validate_checksum _); [|apply IH].
  eapply agrees_pure; [apply agrees_extension|done].
Qed.

Lemma agrees_find : agrees find_rsdp (Ret (Acpi.find_rsdp mem)).
Proof.
  unfold find_rsdp, Acpi.find_rsdp, scan_region_for_rsdp, Acpi.scan_region_for_rsdp. eapply agrees_pure; [apply agrees_scan|]. case_match; [done|].
  eapply agrees_pure; [apply agrees_scan|]. case_match; [done|]. apply agrees_scan.
Qed.

Lemma agrees_locate o : agrees (locate o) (Ret (Acpi.locate mem o)).
Proof.
  destruct o as [a|]; [|apply agrees_find]. cbn [locate Acpi.locate].
  assert (Hp : agrees (parse_rsdp_at a) (Ret (Acpi.parse_rsdp_at mem a))).
  { unfold parse_rsdp_at, Acpi.parse_rsdp_at. agree. eapply agrees_pure; [apply agrees_extension|done]. }
  eapply agrees_pure; [exact Hp|]. case_match; [done|]. apply agrees_find.
Qed.

Lemma agrees_aml s p : agrees (parse_aml_byte_integer s p) (Acpi.parse_aml_byte_integer mem s p).
Proof. unfold parse_aml_byte_integer, Acpi.parse_aml_byte_integer. agree. Qed.

Lemma agrees_s5_package s i : agrees (s5_package s i) (Acpi.s5_package mem s i).
Proof.
  unfold s5_package, Acpi.s5_package. cbv zeta. agree; [apply agrees_aml|]. case_match; agree. apply agrees_aml.
Qed.

Lemma agrees_s5 s n : forall i, agrees (s5_search s n i) (Acpi.s5_search mem s n i).
Proof.
  induction n as [|n IH]; intros i; cbn [s5_search Acpi.s5_search]; [done|]. eapply agrees_then; [apply agrees_gets|]. intros sig.
  destruct (bool_decide _); [|apply IH]. eapply agrees_then; [apply agrees_s5_package|]. intros [res|]; [done|apply IH].
Qed.

Lemma agrees_dsdt a : agrees (parse_s5_from_dsdt a) (Acpi.parse_s5_from_dsdt mem a).
Proof. unfold parse_s5_from_dsdt, Acpi.parse_s5_from_dsdt. destruct (a =? 0); [done|]. cbv zeta. agree. apply agrees_s5. Qed.

Lemma agrees_madt_loop s n : forall i info, agrees (madt_loop n s i info) (Acpi.madt_loop mem n s i info).
Proof.
  induction n as [|n IH]; intros i info; cbn [madt_loop Acpi.madt_loop]; [done|]. agree.
  unfold madt_entry, Acpi.madt_entry. agree; apply agrees_le.
Qed.

Lemma agrees_madt a info : agrees (parse_madt a info) (Acpi.parse_madt mem a info).
Proof. unfold parse_madt, Acpi.parse_madt. destruct (a =? 0); [done|]. cbv zeta. agree. apply agrees_madt_loop. Qed.

Lemma agrees_fadt a info : agrees (parse_fadt a info) (Acpi.parse_fadt mem a info).
Proof. unfold parse_fadt, Acpi.parse_fadt. destruct (a =? 0); [done|]. cbv zeta. agree; first [apply agrees_le|apply agrees_dsdt]. Qed.

Lemma agrees_entries t n : agrees (table_entries t n) (Ret (Acpi.table_entries mem t n)).
Proof. unfold table_entries. cbv zeta. eapply agrees_pure; [apply agrees_header|]. destruct (_ && _)%bool eqn:E; [by apply agrees_touch|]. unfold Acpi.table_entries. by rewrite E. Qed.

Lemma agrees_inspect l : forall info, agrees (inspect_all l info) (Ret (fold_left (Acpi.inspect mem) l info)).
Proof. induction l as [|a l IH]; intros info; [done|]. cbn [inspect_all fold_left]. apply agrees_touch, IH. Qed.

Lemma agrees_roots v1 v2 info : agrees (root_tables v1 v2 info) (Ret (Acpi.root_tables mem v1 v2 info)).
Proof.
  unfold root_tables, Acpi.root_tables.
  set (first := match v2 with Some v2 => if Acpi.xsdt_address v2 =? 0 then (info, []) else (Acpi.set_xsdt (Acpi.xsdt_address v2) info, Acpi.table_entries mem (Acpi.xsdt_address v2) 8) | None => (info, []) end).
  eapply (agrees_pure _ first); [unfold first; destruct v2 as [v|]; [|done]; destruct (_ =? 0); [done|]; eapply agrees_pure; [apply agrees_entries|done]|].
  destruct first as [i l]. cbn [fst snd]. destruct (_ && _)%bool; [|done]. eapply agrees_pure; [apply agrees_entries|done].
Qed.

(** The initialisation hits an unmapped address or answers as over total memory. *)
Lemma init_agrees o info : agrees (init_with_rsdp o info) (Acpi.init_with_rsdp mem o info).
Proof.
  unfold init_with_rsdp, Acpi.init_with_rsdp. eapply agrees_pure; [apply agrees_locate|]. destruct (Acpi.locate mem o) as [[[a v1] v2]|]; [|done]. cbv zeta.
  eapply agrees_pure; [apply agrees_roots|]. destruct (Acpi.root_tables mem v1 v2 _) as [i l]. cbn [fst snd]. eapply agrees_pure; [apply agrees_inspect|].
  eapply agrees_then; [destruct (_ =? 0); [done|apply agrees_fadt]|]. intros i1. eapply agrees_then; [destruct (_ =? 0); [done|apply agrees_madt]|]. done.
Qed.

End Tables.

(** With all of memory mapped there is no page fault. *)
Lemma init_mapped mem mapped o info : (forall a, mapped a = true) -> init_with_rsdp mem mapped o info = Some (Acpi.init_with_rsdp mem o info).
Proof.
  intros Hm. pose proof (init_agrees mem mapped o info) as H. unfold agrees in H. destruct (init_with_rsdp _ _ _ _); [by rewrite H|]. destruct H as [a Ha]. by rewrite Hm in Ha.
Qed.

(** A root pointer the loader hands over that lies outside the mapped part is a page fault. *)
Lemma unmapped_root_faults mem mapped a info : a <> 0 -> in_u 64 a -> mapped a = false -> init_with_rsdp mem mapped (Some a) info = None.
Proof.
  intros Ha Hu Hm. unfold init_with_rsdp, locate, parse_rsdp_at. rewrite (proj2 (Z.eqb_neq _ _) Ha). unfold touch at 1. cbn [seq forallb].
  change (Z.of_nat 0) with 0. assert (E : u64_add a 0 = a) by (rewrite u64_add_small by (unfold in_u in Hu; lia); lia). by rewrite E, Hm.
Qed.

End AcpiMapped.
