(* ===== verification/AcpiInit.v ===== *)
(** * Reading the firmware's tables (src/src/arch/acpi.rs)

    What the initialisation finds: the first valid root pointer, and from well-formed
    tables exactly the processors, interrupt controllers and power registers they
    describe. *)

From stdpp Require Import prelude numbers list strings.
From S2P Require Import Prelude Bytes Acpi.
Import Bytes Acpi.

Module AcpiInit.

(** ** The search for the root pointer *)
Definition valid_rsdp (mem : Z -> Z) (a : Z) : bool := (bool_decide (bytes_at mem a 8 = RSD_PTR) && validate_checksum (bytes_at mem a 20))%bool.
Definition described (mem : Z -> Z) (a : Z) : rsdp := (a, read_v1 mem a, extension mem a (read_v1 mem a)).
Definition boundaries (base : Z) (n : nat) : list Z := (fun i => base + 16 * Z.of_nat i) <$> seq 0 n.
(** BIOS memory, then the last kilobyte of the EBDA, then the rest of it. *)
Definition candidates : list Z := boundaries 0xE0000 0x2000 ++ boundaries 0x9FC00 0x40 ++ boundaries 0x80000 0x1FC0.
Definition first_valid (mem : Z -> Z) (l : list Z) : option Z := snd <$> list_find (fun a => valid_rsdp mem a = true) l.

Lemma boundaries_S base n : boundaries base (S n) = base :: boundaries (base + 16) n.
Proof. unfold boundaries. cbn [seq fmap list_fmap]. f_equal; [lia|]. rewrite <- fmap_S_seq, <- list_fmap_compose. apply list_fmap_ext. intros i x _. cbn [compose]. lia. Qed.

Lemma first_valid_cons mem a l : first_valid mem (a :: l) = if valid_rsdp mem a then Some a else first_valid mem l.
Proof.
  unfold first_valid. cbn [list_find]. destruct (valid_rsdp mem a) eqn:E; [by rewrite decide_True|]. rewrite decide_False by done. rewrite <- option_fmap_compose. by destruct (list_find _ l) as [[]|].
Qed.

Lemma first_valid_app mem l k : first_valid mem (l ++ k) = match first_valid mem l with Some a => Some a | None => first_valid mem k end.
Proof. induction l as [|a l IH]; [done|]. cbn [app]. rewrite !first_valid_cons, IH. by destruct (valid_rsdp mem a). Qed.

Lemma scan_from_spec mem m : forall n addr, (m < n)%nat -> 0 <= addr -> addr + 16 * Z.of_nat m < 2 ^ 64 ->
  scan_from mem n addr (addr + 16 * Z.of_nat m) = described mem <$> first_valid mem (boundaries addr m).
Proof.
  induction m as [|m IH]; intros [|n] addr Hn Ha Hb; [lia| |lia|]; cbn [scan_from].
  - rewrite (proj2 (Z.ltb_ge _ _)) by lia. done.
  - rewrite (proj2 (Z.ltb_lt _ _)) by lia. rewrite boundaries_S, first_valid_cons. change (_ && _)%bool with (valid_rsdp mem addr). destruct (valid_rsdp mem addr); [done|].
    rewrite u64_add_small by lia. replace (addr + 16 * Z.of_nat (S m)) with (addr + 16 + 16 * Z.of_nat m) by lia. apply IH; lia.
Qed.

Lemma scan_region_spec mem base m : 0 <= base -> base + 16 * Z.of_nat m < 2 ^ 64 -> scan_region_for_rsdp mem base (16 * Z.of_nat m) = described mem <$> first_valid mem (boundaries base m).
Proof.
  intros Hb Hm. unfold scan_region_for_rsdp. rewrite u64_add_small by lia. apply scan_from_spec; [|lia|lia]. rewrite Z.mul_comm, Z.div_mul by lia. lia.
Qed.

(** The search for the root pointer equals its specification: on every memory
    [find_rsdp] returns, and gives the first valid structure (signature and checksum
    of the first 20 bytes) in the order of the documented areas, with the extension
    of version 2 exactly when the revision, length and checksum admit it, or nothing
    when no 16-byte boundary of the areas holds one. *)
Theorem find_rsdp_first mem : find_rsdp mem = described mem <$> first_valid mem candidates.
Proof.
  unfold find_rsdp, candidates. rewrite !first_valid_app.
  change 0x20000 with (16 * Z.of_nat 0x2000). rewrite scan_region_spec by lia. destruct (first_valid mem (boundaries 0xE0000 0x2000)); [done|]. cbn [fmap option_fmap option_map].
  change 0x400 with (16 * Z.of_nat 0x40). rewrite scan_region_spec by lia. destruct (first_valid mem (boundaries 0x9FC00 0x40)); [done|]. cbn [fmap option_fmap option_map].
  change 0x1FC00 with (16 * Z.of_nat 0x1FC0). by rewrite scan_region_spec by lia.
Qed.

(** ** Tables in memory *)
Definition holds (mem : Z -> Z) (a : Z) (l : list Z) : Prop := forall i x, l !! i = Some x -> mem (u64_add a (Z.of_nat i)) = x.
(** [n] bytes at [o] are the little-endian [v]. *)
Definition field_in (l : list Z) (o n : nat) (v : Z) : Prop := take n (drop o l) = to_le n v /\ 0 <= v < 256 ^ Z.of_nat n /\ (o + n <= length l)%nat.
Definition at_slice (a : Z) (l : list Z) : slice := mkSlice a (Z.of_nat (length l)).

Section Held.
Context (mem : Z -> Z) (a : Z) (l : list Z) (Hl : holds mem a l).

Lemma get_holds i x : l !! i = Some x -> get mem (at_slice a l) (Z.of_nat i) = Ret x.
Proof.
  intros Hi. pose proof (lookup_lt_Some _ _ _ Hi). unfold get. cbn [at_slice len base]. rewrite (proj2 (Z.leb_le _ _)), (proj2 (Z.ltb_lt _ _)) by lia. cbn [andb]. f_equal. by apply Hl.
Qed.

Lemma gets_holds n : forall i, (i + n <= length l)%nat -> gets mem (at_slice a l) (Z.of_nat i) n = Ret (take n (drop i l)).
Proof.
  induction n as [|n IH]; intros i Hi; [done|]. cbn [gets]. destruct (lookup_lt_is_Some_2 l i ltac:(lia)) as [x Hx]. rewrite (get_holds i x Hx). cbn [mbind outcome_bind].
  replace (Z.of_nat i + 1) with (Z.of_nat (S i)) by lia. rewrite IH by lia. cbn [mbind outcome_bind]. by rewrite (drop_S l x i Hx).
Qed.

Lemma le_at_holds o n v : field_in l o n v -> le_at mem (at_slice a l) (Z.of_nat o) n = Ret v.
Proof. intros (E & Hv & Hn). unfold le_at. rewrite gets_holds by done. cbn [mbind outcome_bind]. by rewrite E, le_value_to_le. Qed.

Lemma bytes_at_holds o n : (o + n <= length l)%nat -> bytes_at mem (u64_add a (Z.of_nat o)) n = take n (drop o l).
Proof.
  intros Hn. apply list_eq_same_length with n; [rewrite length_take, length_drop; lia|by unfold bytes_at; rewrite length_fmap, length_seq|].
  intros i x y Hi. unfold bytes_at. rewrite list_lookup_fmap, lookup_seq_lt by lia. cbn [fmap option_fmap option_map]. rewrite lookup_take_lt, lookup_drop by lia.
  intros [= <-] Hy. rewrite u64_add_assoc, <- Nat2Z.inj_add. by apply Hl.
Qed.

Lemma bytes_at_holds_0 n : (n <= length l)%nat -> bytes_at mem a n = take n l.
Proof.
  intros Hn. apply list_eq_same_length with n; [rewrite length_take; lia|by unfold bytes_at; rewrite length_fmap, length_seq|].
  intros i x y Hi. unfold bytes_at. rewrite list_lookup_fmap, lookup_seq_lt by lia. cbn [fmap option_fmap option_map]. rewrite lookup_take_lt by lia. intros [= <-] Hy. by apply Hl.
Qed.

Lemma field_holds o n v : field_in l o n v -> field mem (u64_add a (Z.of_nat o)) n = v.
Proof. intros (E & Hv & Hn). unfold field. rewrite bytes_at_holds by done. by rewrite E, le_value_to_le. Qed.
End Held.

(** A table with its signature and its length in the header. *)
Record table (mem : Z -> Z) (a : Z) (sig l : list Z) : Prop := {
  t_holds : holds mem a l; t_sig : take 4 l = sig; t_len : field_in l 4 4 (Z.of_nat (length l)); t_min : (36 <= length l)%nat; t_addr : a <> 0
}.

Lemma table_header mem a sig l : table mem a sig l -> signature (read_sdt mem a) = sig /\ length_ (read_sdt mem a) = Z.of_nat (length l).
Proof.
  intros [Hh Hs Hn Hm _]. cbn [read_sdt signature length_]. split; [rewrite (bytes_at_holds_0 mem a l Hh) by lia; done|]. change 4 with (Z.of_nat 4) at 1. by apply (field_holds mem a l Hh).
Qed.

(** ** The processors of a MADT *)
Inductive madt_record :=
| LocalApic (processor apic flags : Z)
| IoApic (id reserved address gsi : Z)
| OtherRecord (type : Z) (payload : list Z).
Definition encode_record (r : madt_record) : list Z :=
  match r with
  | LocalApic p a f => [0; 8; p; a] ++ to_le 4 f
  | IoApic id res a g => [1; 12; id; res] ++ to_le 4 a ++ to_le 4 g
  | OtherRecord t l => [t; 2 + Z.of_nat (length l)] ++ l
  end.
Definition record_ok (r : madt_record) : Prop :=
  match r with
  | LocalApic p a f => in_u 32 f
  | IoApic id res a g => in_u 32 a /\ in_u 32 g
  | OtherRecord t l => 2 <= t
  end.
Definition core_of (r : madt_record) : option CpuCore :=
  match r with LocalApic p a f => Some (mkCore p a (Z.odd f || Z.testbit f 1)) | _ => None end.
Definition io_apic_of (r : madt_record) : option IoApicInfo := match r with IoApic id _ a g => Some (mkIoApic id a g) | _ => None end.
Definition add_record (info : AcpiInfo) (r : madt_record) : AcpiInfo :=
  match r with
  | LocalApic p a f => push_core (mkCore p a (Z.odd f || Z.testbit f 1)) info
  | IoApic id _ a g => push_io_apic (mkIoApic id a g) info
  | OtherRecord _ _ => info
  end.

Lemma flag_bit f k : 0 <= k -> negb (Z.land f (2 ^ k) =? 0) = Z.testbit f k.
Proof.
  intros Hk. destruct (Z.eqb_spec (Z.land f (2 ^ k)) 0) as [E|E]; cbn [negb].
  - pose proof (f_equal (fun x => Z.testbit x k) E) as Hb. cbn beta in Hb. rewrite Z.land_spec, Z.pow2_bits_true, andb_true_r, Z.bits_0 in Hb by done. by rewrite Hb.
  - destruct (Z.testbit f k) eqn:Hb; [done|]. destruct E. apply Z.bits_inj'. intros j Hj. rewrite Z.land_spec, Z.bits_0, Z.pow2_bits_eqb by lia. destruct (Z.eqb_spec k j) as [<-|]; [by rewrite Hb|apply andb_false_r].
Qed.

Lemma flags_enabled f : (negb (Z.land f 1 =? 0) || negb (Z.land f 2 =? 0))%bool = (Z.odd f || Z.testbit f 1)%bool.
Proof. change 1 with (2 ^ 0) at 1. change 2 with (2 ^ 1) at 2. rewrite !flag_bit by lia. by rewrite Z.bit0_odd. Qed.

Section Records.
Context (mem : Z -> Z) (a : Z).

(** Offsets relative to a prefix of the table. *)
Lemma get_pre pre q z x : holds mem a (pre ++ q) -> 0 <= z -> q !! Z.to_nat z = Some x -> get mem (at_slice a (pre ++ q)) (Z.of_nat (length pre) + z) = Ret x.
Proof.
  intros Hh Hz Hq. replace (Z.of_nat (length pre) + z) with (Z.of_nat (length pre + Z.to_nat z)) by lia. apply get_holds; [done|]. rewrite lookup_app_r by lia. by rewrite Nat.add_comm, Nat.add_sub.
Qed.

Lemma le_pre pre q z n v : holds mem a (pre ++ q) -> 0 <= z -> field_in q (Z.to_nat z) n v -> le_at mem (at_slice a (pre ++ q)) (Z.of_nat (length pre) + z) n = Ret v.
Proof.
  intros Hh Hz (E & Hv & Hn). replace (Z.of_nat (length pre) + z) with (Z.of_nat (length pre + Z.to_nat z)) by lia. apply le_at_holds; [done|]. split; [|split; [done|rewrite length_app; lia]].
  rewrite drop_app_ge by lia. by rewrite Nat.add_comm, Nat.add_sub.
Qed.

Lemma field_in_le l1 n v l2 : 0 <= v < 256 ^ Z.of_nat n -> field_in (l1 ++ to_le n v ++ l2) (length l1) n v.
Proof.
  intros Hv. split; [|split; [done|rewrite !length_app, length_to_le; lia]]. rewrite drop_app_length. rewrite take_app_le by (rewrite length_to_le; lia). apply take_ge. rewrite length_to_le. lia.
Qed.

Lemma madt_entry_spec pre r post info : holds mem a (pre ++ encode_record r ++ post) -> record_ok r ->
  exists t n, encode_record r !! 0%nat = Some t /\ encode_record r !! 1%nat = Some n /\ n = Z.of_nat (length (encode_record r)) /\ 2 <= n /\
    madt_entry mem (at_slice a (pre ++ encode_record r ++ post)) (Z.of_nat (length pre)) t n info = Ret (add_record info r).
Proof.
  intros Hh Hr. destruct r as [p ap f|id res ad g|t l]; cbn [encode_record] in *.
  - exists 0, 8. split; [done|]. split; [done|]. split; [by rewrite length_app, length_to_le|]. split; [lia|]. unfold madt_entry. change (0 =? 0) with true. change (8 <=? 8) with true. cbv iota.
    rewrite (get_pre pre _ 2 p Hh) by done. cbn [mbind outcome_bind]. rewrite (get_pre pre _ 3 ap Hh) by done. cbn [mbind outcome_bind].
    rewrite (le_pre pre _ 4 4 f Hh); [|lia|rewrite <- app_assoc; apply (field_in_le [_; _; _; _]); exact Hr]. cbn [mbind outcome_bind]. by rewrite flags_enabled.
  - destruct Hr as [Ha Hg]. exists 1, 12. split; [done|]. split; [done|]. split; [by rewrite !length_app, !length_to_le|]. split; [lia|]. unfold madt_entry. change (1 =? 0) with false. change (1 =? 1) with true. change (12 <=? 12) with true. cbv iota.
    rewrite (get_pre pre _ 2 id Hh) by done. cbn [mbind outcome_bind].
    rewrite (le_pre pre _ 4 4 ad Hh); [|lia|rewrite <- !app_assoc; apply (field_in_le [_; _; _; _]); exact Ha]. cbn [mbind outcome_bind].
    rewrite (le_pre pre _ 8 4 g Hh); [done|lia|]. rewrite <- !app_assoc. rewrite app_assoc. change (Z.to_nat 8) with 8%nat. replace 8%nat with (length ([1; 12; id; res] ++ to_le 4 ad)) by (by rewrite length_app, length_to_le). apply field_in_le. exact Hg.
  - exists t, (2 + Z.of_nat (length l)). split; [done|]. split; [done|]. split; [rewrite length_app; cbn [length]; lia|]. split; [lia|]. unfold madt_entry. cbn [record_ok] in Hr.
    by rewrite !(proj2 (Z.eqb_neq _ _)) by lia.
Qed.

Lemma madt_loop_spec rs : forall pre f info, holds mem a (pre ++ concat (encode_record <$> rs)) -> Forall record_ok rs -> (length rs < f)%nat ->
  madt_loop mem f (at_slice a (pre ++ concat (encode_record <$> rs))) (Z.of_nat (length pre)) info = Ret (fold_left add_record rs info).
Proof.
  induction rs as [|r rs IH]; intros pre [|f] info Hh Hr Hf; [cbn in Hf; lia| |cbn in Hf; lia|]; cbn [madt_loop at_slice len].
  - cbn [fmap list_fmap concat] in *. rewrite app_nil_r. rewrite (proj2 (Z.leb_gt _ _)) by lia. done.
  - apply Forall_cons_1 in Hr as [Hr Hrs]. cbn [fmap list_fmap concat] in *. destruct (madt_entry_spec pre r _ info Hh Hr) as (t & n & Ht & Hn & En & Hge & Hentry).
    change (mkSlice a _) with (at_slice a (pre ++ encode_record r ++ concat (encode_record <$> rs))).
    assert (Hlen : Z.of_nat (length pre) + n <= Z.of_nat (length (pre ++ encode_record r ++ concat (encode_record <$> rs)))) by (rewrite !length_app; lia).
    rewrite (proj2 (Z.leb_le _ _)) by lia. rewrite <- (Z.add_0_r (Z.of_nat (length pre))) at 1. rewrite (get_pre pre _ 0 t Hh); [|lia|by rewrite lookup_app_l by (by apply lookup_lt_Some in Ht)]. cbn [mbind outcome_bind].
    rewrite (get_pre pre _ 1 n Hh); [|lia|by rewrite lookup_app_l by (by apply lookup_lt_Some in Hn)]. cbn [mbind outcome_bind]. rewrite (proj2 (Z.ltb_ge _ _)) by lia. rewrite (proj2 (Z.ltb_ge _ _)) by (cbn [at_slice len]; lia). cbn [orb].
    rewrite Hentry. cbn [mbind outcome_bind]. rewrite app_assoc. replace (Z.of_nat (length pre) + n) with (Z.of_nat (length (pre ++ encode_record r))) by (rewrite length_app; lia).
    cbn [fold_left]. apply IH; [by rewrite <- app_assoc|done|cbn [length] in Hf; lia].
Qed.
End Records.

Lemma length_records rs : (2 * length rs <= length (concat (encode_record <$> rs)))%nat.
Proof. induction rs as [|r rs IH]; [done|]. rewrite fmap_cons. cbn [concat]. rewrite length_app. cbn [length]. assert (2 <= length (encode_record r))%nat by (destruct r; cbn [encode_record]; rewrite length_app; cbn [length]; lia). lia. Qed.

Lemma parse_madt_spec mem madt l lapic rs info : table mem madt APIC l -> Z.of_nat (length l) <= 0x10000 -> field_in l 36 4 lapic -> (44 <= length l)%nat ->
  drop 44 l = concat (encode_record <$> rs) -> Forall record_ok rs -> parse_madt mem madt info = Ret (fold_left add_record rs (set_lapic lapic info)).
Proof.
  intros Ht Hmax Hlap Hmin Hrs Hok. destruct (table_header _ _ _ _ Ht) as [_ Hl]. destruct Ht as [Hh _ _ _ Ha]. unfold parse_madt. rewrite (proj2 (Z.eqb_neq _ _)) by done. cbv zeta. rewrite Hl.
  rewrite (proj2 (Z.ltb_ge _ _)), (proj2 (Z.ltb_ge _ _)) by lia. cbn [orb]. change 36 with (Z.of_nat 36). rewrite (field_holds mem madt l Hh 36 4 lapic Hlap).
  pose proof (madt_loop_spec mem madt rs (take 44 l) (Z.to_nat (Z.of_nat (length l))) (set_lapic lapic info)) as H. rewrite <- Hrs, take_drop, length_take, Nat.min_l in H by lia. apply H; [done|done|].
  pose proof (length_records rs) as H2. rewrite <- Hrs, length_drop in H2. lia.
Qed.

(** ** The [_S5_] package of a DSDT *)
Definition aml_int (v : Z) : list Z := if v =? 0 then [0] else if v =? 1 then [1] else [0x0A; v].
(** The first [_S5_] of the table is at [i] and names a package of two small integers
    (and more). *)
Record s5_at (l : list Z) (i : nat) (va vb : Z) : Prop := {
  s5_room : (i + 16 < length l)%nat;
  s5_first : forall j, (j < i)%nat -> take 4 (drop j l) <> S5;
  s5_body : exists pkg n rest, 0 <= pkg < 64 /\ drop i l = S5 ++ [0x12; pkg; n] ++ aml_int va ++ aml_int vb ++ rest
}.

Lemma aml_integer_spec mem a pre v rest : holds mem a (pre ++ aml_int v ++ rest) ->
  parse_aml_byte_integer mem (at_slice a (pre ++ aml_int v ++ rest)) (Z.of_nat (length pre)) = Ret (Some v, Z.of_nat (length (pre ++ aml_int v))).
Proof.
  intros Hh. unfold parse_aml_byte_integer. cbn [at_slice len]. change (mkSlice a _) with (at_slice a (pre ++ aml_int v ++ rest)). rewrite !length_app. unfold aml_int in *.
  destruct (Z.eqb_spec v 0) as [->|H0]; [|destruct (Z.eqb_spec v 1) as [->|H1]]; cbn [app length] in *; rewrite (proj2 (Z.leb_gt _ _)) by lia; rewrite <- (Z.add_0_r (Z.of_nat (length pre))) at 1.
  - rewrite (get_pre mem a pre _ 0 0 Hh) by done. cbn [mbind outcome_bind]. cbv zeta. change (0 =? 0) with true. cbv iota. f_equal. f_equal. lia.
  - rewrite (get_pre mem a pre _ 0 1 Hh) by done. cbn [mbind outcome_bind]. cbv zeta. change (1 =? 0) with false. change (1 =? 1) with true. cbv iota. f_equal. f_equal. lia.
  - rewrite (get_pre mem a pre _ 0 0x0A Hh) by done. cbn [mbind outcome_bind]. cbv zeta. change (10 =? 0) with false. change (10 =? 1) with false. change (10 =? 255) with false. change (10 =? 10) with true. cbv iota.
    rewrite (proj2 (Z.ltb_lt _ _)) by lia. rewrite (get_pre mem a pre _ 1 v Hh) by done. cbn [mbind outcome_bind]. f_equal. f_equal. lia.
Qed.

Lemma s5_package_spec mem a pre pkg n va vb rest : 0 <= pkg < 64 -> holds mem a (pre ++ S5 ++ [0x12; pkg; n] ++ aml_int va ++ aml_int vb ++ rest) ->
  s5_package mem (at_slice a (pre ++ S5 ++ [0x12; pkg; n] ++ aml_int va ++ aml_int vb ++ rest)) (Z.of_nat (length pre)) = Ret (Some (Some (va, vb))).
Proof.
  intros Hp Hh. unfold s5_package. cbv zeta. set (l := pre ++ S5 ++ _) in *. assert (Hl : Z.of_nat (length l) = Z.of_nat (length pre) + 7 + Z.of_nat (length (aml_int va ++ aml_int vb ++ rest))).
  { unfold l. rewrite !length_app. change (length S5) with 4%nat. cbn [length]. lia. }
  assert (Hg : forall z x, 0 <= z -> (S5 ++ [0x12; pkg; n] ++ aml_int va ++ aml_int vb ++ rest) !! Z.to_nat z = Some x -> get mem (at_slice a l) (Z.of_nat (length pre) + z) = Ret x) by (intros z x; by apply get_pre).
  assert (Hva : (0 < length (aml_int va))%nat) by (unfold aml_int; repeat case_match; cbn [length]; lia). rewrite length_app in Hl.
  cbn [at_slice len]. change (mkSlice a _) with (at_slice a l). rewrite (proj2 (Z.ltb_lt _ _)) by lia. rewrite (Hg 4 0x12) by done. cbn [mbind outcome_bind]. change (18 =? 18) with true. cbv iota.
  rewrite <- Z.add_assoc. rewrite (Hg (4 + 1) pkg) by done. cbn [mbind outcome_bind].
  assert (pkg ≫ 6 = 0) as -> by (rewrite Z.shiftr_div_pow2 by lia; apply Z.div_small; lia). rewrite (proj2 (Z.ltb_lt _ _)) by lia.
  assert (El : l = (pre ++ S5 ++ [0x12; pkg; n]) ++ aml_int va ++ aml_int vb ++ rest) by (unfold l; by rewrite <- !app_assoc).
  replace (Z.of_nat (length pre) + (4 + 1) + (1 + 0) + 1) with (Z.of_nat (length (pre ++ S5 ++ [0x12; pkg; n]))) by (rewrite !length_app; change (length S5) with 4%nat; cbn [length]; lia).
  rewrite El in Hh |- *. rewrite (aml_integer_spec mem a _ va _ Hh). cbn [mbind outcome_bind fst snd]. rewrite app_assoc in Hh |- *. by rewrite (aml_integer_spec mem a _ vb _ Hh).
Qed.

Lemma s5_search_spec mem a l i va vb : holds mem a l -> s5_at l i va vb -> forall k j, (j <= i < j + k)%nat -> s5_search mem (at_slice a l) k (Z.of_nat j) = Ret (Some (va, vb)).
Proof.
  intros Hh [Hroom Hfirst (pkg & n & rest & Hp & Hb)] k. induction k as [|k IH]; intros j Hj; [lia|]. cbn [s5_search]. rewrite (gets_holds mem a l Hh) by lia. cbn [mbind outcome_bind].
  destruct (decide (j = i)) as [->|Hne].
  - rewrite bool_decide_true by (by rewrite Hb). rewrite <- (take_drop i l) in Hh |- *. rewrite Hb in Hh |- *. replace (Z.of_nat i) with (Z.of_nat (length (take i l))) by (rewrite length_take; lia). by rewrite s5_package_spec.
  - rewrite bool_decide_false by (apply Hfirst; lia). replace (Z.of_nat j + 1) with (Z.of_nat (S j)) by lia. apply IH. lia.
Qed.

Lemma parse_s5_spec mem dsdt sig l i va vb : table mem dsdt sig l -> Z.of_nat (length l) <= 0x100000 -> s5_at l i va vb -> parse_s5_from_dsdt mem dsdt = Ret (Some (va, vb)).
Proof.
  intros Ht Hmax Hs. destruct (table_header _ _ _ _ Ht) as [_ Hl]. destruct Ht as [Hh _ _ Hmin Ha]. unfold parse_s5_from_dsdt. rewrite (proj2 (Z.eqb_neq _ _)) by done. cbv zeta. rewrite Hl.
  rewrite (proj2 (Z.ltb_ge _ _)), (proj2 (Z.ltb_ge _ _)) by lia. cbn [orb]. apply (s5_search_spec mem dsdt l i va vb Hh Hs _ 0). pose proof (s5_room _ _ _ _ Hs). lia.
Qed.

(** ** The registers of a FADT *)
Record fadt_body (l : list Z) (dsdt smi enable pa pb : Z) : Prop := {
  fb_smi : field_in l 48 4 smi; fb_enable : l !! 52%nat = Some enable; fb_pa : field_in l 64 4 pa; fb_pb : field_in l 68 4 pb; fb_min : (76 <= length l)%nat;
  fb_dsdt : field_in l 40 4 dsdt /\ (length l < 148)%nat \/ (exists old, field_in l 40 4 old) /\ field_in l 140 8 dsdt /\ dsdt <> 0
}.

Lemma parse_fadt_spec mem fadt l dsdt smi enable pa pb s5 info : table mem fadt FACP l -> fadt_body l dsdt smi enable pa pb -> parse_s5_from_dsdt mem dsdt = Ret s5 ->
  parse_fadt mem fadt info = Ret (with_s5 s5 (set_power dsdt smi enable pa pb info)).
Proof.
  intros Ht [Hsmi Hen Hpa Hpb Hmin Hd] Hs5. destruct (table_header _ _ _ _ Ht) as [_ Hl]. destruct Ht as [Hh _ _ _ Ha]. rewrite parse_fadt_fields. rewrite (proj2 (Z.eqb_neq _ _)) by done. rewrite Hl. rewrite (proj2 (Z.ltb_ge _ _)) by lia.
  assert (fadt_fields mem fadt = Ret (dsdt, smi, enable, pa, pb)) as ->; [|cbn [mbind outcome_bind]; by rewrite Hs5]. unfold fadt_fields. rewrite Hl. cbv zeta. change (mkSlice fadt _) with (at_slice fadt l).
  change 40 with (Z.of_nat 40). change 48 with (Z.of_nat 48). change 52 with (Z.of_nat 52). change 64 with (Z.of_nat 64). change 68 with (Z.of_nat 68). change 140 with (Z.of_nat 140).
  rewrite (le_at_holds mem fadt l Hh 48 4 smi Hsmi), (get_holds mem fadt l Hh 52 enable Hen), (le_at_holds mem fadt l Hh 64 4 pa Hpa), (le_at_holds mem fadt l Hh 68 4 pb Hpb).
  destruct Hd as [[Hd Hlt]|((old & Ho) & Hx & Hne)].
  - rewrite (le_at_holds mem fadt l Hh 40 4 dsdt Hd). cbn [mbind outcome_bind]. by rewrite (proj2 (Z.leb_gt _ _)) by lia.
  - rewrite (le_at_holds mem fadt l Hh 40 4 old Ho). cbn [mbind outcome_bind]. pose proof (proj2 (proj2 Hx)). rewrite (proj2 (Z.leb_le _ _)) by lia. rewrite (le_at_holds mem fadt l Hh 140 8 dsdt Hx). cbn [mbind outcome_bind]. by rewrite (proj2 (Z.eqb_neq _ _)).
Qed.

(** ** The root table *)
Lemma concat_le_length w addrs : length (concat (to_le w <$> addrs)) = (w * length addrs)%nat.
Proof. induction addrs as [|x addrs IH]; [cbn; lia|]. rewrite fmap_cons. cbn [concat length]. rewrite length_app, length_to_le, IH. lia. Qed.

Lemma concat_le_field w addrs i x : addrs !! i = Some x -> take w (drop (w * i) (concat (to_le w <$> addrs))) = to_le w x.
Proof.
  revert i. induction addrs as [|y addrs IH]; intros [|i] Hi; try done; rewrite fmap_cons; cbn [concat].
  - injection Hi as ->. rewrite Nat.mul_0_r, drop_0, take_app_le by (rewrite length_to_le; lia). apply take_ge. rewrite length_to_le. lia.
  - rewrite drop_app_ge by (rewrite length_to_le; lia). rewrite length_to_le. replace (w * S i - w)%nat with (w * i)%nat by lia. by apply IH.
Qed.

Lemma filter_all {A} (P : A -> Prop) `{!forall x, Decision (P x)} (l : list A) : Forall P l -> filter P l = l.
Proof. induction 1 as [|x l Hx _ IH]; [done|]. by rewrite filter_cons_True, IH. Qed.

Lemma table_entries_spec mem root sig l w addrs : (0 < w)%nat -> table mem root sig l -> Z.of_nat (length l) <= 0x10000 -> drop 36 l = concat (to_le w <$> addrs) ->
  Forall (fun x => 0 < x < 256 ^ Z.of_nat w) addrs -> table_entries mem root w = addrs.
Proof.
  intros Hw Ht Hmax Hb Ha. destruct (table_header _ _ _ _ Ht) as [_ Hl]. destruct Ht as [Hh _ _ Hmin _]. unfold table_entries. cbv zeta. rewrite Hl. rewrite !(proj2 (Z.leb_le _ _)) by lia. cbn [andb].
  pose proof (f_equal length Hb) as Hlen. rewrite length_drop, concat_le_length in Hlen.
  replace ((Z.of_nat (length l) - 36) / Z.of_nat w) with (Z.of_nat (length addrs)); [|replace (Z.of_nat (length l) - 36) with (Z.of_nat (length addrs) * Z.of_nat w) by lia; by rewrite Z.div_mul by lia].
  rewrite Nat2Z.id. assert (E : (fun i => field mem (u64_add (u64_add root 36) (Z.of_nat (w * i))) w) <$> seq 0 (length addrs) = addrs).
  { apply list_eq_same_length with (length addrs); [done|by rewrite length_fmap, length_seq|]. intros i x y Hi. rewrite list_lookup_fmap, lookup_seq_lt by lia. cbn [fmap option_fmap option_map]. intros [= <-] Hy.
    rewrite u64_add_assoc. replace (36 + Z.of_nat (w * i)) with (Z.of_nat (36 + w * i)) by lia. apply (field_holds mem root l Hh). split; [|split].
    - rewrite <- drop_drop, Hb. by apply concat_le_field.
    - rewrite Forall_forall in Ha. specialize (Ha y (list_elem_of_lookup_2 _ _ _ Hy)). cbn beta in Ha. lia.
    - nia. }
  rewrite E. apply filter_all. eapply Forall_impl; [exact Ha|]. cbn beta. lia.
Qed.

Definition last_of (mem : Z -> Z) (sig : list Z) (l : list Z) (d : Z) : Z := fold_left (fun d a => if bool_decide (signature (read_sdt mem a) = sig) then a else d) l d.

Lemma inspect_fold mem l : forall i, fold_left (inspect mem) l i = set_madt (last_of mem APIC l (madt_addr i)) (set_fadt (last_of mem FACP l (fadt_addr i)) i).
Proof.
  unfold last_of. induction l as [|a l IH]; intros i; [by destruct i|]. cbn [fold_left]. rewrite IH. unfold inspect. case_bool_decide as HF.
  - rewrite bool_decide_false by (rewrite HF; done). by destruct i.
  - case_bool_decide as HA; by destruct i.
Qed.

Lemma last_of_unique mem sig l d a : a ∈ l -> signature (read_sdt mem a) = sig -> (forall b, b ∈ l -> signature (read_sdt mem b) = sig -> b = a) -> last_of mem sig l d = a.
Proof.
  intros Hin Ha. unfold last_of. revert d. induction l as [|b l IH] using rev_ind; intros d Hu; [by apply elem_of_nil in Hin|]. rewrite fold_left_app. cbn [fold_left].
  case_bool_decide as Hb; [apply Hu; [set_solver|done]|]. apply elem_of_app in Hin as [Hin|Hin]; [apply IH; [done|]; intros c Hc; apply Hu; set_solver|]. apply list_elem_of_singleton in Hin as ->. done.
Qed.

(** ** The root pointer of version 1 (20 bytes, 4-byte table addresses) or 2 (36 bytes,
    8-byte addresses) *)
Record root_pointer (mem : Z -> Z) (p : Z) (oem : list Z) (width : nat) (root : Z) : Prop := {
  rp_addr : p <> 0; rp_root : root <> 0;
  rp_bytes : exists r rev, holds mem p r /\ take 8 r = RSD_PTR /\ take 6 (drop 9 r) = oem /\ validate_checksum (take 20 r) = true /\ field_in r 15 1 rev /\
    ((width = 4%nat /\ length r = 20%nat /\ rev < 2 /\ field_in r 16 4 root) \/
     (width = 8%nat /\ length r = 36%nat /\ 2 <= rev /\ field_in r 20 4 36 /\ field_in r 24 8 root /\ validate_checksum r = true))
}.

Lemma parse_rsdp_spec mem p oem width root : root_pointer mem p oem width root ->
  exists v ext, parse_rsdp_at mem p = Some (p, v, ext) /\ v1_oem_id v = oem /\
    ((width = 4%nat /\ ext = None /\ rsdt_address v = root) \/ (width = 8%nat /\ exists v2, ext = Some v2 /\ xsdt_address v2 = root)).
Proof.
  intros [Hp _ (r & rev & Hh & Hsig & Hoem & Hck & Hrev & Hr)]. assert (Hlen : (20 <= length r)%nat) by (destruct Hr as [(_ & -> & _)|(_ & -> & _)]; lia).
  unfold parse_rsdp_at. rewrite (proj2 (Z.eqb_neq _ _)) by done. rewrite !(bytes_at_holds_0 mem p r Hh) by lia. rewrite bool_decide_true by done. rewrite Hck. cbn [negb].
  eexists _, _. split; [done|]. split; [cbn [read_v1 v1_oem_id]; change 9 with (Z.of_nat 9); by rewrite (bytes_at_holds mem p r Hh) by lia|].
  unfold extension. cbn [read_v1 v1_revision]. change (u64_add p 15) with (u64_add p (Z.of_nat 15)). rewrite (field_holds mem p r Hh 15 1 rev Hrev).
  destruct Hr as [(Hw & _ & Hlt & Hroot)|(Hw & Hl & Hge & H36 & Hroot & Hck2)].
  - left. split; [done|]. rewrite (proj2 (Z.leb_gt _ _)) by lia. split; [done|]. cbn [read_v1 rsdt_address]. change (u64_add p 16) with (u64_add p (Z.of_nat 16)). by apply (field_holds mem p r Hh).
  - right. split; [done|]. rewrite (proj2 (Z.leb_le _ _)) by lia. cbv zeta. cbn [read_v2 v2_length]. change (u64_add p 20) with (u64_add p (Z.of_nat 20)). rewrite (field_holds mem p r Hh 20 4 36 H36).
    change (Z.min 36 1024) with 36. change (36 <=? 36) with true. cbv iota. rewrite (bytes_at_holds_0 mem p r Hh) by (change (Z.to_nat 36) with 36%nat; lia).
    rewrite (take_ge r) by (change (Z.to_nat 36) with 36%nat; lia). rewrite Hck2. eexists. split; [done|]. cbn [read_v2 xsdt_address]. change (u64_add p 24) with (u64_add p (Z.of_nat 24)). by apply (field_holds mem p r Hh).
Qed.

(** ** The whole initialisation *)
Record firmware := mkFirmware {
  f_rsdp : Z; f_oem : list Z; f_width : nat; f_root : Z; f_tables : list Z; f_fadt : Z; f_madt : Z; f_dsdt : Z;
  f_smi : Z; f_enable : Z; f_pm1a : Z; f_pm1b : Z; f_s5a : Z; f_s5b : Z; f_lapic : Z; f_records : list madt_record
}.
(** The memory holds the tables of [fw], at any addresses and with any further
    content. *)
Record installed (mem : Z -> Z) (fw : firmware) : Prop := {
  in_rsdp : root_pointer mem (f_rsdp fw) (f_oem fw) (f_width fw) (f_root fw);
  in_root : exists sig l, table mem (f_root fw) sig l /\ Z.of_nat (length l) <= 0x10000 /\ drop 36 l = concat (to_le (f_width fw) <$> f_tables fw);
  in_tables : Forall (fun x => 0 < x < 256 ^ Z.of_nat (f_width fw)) (f_tables fw);
  in_listed : f_fadt fw ∈ f_tables fw /\ f_madt fw ∈ f_tables fw;
  in_unique : forall b, b ∈ f_tables fw -> (signature (read_sdt mem b) = FACP -> b = f_fadt fw) /\ (signature (read_sdt mem b) = APIC -> b = f_madt fw);
  in_fadt : exists l, table mem (f_fadt fw) FACP l /\ fadt_body l (f_dsdt fw) (f_smi fw) (f_enable fw) (f_pm1a fw) (f_pm1b fw);
  in_dsdt : exists sig l i, table mem (f_dsdt fw) sig l /\ Z.of_nat (length l) <= 0x100000 /\ s5_at l i (f_s5a fw) (f_s5b fw);
  in_madt : exists l, table mem (f_madt fw) APIC l /\ Z.of_nat (length l) <= 0x10000 /\ (44 <= length l)%nat /\ field_in l 36 4 (f_lapic fw) /\
    drop 44 l = concat (encode_record <$> f_records fw) /\ Forall record_ok (f_records fw)
}.

Lemma records_keep {T} (f : AcpiInfo -> T) rs : (forall c i, f (push_core c i) = f i) -> (forall c i, f (push_io_apic c i) = f i) -> forall i, f (fold_left add_record rs i) = f i.
Proof. intros Hc Hi. induction rs as [|[] rs IH]; intros i; cbn [fold_left add_record]; [done|by rewrite IH..]. Qed.

Lemma records_cores rs : forall i, cores (fold_left add_record rs i) = cores i ++ omap core_of rs /\ io_apics (fold_left add_record rs i) = io_apics i ++ omap io_apic_of rs.
Proof.
  induction rs as [|r rs IH]; intros i; cbn [fold_left omap list_omap]; [by rewrite !app_nil_r|]. destruct (IH (add_record i r)) as [-> ->].
  destruct r; cbn [add_record core_of io_apic_of push_core push_io_apic cores io_apics]; by rewrite <- ?app_assoc.
Qed.

(** What the initialisation makes of [fw]: the state, up to the lists of the MADT. *)
Definition after_root (fw : firmware) : AcpiInfo :=
  let info := set_rsdp (f_rsdp fw) (f_oem fw) new in if bool_decide (f_width fw = 4%nat) then set_rsdt (f_root fw) info else set_xsdt (f_root fw) info.
Definition after_fadt (fw : firmware) : AcpiInfo :=
  set_s5 (f_s5a fw) (f_s5b fw) true (set_power (f_dsdt fw) (f_smi fw) (f_enable fw) (f_pm1a fw) (f_pm1b fw)
    (set_madt (f_madt fw) (set_fadt (f_fadt fw) (set_count (Z.of_nat (length (f_tables fw))) (after_root fw))))).
Definition with_boot_core (info : AcpiInfo) : AcpiInfo := if bool_decide (cores info = []) then push_core (mkCore 0 0 true) info else info.

Lemma init_installed mem fw : installed mem fw ->
  init_with_rsdp mem (Some (f_rsdp fw)) new = Ret (true, set_initialized (with_boot_core (fold_left add_record (f_records fw) (set_lapic (f_lapic fw) (after_fadt fw))))).
Proof.
  intros [Hrsdp (sigr & lr & Hroot & Hrmax & Hrb) Htabs [Hf Hm] Huniq (lf & Htf & Hfb) (sigd & ld & i & Htd & Hdmax & Hs5) (lm & Htm & Hmmax & Hmmin & Hlap & Hrec & Hok)].
  destruct (parse_rsdp_spec _ _ _ _ _ Hrsdp) as (v & ext & Ep & Hoem & Hw). unfold init_with_rsdp, locate. rewrite Ep, Hoem.
  assert (Hwidth : (0 < f_width fw)%nat) by (destruct Hw as [[-> _]|[-> _]]; lia). pose proof (table_entries_spec _ _ _ _ _ _ Hwidth Hroot Hrmax Hrb Htabs) as Hent.
  assert (Hne : f_tables fw <> []) by (intros E; rewrite E in Hf; by apply elem_of_nil in Hf). pose proof (rp_root _ _ _ _ _ Hrsdp) as Hr0.
  assert (root_tables mem v ext (set_rsdp (f_rsdp fw) (f_oem fw) new) = (after_root fw, f_tables fw)) as ->.
  { unfold root_tables, after_root. destruct Hw as [(Ew & -> & Er)|(Ew & v2 & -> & Er)]; rewrite Ew in Hent |- *.
    - rewrite !bool_decide_true by done. rewrite Er, (proj2 (Z.eqb_neq _ _)) by done. cbn [negb andb]. by rewrite Hent.
    - rewrite Er, (proj2 (Z.eqb_neq _ _)) by done. rewrite Hent. by rewrite !bool_decide_false. }
  cbv zeta. rewrite inspect_fold.
  rewrite (last_of_unique mem APIC _ _ (f_madt fw) Hm (proj1 (table_header _ _ _ _ Htm))) by (intros b Hb; apply Huniq, Hb). rewrite (last_of_unique mem FACP _ _ (f_fadt fw) Hf (proj1 (table_header _ _ _ _ Htf))) by (intros b Hb; apply Huniq, Hb).
  change (fadt_addr (set_madt ?m (set_fadt ?f ?x))) with f. change (madt_addr (set_madt ?m ?x)) with m.
  rewrite (proj2 (Z.eqb_neq (f_fadt fw) 0) (t_addr _ _ _ _ Htf)). rewrite (parse_fadt_spec _ _ _ _ _ _ _ _ _ _ Htf Hfb (parse_s5_spec _ _ _ _ _ _ _ Htd Hdmax Hs5)). cbn [mbind outcome_bind with_s5].
  rewrite (proj2 (Z.eqb_neq (f_madt fw) 0) (t_addr _ _ _ _ Htm)). rewrite (parse_madt_spec _ _ _ _ _ _ Htm Hmmax Hlap Hmmin Hrec Hok). done.
Qed.

(** C24: The initialisation reads what the firmware says: when memory holds a valid
    root pointer of version 1 or 2, its root table, one FADT with its DSDT and one
    MADT (at any addresses, among any other tables), [init_with_rsdp] returns with
    the processors and interrupt controllers of the MADT in order (or the boot
    processor when it lists none), the power registers of the FADT and the two sleep
    types of the [_S5_] package. *)
Theorem acpi_init_correct mem fw : installed mem fw -> exists info, init_with_rsdp mem (Some (f_rsdp fw)) new = Ret (true, info) /\
  is_initialized info = true /\ rsdp_addr info = f_rsdp fw /\ oem_id info = f_oem fw /\ tables_count info = Z.of_nat (length (f_tables fw)) /\
  fadt_addr info = f_fadt fw /\ madt_addr info = f_madt fw /\ dsdt_addr info = f_dsdt fw /\
  smi_cmd info = f_smi fw /\ acpi_enable info = f_enable fw /\ pm1a_cnt_blk info = f_pm1a fw /\ pm1b_cnt_blk info = f_pm1b fw /\
  has_s5 info = true /\ slp_typa info = f_s5a fw /\ slp_typb info = f_s5b fw /\ lapic_addr info = f_lapic fw /\
  cores info = (match omap core_of (f_records fw) with [] => [mkCore 0 0 true] | l => l end) /\ io_apics info = omap io_apic_of (f_records fw).
Proof.
  intros Hi. eexists. split; [exact (init_installed mem fw Hi)|]. set (i0 := set_lapic (f_lapic fw) (after_fadt fw)).
  assert (Hk : forall T (f : AcpiInfo -> T), (forall c i, f (push_core c i) = f i) -> (forall c i, f (push_io_apic c i) = f i) -> (forall i, f (set_initialized i) = f i) ->
    f (set_initialized (with_boot_core (fold_left add_record (f_records fw) i0))) = f i0).
  { intros T f Hc Hio Hs. rewrite Hs. unfold with_boot_core. case_bool_decide; rewrite ?Hc; by apply records_keep. }
  destruct (records_cores (f_records fw) i0) as [Ec Ei].
  assert (E0 : cores i0 = [] /\ io_apics i0 = [] /\ rsdp_addr i0 = f_rsdp fw /\ oem_id i0 = f_oem fw) by (unfold i0, after_fadt, after_root; case_bool_decide; done). destruct E0 as (Ec0 & Ei0 & Er & Eo).
  rewrite Ec0 in Ec. rewrite Ei0 in Ei. cbn [app] in Ec, Ei.
  split; [done|]. split; [rewrite (Hk _ rsdp_addr); done|]. split; [rewrite (Hk _ oem_id); done|]. split; [rewrite (Hk _ tables_count); done|]. split; [rewrite (Hk _ fadt_addr); done|].
  split; [rewrite (Hk _ madt_addr); done|]. split; [rewrite (Hk _ dsdt_addr); done|]. split; [rewrite (Hk _ smi_cmd); done|]. split; [rewrite (Hk _ acpi_enable); done|].
  split; [rewrite (Hk _ pm1a_cnt_blk); done|]. split; [rewrite (Hk _ pm1b_cnt_blk); done|]. split; [rewrite (Hk _ has_s5); done|]. split; [rewrite (Hk _ slp_typa); done|]. split; [rewrite (Hk _ slp_typb); done|].
  split; [rewrite (Hk _ lapic_addr); done|]. unfold with_boot_core. rewrite Ec.
  split; case_bool_decide as He; cbn [set_initialized push_core cores io_apics]; rewrite ?Ec, ?Ei; [by rewrite He|by destruct (omap core_of _)|done|done].
Qed.

(** *** Witness: the tables of a small machine *)
Lemma holds_check mem a l : bytes_at mem a (length l) = l -> holds mem a l.
Proof.
  intros E i x Hi. pose proof (lookup_lt_Some _ _ _ Hi). rewrite <- E in Hi. unfold bytes_at in Hi. rewrite list_lookup_fmap, lookup_seq_lt in Hi by done. by injection Hi.
Qed.

Definition sdt (sig : string) (body : list Z) : list Z := ascii_bytes sig ++ to_le 4 (36 + Z.of_nat (length body)) ++ replicate 28 0 ++ body.
Definition balance (l : list Z) : Z := (- foldr Z.add 0 l) mod 256.
Definition demo_v1 : list Z := let l ck := RSD_PTR ++ [ck] ++ ascii_bytes "BOCHS " ++ [2] ++ to_le 4 0 in l (balance (l 0)).
Definition demo_rsdp : list Z := let l ck := demo_v1 ++ to_le 4 36 ++ to_le 8 0x1000 ++ [ck; 0; 0; 0] in l (balance (l 0)).
Definition demo_xsdt : list Z := sdt "XSDT" (to_le 8 0x2000 ++ to_le 8 0x3000).
Definition demo_fadt : list Z := sdt "FACP" ([0; 0; 0; 0] ++ to_le 4 0x4000 ++ [0; 0; 0; 0] ++ to_le 4 0xB2 ++ [2] ++ replicate 11 0 ++ to_le 4 0x604 ++ to_le 4 0 ++ [0; 0; 0; 0]).
Definition demo_dsdt : list Z := sdt "DSDT" ([0x08] ++ S5 ++ [0x12; 0x0A; 4] ++ aml_int 5 ++ aml_int 0 ++ replicate 12 0).
Definition demo_records : list madt_record := [LocalApic 0 0 1; LocalApic 1 1 1; OtherRecord 2 [0; 0; 2; 0; 0; 0; 0; 0]; IoApic 1 0 0xFEC00000 0].
Definition demo_madt : list Z := sdt "APIC" (to_le 4 0xFEE00000 ++ to_le 4 1 ++ concat (encode_record <$> demo_records)).
Definition demo_regions : list (Z * list Z) := [(0xE0000, demo_rsdp); (0x1000, demo_xsdt); (0x2000, demo_fadt); (0x3000, demo_madt); (0x4000, demo_dsdt)].
Definition demo_mem (a : Z) : Z :=
  match list_find (fun r => r.1 <= a < r.1 + Z.of_nat (length r.2)) demo_regions with Some (_, (b, l)) => nth (Z.to_nat (a - b)) l 0 | None => 0 end.
Definition demo_firmware : firmware := mkFirmware 0xE0000 (ascii_bytes "BOCHS ") 8 0x1000 [0x2000; 0x3000] 0x2000 0x3000 0x4000 0xB2 2 0x604 0 5 0 0xFEE00000 demo_records.

Lemma demo_table a sig l : bytes_at demo_mem a (length l) = l -> take 4 l = sig -> field_in l 4 4 (Z.of_nat (length l)) -> (36 <= length l)%nat -> a <> 0 -> table demo_mem a sig l.
Proof. intros H1 H2 H3 H4 H5. split; try done. by apply holds_check. Qed.

Lemma demo_installed : installed demo_mem demo_firmware.
Proof.
  assert (Hx : table demo_mem 0x1000 (ascii_bytes "XSDT") demo_xsdt) by (apply demo_table; by_compute). assert (Hf : table demo_mem 0x2000 FACP demo_fadt) by (apply demo_table; by_compute).
  assert (Hm : table demo_mem 0x3000 APIC demo_madt) by (apply demo_table; by_compute). assert (Hd : table demo_mem 0x4000 (ascii_bytes "DSDT") demo_dsdt) by (apply demo_table; by_compute).
  split; cbn [demo_firmware f_rsdp f_oem f_width f_root f_tables f_fadt f_madt f_dsdt f_smi f_enable f_pm1a f_pm1b f_s5a f_s5b f_lapic f_records].
  - split; [done|done|]. exists demo_rsdp, 2. split; [apply holds_check; by_compute|]. do 4 (split; [by_compute|]). right. repeat split; by_compute.
  - exists (ascii_bytes "XSDT"), demo_xsdt. split; [exact Hx|]. split; by_compute.
  - repeat constructor; lia.
  - split; set_solver.
  - intros b [->|[->|Hb%elem_of_nil]%elem_of_cons]%elem_of_cons; [..|done]; (split; [first [done|intros E; by vm_compute in E]|first [done|intros E; by vm_compute in E]]).
  - exists demo_fadt. split; [exact Hf|]. split; [repeat split; by_compute|by_compute|repeat split; by_compute|repeat split; by_compute|by_compute|]. left. repeat split; by_compute.
  - exists (ascii_bytes "DSDT"), demo_dsdt, 37%nat. split; [exact Hd|]. split; [by_compute|]. split; [by_compute| |exists 0x0A, 4, (replicate 12 0); split; [lia|by_compute]].
    intros j Hj. assert (HF : Forall (fun j => take 4 (drop j demo_dsdt) <> S5) (seq 0 37)) by by_compute. rewrite Forall_forall in HF. apply HF, elem_of_seq. lia.
  - exists demo_madt. split; [exact Hm|]. do 2 (split; [by_compute|]). split; [repeat split; by_compute|]. split; [by_compute|]. repeat (apply Forall_cons; split; [cbn [record_ok]; unfold in_u; lia|]). by apply Forall_nil.
Qed.

Lemma acpi_init_witness : exists info, init_with_rsdp demo_mem (Some 0xE0000) new = Ret (true, info) /\ cores info = [mkCore 0 0 true; mkCore 1 1 true].
Proof. destruct (acpi_init_correct demo_mem demo_firmware demo_installed) as (info & E & H). exists info. split; [exact E|]. decompose [and] H. done. Defined.

Lemma demo_bytes : byte_memory demo_mem.
Proof.
  intros a. unfold demo_mem. destruct (list_find _ demo_regions) as [[k [b l]]|] eqn:E; [|done]. apply list_find_Some in E as (Hk & _ & _).
  assert (HF : Forall (fun r => Forall (fun x => 0 <= x < 256) r.2) demo_regions) by by_compute. rewrite Forall_lookup in HF. specialize (HF k _ Hk). cbn [snd] in HF.
  destruct (nth_in_or_default (Z.to_nat (a - b)) l 0) as [Hin| ->]; [|done]. rewrite List.Forall_forall in HF. by apply HF.
Qed.

(** The same tables in a memory that differs everywhere else. *)
Definition other_mem (a : Z) : Z := if bool_decide (Exists (fun r => r.1 <= a < r.1 + Z.of_nat (length r.2)) demo_regions) then demo_mem a else 0xFF.
Lemma demo_same a : bool_decide (Forall (fun i => demo_mem (u64_add a (Z.of_nat i)) = other_mem (u64_add a (Z.of_nat i))) (seq 0 (Z.to_nat (Z.max 36 (length_ (read_sdt demo_mem a)))))) = true -> same_table demo_mem other_mem a.
Proof.
  intros H%bool_decide_eq_true. rewrite Forall_forall in H. intros i Hi. specialize (H (Z.to_nat i)). rewrite Z2Nat.id in H by lia. apply H, elem_of_seq. lia.
Qed.

Lemma demo_same_tables : same_table demo_mem other_mem 0x2000 /\ same_table demo_mem other_mem 0x3000 /\ same_table demo_mem other_mem 0x4000.
Proof. repeat split; apply demo_same; by vm_compute. Qed.
Lemma demo_dsdt_addr i' : parse_fadt demo_mem 0x2000 new = Ret i' -> dsdt_addr i' = 0x4000.
Proof. intros E. vm_compute in E. by injection E as <-. Qed.

Lemma acpi_parsers_witness : exists i', parse_fadt demo_mem 0x2000 new = Ret i' /\ parse_fadt other_mem 0x2000 new = Ret i'.
Proof.
  destruct demo_same_tables as (Hf & Hm & Hd). destruct (acpi_parsers_bounded demo_mem other_mem 0x3000 0x2000 new demo_bytes Hm Hf) as [_ (i' & E & H)].
  exists i'. split; [exact E|]. apply H. rewrite (demo_dsdt_addr i' E). exact Hd.
Defined.

End AcpiInit.
