(* ===== verification/Descriptors.v ===== *)
(** * Segment, task and interrupt descriptors (src/src/arch/gdt.rs, idt.rs, msr.rs, the
    per-CPU tables of smp.rs and the registers of syscall.rs)

    The tables the kernel builds for the processor, and what the processor reads
    from them. *)

From stdpp Require Import prelude numbers list.
From S2P Require Import Prelude.

Module Descriptors.

(** ** gdt.rs *)
Record Tss64 := mkTss {
  reserved0 : Z; rsp0 : Z; rsp1 : Z; rsp2 : Z; reserved1 : Z; ist1 : Z; ist2 : Z; ist3 : Z; ist4 : Z; ist5 : Z; ist6 : Z; ist7 : Z;
  reserved2 : Z; reserved3 : Z; iopb_offset : Z
}.
Definition tss_new : Tss64 := mkTss 0 0 0 0 0 0 0 0 0 0 0 0 0 0 104.
Definition TSS_SIZE : Z := 104.
Definition set_stacks (t : Tss64) (ist r0 : Z) : Tss64 :=
  mkTss (reserved0 t) r0 (rsp1 t) (rsp2 t) (reserved1 t) ist (ist2 t) (ist3 t) (ist4 t) (ist5 t) (ist6 t) (ist7 t) (reserved2 t) (reserved3 t) (iopb_offset t).
Definition tss_rsp0 (t : Tss64) : Z := rsp0 t.
Definition set_tss_rsp0 (t : Tss64) (r0 : Z) : Tss64 := set_stacks t (ist1 t) r0.
Definition tss_ist1 (t : Tss64) : Z := ist1 t.

Definition IST1_STACK_SIZE : Z := 8 * 1024.
Definition KERNEL_STACK_SIZE : Z := 16 * 1024.
Definition KERNEL_CS : Z := 0x08.
Definition KERNEL_DS : Z := 0x10.
Definition TSS_SEL : Z := 0x18.
Definition USER_DS : Z := Z.lor 0x28 3.
Definition USER_CS : Z := Z.lor 0x30 3.
Definition ACCESS_PRESENT : Z := 0x80.
Definition ACCESS_RING0 : Z := 0.
Definition ACCESS_RING3 : Z := 0x60.
Definition ACCESS_CODE_SEG : Z := 0x1B.
Definition ACCESS_DATA_SEG : Z := 0x13.
Definition FLAG_LONG_MODE : Z := 2.

Record GdtEntry := mkGdtEntry { limit_low : Z; base_low : Z; base_middle : Z; e_access : Z; granularity : Z; base_high : Z }.
Definition entry_null : GdtEntry := mkGdtEntry 0 0 0 0 0 0.
Definition entry_new (access flags : Z) : GdtEntry := mkGdtEntry 0xFFFF 0 0 access (Z.lor (wrap 8 (Z.shiftl flags 4)) 0x0F) 0.
Record GdtPointer := mkGdtr { limit : Z; base : Z }.

Definition encode_gdt_entry (access flags : Z) : Z :=
  let granularity := Z.lor (wrap 8 (Z.shiftl flags 4)) 0x0F in
  Z.lor (Z.lor 0xFFFF (Z.shiftl access 40)) (Z.shiftl granularity 48).

Definition encode_tss_descriptor (base limit : Z) : Z * Z :=
  let base_low := Z.land base 0xFFFF in
  let base_mid := Z.land (Z.shiftr base 16) 0xFF in
  let base_mid_high := Z.land (Z.shiftr base 24) 0xFF in
  let base_high := Z.shiftr base 32 in
  let limit_low := Z.land limit 0xFFFF in
  let limit_high := Z.land (Z.shiftr limit 16) 0xF in
  (Z.lor (Z.lor (Z.lor (Z.lor (Z.lor limit_low (Z.shiftl base_low 16)) (Z.shiftl base_mid 32)) (Z.shiftl 0x89 40)) (Z.shiftl limit_high 48)) (Z.shiftl base_mid_high 56), base_high).

(** [gdt::init]: the table and the TSS of the boot processor, whose structures are at
    the given addresses, and the operand of [lgdt]. *)
Definition gdt_init (gdt_at tss_at ist1_stack kernel_stack : Z) (tss : Tss64) : list Z * Tss64 * GdtPointer :=
  let ist1_top := Z.land (u64_add ist1_stack IST1_STACK_SIZE) (u64_not 0xF) in
  let kernel_stack_top := Z.land (u64_add kernel_stack KERNEL_STACK_SIZE) (u64_not 0xF) in
  let '(tss_low, tss_high) := encode_tss_descriptor tss_at (TSS_SIZE - 1) in
  ([0; encode_gdt_entry (Z.lor (Z.lor ACCESS_PRESENT ACCESS_RING0) ACCESS_CODE_SEG) FLAG_LONG_MODE;
    encode_gdt_entry (Z.lor (Z.lor ACCESS_PRESENT ACCESS_RING0) ACCESS_DATA_SEG) 0; tss_low; tss_high;
    encode_gdt_entry (Z.lor (Z.lor ACCESS_PRESENT ACCESS_RING3) ACCESS_DATA_SEG) 0;
    encode_gdt_entry (Z.lor (Z.lor ACCESS_PRESENT ACCESS_RING3) ACCESS_CODE_SEG) FLAG_LONG_MODE],
   set_stacks tss ist1_top kernel_stack_top, mkGdtr (7 * 8 - 1) gdt_at).

(** [smp::init_cpu_state]: the same for an application processor, in its block; the
    table has ten slots, of which the last three stay as they are. *)
Definition init_cpu_state (gdt_at tss_at ist1_stack kernel_stack : Z) (gdt : list Z) (tss : Tss64) : list Z * Tss64 * GdtPointer :=
  let '(lo, hi) := encode_tss_descriptor tss_at (TSS_SIZE - 1) in
  ([0; encode_gdt_entry 0x9B 2; encode_gdt_entry 0x93 0; lo; hi; encode_gdt_entry 0xF3 0; encode_gdt_entry 0xFB 2] ++ drop 7 gdt,
   set_stacks tss (u64_add ist1_stack IST1_STACK_SIZE) (u64_add kernel_stack KERNEL_STACK_SIZE), mkGdtr (10 * 8 - 1) gdt_at).

(** ** idt.rs *)
Record IdtEntry := mkIdt { offset_low : Z; selector : Z; ist : Z; attributes : Z; offset_mid : Z; offset_high : Z; i_reserved : Z }.
Definition missing : IdtEntry := mkIdt 0 0 0 0 0 0 0.
Definition set_handler (handler : Z) (e : IdtEntry) : IdtEntry :=
  mkIdt (wrap 16 handler) 0x08 0 0x8E (wrap 16 (Z.shiftr handler 16)) (wrap 32 (Z.shiftr handler 32)) 0.
Definition set_handler_with_ist (handler ist_index : Z) (e : IdtEntry) : IdtEntry :=
  let e := set_handler handler e in mkIdt (offset_low e) (selector e) (Z.land ist_index 0x7) (attributes e) (offset_mid e) (offset_high e) (i_reserved e).
Definition IDT_ENTRIES : nat := 256.
Definition IDT : list IdtEntry := replicate IDT_ENTRIES missing.
Definition PIC1_OFFSET : Z := 32.
Definition PIC2_OFFSET : Z := 40.
Definition IRQ_TIMER : Z := 0.
Definition IRQ_KEYBOARD : Z := 1.
Definition IRQ_CASCADE : Z := 2.
Definition IRQ_MOUSE : Z := 12.
Definition LAPIC_TIMER_VECTOR : Z := 0x40.

(** The addresses of the handlers. *)
Record handlers := mkHandlers {
  divide_by_zero : Z; invalid_opcode : Z; double_fault : Z; general_protection_fault : Z; page_fault : Z; timer : Z; keyboard : Z; mouse : Z; lapic_timer : Z
}.
(** A gate of the table is set in place. *)
Definition set_gate (f : IdtEntry -> IdtEntry) (i : Z) (idt : list IdtEntry) : outcome (list IdtEntry) := e ← index idt i; store idt i (f e).
Definition idt_init (h : handlers) (idt : list IdtEntry) : outcome (list IdtEntry) :=
  idt ← set_gate (set_handler (divide_by_zero h)) 0 idt;
  idt ← set_gate (set_handler (invalid_opcode h)) 6 idt;
  idt ← set_gate (set_handler_with_ist (double_fault h) 1) 8 idt;
  idt ← set_gate (set_handler (general_protection_fault h)) 13 idt;
  idt ← set_gate (set_handler (page_fault h)) 14 idt;
  idt ← set_gate (set_handler (timer h)) (PIC1_OFFSET + IRQ_TIMER) idt;
  idt ← set_gate (set_handler (keyboard h)) (PIC1_OFFSET + IRQ_KEYBOARD) idt;
  idt ← set_gate (set_handler (mouse h)) (PIC1_OFFSET + IRQ_MOUSE) idt;
  set_gate (set_handler (lapic_timer h)) LAPIC_TIMER_VECTOR idt.

(** ** msr.rs and the registers of syscall.rs: a register is written and read as two
    halves *)
Definition wrmsr_halves (value : Z) : Z * Z := (wrap 32 value, wrap 32 (Z.shiftr value 32)).
Definition rdmsr_join (low high : Z) : Z := Z.lor (Z.shiftl high 32) low.
Definition msrs := Z -> Z.
Definition wrmsr (m : msrs) (msr value : Z) : msrs := let '(low, high) := wrmsr_halves value in fun r => if r =? msr then low + 2 ^ 32 * high else m r.
Definition rdmsr (m : msrs) (msr : Z) : Z := rdmsr_join (wrap 32 (m msr)) (m msr / 2 ^ 32).
Definition MSR_EFER : Z := 0xC0000080.
Definition MSR_STAR : Z := 0xC0000081.
Definition MSR_LSTAR : Z := 0xC0000082.
Definition MSR_FMASK : Z := 0xC0000084.
Definition EFER_SCE : Z := 1.
Definition FMASK_VALUE : Z := 0x200.
Definition init_on_cpu (m : msrs) (syscall_entry : Z) : msrs :=
  let efer := rdmsr m MSR_EFER in
  let m := wrmsr m MSR_EFER (Z.lor efer EFER_SCE) in
  let star := Z.lor (Z.shiftl 0x08 32) (Z.shiftl 0x20 48) in
  let m := wrmsr m MSR_STAR star in
  let m := wrmsr m MSR_LSTAR syscall_entry in
  wrmsr m MSR_FMASK FMASK_VALUE.
Definition read_efer (m : msrs) : Z := rdmsr m MSR_EFER.
Definition read_star (m : msrs) : Z := rdmsr m MSR_STAR.
Definition read_lstar (m : msrs) : Z := rdmsr m MSR_LSTAR.
Definition read_fmask (m : msrs) : Z := rdmsr m MSR_FMASK.

(** ** What the processor reads

    The fields of a descriptor at their documented positions. *)
Definition bits (x lo n : Z) : Z := Z.land (Z.shiftr x lo) (Z.ones n).
Definition present (d : Z) : bool := Z.testbit d 47.
Definition dpl (d : Z) : Z := bits d 45 2.
Definition is_segment (d : Z) : bool := Z.testbit d 44.
Definition is_code (d : Z) : bool := Z.testbit d 43.
Definition long_mode (d : Z) : bool := Z.testbit d 53.
Definition accessed (d : Z) : bool := Z.testbit d 40.
Definition writable (d : Z) : bool := Z.testbit d 41.
Definition system_type (d : Z) : Z := bits d 40 4.
Definition desc_limit (d : Z) : Z := Z.lor (bits d 0 16) (Z.shiftl (bits d 48 4) 16).
Definition desc_base (low high : Z) : Z := Z.lor (Z.lor (Z.lor (bits low 16 16) (Z.shiftl (bits low 32 8) 16)) (Z.shiftl (bits low 56 8) 24)) (Z.shiftl high 32).
(** A selector: index, table and privilege. *)
Definition sel_index (s : Z) : nat := Z.to_nat (bits s 3 13).
Definition sel_rpl (s : Z) : Z := bits s 0 2.

Definition code_segment (ring : Z) (d : Z) : Prop := present d = true /\ is_segment d = true /\ is_code d = true /\ long_mode d = true /\ accessed d = true /\ dpl d = ring.
Definition data_segment (ring : Z) (d : Z) : Prop := present d = true /\ is_segment d = true /\ is_code d = false /\ writable d = true /\ accessed d = true /\ dpl d = ring.
Definition tss_descriptor (low high tss : Z) : Prop := present low = true /\ is_segment low = false /\ system_type low = 0x9 /\ dpl low = 0 /\ desc_base low high = tss /\ desc_limit low = TSS_SIZE - 1.

(** A table of descriptors in which every selector the kernel uses means what it
    should. *)
Record gdt_ok (gdt : list Z) (tss : Z) : Prop := {
  g_null : gdt !! 0%nat = Some 0;
  g_kernel_cs : exists d, gdt !! sel_index KERNEL_CS = Some d /\ code_segment 0 d /\ sel_rpl KERNEL_CS = 0;
  g_kernel_ds : exists d, gdt !! sel_index KERNEL_DS = Some d /\ data_segment 0 d /\ sel_rpl KERNEL_DS = 0;
  g_tss : exists lo hi, gdt !! sel_index TSS_SEL = Some lo /\ gdt !! S (sel_index TSS_SEL) = Some hi /\ tss_descriptor lo hi tss;
  g_user_ds : exists d, gdt !! sel_index USER_DS = Some d /\ data_segment 3 d /\ sel_rpl USER_DS = 3;
  g_user_cs : exists d, gdt !! sel_index USER_CS = Some d /\ code_segment 3 d /\ sel_rpl USER_CS = 3
}.

(** The segments loaded by [syscall] and by a 64-bit [sysret]. *)
Definition syscall_cs (star : Z) : Z := bits star 32 16.
Definition syscall_ss (star : Z) : Z := bits star 32 16 + 8.
Definition sysret_cs (star : Z) : Z := Z.lor (bits star 48 16 + 16) 3.
Definition sysret_ss (star : Z) : Z := Z.lor (bits star 48 16 + 8) 3.

Lemma small_bits x n j : 0 <= x < 2 ^ n -> n <= j -> Z.testbit x j = false.
Proof.
  intros Hx Hj. destruct (decide (x = 0)) as [->|Hne]; [apply Z.bits_0|]. apply Z.bits_above_log2; [lia|]. apply Z.lt_le_trans with n; [|done]. apply Z.log2_lt_pow2; lia.
Qed.

Lemma testbit_bits x lo n i : 0 <= i -> 0 <= n -> Z.testbit (bits x lo n) i = (Z.testbit x (i + lo) && (i <? n))%bool.
Proof. intros Hi Hn. unfold bits. rewrite Z.land_spec, Z.shiftr_spec, Z.testbit_ones_nonneg by lia. done. Qed.

(** Comparisons decided by [lia]. *)
Ltac decide_cmp :=
  repeat match goal with
  | |- context [?a <=? ?b] => first [rewrite (proj2 (Z.leb_le a b)) by lia | rewrite (proj2 (Z.leb_gt a b)) by lia]
  | |- context [?a <? ?b] => first [rewrite (proj2 (Z.ltb_lt a b)) by lia | rewrite (proj2 (Z.ltb_ge a b)) by lia]
  end; rewrite ?andb_false_r, ?andb_true_r, ?orb_false_r, ?orb_false_l.

Lemma field_bit x n s j : 0 <= s -> 0 <= n -> 0 <= j -> Z.testbit (Z.shiftl (Z.land x (Z.ones n)) s) j = (Z.testbit x (j - s) && ((s <=? j) && (j <? s + n)))%bool.
Proof.
  intros Hs Hn Hj. rewrite Z.shiftl_spec, Z.land_spec, Z.testbit_ones by lia. f_equal.
  lia.
Qed.

(** The bits of the low word of a task descriptor, by position. *)
Lemma tss_low_bit b l j : 0 <= j -> Z.testbit (encode_tss_descriptor b l).1 j =
  ((Z.testbit l j && (j <? 16)) || (Z.testbit b (j - 16) && ((16 <=? j) && (j <? 40))) || (Z.testbit 0x89 (j - 40) && ((40 <=? j) && (j <? 48))) ||
   (Z.testbit l (j - 32) && ((48 <=? j) && (j <? 52))) || (Z.testbit b (j - 32) && ((56 <=? j) && (j <? 64))))%bool.
Proof.
  intros Hj. cbn [encode_tss_descriptor fst]. change 0xFFFF with (Z.ones 16). change 0xFF with (Z.ones 8). change 0xF with (Z.ones 4). change (Z.shiftl 0x89 40) with (Z.shiftl (Z.land 0x89 (Z.ones 8)) 40).
  rewrite !Z.lor_spec, !field_bit, Z.land_spec, Z.testbit_ones by lia.
  assert (Hsh : forall x k m, 0 <= k -> k <= j -> Z.testbit (Z.shiftr x m) (j - k) = Z.testbit x (j - k + m)) by (intros x k m ? ?; apply Z.shiftr_spec; lia).
  destruct (decide (j < 16)); [by decide_cmp|]. destruct (decide (j < 32)); [by decide_cmp|]. destruct (decide (j < 40)); [decide_cmp; rewrite Hsh by lia; f_equal; lia|].
  destruct (decide (j < 48)); [by decide_cmp|]. destruct (decide (j < 52)); [decide_cmp; rewrite Hsh by lia; f_equal; lia|]. destruct (decide (j < 56)); [by decide_cmp|].
  destruct (decide (j < 64)); [decide_cmp; rewrite Hsh by lia; f_equal; lia|by decide_cmp].
Qed.

Lemma tss_decodes b l : in_u 64 b -> 0 <= l < 2 ^ 20 -> let '(lo, hi) := encode_tss_descriptor b l in desc_base lo hi = b /\ desc_limit lo = l.
Proof.
  intros Hb Hl. pose proof (tss_low_bit b l) as Hbit. change (encode_tss_descriptor b l) with ((encode_tss_descriptor b l).1, Z.shiftr b 32). set (lo := (encode_tss_descriptor b l).1) in *.
  split; apply Z.bits_inj'; intros i Hi; unfold desc_base, desc_limit, bits; rewrite !Z.lor_spec, ?field_bit by lia; rewrite Z.land_spec, Z.testbit_ones, Z.shiftr_spec by lia.
  - assert (Hsh : forall k m, 0 <= k -> k <= i -> Z.testbit (Z.shiftr lo m) (i - k) = Z.testbit lo (i - k + m)) by (intros k m ? ?; apply Z.shiftr_spec; lia).
    assert (Hhi : Z.testbit (Z.shiftl (Z.shiftr b 32) 32) i = (Z.testbit b i && (32 <=? i))%bool).
    { rewrite Z.shiftl_spec by lia. destruct (Z.leb_spec 32 i); [rewrite Z.shiftr_spec by lia; rewrite andb_true_r; f_equal; lia|rewrite Z.testbit_neg_r by lia; by rewrite andb_false_r]. }
    rewrite Hhi. destruct (decide (i < 16)); [decide_cmp; rewrite Hbit by lia; decide_cmp; f_equal; lia|]. destruct (decide (i < 24)); [decide_cmp; rewrite Hsh, Hbit by lia; decide_cmp; f_equal; lia|].
    destruct (decide (i < 32)); [decide_cmp; rewrite Hsh, Hbit by lia; decide_cmp; f_equal; lia|by decide_cmp].
  - destruct (decide (i < 16)); [decide_cmp; rewrite Hbit by lia; decide_cmp; f_equal; lia|]. destruct (decide (i < 20)); [decide_cmp; rewrite Z.shiftr_spec, Hbit by lia; decide_cmp; f_equal; lia|].
    decide_cmp. symmetry. apply small_bits with 20; lia.
Qed.

Lemma tss_descriptor_ok tss : in_u 64 tss -> let '(lo, hi) := encode_tss_descriptor tss (TSS_SIZE - 1) in tss_descriptor lo hi tss.
Proof.
  intros Ht. pose proof (tss_decodes tss (TSS_SIZE - 1) Ht ltac:(unfold TSS_SIZE; lia)) as Hd. pose proof (tss_low_bit tss (TSS_SIZE - 1)) as Hbit.
  destruct (encode_tss_descriptor tss (TSS_SIZE - 1)) as [lo hi]. cbn [fst] in Hbit. destruct Hd as [Hbase Hlim].
  split; [unfold present; rewrite Hbit by lia; decide_cmp; done|]. split; [unfold is_segment; rewrite Hbit by lia; decide_cmp; done|].
  assert (Hf : forall k n v, 0 <= k -> 0 <= n -> 40 <= k -> k + n <= 48 -> bits 0x89 (k - 40) n = v -> bits lo k n = v).
  { intros k n v Hk Hn H1 H2 <-. apply Z.bits_inj'. intros i Hi. rewrite !testbit_bits by lia. destruct (Z.ltb_spec i n); [|by rewrite !andb_false_r]. rewrite Hbit by lia. decide_cmp. f_equal. lia. }
  split; [by apply Hf|]. split; [by apply Hf|]. done.
Qed.

Lemma gdt_slots_ok lo hi tss rest : tss_descriptor lo hi tss ->
  gdt_ok ([0; encode_gdt_entry 0x9B 2; encode_gdt_entry 0x93 0; lo; hi; encode_gdt_entry 0xF3 0; encode_gdt_entry 0xFB 2] ++ rest) tss.
Proof. intros Ht. split; [done| | |by exists lo, hi| |]; eexists; repeat split; reflexivity. Qed.

(** ** Registers *)
Lemma rdmsr_join_halves v : in_u 64 v -> rdmsr_join (wrap 32 v) (Z.shiftr v 32) = v.
Proof.
  intros Hv. unfold rdmsr_join, wrap. rewrite <- Z.land_ones by lia. apply Z.bits_inj'. intros i Hi. rewrite Z.lor_spec, Z.shiftl_spec, Z.land_spec, Z.testbit_ones by lia.
  destruct (decide (i < 32)); [rewrite (Z.testbit_neg_r _ (i - 32)) by lia; by decide_cmp|]. rewrite Z.shiftr_spec by lia. decide_cmp. f_equal. lia.
Qed.

Lemma rdmsr_wrmsr m r v : in_u 64 v -> rdmsr (wrmsr m r v) r = v.
Proof.
  intros Hv. unfold rdmsr, wrmsr, wrmsr_halves. cbv beta iota. rewrite Z.eqb_refl. transitivity (rdmsr_join (wrap 32 v) (Z.shiftr v 32)); [|by apply rdmsr_join_halves]. pose proof (Z.mod_pos_bound v (2 ^ 32) ltac:(lia)). f_equal.
  - unfold wrap. rewrite (Z.mul_comm (2 ^ 32)), Z.mod_add, Z.mod_mod by lia. done.
  - unfold wrap at 1. rewrite (Z.mul_comm (2 ^ 32)), Z.div_add, Z.div_small by lia. cbn [Z.add]. unfold wrap. apply Z.mod_small. rewrite Z.shiftr_div_pow2 by lia. split; [apply Z.div_pos; unfold in_u in Hv; lia|apply Z.div_lt_upper_bound; unfold in_u in Hv; lia].
Qed.

Lemma rdmsr_other m r r' v : r <> r' -> rdmsr (wrmsr m r v) r' = rdmsr m r'.
Proof. intros Hne. unfold rdmsr, wrmsr, wrmsr_halves. cbv beta iota. by rewrite (proj2 (Z.eqb_neq r' r)) by done. Qed.

Lemma gdt_init_ok gdt_at tss_at ist_at kstack_at tss : in_u 64 tss_at ->
  let '(gdt, _, ptr) := gdt_init gdt_at tss_at ist_at kstack_at tss in gdt_ok gdt tss_at /\ limit ptr = 8 * Z.of_nat (length gdt) - 1.
Proof. intros Htss. pose proof (tss_descriptor_ok tss_at Htss) as Ht. unfold gdt_init. destruct (encode_tss_descriptor tss_at (TSS_SIZE - 1)) as [lo hi]. split; [exact (gdt_slots_ok lo hi tss_at [] Ht)|done]. Qed.
Lemma init_on_cpu_lstar m entry : in_u 64 entry -> read_lstar (init_on_cpu m entry) = entry.
Proof. intros He. unfold init_on_cpu, read_lstar. cbv zeta. rewrite (rdmsr_other _ MSR_FMASK) by done. by rewrite rdmsr_wrmsr. Qed.

(** C32: Every selector the processor is given refers to the right kind of descriptor.
    The tables of the boot processor and of each application processor, wherever
    they are, hold at the kernel's and the user's selectors present 64-bit code and
    writable data segments of the right privilege, and at the task selector an
    available TSS whose base and limit are exactly the processor's own TSS; and the
    segments that [syscall] and [sysret] derive from the STAR register are those
    selectors, with the entry point in LSTAR and interrupts masked. *)
Theorem segments_well_formed gdt_at tss_at ist_at kstack_at gdt0 tss m entry : in_u 64 tss_at -> in_u 64 entry -> in_u 64 (rdmsr m MSR_EFER) ->
  (let '(gdt, _, ptr) := gdt_init gdt_at tss_at ist_at kstack_at tss in gdt_ok gdt tss_at /\ limit ptr = 8 * Z.of_nat (length gdt) - 1) /\
  (let '(gdt, _, ptr) := init_cpu_state gdt_at tss_at ist_at kstack_at gdt0 tss in gdt_ok gdt tss_at /\ (length gdt0 = 10%nat -> limit ptr = 8 * Z.of_nat (length gdt) - 1)) /\
  (let m' := init_on_cpu m entry in
   syscall_cs (read_star m') = KERNEL_CS /\ syscall_ss (read_star m') = KERNEL_DS /\ sysret_cs (read_star m') = USER_CS /\ sysret_ss (read_star m') = USER_DS /\
   read_lstar m' = entry /\ read_fmask m' = 0x200 /\ read_efer m' = Z.lor (rdmsr m MSR_EFER) 1).
Proof.
  intros Htss He Hef. split; [by apply gdt_init_ok|].
  pose proof (tss_descriptor_ok tss_at Htss) as Ht. unfold init_cpu_state. destruct (encode_tss_descriptor tss_at (TSS_SIZE - 1)) as [lo hi].
  split; [split; [exact (gdt_slots_ok lo hi tss_at (drop 7 gdt0) Ht)|intros Hl; cbn [app length]; rewrite length_drop, Hl; done]|].
  cbv zeta. unfold init_on_cpu, read_star, read_lstar, read_fmask, read_efer. cbv zeta.
  rewrite (rdmsr_wrmsr _ MSR_FMASK) by done. rewrite !(rdmsr_other _ MSR_FMASK) by done. rewrite (rdmsr_wrmsr _ MSR_LSTAR) by done. rewrite !(rdmsr_other _ MSR_LSTAR) by done. rewrite !(rdmsr_wrmsr _ MSR_STAR) by done. rewrite !(rdmsr_other _ MSR_STAR) by done.
  rewrite rdmsr_wrmsr; [done|]. split; [apply Z.lor_nonneg; split; [apply Hef|done]|]. destruct (decide (Z.lor (rdmsr m MSR_EFER) EFER_SCE < 2 ^ 64)); [done|exfalso].
  assert (Hlog : Z.log2 (Z.lor (rdmsr m MSR_EFER) EFER_SCE) < 64); [|apply (Z.log2_lt_pow2) in Hlog; lia]. rewrite Z.log2_lor by (destruct Hef; done || lia). change (Z.log2 EFER_SCE) with 0.
  destruct Hef as [H0 H1]. destruct (decide (rdmsr m MSR_EFER = 0)) as [->|]; [done|]. apply Z.max_lub_lt; [apply Z.log2_lt_pow2; lia|lia].
Qed.

Lemma segments_well_formed_witness : gdt_ok (gdt_init 0x1000 0x2000 0x3000 0x8000 tss_new).1.1 0x2000.
Proof. destruct (segments_well_formed 0x1000 0x2000 0x3000 0x8000 (replicate 10 0) tss_new (fun _ => 0xD00) 0x100000) as [[H _] _]; [done..|exact H]. Defined.

(** ** Interrupt gates as the processor reads them: the address, the stack and the
    segment of a present 64-bit interrupt gate of privilege 0 *)
Definition gate_address (e : IdtEntry) : Z := offset_low e + 2 ^ 16 * offset_mid e + 2 ^ 32 * offset_high e.
Definition gate (e : IdtEntry) : option (Z * Z * Z) := if attributes e =? 0x8E then Some (gate_address e, ist e, selector e) else None.
(** The vectors the kernel handles: exceptions by the processor's numbering, the
    lines of both controllers behind their offsets, the timer of the local APIC. *)
Definition vector (h : handlers) (v : nat) : option (Z * Z * Z) :=
  let on x := Some (x, 0, KERNEL_CS) in
  if bool_decide (v = 0%nat) then on (divide_by_zero h) else if bool_decide (v = 6%nat) then on (invalid_opcode h) else
  if bool_decide (v = 8%nat) then Some (double_fault h, 1, KERNEL_CS) else if bool_decide (v = 13%nat) then on (general_protection_fault h) else
  if bool_decide (v = 14%nat) then on (page_fault h) else if bool_decide (v = 32%nat) then on (timer h) else if bool_decide (v = 33%nat) then on (keyboard h) else
  if bool_decide (v = 44%nat) then on (mouse h) else if bool_decide (v = 64%nat) then on (lapic_timer h) else None.

Lemma handler_address h e : in_u 64 h -> gate (set_handler h e) = Some (h, 0, KERNEL_CS).
Proof.
  intros Hh. unfold gate. cbn [set_handler attributes ist selector]. change (0x8E =? 0x8E) with true. cbv iota. unfold gate_address. cbn [set_handler offset_low offset_mid offset_high]. f_equal. f_equal. f_equal.
  unfold wrap. rewrite !Z.shiftr_div_pow2 by lia. destruct Hh as [H0 H1]. rewrite (Z.mod_small (h / 2 ^ 32)) by (split; [apply Z.div_pos; lia|apply Z.div_lt_upper_bound; lia]).
  change (2 ^ 32) with (2 ^ 16 * 2 ^ 16). rewrite <- Z.div_div by lia. pose proof (Z.div_mod h (2 ^ 16) ltac:(lia)). pose proof (Z.div_mod (h / 2 ^ 16) (2 ^ 16) ltac:(lia)). lia.
Qed.

Lemma ist_address h i e : in_u 64 h -> gate (set_handler_with_ist h i e) = Some (h, Z.land i 7, KERNEL_CS).
Proof.
  intros Hh. pose proof (handler_address h e Hh) as Hg. injection Hg as Hg. unfold gate. cbn [set_handler_with_ist attributes ist selector]. change (attributes (set_handler h e) =? 0x8E) with true. cbv iota.
  unfold gate_address in *. cbn [set_handler_with_ist set_handler offset_low offset_mid offset_high selector] in *. by rewrite Hg.
Qed.

Definition handlers_ok (h : handlers) : Prop := Forall (in_u 64) [divide_by_zero h; invalid_opcode h; double_fault h; general_protection_fault h; page_fault h; timer h; keyboard h; mouse h; lapic_timer h].

Lemma gates_installed h : handlers_ok h -> exists idt, idt_init h IDT = Ret idt /\ length idt = 256%nat /\ forall v, (v < 256)%nat -> exists e, idt !! v = Some e /\ gate e = vector h v.
Proof.
  intros Hh. unfold handlers_ok in Hh. repeat (apply Forall_cons_1 in Hh as [? Hh]). exists (<[64%nat := set_handler (lapic_timer h) missing]> (<[44%nat := set_handler (mouse h) missing]> (<[33%nat := set_handler (keyboard h) missing]> (<[32%nat := set_handler (timer h) missing]>
    (<[14%nat := set_handler (page_fault h) missing]> (<[13%nat := set_handler (general_protection_fault h) missing]> (<[8%nat := set_handler_with_ist (double_fault h) 1 missing]> (<[6%nat := set_handler (invalid_opcode h) missing]> (<[0%nat := set_handler (divide_by_zero h) missing]> IDT))))))))).
  split; [reflexivity|]. split; [by rewrite !length_insert|]. intros v Hv. unfold vector.
  assert (Hcase : forall (n : nat) hd, v = n -> in_u 64 hd -> forall idt : list IdtEntry, idt !! n = Some (set_handler hd missing) -> exists e, idt !! v = Some e /\ gate e = Some (hd, 0, KERNEL_CS)) by (intros n hd -> Hu idt Hl; eexists; split; [exact Hl|by apply handler_address]).
  repeat (case_bool_decide; [first [by eapply Hcase|subst v; eexists; split; [reflexivity|by apply ist_address]]|]).
  exists missing. split; [|done]. rewrite !list_lookup_insert_ne by congruence. by apply lookup_replicate.
Qed.

(** Interrupts reach their handlers: [init] of the table returns, and for each of
    the 256 vectors the gate the processor reads is the kernel's handler for that
    exception, line or timer (its full 64-bit address, entered on the kernel code
    segment, the double fault on its own stack), or is not present. *)
Theorem interrupt_gates h : handlers_ok h -> exists idt, idt_init h IDT = Ret idt /\ length idt = 256%nat /\ forall v, (v < 256)%nat -> exists e, idt !! v = Some e /\ gate e = vector h v.
Proof. apply gates_installed. Qed.

Definition demo_handlers : handlers := mkHandlers 0xFFFFFFFF80001000 0x2000 0x3000 0x4000 0x5000 0x6000 0x7000 0x8000 0x9000.
Lemma interrupt_gates_witness : exists idt e, idt_init demo_handlers IDT = Ret idt /\ idt !! 0%nat = Some e /\ gate e = Some (0xFFFFFFFF80001000, 0, KERNEL_CS).
Proof.
  destruct (interrupt_gates demo_handlers) as (idt & E & _ & H); [by_compute|]. destruct (H 0%nat ltac:(lia)) as (e & He & Hg). exists idt, e. exact (conj E (conj He Hg)).
Defined.

End Descriptors.
