(* ===== verification/Pic.v ===== *)
(** * Interrupt controllers (src/src/arch/pic.rs)

    The programming of the two cascaded 8259 controllers, and what a controller makes
    of the commands. *)

From stdpp Require Import prelude numbers list.
From S2P Require Import Prelude Io Descriptors.

Module Pic.

Definition PIC1_COMMAND : Z := 0x20.
Definition PIC1_DATA : Z := 0x21.
Definition PIC2_COMMAND : Z := 0xA0.
Definition PIC2_DATA : Z := 0xA1.
Definition PIC_EOI : Z := 0x20.

Section Driver.
Context {H : Type} {HW : Hardware H}.

Definition pic_init : hw H () :=
  port_inb PIC1_DATA;; port_inb PIC2_DATA;;
  port_outb PIC1_COMMAND 0x11;; io_wait;; port_outb PIC2_COMMAND 0x11;; io_wait;;
  port_outb PIC1_DATA Descriptors.PIC1_OFFSET;; io_wait;; port_outb PIC2_DATA Descriptors.PIC2_OFFSET;; io_wait;;
  port_outb PIC1_DATA 0x04;; io_wait;; port_outb PIC2_DATA 0x02;; io_wait;;
  port_outb PIC1_DATA 0x01;; io_wait;; port_outb PIC2_DATA 0x01;; io_wait;;
  port_outb PIC1_DATA 0xF8;; port_outb PIC2_DATA 0xEF.

(** [mask & !(1 << n)] in [u8] *)
Definition clear_bit (mask n : Z) : Z := Z.land mask (wrap 8 (Z.lnot (Z.shiftl 1 n))).
Definition unmask_irq (irq : Z) : hw H () :=
  if irq <? 8 then mask ← port_inb PIC1_DATA; port_outb PIC1_DATA (clear_bit mask irq)
  else
    mask ← port_inb PIC2_DATA; port_outb PIC2_DATA (clear_bit mask (irq - 8));;
    master_mask ← port_inb PIC1_DATA; port_outb PIC1_DATA (clear_bit master_mask 2).

Definition send_eoi (irq : Z) : hw H () := (if 8 <=? irq then port_outb PIC2_COMMAND PIC_EOI else mret tt);; port_outb PIC1_COMMAND PIC_EOI.
End Driver.

(** ** A pair of controllers

    After the first initialisation word a controller takes three more on its data
    port; otherwise the data port is the interrupt mask. *)
Record chip := mkChip { offset : Z; cascade : Z; mode : Z; imr : Z; expects : nat; in_service : list Z }.
Definition command (c : chip) (v : Z) : chip :=
  if Z.testbit v 4 then mkChip (offset c) (cascade c) (mode c) 0 3 []
  else if v =? 0x20 then mkChip (offset c) (cascade c) (mode c) (imr c) (expects c) (tail (in_service c)) else c.
Definition data_write (c : chip) (v : Z) : chip :=
  match expects c with
  | 3%nat => mkChip v (cascade c) (mode c) (imr c) 2 (in_service c)
  | 2%nat => mkChip (offset c) v (mode c) (imr c) 1 (in_service c)
  | 1%nat => mkChip (offset c) (cascade c) v (imr c) 0 (in_service c)
  | _ => mkChip (offset c) (cascade c) (mode c) v (expects c) (in_service c)
  end.
Record pics := mkPics { master : chip; slave : chip }.
#[global] Instance pics_hardware : Hardware pics := {
  outb p port v := if port =? PIC1_COMMAND then mkPics (command (master p) v) (slave p) else if port =? PIC1_DATA then mkPics (data_write (master p) v) (slave p) else
    if port =? PIC2_COMMAND then mkPics (master p) (command (slave p) v) else if port =? PIC2_DATA then mkPics (master p) (data_write (slave p) v) else p;
  inb p port := if port =? PIC1_DATA then (imr (master p), p) else if port =? PIC2_DATA then (imr (slave p), p) else (0, p);
  outw p _ _ := p; inw p _ := (0, p); outl p _ _ := p; inl p _ := (0, p); write_volatile p _ _ := p; read_volatile p _ := (0, p)
}.

(** The vector of a line, and whether it is let through. *)
Definition line_vector (p : pics) (irq : Z) : Z := if irq <? 8 then offset (master p) + irq else offset (slave p) + (irq - 8).
Definition line_open (p : pics) (irq : Z) : bool :=
  if irq <? 8 then negb (Z.testbit (imr (master p)) irq) else (negb (Z.testbit (imr (slave p)) (irq - 8)) && negb (Z.testbit (imr (master p)) (cascade (slave p))))%bool.

Lemma clear_bit_spec m n i : in_u 8 m -> 0 <= n < 8 -> 0 <= i -> Z.testbit (clear_bit m n) i = (Z.testbit m i && negb (i =? n))%bool.
Proof.
  intros Hm Hn Hi. unfold clear_bit, wrap. rewrite <- Z.land_ones by lia. rewrite !Z.land_spec, Z.lnot_spec, Z.shiftl_spec, Z.testbit_ones_nonneg by lia.
  assert (Z.testbit 1 (i - n) = (i =? n)) as ->. { destruct (Z.eqb_spec i n) as [->|Hne]; [by rewrite Z.sub_diag|]. destruct (decide (i < n)); [by rewrite Z.testbit_neg_r by lia|]. by rewrite Z.bits_above_log2 by (try done; cbn; lia). }
  destruct (Z.ltb_spec i 8); [by rewrite andb_true_r|]. rewrite (Descriptors.small_bits m 8 i) by (done || lia). done.
Qed.

Definition programmed : pics := mkPics (mkChip 32 4 1 0xF8 0 []) (mkChip 40 2 1 0xEF 0 []).

(** The lines of the kernel's devices after initialisation: vectors 32 to 47, with the
    timer, the keyboard and the mouse let through and all other lines masked. *)
Lemma pic_init_spec p : let p' := (pic_init p).2 in
  (forall irq, 0 <= irq < 16 -> line_vector p' irq = 32 + irq) /\
  (forall irq, 0 <= irq < 16 -> line_open p' irq = bool_decide (irq ∈ [Descriptors.IRQ_TIMER; Descriptors.IRQ_KEYBOARD; Descriptors.IRQ_CASCADE; Descriptors.IRQ_MOUSE])) /\ expects (master p') = O /\ expects (slave p') = O.
Proof.
  assert (E : forall p0, (pic_init p0).2 = programmed) by (intros [[] []]; reflexivity). cbv zeta. rewrite E.
  assert (HF : Forall (fun i => line_vector programmed i = 32 + i /\ line_open programmed i = bool_decide (i ∈ [Descriptors.IRQ_TIMER; Descriptors.IRQ_KEYBOARD; Descriptors.IRQ_CASCADE; Descriptors.IRQ_MOUSE])) (Z.of_nat <$> seq 0 16)) by by_compute.
  rewrite Forall_forall in HF. assert (Hin : forall irq, 0 <= irq < 16 -> irq ∈ Z.of_nat <$> seq 0 16) by (intros irq Hi; apply list_elem_of_fmap; exists (Z.to_nat irq); rewrite elem_of_seq; lia).
  split; [intros irq Hi; by apply HF, Hin|]. split; [intros irq Hi; by apply HF, Hin|done].
Qed.

(** Unmasking a line opens it, and closes no other. *)
Lemma unmask_irq_spec p irq : 0 <= irq < 16 -> in_u 8 (imr (master p)) -> in_u 8 (imr (slave p)) -> expects (master p) = O -> expects (slave p) = O -> cascade (slave p) = 2 ->
  line_open (unmask_irq irq p).2 irq = true /\ forall i, 0 <= i < 16 -> line_open p i = true -> line_open (unmask_irq irq p).2 i = true.
Proof.
  intros Hi Hm Hs Em Es Hc. destruct p as [[mo mc mm mi me ms] [so sc sm si se ss]]. cbn [master slave imr expects cascade] in *. subst me se sc.
  assert (E : (unmask_irq irq (mkPics (mkChip mo mc mm mi 0 ms) (mkChip so 2 sm si 0 ss))).2 =
    if irq <? 8 then mkPics (mkChip mo mc mm (clear_bit mi irq) 0 ms) (mkChip so 2 sm si 0 ss) else mkPics (mkChip mo mc mm (clear_bit mi 2) 0 ms) (mkChip so 2 sm (clear_bit si (irq - 8)) 0 ss)) by (unfold unmask_irq; by destruct (irq <? 8)).
  rewrite E. unfold line_open. destruct (Z.ltb_spec irq 8) as [H8|H8]; cbn [master slave imr cascade].
  - split; [rewrite clear_bit_spec by (done || lia); by rewrite Z.eqb_refl, andb_false_r|]. intros i Hi'. destruct (Z.ltb_spec i 8); rewrite clear_bit_spec by (done || lia); [by destruct (Z.testbit mi i)|].
    destruct (Z.testbit si (i - 8)); [done|]. by destruct (Z.testbit mi 2).
  - split; [rewrite !clear_bit_spec by (done || lia); rewrite !Z.eqb_refl, !andb_false_r; done|]. intros i Hi'.
    destruct (Z.ltb_spec i 8); rewrite !clear_bit_spec by (done || lia); [by destruct (Z.testbit mi i)|]. rewrite Z.eqb_refl, andb_false_r. by destruct (Z.testbit si (i - 8)).
Qed.
End Pic.
