(* ===== verification/Apic.v ===== *)
(** * Local APIC (src/src/arch/apic.rs)

    The registers of the interrupt controller of each processor, and its timer. *)

From stdpp Require Import prelude numbers list.
From S2P Require Import Prelude Io Descriptors.

Module Apic.

Definition MSR_APIC_BASE : Z := 0x1B.
Definition MSR_APIC_BASE_ENABLE : Z := Z.shiftl 1 11.
Definition REG_LAPIC_ID : Z := 0x20.
Definition REG_LAPIC_VER : Z := 0x30.
Definition REG_TPR : Z := 0x80.
Definition REG_EOI : Z := 0xB0.
Definition REG_SVR : Z := 0xF0.
Definition REG_ESR : Z := 0x280.
Definition REG_ICR_LOW : Z := 0x300.
Definition REG_ICR_HIGH : Z := 0x310.
Definition REG_LVT_TIMER : Z := 0x320.
Definition REG_TIMER_INIT : Z := 0x380.
Definition REG_TIMER_DIV : Z := 0x3E0.
Definition SVR_APIC_SOFTWARE_ENABLE : Z := Z.shiftl 1 8.
Definition SVR_SPURIOUS_VECTOR : Z := 0xFF.

Record LocalApic := mkLapic { base_addr : Z; is_enabled : bool; apic_id : Z; version : Z }.
Definition new : LocalApic := mkLapic 0xFEE00000 false 0 0.

Section Driver.
Context {H : Type} {HW : Hardware H}.
Definition mmio_read (a : Z) : hw H Z := fun h => read_volatile h a.
Definition mmio_write (a v : Z) : hw H () := fun h => (tt, write_volatile h a v).

Definition read_reg (l : LocalApic) (reg : Z) : hw H Z := if base_addr l =? 0 then mret 0 else mmio_read (u64_add (base_addr l) reg).
Definition write_reg (l : LocalApic) (reg value : Z) : hw H () := if base_addr l =? 0 then mret tt else mmio_write (u64_add (base_addr l) reg) value.
Definition lapic_send_eoi (l : LocalApic) : hw H () := write_reg l REG_EOI 0.

(** [apic::init], given what CPUID says and the registers of the CPU. *)
Definition apic_init (has_apic : bool) (m : Descriptors.msrs) (l : LocalApic) : hw H (bool * Descriptors.msrs * LocalApic) :=
  if negb has_apic then mret (false, m, l) else
  let apic_base_msr := Descriptors.rdmsr m MSR_APIC_BASE in
  let base_phys := Z.land apic_base_msr 0x000FFFFFFFFFF000 in
  let base := if base_phys =? 0 then 0xFEE00000 else base_phys in
  let m := if Z.land apic_base_msr MSR_APIC_BASE_ENABLE =? 0 then Descriptors.wrmsr m MSR_APIC_BASE (Z.lor apic_base_msr MSR_APIC_BASE_ENABLE) else m in
  let l := mkLapic base (is_enabled l) (apic_id l) (version l) in
  id ← read_reg l REG_LAPIC_ID;
  ver ← read_reg l REG_LAPIC_VER;
  let l := mkLapic base (is_enabled l) (Z.land (Z.shiftr id 24) 0xFF) (Z.land ver 0xFF) in
  write_reg l REG_SVR (Z.lor SVR_APIC_SOFTWARE_ENABLE SVR_SPURIOUS_VECTOR);;
  write_reg l REG_TPR 0;; write_reg l REG_ESR 0;; write_reg l REG_ESR 0;; lapic_send_eoi l;;
  svr ← read_reg l REG_SVR;
  mret (true, m, mkLapic base true (apic_id l) (version l)).

Definition send_eoi : hw H () := mmio_write 0xFEE000B0 0.
Definition init_timer (vector initial_count : Z) : hw H () :=
  mmio_write (0xFEE00000 + REG_TIMER_DIV) 0x03;; mmio_write (0xFEE00000 + REG_LVT_TIMER) (Z.lor (Z.shiftl 1 17) vector);; mmio_write (0xFEE00000 + REG_TIMER_INIT) initial_count.
End Driver.

(** The address the register gives is never zero, so no access of the driver is lost. *)
Lemma apic_base_nonzero {H} {HW : Hardware H} m l (h : H) : base_addr (apic_init true m l h).1.2 <> 0.
Proof.
  unfold apic_init. cbn [negb]. cbv zeta. unfold mbind, hw_bind, mret, hw_ret. set (b := if _ =? 0 then 0xFEE00000 else _). assert (Hb : b <> 0) by (unfold b; by destruct (Z.eqb_spec (Z.land (Descriptors.rdmsr m MSR_APIC_BASE) 0x000FFFFFFFFFF000) 0)).
  repeat (match goal with |- context [let '(_, _) := ?e in _] => destruct e end). exact Hb.
Qed.
End Apic.
