(* ===== verification/SmpBoot.v ===== *)
(** * Start-up of the application processors (src/src/arch/smp.rs)

    The boot processor wakes the other processors one after the other while they run
    on their own.  [machine] is everything they share together with the processors
    themselves; the interleaving is the field [schedule], from which [others] takes,
    before every access of the boot processor to shared memory, the steps the other
    processors make there.  Theorems hold for every schedule.  When every processor
    comes online in time each has the block, the stack and the number of its own; a
    processor that is late takes the number of the next one. *)

From stdpp Require Import prelude numbers list strings.
From S2P Require Import Prelude Io Descriptors Apic Acpi Task.

Module SmpBoot.

Definition MAX_CPUS : nat := 8.
Definition TRAMPOLINE_BASE : Z := 0x8000.
Definition AP_SCRATCH_BASE : Z := 0x9000.
Definition MSR_GS_BASE : Z := 0xC0000101.

(** The block of a processor; its two stacks are memory at the addresses below. *)
Record PerCpu := mkPerCpu {
  user_rsp_scratch : Z; kernel_rsp_scratch : Z; syscall_nr_scratch : Z;
  cpu_id : Z; apic_id : Z; gdt : list Z; tss : Descriptors.Tss64; online : bool
}.
Definition new_const : PerCpu := mkPerCpu 0 0 0 0 0 (replicate 10 0) Descriptors.tss_new false.
Definition set_ids (cpu apic : Z) (p : PerCpu) : PerCpu := mkPerCpu (user_rsp_scratch p) (kernel_rsp_scratch p) (syscall_nr_scratch p) cpu apic (gdt p) (tss p) (online p).
Definition set_tables (g : list Z) (t : Descriptors.Tss64) (p : PerCpu) : PerCpu := mkPerCpu (user_rsp_scratch p) (kernel_rsp_scratch p) (syscall_nr_scratch p) (cpu_id p) (apic_id p) g t (online p).
Definition is_online (p : PerCpu) : bool := online p.
Definition set_online (p : PerCpu) : PerCpu := mkPerCpu (user_rsp_scratch p) (kernel_rsp_scratch p) (syscall_nr_scratch p) (cpu_id p) (apic_id p) (gdt p) (tss p) true.

(** Offsets of the fields of the structure ([repr(C, align(16))]) and its size. *)
Definition GDT_OFFSET : Z := 0x28.
Definition TSS_OFFSET : Z := 0x78.
Definition KERNEL_STACK_OFFSET : Z := 0xE0.
Definition IST1_STACK_OFFSET : Z := KERNEL_STACK_OFFSET + Descriptors.KERNEL_STACK_SIZE.
Definition PER_CPU_SIZE : Z := 0x60F0.

(** Where an application processor is: waiting for its first interrupts, in the
    trampoline, at the statements of [ap_entry], or in the idle loop of a CPU number. *)
Inductive ap_pc := Halted | WaitSipi | Lost | Trampoline | Entry | Indexed (i : nat) | Prepared (i : nat) | Online (i : nat) | Counted (i : nat) | Idle (i : nat).

Record ap (H : Type) := mkAp { lapic : H; pc : ap_pc; ap_msrs : Descriptors.msrs; ap_cr3 : Z; ap_rsp : Z }.
Arguments mkAp {H}. Arguments lapic {H}. Arguments pc {H}. Arguments ap_msrs {H}. Arguments ap_cr3 {H}. Arguments ap_rsp {H}.
Definition set_pc {H} (c : ap_pc) (a : ap H) : ap H := mkAp (lapic a) c (ap_msrs a) (ap_cr3 a) (ap_rsp a).

(** The statics, the low memory used for start-up ([scratch] is the three words at
    [AP_SCRATCH_BASE]), the controller of the boot processor, and the others. *)
Record machine (H : Type) := mkMachine {
  PER_CPU : list PerCpu; ONLINE_CPUS : Z; SMP_STARTED : bool; AP_CPU_INDEX : nat;
  schedulers : list Task.CpuScheduler;
  low_page : list Z; scratch : Z * Z * Z;
  icr_high : Z; icr_low : Z; bsp_msrs : Descriptors.msrs;
  aps : list (ap H); schedule : list (list nat); busy : list bool
}.
Arguments mkMachine {H}. Arguments PER_CPU {H}. Arguments ONLINE_CPUS {H}. Arguments SMP_STARTED {H}. Arguments AP_CPU_INDEX {H}. Arguments schedulers {H}.
Arguments low_page {H}. Arguments scratch {H}. Arguments icr_high {H}. Arguments icr_low {H}. Arguments bsp_msrs {H}. Arguments aps {H}. Arguments schedule {H}. Arguments busy {H}.

(** A local controller: its register ID names it and is read-only. *)
Class Lapic (H : Type) `{Hardware H} := {
  lapic_id : H -> Z;
  lapic_id_u8 h : in_u 8 (lapic_id h);
  lapic_id_read h : fst (read_volatile h 0xFEE00020) = Z.shiftl (lapic_id h) 24;
  lapic_id_reads h a : lapic_id (snd (read_volatile h a)) = lapic_id h;
  lapic_id_writes h a v : lapic_id (write_volatile h a v) = lapic_id h
}.

Section Machine.
Context {H : Type} {HW : Hardware H} {LA : Lapic H}.
(** Addresses the linker gives, the bytes of the trampoline, the page tables of the
    kernel and the address of the controller of the boot processor. *)
Context (per_cpu_base ap_entry_addr syscall_entry_addr : Z) (stub : list Z) (kernel_cr3 lapic_phys : Z).

Notation machine := (machine H).
Definition with_cpus (m : machine) (l : list PerCpu) : machine := mkMachine l (ONLINE_CPUS m) (SMP_STARTED m) (AP_CPU_INDEX m) (schedulers m) (low_page m) (scratch m) (icr_high m) (icr_low m) (bsp_msrs m) (aps m) (schedule m) (busy m).
Definition with_online (m : machine) (n : Z) : machine := mkMachine (PER_CPU m) n (SMP_STARTED m) (AP_CPU_INDEX m) (schedulers m) (low_page m) (scratch m) (icr_high m) (icr_low m) (bsp_msrs m) (aps m) (schedule m) (busy m).
Definition with_index (m : machine) (i : nat) : machine := mkMachine (PER_CPU m) (ONLINE_CPUS m) (SMP_STARTED m) i (schedulers m) (low_page m) (scratch m) (icr_high m) (icr_low m) (bsp_msrs m) (aps m) (schedule m) (busy m).
Definition with_scheds (m : machine) (l : list Task.CpuScheduler) : machine := mkMachine (PER_CPU m) (ONLINE_CPUS m) (SMP_STARTED m) (AP_CPU_INDEX m) l (low_page m) (scratch m) (icr_high m) (icr_low m) (bsp_msrs m) (aps m) (schedule m) (busy m).
Definition with_page (m : machine) (l : list Z) : machine := mkMachine (PER_CPU m) (ONLINE_CPUS m) (SMP_STARTED m) (AP_CPU_INDEX m) (schedulers m) l (scratch m) (icr_high m) (icr_low m) (bsp_msrs m) (aps m) (schedule m) (busy m).
Definition with_scratch (m : machine) (s : Z * Z * Z) : machine := mkMachine (PER_CPU m) (ONLINE_CPUS m) (SMP_STARTED m) (AP_CPU_INDEX m) (schedulers m) (low_page m) s (icr_high m) (icr_low m) (bsp_msrs m) (aps m) (schedule m) (busy m).
Definition with_icr (m : machine) (hi lo : Z) : machine := mkMachine (PER_CPU m) (ONLINE_CPUS m) (SMP_STARTED m) (AP_CPU_INDEX m) (schedulers m) (low_page m) (scratch m) hi lo (bsp_msrs m) (aps m) (schedule m) (busy m).
Definition with_msrs (m : machine) (r : Descriptors.msrs) : machine := mkMachine (PER_CPU m) (ONLINE_CPUS m) (SMP_STARTED m) (AP_CPU_INDEX m) (schedulers m) (low_page m) (scratch m) (icr_high m) (icr_low m) r (aps m) (schedule m) (busy m).
Definition with_aps (m : machine) (l : list (ap H)) : machine := mkMachine (PER_CPU m) (ONLINE_CPUS m) (SMP_STARTED m) (AP_CPU_INDEX m) (schedulers m) (low_page m) (scratch m) (icr_high m) (icr_low m) (bsp_msrs m) l (schedule m) (busy m).
Definition with_schedule (m : machine) (l : list (list nat)) (b : list bool) : machine := mkMachine (PER_CPU m) (ONLINE_CPUS m) (SMP_STARTED m) (AP_CPU_INDEX m) (schedulers m) (low_page m) (scratch m) (icr_high m) (icr_low m) (bsp_msrs m) (aps m) l b.
Definition start_aps (m : machine) : machine := mkMachine (PER_CPU m) (ONLINE_CPUS m) true (AP_CPU_INDEX m) (schedulers m) (low_page m) (scratch m) (icr_high m) (icr_low m) (bsp_msrs m) (aps m) (schedule m) (busy m).
Definition is_smp_started (m : machine) : bool := SMP_STARTED m.

Definition cpu_count (m : machine) : Z := ONLINE_CPUS m.

(** [current_cpu] on the processor whose controller is [h]. *)
Fixpoint find_cpu (i : nat) (id : Z) (l : list PerCpu) : nat :=
  match l with [] => O | p :: l' => if (online p && (apic_id p =? id))%bool then i else find_cpu (S i) id l' end.
Definition current_cpu (m : machine) (h : H) : nat :=
  if ONLINE_CPUS m <=? 1 then 0%nat else
  let apic_id := wrap 8 (Z.shiftr (fst (read_volatile h 0xFEE00020)) 24) in
  find_cpu 0 apic_id (PER_CPU m).

Definition block_at (i : nat) : Z := per_cpu_base + Z.of_nat i * PER_CPU_SIZE.
Definition stack_top (i : nat) : Z := u64_add (block_at i + KERNEL_STACK_OFFSET) Descriptors.KERNEL_STACK_SIZE.

(** [init_cpu_state] on the block of a processor. *)
Definition init_block (i : nat) (p : PerCpu) (m : Descriptors.msrs) : PerCpu * Descriptors.msrs :=
  let '(g, t, _) := Descriptors.init_cpu_state (block_at i + GDT_OFFSET) (block_at i + TSS_OFFSET) (block_at i + IST1_STACK_OFFSET) (block_at i + KERNEL_STACK_OFFSET) (gdt p) (tss p) in
  (set_tables g t p, Descriptors.wrmsr m MSR_GS_BASE (block_at i)).

(** The controller of the processor that runs [ap_entry]. *)
Definition ap_lapic : hw H () :=
  svr ← Apic.mmio_read (0xFEE00000 + 0xF0);
  Apic.mmio_write (0xFEE00000 + 0xF0) (Z.lor (Z.lor svr (Z.shiftl 1 8)) 0xFF);;
  Apic.mmio_write (0xFEE00000 + 0x80) 0;; Apic.mmio_write (0xFEE00000 + 0xB0) 0.

Definition put_ap (m : machine) (j : nat) (a : ap H) : machine := with_aps m (<[j := a]> (aps m)).

(** [ap_entry] up to [set_online], for the number the processor has read. *)
Definition prepare (m : machine) (j : nat) (a : ap H) (i : nat) : machine :=
  match PER_CPU m !! i, schedulers m !! i with
  | Some p, Some s =>
      let '(p', r) := init_block i p (ap_msrs a) in
      let r := Descriptors.init_on_cpu r syscall_entry_addr in
      let l := snd (ap_lapic (lapic a)) in
      put_ap (with_scheds (with_cpus m (<[i := p']> (PER_CPU m))) (<[i := Task.init_ap_section s i]> (schedulers m))) j (mkAp l (Prepared i) r (ap_cr3 a) (ap_rsp a))
  | _, _ => put_ap m j (set_pc Lost a)
  end.

(** One step of processor [j]: the trampoline, then the statements of [ap_entry]. *)
Definition ap_entry (j : nat) (m : machine) : machine :=
  match aps m !! j with
  | None => m
  | Some a =>
      match pc a with
      | Halted | WaitSipi | Lost | Idle _ => m
      | Trampoline => let '(cr3, rsp, entry) := scratch m in put_ap m j (mkAp (lapic a) (if entry =? ap_entry_addr then Entry else Lost) (ap_msrs a) cr3 rsp)
      | Entry => put_ap m j (set_pc (Indexed (AP_CPU_INDEX m)) a)
      | Indexed i => prepare m j a i
      | Prepared i => put_ap (with_cpus m (alter set_online i (PER_CPU m))) j (set_pc (Online i) a)
      | Online i => put_ap (with_online m (wrap 32 (ONLINE_CPUS m + 1))) j (set_pc (Counted i) a)
      | Counted i =>
          if SMP_STARTED m then put_ap m j (mkAp (snd (Apic.init_timer Descriptors.LAPIC_TIMER_VECTOR 1000000 (lapic a))) (Idle i) (ap_msrs a) (ap_cr3 a) (ap_rsp a))
          else m
      end
  end.
Definition run_aps (l : list nat) (m : machine) : machine := fold_left (fun m j => ap_entry j m) l m.

(** The steps of the other processors before the next access of this one. *)
Definition others : hwo machine () := fun m =>
  match schedule m with [] => Ret (tt, m) | l :: s => Ret (tt, run_aps l (with_schedule m s (busy m))) end.
Definition modify (f : machine -> machine) : hwo machine () := others;; dev (fun m => (tt, f m)).
Definition fetch {A} (f : machine -> A) : hwo machine A := others;; dev (fun m => (f m, m)).

(** What a write of the command register does: INIT makes the addressed processor
    wait for a start-up interrupt, which starts it at the page its vector names. *)
Definition receive (m : machine) (v : Z) (a : ap H) : ap H :=
  if negb (lapic_id (lapic a) =? Z.shiftr (icr_high m) 24) then a else
  let mode := Z.land (Z.shiftr v 8) 7 in
  if mode =? 5 then (if Z.testbit v 14 then set_pc WaitSipi a else a)
  else if mode =? 6 then
    match pc a with
    | WaitSipi => set_pc (if ((Z.shiftl (Z.land v 0xFF) 12 =? TRAMPOLINE_BASE) && bool_decide (take (length stub) (low_page m) = stub))%bool then Trampoline else Lost) a
    | _ => a
    end
  else a.
Definition write_lapic (a v : Z) (m : machine) : machine :=
  if a =? lapic_phys + 0x310 then with_icr m v (icr_low m)
  else if a =? lapic_phys + 0x300 then with_aps (with_icr m (icr_high m) v) (receive m v <$> aps m)
  else m.
(** Reading the command register: bit 12 says that an interrupt is still on its way. *)
Definition read_icr : hwo machine Z := others;; dev (fun m =>
  match busy m with
  | [] => (Z.ldiff (icr_low m) 0x1000, m)
  | b :: l => (if b then Z.lor (icr_low m) 0x1000 else Z.ldiff (icr_low m) 0x1000, with_schedule m (schedule m) l)
  end).

Definition send_ipi (lapic_base dest_apic_id icr_low : Z) : hwo machine () :=
  modify (write_lapic (u64_add lapic_base 0x310) (wrap 32 (Z.shiftl dest_apic_id 24)));;
  modify (write_lapic (u64_add lapic_base 0x300) icr_low).
Fixpoint wait_delivery (n : nat) : hwo machine () :=
  match n with O => mret tt | S n' => status ← read_icr; if Z.land status (Z.shiftl 1 12) =? 0 then mret tt else wait_delivery n' end.
Definition wait_ipi_delivery : hwo machine () := wait_delivery (Z.to_nat 100000).
(** A delay is a time in which the other processors run. *)
Definition delay_us : hwo machine () := others.

Definition copy_trampoline : hwo machine () :=
  if 0x1000 <? Z.of_nat (length stub) then pure_ Panic else modify (fun m => with_page m (stub ++ drop (length stub) (low_page m))).

(** [per_cpu.is_online()] *)
Definition poll_online (i : nat) : hwo machine bool := p ← fetch (fun m => PER_CPU m !! i); match p with Some p => mret (is_online p) | None => pure_ Panic end.
Fixpoint wait_online (n : nat) (i : nat) : hwo machine bool :=
  match n with O => mret false | S n' => b ← poll_online i; if (b : bool) then mret true else delay_us;; wait_online n' i end.

(** INIT, its de-assertion and one or two start-up interrupts. *)
Definition wake_up (lapic_base apic : Z) (i : nat) : hwo machine () :=
  let sipi_vector := wrap 8 (Z.shiftr TRAMPOLINE_BASE 12) in
  send_ipi lapic_base apic 0xC500;; wait_ipi_delivery;; delay_us;;
  send_ipi lapic_base apic 0x8500;; wait_ipi_delivery;; delay_us;;
  send_ipi lapic_base apic (Z.lor 0x600 sipi_vector);; wait_ipi_delivery;; delay_us;;
  b ← poll_online i;
  if (b : bool) then mret tt else send_ipi lapic_base apic (Z.lor 0x600 sipi_vector);; wait_ipi_delivery.

(** The body of the loop for one processor; whether it came online. *)
Definition start_one (lapic_base apic : Z) (i : nat) : hwo machine bool :=
  modify (fun m => with_cpus m (alter (set_ids (Z.of_nat i) apic) i (PER_CPU m)));;
  modify (fun m => with_index m i);;
  modify (fun m => with_scratch m (wrap 32 kernel_cr3, stack_top i, ap_entry_addr));;
  wake_up lapic_base apic i;;
  wait_online (Z.to_nat 10000) i.
Fixpoint start_cores (lapic_base bsp_apic_id : Z) (l : list Acpi.CpuCore) (i : nat) (count : Z) : hwo machine Z :=
  match l with
  | [] => mret count
  | c :: l' =>
      if (negb (Acpi.is_enabled c) || (Acpi.apic_id c =? bsp_apic_id))%bool then start_cores lapic_base bsp_apic_id l' i count
      else if Nat.leb MAX_CPUS i then mret count
      else b ← start_one lapic_base (Acpi.apic_id c) i;
           start_cores lapic_base bsp_apic_id l' (S i) (if (b : bool) then count + 1 else count)
  end.

(** What the last line of [init] reports. *)
Inductive report := NotNeeded | BspOnly | Woken (total ap_count online_count : Z).

Definition to_wake (bsp_apic_id : Z) (l : list Acpi.CpuCore) : list Acpi.CpuCore := List.filter (fun c => Acpi.is_enabled c && negb (Acpi.apic_id c =? bsp_apic_id))%bool l.
Definition init (acpi : Acpi.AcpiInfo) (bsp_apic_id : Z) : hwo machine report :=
  modify (fun m => with_online (with_cpus m (alter (fun p => set_online (set_ids 0 bsp_apic_id p)) O (PER_CPU m))) 1);;
  modify (fun m => with_msrs m (Descriptors.wrmsr (bsp_msrs m) MSR_GS_BASE (block_at 0)));;
  if (negb (Acpi.is_initialized acpi) || Nat.leb (length (Acpi.cores acpi)) 1)%bool then mret NotNeeded else
  let ap_count := Z.of_nat (length (to_wake bsp_apic_id (Acpi.cores acpi))) in
  if ap_count =? 0 then mret BspOnly else
  copy_trampoline;;
  n ← start_cores (Acpi.lapic_addr acpi) bsp_apic_id (Acpi.cores acpi) 1 0;
  total ← fetch cpu_count;
  mret (Woken total ap_count n).

(** ** The invariant
    While processor [k] (counted from 0; it becomes CPU [k+1]) is being woken, the ones
    before it are up, the ones after it wait for INIT.  [stage] says how far the boot
    processor is: 1 the block is named, 2 the index is stored, 3 the scratch words are
    stored, 4 the interrupts go to processor [k], 5 the start-up interrupt was sent. *)
Definition is_up (c : ap_pc) : bool := match c with Online _ | Counted _ | Idle _ => true | _ => false end.
Definition counted (c : ap_pc) : bool := match c with Counted _ | Idle _ => true | _ => false end.
Definition entered (c : ap_pc) : bool := match c with Halted | WaitSipi | Lost | Trampoline => false | _ => true end.
Definition ready (c : ap_pc) : bool := match c with Prepared _ => true | c => is_up c end.
Definition own (i : nat) (c : ap_pc) : Prop := match c with Lost => False | Indexed x | Prepared x | Online x | Counted x | Idle x => x = i | _ => True end.
Definition asleep (c : ap_pc) : Prop := c = Halted \/ c = WaitSipi.

Fixpoint ncounted (l : list (ap H)) : Z := match l with [] => 0 | a :: l' => Z.b2z (counted (pc a)) + ncounted l' end.

(** A processor and its block. *)
Record good (j : nat) (a : ap H) (p : PerCpu) : Prop := {
  g_own : own (S j) (pc a);
  g_online : online p = is_up (pc a);
  g_stack : entered (pc a) = true -> ap_rsp a = stack_top (S j) /\ ap_cr3 a = wrap 32 kernel_cr3;
  g_ready : ready (pc a) = true -> Descriptors.rsp0 (tss p) = stack_top (S j) /\ Descriptors.rdmsr (ap_msrs a) MSR_GS_BASE = block_at (S j)
}.
Record phase (k stage j : nat) (a : ap H) (p : PerCpu) : Prop := {
  ph_after : (k < j)%nat -> pc a = Halted;
  ph_before : (j < k)%nat -> is_up (pc a) = true;
  ph_now : j = k -> (stage < 5)%nat -> asleep (pc a) /\ ((stage < 4)%nat -> pc a = Halted);
  ph_ids : (j < k)%nat \/ (j = k /\ 1 <= stage)%nat -> cpu_id p = Z.of_nat (S j) /\ apic_id p = lapic_id (lapic a)
}.
Record inv (ids : list Z) (bsp : Z) (k stage : nat) (m : machine) : Prop := {
  i_cpus : length (PER_CPU m) = MAX_CPUS;
  i_scheds : length (schedulers m) = MAX_CPUS;
  i_ids : (fun a => lapic_id (lapic a)) <$> aps m = ids;
  i_aps : forall j a, aps m !! j = Some a -> exists p, PER_CPU m !! S j = Some p /\ good j a p /\ phase k stage j a p;
  i_bsp : exists p, PER_CPU m !! O = Some p /\ online p = true /\ apic_id p = bsp;
  i_index : (2 <= stage)%nat -> AP_CPU_INDEX m = S k;
  i_scratch : (3 <= stage)%nat -> scratch m = (wrap 32 kernel_cr3, stack_top (S k), ap_entry_addr);
  i_icr : (4 <= stage)%nat -> ids !! k = Some (Z.shiftr (icr_high m) 24);
  i_page : take (length stub) (low_page m) = stub;
  i_count : ONLINE_CPUS m = 1 + ncounted (aps m)
}.

Lemma ncounted_insert l j a a' : l !! j = Some a -> ncounted (<[j := a']> l) = ncounted l - Z.b2z (counted (pc a)) + Z.b2z (counted (pc a')).
Proof.
  revert j. induction l as [|b l IH]; intros [|j] Hj; [done|done| |].
  - injection Hj as ->. cbn [insert list_insert ncounted]. lia.
  - change (<[S j := a']> (b :: l)) with (b :: <[j := a']> l). cbn [ncounted]. rewrite (IH j Hj). lia.
Qed.

Lemma ncounted_bounds l : 0 <= ncounted l <= Z.of_nat (length l).
Proof. induction l as [|a l IH]; [done|]. cbn [ncounted length]. destruct (counted (pc a)); cbn [Z.b2z]; lia. Qed.

(** Processor [j] and its block change, as the invariant allows, and nothing else. *)
Lemma inv_ap_step ids bsp k stage m m' j a a' p p' : inv ids bsp k stage m -> aps m !! j = Some a -> PER_CPU m !! S j = Some p ->
  aps m' = <[j := a']> (aps m) -> PER_CPU m' = <[S j := p']> (PER_CPU m) -> length (schedulers m') = MAX_CPUS ->
  AP_CPU_INDEX m' = AP_CPU_INDEX m -> scratch m' = scratch m -> icr_high m' = icr_high m -> low_page m' = low_page m ->
  ONLINE_CPUS m' = ONLINE_CPUS m - Z.b2z (counted (pc a)) + Z.b2z (counted (pc a')) ->
  lapic_id (lapic a') = lapic_id (lapic a) -> good j a' p' -> phase k stage j a' p' -> inv ids bsp k stage m'.
Proof.
  intros I Ha Hp Eaps Ecpus Esch Eidx Escr Eicr Epage Ecnt Eid Hg Hph. destruct I as [I1 I2 I3 I4 I5 I6 I7 I8 I9 I10].
  constructor; rewrite ?Ecpus, ?Eaps, ?Eidx, ?Escr, ?Eicr, ?Epage; try done.
  - by rewrite length_insert.
  - rewrite list_fmap_insert, Eid, <- I3. apply list_insert_id. by rewrite list_lookup_fmap, Ha.
  - intros j0 a0 Hj0. destruct (decide (j0 = j)) as [->|Hne].
    + rewrite list_lookup_insert_eq in Hj0 by (by apply lookup_lt_Some in Ha). injection Hj0 as <-. exists p'. split; [|by split].
      apply list_lookup_insert_eq. by apply lookup_lt_Some in Hp.
    + rewrite list_lookup_insert_ne in Hj0 by done. destruct (I4 j0 a0 Hj0) as (p0 & Hp0 & Hr). exists p0. split; [|done].
      rewrite list_lookup_insert_ne by congruence. done.
  - destruct I5 as (p0 & Hp0 & Hr). exists p0. split; [|done]. by rewrite list_lookup_insert_ne.
  - rewrite Ecnt, I10, (ncounted_insert _ _ _ _ Ha). lia.
Qed.

(** The linker puts the blocks below 2^63. *)
Definition blocks_placed : Prop := 0 <= per_cpu_base < 2 ^ 63.

Lemma block_at_u64 i : blocks_placed -> (i < MAX_CPUS)%nat -> in_u 64 (block_at i).
Proof. unfold blocks_placed, MAX_CPUS, in_u, block_at, PER_CPU_SIZE. lia. Qed.

Lemma ap_lapic_id h : lapic_id (snd (ap_lapic h)) = lapic_id h.
Proof.
  unfold ap_lapic, Apic.mmio_read, Apic.mmio_write, mbind, hw_bind. destruct (read_volatile h (0xFEE00000 + 0xF0)) as [v h'] eqn:E. cbn [snd].
  rewrite !lapic_id_writes. change h' with (snd (v, h')). rewrite <- E. apply lapic_id_reads.
Qed.

Lemma init_timer_id v n h : lapic_id (snd (Apic.init_timer v n h)) = lapic_id h.
Proof. unfold Apic.init_timer, Apic.mmio_write, mbind, hw_bind. cbn [snd]. by rewrite !lapic_id_writes. Qed.

Lemma init_on_cpu_gs r e : Descriptors.rdmsr (Descriptors.init_on_cpu r e) MSR_GS_BASE = Descriptors.rdmsr r MSR_GS_BASE.
Proof. unfold Descriptors.init_on_cpu. cbv zeta. by rewrite !Descriptors.rdmsr_other. Qed.

(** Preparing the block: tables, registers and run queue of the processor. *)
Lemma prepare_inv ids bsp k stage m j a p : blocks_placed -> inv ids bsp k stage m -> aps m !! j = Some a -> PER_CPU m !! S j = Some p ->
  good j a p -> phase k stage j a p -> pc a = Indexed (S j) -> inv ids bsp k stage (prepare m j a (S j)).
Proof.
  intros Hpl I Ha Hp Hg Hph Epc. unfold prepare. rewrite Hp. pose proof (lookup_lt_Some _ _ _ Hp) as Hlt.
  destruct (lookup_lt_is_Some_2 (schedulers m) (S j)) as [s Hs]; [rewrite (i_scheds _ _ _ _ _ I), <- (i_cpus _ _ _ _ _ I); done|]. rewrite Hs.
  destruct (init_block (S j) p (ap_msrs a)) as [p' r] eqn:E. unfold init_block in E.
  destruct (Descriptors.init_cpu_state _ _ _ _ _ _) as [[g t] ptr] eqn:Et. injection E as <- <-.
  assert (Ht : Descriptors.rsp0 t = stack_top (S j)).
  { unfold Descriptors.init_cpu_state in Et. destruct (Descriptors.encode_tss_descriptor _ _) as [lo hi]. by injection Et as _ <- _. }
  destruct Hg as [G1 G2 G3 G4]. rewrite Epc in *.
  eapply (inv_ap_step _ _ _ _ m _ j a _ p); [exact I|exact Ha|exact Hp|reflexivity|reflexivity| | | | | | | | |]; try reflexivity.
  - cbn. rewrite length_insert. apply I.
  - cbn. rewrite Epc. cbn. lia.
  - cbn [lapic]. apply ap_lapic_id.
  - constructor; cbn [pc ap_rsp ap_cr3 ap_msrs own is_up entered ready set_tables online tss]; [done|done|intros _; by apply G3|intros _]. split; [done|].
    rewrite init_on_cpu_gs. apply Descriptors.rdmsr_wrmsr, block_at_u64; [done|]. by rewrite <- (i_cpus _ _ _ _ _ I).
  - destruct Hph as [P1 P2 P3 P4]. constructor; cbn [pc lapic set_tables cpu_id apic_id is_up]; rewrite ?ap_lapic_id, ?Epc in *; try done.
    + intros Hk. specialize (P1 Hk). done.
    + intros Hk Hst. destruct (P3 Hk Hst) as [[?|?] _]; done.
Qed.

(** Only the processor changes. *)
Lemma inv_ap ids bsp k stage m j a a' p : inv ids bsp k stage m -> aps m !! j = Some a -> PER_CPU m !! S j = Some p ->
  counted (pc a') = counted (pc a) -> lapic_id (lapic a') = lapic_id (lapic a) -> good j a' p -> phase k stage j a' p -> inv ids bsp k stage (put_ap m j a').
Proof.
  intros I Ha Hp Hc Hid Hg Hph. eapply (inv_ap_step _ _ _ _ m _ j a a' p p); [exact I|exact Ha|exact Hp|reflexivity|cbn; by rewrite list_insert_id|by apply I| | | | | |done|done|done]; try reflexivity.
  cbn. rewrite Hc. lia.
Qed.

(** Of the processors that are not up only the current one runs, after its start-up interrupt. *)
Lemma phase_running k stage j a p : phase k stage j a p -> pc a <> Halted -> pc a <> WaitSipi -> is_up (pc a) = false -> j = k /\ (5 <= stage)%nat.
Proof.
  intros [P1 P2 P3 P4] H1 H2 H3. destruct (decide (j = k)) as [->|Hne].
  - split; [done|]. destruct (decide (5 <= stage)%nat); [done|]. destruct (P3 eq_refl ltac:(lia)) as [[?|?] _]; congruence.
  - exfalso. destruct (decide (k < j)%nat) as [Hlt|Hlt]; [by apply H1, P1|]. rewrite (P2 ltac:(lia)) in H3. done.
Qed.

(** A processor that runs stays in its phase when it goes on. *)
Lemma phase_go k stage j a a' p p' : phase k stage j a p -> pc a <> Halted -> pc a <> WaitSipi -> (is_up (pc a) = true -> is_up (pc a') = true) ->
  lapic_id (lapic a') = lapic_id (lapic a) -> cpu_id p' = cpu_id p -> apic_id p' = apic_id p -> phase k stage j a' p'.
Proof.
  intros [P1 P2 P3 P4] H1 H2 Hup Hid Hc Ha. constructor; rewrite ?Hid, ?Hc, ?Ha.
  - intros Hk. by destruct (H1 (P1 Hk)).
  - intros Hk. by apply Hup, P2.
  - intros Hk Hst. destruct (P3 Hk Hst) as [[?|?] _]; congruence.
  - done.
Qed.

Lemma aps_bound ids bsp k stage m : inv ids bsp k stage m -> (length (aps m) < MAX_CPUS)%nat.
Proof.
  intros I. destruct (decide (length (aps m) < MAX_CPUS)%nat); [done|exfalso]. unfold MAX_CPUS in *. destruct (lookup_lt_is_Some_2 (aps m) 7 ltac:(lia)) as [b Hb].
  destruct (i_aps _ _ _ _ _ I 7 b Hb) as (p & Hp & _). apply lookup_lt_Some in Hp. rewrite (i_cpus _ _ _ _ _ I) in Hp. unfold MAX_CPUS in Hp. lia.
Qed.

Lemma ap_entry_inv ids bsp k stage m j : blocks_placed -> inv ids bsp k stage m -> inv ids bsp k stage (ap_entry j m).
Proof.
  intros Hpl I. unfold ap_entry. destruct (aps m !! j) as [a|] eqn:Ha; [|done]. destruct (i_aps _ _ _ _ _ I j a Ha) as (p & Hp & Hg & Hph).
  pose proof Hg as [G1 G2 G3 G4]. pose proof (phase_running _ _ _ _ _ Hph) as Hrun.
  assert (Hgo : pc a <> Halted -> pc a <> WaitSipi -> forall a', (is_up (pc a) = true -> is_up (pc a') = true) -> lapic_id (lapic a') = lapic_id (lapic a) -> phase k stage j a' p)
    by (intros; by apply (phase_go _ _ _ a _ p)).
  destruct (pc a) as [| | | | |i|i|i|i|i] eqn:Epc; try done; cbn [own] in G1; subst.
  - destruct (Hrun ltac:(done) ltac:(done) eq_refl) as [-> Hst]. rewrite (i_scratch _ _ _ _ _ I ltac:(lia)), Z.eqb_refl.
    apply (inv_ap _ _ _ _ _ _ a _ p); [done|done|done|by rewrite Epc|done|by constructor|by apply Hgo].
  - destruct (Hrun ltac:(done) ltac:(done) eq_refl) as [-> Hst]. rewrite (i_index _ _ _ _ _ I ltac:(lia)).
    apply (inv_ap _ _ _ _ _ _ a _ p); [done|done|done|by rewrite Epc|done|by constructor|by apply Hgo].
  - by apply (prepare_inv _ _ _ _ _ _ _ p).
  - eapply (inv_ap_step _ _ _ _ m _ j a _ p (set_online p)); [exact I|exact Ha|exact Hp|reflexivity| |by apply I| | | | | | | |]; try reflexivity.
    + cbn. apply list_eq. intros i0. destruct (decide (i0 = S j)) as [->|Hne].
      * rewrite list_lookup_alter_eq, Hp, list_lookup_insert_eq by (by apply lookup_lt_Some in Hp). done.
      * by rewrite list_lookup_alter_ne, list_lookup_insert_ne by done.
    + cbn. rewrite Epc. cbn. lia.
    + by constructor.
    + apply (phase_go _ _ _ a _ p); [done|by rewrite Epc..|done|done|done].
  - pose proof (ncounted_bounds (aps m)) as Hb. pose proof (i_count _ _ _ _ _ I) as Hc. pose proof (aps_bound _ _ _ _ _ I) as Hl. unfold MAX_CPUS in Hl.
    eapply (inv_ap_step _ _ _ _ m _ j a _ p p); [exact I|exact Ha|exact Hp|reflexivity|cbn; by rewrite list_insert_id|by apply I| | | | | | | |]; try reflexivity.
    + cbn. rewrite Epc. cbn. unfold wrap. rewrite Z.mod_small by lia. lia.
    + by constructor.
    + by apply Hgo.
  - destruct (SMP_STARTED m); [|done].
    apply (inv_ap _ _ _ _ _ _ a _ p); [done|done|done|by rewrite Epc|apply init_timer_id|by constructor|apply Hgo; [done|done|done|apply init_timer_id]].
Qed.

Lemma run_aps_inv ids bsp k stage l m : blocks_placed -> inv ids bsp k stage m -> inv ids bsp k stage (run_aps l m).
Proof. intros Hpl. revert m. induction l as [|j l IH]; intros m I; [done|]. cbn [run_aps fold_left]. apply IH. by apply ap_entry_inv. Qed.

(** ** The boot processor *)
Definition triple {A} (P : machine -> Prop) (c : hwo machine A) (Q : A -> machine -> Prop) : Prop := forall m, P m -> exists x m', c m = Ret (x, m') /\ Q x m'.

Lemma triple_ret {A} (P : machine -> Prop) (x : A) : triple P (mret x) (fun y m => y = x /\ P m).
Proof. intros m Hm. by exists x, m. Qed.
Lemma triple_skip {A} (P : machine -> Prop) (x : A) : triple P (mret x) (fun _ => P).
Proof. intros m Hm. by exists x, m. Qed.
Lemma triple_bind {A B} P (c : hwo machine A) (Q : A -> machine -> Prop) (f : A -> hwo machine B) R : triple P c Q -> (forall x, triple (Q x) (f x) R) -> triple P (c ≫= f) R.
Proof. intros Hc Hf m Hm. destruct (Hc m Hm) as (x & m1 & E & H1). destruct (Hf x m1 H1) as (y & m2 & E2 & H2). exists y, m2. split; [|done]. unfold mbind, hwo_bind. by rewrite E. Qed.
Lemma triple_weaken {A} P P' (c : hwo machine A) (Q Q' : A -> machine -> Prop) : triple P c Q -> (forall m, P' m -> P m) -> (forall x m, Q x m -> Q' x m) -> triple P' c Q'.
Proof. intros Hc HP HQ m Hm. destruct (Hc m (HP m Hm)) as (x & m' & E & Hx). exists x, m'. eauto. Qed.

(** Properties no other processor and no oracle can change. *)
Definition stable (P : machine -> Prop) : Prop := (forall l m, P m -> P (run_aps l m)) /\ (forall s b m, P m -> P (with_schedule m s b)).

Lemma stable_weak (A B : Prop) P : stable P -> stable (fun m => A /\ (B -> P m)).
Proof. intros [S1 S2]. split; [intros l m [? Hm]; split; [done|intros; by apply S1, Hm]|intros s b m [? Hm]; split; [done|intros; by apply S2, Hm]]. Qed.

Lemma triple_others P : stable P -> triple P others (fun _ => P).
Proof.
  intros [S1 S2] m Hm. unfold others. destruct (schedule m) as [|l s]; [by exists tt, m|]. exists tt, (run_aps l (with_schedule m s (busy m))). split; [done|]. by apply S1, S2.
Qed.
Lemma triple_modify P f (Q : machine -> Prop) : stable P -> (forall m, P m -> Q (f m)) -> triple P (modify f) (fun _ => Q).
Proof. intros HS Hf. apply (triple_bind _ _ (fun _ => P)); [by apply triple_others|]. intros _ m Hm. exists tt, (f m). split; [done|by apply Hf]. Qed.
Lemma triple_fetch {A} P (f : machine -> A) : stable P -> triple P (fetch f) (fun x m => x = f m /\ P m).
Proof. intros HS. apply (triple_bind _ _ (fun _ => P)); [by apply triple_others|]. intros _ m Hm. by exists (f m), m. Qed.

Lemma triple_wait P : stable P -> triple P wait_ipi_delivery (fun _ => P).
Proof.
  intros HS. unfold wait_ipi_delivery. induction (Z.to_nat 100000) as [|n IH]; cbn [wait_delivery]; [apply triple_skip|].
  apply (triple_bind _ _ (fun _ => P)).
  - apply (triple_bind _ _ (fun _ => P)); [by apply triple_others|]. intros _ m Hm. unfold dev. destruct (busy m) as [|b l]; [by eexists _, _|].
    eexists _, _. split; [reflexivity|]. by apply HS.
  - intros status. destruct (_ =? 0); [apply triple_skip|done].
Qed.

Lemma inv_stable ids bsp k stage : blocks_placed -> stable (inv ids bsp k stage).
Proof. intros Hpl. split; [intros l m Hm; by apply run_aps_inv|]. intros s b m [I1 I2 I3 I4 I5 I6 I7 I8 I9 I10]. by constructor. Qed.

Section Boot.
Context (ids : list Z) (bsp : Z) (Hplaced : blocks_placed) (Hnodup : NoDup ids) (Hu8 : Forall (in_u 8) ids) (Hphys : in_u 32 lapic_phys).

Lemma inv_named k m id : inv ids bsp k 0 m -> ids !! k = Some id -> inv ids bsp k 1 (with_cpus m (alter (set_ids (Z.of_nat (S k)) id) (S k) (PER_CPU m))).
Proof.
  intros [I1 I2 I3 I4 I5 I6 I7 I8 I9 I10] Hid. constructor; cbn; try done; try lia.
  - by rewrite length_alter.
  - intros j a Ha. destruct (I4 j a Ha) as (p & Hp & [G1 G2 G3 G4] & [P1 P2 P3 P4]). destruct (decide (j = k)) as [->|Hne].
    + exists (set_ids (Z.of_nat (S k)) id p). split; [by rewrite list_lookup_alter_eq, Hp|]. split; [by constructor|]. constructor; [done|done|intros _ _; destruct (P3 eq_refl ltac:(lia)) as [Q1 Q2]; split; [done|intros _; apply Q2; lia]|].
      intros _. split; [done|]. rewrite <- I3, list_lookup_fmap, Ha in Hid. by injection Hid as <-.
    + exists p. split; [by rewrite list_lookup_alter_ne by congruence|]. split; [by constructor|]. constructor; [done|done|by intros ->|]. intros [Hk|[? _]]; [|done]. apply P4. by left.
  - destruct I5 as (p & Hp & Hr). exists p. by rewrite list_lookup_alter_ne.
Qed.

(** A later stage asks less of the current processor. *)
Lemma phase_stage k st st' j a p : (1 <= st <= st')%nat -> (st' < 4 \/ 4 <= st)%nat -> phase k st j a p -> phase k st' j a p.
Proof.
  intros Hst Hc [P1 P2 P3 P4]. constructor; [done|done| |intros [?|[? ?]]; apply P4; [by left|right; split; [done|lia]]].
  intros Hk H5. destruct (P3 Hk ltac:(lia)) as [Q1 Q2]. split; [done|]. intros H4. apply Q2. lia.
Qed.

Lemma inv_indexed k m : inv ids bsp k 1 m -> inv ids bsp k 2 (with_index m (S k)).
Proof.
  intros [I1 I2 I3 I4 I5 I6 I7 I8 I9 I10]. constructor; cbn; try done; try lia.
  intros j a Ha. destruct (I4 j a Ha) as (p & Hp & Hg & Hph). exists p. split; [done|]. split; [done|]. apply (phase_stage _ 1); [lia|lia|done].
Qed.

Lemma inv_scratch k m : inv ids bsp k 2 m -> inv ids bsp k 3 (with_scratch m (wrap 32 kernel_cr3, stack_top (S k), ap_entry_addr)).
Proof.
  intros [I1 I2 I3 I4 I5 I6 I7 I8 I9 I10]. constructor; cbn; try done; try lia.
  intros j a Ha. destruct (I4 j a Ha) as (p & Hp & Hg & Hph). exists p. split; [done|]. split; [done|]. apply (phase_stage _ 2); [lia|lia|done].
Qed.

Lemma inv_addressed k st m id : (3 <= st)%nat -> inv ids bsp k st m -> ids !! k = Some id ->
  inv ids bsp k (Nat.max 4 st) (write_lapic (u64_add lapic_phys 0x310) (wrap 32 (Z.shiftl id 24)) m).
Proof.
  intros Hst [I1 I2 I3 I4 I5 I6 I7 I8 I9 I10] Hid. unfold write_lapic. rewrite u64_add_small by (unfold in_u in Hphys; lia). rewrite Z.eqb_refl.
  assert (Hu : in_u 8 id) by (by apply (Forall_lookup_1 _ _ _ _ Hu8 Hid)).
  constructor; cbn; try done; try (intros; apply I6 || apply I7; lia).
  - intros j a Ha. destruct (I4 j a Ha) as (p & Hp & Hg & [P1 P2 P3 P4]). exists p. split; [done|]. split; [done|].
    constructor; [done|done| |intros [?|[? ?]]; apply P4; [by left|right; split; [done|lia]]]. intros Hk H5. destruct (P3 Hk ltac:(lia)) as [Q1 Q2]. split; [done|lia].
  - intros _. rewrite Hid. f_equal. rewrite wrap_small.
    + rewrite Z.shiftr_shiftl_l by lia. by rewrite Z.shiftl_0_r.
    + rewrite Z.shiftl_mul_pow2 by lia. unfold in_u in *. lia.
Qed.

(** A command reaches the processor it is addressed to and no other. *)
Lemma inv_command k st m v : (4 <= st)%nat -> inv ids bsp k st m ->
  (forall a p, aps m !! k = Some a -> good k a p -> phase k st k a p -> good k (receive m v a) p /\ phase k st k (receive m v a) p /\ counted (pc (receive m v a)) = counted (pc a) /\ lapic (receive m v a) = lapic a) ->
  inv ids bsp k st (write_lapic (u64_add lapic_phys 0x300) v m).
Proof.
  intros Hst I Hk. unfold write_lapic. rewrite u64_add_small by (unfold in_u in Hphys; lia).
  rewrite (proj2 (Z.eqb_neq (lapic_phys + 0x300) (lapic_phys + 0x310))) by lia. rewrite Z.eqb_refl.
  pose proof (i_icr _ _ _ _ _ I Hst) as Hdest. pose proof (i_ids _ _ _ _ _ I) as Hids.
  destruct (lookup_lt_is_Some_2 (aps m) k) as [a Ha]. { apply lookup_lt_Some in Hdest. by rewrite <- Hids, length_fmap in Hdest. }
  destruct (i_aps _ _ _ _ _ I k a Ha) as (p & Hp & Hg & Hph). destruct (Hk a p Ha Hg Hph) as (Hg' & Hph' & Hc & Hl).
  assert (E : receive m v <$> aps m = <[k := receive m v a]> (aps m)).
  { apply list_eq. intros j. rewrite list_lookup_fmap. destruct (decide (j = k)) as [->|Hne].
    - rewrite Ha, list_lookup_insert_eq by (by apply lookup_lt_Some in Ha). done.
    - rewrite list_lookup_insert_ne by done. destruct (aps m !! j) as [b|] eqn:Hb; [|done]. cbn [fmap option_fmap option_map]. f_equal. unfold receive.
      rewrite (proj2 (Z.eqb_neq _ _)); [done|]. intros Heq. apply Hne. apply (NoDup_lookup ids _ _ (Z.shiftr (icr_high m) 24) Hnodup); [|done].
      by rewrite <- Hids, list_lookup_fmap, Hb, <- Heq. }
  eapply (inv_ap_step _ _ _ _ m _ k a _ p p); [exact I|exact Ha|exact Hp|exact E|cbn; by rewrite list_insert_id|by apply I| | | | | |by rewrite Hl|done|done]; try reflexivity.
  cbn. rewrite Hc. lia.
Qed.

Lemma inv_init_ipi k m : inv ids bsp k 4 m -> inv ids bsp k 4 (write_lapic (u64_add lapic_phys 0x300) 0xC500 m).
Proof.
  intros I. apply inv_command; [lia|done|]. intros a p Ha [G1 G2 G3 G4] [P1 P2 P3 P4]. destruct (P3 eq_refl ltac:(lia)) as [Hs _].
  unfold receive. destruct (negb _); [split; [by constructor|by split; [constructor|]]|]. change (Z.land (Z.shiftr 0xC500 8) 7 =? 5) with true. change (Z.testbit 0xC500 14) with true. cbv iota.
  split; [|split; [|split; [by destruct Hs as [-> | ->]|done]]].
  - constructor; cbn; [done|by rewrite G2; destruct Hs as [-> | ->]|done|done].
  - constructor; cbn; [lia|lia| |done]. intros _ _. split; [by right|lia].
Qed.

Lemma inv_deassert k m : inv ids bsp k 4 m -> inv ids bsp k 4 (write_lapic (u64_add lapic_phys 0x300) 0x8500 m).
Proof.
  intros I. apply inv_command; [lia|done|]. intros a p Ha Hg Hph. assert (E : receive m 0x8500 a = a) by (unfold receive; destruct (negb _); done). by rewrite E.
Qed.

Lemma inv_sipi k m : inv ids bsp k 5 m -> inv ids bsp k 5 (write_lapic (u64_add lapic_phys 0x300) (Z.lor 0x600 (wrap 8 (Z.shiftr TRAMPOLINE_BASE 12))) m).
Proof.
  intros I. change (Z.lor 0x600 (wrap 8 (Z.shiftr TRAMPOLINE_BASE 12))) with 0x608. apply inv_command; [lia|done|]. intros a p Ha [G1 G2 G3 G4] [P1 P2 P3 P4].
  unfold receive. destruct (negb _); [split; [by constructor|by split; [constructor|]]|]. change (Z.land (Z.shiftr 0x608 8) 7 =? 5) with false. change (Z.land (Z.shiftr 0x608 8) 7 =? 6) with true. cbv iota.
  destruct (pc a) eqn:Epc; try (split; [by constructor; rewrite Epc|split; [by constructor; rewrite ?Epc|by rewrite Epc]]).
  change (Z.shiftl (Z.land 0x608 0xFF) 12 =? TRAMPOLINE_BASE) with true. rewrite (bool_decide_eq_true_2 _ (i_page _ _ _ _ _ I)). cbn [andb].
  split; [by constructor|]. split; [|done]. constructor; cbn; [lia|lia|lia|done].
Qed.

Definition up (k : nat) (m : machine) : Prop := exists a, aps m !! k = Some a /\ is_up (pc a) = true.

Lemma triple_send k st st' id v : (3 <= st)%nat -> ids !! k = Some id ->
  (forall m, inv ids bsp k (Nat.max 4 st) m -> inv ids bsp k st' (write_lapic (u64_add lapic_phys 0x300) v m)) ->
  triple (inv ids bsp k st) (send_ipi lapic_phys id v) (fun _ => inv ids bsp k st').
Proof.
  intros Hst Hid Hv. unfold send_ipi. eapply triple_bind.
  - apply (triple_modify _ _ (inv ids bsp k (Nat.max 4 st))); [by apply inv_stable|]. intros m I. by apply inv_addressed.
  - intros []. by apply triple_modify; [apply inv_stable|].
Qed.

Lemma inv_sent k m : inv ids bsp k 4 m -> inv ids bsp k 5 m.
Proof.
  intros [I1 I2 I3 I4 I5 I6 I7 I8 I9 I10]. constructor; try done; [|intros; apply I6; lia|intros; apply I7; lia|intros; apply I8; lia].
  intros j a Ha. destruct (I4 j a Ha) as (p & Hp & Hg & Hph). exists p. split; [done|]. split; [done|]. apply (phase_stage _ 4); [lia|lia|done].
Qed.

Lemma inv_up k m p : inv ids bsp k 5 m -> (k < length ids)%nat -> PER_CPU m !! S k = Some p -> online p = true -> up k m.
Proof.
  intros I Hk Hp Ho. destruct (lookup_lt_is_Some_2 (aps m) k) as [a Ha]; [by rewrite <- (i_ids _ _ _ _ _ I), length_fmap in Hk|].
  destruct (i_aps _ _ _ _ _ I k a Ha) as (p' & Hp' & Hg & _). exists a. split; [done|]. rewrite <- (g_online _ _ _ Hg). congruence.
Qed.

Lemma triple_poll k : (k < length ids)%nat -> triple (inv ids bsp k 5) (poll_online (S k)) (fun b m => inv ids bsp k 5 m /\ (b = true -> up k m)).
Proof.
  intros Hk. unfold poll_online. eapply triple_bind; [apply triple_fetch, inv_stable, Hplaced|]. intros o m [Ho I]. rewrite Ho.
  destruct (PER_CPU m !! S k) as [p|] eqn:Hp; [|exfalso].
  - exists (is_online p), m. split; [done|]. split; [done|]. intros Hon. by apply (inv_up k m p).
  - destruct (lookup_lt_is_Some_2 (aps m) k) as [a Ha]; [by rewrite <- (i_ids _ _ _ _ _ I), length_fmap in Hk|].
    destruct (i_aps _ _ _ _ _ I k a Ha) as (p & Hp' & _). congruence.
Qed.

Lemma triple_wake_up k id : ids !! k = Some id -> triple (inv ids bsp k 3) (wake_up lapic_phys id (S k)) (fun _ => inv ids bsp k 5).
Proof.
  intros Hid. pose proof (fun st => inv_stable ids bsp k st Hplaced) as HS. assert (Hk : (k < length ids)%nat) by (by apply lookup_lt_Some in Hid). unfold wake_up. cbv zeta.
  eapply triple_bind; [apply (triple_send k 3 4); [lia|done|apply inv_init_ipi]|]. intros []. eapply triple_bind; [by apply triple_wait|]. intros []. eapply triple_bind; [by apply triple_others|]. intros [].
  eapply triple_bind; [apply (triple_send k 4 4); [lia|done|apply inv_deassert]|]. intros []. eapply triple_bind; [by apply triple_wait|]. intros []. eapply triple_bind; [by apply triple_others|]. intros [].
  eapply triple_bind; [apply (triple_send k 4 5); [lia|done|]; intros m I; by apply inv_sipi, inv_sent|]. intros []. eapply triple_bind; [by apply triple_wait|]. intros []. eapply triple_bind; [by apply triple_others|]. intros [].
  eapply triple_bind; [by apply triple_poll|]. intros b. eapply (triple_weaken (inv ids bsp k 5)); [|by intros m [? _]|by intros x m Hm; exact Hm]. destruct b; [apply triple_skip|].
  eapply triple_bind; [apply (triple_send k 5 5); [lia|done|]; intros m I; by apply inv_sipi|]. intros []. by apply triple_wait.
Qed.

Lemma triple_wait_online n k : (k < length ids)%nat -> triple (inv ids bsp k 5) (wait_online n (S k)) (fun b m => inv ids bsp k 5 m /\ (b = true -> up k m)).
Proof.
  intros Hk. induction n as [|n IH]; cbn [wait_online].
  - intros m I. exists false, m. split; [done|]. by split.
  - eapply triple_bind; [by apply triple_poll|]. intros [|].
    + intros m [I Hu]. exists true, m. split; [done|]. split; [done|]. intros ?. by apply Hu.
    + eapply triple_bind; [eapply triple_weaken; [apply triple_others, (inv_stable ids bsp k 5), Hplaced|by intros m [? _]|by intros x m Hm; exact Hm]|]. intros []. exact IH.
Qed.

Lemma inv_next k m : inv ids bsp k 5 m -> up k m -> inv ids bsp (S k) 0 m.
Proof.
  intros [I1 I2 I3 I4 I5 I6 I7 I8 I9 I10] (b & Hb & Hup). constructor; try done; try lia.
  intros j a Ha. destruct (I4 j a Ha) as (p & Hp & Hg & [P1 P2 P3 P4]). exists p. split; [done|]. split; [done|]. constructor.
  - intros Hj. apply P1. lia.
  - intros Hj. destruct (decide (j = k)) as [->|]; [|apply P2; lia]. congruence.
  - intros -> _. assert (Hh : pc a = Halted) by (apply P1; lia). split; [by left|done].
  - intros [Hj|[_ ?]]; [|lia]. apply P4. destruct (decide (j = k)); [right; split; [done|lia]|left; lia].
Qed.

Lemma triple_start_one k id : ids !! k = Some id -> triple (inv ids bsp k 0) (start_one lapic_phys id (S k)) (fun b m => length (PER_CPU m) = MAX_CPUS /\ (b = true -> inv ids bsp (S k) 0 m)).
Proof.
  intros Hid. pose proof (fun st => inv_stable ids bsp k st Hplaced) as HS. unfold start_one.
  eapply triple_bind; [apply triple_modify; [by apply HS|]; intros m I; by apply inv_named|]. intros [].
  eapply triple_bind; [apply triple_modify; [by apply HS|]; intros m I; by apply inv_indexed|]. intros [].
  eapply triple_bind; [apply triple_modify; [by apply HS|]; intros m I; by apply inv_scratch|]. intros [].
  eapply triple_bind; [by apply triple_wake_up|]. intros []. eapply triple_weaken; [apply triple_wait_online; by apply lookup_lt_Some in Hid|done|].
  intros b m [I Hu]. split; [apply I|]. intros ->. apply inv_next; [done|by apply Hu].
Qed.

(** ** Whatever the others do, the loop goes through its list *)
Definition lens (m : machine) : Prop := length (PER_CPU m) = MAX_CPUS.

Lemma ap_entry_lens j m : lens m -> lens (ap_entry j m).
Proof.
  unfold lens. intros Hm. unfold ap_entry. destruct (aps m !! j) as [a|]; [|done]. destruct (pc a) as [| | | | |i|i|i|i|i]; try done.
  - by destruct (scratch m) as [[cr3 rsp] entry].
  - unfold prepare. destruct (PER_CPU m !! i) as [p|]; [|done]. destruct (schedulers m !! i); [|done]. destruct (init_block i p (ap_msrs a)). cbn. by rewrite length_insert.
  - cbn. by rewrite length_alter.
  - by destruct (SMP_STARTED m).
Qed.

Lemma lens_stable : stable lens.
Proof. split; [|done]. intros l. induction l as [|j l IH]; intros m Hm; [done|]. cbn [run_aps fold_left]. by apply IH, ap_entry_lens. Qed.

Lemma lens_write a v m : lens m -> lens (write_lapic a v m).
Proof. unfold lens, write_lapic. intros Hm. repeat case_match; done. Qed.

Lemma triple_lens_send b id v : triple lens (send_ipi b id v) (fun _ => lens).
Proof. unfold send_ipi. eapply triple_bind; [apply triple_modify; [apply lens_stable|apply lens_write]|]. intros []. apply triple_modify; [apply lens_stable|apply lens_write]. Qed.

Lemma triple_lens_poll i : (i < MAX_CPUS)%nat -> triple lens (poll_online i) (fun _ => lens).
Proof.
  intros Hi. unfold poll_online. eapply triple_bind; [apply triple_fetch, lens_stable|]. intros o m [Ho Hm]. destruct (lookup_lt_is_Some_2 (PER_CPU m) i) as [p Hp]; [by rewrite Hm|]. rewrite Ho, Hp. by eexists _, _.
Qed.

Lemma triple_lens_start_one b id i : (i < MAX_CPUS)%nat -> triple lens (start_one b id i) (fun _ => lens).
Proof.
  intros Hi. pose proof lens_stable as HS. unfold start_one, wake_up. cbv zeta.
  eapply triple_bind; [apply (triple_modify _ _ lens); [done|]; intros m Hm; unfold lens; cbn; by rewrite length_alter|]. intros [].
  do 2 (eapply triple_bind; [by apply (triple_modify _ _ lens)|]; intros []).
  eapply (triple_bind _ _ (fun _ => lens)).
  - do 3 (eapply triple_bind; [apply triple_lens_send|]; intros []; eapply triple_bind; [by apply triple_wait|]; intros []; eapply triple_bind; [by apply triple_others|]; intros []).
    eapply triple_bind; [by apply triple_lens_poll|]. intros [|]; [apply triple_skip|]. eapply triple_bind; [apply triple_lens_send|]. intros []. by apply triple_wait.
  - intros []. induction (Z.to_nat 10000) as [|n IH]; cbn [wait_online]; [apply triple_skip|]. eapply triple_bind; [by apply triple_lens_poll|]. intros [|]; [apply triple_skip|].
    eapply triple_bind; [by apply triple_others|]. intros []. exact IH.
Qed.

Lemma to_wake_cons c l : to_wake bsp (c :: l) = if (negb (Acpi.is_enabled c) || (Acpi.apic_id c =? bsp))%bool then to_wake bsp l else c :: to_wake bsp l.
Proof. unfold to_wake. cbn [List.filter]. by destruct (Acpi.is_enabled c), (Acpi.apic_id c =? bsp). Qed.

Lemma triple_start_cores_count b l i count : triple lens (start_cores b bsp l i count) (fun n _ => count <= n <= count + Z.of_nat (length (to_wake bsp l))).
Proof.
  revert i count. induction l as [|c l IH]; intros i count; cbn [start_cores].
  - intros m Hm. exists count, m. split; [done|]. cbn. lia.
  - rewrite to_wake_cons. destruct (_ || _)%bool; [apply IH|]. destruct (Nat.leb_spec MAX_CPUS i).
    + intros m Hm. exists count, m. split; [done|]. lia.
    + eapply triple_bind; [by apply triple_lens_start_one|]. intros up'. eapply triple_weaken; [apply IH|done|]. intros n m Hn. cbn [length]. cbv beta in Hn. destruct up'; lia.
Qed.

Lemma triple_start_cores l k count : take k ids ++ (Acpi.apic_id <$> to_wake bsp l) = ids -> (k <= length ids < MAX_CPUS)%nat ->
  triple (inv ids bsp k 0) (start_cores lapic_phys bsp l (S k) count)
    (fun n m => count <= n <= count + Z.of_nat (length ids - k) /\ (n = count + Z.of_nat (length ids - k) -> inv ids bsp (length ids) 0 m)).
Proof.
  revert k count. induction l as [|c l IH]; intros k count Hl Hk; cbn [start_cores].
  - intros m I. exists count, m. split; [done|]. cbn [to_wake List.filter] in Hl. rewrite fmap_nil, app_nil_r in Hl. assert (length ids <= k)%nat by (rewrite <- Hl, length_take; lia). replace k with (length ids) in * by lia. split; [lia|done].
  - rewrite to_wake_cons in Hl. destruct (_ || _)%bool; [by apply IH|]. rewrite (proj2 (Nat.leb_gt MAX_CPUS (S k))).
    2: { assert (Hlen : length (take k ids ++ (Acpi.apic_id <$> c :: to_wake bsp l)) = length ids) by congruence. rewrite length_app, length_take, length_fmap in Hlen. cbn [length] in Hlen. lia. }
    rewrite fmap_cons in Hl.
    assert (Hid : ids !! k = Some (Acpi.apic_id c)). { rewrite <- Hl. rewrite lookup_app_r; rewrite length_take; [|lia]. by replace (k - Nat.min k (length ids))%nat with O by lia. }
    pose proof (lookup_lt_Some _ _ _ Hid) as Hlt.
    eapply triple_bind; [by apply triple_start_one|]. intros [|].
    + eapply triple_weaken; [apply (IH (S k) (count + 1)); [|lia]|by intros m [_ I]; apply I|]; [by rewrite (take_S_r _ _ _ Hid), <- app_assoc|].
      intros n m. cbv beta. replace (length ids - k)%nat with (S (length ids - S k)) by lia. intros [H1 H2]. split; [lia|]. intros. apply H2. lia.
    + eapply triple_weaken; [apply triple_start_cores_count|by intros m [? _]|]. intros n m. cbv beta.
      assert (Hlen : length (take k ids ++ Acpi.apic_id c :: (Acpi.apic_id <$> to_wake bsp l)) = length ids) by congruence. rewrite length_app, length_take in Hlen. cbn [length] in Hlen. rewrite length_fmap in Hlen. intros Hn. split; lia.
Qed.

(** ** The whole of [init] *)
(** The machine before [init]: the other processors wait, no block is in use but the
    first, which is [p0]. *)
Record fresh (p0 : PerCpu) (m : machine) : Prop := {
  f_cpus : PER_CPU m = p0 :: replicate 7 new_const;
  f_scheds : length (schedulers m) = MAX_CPUS;
  f_ids : (fun a => lapic_id (lapic a)) <$> aps m = ids;
  f_halted : Forall (fun a => pc a = Halted) (aps m)
}.

Lemma run_aps_halted l m : Forall (fun a => pc a = Halted) (aps m) -> run_aps l m = m.
Proof.
  intros Hm. induction l as [|j l IH]; [done|]. cbn [run_aps fold_left]. change (run_aps l (ap_entry j m) = m).
  assert (ap_entry j m = m) as ->; [|done]. unfold ap_entry. destruct (aps m !! j) as [a|] eqn:Ha; [|done]. by rewrite (Forall_lookup_1 _ _ _ _ Hm Ha).
Qed.

Lemma fresh_stable p0 n : stable (fun m => fresh p0 m /\ ONLINE_CPUS m = n).
Proof. split; [intros l m [F Hn]; rewrite run_aps_halted by apply F; done|]. by intros s b m [[F1 F2 F3 F4] Hn]. Qed.

Lemma fresh_inv p0 m : fresh p0 m -> online p0 = true -> apic_id p0 = bsp -> ONLINE_CPUS m = 1 -> take (length stub) (low_page m) = stub -> (length ids < MAX_CPUS)%nat -> inv ids bsp 0 0 m.
Proof.
  intros [F1 F2 F3 F4] Ho Hi Hn Hp Hl. constructor; try done; try lia.
  - by rewrite F1.
  - intros j a Ha. exists new_const. split.
    + rewrite F1. apply lookup_replicate. split; [done|]. apply lookup_lt_Some in Ha. rewrite <- F3, length_fmap in Hl. unfold MAX_CPUS in Hl. lia.
    + pose proof (Forall_lookup_1 _ _ _ _ F4 Ha) as E. cbv beta in E. split; [by constructor; rewrite E|]. constructor; [done|lia|intros; split; [by left|done]|lia].
  - exists p0. by rewrite F1.
  - rewrite Hn. assert (ncounted (aps m) = 0); [|lia]. clear -F4. induction (aps m) as [|a l IH]; [done|]. apply Forall_cons_1 in F4 as [E F4]. cbn [ncounted]. rewrite E, (IH F4). done.
Qed.

Lemma triple_init acpi p0 n0 : (0 < length ids < MAX_CPUS)%nat -> Acpi.is_initialized acpi = true -> (2 <= length (Acpi.cores acpi))%nat ->
  Acpi.apic_id <$> to_wake bsp (Acpi.cores acpi) = ids -> Acpi.lapic_addr acpi = lapic_phys -> Z.of_nat (length stub) <= 0x1000 ->
  triple (fun m => fresh p0 m /\ ONLINE_CPUS m = n0) (init acpi bsp)
    (fun r m => exists total n, r = Woken total (Z.of_nat (length ids)) n /\ 0 <= n <= Z.of_nat (length ids) /\ (n = Z.of_nat (length ids) -> inv ids bsp (length ids) 0 m)).
Proof.
  intros Hlen Hini Hcores Hids Hbase Hstub. unfold init. set (p1 := set_online (set_ids 0 bsp p0)).
  eapply triple_bind; [apply (triple_modify _ _ (fun m => fresh p1 m /\ ONLINE_CPUS m = 1)); [apply fresh_stable|]|].
  { intros m [[F1 F2 F3 F4] _]. split; [|done]. constructor; try done. cbn. by rewrite F1. }
  intros []. eapply triple_bind; [apply (triple_modify _ _ (fun m => fresh p1 m /\ ONLINE_CPUS m = 1)); [apply fresh_stable|]|]; [by intros m [[F1 F2 F3 F4] Hn]|].
  intros []. rewrite Hini, (proj2 (Nat.leb_gt _ _)) by lia. cbn [negb orb]. cbv iota.
  assert (Hn : length (to_wake bsp (Acpi.cores acpi)) = length ids) by (by rewrite <- Hids, length_fmap). rewrite Hn. cbv zeta. rewrite (proj2 (Z.eqb_neq (Z.of_nat (length ids)) 0)) by lia.
  eapply (triple_bind _ _ (fun _ => inv ids bsp 0 0)).
  - unfold copy_trampoline. rewrite (proj2 (Z.ltb_ge _ _)) by done. apply (triple_modify (fun m => fresh p1 m /\ ONLINE_CPUS m = 1)); [apply fresh_stable|].
    intros m [[F1 F2 F3 F4] Ho]. apply (fresh_inv p1); [by constructor|done|done|done|cbn; apply take_app_length|lia].
  - intros []. rewrite Hbase. eapply triple_bind; [apply (triple_start_cores (Acpi.cores acpi) 0 0); [done|lia]|]. intros n.
    eapply triple_bind; [apply triple_fetch; apply stable_weak, (inv_stable ids bsp (length ids) 0 Hplaced)|]. intros total m [_ [Hb Hinv]]. rewrite Nat.sub_0_r in *.
    eexists _, m. split; [reflexivity|]. exists total, n. split; [done|]. split; [lia|]. intros. apply Hinv. lia.
Qed.
End Boot.

(** ** Afterwards *)
Lemma find_cpu_spec i0 id l i p : l !! i = Some p -> online p = true -> apic_id p = id -> (forall i' p', (i' < i)%nat -> l !! i' = Some p' -> apic_id p' <> id) -> find_cpu i0 id l = (i0 + i)%nat.
Proof.
  revert i0 i. induction l as [|q l IH]; intros i0 [|i] Hp Ho Hid Hne; [done|done| |]; cbn [find_cpu].
  - injection Hp as ->. rewrite Ho, Hid, Z.eqb_refl. cbn [andb]. lia.
  - rewrite (proj2 (Z.eqb_neq (apic_id q) id)) by (apply (Hne O q); [lia|done]). rewrite andb_false_r. rewrite (IH (S i0) i Hp Ho Hid); [lia|]. intros i' p' Hlt Hp'. apply (Hne (S i') p'); [lia|done].
Qed.

Lemma current_cpu_own ids bsp m j a : inv ids bsp (length ids) 0 m -> NoDup (bsp :: ids) -> aps m !! j = Some a -> counted (pc a) = true -> current_cpu m (lapic a) = S j.
Proof.
  intros I Hnd Ha Hc. unfold current_cpu. assert (Hjl : forall j b, aps m !! j = Some b -> (j < length ids)%nat) by (intros j0 b Hb; apply lookup_lt_Some in Hb; by rewrite <- (i_ids _ _ _ _ _ I), length_fmap).
  pose proof (i_count _ _ _ _ _ I) as Hn. pose proof (ncounted_insert (aps m) j a (set_pc Halted a) Ha) as Hins. pose proof (ncounted_bounds (<[j := set_pc Halted a]> (aps m))) as Hb. rewrite Hc in Hins. cbn in Hins.
  rewrite (proj2 (Z.leb_gt _ _)) by lia. pose proof (lapic_id_u8 (lapic a)) as Hu. rewrite lapic_id_read, Z.shiftr_shiftl_l, Z.shiftl_0_r, wrap_small by (done || lia).
  destruct (i_aps _ _ _ _ _ I j a Ha) as (p & Hp & Hg & Hph). destruct (ph_ids _ _ _ _ _ Hph (or_introl (Hjl _ _ Ha))) as [_ Hid].
  apply NoDup_cons in Hnd as [Hnot Hnd]. assert (Hidj : ids !! j = Some (lapic_id (lapic a))) by (by rewrite <- (i_ids _ _ _ _ _ I), list_lookup_fmap, Ha).
  rewrite (find_cpu_spec 0 _ _ (S j) p Hp); [lia| |done|].
  - rewrite (g_online _ _ _ Hg). by destruct (pc a).
  - intros [|i] p' Hlt Hp' Heq.
    + destruct (i_bsp _ _ _ _ _ I) as (q & Hq & _ & Hbsp). assert (q = p') by congruence. subst q. apply Hnot. rewrite <- Hbsp, Heq. by apply list_elem_of_lookup_2 in Hidj.
    + destruct (lookup_lt_is_Some_2 (aps m) i) as [b Hb']; [apply lookup_lt_Some in Ha; lia|]. destruct (i_aps _ _ _ _ _ I i b Hb') as (q & Hq & _ & Hphb). assert (q = p') by congruence. subst q.
      destruct (ph_ids _ _ _ _ _ Hphb (or_introl (Hjl _ _ Hb'))) as [_ Hidb]. assert (i = j); [|lia]. apply (NoDup_lookup ids _ _ (lapic_id (lapic a)) Hnd); [|done].
      by rewrite <- (i_ids _ _ _ _ _ I), list_lookup_fmap, Hb', <- Heq, Hidb.
Qed.

(** Steps a processor that is up still has to make. *)
Definition left_over (c : ap_pc) : nat := match c with Online _ => 2 | Counted _ => 1 | _ => 0 end.

Lemma ap_entry_left j0 j m a : SMP_STARTED m = true -> aps m !! j = Some a -> is_up (pc a) = true ->
  exists a', aps (ap_entry j0 m) !! j = Some a' /\ left_over (pc a') = (left_over (pc a) - if decide (j0 = j) then 1 else 0)%nat /\ is_up (pc a') = true.
Proof.
  intros Hs Ha Hup. destruct (decide (j0 = j)) as [->|Hne].
  - unfold ap_entry. rewrite Ha. pose proof (lookup_lt_Some _ _ _ Ha) as Hl. destruct (pc a) as [| | | | |i|i|i|i|i] eqn:E; try done.
    + eexists. split; [cbn; by apply list_lookup_insert_eq|done].
    + rewrite Hs. eexists. split; [cbn; by apply list_lookup_insert_eq|done].
    + exists a. by rewrite E.
  - exists a. rewrite Nat.sub_0_r. split; [|done]. unfold ap_entry. destruct (aps m !! j0) as [b|] eqn:Hb; [|done].
    destruct (pc b); try done; try (cbn; by rewrite list_lookup_insert_ne).
    + destruct (scratch m) as [[cr3 rsp] en]. cbn. by rewrite list_lookup_insert_ne.
    + unfold prepare. destruct (PER_CPU m !! i) as [p|]; [|cbn; by rewrite list_lookup_insert_ne]. destruct (schedulers m !! i); [|cbn; by rewrite list_lookup_insert_ne].
      destruct (init_block i p (ap_msrs b)). cbn. by rewrite list_lookup_insert_ne.
    + destruct (SMP_STARTED m); [|done]. cbn. by rewrite list_lookup_insert_ne.
Qed.

Lemma ap_entry_started j m : SMP_STARTED m = true -> SMP_STARTED (ap_entry j m) = true.
Proof.
  intros Hs. unfold ap_entry. destruct (aps m !! j) as [a|]; [|done]. destruct (pc a); try done.
  - by destruct (scratch m) as [[cr3 rsp] en].
  - unfold prepare. destruct (PER_CPU m !! i) as [p|]; [|done]. destruct (schedulers m !! i); [|done]. by destruct (init_block i p (ap_msrs a)).
  - by rewrite Hs.
Qed.

Lemma run_aps_left l j m a : SMP_STARTED m = true -> aps m !! j = Some a -> is_up (pc a) = true ->
  exists a', aps (run_aps l m) !! j = Some a' /\ left_over (pc a') = (left_over (pc a) - count_occ Nat.eq_dec l j)%nat.
Proof.
  revert m a. induction l as [|j0 l IH]; intros m a Hs Ha Hup; cbn [run_aps fold_left count_occ]; [exists a; by rewrite Nat.sub_0_r|].
  destruct (ap_entry_left j0 j m a Hs Ha Hup) as (a1 & Ha1 & Hl1 & Hu1). destruct (IH _ a1 (ap_entry_started _ _ Hs) Ha1 Hu1) as (a2 & Ha2 & Hl2). exists a2. split; [done|].
  rewrite Hl2, Hl1. destruct (decide (j0 = j)), (Nat.eq_dec j0 j); try done; lia.
Qed.

(** Processor [j] runs as CPU [j+1] on what belongs to that CPU. *)
Record runs_as (j : nat) (a : ap H) (m : machine) : Prop := {
  ra_block : exists p, PER_CPU m !! S j = Some p /\ cpu_id p = Z.of_nat (S j) /\ apic_id p = lapic_id (lapic a) /\ online p = true /\ Descriptors.rsp0 (tss p) = stack_top (S j);
  ra_stack : ap_rsp a = stack_top (S j);
  ra_gs : Descriptors.rdmsr (ap_msrs a) MSR_GS_BASE = block_at (S j);
  ra_pc : pc a = Online (S j) \/ pc a = Counted (S j) \/ pc a = Idle (S j);
  ra_current : pc a = Idle (S j) -> current_cpu m (lapic a) = S j
}.

Lemma inv_runs_as ids bsp m j a : inv ids bsp (length ids) 0 m -> NoDup (bsp :: ids) -> aps m !! j = Some a -> runs_as j a m.
Proof.
  intros I Hnd Ha. assert (Hj : (j < length ids)%nat) by (apply lookup_lt_Some in Ha; by rewrite <- (i_ids _ _ _ _ _ I), length_fmap).
  destruct (i_aps _ _ _ _ _ I j a Ha) as (p & Hp & [G1 G2 G3 G4] & [P1 P2 P3 P4]). specialize (P2 Hj). destruct (P4 (or_introl Hj)) as [Q1 Q2].
  assert (Hr : ready (pc a) = true) by (by destruct (pc a)). assert (He : entered (pc a) = true) by (by destruct (pc a)). destruct (G4 Hr) as [R1 R2]. destruct (G3 He) as [S1 S2].
  constructor; [exists p; rewrite G2; done|done|done| |].
  - destruct (pc a); try done; cbn [own] in G1; subst; auto.
  - intros E. apply (current_cpu_own ids bsp); [done|done|done|by rewrite E].
Qed.

(** C20: on a machine with up to seven other processors, whatever they do and whenever they do
    it while the boot processor goes through [init], the call returns and reports how many came
    online; when all of them did, each runs on the stack, with the task state segment and with
    the block of a CPU number of its own, finds that number again with [current_cpu], and as
    soon as each has made two more steps all are in the scheduler and [cpu_count] is right. *)
Theorem aps_started acpi bsp m : let ids := Acpi.apic_id <$> to_wake bsp (Acpi.cores acpi) in
  blocks_placed -> NoDup (bsp :: ids) -> (0 < length ids < MAX_CPUS)%nat -> Acpi.is_initialized acpi = true -> (2 <= length (Acpi.cores acpi))%nat ->
  Acpi.lapic_addr acpi = lapic_phys -> in_u 32 lapic_phys -> Z.of_nat (length stub) <= 0x1000 -> fresh ids new_const m ->
  exists total n m', init acpi bsp m = Ret (Woken total (Z.of_nat (length ids)) n, m') /\ 0 <= n <= Z.of_nat (length ids) /\
    (n = Z.of_nat (length ids) -> forall l, let m2 := run_aps l (start_aps m') in
      (forall j a, aps m2 !! j = Some a -> runs_as j a m2) /\
      ((forall j, (j < length ids)%nat -> (2 <= count_occ Nat.eq_dec l j)%nat) ->
         (forall j a, aps m2 !! j = Some a -> pc a = Idle (S j)) /\ cpu_count m2 = 1 + Z.of_nat (length ids))).
Proof.
  intros ids Hpl Hnd Hlen Hini Hcores Hbase Hphys Hstub F. assert (Hu8 : Forall (in_u 8) ids) by (rewrite <- (f_ids _ _ _ F); apply Forall_fmap, Forall_true; intros; apply lapic_id_u8).
  pose proof (NoDup_cons_1_2 _ _ Hnd) as Hnd'.
  destruct (triple_init ids bsp Hpl Hnd' Hu8 Hphys acpi new_const (ONLINE_CPUS m) Hlen Hini Hcores eq_refl Hbase Hstub m (conj F eq_refl)) as (r & m' & E & total & n & -> & Hn & Hinv).
  exists total, n, m'. split; [done|]. split; [done|]. intros Hall l m2. specialize (Hinv Hall).
  assert (Is : inv ids bsp (length ids) 0 (start_aps m')) by (destruct Hinv; by constructor). assert (I2 : inv ids bsp (length ids) 0 m2) by (by apply run_aps_inv).
  split; [intros j a Ha; by apply (inv_runs_as ids bsp)|]. intros Hl.
  assert (Hidle : forall j a, aps m2 !! j = Some a -> pc a = Idle (S j)).
  { intros j a Ha. assert (Hj : (j < length ids)%nat) by (apply lookup_lt_Some in Ha; by rewrite <- (i_ids _ _ _ _ _ I2), length_fmap).
    destruct (lookup_lt_is_Some_2 (aps (start_aps m')) j) as [a0 Ha0]; [by rewrite <- (i_ids _ _ _ _ _ Is), length_fmap in Hj|].
    destruct (i_aps _ _ _ _ _ Is j a0 Ha0) as (p & _ & _ & Hph). destruct (run_aps_left l j (start_aps m') a0 eq_refl Ha0 (ph_before _ _ _ _ _ Hph Hj)) as (a' & Ha' & Hleft).
    assert (a' = a) by (unfold m2 in Ha; congruence). subst a'. specialize (Hl j Hj). assert (Hz : left_over (pc a) = O) by (destruct (pc a0); cbn in Hleft; lia).
    destruct (ra_pc _ _ _ (inv_runs_as ids bsp m2 j a I2 Hnd Ha)) as [E1|[E1|E1]]; rewrite E1 in Hz; done. }
  split; [done|]. unfold cpu_count. rewrite (i_count _ _ _ _ _ I2). f_equal. rewrite <- (i_ids _ _ _ _ _ I2), length_fmap.
  clear -Hidle. assert (Hc : forall j a, aps m2 !! j = Some a -> counted (pc a) = true) by (intros j a Ha; by rewrite (Hidle j a Ha)). clear Hidle. revert Hc.
  induction (aps m2) as [|a la IH]; intros Hc; [done|]. cbn [ncounted length]. rewrite (Hc O a eq_refl), IH by (intros j b Hb; apply (Hc (S j) b Hb)). cbn [Z.b2z]. lia.
Qed.
End Machine.

(** ** A concrete machine *)
Record chip := mkChip { chip_id : Z }.
#[global] Instance chip_hardware : Hardware chip := {
  outb h _ _ := h; inb h _ := (0, h); outw h _ _ := h; inw h _ := (0, h); outl h _ _ := h; inl h _ := (0, h);
  write_volatile h _ _ := h; read_volatile h a := (if a =? 0xFEE00020 then Z.shiftl (wrap 8 (chip_id h)) 24 else 0, h)
}.
#[global] Instance chip_lapic : Lapic chip.
Proof. refine {| lapic_id h := wrap 8 (chip_id h) |}; try done. intros h. apply (in_u_mod 8). lia. Defined.

Definition demo_cores : list Acpi.CpuCore := [Acpi.mkCore 0 0 true; Acpi.mkCore 1 4 true; Acpi.mkCore 2 5 false; Acpi.mkCore 3 6 true].
Definition demo_acpi : Acpi.AcpiInfo := foldl (fun i c => Acpi.push_core c i) (Acpi.set_initialized Acpi.new) demo_cores.
Definition demo_machine (sch : list (list nat)) : machine chip :=
  mkMachine (replicate 8 new_const) 0 false 0 (Task.sched_new <$> seq 0 8) [] (0, 0, 0) 0 0 (fun _ => 0)
    [mkAp (mkChip 4) Halted (fun _ => 0) 0 0; mkAp (mkChip 6) Halted (fun _ => 0) 0 0] sch [].
Notation demo_init sch := (init 0x200000 0x100000 0x100100 [0xFA] 0x1000 0xFEE00000 demo_acpi 0 (demo_machine sch)).

Definition reported (o : outcome (report * machine chip)) : option Z := match o with Ret (Woken _ _ n, _) => Some n | _ => None end.
Lemma demo_reported : reported (demo_init (replicate 100 [0%nat; 1%nat])) = Some 2.
Proof. vm_compute. reflexivity. Qed.

Lemma aps_started_witness : exists r m', demo_init (replicate 100 [0%nat; 1%nat]) = Ret (r, m') /\
  (forall j a, aps (run_aps 0x200000 0x100000 0x100100 [0;0;1;1]%nat (start_aps m')) !! j = Some a -> pc a = Idle (S j)).
Proof.
  destruct (aps_started 0x200000 0x100000 0x100100 [0xFA] 0x1000 0xFEE00000 demo_acpi 0 (demo_machine (replicate 100 [0%nat; 1%nat]))) as (total & n & m' & E & Hn & Hall);
    [split; done|by_compute|by_compute|reflexivity|by_compute|reflexivity|by_compute|by_compute| |].
  - constructor; [reflexivity..|]. by repeat constructor.
  - pose proof demo_reported as Hr. rewrite E in Hr. cbn [reported] in Hr. injection Hr as Hn2. exists (Woken total (Z.of_nat (length (Acpi.apic_id <$> to_wake 0 (Acpi.cores demo_acpi)))) n), m'. split; [exact E|].
    apply (Hall Hn2 [0;0;1;1]%nat). intros [|[|j]] Hj; cbn in Hj |- *; lia.
Defined.

(** What is seen of a machine after [init], once the others have been released. *)
Definition seen (o : outcome (report * machine chip)) : option (report * list ap_pc * list Z * nat * nat) :=
  match o with
  | Ret (r, m) => let m2 := run_aps 0x200000 0x100000 0x100100 [0;1;0;1]%nat (start_aps m) in Some (r, pc <$> aps m2, ap_rsp <$> aps m2, current_cpu m2 (mkChip 4), current_cpu m2 (mkChip 6))
  | _ => None
  end.

(** A processor that comes up after the boot processor has given up on it reads the number
    of the next one: both then run as CPU 2, on the same stack, task state segment and run
    queue, and [current_cpu] takes the late one for the boot processor. *)
Theorem late_ap_shares_cpu : exists sch, seen (demo_init sch) = Some (Woken 3 2 1, [Idle 2; Idle 2], [stack_top 0x200000 2; stack_top 0x200000 2], 0%nat, 2%nat).
Proof. exists (replicate (Z.to_nat 20025) [] ++ replicate 200 [0%nat; 1%nat]). vm_compute. reflexivity. Qed.
End SmpBoot.
