(* ===== verification/Uefi.v ===== *)
(** * The UEFI boot loader and the boot information (src/boot/uefi/src, src/src/boot)

    [Boot] is the structure both boot paths hand to the kernel, the conversion of the
    memory map of the BIOS loader and the entry point that tells them apart.  [Uefi] is
    the loader itself: its ELF loader, the page tables it builds, the search for the
    ACPI root pointer and the conversion of the memory map, composed by [efi_main] over
    the services of the firmware, which are the class [EfiBootServices].  Memory is a
    function from addresses to bytes. *)

From stdpp Require Import prelude numbers list strings.
From Stdlib Require Import ZifyBool.
From S2P Require Import Prelude Bytes Io Pmm Paging Elf.

Module Boot.
Inductive BootMethod := Bios | Uefi.
Definition BOOT_INFO_MAGIC : Z := 0x415552415F4F5321.
Record BootInfo := mkBootInfo { magic : Z; memory_map : list Pmm.MemoryRegion; acpi_rsdp : option Z; boot_method : BootMethod }.

(** [ACTIVE_BOOT_INFO] *)
Definition set_active_boot_info (info : BootInfo) (_ : option BootInfo) : option BootInfo := Some info.
Definition get_boot_info (active : option BootInfo) : option BootInfo := active.
Definition current_boot_method (active : option BootInfo) : BootMethod := default Bios (boot_method <$> get_boot_info active).

(** ** The BIOS path: region types of the boot loader crate *)
Inductive BiosRegionType := BUsable | BReserved | BAcpiReclaimable | BAcpiNvs | BBadMemory | BBootloader | BKernel | BKernelStack | BPageTable | BOther.
Record BiosRegion := mkBios { start_addr : Z; end_addr : Z; region_type : BiosRegionType }.
Definition MAX_BIOS_REGIONS : nat := 128.
Definition empty_region : Pmm.MemoryRegion := Pmm.Build_MemoryRegion 0 0 Pmm.Reserved.
Definition bios_kind (t : BiosRegionType) : Pmm.MemoryRegionKind :=
  match t with
  | BUsable => Pmm.Usable | BReserved => Pmm.Reserved | BAcpiReclaimable => Pmm.AcpiReclaimable | BAcpiNvs => Pmm.AcpiNvs
  | BBadMemory => Pmm.BadMemory | BBootloader => Pmm.Bootloader | BKernel => Pmm.Kernel | BKernelStack => Pmm.Kernel
  | BPageTable => Pmm.Bootloader | BOther => Pmm.Reserved
  end.
Fixpoint convert_regions (l : list BiosRegion) (regions : list Pmm.MemoryRegion) (count : nat) : outcome (list Pmm.MemoryRegion * nat) :=
  match l with
  | [] => Ret (regions, count)
  | r :: l' =>
    if (MAX_BIOS_REGIONS <=? count)%nat then Ret (regions, count) else
    regions' ← store regions (Z.of_nat count) (Pmm.Build_MemoryRegion (start_addr r) (end_addr r) (bios_kind (region_type r)));
    convert_regions l' regions' (S count)
  end.
Definition convert_bios_boot_info (bios : list BiosRegion) (regions : list Pmm.MemoryRegion) : outcome BootInfo :=
  '(regions', count) ← convert_regions bios regions 0;
  Ret (mkBootInfo BOOT_INFO_MAGIC (take count regions') None Bios).

(** [_start]: what is at the pointer, read as a word and as either structure. *)
Definition start_ (word : Z) (unified : BootInfo) (bios : list BiosRegion) (regions : list Pmm.MemoryRegion) : outcome BootInfo :=
  if word =? BOOT_INFO_MAGIC then Ret unified else convert_bios_boot_info bios regions.

(** The first steps of [kernel_main] that use it. *)
Definition kernel_main_memory (info : BootInfo) (p : Pmm.Pmm) : outcome (option BootInfo * Pmm.Pmm) :=
  p' ← Pmm.init p (memory_map info); Ret (set_active_boot_info info None, p').
End Boot.

Module Uefi.
Import Bytes Boot.

(** ** The interface of the firmware *)
Definition EFI_SUCCESS : Z := 0.
Definition efi_error (n : Z) : Z := Z.lor n (2 ^ 63).
Definition EFI_LOAD_ERROR : Z := efi_error 1.
Definition EFI_INVALID_PARAMETER : Z := efi_error 2.
Definition EFI_BUFFER_TOO_SMALL : Z := efi_error 5.
Definition EFI_NOT_FOUND : Z := efi_error 14.
Record EfiGuid := mkGuid { data1 : Z; data2 : Z; data3 : Z; data4 : list Z }.
#[global] Instance guid_eq_dec : EqDecision EfiGuid. Proof. solve_decision. Defined.
Definition EFI_ACPI_20_TABLE_GUID : EfiGuid := mkGuid 0x8868e871 0xe4f1 0x11d3 [0xbc; 0x22; 0x00; 0x80; 0xc7; 0x3c; 0x88; 0x81].
Definition ACPI_10_TABLE_GUID : EfiGuid := mkGuid 0xeb9d2d30 0x2d88 0x11d3 [0x9a; 0x16; 0x00; 0x90; 0x27; 0x3f; 0xc1; 0x4d].
Record EfiConfigurationTable := mkConfig { vendor_guid : EfiGuid; vendor_table : Z }.
Inductive EfiMemoryType :=
| ReservedMemoryType | LoaderCode | LoaderData | BootServicesCode | BootServicesData | RuntimeServicesCode | RuntimeServicesData | ConventionalMemory
| UnusableMemory | ACPIReclaimMemory | ACPIMemoryNVS | MemoryMappedIO | MemoryMappedIOPortSpace | PalCode | PersistentMemory.
Definition type_code (t : EfiMemoryType) : Z :=
  match t with
  | ReservedMemoryType => 0 | LoaderCode => 1 | LoaderData => 2 | BootServicesCode => 3 | BootServicesData => 4 | RuntimeServicesCode => 5
  | RuntimeServicesData => 6 | ConventionalMemory => 7 | UnusableMemory => 8 | ACPIReclaimMemory => 9 | ACPIMemoryNVS => 10
  | MemoryMappedIO => 11 | MemoryMappedIOPortSpace => 12 | PalCode => 13 | PersistentMemory => 14
  end.
Inductive EfiAllocateType := AllocateAnyPages | AllocateMaxAddress | AllocateAddress.

(** What [GetMemoryMap] stores through its pointers: the size, the buffer, the key and
    the size of a descriptor. *)
Record map_reply := mkReply { map_size : Z; buffer : list Z; map_key : Z; descriptor_size : Z }.

Notation memory := Paging.memory.

(** The services the loader calls, on the state of the firmware and memory. *)
Class EfiBootServices (F : Type) := {
  allocate_pages : EfiAllocateType -> EfiMemoryType -> Z -> Z -> F -> memory -> Z * Z * F * memory;
  get_memory_map : Z -> F -> memory -> Z * map_reply * F * memory;
  exit_boot_services : Z -> F -> memory -> Z * F * memory;
  output_string : list Z -> F -> memory -> Z * F * memory
}.

(** The system table; [None] is a null pointer, the table of configurations has
    [number_of_table_entries] entries. *)
Record EfiSystemTable := mkSystem { con_out : bool; boot_services : bool; configuration_table : option (list EfiConfigurationTable) }.

(** ** Bytes in memory *)
Definition peek (m : memory) (base i : Z) : Z := m (u64_add base i).
Definition copy_nonoverlapping (m : memory) (src dest n : Z) : memory := fun x =>
  if ((dest <=? x) && (x <? dest + n))%bool then peek m src (x - dest) else m x.
Definition write_bytes (m : memory) (dest v n : Z) : memory := fun x =>
  if ((dest <=? x) && (x <? dest + n))%bool then v else m x.
Definition poke (m : memory) (a : Z) (l : list Z) : memory := fun x =>
  if ((a <=? x) && (x <? a + len l))%bool then nth (Z.to_nat (x - a)) l 0 else m x.
Definition write_u64 (m : memory) (a w : Z) : memory := poke m a (to_le 8 w).
(** The same memory as words, as the processor reads its tables. *)
Definition words (m : memory) : memory := fun a => le_value ((fun k => m (a + Z.of_nat k)) <$> seq 0 8).

(** ** The ELF loader *)
Definition EM_X86_64 : Z := 0x3E.
Definition load_segment (base size : Z) (ph : Elf.Elf64ProgramHeader) (m : memory) : result () string * memory :=
  if negb (Elf.p_type ph =? Elf.PT_LOAD) then (Ok (), m) else
  let file_offset := Elf.p_offset ph in
  let file_size := Elf.p_filesz ph in
  let mem_size := Elf.p_memsz ph in
  let dest := Elf.p_paddr ph in
  if size <? u64_add file_offset file_size then (Err "Segment file data out of bounds"%string, m) else
  let m1 := copy_nonoverlapping m (u64_add base file_offset) dest file_size in
  if file_size <? mem_size then (Ok (), write_bytes m1 (u64_add dest file_size) 0 (mem_size - file_size)) else (Ok (), m1).

Fixpoint load_segments (n : nat) (i : Z) (base size : Z) (h : Elf.Elf64Header) (m : memory) : result () string * memory :=
  match n with
  | O => (Ok (), m)
  | S n' =>
    let entry_offset := u64_add (Elf.phoff h) (u64_mul i (Elf.phentsize h)) in
    if size <? u64_add entry_offset Elf.PHDR_SIZE then (Err "Program header out of bounds"%string, m) else
    match load_segment base size (Elf.read_phdr (peek m base) [] entry_offset) m with
    | (Ok _, m') => load_segments n' (i + 1) base size h m'
    | e => e
    end
  end.

(** [elf_bytes] is the slice of [size] bytes at [base]. *)
Definition load_elf (base size : Z) (m : memory) : result Z string * memory :=
  if size <? Elf.EHDR_SIZE then (Err "ELF buffer too small for header"%string, m) else
  let h := Elf.read_ehdr (peek m base) [] in
  if negb (bool_decide (take 4 (Elf.ident h) = Elf.ELF_MAGIC)) then (Err "Invalid ELF magic"%string, m) else
  if negb (Elf.ident_at h 4 =? Elf.ELF_CLASS_64) then (Err "Not a 64-bit ELF"%string, m) else
  if negb (Elf.ident_at h 5 =? Elf.ELF_DATA_2LSB) then (Err "Not a little-endian ELF"%string, m) else
  if negb (Elf.machine h =? EM_X86_64) then (Err "Not an x86_64 ELF"%string, m) else
  match load_segments (Z.to_nat (Elf.phnum h)) 0 base size h m with
  | (Ok _, m') => (Ok (Elf.entry h), m')
  | (Err e, m') => (Err e, m')
  end.

(** ** The page tables *)
Definition PRESENT : Z := Z.shiftl 1 0.
Definition WRITABLE : Z := Z.shiftl 1 1.
Definition HUGE_PAGE : Z := Z.shiftl 1 7.
Fixpoint fill (n : nat) (i : Z) (t shift flags : Z) (m : memory) : memory :=
  match n with
  | O => m
  | S n' => fill n' (i + 1) t shift flags (write_u64 m (t + 8 * i) (Z.lor (u64_shl i shift) flags))
  end.
Definition build_tables (page_tables_addr : Z) (m : memory) : memory :=
  let pml4 := page_tables_addr in
  let pdpt := u64_add page_tables_addr 0x1000 in
  let pd := u64_add page_tables_addr 0x2000 in
  let pt := u64_add page_tables_addr 0x3000 in
  let m := write_bytes m pml4 0 (512 * 8) in
  let m := write_bytes m pdpt 0 (512 * 8) in
  let m := write_bytes m pd 0 (512 * 8) in
  let m := write_bytes m pt 0 (512 * 8) in
  let m := write_u64 m pml4 (Z.lor pdpt (Z.lor PRESENT WRITABLE)) in
  let m := write_u64 m pdpt (Z.lor pd (Z.lor PRESENT WRITABLE)) in
  let m := write_u64 m (pdpt + 8 * 3) (Z.lor 0xC0000000 (Z.lor PRESENT (Z.lor WRITABLE HUGE_PAGE))) in
  let m := write_u64 m pd (Z.lor pt (Z.lor PRESENT WRITABLE)) in
  let m := fill 512 0 pt 12 (Z.lor PRESENT WRITABLE) m in
  fill 255 1 pd 21 (Z.lor PRESENT (Z.lor WRITABLE HUGE_PAGE)) m.

(** ** The memory map *)
Record EfiMemoryDescriptor := mkDesc { desc_type : Z; physical_start : Z; virtual_start : Z; number_of_pages : Z; attribute : Z }.
(** A descriptor at an offset of the buffer; bytes beyond it are whatever is there. *)
Definition read_desc (outside : Z -> Z) (buf : list Z) (o : Z) : EfiMemoryDescriptor :=
  mkDesc (Elf.field outside buf o 4) (Elf.field outside buf (o + 8) 8) (Elf.field outside buf (o + 16) 8) (Elf.field outside buf (o + 24) 8) (Elf.field outside buf (o + 32) 8).
Definition region_kind (t : Z) : Pmm.MemoryRegionKind :=
  if t =? 7 then Pmm.Usable else
  if ((t =? 3) || (t =? 4))%bool then Pmm.Usable else
  if t =? 9 then Pmm.AcpiReclaimable else
  if t =? 10 then Pmm.AcpiNvs else
  if t =? 8 then Pmm.BadMemory else
  if ((t =? 11) || (t =? 12))%bool then Pmm.Mmio else
  if t =? 1 then Pmm.Kernel else
  if t =? 2 then Pmm.Bootloader else Pmm.Reserved.
Definition region_of (d : EfiMemoryDescriptor) : Pmm.MemoryRegion :=
  Pmm.Build_MemoryRegion (physical_start d) (u64_add (physical_start d) (u64_mul (number_of_pages d) 4096)) (region_kind (desc_type d)).
Fixpoint convert (fuel : nat) (outside : Z -> Z) (r : map_reply) (regions : list Pmm.MemoryRegion) (count offset : Z) : outcome (list Pmm.MemoryRegion * Z) :=
  if ((u64_add offset (descriptor_size r) <=? map_size r) && (count <? 256))%bool then
    match fuel with
    | O => NoFuel
    | S fuel' =>
      regions' ← store regions count (region_of (read_desc outside (buffer r) offset));
      convert fuel' outside r regions' (count + 1) (u64_add offset (descriptor_size r))
    end
  else Ret (regions, count).

(** ** The entry point *)
Section Main.
Context {F : Type} {BS : EfiBootServices F}.

Definition efi (A : Type) : Type := hwo (F * memory) A.
Definition output (buf : list Z) : efi Z := fun '(f, m) => let '(status, f', m') := output_string buf f m in Ret (status, (f', m')).
Definition allocate (t : EfiAllocateType) (ty : EfiMemoryType) (pages addr : Z) : efi (Z * Z) := fun '(f, m) =>
  let '(status, a, f', m') := allocate_pages t ty pages addr f m in Ret ((status, a), (f', m')).
Definition memory_map_call (size : Z) : efi (Z * map_reply) := fun '(f, m) =>
  let '(status, r, f', m') := get_memory_map size f m in Ret ((status, r), (f', m')).
Definition exit_call (key : Z) : efi Z := fun '(f, m) => let '(status, f', m') := exit_boot_services key f m in Ret (status, (f', m')).
Definition on_memory {A} (g : memory -> A * memory) : efi A := fun '(f, m) => let '(a, m') := g m in Ret (a, (f, m')).

(** [print_str], whose buffer has 128 entries. *)
Definition print_char (b : Z) (buf : list Z) (i : Z) : outcome (list Z * Z) :=
  if b =? 10 then
    if i <? 126 then (buf1 ← store buf i 13; buf2 ← store buf1 (i + 1) 10; Ret (buf2, i + 2)) else Ret (buf, i)
  else if i <? 127 then (buf1 ← store buf i b; Ret (buf1, i + 1)) else Ret (buf, i).
Fixpoint print_bytes (s : list Z) (buf : list Z) (i : Z) : efi (list Z * Z) :=
  match s with
  | [] => mret (buf, i)
  | b :: s' =>
    '(buf1, i1) ← pure_ (print_char b buf i);
    if 126 <=? i1 then (buf2 ← pure_ (store buf1 i1 0); output buf2;; print_bytes s' buf2 0)
    else print_bytes s' buf1 i1
  end.
Definition print_str (con : bool) (s : string) : efi () :=
  if negb con then mret tt else
  '(buf, i) ← print_bytes (ascii_bytes s) (replicate 128 0) 0;
  if 0 <? i then (buf1 ← pure_ (store buf i 0); output buf1;; mret tt) else mret tt.

(** The root pointer in the table of configurations. *)
Fixpoint find_acpi (con : bool) (l : list EfiConfigurationTable) (acpi_rsdp : option Z) : efi (option Z) :=
  match l with
  | [] => mret acpi_rsdp
  | e :: l' =>
    if bool_decide (vendor_guid e = EFI_ACPI_20_TABLE_GUID) then
      print_str con ("[OK] ACPI 2.0+ RSDP located via EFI Configuration Table." ++ newline);; mret (Some (vendor_table e))
    else if (bool_decide (vendor_guid e = ACPI_10_TABLE_GUID) && bool_decide (acpi_rsdp = None))%bool then
      print_str con ("[OK] ACPI 1.0 RSDP located via EFI Configuration Table." ++ newline);; find_acpi con l' (Some (vendor_table e))
    else find_acpi con l' acpi_rsdp
  end.

(** How the loader ends: it returns to the firmware, it jumps to the kernel with the
    registers and the boot information (at the address in [rdi]), or the processor cannot
    fetch an instruction at an address once it uses the new tables. *)
Record handoff := mkHandoff { cr3 : Z; rsp : Z; rdi : Z; rip : Z; info : BootInfo }.
Inductive ending := Returned (status : Z) | Jumped (h : handoff) | Faulted (a : Z).

(** Addresses the image of the loader gives: the embedded kernel and its size, the
    static boot information, the bytes of the three instructions after [mov cr3], and what
    lies beyond the buffer of the memory map. *)
Context (kernel_elf kernel_elf_size boot_info_addr : Z) (jump_code : list Z) (outside : Z -> Z).

Definition exit_services (con : bool) : efi (result map_reply ()) :=
  '(status, r) ← memory_map_call 32768;
  if negb (status =? EFI_SUCCESS) then print_str con ("[ERR] Failed to retrieve UEFI memory map." ++ newline);; mret (Err ()) else
  print_str con ("[OK] Exiting UEFI Boot Services. Transferring control to AuraOS..." ++ newline);;
  exit_status ← exit_call (map_key r);
  if exit_status =? EFI_SUCCESS then mret (Ok r) else
  '(_, r2) ← memory_map_call 32768;
  second_try ← exit_call (map_key r2);
  if negb (second_try =? EFI_SUCCESS) then mret (Err ()) else mret (Ok r2).

(** Once [cr3] is loaded each byte of code is fetched through the new tables, which have to
    map it to where it is; the first one that they do not is the fault. *)
Definition fetchable (m : memory) (table a : Z) : bool := bool_decide (Paging.virt_to_phys (words m) table a = Some a).
Fixpoint fetch_fault (m : memory) (table : Z) (code : list Z) : option Z :=
  match code with
  | [] => None
  | a :: code' => if fetchable m table a then fetch_fault m table code' else Some a
  end.

Definition transfer (page_tables_addr stack_top entry_point : Z) (acpi_rsdp : option Z) (r : map_reply) : efi ending :=
  '(regions, count) ← pure_ (convert 256 outside r (replicate 256 empty_region) 0 0);
  let boot_info := mkBootInfo BOOT_INFO_MAGIC (take (Z.to_nat count) regions) acpi_rsdp Boot.Uefi in
  fault ← on_memory (fun m => (fetch_fault m page_tables_addr (jump_code ++ [entry_point]), m));
  match fault with
  | Some a => mret (Faulted a)
  | None => mret (Jumped (mkHandoff page_tables_addr stack_top boot_info_addr entry_point boot_info))
  end.

(** Once the kernel is in memory: the tables, the stack, the end of the services. *)
Definition finish (con : bool) (acpi_rsdp : option Z) (entry_point : Z) : efi ending :=
  '(pt_status, page_tables_addr) ← allocate AllocateAnyPages RuntimeServicesData 4 0;
  if negb (pt_status =? EFI_SUCCESS) then print_str con ("[ERR] Failed to allocate page tables." ++ newline);; mret (Returned EFI_LOAD_ERROR) else
  '(stack_status, stack_addr) ← allocate AllocateAnyPages RuntimeServicesData 8 0;
  if negb (stack_status =? EFI_SUCCESS) then print_str con ("[ERR] Failed to allocate kernel stack." ++ newline);; mret (Returned EFI_LOAD_ERROR) else
  on_memory (fun m => (tt, build_tables page_tables_addr m));;
  exited ← exit_services con;
  match exited with
  | Err _ => mret (Returned EFI_LOAD_ERROR)
  | Ok r => transfer page_tables_addr (u64_add stack_addr (8 * 4096)) entry_point acpi_rsdp r
  end.

Definition efi_main (system_table : option EfiSystemTable) : efi ending :=
  match system_table with
  | None => mret (Returned EFI_LOAD_ERROR)
  | Some st =>
    if negb (boot_services st) then mret (Returned EFI_LOAD_ERROR) else
    let con := con_out st in
    print_str con ("============================================================" ++ newline);;
    print_str con ("        AuraOS Native 64-bit UEFI Bootloader v0.1.0        " ++ newline);;
    print_str con ("============================================================" ++ newline);;
    acpi_rsdp ← find_acpi con (default [] (configuration_table st)) None;
    allocate AllocateAddress LoaderData 2560 0x100000;;
    print_str con ("[OK] Parsing and deploying AuraOS kernel ELF image..." ++ newline);;
    loaded ← on_memory (load_elf kernel_elf kernel_elf_size);
    match loaded with
    | Err _ => print_str con ("[ERR] Failed to parse/deploy kernel ELF." ++ newline);; mret (Returned EFI_LOAD_ERROR)
    | Ok entry_point =>
      print_str con ("[OK] Kernel segments deployed at 0x100000. Entry point verified." ++ newline);;
      finish con acpi_rsdp entry_point
    end
  end.
End Main.
End Uefi.
