(* ===== verification/UefiBoot.v ===== *)
(** * The hand-over from the firmware to the kernel (theorems about Uefi.v)

    The tables the loader builds, the segments it copies and the memory map it converts,
    put together for [efi_main]: over every firmware that keeps to its documentation (the
    class [Firmware]) the kernel is entered with its image in place, with the identity
    mapping it expects, and with a map from which its physical memory manager never gives
    out a page of the loader, the kernel, the tables or the stack. *)

From stdpp Require Import prelude numbers list strings.
From Stdlib Require Import ZifyBool.
From S2P Require Import Prelude Bytes Io Pmm Paging Elf Uefi.

Module UefiBoot.
Import Bytes Boot Uefi.

(** ** Words and bytes *)
Lemma words_ext m m' a : (forall x, a <= x < a + 8 -> m x = m' x) -> words m a = words m' a.
Proof. intros E. unfold words. f_equal. apply list_fmap_ext. intros i k Hk. apply lookup_seq in Hk. apply E. lia. Qed.

Lemma words_write_eq m a w : in_u 64 w -> words (write_u64 m a w) a = w.
Proof.
  intros Hw. unfold words, write_u64. transitivity (le_value (to_le 8 w)); [|by apply le_value_to_le]. f_equal.
  apply list_eq_same_length with 8%nat; [by rewrite length_to_le|by rewrite length_fmap, length_seq|].
  intros i x y Hi Hx Hy. apply list_lookup_fmap_Some in Hx as (k & -> & Hk). apply lookup_seq in Hk as [-> _].
  unfold poke, len. rewrite length_to_le. replace (_ && _)%bool with true by lia.
  replace (Z.to_nat _) with i by lia. by rewrite (nth_lookup_Some _ _ _ _ Hy).
Qed.
Lemma words_write_ne m a w x : x + 8 <= a \/ a + 8 <= x -> words (write_u64 m a w) x = words m x.
Proof. intros Hx. apply words_ext. intros y Hy. unfold write_u64, poke, len. rewrite length_to_le. by replace (_ && _)%bool with false by lia. Qed.
Lemma words_zero m t n x : t <= x -> x + 8 <= t + n -> words (write_bytes m t 0 n) x = 0.
Proof.
  intros Hx Hn. transitivity (words (fun _ => 0) x); [|done]. apply words_ext. intros y Hy. unfold write_bytes. by replace (_ && _)%bool with true by lia.
Qed.
Lemma words_zero_ne m t n x : x + 8 <= t \/ t + n <= x -> words (write_bytes m t 0 n) x = words m x.
Proof. intros Hx. apply words_ext. intros y Hy. unfold write_bytes. by replace (_ && _)%bool with false by lia. Qed.

Definition table_word (sh fl i : Z) : Z := Z.lor (u64_shl i sh) fl.
Lemma table_word_u64 sh fl i : in_u 64 fl -> in_u 64 (table_word sh fl i).
Proof. intros H. apply in_u_lor; [lia| |done]. apply in_u_mod. lia. Qed.

Lemma words_fill_ne n i t sh fl m x : x + 8 <= t + 8 * i \/ t + 8 * (i + Z.of_nat n) <= x -> words (fill n i t sh fl m) x = words m x.
Proof.
  revert i m. induction n as [|n IH]; intros i m Hx; [done|]. cbn [fill]. rewrite IH by lia. apply words_write_ne. lia.
Qed.
Lemma words_fill n i t sh fl m k : in_u 64 fl -> words (fill n i t sh fl m) (t + 8 * k) = if ((i <=? k) && (k <? i + Z.of_nat n))%bool then table_word sh fl k else words m (t + 8 * k).
Proof.
  intros Hfl. revert i m. induction n as [|n IH]; intros i m; cbn [fill]; [by replace (_ && _)%bool with false by lia|].
  rewrite IH. destruct (decide (k = i)) as [->|Hk].
  - replace (_ && _)%bool with false by lia. replace (_ && _)%bool with true by lia. apply words_write_eq. by apply table_word_u64.
  - rewrite words_write_ne by lia. destruct ((i + 1 <=? k) && _)%bool eqn:E; [by replace (_ && _)%bool with true by lia|by replace (_ && _)%bool with false by lia].
Qed.

(** ** The tables *)
Definition rw : Z := 3.
Definition rw_huge : Z := 131.

(** The entries of the four tables. *)
Definition tables_ok (w : memory) (t : Z) : Prop := forall i, 0 <= i < 512 ->
  w (t + 8 * i) = (if i =? 0 then Z.lor (t + 0x1000) rw else 0) /\
  w (t + 0x1000 + 8 * i) = (if i =? 0 then Z.lor (t + 0x2000) rw else if i =? 3 then Z.lor 0xC0000000 rw_huge else 0) /\
  w (t + 0x2000 + 8 * i) = (if i =? 0 then Z.lor (t + 0x3000) rw else if i <? 256 then table_word 21 rw_huge i else 0) /\
  w (t + 0x3000 + 8 * i) = table_word 12 rw i.
Lemma tables_built t m : 0 <= t -> t + 0x4000 <= 2 ^ 52 -> tables_ok (words (build_tables t m)) t.
Proof.
  intros Ht Ht2 i Hi. unfold build_tables. cbv zeta. rewrite !u64_add_small by lia.
  change (Z.lor PRESENT WRITABLE) with rw. change (Z.lor PRESENT (Z.lor WRITABLE HUGE_PAGE)) with rw_huge.
  assert (Hu : forall k, 0 <= k <= 0x3000 -> in_u 64 (Z.lor (t + k) rw)). { intros k Hk. apply in_u_lor; unfold in_u, rw; lia. }
  assert (H1 : in_u 64 rw) by (unfold in_u, rw; lia). assert (H2 : in_u 64 rw_huge) by (unfold in_u, rw_huge; lia).
  assert (H3 : in_u 64 (Z.lor 0xC0000000 rw_huge)) by (apply in_u_lor; unfold in_u, rw_huge; lia).
  repeat split.
  - rewrite !words_fill_ne, 3!words_write_ne by lia. destruct (Z.eqb_spec i 0) as [->|].
    + rewrite Z.mul_0_r, Z.add_0_r. apply words_write_eq, Hu. lia.
    + rewrite words_write_ne, 3!words_zero_ne, words_zero by lia. done.
  - rewrite !words_fill_ne, (words_write_ne _ (t + 0x2000)) by lia. destruct (Z.eqb_spec i 3) as [->|].
    + rewrite words_write_eq by done. done.
    + rewrite words_write_ne by lia. destruct (Z.eqb_spec i 0) as [->|].
      * rewrite Z.mul_0_r, Z.add_0_r. apply words_write_eq, Hu. lia.
      * rewrite !words_write_ne, (words_zero_ne _ (t + 0x3000)), (words_zero_ne _ (t + 0x2000)), words_zero by lia. done.
  - rewrite words_fill by done. change (Z.of_nat 255) with 255. destruct (Z.eqb_spec i 0) as [->|].
    + cbn [Z.leb Z.ltb Z.compare Z.add andb]. rewrite words_fill_ne, Z.mul_0_r, Z.add_0_r by lia. apply words_write_eq, Hu. lia.
    + destruct (Z.ltb_spec i 256); [by replace (_ && _)%bool with true by lia|]. replace (_ && _)%bool with false by lia.
      rewrite words_fill_ne, !words_write_ne, (words_zero_ne _ (t + 0x3000)), words_zero by lia. done.
  - rewrite words_fill_ne, words_fill by (done || lia). by replace (_ && _)%bool with true by lia.
Qed.

Lemma tables_same m m' t : (forall x, t <= x < t + 0x4000 -> m' x = m x) -> tables_ok (words m) t -> tables_ok (words m') t.
Proof.
  intros E Ho i Hi. assert (Hw : forall k, 0 <= k <= 0x3000 -> words m' (t + k + 8 * i) = words m (t + k + 8 * i)) by (intros k Hk; apply words_ext; intros x Hx; apply E; lia).
  destruct (Ho i Hi) as (<- & <- & <- & <-). rewrite !Hw by lia. split; [|done]. rewrite <- (Z.add_0_r t). apply Hw. lia.
Qed.

(** Nothing but the four frames is written. *)
Lemma fill_frame n i t sh fl m x : x < t + 8 * i \/ t + 8 * (i + Z.of_nat n) <= x -> fill n i t sh fl m x = m x.
Proof.
  revert i m. induction n as [|n IH]; intros i m Hx; [done|]. cbn [fill]. rewrite IH by lia. unfold write_u64, poke, len. rewrite length_to_le. by replace (_ && _)%bool with false by lia.
Qed.
Lemma tables_frame t m x : 0 <= t -> t + 0x4000 <= 2 ^ 52 -> x < t \/ t + 0x4000 <= x -> build_tables t m x = m x.
Proof.
  intros Ht Ht2 Hx. unfold build_tables. cbv zeta. rewrite !u64_add_small by lia. rewrite !fill_frame by lia.
  unfold write_u64, poke, len. rewrite !length_to_le. unfold write_bytes. by repeat replace (_ && _)%bool with false by lia.
Qed.

Lemma table_frame t k : 0 <= t -> t mod 4096 = 0 -> t + 0x4000 <= 2 ^ 52 -> 0 <= k <= 3 -> Paging.frame_addr (t + k * 4096).
Proof. intros Ht Hm Ht2 Hk. split; [lia|]. change Paging.PAGE_SIZE with 4096. by rewrite Z.mod_add by lia. Qed.

Lemma entry_rw b : Paging.frame_addr b -> Paging.is_present (Z.lor b rw) = true /\ Paging.is_huge (Z.lor b rw) = false /\ Paging.entry_addr (Z.lor b rw) = b.
Proof.
  intros Hb. rewrite Paging.is_present_bit, Paging.is_huge_bit, (Paging.base_entry b rw 0), (Paging.base_entry b rw 7), Paging.base_entry_addr by (done || (unfold in_u, rw; lia)). done.
Qed.
Lemma entry_rw_huge b : Paging.frame_addr b -> Paging.is_present (Z.lor b rw_huge) = true /\ Paging.is_huge (Z.lor b rw_huge) = true /\ Paging.entry_addr (Z.lor b rw_huge) = b.
Proof.
  intros Hb. rewrite Paging.is_present_bit, Paging.is_huge_bit, (Paging.base_entry b rw_huge 0), (Paging.base_entry b rw_huge 7), Paging.base_entry_addr by (done || (unfold in_u, rw_huge; lia)). done.
Qed.

Definition identity_mapped (a : Z) : bool := ((a <? 0x20000000) || ((0xC0000000 <=? a) && (a <? 0x100000000)))%bool.

(** The tables map the first 512 MiB and the fourth GiB to themselves and nothing else. *)
Lemma tables_map w t a : tables_ok w t -> 0 <= t -> t mod 4096 = 0 -> t + 0x4000 <= 2 ^ 52 -> 0 <= a < 2 ^ 48 ->
  Paging.virt_to_phys w t a = if identity_mapped a then Some a else None.
Proof.
  intros He Ht Hm Ht2 Ha.
  pose proof (Paging.index_range a 39) as I4. pose proof (Paging.index_range a 30) as I3. pose proof (Paging.index_range a 21) as I2. pose proof (Paging.index_range a 12) as I1.
  unfold Paging.virt_to_phys, Paging.entry, Paging.slot, Paging.read_word.
  rewrite (proj1 (He _ I4)). destruct (Z.eqb_spec (Z.land (Z.shiftr a 39) 511) 0) as [E4|N4].
  2:{ change (Paging.is_present 0) with false. cbn [negb]. rewrite Paging.index_low, Z.shiftr_div_pow2 in N4 by lia. unfold identity_mapped. replace (_ || _)%bool with false; [done|].
      destruct (Z_lt_le_dec a (2 ^ 39)); [rewrite Z.div_small in N4 by lia; done|lia]. }
  rewrite Paging.index_low, Z.shiftr_div_pow2 in E4 by lia. assert (Ha39 : a < 2 ^ 39). { destruct (Z_lt_le_dec a (2 ^ 39)); [done|]. pose proof (Z.div_le_lower_bound a (2 ^ 39) 1). lia. }
  pose proof (table_frame t 1) as F1. pose proof (table_frame t 2) as F2. pose proof (table_frame t 3) as F3. cbn [Z.mul Pos.mul] in *.
  destruct (entry_rw (t + 4096)) as (-> & _ & ->); [by apply F1|]. cbn [negb].
  rewrite (proj1 (proj2 (He _ I3))). rewrite (Paging.index_low a 30) in * by lia. rewrite (Z.shiftr_div_pow2 a 30) in * by lia.
  pose proof (Z.div_mod a (2 ^ 30) ltac:(lia)) as D30. pose proof (Z.mod_pos_bound a (2 ^ 30) ltac:(lia)) as M30. remember (a / 2 ^ 30) as q eqn:Eq. unfold identity_mapped.
  destruct (Z.eqb_spec q 0) as [->|N0]; [|destruct (Z.eqb_spec q 3) as [->|N3]].
  - destruct (entry_rw (t + 8192)) as (-> & -> & ->); [by apply F2|]. cbn [negb].
    rewrite (proj1 (proj2 (proj2 (He _ I2)))). rewrite (Paging.index_low a 21) in * by lia.
    pose proof (Z.shiftr_div_pow2 a 21 ltac:(lia)) as S21. destruct (Z.eqb_spec (Z.shiftr a 21) 0) as [E2|N2]; [|destruct (Z.ltb_spec (Z.shiftr a 21) 256) as [L|G]].
    + destruct (entry_rw (t + 12288)) as (-> & -> & ->); [by apply F3|]. cbn [negb]. rewrite (proj2 (proj2 (proj2 (He _ I1)))).
      rewrite (Paging.index_low a 12) in * by (rewrite E2 in S21; pose proof (Z.div_small_iff a (2 ^ 21)); lia).
      destruct (Paging.shift_frame (Z.shiftr a 12) 12) as [Hf Hs]; [lia|lia|]. unfold table_word. rewrite Hs. destruct (entry_rw _ Hf) as (-> & _ & ->). cbn [negb].
      replace (_ || _)%bool with true by (rewrite E2 in S21; pose proof (Z.div_small_iff a (2 ^ 21)); lia).
      change 0xFFF with (2 ^ 12 - 1). by rewrite Paging.lor_split.
    + destruct (Paging.shift_frame (Z.shiftr a 21) 21) as [Hf Hs]; [lia|lia|]. unfold table_word. rewrite Hs. destruct (entry_rw_huge _ Hf) as (-> & -> & ->). cbn [negb].
      replace (_ || _)%bool with true by (rewrite S21 in L; pose proof (Z.div_lt_upper_bound a (2 ^ 21) 256); pose proof (Z.mul_div_le a (2 ^ 21)); pose proof (Z.mod_pos_bound a (2 ^ 21)); pose proof (Z.div_mod a (2 ^ 21)); lia).
      change 0x1FFFFF with (2 ^ 21 - 1). by rewrite Paging.lor_split.
    + change (Paging.is_present 0) with false. cbn [negb]. replace (_ || _)%bool with false; [done|]. rewrite S21 in G. pose proof (Z.mul_div_le a (2 ^ 21)). lia.
  - destruct (entry_rw_huge 0xC0000000) as (-> & -> & ->); [split; [lia|done]|]. cbn [negb]. replace (_ || _)%bool with true by lia.
    change 0xC0000000 with (Z.shiftl 3 30). change 0x3FFFFFFF with (2 ^ 30 - 1). rewrite Eq, <- Z.shiftr_div_pow2, Paging.lor_split by lia. done.
  - change (Paging.is_present 0) with false. cbn [negb]. by replace (_ || _)%bool with false by lia.
Qed.

(** ** The image of the kernel *)

(** The bytes [d] are in memory at [base]. *)
Record holds (m : memory) (base : Z) (d : list Z) : Prop := { h_range : 0 <= base /\ base + len d <= 2 ^ 63; h_bytes : forall i, 0 <= i < len d -> m (base + i) = nth (Z.to_nat i) d 0 }.

Lemma holds_bytes_at m base d o i n : holds m base d -> 0 <= i -> i + Z.of_nat n <= len d -> Elf.bytes_at (peek m base) [] i n = Elf.bytes_at o d i n.
Proof.
  intros [[Hb Hl] Hm] Hi Hn. apply list_fmap_ext. intros j k Hk. apply lookup_seq in Hk. unfold Elf.byte_at, peek. cbn [length].
  rewrite u64_add_small by lia. unfold len in *. replace (_ && _)%bool with false by lia. replace (_ && _)%bool with true by lia.
  rewrite u64_add_small by lia. apply Hm. lia.
Qed.
Lemma holds_ehdr m base d o : holds m base d -> Elf.EHDR_SIZE <= len d -> Elf.read_ehdr (peek m base) [] = Elf.read_ehdr o d.
Proof. intros Hh Hl. unfold Elf.EHDR_SIZE in Hl. unfold Elf.read_ehdr, Elf.field. by rewrite !(holds_bytes_at m base d o) by (done || lia). Qed.
Lemma holds_phdr m base d o i : holds m base d -> 0 <= i -> i + Elf.PHDR_SIZE <= len d -> Elf.read_phdr (peek m base) [] i = Elf.read_phdr o d i.
Proof. intros Hh Hi Hl. unfold Elf.PHDR_SIZE in Hl. unfold Elf.read_phdr, Elf.field. by rewrite !(holds_bytes_at m base d o) by (done || lia). Qed.

(** Where a segment goes, and what is there once it is loaded. *)
Definition is_load (ph : Elf.Elf64ProgramHeader) : Prop := Elf.p_type ph = Elf.PT_LOAD.
Definition in_segment (ph : Elf.Elf64ProgramHeader) (x : Z) : Prop := is_load ph /\ Elf.p_paddr ph <= x < Elf.p_paddr ph + Elf.p_memsz ph.
Definition loaded (d : list Z) (m : memory) (ph : Elf.Elf64ProgramHeader) : Prop := is_load ph -> forall i, 0 <= i < Elf.p_memsz ph ->
  m (Elf.p_paddr ph + i) = if i <? Elf.p_filesz ph then nth (Z.to_nat (Elf.p_offset ph + i)) d 0 else 0.
(** A segment inside the 10 MiB at 1 MiB, with its data inside the file. *)
Record placed (size : Z) (ph : Elf.Elf64ProgramHeader) : Prop := {
  pl_file : 0 <= Elf.p_offset ph /\ 0 <= Elf.p_filesz ph /\ Elf.p_offset ph + Elf.p_filesz ph <= size;
  pl_mem : Elf.p_filesz ph <= Elf.p_memsz ph;
  pl_range : 0x100000 <= Elf.p_paddr ph /\ Elf.p_paddr ph + Elf.p_memsz ph <= 0xB00000
}.
Fixpoint separate (l : list Elf.Elf64ProgramHeader) : Prop :=
  match l with [] => True | p :: l' => Forall (fun q => forall x, in_segment p x -> ~ in_segment q x) l' /\ separate l' end.

Lemma copied_segment_spec m base d ph : holds m base d -> (is_load ph -> placed (len d) ph) -> (base + len d <= 0x100000 \/ 0xB00000 <= base) ->
  exists m', load_segment base (len d) ph m = (Ok (), m') /\ loaded d m' ph /\ forall x, ~ in_segment ph x -> m' x = m x.
Proof.
  intros [[Hb Hl] Hm] Hp Hout. unfold load_segment, loaded, in_segment, is_load in *. destruct (Z.eqb_spec (Elf.p_type ph) Elf.PT_LOAD) as [Ht|Ht]; cbn [negb].
  2:{ exists m. split; [done|]. split; [done|]. done. }
  destruct (Hp Ht) as [(H1 & H2 & H3) H4 (H5 & H6)]. rewrite (u64_add_small (Elf.p_offset ph)) by lia. replace (len d <? _) with false by lia.
  rewrite !u64_add_small by lia.
  assert (Hc : forall i, 0 <= i < Elf.p_filesz ph -> peek m (base + Elf.p_offset ph) i = nth (Z.to_nat (Elf.p_offset ph + i)) d 0).
  { intros i Hi. unfold peek. rewrite u64_add_small by lia. rewrite <- Hm by lia. f_equal. lia. }
  set (m1 := copy_nonoverlapping m (base + Elf.p_offset ph) (Elf.p_paddr ph) (Elf.p_filesz ph)).
  assert (Hm1 : forall x, m1 x = if ((Elf.p_paddr ph <=? x) && (x <? Elf.p_paddr ph + Elf.p_filesz ph))%bool then nth (Z.to_nat (Elf.p_offset ph + (x - Elf.p_paddr ph))) d 0 else m x).
  { intros x. unfold m1, copy_nonoverlapping. destruct (_ && _)%bool eqn:E; [|done]. apply Hc. lia. }
  clearbody m1. destruct (Z.ltb_spec (Elf.p_filesz ph) (Elf.p_memsz ph)).
  - eexists. split; [reflexivity|]. unfold write_bytes. split.
    + intros _ i Hi. rewrite Hm1. destruct (Z.ltb_spec i (Elf.p_filesz ph)).
      * replace (_ && _)%bool with false by lia. replace (_ && _)%bool with true by lia. do 2 f_equal. lia.
      * by replace (_ && _)%bool with true by lia.
    + intros x Hx. rewrite Hm1. by repeat replace (_ && _)%bool with false by lia.
  - eexists. split; [reflexivity|]. split.
    + intros _ i Hi. rewrite Hm1. replace (i <? _) with true by lia. replace (_ && _)%bool with true by lia. do 2 f_equal. lia.
    + intros x Hx. rewrite Hm1. by replace (_ && _)%bool with false by lia.
Qed.

Lemma holds_frame m m' base d : holds m base d -> (forall x, base <= x < base + len d -> m' x = m x) -> holds m' base d.
Proof. intros [Hr Hm] Hf. split; [done|]. intros i Hi. rewrite Hf by lia. by apply Hm. Qed.

Lemma load_segments_spec base d h o phs : forall i m, holds m base d -> (base + len d <= 0x100000 \/ 0xB00000 <= base) ->
  (forall k ph, phs !! k = Some ph -> let off := u64_add (Elf.phoff h) (u64_mul (i + Z.of_nat k) (Elf.phentsize h)) in 0 <= off /\ off + Elf.PHDR_SIZE <= len d /\ ph = Elf.read_phdr o d off) ->
  Forall (fun ph => is_load ph -> placed (len d) ph) phs -> separate phs ->
  exists m', load_segments (length phs) i base (len d) h m = (Ok (), m') /\ Forall (loaded d m') phs /\ forall x, Forall (fun ph => ~ in_segment ph x) phs -> m' x = m x.
Proof.
  induction phs as [|ph phs IH]; intros i m Hh Hout Hoff Hpl Hsep; cbn [length load_segments]; [by exists m|].
  destruct (Hoff 0%nat ph eq_refl) as (Ho1 & Ho2 & Hph). rewrite Z.add_0_r in *. pose proof (h_range _ _ _ Hh) as Hr. unfold Elf.PHDR_SIZE in Ho2.
  rewrite (u64_add_small _ Elf.PHDR_SIZE) by (unfold Elf.PHDR_SIZE; lia). replace (len d <? _) with false by (unfold Elf.PHDR_SIZE; lia).
  rewrite (holds_phdr m base d o) by (done || lia). rewrite <- Hph. inversion_clear Hpl as [|?? Hp Hpl']. destruct Hsep as [Hs Hsep].
  destruct (copied_segment_spec m base d ph Hh Hp Hout) as (m1 & -> & Hl1 & Hf1).
  destruct (IH (i + 1) m1) as (m' & E & Hl & Hf); [|done| |done|done|].
  - apply (holds_frame m); [done|]. intros x Hx. apply Hf1. intros [Ht Hin]. destruct (Hp Ht) as [_ _ ?]. lia.
  - intros k q Hq. replace (i + 1 + Z.of_nat k) with (i + Z.of_nat (S k)) by lia. by apply Hoff.
  - exists m'. split; [done|]. split.
    + constructor; [|done]. intros Ht j Hj. rewrite Hf; [by apply Hl1|]. eapply Forall_impl; [exact Hs|]. intros q Hq. apply Hq. split; [done|lia].
    + intros x Hx. inversion_clear Hx. rewrite Hf by done. by apply Hf1.
Qed.

(** A kernel file: one the kernel's own parser accepts, whose segments fit into the 10 MiB
    reserved for it and do not overlap, with its entry point in one of them. *)
Record kernel_image (o : Z -> Z) (d : list Z) (e : Elf.ElfBinary) (phs : list Elf.Elf64ProgramHeader) : Prop := {
  ki_bytes : is_bytes d; ki_size : len d < 2 ^ 63;
  ki_parse : Elf.parse o d = Ok e; ki_phdrs : Elf.program_headers o e = Ok phs;
  ki_placed : Forall (fun ph => is_load ph -> placed (len d) ph) phs; ki_separate : separate phs;
  ki_entry : exists ph, ph ∈ phs /\ in_segment ph (Elf.entry_point e)
}.

(** The headers the parser returns are the ones the loader goes through. *)
Lemma image_headers o d e phs : kernel_image o d e phs -> let h := Elf.header e in
  length phs = Z.to_nat (Elf.phnum h) /\
  forall k ph, phs !! k = Some ph -> let off := u64_add (Elf.phoff h) (u64_mul (0 + Z.of_nat k) (Elf.phentsize h)) in 0 <= off /\ off + Elf.PHDR_SIZE <= len d /\ ph = Elf.read_phdr o d off.
Proof.
  intros [Hb Hu Hp Hh _ _ _]. cbv zeta. pose proof (Elf.parse_Ok _ _ _ Hp) as (Ee & _). assert (Hd : Elf.data e = d) by (by rewrite Ee).
  unfold Elf.program_headers in Hh. destruct (Z.eqb_spec (Elf.phnum (Elf.header e)) 0) as [E0|N0]; [injection Hh as <-; rewrite E0; done|].
  destruct (Z.ltb_spec (Elf.phentsize (Elf.header e)) Elf.PHDR_SIZE) as [|Hs]; [done|]. unfold Elf.checked_mul, Elf.checked_add in Hh.
  destruct (Z.leb_spec (Elf.phnum (Elf.header e) * Elf.phentsize (Elf.header e)) u64_max); [|done].
  destruct (Z.leb_spec (Elf.phoff (Elf.header e) + Elf.phnum (Elf.header e) * Elf.phentsize (Elf.header e)) u64_max); [|done].
  rewrite Hd in Hh. destruct (Z.ltb_spec (Z.of_nat (length d)) (Elf.phoff (Elf.header e) + Elf.phnum (Elf.header e) * Elf.phentsize (Elf.header e))) as [|Hl]; [done|]. injection Hh as <-.
  split; [by rewrite length_fmap, length_seq|]. intros k ph Hk. apply list_lookup_fmap_Some in Hk as (j & -> & Hj). apply lookup_seq in Hj as [-> Hj].
  rewrite Z.add_0_l, Nat.add_0_l. destruct (Elf.table_in_bounds o d e (Z.of_nat k) Hb Hu Hp Hs Hl) as [? ?]; [lia|]. done.
Qed.

Lemma load_elf_spec base d o e phs m : kernel_image o d e phs -> holds m base d -> (base + len d <= 0x100000 \/ 0xB00000 <= base) ->
  exists m', load_elf base (len d) m = (Ok (Elf.entry_point e), m') /\ Forall (loaded d m') phs /\ forall x, ~ 0x100000 <= x < 0xB00000 -> m' x = m x.
Proof.
  intros K Hh Hout. pose proof (image_headers _ _ _ _ K) as [Hlen Hoff]. destruct K as [Hb Hu Hp _ Hpl Hsep _]. cbv zeta in Hlen, Hoff.
  apply Elf.parse_Ok in Hp as (Ee & Hd & Hm & Hc & He & Hx & _). assert (Hhd : Elf.header e = Elf.read_ehdr o d) by (by rewrite Ee).
  unfold load_elf. replace (len d <? Elf.EHDR_SIZE) with false by lia. cbv zeta. rewrite (holds_ehdr m base d o Hh Hd), <- Hhd.
  rewrite bool_decide_eq_true_2, Hc, He, Hx by done. cbn [negb Z.eqb Pos.eqb Elf.ELF_CLASS_64 Elf.ELF_DATA_2LSB Elf.ELF_MACHINE_X86_64 EM_X86_64].
  destruct (load_segments_spec base d (Elf.header e) o phs 0 m Hh Hout Hoff Hpl Hsep) as (m' & E & Hl & Hf). rewrite <- Hlen, E.
  exists m'. split; [done|]. split; [done|]. intros x Hx'. apply Hf. eapply Forall_impl; [exact Hpl|]. intros ph Hph [Ht Hin]. destruct (Hph Ht) as [_ _ ?]. lia.
Qed.

(** ** The memory map *)

(** A reply that holds the descriptors [l] one after the other. *)
Record describes (o : Z -> Z) (r : map_reply) (l : list EfiMemoryDescriptor) : Prop := {
  de_step : 0 < descriptor_size r < 2 ^ 32; de_size : map_size r = Z.of_nat (length l) * descriptor_size r; de_fits : map_size r <= 32768;
  de_desc : forall i d, l !! i = Some d -> read_desc o (buffer r) (Z.of_nat i * descriptor_size r) = d
}.

Lemma convert_spec o r l : describes o r l -> forall n done rest, (n + length done)%nat = 256%nat -> done = take (length done) l -> (length done + length rest)%nat = 256%nat ->
  exists regs, convert n o r ((region_of <$> done) ++ rest) (Z.of_nat (length done)) (Z.of_nat (length done) * descriptor_size r) = Ret (regs, Z.of_nat (Nat.min 256 (length l))) /\
    take (Nat.min 256 (length l)) regs = region_of <$> take 256 l.
Proof.
  intros [Hs Hsz Hfit Hd]. induction n as [|n IH]; intros dn rest Hn Hdn Hlen.
  - assert (length dn = 256)%nat as E by lia. cbn [convert]. rewrite E. replace (Z.of_nat 256 <? 256) with false by lia. rewrite andb_false_r.
    assert (length dn <= length l)%nat by (rewrite Hdn, length_take; lia). assert (rest = []) as -> by (destruct rest; [done|cbn in Hlen; lia]).
    exists ((region_of <$> dn) ++ []). rewrite app_nil_r, Nat.min_l by lia. split; [done|]. rewrite take_ge by (rewrite length_fmap; lia). rewrite E in Hdn. by rewrite <- Hdn.
  - assert (Hle : (length dn <= length l)%nat) by (rewrite Hdn, length_take; lia). cbn [convert]. rewrite u64_add_small by nia.
    destruct (decide (length dn < length l)%nat) as [Hlt|Hge].
    + replace (_ && _)%bool with true by nia. destruct rest as [|r0 rest]; [cbn in Hlen; lia|].
      destruct (lookup_lt_is_Some_2 l (length dn) Hlt) as [x Hx]. rewrite (Hd _ _ Hx).
      rewrite store_Ret by (rewrite length_app, length_fmap; cbn; lia). cbn [mbind outcome_bind]. rewrite Nat2Z.id.
      rewrite (insert_app_r_alt _ _ (length dn)) by (by rewrite length_fmap). rewrite length_fmap, Nat.sub_diag. cbn [insert list_insert].
      replace (Z.of_nat (length dn) + 1) with (Z.of_nat (length (dn ++ [x]))) by (rewrite length_app; cbn; lia).
      replace (Z.of_nat (length dn) * descriptor_size r + descriptor_size r) with (Z.of_nat (length (dn ++ [x])) * descriptor_size r) by (rewrite length_app; cbn; lia).
      rewrite cons_middle, app_assoc. replace ((region_of <$> dn) ++ [region_of x]) with (region_of <$> (dn ++ [x])) by (by rewrite fmap_app).
      apply IH; rewrite ?length_app; cbn in *; [lia| |lia]. rewrite Hdn at 1. rewrite Nat.add_1_r. by rewrite (take_S_r _ _ _ Hx).
    + replace (_ && _)%bool with false by nia. assert (length dn = length l)%nat as E by lia. exists ((region_of <$> dn) ++ rest). rewrite Nat.min_r, E by lia. split; [done|].
      rewrite take_app_le by (rewrite length_fmap; lia). rewrite take_ge by (rewrite length_fmap; lia). rewrite E, take_ge in Hdn by lia. rewrite take_ge by lia. by rewrite Hdn.
Qed.

(** The map handed to the kernel: the first 256 descriptors, region by region. *)
Lemma convert_map o r l : describes o r l ->
  exists regs n, convert 256 o r (replicate 256 empty_region) 0 0 = Ret (regs, n) /\ take (Z.to_nat n) regs = region_of <$> take 256 l.
Proof.
  intros D. destruct (convert_spec o r l D 256 [] (replicate 256 empty_region)) as (regs & E & H); [done|done|done|]. exists regs, (Z.of_nat (Nat.min 256 (length l))).
  rewrite Nat2Z.id. split; [exact E|done].
Qed.

(** ** The firmware *)
Definition page (x : Z) : Z := x / 4096.
Definition pages_of (a n p : Z) : Prop := page a <= p < page a + n.

(** A call that leaves the pages of the loader alone. *)
Record keeps {F} (mine : F -> Z -> Prop) (f : F) (m : memory) (f' : F) (m' : memory) : Prop := {
  kp_mine : forall p, mine f' p <-> mine f p; kp_mem : forall x, mine f (page x) -> m' x = m x
}.
(** A call that gives it [n] pages at [a] which were not its own. *)
Record grants {F} (mine : F -> Z -> Prop) (a n : Z) (f : F) (m : memory) (f' : F) (m' : memory) : Prop := {
  gr_base : 0 <= a /\ a mod 4096 = 0 /\ a + 4096 * n <= 2 ^ 52; gr_new : forall p, pages_of a n p -> ~ mine f p;
  gr_mine : forall p, mine f' p <-> mine f p \/ pages_of a n p; gr_mem : forall x, mine f (page x) -> m' x = m x
}.
(** A descriptor of whole pages; what becomes ordinary memory once the services end. *)
Record desc_ok (d : EfiMemoryDescriptor) : Prop := { do_start : 0 <= physical_start d /\ physical_start d mod 4096 = 0; do_pages : 0 <= number_of_pages d /\ physical_start d + 4096 * number_of_pages d <= 2 ^ 52 }.
Definition reclaimable (d : EfiMemoryDescriptor) : bool := ((desc_type d =? 3) || (desc_type d =? 4) || (desc_type d =? 7))%bool.

(** What the specification of the firmware says of the four services: [mine] are the pages
    of the loader's image and those it has allocated, [current_key] the key of the memory
    map.  A firmware with [roomy f k] can still serve [k] pages and has a map that
    fits into 32 KiB; [vacant] pages are free at a given place. *)
Class Firmware (F : Type) {BS : EfiBootServices F} (o : Z -> Z) := {
  mine : F -> Z -> Prop; current_key : F -> Z; roomy : F -> Z -> Prop; vacant : F -> Z -> Z -> Prop;
  output_law buf f m s f' m' : output_string buf f m = (s, f', m') -> keeps mine f m f' m' /\ (forall k, roomy f k -> roomy f' k) /\ (forall p n, vacant f p n -> vacant f' p n);
  any_pages_law ty n k f m s a f' m' : allocate_pages AllocateAnyPages ty n 0 f m = (s, a, f', m') -> roomy f k -> 0 < n <= k -> s = EFI_SUCCESS /\ roomy f' (k - n) /\ grants mine a n f m f' m';
  at_address_law ty n k a0 f m s a f' m' : allocate_pages AllocateAddress ty n a0 f m = (s, a, f', m') -> vacant f (page a0) n -> roomy f k -> 0 < n <= k -> a0 mod 4096 = 0 -> roomy f' (k - n) /\ grants mine a0 n f m f' m';
  map_law k f m s r f' m' : get_memory_map 32768 f m = (s, r, f', m') -> roomy f k -> s = EFI_SUCCESS /\ roomy f' k /\ keeps mine f m f' m' /\ map_key r = current_key f' /\
    exists l, describes o r l /\ Forall desc_ok l /\ Forall (fun d => reclaimable d = true -> forall p, pages_of (physical_start d) (number_of_pages d) p -> ~ mine f' p) l;
  exit_law key f m s f' m' : exit_boot_services key f m = (s, f', m') -> keeps mine f m f' m' /\ (s <> EFI_SUCCESS -> forall k, roomy f k -> roomy f' k) /\ (key = current_key f -> s = EFI_SUCCESS)
}.

Section Main.
Context {F : Type} {BS : EfiBootServices F} {o : Z -> Z} {FW : Firmware F o}.

Lemma keeps_refl f m : keeps mine f m f m.
Proof. by split. Qed.
Lemma keeps_trans f m f1 m1 f2 m2 : keeps mine f m f1 m1 -> keeps mine f1 m1 f2 m2 -> keeps mine f m f2 m2.
Proof. intros [A B] [C D]. split; [intros p; by rewrite C|]. intros x Hx. rewrite D by (by apply A). by apply B. Qed.

(** A step that leaves the loader alone and the firmware able to serve it. *)
Definition still (s s' : F * memory) : Prop := keeps mine s.1 s.2 s'.1 s'.2 /\ (forall k, roomy s.1 k -> roomy s'.1 k) /\ (forall p n, vacant s.1 p n -> vacant s'.1 p n).
Lemma still_refl s : still s s.
Proof. split; [apply keeps_refl|done]. Qed.
Lemma still_trans s s1 s2 : still s s1 -> still s1 s2 -> still s s2.
Proof. intros (A & B & C) (A' & B' & C'). split; [by eapply keeps_trans|]. split; auto. Qed.

(** [c] returns in [s], with a result and a state that [Q] describes. *)
Definition wp {A} (c : efi A) (s : F * memory) (Q : A -> F * memory -> Prop) : Prop := exists x s', c s = Ret (x, s') /\ Q x s'.
Lemma efi_ret {A} (x : A) s (Q : A -> F * memory -> Prop) : Q x s -> wp (mret x) s Q.
Proof. intros H. by exists x, s. Qed.
Lemma efi_bind {A B} (c : efi A) (k : A -> efi B) s Q R : wp c s Q -> (forall x s', Q x s' -> wp (k x) s' R) -> wp (c ≫= k) s R.
Proof. intros (x & s1 & E & H) K. destruct (K x s1 H) as (y & s2 & E2 & H2). exists y, s2. split; [|done]. unfold mbind, hwo_bind. by rewrite E. Qed.
Lemma wp_pure {A} (c : outcome A) x s (Q : A -> F * memory -> Prop) : c = Ret x -> Q x s -> wp (pure_ c) s Q.
Proof. intros -> H. by exists x, s. Qed.

Lemma wp_on_memory {A} (g : memory -> A * memory) f m a m' : g m = (a, m') -> wp (on_memory g) (f, m) (fun x s => x = a /\ s = (f, m')).
Proof. intros E. exists a, (f, m'). split; [|done]. unfold on_memory. by rewrite E. Qed.

Lemma wp_output buf s : wp (output buf) s (fun _ s' => still s s').
Proof. destruct s as [f m]. unfold wp, output. destruct (output_string buf f m) as [[st f'] m'] eqn:E. exists st, (f', m'). split; [done|]. by apply output_law in E. Qed.

(** [print_str] stays inside its buffer. *)
Lemma print_char_ok b buf i : length buf = 128%nat -> 0 <= i < 126 -> exists buf' i', print_char b buf i = Ret (buf', i') /\ length buf' = 128%nat /\ 0 <= i' < 128.
Proof.
  intros Hl Hi. unfold print_char. replace (i <? 126) with true by lia. replace (i <? 127) with true by lia. destruct (b =? 10).
  - rewrite store_Ret by lia. cbn [mbind outcome_bind]. rewrite store_Ret by (rewrite length_insert; lia). cbn [mbind outcome_bind]. eexists _, _. split; [reflexivity|]. rewrite !length_insert. lia.
  - rewrite store_Ret by lia. cbn [mbind outcome_bind]. eexists _, _. split; [reflexivity|]. rewrite length_insert. lia.
Qed.
Lemma wp_print_bytes l : forall buf i s, length buf = 128%nat -> 0 <= i < 126 -> wp (print_bytes l buf i) s (fun '(buf', i') s' => still s s' /\ length buf' = 128%nat /\ 0 <= i' < 126).
Proof.
  induction l as [|b l IH]; intros buf i s Hl Hi; cbn [print_bytes]; [apply efi_ret; split; [apply still_refl|done]|].
  destruct (print_char_ok b buf i Hl Hi) as (buf1 & i1 & E & Hl1 & Hi1). eapply efi_bind; [apply (wp_pure _ (buf1, i1) s (fun x s' => x = (buf1, i1) /\ s' = s)); [done|done]|].
  intros ? ? [-> ->]. destruct (Z.leb_spec 126 i1); [|apply IH; lia]. eapply efi_bind; [apply (wp_pure _ (<[Z.to_nat i1 := 0]> buf1) s (fun x s' => x = <[Z.to_nat i1 := 0]> buf1 /\ s' = s)); [apply store_Ret; lia|done]|].
  intros ? ? [-> ->]. eapply efi_bind; [apply wp_output|]. intros ? s1 H1. destruct (IH (<[Z.to_nat i1 := 0]> buf1) 0 s1) as ([buf2 i2] & s2 & E2 & H2 & ?); [by rewrite length_insert|lia|].
  exists (buf2, i2), s2. split; [done|]. split; [exact (still_trans _ _ _ H1 H2)|done].
Qed.
Lemma wp_print con str s : wp (print_str con str) s (fun _ s' => still s s').
Proof.
  unfold print_str. destruct con; [|apply efi_ret, still_refl]. cbn [negb]. eapply efi_bind; [apply wp_print_bytes; [done|lia]|]. intros [buf i] s1 (H1 & Hl & Hi).
  destruct (Z.ltb_spec 0 i); [|by apply efi_ret]. eapply efi_bind; [apply (wp_pure _ (<[Z.to_nat i := 0]> buf) s1 (fun x s' => s' = s1)); [apply store_Ret; lia|done]|].
  intros ? ? ->. eapply efi_bind; [apply wp_output|]. intros ? s2 H2. apply efi_ret. exact (still_trans _ _ _ H1 H2).
Qed.

(** The root pointer: of ACPI 2.0 when there is one, otherwise of ACPI 1.0. *)
Definition first_table (g : EfiGuid) (l : list EfiConfigurationTable) : option Z := (fun x => vendor_table x.2) <$> list_find (fun e => vendor_guid e = g) l.
Definition root_pointer (l : list EfiConfigurationTable) : option Z :=
  match first_table EFI_ACPI_20_TABLE_GUID l with Some a => Some a | None => first_table ACPI_10_TABLE_GUID l end.
Lemma first_table_cons g e l : first_table g (e :: l) = if decide (vendor_guid e = g) then Some (vendor_table e) else first_table g l.
Proof. unfold first_table. cbn [list_find]. destruct (decide _); [done|]. by destruct (list_find _ l) as [[??]|]. Qed.
Lemma wp_find_acpi con l : forall acc s, wp (find_acpi con l acc) s (fun x s' => still s s' /\
  x = match first_table EFI_ACPI_20_TABLE_GUID l with Some a => Some a | None => match acc with Some a => Some a | None => first_table ACPI_10_TABLE_GUID l end end).
Proof.
  induction l as [|e l IH]; intros acc s; cbn [find_acpi]; [apply efi_ret; split; [apply still_refl|by destruct acc]|]. rewrite !first_table_cons.
  case_bool_decide as G2; [rewrite decide_True by done|rewrite decide_False by done].
  - eapply efi_bind; [apply wp_print|]. intros [] s1 H1. by apply efi_ret.
  - case_bool_decide as G1; cbn [andb]; [rewrite (decide_True _ _ G1)|by rewrite (decide_False _ _ G1)].
    case_bool_decide as Ga; [|destruct acc; [apply IH|done]]. subst acc. eapply efi_bind; [apply wp_print|]. intros [] s1 H1.
    destruct (IH (Some (vendor_table e)) s1) as (x & s2 & E & H2 & ->). eexists _, s2. split; [exact E|]. split; [exact (still_trans _ _ _ H1 H2)|done].
Qed.

(** ** What the loader owns *)
Definition owns (f : F) (a n : Z) : Prop := forall x, a <= x < a + n -> mine f (page x).
Definition follows (s s' : F * memory) : Prop := (forall p, mine s.1 p -> mine s'.1 p) /\ (forall x, mine s.1 (page x) -> s'.2 x = s.2 x).

Lemma follows_refl s : follows s s.
Proof. by split. Qed.
Lemma follows_trans s s1 s2 : follows s s1 -> follows s1 s2 -> follows s s2.
Proof. intros [A B] [C D]. split; [auto|]. intros x Hx. rewrite D by auto. by apply B. Qed.
Lemma keeps_follows f m f' m' : keeps mine f m f' m' -> follows (f, m) (f', m').
Proof. intros [A B]. split; [|done]. intros p. by apply A. Qed.
Lemma still_follows s s' : still s s' -> follows s s'.
Proof. destruct s, s'. intros [H _]. by apply keeps_follows. Qed.
Lemma grants_follows a n f m f' m' : grants mine a n f m f' m' -> follows (f, m) (f', m').
Proof. intros [_ _ A B]. split; [|done]. intros p Hp. apply A. by left. Qed.
Lemma grants_owns a n f m f' m' : grants mine a n f m f' m' -> owns f' a (4096 * n).
Proof.
  intros [(H0 & H1 & H2) _ A _] x Hx. apply A. right. unfold pages_of, page. split; [apply Z.div_le_mono; lia|].
  apply Z.div_lt_upper_bound; [lia|]. pose proof (Z.div_mod a 4096). lia.
Qed.
Lemma grants_apart a n f m f' m' x : grants mine a n f m f' m' -> a <= x < a + 4096 * n -> ~ mine f (page x).
Proof.
  intros [(H0 & H1 & H2) A _ _] Hx. apply A. unfold pages_of, page. split; [apply Z.div_le_mono; lia|]. apply Z.div_lt_upper_bound; [lia|]. pose proof (Z.div_mod a 4096). lia.
Qed.

Lemma owns_follows s s' a n : follows s s' -> owns s.1 a n -> owns s'.1 a n.
Proof. intros [A _] H x Hx. apply A. by apply H. Qed.
Lemma tables_follow s s' t : follows s s' -> owns s.1 t 0x4000 -> tables_ok (words s.2) t -> tables_ok (words s'.2) t.
Proof. intros [_ B] H. apply tables_same. intros x Hx. by apply B, H. Qed.
Lemma holds_follow s s' base d : follows s s' -> owns s.1 base (len d) -> holds s.2 base d -> holds s'.2 base d.
Proof. intros [_ B] H Hh. apply (holds_frame s.2); [done|]. intros x Hx. by apply B, H. Qed.
Lemma loaded_follow s s' d phs : follows s s' -> owns s.1 0x100000 0xA00000 -> Forall (fun ph => is_load ph -> placed (len d) ph) phs -> Forall (loaded d s.2) phs -> Forall (loaded d s'.2) phs.
Proof.
  intros [_ B] H Hp Hl. rewrite Forall_forall in Hp. rewrite Forall_forall in Hl |- *. intros ph Hin Ht i Hi. destruct (Hp ph Hin Ht) as [_ _ [? ?]].
  rewrite B by (apply H; lia). by apply Hl.
Qed.

(** Owned ranges and newly granted pages do not meet. *)
Lemma owned_apart f a n b k f' m m' : owns f a n -> grants mine b k f m f' m' -> 0 < n -> 0 < k -> a + n <= b \/ b + 4096 * k <= a.
Proof.
  intros Ho G Hn Hk. destruct (decide (a + n <= b)) as [|H1]; [by left|]. destruct (decide (b + 4096 * k <= a)) as [|H2]; [by right|]. exfalso.
  apply (grants_apart _ _ _ _ _ _ (Z.max a b) G); [lia|]. apply Ho. lia.
Qed.

(** ** The calls of the loader *)

(** The firmware gives memory below 512 MiB. *)
Definition low_pages : Prop := forall ty n f m s a f' m', allocate_pages AllocateAnyPages ty n 0 f m = (s, a, f', m') -> s = EFI_SUCCESS -> a + 4096 * n <= 0x20000000.
Lemma wp_any_pages ty n k s : low_pages -> roomy s.1 k -> 0 < n <= k -> wp (allocate AllocateAnyPages ty n 0) s (fun '(st, a) s' => st = EFI_SUCCESS /\ roomy s'.1 (k - n) /\ grants mine a n s.1 s.2 s'.1 s'.2 /\ a + 4096 * n <= 0x20000000).
Proof.
  destruct s as [f m]. intros Hlow Hr Hn. unfold wp, allocate. destruct (allocate_pages _ _ _ _ f m) as [[[st a] f'] m'] eqn:E. exists (st, a), (f', m'). split; [done|].
  pose proof (Hlow _ _ _ _ _ _ _ _ E). eapply any_pages_law in E as (-> & ? & ?); [|done..]. auto.
Qed.
Lemma wp_at_address ty n k a0 s : vacant s.1 (page a0) n -> roomy s.1 k -> 0 < n <= k -> a0 mod 4096 = 0 -> wp (allocate AllocateAddress ty n a0) s (fun _ s' => roomy s'.1 (k - n) /\ grants mine a0 n s.1 s.2 s'.1 s'.2).
Proof. destruct s as [f m]. intros Hv Hr Hn Ha. unfold wp, allocate. destruct (allocate_pages _ _ _ _ f m) as [[[st a] f'] m'] eqn:E. exists (st, a), (f', m'). split; [done|]. by eapply at_address_law in E. Qed.

(** A map in which no page of the loader is ordinary memory. *)
Definition good_map (f : F) (r : map_reply) : Prop := exists l, describes o r l /\ Forall desc_ok l /\ Forall (fun d => reclaimable d = true -> forall p, pages_of (physical_start d) (number_of_pages d) p -> ~ mine f p) l.
Lemma good_map_keeps f m f' m' r : keeps mine f m f' m' -> good_map f r -> good_map f' r.
Proof. intros [A _] (l & D & H1 & H2). exists l. split; [done|]. split; [done|]. eapply Forall_impl; [exact H2|]. intros d Hd Hr p Hp Hm. apply (Hd Hr p Hp). by apply A. Qed.

Lemma wp_map k s : roomy s.1 k -> wp (memory_map_call 32768) s (fun '(st, r) s' => st = EFI_SUCCESS /\ roomy s'.1 k /\ keeps mine s.1 s.2 s'.1 s'.2 /\ map_key r = current_key s'.1 /\ good_map s'.1 r).
Proof. destruct s as [f m]. intros Hr. unfold wp, memory_map_call. destruct (get_memory_map 32768 f m) as [[[st r] f'] m'] eqn:E. exists (st, r), (f', m'). split; [done|]. by eapply map_law in E. Qed.
Lemma wp_exit key s : wp (exit_call key) s (fun st s' => keeps mine s.1 s.2 s'.1 s'.2 /\ (st <> EFI_SUCCESS -> forall k, roomy s.1 k -> roomy s'.1 k) /\ (key = current_key s.1 -> st = EFI_SUCCESS)).
Proof. destruct s as [f m]. unfold wp, exit_call. destruct (exit_boot_services key f m) as [[st f'] m'] eqn:E. exists st, (f', m'). split; [done|]. by apply exit_law in E. Qed.

(** Leaving the boot services succeeds at the second attempt at the latest. *)
Lemma wp_exit_services con k s : roomy s.1 k -> wp (exit_services con) s (fun x s' => keeps mine s.1 s.2 s'.1 s'.2 /\ exists r, x = Ok r /\ good_map s'.1 r).
Proof.
  intros Hr. unfold exit_services. eapply efi_bind; [by eapply wp_map|]. intros [st r] s1 (-> & Hr1 & K1 & _ & G1). cbn [negb Z.eqb EFI_SUCCESS].
  eapply efi_bind; [apply wp_print|]. intros [] s2 (K2 & Hr2 & _). eapply efi_bind; [apply wp_exit|]. intros st s3 (K3 & Hr3 & _).
  pose proof (keeps_trans _ _ _ _ _ _ (keeps_trans _ _ _ _ _ _ K1 K2) K3) as K. destruct (Z.eqb_spec st EFI_SUCCESS) as [->|Hne].
  - apply efi_ret. split; [done|]. exists r. split; [done|]. eapply good_map_keeps; [exact K3|]. by eapply good_map_keeps.
  - eapply efi_bind; [eapply wp_map; eauto|]. intros [st4 r2] s4 (-> & Hr4 & K4 & Hk & G4). eapply efi_bind; [apply wp_exit|]. intros st5 s5 (K5 & _ & Hs).
    rewrite (Hs Hk). cbn [negb Z.eqb EFI_SUCCESS]. apply efi_ret. split; [eapply keeps_trans; [exact K|]; by eapply keeps_trans|]. exists r2. split; [done|]. by eapply good_map_keeps.
Qed.

(** The physical memory manager on such a map. *)
Lemma usable_reclaimable d : Pmm.is_usable (region_of d) = true -> reclaimable d = true.
Proof. unfold Pmm.is_usable, region_of, region_kind, reclaimable. cbn [Pmm.mr_kind]. repeat case_match; lia || done. Qed.
Lemma good_map_pmm f l : Forall desc_ok l -> Forall (fun d => reclaimable d = true -> forall p, pages_of (physical_start d) (number_of_pages d) p -> ~ mine f p) l ->
  exists p, Pmm.init Pmm.new (region_of <$> take 256 l) = Ret p /\ Pmm.wf p /\ forall a, Pmm.addr_free p a -> ~ mine f (page a).
Proof.
  intros Hok Hm. destruct (Pmm.init_view Pmm.new (region_of <$> take 256 l)) as (p & E & Hwf & _ & _ & Hv); [done| |].
  - apply Forall_fmap, Forall_take. eapply Forall_impl; [exact Hok|]. intros d [[H1 H2] [H3 H4]]. unfold Pmm.region_ok, region_of, compose, Pmm.PAGE_SIZE. cbn [fst Pmm.mr_start]. lia.
  - exists p. split; [done|]. split; [done|]. intros a (Ha & r & Hr & Hu & Hin)%Hv. apply elem_of_take in Hr as (i & Hr & _).
    apply list_lookup_fmap_Some in Hr as (d & -> & Hd). apply lookup_take_Some in Hd as [Hd _]. destruct (Forall_lookup_1 _ _ _ _ Hok Hd) as [[H1 H2] [H3 H4]].
    apply (Forall_lookup_1 _ _ _ _ Hm Hd (usable_reclaimable _ Hu)). cbn [region_of Pmm.mr_start Pmm.mr_end] in Hin. rewrite u64_mul_small, u64_add_small in Hin by lia.
    unfold pages_of, page. split; [apply Z.div_le_mono; lia|]. apply Z.div_lt_upper_bound; [lia|]. pose proof (Z.div_mod (physical_start d) 4096). lia.
Qed.

(** ** The hand-over *)
Context (boot_info_addr base : Z) (jump_code : list Z) (d : list Z) (e : Elf.ElfBinary) (phs : list Elf.Elf64ProgramHeader).

(** It has loaded the loader, its code and the boot information, below 512 MiB. *)
Record low_image (img n : Z) : Prop := {
  li_range : 0 <= img /\ img + n <= 0x20000000;
  li_code : Forall (fun a => img <= a < img + n) jump_code; li_info : img <= boot_info_addr < img + n
}.

(** What the kernel finds when it is entered. *)
Record boots (st : EfiSystemTable) (h : handoff) (s : F * memory) : Prop := {
  bo_registers : rip h = Elf.entry_point e /\ rdi h = boot_info_addr;
  bo_image : Forall (loaded d s.2) phs;
  bo_tables : forall a, 0 <= a < 2 ^ 48 -> Paging.virt_to_phys (words s.2) (cr3 h) a = if identity_mapped a then Some a else None;
  bo_mapped : forall a, rsp h - 0x8000 <= a < rsp h \/ cr3 h <= a < cr3 h + 0x4000 -> identity_mapped a = true;
  bo_owned : owns s.1 base (len d) /\ owns s.1 0x100000 0xA00000 /\ owns s.1 (cr3 h) 0x4000 /\ owns s.1 (rsp h - 0x8000) 0x8000;
  bo_info : magic (info h) = BOOT_INFO_MAGIC /\ boot_method (info h) = Boot.Uefi /\ acpi_rsdp (info h) = root_pointer (default [] (configuration_table st));
  bo_frames : exists p, kernel_main_memory (info h) Pmm.new = Ret (Some (info h), p) /\ Pmm.wf p /\ forall a, Pmm.addr_free p a -> ~ mine s.1 (page a)
}.

(** How the hand-over ends: with the first byte of the code the tables do not map, or in
    the kernel. *)
Definition unmapped (l : list Z) : option Z := List.find (fun a => negb (identity_mapped a)) l.
Definition switches (h : handoff) : ending := match unmapped jump_code with Some a => Faulted a | None => Jumped h end.
Definition hands_over (st : EfiSystemTable) (x : ending) (s : F * memory) : Prop := exists h, x = switches h /\ boots st h s.

Lemma fetch_fault_unmapped m t l : (forall a, 0 <= a < 2 ^ 48 -> Paging.virt_to_phys (words m) t a = if identity_mapped a then Some a else None) ->
  Forall (fun a => 0 <= a < 2 ^ 48) l -> fetch_fault m t l = unmapped l.
Proof.
  intros Ht. induction 1 as [|a l Ha Hl IH]; [done|]. cbn [fetch_fault unmapped List.find]. unfold fetchable. rewrite Ht by done.
  destruct (identity_mapped a); [by rewrite bool_decide_eq_true_2|by rewrite bool_decide_eq_false_2].
Qed.
Lemma unmapped_app l1 l2 : unmapped (l1 ++ l2) = match unmapped l1 with Some a => Some a | None => unmapped l2 end.
Proof. unfold unmapped. induction l1 as [|a l IH]; [done|]. cbn [List.app List.find]. by destruct (negb _). Qed.
Lemma mapped_find l : Forall (fun a => identity_mapped a = true) l -> List.find (fun a => negb (identity_mapped a)) l = None.
Proof. induction 1 as [|a l Ha Hl IH]; [done|]. cbn [List.find]. by rewrite Ha. Qed.
Lemma entry_mapped o' : kernel_image o' d e phs -> 0 <= Elf.entry_point e < 0x20000000.
Proof. intros [_ _ _ _ Hp _ (ph & Hin & Hl & Hr)]. rewrite Forall_forall in Hp. destruct (Hp _ Hin Hl) as [_ _ ?]. lia. Qed.

Lemma wp_transfer f m t stack entry acpi st r : good_map f r -> entry = Elf.entry_point e -> 0 <= entry < 0x20000000 -> Forall (fun a => 0 <= a < 2 ^ 48) jump_code ->
  0 <= t -> t mod 4096 = 0 -> t + 0x4000 <= 0x20000000 -> 0 <= stack -> stack + 0x8000 <= 0x20000000 ->
  owns f base (len d) -> owns f 0x100000 0xA00000 -> owns f t 0x4000 -> owns f stack 0x8000 -> Forall (loaded d m) phs -> tables_ok (words m) t -> acpi = root_pointer (default [] (configuration_table st)) ->
  wp (transfer boot_info_addr jump_code o t (u64_add stack (8 * 4096)) entry acpi r) (f, m) (hands_over st).
Proof.
  intros (l & D & Hok & Hm) -> He Hj Ht Htm Htb Hs Hsb O1 O2 O3 O4 Hl Hto ->. unfold transfer. destruct (convert_map o r l D) as (regs & n & E & Etake).
  assert (Hmap : forall a, 0 <= a < 2 ^ 48 -> Paging.virt_to_phys (words m) t a = if identity_mapped a then Some a else None) by (intros a Ha; apply tables_map; (done || lia)).
  eapply efi_bind; [apply (wp_pure _ (regs, n) _ (fun x s => x = (regs, n) /\ s = (f, m))); done|]. intros ? ? [-> ->].
  eapply efi_bind; [apply wp_on_memory; reflexivity|]. intros ? ? [-> ->]. rewrite (fetch_fault_unmapped m t) by (done || (apply Forall_app; split; [done|]; constructor; [lia|done])).
  rewrite unmapped_app. replace (unmapped [Elf.entry_point e]) with (@None Z) by (unfold unmapped, identity_mapped; cbn [List.find]; by replace (_ <? _) with true by lia).
  match goal with |- wp (match (match unmapped jump_code with _ => _ end) with Some a => _ | None => mret (Jumped ?h) end) _ _ => assert (B : boots st h (f, m)) end.
  - rewrite u64_add_small by lia. split; cbn [cr3 rsp rdi rip info magic boot_method acpi_rsdp memory_map fst snd]; try done.
    + intros a Ha. unfold identity_mapped. replace (a <? 0x20000000) with true by lia. done.
    + replace (stack + 8 * 4096 - 0x8000) with stack by lia. done.
    + rewrite Etake. unfold kernel_main_memory. cbn [memory_map]. destruct (good_map_pmm f l Hok Hm) as (p & -> & Hwf & Hf). by exists p.
  - unfold hands_over, switches. destruct (unmapped jump_code); apply efi_ret; by eexists.
Qed.

Lemma wp_finish con acpi entry st f8 m8 : Forall (fun ph => is_load ph -> placed (len d) ph) phs -> roomy f8 12 -> owns f8 base (len d) -> owns f8 0x100000 0xA00000 -> Forall (loaded d m8) phs ->
  entry = Elf.entry_point e -> 0 <= entry < 0x20000000 -> low_pages -> Forall (fun a => 0 <= a < 2 ^ 48) jump_code -> acpi = root_pointer (default [] (configuration_table st)) ->
  wp (finish boot_info_addr jump_code o con acpi entry) (f8, m8) (hands_over st).
Proof.
  intros Hpl Hr8 Ho6 Ok6 Hl7 Hentry He Hlow Hj Hacpi. unfold finish.
  eapply efi_bind; [eapply wp_any_pages; [done..|lia]|]. intros [st9 t] [f9 m9] (-> & Hr9 & G9 & Hb9). cbn [fst snd negb Z.eqb EFI_SUCCESS] in *.
  pose proof (grants_follows _ _ _ _ _ _ G9) as F9.
  eapply efi_bind; [eapply wp_any_pages; [done..|lia]|]. intros [st10 stack] [f10 m10] (-> & Hr10 & G10 & Hb10). cbn [fst snd negb Z.eqb EFI_SUCCESS] in *.
  pose proof (follows_trans _ _ _ F9 (grants_follows _ _ _ _ _ _ G10)) as F10. destruct (gr_base _ _ _ _ _ _ _ G9) as (T1 & T2 & T3). destruct (gr_base _ _ _ _ _ _ _ G10) as (T4 & T5 & T6).
  pose proof (owned_apart _ _ _ _ _ _ _ _ Ok6 G9 ltac:(lia) ltac:(lia)) as Hap.
  assert (Hl10 : Forall (loaded d m10) phs) by (by apply (loaded_follow (f8, m8) (f10, m10))).
  assert (Ot : owns f10 t 0x4000) by (apply (owns_follows (f9, m9) (f10, m10)); [by eapply grants_follows|apply (grants_owns _ _ _ _ _ _ G9)]).
  eapply efi_bind; [apply (wp_on_memory _ f10 m10 tt); reflexivity|]. intros [] ? [_ ->].
  set (m11 := build_tables t m10). assert (Hl11 : Forall (loaded d m11) phs).
  { rewrite Forall_forall in Hpl. rewrite Forall_forall in Hl10 |- *. intros ph Hin Hty i Hi. destruct (Hpl ph Hin Hty) as [_ _ [? ?]]. unfold m11. rewrite tables_frame by lia. by apply Hl10. }
  eapply efi_bind; [by eapply wp_exit_services|]. intros x [f12 m12] (K12 & r & -> & Gm). cbn [fst snd] in *. pose proof (keeps_follows _ _ _ _ K12) as F12.
  apply wp_transfer; try done; try lia.
  - apply (owns_follows (f10, m11) (f12, m12)); [done|]. by apply (owns_follows (f8, m8) (f10, m10)).
  - apply (owns_follows (f10, m11) (f12, m12)); [done|]. by apply (owns_follows (f8, m8) (f10, m10)).
  - by apply (owns_follows (f10, m11) (f12, m12)).
  - apply (owns_follows (f10, m11) (f12, m12)); [done|]. exact (grants_owns _ _ _ _ _ _ G10).
  - apply (loaded_follow (f10, m11) (f12, m12)); try done. by apply (owns_follows (f8, m8) (f10, m10)).
  - apply (tables_follow (f10, m11) (f12, m12)); [done|done|]. apply tables_built; lia.
Qed.

(** The loader gets as far as loading its tables. *)
Lemma wp_efi_main st f m : kernel_image o d e phs -> holds m base d -> owns f base (len d) -> roomy f 2572 -> vacant f 0x100 2560 -> boot_services st = true -> low_pages -> Forall (fun a => 0 <= a < 2 ^ 48) jump_code ->
  wp (efi_main base (len d) boot_info_addr jump_code o (Some st)) (f, m) (hands_over st).
Proof.
  intros K Hh Ho Hr Hv Hbs Hlow Hj. pose proof (entry_mapped _ K) as He. pose proof K as [_ _ Hparse _ Hpl _ _]. apply Elf.parse_Ok in Hparse as (_ & Hsz & _). unfold Elf.EHDR_SIZE in Hsz.
  unfold efi_main. rewrite Hbs. cbn [negb].
  eapply efi_bind; [apply wp_print|]. intros [] s1 S1. eapply efi_bind; [apply wp_print|]. intros [] s2 S2. eapply efi_bind; [apply wp_print|]. intros [] s3 S3.
  eapply efi_bind; [apply wp_find_acpi|]. intros acpi s4 [S4 Hacpi]. pose proof (still_trans _ _ _ (still_trans _ _ _ (still_trans _ _ _ S1 S2) S3) S4) as S. clear S1 S2 S3 S4.
  pose proof (still_follows _ _ S) as Fo. destruct S as (_ & Hr4 & Hv4). specialize (Hr4 _ Hr). specialize (Hv4 _ _ Hv).
  eapply efi_bind; [eapply wp_at_address; (done || lia)|]. intros ? [f5 m5] [Hr5 G5]. destruct s4 as [f4 m4]. cbn [fst snd] in *.
  assert (Ho4 : owns f4 base (len d)) by (apply (owns_follows (f, m) (f4, m4)); done). pose proof (owned_apart _ _ _ _ _ _ _ _ Ho4 G5 ltac:(lia) ltac:(lia)) as Hout.
  pose proof (follows_trans _ _ _ Fo (grants_follows _ _ _ _ _ _ G5)) as F5. pose proof (grants_owns _ _ _ _ _ _ G5) as Ok5. cbn [Z.mul Pos.mul] in *.
  eapply efi_bind; [apply wp_print|]. intros [] [f6 m6] S6. pose proof (follows_trans _ _ _ F5 (still_follows _ _ S6)) as F6. destruct S6 as (K6 & Hr6 & _). specialize (Hr6 _ Hr5).
  assert (Ok6 : owns f6 0x100000 0xA00000) by (apply (owns_follows (f5, m5) (f6, m6)); [by apply keeps_follows|done]).
  assert (Ho6 : owns f6 base (len d)) by (by apply (owns_follows (f, m) (f6, m6))). assert (Hh6 : holds m6 base d) by (by apply (holds_follow (f, m) (f6, m6))).
  destruct (load_elf_spec base d o e phs m6 K Hh6 ltac:(lia)) as (m7 & E7 & Hl7 & Hf7).
  eapply efi_bind; [apply wp_on_memory, E7|]. intros ? ? [-> ->]. cbn iota.
  eapply efi_bind; [apply wp_print|]. intros [] [f8 m8] S8. pose proof (still_follows _ _ S8) as F8. destruct S8 as (_ & Hr8 & _).
  apply wp_finish; try done.
  - by apply Hr8.
  - by apply (owns_follows (f6, m7) (f8, m8)).
  - by apply (owns_follows (f6, m7) (f8, m8)).
  - by apply (loaded_follow (f6, m7) (f8, m8)).
Qed.

(** C7: with a firmware that keeps to its specification, has the memory, gives pages below
    512 MiB and has put the loader there too, the loader ends by entering the kernel: the
    instructions after the change of tables, the stack, the tables and the boot information
    are mapped where they are; every segment of its file is in place with the rest zeroed; the
    tables map the first 512 MiB and the fourth GiB to themselves and nothing else; the boot
    information has the root pointer and the memory map of the firmware; and the physical
    memory manager set up from it has no free frame in the loader, the kernel, the tables or
    the stack.  When the first attempt to leave the boot services fails the second does not. *)
Theorem uefi_enters_kernel st f m img n : kernel_image o d e phs -> holds m base d -> owns f base (len d) -> roomy f 2572 -> vacant f 0x100 2560 -> boot_services st = true -> low_pages -> low_image img n ->
  exists h s, efi_main base (len d) boot_info_addr jump_code o (Some st) (f, m) = Ret (Jumped h, s) /\ boots st h s /\ forall a, img <= a < img + n -> Paging.virt_to_phys (words s.2) (cr3 h) a = Some a.
Proof.
  intros K Hh Ho Hr Hv Hbs Hlow [Hr1 Hc Hi]. destruct (wp_efi_main st f m) as (x & s & E & h & -> & B); [done..| |].
  - eapply Forall_impl; [exact Hc|]. intros a. cbn beta. lia.
  - assert (Hm : forall a, img <= a < img + n -> identity_mapped a = true) by (intros a Ha; unfold identity_mapped; by replace (a <? _) with true by lia).
    exists h, s. split; [|split; [done|intros a Ha; rewrite (bo_tables _ _ _ B), Hm by lia; done]].
    rewrite E. unfold switches, unmapped. rewrite mapped_find; [done|]. eapply Forall_impl; [exact Hc|done].
Qed.

(** A loader that the firmware has put above 512 MiB faults as soon as it has loaded [cr3]:
    the instruction that follows is not mapped. *)
Theorem high_loader_faults st f m a code : kernel_image o d e phs -> holds m base d -> owns f base (len d) -> roomy f 2572 -> vacant f 0x100 2560 -> boot_services st = true -> low_pages ->
  jump_code = a :: code -> Forall (fun a => 0x20000000 <= a < 0xC0000000) jump_code -> exists s, efi_main base (len d) boot_info_addr jump_code o (Some st) (f, m) = Ret (Faulted a, s).
Proof.
  intros K Hh Ho Hr Hv Hbs Hlow Hj Ha. destruct (wp_efi_main st f m) as (x & s & E & h & -> & B); [done..| |].
  - eapply Forall_impl; [exact Ha|]. cbn beta. lia.
  - exists s. rewrite E. unfold switches, unmapped. rewrite Hj in Ha |- *. apply Forall_inv in Ha. cbn [List.find]. unfold identity_mapped.
    replace (a <? _) with false by lia. by replace (_ <=? a) with false by lia.
Qed.
End Main.
End UefiBoot.

(** ** The BIOS path *)
Module BiosBoot.
Import Boot.

Definition bios_region (r : BiosRegion) : Pmm.MemoryRegion := Pmm.Build_MemoryRegion (start_addr r) (end_addr r) (bios_kind (region_type r)).

Lemma convert_regions_spec l : forall done rest, (length done + length rest)%nat = 128%nat ->
  exists regs, convert_regions l (done ++ rest) (length done) = Ret (regs, Nat.min 128 (length done + length l)) /\
    take (Nat.min 128 (length done + length l)) regs = take 128 (done ++ (bios_region <$> l)).
Proof.
  induction l as [|r l IH]; intros dn rest Hl; cbn [convert_regions].
  - exists (dn ++ rest). rewrite Nat.add_0_r, Nat.min_r, app_nil_r, take_app_length by lia. split; [done|]. rewrite take_ge by lia. done.
  - unfold MAX_BIOS_REGIONS. destruct (Nat.leb_spec 128 (length dn)).
    + assert (rest = []) as -> by (destruct rest; [done|cbn in Hl; lia]). exists (dn ++ []). rewrite Nat.min_l by lia. split; [by replace (length dn) with 128%nat by (cbn in Hl; lia)|].
      rewrite app_nil_r. by rewrite take_app_le by lia.
    + destruct rest as [|r0 rest]; [cbn in Hl; lia|]. rewrite store_Ret by (rewrite length_app; cbn; lia). cbn [mbind outcome_bind]. rewrite Nat2Z.id.
      rewrite (insert_app_r_alt _ _ (length dn)), Nat.sub_diag by lia. cbn [insert list_insert]. rewrite cons_middle, app_assoc.
      destruct (IH (dn ++ [bios_region r]) rest) as (regs & E & Ht); [rewrite length_app; cbn in *; lia|]. rewrite length_app in E, Ht. cbn [length] in *. rewrite Nat.add_1_r in E, Ht.
      exists regs. rewrite Nat.add_succ_r. split; [exact E|]. rewrite <- app_assoc in Ht. exact Ht.
Qed.

(** The kernel gets the first 128 regions with their kinds, and no root pointer: it is
    searched for in memory. *)
Lemma bios_boot_info bios word unified : word <> BOOT_INFO_MAGIC ->
  start_ word unified bios (replicate 128 empty_region) = Ret (mkBootInfo BOOT_INFO_MAGIC (bios_region <$> take 128 bios) None Bios).
Proof.
  intros Hw. unfold start_. rewrite (proj2 (Z.eqb_neq _ _) Hw). unfold convert_bios_boot_info. destruct (convert_regions_spec bios [] (replicate 128 empty_region)) as (regs & E & Ht); [done|].
  cbn [length app] in E, Ht. rewrite E. cbn [mbind outcome_bind]. rewrite Nat.add_0_l in Ht. rewrite Nat.add_0_l, Ht, fmap_take. done.
Qed.
End BiosBoot.

(** ** A firmware *)
Module DemoFirmware.
Import Bytes Boot Uefi UefiBoot.

Definition desc_bytes (d : EfiMemoryDescriptor) : list Z :=
  to_le 4 (desc_type d) ++ to_le 4 0 ++ to_le 8 (physical_start d) ++ to_le 8 (virtual_start d) ++ to_le 8 (number_of_pages d) ++ to_le 8 (attribute d) ++ to_le 8 0.
Definition encode_map (l : list EfiMemoryDescriptor) (key : Z) : map_reply :=
  mkReply (Z.of_nat (length l) * 48) (mjoin (desc_bytes <$> l) ++ replicate (Z.to_nat 32768 - 48 * length l) 0) key 48.

Lemma field_at o pre n x post : 0 <= x < 256 ^ Z.of_nat n -> len (pre ++ to_le n x ++ post) < 2 ^ 63 -> Elf.field o (pre ++ to_le n x ++ post) (len pre) n = x.
Proof.
  intros Hx Hl. unfold Elf.field. rewrite Elf.bytes_at_in; [|unfold len; lia|unfold len; rewrite !length_app, length_to_le; lia|done].
  unfold len. rewrite Nat2Z.id, drop_app_length, take_app_length' by (by rewrite length_to_le). by apply le_value_to_le.
Qed.
Record desc_fits (d : EfiMemoryDescriptor) : Prop := { df_type : 0 <= desc_type d < 2 ^ 32; df_start : in_u 64 (physical_start d); df_virt : in_u 64 (virtual_start d); df_pages : in_u 64 (number_of_pages d); df_attr : in_u 64 (attribute d) }.
Lemma read_desc_bytes o pre d post : desc_fits d -> len (pre ++ desc_bytes d ++ post) < 2 ^ 63 -> read_desc o (pre ++ desc_bytes d ++ post) (len pre) = d.
Proof.
  intros [H1 H2 H3 H4 H5]. destruct d as [t s v n a]. cbn [desc_type physical_start virtual_start number_of_pages attribute] in *. unfold desc_bytes, read_desc. cbn [desc_type physical_start virtual_start number_of_pages attribute]. rewrite <- !app_assoc. intros Hl. f_equal.
  - by apply field_at.
  - rewrite (app_assoc (to_le 4 t)), app_assoc. replace (len pre + 8) with (len (pre ++ to_le 4 t ++ to_le 4 0)) by (unfold len; rewrite !length_app, !length_to_le; lia). apply field_at; [done|]. by rewrite <- !app_assoc.
  - rewrite (app_assoc (to_le 4 t)), (app_assoc _ (to_le 8 s)), app_assoc. replace (len pre + 16) with (len (pre ++ (to_le 4 t ++ to_le 4 0) ++ to_le 8 s)) by (unfold len; rewrite !length_app, !length_to_le; lia). apply field_at; [done|]. by rewrite <- !app_assoc.
  - rewrite (app_assoc (to_le 4 t)), (app_assoc _ (to_le 8 s)), (app_assoc _ (to_le 8 v)), app_assoc. replace (len pre + 24) with (len (pre ++ ((to_le 4 t ++ to_le 4 0) ++ to_le 8 s) ++ to_le 8 v)) by (unfold len; rewrite !length_app, !length_to_le; lia). apply field_at; [done|]. by rewrite <- !app_assoc.
  - rewrite (app_assoc (to_le 4 t)), (app_assoc _ (to_le 8 s)), (app_assoc _ (to_le 8 v)), (app_assoc _ (to_le 8 n)), app_assoc. replace (len pre + 32) with (len (pre ++ (((to_le 4 t ++ to_le 4 0) ++ to_le 8 s) ++ to_le 8 v) ++ to_le 8 n)) by (unfold len; rewrite !length_app, !length_to_le; lia). apply field_at; [done|]. by rewrite <- !app_assoc.
Qed.
Lemma length_desc_bytes d : length (desc_bytes d) = 48%nat.
Proof. unfold desc_bytes. by rewrite !length_app, !length_to_le. Qed.
Lemma length_joined l : length (mjoin (desc_bytes <$> l)) = (48 * length l)%nat.
Proof. induction l as [|d l IH]; [done|]. change (mjoin (desc_bytes <$> (d :: l))) with (desc_bytes d ++ mjoin (desc_bytes <$> l)). rewrite length_app, length_desc_bytes, IH. cbn [length]. lia. Qed.

Lemma encode_describes o l key : Forall desc_fits l -> (length l <= 600)%nat -> describes o (encode_map l key) l.
Proof.
  intros Hf Hl. split; cbn [encode_map descriptor_size map_size buffer]; [lia|done|lia|].
  intros i d Hi. assert (Hj : mjoin (desc_bytes <$> l) = mjoin (desc_bytes <$> take i l) ++ desc_bytes d ++ mjoin (desc_bytes <$> drop (S i) l)) by (by rewrite <- (take_drop_middle l i d Hi) at 1; rewrite fmap_app, join_app).
  rewrite Hj.
  replace (Z.of_nat i * 48) with (len (mjoin (desc_bytes <$> take i l))) by (unfold len; rewrite length_joined, length_take; apply lookup_lt_Some in Hi; lia).
  rewrite <- !app_assoc. apply read_desc_bytes; [by eapply Forall_lookup_1|].
  unfold len. rewrite !length_app, !length_joined, length_desc_bytes, length_replicate, length_take, length_drop. apply lookup_lt_Some in Hi. lia.
Qed.

(** Pages are given out upwards from page 0x2000; the image of the loader is 16 pages at
    page 0x4000; [busy] says that boot services use the memory at 1 MiB; writing text
    changes the key of the map. *)
Record fw := mkFw { next : Z; key : Z; taken : bool; busy : bool }.
Definition span (t first last : Z) : EfiMemoryDescriptor := mkDesc t (4096 * first) 0 (last - first) 15.
Definition fw_map (f : fw) : list EfiMemoryDescriptor :=
  [span 7 0 0x100; span (if taken f then 2 else if busy f then 4 else 7) 0x100 0xB00; span 7 0xB00 0x2000; span 6 0x2000 (next f); span 7 (next f) 0x4000; span 1 0x4000 0x4010].
#[global] Instance fw_services : EfiBootServices fw := {|
  allocate_pages t ty n a f m :=
    match t with
    | AllocateAddress =>
      if ((a =? 0x100000) && (n =? 2560) && negb (taken f) && negb (busy f))%bool then (EFI_SUCCESS, a, mkFw (next f) (key f + 1) true (busy f), m) else (EFI_NOT_FOUND, a, f, m)
    | _ => if next f + n <=? 0x4000 then (EFI_SUCCESS, 4096 * next f, mkFw (next f + n) (key f + 1) (taken f) (busy f), m) else (EFI_NOT_FOUND, a, f, m)
    end;
  get_memory_map size f m := (EFI_SUCCESS, encode_map (fw_map f) (key f), f, m);
  exit_boot_services k f m := (if k =? key f then EFI_SUCCESS else EFI_INVALID_PARAMETER, f, m);
  output_string buf f m := (EFI_SUCCESS, mkFw (next f) (key f + 1) (taken f) (busy f), m)
|}.
Definition fw_mine (f : fw) (p : Z) : Prop := 0x2000 <= p < next f \/ (taken f = true /\ 0x100 <= p < 0xB00) \/ 0x4000 <= p < 0x4010.
Definition fw_roomy (f : fw) (k : Z) : Prop := 0x2000 <= next f /\ next f + k <= 0x4000 /\ 0 <= k.
Definition fw_vacant (f : fw) (p n : Z) : Prop := p = 0x100 /\ n = 2560 /\ taken f = false /\ busy f = false.

Lemma page_mul p : page (4096 * p) = p.
Proof. unfold page. rewrite Z.mul_comm. by apply Z.div_mul. Qed.
Lemma span_ok t a b : 0 <= a -> a <= b -> b <= 2 ^ 30 -> desc_ok (span t a b).
Proof. intros Ha Hb Hc. split; cbn [span physical_start number_of_pages]; [|lia]. split; [lia|]. rewrite Z.mul_comm. by apply Z.mod_mul. Qed.
Lemma span_fits t a b : 0 <= t < 16 -> 0 <= a -> a <= b -> b <= 2 ^ 30 -> desc_fits (span t a b).
Proof. intros Ht Ha Hb Hc. split; unfold in_u; cbn [span desc_type virtual_start attribute physical_start number_of_pages]; lia. Qed.
Lemma fw_map_free f : fw_roomy f 0 -> Forall (fun d => reclaimable d = true -> forall p, pages_of (physical_start d) (number_of_pages d) p -> ~ fw_mine f p) (fw_map f).
Proof.
  intros (H1 & H2 & _). unfold fw_map. repeat apply Forall_cons_2; [..|apply Forall_nil_2]; intros Hr p; unfold pages_of, fw_mine, span in *; cbn [physical_start number_of_pages]; rewrite page_mul; try (lia || discriminate Hr).
  destruct (taken f); [discriminate Hr|]. lia.
Qed.

#[global] Instance fw_firmware (o : Z -> Z) : Firmware fw o.
Proof.
  refine {| mine := fw_mine; current_key := key; roomy := fw_roomy; vacant := fw_vacant |}.
  - intros buf f m s f' m' [= <- <- <-]. split; [done|]. done.
  - intros ty n k f m s a f' m' E (H1 & H2 & H3) Hn. cbn [allocate_pages fw_services] in E. replace (next f + n <=? 0x4000) with true in E by lia. injection E as <- <- <- <-.
    split; [done|]. split; [unfold fw_roomy; cbn [next]; lia|]. split; [|intros p; unfold pages_of, fw_mine; rewrite page_mul; lia|intros p; unfold pages_of, fw_mine; rewrite page_mul; cbn [next taken]; lia|done].
    split; [lia|]. split; [rewrite Z.mul_comm; by apply Z.mod_mul|lia].
  - intros ty n k a0 f m s a f' m' E (Ha & -> & Ht & Hb) (H1 & H2 & H3) Hk Hm. cbn [allocate_pages fw_services] in E. unfold page in Ha. pose proof (Z.div_mod a0 4096 ltac:(lia)) as D. assert (a0 = 0x100000) as -> by lia.
    rewrite Ht, Hb in E. injection E as <- <- <- <-. split; [unfold fw_roomy; cbn [next]; lia|].
    split; [done|intros p; unfold pages_of, fw_mine; rewrite Ht; change (page 0x100000) with 0x100; lia| |done].
    intros p. unfold pages_of, fw_mine. rewrite Ht. cbn [next taken]. change (page 0x100000) with 0x100. lia.
  - intros k f m s r f' m' [= <- <- <- <-] Hr. split; [done|]. split; [done|]. split; [done|]. split; [done|]. exists (fw_map f). destruct Hr as (H1 & H2 & H3).
    split; [apply encode_describes; [|cbn; lia]|split; [|apply fw_map_free; unfold fw_roomy; lia]]; unfold fw_map; repeat apply Forall_cons_2; try apply Forall_nil_2; ((apply span_fits; [repeat case_match; lia|..]) || apply span_ok); lia.
  - intros k f m s f' m' [= <- <- <-]. split; [done|]. split; [done|]. intros ->. by rewrite Z.eqb_refl.
Defined.

(** A kernel of two segments, the second with uninitialised data. *)
Definition demo_ehdr : Elf.Elf64Header := Elf.mkEhdr (Elf.ELF_MAGIC ++ [2; 1; 1; 0] ++ replicate 8 0) Elf.ET_EXEC 0x3E 1 0x100000 64 0 0 64 56 2 64 0 0.
Definition demo_text : Elf.Elf64ProgramHeader := Elf.mkPhdr 1 5 176 0x100000 0x100000 4 4 4096.
Definition demo_data : Elf.Elf64ProgramHeader := Elf.mkPhdr 1 6 180 0x200000 0x200000 2 0x3000 4096.
Definition demo_kernel : list Z := Elf.ehdr_bytes demo_ehdr ++ Elf.phdr_bytes demo_text ++ Elf.phdr_bytes demo_data ++ [0xFA; 0xF4; 0xEB; 0xFD; 0x11; 0x22].
Definition demo_base : Z := 0x4000000.
Definition demo_memory : memory := fun x => if ((demo_base <=? x) && (x <? demo_base + len demo_kernel))%bool then nth (Z.to_nat (x - demo_base)) demo_kernel 0 else 0xAA.
Definition demo_system : EfiSystemTable := mkSystem true true (Some [mkConfig ACPI_10_TABLE_GUID 0xE0000; mkConfig EFI_ACPI_20_TABLE_GUID 0xE1000]).
(** The loader's image is the 64 KiB at [demo_base], the code after [mov cr3] inside it. *)
Definition demo_jump : list Z := (fun i => 0x4009000 + i) <$> seqZ 0 8.
Definition demo_boot (low_memory_busy : bool) : outcome (ending * (fw * memory)) :=
  efi_main demo_base (len demo_kernel) 0x4008000 demo_jump (fun _ => 0) (Some demo_system) (mkFw 0x2000 0 false low_memory_busy, demo_memory).

Lemma demo_image : kernel_image (fun _ => 0) demo_kernel (Elf.mkElf demo_kernel demo_ehdr) [demo_text; demo_data].
Proof.
  split; [unfold is_bytes; by_compute|by vm_compute|vm_compute; reflexivity|vm_compute; reflexivity| | |].
  - repeat constructor; cbn [demo_text demo_data Elf.p_offset Elf.p_filesz Elf.p_memsz Elf.p_paddr]; try lia; by vm_compute.
  - split; [|done]. repeat constructor. intros x [_ H1] [_ H2]. cbn [demo_text demo_data Elf.p_memsz Elf.p_paddr] in *. lia.
  - exists demo_text. split; [left|split; [done|by vm_compute]].
Qed.
Lemma demo_holds : holds demo_memory demo_base demo_kernel.
Proof. split; [by vm_compute|]. intros i Hi. unfold demo_memory. replace (_ && _)%bool with true by lia. do 2 f_equal. lia. Qed.
Lemma demo_owns b : owns (o := fun _ => 0) (mkFw 0x2000 0 false b) demo_base (len demo_kernel).
Proof.
  intros x Hx. right. right. change (len demo_kernel) with 182 in Hx. unfold demo_base in Hx. unfold page. pose proof (Z.div_le_lower_bound x 4096 0x4000). pose proof (Z.div_lt_upper_bound x 4096 0x4010). lia.
Qed.

Lemma demo_low : low_pages (F := fw).
Proof. intros ty n f m s a f' m' E Hs. cbn [allocate_pages fw_services] in E. destruct (Z.leb_spec (next f + n) 0x4000); injection E as <- <- <- <-; [lia|done]. Qed.
Lemma demo_image_low : low_image 0x4008000 demo_jump demo_base 0x10000.
Proof. split; [by vm_compute|by_compute|by vm_compute]. Qed.

Lemma uefi_enters_kernel_witness : exists h s, demo_boot false = Ret (Jumped h, s) /\ boots (o := fun _ => 0) 0x4008000 demo_base demo_kernel (Elf.mkElf demo_kernel demo_ehdr) [demo_text; demo_data] demo_system h s /\
  forall a, demo_base <= a < demo_base + 0x10000 -> Paging.virt_to_phys (words s.2) (cr3 h) a = Some a.
Proof.
  apply (uefi_enters_kernel (o := fun _ => 0) 0x4008000 demo_base demo_jump demo_kernel (Elf.mkElf demo_kernel demo_ehdr) [demo_text; demo_data] demo_system).
  - exact demo_image.
  - exact demo_holds.
  - exact (demo_owns false).
  - split; cbn; lia.
  - done.
  - reflexivity.
  - exact demo_low.
  - exact demo_image_low.
Defined.

(** The entry point, a byte of the kernel's data and the first frame the memory manager
    gives out. *)
Definition observed (r : outcome (ending * (fw * memory))) : option (Z * Z * option Z) :=
  match r with
  | Ret (Jumped h, (_, m)) => match kernel_main_memory (info h) Pmm.new with Ret (_, p) => Some (rip h, m 0x200000, fst (Pmm.alloc_frame p)) | _ => None end
  | _ => None
  end.

(** The status of the reservation at 1 MiB is ignored.  When boot services use that
    memory the kernel is loaded over it all the same and its own pages are reported as
    ordinary memory: the first frame the memory manager gives out is the one that holds the
    kernel's data, where it is the first one after the kernel when the reservation succeeds. *)
Theorem failed_reservation_reuses_kernel : observed (demo_boot true) = Some (0x100000, 0x11, Some 0x200000) /\ observed (demo_boot false) = Some (0x100000, 0x11, Some 0xB00000).
Proof. split; vm_compute; reflexivity. Qed.
End DemoFirmware.
