(* ===== verification/Trampoline.v ===== *)
(** * The trampoline of the application processors (src/src/arch/smp.rs: [global_asm])

    The code a processor runs after the start-up interrupt, instruction by instruction:
    sixteen bit real mode, protected mode, long mode, and the call of the entry point.
    A processor is its registers, its segments with the descriptors they were loaded
    from, its control registers and the memory.  [None] is a fault: without an interrupt
    table it resets the machine. *)

From stdpp Require Import prelude numbers list.
From Stdlib Require Import ZifyBool.
From S2P Require Import Prelude Bytes Paging Io Descriptors Apic Acpi Task SmpBoot Uefi UefiBoot.
Import Bytes.

Module Trampoline.
Notation memory := Paging.memory.

(** ** The processor *)
Inductive reg := AX | BX | CX | DX | SP.
Inductive sreg := DS | ES | SS.
Inductive creg := CR0 | CR3 | CR4.
Record seg := mkSeg { selector : Z; base : Z; limit : Z; long : bool; big : bool }.
Record cpu := mkCpu { rax : Z; rbx : Z; rcx : Z; rdx : Z; rsp : Z; rip : Z; cs : seg; ds : seg; es : seg; ss : seg;
  cr0 : Z; cr3 : Z; cr4 : Z; efer : Z; gdt_limit : Z; gdt_base : Z; IF : bool; DF : bool; mem : memory }.
Definition reg_of (r : reg) (s : cpu) : Z := match r with AX => rax s | BX => rbx s | CX => rcx s | DX => rdx s | SP => rsp s end.
Definition set_gpr (a b c d sp : Z) (s : cpu) : cpu :=
  mkCpu a b c d sp (rip s) (cs s) (ds s) (es s) (ss s) (cr0 s) (cr3 s) (cr4 s) (efer s) (gdt_limit s) (gdt_base s) (IF s) (DF s) (mem s).
Definition set_reg (r : reg) (v : Z) (s : cpu) : cpu :=
  match r with
  | AX => set_gpr v (rbx s) (rcx s) (rdx s) (rsp s) s | BX => set_gpr (rax s) v (rcx s) (rdx s) (rsp s) s
  | CX => set_gpr (rax s) (rbx s) v (rdx s) (rsp s) s | DX => set_gpr (rax s) (rbx s) (rcx s) v (rsp s) s
  | SP => set_gpr (rax s) (rbx s) (rcx s) (rdx s) v s
  end.
Definition set_segs (c d e t : seg) (s : cpu) : cpu :=
  mkCpu (rax s) (rbx s) (rcx s) (rdx s) (rsp s) (rip s) c d e t (cr0 s) (cr3 s) (cr4 s) (efer s) (gdt_limit s) (gdt_base s) (IF s) (DF s) (mem s).
Definition set_control (c0 c3 c4 ef : Z) (s : cpu) : cpu :=
  mkCpu (rax s) (rbx s) (rcx s) (rdx s) (rsp s) (rip s) (cs s) (ds s) (es s) (ss s) c0 c3 c4 ef (gdt_limit s) (gdt_base s) (IF s) (DF s) (mem s).
Definition set_gdt (l b : Z) (s : cpu) : cpu :=
  mkCpu (rax s) (rbx s) (rcx s) (rdx s) (rsp s) (rip s) (cs s) (ds s) (es s) (ss s) (cr0 s) (cr3 s) (cr4 s) (efer s) l b (IF s) (DF s) (mem s).
Definition set_flags (i d : bool) (s : cpu) : cpu :=
  mkCpu (rax s) (rbx s) (rcx s) (rdx s) (rsp s) (rip s) (cs s) (ds s) (es s) (ss s) (cr0 s) (cr3 s) (cr4 s) (efer s) (gdt_limit s) (gdt_base s) i d (mem s).
Definition set_rip (a : Z) (s : cpu) : cpu :=
  mkCpu (rax s) (rbx s) (rcx s) (rdx s) (rsp s) a (cs s) (ds s) (es s) (ss s) (cr0 s) (cr3 s) (cr4 s) (efer s) (gdt_limit s) (gdt_base s) (IF s) (DF s) (mem s).
Definition set_mem (m : memory) (s : cpu) : cpu :=
  mkCpu (rax s) (rbx s) (rcx s) (rdx s) (rsp s) (rip s) (cs s) (ds s) (es s) (ss s) (cr0 s) (cr3 s) (cr4 s) (efer s) (gdt_limit s) (gdt_base s) (IF s) (DF s) m.

Definition PE (s : cpu) : bool := Z.testbit (cr0 s) 0.
Definition PG (s : cpu) : bool := Z.testbit (cr0 s) 31.
Definition LMA (s : cpu) : bool := Z.testbit (efer s) 10.
(** The size of the code the processor decodes. *)
Definition width (s : cpu) : Z := if (LMA s && long (cs s))%bool then 64 else if big (cs s) then 32 else 16.

(** ** Memory *)
Definition translate (s : cpu) (a : Z) : option Z := if PG s then Paging.virt_to_phys (Uefi.words (mem s)) (Z.land (cr3 s) 0x000FFFFFFFFFF000) a else Some a.
Definition read (s : cpu) (n : nat) (a : Z) : option Z :=
  le_value <$> mapM (fun k => mem s <$> translate s (a + Z.of_nat k)) (seq 0 n).
(** A word whose two ends lie in one page. *)
Definition store (s : cpu) (a w : Z) : option cpu :=
  p ← translate s a; q ← translate s (a + 7);
  if q =? p + 7 then Some (set_mem (Uefi.write_u64 (mem s) p w) s) else None.
(** The linear address of [n] bytes at an offset of the data segment. *)
Definition data_address (s : cpu) (off n : Z) : option Z :=
  if width s =? 64 then Some off else if off + n - 1 <=? limit (ds s) then Some (base (ds s) + off) else None.

(** ** Segments *)
Definition field (d lo n : Z) : Z := Z.land (Z.shiftr d lo) (2 ^ n - 1).
Definition decode (sel d : Z) : seg :=
  let lim := Z.lor (field d 0 16) (Z.shiftl (field d 48 4) 16) in
  mkSeg sel (Z.lor (field d 16 24) (Z.shiftl (field d 56 8) 24)) (if Z.testbit d 55 then Z.lor (Z.shiftl lim 12) 0xFFF else lim) (Z.testbit d 53) (Z.testbit d 54).
(** The descriptor of a selector of ring 0 in the global table. *)
Definition descriptor (s : cpu) (sel : Z) : option Z :=
  if (negb (sel mod 8 =? 0) || (sel =? 0) || (gdt_limit s <? sel + 7))%bool then None else
  d ← read s 8 (gdt_base s + sel);
  if (Z.testbit d 47 && Z.testbit d 44)%bool then Some d else None.
Definition load_data (s : cpu) (sel : Z) : option seg :=
  if PE s then d ← descriptor s sel; if (negb (Z.testbit d 43) && Z.testbit d 41)%bool then Some (decode sel d) else None
  else Some (mkSeg sel (16 * sel) 0xFFFF false false).
Definition load_code (s : cpu) (sel : Z) : option seg :=
  if PE s then
    d ← descriptor s sel;
    if (Z.testbit d 43 && negb (LMA s && Z.testbit d 53 && Z.testbit d 54))%bool then Some (decode sel d) else None
  else Some (mkSeg sel (16 * sel) 0xFFFF false false).

(** ** Instructions *)
Inductive instr :=
| Cli | Cld
| Xor16 (a b : reg)
| MovSeg (r : reg) (g : sreg)
| MovImm (w v : Z) (r : reg)
| Lgdt (disp : Z) (b : reg)
| MovFromCr (c : creg) (r : reg)
| OrImm (v : Z) (r : reg)
| MovToCr (r : reg) (c : creg)
| FarJmp (w off sel : Z)
| Rdmsr | Wrmsr
| Load (w disp : Z) (b r : reg)
| Call (r : reg) (back : Z).

(** A register of 16 bits keeps the rest, one of 32 bits clears it. *)
Definition put (w : Z) (r : reg) (v : Z) (s : cpu) : cpu :=
  set_reg r (if w =? 16 then reg_of r s - reg_of r s mod 2 ^ 16 + v mod 2 ^ 16 else v mod 2 ^ w) s.
Definition MSR_EFER : Z := 0xC0000080.
(** Turning paging on with [EFER.LME] set needs [CR4.PAE] and activates long mode; paging
    without it is not used here. *)
Definition write_cr0 (v : Z) (s : cpu) : option cpu :=
  if Z.testbit v 31 then
    if (Z.testbit v 0 && Z.testbit (efer s) 8 && Z.testbit (cr4 s) 5 && negb (long (cs s)))%bool
    then Some (set_control v (cr3 s) (cr4 s) (Z.setbit (efer s) 10) s) else None
  else Some (set_control v (cr3 s) (cr4 s) (Z.clearbit (efer s) 10) s).

Definition exec (i : instr) (s : cpu) : option cpu :=
  match i with
  | Cli => Some (set_flags false (DF s) s)
  | Cld => Some (set_flags (IF s) false s)
  | Xor16 a b => Some (put 16 b (Z.lxor (reg_of a s) (reg_of b s)) s)
  | MovSeg r g =>
      d ← load_data s (reg_of r s mod 2 ^ 16);
      Some match g with DS => set_segs (cs s) d (es s) (ss s) s | ES => set_segs (cs s) (ds s) d (ss s) s | SS => set_segs (cs s) (ds s) (es s) d s end
  | MovImm w v r => Some (put w r v s)
  | Lgdt disp b =>
      let off := (reg_of b s + disp) mod 2 ^ 16 in
      a ← data_address s off 6; l ← read s 2 a; g ← read s 4 (a + 2);
      Some (set_gdt l (g mod 2 ^ 24) s)
  | MovFromCr c r => Some (put 32 r (match c with CR0 => cr0 s | CR3 => cr3 s | CR4 => cr4 s end) s)
  | OrImm v r => Some (put 32 r (Z.lor (reg_of r s) v) s)
  | MovToCr r c =>
      let v := reg_of r s mod 2 ^ 32 in
      match c with
      | CR0 => write_cr0 v s
      | CR3 => Some (set_control (cr0 s) v (cr4 s) (efer s) s)
      | CR4 => Some (set_control (cr0 s) (cr3 s) v (efer s) s)
      end
  | FarJmp w off sel =>
      c ← load_code s sel;
      if ((LMA s && long c) || (off mod 2 ^ w <=? limit c))%bool then Some (set_rip (off mod 2 ^ w) (set_segs c (ds s) (es s) (ss s) s)) else None
  | Rdmsr => if rcx s mod 2 ^ 32 =? MSR_EFER then Some (put 32 DX (efer s / 2 ^ 32) (put 32 AX (efer s) s)) else None
  | Wrmsr =>
      if rcx s mod 2 ^ 32 =? MSR_EFER
      then Some (set_control (cr0 s) (cr3 s) (cr4 s) (let v := rdx s mod 2 ^ 32 * 2 ^ 32 + rax s mod 2 ^ 32 in if LMA s then Z.setbit v 10 else Z.clearbit v 10) s)
      else None
  | Load w disp b r =>
      a ← data_address s ((reg_of b s + disp) mod 2 ^ w) (w / 8); v ← read s (Z.to_nat (w / 8)) a; Some (put w r v s)
  | Call r back =>
      let sp := (rsp s - 8) mod 2 ^ 64 in
      s' ← store s sp back; Some (set_rip (reg_of r s) (set_reg SP sp s'))
  end.

Section Code.
(** Where the assembler puts the labels, from [_tramp_start]. *)
Context (pm32 lm64 back gdt tramp_end : Z).
Notation TRAMPOLINE_BASE := SmpBoot.TRAMPOLINE_BASE.

Definition code16 : list instr :=
  [ Cli; Cld; Xor16 AX AX; MovSeg AX DS; MovSeg AX ES; MovSeg AX SS; MovImm 16 0x8C00 SP;
    MovImm 16 0x8000 BX; Lgdt (gdt + 32) BX;
    MovFromCr CR0 AX; OrImm 1 AX; MovToCr AX CR0;
    FarJmp 16 (0x8000 + pm32) 0x18 ].
Definition code32 : list instr :=
  [ MovImm 16 0x10 AX; MovSeg AX DS; MovSeg AX ES; MovSeg AX SS;
    MovFromCr CR4 AX; OrImm 0x20 AX; MovToCr AX CR4;
    MovImm 32 0xC0000080 CX; Rdmsr; OrImm 0x900 AX; Wrmsr;
    MovImm 32 0x9000 AX; Load 32 0 AX AX; MovToCr AX CR3;
    MovFromCr CR0 AX; OrImm 0x80000000 AX; MovToCr AX CR0;
    FarJmp 32 (0x8000 + lm64) 0x08 ].
Definition code64 : list instr := [ MovImm 64 0x9000 BX; Load 64 8 BX SP; Load 64 16 BX AX; Call AX (0x8000 + back) ].
(** The temporary table and the pointer to it. *)
Definition tramp_gdt : list Z := [0; 0x00AF9A000000FFFF; 0x00CF92000000FFFF; 0x00CF9A000000FFFF].
Definition tramp_data : list Z := (tramp_gdt ≫= to_le 8) ++ to_le 2 (32 - 1) ++ to_le 4 (0x8000 + gdt).

(** The code at a linear address, with the size it was assembled for. *)
Definition block_at (a : Z) : option (Z * list instr) :=
  if a =? TRAMPOLINE_BASE then Some (16, code16) else
  if a =? TRAMPOLINE_BASE + pm32 then Some (32, code32) else
  if a =? TRAMPOLINE_BASE + lm64 then Some (64, code64) else None.

(** The page of the code must be mapped onto itself for the next instruction. *)
Definition fetchable (s : cpu) : bool := bool_decide (translate s TRAMPOLINE_BASE = Some TRAMPOLINE_BASE).
Fixpoint exec_block (l : list instr) (s : cpu) : option cpu :=
  match l with [] => Some s | i :: l' => if fetchable s then s' ← exec i s; exec_block l' s' else None end.
(** Block after block, until control leaves the trampoline. *)
Fixpoint trampoline (n : nat) (s : cpu) : option cpu :=
  match n with
  | O => None
  | S n' =>
      match block_at (base (cs s) + rip s) with
      | Some (w, l) => if width s =? w then s' ← exec_block l s; trampoline n' s' else None
      | None => Some s
      end
  end.

(** A processor after the start-up interrupt with vector 8. *)
Definition after_sipi (a b c d sp : Z) (m : memory) : cpu :=
  let real n := mkSeg n (16 * n) 0xFFFF false false in
  mkCpu a b c d sp 0 (real 0x800) (real 0) (real 0) (real 0) 0x60000010 0 0 0 0xFFFF 0 false false m.
End Code.

(** ** Reading what memory holds *)
Definition held (m : memory) (a : Z) (l : list Z) : Prop := forall i b, l !! i = Some b -> m (a + Z.of_nat i) = b.

Lemma read_plain s n a : (forall k, (k < n)%nat -> translate s (a + Z.of_nat k) = Some (a + Z.of_nat k)) ->
  read s n a = Some (le_value ((fun k => mem s (a + Z.of_nat k)) <$> seq 0 n)).
Proof.
  intros Ht. unfold read. assert (forall l, Forall (fun k => (k < n)%nat) l -> mapM (fun k => mem s <$> translate s (a + Z.of_nat k)) l = Some ((fun k => mem s (a + Z.of_nat k)) <$> l)) as ->; [|done|].
  - induction 1 as [|k l Hk _ IH]; [done|]. cbn [mapM]. rewrite (Ht k Hk). cbn. by rewrite IH.
  - apply Forall_forall. intros k Hk%elem_of_seq. lia.
Qed.
Lemma held_bytes m a l off n : held m a l -> (off + n <= length l)%nat -> (fun k => m (a + Z.of_nat off + Z.of_nat k)) <$> seq 0 n = take n (drop off l).
Proof.
  intros Hl Hn. apply list_eq. intros i. destruct (decide (i < n)%nat) as [Hi|Hi].
  - rewrite list_lookup_fmap, lookup_seq_lt, lookup_take_lt, lookup_drop by done. cbn [fmap option_fmap option_map].
    destruct (lookup_lt_is_Some_2 l (off + i) ltac:(lia)) as [b Hb]. rewrite Hb. rewrite <- (Hl _ _ Hb). do 2 f_equal. lia.
  - rewrite !lookup_ge_None_2; [done|rewrite length_take; lia|rewrite length_fmap, length_seq; lia].
Qed.
Lemma read_held s a l off n v : held (mem s) a l -> (off + n <= length l)%nat -> (forall k, (k < n)%nat -> translate s (a + Z.of_nat (off + k)) = Some (a + Z.of_nat (off + k))) ->
  le_value (take n (drop off l)) = v -> read s n (a + Z.of_nat off) = Some v.
Proof.
  intros Hl Hn Ht <-. rewrite read_plain.
  - f_equal. f_equal. by apply held_bytes.
  - intros k Hk. rewrite <- Z.add_assoc, <- Nat2Z.inj_add. by apply Ht.
Qed.
Lemma exec_cons i l s s' : fetchable s = true -> exec i s = Some s' -> exec_block (i :: l) s = exec_block l s'.
Proof. intros Hf He. cbn [exec_block]. by rewrite Hf, He. Qed.

Section Run.
Context (pm32 lm64 back gdt : Z) (m : memory) (table stack entry : Z).
Notation TRAMPOLINE_BASE := SmpBoot.TRAMPOLINE_BASE.

(** What the boot processor has put into low memory: the trampoline, whose code and
    data fit in a page, and the three words; the tables map both pages onto themselves
    and the word below the stack somewhere. *)
Record ready (push : Z) : Prop := {
  r_labels : 0 < pm32 < 0x1000 /\ 0 < lm64 < 0x1000 /\ pm32 <> lm64;
  r_gdt : 0 <= gdt /\ gdt + 38 <= 0x1000;
  r_data : held m (TRAMPOLINE_BASE + gdt) (tramp_data gdt);
  r_table : held m 0x9000 (to_le 4 table) /\ 0 <= table < 2 ^ 32;
  r_stack : held m 0x9008 (to_le 8 stack) /\ 8 <= stack < 2 ^ 64;
  r_entry : held m 0x9010 (to_le 8 entry) /\ 0 <= entry < 2 ^ 64 /\ ~ (0x8000 <= entry < 0x9000);
  r_mapped : forall a, 0x8000 <= a < 0xA000 -> Paging.virt_to_phys (Uefi.words m) (Z.land table 0x000FFFFFFFFFF000) a = Some a;
  r_push : Paging.virt_to_phys (Uefi.words m) (Z.land table 0x000FFFFFFFFFF000) (stack - 8) = Some push /\
           Paging.virt_to_phys (Uefi.words m) (Z.land table 0x000FFFFFFFFFF000) (stack - 1) = Some (push + 7)
}.

Lemma read_gdt s sel k d : 0 <= gdt -> mem s = m -> held m (TRAMPOLINE_BASE + gdt) (tramp_data gdt) -> tramp_gdt !! k = Some d -> sel = 8 * Z.of_nat k ->
  (forall a, 0x8000 + gdt <= a < 0x8000 + gdt + 38 -> translate s a = Some a) -> read s 8 (0x8000 + gdt + sel) = Some d.
Proof.
  intros Hg Hm Hd Hk -> Ht. replace (8 * Z.of_nat k) with (Z.of_nat (8 * k)) by lia. pose proof (lookup_lt_Some _ _ _ Hk) as Hlt. change (length tramp_gdt) with 4%nat in Hlt.
  apply (read_held s (0x8000 + gdt) (tramp_data gdt)).
  - by rewrite Hm.
  - change (length (tramp_data gdt)) with 38%nat. lia.
  - intros j Hj. apply Ht. lia.
  - destruct k as [|[|[|[|k]]]]; [injection Hk as <-; reflexivity..|lia].
Qed.

Lemma fetch_unpaged s : PG s = false -> fetchable s = true.
Proof. intros E. unfold fetchable, translate. rewrite E. by apply bool_decide_true. Qed.
Lemma low16 x v : 0 <= v < 2 ^ 16 -> (x - x mod 2 ^ 16 + v) mod 2 ^ 16 = v.
Proof. intros Hv. replace (x - x mod 2 ^ 16) with (x / 2 ^ 16 * 2 ^ 16) by (pose proof (Z.div_mod x (2 ^ 16)); lia). rewrite Z.add_comm, Z.mod_add by lia. by apply Z.mod_small. Qed.

(** The processor at the start of the protected mode part. *)
Definition flat32 : seg := mkSeg 0x18 0 0xFFFFFFFF false true.
Record in32 (s : cpu) : Prop := {
  i_rip : rip s = 0x8000 + pm32; i_cs : cs s = flat32; i_cr0 : cr0 s = 0x60000011; i_cr4 : cr4 s = 0; i_efer : efer s = 0;
  i_gdt : gdt_limit s = 31 /\ gdt_base s = 0x8000 + gdt; i_flags : IF s = false /\ DF s = false; i_mem : mem s = m
}.
(** Symbolic steps: the state stays a record, closed arithmetic is evaluated. *)
Ltac consts := repeat match goal with
  | |- context [Z.testbit (Zpos ?p) ?k] => let b := eval vm_compute in (Z.testbit (Zpos p) k) in change (Z.testbit (Zpos p) k) with b
  | |- context [Z.testbit 0 ?k] => change (Z.testbit 0 k) with false
  | |- context [Z.lor (Zpos ?p) (Zpos ?q)] => let b := eval vm_compute in (Z.lor (Zpos p) (Zpos q)) in change (Z.lor (Zpos p) (Zpos q)) with b
  | |- context [Z.modulo (Zpos ?p) (Z.pow 2 (Zpos ?q))] => let b := eval vm_compute in (Z.modulo (Zpos p) (Z.pow 2 (Zpos q))) in change (Z.modulo (Zpos p) (Z.pow 2 (Zpos q))) with b
  | |- context [Z.modulo 0 (Z.pow 2 (Zpos ?q))] => change (Z.modulo 0 (Z.pow 2 (Zpos q))) with 0
  | |- context [Z.eqb (Zpos ?p) (Zpos ?q)] => let b := eval vm_compute in (Z.eqb (Zpos p) (Zpos q)) in change (Z.eqb (Zpos p) (Zpos q)) with b
  | |- context [Z.setbit ?a ?k] => let b := eval vm_compute in (Z.setbit a k) in change (Z.setbit a k) with b
  | |- context [Z.clearbit ?a ?k] => let b := eval vm_compute in (Z.clearbit a k) in change (Z.clearbit a k) with b
  end; cbv iota beta.
Ltac step := cbv [exec put set_reg set_gpr set_segs set_control set_gdt set_flags set_rip write_cr0 reg_of rax rbx rcx rdx rsp rip cs ds es ss cr0 cr3 cr4 efer gdt_limit gdt_base IF DF mem load_data PE LMA long]; consts.
Ltac go := erewrite exec_cons; [|by apply fetch_unpaged|step; reflexivity].
Lemma run16 push a b c d sp : ready push -> exists s, exec_block (code16 pm32 gdt) (after_sipi a b c d sp m) = Some s /\ in32 s.
Proof.
  intros [(Hp & Hl & _) [Hg0 Hg] Hd _ _ _ _ _]. unfold code16, after_sipi. do 3 go. rewrite Z.lxor_nilpotent. change (0 mod 2 ^ 16) with 0.
  do 5 go. rewrite low16 by done. set (s8 := mkCpu _ _ _ _ _ _ _ _ _ _ _ _ _ _ _ _ _ _ _).
  assert (Hb : (reg_of BX s8 + (gdt + 32)) mod 2 ^ 16 = 0x8000 + gdt + Z.of_nat 32).
  { change (reg_of BX s8) with (b - b mod 2 ^ 16 + 0x8000). rewrite <- Z.add_assoc. rewrite low16 by lia. lia. }
  assert (Hds : base (ds s8) = 0) by done.
  assert (Hr : forall off n v, (off + n <= 38)%nat -> le_value (take n (drop off (tramp_data gdt))) = v -> read s8 n (0x8000 + gdt + Z.of_nat off) = Some v).
  { intros off n v Hn Hv. by apply (read_held s8 _ (tramp_data gdt)). }
  assert (Hlgdt : exec (Lgdt (gdt + 32) BX) s8 = Some (set_gdt 31 (0x8000 + gdt) s8)).
  { cbn [exec]. rewrite Hb. unfold data_address. change (width s8 =? 64) with false. change (limit (ds s8)) with 0xFFFF. cbn iota. rewrite (proj2 (Z.leb_le _ _)), Hds, Z.add_0_l by lia.
    cbn [mbind option_bind]. rewrite (Hr 32%nat 2%nat 31) by (lia || reflexivity). cbn [mbind option_bind].
    replace (0x8000 + gdt + Z.of_nat 32 + 2) with (0x8000 + gdt + Z.of_nat 34) by lia. rewrite (Hr 34%nat 4%nat (0x8000 + gdt)).
    - cbn [mbind option_bind]. by rewrite Z.mod_small by lia.
    - lia.
    - change (take 4 (drop 34 (tramp_data gdt))) with (to_le 4 (0x8000 + gdt)). apply le_value_to_le. lia. }
  erewrite exec_cons; [|by apply fetch_unpaged|exact Hlgdt]. subst s8. do 3 go.
  set (s12 := mkCpu _ _ _ _ _ _ _ _ _ _ _ _ _ _ _ _ _ _ _).
  assert (Hj : load_code s12 0x18 = Some flat32).
  { unfold load_code, descriptor. change (PE s12) with true. change (gdt_limit s12) with 31. change (gdt_base s12) with (0x8000 + gdt). change (LMA s12) with false. cbn iota.
    rewrite (read_gdt s12 0x18 3 _ Hg0 eq_refl Hd eq_refl eq_refl) by done. reflexivity. }
  erewrite exec_cons; [|by apply fetch_unpaged|cbn [exec]; rewrite Hj; cbn [mbind option_bind]; rewrite Z.mod_small by lia; cbn [limit flat32]; rewrite (proj2 (Z.leb_le _ _)), orb_true_r by lia; reflexivity].
  eexists. split; [reflexivity|]. by split.
Qed.

(** The processor at the start of the long mode part. *)
Definition flat_data : seg := mkSeg 0x10 0 0xFFFFFFFF false true.
Definition flat64 : seg := mkSeg 0x08 0 0xFFFFFFFF true false.
Record in64 (s : cpu) : Prop := {
  l_rip : rip s = 0x8000 + lm64; l_cs : cs s = flat64; l_segs : ds s = flat_data /\ es s = flat_data /\ ss s = flat_data;
  l_control : cr0 s = 0xE0000011 /\ cr3 s = table /\ cr4 s = 0x20 /\ efer s = 0xD00; l_flags : IF s = false /\ DF s = false; l_mem : mem s = m
}.

Lemma data_seg s push : ready push -> PE s = true -> PG s = false -> gdt_limit s = 31 -> gdt_base s = 0x8000 + gdt -> mem s = m -> load_data s 0x10 = Some flat_data.
Proof.
  intros R HPE HPG Hl Hb Hm. unfold load_data, descriptor. rewrite HPE, Hl, Hb. cbn iota.
  rewrite (read_gdt s 0x10 2 _ (proj1 (r_gdt _ R)) Hm (r_data _ R) eq_refl eq_refl); [reflexivity|]. intros a _. unfold translate. by rewrite HPG.
Qed.
Lemma read_word s n a w : mem s = m -> held m a (to_le n w) -> 0 <= w < 256 ^ Z.of_nat n -> (forall k, (k < n)%nat -> translate s (a + Z.of_nat k) = Some (a + Z.of_nat k)) -> read s n a = Some w.
Proof.
  intros Hm Hh Hw Ht. replace a with (a + Z.of_nat 0) by lia. apply (read_held s a (to_le n w)).
  - by rewrite Hm.
  - by rewrite length_to_le.
  - done.
  - rewrite drop_0, take_ge by (by rewrite length_to_le). by apply le_value_to_le.
Qed.

Lemma run32 push s : ready push -> in32 s -> exists s', exec_block (code32 lm64) s = Some s' /\ in64 s'.
Proof.
  intros R [_ Hcs Hcr0 Hcr4 Hef [Hgl Hgb] [HIF HDF] Hm]. pose proof R as [(_ & Hl & _) [Hg0 Hg] Hd [Ht Htb] _ _ Hmap _].
  destruct s as [xa xb xc xd xsp xrip xcs xds xes xss xcr0 xcr3 xcr4 xefer xgl xgb xif xdf xm]. cbn in Hcs, Hcr0, Hcr4, Hef, Hgl, Hgb, HIF, HDF, Hm. subst. unfold code32.
  assert (Hax : forall s, reg_of AX s = xa - xa mod 2 ^ 16 + 16 -> reg_of AX s mod 2 ^ 16 = 0x10) by (intros s ->; by apply low16).
  go. do 3 (erewrite exec_cons; [|by apply fetch_unpaged|cbn [exec]; rewrite Hax by done; rewrite (data_seg _ push R) by done; reflexivity]).
  do 8 go.
  set (s12 := mkCpu _ _ _ _ _ _ _ _ _ _ _ _ _ _ _ _ _ _ _).
  assert (Hload : exec (Load 32 0 AX AX) s12 = Some (put 32 AX table s12)).
  { cbn [exec]. change (data_address s12 _ _) with (Some 0x9000). cbn [mbind option_bind]. change (Z.to_nat (32 / 8)) with 4%nat. by rewrite (read_word s12 4 0x9000 table). }
  erewrite exec_cons; [|by apply fetch_unpaged|exact Hload]. subst s12. do 4 go. rewrite !(Z.mod_small table) by done.
  set (s17 := mkCpu _ _ _ _ _ _ _ _ _ _ _ _ _ _ _ _ _ _ _).
  assert (Htr : forall a, 0x8000 <= a < 0xA000 -> translate s17 a = Some a) by (intros a Ha; exact (Hmap a Ha)).
  assert (Hj : load_code s17 0x08 = Some flat64).
  { unfold load_code, descriptor. change (PE s17) with true. change (gdt_limit s17) with 31. change (gdt_base s17) with (0x8000 + gdt). change (LMA s17) with true. cbn iota.
    rewrite (read_gdt s17 0x08 1 _ Hg0 eq_refl Hd eq_refl eq_refl); [reflexivity|]. intros a Ha. apply Htr. lia. }
  erewrite exec_cons; [|unfold fetchable; rewrite Htr by done; reflexivity|cbn [exec]; rewrite Hj; cbn [mbind option_bind]; rewrite Z.mod_small by lia; reflexivity].
  eexists. split; [reflexivity|]. by split.
Qed.

(** ** The whole trampoline *)
Lemma run64 push s : ready push -> in64 s -> exists s', exec_block (code64 back) s = Some s' /\
  rip s' = entry /\ rsp s' = stack - 8 /\ cs s' = cs s /\ ds s' = ds s /\ es s' = es s /\ ss s' = ss s /\ cr0 s' = cr0 s /\ cr3 s' = cr3 s /\ cr4 s' = cr4 s /\ efer s' = efer s /\
  IF s' = IF s /\ DF s' = DF s /\ mem s' = Uefi.write_u64 m push (0x8000 + back).
Proof.
  intros R [_ Hcs (Hds & Hes & Hss) (H0 & H3 & H4 & Hef) [HIF HDF] Hm]. pose proof R as [_ _ _ _ [Hs Hsb] [He [Heb _]] Hmap [Hp1 Hp2]].
  destruct s as [xa xb xc xd xsp xrip xcs xds xes xss xcr0 xcr3 xcr4 xefer xgl xgb xif xdf xm]. cbn in Hcs, Hds, Hes, Hss, H0, H3, H4, Hef, HIF, HDF, Hm. subst. unfold code64.
  assert (Htr : forall s, cr0 s = 0xE0000011 -> cr3 s = table -> mem s = m -> forall a, translate s a = Paging.virt_to_phys (Uefi.words m) (Z.land table 0x000FFFFFFFFFF000) a)
    by (intros s E0 E3 Em a; unfold translate, PG; by rewrite E0, E3, Em).
  assert (Hf : forall s, cr0 s = 0xE0000011 -> cr3 s = table -> mem s = m -> fetchable s = true) by (intros s E0 E3 Em; unfold fetchable; rewrite Htr, Hmap by done; by apply bool_decide_true).
  assert (Hld : forall s disp r w, cr0 s = 0xE0000011 -> cr3 s = table -> mem s = m -> width s = 64 -> rbx s = 0x9000 -> 0 <= disp <= 0x100 -> held m (0x9000 + disp) (to_le 8 w) -> 0 <= w < 2 ^ 64 ->
    exec (Load 64 disp BX r) s = Some (put 64 r w s)).
  { intros s disp r w E0 E3 Em Ew Eb Hdisp Hh Hw. cbn [exec]. unfold data_address. rewrite Ew. change (64 =? 64) with true. cbn iota. cbn [mbind option_bind reg_of]. rewrite Eb, Z.mod_small by lia.
    change (Z.to_nat (64 / 8)) with 8%nat. rewrite (read_word s 8 _ w); [done|done|done|done|]. intros k Hk. rewrite Htr by done. apply Hmap. lia. }
  erewrite exec_cons; [|by apply Hf|step; reflexivity].
  erewrite exec_cons; [|by apply Hf|apply (Hld _ 8 SP stack); done || lia].
  erewrite exec_cons; [|by apply Hf|apply (Hld _ 16 AX entry); done || lia].
  set (s3 := put 64 AX entry _). assert (Hsp : rsp s3 = stack) by (change (rsp s3) with (stack mod 2 ^ 64); apply Z.mod_small; lia).
  erewrite exec_cons; [|by apply Hf|].
  2:{ cbn [exec]. rewrite Hsp, (Z.mod_small (stack - 8)) by lia. unfold store. rewrite !Htr by done. rewrite Hp1. replace (stack - 8 + 7) with (stack - 1) by lia. rewrite Hp2.
      cbn [mbind option_bind]. rewrite Z.eqb_refl. reflexivity. }
  eexists. split; [reflexivity|]. repeat split. change (entry mod 2 ^ 64 = entry). by apply Z.mod_small.
Qed.

(** C8: The trampoline does what the start-up protocol takes it for.  A processor that
    starts in real mode on the page the boot processor prepared goes through protected
    mode into long mode without a fault and calls the entry point: with the tables, the
    stack and the entry point of the three words (as the step [Trampoline] of the
    start-up protocol has it), in 64 bit code with flat segments, paging, PAE and
    no-execute on, interrupts off, and nothing written but the return address. *)
Theorem trampoline_enters_long_mode push a b c d sp {H} {HW : Io.Hardware H} (M : SmpBoot.machine H) (j : nat) (x : SmpBoot.ap H) per_cpu_base syscall_entry_addr :
  ready push -> SmpBoot.scratch M = (table, stack, entry) -> SmpBoot.aps M !! j = Some x -> SmpBoot.pc x = SmpBoot.Trampoline ->
  exists s, trampoline pm32 lm64 back gdt 4 (after_sipi a b c d sp m) = Some s /\ rip s = entry /\
    SmpBoot.ap_entry per_cpu_base entry syscall_entry_addr j M = SmpBoot.put_ap M j (SmpBoot.mkAp (SmpBoot.lapic x) SmpBoot.Entry (SmpBoot.ap_msrs x) (cr3 s) (rsp s + 8)) /\
    width s = 64 /\ cs s = flat64 /\ ds s = flat_data /\ es s = flat_data /\ ss s = flat_data /\ cr0 s = 0xE0000011 /\ cr4 s = 0x20 /\ efer s = 0xD00 /\
    IF s = false /\ mem s = Uefi.write_u64 m push (0x8000 + back).
Proof.
  intros R HM Hx Hpc. pose proof R as [(Hp & Hl & Hne) _ _ _ _ (_ & _ & Hent) _ _].
  destruct (run16 push a b c d sp R) as (s1 & E1 & I1). destruct (run32 push s1 R I1) as (s2 & E2 & I2).
  destruct (run64 push s2 R I2) as (s3 & E3 & Hrip & Hrsp & Hcs & Hds & Hes & Hss & H0 & H3 & H4 & Hef & HIF & _ & Hmem).
  destruct I1 as [J1 Jc _ _ Je _ _ _], I2 as [K1 Kc (Kd & Ke & Ks) (K0 & K3 & K4 & Kf) [Ki _] _]. exists s3.
  assert (Hw : width s3 = 64) by (unfold width, LMA; by rewrite Hef, Kf, Hcs, Kc).
  assert (Htr : trampoline pm32 lm64 back gdt 4 (after_sipi a b c d sp m) = Some s3).
  { cbn [trampoline]. change (block_at pm32 lm64 back gdt (base (cs (after_sipi a b c d sp m)) + rip (after_sipi a b c d sp m))) with (Some (16, code16 pm32 gdt)). cbn iota.
    change (width (after_sipi a b c d sp m) =? 16) with true. cbn iota. rewrite E1. cbn [mbind option_bind]. rewrite J1, Jc. unfold block_at. cbn [base flat32].
    change SmpBoot.TRAMPOLINE_BASE with 0x8000. replace (_ =? 0x8000) with false by lia. rewrite Z.add_0_l, Z.eqb_refl. cbn iota.
    replace (width s1) with 32 by (unfold width, LMA; by rewrite Je, Jc). rewrite Z.eqb_refl, E2. cbn [mbind option_bind]. rewrite K1, Kc. cbn [base flat64]. rewrite Z.add_0_l.
    replace (0x8000 + lm64 =? 0x8000) with false by lia. replace (0x8000 + lm64 =? 0x8000 + pm32) with false by lia. rewrite Z.eqb_refl. cbn iota.
    replace (width s2) with 64 by (unfold width, LMA; by rewrite Kf, Kc). rewrite Z.eqb_refl, E3. cbn [mbind option_bind]. rewrite Hcs, Kc, Hrip. cbn [base flat64]. rewrite Z.add_0_l.
    replace (entry =? 0x8000) with false by lia. replace (entry =? 0x8000 + pm32) with false by lia. by replace (entry =? 0x8000 + lm64) with false by lia. }
  split; [done|]. split; [done|]. split; [|repeat (split; [congruence|]); done].
  unfold SmpBoot.ap_entry. rewrite Hx, Hpc, HM, Z.eqb_refl, H3, K3, Hrsp. by replace (stack - 8 + 8) with stack by lia.
Qed.
End Run.

(** ** Witness: the tables of the loader, the code laid out by hand *)
Lemma held_poke m a l : held (Uefi.poke m a l) a l.
Proof.
  intros i b Hi. pose proof (lookup_lt_Some _ _ _ Hi). unfold Uefi.poke, len. replace (_ && _)%bool with true by lia.
  replace (Z.to_nat (a + Z.of_nat i - a)) with i by lia. by apply nth_lookup_Some.
Qed.
Lemma held_poke_ne m a l a' l' : a' + len l' <= a \/ a + len l <= a' -> held m a l -> held (Uefi.poke m a' l') a l.
Proof. intros Hs Hh i b Hi. pose proof (lookup_lt_Some _ _ _ Hi). unfold Uefi.poke, len in *. replace (_ && _)%bool with false by lia. by apply Hh. Qed.

Definition low_memory : memory :=
  Uefi.poke (Uefi.poke (Uefi.poke (Uefi.poke (Uefi.build_tables 0x100000 (fun _ => 0)) 0x80A0 (tramp_data 0xA0)) 0x9000 (to_le 4 0x100000)) 0x9008 (to_le 8 0x30000)) 0x9010 (to_le 8 0x200000).
Lemma low_memory_maps a : 0 <= a < 0x20000000 -> Paging.virt_to_phys (Uefi.words low_memory) 0x100000 a = Some a.
Proof.
  intros Ha. rewrite (UefiBoot.tables_map _ 0x100000 a); [| |lia|done|lia|lia].
  - unfold UefiBoot.identity_mapped. by replace (a <? 0x20000000) with true by lia.
  - eapply UefiBoot.tables_same; [|apply (UefiBoot.tables_built 0x100000 (fun _ => 0)); lia]. intros x Hx. unfold low_memory, Uefi.poke.
    change (len (to_le 4 0x100000)) with 4. change (len (to_le 8 0x30000)) with 8. change (len (to_le 8 0x200000)) with 8. change (len (tramp_data 0xA0)) with 38.
    by do 4 (replace (_ && _)%bool with false by lia).
Qed.
Lemma low_memory_ready : ready 0x30 0x60 0xA0 low_memory 0x100000 0x30000 0x200000 0x2FFF8.
Proof.
  split.
  - lia.
  - lia.
  - do 3 (apply held_poke_ne; [vm_compute; right; discriminate|]). apply held_poke.
  - split; [|lia]. do 2 (apply held_poke_ne; [vm_compute; right; discriminate|]). apply held_poke.
  - split; [|lia]. apply held_poke_ne; [vm_compute; right; discriminate|]. apply held_poke.
  - split; [apply held_poke|lia].
  - intros a Ha. apply low_memory_maps. lia.
  - split; apply low_memory_maps; lia.
Qed.
Definition woken_ap : SmpBoot.ap SmpBoot.chip := SmpBoot.mkAp (SmpBoot.mkChip 4) SmpBoot.Trampoline (fun _ => 0) 0 0.
Definition woken : SmpBoot.machine SmpBoot.chip := SmpBoot.with_aps (SmpBoot.with_scratch (SmpBoot.demo_machine []) (0x100000, 0x30000, 0x200000)) [woken_ap].
Lemma trampoline_witness : exists s, trampoline 0x30 0x60 0x80 0xA0 4 (after_sipi 1 2 3 4 5 low_memory) = Some s /\ rip s = 0x200000 /\ width s = 64.
Proof.
  destruct (trampoline_enters_long_mode 0x30 0x60 0x80 0xA0 low_memory 0x100000 0x30000 0x200000 0x2FFF8 1 2 3 4 5 woken 0 woken_ap 0x200000 0x100100 low_memory_ready eq_refl eq_refl eq_refl)
    as (s & E & Hr & _ & Hw & _).
  exists s. exact (conj E (conj Hr Hw)).
Defined.
End Trampoline.
