(* ===== verification/SyscallEntry.v ===== *)
(** * Entering and leaving the kernel (src/src/arch/syscall.rs: [syscall_entry];
    src/src/arch/ring3.rs)

    The assembly routines as instructions over the registers of a processor and the
    memory it shares with the others. *)

From stdpp Require Import prelude numbers list.
From S2P Require Import Prelude Paging Descriptors.
Import Paging.

Module SyscallEntry.

Inductive reg := RAX | RBX | RCX | RDX | RSI | RDI | RBP | RSP | R8 | R9 | R10 | R11 | R12 | R13 | R14 | R15 | RIP | RFLAGS | CS | SS | DS | ES | FS | GS.
#[global] Instance reg_eq_dec : EqDecision reg.
Proof. solve_decision. Defined.

Definition regs := reg -> Z.
Definition set (r : reg) (v : Z) (f : regs) : regs := fun x => if decide (x = r) then v else f x.

(** The statics the entry routine uses, and memory. *)
Record shared := mkShared { USER_RSP_SCRATCH : Z; KERNEL_RSP_SCRATCH : Z; SYSCALL_NR_SCRATCH : Z; smem : memory }.
Definition with_mem (s : shared) (m : memory) : shared := mkShared (USER_RSP_SCRATCH s) (KERNEL_RSP_SCRATCH s) (SYSCALL_NR_SCRATCH s) m.

Definition set_kernel_rsp (s : shared) (rsp : Z) : shared := mkShared (USER_RSP_SCRATCH s) rsp (SYSCALL_NR_SCRATCH s) (smem s).

Inductive instr :=
| StoreUserRsp | LoadKernelRsp | PushUserRsp | StoreNr
| Push (r : reg) | Pop (r : reg) | Mov (d s : reg) | Xor (r : reg) | CallHandler | AddRsp (n : Z) | Sysretq | Iretq.

Definition push_word (v : Z) (st : regs * shared) : regs * shared :=
  let '(f, s) := st in let sp := u64_sub (f RSP) 8 in (set RSP sp f, with_mem s (write_word (smem s) sp v)).
Definition pop_to (r : reg) (st : regs * shared) : regs * shared :=
  let '(f, s) := st in let v := read_word (smem s) (f RSP) in (set r v (set RSP (u64_add (f RSP) 8) f), s).

(** The flags [sysret] restores from [r11]. *)
Definition sysret_flags (f : Z) : Z := Z.lor (Z.land f 0x3C7FD7) 2.

Section Exec.
(** The dispatcher, called with the C convention. *)
Variable handler : regs -> shared -> regs * shared.

Definition exec (i : instr) (st : regs * shared) : regs * shared :=
  let '(f, s) := st in
  match i with
  | StoreUserRsp => (f, mkShared (f RSP) (KERNEL_RSP_SCRATCH s) (SYSCALL_NR_SCRATCH s) (smem s))
  | LoadKernelRsp => (set RSP (KERNEL_RSP_SCRATCH s) f, s)
  | PushUserRsp => push_word (USER_RSP_SCRATCH s) st
  | StoreNr => (f, mkShared (USER_RSP_SCRATCH s) (KERNEL_RSP_SCRATCH s) (f RAX) (smem s))
  | Push r => push_word (f r) st
  | Pop r => pop_to r st
  | Mov d r => (set d (f r) f, s)
  | Xor r => (set r 0 f, s)
  | CallHandler => handler f s
  | AddRsp n => (set RSP (u64_add (f RSP) n) f, s)
  | Sysretq => (set CS Descriptors.USER_CS (set SS Descriptors.USER_DS (set RFLAGS (sysret_flags (f R11)) (set RIP (f RCX) f))), s)
  | Iretq =>
    let '(f1, s) := pop_to RIP st in let '(f2, s) := pop_to CS (f1, s) in let '(f3, s) := pop_to RFLAGS (f2, s) in
    let sp := read_word (smem s) (f3 RSP) in let ss := read_word (smem s) (u64_add (f3 RSP) 8) in (set SS ss (set RSP sp f3), s)
  end.

Definition entry_prologue : list instr :=
  [StoreUserRsp; LoadKernelRsp; PushUserRsp; Push RCX; Push R11; Push RBP; Push RBX; Push R12; Push R13; Push R14; Push R15; Push RAX; StoreNr; Mov RCX R10].
Definition entry_epilogue : list instr :=
  [AddRsp 8; Pop R15; Pop R14; Pop R13; Pop R12; Pop RBX; Pop RBP; Pop R11; Pop RCX; Pop RSP; Sysretq].
Definition syscall_entry : list instr := entry_prologue ++ [CallHandler] ++ entry_epilogue.

Definition run (p : list instr) (st : regs * shared) : regs * shared := fold_left (fun st i => exec i st) p st.

(** [enter_user_mode]: the operands are in the registers the [asm!] block names. *)
Definition user_entry : list instr :=
  [Mov DS RCX; Mov ES RCX; Mov FS RCX; Mov GS RCX; Push RCX; Push RSI; Push RDX; Push R8; Push RDI;
   Xor RAX; Xor RBX; Xor RCX; Xor RDX; Xor RSI; Xor RDI; Xor RBP; Xor R8; Xor R9; Xor R10; Xor R11; Xor R12; Xor R13; Xor R14; Xor R15; Iretq].
Definition enter_user_mode (entry_point user_stack_top : Z) (st : regs * shared) : regs * shared :=
  let '(f, s) := st in
  run user_entry (set RCX Descriptors.USER_DS (set R8 Descriptors.USER_CS (set RDX 0x202 (set RSI user_stack_top (set RDI entry_point f)))), s).

(** The instruction [syscall]: the return address and the flags go to [rcx] and [r11],
    and the bits of FMASK are cleared. *)
Definition syscall_instr (lstar : Z) (f : regs) : regs :=
  set CS Descriptors.KERNEL_CS (set SS Descriptors.KERNEL_DS (set RFLAGS (Z.land (f RFLAGS) (u64_not Descriptors.FMASK_VALUE)) (set RIP lstar (set R11 (f RFLAGS) (set RCX (f RIP) f))))).
End Exec.

Definition validate_ring3_frame (cs ss rflags : Z) : bool * bool * bool :=
  (((Z.land cs 3 =? 3) && (cs =? Descriptors.USER_CS))%bool, ((Z.land ss 3 =? 3) && (ss =? Descriptors.USER_DS))%bool, negb (Z.land rflags 0x200 =? 0)).

(** ** The C convention: the registers a callee keeps, and the stack of its caller *)
Definition callee_saved : list reg := [RBX; RBP; RSP; R12; R13; R14; R15].
(** The dispatcher as the entry routine calls it for a program with the registers [u], ten
    words below the kernel stack pointer [k]. *)
Definition called (u : regs) (k : Z) (f : regs) : Prop :=
  f RSP = k - 80 /\ [f RDI; f RSI; f RDX; f RCX; f R8; f R9] = [u RDI; u RSI; u RDX; u R10; u R8; u R9].
(** What the convention asks of it at such a call: it keeps the registers, and the ten
    words are still there when it returns.  It may write any other memory: its own frames,
    the program's buffers, the page tables. *)
Definition abi (handler : regs -> shared -> regs * shared) (u : regs) (k : Z) : Prop := forall f s, called u k f ->
  let '(f', s') := handler f s in (forall r, r ∈ callee_saved -> f' r = f r) /\ forall i, 0 <= i < 10 -> read_word (smem s') (f RSP + 8 * i) = read_word (smem s) (f RSP + 8 * i).

(** The ten words the entry routine leaves below the kernel stack pointer [k] for a
    caller with the registers [u]. *)
Definition frame (m : memory) (k : Z) (u : regs) : Prop :=
  read_word m (k - 8) = u RSP /\ read_word m (k - 16) = u RIP /\ read_word m (k - 24) = u RFLAGS /\ read_word m (k - 32) = u RBP /\ read_word m (k - 40) = u RBX /\
  read_word m (k - 48) = u R12 /\ read_word m (k - 56) = u R13 /\ read_word m (k - 64) = u R14 /\ read_word m (k - 72) = u R15 /\ read_word m (k - 80) = u RAX.

Lemma set_eq r v f : set r v f r = v.
Proof. unfold set. by rewrite decide_True. Qed.
Lemma set_ne r v f x : x <> r -> set r v f x = f x.
Proof. intros. unfold set. by rewrite decide_False. Qed.

Section Runs.
Variable h : regs -> shared -> regs * shared.

Lemma run_app p q st : run h (p ++ q) st = run h q (run h p st).
Proof. apply fold_left_app. Qed.
Lemma run_cons i p st : run h (i :: p) st = run h p (exec h i st).
Proof. done. Qed.

Definition statics (s : shared) : Z * Z * Z := (USER_RSP_SCRATCH s, KERNEL_RSP_SCRATCH s, SYSCALL_NR_SCRATCH s).

Lemma run_pushes rs : forall (f : regs) s, RSP ∉ rs -> 8 * Z.of_nat (length rs) <= f RSP < 2 ^ 64 ->
  exists f' s', run h (Push <$> rs) (f, s) = (f', s') /\ f' RSP = f RSP - 8 * Z.of_nat (length rs) /\ (forall x, x <> RSP -> f' x = f x) /\ statics s' = statics s /\
    (forall i r, rs !! i = Some r -> read_word (smem s') (f RSP - 8 * (Z.of_nat i + 1)) = f r) /\ (forall a, f RSP <= a -> read_word (smem s') a = read_word (smem s) a).
Proof.
  induction rs as [|r rs IH]; intros f s Hr Hb; [exists f, s; split; [done|]; split; [cbn [length]; lia|done]|]. apply not_elem_of_cons in Hr as [Hne Hr]. cbn [length] in Hb.
  rewrite fmap_cons, run_cons. cbn [exec push_word]. cbv zeta. rewrite u64_sub_small by lia. set (f1 := set RSP (f RSP - 8) f). set (s1 := with_mem s _).
  assert (E1 : f1 RSP = f RSP - 8) by apply set_eq. destruct (IH f1 s1 Hr ltac:(lia)) as (f' & s' & E & Hsp & Hk & Hst & Hw & Ha). exists f', s'. split; [exact E|]. split; [cbn [length]; lia|].
  split; [intros x Hx; rewrite Hk by done; by apply set_ne|]. split; [by rewrite Hst|]. split.
  - intros [|i] x Hi.
    + injection Hi as ->. replace (f RSP - 8 * (Z.of_nat 0 + 1)) with (f1 RSP) by lia. rewrite Ha by lia. unfold s1. cbn [with_mem smem]. unfold read_word, write_word. rewrite E1, Z.eqb_refl. reflexivity.
    + replace (f RSP - 8 * (Z.of_nat (S i) + 1)) with (f1 RSP - 8 * (Z.of_nat i + 1)) by lia. rewrite (Hw i x Hi). apply set_ne. intros ->. apply Hr. exact (list_elem_of_lookup_2 rs i _ Hi).
  - intros a Hle. rewrite Ha by lia. unfold s1. cbn [with_mem smem]. unfold read_word, write_word. by rewrite (proj2 (Z.eqb_neq _ _)) by lia.
Qed.

Lemma run_pops rs : forall (f : regs) s, RSP ∉ rs -> NoDup rs -> 0 <= f RSP -> f RSP + 8 * Z.of_nat (length rs) < 2 ^ 64 ->
  exists f', run h (Pop <$> rs) (f, s) = (f', s) /\ f' RSP = f RSP + 8 * Z.of_nat (length rs) /\
    (forall i r, rs !! i = Some r -> f' r = read_word (smem s) (f RSP + 8 * Z.of_nat i)) /\ (forall x, x <> RSP -> x ∉ rs -> f' x = f x).
Proof.
  induction rs as [|r rs IH]; intros f s Hr Hnd H0 Hb; [exists f; split; [done|]; split; [cbn [length]; lia|done]|]. apply not_elem_of_cons in Hr as [Hne Hr]. apply NoDup_cons in Hnd as [Hnr Hnd]. cbn [length] in Hb.
  rewrite fmap_cons, run_cons. cbn [exec pop_to]. cbv zeta. rewrite u64_add_small by lia. set (f1 := set r _ _).
  assert (E1 : f1 RSP = f RSP + 8) by (unfold f1; rewrite set_ne by done; apply set_eq). destruct (IH f1 s Hr Hnd ltac:(lia) ltac:(lia)) as (f' & E & Hsp & Hw & Hk). exists f'. split; [exact E|]. split; [cbn [length]; lia|]. split.
  - intros [|i] x Hi.
    + injection Hi as ->. rewrite Hk by done. unfold f1. rewrite set_eq. f_equal. lia.
    + rewrite (Hw i x Hi). f_equal. lia.
  - intros x Hx [Hxr Hxs]%not_elem_of_cons. rewrite Hk by done. unfold f1. by rewrite !set_ne.
Qed.

Lemma prologue_spec lstar u s : 80 <= KERNEL_RSP_SCRATCH s < 2 ^ 64 ->
  exists f s', run h entry_prologue (syscall_instr lstar u, s) = (f, s') /\ f RSP = KERNEL_RSP_SCRATCH s - 80 /\ (forall r, r ∈ [RAX; RDI; RSI; RDX; R8; R9; R10; RBX; RBP; R12; R13; R14; R15] -> f r = u r) /\ f RCX = u R10 /\
    statics s' = (u RSP, KERNEL_RSP_SCRATCH s, u RAX) /\ frame (smem s') (KERNEL_RSP_SCRATCH s) u.
Proof.
  intros Hk. set (k := KERNEL_RSP_SCRATCH s) in *. set (f0 := syscall_instr lstar u). change entry_prologue with ([StoreUserRsp; LoadKernelRsp; PushUserRsp] ++ (Push <$> [RCX; R11; RBP; RBX; R12; R13; R14; R15; RAX]) ++ [StoreNr; Mov RCX R10]).
  set (f1 := set RSP (k - 8) (set RSP k f0)). set (s1 := mkShared (u RSP) k (SYSCALL_NR_SCRATCH s) (write_word (smem s) (k - 8) (u RSP))).
  assert (E0 : run h [StoreUserRsp; LoadKernelRsp; PushUserRsp] (f0, s) = (f1, s1)).
  { unfold run. cbn [fold_left exec push_word KERNEL_RSP_SCRATCH]. cbv zeta. rewrite (set_eq RSP (KERNEL_RSP_SCRATCH s)). rewrite u64_sub_small by lia. reflexivity. }
  assert (E1 : f1 RSP = k - 8) by apply set_eq. assert (Hf1 : forall r, r <> RSP -> f1 r = f0 r) by (intros r Hr; unfold f1; by rewrite !set_ne).
  destruct (run_pushes [RCX; R11; RBP; RBX; R12; R13; R14; R15; RAX] f1 s1 ltac:(by_compute) ltac:(cbn [length]; lia)) as (f2 & s2 & E2 & Hsp & Hkeep & Hst & Hw & Ha). cbn [length] in Hsp.
  rewrite !run_app, E0, E2. exists (set RCX (f2 R10) f2), (mkShared (USER_RSP_SCRATCH s2) (KERNEL_RSP_SCRATCH s2) (f2 RAX) (smem s2)). split; [reflexivity|]. injection Hst as Hu Hks Hn.
  assert (Hf2 : forall r, r <> RSP -> f2 r = f0 r) by (intros r Hr; by rewrite Hkeep, Hf1).
  split; [rewrite set_ne by done; lia|]. split.
  { intros r Hr. assert (HF : Forall (fun r => r <> RSP /\ r <> RCX /\ r <> R11 /\ r <> RIP /\ r <> RFLAGS /\ r <> CS /\ r <> SS) [RAX; RDI; RSI; RDX; R8; R9; R10; RBX; RBP; R12; R13; R14; R15]) by by_compute.
    rewrite Forall_forall in HF. destruct (HF r Hr) as (? & ? & ? & ? & ? & ? & ?). rewrite set_ne, Hf2 by done. unfold f0, syscall_instr. by rewrite !set_ne. }
 
  split; [rewrite set_eq; by apply Hf2|]. split; [unfold statics; cbn [USER_RSP_SCRATCH KERNEL_RSP_SCRATCH SYSCALL_NR_SCRATCH]; rewrite Hu, Hks, Hf2 by done; reflexivity|]. cbn [smem].
  assert (Hread : forall i r x, [RCX; R11; RBP; RBX; R12; R13; R14; R15; RAX] !! i = Some r -> f0 r = x -> read_word (smem s2) (k - 8 * (Z.of_nat i + 2)) = x).
  { intros i r x Hi <-. replace (k - 8 * (Z.of_nat i + 2)) with (f1 RSP - 8 * (Z.of_nat i + 1)) by lia. rewrite (Hw i r Hi). apply Hf1. intros ->. apply list_elem_of_lookup_2 in Hi. revert Hi. by_compute. }
  split; [replace (k - 8) with (f1 RSP) by lia; rewrite Ha by lia; unfold s1, read_word, write_word; cbn [smem]; by rewrite E1, Z.eqb_refl|].
  repeat split; [exact (Hread 0%nat RCX _ eq_refl eq_refl)|exact (Hread 1%nat R11 _ eq_refl eq_refl)|exact (Hread 2%nat RBP _ eq_refl eq_refl)|exact (Hread 3%nat RBX _ eq_refl eq_refl)|exact (Hread 4%nat R12 _ eq_refl eq_refl)|
    exact (Hread 5%nat R13 _ eq_refl eq_refl)|exact (Hread 6%nat R14 _ eq_refl eq_refl)|exact (Hread 7%nat R15 _ eq_refl eq_refl)|exact (Hread 8%nat RAX _ eq_refl eq_refl)].
Qed.

Lemma epilogue_spec f s u k : f RSP = k - 80 -> 80 <= k < 2 ^ 64 -> frame (smem s) k u ->
  exists f', run h entry_epilogue (f, s) = (f', s) /\ f' RSP = u RSP /\ f' RIP = u RIP /\ f' RFLAGS = sysret_flags (u RFLAGS) /\ f' RAX = f RAX /\ (forall r, r ∈ [RBX; RBP; R12; R13; R14; R15] -> f' r = u r) /\
    f' CS = Descriptors.USER_CS /\ f' SS = Descriptors.USER_DS.
Proof.
  intros Hsp Hk (H1 & H2 & H3 & H4 & H5 & H6 & H7 & H8 & H9 & H10). change entry_epilogue with ([AddRsp 8] ++ (Pop <$> [R15; R14; R13; R12; RBX; RBP; R11; RCX]) ++ [Pop RSP; Sysretq]).
  set (f1 := set RSP (k - 72) f). assert (E0 : run h [AddRsp 8] (f, s) = (f1, s)) by (unfold run; cbn [fold_left exec]; rewrite Hsp, u64_add_small by lia; unfold f1; do 3 f_equal; lia).
  assert (E1 : f1 RSP = k - 72) by apply set_eq.
  destruct (run_pops [R15; R14; R13; R12; RBX; RBP; R11; RCX] f1 s ltac:(by_compute) ltac:(by_compute) ltac:(lia) ltac:(cbn [length]; lia)) as (f2 & E2 & Hsp2 & Hw & Hkeep). cbn [length] in Hsp2.
  rewrite !run_app, E0, E2. eexists. split; [reflexivity|].
  assert (Hread : forall i r a, [R15; R14; R13; R12; RBX; RBP; R11; RCX] !! i = Some r -> k - 72 + 8 * Z.of_nat i = a -> f2 r = read_word (smem s) a) by (intros i r a Hi <-; rewrite (Hw i r Hi); by rewrite E1).
  split; [rewrite !set_ne by done; rewrite set_eq, Hsp2, E1; rewrite <- H1; f_equal; lia|]. split; [rewrite !set_ne, set_eq by done; rewrite !set_ne by done; rewrite <- H2; apply (Hread 7%nat); [done|lia]|].
  split; [rewrite !set_ne, set_eq by done; f_equal; rewrite !set_ne by done; rewrite <- H3; apply (Hread 6%nat); [done|lia]|]. split; [rewrite !set_ne by done; rewrite Hkeep by by_compute; by apply set_ne|].
  split; [|split; [apply set_eq|rewrite set_ne by done; apply set_eq]].
  intros r Hr. assert (HF : Forall (fun r => r <> RSP /\ r <> RIP /\ r <> RFLAGS /\ r <> CS /\ r <> SS) [RBX; RBP; R12; R13; R14; R15]) by by_compute. rewrite Forall_forall in HF. destruct (HF r Hr) as (? & ? & ? & ? & ?). rewrite !set_ne by done.
  repeat (apply elem_of_cons in Hr as [->|Hr]); [rewrite <- H5; apply (Hread 4%nat)|rewrite <- H4; apply (Hread 5%nat)|rewrite <- H6; apply (Hread 3%nat)|rewrite <- H7; apply (Hread 2%nat)|rewrite <- H8; apply (Hread 1%nat)|rewrite <- H9; apply (Hread 0%nat)|by apply elem_of_nil in Hr]; done || lia.
Qed.
End Runs.

Lemma frame_kept m m' k u : frame m k u -> (forall i, 0 <= i < 10 -> read_word m' (k - 80 + 8 * i) = read_word m (k - 80 + 8 * i)) -> frame m' k u.
Proof.
  intros Hf Hk. assert (E : forall c j, c = 8 * j -> 1 <= j <= 10 -> read_word m' (k - c) = read_word m (k - c)).
  { intros c j -> Hj. replace (k - 8 * j) with (k - 80 + 8 * (10 - j)) by lia. apply Hk. lia. }
  unfold frame in *. rewrite (E 8 1), (E 16 2), (E 24 3), (E 32 4), (E 40 5), (E 48 6), (E 56 7), (E 64 8), (E 72 9), (E 80 10) by lia. exact Hf.
Qed.
(** The way back from the dispatcher. *)
Lemma dispatched h u k f s : abi h u k -> called u k f -> frame (smem s) k u -> (h f s).1 RSP = k - 80 /\ frame (smem (h f s).2) k u.
Proof.
  intros Habi Hc Hf. specialize (Habi f s Hc). destruct (h f s) as [fr sr]. destruct Habi as [Hkeep Hmem]. destruct Hc as [Hsp _]. cbn [fst snd].
  split; [rewrite Hkeep; [done|by_compute]|]. apply (frame_kept (smem s)); [done|]. intros i Hi. rewrite <- Hsp. by apply Hmem.
Qed.

(** C18: A system call is transparent to its caller.  Whatever the dispatcher does
    within the C convention (it keeps the callee-saved registers and the ten words the entry
    routine has pushed; the rest of memory it may change), a program that executes [syscall] continues after it
    with its stack pointer, its flags, its callee-saved registers and its privilege,
    and with the value the dispatcher left in [rax]; and the dispatcher was called
    with the program's six arguments, the number from [rax] in the scratch slot, and
    a kernel stack ten words below its top. *)
Theorem syscall_entry_transparent h lstar u s : abi h u (KERNEL_RSP_SCRATCH s) -> 80 <= KERNEL_RSP_SCRATCH s < 2 ^ 64 ->
  exists fc sc f' s', run h syscall_entry (syscall_instr lstar u, s) = (f', s') /\
    [fc RDI; fc RSI; fc RDX; fc RCX; fc R8; fc R9] = [u RDI; u RSI; u RDX; u R10; u R8; u R9] /\ SYSCALL_NR_SCRATCH sc = u RAX /\ fc RSP = KERNEL_RSP_SCRATCH s - 80 /\
    s' = (h fc sc).2 /\ f' RAX = (h fc sc).1 RAX /\ f' RIP = u RIP /\ f' RSP = u RSP /\ f' RFLAGS = sysret_flags (u RFLAGS) /\
    (forall r, r ∈ [RBX; RBP; R12; R13; R14; R15] -> f' r = u r) /\ f' CS = Descriptors.USER_CS /\ f' SS = Descriptors.USER_DS.
Proof.
  intros Habi Hk. destruct (prologue_spec h lstar u s Hk) as (fc & sc & E & Hsp & Hr & Hrcx & Hst & Hfr). injection Hst as Hu Hks Hnr.
  assert (Hc : called u (KERNEL_RSP_SCRATCH s) fc) by (split; [done|]; by rewrite Hrcx, (Hr RDI), (Hr RSI), (Hr RDX), (Hr R8), (Hr R9) by by_compute).
  destruct (dispatched h u _ fc sc Habi Hc Hfr) as [Hsp' Hfr']. destruct (h fc sc) as [fr sr] eqn:Eh.
  destruct (epilogue_spec h fr sr u (KERNEL_RSP_SCRATCH s) Hsp' Hk Hfr') as (f' & E' & H1 & H2 & H3 & H4 & H5 & H6 & H7).
  exists fc, sc, f', sr. rewrite Eh. split; [unfold syscall_entry; rewrite !run_app, E; unfold run at 2; cbn [fold_left exec]; by rewrite Eh|].
  split; [exact (proj2 Hc)|]. cbn [fst snd]. rewrite H4, H2, H1, H3. done.
Qed.

(** ** Several processors *)
Definition machine := (list (regs * list instr) * shared)%type.
(** One instruction of processor [i]. *)
Definition step (h : regs -> shared -> regs * shared) (i : nat) (m : machine) : machine :=
  match m.1 !! i with
  | Some (f, ins :: p) => let '(f', s') := exec h ins (f, m.2) in (<[i := (f', p)]> m.1, s')
  | _ => m
  end.
Definition interleave (h : regs -> shared -> regs * shared) (schedule : list nat) (m : machine) : machine := fold_left (fun m i => step h i m) schedule m.

Lemma solo h p : forall q i cpus (f : regs) s f' s', cpus !! i = Some (f, p ++ q) -> run h p (f, s) = (f', s') -> interleave h (replicate (length p) i) (cpus, s) = (<[i := (f', q)]> cpus, s').
Proof.
  induction p as [|ins p IH]; intros q i cpus f s f' s' Hi Hr.
  - injection Hr as -> ->. cbn. by rewrite list_insert_id.
  - cbn [length replicate interleave fold_left app] in *. unfold step at 2. cbn [fst snd]. rewrite Hi. rewrite run_cons in Hr. destruct (exec h ins (f, s)) as [f1 s1].
    pose proof (lookup_lt_Some _ _ _ Hi). change (interleave h (replicate (length p) i) (<[i:=(f1, p ++ q)]> cpus, s1) = (<[i:=(f', q)]> cpus, s')). rewrite (IH q i _ f1 s1 f' s'); [by rewrite list_insert_insert_eq|by apply list_lookup_insert_eq|done].
Qed.

(** Processor 0 runs [p], processor 1 runs [p], processor 0 goes on with [t]. *)
Lemma two_cpus h p t (ua ub : regs) s fa sa fb sb fa' s' : run h p (ua, s) = (fa, sa) -> run h p (ub, sa) = (fb, sb) -> run h t (fa, sb) = (fa', s') ->
  interleave h (replicate (length p) 0%nat ++ replicate (length p) 1%nat ++ replicate (length t) 0%nat) ([(ua, p ++ t); (ub, p ++ t)], s) = ([(fa', []); (fb, t)], s').
Proof.
  intros Ha Hb Ht. unfold interleave. rewrite !fold_left_app. change (fold_left (fun m i => step h i m)) with (interleave h).
  rewrite (solo h p t 0 [(ua, p ++ t); (ub, p ++ t)] ua s fa sa eq_refl Ha). cbn [insert list_insert]. rewrite (solo h p t 1 [(fa, t); (ub, p ++ t)] ub sa fb sb eq_refl Hb). cbn [insert list_insert].
  assert (Hl : [(fa, t); (fb, t)] !! 0%nat = Some (fa, t ++ [])) by (by rewrite app_nil_r). by rewrite (solo h t [] 0 _ fa sb fa' s' Hl Ht).
Qed.

(** C36: The entry routine is not safe on two processors.  Two programs make a system
    call at the same time: there is an interleaving of the two entry routines after
    which the first processor has dispatched the second program's number and resumes
    the second program, at its address and on its stack, in place of its own. *)
Theorem syscall_entry_race h lstar u0 u1 s : abi h u0 (KERNEL_RSP_SCRATCH s) -> 80 <= KERNEL_RSP_SCRATCH s < 2 ^ 64 -> u0 RIP <> u1 RIP ->
  exists schedule fc sc f' s' rest, interleave h schedule ([(syscall_instr lstar u0, syscall_entry); (syscall_instr lstar u1, syscall_entry)], s) = ((f', []) :: rest, s') /\
    s' = (h fc sc).2 /\ f' RAX = (h fc sc).1 RAX /\ SYSCALL_NR_SCRATCH sc = u1 RAX /\ fc RDI = u0 RDI /\ f' RIP = u1 RIP /\ f' RSP = u1 RSP /\ f' RIP <> u0 RIP.
Proof.
  intros Habi Hk Hne. destruct (prologue_spec h lstar u0 s Hk) as (f0 & s0 & E0 & Hsp0 & Hr0 & Hrcx0 & Hst0 & _). injection Hst0 as _ Hk0 _.
  destruct (prologue_spec h lstar u1 s0 ltac:(lia)) as (f1 & s1 & E1 & _ & _ & _ & Hst1 & Hfr). injection Hst1 as _ Hk1 Hnr. rewrite Hk0 in Hfr.
  assert (Hc : called u0 (KERNEL_RSP_SCRATCH s) f0) by (split; [done|]; by rewrite Hrcx0, (Hr0 RDI), (Hr0 RSI), (Hr0 RDX), (Hr0 R8), (Hr0 R9) by by_compute).
  specialize (Habi f0 s1 Hc). destruct (h f0 s1) as [fr sr] eqn:Eh. destruct Habi as [Hkeep Hmem].
  assert (Hsp' : fr RSP = KERNEL_RSP_SCRATCH s - 80) by (rewrite Hkeep; [done|by_compute]).
  assert (Hfr' : frame (smem sr) (KERNEL_RSP_SCRATCH s) u1) by (apply (frame_kept (smem s1)); [done|]; intros i Hi; rewrite <- Hsp0; by apply Hmem).
  destruct (epilogue_spec h fr sr u1 (KERNEL_RSP_SCRATCH s) Hsp' Hk Hfr') as (f' & E' & H1 & H2 & _ & H4 & _).
  exists (replicate (length entry_prologue) 0%nat ++ replicate (length entry_prologue) 1%nat ++ replicate (length ([CallHandler] ++ entry_epilogue)) 0%nat), f0, s1, f', sr, [(f1, [CallHandler] ++ entry_epilogue)].
  split; [|rewrite Eh, (Hr0 RDI) by by_compute; cbn [fst snd]; rewrite H4, H2; done].
  apply (two_cpus h entry_prologue ([CallHandler] ++ entry_epilogue) _ _ s f0 s0 f1 s1 f' sr E0 E1). rewrite run_app. unfold run at 2. cbn [fold_left exec]. by rewrite Eh.
Qed.


Lemma run_xors h rs : forall (f : regs) s, exists f', run h (Xor <$> rs) (f, s) = (f', s) /\ (forall r, r ∈ rs -> f' r = 0) /\ (forall r, r ∉ rs -> f' r = f r).
Proof.
  induction rs as [|x rs IH]; intros f s; [exists f; split; [done|]; split; [intros r Hr; by apply elem_of_nil in Hr|done]|].
  rewrite fmap_cons, run_cons. cbn [exec]. destruct (IH (set x 0 f) s) as (f' & E & H0 & Hk). exists f'. split; [exact E|]. split.
  - intros r Hr. destruct (decide (r ∈ rs)) as [Hin|Hni]; [by apply H0|]. apply elem_of_cons in Hr as [->|Hr]; [|done]. rewrite Hk by done. apply set_eq.
  - intros r [Hne Hr]%not_elem_of_cons. rewrite Hk by done. by apply set_ne.
Qed.

(** What [iretq] takes from the five words at the stack pointer. *)
Lemma iretq_spec h (f : regs) s : 0 <= f RSP -> f RSP + 40 < 2 ^ 64 -> let w i := read_word (smem s) (f RSP + 8 * i) in
  exists f', exec h Iretq (f, s) = (f', s) /\ f' RIP = w 0 /\ f' CS = w 1 /\ f' RFLAGS = w 2 /\ f' RSP = w 3 /\ f' SS = w 4 /\ (forall r, r ∉ [RIP; CS; RFLAGS; RSP; SS] -> f' r = f r).
Proof.
  intros H0 Hb w. eexists. split; [reflexivity|]. cbn [exec pop_to]. cbv zeta. unfold w.
  repeat (first [rewrite set_eq|rewrite set_ne by done]). rewrite !u64_add_small by lia. repeat (first [rewrite set_eq|rewrite set_ne by done]).
  split; [f_equal; lia|]. split; [f_equal; lia|]. split; [f_equal; lia|]. split; [f_equal; lia|]. split; [f_equal; lia|].
  intros r Hr. repeat (apply not_elem_of_cons in Hr as [? Hr]). by rewrite !set_ne.
Qed.

(** User mode is entered with nothing of the kernel in its registers.
    [enter_user_mode] continues at the entry point on the user's stack with every
    general register zero, user segments in every segment register, and a frame that
    [validate_ring3_frame] accepts: privilege 3 and interrupts enabled. *)
Theorem user_mode_entered_clean h entry_point user_stack_top f s : 40 <= f RSP < 2 ^ 64 ->
  let f' := (enter_user_mode h entry_point user_stack_top (f, s)).1 in
  f' RIP = entry_point /\ f' RSP = user_stack_top /\ validate_ring3_frame (f' CS) (f' SS) (f' RFLAGS) = (true, true, true) /\
  (forall r, r ∈ [DS; ES; FS; GS] -> f' r = Descriptors.USER_DS) /\
  (forall r, r ∈ [RAX; RBX; RCX; RDX; RSI; RDI; RBP; R8; R9; R10; R11; R12; R13; R14; R15] -> f' r = 0).
Proof.
  intros Hsp. cbv zeta. unfold enter_user_mode. set (f0 := set RCX _ _).
  change user_entry with ([Mov DS RCX; Mov ES RCX; Mov FS RCX; Mov GS RCX] ++ (Push <$> [RCX; RSI; RDX; R8; RDI]) ++ (Xor <$> [RAX; RBX; RCX; RDX; RSI; RDI; RBP; R8; R9; R10; R11; R12; R13; R14; R15]) ++ [Iretq]).
  set (f1 := set GS Descriptors.USER_DS (set FS Descriptors.USER_DS (set ES Descriptors.USER_DS (set DS Descriptors.USER_DS f0)))).
  assert (E1 : run h [Mov DS RCX; Mov ES RCX; Mov FS RCX; Mov GS RCX] (f0, s) = (f1, s)) by reflexivity. assert (Hsp1 : f1 RSP = f RSP) by reflexivity.
  destruct (run_pushes h [RCX; RSI; RDX; R8; RDI] f1 s ltac:(by_compute) ltac:(cbn [length]; lia)) as (f2 & s2 & E2 & Hsp2 & Hkeep & _ & Hw & _). cbn [length] in Hsp2.
  destruct (run_xors h [RAX; RBX; RCX; RDX; RSI; RDI; RBP; R8; R9; R10; R11; R12; R13; R14; R15] f2 s2) as (f3 & E3 & Hx & Hk3).
  assert (Hsp3 : f3 RSP = f RSP - 40) by (rewrite Hk3 by by_compute; lia). destruct (iretq_spec h f3 s2 ltac:(lia) ltac:(lia)) as (f4 & E4 & Hrip & Hcs & Hfl & Hrsp & Hss & Hk4).
  assert (Hread : forall i r v, [RCX; RSI; RDX; R8; RDI] !! i = Some r -> f1 r = v -> read_word (smem s2) (f RSP - 8 * (Z.of_nat i + 1)) = v) by (intros i r v Hi <-; rewrite <- Hsp1; by apply Hw).
  rewrite !run_app, E1, E2, E3. unfold run. cbn [fold_left]. rewrite E4. cbn [fst]. rewrite Hrip, Hcs, Hfl, Hrsp, Hss, Hsp3.
  replace (f RSP - 40 + 8 * 0) with (f RSP - 8 * (Z.of_nat 4 + 1)) by lia. rewrite (Hread 4%nat RDI entry_point eq_refl eq_refl). replace (f RSP - 40 + 8 * 1) with (f RSP - 8 * (Z.of_nat 3 + 1)) by lia. rewrite (Hread 3%nat R8 Descriptors.USER_CS eq_refl eq_refl).
  replace (f RSP - 40 + 8 * 2) with (f RSP - 8 * (Z.of_nat 2 + 1)) by lia. rewrite (Hread 2%nat RDX 0x202 eq_refl eq_refl). replace (f RSP - 40 + 8 * 3) with (f RSP - 8 * (Z.of_nat 1 + 1)) by lia. rewrite (Hread 1%nat RSI user_stack_top eq_refl eq_refl).
  replace (f RSP - 40 + 8 * 4) with (f RSP - 8 * (Z.of_nat 0 + 1)) by lia. rewrite (Hread 0%nat RCX Descriptors.USER_DS eq_refl eq_refl). do 3 (split; [reflexivity|]).
  assert (HF : Forall (fun r => r ∉ [RIP; CS; RFLAGS; RSP; SS]) ([DS; ES; FS; GS] ++ [RAX; RBX; RCX; RDX; RSI; RDI; RBP; R8; R9; R10; R11; R12; R13; R14; R15])) by by_compute. rewrite Forall_forall in HF.
  split; intros r Hr; (rewrite Hk4 by (apply HF, elem_of_app; auto)); [|by apply Hx].
  rewrite Hk3, Hkeep by (repeat (apply elem_of_cons in Hr as [->|Hr]); [by_compute..|by apply elem_of_nil in Hr]). repeat (apply elem_of_cons in Hr as [->|Hr]); [reflexivity..|by apply elem_of_nil in Hr].
Qed.

(** *** Witnesses: a dispatcher that answers the number it finds and writes it through the
    pointer in the first argument *)
Definition echo (f : regs) (s : shared) : regs * shared := (set RAX (SYSCALL_NR_SCRATCH s) f, with_mem s (write_word (smem s) (f RDI) (SYSCALL_NR_SCRATCH s))).
Lemma echo_abi u k : u RDI < k - 80 -> abi echo u k.
Proof.
  intros Hu f s [Hsp [= Hd _ _ _ _ _]]. cbn [echo]. split; [intros r Hr; apply set_ne; intros ->; revert Hr; by_compute|].
  intros i Hi. unfold read_word, write_word. cbn [with_mem smem]. by rewrite (proj2 (Z.eqb_neq _ _)) by lia.
Qed.
Definition caller (n : Z) : regs := set RAX n (set RIP (0x400000 + n) (set RSP (0x7000000 + n) (fun _ => n))).
Definition demo_shared : shared := mkShared 0 0x90000 0 (fun _ => 0).

Lemma syscall_entry_witness : exists f' s', run echo syscall_entry (syscall_instr 0x1000 (caller 39), demo_shared) = (f', s') /\ f' RAX = 39 /\ f' RIP = 0x400027 /\ read_word (smem s') 39 = 39.
Proof.
  destruct (syscall_entry_transparent echo 0x1000 (caller 39) demo_shared (echo_abi (caller 39) 0x90000 eq_refl) ltac:(unfold demo_shared; cbn [KERNEL_RSP_SCRATCH]; lia)) as (fc & sc & f' & s' & E & Ha & Hn & _ & Hs & Hr & Hip & _).
  injection Ha as Hd _ _ _ _ _. exists f', s'. split; [exact E|]. rewrite Hr, Hip, Hs. cbn [echo fst snd with_mem smem]. rewrite set_eq, Hn. unfold read_word, write_word. rewrite Hd. repeat split; reflexivity.
Defined.

Lemma syscall_entry_race_witness : exists schedule f' s' rest, interleave echo schedule ([(syscall_instr 0x1000 (caller 4), syscall_entry); (syscall_instr 0x1000 (caller 60), syscall_entry)], demo_shared) = ((f', []) :: rest, s') /\ f' RIP = 0x40003C.
Proof.
  destruct (syscall_entry_race echo 0x1000 (caller 4) (caller 60) demo_shared (echo_abi (caller 4) 0x90000 eq_refl) ltac:(unfold demo_shared; cbn [KERNEL_RSP_SCRATCH]; lia) ltac:(vm_compute; discriminate)) as (sched & fc & sc & f' & s' & rest & E & _ & _ & _ & _ & Hip & _).
  exists sched, f', s', rest. split; [exact E|]. exact Hip.
Defined.

Lemma user_mode_witness : (enter_user_mode echo 0x40001000 0x7FFFF000 (caller 0x90000, demo_shared)).1 RIP = 0x40001000.
Proof. destruct (user_mode_entered_clean echo 0x40001000 0x7FFFF000 (caller 0x90000) demo_shared ltac:(change (caller 0x90000 RSP) with 0x7090000; lia)) as [H _]. exact H. Defined.

End SyscallEntry.
