(* ===== verification/Syscall.v ===== *)
(** * System calls (src/src/arch/syscall.rs: [syscall_dispatch])

    The dispatcher over the scheduler, the address spaces, the message router, the
    consoles and the clock.  A call answers a value and, when it gives up the
    processor, the register switch it ends with; the value is what the caller finds
    when it runs again. *)

From stdpp Require Import prelude numbers list strings gmap.
From S2P Require Import Prelude Bytes Pmm UserSpace Ipc Task Io Serial Vga Klog Clock Sched Smp.
Import Bytes UserSpace.

Module Syscall.

Definition SYS_EXIT : Z := 1.
Definition SYS_FORK : Z := 2.
Definition SYS_READ : Z := 3.
Definition SYS_WRITE : Z := 4.
Definition SYS_OPEN : Z := 5.
Definition SYS_CLOSE : Z := 6.
Definition SYS_MMAP : Z := 9.
Definition SYS_MUNMAP : Z := 11.
Definition SYS_BRK : Z := 12.
Definition SYS_YIELD : Z := 24.
Definition SYS_SLEEP : Z := 35.
Definition SYS_GETPID : Z := 39.
Definition SYS_SEND : Z := 60.
Definition SYS_RECV : Z := 61.
Definition SYS_TIME : Z := 201.

(** [Message] is [repr(C)]: 88 bytes. *)
Definition message_bytes (m : Ipc.Message) : list Z :=
  to_le 8 (Ipc.sender m) ++ to_le 8 (Ipc.target m) ++ to_le 4 (Ipc.msg_type m) ++ Ipc.payload m ++ to_le 4 (Ipc.length_ m).

(** Memory as the program sees it, by bytes. *)
Definition umemory := Z -> Z.
Definition read_user (um : umemory) (p : Z) (n : nat) : list Z := (fun i => um (u64_add p (Z.of_nat i))) <$> seq 0 n.
Definition write_user (um : umemory) (p : Z) (l : list Z) : umemory := fun a => default (um a) (l !! Z.to_nat (u64_sub a p)).

(** The bytes [write] shows: up to the first zero. *)
Fixpoint until_zero (l : list Z) : list Z := match l with [] => [] | b :: l' => if b =? 0 then [] else b :: until_zero l' end.
(** [byte as char], encoded. *)
Definition char_bytes (c : Z) : list Z := if c <? 128 then [c] else [0xC0 + c / 64; 0x80 + c mod 64].

Section Dispatch.
Context {A : Type} `{FA : Pmm.FrameAllocator A} {H : Type} {HW : Hardware H}.

(** What the calls act on. *)
Record sys := mkSys {
  kern : Task.kernel A; router : Ipc.IpcRouter; serial : Serial.serial; screen : Vga.Writer; SYSCALL_COUNT : Z; log_level : Z; user : umemory
}.
Definition set_kern (s : sys) (k : Task.kernel A) : sys := mkSys k (router s) (serial s) (screen s) (SYSCALL_COUNT s) (log_level s) (user s).
Definition set_router (s : sys) (r : Ipc.IpcRouter) : sys := mkSys (kern s) r (serial s) (screen s) (SYSCALL_COUNT s) (log_level s) (user s).
Definition set_serial (s : sys) (x : Serial.serial) : sys := mkSys (kern s) (router s) x (screen s) (SYSCALL_COUNT s) (log_level s) (user s).
Definition set_screen (s : sys) (w : Vga.Writer) : sys := mkSys (kern s) (router s) (serial s) w (SYSCALL_COUNT s) (log_level s) (user s).
Definition set_user (s : sys) (u : umemory) : sys := mkSys (kern s) (router s) (serial s) (screen s) (SYSCALL_COUNT s) (log_level s) u.
Definition count_call (s : sys) : sys := mkSys (kern s) (router s) (serial s) (screen s) (u64_add (SYSCALL_COUNT s) 1) (log_level s) (user s).

Definition answer := (Z * option Task.switch * sys)%type.
Definition ans (v : Z) (s : sys) : hwo H answer := mret (v, None, s).

(** [serial_print!], [println!] and [klog!] of a text by a CPU. *)
Definition serial_print (fuel cpu : nat) (text : list Z) (s : sys) : hwo H sys := x ← Serial.print_ fuel cpu text (serial s); mret (set_serial s x).
Definition println (fuel cpu : nat) (text : list Z) (s : sys) : hwo H sys :=
  w ← pure_ (Vga.write_string (screen s) (text ++ [10])); serial_print fuel cpu (text ++ [10]) (set_screen s w).
Definition klog (fuel cpu : nat) (level : Klog.LogLevel) (text : list Z) (s : sys) : hwo H sys :=
  x ← Klog.log fuel (log_level s) cpu level (ascii_bytes "syscall") text (Task.TICKS (kern s)) (serial s); mret (set_serial s x).

(** The task that runs on a CPU: [sched.tasks[sched.current]]. *)
Definition current_task (s : sys) (cpu : nat) : outcome Task.Task :=
  q ← at_ (Task.CPU_SCHEDULERS (kern s)) (Task.clamp_cpu cpu); at_ (Task.tasks q) (Task.current q).

Definition kill_current (s : sys) (cpu : nat) : outcome sys :=
  '(_, k) ← Task.with_sched (kern s) (Task.clamp_cpu cpu) (fun q => l ← update (Task.tasks q) (Task.current q) (fun t => Task.set_state t Task.Dead); Ret (tt, Task.set_tasks q l));
  Ret (set_kern s k).

Definition yield (v : Z) (cpu : nat) (s : sys) : hwo H answer := '(sw, k) ← pure_ (Task.yield_now (kern s) cpu); mret (v, sw, set_kern s k).

(** The loops of [SYS_WRITE] over the two consoles. *)
Fixpoint write_bytes (w : Vga.Writer) (l : list Z) : outcome Vga.Writer := match l with [] => Ret w | b :: l' => w' ← Vga.write_byte w b; write_bytes w' l' end.
Fixpoint serial_chars (fuel cpu : nat) (l : list Z) (s : sys) : hwo H sys :=
  match l with [] => mret s | b :: l' => s' ← serial_print fuel cpu (if b =? 10 then [10] else char_bytes b) s; serial_chars fuel cpu l' s' end.

Definition sys_write (fuel cpu : nat) (fd ptr len : Z) (s : sys) : hwo H answer :=
  if ((fd =? 1) || (fd =? 2))%bool then
    if (negb (ptr =? 0) && (len <=? 4096))%bool then
      let text := until_zero (read_user (user s) ptr (Z.to_nat len)) in
      w ← pure_ (write_bytes (screen s) text);
      s' ← serial_chars fuel cpu text (set_screen s w);
      ans len s'
    else ans len s
  else ans u64_max s.

(** [SYS_MMAP], [SYS_MUNMAP] and [SYS_BRK] act on the address space of the running
    task; [op] answers the value to return. *)
Definition on_space (cpu : nat) (s : sys) (op : world A -> AddressSpace -> outcome (Z * world A * AddressSpace)) : hwo H answer :=
  sp ← pure_ (Task.current_space (kern s) cpu);
  match sp with
  | Some space =>
      '(v, w, space') ← pure_ (op (Task.kworld (kern s)) space);
      k ← pure_ (Task.set_current_space (Task.set_world (kern s) w) cpu space');
      ans v (set_kern s k)
  | None => ans u64_max s
  end.

Definition sys_mmap (cpu : nat) (a1 a2 a3 a4 : Z) (s : sys) : hwo H answer :=
  let addr_hint := if a1 =? 0 then None else Some a1 in
  on_space cpu s (fun w sp => '(r, w', sp') ← mmap w sp addr_hint a2 (wrap 32 a3) (wrap 32 a4); Ret (match r with Ok v => v | Err _ => u64_max end, w', sp')).
Definition sys_munmap (cpu : nat) (a1 a2 : Z) (s : sys) : hwo H answer :=
  on_space cpu s (fun w sp => '(r, w', sp') ← munmap w sp a1 a2; Ret (match r with Ok _ => 0 | Err _ => u64_max end, w', sp')).
Definition sys_brk (cpu : nat) (a1 : Z) (s : sys) : hwo H answer := on_space cpu s (fun w sp => brk w sp a1).

(** Up to the first [yield_now] of [sleep_ticks]; its loop repeats the yield while
    the task sleeps. *)
Definition sys_sleep (cpu : nat) (ms : Z) (s : sys) : hwo H answer :=
  let ticks := Task.sleep_ms_ticks ms in
  if ticks =? 0 then yield 0 cpu s else k ← pure_ (Task.sleep_ticks_begin (kern s) cpu ticks); yield 0 cpu (set_kern s k).

Definition sys_time (s : sys) : hwo H answer :=
  rtc ← dev Cmos.read_rtc; ans (Z.lor (Z.lor (Z.shiftl (Cmos.hour rtc) 16) (Z.shiftl (Cmos.minute rtc) 8)) (Cmos.second rtc)) s.

Definition sys_send (cpu : nat) (a1 a2 a3 a4 : Z) (s : sys) : hwo H answer :=
  let len := Z.min a4 Ipc.IPC_PAYLOAD_MAX in
  t ← pure_ (current_task s cpu);
  let data_slice := if (negb (a3 =? 0) && (0 <? len))%bool then read_user (user s) a3 (Z.to_nat len) else [] in
  let '(ok, r) := Ipc.send_message (router s) (Task.id t) a1 (wrap 32 a2) data_slice in
  ans (if (ok : bool) then 0 else u64_max) (set_router s r).

Definition sys_recv (cpu : nat) (a1 : Z) (s : sys) : hwo H answer :=
  t ← pure_ (current_task s cpu);
  let '(m, r) := Ipc.receive_message (router s) (Task.id t) in
  let s := set_router s r in
  match m with
  | Some msg => ans 1 (if a1 =? 0 then s else set_user s (write_user (user s) a1 (message_bytes msg)))
  | None => ans 0 s
  end.

(** [syscall_dispatch] with the number from the scratch slot. *)
Definition syscall_dispatch (fuel cpu : nat) (nr a1 a2 a3 a4 : Z) (s : sys) : hwo H answer :=
  let s := count_call s in
  if nr =? SYS_EXIT then
    s ← klog fuel cpu Klog.Info_ (ascii_bytes "exit(" ++ decimal a1 ++ ascii_bytes ")") s;
    s ← println fuel cpu (ascii_bytes "[SYSCALL] Process PID exited with status " ++ decimal a1) s;
    s ← pure_ (kill_current s cpu);
    yield 0 cpu s
  else if nr =? SYS_WRITE then sys_write fuel cpu a1 a2 a3 s
  else if nr =? SYS_GETPID then t ← pure_ (current_task s cpu); ans (Task.id t) s
  else if nr =? SYS_MMAP then sys_mmap cpu a1 a2 a3 a4 s
  else if nr =? SYS_MUNMAP then sys_munmap cpu a1 a2 s
  else if nr =? SYS_BRK then sys_brk cpu a1 s
  else if nr =? SYS_YIELD then yield 0 cpu s
  else if nr =? SYS_SLEEP then sys_sleep cpu a1 s
  else if nr =? SYS_TIME then sys_time s
  else if nr =? SYS_SEND then sys_send cpu a1 a2 a3 a4 s
  else if nr =? SYS_RECV then sys_recv cpu a1 s
  else s ← klog fuel cpu Klog.Warn_ (ascii_bytes "Unknown syscall #" ++ decimal nr) s; ans u64_max s.
End Dispatch.
Arguments sys : clear implicits.

(** ** Memory of programs *)
Lemma write_user_out um p l a : in_u 64 p -> in_u 64 a -> p + Z.of_nat (length l) <= 2 ^ 64 -> a < p \/ p + Z.of_nat (length l) <= a -> write_user um p l a = um a.
Proof.
  intros [Hp Hp'] [Ha Ha'] Hl Hout. unfold write_user. rewrite lookup_ge_None_2; [done|]. unfold u64_sub, wrap. destruct (decide (p <= a)) as [Hle|Hlt].
  - rewrite Z.mod_small by lia. lia.
  - replace (a - p) with (a - p + 2 ^ 64 + (-1) * 2 ^ 64) by lia. rewrite Z.mod_add, Z.mod_small by lia. lia.
Qed.

Lemma read_write_user um p l : in_u 64 p -> p + Z.of_nat (length l) <= 2 ^ 64 -> read_user (write_user um p l) p (length l) = l.
Proof.
  intros [Hp Hp'] Hl. apply list_eq_same_length with (length l); [done|by unfold read_user; rewrite length_fmap, length_seq|]. intros i x y Hi. unfold read_user. rewrite list_lookup_fmap, lookup_seq_lt by done.
  cbn [fmap option_fmap option_map]. intros [= <-] Hy. unfold write_user. rewrite (u64_add_small p (Z.of_nat i)) by lia. rewrite u64_sub_small by lia. replace (p + Z.of_nat i - p) with (Z.of_nat i) by lia. rewrite Nat2Z.id. cbn [Nat.add]. by rewrite Hy.
Qed.

Lemma length_read_user um p n : length (read_user um p n) = n.
Proof. unfold read_user. by rewrite length_fmap, length_seq. Qed.

Lemma message_new_fields snd tgt ty data : (length data <= 64)%nat -> let m := Ipc.message_new snd tgt ty data in
  take (length data) (Ipc.payload m) = data /\ Ipc.length_ m = Z.of_nat (length data) /\ length (Ipc.payload m) = 64%nat /\ length (message_bytes m) = 88%nat.
Proof.
  intros Hd m. assert (Hp : Ipc.payload m = data ++ replicate (64 - length data) 0).
  { unfold m, Ipc.message_new. cbn [Ipc.payload]. unfold Ipc.IPC_PAYLOAD_MAX. rewrite Z.min_l by lia. rewrite Nat2Z.id, Ipc.copy_prefix_spec by (rewrite ?length_replicate; lia). by rewrite firstn_all, drop_replicate. }
  assert (Hl : length (Ipc.payload m) = 64%nat) by (rewrite Hp, length_app, length_replicate; lia).
  split; [rewrite Hp; by rewrite take_app_length|]. split; [unfold m, Ipc.message_new; cbn [Ipc.length_]; unfold Ipc.IPC_PAYLOAD_MAX; lia|]. split; [done|].
  unfold message_bytes. rewrite !length_app, !length_to_le, Hl. done.
Qed.

Section Calls.
Context {A : Type} `{FA : Pmm.FrameAllocator A} {H : Type} {HW : Hardware H}.

Lemma run_pure {B C} (o : outcome B) (k : B -> hwo H C) b h : o = Ret b -> (pure_ o ≫= k) h = k b h.
Proof. intros ->. done. Qed.

(** A message of at most 64 bytes to a process whose mailbox has room. *)
Lemma send_spec fuel ca ty p n (s : sys A) (h : H) ta pid : current_task s ca = Ret ta -> p <> 0 -> 0 < n <= Ipc.IPC_PAYLOAD_MAX -> Z.of_nat (length (Ipc.queue_of (router s) pid)) < Ipc.MAILBOX_CAPACITY ->
  exists s', syscall_dispatch fuel ca SYS_SEND pid ty p n s h = Ret ((0, None, s'), h) /\ kern s' = kern s /\
    Ipc.queue_of (router s') pid = Ipc.queue_of (router s) pid ++ [Ipc.message_new (Task.id ta) pid (wrap 32 ty) (read_user (user s) p (Z.to_nat n))].
Proof.
  intros Ht Hp Hn Hq. change (syscall_dispatch fuel ca SYS_SEND pid ty p n s h) with (sys_send ca pid ty p n (count_call s) h). unfold sys_send. cbv zeta. rewrite Z.min_l by lia.
  rewrite (run_pure _ _ ta h Ht). rewrite (proj2 (Z.eqb_neq _ _)) by done. rewrite (proj2 (Z.ltb_lt _ _)) by lia. cbn [negb andb count_call router user].
  unfold Ipc.send_message. set (m := Ipc.message_new _ _ _ _). unfold Ipc.send. change (Ipc.target m) with pid. destruct (Ipc.get_or_create_mailbox (router s) pid) as [q r1] eqn:E.
  destruct (Ipc.get_or_create_queue _ _ _ _ E) as (-> & Hqs & _). rewrite (proj2 (Z.leb_gt _ _)) by lia. eexists. split; [reflexivity|]. split; [done|].
  cbn [set_router router]. rewrite Ipc.queue_insert, decide_True by done. reflexivity.
Qed.

Lemma recv_spec fuel cb a (s : sys A) (h : H) tb m q : current_task s cb = Ret tb -> Ipc.queue_of (router s) (Task.id tb) = m :: q -> a <> 0 ->
  exists s', syscall_dispatch fuel cb SYS_RECV a 0 0 0 s h = Ret ((1, None, s'), h) /\ kern s' = kern s /\ user s' = write_user (user s) a (message_bytes m) /\ Ipc.queue_of (router s') (Task.id tb) = q.
Proof.
  intros Ht Hq Ha. change (syscall_dispatch fuel cb SYS_RECV a 0 0 0 s h) with (sys_recv cb a (count_call s) h). unfold sys_recv. rewrite (run_pure _ _ tb h Ht). cbn [count_call router].
  unfold Ipc.receive_message, Ipc.receive. assert (Hm : Ipc.mailboxes (router s) !! Task.id tb = Some (m :: q)) by (revert Hq; unfold Ipc.queue_of; destruct (Ipc.mailboxes (router s) !! Task.id tb) as [l|]; cbn [default from_option]; [by intros E; rewrite <- E|done]).
  rewrite Hm. cbv zeta iota beta. rewrite (proj2 (Z.eqb_neq _ _)) by done. eexists. split; [reflexivity|]. split; [done|]. split; [done|]. cbn [set_user set_router router]. by rewrite Ipc.queue_insert, decide_True.
Qed.

(** C17: A message sent by a system call is received by one.  When a running task
    sends up to 64 bytes of its memory to a task whose mailbox is empty, the call
    answers 0; when that task, running on any CPU, with whatever memory, then
    receives at an address, the call answers 1 and the 88 bytes there are a message
    with the sender's and the receiver's identifiers, the type, the length and
    exactly those bytes; no other byte of its memory changes, the mailbox is empty
    again, and neither call changes the scheduler. *)
Theorem message_through_syscalls fuel ca cb ty p n a um (s : sys A) (h : H) ta tb :
  current_task s ca = Ret ta -> current_task s cb = Ret tb -> p <> 0 -> 0 < n <= Ipc.IPC_PAYLOAD_MAX -> Ipc.queue_of (router s) (Task.id tb) = [] -> in_u 64 a -> a <> 0 -> a + 88 <= 2 ^ 64 ->
  exists s1 s2 m, syscall_dispatch fuel ca SYS_SEND (Task.id tb) ty p n s h = Ret ((0, None, s1), h) /\ syscall_dispatch fuel cb SYS_RECV a 0 0 0 (set_user s1 um) h = Ret ((1, None, s2), h) /\
    Ipc.sender m = Task.id ta /\ Ipc.target m = Task.id tb /\ Ipc.msg_type m = wrap 32 ty /\ Ipc.length_ m = n /\ take (Z.to_nat n) (Ipc.payload m) = read_user (user s) p (Z.to_nat n) /\
    read_user (user s2) a 88 = message_bytes m /\ (forall x, in_u 64 x -> x < a \/ a + 88 <= x -> user s2 x = um x) /\ Ipc.queue_of (router s2) (Task.id tb) = [] /\ kern s2 = kern s.
Proof.
  intros Hta Htb Hp Hn Hq Ha Ha0 Hroom. destruct (send_spec fuel ca ty p n s h ta (Task.id tb) Hta Hp Hn) as (s1 & E1 & K1 & Q1); [by rewrite Hq|]. rewrite Hq in Q1. cbn [app] in Q1. set (m := Ipc.message_new _ _ _ _) in Q1.
  destruct (recv_spec fuel cb a (set_user s1 um) h tb m []) as (s2 & E2 & K2 & U2 & Q2); [unfold current_task; cbn [set_user kern]; by rewrite K1|done|done|].
  unfold Ipc.IPC_PAYLOAD_MAX in Hn. destruct (message_new_fields (Task.id ta) (Task.id tb) (wrap 32 ty) (read_user (user s) p (Z.to_nat n))) as (F1 & F2 & _ & F4); [rewrite length_read_user; lia|]. fold m in F1, F2, F4. rewrite length_read_user in F1, F2.
  exists s1, s2, m. split; [exact E1|]. split; [exact E2|]. do 3 (split; [done|]). split; [rewrite F2; lia|]. split; [exact F1|]. rewrite U2. cbn [set_user user]. split; [rewrite <- F4 at 1; apply read_write_user; [done|by rewrite F4]|].
  split; [intros x Hx Ho; apply write_user_out; rewrite ?F4; done|]. split; [exact Q2|]. by rewrite K2.
Qed.

(** ** Output *)
(** The ring of the CPU has room for [n] more bytes. *)
Definition ring_of (s : sys A) (cpu : nat) (b : Serial.PerCpuSerialBuffer) (n : nat) : Prop :=
  Serial.percpu_ready (serial s) = true /\ Serial.buffers (serial s) !! cpu = Some b /\ (cpu < Task.MAX_CPUS)%nat /\ Serial.buf_ok b /\ Z.of_nat (length (Serial.pending b) + n) < Serial.SERIAL_BUF_SIZE.

Lemma serial_print_ring fuel cpu text (s : sys A) b n (h : H) : ring_of s cpu b (length (Serial.crlf text) + n) ->
  exists s' b', serial_print fuel cpu text s h = Ret (s', h) /\ ring_of s' cpu b' n /\ Serial.pending b' = Serial.pending b ++ Serial.crlf text /\
    kern s' = kern s /\ router s' = router s /\ screen s' = screen s /\ user s' = user s.
Proof.
  intros (Hr & Hb & Hc & Hok & Hroom). unfold serial_print, Serial.print_, Serial.is_percpu_buffering_active. rewrite Hr. rewrite decide_True by done. unfold mbind, hwo_bind, pure_.
  rewrite (at_Ret _ _ _ Hb). cbn [mbind outcome_bind]. destruct (Serial.write_str_spec text b Hok) as (Hok' & Hp & _); [lia|].
  eexists _, (Serial.write_str b text). split; [reflexivity|]. split; [|done]. split; [done|]. split; [cbn [set_serial serial Serial.set_buffers Serial.buffers]; apply list_lookup_insert_eq; by apply lookup_lt_Some in Hb|].
  split; [done|]. split; [done|]. rewrite Hp, length_app. lia.
Qed.

Lemma crlf_app l k : Serial.crlf (l ++ k) = Serial.crlf l ++ Serial.crlf k.
Proof. unfold Serial.crlf. apply bind_app. Qed.

Lemma serial_chars_ring fuel cpu l : forall (s : sys A) b n (h : H), Forall (fun x => 0 <= x < 128) l -> ring_of s cpu b (length (Serial.crlf l) + n) ->
  exists s' b', serial_chars fuel cpu l s h = Ret (s', h) /\ ring_of s' cpu b' n /\ Serial.pending b' = Serial.pending b ++ Serial.crlf l /\
    kern s' = kern s /\ router s' = router s /\ screen s' = screen s /\ user s' = user s.
Proof.
  induction l as [|x l IH]; intros s b n h Hl Hr; cbn [serial_chars]; [exists s, b; split; [done|]; split; [done|]; by rewrite app_nil_r|]. apply Forall_cons_1 in Hl as [Hx Hl].
  assert (Ex : (if x =? 10 then [10] else char_bytes x) = [x]) by (unfold char_bytes; destruct (Z.eqb_spec x 10) as [->|]; [done|]; by rewrite (proj2 (Z.ltb_lt _ _)) by lia). rewrite Ex.
  change (x :: l) with ([x] ++ l) in *. rewrite crlf_app, length_app, <- Nat.add_assoc in Hr. destruct (serial_print_ring fuel cpu [x] s b _ h Hr) as (s1 & b1 & E1 & R1 & P1 & K1 & O1 & S1 & U1).
  destruct (IH s1 b1 n h Hl R1) as (s2 & b2 & E2 & R2 & P2 & K2 & O2 & S2 & U2). exists s2, b2. unfold mbind, hwo_bind. rewrite E1. split; [exact E2|]. split; [exact R2|].
  split; [rewrite P2, P1, crlf_app; by rewrite <- app_assoc|]. by rewrite K2, K1, O2, O1, S2, S1, U2, U1.
Qed.

Lemma write_bytes_shows l : forall w t, Vga.shows w t -> exists w', write_bytes w l = Ret w' /\ Vga.shows w' (t ++ l).
Proof.
  induction l as [|b l IH]; intros w t Hs; cbn [write_bytes]; [exists w; by rewrite app_nil_r|]. destruct (Vga.write_byte_shows w t b Hs) as (w1 & -> & H1 & _). cbn [mbind outcome_bind].
  destruct (IH w1 _ H1) as (w2 & -> & H2). exists w2. split; [done|]. by rewrite <- app_assoc in H2.
Qed.

(** [write] shows the bytes it is given.  A write of at most 4096 bytes to standard
    output or error, whose text (up to the first zero byte) is ASCII and fits the
    ring of the CPU, answers its length; the text is appended to what the screen
    shows and, with CR LF line ends, to what waits for the serial line, and nothing
    else of the system changes. *)
Theorem write_shows_text fuel cpu fd ptr n (s : sys A) (h : H) t b : fd = 1 \/ fd = 2 -> ptr <> 0 -> 0 <= n <= 4096 ->
  let text := until_zero (read_user (user s) ptr (Z.to_nat n)) in Forall (fun x => 0 <= x < 128) text -> Vga.shows (screen s) t -> ring_of s cpu b (length (Serial.crlf text)) ->
  exists s' b', syscall_dispatch fuel cpu SYS_WRITE fd ptr n 0 s h = Ret ((n, None, s'), h) /\ Vga.shows (screen s') (t ++ text) /\
    Serial.buffers (serial s') !! cpu = Some b' /\ Serial.pending b' = Serial.pending b ++ Serial.crlf text /\ kern s' = kern s /\ router s' = router s /\ user s' = user s.
Proof.
  intros Hfd Hp Hn text Htext Hshow Hring. change (syscall_dispatch fuel cpu SYS_WRITE fd ptr n 0 s h) with (sys_write fuel cpu fd ptr n (count_call s) h). unfold sys_write.
  assert (((fd =? 1) || (fd =? 2))%bool = true) as -> by (destruct Hfd as [->| ->]; done). rewrite (proj2 (Z.eqb_neq ptr 0)) by done. rewrite (proj2 (Z.leb_le _ _)) by lia. cbn [negb andb]. cbv zeta.
  change (user (count_call s)) with (user s). fold text. destruct (write_bytes_shows text (screen s) t Hshow) as (w & Ew & Hw). rewrite (run_pure _ _ w h Ew).
  destruct (serial_chars_ring fuel cpu text (set_screen (count_call s) w) b 0 h Htext) as (s' & b' & E & (R1 & R2 & _) & P & K & O & Sc & U); [by rewrite Nat.add_0_r|].
  exists s', b'. unfold mbind, hwo_bind. rewrite E. split; [reflexivity|]. rewrite Sc. done.
Qed.

(** A write of more than 4096 bytes, or from a null pointer, answers the full length
    as if it had been written, and nothing appears on either console. *)
Theorem long_write_lost fuel cpu fd ptr n (s : sys A) (h : H) : fd = 1 \/ fd = 2 -> ptr = 0 \/ 4096 < n -> syscall_dispatch fuel cpu SYS_WRITE fd ptr n 0 s h = Ret ((n, None, count_call s), h).
Proof.
  intros Hfd Hp. change (syscall_dispatch fuel cpu SYS_WRITE fd ptr n 0 s h) with (sys_write fuel cpu fd ptr n (count_call s) h). unfold sys_write.
  assert (((fd =? 1) || (fd =? 2))%bool = true) as -> by (destruct Hfd as [->| ->]; done). assert ((negb (ptr =? 0) && (n <=? 4096))%bool = false) as ->; [|reflexivity].
  destruct Hp as [->|Hp]; [done|]. by rewrite (proj2 (Z.leb_gt _ _)) by lia; rewrite andb_false_r.
Qed.

(** ** The end of a process *)
(** Both consoles accept output: the ring of the CPU exists (it may be full) and the
    screen shows some text. *)
Definition consoles_ok (s : sys A) (cpu : nat) : Prop :=
  Serial.percpu_ready (serial s) = true /\ (exists b, Serial.buffers (serial s) !! cpu = Some b) /\ (cpu < Task.MAX_CPUS)%nat /\ exists t, Vga.shows (screen s) t.

Lemma serial_print_ok fuel cpu text (s : sys A) (h : H) : consoles_ok s cpu -> exists s', serial_print fuel cpu text s h = Ret (s', h) /\ consoles_ok s' cpu /\ kern s' = kern s.
Proof.
  intros (Hr & (b & Hb) & Hc & Hs). unfold serial_print, Serial.print_, Serial.is_percpu_buffering_active. rewrite Hr. rewrite decide_True by done. unfold mbind, hwo_bind, pure_. rewrite (at_Ret _ _ _ Hb). cbn [mbind outcome_bind].
  eexists. split; [reflexivity|]. split; [|done]. split; [done|]. split; [|done]. eexists. cbn [set_serial serial Serial.set_buffers Serial.buffers]. apply list_lookup_insert_eq. by apply lookup_lt_Some in Hb.
Qed.

Lemma serial_print_screen fuel cpu text (s : sys A) (h : H) : consoles_ok s cpu -> exists s', serial_print fuel cpu text s h = Ret (s', h) /\ consoles_ok s' cpu /\ kern s' = kern s /\ screen s' = screen s.
Proof.
  intros Hc. destruct (serial_print_ok fuel cpu text s h Hc) as (s' & E & Hok & Hk). exists s'. split; [done|]. split; [done|]. split; [done|].
  revert E. unfold serial_print, mbind, hwo_bind. destruct (Serial.print_ fuel cpu text (serial s) h) as [[x h']| |]; [|done..]. by intros [= <- _].
Qed.

Lemma klog_ok fuel cpu level text (s : sys A) (h : H) : consoles_ok s cpu -> exists s', klog fuel cpu level text s h = Ret (s', h) /\ consoles_ok s' cpu /\ kern s' = kern s.
Proof.
  intros Hc. unfold klog, Klog.log. destruct (_ <? _); [exists s; split; [by destruct s|done]|]. apply (serial_print_ok fuel cpu _ s h Hc).
Qed.

Lemma println_ok fuel cpu text (s : sys A) (h : H) : consoles_ok s cpu -> exists s', println fuel cpu text s h = Ret (s', h) /\ consoles_ok s' cpu /\ kern s' = kern s.
Proof.
  intros (Hr & Hb & Hc & (t & Ht)). unfold println. destruct (Vga.write_string_shows (text ++ [10]) (screen s) t Ht) as (w & Ew & Hw & _). rewrite (run_pure _ _ w h Ew).
  destruct (serial_print_ok fuel cpu (text ++ [10]) (set_screen s w) h) as (s' & E & Hok & Hk); [split; [done|]; split; [done|]; split; [done|]; by eexists|]. by exists s'.
Qed.

(** [println] shows its line, [serial_print] leaves the screen alone. *)
Lemma println_shows fuel cpu text (s : sys A) (h : H) : consoles_ok s cpu -> exists s', println fuel cpu text s h = Ret (s', h) /\ consoles_ok s' cpu /\ kern s' = kern s /\
  forall t, Vga.shows (screen s) t -> Vga.shows (screen s') (t ++ (Vga.printable <$> text ++ [10])).
Proof.
  intros (Hr & Hb & Hc & (t & Ht)). unfold println. destruct (Vga.write_string_shows (text ++ [10]) (screen s) t Ht) as (w & Ew & Hw & _). rewrite (run_pure _ _ w h Ew).
  destruct (serial_print_screen fuel cpu (text ++ [10]) (set_screen s w) h) as (s' & E & Hok & Hk & Hsc); [split; [done|]; split; [done|]; split; [done|]; by eexists|]. exists s'. split; [done|]. split; [done|]. split; [done|].
  intros t' Ht'. destruct (Vga.write_string_shows (text ++ [10]) (screen s) t' Ht') as (w' & Ew' & Hw' & _). rewrite Hsc. rewrite Ew in Ew'. injection Ew' as <-. exact Hw'.
Qed.

(** What [SYS_EXIT] does before it yields. *)
Lemma exit_begins fuel cpu status (s : sys A) (h : H) q t : consoles_ok s cpu -> Task.CPU_SCHEDULERS (kern s) !! cpu = Some q -> Task.tasks q !! Task.current q = Some t ->
  exists s1, syscall_dispatch fuel cpu SYS_EXIT status 0 0 0 s h = yield 0 cpu s1 h /\
    kern s1 = Task.set_scheds (kern s) (<[cpu := Task.set_tasks q (<[Task.current q := Task.set_state t Task.Dead]> (Task.tasks q))]> (Task.CPU_SCHEDULERS (kern s))).
Proof.
  intros Hok Hq Ht. unfold syscall_dispatch. cbv zeta. change (SYS_EXIT =? SYS_EXIT) with true. cbv iota. destruct (klog_ok fuel cpu Klog.Info_ (ascii_bytes "exit(" ++ decimal status ++ ascii_bytes ")") (count_call s) h Hok) as (s1 & E1 & Ok1 & K1).
  unfold mbind at 1, hwo_bind at 1. rewrite E1. destruct (println_ok fuel cpu (ascii_bytes "[SYSCALL] Process PID exited with status " ++ decimal status) s1 h Ok1) as (s2 & E2 & Ok2 & K2). unfold mbind at 1, hwo_bind at 1. rewrite E2.
  assert (Hc : Task.clamp_cpu cpu = cpu) by (unfold Task.clamp_cpu; by rewrite (proj2 (Nat.ltb_lt _ _)) by (apply Hok)).
  eexists. split; [apply run_pure; unfold kill_current, Task.with_sched; rewrite Hc, K2, K1; cbn [count_call kern]; rewrite (at_Ret _ _ _ Hq); cbn [mbind outcome_bind]; rewrite (update_Ret _ _ _ _ Ht); cbn [mbind outcome_bind]; reflexivity|done].
Qed.

(** A CPU on which a yield looks for no work elsewhere. *)
Lemma yield_alone (s : sys A) cpu q : (Task.cpu_count (kern s) <= 1)%nat -> (cpu < Task.MAX_CPUS)%nat -> Task.CPU_SCHEDULERS (kern s) !! cpu = Some q -> Sched.sched_ok q ->
  exists o q', Task.yield_section q = Ret (o, q') /\ forall v (h : H), yield v cpu s h = Ret ((v, o, set_kern s (Task.apply_switch (Task.set_scheds (kern s) (<[cpu := q']> (Task.CPU_SCHEDULERS (kern s)))) cpu o)), h).
Proof.
  intros Hcnt Hcpu Hq Hok. destruct (Sched.yield_section_ret q Hok) as (o & q' & E & _). exists o, q'. split; [exact E|]. intros v h. unfold yield.
  by rewrite (run_pure _ _ _ h (Sched.yield_now_alone (kern s) cpu q o q' Hcnt Hcpu Hq E)).
Qed.

(** The queue with its current task marked dead. *)
Definition killed (q : Task.CpuScheduler) (t : Task.Task) : Task.CpuScheduler := Task.set_tasks q (<[Task.current q := Task.set_state t Task.Dead]> (Task.tasks q)).

Lemma killed_spec q t : Sched.sched_ok q -> Task.tasks q !! Task.current q = Some t ->
  Sched.sched_ok (killed q t) /\ Task.tasks (killed q t) !! Task.current q = Some (Task.set_state t Task.Dead) /\ length (Task.tasks (killed q t)) = length (Task.tasks q) /\
  forall j, j <> Task.current q -> Sched.ready_at (killed q t) j <-> Sched.ready_at q j.
Proof.
  intros [_ Hrun] Ht. pose proof (lookup_lt_Some _ _ _ Ht) as Hlt. assert (Hl : forall j, j <> Task.current q -> Task.tasks (killed q t) !! j = Task.tasks q !! j) by (intros j Hj; by apply list_lookup_insert_ne).
  split; [|split; [by apply list_lookup_insert_eq|split; [apply length_insert|intros j Hj; unfold Sched.ready_at; by rewrite Hl]]].
  split; [left; cbn [killed Task.set_tasks Task.tasks Task.current]; by rewrite length_insert|]. intros j tj Hj Hst. change (Task.current (killed q t)) with (Task.current q). destruct (decide (j = Task.current q)) as [->|Hne]; [done|].
  rewrite Hl in Hj by done. by eapply Hrun.
Qed.

(** [SYS_EXIT] as the yield of the queue with the caller killed. *)
Lemma exit_yields fuel cpu status (s : sys A) (h : H) q t : consoles_ok s cpu -> (Task.cpu_count (kern s) <= 1)%nat -> Task.CPU_SCHEDULERS (kern s) !! cpu = Some q -> Sched.sched_ok q -> Task.tasks q !! Task.current q = Some t ->
  exists o q' s', Task.yield_section (killed q t) = Ret (o, q') /\ syscall_dispatch fuel cpu SYS_EXIT status 0 0 0 s h = Ret ((0, o, s'), h) /\ Task.CPU_SCHEDULERS (kern s') !! cpu = Some q'.
Proof.
  intros Hc Hcnt Hq Hok Ht. destruct (exit_begins fuel cpu status s h q t Hc Hq Ht) as (s1 & E1 & K1). pose proof (lookup_lt_Some _ _ _ Hq) as Hlt.
  destruct (yield_alone s1 cpu (killed q t)) as (o & q' & Ey & Hy); [by rewrite K1|apply Hc|rewrite K1; by apply list_lookup_insert_eq|by apply killed_spec|].
  eexists o, q', _. split; [exact Ey|]. split; [rewrite E1, Hy; reflexivity|].
  unfold Task.apply_switch, Task.on_context_switch. repeat case_match; cbn [set_kern kern Task.set_scheds Task.set_hw Task.CPU_SCHEDULERS]; apply list_lookup_insert_eq; rewrite K1; cbn [Task.set_scheds Task.CPU_SCHEDULERS]; by rewrite length_insert.
Qed.

(** [exit] ends the calling task.  On a single-processor system, when another task
    of the CPU is ready, the call marks the caller dead and ends with a switch to the
    next ready task; the caller stays in the queue as dead, with every other task
    as it was. *)
Theorem exit_switches_away fuel cpu status (s : sys A) (h : H) q t : consoles_ok s cpu -> (Task.cpu_count (kern s) <= 1)%nat -> Task.CPU_SCHEDULERS (kern s) !! cpu = Some q -> Sched.sched_ok q ->
  Task.tasks q !! Task.current q = Some t -> (exists i, i <> Task.current q /\ Sched.ready_at q i) ->
  exists s' sw q' t', syscall_dispatch fuel cpu SYS_EXIT status 0 0 0 s h = Ret ((0, Some sw, s'), h) /\ Task.CPU_SCHEDULERS (kern s') !! cpu = Some q' /\ Sched.sched_ok q' /\
    Task.current q' <> Task.current q /\ Sched.ready_at q (Task.current q') /\ Task.tasks q' !! Task.current q = Some t' /\ Task.id t' = Task.id t /\ Task.state t' = Task.Dead.
Proof.
  intros Hc Hcnt Hq Hok Ht (i & Hi & Hri). destruct (killed_spec q t Hok Ht) as (Hok1 & Hd1 & Hl1 & Hr1). destruct (exit_yields fuel cpu status s h q t Hc Hcnt Hq Hok Ht) as (o & q' & s' & Ey & E & Hq').
  destruct (Sched.yield_section_ret _ Hok1) as (o2 & q2 & Ey2 & Hok2 & Ho). rewrite Ey in Ey2. injection Ey2 as <- <-. destruct o as [sw|].
  - destruct Ho as (j & tj & (d & _ & _ & Hrj & _) & Hj & _ & (Hcur & _ & Hkeep) & _). destruct (Hkeep _ _ Hd1) as (t' & Ht' & Hid & _ & _ & _ & Hst). change (Task.current (killed q t)) with (Task.current q) in *.
    exists s', sw, q', t'. rewrite Hcur. do 3 (split; [done|]). split; [done|]. split; [by apply Hr1|]. do 2 (split; [done|]). rewrite Hst. unfold Sched.state_after. rewrite decide_False by done. by rewrite decide_False by (by intros [_ ?]).
  - exfalso. destruct Ho as [_ [Hshort|Hno]]; [|by apply (Hno i Hi), Hr1]. destruct Hri as (ti & Hti & _). apply lookup_lt_Some in Hti, Ht. lia.
Qed.

(** A process can outlive its [exit].  On a single-processor system, when no other
    task of the CPU is ready (they sleep, or there is none), the call marks the caller
    dead but ends with no switch: it answers 0 to the program, which goes on running
    after its [exit]. *)
Theorem exit_can_return fuel cpu status (s : sys A) (h : H) q t : consoles_ok s cpu -> (Task.cpu_count (kern s) <= 1)%nat -> Task.CPU_SCHEDULERS (kern s) !! cpu = Some q -> Sched.sched_ok q ->
  Task.tasks q !! Task.current q = Some t -> (forall i, i <> Task.current q -> ~ Sched.ready_at q i) ->
  exists s' q', syscall_dispatch fuel cpu SYS_EXIT status 0 0 0 s h = Ret ((0, None, s'), h) /\ Task.CPU_SCHEDULERS (kern s') !! cpu = Some q' /\ Task.current q' = Task.current q /\
    Task.tasks q' !! Task.current q = Some (Task.set_state t Task.Dead).
Proof.
  intros Hc Hcnt Hq Hok Ht Hno. destruct (killed_spec q t Hok Ht) as (Hok1 & Hd1 & _ & Hr1). destruct (exit_yields fuel cpu status s h q t Hc Hcnt Hq Hok Ht) as (o & q' & s' & Ey & E & Hq').
  destruct (Sched.yield_section_ret _ Hok1) as (o2 & q2 & Ey2 & _ & Ho). rewrite Ey in Ey2. injection Ey2 as <- <-. destruct o as [sw|].
  - exfalso. destruct Ho as (j & tj & (d & _ & _ & Hrj & _) & Hj & _). apply (Hno j Hj). by apply Hr1.
  - exists s', q'. destruct Ho as [-> _]. by split_and!.
Qed.
End Calls.

(** *** Witnesses: two CPUs, with a task of CPU 0 that may be ready or asleep *)
Definition demo_queue (st : Task.TaskState) : Task.CpuScheduler := Task.mkSched 0 [Task.set_state (Smp.worker 1) st; Task.set_state (Smp.worker 2) Task.Running] 1 0.
Definition demo_queue1 : Task.CpuScheduler := Task.mkSched 1 [Task.set_state (Smp.worker 7) Task.Running] 0 0.
Definition demo_screen : Vga.Writer := Vga.mkWriter 0 7 (replicate Vga.BUFFER_HEIGHT (Vga.blank_row 7)).
Definition demo_user (a : Z) : Z := if a =? 0x1000 then 72 else if a =? 0x1001 then 105 else 0.
Definition demo_sys (st : Task.TaskState) : sys Pmm.Pmm :=
  mkSys (Task.set_scheds Smp.demo_kernel (<[1%nat := demo_queue1]> (<[0%nat := demo_queue st]> (Task.CPU_SCHEDULERS Smp.demo_kernel)))) Ipc.new Serial.active demo_screen 0 1 demo_user.
Definition line0 : Serial.uart := Serial.mkUart [] 0.
Local Notation dispatch := (syscall_dispatch (A := Pmm.Pmm) (H := Serial.uart)).

Lemma demo_ring st n : (n < 100)%nat -> ring_of (demo_sys st) 0 Serial.new n.
Proof. intros Hn. split; [done|]. split; [reflexivity|]. split; [unfold Task.MAX_CPUS; lia|]. destruct Serial.new_buf_ok as [Hok Hp]. split; [done|]. rewrite Hp. unfold Serial.SERIAL_BUF_SIZE. cbn [length]. lia. Qed.
Lemma demo_shows st : Vga.shows (screen (demo_sys st)) [].
Proof. by split. Qed.
Lemma demo_consoles st : consoles_ok (demo_sys st) 0.
Proof. split; [done|]. split; [by exists Serial.new|]. split; [unfold Task.MAX_CPUS; lia|]. exists []. apply demo_shows. Qed.
Lemma demo_queue_ok st : st <> Task.Running -> Sched.sched_ok (demo_queue st).
Proof. intros Hst. split; [left; cbn; lia|]. intros [|[|i]] t Ht Hs; [injection Ht as <-; done|done|done]. Qed.

Lemma message_witness : exists s1 s2, dispatch 0 0%nat SYS_SEND 7 5 0x1000 2 (demo_sys Task.Ready) line0 = Ret ((0, None, s1), line0) /\
  dispatch 0 1%nat SYS_RECV 0x2000 0 0 0 (set_user s1 (fun _ => 0)) line0 = Ret ((1, None, s2), line0) /\ exists m, read_user (user s2) 0x2000 88 = message_bytes m /\ take 2 (Ipc.payload m) = [72; 105].
Proof.
  destruct (message_through_syscalls 0 0 1 5 0x1000 2 0x2000 (fun _ => 0) (demo_sys Task.Ready) line0 (Task.set_state (Smp.worker 2) Task.Running) (Task.set_state (Smp.worker 7) Task.Running))
    as (s1 & s2 & m & E1 & E2 & _ & _ & _ & _ & P & R & _); [reflexivity|reflexivity|lia|unfold Ipc.IPC_PAYLOAD_MAX; lia|reflexivity|done|lia|lia|].
  exists s1, s2. split; [exact E1|]. split; [exact E2|]. exists m. split; [exact R|exact P].
Defined.

Lemma write_witness : exists s' b', dispatch 0 0%nat SYS_WRITE 1 0x1000 16 0 (demo_sys Task.Ready) line0 = Ret ((16, None, s'), line0) /\ Vga.shows (screen s') [72; 105] /\ Serial.pending b' = [72; 105].
Proof.
  destruct (write_shows_text 0 0 1 0x1000 16 (demo_sys Task.Ready) line0 [] Serial.new) as (s' & b' & E & Hs & _ & Hp & _); [by left|lia|lia|by_compute|apply demo_shows|apply demo_ring; vm_compute; lia|].
  exists s', b'. split; [exact E|]. split; [exact Hs|]. rewrite Hp, (proj2 Serial.new_buf_ok). reflexivity.
Defined.

Lemma long_write_witness : dispatch 0 0%nat SYS_WRITE 1 0x1000 5000 0 (demo_sys Task.Ready) line0 = Ret ((5000, None, count_call (demo_sys Task.Ready)), line0).
Proof. apply long_write_lost; [by left|right; lia]. Defined.

Lemma exit_switches_witness : exists s' sw, dispatch 0 0%nat SYS_EXIT 0 0 0 0 (demo_sys Task.Ready) line0 = Ret ((0, Some sw, s'), line0).
Proof.
  destruct (exit_switches_away 0 0 0 (demo_sys Task.Ready) line0 (demo_queue Task.Ready) (Task.set_state (Smp.worker 2) Task.Running)) as (s' & sw & _ & _ & E & _);
    [apply demo_consoles|cbn; lia|reflexivity|by apply demo_queue_ok|reflexivity|exists 0%nat; split; [done|by eexists]|]. exists s', sw. exact E.
Defined.

Lemma exit_returns_witness : exists s', dispatch 0 0%nat SYS_EXIT 0 0 0 0 (demo_sys (Task.Sleeping 99)) line0 = Ret ((0, None, s'), line0).
Proof.
  destruct (exit_can_return 0 0 0 (demo_sys (Task.Sleeping 99)) line0 (demo_queue (Task.Sleeping 99)) (Task.set_state (Smp.worker 2) Task.Running)) as (s' & _ & E & _);
    [apply demo_consoles|cbn; lia|reflexivity|by apply demo_queue_ok|reflexivity| |exists s'; exact E]. intros [|[|i]] Hi (t & Ht & Hr); [injection Ht as <-; done|done|done].
Defined.

End Syscall.
