(* ===== verification/KernelPages.v ===== *)
(** * Kernel pages in the hands of programs
    (src/src/memory/user_space.rs with src/src/arch/syscall.rs)

    A new address space shares the page tables of the kernel below the first directory
    pointer table, and neither [mmap] with [MAP_FIXED] nor [munmap] looks at whether an
    address belongs to the program.  The file follows one system call of a program on a
    page of the kernel: it replaces the page, or takes it away, for the kernel too. *)

From stdpp Require Import prelude numbers list strings gmap.
From S2P Require Import Prelude Bytes Pmm Paging UserSpace PageTree NewSpace Ipc Task Io Serial Vga Klog Smp Syscall.
Import Paging UserSpace PageTree NewSpace.

Module KernelPages.

(** ** The entries on the way to one page *)
Section Exposed.
Context {A : Type} `{FA : Pmm.FrameAllocator A}.

(** The kernel's PML4 [K] and the space's own reach, over directory pointer tables [p]
    and [q], the same tables [t2] and [t1] for the address [v], and the page is there. *)
Record exposed (w : world A) (root K v p q t2 t1 : Z) : Prop := {
  ex_frames : Forall frame_addr [K; p; root; q; t2; t1];
  ex_used : Forall (fun t => ~ Pmm.fa_free (fa w) t) [K; p; root; q; t2; t1];
  ex_distinct : NoDup [K; p; root; q; t2; t1];
  ex_kernel4 : is_present (entry (mem w) K (level_index 4 v)) = true /\ entry_addr (entry (mem w) K (level_index 4 v)) = p;
  ex_kernel3 : is_present (entry (mem w) p (level_index 3 v)) = true /\ is_huge (entry (mem w) p (level_index 3 v)) = false /\ entry_addr (entry (mem w) p (level_index 3 v)) = t2;
  ex_own4 : is_present (entry (mem w) root (level_index 4 v)) = true /\ entry_addr (entry (mem w) root (level_index 4 v)) = q;
  ex_own3 : is_present (entry (mem w) q (level_index 3 v)) = true /\ entry_addr (entry (mem w) q (level_index 3 v)) = t2;
  ex_shared2 : is_present (entry (mem w) t2 (level_index 2 v)) = true /\ is_huge (entry (mem w) t2 (level_index 2 v)) = false /\ entry_addr (entry (mem w) t2 (level_index 2 v)) = t1;
  ex_leaf : is_present (entry (mem w) t1 (level_index 1 v)) = true
}.

Lemma apart (a b c d e f : Z) : NoDup [a; b; c; d; e; f] -> (a <> b /\ a <> c /\ a <> d /\ a <> e /\ a <> f) /\ (b <> c /\ b <> d /\ b <> e /\ b <> f) /\ (c <> d /\ c <> e /\ c <> f) /\ (d <> e /\ d <> f) /\ e <> f.
Proof. rewrite !NoDup_cons, !not_elem_of_cons. tauto. Qed.

(** Writes to one table leave the entries of another. *)
Lemma other_table m t i e t' i' : frame_addr t -> frame_addr t' -> t' <> t -> 0 <= i < 512 -> 0 <= i' < 512 -> entry (set_entry m t i e) t' i' = entry m t' i'.
Proof. intros [_ Ht] [_ Ht'] Hne Hi Hi'. apply entry_set_entry_ne. intros Hs. apply slot_inj in Hs as [? _]; done. Qed.

Lemma ensure_next_there w s t i : is_present (entry (mem w) t i) = true ->
  exists e', ensure_next w s t i = (Some (entry_addr (entry (mem w) t i)), set_mem w (set_entry (mem w) t i e'), s) /\ sim_entry (entry (mem w) t i) e' /\ user_ok e' = true /\ write_ok e' = true.
Proof. intros Hp. unfold ensure_next. rewrite Hp. eexists. split; [reflexivity|]. by apply opened_entry. Qed.

(** Mapping a frame at the address: it goes into the shared table. *)
Lemma map_exposed (w : world A) (s : AddressSpace) K v p q t2 t1 f writable : exposed w (pml4 s) K v p q t2 t1 -> frame_addr f ->
  exists m', map_user_page w s v f writable = (true, set_mem w m', s) /\
    virt_to_phys m' K v = Some (Z.lor f (Z.land v 0xFFF)) /\
    forallb user_ok (path 4 m' (pml4 s) v) = true /\ forallb write_ok (path 4 m' (pml4 s) v) = writable /\
    forall g k, frame_addr g -> g ∉ [pml4 s; q; t2; t1] -> 0 <= k < 512 -> entry m' g k = entry (mem w) g k.
Proof.
  intros [Fr _ Nd K4 K3 [O4 O4a] [O3 O3a] (S2 & S2h & S2a) L] Hf. set (root := pml4 s) in *.
  repeat (apply Forall_cons_1 in Fr as [? Fr]). apply apart in Nd as ((? & ? & ? & ? & ?) & (? & ? & ? & ?) & (? & ? & ?) & (? & ?) & ?).
  pose proof (level_index_range 4 v) as I4. pose proof (level_index_range 3 v) as I3. pose proof (level_index_range 2 v) as I2. pose proof (level_index_range 1 v) as I1.
  unfold map_user_page. change (p4_index v) with (level_index 4 v). change (p3_index v) with (level_index 3 v). change (p2_index v) with (level_index 2 v). change (p1_index v) with (level_index 1 v). fold root.
  destruct (ensure_next_there w s root (level_index 4 v) O4) as (e4 & -> & (P4 & _ & A4) & U4 & W4). rewrite O4a in *. set (m4 := set_entry (mem w) root (level_index 4 v) e4).
  assert (E3 : entry m4 q (level_index 3 v) = entry (mem w) q (level_index 3 v)) by (apply other_table; done || congruence).
  destruct (ensure_next_there (set_mem w m4) s q (level_index 3 v)) as (e3 & -> & (P3 & _ & A3) & U3 & W3); cbn [mem set_mem]; [by rewrite E3|]. cbn [mem set_mem] in *. rewrite E3, O3a in *. set (m3 := set_entry m4 q (level_index 3 v) e3).
  assert (E2 : entry m3 t2 (level_index 2 v) = entry (mem w) t2 (level_index 2 v)) by (unfold m3, m4; rewrite !other_table by (done || congruence); done).
  destruct (ensure_next_there (set_mem (set_mem w m4) m3) s t2 (level_index 2 v)) as (e2 & -> & (P2 & G2 & A2) & U2 & W2); cbn [mem set_mem]; [by rewrite E2|]. cbn [mem set_mem] in *. rewrite E2, S2a in *. set (m2 := set_entry m3 t2 (level_index 2 v) e2).
  destruct (leaf_entry f writable) as [Ul Wl]. set (e1 := entry_set f _) in *. set (m1 := set_entry m2 t1 (level_index 1 v) e1).
  exists m1. split; [reflexivity|].
  assert (Kept : forall g k, frame_addr g -> g ∉ [root; q; t2; t1] -> 0 <= k < 512 -> entry m1 g k = entry (mem w) g k).
  { intros g k Hg Hn Hk. rewrite !not_elem_of_cons in Hn. destruct Hn as (? & ? & ? & ? & _). unfold m1, m2, m3, m4. rewrite !other_table by (done || congruence). done. }
  assert (F4 : entry m1 root (level_index 4 v) = e4) by (unfold m1, m2, m3; rewrite !other_table by (done || congruence); apply entry_set_entry_eq).
  assert (F3 : entry m1 q (level_index 3 v) = e3) by (unfold m1, m2; rewrite !other_table by (done || congruence); apply entry_set_entry_eq).
  assert (F2 : entry m1 t2 (level_index 2 v) = e2) by (unfold m1; rewrite other_table by (done || congruence); apply entry_set_entry_eq).
  assert (F1 : entry m1 t1 (level_index 1 v) = e1) by apply entry_set_entry_eq.
  split; [|split; [|split; [|exact Kept]]].
  - rewrite virt_to_phys_walk. cbn [walk Nat.eqb negb andb]. rewrite (Kept K) by (done || (rewrite !not_elem_of_cons; split_and!; congruence || apply not_elem_of_nil)). destruct K4 as [-> ->]. cbn [negb]. rewrite (Kept p) by (done || (rewrite !not_elem_of_cons; split_and!; congruence || apply not_elem_of_nil)). destruct K3 as (-> & -> & ->). cbn [negb].
    rewrite F2, P2, S2, G2, S2h, A2. cbn [negb]. rewrite F1, (user_present _ Ul). unfold e1. cbn [negb]. by rewrite entry_addr_set.
  - cbn [path forallb]. by rewrite F4, A4, F3, A3, F2, A2, F1, U4, U3, U2, Ul.
  - cbn [path forallb]. rewrite F4, A4, F3, A3, F2, A2, F1, W4, W3, W2, Wl. apply andb_true_r.
Qed.

(** Unmapping it clears the shared entry. *)
Lemma unmap_exposed (w : world A) (s : AddressSpace) K v p q t2 t1 : exposed w (pml4 s) K v p q t2 t1 ->
  exists x m' s', unmap_user_page w s v = (Some x, set_mem w m', s') /\ virt_to_phys (mem w) K v = Some (Z.lor x (Z.land v 0xFFF)) /\ virt_to_phys m' K v = None.
Proof.
  intros [Fr _ Nd [K4 K4a] (K3 & K3h & K3a) [O4 O4a] [O3 O3a] (S2 & S2h & S2a) L]. set (root := pml4 s) in *.
  repeat (apply Forall_cons_1 in Fr as [? Fr]). apply apart in Nd as ((? & ? & ? & ? & ?) & (? & ? & ? & ?) & (? & ? & ?) & (? & ?) & ?).
  pose proof (level_index_range 4 v) as I4. pose proof (level_index_range 3 v) as I3. pose proof (level_index_range 2 v) as I2. pose proof (level_index_range 1 v) as I1.
  unfold unmap_user_page. change (p4_index v) with (level_index 4 v). change (p3_index v) with (level_index 3 v). change (p2_index v) with (level_index 2 v). change (p1_index v) with (level_index 1 v). fold root.
  rewrite O4, O4a. cbn [negb]. rewrite O3, O3a. cbn [negb]. rewrite S2, S2a. cbn [negb]. rewrite L. cbn [negb]. eexists _, _, _. split; [reflexivity|]. rewrite !virt_to_phys_walk. cbn [walk Nat.eqb negb andb].
  rewrite K4, K4a. cbn [negb]. rewrite K3, K3h, K3a. cbn [negb]. rewrite S2, S2h, S2a. cbn [negb]. rewrite L. cbn [negb]. split; [done|]. rewrite virt_to_phys_walk. cbn [walk Nat.eqb negb andb].
  rewrite (other_table _ _ _ _ K) by (done || congruence). rewrite K4, K4a. cbn [negb]. rewrite (other_table _ _ _ _ p) by (done || congruence). rewrite K3, K3h, K3a. cbn [negb].
  rewrite (other_table _ _ _ _ t2) by (done || congruence). rewrite S2, S2h, S2a. cbn [negb]. by rewrite entry_set_entry_eq.
Qed.

(** Taking a free frame and filling it with zeroes leaves them. *)
Lemma exposed_fill (w : world A) root K v p q t2 t1 f a : Pmm.fa_wf (fa w) -> exposed w root K v p q t2 t1 -> Pmm.fa_alloc (fa w) = (Some f, a) ->
  frame_addr f /\ f ∉ [K; p; root; q; t2; t1] /\ exposed (set_mem (set_fa w a) (zero_frame (mem w) f)) root K v p q t2 t1.
Proof.
  intros Hwf [Fr Us Nd K4 K3 O4 O3 S2 L] Ha. destruct (Pmm.fa_alloc_Some _ _ _ Hwf Ha) as (_ & Hf & Hfree & Hfree1). apply is_frame_addr in Hf.
  assert (Hn : f ∉ [K; p; root; q; t2; t1]) by (intros Hin; exact (proj1 (Forall_forall _ _) Us f Hin Hfree)). split; [done|]. split; [done|]. rewrite !not_elem_of_cons in Hn. destruct Hn as (? & ? & ? & ? & ? & ? & _).
  assert (E : forall t i, frame_addr t -> t <> f -> 0 <= i < 512 -> entry (zero_frame (mem w) f) t i = entry (mem w) t i) by (intros t i [_ Ht] Hne Hi; apply entry_zero_ne; [apply Hf|done|congruence|done]).
  assert (Fr' := Fr). repeat (apply Forall_cons_1 in Fr as [? Fr]). constructor; cbn [mem set_mem set_fa fa]; try done; try (rewrite !E by (done || congruence || apply level_index_range); done).
  eapply Forall_impl; [exact Us|]. intros t Ht [Hf1 _]%Hfree1. exact (Ht Hf1).
Qed.

(** A new space is exposed at every page of the kernel's first 512 GiB. *)
Lemma walk_there n m t v : walk (S (S n)) m t v <> None -> no_huge (S (S n)) m t v ->
  let e := entry m t (level_index (S (S n)) v) in is_present e = true /\ (is_huge e = false \/ S (S n) = 4%nat) /\ walk (S n) m (entry_addr e) v <> None /\ no_huge (S n) m (entry_addr e) v.
Proof.
  intros Hw Hn e. change (walk (S (S n)) m t v) with (if negb (is_present e) then None else if (negb (S (S n) =? 4)%nat && is_huge e)%bool
    then Some (Z.lor (entry_addr e) (Z.land v (2 ^ (12 + 9 * Z.of_nat (S n)) - 1))) else walk (S n) m (entry_addr e) v) in Hw.
  change (is_present e = true -> (is_huge e = false \/ S (S n) = 4%nat) /\ no_huge (S n) m (entry_addr e) v) in Hn.
  destruct (is_present e) eqn:Ep; [|done]. cbn [negb] in Hw. destruct (Hn eq_refl) as [Hh Hrest]. split; [done|]. split; [done|]. split; [|done].
  destruct Hh as [Hh|Hh]; [by rewrite Hh, andb_false_r in Hw|]. rewrite Hh in Hw. exact Hw.
Qed.

Lemma new_exposed (w w' : world A) K TK s v : Pmm.fa_wf (fa w) -> kernel_tables w K TK -> is_present (entry (mem w) K 0) = true -> new w = (Some s, w') ->
  0 <= v < 2 ^ 39 -> no_huge 4 (mem w) K v -> virt_to_phys (mem w) K v <> None -> exists p q t2 t1, exposed w' (pml4 s) K v p q t2 t1.
Proof.
  intros Hwf Hk Hpres E Hv Hnh Hw. destruct (new_copies w K TK Hwf Hk Hpres) as (r & w2 & E2 & _ & _ & _ & Hr). rewrite E in E2. injection E2 as <- <-. destruct Hr as (q & _ & F). pose proof F as [Hcl (Fr & Fq & Hne & Tr & Tq) [Fr0 Fq0] Hfree]. pose proof Hk as (Htr & _ & _ & _).
  rewrite virt_to_phys_walk in Hw. assert (I0 : level_index 4 v = 0). { unfold level_index. change (12 + 9 * (Z.of_nat 4 - 1)) with 39. rewrite Z.shiftr_div_pow2, Z.div_small by lia. done. }
  pose proof (level_index_range 3 v) as I3. pose proof (level_index_range 2 v) as I2. pose proof (level_index_range 1 v) as I1.
  destruct (walk_there 2 _ _ _ Hw Hnh) as (P4 & _ & Hw3 & Nh3). destruct (walk_there 1 _ _ _ Hw3 Nh3) as (P3 & G3 & Hw2 & Nh2). destruct (walk_there 0 _ _ _ Hw2 Nh2) as (P2 & G2 & Hw1 & _).
  rewrite I0 in *. set (p := entry_addr (entry (mem w) K 0)) in *. set (t2 := entry_addr (entry (mem w) p _)) in *. set (t1 := entry_addr (entry (mem w) t2 _)) in *.
  assert (P1 : is_present (entry (mem w) t1 (level_index 1 v)) = true) by (apply not_false_iff_true; intros E1; apply Hw1; unfold walk; by rewrite E1). destruct G3 as [G3|]; [|done]. destruct G2 as [G2|]; [|done].
  pose proof (tr_root _ _ _ _ Htr) as QK. pose proof (pdpt0_level (fa w) (mem w) K TK Htr Hpres) as Qp. fold p in Qp.
  pose proof (tr_child _ _ _ _ Htr _ 1 _ _ Qp I3 P3 (or_introl G3)) as Q2. fold t2 in Q2. pose proof (tr_child _ _ _ _ Htr _ 0 _ _ Q2 I2 P2 (or_introl G2)) as Q1. fold t1 in Q1.
  assert (Kept : forall t l x i, TK t = Some (l, x) -> 0 <= i < 512 -> entry (mem w') t i = entry (mem w) t i).
  { intros t l x i Ht Hi. apply (cl_kept _ _ _ _ _ Hcl); [by destruct (tr_frame _ _ _ _ Htr _ _ _ Ht)|congruence|congruence|done]. }
  assert (Fra : forall t l x, TK t = Some (l, x) -> frame_addr t /\ ~ Pmm.fa_free (fa w') t) by (intros t l x Ht; destruct (tr_frame _ _ _ _ Htr _ _ _ Ht) as (? & ? & _); rewrite Hfree; tauto).
  exists p, q, t2, t1. destruct (linked_entry q Fq) as (Lp & _ & La & _). constructor; rewrite ?I0.
  - repeat (apply Forall_cons; split); try done; by eapply Fra.
  - repeat (apply Forall_cons; split); try (by eapply Fra); try (rewrite Hfree; tauto). done.
  - repeat rewrite NoDup_cons. set_unfold. split_and!; try (intros Hin; repeat destruct Hin as [Hin|Hin]; try done; congruence); try apply NoDup_nil; done.
  - by rewrite (Kept K 4%nat 0).
  - by rewrite (Kept p 3%nat 0).
  - by rewrite (cl_first _ _ _ _ _ Hcl).
  - by rewrite (cl_pdpt _ _ _ _ _ Hcl).
  - by rewrite (Kept t2 2%nat (0 * 512 + level_index 3 v)).
  - by rewrite (Kept t1 1%nat ((0 * 512 + level_index 3 v) * 512 + level_index 2 v)).
Qed.

(** ** One page through [mmap] and [munmap] *)
Lemma page_offset_0 v : v mod PAGE_SIZE = 0 -> Z.land v (u64_sub PAGE_SIZE 1) = 0 /\ Z.land v 0xFFF = 0.
Proof. intros Hv. change (u64_sub PAGE_SIZE 1) with 0xFFF. change 0xFFF with (2 ^ 12 - 1). rewrite land_mask by lia. by split. Qed.

Lemma mmap_exposed (w : world A) (s : AddressSpace) K v p q t2 t1 prot flags : Pmm.fa_wf (fa w) -> exposed w (pml4 s) K v p q t2 t1 -> 0 <= v < 2 ^ 39 -> v mod PAGE_SIZE = 0 ->
  vmas s = [] -> Z.land flags MAP_FIXED <> 0 -> Z.land flags MAP_POPULATE <> 0 ->
  exists r w' s', mmap w s (Some v) PAGE_SIZE prot flags = Ret (r, w', s') /\ pml4 s' = pml4 s /\
  match r with
  | Err _ => forall b, ~ Pmm.fa_free (fa w) b
  | Ok a => a = v /\ exists f, Pmm.fa_free (fa w) f /\ virt_to_phys (mem w') K v = Some f /\ (forall k, 0 <= k < 512 -> entry (mem w') f k = 0) /\
      forallb user_ok (path 4 (mem w') (pml4 s) v) = true /\ forallb write_ok (path 4 (mem w') (pml4 s) v) = negb (Z.land prot PROT_WRITE =? 0)
  end.
Proof.
  intros Hwf Hx Hv Hpage Hvmas Hfix Hpop. destruct (page_offset_0 v Hpage) as [Hoff Hoff2]. unfold mmap. change (PAGE_SIZE =? 0) with false. cbv iota. change (align_up_page PAGE_SIZE) with PAGE_SIZE. cbv zeta.
  unfold mmap_place. rewrite (proj2 (Z.eqb_neq _ _) Hfix). cbn [negb]. rewrite Hoff, Z.eqb_refl, Hvmas. cbn [negb existsb mbind outcome_bind]. rewrite (proj2 (Z.eqb_neq _ _) Hpop). cbn [negb].
  change (S (Z.to_nat (PAGE_SIZE / PAGE_SIZE))) with 2%nat. cbn [populate]. change (0 <? PAGE_SIZE) with true. cbv iota. rewrite (u64_add_small v 0) by lia. rewrite Z.add_0_r. unfold allocate_frame.
  destruct (Pmm.fa_alloc (fa w)) as [[f|] a] eqn:Ea.
  - destruct (exposed_fill w _ _ _ _ _ _ _ _ _ Hwf Hx Ea) as (Ff & Hn & Hx1). destruct (Pmm.fa_alloc_Some _ _ _ Hwf Ea) as (_ & _ & Hfree & _).
    set (w1 := set_mem (set_fa w a) (zero_frame (mem w) f)) in *. cbn [mem set_fa]. fold w1.
    destruct (map_exposed w1 (push_frame s f) K v p q t2 t1 f (negb (Z.land prot PROT_WRITE =? 0)) Hx1 Ff) as (m' & -> & Hk & Hu & Hw & Hkept). change (0 + PAGE_SIZE <? PAGE_SIZE) with false. cbv iota. cbn [mbind outcome_bind].
    eexists _, _, _. split; [reflexivity|]. split; [reflexivity|]. split; [reflexivity|]. exists f. split; [exact Hfree|]. cbn [mem set_mem]. rewrite Hoff2, Z.lor_0_r in Hk. split; [exact Hk|].
    split; [|by split]. intros k Hk'. rewrite Hkept; [by apply entry_zero_eq|done| |done]. intros Hin. apply Hn. cbn [push_frame set_frames pml4] in Hin. set_solver.
  - destruct (Pmm.fa_alloc_None _ _ Hwf Ea) as [-> Hnone]. eexists _, _, _. split; [reflexivity|]. split; [reflexivity|]. exact Hnone.
Qed.

Lemma munmap_exposed (w : world A) (s : AddressSpace) K v p q t2 t1 : exposed w (pml4 s) K v p q t2 t1 -> Pmm.fa_wf (fa w) -> 0 <= v < 2 ^ 39 -> v mod PAGE_SIZE = 0 ->
  exists w' s', munmap w s v PAGE_SIZE = Ret (Ok tt, w', s') /\ virt_to_phys (mem w') K v = None.
Proof.
  intros Hx Hwf Hv Hpage. destruct (page_offset_0 v Hpage) as [Hoff _]. unfold munmap. rewrite Hoff. change (PAGE_SIZE =? 0) with false. cbn [orb negb Z.eqb]. change (align_up_page PAGE_SIZE) with PAGE_SIZE. cbv zeta.
  change (S (Z.to_nat (PAGE_SIZE / PAGE_SIZE))) with 2%nat. cbn [unmap_range]. rewrite (u64_add_small v PAGE_SIZE) by (unfold PAGE_SIZE; lia). rewrite (proj2 (Z.ltb_lt _ _)) by (unfold PAGE_SIZE; lia).
  destruct (unmap_exposed w s K v p q t2 t1 Hx) as (x & m' & s' & -> & _ & Hk). unfold free_frame. cbn [fa set_mem]. destruct (Pmm.fa_dealloc_spec (fa w) x Hwf) as (r & a & -> & _). cbn [mbind outcome_bind].
  rewrite Z.ltb_irrefl. cbn [mbind outcome_bind]. eexists _, _. split; [reflexivity|exact Hk].
Qed.
End Exposed.

(** ** The system calls *)
Section Calls.
Context {A : Type} `{FA : Pmm.FrameAllocator A} {H : Type} {HW : Hardware H}.
Import Syscall.

(** An operation on the space of the running task. *)
Lemma on_space_runs cpu (s : sys A) (op : world A -> AddressSpace -> outcome (Z * world A * AddressSpace)) sp a w sp' (h : H) :
  Task.current_space (kern s) cpu = Ret (Some sp) -> op (Task.kworld (kern s)) sp = Ret (a, w, sp') ->
  exists s', on_space cpu s op h = Ret ((a, None, s'), h) /\ Task.kworld (kern s') = w.
Proof.
  intros Hs Ho. unfold on_space. rewrite (run_pure _ _ _ h Hs), Ho. unfold Task.current_space in Hs. destruct (at_ (Task.CPU_SCHEDULERS (kern s)) (Task.clamp_cpu cpu)) as [q| |] eqn:Eq; [|done..]. cbn [mbind outcome_bind] in Hs.
  destruct (Nat.ltb_spec (Task.current q) (length (Task.tasks q))) as [Hc|]; [|done]. destruct (lookup_lt_is_Some_2 _ _ Hc) as [t Ht].
  rewrite (run_pure (Ret (a, w, sp')) _ (a, w, sp') h eq_refl). cbv beta iota.
  eexists. split; [|shelve]. etrans; [apply run_pure; unfold Task.set_current_space, Task.with_sched; cbn [Task.CPU_SCHEDULERS Task.set_world]; rewrite Eq; cbn [mbind outcome_bind]; rewrite (update_Ret _ _ _ _ Ht); reflexivity|reflexivity].
  Unshelve. reflexivity.
Qed.

(** C37: a program replaces a page of the kernel.  On kernel tables that map low memory
    and over a space that [AddressSpace::new] has just made, let a page of the kernel's
    first 512 GiB be mapped by a 4 KiB entry.  One system call of the program,
    mmap(page, 4096, read and write, fixed, populated), either finds no free frame, or
    answers the page: the kernel's own tables then translate the page to a frame that
    was free, full of zeroes, and the program may read and write it. *)
Theorem mmap_replaces_kernel_page fuel cpu (sy : sys A) (h : H) (w : world A) K TK s v :
  Pmm.fa_wf (fa w) -> kernel_tables w K TK -> is_present (entry (mem w) K 0) = true -> new w = (Some s, Task.kworld (kern sy)) ->
  Task.current_space (kern sy) cpu = Ret (Some s) -> 0 < v < 2 ^ 39 -> v mod PAGE_SIZE = 0 -> no_huge 4 (mem w) K v -> virt_to_phys (mem w) K v <> None ->
  exists a sy', syscall_dispatch fuel cpu SYS_MMAP v PAGE_SIZE (Z.lor PROT_READ PROT_WRITE) (Z.lor (Z.lor MAP_FIXED MAP_POPULATE) (Z.lor MAP_PRIVATE MAP_ANONYMOUS)) sy h = Ret ((a, None, sy'), h) /\
    let m := mem (Task.kworld (kern sy')) in
    (a = u64_max /\ (forall b, ~ Pmm.fa_free (fa (Task.kworld (kern sy))) b) \/
     a = v /\ exists f, Pmm.fa_free (fa (Task.kworld (kern sy))) f /\ virt_to_phys m K v = Some f /\ (forall k, 0 <= k < 512 -> entry m f k = 0) /\
       forallb user_ok (path 4 m (pml4 s) v) = true /\ forallb write_ok (path 4 m (pml4 s) v) = true).
Proof.
  intros Hwf Hk Hp E Hs Hv Hpage Hnh Hw. destruct (new_copies w K TK Hwf Hk Hp) as (r & w1 & E1 & Hwf1 & _ & _ & Hr). rewrite E in E1. injection E1 as <- <-. destruct Hr as (pdpt & Es & _).
  destruct (new_exposed w _ K TK s v Hwf Hk Hp E ltac:(lia) Hnh Hw) as (p & q & t2 & t1 & Hx). change (syscall_dispatch fuel cpu SYS_MMAP v PAGE_SIZE ?x ?y sy h) with (sys_mmap cpu v PAGE_SIZE x y (count_call sy) h).
  unfold sys_mmap. rewrite (proj2 (Z.eqb_neq v 0)) by lia. set (prot := wrap 32 _). set (flags := wrap 32 _).
  destruct (mmap_exposed (Task.kworld (kern sy)) s K v p q t2 t1 prot flags Hwf1 Hx ltac:(lia) Hpage) as (r & w' & s' & Em & _ & Hr); [by rewrite Es|done|done|].
  edestruct (on_space_runs cpu (count_call sy) (fun w sp => '(r, w', sp') ← mmap w sp (Some v) PAGE_SIZE prot flags; Ret (match r with Ok v => v | Err _ => u64_max end, w', sp')))
    as (sy' & E' & Hw'); [exact Hs|cbn [count_call kern]; rewrite Em; reflexivity|]. eexists _, sy'. split; [exact E'|]. cbv zeta. rewrite Hw'. destruct r as [a|e]; [right|left; by split].
  destruct Hr as (-> & f & Hr). split; [done|]. exists f. exact Hr.
Qed.

(** A program takes a page away from the kernel.  In the same situation the system
    call munmap(page, 4096) answers 0, and the kernel's own tables no longer translate
    the page. *)
Theorem munmap_unmaps_kernel_page fuel cpu (sy : sys A) (h : H) (w : world A) K TK s v :
  Pmm.fa_wf (fa w) -> kernel_tables w K TK -> is_present (entry (mem w) K 0) = true -> new w = (Some s, Task.kworld (kern sy)) ->
  Task.current_space (kern sy) cpu = Ret (Some s) -> 0 <= v < 2 ^ 39 -> v mod PAGE_SIZE = 0 -> no_huge 4 (mem w) K v -> virt_to_phys (mem w) K v <> None ->
  exists sy', syscall_dispatch fuel cpu SYS_MUNMAP v PAGE_SIZE 0 0 sy h = Ret ((0, None, sy'), h) /\ virt_to_phys (mem (Task.kworld (kern sy'))) K v = None.
Proof.
  intros Hwf Hk Hp E Hs Hv Hpage Hnh Hw. destruct (new_copies w K TK Hwf Hk Hp) as (r & w1 & E1 & Hwf1 & _). rewrite E in E1. injection E1 as _ <-.
  destruct (new_exposed w _ K TK s v Hwf Hk Hp E Hv Hnh Hw) as (p & q & t2 & t1 & Hx). change (syscall_dispatch fuel cpu SYS_MUNMAP v PAGE_SIZE 0 0 sy h) with (sys_munmap cpu v PAGE_SIZE (count_call sy) h).
  destruct (munmap_exposed (Task.kworld (kern sy)) s K v p q t2 t1 Hx Hwf1 Hv Hpage) as (w' & s' & Em & Hn).
  edestruct (on_space_runs cpu (count_call sy) (fun w sp => '(r, w', sp') ← munmap w sp v PAGE_SIZE; Ret (match r with Ok _ => 0 | Err _ => u64_max end, w', sp')))
    as (sy' & E' & Hw'); [exact Hs|cbn [count_call kern]; rewrite Em; reflexivity|]. exists sy'. split; [exact E'|]. by rewrite Hw'.
Qed.
End Calls.

(** *** Witness: a kernel whose page at 1 MiB has an entry of its own *)
Definition low_mem : memory := fun x =>
  if x =? 0x1000 then entry_set 0x2000 TABLE_FLAGS else if x =? 0x2000 then entry_set 0x3000 TABLE_FLAGS else
  if x =? 0x3000 then entry_set 0x4000 TABLE_FLAGS else if x =? 0x4800 then entry_set 0x100000 (Z.lor PRESENT WRITABLE) else 0.
Definition low_world : world Pmm.Pmm := mkWorld demo_pmm low_mem 0x1000 0x1000.
Definition low_tree (x : Z) : option (nat * Z) :=
  if x =? 0x1000 then Some (4%nat, 0) else if x =? 0x2000 then Some (3%nat, 0) else if x =? 0x3000 then Some (2%nat, 0) else if x =? 0x4000 then Some (1%nat, 0) else None.

Lemma low_cases x l p : low_tree x = Some (l, p) -> p = 0 /\ (x = 0x1000 /\ l = 4%nat \/ x = 0x2000 /\ l = 3%nat \/ x = 0x3000 /\ l = 2%nat \/ x = 0x4000 /\ l = 1%nat).
Proof.
  unfold low_tree. destruct (Z.eqb_spec x 0x1000); [intros [= <- <-]; tauto|]. destruct (Z.eqb_spec x 0x2000); [intros [= <- <-]; tauto|].
  destruct (Z.eqb_spec x 0x3000); [intros [= <- <-]; tauto|]. destruct (Z.eqb_spec x 0x4000); [intros [= <- <-]; tauto|done].
Qed.
Lemma low_zero t i : t = 0x1000 \/ t = 0x2000 \/ t = 0x3000 -> 0 <= i < 512 -> i <> 0 -> entry low_mem t i = 0.
Proof.
  intros Ht Hi Hne. unfold entry, read_word, low_mem, slot. rewrite !(proj2 (Z.eqb_neq _ _)) by lia. done.
Qed.

Lemma low_tables : kernel_tables low_world 0x1000 low_tree.
Proof.
  split; [|split; [done|split; [done|]]].
  - split; [done| |].
    + intros t l q Ht. apply low_cases in Ht as (_ & Ht). assert (0x1000 <= t <= 0x4000 /\ t mod PAGE_SIZE = 0 /\ (1 <= l <= 4)%nat) as (? & ? & ?) by (destruct Ht as [[-> ->]|[[-> ->]|[[-> ->]|[-> ->]]]]; split_and!; done || lia).
      split; [split; [lia|done]|]. split; [|done]. intros [[Hf _] _]. unfold Pmm.PMM_BASE in Hf. lia.
    + intros t l q i Ht Hi. cbn [mem low_world]. apply low_cases in Ht as (-> & Ht). destruct (decide (i = 0)) as [->|Hne].
      * destruct Ht as [[-> [= ->]]|[[-> [= ->]]|[[-> [= ->]]|[_ ?]]]]; [intros _ _; reflexivity..|lia].
      * rewrite low_zero; [done|lia|done|done].
  - intros x p Hx. apply low_cases in Hx as (_ & Hx). lia.
Qed.

Definition low_new := new low_world.
Definition low_space : AddressSpace := mkSpace 0x200000 [0x200000; 0x201000] [] MMAP_BASE_START DEFAULT_USER_HEAP_START DEFAULT_USER_HEAP_START.
Definition low_task : Task.Task := Task.set_state (Task.set_space (Smp.worker 2) (Some low_space)) Task.Running.
Definition low_sys : Syscall.sys Pmm.Pmm :=
  let k := Task.set_world Smp.demo_kernel low_new.2 in
  Syscall.mkSys (Task.set_scheds k (<[0%nat := Task.mkSched 0 [low_task] 0 0]> (Task.CPU_SCHEDULERS k))) Ipc.new Serial.active Syscall.demo_screen 0 1 Syscall.demo_user.

Lemma pair_eta {X Y} (x : X * Y) a : x.1 = a -> x = (a, x.2).
Proof. destruct x. cbn. by intros ->. Qed.
Lemma low_world_new : Task.kworld (Syscall.kern low_sys) = low_new.2.
Proof. unfold low_sys. cbn [Syscall.kern Task.kworld Task.set_scheds Task.set_world]. exact (eq_refl low_new.2). Qed.
Lemma low_space_new : low_new.1 = Some low_space.
Proof. vm_compute. reflexivity. Qed.
Lemma low_new_eq : new low_world = (Some low_space, Task.kworld (Syscall.kern low_sys)).
Proof. rewrite low_world_new. pose proof low_space_new as E. revert E. unfold low_new. generalize (new low_world). intros x E. exact (pair_eta x _ E). Qed.
Lemma low_page : no_huge 4 low_mem 0x1000 0x100000 /\ virt_to_phys low_mem 0x1000 0x100000 = Some 0x100000.
Proof. split; [|vm_compute; reflexivity]. repeat (intros _; split; [by (left + right)|]). exact I. Qed.

Lemma mmap_replaces_witness : exists a sy', Syscall.syscall_dispatch (H := Serial.uart) 0 0 Syscall.SYS_MMAP 0x100000 PAGE_SIZE (Z.lor PROT_READ PROT_WRITE) (Z.lor (Z.lor MAP_FIXED MAP_POPULATE) (Z.lor MAP_PRIVATE MAP_ANONYMOUS)) low_sys Syscall.line0 = Ret ((a, None, sy'), Syscall.line0) /\
  (a = u64_max \/ a = 0x100000 /\ exists f, Pmm.fa_free (fa low_new.2) f /\ virt_to_phys (mem (Task.kworld (Syscall.kern sy'))) 0x1000 0x100000 = Some f).
Proof.
  destruct (mmap_replaces_kernel_page 0 0 low_sys Syscall.line0 low_world 0x1000 low_tree low_space 0x100000) as (a & sy' & E & Ha).
  - apply demo_wf.
  - apply low_tables.
  - vm_compute. reflexivity.
  - apply low_new_eq.
  - reflexivity.
  - lia.
  - reflexivity.
  - apply low_page.
  - cbn [mem low_world]. rewrite (proj2 low_page). discriminate.
  - rewrite low_world_new in Ha. exists a, sy'. split; [exact E|]. destruct Ha as [[Ha _]|[Ha (f & Hf & Hk & _)]]; [left; exact Ha|right; split; [exact Ha|exists f; split; [exact Hf|exact Hk]]].
Defined.

Lemma munmap_unmaps_witness : exists sy', Syscall.syscall_dispatch (H := Serial.uart) 0 0 Syscall.SYS_MUNMAP 0x100000 PAGE_SIZE 0 0 low_sys Syscall.line0 = Ret ((0, None, sy'), Syscall.line0) /\
  virt_to_phys (mem (Task.kworld (Syscall.kern sy'))) 0x1000 0x100000 = None.
Proof.
  apply (munmap_unmaps_kernel_page 0 0 low_sys Syscall.line0 low_world 0x1000 low_tree low_space 0x100000).
  - apply demo_wf.
  - apply low_tables.
  - vm_compute. reflexivity.
  - apply low_new_eq.
  - reflexivity.
  - lia.
  - reflexivity.
  - apply low_page.
  - cbn [mem low_world]. rewrite (proj2 low_page). discriminate.
Defined.

End KernelPages.
