(* ===== verification/Handlers.v ===== *)
(** * Exception and interrupt handlers (src/src/arch/idt.rs)

    What runs between an exception or an interrupt and the end of its handler: the fault
    handlers that report and stop the processor, the page fault handler, which resolves
    faults of lazily mapped memory and ends the task otherwise, and the handlers of the
    timers, the keyboard and the mouse, over the state of Syscall.v and the devices. *)

From stdpp Require Import prelude numbers list strings.
From Stdlib Require Import ZifyBool.
From S2P Require Import Prelude Bytes Pmm Paging UserSpace PageTree Faults Ipc Task Io Serial Vga Clock Sched Smp Pic Apic Keyboard Mouse Descriptors Syscall.
Import Bytes UserSpace PageTree.

Module Handlers.
Import Syscall.

Record InterruptStackFrame := mkFrame { instruction_pointer : Z; code_segment : Z; cpu_flags : Z; stack_pointer : Z; stack_segment : Z }.

(** [{:#x}] and [{:#b}] *)
Definition digit (d : Z) : Z := if d <? 10 then 48 + d else 87 + d.
Fixpoint radix (fuel : nat) (b n : Z) : list Z :=
  match fuel with O => [] | S fuel' => if n <? b then [digit n] else radix fuel' b (n / b) ++ [digit (n mod b)] end.
Definition hex (n : Z) : list Z := ascii_bytes "0x" ++ radix 16 16 n.
Definition bin (n : Z) : list Z := ascii_bytes "0b" ++ radix 64 2 n.

(** How a handler ends: the interrupted code goes on, the processor stops for good, or
    the task is over (and the processor has switched, or waits for an interrupt). *)
Inductive ending := Resumed | Halted | Stopped (sw : option Task.switch).

Section Handlers.
Context {A : Type} `{FA : Pmm.FrameAllocator A} {H : Type} {HW : Hardware H}.
Context (fuel cpu : nat).
Notation sys := (sys A).

Definition force_unlock (s : sys) : sys := set_serial s (Serial.mkSerial (Serial.buffers (serial s)) (Serial.percpu_ready (serial s)) false).
Definition text (s : string) : list Z := ascii_bytes s.
Definition serial_println (l : list Z) (s : sys) : hwo H sys := serial_print fuel cpu (l ++ [10]) s.
Definition println_ (l : list Z) (s : sys) : hwo H sys := println fuel cpu l s.

Definition divide_by_zero_handler (frame : InterruptStackFrame) (s : sys) : hwo H (ending * sys) :=
  let s := force_unlock s in
  s ← serial_println ([10] ++ text "[FATAL CPU EXCEPTION] Divide by Zero (#DE) at RIP: " ++ hex (instruction_pointer frame)) s;
  s ← println_ ([10] ++ text "[FATAL CPU EXCEPTION] Divide by Zero (#DE)") s;
  s ← println_ (text "  Faulting RIP: " ++ hex (instruction_pointer frame)) s;
  mret (Halted, s).
Definition invalid_opcode_handler (frame : InterruptStackFrame) (s : sys) : hwo H (ending * sys) :=
  let s := force_unlock s in
  s ← serial_println ([10] ++ text "[FATAL CPU EXCEPTION] Invalid Opcode (#UD) at RIP: " ++ hex (instruction_pointer frame)) s;
  s ← println_ ([10] ++ text "[FATAL CPU EXCEPTION] Invalid Opcode (#UD)") s;
  s ← println_ (text "  Faulting RIP: " ++ hex (instruction_pointer frame)) s;
  mret (Halted, s).
Definition double_fault_handler (frame : InterruptStackFrame) (error_code cr2 : Z) (s : sys) : hwo H (ending * sys) :=
  let s := force_unlock s in
  s ← serial_println ([10] ++ text "[CRITICAL CPU EXCEPTION] Double Fault (#DF) Code: " ++ hex error_code ++ text ", RIP: " ++ hex (instruction_pointer frame) ++ text ", RSP: " ++ hex (stack_pointer frame) ++ text ", CR2: " ++ hex cr2) s;
  s ← println_ ([10] ++ text "[CRITICAL CPU EXCEPTION] Double Fault (#DF)") s;
  s ← println_ (text "  Error Code  : " ++ hex error_code) s;
  s ← println_ (text "  Faulting RIP: " ++ hex (instruction_pointer frame)) s;
  s ← println_ (text "  Stack RSP   : " ++ hex (stack_pointer frame)) s;
  s ← println_ (text "  CR2 Addr    : " ++ hex cr2) s;
  mret (Halted, s).
Definition general_protection_fault_handler (frame : InterruptStackFrame) (error_code : Z) (s : sys) : hwo H (ending * sys) :=
  let s := force_unlock s in
  s ← serial_println ([10] ++ text "[FATAL CPU EXCEPTION] General Protection Fault (#GP) Code: " ++ hex error_code ++ text ", RIP: " ++ hex (instruction_pointer frame)) s;
  s ← println_ ([10] ++ text "[FATAL CPU EXCEPTION] General Protection Fault (#GP)") s;
  s ← println_ (text "  Error Code  : " ++ hex error_code) s;
  s ← println_ (text "  Faulting RIP: " ++ hex (instruction_pointer frame)) s;
  mret (Halted, s).

(** ** Page faults *)
Definition is_present (error_code : Z) : bool := negb (Z.land error_code 1 =? 0).
Definition is_write (error_code : Z) : bool := negb (Z.land error_code 2 =? 0).
Definition is_user (frame : InterruptStackFrame) (error_code : Z) : bool := (negb (Z.land error_code 4 =? 0) || (Z.land (code_segment frame) 3 =? 3))%bool.

Definition report_fault (frame : InterruptStackFrame) (error_code addr : Z) (in_guard : bool) (s : sys) : hwo H sys :=
  if in_guard then
    s ← serial_println ([10] ++ text "[GUARD PAGE VIOLATION] Stack Overflow detected at " ++ hex addr ++ text "! RIP: " ++ hex (instruction_pointer frame)) s;
    println_ ([10] ++ text "[SECURITY] Stack overflow detected (Guard page hit at " ++ hex addr ++ text ")!") s
  else
    s ← serial_println ([10] ++ text "[FATAL CPU EXCEPTION] Page Fault (#PF) at Addr: " ++ hex addr ++ text ", Flags: " ++ bin error_code ++ text ", RIP: " ++ hex (instruction_pointer frame)) s;
    s ← println_ ([10] ++ text "[FATAL CPU EXCEPTION] Page Fault (#PF)") s;
    s ← println_ (text "  Accessed Address (CR2) : " ++ hex addr) s;
    s ← println_ (text "  Error Code Flags       : " ++ bin error_code) s;
    println_ (text "  Faulting RIP           : " ++ hex (instruction_pointer frame)) s.

(** The end of the task that runs, when there is one. *)
Definition terminate_current (s : sys) : hwo H sys :=
  q ← pure_ (at_ (Task.CPU_SCHEDULERS (kern s)) (Task.clamp_cpu cpu));
  if Nat.ltb (Task.current q) (length (Task.tasks q)) then
    t ← pure_ (at_ (Task.tasks q) (Task.current q));
    s ← serial_println (text "[Process] Terminating user task '" ++ text (Task.name t) ++ text "' (TID " ++ decimal (Task.id t) ++ text ") due to unhandled Page Fault.") s;
    pure_ (kill_current s cpu)
  else mret s.

(** A fault that was not resolved. *)
Definition unresolved_fault (frame : InterruptStackFrame) (error_code cr2 : Z) (s : sys) : hwo H (ending * sys) :=
  let s := force_unlock s in
  in_guard ← pure_ (Task.is_current_guard_page (kern s) cpu cr2);
  s ← report_fault frame error_code cr2 in_guard s;
  if is_user frame error_code then
    s ← terminate_current s;
    '(_, sw, s) ← yield 0 cpu s;
    mret (Stopped sw, s)
  else mret (Halted, s).

Definition page_fault_handler (frame : InterruptStackFrame) (error_code cr2 : Z) (s : sys) : hwo H (ending * sys) :=
  if is_present error_code then unresolved_fault frame error_code cr2 s else
  '(ok, k) ← pure_ (Task.handle_current_page_fault (kern s) cpu cr2 (is_write error_code));
  if (ok : bool) then mret (Resumed, set_kern s k) else unresolved_fault frame error_code cr2 (set_kern s k).

(** ** Interrupts *)
Definition count_tick (s : sys) : sys :=
  let k := kern s in set_kern s (Task.mkKernel (Task.CPU_SCHEDULERS k) (Task.NEXT_TASK_ID k) (Task.cpu_count k) (u64_add (Task.TICKS k) 1) (Task.kworld k) (Task.hw k)).
Definition ticks (s : sys) : Z := Task.TICKS (kern s).

Definition timer_handler (s : sys) : hwo H (option Task.switch * sys) :=
  let s := count_tick s in
  k ← pure_ (Task.timer_tick (kern s));
  dev (Pic.send_eoi Descriptors.IRQ_TIMER);;
  '(sw, k) ← pure_ (Task.preempt_schedule_on_cpu k 0);
  mret (sw, set_kern s k).

(** After a switch the rest, the flush, is left for when the interrupted task runs again. *)
Definition lapic_timer_handler (s : sys) : hwo H (option Task.switch * sys) :=
  dev Apic.send_eoi;;
  '(sw, k) ← pure_ (Task.smp_timer_tick (kern s) cpu);
  let s := set_kern s k in
  x ← (if (Nat.eqb cpu 0 && bool_decide (sw = None))%bool then Serial.serial_flush_all fuel (Task.cpu_count k) (serial s) else mret (serial s));
  mret (sw, set_serial s x).

Definition keyboard_handler (kb : Keyboard.keyboard) : hwo H Keyboard.keyboard :=
  kb ← dev (Keyboard.handle_interrupt kb); dev (Pic.send_eoi Descriptors.IRQ_KEYBOARD);; mret kb.
Definition mouse_handler (m : Mouse.MouseState) (buf : Mouse.MouseBuffer) : hwo H (Mouse.MouseState * Mouse.MouseBuffer) :=
  x ← Mouse.handle_interrupt m buf; dev (Pic.send_eoi Descriptors.IRQ_MOUSE);; mret x.

(** ** Reports *)
(** The screen shows [out] behind what it showed. *)
Definition adds (s s' : sys) (out : list Z) : Prop := forall x, Vga.shows (screen s) x -> Vga.shows (screen s') (x ++ (Vga.printable <$> out)).
Lemma adds_app s1 s2 s3 a b : adds s1 s2 a -> adds s2 s3 b -> adds s1 s3 (a ++ b).
Proof. intros H1 H2 x Hx. rewrite fmap_app, app_assoc. by apply H2, H1. Qed.

(** A piece of output: it returns, shows [out] on the screen, and touches nothing but
    the consoles. *)
Definition prints (c : sys -> hwo H sys) (out : list Z) : Prop := forall s h, consoles_ok s cpu -> exists s', c s h = Ret (s', h) /\ consoles_ok s' cpu /\ kern s' = kern s /\ adds s s' out.
Lemma prints_bind c1 c2 a b : prints c1 a -> prints c2 b -> prints (fun s => s1 ← c1 s; c2 s1) (a ++ b).
Proof.
  intros P1 P2 s h Hs. destruct (P1 s h Hs) as (s1 & E1 & H1 & K1 & A1). destruct (P2 s1 h H1) as (s2 & E2 & H2 & K2 & A2). exists s2. unfold mbind, hwo_bind. rewrite E1. split; [done|]. split; [done|]. split; [congruence|by eapply adds_app].
Qed.
Lemma prints_serial l : prints (serial_println l) [].
Proof. intros s h Hs. destruct (serial_print_screen fuel cpu (l ++ [10]) s h Hs) as (s' & E & Ok & K & Sc). exists s'. split; [done|]. split; [done|]. split; [done|]. intros x Hx. by rewrite Sc, app_nil_r. Qed.
Lemma prints_line l : prints (println_ l) (l ++ [10]).
Proof. intros s h Hs. by apply println_shows. Qed.

(** The lines a fault is reported with. *)
Definition fault_report (frame : InterruptStackFrame) (error_code addr : Z) (in_guard : bool) : list Z :=
  if in_guard then [10] ++ text "[SECURITY] Stack overflow detected (Guard page hit at " ++ hex addr ++ text ")!" ++ [10]
  else [10] ++ text "[FATAL CPU EXCEPTION] Page Fault (#PF)" ++ [10] ++ text "  Accessed Address (CR2) : " ++ hex addr ++ [10] ++
       text "  Error Code Flags       : " ++ bin error_code ++ [10] ++ text "  Faulting RIP           : " ++ hex (instruction_pointer frame) ++ [10].
Lemma report_fault_prints frame e a g : prints (report_fault frame e a g) (fault_report frame e a g).
Proof.
  assert (Heq : forall c x y, x = y -> prints c x -> prints c y) by (by intros c x y ->). unfold report_fault, fault_report. destruct g.
  - eapply Heq; [|apply prints_bind; [apply prints_serial|apply prints_line]]. by rewrite <- !app_assoc.
  - eapply Heq; [|repeat (apply prints_bind; [apply prints_serial || apply prints_line|]); apply prints_line]. by rewrite <- !app_assoc.
Qed.
Lemma force_unlock_ok s : consoles_ok s cpu -> consoles_ok (force_unlock s) cpu /\ kern (force_unlock s) = kern s.
Proof. done. Qed.

(** ** The end of a task *)
(** The queue [q] has become [q']: the task at its position is dead, every other one is
    what it was, except that the one the processor went over to now runs; it goes over
    exactly when another task is ready. *)
Record task_ended (q q' : Task.CpuScheduler) (o : option Task.switch) : Prop := {
  te_ok : Sched.sched_ok q'; te_ids : Task.id <$> Task.tasks q' = Task.id <$> Task.tasks q;
  te_dead : exists t', Task.tasks q' !! Task.current q = Some t' /\ Task.state t' = Task.Dead;
  te_others : forall i t, i <> Task.current q -> Task.tasks q !! i = Some t -> Task.tasks q' !! i = Some (if decide (i = Task.current q') then Task.set_state t Task.Running else t);
  te_next : (exists i, i <> Task.current q /\ Sched.ready_at q i) -> o <> None /\ Task.current q' <> Task.current q /\ Sched.ready_at q (Task.current q');
  te_alone : (forall i, i <> Task.current q -> ~ Sched.ready_at q i) -> o = None /\ Task.current q' = Task.current q
}.
(** What a yield does to the tasks it is not about. *)
Lemma yield_others q o q' : Task.yield_section q = Ret (o, q') -> forall i t, i <> Task.current q -> Task.tasks q !! i = Some t -> Task.tasks q' !! i = Some (if decide (i = Task.current q') then Task.set_state t Task.Running else t).
Proof.
  unfold Task.yield_section. destruct (Nat.ltb _ _); [intros [= <- <-] i t Hi Ht; by rewrite decide_False|]. destruct (Task.pick_next q) as [[j|]| |]; cbn [mbind outcome_bind]; [|intros [= <- <-] i t Hi Ht; by rewrite decide_False|done..].
  destruct (Nat.eqb_spec j (Task.current q)) as [|Hj]; [intros [= <- <-] i t Hi Ht; by rewrite decide_False|]. unfold Task.hand_over.
  destruct (update (Task.tasks q) _ _) as [l1| |] eqn:E1; cbn [mbind outcome_bind]; [|done..]. destruct (update l1 _ _) as [l2| |] eqn:E2; cbn [mbind outcome_bind]; [|done..]. destruct (at_ l2 j) as [tj| |]; cbn [mbind outcome_bind]; [|done..].
  intros [= <- <-] i t Hi Ht. apply update_inv in E1 as (tc & Htc & ->), E2 as (tj' & Htj & ->). cbn [Task.set_current Task.set_tasks Task.tasks Task.current]. destruct (decide (i = j)) as [->|Hne].
  - rewrite list_lookup_insert_ne in Htj by done. rewrite list_lookup_insert_eq by (rewrite length_insert; by eapply lookup_lt_Some). congruence.
  - by rewrite !list_lookup_insert_ne.
Qed.
Lemma killed_yields q t o q' : Sched.sched_ok q -> Task.tasks q !! Task.current q = Some t -> Task.yield_section (killed q t) = Ret (o, q') -> task_ended q q' o.
Proof.
  intros Hok Ht Ey. destruct (killed_spec q t Hok Ht) as (Hok1 & Hd1 & Hl1 & Hr1). destruct (Sched.yield_section_ret _ Hok1) as (o2 & q2 & Ey2 & Hok2 & Ho). rewrite Ey in Ey2. injection Ey2 as <- <-.
  assert (Hids : Task.id <$> Task.tasks (killed q t) = Task.id <$> Task.tasks q) by (cbn [killed Task.set_tasks Task.tasks]; rewrite list_fmap_insert; apply list_insert_id; by rewrite list_lookup_fmap, Ht).
  pose proof (yield_others _ _ _ Ey) as Hoth. change (Task.current (killed q t)) with (Task.current q) in Hoth.
  assert (Hoth' : forall i ti, i <> Task.current q -> Task.tasks q !! i = Some ti -> Task.tasks q' !! i = Some (if decide (i = Task.current q') then Task.set_state ti Task.Running else ti)) by (intros i ti Hi Hti; apply Hoth; [done|]; cbn [killed Task.set_tasks Task.tasks]; by rewrite list_lookup_insert_ne).
  destruct o as [sw|].
  - destruct Ho as (j & tj & (d & _ & _ & Hrj & _) & Hj & _ & Hsw & _). pose proof Hsw as (Hcur & _ & Hkeep). destruct (Hkeep _ _ Hd1) as (t' & Ht' & _ & _ & _ & _ & Hst). change (Task.current (killed q t)) with (Task.current q) in *.
    split; [done|rewrite (Sched.switched_ids _ _ _ Hsw); done| |done| |].
    + exists t'. split; [done|]. rewrite Hst. unfold Sched.state_after. rewrite decide_False by done. by rewrite decide_False by (by intros [_ ?]).
    + intros _. rewrite Hcur. split; [done|]. split; [done|]. by apply Hr1.
    + intros Hno. destruct (Hno j Hj). by apply Hr1.
  - destruct Ho as [-> Hno]. split; [done|done|by eexists|done| |done]. intros (i & Hi & Hri). exfalso. destruct Hno as [Hshort|Hno]; [|by apply (Hno i Hi), Hr1].
    destruct Hri as (ti & Hti & _). apply lookup_lt_Some in Hti, Ht. lia.
Qed.

Lemma switch_keeps (k : Task.kernel A) c o : Task.CPU_SCHEDULERS (Task.apply_switch k c o) = Task.CPU_SCHEDULERS k /\ Task.kworld (Task.apply_switch k c o) = Task.kworld k.
Proof. unfold Task.apply_switch, Task.on_context_switch. by repeat case_match. Qed.

Lemma unresolved_user frame e a s h q t : consoles_ok s cpu -> (Task.cpu_count (kern s) <= 1)%nat -> Task.CPU_SCHEDULERS (kern s) !! cpu = Some q -> Sched.sched_ok q -> Task.tasks q !! Task.current q = Some t -> is_user frame e = true ->
  exists o s' q', unresolved_fault frame e a s h = Ret ((Stopped o, s'), h) /\ Task.CPU_SCHEDULERS (kern s') = <[cpu := q']> (Task.CPU_SCHEDULERS (kern s)) /\ Task.kworld (kern s') = Task.kworld (kern s) /\ task_ended q q' o /\
    adds s s' (fault_report frame e a (match Task.address_space t with Some sp => is_guard_page sp a | None => false end)).
Proof.
  intros Hc Hcnt Hq Hok Ht Hu. pose proof (lookup_lt_Some _ _ _ Ht) as Hlt. pose proof (lookup_lt_Some _ _ _ Hq) as Hlq. destruct (force_unlock_ok s Hc) as [Hc1 K1]. unfold unresolved_fault. cbv zeta.
  assert (Hcpu : Task.clamp_cpu cpu = cpu) by (unfold Task.clamp_cpu; by rewrite (proj2 (Nat.ltb_lt _ _)) by apply Hc).
  assert (Hg : Task.is_current_guard_page (kern (force_unlock s)) cpu a = Ret (match Task.address_space t with Some sp => is_guard_page sp a | None => false end)).
  { unfold Task.is_current_guard_page, Task.current_space. rewrite Hcpu, K1, (at_Ret _ _ _ Hq). cbn [mbind outcome_bind]. rewrite (proj2 (Nat.ltb_lt _ _) Hlt), (at_Ret _ _ _ Ht). done. }
  rewrite (run_pure _ _ _ h Hg). destruct (report_fault_prints frame e a (match Task.address_space t with Some sp => is_guard_page sp a | None => false end) _ h Hc1) as (s2 & E2 & Hc2 & K2 & A2).
  unfold mbind at 1, hwo_bind at 1. rewrite E2, Hu. unfold terminate_current. rewrite Hcpu, K2, K1.
  unfold mbind at 1, hwo_bind at 1. rewrite (run_pure _ _ q h) by (by apply at_Ret). rewrite (proj2 (Nat.ltb_lt _ _) Hlt), (run_pure _ _ t h) by (by apply at_Ret).
  destruct (prints_serial (text "[Process] Terminating user task '" ++ text (Task.name t) ++ text "' (TID " ++ decimal (Task.id t) ++ text ") due to unhandled Page Fault.") s2 h Hc2) as (s3 & E3 & Hc3 & K3 & A3).
  unfold mbind at 1, hwo_bind at 1. rewrite E3. set (k4 := Task.set_scheds (kern s) (<[cpu := killed q t]> (Task.CPU_SCHEDULERS (kern s)))).
  assert (E4 : kill_current s3 cpu = Ret (set_kern s3 k4)).
  { unfold kill_current, Task.with_sched. rewrite Hcpu, K3, K2, K1, (at_Ret _ _ _ Hq). cbn [mbind outcome_bind]. rewrite (update_Ret _ _ _ _ Ht). reflexivity. }
  unfold pure_ at 1. rewrite E4. cbn [mbind outcome_bind]. destruct (yield_alone (H := H) (set_kern s3 k4) cpu (killed q t)) as (o & q' & Ey & Hy); [done|apply Hc|cbn [set_kern kern k4 Task.set_scheds Task.CPU_SCHEDULERS]; by apply list_lookup_insert_eq|by apply killed_spec|].
  eexists o, _, q'. split; [unfold mbind, hwo_bind; rewrite Hy; reflexivity|]. cbn [set_kern kern]. destruct (switch_keeps (Task.set_scheds k4 (<[cpu := q']> (Task.CPU_SCHEDULERS k4))) cpu o) as [-> ->]. cbn [Task.set_scheds Task.CPU_SCHEDULERS Task.kworld k4].
  split; [apply list_insert_insert_eq|]. split; [done|]. split; [by eapply killed_yields|]. intros x Hx. cbn [screen set_kern]. specialize (A3 _ (A2 x Hx)). by rewrite app_nil_r in A3.
Qed.

(** ** Faults of user programs *)
(** No area of the space permits the access. *)
Definition refused (sp : AddressSpace) (a : Z) (w : bool) : bool :=
  match find_vma sp a with None => true | Some v => (is_guard v || (prot v =? PROT_NONE) || (w && negb (is_writable v)))%bool end.
(** The repeated access goes through: the page is there for Ring 3, to be written if need be. *)
Definition accessible (m : Paging.memory) (root a : Z) (w : bool) : Prop := let page := align_down_page a in
  is_Some (Paging.virt_to_phys m root page) /\ forallb user_ok (path 4 m root page) = true /\ (w = true -> forallb write_ok (path 4 m root page) = true).
Definition with_space (q : Task.CpuScheduler) (t : Task.Task) (sp : AddressSpace) : Task.CpuScheduler := Task.set_tasks q (<[Task.current q := Task.set_space t (Some sp)]> (Task.tasks q)).

Lemma with_space_ok q t sp : Sched.sched_ok q -> Task.tasks q !! Task.current q = Some t ->
  Sched.sched_ok (with_space q t sp) /\ Task.tasks (with_space q t sp) !! Task.current q = Some (Task.set_space t (Some sp)) /\ Task.id <$> Task.tasks (with_space q t sp) = Task.id <$> Task.tasks q /\
  forall j, Sched.ready_at (with_space q t sp) j <-> Sched.ready_at q j.
Proof.
  intros [Hcur Hrun] Ht. pose proof (lookup_lt_Some _ _ _ Ht) as Hlt. cbn [with_space Task.set_tasks Task.tasks].
  split; [|split; [by apply list_lookup_insert_eq|split; [rewrite list_fmap_insert; apply list_insert_id; by rewrite list_lookup_fmap, Ht|]]].
  - split; [left; cbn [with_space Task.set_tasks Task.tasks Task.current]; by rewrite length_insert|]. intros j tj Hj Hst. cbn [with_space Task.set_tasks Task.tasks Task.current] in *.
    destruct (decide (j = Task.current q)) as [->|Hne]; [done|]. rewrite list_lookup_insert_ne in Hj by done. by eapply Hrun.
  - intros j. unfold Sched.ready_at. cbn [with_space Task.set_tasks Task.tasks]. destruct (decide (j = Task.current q)) as [->|Hne]; [|by rewrite list_lookup_insert_ne].
    rewrite list_lookup_insert_eq by done. rewrite Ht. split; intros (x & [= <-] & Hx); by eexists.
Qed.
Lemma ended_with_space q t sp q' o : Sched.sched_ok q -> Task.tasks q !! Task.current q = Some t -> task_ended (with_space q t sp) q' o -> task_ended q q' o.
Proof.
  intros Hok Ht [H1 H2 H3 H4 H5 H6]. destruct (with_space_ok q t sp Hok Ht) as (_ & _ & Hids & Hr). split; [done|by rewrite H2|done| | |].
  - intros i ti Hi Hti. apply H4; [done|]. cbn [with_space Task.set_tasks Task.tasks]. by rewrite list_lookup_insert_ne.
  - intros (i & Hi & Hri). destruct H5 as (? & ? & ?); [exists i; by rewrite Hr|]. by rewrite <- Hr.
  - intros Hno. apply H6. intros i Hi. rewrite Hr. by apply Hno.
Qed.

Lemma current_fault (k : Task.kernel A) q t sp a w ok w' sp' : (cpu < Task.MAX_CPUS)%nat -> Task.CPU_SCHEDULERS k !! cpu = Some q -> Task.tasks q !! Task.current q = Some t -> Task.address_space t = Some sp ->
  handle_demand_fault (Task.kworld k) sp a w = Ret (ok, w', sp') ->
  Task.handle_current_page_fault k cpu a w = Ret (ok, Task.set_scheds (Task.set_world k w') (<[cpu := with_space q t sp']> (Task.CPU_SCHEDULERS k))).
Proof.
  intros Hcpu Hq Ht Hsp E. pose proof (lookup_lt_Some _ _ _ Ht) as Hlt. assert (Hc : Task.clamp_cpu cpu = cpu) by (unfold Task.clamp_cpu; by rewrite (proj2 (Nat.ltb_lt _ _))).
  unfold Task.handle_current_page_fault, Task.current_space. rewrite Hc, (at_Ret _ _ _ Hq). cbn [mbind outcome_bind]. rewrite (proj2 (Nat.ltb_lt _ _) Hlt), (at_Ret _ _ _ Ht). cbn [mbind outcome_bind]. rewrite Hsp, E. cbn [mbind outcome_bind].
  unfold Task.set_current_space, Task.with_sched. rewrite Hc. cbn [Task.set_world Task.CPU_SCHEDULERS]. rewrite (at_Ret _ _ _ Hq). cbn [mbind outcome_bind]. rewrite (update_Ret _ _ _ _ Ht). reflexivity.
Qed.

(** The outcomes of [handle_demand_fault] on a well-formed space. *)
Lemma fault_outcome (w : world A) sp T a wr : Pmm.fa_wf (fa w) -> tree (fa w) (mem w) (pml4 sp) T -> 0 <= a < 2 ^ 48 -> no_huge 4 (mem w) (pml4 sp) a ->
  exists ok w' sp', handle_demand_fault w sp a wr = Ret (ok, w', sp') /\ pml4 sp' = pml4 sp /\ (refused sp a wr = true -> ok = false /\ w' = w /\ sp' = sp) /\
    (ok = true -> accessible (mem w') (pml4 sp) a wr /\ forall v, 0 <= v < 2 ^ 48 -> Z.shiftr v 12 <> Z.shiftr a 12 -> Paging.virt_to_phys (mem w') (pml4 sp) v = Paging.virt_to_phys (mem w) (pml4 sp) v).
Proof.
  intros Hwf Htr Ha Hnh. unfold refused. destruct (find_vma sp a) as [v|] eqn:Ev.
  2:{ exists false, w, sp. split; [apply Faults.demand_fault_refused; by rewrite Ev|]. done. }
  destruct (is_guard v || (prot v =? PROT_NONE) || (wr && negb (is_writable v)))%bool eqn:Er.
  - exists false, w, sp. split; [|done]. apply Faults.demand_fault_refused. rewrite Ev. destruct (is_guard v); [by left|]. destruct (Z.eqb_spec (prot v) PROT_NONE); [by right; left|]. right. right. destruct wr, (is_writable v); done.
  - apply orb_false_iff in Er as [[Eg Ep]%orb_false_iff Ew]. destruct (Faults.demand_fault_spec w sp T a wr v) as (ok & w' & sp' & E & Hp & Hr); try done; [by apply Z.eqb_neq|by intros ->; destruct (is_writable v)|].
    exists ok, w', sp'. split; [done|]. split; [done|]. split; [done|]. intros ->. destruct Hr as (f & _ & Hv & _ & Hu & Hw & Hrest). split; [|done]. split; [by rewrite Hv|]. split; [done|]. intros ->. rewrite Hw. by destruct (is_writable v).
Qed.

(** A fault that is not served leaves the areas alone. *)
Lemma fault_false_areas (w : world A) sp a wr w' sp' : handle_demand_fault w sp a wr = Ret (false, w', sp') -> vmas sp' = vmas sp.
Proof.
  unfold handle_demand_fault. destruct (position _ _) as [i|]; [|by intros [= _ <-]]. destruct (index _ _) as [v| |]; cbn [mbind outcome_bind]; [|done..].
  destruct (is_guard v || _)%bool; [by intros [= _ <-]|]. destruct (wr && _)%bool; [by intros [= _ <-]|]. destruct (allocate_frame w) as [[f|] w1]; [|by intros [= _ <-]]. cbv zeta.
  pose proof (map_user_page_areas (set_mem w1 (Paging.zero_frame (mem w1) f)) (push_frame sp f) (align_down_page a) f (is_writable v)) as Hm. destruct (map_user_page _ _ _ _ _) as [[[] w3] s3]; apply same_areas_vmas in Hm.
  - by destruct (store _ _ _).
  - destruct (free_frame w3 f); [|done..]. cbn [mbind outcome_bind]. intros [= _ <-]. exact Hm.
Qed.

End Handlers.

(** *** Witness: a program on CPU 0 that reads a page of a lazily mapped area *)
Definition demo_program : Task.Task := Task.set_space (Task.set_state (Smp.worker 2) Task.Running) (Some demo_space).
Definition demo_faulting : sys Pmm.Pmm :=
  mkSys (Task.set_world (Task.set_scheds Smp.demo_kernel (<[0%nat := Task.mkSched 0 [Task.set_state (Smp.worker 1) Task.Ready; demo_program] 1 0]> (Task.CPU_SCHEDULERS Smp.demo_kernel))) demo_world)
    Ipc.new Serial.active demo_screen 0 1 (fun _ => 0).
Definition user_frame : InterruptStackFrame := mkFrame 0x400000 0x33 0x202 0x7FFF0000 0x2B.

End Handlers.
