(* ===== verification/Power.v ===== *)
(** * Power management (src/src/arch/power.rs)

    The port writes of [shutdown] and [reboot] with their messages.  Neither returns:
    a definition answers the state in which the code stops, after the last port access.
    What the writes do is the documented behaviour of the ACPI control registers, the
    interface [SoftOff]. *)

From stdpp Require Import prelude numbers list strings.
From Stdlib Require Import ZifyBool.
From S2P Require Import Prelude Bytes Pmm Task Io Serial Vga Acpi Syscall Handlers.
Import Bytes.

Module Power.
Import Syscall Handlers.

Section Power.
Context {A : Type} `{FA : Pmm.FrameAllocator A} {H : Type} {HW : Hardware H}.
Context (fuel cpu : nat).
Notation sys := (sys A).

Definition slp_en : Z := Z.shiftl 1 13.
(** The S5 command for a sleep type. *)
Definition sleep_value (typ : Z) : Z := Z.lor (wrap 16 (Z.shiftl (Z.land typ 0x7) 10)) slp_en.
(** Step 1: the ACPI control blocks. *)
Definition acpi_off (acpi : Acpi.AcpiInfo) : hw H () :=
  if negb (Acpi.is_initialized acpi) then mret tt else
  (if (negb (Acpi.smi_cmd acpi =? 0) && negb (Acpi.acpi_enable acpi =? 0))%bool then port_outb (wrap 16 (Acpi.smi_cmd acpi)) (Acpi.acpi_enable acpi) else mret tt);;
  if Acpi.pm1a_cnt_blk acpi =? 0 then mret tt else
  port_outw (wrap 16 (Acpi.pm1a_cnt_blk acpi)) (sleep_value (Acpi.slp_typa acpi));;
  if Acpi.pm1b_cnt_blk acpi =? 0 then mret tt else port_outw (wrap 16 (Acpi.pm1b_cnt_blk acpi)) (sleep_value (Acpi.slp_typb acpi)).
Definition shutdown (acpi : Acpi.AcpiInfo) (s : sys) : hwo H sys :=
  s ← serial_println fuel cpu (text "[Power] Initiating system shutdown sequence...") s;
  s ← println_ fuel cpu (text "System is shutting down...") s;
  dev (acpi_off acpi);;
  dev (port_outw 0x604 0x2000);; dev (port_outw 0x4004 0x3400);; dev (port_outw 0xB004 0x2000);;
  s ← serial_println fuel cpu (text "[Power] Shutdown ports did not power off hardware; halting CPU.") s;
  println_ fuel cpu (text "It is now safe to turn off your computer.") s.

(** At most [n] polls for an empty input buffer. *)
Fixpoint drain (n : nat) : hw H () :=
  match n with O => mret tt | S n' => b ← port_inb 0x64; if Z.land b 2 =? 0 then mret tt else drain n' end.
Definition reboot (s : sys) : hwo H sys :=
  s ← serial_println fuel cpu (text "[Power] Initiating system reboot...") s;
  s ← println_ fuel cpu (text "System is restarting...") s;
  dev (drain 1000);; dev (port_outb 0x64 0xFE);; mret s.

(** ** The machine goes off *)
(** A machine with the control blocks at [a] and [b] (0 when there is none) and the types
    [ta] and [tb] of S5: writing the type with the enable bit to every block turns it off,
    and nothing written to a port turns it on again. *)
Class SoftOff (a b ta tb : Z) := {
  off : H -> bool;
  off_outb : forall h p v, off h = true -> off (outb h p v) = true;
  off_outw : forall h p v, off h = true -> off (outw h p v) = true;
  one_block : forall h va, b = 0 -> Z.land (Z.shiftr va 10) 7 = ta -> Z.testbit va 13 = true -> off (outw h a va) = true;
  two_blocks : forall h va vb, b <> 0 -> Z.land (Z.shiftr va 10) 7 = ta -> Z.testbit va 13 = true -> Z.land (Z.shiftr vb 10) 7 = tb -> Z.testbit vb 13 = true -> off (outw (outw h a va) b vb) = true
}.

Lemma sleep_value_ok typ : 0 <= typ < 8 -> Z.land (Z.shiftr (sleep_value typ) 10) 7 = typ /\ Z.testbit (sleep_value typ) 13 = true.
Proof. intros Ht. assert (typ ∈ [0; 1; 2; 3; 4; 5; 6; 7]) as Hin by set_solver by lia. by repeat (apply elem_of_cons in Hin as [->|Hin]; [done|]); apply elem_of_nil in Hin. Qed.

Lemma acpi_off_ok acpi a b ta tb (SO : SoftOff a b ta tb) h : Acpi.is_initialized acpi = true -> Acpi.pm1a_cnt_blk acpi = a -> Acpi.pm1b_cnt_blk acpi = b ->
  Acpi.slp_typa acpi = ta -> Acpi.slp_typb acpi = tb -> 0 < a < 2 ^ 16 -> 0 <= b < 2 ^ 16 -> 0 <= ta < 8 -> 0 <= tb < 8 -> off (acpi_off acpi h).2 = true.
Proof.
  intros Hi Ha Hb Hta Htb Ra Rb Rta Rtb. unfold acpi_off. rewrite Hi, Ha, Hb, Hta, Htb. cbn [negb]. destruct (sleep_value_ok ta Rta) as [V1 V2]. destruct (sleep_value_ok tb Rtb) as [W1 W2].
  assert (Hrest : forall h, off (snd ((if a =? 0 then mret tt else port_outw (wrap 16 a) (sleep_value ta);; if b =? 0 then mret tt else port_outw (wrap 16 b) (sleep_value tb)) h)) = true).
  { intros h0. replace (a =? 0) with false by lia. unfold mbind, hw_bind, port_outw, wrap. rewrite !Z.mod_small by lia. destruct (Z.eqb_spec b 0) as [->|Hb0]; cbn.
    - by apply (one_block (SoftOff := SO)).
    - by apply (two_blocks (SoftOff := SO)). }
  destruct (_ && _)%bool; apply Hrest.
Qed.

(** Soft off: on a machine whose control blocks and sleep types the tables describe,
    [shutdown] reports, turns the machine off and comes to its end. *)
Theorem shutdown_turns_off acpi a b ta tb (SO : SoftOff a b ta tb) s h : consoles_ok s cpu -> Acpi.is_initialized acpi = true -> Acpi.pm1a_cnt_blk acpi = a -> Acpi.pm1b_cnt_blk acpi = b ->
  Acpi.slp_typa acpi = ta -> Acpi.slp_typb acpi = tb -> 0 < a < 2 ^ 16 -> 0 <= b < 2 ^ 16 -> 0 <= ta < 8 -> 0 <= tb < 8 ->
  exists s' h', shutdown acpi s h = Ret (s', h') /\ off h' = true /\ kern s' = kern s.
Proof.
  intros Hs Hi Ha Hb Hta Htb Ra Rb Rta Rtb. pose proof (acpi_off_ok acpi a b ta tb SO h Hi Ha Hb Hta Htb Ra Rb Rta Rtb) as Hoff.
  destruct (prints_serial fuel cpu (text "[Power] Initiating system shutdown sequence...") s h Hs) as (s1 & E1 & H1 & K1 & _).
  destruct (prints_line fuel cpu (text "System is shutting down...") s1 h H1) as (s2 & E2 & H2 & K2 & _).
  set (h1 := outw (outw (outw (acpi_off acpi h).2 0x604 0x2000) 0x4004 0x3400) 0xB004 0x2000).
  destruct (prints_serial fuel cpu (text "[Power] Shutdown ports did not power off hardware; halting CPU.") s2 h1 H2) as (s3 & E3 & H3 & K3 & _).
  destruct (prints_line fuel cpu (text "It is now safe to turn off your computer.") s3 h1 H3) as (s4 & E4 & H4 & K4 & _).
  exists s4, h1. split; [|split; [by do 3 apply (off_outw (SoftOff := SO))|congruence]].
  unfold shutdown, mbind, hwo_bind. rewrite E1, E2. cbn [dev]. unfold dev. destruct (acpi_off acpi h) as [u h0] eqn:E. cbn. subst h1. cbn in E3, E4. by rewrite E3.
Qed.

(** Whatever the keyboard controller answers, the reset is pulsed after at most a
    thousand polls. *)
Lemma drain_polls n h : exists k, (k <= n)%nat /\ (drain n h).2 = Nat.iter k (fun h => (inb h 0x64).2) h.
Proof.
  revert h. induction n as [|n IH]; intros h; [by exists 0%nat|]. cbn [drain]. unfold mbind, hw_bind, port_inb. destruct (inb h 0x64) as [b h'] eqn:E.
  destruct (Z.land b 2 =? 0); [exists 1%nat; cbn; rewrite E; split; [lia|done]|]. destruct (IH h') as (k & Hk & ->). exists (S k). split; [lia|]. rewrite Nat.iter_succ_r, E. done.
Qed.
End Power.
End Power.
