(* ===== verification/Shell.v ===== *)
(** * The shell's line editor and parsers (src/src/shell/mod.rs, the consumer in
    src/src/drivers/keyboard.rs)

    Keys from the serial port and the keyboard queue edit a line; Enter submits it.
    Output and submitted commands are a list of effects, in order. *)

From stdpp Require Import prelude numbers list strings.
From S2P Require Import Prelude Bytes Ring Io Serial Keyboard Text.
Import Bytes Text Keyboard.

Module Shell.

Definition BUFFER_MAX : nat := 128.
Record Shell := mkShell { buffer : list Z; length_ : nat }.
Definition new : Shell := mkShell (replicate BUFFER_MAX 0) 0.

(** What the shell does to the outside: [print!], the erasure of a character on the
    screen, the execution of a command line. *)
Inductive effect := Print (text : list Z) | EraseLast | Execute (cmd : list Z).

(** [c as char], printed. *)
Definition char_bytes (c : Z) : list Z := if c <? 128 then [c] else [0xC0 + c / 64; 0x80 + c mod 64].

Definition push_char (s : Shell) (c : Z) : outcome (list effect * Shell) :=
  if Nat.ltb (length_ s) (BUFFER_MAX - 1) then
    b ← update (buffer s) (length_ s) (fun _ => c);
    Ret ([Print (char_bytes c)], mkShell b (S (length_ s)))
  else Ret ([], s).

Definition backspace (s : Shell) : list effect * Shell :=
  if Nat.ltb 0 (length_ s) then ([EraseLast], mkShell (buffer s) (length_ s - 1)) else ([], s).

Definition len (s : Shell) : nat := length_ s.
Definition clear (s : Shell) : Shell := mkShell (buffer s) 0.

Definition PROMPT : list Z := ascii_bytes "auraos> ".

(** [on_enter]: the submitted line is taken and trimmed under the lock, then run. *)
Definition on_enter (s : Shell) : outcome (list effect * Shell) :=
  let line := take (length_ s) (buffer s) in
  if Nat.ltb (length (buffer s)) (length_ s) then Panic else
  let cmd := if (Nat.ltb 0 (length_ s) && utf8_valid (length line) line)%bool then trim line else [] in
  Ret ([Print [10]] ++ (if bool_decide (cmd = []) then [] else [Execute cmd]) ++ [Print PROMPT], mkShell (buffer s) 0).

(** ** [process_pending_keys] *)
Definition printable (b : Z) : bool := ((0x20 <=? b) && (b <=? 0x7E))%bool.

(** A byte from the serial line. *)
Definition on_serial (k : keyboard) (s : Shell) (b : Z) : outcome (list effect * keyboard * Shell) :=
  if b =? 0x1B then Ret ([], request_exit k, s) else
  if (b =? 8) || (b =? 0x7F) then let '(e, s') := backspace s in Ret (e, k, s') else
  if (b =? 13) || (b =? 10) then r ← on_enter s; Ret (r.1, k, r.2) else
  if printable b then r ← push_char s b; Ret (r.1, k, r.2) else Ret ([], k, s).

Fixpoint serial_keys (k : keyboard) (s : Shell) (l : list Z) : outcome (list effect * keyboard * Shell) :=
  match l with
  | [] => Ret ([], k, s)
  | b :: l' => r ← on_serial k s b; let '(e, k', s') := r in r2 ← serial_keys k' s' l'; let '(es, k2, s2) := r2 in Ret (e ++ es, k2, s2)
  end.

(** Up to [n] bytes that are waiting on the serial line. *)
Fixpoint receive_all {H} `{Hardware H} (n : nat) : hw H (list Z) :=
  match n with
  | O => mret []
  | S n' => b ← Serial.receive_byte_lockfree; match b with Some b => l ← receive_all n'; mret (b :: l) | None => mret [] end
  end.

(** The loop over the queue. *)
Fixpoint keyboard_keys (fuel : nat) (k : keyboard) (s : Shell) : outcome (list effect * keyboard * Shell) :=
  match fuel with
  | O => NoFuel
  | S f =>
      let '(key, q) := dequeue (queue k) in
      let k := set_queue k q in
      match key with
      | Some b =>
          if b =? 8 then let '(e, s') := backspace s in r ← keyboard_keys f k s'; let '(es, k2, s2) := r in Ret (e ++ es, k2, s2) else
          if b =? 10 then r1 ← on_enter s; r ← keyboard_keys f k r1.2; let '(es, k2, s2) := r in Ret (r1.1 ++ es, k2, s2) else
          if printable b then r1 ← push_char s b; r ← keyboard_keys f k r1.2; let '(es, k2, s2) := r in Ret (r1.1 ++ es, k2, s2) else
          Ret ([], k, s)
      | None => Ret ([], k, s)
      end
  end.

Definition process_pending_keys {H} `{Hardware H} (k : keyboard) (s : Shell) : hwo H (list effect * keyboard * Shell) :=
  serial_buf ← dev (receive_all 16);
  r ← pure_ (serial_keys k s serial_buf);
  let '(e1, k1, s1) := r in
  r2 ← pure_ (keyboard_keys (Z.to_nat KEY_BUFFER_CAP) k1 s1);
  let '(e2, k2, s2) := r2 in mret (e1 ++ e2, k2, s2).

(** ** Parsers *)
Definition checked_mul (a b : Z) : option Z := if a * b <? 2 ^ 64 then Some (a * b) else None.
Definition checked_add (a b : Z) : option Z := if a + b <? 2 ^ 64 then Some (a + b) else None.

Fixpoint parse_digits (acc : Z) (l : list Z) : option Z :=
  match l with
  | [] => Some acc
  | b :: l' => if is_digit b then a ← checked_mul acc 10; a ← checked_add a (b - 48); parse_digits a l' else None
  end.
Definition parse_u64 (s : list Z) : option Z :=
  let s := trim s in if bool_decide (s = []) then None else parse_digits 0 s.

Fixpoint parse_octets (parts : list (list Z)) (octets : list Z) (idx : nat) : option (list Z) :=
  match parts with
  | [] => if Nat.eqb idx 4 then Some octets else None
  | p :: parts' =>
      if Nat.leb 4 idx then None else
      match parse_u64 p with
      | Some v => if v <=? 255 then parse_octets parts' (<[idx := wrap 8 v]> octets) (S idx) else None
      | None => None
      end
  end.
Definition parse_ipv4 (s : list Z) : option (list Z) := parse_octets (split_byte 46 (trim s)) [0; 0; 0; 0] 0.

(** ** The line editor *)
Definition shell_ok (s : Shell) : Prop := length (buffer s) = BUFFER_MAX /\ (length_ s < BUFFER_MAX)%nat.
Definition line (s : Shell) : list Z := take (length_ s) (buffer s).

Lemma push_char_spec s c : shell_ok s -> (length_ s < BUFFER_MAX - 1)%nat ->
  exists s', push_char s c = Ret ([Print (char_bytes c)], s') /\ shell_ok s' /\ line s' = line s ++ [c] /\ length_ s' = S (length_ s).
Proof.
  intros [Hb Hl] Hlt. unfold push_char. rewrite (proj2 (Nat.ltb_lt _ _)) by lia. destruct (lookup_lt_is_Some_2 (buffer s) (length_ s) ltac:(lia)) as [x Hx].
  unfold update. rewrite (at_Ret _ _ x Hx). cbn [mbind outcome_bind]. eexists. split; [done|]. split; [split; cbn [buffer length_]; [by rewrite length_insert|lia]|]. split; [|done].
  unfold line. cbn [buffer length_]. rewrite (take_S_r _ _ c) by (by rewrite list_lookup_insert_eq by lia). by rewrite take_insert_ge by lia.
Qed.

Lemma dequeue_cons k a l : queue_ok (queue k) -> keys (queue k) = a :: l -> exists q, dequeue (queue k) = (Some a, q) /\ queue_ok q /\ keys q = l.
Proof.
  intros Hok Hk. pose proof (dequeue_spec (queue k) Hok) as Hd. destruct (dequeue (queue k)) as [[b|] q]; [|destruct Hd; congruence].
  destruct Hd as [Hq E]. rewrite Hk in E. injection E as -> ->. by exists q.
Qed.

Lemma keyboard_done f k s : queue_ok (queue k) -> keys (queue k) = [] -> keyboard_keys (S f) k s = Ret ([], k, s).
Proof.
  intros Hok Hk. cbn [keyboard_keys]. pose proof (dequeue_spec (queue k) Hok) as Hd. destruct (dequeue (queue k)) as [[b|] q].
  - destruct Hd as [_ E]. congruence.
  - destruct Hd as [-> _]. by destruct k.
Qed.

Lemma printable_range b : 0x20 <= b <= 0x7E -> printable b = true /\ (b =? 8) = false /\ (b =? 10) = false /\ char_bytes b = [b].
Proof.
  intros Hb. unfold printable, char_bytes. rewrite !(proj2 (Z.leb_le _ _)), !(proj2 (Z.eqb_neq _ _)), (proj2 (Z.ltb_lt _ _)) by lia. done.
Qed.

(** Typing [t] with [Enter] at the end. *)
Lemma keyboard_line t : forall f k s, Forall (fun b => 0x20 <= b <= 0x7E) t -> queue_ok (queue k) -> keys (queue k) = t ++ [10] -> shell_ok s ->
  (length_ s + length t < BUFFER_MAX)%nat -> (length t + 1 < f)%nat ->
  exists r k' s', on_enter (mkShell (buffer s') (length_ s + length t)) = Ret (r, mkShell (buffer s') 0) /\ line (mkShell (buffer s') (length_ s + length t)) = line s ++ t /\
    length (buffer s') = BUFFER_MAX /\
    keyboard_keys f k s = Ret (((fun b => Print [b]) <$> t) ++ r, k', s') /\ queue_ok (queue k') /\ keys (queue k') = [] /\ length_ s' = O /\ shift_active k' = shift_active k.
Proof.
  induction t as [|b t IH]; intros f k s Ht Hok Hk Hs Hl Hf; (destruct f as [|f]; [cbn in Hf; lia|]); destruct (dequeue_cons k _ _ Hok Hk) as (q & Ed & Hq & Kq); cbn [app] in *.
  - cbn [keyboard_keys]. rewrite Ed. cbn [length Z.eqb Pos.eqb] in *. rewrite Nat.add_0_r. assert (Eon : exists r, on_enter s = Ret (r, mkShell (buffer s) 0)).
    { unfold on_enter. rewrite (proj2 (Nat.ltb_ge _ _)) by (destruct Hs; lia). by eexists. }
    destruct Eon as [r Er]. rewrite Er. cbn [mbind outcome_bind fst snd]. destruct f as [|f]; [lia|]. rewrite (keyboard_done f (set_queue k q)) by done.
    exists r, (set_queue k q), (mkShell (buffer s) 0). cbn [buffer length_]. split; [by destruct s|]. split; [by rewrite app_nil_r; destruct s|]. split; [apply Hs|].
    cbn [mbind outcome_bind fst snd]. rewrite app_nil_r. done.
  - apply Forall_cons_1 in Ht as [Hb Ht]. cbn [length] in *. cbn [keyboard_keys]. rewrite Ed. destruct (printable_range b Hb) as (P1 & P2 & P3 & P4). rewrite P1, P2, P3.
    destruct (push_char_spec s b Hs ltac:(lia)) as (s1 & E1 & Hs1 & L1 & N1). rewrite E1. cbn [mbind outcome_bind fst snd].
    destruct (IH f (set_queue k q) s1 Ht Hq Kq Hs1 ltac:(lia) ltac:(lia)) as (r & k' & s' & Eon & El & Hlen & E & Hk' & K' & L' & Sh').
    rewrite E. cbn [mbind outcome_bind]. exists r, k', s'. replace (length_ s + S (length t))%nat with (length_ s1 + length t)%nat by lia.
    split; [done|]. split; [rewrite El, L1, <- app_assoc; done|]. split; [done|]. rewrite P4. done.
Qed.

(** What is typed is what runs, for a silent serial line. *)
Lemma typed_line {H} `{Hardware H} (h h' : H) k (s : Shell) t v : inb h (Serial.COM1_BASE + 5) = (v, h') -> Z.land v 1 = 0 ->
  shift_active k = false -> queue_ok (queue k) -> keys (queue k) = [] -> shell_ok s -> length_ s = O -> Forall (fun b => 0x20 <= b <= 0x7E) t -> (length t <= 126)%nat ->
  exists k' s', process_pending_keys (fold_left on_scancode ((t ++ [10]) ≫= stroke) k) s h =
      Ret (((fun b => Print [b]) <$> t) ++ [Print [10]] ++ (if bool_decide (trim t = []) then [] else [Execute (trim t)]) ++ [Print PROMPT], k', s', h') /\
    shift_active k' = false /\ queue_ok (queue k') /\ keys (queue k') = [] /\ shell_ok s' /\ length_ s' = O.
Proof.
  intros Hin Hv Hs Hq Hk Hok Hz Ht Hl. assert (Hty : Forall typeable (t ++ [10])).
  { apply Forall_app. split; [eapply Forall_impl; [exact Ht|]; intros b Hb; by right|]. constructor; [by left|constructor]. }
  destruct (typed_queue (t ++ [10]) k Hty Hs Hq) as (Sh1 & Hq1 & K1 & _); [rewrite Hk, length_app; cbn; unfold KEY_BUFFER_CAP; lia|]. rewrite Hk in K1. cbn [app] in K1.
  set (k1 := fold_left _ _ _) in *.
  destruct (keyboard_line t (Z.to_nat KEY_BUFFER_CAP) k1 s Ht Hq1 K1 Hok) as (r & k' & s' & Eon & El & Hlen & E & Hk' & K' & L' & Sh');
    [unfold BUFFER_MAX; lia|unfold KEY_BUFFER_CAP; lia|]. exists k', s'. split; [|split_and!; try done; [congruence|split; [done|rewrite L'; unfold BUFFER_MAX; lia]]].
  assert (Er : r = [Print [10]] ++ (if bool_decide (trim t = []) then [] else [Execute (trim t)]) ++ [Print PROMPT]).
  { unfold on_enter in Eon. cbv zeta in Eon. cbn [length_ buffer] in Eon. rewrite (proj2 (Nat.ltb_ge _ _)) in Eon by (rewrite Hlen; unfold BUFFER_MAX; lia).
    unfold line in El. cbn [length_ buffer] in El, Eon. rewrite Hz in El, Eon. cbn [Nat.add take app] in El, Eon. rewrite El in Eon. rewrite take_0 in Eon. cbn [app] in Eon. rewrite (ascii_utf8 t (length t) Ht ltac:(lia)), andb_true_r in Eon.
    injection Eon as <-. by destruct t. }
  subst r. unfold process_pending_keys. unfold mbind at 1, hwo_bind at 1, dev. change (receive_all 16 h) with ((b ← Serial.receive_byte_lockfree; match b with Some b => l ← receive_all 15; mret (b :: l) | None => mret [] end) h).
  unfold Serial.receive_byte_lockfree, port_inb. unfold mbind, hw_bind. rewrite Hin, (proj2 (Z.eqb_eq _ _) Hv). cbn [negb]. unfold mret, hw_ret.
  cbn [serial_keys]. unfold hwo_bind, pure_. cbn [mbind outcome_bind]. rewrite E. done.
Qed.
Lemma new_shell_ok : shell_ok new.
Proof. split; [done|unfold new, BUFFER_MAX; cbn; lia]. Qed.

(** What is typed is what runs: from an empty queue and an empty line, the
    scancodes of any line of printable characters (shift held where needed) and
    Enter, followed by one call of [process_pending_keys] with a silent serial
    line, print each character once, then the line feed, execute exactly the typed
    line with surrounding blanks removed (nothing when it is blank), print the
    prompt, and leave queue and line empty. *)
Theorem typed_line_executed {H} `{Hardware H} (h h' : H) k t v : inb h (Serial.COM1_BASE + 5) = (v, h') -> Z.land v 1 = 0 ->
  shift_active k = false -> queue_ok (queue k) -> keys (queue k) = [] -> Forall (fun b => 0x20 <= b <= 0x7E) t -> (length t <= 126)%nat ->
  exists k' s', process_pending_keys (fold_left on_scancode ((t ++ [10]) ≫= stroke) k) new h =
      Ret (((fun b => Print [b]) <$> t) ++ [Print [10]] ++ (if bool_decide (trim t = []) then [] else [Execute (trim t)]) ++ [Print PROMPT], k', s', h') /\
    keys (queue k') = [] /\ length_ s' = O.
Proof. intros. destruct (typed_line h h' k new t v) as (k' & s' & E & _ & _ & Hk & _ & Hl); try done; [apply new_shell_ok|]. by exists k', s'. Qed.

(** A machine whose serial line is silent. *)
Definition idle_keyboard : keyboard := mkKbd KEY_QUEUE false false false.
Lemma idle_queue : queue_ok (queue idle_keyboard) /\ keys (queue idle_keyboard) = [].
Proof. split; [|done]. split; [|done]. change (data (queue idle_keyboard)) with (replicate (Z.to_nat KEY_BUFFER_CAP) 0). by rewrite length_replicate. Qed.

Lemma typed_line_witness : exists k' s' h', process_pending_keys (fold_left on_scancode ((ascii_bytes "ls /Tmp " ++ [10]) ≫= stroke) idle_keyboard) new (Serial.mkUart [] 0) =
  Ret (((fun b => Print [b]) <$> ascii_bytes "ls /Tmp ") ++ [Print [10]; Execute (ascii_bytes "ls /Tmp"); Print PROMPT], k', s', h').
Proof.
  destruct idle_queue as [Hq Hk].
  destruct (typed_line_executed (H0 := Serial.uart_hardware) (Serial.mkUart [] 0) (Serial.mkUart [] 0) idle_keyboard (ascii_bytes "ls /Tmp ") 0x20 eq_refl eq_refl eq_refl Hq Hk) as (k' & s' & E & _).
  - by_compute.
  - by_compute.
  - exists k', s', (Serial.mkUart [] 0). exact E.
Defined.

(** ** Numbers and addresses *)
Lemma parse_digits_spec l : forall acc, 0 <= acc < 2 ^ 64 -> Forall (fun b => is_digit b = true) l ->
  parse_digits acc l = let v := fold_left (fun acc b => acc * 10 + (b - 48)) l acc in if v <? 2 ^ 64 then Some v else None.
Proof.
  induction l as [|b l IH]; intros acc Ha Hl; cbn [parse_digits fold_left]; [by rewrite (proj2 (Z.ltb_lt _ _)) by lia|]. apply Forall_cons_1 in Hl as [Hb Hl]. rewrite Hb.
  assert (Hd : 0 <= b - 48 <= 9) by (unfold is_digit in Hb; zbool; lia).
  assert (Hmono : forall l x y, x <= y -> Forall (fun b => is_digit b = true) l -> fold_left (fun acc b => acc * 10 + (b - 48)) l x <= fold_left (fun acc b => acc * 10 + (b - 48)) l y).
  { clear. induction l as [|b l IH]; intros x y Hxy Hl; [done|]. apply Forall_cons_1 in Hl as [_ Hl]. cbn [fold_left]. apply IH; [lia|done]. }
  assert (Hge : forall l x, 0 <= x -> Forall (fun b => is_digit b = true) l -> x <= fold_left (fun acc b => acc * 10 + (b - 48)) l x).
  { clear. induction l as [|b l IH]; intros x Hx Hl; [cbn; lia|]. apply Forall_cons_1 in Hl as [Hb Hl]. cbn [fold_left]. assert (0 <= b - 48) by (unfold is_digit in Hb; zbool; lia).
    etransitivity; [|apply IH; [lia|done]]. lia. }
  unfold checked_mul, checked_add. destruct (Z.ltb_spec (acc * 10) (2 ^ 64)) as [H1|H1]; cbn [mbind option_bind].
  - destruct (Z.ltb_spec (acc * 10 + (b - 48)) (2 ^ 64)) as [H2|H2]; cbn [mbind option_bind]; [by apply IH; [lia|]|].
    cbv zeta. rewrite (proj2 (Z.ltb_ge _ _)); [done|]. etransitivity; [exact H2|]. apply Hge; [lia|done].
  - cbv zeta. rewrite (proj2 (Z.ltb_ge _ _)); [done|]. etransitivity; [exact H1|]. etransitivity; [|apply Hge; [lia|done]]. lia.
Qed.

Lemma parse_u64_decimal n : in_u 64 n -> parse_u64 (decimal n) = Some n.
Proof.
  intros Hn. destruct (decimal_spec n Hn) as (Hv & Hd & Hne). unfold parse_u64. cbv zeta. rewrite trim_digits by (by apply digits_plain). rewrite bool_decide_false by done.
  rewrite parse_digits_spec by (done || lia). cbv zeta. fold (value (decimal n)). rewrite Hv, (proj2 (Z.ltb_lt _ _)) by apply Hn. done.
Qed.

(** Four octets in decimal with dots between them. *)
Lemma parse_ipv4_decimal a b c d : in_u 8 a -> in_u 8 b -> in_u 8 c -> in_u 8 d -> parse_ipv4 (decimal a ++ 46 :: decimal b ++ 46 :: decimal c ++ 46 :: decimal d) = Some [a; b; c; d].
Proof.
  intros Ha Hb Hc Hd. assert (H64 : forall x, in_u 8 x -> in_u 64 x) by (intros x [H1 H2]; split; lia).
  assert (Hnd : forall x, in_u 8 x -> 46 ∉ decimal x).
  { intros x Hx Hin. destruct (decimal_spec x (H64 x Hx)) as (_ & Hdig & _). rewrite Forall_forall in Hdig. by apply Hdig in Hin. }
  assert (Hpl : forall x, in_u 8 x -> Forall (fun b => ws1 b = false /\ b < 0x80) (decimal x)) by (intros x Hx; apply digits_plain, decimal_spec, H64, Hx).
  assert (Hdot : ws1 46 = false /\ 46 < 0x80) by (split; [done|lia]).
  unfold parse_ipv4. rewrite trim_digits by (repeat (apply Forall_app; split; [by apply Hpl|]; apply Forall_cons; split; [exact Hdot|]); by apply Hpl).
  rewrite !split_dot by (by apply Hnd). rewrite split_byte_none by (by apply Hnd). cbn [parse_octets Nat.leb Nat.eqb]. rewrite !parse_u64_decimal by (by apply H64).
  unfold in_u in *. rewrite !(proj2 (Z.leb_le _ _)) by lia. rewrite !wrap_small by (split; lia). done.
Qed.

(** Numbers and addresses typed on the command line mean what they say: a
    string of digits is its value when that fits in 64 bits and is refused
    otherwise, never wrapped; the decimal form of every [u64] parses to it; and
    four octets in decimal with dots between them parse to those octets. *)
Theorem numbers_parsed :
  (forall l, l <> [] -> Forall (fun b => is_digit b = true) l -> parse_u64 l = if value l <? 2 ^ 64 then Some (value l) else None) /\
  (forall n, in_u 64 n -> parse_u64 (decimal n) = Some n) /\
  (forall a b c d, in_u 8 a -> in_u 8 b -> in_u 8 c -> in_u 8 d -> parse_ipv4 (decimal a ++ 46 :: decimal b ++ 46 :: decimal c ++ 46 :: decimal d) = Some [a; b; c; d]).
Proof.
  split; [|split; [apply parse_u64_decimal|apply parse_ipv4_decimal]].
  intros l Hne Hl. unfold parse_u64. cbv zeta. rewrite trim_digits by (by apply digits_plain). rewrite bool_decide_false by done. by rewrite parse_digits_spec by (done || lia).
Qed.

Lemma numbers_parsed_witness : parse_ipv4 (ascii_bytes "10.0.2.15") = Some [10; 0; 2; 15] /\ parse_u64 (ascii_bytes "18446744073709551616") = None.
Proof.
  destruct numbers_parsed as (H1 & _ & H3). split.
  - apply (H3 10 0 2 15); by_compute.
  - rewrite H1; [reflexivity|done|]. by_compute.
Defined.

End Shell.
