(* ===== verification/Commands.v ===== *)
(** * The commands of the shell that act on files (src/src/shell/mod.rs: [Shell::execute])

    The arms of [execute] over the virtual file system, the disk and the mounted FAT32
    volume.  A command answers the lines it prints, each without its line end, and the
    new state; the words of the command line are those of [split_whitespace]. *)

From stdpp Require Import prelude numbers list strings.
From Stdlib Require Import ZifyBool.
From S2P Require Import Prelude Bytes Text Io Vfs VfsTree VfsPath Errors Ata Fat32 FatVol FatDir FatFile FatWrite FatFormat FatFs Shell Pmm Task Ipc.
Import Bytes Text Errors Ata.

Module Commands.

(** ** Words *)
(** The length of the white space character a string starts with. *)
Definition ws_len (l : list Z) : option nat :=
  match l with
  | b0 :: l1 =>
    if ws1 b0 then Some 1%nat else
    match l1 with
    | b1 :: l2 => if ws2 b0 b1 then Some 2%nat else match l2 with b2 :: _ => if ws3 b0 b1 b2 then Some 3%nat else None | [] => None end
    | [] => None
    end
  | [] => None
  end.
Definition flush (w : list Z) : list (list Z) := match w with [] => [] | _ => [w] end.
Fixpoint split_ws (fuel : nat) (w l : list Z) : list (list Z) :=
  match fuel, l with
  | S n, b :: l' => match ws_len l with Some k => flush w ++ split_ws n [] (drop k l) | None => split_ws n (w ++ [b]) l' end
  | _, _ => flush w
  end.
Definition split_whitespace (l : list Z) : list (list Z) := split_ws (length l) [] l.
(** [collect::<Vec<&str>>().join(" ")] *)
Fixpoint join_words (l : list (list Z)) : list Z := match l with [] => [] | [w] => w | w :: l' => w ++ [32] ++ join_words l' end.

(** ** Text *)
Definition txt (s : string) : list Z := ascii_bytes s.
(** A [str] as the file system keeps it. *)
Definition str (l : list Z) : string := Vfs.string_of l.
Definition is_str (l : list Z) : bool := utf8_valid (length l) l.
Definition chars (l : list Z) : nat := length (filter (fun b => ~ (128 <= b < 192)) l).
Definition pad_right (w : nat) (l : list Z) : list Z := l ++ replicate (w - chars l) 32.
Definition pad_left (w : nat) (l : list Z) : list Z := replicate (w - length l) 32 ++ l.
Definition hex_digit (d : Z) : Z := if d <? 10 then 48 + d else 87 + d.
Definition hex2 (b : Z) : list Z := [hex_digit (b / 16); hex_digit (b mod 16)].
Definition strip_prefix (p l : list Z) : option (list Z) := if bool_decide (take (length p) l = p) then Some (drop (length p) l) else None.
Fixpoint find_byte (c : Z) (l : list Z) : option nat := match l with [] => None | b :: l' => if b =? c then Some O else S <$> find_byte c l' end.

Section Commands.
Context {D : Type} {DK : Disk D}.
(** The generators of /proc, the draw of /dev/random, and the bound on cluster chains. *)
Context (run : Vfs.Generator -> list Z) (random : list Z) (fuel : nat).

Record files := mkFiles { vfs : Vfs.Vfs; FAT32_FS : option Fat32.Fat32Fs; disk : D }.
Definition set_vfs (s : files) (v : Vfs.Vfs) : files := mkFiles v (FAT32_FS s) (disk s).
Definition set_disk (s : files) (d : D) : files := mkFiles (vfs s) (FAT32_FS s) d.
Definition mount_fs (s : files) (fs : Fat32.Fat32Fs) : files := mkFiles (vfs s) (Some fs) (disk s).
Notation answer := (outcome (list (list Z) * files)).
Definition say (s : files) (l : list (list Z)) : answer := Ret (l, s).

(** ** The virtual file system *)
Definition cmd_pwd (s : files) : answer := p ← Vfs.vfs_current_path (vfs s); say s [Vfs.bytes_of p].
Definition cmd_cd (args : list (list Z)) (s : files) : answer :=
  let target := default (txt "/") (head args) in
  r ← Vfs.resolve_path (vfs s) (str target);
  match r with
  | Ok node_id =>
    d ← Vfs.vfs_is_dir (vfs s) node_id;
    if (d : bool) then say (set_vfs s (Vfs.vfs_set_current_inode (vfs s) node_id)) [] else say s [txt "cd: not a directory: " ++ target]
  | Err e => say s [txt "cd: " ++ target ++ txt ": " ++ txt (Errors.vfs_display e)]
  end.
Definition ls_line (e : Vfs.DirectoryEntry) : list Z :=
  txt (if Vfs.e_is_dir e then "<DIR> " else "<FILE>") ++ txt "  " ++ pad_right 12 (decimal (Z.of_nat (Vfs.e_size e))) ++ txt "  " ++ Vfs.bytes_of (Vfs.e_name e).
Definition cmd_ls (args : list (list Z)) (s : files) : answer :=
  let target := default [] (head args) in
  r ← (if bool_decide (target = []) then Vfs.list_directory (vfs s) (Vfs.current_inode (vfs s)) else Vfs.vfs_list_directory (vfs s) (str target));
  match r with
  | Ok entries => say s ([txt "TYPE    SIZE (BYTES)  NAME"; txt "----    ------------  ----"] ++ (ls_line <$> entries) ++ [txt "Total entries: " ++ decimal (Z.of_nat (length entries))])
  | Err e => say s [txt "ls: " ++ txt (Errors.vfs_display e)]
  end.
Definition shown (bytes : list Z) : list Z := if is_str bytes then bytes else txt "<Binary content: " ++ decimal (Z.of_nat (length bytes)) ++ txt " bytes>".
Definition cmd_cat (args : list (list Z)) (s : files) : answer :=
  let path := default [] (head args) in
  if bool_decide (path = []) then say s [txt "Usage: cat <file_path>"] else
  r ← Vfs.vfs_read_file run random (vfs s) (str path);
  say s [match r with Ok bytes => shown bytes | Err e => txt "cat: " ++ path ++ txt ": " ++ txt (Errors.vfs_display e) end].
Definition cmd_touch (args : list (list Z)) (s : files) : answer :=
  let file_name := default [] (head args) in
  if bool_decide (file_name = []) then say s [txt "Usage: touch <file_name>"] else
  '(r, v) ← Vfs.create_file_at (vfs s) (Vfs.current_inode (vfs s)) (str file_name) [];
  say (set_vfs s v) [match r with Ok _ => txt "File created: " ++ file_name | Err e => txt "touch: " ++ file_name ++ txt ": " ++ txt (Errors.vfs_display e) end].
Definition cmd_mkdir (args : list (list Z)) (s : files) : answer :=
  let dir_name := default [] (head args) in
  if bool_decide (dir_name = []) then say s [txt "Usage: mkdir <directory_name>"] else
  '(r, v) ← Vfs.mkdir_at (vfs s) (Vfs.current_inode (vfs s)) (str dir_name);
  say (set_vfs s v) [match r with Ok _ => txt "Directory created: " ++ dir_name | Err e => txt "mkdir: " ++ dir_name ++ txt ": " ++ txt (Errors.vfs_display e) end].
Definition WRITE_USAGE : list Z := txt "Usage: write <filename> <content...>".
Definition cmd_write (cmd : list Z) (s : files) : answer :=
  match strip_prefix (txt "write ") cmd with
  | Some rest =>
    let rest := trim_start (length rest) rest in
    match find_byte 32 rest with
    | Some space_idx =>
      let filename := take space_idx rest in
      let content := drop (space_idx + 1) rest in
      '(r, v) ← Vfs.create_file_at (vfs s) (Vfs.current_inode (vfs s)) (str filename) content;
      say (set_vfs s v) [match r with
        | Ok _ => txt "Wrote " ++ decimal (Z.of_nat (length content)) ++ txt " bytes to '" ++ filename ++ txt "'"
        | Err e => txt "write: " ++ filename ++ txt ": " ++ txt (Errors.vfs_display e) end]
    | None => say s [WRITE_USAGE]
    end
  | None => say s [WRITE_USAGE]
  end.
Definition cmd_rm (args : list (list Z)) (s : files) : answer :=
  let nm := default [] (head args) in
  if bool_decide (nm = []) then say s [txt "Usage: rm <file_or_dir_name>"] else
  '(r, v) ← Vfs.vfs_remove_by_path (vfs s) (str nm);
  say (set_vfs s v) [match r with Ok _ => txt "Removed: " ++ nm | Err e => txt "rm: " ++ nm ++ txt ": " ++ txt (Errors.vfs_display e) end].

(** ** Sectors *)
Definition number (dflt : Z) (o : option (list Z)) : Z := wrap 32 (default dflt (o ≫= Shell.parse_u64)).
Definition dump (l : list Z) : list Z := l ≫= fun b => hex2 b ++ [32].
Definition cmd_readsec (args : list (list Z)) (s : files) : answer :=
  let lba := number 0 (Some (default (txt "0") (head args))) in
  let '(r, d) := disk_read 0 lba (disk s) in
  say (set_disk s d) match r with
    | Ok buf => [txt "--- ATA SECTOR " ++ decimal lba ++ txt " (FIRST 32 BYTES) ---"; dump (take 16 buf); dump (take 16 (drop 16 buf)); txt "--------------------------------------"]
    | Err e => [txt "readsec: error reading sector " ++ decimal lba ++ txt ": " ++ txt (Errors.ata_display e)] end.
Definition cmd_writesec (args : list (list Z)) (s : files) : answer :=
  let lba := number 0 (Some (default (txt "0") (head args))) in
  let bytes := join_words (drop 1 args) in
  let copy_len := Nat.min (length bytes) 512 in
  let '(r, d) := disk_write 0 lba (take copy_len bytes ++ replicate (512 - copy_len) 0) (disk s) in
  say (set_disk s d) [match r with
    | Ok _ => txt "writesec: successfully wrote " ++ decimal (Z.of_nat copy_len) ++ txt " bytes to LBA sector " ++ decimal lba
    | Err e => txt "writesec: error writing sector " ++ decimal lba ++ txt ": " ++ txt (Errors.ata_display e) end].

(** ** The FAT32 volume *)
Definition fat_err (e : Errors.Fat32Error) : list Z := txt (Errors.fat32_display e).
Definition size_line (what : string) (kb : Z) : list Z := txt what ++ decimal kb ++ txt " KiB (" ++ decimal (kb / 1024) ++ txt " MiB)".
Definition cmd_formatfat (args : list (list Z)) (s : files) : answer :=
  let lba := number 2048 (args !! 0%nat) in
  let sectors := number 65536 (args !! 1%nat) in
  let first := txt "Formatting FAT32 partition at LBA " ++ decimal lba ++ txt " (" ++ decimal sectors ++ txt " sectors = " ++ decimal (Fat32.u32_mul sectors 512 / (1024 * 1024)) ++ txt " MiB)..." in
  '(r, d) ← Fat32.format 0 lba sectors (txt "AURAOS_PERS") (disk s);
  match r with
  | Ok fs =>
    '(info, d) ← Fat32.fs_info fs d;
    say (mount_fs (set_disk s d) fs) [first; txt "formatfat: FAT32 successfully formatted!"; txt "  Volume Label : " ++ Fat32.i_volume_label info;
      size_line "  Total Space  : " (Fat32.total_space_kb info); txt "  Cluster Size : " ++ decimal (Fat32.bytes_per_cluster info) ++ txt " bytes";
      txt "  Free Clusters: " ++ decimal (Fat32.free_clusters info) ++ txt " / " ++ decimal (Fat32.i_total_clusters info); txt "  Mounted into global FAT32 filesystem."]
  | Err e => say (set_disk s d) [first; txt "formatfat: error: " ++ fat_err e]
  end.
Definition cmd_mountfat (args : list (list Z)) (s : files) : answer :=
  let lba := number 2048 (args !! 0%nat) in
  '(r, d) ← Fat32.mount 0 lba (disk s);
  match r with
  | Ok fs =>
    '(info, d) ← Fat32.fs_info fs d;
    say (mount_fs (set_disk s d) fs) [txt "mountfat: successfully mounted FAT32 volume from LBA " ++ decimal lba ++ txt "!"; txt "  Volume Label : " ++ Fat32.i_volume_label info;
      size_line "  Total Space  : " (Fat32.total_space_kb info); size_line "  Free Space   : " (Fat32.free_space_kb info); txt "  Cluster Size : " ++ decimal (Fat32.bytes_per_cluster info) ++ txt " bytes"]
  | Err e => say (set_disk s d) [txt "mountfat: error: " ++ fat_err e]
  end.
Definition no_volume (c : string) : list Z := txt c ++ txt ": No FAT32 volume mounted. Use 'mountfat' or 'formatfat'.".
Definition on_volume (c : string) (s : files) (f : Fat32.Fat32Fs -> answer) : answer := match FAT32_FS s with Some fs => f fs | None => say s [no_volume c] end.
Definition cmd_fatinfo (s : files) : answer := on_volume "fatinfo" s (fun fs =>
  '(info, d) ← Fat32.fs_info fs (disk s);
  say (set_disk s d) [txt "--- FAT32 PERSISTENT VOLUME INFO ---"; txt "  Volume Label : " ++ Fat32.i_volume_label info;
    txt "  Drive / LBA  : Drive " ++ decimal (Fat32.drive fs) ++ txt " at LBA " ++ decimal (Fat32.lba_start fs);
    size_line "  Total Space  : " (Fat32.total_space_kb info); size_line "  Free Space   : " (Fat32.free_space_kb info);
    txt "  Cluster Size : " ++ decimal (Fat32.bytes_per_cluster info) ++ txt " bytes (" ++ decimal (Fat32.sectors_per_cluster (Fat32.bpb fs)) ++ txt " sector/cluster)";
    txt "  Total Clusters: " ++ decimal (Fat32.i_total_clusters info); txt "  Free Clusters : " ++ decimal (Fat32.free_clusters info); txt "------------------------------------"]).
Definition fatls_line (e : Fat32.FatDirEntry) : list Z :=
  txt "  " ++ txt (if Fat32.is_directory e then "<DIR>" else "     ") ++ txt "  " ++ pad_left 8 (decimal (Fat32.file_size e)) ++ txt " B  " ++ Fat32.name e.
Definition cmd_fatls (args : list (list Z)) (s : files) : answer := on_volume "fatls" s (fun fs =>
  let path := default (txt "/") (head args) in
  '(r, d) ← Fat32.resolve_path fs fuel path (disk s);
  match r with
  | Ok (Some entry, _) =>
    if negb (Fat32.is_directory entry) then say (set_disk s d) [txt "  " ++ Fat32.name entry ++ txt " (" ++ decimal (Fat32.file_size entry) ++ txt " bytes)"] else
    '(l, d) ← Fat32.list_directory_cluster fs fuel (Fat32.first_cluster entry) d;
    match l with
    | Ok entries => say (set_disk s d) ([txt "FAT32 Directory Listing for '" ++ path ++ txt "':"] ++ (if bool_decide (length entries = 0%nat) then [txt "  (empty directory)"] else fatls_line <$> entries))
    | Err e => say (set_disk s d) [txt "fatls: error listing directory: " ++ fat_err e]
    end
  | Ok (None, _) => say (set_disk s d) [txt "fatls: path '" ++ path ++ txt "' not found"]
  | Err e => say (set_disk s d) [txt "fatls: error: " ++ fat_err e]
  end).
Definition cmd_fatcat (args : list (list Z)) (s : files) : answer :=
  let path := default [] (head args) in
  if bool_decide (path = []) then say s [txt "Usage: fatcat <path>"] else on_volume "fatcat" s (fun fs =>
  '(r, d) ← Fat32.read_file fs fuel path (disk s);
  say (set_disk s d) [match r with Ok bytes => shown bytes | Err e => txt "fatcat: error: " ++ fat_err e end]).
Definition cmd_fatwrite (args : list (list Z)) (s : files) : answer :=
  let path := default [] (head args) in
  let text := join_words (drop 1 args) in
  if bool_decide (path = []) then say s [txt "Usage: fatwrite <path> <text>"] else on_volume "fatwrite" s (fun fs =>
  '(r, d) ← Fat32.write_file fs fuel path text (disk s);
  say (set_disk s d) [match r with
    | Ok _ => txt "fatwrite: successfully wrote " ++ decimal (Z.of_nat (length text)) ++ txt " bytes to '" ++ path ++ txt "'"
    | Err e => txt "fatwrite: error: " ++ fat_err e end]).
Definition cmd_fatmkdir (args : list (list Z)) (s : files) : answer :=
  let path := default [] (head args) in
  if bool_decide (path = []) then say s [txt "Usage: fatmkdir <path>"] else on_volume "fatmkdir" s (fun fs =>
  '(r, d) ← Fat32.create_dir fs fuel path (disk s);
  say (set_disk s d) [match r with
    | Ok c => txt "fatmkdir: created directory '" ++ path ++ txt "' (cluster " ++ decimal c ++ txt ")"
    | Err e => txt "fatmkdir: error: " ++ fat_err e end]).
Definition cmd_fatrm (args : list (list Z)) (s : files) : answer :=
  let path := default [] (head args) in
  if bool_decide (path = []) then say s [txt "Usage: fatrm <path>"] else on_volume "fatrm" s (fun fs =>
  '(r, d) ← Fat32.delete_entry fs fuel path (disk s);
  say (set_disk s d) [match r with Ok _ => txt "fatrm: removed entry '" ++ path ++ txt "'" | Err e => txt "fatrm: error: " ++ fat_err e end]).

(** ** The calculator *)
Definition cmd_calc (args : list (list Z)) (s : files) : answer :=
  let expr := default [] (head args) in
  match find_byte 43 expr with
  | Some pos =>
    match Shell.parse_u64 (take pos expr), Shell.parse_u64 (drop (pos + 1) expr) with
    | Some a, Some b => say s [txt "  " ++ decimal a ++ txt " + " ++ decimal b ++ txt " = " ++ decimal (u64_add a b)]
    | _, _ => say s [txt "  Error: invalid numbers. Example: calc 15+27"]
    end
  | None => say s [txt "  Usage: calc <number>+<number>  (Example: calc 123+456)"]
  end.

(** The arms above; the other commands of [execute] answer [None]. *)
Definition is_word (w : list Z) (s : string) : bool := bool_decide (w = txt s).
Definition execute_files (cmd : list Z) (s : files) : option answer :=
  let words := split_whitespace cmd in
  let command := default [] (head words) in
  let args := drop 1 words in
  if is_word command "pwd" then Some (cmd_pwd s) else
  if is_word command "cd" then Some (cmd_cd args s) else
  if is_word command "ls" then Some (cmd_ls args s) else
  if is_word command "cat" then Some (cmd_cat args s) else
  if is_word command "touch" then Some (cmd_touch args s) else
  if is_word command "mkdir" then Some (cmd_mkdir args s) else
  if is_word command "write" then Some (cmd_write cmd s) else
  if is_word command "rm" then Some (cmd_rm args s) else
  if is_word command "readsec" then Some (cmd_readsec args s) else
  if is_word command "writesec" then Some (cmd_writesec args s) else
  if is_word command "formatfat" then Some (cmd_formatfat args s) else
  if is_word command "mountfat" then Some (cmd_mountfat args s) else
  if is_word command "fatinfo" then Some (cmd_fatinfo s) else
  if is_word command "fatls" then Some (cmd_fatls args s) else
  if is_word command "fatcat" then Some (cmd_fatcat args s) else
  if is_word command "fatwrite" then Some (cmd_fatwrite args s) else
  if is_word command "fatmkdir" then Some (cmd_fatmkdir args s) else
  if is_word command "fatrm" then Some (cmd_fatrm args s) else
  if is_word command "calc" then Some (cmd_calc args s) else None.
End Commands.

(** ** Words of a line *)
Definition graphic (b : Z) : Prop := 33 <= b <= 126.
Definition word (w : list Z) : Prop := w <> [] /\ Forall graphic w.

Lemma ws_graphic b l : graphic b -> ws_len (b :: l) = None.
Proof.
  unfold graphic. intros Hb. unfold ws_len. assert (ws1 b = false) as -> by (unfold ws1, between; lia).
  destruct l as [|b1 l]; [done|]. assert (ws2 b b1 = false) as -> by (unfold ws2; lia).
  destruct l as [|b2 l]; [done|]. by assert (ws3 b b1 b2 = false) as -> by (unfold ws3; lia).
Qed.

(** A run of graphic bytes is taken whole. *)
Lemma split_run w : forall n a l, Forall graphic w -> (length w <= n)%nat -> split_ws n a (w ++ l) = split_ws (n - length w) (a ++ w) l.
Proof.
  induction w as [|b w IH]; intros n a l Hw Hn; cbn [length] in *; [by rewrite app_nil_r, Nat.sub_0_r|].
  destruct n as [|n]; [lia|]. apply Forall_cons_1 in Hw as [Hb Hw]. cbn [app split_ws]. rewrite ws_graphic by done.
  rewrite IH by (done || lia). by rewrite <- app_assoc.
Qed.
Lemma flush_word w : w <> [] -> flush w = [w].
Proof. by destruct w. Qed.
Lemma split_word w l n : word w -> (length w < n)%nat -> split_ws n [] (w ++ 32 :: l) = w :: split_ws (n - S (length w)) [] l.
Proof.
  intros [Hne Hw] Hn. rewrite split_run by (done || lia). replace (n - length w)%nat with (S (n - S (length w))) by lia.
  cbn [app split_ws]. change (ws_len (32 :: l)) with (Some 1%nat). cbn [drop]. by rewrite flush_word.
Qed.

(** The words of a line made of words are those words. *)
Lemma split_join_words ws : forall n, Forall word ws -> (length (join_words ws) <= n)%nat -> split_ws n [] (join_words ws) = ws.
Proof.
  induction ws as [|w ws IH]; intros n Hws Hn; [by destruct n|]. apply Forall_cons_1 in Hws as [Hw Hws]. destruct ws as [|w' ws].
  - cbn [join_words] in *. destruct Hw as [Hne Hw]. rewrite <- (app_nil_r w) at 1. rewrite split_run by done. cbn [app].
    destruct (n - length w)%nat; cbn [split_ws]; by apply flush_word.
  - change (join_words (w :: w' :: ws)) with (w ++ 32 :: join_words (w' :: ws)) in *. rewrite length_app in Hn. cbn [length] in Hn.
    rewrite split_word by (done || lia). f_equal. apply IH; [done|lia].
Qed.
Lemma split_words ws : Forall word ws -> split_whitespace (join_words ws) = ws.
Proof. intros H. by apply split_join_words. Qed.
Lemma first_word w l : word w -> head (split_whitespace (w ++ 32 :: l)) = Some w.
Proof. intros Hw. unfold split_whitespace. rewrite split_word; [done|done|]. rewrite length_app. cbn [length]. lia. Qed.

Ltac word_by_compute := split; [done|]; unfold graphic; by_compute.
Lemma word_write : word (txt "write").
Proof. word_by_compute. Qed.
Lemma word_cat : word (txt "cat").
Proof. word_by_compute. Qed.
Lemma word_fatwrite : word (txt "fatwrite").
Proof. word_by_compute. Qed.
Lemma word_formatfat : word (txt "formatfat").
Proof. word_by_compute. Qed.
Lemma word_fatcat : word (txt "fatcat").
Proof. word_by_compute. Qed.

(** ** A file written, then shown *)
(** A name one word long that a path can carry. *)
Definition file_name (w : list Z) : Prop := word w /\ Forall (fun b => b <> 47) w /\ w <> txt "." /\ w <> txt "..".

Lemma bytes_str w : Forall graphic w -> Vfs.bytes_of (str w) = w.
Proof. intros Hw. apply VfsPath.bytes_of_string. eapply Forall_impl; [exact Hw|]. unfold graphic. lia. Qed.
Lemma graphic_plain w : Forall graphic w -> Forall (fun b => ws1 b = false /\ b < 0x80) w.
Proof. intros Hw. eapply Forall_impl; [exact Hw|]. unfold graphic, ws1, between. intros b Hb. split; [|lia]. by rewrite (proj2 (Z.leb_gt b 13)), (proj2 (Z.eqb_neq b 32)), andb_false_r by lia. Qed.
Lemma trim_end_str w : Forall graphic w -> Vfs.trim_end (str w) = str w.
Proof. intros Hw. unfold Vfs.trim_end. by rewrite bytes_str, Text.trim_end_plain by (done || by apply graphic_plain). Qed.
Lemma trim_str w : Forall graphic w -> Vfs.trim (str w) = str w.
Proof. intros Hw. unfold Vfs.trim. by rewrite bytes_str, Text.trim_digits by (done || by apply graphic_plain). Qed.
Lemma no_slash_str w : Forall graphic w -> Forall (fun b => b <> 47) w -> VfsPath.no_slash (str w) = true.
Proof.
  induction 1 as [|b w Hb Hw IH]; [done|]. intros [Hs Hr]%Forall_cons_1. change (str (b :: w)) with (String (Ascii.ascii_of_nat (Z.to_nat b)) (str w)).
  cbn. rewrite IH by done. rewrite andb_true_r. apply negb_true_iff, Ascii.eqb_neq. intros E. apply (f_equal Ascii.nat_of_ascii) in E.
  unfold graphic in Hb. rewrite Ascii.nat_ascii_embedding in E by lia. change (Ascii.nat_of_ascii Vfs.slash) with 47%nat in E. lia.
Qed.
Lemma str_ne w s : Forall graphic w -> w <> txt s -> Vfs.bytes_of s = txt s -> str w <> s.
Proof. intros Hg Hn Hs E. apply Hn. by rewrite <- Hs, <- E, bytes_str. Qed.
Lemma proper_str w : file_name w -> VfsPath.proper (str w).
Proof.
  intros ([Hne Hg] & Hs & H1 & H2). split; [by apply str_ne|]. split; [by apply str_ne|]. split; [by apply str_ne|].
  split; [by apply no_slash_str|by apply trim_end_str].
Qed.

(** A name is looked up in the current directory. *)
Lemma resolve_name v w n i : file_name w -> Vfs.inodes v !! Vfs.current_inode v = Some n -> Vfs.is_dir n = true ->
  Vfs.find_child (Vfs.inodes v) (VfsTree.children_of n) (str w) = Ret (Some i) -> Vfs.resolve_path v (str w) = Ret (Ok i).
Proof.
  intros Hw Hn Hd Hf. destruct (proper_str w Hw) as (Hne & H1 & H2 & Hs & _). destruct Hw as ([_ Hg] & _). unfold Vfs.resolve_path. rewrite trim_str by done.
  pose proof (VfsPath.split_no_slash _ Hs) as Hsp. destruct (str w) as [|c r] eqn:E; [done|].
  cbn in Hs. apply andb_prop in Hs as [Hc _]. apply negb_true_iff in Hc. rewrite Hc, Hsp. cbn [Vfs.resolve_segments].
  rewrite (proj2 (String.eqb_neq _ _) Hne), (proj2 (String.eqb_neq _ _) H1), (proj2 (String.eqb_neq _ _) H2). cbn [orb].
  rewrite (at_Ret _ _ _ Hn). cbn [mbind outcome_bind]. rewrite (VfsTree.is_dir_children n Hd), Hf. done.
Qed.

(** [create_file_at] succeeds where the name is free or a file's. *)
Lemma create_succeeds v p n nm c : VfsTree.fs_ok v -> Vfs.inodes v !! p = Some n -> Vfs.is_dir n = true ->
  (forall i m, VfsTree.child_named v n nm i -> Vfs.inodes v !! i = Some m -> exists c0, Vfs.kind m = Vfs.File c0) ->
  exists i v', Vfs.create_file_at v p nm c = Ret (Ok i, v').
Proof.
  intros Hok Hn Hd Hfree. unfold Vfs.create_file_at. rewrite (at_Ret _ _ _ Hn). cbn [mbind outcome_bind]. rewrite (VfsTree.is_dir_children n Hd).
  destruct (VfsTree.find_child_dir v p n nm Hok Hn) as (r & -> & Hr). cbn [mbind outcome_bind]. destruct r as [i|].
  - pose proof Hr as (_ & m & Hm & _). destruct (Hfree i m Hr Hm) as [c0 Hk]. rewrite (at_Ret _ _ _ Hm). cbn [mbind outcome_bind].
    rewrite Hk, (update_Ret _ _ _ _ Hm). cbn [mbind outcome_bind]. eauto.
  - destruct (VfsTree.create_child_grown v p nm (Vfs.File c) n Hok Hn Hd) as (i & v3 & E3 & _). rewrite E3. eauto.
Qed.

Lemma trim_graphic b l n : graphic b -> trim_start n (b :: l) = b :: l.
Proof.
  unfold graphic. intros Hb. destruct n as [|n]; [done|]. cbn [trim_start]. assert (ws1 b = false) as -> by (unfold ws1, between; lia).
  destruct l as [|b1 l]; [done|]. assert (ws2 b b1 = false) as -> by (unfold ws2; lia).
  destruct l as [|b2 l]; [done|]. by assert (ws3 b b1 b2 = false) as -> by (unfold ws3; lia).
Qed.
Lemma trim_rev_graphic b l n : graphic b -> trim_rev n (b :: l) = b :: l.
Proof.
  unfold graphic. intros Hb. destruct n as [|n]; [done|]. cbn [trim_rev]. assert (ws1 b = false) as -> by (unfold ws1, between; lia).
  destruct l as [|b1 l]; [done|]. assert (ws2 b1 b = false) as -> by (unfold ws2, between; lia).
  destruct l as [|b2 l]; [done|]. by assert (ws3 b2 b1 b = false) as -> by (unfold ws3, between; lia).
Qed.
(** A text with no blank at its ends is kept. *)
Lemma trim_edges l a b : head l = Some a -> last l = Some b -> graphic a -> graphic b -> trim l = l.
Proof.
  intros Ha Hb Ga Gb. unfold trim, trim_end. destruct l as [|x l]; [done|]. injection Ha as ->. rewrite trim_graphic by done.
  apply last_Some in Hb as [l' ->]. rewrite reverse_snoc, trim_rev_graphic by done. by rewrite reverse_cons, reverse_involutive.
Qed.
Lemma find_space w l : Forall graphic w -> find_byte 32 (w ++ 32 :: l) = Some (length w).
Proof.
  induction 1 as [|b w Hb _ IH]; [done|]. cbn [app find_byte]. unfold graphic in Hb. rewrite (proj2 (Z.eqb_neq b 32)) by lia. by rewrite IH.
Qed.

Section Run.
Context {D : Type} {DK : Disk D} (run : Vfs.Generator -> list Z) (random : list Z) (fuel : nat).
Notation execute_files := (execute_files run random fuel).
Implicit Types s : files (D := D).

(** What the line [write w text] does: the file takes the text as its content. *)
Lemma exec_write run' s w text : word w ->
  Commands.execute_files run' random fuel (txt "write " ++ w ++ 32 :: text) s =
  Some ((rv ← Vfs.create_file_at (vfs s) (Vfs.current_inode (vfs s)) (str w) text;
    let '(r, v) := rv in say (set_vfs s v) [match r with
      | Ok _ => txt "Wrote " ++ decimal (Z.of_nat (length text)) ++ txt " bytes to '" ++ w ++ txt "'"
      | Err e => txt "write: " ++ w ++ txt ": " ++ txt (Errors.vfs_display e) end])).
Proof.
  intros [Hne Hw]. unfold Commands.execute_files. change (txt "write " ++ w ++ 32 :: text) with (txt "write" ++ 32 :: (w ++ 32 :: text)).
  rewrite first_word by apply word_write. cbn [default from_option id]. unfold cmd_write, strip_prefix. cbn [is_word].
  change (txt "write" ++ 32 :: (w ++ 32 :: text)) with (txt "write " ++ (w ++ 32 :: text)). rewrite take_app_length, drop_app_length, bool_decide_true by done.
  destruct w as [|b w]; [done|]. cbn [app]. rewrite trim_graphic by (by apply Forall_cons_1 in Hw as [? _]).
  change (b :: w ++ 32 :: text) with ((b :: w) ++ 32 :: text). rewrite find_space, take_app_length by done.
  rewrite <- drop_drop. rewrite drop_app_length. reflexivity.
Qed.
Lemma exec_cat run' s w : word w -> Commands.execute_files run' random fuel (join_words [txt "cat"; w]) s = Some (cmd_cat run' random [w] s).
Proof. intros Hw. unfold Commands.execute_files. by rewrite split_words by (by repeat (apply Forall_cons_2; [apply word_cat || apply Hw|])). Qed.
Lemma cat_shown run' s w i bytes : word w -> is_str bytes = true -> Vfs.resolve_path (vfs s) (str w) = Ret (Ok i) ->
  Vfs.read_file run' random (vfs s) i = Ret (Ok bytes) -> cmd_cat run' random [w] s = Ret ([bytes], s).
Proof.
  intros [Hne _] Hs Hr Hread. unfold cmd_cat. cbn [head default from_option id]. rewrite bool_decide_false by done.
  unfold Vfs.vfs_read_file. rewrite Hr. cbn [mbind outcome_bind]. unfold Vfs.read_file in Hread. rewrite Hread. cbn [mbind outcome_bind].
  unfold shown, say. by rewrite Hs.
Qed.

(** The directory a name is created in. *)
Definition can_hold (v : Vfs.Vfs) (nm : string) : Prop := exists n, Vfs.inodes v !! Vfs.current_inode v = Some n /\ Vfs.is_dir n = true /\
  forall i m, VfsTree.child_named v n nm i -> Vfs.inodes v !! i = Some m -> exists c0, Vfs.kind m = Vfs.File c0.

(** The file is written, and shown whatever the generated files hold by then. *)
Lemma write_cat_run s w text : VfsTree.fs_ok (vfs s) -> file_name w -> can_hold (vfs s) (str w) -> is_str text = true ->
  exists i v, (forall run', Commands.execute_files run' random fuel (txt "write " ++ w ++ 32 :: text) s =
      Some (Ret ([txt "Wrote " ++ decimal (Z.of_nat (length text)) ++ txt " bytes to '" ++ w ++ txt "'"], set_vfs s v))) /\
    (forall run', Commands.execute_files run' random fuel (join_words [txt "cat"; w]) (set_vfs s v) = Some (Ret ([text], set_vfs s v))) /\
    VfsTree.fs_ok v /\
    forall j m, j <> i -> Vfs.inodes (vfs s) !! j = Some m -> VfsTree.live m -> Vfs.is_dir m = false ->
      Vfs.read_file run random v j = Vfs.read_file run random (vfs s) j.
Proof.
  intros Hok Hw (n & Hn & Hd & Hfree) Hs. pose proof (proj1 Hw) as Hword. pose proof (lookup_lt_Some _ _ _ Hn) as Hlt.
  destruct (create_succeeds _ _ n (str w) text Hok Hn Hd Hfree) as (i & v & E). exists i, v.
  destruct (VfsTree.create_file_at_cases _ _ (str w) text Hok Hlt) as (r & v1 & E1 & Hok1 & Hcur & _). rewrite E in E1. injection E1 as <- <-.
  destruct (VfsTree.create_file_spec _ _ _ _ _ _ run random Hok Hlt E) as (_ & (n1 & Hn1 & Hf) & Hrest).
  split; [intros run'; by rewrite exec_write, E by done|]. split; [|done]. intros run'. destruct (VfsTree.create_file_spec _ _ _ _ _ _ run' random Hok Hlt E) as (Hread & _). rewrite exec_cat by done. f_equal.
  apply (cat_shown run' (set_vfs s v) w i); [done|done| |exact Hread]. cbn [vfs set_vfs]. apply (resolve_name v w n1 i); [done|by rewrite Hcur|..|done].
  destruct (Vfs.is_dir n1) eqn:Hd1; [done|]. exfalso. unfold VfsTree.children_of in Hf. unfold Vfs.is_dir in Hd1. by destruct (Vfs.kind n1).
Qed.

(** What is typed into a file is shown.  In a working directory where the name is
    free or names a file, the line [write <name> <text>] answers that it wrote the
    bytes of the text, [cat <name>] then prints the text as it was typed (blanks
    included), and the contents of every other file are untouched. *)
Theorem write_then_cat s w text : VfsTree.fs_ok (vfs s) -> file_name w -> can_hold (vfs s) (str w) -> is_str text = true ->
  exists i v, execute_files (txt "write " ++ w ++ 32 :: text) s =
      Some (Ret ([txt "Wrote " ++ decimal (Z.of_nat (length text)) ++ txt " bytes to '" ++ w ++ txt "'"], set_vfs s v)) /\
    execute_files (join_words [txt "cat"; w]) (set_vfs s v) = Some (Ret ([text], set_vfs s v)) /\
    VfsTree.fs_ok v /\
    forall j m, j <> i -> Vfs.inodes (vfs s) !! j = Some m -> VfsTree.live m -> Vfs.is_dir m = false ->
      Vfs.read_file run random v j = Vfs.read_file run random (vfs s) j.
Proof. intros H1 H2 H3 H4. destruct (write_cat_run s w text H1 H2 H3 H4) as (i & v & E1 & E2 & H). exists i, v. split; [apply E1|]. split; [apply E2|exact H]. Qed.

(** ** A session on a new volume *)
Lemma exec_formatfat s ws : Forall word ws -> execute_files (join_words (txt "formatfat" :: ws)) s = Some (cmd_formatfat ws s).
Proof. intros Hw. unfold Commands.execute_files. by rewrite split_words by (by apply Forall_cons_2; [apply word_formatfat|]). Qed.
Lemma exec_fatwrite s ws : Forall word ws -> execute_files (join_words (txt "fatwrite" :: ws)) s = Some (cmd_fatwrite fuel ws s).
Proof. intros Hw. unfold Commands.execute_files. by rewrite split_words by (by apply Forall_cons_2; [apply word_fatwrite|]). Qed.
Lemma exec_fatcat s ws : Forall word ws -> execute_files (join_words (txt "fatcat" :: ws)) s = Some (cmd_fatcat fuel ws s).
Proof. intros Hw. unfold Commands.execute_files. by rewrite split_words by (by apply Forall_cons_2; [apply word_fatcat|]). Qed.

Lemma join_printable ws : Forall word ws -> Forall (fun b => 0x20 <= b <= 0x7E) (join_words ws).
Proof.
  induction 1 as [|w ws [_ Hw] _ IH]; [constructor|]. assert (Forall (fun b => 0x20 <= b <= 0x7E) w) by (eapply Forall_impl; [exact Hw|unfold graphic; lia]).
  destruct ws as [|w' ws]; [done|]. change (join_words (w :: w' :: ws)) with (w ++ 32 :: join_words (w' :: ws)). apply Forall_app. split; [done|].
  apply Forall_cons_2; [lia|done].
Qed.
Lemma pers_bytes : is_bytes (txt "AURAOS_PERS").
Proof. unfold is_bytes, in_u. by_compute. Qed.

(** C22: a session on a drive keeps what was typed.  Given a working first drive with room
    for the partition, [formatfat] formats and mounts it, [fatwrite <path> <words>] then
    reports the bytes of the words joined by single blanks as written, and
    [fatcat <path>] prints them. *)
Theorem fat_session s n opts path nm ws (lba := number 2048 (opts !! 0%nat)) (total := number 65536 (opts !! 1%nat)) (text := join_words ws) :
  FatFs.space (disk s) 0 n lba total -> Forall word opts -> word path -> Forall word ws -> FatWrite.root_path path nm -> FatFile.name_ok nm ->
  Z.of_nat (length text) < 2 ^ 32 -> Z.of_nat (length text) <= 512 * (total - 36 - 2 * Fat32.fat_size total) -> (Z.to_nat total <= fuel)%nat ->
  exists l1 s1 s2 s3, execute_files (join_words (txt "formatfat" :: opts)) s = Some (Ret (l1, s1)) /\ vfs s1 = vfs s /\ is_Some (FAT32_FS s1) /\
    execute_files (join_words (txt "fatwrite" :: path :: ws)) s1 =
      Some (Ret ([txt "fatwrite: successfully wrote " ++ decimal (Z.of_nat (length text)) ++ txt " bytes to '" ++ path ++ txt "'"], s2)) /\
    execute_files (join_words [txt "fatcat"; path]) s2 = Some (Ret ([text], s3)).
Proof.
  intros Hsp Hopts Hpath Hws Hroot Hnm H32 Hlen Hfuel. pose proof (join_printable ws Hws) as Hpr. pose proof (proj1 Hpath) as Hne.
  destruct (FatFs.format_run (disk s) 0 n lba total _ Hsp pers_bytes) as (d1 & E1 & Hd1).
  destruct (FatFs.new_volume _ _ _ _ _ _ _ _ Hsp Hd1) as (Hg & S & Hv & Hds & Hseek).
  set (fs := FatFormat.new_fs 0 lba total (txt "AURAOS_PERS")) in *. destruct (FatFs.info_run fs n d1 _ S Hg Hv) as (info & d2 & Ei & Hv2).
  destruct (FatFs.new_write_run (disk s) d2 0 n lba total (txt "AURAOS_PERS") S path nm text fuel) as (d3 & d4 & Ew & Er); try done.
  { eapply Forall_impl; [exact Hpr|unfold in_u; lia]. }
  rewrite exec_formatfat by done. unfold cmd_formatfat. fold lba total. rewrite E1. cbn [mbind outcome_bind]. rewrite Ei. cbn [mbind outcome_bind].
  eexists _, _, (set_disk (mount_fs (set_disk s d2) fs) d3), _. split; [reflexivity|]. split; [done|]. split; [by eexists|].
  rewrite exec_fatwrite, exec_fatcat by (by repeat apply Forall_cons_2). unfold cmd_fatwrite, cmd_fatcat. cbn [head default from_option id drop].
  rewrite !bool_decide_false by done. unfold on_volume. cbn [FAT32_FS mount_fs set_disk disk]. rewrite drop_0. fold text. fold fs in Ew, Er. rewrite Ew, Er. cbn [mbind outcome_bind].
  split; [done|]. unfold shown, say, is_str. by rewrite (ascii_utf8 text (length text) Hpr).
Qed.
End Run.

(** ** Witnesses *)
Lemma name_notes : file_name (txt "notes").
Proof. split; [word_by_compute|]. split; [by_compute|]. split; done. Qed.
Definition start_files {D} (d : D) : files := mkFiles VfsTree.cwd_fs None d.
Lemma write_then_cat_witness : is_str (txt "two  words") = true /\
  exists v, execute_files (DK := ata_disk) (fun _ => []) [] 0 (txt "write " ++ txt "notes" ++ 32 :: txt "two  words") (start_files FatFs.new_disk) =
      Some (Ret ([txt "Wrote 10 bytes to 'notes'"], set_vfs (start_files FatFs.new_disk) v)) /\
    execute_files (DK := ata_disk) (fun _ => []) [] 0 (txt "cat notes") (set_vfs (start_files FatFs.new_disk) v) = Some (Ret ([txt "two  words"], set_vfs (start_files FatFs.new_disk) v)).
Proof.
  split; [reflexivity|].
  destruct (write_then_cat (DK := ata_disk) (fun _ => []) [] 0 (start_files FatFs.new_disk) (txt "notes") (txt "two  words") VfsTree.cwd_fs_ok name_notes) as (i & v & E & E2 & _).
  - exists (Vfs.mkInode 1 0 "a" (Vfs.Directory [])). split; [reflexivity|]. split; [reflexivity|]. intros i m (Hin & _). by apply elem_of_nil in Hin.
  - reflexivity.
  - exists v. exact (conj E E2).
Defined.

Definition small_opts : list (list Z) := [txt "0"; txt "1024"].
Lemma fat_session_witness : FatFs.space (H := ata_disk) FatFs.new_disk 0 1024 0 1024 /\
  exists l1 s1 s2 s3, execute_files (DK := ata_disk) (fun _ => []) [] 1024 (txt "formatfat 0 1024") (start_files FatFs.new_disk) = Some (Ret (l1, s1)) /\
    execute_files (DK := ata_disk) (fun _ => []) [] 1024 (txt "fatwrite /hello.txt Hello from AuraOS") s1 = Some (Ret ([txt "fatwrite: successfully wrote 17 bytes to '/hello.txt'"], s2)) /\
    execute_files (DK := ata_disk) (fun _ => []) [] 1024 (txt "fatcat /hello.txt") s2 = Some (Ret ([txt "Hello from AuraOS"], s3)).
Proof.
  split; [apply FatFs.new_disk_space|].
  destruct (fat_session (DK := ata_disk) (fun _ => []) [] 1024 (start_files FatFs.new_disk) 1024 small_opts FatFs.hello_path FatFs.hello_name
    [txt "Hello"; txt "from"; txt "AuraOS"] FatFs.new_disk_space) as (l1 & s1 & s2 & s3 & E1 & _ & _ & E2 & E3).
  - repeat apply Forall_cons_2; [word_by_compute..|constructor].
  - word_by_compute.
  - repeat apply Forall_cons_2; [word_by_compute..|constructor].
  - apply FatFs.hello_root.
  - apply FatFs.hello_ok.
  - reflexivity.
  - by_compute.
  - apply Nat.le_refl.
  - exists l1, s1, s2, s3. exact (conj E1 (conj E2 E3)).
Defined.
End Commands.
