(* ===== verification/Proc.v ===== *)
(** * Processor information and the files of /proc (src/src/arch/cpuid.rs, src/src/fs/mod.rs)

    What the [cpuid] instruction is asked and how its answers become text, and the four
    generators of /proc over the state they report: the ticks, the heap, the physical
    memory, the tasks.  The instruction is a function of its two arguments. *)

From stdpp Require Import prelude numbers list strings.
From Stdlib Require Import ZifyBool.
From S2P Require Import Prelude Bytes Text Pmm Allocator Paging UserSpace Task Clock Vfs VfsTree VfsPath Errors Ata Io Shell Commands.
Import Bytes Text.

Module Cpuid.
Record CpuidResult := mkResult { eax : Z; ebx : Z; ecx : Z; edx : Z }.
Record CpuInfo := mkInfo { vendor : list Z; brand : list Z; has_fpu : bool; has_tsc : bool; has_apic : bool; has_sse : bool; has_sse2 : bool; has_sse3 : bool; has_avx : bool; has_rdrand : bool }.
Definition from_utf8 (l : list Z) (unknown : string) : list Z := if utf8_valid (length l) l then l else ascii_bytes unknown.
Definition vendor_str (c : CpuInfo) : list Z := from_utf8 (vendor c) "Unknown".
Fixpoint until_zero (l : list Z) : list Z := match l with b :: l' => if b =? 0 then [] else b :: until_zero l' | [] => [] end.
Definition brand_str (c : CpuInfo) : list Z := trim (from_utf8 (until_zero (brand c)) "Generic x86_64 Processor").
Definition flag (w bit : Z) : bool := negb (Z.land w (Z.shiftl 1 bit) =? 0).
Definition brand_part (r : CpuidResult) : list Z := to_le 4 (eax r) ++ to_le 4 (ebx r) ++ to_le 4 (ecx r) ++ to_le 4 (edx r).
Definition get_cpu_info (cpuid : Z -> Z -> CpuidResult) : CpuInfo :=
  let f0 := cpuid 0 0 in
  let f1 := cpuid 1 0 in
  let brand := if 0x80000004 <=? eax (cpuid 0x80000000 0) then brand_part (cpuid 0x80000002 0) ++ brand_part (cpuid 0x80000003 0) ++ brand_part (cpuid 0x80000004 0) else replicate 48 0 in
  mkInfo (to_le 4 (ebx f0) ++ to_le 4 (edx f0) ++ to_le 4 (ecx f0)) brand
    (flag (edx f1) 0) (flag (edx f1) 4) (flag (edx f1) 9) (flag (edx f1) 25) (flag (edx f1) 26) (flag (ecx f1) 0) (flag (ecx f1) 28) (flag (ecx f1) 30).
(** The two halves [rdtsc] leaves. *)
Definition rdtsc (lo hi : Z) : Z := Z.lor (u64_shl hi 32) lo.

(** ** The brand of a processor *)
(** A processor that reports a brand of at most 48 bytes in the extended leaves. *)
Definition word_of (l : list Z) (k : nat) : Z := le_value (take 4 (drop (4 * k) l)).
Definition reports (cpuid : Z -> Z -> CpuidResult) (text : list Z) : Prop :=
  let padded := text ++ replicate (48 - length text) 0 in
  0x80000004 <= eax (cpuid 0x80000000 0) /\
  forall i, (i < 3)%nat -> cpuid (0x80000002 + Z.of_nat i) 0 = mkResult (word_of padded (4 * i)) (word_of padded (4 * i + 1)) (word_of padded (4 * i + 2)) (word_of padded (4 * i + 3)).

Lemma to_le_value l : is_bytes l -> to_le (length l) (le_value l) = l.
Proof.
  induction 1 as [|b l Hb Hl IH]; [done|]. cbn [length to_le le_value]. unfold in_u in Hb. change (2 ^ 8) with 256 in Hb.
  rewrite (Z.mul_comm 256), Z.mod_add, Z.mod_small, Z.div_add, Z.div_small, Z.add_0_l by lia. by rewrite IH.
Qed.
Lemma word_bytes l k : is_bytes l -> (4 * k + 4 <= length l)%nat -> to_le 4 (word_of l k) = take 4 (drop (4 * k) l).
Proof.
  intros Hl Hk. unfold word_of. rewrite <- (to_le_value (take 4 (drop (4 * k) l))) at 2.
  - f_equal. rewrite length_take, length_drop. lia.
  - by apply Forall_take, Forall_drop.
Qed.
Lemma slices {X} (l : list X) k :
  take 4 (drop (4 * k) l) ++ take 4 (drop (4 * (k + 1)) l) ++ take 4 (drop (4 * (k + 2)) l) ++ take 4 (drop (4 * (k + 3)) l) = take 16 (drop (4 * k) l).
Proof.
  replace (4 * (k + 1))%nat with (4 * k + 4)%nat by lia. replace (4 * (k + 2))%nat with (4 * k + 8)%nat by lia. replace (4 * (k + 3))%nat with (4 * k + 12)%nat by lia.
  rewrite <- !drop_drop, !app_assoc. by rewrite (take_take_drop _ 4 4), (take_take_drop _ 8 4), (take_take_drop _ 12 4).
Qed.
Lemma until_zero_padded l n : Forall (fun b => b <> 0) l -> until_zero (l ++ replicate n 0) = l.
Proof. induction 1 as [|b l Hb _ IH]; [by destruct n|]. cbn [app until_zero]. by rewrite (proj2 (Z.eqb_neq b 0) Hb), IH. Qed.

(** The brand a processor reports is the brand the kernel shows. *)
Lemma brand_read cpuid text : reports cpuid text -> is_bytes text -> (length text <= 48)%nat -> Forall (fun b => b <> 0) text -> utf8_valid (length text) text = true ->
  brand_str (get_cpu_info cpuid) = trim text.
Proof.
  intros [Hmax Hr] Hb Hl Hz Hu. set (p := text ++ replicate (48 - length text) 0) in *.
  assert (Hp : length p = 48%nat) by (unfold p; rewrite length_app, length_replicate; lia).
  assert (Hpb : is_bytes p) by (apply Forall_app; split; [done|by apply Forall_replicate]).
  assert (Hpart : forall i, (i < 3)%nat -> brand_part (cpuid (0x80000002 + Z.of_nat i) 0) = take 16 (drop (16 * i) p)).
  { intros i Hi. rewrite Hr by done. unfold brand_part. cbn [eax ebx ecx edx]. rewrite !word_bytes by (done || lia). rewrite slices. do 2 f_equal. lia. }
  unfold brand_str. assert (brand (get_cpu_info cpuid) = p) as ->.
  { unfold get_cpu_info. cbn [brand]. rewrite (proj2 (Z.leb_le _ _) Hmax). pose proof (Hpart 0%nat ltac:(lia)) as E0. pose proof (Hpart 1%nat ltac:(lia)) as E1. pose proof (Hpart 2%nat ltac:(lia)) as E2.
    change (0x80000002 + Z.of_nat 0) with 0x80000002 in E0. change (0x80000002 + Z.of_nat 1) with 0x80000003 in E1. change (0x80000002 + Z.of_nat 2) with 0x80000004 in E2.
    rewrite E0, E1, E2. change (16 * 0)%nat with 0%nat. rewrite drop_0. change (16 * 1)%nat with 16%nat. change (16 * 2)%nat with (16 + 16)%nat. rewrite <- drop_drop, (take_ge (drop 16 (drop 16 p))) by (rewrite !length_drop; lia).
    by rewrite take_drop, take_drop. }
  unfold p. rewrite until_zero_padded by done. unfold from_utf8. by rewrite Hu.
Qed.
End Cpuid.

Module Proc.
Import Commands.

Section Proc.
Context (cpuid : Z -> Z -> Cpuid.CpuidResult).

(** [state_str] *)
Definition state_str (t : Task.TaskState) : list Z :=
  match t with Task.Ready => txt "READY" | Task.Running => txt "RUNNING" | Task.Sleeping w => txt "SLEEP(tick=" ++ decimal w ++ txt ")" | Task.Dead => txt "DEAD" end.
Definition row (a b c d : list Z) : list Z := pad_right 4 a ++ [32] ++ pad_right 18 b ++ [32] ++ pad_right 16 c ++ [32] ++ pad_right 10 d ++ [10].
Definition task_row (t : Task.Task) : list Z := row (decimal (Task.id t)) (Vfs.bytes_of (Task.name t)) (state_str (Task.state t)) (decimal (Task.ticks t)).
Definition proc_tasks_generator (sched : Task.CpuScheduler) : list Z :=
  row (txt "PID") (txt "NAME") (txt "STATE") (txt "TICKS") ++ txt "------------------------------------------------------" ++ [10] ++ (Task.tasks sched ≫= task_row).

Definition proc_uptime_generator (ticks : Z) : list Z :=
  let freq := Pit.TARGET_FREQUENCY in
  let seconds := ticks / freq in
  let ms := u64_mul (ticks mod freq) (1000 / freq) in
  txt "uptime: " ++ decimal seconds ++ txt "." ++ zero_padded 3 ms ++ txt " seconds (" ++ decimal ticks ++ txt " timer ticks @ " ++ decimal freq ++ txt " Hz)" ++ [10].

(** The user tasks of the CPUs that are online: how many, their areas and their pages. *)
Definition count_task (acc : Z * Z * Z) (t : Task.Task) : Z * Z * Z :=
  let '(n, vm, pop) := acc in
  if Task.is_user t then
    match Task.address_space t with
    | Some sp => (n + 1, u64_add vm (UserSpace.virtual_memory_size sp), u64_add pop (UserSpace.populated_memory_size sp))
    | None => (n + 1, vm, pop)
    end
  else acc.
Definition user_memory {A} (k : Task.kernel A) : Z * Z * Z :=
  foldl (fun acc q => foldl count_task acc (Task.tasks q)) (0, 0, 0) (take (Task.num_cpus k) (Task.CPU_SCHEDULERS k)).
Definition line (what : string) (n : Z) (unit : string) : list Z := txt what ++ decimal n ++ txt unit ++ [10].
Definition proc_meminfo_generator {A} (heap : Allocator.LinkedListAllocator) (p : Pmm.Pmm) (k : Task.kernel A) : list Z :=
  let total_kb := Allocator.HEAP_SIZE / 1024 in
  let free_kb := Allocator.free_memory heap / 1024 in
  let used_kb := Allocator.used_memory heap / 1024 in
  let phys_total_mb := Pmm.total_memory p / (1024 * 1024) in
  let phys_free_mb := Pmm.free_memory_locked p / (1024 * 1024) in
  let phys_used_mb := (Pmm.used_memory_locked p + (1024 * 1024 - 1)) / (1024 * 1024) in
  let '(user_tasks, vm, pop) := user_memory k in
  line "MemTotal:        " total_kb " kB" ++ line "MemFree:         " free_kb " kB" ++ line "MemUsed:         " used_kb " kB" ++
  txt "HeapCapacity:    " ++ decimal total_kb ++ txt " kB (" ++ decimal (total_kb / 1024) ++ txt " MiB Coalescing Allocator)" ++ [10] ++
  line "PhysicalTotal:   " phys_total_mb " MiB (E820 memory map)" ++ line "PhysicalFree:    " phys_free_mb " MiB" ++ line "PhysicalUsed:    " phys_used_mb " MiB" ++
  line "UserTasks:       " user_tasks "" ++ line "UserVmTotal:     " (vm / 1024) " kB" ++ line "UserVmPopulated: " (pop / 1024) " kB" ++
  txt "PMMRange:        2 MiB .. 512 MiB (identity-mapped frames)" ++ [10] ++ txt "PagingModel:     4-Level x86_64 Long Mode (PML4)" ++ [10].

Definition proc_cpuinfo_generator : list Z :=
  let cpu := Cpuid.get_cpu_info cpuid in
  txt "processor:       0" ++ [10] ++ txt "vendor_id:       " ++ Cpuid.vendor_str cpu ++ [10] ++ txt "model name:      " ++ Cpuid.brand_str cpu ++ [10] ++
  txt "architecture:    x86_64 (64-bit Bare-Metal Long Mode)" ++ [10].

(** The generator behind each file. *)
Definition generate {A} (heap : Allocator.LinkedListAllocator) (p : Pmm.Pmm) (k : Task.kernel A) (sched : Task.CpuScheduler) (g : Vfs.Generator) : list Z :=
  match g with
  | Vfs.proc_uptime => proc_uptime_generator (Task.TICKS k)
  | Vfs.proc_meminfo => proc_meminfo_generator heap p k
  | Vfs.proc_cpuinfo => proc_cpuinfo_generator
  | Vfs.proc_tasks => proc_tasks_generator sched
  end.
End Proc.
End Proc.
