(* ===== verification/TaskCommands.v ===== *)
(** * The commands of the shell on tasks, messages and programs (src/src/shell/mod.rs: [Shell::execute])

    [tasks], [ipc], [spawn], [kill], [yield], [exec] and [elfinfo] over the kernel of
    Task.v, the message router and the virtual file system.  A command answers its
    effects in order: the lines it prints, and the points where it gives up the
    processor, with the switch that took place there. *)

From stdpp Require Import prelude numbers list gmap strings.
From Stdlib Require Import ZifyBool.
From S2P Require Import Prelude Bytes Text Pmm Paging UserSpace Spare PageTree NewSpace Io Vfs VfsTree VfsPath Errors Ata Ipc Context Task Elf ElfLoad LoadElf Sched Smp Shell Commands.
Import Bytes Text.

Module TaskCommands.
Import Commands.

Inductive effect := Line (l : list Z) | Yielded (sw : option Task.switch).

(** [{:#x}], and [{:#0w x}] with leading zeros *)
Fixpoint hex_digits (fuel : nat) (n : Z) : list Z :=
  match fuel with O => [] | S f => if n <? 16 then [hex_digit n] else hex_digits f (n / 16) ++ [hex_digit (n mod 16)] end.
Definition hex (n : Z) : list Z := txt "0x" ++ hex_digits 16 n.
Definition hex_padded (w : nat) (n : Z) : list Z := let d := hex_digits 16 n in txt "0x" ++ replicate (w - 2 - length d) 48 ++ d.

Section Tasks.
Context {A : Type} `{FA : Pmm.FrameAllocator A}.
(** The addresses of [demo_worker_entry] and [user_task_trampoline], what lies behind a
    file in memory, the generators of /proc and the draw of /dev/random. *)
Context (worker_entry trampoline : Z) (outside : Z -> Z) (run : Vfs.Generator -> list Z) (random : list Z).

Record shell_state := mkState { kern : Task.kernel A; router : Ipc.IpcRouter; files : Vfs.Vfs; SENTINEL_HEARTBEATS : Z }.
Definition set_kern (s : shell_state) (k : Task.kernel A) : shell_state := mkState k (router s) (files s) (SENTINEL_HEARTBEATS s).
Definition set_router (s : shell_state) (r : Ipc.IpcRouter) : shell_state := mkState (kern s) r (files s) (SENTINEL_HEARTBEATS s).
Notation answer := (outcome (list effect * shell_state)).
Definition lines (s : shell_state) (l : list (list Z)) : answer := Ret (Line <$> l, s).

(** ** Reports *)
Definition state_text (t : Task.TaskState) : list Z :=
  match t with Task.Ready => txt "READY" | Task.Running => txt "RUNNING" | Task.Sleeping w => txt "SLEEP(" ++ decimal w ++ txt ")" | Task.Dead => txt "DEAD" end.
Definition task_line (cpu : nat) (t : Task.Task) : list Z :=
  pad_right 4 (decimal (Z.of_nat cpu)) ++ [32] ++ pad_right 4 (decimal (Task.id t)) ++ [32] ++ pad_right 18 (Vfs.bytes_of (Task.name t)) ++ [32] ++
  pad_right 6 (txt (if Task.is_user t then "RING 3" else "RING 0")) ++ [32] ++ pad_right 15 (state_text (Task.state t)) ++ [32] ++ pad_right 4 (decimal (Task.priority t)) ++ [32] ++
  decimal (Task.quantum_remaining t) ++ [47] ++ pad_right 6 (decimal (Task.quantum t)) ++ [32] ++ pad_right 10 (decimal (Task.ticks t)) ++ [32] ++ hex (Task.rsp t).
Definition cmd_tasks (s : shell_state) : answer :=
  let k := kern s in
  lines s ([txt "--- AURAOS KERNEL TASK SCHEDULER (SMP: " ++ decimal (Z.of_nat (Task.cpu_count k)) ++ txt " CPU(s) online) ---";
            txt "CPU  PID  NAME               RING   STATE           PRIO QUANTUM    TICKS      RSP"] ++
           concat (imap (fun cpu q => task_line cpu <$> Task.tasks q) (take (Task.num_cpus k) (Task.CPU_SCHEDULERS k))) ++
           [txt "Sentinel Heartbeats sent: " ++ decimal (SENTINEL_HEARTBEATS s); txt "------------------------------------------------------------"]).

(** ** Messages; the shell's process is the one that runs on the first CPU *)
Definition my_pid (s : shell_state) : outcome Z := q ← at_ (Task.CPU_SCHEDULERS (kern s)) 0; t ← at_ (Task.tasks q) (Task.current q); Ret (Task.id t).
Definition cmd_ipc (args : list (list Z)) (s : shell_state) : answer :=
  let sub := default (txt "status") (args !! 0%nat) in
  if is_word sub "send" then
    let target := default 0 (Shell.parse_u64 (default (txt "0") (args !! 1%nat))) in
    let text := join_words (drop 2 args) in
    me ← my_pid s;
    let '(ok, r) := Ipc.send_message (router s) me target 1 text in
    lines (set_router s r) [if (ok : bool) then txt "IPC: Sent " ++ decimal (Z.of_nat (length text)) ++ txt " bytes to PID " ++ decimal target else txt "IPC: Failed to send (mailbox full or target invalid)"]
  else if is_word sub "recv" then
    me ← my_pid s;
    let '(m, r) := Ipc.receive_message (router s) me in
    match m with
    | Some msg =>
        let p := take (Z.to_nat (Ipc.length_ msg)) (Ipc.payload msg) in
        lines (set_router s r) [txt "IPC Message received from PID " ++ decimal (Ipc.sender msg) ++ txt ": '" ++ (if is_str p then p else txt "<binary data>") ++ txt "' (type " ++ decimal (Ipc.msg_type msg) ++ txt ")"]
    | None => lines (set_router s r) [txt "IPC: Mailbox empty for PID " ++ decimal me]
    end
  else
    let '(sent, deliv, active) := Ipc.stats (router s) in
    lines s [txt "--- AURAOS IPC ROUTER STATUS ---"; txt "  Total Messages Sent     : " ++ decimal sent; txt "  Total Messages Delivered: " ++ decimal deliv; txt "  Active Mailboxes        : " ++ decimal active;
             txt "  Commands: ipc send <pid> <text> | ipc recv"; txt "--------------------------------"].

(** ** Tasks; [base] is where the heap puts the stack of a new one *)
Definition cmd_spawn (base : Z) (args : list (list Z)) (s : shell_state) : answer :=
  let name := default (txt "worker") (args !! 0%nat) in
  '(tid, k) ← Task.spawn (kern s) (str name) worker_entry base;
  lines (set_kern s k) [txt "Spawned background worker task '" ++ name ++ txt "' with PID " ++ decimal tid].
Definition cmd_kill (args : list (list Z)) (s : shell_state) : answer :=
  match args !! 0%nat with
  | Some id_str =>
      match Shell.parse_u64 id_str with
      | Some id =>
          '(ok, k) ← Task.kill_task (kern s) id;
          lines (set_kern s k) [if (ok : bool) then txt "Task PID " ++ decimal id ++ txt " terminated." else txt "kill: cannot kill task PID " ++ decimal id ++ txt " (not found, already dead, or root shell)"]
      | None => lines s [txt "kill: invalid PID: " ++ id_str]
      end
  | None => lines s [txt "Usage: kill <pid>"]
  end.
Definition cmd_yield (cpu : nat) (s : shell_state) : answer :=
  '(sw, k) ← Task.yield_now (kern s) cpu;
  Ret ([Line (txt "Yielding CPU time slice to background tasks..."); Yielded sw; Line (txt "Resumed in kernel shell!")], set_kern s k).

(** ** Programs *)
(** A bare name is looked up under /bin. *)
Definition program_path (raw_path : list Z) : list Z := if bool_decide (47 ∈ raw_path) then raw_path else txt "/bin/" ++ raw_path.
Definition program_name (path : list Z) : list Z := txt "user-" ++ trim_start_byte 47 path.
Definition cmd_exec (base : Z) (cpu : nat) (args : list (list Z)) (s : shell_state) : answer :=
  let path := program_path (default (txt "/bin/hello") (args !! 0%nat)) in
  r ← Vfs.vfs_read_file run random (files s) (str path);
  match r with
  | Err e => lines s [txt "exec: cannot read '" ++ path ++ txt "': " ++ txt (Errors.vfs_display e)]
  | Ok data =>
      '(res, k) ← Elf.load_and_spawn outside (kern s) trampoline base (str (program_name path)) data;
      match res with
      | Ok pid => '(sw, k) ← Task.yield_now k cpu;
          Ret ([Line (txt "[EXEC] Launched Ring 3 ELF process '" ++ program_name path ++ txt "' (PID " ++ decimal pid ++ txt ")"); Yielded sw], set_kern s k)
      | Err e => lines (set_kern s k) [txt "exec: failed to load ELF binary '" ++ path ++ txt "': " ++ txt (Elf.as_str e)]
      end
  end.

Definition segment_kind (t : Z) : string :=
  if t =? 1 then "PT_LOAD" else if t =? 2 then "PT_DYNAMIC" else if t =? 3 then "PT_INTERP" else if t =? 4 then "PT_NOTE" else if t =? 6 then "PT_PHDR" else if t =? 0x6474e551 then "PT_GNU_STACK" else "UNKNOWN".
Definition flag_char (flags bit : Z) (c : string) : list Z := if Z.land flags bit =? 0 then txt "-" else txt c.
Definition segment_line (i : nat) (p : Elf.Elf64ProgramHeader) : list Z :=
  txt "    [" ++ decimal (Z.of_nat i) ++ txt "] " ++ pad_right 12 (txt (segment_kind (Elf.p_type p))) ++ txt " vaddr=" ++ hex_padded 10 (Elf.p_vaddr p) ++ txt " filesz=" ++ decimal (Elf.p_filesz p) ++
  txt " memsz=" ++ decimal (Elf.p_memsz p) ++ txt " [" ++ flag_char (Elf.p_flags p) Elf.PF_R "R" ++ flag_char (Elf.p_flags p) Elf.PF_W "W" ++ flag_char (Elf.p_flags p) Elf.PF_X "X" ++ txt "] align=" ++ hex (Elf.p_align p).
Definition cmd_elfinfo (args : list (list Z)) (s : shell_state) : answer :=
  let path := program_path (default (txt "/bin/hello") (args !! 0%nat)) in
  r ← Vfs.vfs_read_file run random (files s) (str path);
  match r with
  | Err e => lines s [txt "elfinfo: cannot read '" ++ path ++ txt "': " ++ txt (Errors.vfs_display e)]
  | Ok data =>
      match Elf.parse outside data with
      | Err e => lines s [txt "elfinfo: failed to parse '" ++ path ++ txt "': " ++ txt (Elf.as_str e)]
      | Ok elf =>
          let h := Elf.header elf in
          lines s ([txt "--- ELF64 BINARY INFO: " ++ path ++ txt " ---"; txt "  Format:       ELF64 (64-bit AMD x86-64)"; txt "  Type:         " ++ hex (Elf.elf_type h) ++ txt " (ET_EXEC=2, ET_DYN=3)";
            txt "  Entry Point:  " ++ hex_padded 18 (Elf.entry_point elf);
            txt "  Program Hdr:  offset=" ++ hex (Elf.phoff h) ++ txt ", count=" ++ decimal (Elf.phnum h) ++ txt ", entry_size=" ++ decimal (Elf.phentsize h);
            txt "  Section Hdr:  offset=" ++ hex (Elf.shoff h) ++ txt ", count=" ++ decimal (Elf.shnum h) ++ txt ", entry_size=" ++ decimal (Elf.shentsize h)] ++
            match Elf.program_headers outside elf with
            | Ok phdrs => [txt "  Segments (" ++ decimal (Z.of_nat (length phdrs)) ++ txt " total):"] ++ imap segment_line phdrs
            | Err _ => []
            end ++ [txt "--------------------------------------"])
      end
  end.

(** The arms above; the other commands answer [None]. *)
Definition execute_tasks (base : Z) (cpu : nat) (cmd : list Z) (s : shell_state) : option answer :=
  let words := split_whitespace cmd in
  let command := default [] (head words) in
  let args := drop 1 words in
  if (is_word command "tasks" || is_word command "ps")%bool then Some (cmd_tasks s) else
  if is_word command "ipc" then Some (cmd_ipc args s) else
  if is_word command "elfinfo" then Some (cmd_elfinfo args s) else
  if is_word command "exec" then Some (cmd_exec base cpu args s) else
  if is_word command "spawn" then Some (cmd_spawn base args s) else
  if is_word command "kill" then Some (cmd_kill args s) else
  if is_word command "yield" then Some (cmd_yield cpu s) else None.

(** ** A program started from the shell *)
Lemma word_exec : word (txt "exec").
Proof. word_by_compute. Qed.
Lemma exec_exec base cpu w s : word w -> execute_tasks base cpu (join_words [txt "exec"; w]) s = Some (cmd_exec base cpu [w] s).
Proof. intros Hw. unfold execute_tasks. by rewrite split_words by (by repeat (apply Forall_cons_2; [apply word_exec || apply Hw|])). Qed.

(** The task a loaded program becomes. *)
Definition program_task (k : Task.kernel A) (w : UserSpace.world A) (nm : string) (base : Z) (l : Elf.LoadedElf) : Task.Task :=
  (Task.task_new_user_with_space (UserSpace.mem w) trampoline (Task.NEXT_TASK_ID k) nm (Elf.l_entry_point l) (Elf.user_stack_top l) (Elf.space l) base).1.
(** On one CPU it is queued behind the tasks that are there. *)
Lemma spawn_alone k w nm base l q : (Task.cpu_count k <= 1)%nat -> Task.CPU_SCHEDULERS k !! 0%nat = Some q ->
  exists k', Task.spawn_user_with_space (Task.set_world k w) trampoline nm (Elf.l_entry_point l) (Elf.user_stack_top l) (Elf.space l) base = Ret (Task.NEXT_TASK_ID k, k') /\
    Task.cpu_count k' = Task.cpu_count k /\ Task.CPU_SCHEDULERS k' !! 0%nat = Some (Task.push_task q (program_task k w nm base l)) /\
    Task.kworld k' = UserSpace.set_mem w (Context.init_frame (UserSpace.mem w) (u64_add base Context.STACK_SIZE) trampoline).1.
Proof.
  intros Hc Hq. unfold Task.spawn_user_with_space, Task.spawn_with, program_task. cbn [Task.next_id Task.kworld Task.set_world].
  unfold Task.task_new_user_with_space, Task.task_new_user. destruct (Context.init_frame _ _ _) as [m' rsp] eqn:Ef. cbn [Task.NEXT_TASK_ID Task.set_world].
  unfold Task.choose_target_cpu. cbn [Task.cpu_count Task.set_world]. rewrite (proj2 (Nat.leb_le _ _)) by done. cbn [mbind outcome_bind].
  unfold Task.with_sched. cbn [Task.CPU_SCHEDULERS Task.set_world]. rewrite (at_Ret _ _ _ Hq). cbn [mbind outcome_bind]. eexists. split; [reflexivity|]. cbn.
  split; [done|]. split; [|done]. by rewrite list_lookup_insert_eq by (by eapply lookup_lt_Some).
Qed.

(** The task a yield goes over to. *)
Lemma yield_section_inv s sw q' : Task.yield_section s = Ret (Some sw, q') ->
  exists x, Task.tasks s !! Task.current q' = Some x /\ sw = Task.mkSwitch (Task.current s) (Task.rsp x) (Task.is_user x) (Task.kernel_stack_top x) (Task.cr3 x) /\
    Task.tasks q' !! Task.current q' = Some (Task.set_state x Task.Running).
Proof.
  unfold Task.yield_section. destruct (Nat.ltb _ 2); [done|]. destruct (Task.pick_next s) as [[n|]| |]; cbn [mbind outcome_bind]; [|done..].
  destruct (Nat.eqb_spec n (Task.current s)) as [|Hn]; [done|]. unfold Task.hand_over. destruct (update (Task.tasks s) _ _) as [l1| |] eqn:E1; cbn [mbind outcome_bind]; [|done..].
  unfold update in E1. destruct (at_ (Task.tasks s) (Task.current s)) as [c| |]; cbn [mbind outcome_bind] in E1; [|done..]. injection E1 as <-.
  unfold update. destruct (at_ _ n) as [x| |] eqn:Ex; cbn [mbind outcome_bind]; [|done..]. apply at_inv in Ex. pose proof (lookup_lt_Some _ _ _ Ex) as Hlt. rewrite list_lookup_insert_ne in Ex by done.
  rewrite (at_Ret _ _ (Task.set_state x Task.Running)) by (by apply list_lookup_insert_eq). cbn [mbind outcome_bind]. intros [= <- <-]. exists x. cbn.
  split; [done|]. split; [done|]. by apply list_lookup_insert_eq.
Qed.
(** A yield on a queue where the last task is the only other one that is ready. *)
Lemma yield_to_last q t : Sched.sched_ok q -> (Task.current q < length (Task.tasks q))%nat -> Task.state t = Task.Ready -> (forall i, i <> Task.current q -> ~ Sched.ready_at q i) ->
  exists q', Task.yield_section (Task.push_task q t) = Ret (Some (Task.mkSwitch (Task.current q) (Task.rsp t) (Task.is_user t) (Task.kernel_stack_top t) (Task.cr3 t)), q') /\
    Task.current q' = length (Task.tasks q) /\ Task.tasks q' !! length (Task.tasks q) = Some (Task.set_state t Task.Running).
Proof.
  intros Hok Hc Ht Hno. set (s := Task.push_task q t). pose proof Hok as [_ Hrun].
  assert (Hls : length (Task.tasks s) = S (length (Task.tasks q))) by (cbn; rewrite length_app; cbn; lia).
  assert (Hlast : Task.tasks s !! length (Task.tasks q) = Some t) by (cbn; by rewrite lookup_app_r, Nat.sub_diag by lia).
  assert (Hold : forall i, (i < length (Task.tasks q))%nat -> Task.tasks s !! i = Task.tasks q !! i) by (intros i Hi; cbn; by rewrite lookup_app_l).
  assert (Hoks : Sched.sched_ok s).
  { split; [left; rewrite Hls; cbn; lia|]. intros i x Hi Hx. destruct (decide (i < length (Task.tasks q))%nat) as [Hlt|Hge].
    - rewrite Hold in Hi by done. exact (Hrun i x Hi Hx).
    - assert (i = length (Task.tasks q)) as -> by (apply lookup_lt_Some in Hi; lia). rewrite Hlast in Hi. injection Hi as <-. congruence. }
  assert (Hready : forall i, i <> Task.current s -> Sched.ready_at s i -> i = length (Task.tasks q)).
  { intros i Hi (x & Hx & Hs). destruct (decide (i < length (Task.tasks q))%nat) as [Hlt|Hge]; [|apply lookup_lt_Some in Hx; lia].
    exfalso. apply (Hno i Hi). exists x. by rewrite Hold in Hx. }
  destruct (Sched.yield_section_ret s Hoks) as (o & q' & E & _ & Ho). destruct o as [sw|].
  2:{ exfalso. destruct Ho as [_ [H2|H2]]; [lia|]. apply (H2 (length (Task.tasks q))); [cbn; lia|by exists t]. }
  destruct Ho as (j & tj & (d & _ & _ & Hrj & _) & Hj & _ & (Hcur & _) & _). destruct (yield_section_inv s sw q' E) as (x & Hx & -> & Hx').
  rewrite Hcur, (Hready j Hj Hrj) in *. assert (x = t) as -> by congruence. by exists q'.
Qed.

(** C9: [exec] starts a program.  On one CPU whose other tasks are not ready, with kernel
    tables that leave the user range without large pages and a file under the path that
    the kernel built from [code] and [dat], the line [exec <name>] reports that
    memory ran out and starts nothing, which only happens when fewer frames are free
    than the program, its stack and their tables can take, or reports the new process and goes over to it: the program is the
    running task with the entry point, the stack and the address space of the loaded
    file, in which every byte of code and data is found at its address; of the memory
    the loader left only the first frame of the new kernel stack is written. *)
Theorem exec_runs_program (s : shell_state) base nm q K TK vaddr code dat (path := program_path nm) (k := kern s) (w := Task.kworld k) :
  word nm -> Vfs.vfs_read_file run random (files s) (str path) = Ret (Ok (Elf.create_elf_binary vaddr code dat)) ->
  (Task.cpu_count k <= 1)%nat -> Task.CPU_SCHEDULERS k !! 0%nat = Some q -> Sched.sched_ok q -> (Task.current q < length (Task.tasks q))%nat -> (forall i, i <> Task.current q -> ~ Sched.ready_at q i) ->
  (forall i, in_u 8 (outside i)) -> Pmm.fa_wf (UserSpace.fa w) -> NewSpace.kernel_tables w K TK -> Paging.is_present (Paging.entry (UserSpace.mem w) K 0) = true ->
  is_bytes code -> is_bytes dat -> 0 <= vaddr -> 0 < len code + len dat -> vaddr + (len code + len dat) <= Elf.DEFAULT_USER_STACK_TOP - 4 * Paging.PAGE_SIZE ->
  (forall v, Elf.page_floor vaddr <= v < Elf.DEFAULT_USER_STACK_TOP -> PageTree.no_huge 4 (UserSpace.mem w) K v) ->
  exists effects s', execute_tasks base 0 (join_words [txt "exec"; nm]) s = Some (Ret (effects, s')) /\
    ((exists e, (e = Elf.AddressSpaceAllocationFailed \/ e = Elf.SegmentMappingFailed) /\ effects = [Line (txt "exec: failed to load ELF binary '" ++ path ++ txt "': " ++ txt (Elf.as_str e))] /\
        ~ Spare.spare (UserSpace.fa w) (LoadElf.frames_needed vaddr (len code + len dat)) /\ Task.CPU_SCHEDULERS (kern s') = Task.CPU_SCHEDULERS k) \/
     exists l w' q' t, effects = [Line (txt "[EXEC] Launched Ring 3 ELF process '" ++ program_name path ++ txt "' (PID " ++ decimal (Task.NEXT_TASK_ID k) ++ txt ")");
         Yielded (Some (Task.mkSwitch (Task.current q) (Task.rsp t) true (Task.kernel_stack_top t) (Some (UserSpace.pml4 (Elf.space l)))))] /\
       LoadElf.program_ready w' l vaddr (code ++ dat) /\ Task.kworld (kern s') = UserSpace.set_mem w' (Context.init_frame (UserSpace.mem w') (u64_add base Context.STACK_SIZE) trampoline).1 /\
       Task.CPU_SCHEDULERS (kern s') !! 0%nat = Some q' /\ Task.tasks q' !! Task.current q' = Some t /\ Task.state t = Task.Running /\ Task.is_user t = true /\
       Task.id t = Task.NEXT_TASK_ID k /\ Task.user_entry t = vaddr /\ Task.user_stack_top t = Elf.DEFAULT_USER_STACK_TOP /\ Task.address_space t = Some (Elf.space l)).
Proof.
  intros Hw Hfile Hcpu Hq Hok Hcur Hno Hout Hwf Hk Hpres Hc Hd Hv Hn Htop Hnh. rewrite exec_exec by done. unfold cmd_exec.
  change (default (txt "/bin/hello") ([nm] !! 0%nat)) with nm. fold path. rewrite Hfile. cbn [mbind outcome_bind]. unfold Elf.load_and_spawn. fold k w.
  destruct (LoadElf.load_built outside w K TK vaddr code dat) as (r & w' & -> & _ & Hr); try done. cbn [mbind outcome_bind]. destruct r as [l|e].
  2:{ eexists _, _. split; [reflexivity|]. left. exists e. destruct Hr as [He Hsp]. by split_and!. }
  destruct Hr as [Hready _]. destruct (spawn_alone k w' (str (program_name path)) base l q Hcpu Hq) as (k1 & -> & Hc1 & Hq1 & Hw1). cbn [mbind outcome_bind].
  set (t := program_task k w' (str (program_name path)) base l) in *.
  assert (Ht : Task.state t = Task.Ready /\ Task.is_user t = true /\ Task.cr3 t = Some (UserSpace.pml4 (Elf.space l)) /\ Task.id t = Task.NEXT_TASK_ID k /\
    Task.user_entry t = Elf.l_entry_point l /\ Task.user_stack_top t = Elf.user_stack_top l /\ Task.address_space t = Some (Elf.space l)).
  { unfold t, program_task, Task.task_new_user_with_space, Task.task_new_user. by destruct (Context.init_frame _ _ _) as [m' rsp]. }
  destruct Ht as (Hst & Hu & Hcr & Hid & He & Hs & Hsp). destruct (yield_to_last q t Hok Hcur Hst Hno) as (q' & Ey & Hc' & Ht').
  rewrite (Sched.yield_now_alone k1 0 _ _ _ ltac:(by rewrite Hc1) ltac:(unfold Task.MAX_CPUS; lia) Hq1 Ey). cbn [mbind outcome_bind]. rewrite Hu, Hcr.
  eexists _, _. split; [reflexivity|]. right. exists l, w', q', (Task.set_state t Task.Running). pose proof Hready as (R1 & R2 & _).
  split; [done|]. split; [done|]. cbn [kern set_kern]. split; [exact Hw1|]. split; [cbn; by rewrite list_lookup_insert_eq by (by eapply lookup_lt_Some)|].
  rewrite Hc'. split; [done|]. split; [done|]. split; [done|]. split; [done|]. split; [by rewrite <- R1, <- He|]. split; [by rewrite <- R2, <- Hs|done].
Qed.

(** A text sent to oneself. *)
Lemma exec_ipc base cpu ws s : Forall word ws -> execute_tasks base cpu (join_words (txt "ipc" :: ws)) s = Some (cmd_ipc ws s).
Proof. intros Hw. unfold execute_tasks. by rewrite split_words by (apply Forall_cons_2; [word_by_compute|done]). Qed.
Lemma decimal_word n : in_u 64 n -> word (decimal n).
Proof. intros Hn. destruct (decimal_spec n Hn) as (_ & Hd & Hne). split; [done|]. eapply Forall_impl; [exact Hd|]. intros b. unfold is_digit, graphic, between. lia. Qed.

(** Messages through the shell.  When the mailbox of the shell's own process is empty,
    [ipc send <own pid> <words>] reports the whole text as sent and [ipc recv] then prints
    its first 64 bytes: a longer text is cut without a word. *)
Theorem ipc_self_message (s : shell_state) base cpu pid ws (text := join_words ws) :
  my_pid s = Ret pid -> in_u 64 pid -> Forall word ws -> Ipc.queue_of (router s) pid = [] ->
  exists s1 s2, execute_tasks base cpu (join_words (txt "ipc" :: txt "send" :: decimal pid :: ws)) s =
      Some (Ret ([Line (txt "IPC: Sent " ++ decimal (Z.of_nat (length text)) ++ txt " bytes to PID " ++ decimal pid)], s1)) /\
    execute_tasks base cpu (join_words [txt "ipc"; txt "recv"]) s1 =
      Some (Ret ([Line (txt "IPC Message received from PID " ++ decimal pid ++ txt ": '" ++ take 64 text ++ txt "' (type 1)")], s2)).
Proof.
  intros Hpid Hu Hws Hq. pose proof (decimal_word pid Hu) as Hdw. assert (word (txt "send")) by word_by_compute. assert (word (txt "recv")) by word_by_compute.
  rewrite exec_ipc by (by repeat apply Forall_cons_2). unfold cmd_ipc at 1. change (is_word (default (txt "status") ((txt "send" :: decimal pid :: ws) !! 0%nat)) "send") with true. cbv iota.
  change (default (txt "0") ((txt "send" :: decimal pid :: ws) !! 1%nat)) with (decimal pid). rewrite Shell.parse_u64_decimal by done. cbn [default from_option id drop]. rewrite drop_0, Hpid. cbn [mbind outcome_bind]. fold text.
  unfold Ipc.send_message, Ipc.send. cbn [Ipc.target Ipc.message_new]. destruct (Ipc.get_or_create_mailbox (router s) pid) as [mb r1] eqn:E. apply Ipc.get_or_create_queue in E as (-> & _). rewrite Hq.
  cbn [length app]. change (Ipc.MAILBOX_CAPACITY <=? Z.of_nat 0) with false. cbv iota. eexists _, _. split; [reflexivity|]. rewrite exec_ipc by (by repeat apply Forall_cons_2).
  unfold cmd_ipc. cbn [router set_router]. change (is_word (default (txt "status") ([txt "recv"] !! 0%nat)) "send") with false. change (is_word (default (txt "status") ([txt "recv"] !! 0%nat)) "recv") with true. cbv iota.
  change (my_pid (set_router s _)) with (my_pid s). rewrite Hpid. cbn [mbind outcome_bind]. unfold Ipc.receive_message, Ipc.receive. cbn [Ipc.mailboxes]. rewrite lookup_insert_eq.
  destruct (Ipc.message_new_payload pid pid 1 text) as (_ & _ & Hpay & _). change (Z.to_nat Ipc.IPC_PAYLOAD_MAX) with 64%nat in Hpay.
  set (m := Ipc.message_new pid pid 1 text) in *. rewrite Hpay. assert (is_str (take 64 text) = true) as ->; [|by eexists].
  apply ascii_utf8; [|done]. by apply Forall_take, join_printable.
Qed.
End Tasks.

(** ** Witness: a kernel with one CPU and the file system of the first boot *)
Definition two_bytes : list Z := Elf.create_elf_binary Elf.DEFAULT_USER_CODE_BASE [0x0f; 0x05] [72; 105].
Definition boot_files : Vfs.Vfs := match Vfs.init two_bytes [] [] Vfs.new with Ret v => v | _ => Vfs.new end.
Definition shell_queue : Task.CpuScheduler := Task.mkSched 0 [Task.root "shell"] 0 0.
Definition boot_state : shell_state := mkState (Task.mkKernel [shell_queue] 2 1 0 NewSpace.kernel_world (Task.mkHw 0 0 [] [] [])) Ipc.new boot_files 0.
Lemma boot_file : Vfs.vfs_read_file (fun _ => []) [] boot_files (str (program_path (txt "hello"))) = Ret (Ok two_bytes).
Proof. vm_compute. reflexivity. Qed.
Lemma exec_runs_witness : exists s' q' t sw, execute_tasks 0 0x200000 (fun _ => 0) (fun _ => []) [] 0x300000 0 (txt "exec hello") boot_state =
    Some (Ret ([Line (txt "[EXEC] Launched Ring 3 ELF process 'user-bin/hello' (PID 2)"); Yielded (Some sw)], s')) /\
  Task.CPU_SCHEDULERS (kern s') !! 0%nat = Some q' /\ Task.tasks q' !! Task.current q' = Some t /\ Task.id t = 2 /\ Task.is_user t = true /\ Task.user_entry t = Elf.DEFAULT_USER_CODE_BASE.
Proof.
  destruct (exec_runs_program 0x200000 0x200000 (fun _ => 0) (fun _ => []) [] boot_state 0x300000 (txt "hello") shell_queue 0x1000 NewSpace.kernel_tree Elf.DEFAULT_USER_CODE_BASE [0x0f; 0x05] [72; 105]) as (ef & s' & E & Hr).
  - word_by_compute.
  - exact boot_file.
  - apply Nat.le_refl.
  - reflexivity.
  - split; [left; apply Nat.lt_0_1|]. intros [|i] t Hi Hr; [reflexivity|by destruct i].
  - apply Nat.lt_0_1.
  - intros [|i] Hi (t & Ht & _); [done|by destruct i].
  - done.
  - apply PageTree.demo_wf.
  - apply NewSpace.kernel_tables_ok.
  - vm_compute. reflexivity.
  - unfold is_bytes. by_compute.
  - unfold is_bytes. by_compute.
  - done.
  - done.
  - done.
  - intros v Hv. apply LoadElf.kernel_no_huge. exact Hv.
  - destruct Hr as [(e & _ & _ & Hsp & _)|(l & w' & q' & t & -> & _ & _ & Hq & Ht & _ & Hu & Hid & He & _)]; [destruct Hsp; exact LoadElf.stocked_spare|].
    eexists s', q', t, _. split; [exact E|]. split; [exact Hq|]. split; [exact Ht|]. split; [exact Hid|]. split; [exact Hu|exact He].
Defined.
Lemma ipc_self_witness : exists s1, execute_tasks 0 0x200000 (fun _ => 0) (fun _ => []) [] 0x300000 0 (txt "ipc send 0 hello there") boot_state =
  Some (Ret ([Line (txt "IPC: Sent 11 bytes to PID 0")], s1)).
Proof.
  destruct (ipc_self_message 0 0x200000 (fun _ => 0) (fun _ => []) [] boot_state 0x300000 0 0 [txt "hello"; txt "there"]) as (s1 & _ & E & _).
  - reflexivity.
  - done.
  - repeat apply Forall_cons_2; [word_by_compute..|apply Forall_nil_2].
  - reflexivity.
  - exists s1. exact E.
Defined.
End TaskCommands.
