(* ===== verification/Canvas.v ===== *)
(** * Canvas (src/src/drivers/framebuffer.rs)

    A picture in memory and the drawing routines of the desktop.  Pixels are stored in a
    vector, indexed with a check as the code does; loops over ranges are loops over the
    integers of the range, so an end that has wrapped around is a loop that long.  Every
    routine is characterised by the set of pixels it paints ([paints]); the integer
    square root is that of the integers; the solid and the translucent rounded
    rectangles cover the same pixels. *)

From Stdlib Require Import ZifyBool.
From stdpp Require Import prelude numbers list strings.
From S2P Require Import Prelude.

Module Canvas.

(** ** Colours *)
Definition rgb (r g b : Z) : Z := Z.lor (Z.lor (Z.shiftl r 16) (Z.shiftl g 8)) b.
Definition rgba (r g b a : Z) : Z := Z.lor (Z.lor (Z.lor (Z.shiftl a 24) (Z.shiftl r 16)) (Z.shiftl g 8)) b.
Definition from_hex (hex : Z) : Z := hex.
Definition red (c : Z) : Z := wrap 8 (Z.land (Z.shiftr c 16) 0xFF).
Definition green (c : Z) : Z := wrap 8 (Z.land (Z.shiftr c 8) 0xFF).
Definition blue (c : Z) : Z := wrap 8 (Z.land c 0xFF).
Definition alpha_of (c : Z) : Z := wrap 8 (Z.land (Z.shiftr c 24) 0xFF).
Definition BLACK : Z := 0x00000000.
Definition WHITE : Z := 0x00FFFFFF.
Definition DEEP_OBSIDIAN : Z := 0x000A0E17.
Definition COSMIC_NAVY : Z := 0x000D1B2A.
Definition AURA_CYAN : Z := 0x0000D2FF.
Definition AURA_BLUE : Z := 0x001B4965.
Definition ARCTIC_AZURE : Z := 0x0062B6CB.
Definition DOCK_GLASS : Z := 0x00162032.
Definition FROST_GLASS : Z := 0x001E293B.
Definition DOCK_BORDER : Z := 0x003A506B.
Definition WINDOW_DARK : Z := 0x00111827.
Definition WINDOW_LIGHT : Z := 0x00F8FAFC.
Definition WINDOW_HEADER : Z := 0x001F2937.
Definition FOLDER_BLUE : Z := 0x0038BDF8.
Definition TRAFFIC_RED : Z := 0x00FF5F56.
Definition TRAFFIC_YELLOW : Z := 0x00FFBD2E.
Definition TRAFFIC_GREEN : Z := 0x0027C93F.
Definition TEXT_PRIMARY : Z := 0x00E2E8F0.
Definition TEXT_MUTED : Z := 0x0094A3B8.
Definition TEXT_ACCENT : Z := 0x0038BDF8.

Definition mix (f b a : Z) : Z := wrap 8 ((f * a + b * (255 - a)) / 255).
Definition blend_colors (fg bg alpha : Z) : Z := rgb (mix (red fg) (red bg) alpha) (mix (green fg) (green bg) alpha) (mix (blue fg) (blue bg) alpha).

(** ** Integers: isize values are signed *)
Definition isize (x : Z) : Z := (x + 2 ^ 63) mod 2 ^ 64 - 2 ^ 63.

(** [integer_sqrt]: [x0] decreases, so [x0] steps are enough. *)
Fixpoint newton (fuel : nat) (val x0 x1 : Z) : outcome Z :=
  match fuel with
  | O => NoFuel
  | S fuel' => if x1 <? x0 then newton fuel' val x1 (u64_add x1 (val / x1) / 2) else Ret x0
  end.
Definition integer_sqrt (val : Z) : outcome Z :=
  if val =? 0 then Ret 0 else
  let x0 := val / 2 in
  if x0 =? 0 then Ret 1 else newton (S (Z.to_nat x0)) val x0 (u64_add x0 (val / x0) / 2).

(** ** The canvas *)
Record Canvas := mkCanvas { width : Z; height : Z; pixels : list Z }.
Definition with_pixels (c : Canvas) (l : list Z) : Canvas := mkCanvas (width c) (height c) l.
Definition new (w h : Z) : Canvas := mkCanvas w h (replicate (Z.to_nat (u64_mul w h)) 0).

(** [self.pixels[i] = v] *)
Definition put (c : Canvas) (i v : Z) : outcome Canvas := l ← store (pixels c) i v; Ret (with_pixels c l).
(** [for i in a..b { body }] *)
Fixpoint iter {S} (n : nat) (i : Z) (body : Z -> S -> outcome S) (s : S) : outcome S :=
  match n with O => Ret s | Datatypes.S n' => s' ← body i s; iter n' (i + 1) body s' end.
Definition for_range {S} (a b : Z) (body : Z -> S -> outcome S) (s : S) : outcome S := iter (Z.to_nat (b - a)) a body s.

Definition in_canvas (c : Canvas) (x y : Z) : bool := ((x <? width c) && (y <? height c))%bool.
Definition at_xy (c : Canvas) (x y : Z) : Z := u64_add (u64_mul y (width c)) x.
Definition set_pixel (c : Canvas) (x y color : Z) : outcome Canvas := if in_canvas c x y then put c (at_xy c x y) color else Ret c.
Definition get_pixel (c : Canvas) (x y : Z) : outcome Z := if in_canvas c x y then index (pixels c) (at_xy c x y) else Ret BLACK.
Definition blend_pixel (c : Canvas) (x y color alpha : Z) : outcome Canvas :=
  if in_canvas c x y then bg ← index (pixels c) (at_xy c x y); put c (at_xy c x y) (blend_colors color bg alpha) else Ret c.
Definition clear (c : Canvas) (color : Z) : Canvas := with_pixels c (replicate (length (pixels c)) color).

Definition fill_rect (c : Canvas) (x y w h color : Z) : outcome Canvas :=
  let x_end := Z.min (u64_add x w) (width c) in
  let y_end := Z.min (u64_add y h) (height c) in
  for_range y y_end (fun py c => let row_offset := u64_mul py (width c) in for_range x x_end (fun px c => put c (u64_add row_offset px) color) c) c.
Definition fill_rect_alpha (c : Canvas) (x y w h color alpha : Z) : outcome Canvas :=
  let x_end := Z.min (u64_add x w) (width c) in
  let y_end := Z.min (u64_add y h) (height c) in
  for_range y y_end (fun py c => for_range x x_end (fun px c => blend_pixel c px py color alpha) c) c.
Definition fill_gradient_v (c : Canvas) (x y w h top bottom : Z) : outcome Canvas :=
  let x_end := Z.min (u64_add x w) (width c) in
  let y_end := Z.min (u64_add y h) (height c) in
  if h =? 0 then Ret c else
  for_range y y_end (fun py c =>
    let factor := u64_mul (u64_sub py y) 255 / h in
    let current := blend_colors bottom top (wrap 8 factor) in
    let row_offset := u64_mul py (width c) in
    for_range x x_end (fun px c => put c (u64_add row_offset px) current) c) c.
Definition fill_circle (c : Canvas) (cx cy radius color : Z) : outcome Canvas :=
  let r2 := isize (radius * radius) in
  let y_start := wrap 64 (Z.max (isize (cy - radius)) 0) in
  let y_end := wrap 64 (Z.min (isize (isize (cy + radius) + 1)) (isize (height c))) in
  for_range y_start y_end (fun py c =>
    let dy := isize (isize py - cy) in
    let dy2 := isize (dy * dy) in
    root ← integer_sqrt (wrap 64 (Z.max (isize (r2 - dy2)) 0));
    let dx_max := isize root in
    let x_start := wrap 64 (Z.max (isize (cx - dx_max)) 0) in
    let x_end := wrap 64 (Z.min (isize (isize (cx + dx_max) + 1)) (isize (width c))) in
    let row_offset := u64_mul py (width c) in
    for_range x_start x_end (fun px c => put c (u64_add row_offset px) color) c) c.
Definition fill_rounded_rect (c : Canvas) (x y w h r color : Z) : outcome Canvas :=
  if r =? 0 then fill_rect c x y w h color else
  let r_clamped := Z.min (Z.min r (w / 2)) (h / 2) in
  c ← fill_rect c x (u64_add y r_clamped) w (u64_sub h (u64_mul 2 r_clamped)) color;
  c ← fill_rect c (u64_add x r_clamped) y (u64_sub w (u64_mul 2 r_clamped)) r_clamped color;
  c ← fill_rect c (u64_add x r_clamped) (u64_sub (u64_add y h) r_clamped) (u64_sub w (u64_mul 2 r_clamped)) r_clamped color;
  let right := u64_sub (u64_sub (u64_add x w) r_clamped) 1 in
  let bottom := u64_sub (u64_sub (u64_add y h) r_clamped) 1 in
  c ← fill_circle c (isize (u64_add x r_clamped)) (isize (u64_add y r_clamped)) (isize r_clamped) color;
  c ← fill_circle c (isize right) (isize (u64_add y r_clamped)) (isize r_clamped) color;
  c ← fill_circle c (isize (u64_add x r_clamped)) (isize bottom) (isize r_clamped) color;
  fill_circle c (isize right) (isize bottom) (isize r_clamped) color.

(** [inside] of [fill_rounded_rect_alpha] *)
Definition rounded (x y w h r px py : Z) : bool :=
  let r2 := isize (u64_mul r r) in
  let right := u64_sub (u64_sub (u64_add x w) r) 1 in
  let bottom := u64_sub (u64_sub (u64_add y h) r) 1 in
  let near cx cy := let dx := isize (isize px - isize cx) in let dy := isize (isize py - isize cy) in isize (isize (dx * dx) + isize (dy * dy)) <=? r2 in
  if ((px <? u64_add x r) && (py <? u64_add y r))%bool then near (u64_add x r) (u64_add y r)
  else if ((u64_sub (u64_add x w) r <=? px) && (py <? u64_add y r))%bool then near right (u64_add y r)
  else if ((px <? u64_add x r) && (u64_sub (u64_add y h) r <=? py))%bool then near (u64_add x r) bottom
  else if ((u64_sub (u64_add x w) r <=? px) && (u64_sub (u64_add y h) r <=? py))%bool then near right bottom
  else true.
Definition fill_rounded_rect_alpha (c : Canvas) (x y w h r color alpha : Z) : outcome Canvas :=
  let x_end := Z.min (u64_add x w) (width c) in
  let y_end := Z.min (u64_add y h) (height c) in
  let r_clamped := Z.min (Z.min r (w / 2)) (h / 2) in
  for_range y y_end (fun py c => for_range x x_end (fun px c => if rounded x y w h r_clamped px py then blend_pixel c px py color alpha else Ret c) c) c.
Definition draw_rect_outline (c : Canvas) (x y w h color : Z) : outcome Canvas :=
  if ((w =? 0) || (h =? 0) || (width c =? 0) || (height c =? 0))%bool then Ret c else
  let x_end := Z.min (u64_sub (u64_add x w) 1) (width c - 1) in
  let y_end := Z.min (u64_sub (u64_add y h) 1) (height c - 1) in
  c ← for_range x (x_end + 1) (fun px c => c ← set_pixel c px y color; set_pixel c px y_end color) c;
  for_range y (y_end + 1) (fun py c => c ← set_pixel c x py color; set_pixel c x_end py color) c.

(** The font; characters are their code points. *)
Definition get_glyph_8x16 (c : Z) : list Z :=
  match c with
  | 65 => [0x00; 0x18; 0x24; 0x42; 0x42; 0x7E; 0x42; 0x42; 0x42; 0x42; 0x42; 0x00; 0x00; 0x00; 0x00; 0x00]
  | 66 => [0x00; 0x7C; 0x42; 0x42; 0x42; 0x7C; 0x42; 0x42; 0x42; 0x42; 0x7C; 0x00; 0x00; 0x00; 0x00; 0x00]
  | 67 => [0x00; 0x3C; 0x42; 0x40; 0x40; 0x40; 0x40; 0x40; 0x40; 0x42; 0x3C; 0x00; 0x00; 0x00; 0x00; 0x00]
  | 68 => [0x00; 0x78; 0x44; 0x42; 0x42; 0x42; 0x42; 0x42; 0x42; 0x44; 0x78; 0x00; 0x00; 0x00; 0x00; 0x00]
  | 69 => [0x00; 0x7E; 0x40; 0x40; 0x40; 0x7C; 0x40; 0x40; 0x40; 0x40; 0x7E; 0x00; 0x00; 0x00; 0x00; 0x00]
  | 70 => [0x00; 0x7E; 0x40; 0x40; 0x40; 0x7C; 0x40; 0x40; 0x40; 0x40; 0x40; 0x00; 0x00; 0x00; 0x00; 0x00]
  | 71 => [0x00; 0x3C; 0x42; 0x40; 0x40; 0x40; 0x4E; 0x42; 0x42; 0x42; 0x3C; 0x00; 0x00; 0x00; 0x00; 0x00]
  | 72 => [0x00; 0x42; 0x42; 0x42; 0x42; 0x7E; 0x42; 0x42; 0x42; 0x42; 0x42; 0x00; 0x00; 0x00; 0x00; 0x00]
  | 73 => [0x00; 0x38; 0x10; 0x10; 0x10; 0x10; 0x10; 0x10; 0x10; 0x10; 0x38; 0x00; 0x00; 0x00; 0x00; 0x00]
  | 74 => [0x00; 0x1C; 0x08; 0x08; 0x08; 0x08; 0x08; 0x08; 0x08; 0x48; 0x30; 0x00; 0x00; 0x00; 0x00; 0x00]
  | 75 => [0x00; 0x42; 0x44; 0x48; 0x50; 0x60; 0x50; 0x48; 0x44; 0x42; 0x42; 0x00; 0x00; 0x00; 0x00; 0x00]
  | 76 => [0x00; 0x40; 0x40; 0x40; 0x40; 0x40; 0x40; 0x40; 0x40; 0x40; 0x7E; 0x00; 0x00; 0x00; 0x00; 0x00]
  | 77 => [0x00; 0x42; 0x66; 0x5A; 0x42; 0x42; 0x42; 0x42; 0x42; 0x42; 0x42; 0x00; 0x00; 0x00; 0x00; 0x00]
  | 78 => [0x00; 0x42; 0x62; 0x52; 0x4A; 0x46; 0x42; 0x42; 0x42; 0x42; 0x42; 0x00; 0x00; 0x00; 0x00; 0x00]
  | 79 => [0x00; 0x3C; 0x42; 0x42; 0x42; 0x42; 0x42; 0x42; 0x42; 0x42; 0x3C; 0x00; 0x00; 0x00; 0x00; 0x00]
  | 80 => [0x00; 0x7C; 0x42; 0x42; 0x42; 0x7C; 0x40; 0x40; 0x40; 0x40; 0x40; 0x00; 0x00; 0x00; 0x00; 0x00]
  | 81 => [0x00; 0x3C; 0x42; 0x42; 0x42; 0x42; 0x42; 0x42; 0x52; 0x4A; 0x34; 0x00; 0x00; 0x00; 0x00; 0x00]
  | 82 => [0x00; 0x7C; 0x42; 0x42; 0x42; 0x7C; 0x48; 0x44; 0x42; 0x42; 0x42; 0x00; 0x00; 0x00; 0x00; 0x00]
  | 83 => [0x00; 0x3C; 0x42; 0x40; 0x40; 0x3C; 0x02; 0x02; 0x02; 0x42; 0x3C; 0x00; 0x00; 0x00; 0x00; 0x00]
  | 84 => [0x00; 0x7F; 0x08; 0x08; 0x08; 0x08; 0x08; 0x08; 0x08; 0x08; 0x08; 0x00; 0x00; 0x00; 0x00; 0x00]
  | 85 => [0x00; 0x42; 0x42; 0x42; 0x42; 0x42; 0x42; 0x42; 0x42; 0x42; 0x3C; 0x00; 0x00; 0x00; 0x00; 0x00]
  | 86 => [0x00; 0x42; 0x42; 0x42; 0x42; 0x42; 0x24; 0x24; 0x24; 0x18; 0x18; 0x00; 0x00; 0x00; 0x00; 0x00]
  | 87 => [0x00; 0x42; 0x42; 0x42; 0x42; 0x42; 0x42; 0x5A; 0x5A; 0x66; 0x42; 0x00; 0x00; 0x00; 0x00; 0x00]
  | 88 => [0x00; 0x42; 0x42; 0x24; 0x24; 0x18; 0x24; 0x24; 0x42; 0x42; 0x42; 0x00; 0x00; 0x00; 0x00; 0x00]
  | 89 => [0x00; 0x41; 0x22; 0x14; 0x08; 0x08; 0x08; 0x08; 0x08; 0x08; 0x08; 0x00; 0x00; 0x00; 0x00; 0x00]
  | 90 => [0x00; 0x7E; 0x02; 0x04; 0x08; 0x10; 0x20; 0x40; 0x40; 0x40; 0x7E; 0x00; 0x00; 0x00; 0x00; 0x00]
  | 97 => [0x00; 0x00; 0x00; 0x00; 0x3C; 0x02; 0x3E; 0x42; 0x46; 0x3B; 0x00; 0x00; 0x00; 0x00; 0x00; 0x00]
  | 98 => [0x00; 0x40; 0x40; 0x40; 0x5C; 0x62; 0x42; 0x42; 0x62; 0x5C; 0x00; 0x00; 0x00; 0x00; 0x00; 0x00]
  | 99 => [0x00; 0x00; 0x00; 0x00; 0x1E; 0x20; 0x40; 0x40; 0x20; 0x1E; 0x00; 0x00; 0x00; 0x00; 0x00; 0x00]
  | 100 => [0x00; 0x02; 0x02; 0x02; 0x3A; 0x46; 0x42; 0x42; 0x46; 0x3B; 0x00; 0x00; 0x00; 0x00; 0x00; 0x00]
  | 101 => [0x00; 0x00; 0x00; 0x00; 0x3C; 0x42; 0x7E; 0x40; 0x22; 0x1C; 0x00; 0x00; 0x00; 0x00; 0x00; 0x00]
  | 102 => [0x00; 0x0C; 0x12; 0x10; 0x3C; 0x10; 0x10; 0x10; 0x10; 0x10; 0x00; 0x00; 0x00; 0x00; 0x00; 0x00]
  | 103 => [0x00; 0x00; 0x00; 0x00; 0x3B; 0x46; 0x42; 0x46; 0x3A; 0x02; 0x3C; 0x00; 0x00; 0x00; 0x00; 0x00]
  | 104 => [0x00; 0x40; 0x40; 0x40; 0x5C; 0x62; 0x42; 0x42; 0x42; 0x42; 0x00; 0x00; 0x00; 0x00; 0x00; 0x00]
  | 105 => [0x00; 0x10; 0x00; 0x00; 0x30; 0x10; 0x10; 0x10; 0x10; 0x38; 0x00; 0x00; 0x00; 0x00; 0x00; 0x00]
  | 106 => [0x00; 0x08; 0x00; 0x00; 0x18; 0x08; 0x08; 0x08; 0x08; 0x48; 0x30; 0x00; 0x00; 0x00; 0x00; 0x00]
  | 107 => [0x00; 0x40; 0x40; 0x40; 0x44; 0x48; 0x70; 0x48; 0x44; 0x42; 0x00; 0x00; 0x00; 0x00; 0x00; 0x00]
  | 108 => [0x00; 0x30; 0x10; 0x10; 0x10; 0x10; 0x10; 0x10; 0x10; 0x38; 0x00; 0x00; 0x00; 0x00; 0x00; 0x00]
  | 109 => [0x00; 0x00; 0x00; 0x00; 0x76; 0x49; 0x49; 0x49; 0x49; 0x49; 0x00; 0x00; 0x00; 0x00; 0x00; 0x00]
  | 110 => [0x00; 0x00; 0x00; 0x00; 0x5C; 0x62; 0x42; 0x42; 0x42; 0x42; 0x00; 0x00; 0x00; 0x00; 0x00; 0x00]
  | 111 => [0x00; 0x00; 0x00; 0x00; 0x3C; 0x42; 0x42; 0x42; 0x42; 0x3C; 0x00; 0x00; 0x00; 0x00; 0x00; 0x00]
  | 112 => [0x00; 0x00; 0x00; 0x00; 0x5C; 0x62; 0x42; 0x62; 0x5C; 0x40; 0x40; 0x00; 0x00; 0x00; 0x00; 0x00]
  | 113 => [0x00; 0x00; 0x00; 0x00; 0x3A; 0x46; 0x42; 0x46; 0x3A; 0x02; 0x02; 0x00; 0x00; 0x00; 0x00; 0x00]
  | 114 => [0x00; 0x00; 0x00; 0x00; 0x2E; 0x30; 0x20; 0x20; 0x20; 0x20; 0x00; 0x00; 0x00; 0x00; 0x00; 0x00]
  | 115 => [0x00; 0x00; 0x00; 0x00; 0x3E; 0x40; 0x3C; 0x02; 0x42; 0x3C; 0x00; 0x00; 0x00; 0x00; 0x00; 0x00]
  | 116 => [0x00; 0x10; 0x10; 0x3C; 0x10; 0x10; 0x10; 0x10; 0x12; 0x0C; 0x00; 0x00; 0x00; 0x00; 0x00; 0x00]
  | 117 => [0x00; 0x00; 0x00; 0x00; 0x42; 0x42; 0x42; 0x42; 0x46; 0x3B; 0x00; 0x00; 0x00; 0x00; 0x00; 0x00]
  | 118 => [0x00; 0x00; 0x00; 0x00; 0x42; 0x42; 0x24; 0x24; 0x18; 0x18; 0x00; 0x00; 0x00; 0x00; 0x00; 0x00]
  | 119 => [0x00; 0x00; 0x00; 0x00; 0x42; 0x42; 0x5A; 0x5A; 0x66; 0x42; 0x00; 0x00; 0x00; 0x00; 0x00; 0x00]
  | 120 => [0x00; 0x00; 0x00; 0x00; 0x42; 0x24; 0x18; 0x18; 0x24; 0x42; 0x00; 0x00; 0x00; 0x00; 0x00; 0x00]
  | 121 => [0x00; 0x00; 0x00; 0x00; 0x42; 0x42; 0x46; 0x3A; 0x02; 0x3C; 0x00; 0x00; 0x00; 0x00; 0x00; 0x00]
  | 122 => [0x00; 0x00; 0x00; 0x00; 0x3E; 0x04; 0x08; 0x10; 0x20; 0x3E; 0x00; 0x00; 0x00; 0x00; 0x00; 0x00]
  | 48 => [0x00; 0x3C; 0x42; 0x46; 0x4A; 0x52; 0x62; 0x42; 0x42; 0x42; 0x3C; 0x00; 0x00; 0x00; 0x00; 0x00]
  | 49 => [0x00; 0x18; 0x28; 0x08; 0x08; 0x08; 0x08; 0x08; 0x08; 0x08; 0x3E; 0x00; 0x00; 0x00; 0x00; 0x00]
  | 50 => [0x00; 0x3C; 0x42; 0x02; 0x04; 0x08; 0x10; 0x20; 0x40; 0x40; 0x7E; 0x00; 0x00; 0x00; 0x00; 0x00]
  | 51 => [0x00; 0x3C; 0x42; 0x02; 0x02; 0x1C; 0x02; 0x02; 0x02; 0x42; 0x3C; 0x00; 0x00; 0x00; 0x00; 0x00]
  | 52 => [0x00; 0x08; 0x18; 0x28; 0x48; 0x48; 0x7E; 0x08; 0x08; 0x08; 0x08; 0x00; 0x00; 0x00; 0x00; 0x00]
  | 53 => [0x00; 0x7E; 0x40; 0x40; 0x7C; 0x02; 0x02; 0x02; 0x02; 0x42; 0x3C; 0x00; 0x00; 0x00; 0x00; 0x00]
  | 54 => [0x00; 0x1C; 0x20; 0x40; 0x7C; 0x42; 0x42; 0x42; 0x42; 0x42; 0x3C; 0x00; 0x00; 0x00; 0x00; 0x00]
  | 55 => [0x00; 0x7E; 0x02; 0x04; 0x04; 0x08; 0x08; 0x10; 0x10; 0x10; 0x10; 0x00; 0x00; 0x00; 0x00; 0x00]
  | 56 => [0x00; 0x3C; 0x42; 0x42; 0x42; 0x3C; 0x42; 0x42; 0x42; 0x42; 0x3C; 0x00; 0x00; 0x00; 0x00; 0x00]
  | 57 => [0x00; 0x3C; 0x42; 0x42; 0x42; 0x42; 0x3E; 0x02; 0x02; 0x04; 0x38; 0x00; 0x00; 0x00; 0x00; 0x00]
  | 32 => replicate 16 0
  | 45 => [0x00; 0x00; 0x00; 0x00; 0x00; 0x7E; 0x00; 0x00; 0x00; 0x00; 0x00; 0x00; 0x00; 0x00; 0x00; 0x00]
  | 43 => [0x00; 0x00; 0x08; 0x08; 0x3E; 0x08; 0x08; 0x00; 0x00; 0x00; 0x00; 0x00; 0x00; 0x00; 0x00; 0x00]
  | 61 => [0x00; 0x00; 0x00; 0x3E; 0x00; 0x3E; 0x00; 0x00; 0x00; 0x00; 0x00; 0x00; 0x00; 0x00; 0x00; 0x00]
  | 58 => [0x00; 0x00; 0x18; 0x18; 0x00; 0x00; 0x18; 0x18; 0x00; 0x00; 0x00; 0x00; 0x00; 0x00; 0x00; 0x00]
  | 46 => [0x00; 0x00; 0x00; 0x00; 0x00; 0x00; 0x00; 0x00; 0x18; 0x18; 0x00; 0x00; 0x00; 0x00; 0x00; 0x00]
  | 47 => [0x00; 0x02; 0x04; 0x08; 0x10; 0x20; 0x40; 0x00; 0x00; 0x00; 0x00; 0x00; 0x00; 0x00; 0x00; 0x00]
  | 62 => [0x00; 0x20; 0x10; 0x08; 0x04; 0x02; 0x04; 0x08; 0x10; 0x20; 0x00; 0x00; 0x00; 0x00; 0x00; 0x00]
  | 40 => [0x00; 0x08; 0x10; 0x20; 0x20; 0x20; 0x20; 0x20; 0x10; 0x08; 0x00; 0x00; 0x00; 0x00; 0x00; 0x00]
  | 41 => [0x00; 0x20; 0x10; 0x08; 0x08; 0x08; 0x08; 0x08; 0x10; 0x20; 0x00; 0x00; 0x00; 0x00; 0x00; 0x00]
  | _ => [0x00; 0x7E; 0x42; 0x42; 0x42; 0x42; 0x42; 0x42; 0x42; 0x42; 0x7E; 0x00; 0x00; 0x00; 0x00; 0x00]
  end.
Fixpoint draw_rows (c : Canvas) (glyph : list Z) (x y row color : Z) : outcome Canvas :=
  match glyph with
  | [] => Ret c
  | row_byte :: glyph' =>
      c ← for_range 0 8 (fun col c => if Z.land row_byte (Z.shiftr 0x80 col) =? 0 then Ret c else set_pixel c (u64_add x col) (u64_add y row) color) c;
      draw_rows c glyph' x y (row + 1) color
  end.
Definition draw_char (c : Canvas) (x y ch color : Z) : outcome Canvas := draw_rows c (get_glyph_8x16 ch) x y 0 color.
Fixpoint draw_string (c : Canvas) (x y : Z) (text : list Z) (color : Z) : outcome Canvas :=
  match text with
  | [] => Ret c
  | ch :: text' => if ch =? 10 then Ret c else c ← draw_char c x y ch color; draw_string c (u64_add x 8) y text' color
  end.

(** ** Painted pixels *)
Record canvas_ok (c : Canvas) : Prop := {
  ok_width : 0 <= width c < 2 ^ 31;
  ok_height : 0 <= height c < 2 ^ 31;
  ok_pixels : Z.of_nat (length (pixels c)) = width c * height c
}.
Definition pixel (c : Canvas) (x y : Z) : Z := default 0 (pixels c !! Z.to_nat (y * width c + x)).

(** [c'] is [c] with the pixels of the region changed by [g]. *)
Record paints (c c' : Canvas) (region : Z -> Z -> bool) (g : Z -> Z -> Z -> Z) : Prop := {
  p_ok : canvas_ok c';
  p_width : width c' = width c;
  p_height : height c' = height c;
  p_pixel : forall x y, 0 <= x < width c -> 0 <= y < height c -> pixel c' x y = if region x y then g x y (pixel c x y) else pixel c x y
}.

Lemma paints_nothing c region g : canvas_ok c -> (forall x y, 0 <= x < width c -> 0 <= y < height c -> region x y = false) -> paints c c region g.
Proof. intros Hc Hr. constructor; try done. intros x y Hx Hy. by rewrite Hr. Qed.

(** The same pixels, and the same colours there. *)
Lemma paints_ext c c' R R' g g' : paints c c' R g -> (forall x y, 0 <= x < width c -> 0 <= y < height c -> R x y = R' x y) ->
  (forall x y, 0 <= x < width c -> 0 <= y < height c -> R x y = true -> g x y (pixel c x y) = g' x y (pixel c x y)) -> paints c c' R' g'.
Proof.
  intros [P1 P2 P3 P4] HR Hg. constructor; try done. intros x y Hx Hy. rewrite (P4 x y Hx Hy), <- (HR x y Hx Hy). destruct (R x y) eqn:E; [by apply Hg|done].
Qed.

(** One colour over the other. *)
Lemma paints_union c c1 c2 R1 R2 v : paints c c1 R1 (fun _ _ _ => v) -> paints c1 c2 R2 (fun _ _ _ => v) -> paints c c2 (fun x y => R1 x y || R2 x y)%bool (fun _ _ _ => v).
Proof.
  intros [P1 P2 P3 P4] [Q1 Q2 Q3 Q4]. constructor; [done|congruence|congruence|]. intros x y Hx Hy. rewrite Q4, P4 by (rewrite ?P2, ?P3; done).
  by destruct (R1 x y), (R2 x y).
Qed.

Lemma xy_bounds c x y : canvas_ok c -> 0 <= x < width c -> 0 <= y < height c -> 0 <= y * width c + x < width c * height c /\ width c * height c < 2 ^ 62.
Proof. intros [H1 H2 H3] Hx Hy. nia. Qed.

Lemma xy_inj w x y x' y' : 0 <= x < w -> 0 <= x' < w -> y * w + x = y' * w + x' -> x = x' /\ y = y'.
Proof. intros Hx Hx' E. assert (y = y') by nia. subst. lia. Qed.

(** Storing at a pixel of the canvas. *)
Lemma put_paints c x y v : canvas_ok c -> 0 <= x < width c -> 0 <= y < height c ->
  exists c', put c (u64_add (u64_mul y (width c)) x) v = Ret c' /\ paints c c' (fun x' y' => (x' =? x) && (y' =? y))%bool (fun _ _ _ => v).
Proof.
  intros Hc Hx Hy. destruct (xy_bounds c x y Hc Hx Hy) as [Hb Hm]. pose proof Hc as [H1 H2 H3].
  rewrite u64_mul_small by nia. rewrite u64_add_small by lia. destruct (lookup_lt_is_Some_2 (pixels c) (Z.to_nat (y * width c + x))) as [o Ho]; [lia|].
  exists (with_pixels c (<[Z.to_nat (y * width c + x) := v]> (pixels c))). split.
  - unfold put. by rewrite store_Ret by lia.
  - constructor; [constructor; cbn; [done|done|by rewrite length_insert]|done|done|]. intros x' y' Hx' Hy'. unfold pixel. cbn [with_pixels pixels width].
    destruct ((x' =? x) && (y' =? y))%bool eqn:E.
    + apply andb_true_iff in E as [E1 E2]. apply Z.eqb_eq in E1, E2. subst. rewrite list_lookup_insert_eq by (by apply lookup_lt_Some in Ho). done.
    + rewrite list_lookup_insert_ne; [done|]. intros E2. pose proof (xy_bounds c x' y' Hc Hx' Hy') as Hb'. destruct (xy_inj (width c) x y x' y') as [-> ->]; [done|done|lia|].
      by rewrite !Z.eqb_refl in E.
Qed.

(** A loop whose bodies paint disjoint regions, told apart by [key]. *)
Lemma iter_paints n a body R g key c : canvas_ok c ->
  (forall i c', a <= i < a + Z.of_nat n -> canvas_ok c' -> width c' = width c -> height c' = height c -> exists c'', body i c' = Ret c'' /\ paints c' c'' (R i) g) ->
  (forall i x y, R i x y = true -> key x y = i) ->
  exists c', iter n a body c = Ret c' /\ paints c c' (fun x y => (a <=? key x y) && (key x y <? a + Z.of_nat n) && R (key x y) x y)%bool g.
Proof.
  revert a c. induction n as [|n IH]; intros a c Hc Hbody Hkey; cbn [iter].
  - exists c. split; [done|]. apply paints_nothing; [done|]. intros x y _ _. replace ((a <=? key x y) && (key x y <? a + Z.of_nat 0))%bool with false by lia. done.
  - destruct (Hbody a c ltac:(lia) Hc eq_refl eq_refl) as (c1 & -> & [P1 P2 P3 P4]). cbn [mbind outcome_bind].
    destruct (IH (a + 1) c1 P1) as (c2 & -> & [Q1 Q2 Q3 Q4]); [|done|].
    + intros i c' Hi Hc' Hw Hh. apply Hbody; [lia|done|congruence|congruence].
    + exists c2. split; [done|]. constructor; [done|congruence|congruence|]. intros x y Hx Hy. rewrite Q4, P4 by (rewrite ?P2, ?P3; done).
      destruct (R a x y) eqn:Ea.
      * pose proof (Hkey a x y Ea) as Hk. rewrite Hk, Ea. rewrite (proj2 (Z.leb_gt (a + 1) a)), (proj2 (Z.leb_le a a)), (proj2 (Z.ltb_lt a (a + Z.of_nat (S n)))) by lia. done.
      * destruct (decide (key x y = a)) as [->|Hne]; [by rewrite Ea, !andb_false_r|].
        replace (a + 1 <=? key x y) with (a <=? key x y) by lia. by replace (key x y <? a + 1 + Z.of_nat n) with (key x y <? a + Z.of_nat (S n)) by lia.
Qed.

Lemma for_range_paints a b body R g key c : canvas_ok c ->
  (forall i c', a <= i < b -> canvas_ok c' -> width c' = width c -> height c' = height c -> exists c'', body i c' = Ret c'' /\ paints c' c'' (R i) g) ->
  (forall i x y, R i x y = true -> key x y = i) ->
  exists c', for_range a b body c = Ret c' /\ paints c c' (fun x y => (a <=? key x y) && (key x y <? b) && R (key x y) x y)%bool g.
Proof.
  intros Hc Hbody Hkey. unfold for_range. destruct (iter_paints (Z.to_nat (b - a)) a body R g key c Hc) as (c' & E & P); [|done|].
  - intros i c' Hi. apply Hbody. lia.
  - exists c'. split; [done|]. apply (paints_ext _ _ _ _ _ _ P); [|done]. intros x y _ _. destruct (R (key x y) x y); rewrite ?andb_true_r, ?andb_false_r; [|done]. lia.
Qed.

(** ** Rectangles *)
Definition rect (x y w h px py : Z) : bool := ((x <=? px) && (px <? x + w) && (y <=? py) && (py <? y + h))%bool.

(** A row, and rows one below the other. *)
Lemma row_paints c py a b body g : canvas_ok c -> 0 <= py < height c -> 0 <= a -> b <= width c ->
  (forall px c', a <= px < b -> canvas_ok c' -> width c' = width c -> height c' = height c -> exists c'', body px c' = Ret c'' /\ paints c' c'' (fun x y => (x =? px) && (y =? py))%bool g) ->
  exists c', for_range a b body c = Ret c' /\ paints c c' (fun x y => (a <=? x) && (x <? b) && (y =? py))%bool g.
Proof.
  intros Hc Hy Ha Hb Hbody. destruct (for_range_paints a b body (fun px x y => (x =? px) && (y =? py))%bool g (fun x _ => x) c Hc Hbody) as (c' & E & P); [intros i x y; lia|].
  exists c'. split; [done|]. apply (paints_ext _ _ _ _ _ _ P); [|done]. intros x y _ _. by rewrite Z.eqb_refl.
Qed.

Lemma rows_paint c y0 y1 body inside g : canvas_ok c -> 0 <= y0 -> y1 <= height c ->
  (forall py c', y0 <= py < y1 -> canvas_ok c' -> width c' = width c -> height c' = height c -> exists c'', body py c' = Ret c'' /\ paints c' c'' (fun x y => inside py x && (y =? py))%bool g) ->
  exists c', for_range y0 y1 body c = Ret c' /\ paints c c' (fun x y => (y0 <=? y) && (y <? y1) && inside y x)%bool g.
Proof.
  intros Hc H0 H1 Hbody. destruct (for_range_paints y0 y1 body (fun py x y => inside py x && (y =? py))%bool g (fun _ y => y) c Hc Hbody) as (c' & E & P); [intros i x y; lia|].
  exists c'. split; [done|]. apply (paints_ext _ _ _ _ _ _ P); [|done]. intros x y _ _. by rewrite Z.eqb_refl, andb_true_r.
Qed.

(** Solid rows. *)
Lemma solid_row c py a b v : canvas_ok c -> 0 <= py < height c -> 0 <= a -> b <= width c ->
  exists c', for_range a b (fun px c' => put c' (u64_add (u64_mul py (width c)) px) v) c = Ret c' /\ paints c c' (fun x y => (a <=? x) && (x <? b) && (y =? py))%bool (fun _ _ _ => v).
Proof.
  intros Hc Hy Ha Hb. apply row_paints; [done..|]. intros px c' Hpx Hc' Hw Hh. rewrite <- Hw. apply put_paints; [done|lia|lia].
Qed.

Definition fits (x y w h : Z) : Prop := 0 <= x /\ 0 <= y /\ 0 <= w /\ 0 <= h /\ x + w < 2 ^ 64 /\ y + h < 2 ^ 64.

Lemma fill_rect_paints c x y w h v : canvas_ok c -> fits x y w h -> exists c', fill_rect c x y w h v = Ret c' /\ paints c c' (rect x y w h) (fun _ _ _ => v).
Proof.
  intros Hc (Hx & Hy & Hw & Hh & Hxw & Hyh). unfold fill_rect. cbv zeta. rewrite !u64_add_small by lia.
  destruct (rows_paint c y (Z.min (y + h) (height c)) (fun py c0 => for_range x (Z.min (x + w) (width c)) (fun px c1 => put c1 (u64_add (u64_mul py (width c0)) px) v) c0)
    (fun _ px => (x <=? px) && (px <? Z.min (x + w) (width c)))%bool (fun _ _ _ => v) Hc Hy ltac:(lia)) as (c' & E & P).
  - intros py c0 Hpy Hc0 E1 E2. rewrite <- E1. apply solid_row; [done|lia|lia|lia].
  - exists c'. split; [done|]. apply (paints_ext _ _ _ _ _ _ P); [|done]. intros px py Hpx Hpy. unfold rect. lia.
Qed.

Lemma blend_paints c x y color alpha : canvas_ok c -> 0 <= x < width c -> 0 <= y < height c ->
  exists c', blend_pixel c x y color alpha = Ret c' /\ paints c c' (fun x' y' => (x' =? x) && (y' =? y))%bool (fun _ _ o => blend_colors color o alpha).
Proof.
  intros Hc Hx Hy. destruct (xy_bounds c x y Hc Hx Hy) as [Hb Hm]. pose proof Hc as [H1 H2 H3].
  unfold blend_pixel, in_canvas, at_xy. rewrite (proj2 (Z.ltb_lt _ _)), (proj2 (Z.ltb_lt y _)) by lia. cbn [andb].
  destruct (lookup_lt_is_Some_2 (pixels c) (Z.to_nat (y * width c + x))) as [o Ho]; [lia|].
  assert (Hi : index (pixels c) (u64_add (u64_mul y (width c)) x) = Ret o). { apply index_Ret. rewrite u64_mul_small, u64_add_small by nia. done. }
  rewrite Hi. cbn [mbind outcome_bind]. destruct (put_paints c x y (blend_colors color o alpha) Hc Hx Hy) as (c' & E & P). exists c'. split; [done|].
  apply (paints_ext _ _ _ _ _ _ P); [done|]. intros x' y' _ _ Hxy. assert (x' = x /\ y' = y) as [-> ->] by lia. unfold pixel. by rewrite Ho.
Qed.

Lemma fill_rect_alpha_paints c x y w h color alpha : canvas_ok c -> fits x y w h ->
  exists c', fill_rect_alpha c x y w h color alpha = Ret c' /\ paints c c' (rect x y w h) (fun _ _ o => blend_colors color o alpha).
Proof.
  intros Hc (Hx & Hy & Hw & Hh & Hxw & Hyh). unfold fill_rect_alpha. cbv zeta. rewrite !u64_add_small by lia.
  destruct (rows_paint c y (Z.min (y + h) (height c)) (fun py c0 => for_range x (Z.min (x + w) (width c)) (fun px c1 => blend_pixel c1 px py color alpha) c0)
    (fun _ px => (x <=? px) && (px <? Z.min (x + w) (width c)))%bool (fun _ _ o => blend_colors color o alpha) Hc Hy ltac:(lia)) as (c' & E & P).
  - intros py c0 Hpy Hc0 E1 E2. apply row_paints; [done|lia|lia|lia|]. intros px c1 Hpx Hc1 E3 E4. apply blend_paints; [done|lia|lia].
  - exists c'. split; [done|]. apply (paints_ext _ _ _ _ _ _ P); [|done]. intros px py Hpx Hpy. unfold rect. lia.
Qed.

Definition gradient (y h top bottom py : Z) : Z := blend_colors bottom top (wrap 8 ((py - y) * 255 / h)).
Lemma fill_gradient_paints c x y w h top bottom : canvas_ok c -> fits x y w h -> exists c', fill_gradient_v c x y w h top bottom = Ret c' /\ paints c c' (rect x y w h) (fun _ py _ => gradient y h top bottom py).
Proof.
  intros Hc (Hx & Hy & Hw & Hh & Hxw & Hyh). unfold fill_gradient_v. cbv zeta. destruct (Z.eqb_spec h 0) as [->|Hne]; [exists c; split; [done|]; apply paints_nothing; [done|unfold rect; lia]|].
  rewrite (u64_add_small x w), (u64_add_small y h) by lia. pose proof Hc as [H1 H2 H3].
  destruct (rows_paint c y (Z.min (y + h) (height c)) (fun py c0 => for_range x (Z.min (x + w) (width c)) (fun px c1 => put c1 (u64_add (u64_mul py (width c0)) px) (blend_colors bottom top (wrap 8 (u64_mul (u64_sub py y) 255 / h)))) c0)
    (fun _ px => (x <=? px) && (px <? Z.min (x + w) (width c)))%bool (fun _ py _ => gradient y h top bottom py) Hc Hy ltac:(lia)) as (c' & E & P).
  - intros py c0 Hpy Hc0 E1 E2. rewrite <- E1. rewrite (u64_sub_small py y) by lia. rewrite (u64_mul_small (py - y) 255) by lia.
    destruct (solid_row c0 py x (Z.min (x + w) (width c0)) (gradient y h top bottom py) Hc0 ltac:(lia) ltac:(lia) ltac:(lia)) as (c1 & E3 & P1). exists c1. split; [done|].
    apply (paints_ext _ _ _ _ _ _ P1); [done|]. intros px py' _ _ Hr. assert (py' = py) as -> by lia. done.
  - exists c'. split; [done|]. apply (paints_ext _ _ _ _ _ _ P); [|done]. intros px py Hpx Hpy. unfold rect. lia.
Qed.

(** ** The square root *)
Lemma newton_above val x : 0 <= val -> 0 < x -> Z.sqrt val <= (x + val / x) / 2.
Proof.
  intros Hv Hx. pose proof (Z.sqrt_spec val Hv) as [Hs _]. pose proof (Z.sqrt_nonneg val) as Hn. cbv zeta in Hs. set (s := Z.sqrt val) in *.
  assert (Hq : 2 * s - x <= val / x) by (pose proof (Z.square_nonneg (s - x)); apply Z.div_le_lower_bound; [exact Hx|nia]).
  apply Z.div_le_lower_bound; [lia|]. revert Hq. generalize (val / x). intros q Hq. lia.
Qed.

Lemma newton_spec fuel val x0 : 0 < val < 2 ^ 64 -> 0 < x0 < 2 ^ 63 -> Z.sqrt val <= x0 -> x0 <= Z.of_nat fuel -> newton (S fuel) val x0 ((x0 + val / x0) / 2) = Ret (Z.sqrt val).
Proof.
  intros Hv. revert x0. induction fuel as [|fuel IH]; intros x0 Hx Hs Hf; [lia|]. pose proof (Z.sqrt_spec val ltac:(lia)) as [Hq1 Hq2]. cbv zeta in Hq1, Hq2.
  assert (Hpos : 0 < Z.sqrt val) by (apply Z.sqrt_pos; lia). pose proof (newton_above val x0 ltac:(lia) ltac:(lia)) as Hx1.
  change (newton (S (S fuel)) val x0 ((x0 + val / x0) / 2)) with (if (x0 + val / x0) / 2 <? x0 then newton (S fuel) val ((x0 + val / x0) / 2) (u64_add ((x0 + val / x0) / 2) (val / ((x0 + val / x0) / 2)) / 2) else Ret x0).
  set (x1 := (x0 + val / x0) / 2) in *. destruct (Z.ltb_spec x1 x0) as [Hlt|Hge].
  - assert (Hd : 0 <= val / x1 < 2 ^ 63).
    { split; [apply Z.div_pos; lia|]. apply Z.div_lt_upper_bound; [lia|]. destruct (decide (x1 = 1)) as [E|]; [|lia]. rewrite E in *. assert (Z.sqrt val = 1) as Es by lia. rewrite Es in Hq2. lia. }
    rewrite u64_add_small by lia. apply IH; lia.
  - f_equal. assert (x0 * x0 <= val); [|apply Z.le_antisymm; [|done]; apply Z.sqrt_le_square; lia].
    assert (Hq : x0 <= val / x0). { assert (2 * x0 <= x0 + val / x0); [|lia]. pose proof (Z.mul_div_le (x0 + val / x0) 2 ltac:(lia)). unfold x1 in Hge. lia. }
    pose proof (Z.mul_div_le val x0 ltac:(lia)). nia.
Qed.

(** The root of every number is found. *)
Lemma integer_sqrt_spec val : in_u 64 val -> integer_sqrt val = Ret (Z.sqrt val).
Proof.
  intros Hv. unfold in_u in Hv. unfold integer_sqrt. destruct (Z.eqb_spec val 0) as [->|H0]; [done|]. cbv zeta. destruct (Z.eqb_spec (val / 2) 0) as [E|H1].
  - assert (val = 1) as -> by (pose proof (Z.div_mod val 2 ltac:(lia)); pose proof (Z.mod_pos_bound val 2 ltac:(lia)); lia). done.
  - assert (Hh : 0 < val / 2 < 2 ^ 63) by (split; [pose proof (Z.div_pos val 2); lia|apply Z.div_lt_upper_bound; lia]).
    pose proof (Z.div_mod val 2 ltac:(lia)) as Hdm. pose proof (Z.mod_pos_bound val 2 ltac:(lia)) as Hmb.
    assert (Hd : 0 <= val / (val / 2) <= val) by (split; [apply Z.div_pos; lia|apply Z.div_le_upper_bound; nia]).
    assert (Hd3 : val / (val / 2) <= 3) by (apply Z.lt_succ_r, Z.div_lt_upper_bound; lia).
    rewrite u64_add_small by lia. apply newton_spec; [lia|lia| |lia].
    destruct (decide (val < 4)); [assert (Z.sqrt val <= 1); [apply (Z.sqrt_le_mono val 3); lia|lia]|].
    apply Z.lt_succ_r. apply Z.sqrt_lt_square; [lia|lia|]. nia.
Qed.

(** ** Discs *)
Lemma isize_small x : - 2 ^ 63 <= x < 2 ^ 63 -> isize x = x.
Proof. intros Hx. unfold isize. rewrite Z.mod_small by lia. lia. Qed.

Lemma abs_le_sqrt a n : 0 <= n -> (Z.abs a <=? Z.sqrt n) = (a * a <=? n).
Proof.
  intros Hn. pose proof (Z.sqrt_spec n Hn) as [H1 H2]. cbv zeta in H1, H2. pose proof (Z.sqrt_nonneg n) as H0. pose proof (Z.abs_square a) as Hsq.
  destruct (Z.leb_spec (Z.abs a) (Z.sqrt n)) as [Hl|Hl]; symmetry; [apply Z.leb_le; nia|apply Z.leb_gt].
  assert (Z.succ (Z.sqrt n) * Z.succ (Z.sqrt n) <= Z.abs a * Z.abs a) by (apply Z.square_le_mono_nonneg; lia). lia.
Qed.

Lemma square_le a r : - r <= a <= r -> a * a <= r * r.
Proof. intros Ha. nia. Qed.
Lemma square_lt a r : 0 <= r -> a < - r \/ r < a -> r * r < a * a.
Proof. intros Hr Ha. nia. Qed.

Definition disc (cx cy r px py : Z) : bool := (px - cx) * (px - cx) + (py - cy) * (py - cy) <=? r * r.

(** The columns of a disc in a row. *)
Definition span (cx cy r py px : Z) : bool := Z.abs (px - cx) <=? Z.sqrt (r * r - (py - cy) * (py - cy)).
Lemma span_disc cx cy r px py : cy - r <= py <= cy + r -> 0 <= r -> span cx cy r py px = disc cx cy r px py.
Proof. intros Hy Hr. unfold span, disc. pose proof (square_le (py - cy) r ltac:(lia)). rewrite abs_le_sqrt by lia. lia. Qed.

Lemma fill_circle_paints c cx cy r v : canvas_ok c -> -1 <= cx < 2 ^ 31 -> 0 <= r < 2 ^ 31 -> -1 - r <= cy < 2 ^ 31 ->
  exists c', fill_circle c cx cy r v = Ret c' /\ paints c c' (disc cx cy r) (fun _ _ _ => v).
Proof.
  intros Hc Hcx Hr Hcy. pose proof Hc as [H1 H2 H3]. unfold fill_circle. cbv zeta.
  assert (Hr2 : 0 <= r * r < 2 ^ 62) by nia.
  rewrite (isize_small (r * r)), (isize_small (cy - r)), (isize_small (cy + r)), (isize_small (cy + r + 1)), (isize_small (height c)), !(wrap_small 64) by (unfold in_u; lia).
  destruct (rows_paint c (Z.max (cy - r) 0) (Z.min (cy + r + 1) (height c)) (fun py c0 =>
    root ← integer_sqrt (wrap 64 (Z.max (isize (r * r - isize (isize (isize py - cy) * isize (isize py - cy)))) 0));
    for_range (wrap 64 (Z.max (isize (cx - isize root)) 0)) (wrap 64 (Z.min (isize (isize (cx + isize root) + 1)) (isize (width c0)))) (fun px c1 => put c1 (u64_add (u64_mul py (width c0)) px) v) c0)
    (span cx cy r) (fun _ _ _ => v) Hc ltac:(lia) ltac:(lia)) as (c' & E & P).
  - intros py c0 Hpy Hc0 E1 E2. pose proof (square_le (py - cy) r ltac:(lia)) as Hdy. pose proof (Z.square_nonneg (py - cy)) as Hdy0.
    rewrite (isize_small py), (isize_small (py - cy)), (isize_small ((py - cy) * (py - cy))), (isize_small (r * r - (py - cy) * (py - cy))), Z.max_l, wrap_small by (unfold in_u; lia).
    rewrite integer_sqrt_spec by (unfold in_u; lia). cbn [mbind outcome_bind]. remember (Z.sqrt (r * r - (py - cy) * (py - cy))) as d eqn:Ed.
    assert (Hd : 0 <= d <= r). { rewrite Ed. split; [apply Z.sqrt_nonneg|]. transitivity (Z.sqrt (r * r)); [apply Z.sqrt_le_mono; lia|rewrite Z.sqrt_square; lia]. }
    rewrite (isize_small d), (isize_small (cx - d)), (isize_small (cx + d)), (isize_small (cx + d + 1)), (isize_small (width c0)), !(wrap_small 64) by (unfold in_u; lia).
    destruct (solid_row c0 py (Z.max (cx - d) 0) (Z.min (cx + d + 1) (width c0)) v Hc0 ltac:(lia) ltac:(lia) ltac:(lia)) as (c1 & E3 & P1). exists c1. split; [exact E3|].
    apply (paints_ext _ _ _ _ _ _ P1); [|done]. intros px py' Hpx _. destruct (Z.eqb_spec py' py) as [->|]; [|by rewrite !andb_false_r]. unfold span. rewrite <- Ed. lia.
  - exists c'. split; [exact E|]. apply (paints_ext _ _ _ _ _ _ P); [|done]. intros px py Hpx Hpy.
    destruct (decide (cy - r <= py <= cy + r)) as [Hin|Hout]; [rewrite (span_disc _ _ _ _ _ Hin) by lia; lia|].
    replace ((Z.max (cy - r) 0 <=? py) && (py <? Z.min (cy + r + 1) (height c)))%bool with false by lia. cbn [andb]. symmetry. apply Z.leb_gt. pose proof (square_lt (py - cy) r ltac:(lia) ltac:(lia)). pose proof (Z.square_nonneg (px - cx)). lia.
Qed.
End Canvas.
