(* ===== verification/Shapes.v ===== *)
(** * Shapes on the canvas (src/src/drivers/framebuffer.rs)

    The rounded rectangles, outlines and text of [Canvas].  Whatever its corners, a
    shape that starts on the canvas is drawn without a panic; the solid and the
    translucent rounded rectangle agree, except when the corners take up the whole
    width; a disc beyond the left edge runs over the end of the pixels. *)

From Stdlib Require Import ZifyBool.
From stdpp Require Import prelude numbers list strings.
From S2P Require Import Prelude Canvas.
Import Canvas.

Module Shapes.

(** ** Canvases are their pixels *)
Lemma canvas_ext c1 c2 : canvas_ok c1 -> canvas_ok c2 -> width c1 = width c2 -> height c1 = height c2 ->
  (forall x y, 0 <= x < width c1 -> 0 <= y < height c1 -> pixel c1 x y = pixel c2 x y) -> c1 = c2.
Proof.
  intros [A1 A2 A3] [B1 B2 B3] Hw Hh Hp. destruct c1 as [w h l1], c2 as [w2 h2 l2]. cbn in *. subst w2 h2. f_equal.
  apply (list_eq_same_length _ _ (length l1)); [lia|done|]. intros i a b Hi Ha Hb. destruct (decide (w = 0)) as [->|Hw0]; [lia|].
  pose proof (Z.div_mod (Z.of_nat i) w ltac:(lia)) as Hdm. pose proof (Z.mod_pos_bound (Z.of_nat i) w ltac:(lia)) as Hm.
  assert (Hq : 0 <= Z.of_nat i / w < h) by (split; [apply Z.div_pos; lia|apply Z.div_lt_upper_bound; lia]).
  specialize (Hp (Z.of_nat i mod w) (Z.of_nat i / w) Hm Hq). unfold pixel in Hp. cbn in Hp. replace (Z.to_nat (Z.of_nat i / w * w + Z.of_nat i mod w)) with i in Hp by lia.
  rewrite Ha, Hb in Hp. done.
Qed.

Lemma isize_wrap x : - 2 ^ 63 <= x < 2 ^ 63 -> isize (wrap 64 x) = x.
Proof. intros Hx. unfold isize, wrap. rewrite Z.add_mod_idemp_l by lia. rewrite Z.mod_small by lia. lia. Qed.

(** ** Rounded rectangles *)
Definition small (x y w h : Z) : Prop := 0 <= x /\ 0 <= y /\ 0 <= w /\ 0 <= h /\ x + w < 2 ^ 31 /\ y + h < 2 ^ 31.
Definition clamped (w h r : Z) : Z := Z.min (Z.min r (w / 2)) (h / 2).

Lemma clamped_bounds w h r : 0 <= w -> 0 <= h -> 0 <= r -> 0 <= clamped w h r /\ 2 * clamped w h r <= w /\ 2 * clamped w h r <= h.
Proof. intros Hw Hh Hr. unfold clamped. pose proof (Z.mul_div_le w 2). pose proof (Z.mul_div_le h 2). pose proof (Z.div_pos w 2). pose proof (Z.div_pos h 2). lia. Qed.

(** What the three bars and the four discs cover. *)
Definition bars_and_discs (x y w h r px py : Z) : bool :=
  (rect x (y + r) w (h - 2 * r) px py || rect (x + r) y (w - 2 * r) r px py || rect (x + r) (y + h - r) (w - 2 * r) r px py ||
   disc (x + r) (y + r) r px py || disc (x + w - r - 1) (y + r) r px py || disc (x + r) (y + h - r - 1) r px py || disc (x + w - r - 1) (y + h - r - 1) r px py)%bool.

Lemma fill_rounded_rect_paints c x y w h r v : canvas_ok c -> small x y w h -> 0 < r ->
  exists c', fill_rounded_rect c x y w h r v = Ret c' /\ paints c c' (bars_and_discs x y w h (clamped w h r)) (fun _ _ _ => v).
Proof.
  intros Hc (Hx & Hy & Hw & Hh & Hxw & Hyh) Hr. unfold fill_rounded_rect. rewrite (proj2 (Z.eqb_neq r 0)) by lia. fold (clamped w h r). cbv zeta.
  pose proof (clamped_bounds w h r Hw Hh ltac:(lia)) as (Hk0 & Hkw & Hkh). revert Hk0 Hkw Hkh. generalize (clamped w h r). intros k Hk0 Hkw Hkh.
  rewrite !(u64_mul_small 2 k), !(u64_sub_small w), !(u64_sub_small h), !(u64_add_small x k), !(u64_add_small y k), !(u64_add_small x w), !(u64_add_small y h), !(u64_sub_small (y + h) k), !(u64_sub_small (x + w) k) by lia.
  unfold u64_sub. rewrite !(isize_wrap _) by lia. rewrite (isize_small (x + k)), (isize_small (y + k)), (isize_small k) by lia.
  destruct (fill_rect_paints c x (y + k) w (h - 2 * k) v Hc) as (c1 & -> & P1); [unfold fits; lia|]. cbn [mbind outcome_bind].
  destruct (fill_rect_paints c1 (x + k) y (w - 2 * k) k v (p_ok _ _ _ _ P1)) as (c2 & -> & P2); [unfold fits; lia|]. cbn [mbind outcome_bind].
  destruct (fill_rect_paints c2 (x + k) (y + h - k) (w - 2 * k) k v (p_ok _ _ _ _ P2)) as (c3 & -> & P3); [unfold fits; lia|]. cbn [mbind outcome_bind].
  destruct (fill_circle_paints c3 (x + k) (y + k) k v (p_ok _ _ _ _ P3)) as (c4 & -> & P4); [lia..|]. cbn [mbind outcome_bind].
  destruct (fill_circle_paints c4 (x + w - k - 1) (y + k) k v (p_ok _ _ _ _ P4)) as (c5 & -> & P5); [lia..|]. cbn [mbind outcome_bind].
  destruct (fill_circle_paints c5 (x + k) (y + h - k - 1) k v (p_ok _ _ _ _ P5)) as (c6 & -> & P6); [lia..|]. cbn [mbind outcome_bind].
  destruct (fill_circle_paints c6 (x + w - k - 1) (y + h - k - 1) k v (p_ok _ _ _ _ P6)) as (c7 & -> & P7); [lia..|].
  exists c7. split; [done|]. exact (paints_union _ _ _ _ _ _ (paints_union _ _ _ _ _ _ (paints_union _ _ _ _ _ _ (paints_union _ _ _ _ _ _ (paints_union _ _ _ _ _ _ (paints_union _ _ _ _ _ _ P1 P2) P3) P4) P5) P6) P7).
Qed.

(** The rectangle without what lies outside the discs of its corners. *)
Definition rounded_corners (x y w h r px py : Z) : bool :=
  if ((px <? x + r) && (py <? y + r))%bool then disc (x + r) (y + r) r px py
  else if ((x + w - r <=? px) && (py <? y + r))%bool then disc (x + w - r - 1) (y + r) r px py
  else if ((px <? x + r) && (y + h - r <=? py))%bool then disc (x + r) (y + h - r - 1) r px py
  else if ((x + w - r <=? px) && (y + h - r <=? py))%bool then disc (x + w - r - 1) (y + h - r - 1) r px py
  else true.

Lemma disc_box cx cy r px py : 0 <= r -> disc cx cy r px py = true -> - r <= px - cx <= r /\ - r <= py - cy <= r.
Proof.
  unfold disc. intros Hr Hd. apply Z.leb_le in Hd. pose proof (Z.square_nonneg (px - cx)). pose proof (Z.square_nonneg (py - cy)). split.
  - destruct (decide (- r <= px - cx <= r)); [done|]. pose proof (square_lt (px - cx) r Hr ltac:(lia)). lia.
  - destruct (decide (- r <= py - cy <= r)); [done|]. pose proof (square_lt (py - cy) r Hr ltac:(lia)). lia.
Qed.

(** A disc whose centre is nearer contains the point too. *)
Lemma disc_nearer cx cy cx' cy' r px py : Z.abs (px - cx) <= Z.abs (px - cx') -> Z.abs (py - cy) <= Z.abs (py - cy') -> disc cx' cy' r px py = true -> disc cx cy r px py = true.
Proof.
  unfold disc. intros Hx Hy Hd. apply Z.leb_le in Hd. apply Z.leb_le. rewrite <- (Z.abs_square (px - cx)), <- (Z.abs_square (py - cy)).
  rewrite <- (Z.abs_square (px - cx')), <- (Z.abs_square (py - cy')) in Hd. pose proof (Z.square_le_mono_nonneg _ _ (Z.abs_nonneg (px - cx)) Hx). pose proof (Z.square_le_mono_nonneg _ _ (Z.abs_nonneg (py - cy)) Hy). lia.
Qed.

Lemma or_absorb (a b : bool) : (b = true -> a = true) -> (a || b)%bool = a.
Proof. destruct a, b; intros Hb; try done. by symmetry; apply Hb. Qed.

Lemma bars_and_discs_rounded x y w h r px py : 0 <= r -> 2 * r < w -> 2 * r < h -> bars_and_discs x y w h r px py = (rect x y w h px py && rounded_corners x y w h r px py)%bool.
Proof.
  intros Hr Hw Hh. unfold bars_and_discs.
  destruct (rect x y w h px py) eqn:Hrect; cbn [andb].
  2: { assert (Hd : forall cx cy, x + r <= cx <= x + w - r - 1 -> y + r <= cy <= y + h - r - 1 -> disc cx cy r px py = false).
       { intros cx cy Hcx Hcy. destruct (disc cx cy r px py) eqn:E; [|done]. apply disc_box in E; [|done]. unfold rect in Hrect. lia. }
       rewrite !Hd by lia. unfold rect in *. lia. }
  set (bars := (rect x (y + r) w (h - 2 * r) px py || rect (x + r) y (w - 2 * r) r px py || rect (x + r) (y + h - r) (w - 2 * r) r px py)%bool).
  assert (Hbars : (px < x + r \/ x + w - r <= px) -> (py < y + r \/ y + h - r <= py) -> bars = false) by (unfold bars, rect; lia).
  unfold rect in Hrect. unfold rounded_corners. destruct ((px <? x + r) && (py <? y + r))%bool eqn:E1; [|destruct ((x + w - r <=? px) && (py <? y + r))%bool eqn:E2; [|destruct ((px <? x + r) && (y + h - r <=? py))%bool eqn:E3; [|destruct ((x + w - r <=? px) && (y + h - r <=? py))%bool eqn:E4]]].
  - rewrite Hbars by lia. cbn [orb].
    rewrite (or_absorb (_ || _ || _)), (or_absorb (_ || _)), or_absorb; [done|..]; intros Hd; rewrite ?orb_true_iff; repeat left; eapply disc_nearer, Hd; lia.
  - rewrite Hbars by lia. cbn [orb].
    rewrite (or_absorb (_ || _ || _)), (or_absorb (_ || _)), orb_comm, or_absorb; [done|..]; intros Hd; rewrite ?orb_true_iff; try (left; right); try right; eapply disc_nearer, Hd; lia.
  - rewrite Hbars by lia. cbn [orb].
    rewrite (or_absorb (_ || _ || _)), (orb_comm (_ || _)), or_absorb; [done|..]; intros Hd; rewrite ?orb_true_iff in *; try right; [destruct Hd as [Hd|Hd]|]; eapply disc_nearer, Hd; lia.
  - rewrite Hbars by lia. cbn [orb].
    rewrite (orb_comm (_ || _ || _)), or_absorb; [done|]. intros Hd. rewrite !orb_true_iff in Hd. destruct Hd as [[Hd|Hd]|Hd]; eapply disc_nearer, Hd; lia.
  - replace bars with true by (unfold bars, rect; lia). done.
Qed.

Lemma rounded_spec x y w h r px py : small x y w h -> 0 <= r -> 2 * r <= w -> 2 * r <= h -> rect x y w h px py = true -> rounded x y w h r px py = rounded_corners x y w h r px py.
Proof.
  intros (Hx & Hy & Hw & Hh & Hxw & Hyh) Hr Hrw Hrh Hin. unfold rect in Hin. unfold rounded, rounded_corners. cbv zeta.
  rewrite (u64_add_small x w), (u64_add_small y h), (u64_add_small x r), (u64_add_small y r), !u64_sub_small by lia.
  assert (Hnear : forall cx cy, x <= cx < x + w -> y <= cy < y + h ->
    (isize (isize (isize (isize px - isize cx) * isize (isize px - isize cx)) + isize (isize (isize py - isize cy) * isize (isize py - isize cy))) <=? isize (u64_mul r r)) = disc cx cy r px py).
  { intros cx cy Hcx Hcy. pose proof (square_le (px - cx) (2 ^ 31 - 1) ltac:(lia)). pose proof (square_le (py - cy) (2 ^ 31 - 1) ltac:(lia)). pose proof (square_le r (2 ^ 31 - 1) ltac:(lia)).
    pose proof (Z.square_nonneg (px - cx)). pose proof (Z.square_nonneg (py - cy)). pose proof (Z.square_nonneg r).
    rewrite u64_mul_small by lia. rewrite (isize_small px), (isize_small py), (isize_small cx), (isize_small cy), (isize_small (px - cx)), (isize_small (py - cy)) by lia.
    rewrite !isize_small by (rewrite ?isize_small; lia). done. }
  destruct ((px <? x + r) && (py <? y + r))%bool eqn:E1; [apply Hnear; lia|]. destruct ((x + w - r <=? px) && (py <? y + r))%bool eqn:E2; [apply Hnear; lia|].
  destruct ((px <? x + r) && (y + h - r <=? py))%bool eqn:E3; [apply Hnear; lia|]. destruct ((x + w - r <=? px) && (y + h - r <=? py))%bool eqn:E4; [apply Hnear; lia|done].
Qed.

Lemma fill_rounded_rect_alpha_paints c x y w h r color alpha : canvas_ok c -> small x y w h -> 0 <= r ->
  exists c', fill_rounded_rect_alpha c x y w h r color alpha = Ret c' /\
    paints c c' (fun px py => rect x y w h px py && rounded_corners x y w h (clamped w h r) px py)%bool (fun _ _ o => blend_colors color o alpha).
Proof.
  intros Hc Hs Hr. pose proof Hs as (Hx & Hy & Hw & Hh & Hxw & Hyh). unfold fill_rounded_rect_alpha. cbv zeta. rewrite (u64_add_small x w), (u64_add_small y h) by lia. fold (clamped w h r).
  pose proof (clamped_bounds w h r Hw Hh Hr) as (Hk0 & Hkw & Hkh). revert Hk0 Hkw Hkh. generalize (clamped w h r). intros k Hk0 Hkw Hkh.
  destruct (rows_paint c y (Z.min (y + h) (height c)) (fun py c0 => for_range x (Z.min (x + w) (width c)) (fun px c1 => if rounded x y w h k px py then blend_pixel c1 px py color alpha else Ret c1) c0)
    (fun py px => (x <=? px) && (px <? Z.min (x + w) (width c)) && rounded x y w h k px py)%bool (fun _ _ o => blend_colors color o alpha) Hc Hy ltac:(lia)) as (c' & E & P).
  - intros py c0 Hpy Hc0 E1 E2.
    destruct (for_range_paints x (Z.min (x + w) (width c)) (fun px c1 => if rounded x y w h k px py then blend_pixel c1 px py color alpha else Ret c1) (fun px x' y' => rounded x y w h k px py && (x' =? px) && (y' =? py))%bool (fun _ _ o => blend_colors color o alpha) (fun x' _ => x') c0 Hc0) as (c1 & E3 & P1).
    + intros px c1 Hpx Hc1 E3 E4. destruct (rounded x y w h k px py); [apply blend_paints; [done|lia|lia]|]. exists c1. split; [done|]. apply paints_nothing; [done|]. done.
    + intros px x' y' Hb. lia.
    + exists c1. split; [done|]. apply (paints_ext _ _ _ _ _ _ P1); [|done]. intros x' y' _ _. rewrite Z.eqb_refl, andb_true_r. by rewrite andb_assoc.
  - exists c'. split; [done|]. apply (paints_ext _ _ _ _ _ _ P); [|done]. intros px py Hpx Hpy. destruct (rect x y w h px py) eqn:Hin.
    + rewrite (rounded_spec _ _ _ _ _ _ _ Hs Hk0 Hkw Hkh Hin). unfold rect in Hin. destruct (rounded_corners x y w h k px py); lia.
    + cbn [andb]. unfold rect in Hin. destruct (rounded x y w h k px py); lia.
Qed.

(** Blending at full opacity is the colour itself. *)
Lemma blend_opaque color bg : 0 <= color < 2 ^ 24 -> blend_colors color bg 255 = color.
Proof.
  intros Hc. unfold blend_colors. assert (Hm : forall f b, in_u 8 f -> mix f b 255 = f).
  { intros f b Hf. unfold mix. replace (f * 255 + b * (255 - 255)) with (f * 255) by lia. rewrite Z.div_mul by lia. by apply wrap_small. }
  assert (H8 : forall z, in_u 8 (wrap 8 z)) by (intros z; apply in_u_mod; lia). rewrite !Hm by (unfold red, green, blue; apply H8).
  assert (Hand : forall z, wrap 8 (Z.land z 0xFF) = z mod 2 ^ 8) by (intros z; change 0xFF with (Z.ones 8); rewrite Z.land_ones by lia; unfold wrap; apply Z.mod_mod; lia).
  unfold red, green, blue. rewrite !Hand, !Z.shiftr_div_pow2 by lia. rewrite (Z.mod_small (color / 2 ^ 16)) by (split; [apply Z.div_pos; lia|apply Z.div_lt_upper_bound; lia]).
  unfold rgb. rewrite !Z.shiftl_mul_pow2 by lia. pose proof (Z.mod_pos_bound color (2 ^ 8) ltac:(lia)). pose proof (Z.mod_pos_bound (color / 2 ^ 8) (2 ^ 8) ltac:(lia)).
  rewrite (Z.lor_comm (_ * 2 ^ 16)), (lor_low_high (color / 2 ^ 8 mod 2 ^ 8 * 2 ^ 8)) by lia.
  replace (color / 2 ^ 8 mod 2 ^ 8 * 2 ^ 8 + color / 2 ^ 16 * 2 ^ 16) with ((color / 2 ^ 8) * 2 ^ 8).
  - rewrite Z.lor_comm, lor_low_high by lia. pose proof (Z.div_mod color (2 ^ 8) ltac:(lia)). lia.
  - change (2 ^ 16) with (2 ^ 8 * 2 ^ 8). rewrite <- Z.div_div by lia. pose proof (Z.div_mod (color / 2 ^ 8) (2 ^ 8) ltac:(lia)). lia.
Qed.

(** The solid rounded rectangle, put together from three bars and four discs whose columns
    come from the integer square root, and the translucent one, which tests every pixel, are the
    same drawing at full opacity, for every canvas and every rectangle whose corners leave a
    part of the sides straight; neither indexes outside the pixels. *)
Theorem rounded_rects_agree c x y w h r color : canvas_ok c -> small x y w h -> 0 <= r -> 2 * clamped w h r < w -> 2 * clamped w h r < h -> 0 <= color < 2 ^ 24 ->
  exists c', fill_rounded_rect c x y w h r color = Ret c' /\ fill_rounded_rect_alpha c x y w h r color 255 = Ret c' /\
    paints c c' (fun px py => rect x y w h px py && rounded_corners x y w h (clamped w h r) px py)%bool (fun _ _ _ => color).
Proof.
  intros Hc Hs Hr Hw Hh Hcol. destruct (fill_rounded_rect_alpha_paints c x y w h r color 255 Hc Hs Hr) as (c2 & E2 & P2).
  apply (paints_ext _ _ _ (fun px py => rect x y w h px py && rounded_corners x y w h (clamped w h r) px py)%bool _ (fun _ _ _ => color)) in P2; [|done|intros; by apply blend_opaque].
  assert (P1 : exists c1, fill_rounded_rect c x y w h r color = Ret c1 /\ paints c c1 (fun px py => rect x y w h px py && rounded_corners x y w h (clamped w h r) px py)%bool (fun _ _ _ => color)).
  { pose proof Hs as (Hx & Hy & Hw0 & Hh0 & Hxw & Hyh). pose proof (clamped_bounds w h r Hw0 Hh0 Hr) as (Hk0 & _ & _). destruct (decide (r = 0)) as [->|Hr0].
    - destruct (fill_rect_paints c x y w h color Hc) as (c1 & E1 & P1); [unfold fits; lia|]. exists c1. split; [done|]. apply (paints_ext _ _ _ _ _ _ P1); [|done].
      intros px py _ _. destruct (rect x y w h px py) eqn:Hin; [|done]. symmetry. cbn [andb]. unfold rect in Hin. assert (clamped w h 0 = 0) as -> by (unfold clamped; pose proof (Z.div_pos w 2); pose proof (Z.div_pos h 2); lia).
      unfold rounded_corners. repeat case_match; lia || done.
    - destruct (fill_rounded_rect_paints c x y w h r color Hc Hs ltac:(lia)) as (c1 & E1 & P1). exists c1. split; [done|]. apply (paints_ext _ _ _ _ _ _ P1); [|done].
      intros px py _ _. by apply bars_and_discs_rounded. }
  destruct P1 as (c1 & E1 & P1). assert (c1 = c2) as ->; [|by exists c2].
  apply canvas_ext; [apply P1|apply P2|rewrite (p_width _ _ _ _ P1); symmetry; apply P2|rewrite (p_height _ _ _ _ P1); symmetry; apply P2|].
  intros px py Hpx Hpy. rewrite (p_width _ _ _ _ P1) in Hpx. rewrite (p_height _ _ _ _ P1) in Hpy. by rewrite (p_pixel _ _ _ _ P1), (p_pixel _ _ _ _ P2).
Qed.

Definition demo : Canvas := new 12 10.
Lemma demo_ok : canvas_ok demo.
Proof. constructor; [done|done|reflexivity]. Qed.
Lemma rounded_rects_witness : exists c', fill_rounded_rect demo 1 1 9 7 2 AURA_CYAN = Ret c' /\ pixel c' 1 1 = 0 /\ pixel c' 2 2 = AURA_CYAN /\ pixel c' 10 3 = 0.
Proof.
  destruct (rounded_rects_agree demo 1 1 9 7 2 AURA_CYAN demo_ok) as (c' & E & _ & P); [unfold small; lia|lia|by_compute|by_compute|done|].
  exists c'. split; [exact E|]. rewrite (p_pixel _ _ _ _ P 1 1), (p_pixel _ _ _ _ P 2 2), (p_pixel _ _ _ _ P 10 3) by (unfold demo, new; cbn [width height]; lia). vm_compute. repeat split.
Defined.

(** When the corners take up the whole width of a rounded rectangle, the disc of the left
    corners reaches one column beyond it. *)
Theorem rounded_rect_overhangs c x y w h r color : canvas_ok c -> small x y w h -> 0 < r -> w = 2 * r -> w <= h -> x + w < width c -> y + r < height c ->
  exists c', fill_rounded_rect c x y w h r color = Ret c' /\ pixel c' (x + w) (y + r) = color /\ rect x y w h (x + w) (y + r) = false.
Proof.
  intros Hc Hs Hr Hw Hh Hxw Hyr. destruct (fill_rounded_rect_paints c x y w h r color Hc Hs Hr) as (c' & E & P). pose proof Hs as (Hx & Hy & _).
  assert (Hk : clamped w h r = r). { unfold clamped. subst w. rewrite Z.mul_comm, Z.div_mul by lia. assert (r <= h / 2) by (apply Z.div_le_lower_bound; lia). lia. }
  exists c'. split; [done|]. split; [|unfold rect; lia]. rewrite (p_pixel _ _ _ _ P) by lia. rewrite Hk.
  assert (bars_and_discs x y w h r (x + w) (y + r) = true) as ->; [|done]. unfold bars_and_discs.
  replace (disc (x + r) (y + r) r (x + w) (y + r)) with true; [by rewrite !orb_true_r|]. symmetry. apply Z.leb_le. subst w. nia.
Qed.
Lemma rounded_rect_overhangs_witness : exists c', fill_rounded_rect demo 1 1 4 4 2 AURA_CYAN = Ret c' /\ pixel c' 5 3 = AURA_CYAN /\ rect 1 1 4 4 5 3 = false.
Proof. apply (rounded_rect_overhangs demo 1 1 4 4 2 AURA_CYAN demo_ok); try (unfold small, demo, new; cbn [width height]; lia). Defined.

(** A row that is longer than the rest of the pixels. *)
Lemma iter_put_panics n i row v c : 0 <= row -> 0 <= i -> row + i <= Z.of_nat (length (pixels c)) < row + i + Z.of_nat n -> Z.of_nat (length (pixels c)) < 2 ^ 63 ->
  iter n i (fun px c' => put c' (u64_add row px) v) c = Panic.
Proof.
  revert i c. induction n as [|n IH]; intros i c Hr Hi Hl Hb; [lia|]. cbn [iter]. rewrite (u64_add_small row i) by lia.
  destruct (decide (row + i < Z.of_nat (length (pixels c)))) as [Hlt|Hge].
  - assert (put c (row + i) v = Ret (with_pixels c (<[Z.to_nat (row + i) := v]> (pixels c)))) as -> by (unfold put; by rewrite store_Ret by lia).
    cbn [mbind outcome_bind]. apply IH; cbn [with_pixels pixels]; rewrite ?length_insert; lia.
  - assert (put c (row + i) v = Panic) as -> by (unfold put, store; by rewrite lookup_ge_None_2 by lia). done.
Qed.

(** A disc that lies wholly to the left of the canvas makes the drawing panic as soon as
    one of its rows is on the canvas: the end of the row is negative and becomes a huge
    [usize]. *)
Theorem circle_left_of_canvas_panics c cx cy r color : canvas_ok c -> 0 <= r < 2 ^ 31 -> - 2 ^ 31 <= cx -> cx + r + 1 < 0 -> - 2 ^ 31 <= cy < 2 ^ 31 -> cy - r < height c -> 0 <= cy + r -> 0 < height c ->
  fill_circle c cx cy r color = Panic.
Proof.
  intros Hc Hr Hcx Hleft Hcy Hlo Hhi Hh. pose proof Hc as [H1 H2 H3]. pose proof (square_le r (2 ^ 31 - 1) ltac:(lia)) as Hr2. pose proof (Z.square_nonneg r) as Hr0. unfold fill_circle. cbv zeta.
  rewrite (isize_small (r * r)), (isize_small (cy - r)), (isize_small (cy + r)), (isize_small (cy + r + 1)), (isize_small (height c)), !(wrap_small 64) by (unfold in_u; lia).
  unfold for_range at 1. set (y0 := Z.max (cy - r) 0). destruct (Z.to_nat (Z.min (cy + r + 1) (height c) - y0)) as [|n] eqn:En; [lia|]. cbn [iter].
  pose proof (square_le (y0 - cy) r ltac:(lia)) as Hdy. pose proof (Z.square_nonneg (y0 - cy)) as Hdy0.
  rewrite (isize_small y0), (isize_small (y0 - cy)), (isize_small ((y0 - cy) * (y0 - cy))), (isize_small (r * r - (y0 - cy) * (y0 - cy))), Z.max_l, wrap_small by (unfold in_u; lia).
  rewrite integer_sqrt_spec by (unfold in_u; lia). cbn [mbind outcome_bind]. remember (Z.sqrt (r * r - (y0 - cy) * (y0 - cy))) as d eqn:Ed.
  assert (Hd : 0 <= d <= r). { rewrite Ed. split; [apply Z.sqrt_nonneg|]. transitivity (Z.sqrt (r * r)); [apply Z.sqrt_le_mono; lia|rewrite Z.sqrt_square; lia]. }
  rewrite (isize_small d), (isize_small (cx - d)), (isize_small (cx + d)), (isize_small (cx + d + 1)), (isize_small (width c)) by lia. rewrite Z.max_r, Z.min_l by lia.
  change (wrap 64 0) with 0. assert (Hw : wrap 64 (cx + d + 1) = 2 ^ 64 + (cx + d + 1)). { unfold wrap. symmetry. apply (Z.mod_unique _ _ (-1)); lia. }
  rewrite Hw. unfold for_range. assert (Hsz : 0 <= y0 * width c <= width c * height c) by (unfold y0 in *; nia). assert (Hbig : width c * height c < 2 ^ 62) by nia.
  rewrite u64_mul_small by lia. rewrite iter_put_panics; [done|lia|lia| |lia]. rewrite H3. lia.
Qed.
Lemma circle_left_witness : fill_circle demo (-4) 5 2 AURA_CYAN = Panic.
Proof. apply (circle_left_of_canvas_panics demo (-4) 5 2 AURA_CYAN demo_ok); unfold demo, new; cbn [width height]; lia. Defined.

(** ** Outlines and text are drawn where they fit *)
Definition same_size (c c' : Canvas) : Prop := canvas_ok c' /\ width c' = width c /\ height c' = height c.
Definition draws (c : Canvas) (o : outcome Canvas) : Prop := exists c', o = Ret c' /\ same_size c c'.

Lemma draws_paints c o R g : (exists c', o = Ret c' /\ paints c c' R g) -> draws c o.
Proof. intros (c' & E & P). exists c'. split; [done|]. split; [apply P|]. split; apply P. Qed.
Lemma draws_ret c c' : canvas_ok c' -> width c' = width c -> height c' = height c -> draws c (Ret c').
Proof. intros H1 H2 H3. by exists c'. Qed.
Lemma draws_bind c o f : draws c o -> (forall c', same_size c c' -> draws c' (f c')) -> draws c (o ≫= f).
Proof.
  intros (c' & -> & Hs) Hf. cbn [mbind outcome_bind]. destruct (Hf c' Hs) as (c2 & -> & H1 & H2 & H3). exists c2. split; [done|]. destruct Hs as (S1 & S2 & S3). split; [done|]. split; congruence.
Qed.
Lemma draws_iter n i body c : canvas_ok c -> (forall i' c', i <= i' < i + Z.of_nat n -> same_size c c' -> draws c' (body i' c')) -> draws c (iter n i body c).
Proof.
  revert i c. induction n as [|n IH]; intros i c Hc Hb; cbn [iter]; [by apply draws_ret|]. apply draws_bind; [apply Hb; [lia|done]|].
  intros c' (H1 & H2 & H3). apply IH; [done|]. intros i' c2 Hi' (K1 & K2 & K3). apply Hb; [lia|]. split; [done|]. split; congruence.
Qed.
Lemma draws_for a b body c : canvas_ok c -> (forall i c', a <= i < b -> same_size c c' -> draws c' (body i c')) -> draws c (for_range a b body c).
Proof. intros Hc Hb. apply draws_iter; [done|]. intros i c' Hi. apply Hb. lia. Qed.

Lemma set_pixel_draws c x y v : canvas_ok c -> 0 <= x -> 0 <= y -> draws c (set_pixel c x y v).
Proof.
  intros Hc Hx Hy. unfold set_pixel, in_canvas. destruct (Z.ltb_spec x (width c)); [|by apply draws_ret]. destruct (Z.ltb_spec y (height c)); [|by apply draws_ret].
  eapply draws_paints, put_paints; [done|lia|lia].
Qed.

Lemma draw_rect_outline_draws c x y w h v : canvas_ok c -> small x y w h -> draws c (draw_rect_outline c x y w h v).
Proof.
  intros Hc (Hx & Hy & Hw & Hh & Hxw & Hyh). unfold draw_rect_outline. destruct (_ || _)%bool eqn:E; [by apply draws_ret|]. cbv zeta. pose proof Hc as [H1 H2 H3].
  rewrite (u64_add_small x w), (u64_add_small y h), !u64_sub_small by lia.
  apply draws_bind; [|intros c2 (K1 & K2 & K3)]; (apply draws_for; [done|]; intros i c' Hi (L1 & L2 & L3); apply draws_bind; [apply set_pixel_draws; [done|lia|lia]|]; intros c3 (M1 & M2 & M3); apply set_pixel_draws; [done|lia|lia]).
Qed.

Lemma draw_char_draws c x y ch v : canvas_ok c -> draws c (draw_char c x y ch v).
Proof.
  intros Hc. unfold draw_char. generalize (get_glyph_8x16 ch). intros glyph. generalize 0 at 1. intros row. revert row c Hc. induction glyph as [|b glyph IH]; intros row c Hc; cbn [draw_rows]; [by apply draws_ret|].
  apply draws_bind; [|intros c' (H1 & _); by apply IH]. apply draws_for; [done|]. intros col c' Hcol (H1 & H2 & H3). destruct (_ =? 0); [by apply draws_ret|].
  apply set_pixel_draws; [done|apply in_u_add|apply in_u_add].
Qed.

Lemma draw_string_draws c x y text v : canvas_ok c -> draws c (draw_string c x y text v).
Proof.
  revert c x. induction text as [|ch text IH]; intros c x Hc; cbn [draw_string]; [by apply draws_ret|]. destruct (ch =? 10); [by apply draws_ret|].
  apply draws_bind; [by apply draw_char_draws|]. intros c' (H1 & _). by apply IH.
Qed.
End Shapes.
