(* ===== verification/Pci.v ===== *)
(** * The PCI bus (src/src/drivers/pci.rs)

    Configuration-space accesses and the bus scan, over any [Hardware].  The theorems are proved against [ConfigSpace], the
    documented behaviour of configuration mechanism #1. *)

From stdpp Require Import prelude numbers list gmap strings.
From S2P Require Import Prelude Io.

Module Pci.

Definition PCI_CONFIG_ADDRESS : Z := 0xCF8.
Definition PCI_CONFIG_DATA : Z := 0xCFC.

Record PciDevice := mkPciDevice {
  bus : Z; slot : Z; func : Z;
  vendor_id : Z; device_id : Z;
  class_id : Z; subclass_id : Z; prog_if : Z; revision_id : Z; header_type : Z
}.

Definition vendor_name (d : PciDevice) : string :=
  let v := vendor_id d in
  if v =? 0x8086 then "Intel Corp." else if v =? 0x1022 then "AMD Inc." else if v =? 0x10DE then "NVIDIA Corp." else
  if v =? 0x10EC then "Realtek Semiconductor" else if v =? 0x1AF4 then "Red Hat / VirtIO" else if v =? 0x1234 then "Bochs / QEMU Emulator" else
  if v =? 0x15AD then "VMware Inc." else if v =? 0x80EE then "VirtualBox (InnoTek)" else if v =? 0x1013 then "Cirrus Logic" else "Unknown Vendor".
Definition class_name (d : PciDevice) : string :=
  let s := subclass_id d in
  let c := class_id d in
  if c =? 0x00 then "Legacy Device" else
  if c =? 0x01 then (if s =? 0x00 then "SCSI Storage Controller" else if s =? 0x01 then "IDE Storage Controller" else if s =? 0x06 then "SATA / AHCI Controller" else
    if s =? 0x08 then "NVMe Storage Controller" else "Mass Storage Controller") else
  if c =? 0x02 then (if s =? 0x00 then "Ethernet Network Controller" else if s =? 0x80 then "Other Network Controller" else "Network Controller") else
  if c =? 0x03 then (if s =? 0x00 then "VGA Compatible Controller" else if s =? 0x02 then "3D Graphics Controller" else "Display Controller") else
  if c =? 0x04 then (if s =? 0x03 then "High Definition Audio Device" else "Multimedia Controller") else
  if c =? 0x05 then "Memory Controller" else
  if c =? 0x06 then (if s =? 0x00 then "Host / PCI Bridge" else if s =? 0x01 then "ISA Bridge" else if s =? 0x04 then "PCI-to-PCI Bridge" else "Bridge Device") else
  if c =? 0x07 then "Communication Controller" else if c =? 0x08 then "Generic System Peripheral" else
  if c =? 0x0C then (if s =? 0x03 then "USB Host Controller" else if s =? 0x05 then "SMBus Controller" else "Serial Bus Controller") else "Other Peripheral Device".

(** The value written to CONFIG_ADDRESS ([u32] arithmetic). *)
Definition config_address (bus slot func offset : Z) : Z :=
  Z.lor (Z.lor (Z.lor (Z.lor (wrap 32 (Z.shiftl 1 31)) (wrap 32 (Z.shiftl bus 16))) (wrap 32 (Z.shiftl slot 11)))
    (wrap 32 (Z.shiftl func 8))) (Z.land offset 0xFC).

Section Bus.
Context {H : Type} `{Hardware H}.

Definition pci_read_config_u32 (bus slot func offset : Z) : hw H Z :=
  port_out PCI_CONFIG_ADDRESS (config_address bus slot func offset);;
  port_in PCI_CONFIG_DATA.

Definition pci_read_config_u16 (bus slot func offset : Z) : hw H Z :=
  reg32 ← pci_read_config_u32 bus slot func offset;
  mret (Z.land (Z.shiftr reg32 (Z.land offset 2 * 8)) 0xFFFF).

Definition pci_read_config_u8 (bus slot func offset : Z) : hw H Z :=
  reg32 ← pci_read_config_u32 bus slot func offset;
  mret (Z.land (Z.shiftr reg32 (Z.land offset 3 * 8)) 0xFF).

Definition pci_write_config_u32 (bus slot func offset value : Z) : hw H () :=
  port_out PCI_CONFIG_ADDRESS (config_address bus slot func offset);;
  port_out PCI_CONFIG_DATA value.

(** [!(m << shift)] on 32 bits, and the replacement of a field. *)
Definition replace_field (mask current shift value : Z) : Z :=
  Z.lor (Z.land current (0xFFFFFFFF - wrap 32 (Z.shiftl mask shift))) (wrap 32 (Z.shiftl value shift)).

Definition pci_write_config_u16 (bus slot func offset value : Z) : hw H () :=
  current ← pci_read_config_u32 bus slot func offset;
  pci_write_config_u32 bus slot func offset (replace_field 0xFFFF current (Z.land offset 2 * 8) value).

Definition pci_write_config_u8 (bus slot func offset value : Z) : hw H () :=
  current ← pci_read_config_u32 bus slot func offset;
  pci_write_config_u32 bus slot func offset (replace_field 0xFF current (Z.land offset 3 * 8) value).

Definition pci_enable_bus_master (bus slot func : Z) : hw H () :=
  command ← pci_read_config_u16 bus slot func 0x04;
  pci_write_config_u16 bus slot func 0x04 (Z.lor command 0x07).

Definition pci_get_bar (bus slot func bar_index : Z) : hw H (Z * bool) :=
  let offset := wrap 8 (0x10 + wrap 8 (bar_index * 4)) in
  bar_low ← pci_read_config_u32 bus slot func offset;
  if negb (Z.land bar_low 1 =? 0) then mret (Z.land bar_low 0xFFFFFFFC, true) else
  let base := Z.land bar_low 0xFFFFFFF0 in
  if ((Z.land bar_low 0x06 =? 0x04) && (bar_index <? 5))%bool then
    bar_high ← pci_read_config_u32 bus slot func (wrap 8 (offset + 4));
    mret (Z.lor base (u64_shl bar_high 32), false)
  else mret (base, false).

(** The body of the innermost loop of the scan. *)
Definition scan_function (bus slot func : Z) : hw H (list PciDevice) :=
  func_vendor_id ← pci_read_config_u16 bus slot func 0x00;
  if func_vendor_id =? 0xFFFF then mret [] else
  device_id ← pci_read_config_u16 bus slot func 0x02;
  class_id ← pci_read_config_u8 bus slot func 0x0B;
  subclass_id ← pci_read_config_u8 bus slot func 0x0A;
  prog_if ← pci_read_config_u8 bus slot func 0x09;
  revision_id ← pci_read_config_u8 bus slot func 0x08;
  func_header_type ← pci_read_config_u8 bus slot func 0x0E;
  mret [mkPciDevice bus slot func func_vendor_id device_id class_id subclass_id prog_if revision_id func_header_type].

Definition scan_slot (bus slot : Z) : hw H (list PciDevice) :=
  vendor_id ← pci_read_config_u16 bus slot 0 0x00;
  if vendor_id =? 0xFFFF then mret [] else
  header_type ← pci_read_config_u8 bus slot 0 0x0E;
  let max_funcs := if negb (Z.land header_type 0x80 =? 0) then 8%nat else 1%nat in
  collect (range max_funcs) (scan_function bus slot).

Definition scan_pci_bus : hw H (list PciDevice) :=
  collect (range 8) (fun bus => collect (range 32) (scan_slot bus)).

End Bus.

(** ** Configuration mechanism #1

    The hardware keeps one selected address, written through port 0xCF8; port
    0xCFC reads and writes the double word it selects. *)
Class ConfigSpace (H : Type) `{Hardware H} := {
  cfg : H -> Z -> Z;
  selected : H -> Z;
  select_law h a : selected (outl h PCI_CONFIG_ADDRESS a) = a /\ cfg (outl h PCI_CONFIG_ADDRESS a) = cfg h;
  read_law h : fst (inl h PCI_CONFIG_DATA) = cfg h (selected h) /\ cfg (snd (inl h PCI_CONFIG_DATA)) = cfg h;
  write_law h v : cfg (outl h PCI_CONFIG_DATA v) = fun a => if decide (a = selected h) then v else cfg h a
}.

Section Scan.
Context {H : Type} `{ConfigSpace H}.

(** Registers of a function, read directly in the configuration space. *)
Definition reg32 (c : Z -> Z) (bus slot func offset : Z) : Z := c (config_address bus slot func offset).
Definition reg16 (c : Z -> Z) (bus slot func offset : Z) : Z :=
  Z.land (Z.shiftr (reg32 c bus slot func offset) (Z.land offset 2 * 8)) 0xFFFF.
Definition reg8 (c : Z -> Z) (bus slot func offset : Z) : Z :=
  Z.land (Z.shiftr (reg32 c bus slot func offset) (Z.land offset 3 * 8)) 0xFF.

Definition describe (c : Z -> Z) (bus slot func : Z) : PciDevice :=
  mkPciDevice bus slot func (reg16 c bus slot func 0) (reg16 c bus slot func 2) (reg8 c bus slot func 11) (reg8 c bus slot func 10)
    (reg8 c bus slot func 9) (reg8 c bus slot func 8) (reg8 c bus slot func 14).

(** A function answers when its slot has a function 0 and, for the others, when
    function 0 says that the device has several. *)
Definition answers (c : Z -> Z) (bus slot func : Z) : Prop :=
  0 <= bus < 8 /\ 0 <= slot < 32 /\ 0 <= func < 8 /\ reg16 c bus slot 0 0 <> 0xFFFF /\ reg16 c bus slot func 0 <> 0xFFFF /\
  (func = 0 \/ Z.land (reg8 c bus slot 0 14) 0x80 <> 0).

(** A computation that yields a function of the configuration space it keeps. *)
Definition reads {A} (m : hw H A) (f : (Z -> Z) -> A) : Prop := forall h, exists h', m h = (f (cfg h), h') /\ cfg h' = cfg h.

Lemma reads_ret {A} (a : A) : reads (mret a) (fun _ => a).
Proof. intros h. by exists h. Qed.

Lemma reads_bind {A B} (m : hw H A) (k : A -> hw H B) f g :
  reads m f -> (forall c, reads (k (f c)) (g c)) -> reads (m ≫= k) (fun c => g c c).
Proof.
  intros Hm Hk h. destruct (Hm h) as (h1 & E1 & C1). destruct (Hk (cfg h) h1) as (h2 & E2 & C2). exists h2.
  unfold mbind, hw_bind. rewrite E1. rewrite E2, C2, C1. done.
Qed.

Lemma reads_u32 bus slot func offset : reads (pci_read_config_u32 bus slot func offset) (fun c => reg32 c bus slot func offset).
Proof.
  intros h. unfold pci_read_config_u32, port_out, port_in, mbind, hw_bind. set (a := config_address _ _ _ _).
  destruct (select_law h a) as [Hs Hc]. destruct (read_law (outl h PCI_CONFIG_ADDRESS a)) as [Hr Hk].
  destruct (inl (outl h PCI_CONFIG_ADDRESS a) PCI_CONFIG_DATA) as [v h'] eqn:E. cbn [fst snd] in *. exists h'.
  rewrite Hr, Hs, Hc, Hk. done.
Qed.

Lemma reads_u16 bus slot func offset : reads (pci_read_config_u16 bus slot func offset) (fun c => reg16 c bus slot func offset).
Proof. apply (reads_bind _ _ _ (fun c _ => reg16 c bus slot func offset) (reads_u32 bus slot func offset)). intros c. apply (reads_ret (A := Z)). Qed.

Lemma reads_u8 bus slot func offset : reads (pci_read_config_u8 bus slot func offset) (fun c => reg8 c bus slot func offset).
Proof. apply (reads_bind _ _ _ (fun c _ => reg8 c bus slot func offset) (reads_u32 bus slot func offset)). intros c. apply (reads_ret (A := Z)). Qed.

Lemma reads_if {A} (b : bool) (m1 m2 : hw H A) f1 f2 :
  reads m1 f1 -> reads m2 f2 -> reads (if b then m1 else m2) (fun c => if b then f1 c else f2 c).
Proof. by destruct b. Qed.

Lemma reads_collect {A B} (l : list A) (body : A -> hw H (list B)) f :
  (forall x, reads (body x) (f x)) -> reads (collect l body) (fun c => concat ((fun x => f x c) <$> l)).
Proof.
  intros Hb. induction l as [|x l IH]; cbn [collect fmap list_fmap concat]; [apply reads_ret|].
  apply (reads_bind _ _ _ (fun c c' => f x c ++ concat ((fun x => f x c') <$> l)) (Hb x)). intros c.
  apply (reads_bind _ _ _ (fun c1 _ => f x c ++ concat ((fun x => f x c1) <$> l)) IH). intros c1. apply reads_ret.
Qed.

(** The scan as a function of the configuration space. *)
Definition found_function (bus slot func : Z) (c : Z -> Z) : list PciDevice :=
  if reg16 c bus slot func 0 =? 0xFFFF then [] else [describe c bus slot func].
Definition found_slot (bus slot : Z) (c : Z -> Z) : list PciDevice :=
  if reg16 c bus slot 0 0 =? 0xFFFF then [] else
  concat ((fun func => found_function bus slot func c) <$> range (if negb (Z.land (reg8 c bus slot 0 14) 0x80 =? 0) then 8%nat else 1%nat)).
Definition found (c : Z -> Z) : list PciDevice :=
  concat ((fun bus => concat ((fun slot => found_slot bus slot c) <$> range 32)) <$> range 8).

Lemma reads_ext {A} (m : hw H A) f g : reads m f -> (forall c, f c = g c) -> reads m g.
Proof. intros Hm E h. destruct (Hm h) as (h' & ? & ?). exists h'. by rewrite <- E. Qed.

Lemma reads_scan_function bus slot func : reads (scan_function bus slot func) (found_function bus slot func).
Proof.
  intros h. unfold scan_function. unfold mbind, hw_bind.
  destruct (reads_u16 bus slot func 0 h) as (h1 & -> & C1). unfold found_function. destruct (_ =? _); [by exists h1|].
  destruct (reads_u16 bus slot func 2 h1) as (h2 & -> & C2). destruct (reads_u8 bus slot func 11 h2) as (h3 & -> & C3).
  destruct (reads_u8 bus slot func 10 h3) as (h4 & -> & C4). destruct (reads_u8 bus slot func 9 h4) as (h5 & -> & C5).
  destruct (reads_u8 bus slot func 8 h5) as (h6 & -> & C6). destruct (reads_u8 bus slot func 14 h6) as (h7 & -> & C7).
  exists h7. rewrite C7, C6, C5, C4, C3, C2, C1. done.
Qed.

Lemma reads_scan_slot bus slot : reads (scan_slot bus slot) (found_slot bus slot).
Proof.
  intros h. unfold scan_slot, mbind, hw_bind. destruct (reads_u16 bus slot 0 0 h) as (h1 & -> & C1).
  unfold found_slot. destruct (_ =? _); [by exists h1|]. destruct (reads_u8 bus slot 0 14 h1) as (h2 & -> & C2). rewrite C1 in *.
  destruct (reads_collect (range (if negb (Z.land (reg8 (cfg h) bus slot 0 14) 128 =? 0) then 8%nat else 1%nat))
    (scan_function bus slot) _ (reads_scan_function bus slot) h2) as (h3 & -> & C3). exists h3. rewrite C3, C2. done.
Qed.

Lemma reads_scan : reads scan_pci_bus found.
Proof.
  apply (reads_collect _ _ (fun bus c => concat ((fun slot => found_slot bus slot c) <$> range 32))). intros bus.
  apply reads_collect. intros slot. apply reads_scan_slot.
Qed.

Lemma elem_of_range x n : x ∈ range n <-> 0 <= x < Z.of_nat n.
Proof.
  unfold range. rewrite list_elem_of_fmap. split.
  - intros (k & -> & Hk). apply elem_of_seq in Hk. lia.
  - intros Hx. exists (Z.to_nat x). split; [lia|]. apply elem_of_seq. lia.
Qed.

Lemma elem_of_concat_map {A B} (f : A -> list B) l y : y ∈ concat (f <$> l) <-> exists x, x ∈ l /\ y ∈ f x.
Proof.
  induction l as [|a l IH]; cbn [fmap list_fmap concat].
  - split; [intros Hy; by apply elem_of_nil in Hy|intros (x & Hx & _); by apply elem_of_nil in Hx].
  - rewrite elem_of_app, IH. set_solver.
Qed.

Lemma elem_of_found c d :
  d ∈ found c <-> exists bus slot func, answers c bus slot func /\ d = describe c bus slot func.
Proof.
  unfold found. rewrite elem_of_concat_map. setoid_rewrite elem_of_concat_map. setoid_rewrite elem_of_range.
  unfold found_slot, answers. split.
  - intros (b & Hb & s & Hs & Hd). exists b, s. destruct (Z.eqb_spec (reg16 c b s 0 0) 0xFFFF); [by apply elem_of_nil in Hd|].
    apply elem_of_concat_map in Hd as (f & Hf & Hd). apply elem_of_range in Hf. exists f. unfold found_function in Hd.
    destruct (Z.eqb_spec (reg16 c b s f 0) 0xFFFF); [by apply elem_of_nil in Hd|]. apply list_elem_of_singleton in Hd.
    destruct (Z.eqb_spec (Z.land (reg8 c b s 0 14) 0x80) 0); cbn [negb] in Hf; split; try done; repeat split; lia || (by left) || (by right) || (left; lia).
  - intros (b & s & f & (Hb & Hs & Hf & Hv0 & Hv & Hm) & ->). exists b. split; [lia|]. exists s. split; [lia|].
    destruct (Z.eqb_spec (reg16 c b s 0 0) 0xFFFF); [done|]. apply elem_of_concat_map. exists f. unfold found_function.
    destruct (Z.eqb_spec (reg16 c b s f 0) 0xFFFF); [done|]. split; [|by apply list_elem_of_singleton]. apply elem_of_range.
    destruct (Z.eqb_spec (Z.land (reg8 c b s 0 14) 0x80) 0); cbn [negb]; [destruct Hm; [lia|done]|lia].
Qed.

End Scan.

(** ** Properties *)

(** The bus scan is complete and sound: on hardware that implements
    configuration mechanism #1 it terminates, leaves every configuration register
    as it was, and the devices it returns are exactly the functions of the first
    eight buses that answer (a vendor other than 0xFFFF; functions above 0 only
    when function 0 is multi-function), each with its own registers. *)
Theorem scan_finds_exactly {H} `{ConfigSpace H} (h : H) :
  exists devices h', scan_pci_bus h = (devices, h') /\ cfg h' = cfg h /\
    forall d, d ∈ devices <-> exists bus slot func, answers (cfg h) bus slot func /\ d = describe (cfg h) bus slot func.
Proof.
  destruct (reads_scan h) as (h' & E & C). exists (found (cfg h)), h'. split; [done|]. split; [done|]. apply elem_of_found.
Qed.

(** A machine with a configuration space and one selected address. *)
Record machine := mkMachine { m_selected : Z; m_cfg : Z -> Z }.
#[global] Instance machine_hardware : Hardware machine := {
  outb h _ _ := h; inb h _ := (0, h); outw h _ _ := h; inw h _ := (0, h);
  outl h port v := if port =? PCI_CONFIG_ADDRESS then mkMachine v (m_cfg h)
                   else mkMachine (m_selected h) (fun a => if decide (a = m_selected h) then v else m_cfg h a);
  inl h _ := (m_cfg h (m_selected h), h);
  write_volatile h _ _ := h; read_volatile h _ := (0, h)
}.
#[global] Program Instance machine_config : ConfigSpace machine := { cfg := m_cfg; selected := m_selected }.
Solve All Obligations with done.

(** One network controller in slot 3 of bus 0. *)
Definition one_card : machine :=
  mkMachine 0 (fun a => if decide (a = config_address 0 3 0 0) then 0x100E8086 else
    if decide (a = config_address 0 3 0 8) then 0x02000003 else
    if decide (a = config_address 0 3 0 12) then 0 else 0xFFFFFFFF).

Lemma scan_finds_exactly_witness :
  scan_pci_bus one_card = ([mkPciDevice 0 3 0 0x8086 0x100E 2 0 0 3 0], mkMachine (m_selected (snd (scan_pci_bus one_card))) (cfg one_card)) /\
  exists devices h', scan_pci_bus one_card = (devices, h') /\ cfg h' = cfg one_card /\
    forall d, d ∈ devices <-> exists bus slot func, answers (cfg one_card) bus slot func /\ d = describe (cfg one_card) bus slot func.
Proof. split; [vm_compute; reflexivity|apply scan_finds_exactly]. Defined.

End Pci.
