(* ===== verification/Bga.v ===== *)
(** * Bochs graphics adapter (src/src/drivers/bga.rs)

    The display registers behind an index and a data port, the search of the PCI bus
    for the frame buffer, and the copy of a canvas to the screen. *)

From Stdlib Require Import ZifyBool.
From stdpp Require Import prelude numbers list strings.
From S2P Require Import Prelude Io Pci Canvas.

Module Bga.

Definition VBE_DISPI_IOPORT_INDEX : Z := 0x01CE.
Definition VBE_DISPI_IOPORT_DATA : Z := 0x01CF.
Definition VBE_DISPI_INDEX_ID : Z := 0.
Definition VBE_DISPI_INDEX_XRES : Z := 1.
Definition VBE_DISPI_INDEX_YRES : Z := 2.
Definition VBE_DISPI_INDEX_BPP : Z := 3.
Definition VBE_DISPI_INDEX_ENABLE : Z := 4.
Definition VBE_DISPI_DISABLED : Z := 0x00.
Definition VBE_DISPI_ENABLED : Z := 0x01.
Definition VBE_DISPI_LFB_ENABLED : Z := 0x40.
Definition SCREEN_WIDTH : Z := 1024.
Definition SCREEN_HEIGHT : Z := 768.
Definition SCREEN_BPP : Z := 32.
Definition DEFAULT_LFB_PHYS_ADDR : Z := 0xFD000000.

(** The two statics. *)
Record bga := mkBga { LFB_BASE_ADDR : Z; BGA_ACTIVE : bool }.
Definition boot : bga := mkBga DEFAULT_LFB_PHYS_ADDR false.
Definition is_active (b : bga) : bool := BGA_ACTIVE b.
Definition set_framebuffer_addr (addr : Z) (b : bga) : bga := mkBga addr (BGA_ACTIVE b).
Definition framebuffer_ptr (b : bga) : Z := LFB_BASE_ADDR b.

Section Driver.
Context {H : Type} {HW : Hardware H}.
Definition bga_write (index data : Z) : hw H () := port_outw VBE_DISPI_IOPORT_INDEX index;; port_outw VBE_DISPI_IOPORT_DATA data.
Definition bga_read (index : Z) : hw H Z := port_outw VBE_DISPI_IOPORT_INDEX index;; port_inw VBE_DISPI_IOPORT_DATA.
Definition is_available : hw H bool := id ← bga_read VBE_DISPI_INDEX_ID; mret ((0xB0C0 <=? id) && (id <=? 0xB0C6))%bool.

(** The loop over the devices: the first display adapter of the emulator decides. *)
Fixpoint find_framebuffer (l : list Pci.PciDevice) (b : bga) : hw H bga :=
  match l with
  | [] => mret b
  | d :: l' =>
      if ((Pci.vendor_id d =? 0x1234) && (Pci.device_id d =? 0x1111))%bool then
        bar0 ← Pci.pci_read_config_u32 (Pci.bus d) (Pci.slot d) (Pci.func d) 0x10;
        let phys_addr := Z.land bar0 0xFFF00000 in
        mret (if phys_addr =? 0 then b else set_framebuffer_addr phys_addr b)
      else find_framebuffer l' b
  end.

(** [init_graphics_mode], after the page tables cover the devices
    ([init_hardware_mappings], in the model of paging). *)
Definition init_graphics_mode (width height : Z) (b : bga) : hw H (bool * bga) :=
  avail ← is_available;
  if negb avail then mret (false, b) else
  pci_devices ← Pci.scan_pci_bus;
  b ← find_framebuffer pci_devices b;
  bga_write VBE_DISPI_INDEX_ENABLE VBE_DISPI_DISABLED;;
  bga_write VBE_DISPI_INDEX_XRES (wrap 16 width);;
  bga_write VBE_DISPI_INDEX_YRES (wrap 16 height);;
  bga_write VBE_DISPI_INDEX_BPP (wrap 16 SCREEN_BPP);;
  bga_write VBE_DISPI_INDEX_ENABLE (Z.lor VBE_DISPI_ENABLED VBE_DISPI_LFB_ENABLED);;
  mret (true, mkBga (LFB_BASE_ADDR b) true).
Definition disable_graphics_mode (b : bga) : hw H bga := bga_write VBE_DISPI_INDEX_ENABLE VBE_DISPI_DISABLED;; mret (mkBga (LFB_BASE_ADDR b) false).
End Driver.

(** Video memory: words at byte addresses.  The copy of [present]. *)
Definition copy_words (vram : Z -> Z) (fb : Z) (l : list Z) : Z -> Z := fun a =>
  if ((fb <=? a) && ((a - fb) mod 4 =? 0))%bool then default (vram a) (l !! Z.to_nat ((a - fb) / 4)) else vram a.
Definition present (b : bga) (c : Canvas.Canvas) (vram : Z -> Z) : Z -> Z :=
  if negb (is_active b) then vram else
  let pixel_count := Z.min (Canvas.width c) SCREEN_WIDTH * Z.min (Canvas.height c) SCREEN_HEIGHT in
  copy_words vram (framebuffer_ptr b) (take (Z.to_nat (Z.min pixel_count (Z.of_nat (length (Canvas.pixels c))))) (Canvas.pixels c)).

(** A canvas of the size of the screen is shown pixel by pixel. *)
Lemma present_shows b c vram x y : is_active b = true -> Canvas.canvas_ok c -> Canvas.width c = SCREEN_WIDTH -> Canvas.height c = SCREEN_HEIGHT -> 0 <= x < SCREEN_WIDTH -> 0 <= y < SCREEN_HEIGHT ->
  present b c vram (framebuffer_ptr b + 4 * (y * SCREEN_WIDTH + x)) = Canvas.pixel c x y.
Proof.
  intros Ha [H1 H2 H3] Hw Hh Hx Hy. unfold present. rewrite Ha. cbn [negb]. rewrite Hw, Hh in *. unfold SCREEN_WIDTH, SCREEN_HEIGHT in *. rewrite take_ge by lia. unfold copy_words.
  replace (framebuffer_ptr b + 4 * (y * 1024 + x) - framebuffer_ptr b) with ((y * 1024 + x) * 4) by lia. rewrite Z.mod_mul, Z.div_mul by lia.
  rewrite (proj2 (Z.leb_le _ _)) by lia. cbn [andb Z.eqb]. unfold Canvas.pixel. rewrite Hw.
  destruct (lookup_lt_is_Some_2 (Canvas.pixels c) (Z.to_nat (y * 1024 + x))) as [v ->]; [lia|]. done.
Qed.

(** ** The adapter
    Registers behind the two ports: a mode takes effect when the adapter is enabled. *)
Record adapter := mkAdapter { index_reg : Z; regs : Z -> Z }.
#[global] Instance adapter_hardware : Hardware adapter := {
  outb h _ _ := h; inb h _ := (0, h); outl h _ _ := h; inl h _ := (0xFFFFFFFF, h); write_volatile h _ _ := h; read_volatile h _ := (0, h);
  outw h p v := if p =? 0x01CE then mkAdapter v (regs h) else if p =? 0x01CF then mkAdapter (index_reg h) (fun r => if r =? index_reg h then v else regs h r) else h;
  inw h p := (if p =? 0x01CF then regs h (index_reg h) else 0, h)
}.
Definition mode (h : adapter) : Z * Z * Z * Z := (regs h 1, regs h 2, regs h 3, regs h 4).

Lemma scan_empty_adapter (h : adapter) : Pci.scan_pci_bus h = ([], h).
Proof. destruct h as [i r]. vm_compute. reflexivity. Qed.

(** On the adapter of an emulator the mode is set, at the default address. *)
Lemma mode_set w h (a : adapter) b : in_u 16 w -> in_u 16 h -> 0xB0C0 <= regs a 0 <= 0xB0C6 ->
  exists a', init_graphics_mode w h b a = ((true, mkBga (LFB_BASE_ADDR b) true), a') /\ mode a' = (w, h, 32, 0x41).
Proof.
  intros Hw Hh Hid. unfold init_graphics_mode, is_available, bga_read, port_outw, port_inw, mbind, hw_bind, mret, hw_ret. cbn -[Pci.scan_pci_bus wrap Z.leb].
  change VBE_DISPI_INDEX_ID with 0. rewrite (proj2 (Z.leb_le 45248 _)), (proj2 (Z.leb_le _ 45254)) by lia. cbn [andb negb]. rewrite scan_empty_adapter. cbn -[wrap]. eexists. split; [reflexivity|].
  unfold mode. cbn -[wrap]. rewrite !wrap_small by done. done.
Qed.
End Bga.
