(* ===== verification/Gui.v ===== *)
(** * Desktop (src/src/gui/mod.rs)

    The windows of the desktop, how the mouse moves them, and the picture that is drawn
    of them.  A window that is dragged follows the mouse; every frame is drawn without
    an index out of range wherever the windows are. *)

From Stdlib Require Import ZifyBool.
From stdpp Require Import prelude numbers list strings.
From S2P Require Import Prelude Bytes Io Clock Mouse Vfs Canvas Shapes Serial Bga.
Import Bytes Canvas Shapes.

Module Gui.

Record Window := mkWindow { wx : Z; wy : Z; ww : Z; wh : Z; title : list Z; active : bool; visible : bool }.
Record DragState := mkDrag { dragging : bool; window_index : nat; offset_x : Z; offset_y : Z }.

(** ** The pointer *)
Definition CURSOR_BITMAP : list (list Z) :=
  [[1; 0; 0; 0; 0; 0; 0; 0; 0; 0; 0; 0; 0; 0; 0; 0];
   [1; 1; 0; 0; 0; 0; 0; 0; 0; 0; 0; 0; 0; 0; 0; 0];
   [1; 2; 1; 0; 0; 0; 0; 0; 0; 0; 0; 0; 0; 0; 0; 0];
   [1; 2; 2; 1; 0; 0; 0; 0; 0; 0; 0; 0; 0; 0; 0; 0];
   [1; 2; 2; 2; 1; 0; 0; 0; 0; 0; 0; 0; 0; 0; 0; 0];
   [1; 2; 2; 2; 2; 1; 0; 0; 0; 0; 0; 0; 0; 0; 0; 0];
   [1; 2; 2; 2; 2; 2; 1; 0; 0; 0; 0; 0; 0; 0; 0; 0];
   [1; 2; 2; 2; 2; 2; 2; 1; 0; 0; 0; 0; 0; 0; 0; 0];
   [1; 2; 2; 2; 2; 2; 2; 2; 1; 0; 0; 0; 0; 0; 0; 0];
   [1; 2; 2; 2; 2; 2; 2; 2; 2; 1; 0; 0; 0; 0; 0; 0];
   [1; 2; 2; 2; 2; 2; 1; 1; 1; 1; 1; 0; 0; 0; 0; 0];
   [1; 2; 2; 1; 2; 2; 1; 0; 0; 0; 0; 0; 0; 0; 0; 0];
   [1; 2; 1; 0; 1; 2; 2; 1; 0; 0; 0; 0; 0; 0; 0; 0];
   [1; 1; 0; 0; 1; 2; 2; 1; 0; 0; 0; 0; 0; 0; 0; 0];
   [1; 0; 0; 0; 0; 1; 2; 2; 1; 0; 0; 0; 0; 0; 0; 0];
   [0; 0; 0; 0; 0; 1; 1; 1; 1; 0; 0; 0; 0; 0; 0; 0]].

(** [for (row, line) in CURSOR_BITMAP.iter().enumerate()], and the columns of a line. *)
Fixpoint for_cols (line : list Z) (row col : Z) (f : Z -> Z -> Z -> Canvas -> outcome Canvas) (c : Canvas) : outcome Canvas :=
  match line with [] => Ret c | p :: line' => c ← f row col p c; for_cols line' row (col + 1) f c end.
Fixpoint for_rows (bitmap : list (list Z)) (row : Z) (f : Z -> Z -> Z -> Canvas -> outcome Canvas) (c : Canvas) : outcome Canvas :=
  match bitmap with [] => Ret c | line :: bitmap' => c ← for_cols line row 0 f c; for_rows bitmap' (row + 1) f c end.
Definition draw_cursor (c : Canvas) (mx my : Z) : outcome Canvas :=
  c ← for_rows CURSOR_BITMAP 0 (fun row col pixel c => if pixel =? 0 then Ret c else blend_pixel c (u64_add (u64_add mx col) 2) (u64_add (u64_add my row) 2) BLACK 60) c;
  for_rows CURSOR_BITMAP 0 (fun row col pixel c =>
    if pixel =? 1 then set_pixel c (u64_add mx col) (u64_add my row) BLACK
    else if pixel =? 2 then set_pixel c (u64_add mx col) (u64_add my row) WHITE else Ret c) c.

(** ** Text: the characters of a string, and [&name[..6]] *)
Fixpoint chars (fuel : nat) (l : list Z) : list Z :=
  match fuel, l with
  | S f, b :: l' =>
      if b <? 0x80 then b :: chars f l' else
      match l' with
      | b1 :: l1 =>
          if b <? 0xE0 then (Z.lor (Z.shiftl (Z.land b 0x1F) 6) (Z.land b1 0x3F)) :: chars f l1 else
          match l1 with
          | b2 :: l2 =>
              if b <? 0xF0 then (Z.lor (Z.lor (Z.shiftl (Z.land b 0x0F) 12) (Z.shiftl (Z.land b1 0x3F) 6)) (Z.land b2 0x3F)) :: chars f l2 else
              match l2 with b3 :: l3 => (Z.lor (Z.lor (Z.lor (Z.shiftl (Z.land b 0x07) 18) (Z.shiftl (Z.land b1 0x3F) 12)) (Z.shiftl (Z.land b2 0x3F) 6)) (Z.land b3 0x3F)) :: chars f l3 | [] => [] end
          | [] => []
          end
      | [] => []
      end
  | _, _ => []
  end.
Definition draw_text (c : Canvas) (x y : Z) (s : list Z) (color : Z) : outcome Canvas := draw_string c x y (chars (length s) s) color.
Definition draw_str (c : Canvas) (x y : Z) (s : string) (color : Z) : outcome Canvas := draw_text c x y (ascii_bytes s) color.
(** A slice at a position inside a character panics. *)
Definition label (name : list Z) : outcome (list Z) :=
  if Nat.ltb 6 (length name) then
    match name !! 6%nat with Some b => if ((0x80 <=? b) && (b <=? 0xBF))%bool then Panic else Ret (take 6 name) | None => Panic end
  else Ret name.

(** ** The windows *)
Definition draw_window_frame (c : Canvas) (x y w h : Z) (title : list Z) (is_active : bool) : outcome Canvas :=
  let radius := 10 in
  let header_h := 30 in
  c ← fill_rounded_rect_alpha c (u64_add x 4) (u64_add y 4) w h radius BLACK 90;
  c ← fill_rounded_rect c x y w h radius WINDOW_DARK;
  c ← draw_rect_outline c x y w h DOCK_BORDER;
  c ← fill_rounded_rect c x y w (header_h + radius) radius WINDOW_HEADER;
  c ← fill_rect c x (u64_add y header_h) w radius WINDOW_DARK;
  c ← draw_rect_outline c x (u64_add y header_h) w 1 DOCK_BORDER;
  let btn_y := isize (u64_add y 15) in
  let red_x := isize (u64_add x 18) in
  let yellow_x := isize (red_x + 18) in
  let green_x := isize (yellow_x + 18) in
  c ← fill_circle c red_x btn_y 5 TRAFFIC_RED;
  c ← fill_circle c yellow_x btn_y 5 TRAFFIC_YELLOW;
  c ← fill_circle c green_x btn_y 5 TRAFFIC_GREEN;
  let title_x := u64_add x (saturating_sub w (Z.of_nat (length title) * 8) / 2) in
  draw_text c title_x (u64_add y 8) title (if is_active then TEXT_PRIMARY else TEXT_MUTED).

Definition render_shell_content (used_memory ticks : Z) (c : Canvas) (x y : Z) : outcome Canvas :=
  let cx := u64_add x 16 in
  let cy := u64_add y 40 in
  c ← draw_str c cx cy "  /\   AURA OPERATING SYSTEM" AURA_CYAN;
  let cy := u64_add cy 18 in
  c ← draw_str c cx cy " /--\  v0.1.0 (x86_64 Long Mode)" AURA_CYAN;
  let cy := u64_add cy 24 in
  c ← draw_str c cx cy "User   : niaina" TEXT_MUTED;
  let cy := u64_add cy 18 in
  c ← draw_str c cx cy "Host   : auraos-baremetal" TEXT_MUTED;
  let cy := u64_add cy 18 in
  c ← draw_text c cx cy (ascii_bytes "Memory : " ++ decimal (used_memory / 1024) ++ ascii_bytes " KiB / " ++ decimal 8192 ++ ascii_bytes " KiB") TEXT_MUTED;
  let cy := u64_add cy 18 in
  c ← draw_text c cx cy (ascii_bytes "Uptime : " ++ decimal ticks ++ ascii_bytes " timer ticks") TEXT_MUTED;
  let cy := u64_add cy 24 in
  c ← draw_str c cx cy "auraos> sysinfo --gui" AURA_CYAN;
  let cy := u64_add cy 18 in
  c ← draw_str c cx cy "[OK] All 15 subsystem self-tests verified." TRAFFIC_GREEN;
  let cy := u64_add cy 18 in
  draw_str c cx cy "auraos> _" TEXT_PRIMARY.

(** The folders: [folder_x] and [folder_y] move on after each. *)
Fixpoint folders (names : list (list Z)) (c : Canvas) (x w grid_x folder_x folder_y : Z) : outcome Canvas :=
  match names with
  | [] => Ret c
  | name :: names' =>
      c ← fill_rounded_rect c folder_x folder_y 44 32 4 FOLDER_BLUE;
      c ← fill_rect c (u64_add folder_x 4) (u64_add folder_y 2) 14 6 WHITE;
      l ← label name;
      c ← draw_text c folder_x (u64_add folder_y 38) l TEXT_PRIMARY;
      let folder_x := u64_add folder_x 64 in
      if u64_add x w <? u64_add folder_x 50 then folders names' c x w grid_x grid_x (u64_add folder_y 60)
      else folders names' c x w grid_x folder_x folder_y
  end.
(** [names] are the entries of the root directory, if it can be listed. *)
Definition render_files_content (names : option (list (list Z))) (c : Canvas) (x y w h : Z) : outcome Canvas :=
  let sidebar_w := 110 in
  c ← fill_rect_alpha c (u64_add x 1) (u64_add y 30) sidebar_w (saturating_sub h 31) FROST_GLASS 120;
  c ← draw_rect_outline c (u64_add x sidebar_w) (u64_add y 30) 1 (saturating_sub h 31) DOCK_BORDER;
  c ← draw_str c (u64_add x 14) (u64_add y 44) "Recent" TEXT_PRIMARY;
  c ← draw_str c (u64_add x 14) (u64_add y 68) "Home" AURA_CYAN;
  c ← draw_str c (u64_add x 14) (u64_add y 92) "Desktop" TEXT_PRIMARY;
  c ← draw_str c (u64_add x 14) (u64_add y 116) "Docs" TEXT_PRIMARY;
  c ← draw_str c (u64_add x 14) (u64_add y 140) "System" TEXT_PRIMARY;
  let grid_x := u64_add (u64_add x sidebar_w) 24 in
  match names with Some l => folders (take 6 l) c x w grid_x grid_x (u64_add y 48) | None => Ret c end.
Definition root_names (v : Vfs.Vfs) : outcome (option (list (list Z))) :=
  r ← Vfs.list_directory v 0%nat; Ret (match (r : result (list Vfs.DirectoryEntry) Vfs.VfsError) with Ok l => Some ((fun e => ascii_bytes (Vfs.e_name e)) <$> l) | Err _ => None end).

(** What the desktop shows of the rest of the system. *)
Record shown := mkShown { used_memory : Z; ticks : Z; names : option (list (list Z)) }.
Definition SHELL_TITLE : list Z := ascii_bytes "AuraShell".
Definition FILES_TITLE : list Z := ascii_bytes "Aura Files".
Definition render_window (s : shown) (c : Canvas) (win : Window) (is_active : bool) : outcome Canvas :=
  if (negb (visible win) || (ww win <? 50) || (wh win <? 50))%bool then Ret c else
  let x := wrap 64 (Z.max (wx win) 0) in
  let y := wrap 64 (Z.max (wy win) 0) in
  c ← draw_window_frame c x y (ww win) (wh win) (title win) is_active;
  if decide (title win = SHELL_TITLE) then render_shell_content (used_memory s) (ticks s) c x y
  else if decide (title win = FILES_TITLE) then render_files_content (names s) c x y (ww win) (wh win)
  else Ret c.
Fixpoint render_windows (s : shown) (c : Canvas) (l : list Window) : outcome Canvas :=
  match l with [] => Ret c | w :: l' => c ← render_window s c w (active w); render_windows s c l' end.

(** ** The background *)
Definition apps : list (list Z * Z * bool) :=
  [(ascii_bytes "Shell", AURA_CYAN, true); (ascii_bytes "Files", FOLDER_BLUE, true); (ascii_bytes "Calc", TRAFFIC_YELLOW, false); (ascii_bytes "Tasks", TRAFFIC_GREEN, false); (ascii_bytes "Config", TEXT_MUTED, false)].
Fixpoint dock_icons (l : list (list Z * Z * bool)) (i : Z) (c : Canvas) (dock_x dock_y dock_h icon_spacing : Z) : outcome Canvas :=
  match l with
  | [] => Ret c
  | (name, icon_color, is_running) :: l' =>
      let icon_cx := u64_add dock_x (u64_mul (i + 1) icon_spacing) in
      let icon_box_x := saturating_sub icon_cx 18 in
      let icon_box_y := u64_add dock_y 8 in
      c ← fill_rounded_rect c icon_box_x icon_box_y 36 36 8 icon_color;
      c ← fill_rect c (u64_add icon_box_x 8) (u64_add icon_box_y 8) 20 20 WINDOW_DARK;
      let label_x := saturating_sub icon_cx (Z.of_nat (length name) * 8 / 2) in
      c ← draw_text c label_x (u64_add dock_y 46) name TEXT_MUTED;
      c ← (if (is_running : bool) then fill_circle c (isize icon_cx) (isize (u64_sub (u64_add dock_y dock_h) 4)) 2 AURA_CYAN else Ret c);
      dock_icons l' (i + 1) c dock_x dock_y dock_h icon_spacing
  end.
Definition render_dock (c : Canvas) (width height : Z) : outcome Canvas :=
  let dock_w := Z.min 460 (saturating_sub width 40) in
  let dock_h := 60 in
  let dock_x := saturating_sub width dock_w / 2 in
  let dock_y := saturating_sub height (dock_h + 16) in
  let dock_r := 20 in
  c ← fill_rounded_rect_alpha c dock_x dock_y dock_w dock_h dock_r DOCK_GLASS 230;
  c ← fill_rounded_rect_alpha c (u64_add dock_x 2) (u64_add dock_y 2) (u64_sub dock_w 4) (dock_h - 4) (saturating_sub dock_r 2) DOCK_BORDER 50;
  dock_icons apps 0 c dock_x dock_y dock_h (dock_w / (5 + 1)).

Definition clock_str (rtc : Cmos.DateTime) : list Z :=
  zero_padded 2 (Cmos.hour rtc) ++ [58] ++ zero_padded 2 (Cmos.minute rtc) ++ ascii_bytes " UTC | " ++ zero_padded 4 (Cmos.year rtc) ++ [45] ++ zero_padded 2 (Cmos.month rtc) ++ [45] ++ zero_padded 2 (Cmos.day rtc).
Definition render_desktop (rtc : Cmos.DateTime) (c : Canvas) : outcome Canvas :=
  let w := width c in
  let h := height c in
  c ← fill_gradient_v c 0 0 w h COSMIC_NAVY DEEP_OBSIDIAN;
  c ← fill_rect_alpha c 0 (h / 3) w (h / 4) AURA_CYAN 18;
  let bar_height := 28 in
  c ← fill_rect_alpha c 0 0 w bar_height DOCK_GLASS 210;
  c ← draw_rect_outline c 0 0 w bar_height DOCK_BORDER;
  c ← draw_str c 14 6 "AURA" AURA_CYAN;
  c ← draw_str c 60 6 "File" TEXT_PRIMARY;
  c ← draw_str c 110 6 "Edit" TEXT_PRIMARY;
  c ← draw_str c 160 6 "View" TEXT_PRIMARY;
  c ← draw_str c 210 6 "Window" TEXT_PRIMARY;
  c ← draw_str c 275 6 "Help" TEXT_PRIMARY;
  let clock_x := saturating_sub w (Z.of_nat (length (clock_str rtc)) * 8 + 20) in
  c ← draw_text c clock_x 6 (clock_str rtc) TEXT_PRIMARY;
  render_dock c w h.

(** ** The mouse *)
Record state := mkState { windows : list Window; drag : DragState; prev_left : bool; frame_count : Z }.
Definition initial : state := mkState [mkWindow 50 50 420 320 SHELL_TITLE true true; mkWindow 500 50 420 320 FILES_TITLE false true] (mkDrag false 0 0 0) false 0.
Definition set_visible (w : Window) (b : bool) : Window := mkWindow (wx w) (wy w) (ww w) (wh w) (title w) (active w) b.
Definition set_active (w : Window) (b : bool) : Window := mkWindow (wx w) (wy w) (ww w) (wh w) (title w) b (visible w).
Definition set_place (w : Window) (x y : Z) : Window := mkWindow x y (ww w) (wh w) (title w) (active w) (visible w).

(** The title bar is the first thirty rows; the close button a disc in it. *)
Definition on_title_bar (w : Window) (mx my : Z) : bool := ((wx w <=? mx) && (mx <? wx w + ww w) && (wy w <=? my) && (my <? wy w + 30))%bool.
Definition on_close (w : Window) (mx my : Z) : bool := (mx - (wx w + 18)) * (mx - (wx w + 18)) + (my - (wy w + 15)) * (my - (wy w + 15)) <=? 25.
(** The loop over the windows from the last one down; [n] are left. *)
Fixpoint press (n : nat) (mx my : Z) (l : list Window) (d : DragState) : outcome (list Window * DragState) :=
  match n with
  | O => Ret (l, d)
  | S i =>
      w ← at_ l i;
      if negb (visible w) then press i mx my l d
      else if on_title_bar w mx my then
        if on_close w mx my then l ← update l i (fun w => set_visible w false); Ret (l, d)
        else Ret (imap (fun j w => set_active w (Nat.eqb j i)) l, mkDrag true i (mx - wx w) (my - wy w))
      else press i mx my l d
  end.
Definition move_window (d : DragState) (mx my : Z) (l : list Window) : outcome (list Window) :=
  update l (window_index d) (fun w => set_place w (mx - offset_x d) (Z.max (my - offset_y d) 0)).
Definition on_mouse (ms : Mouse.MouseState) (s : state) : outcome state :=
  let mx := Mouse.x ms in
  let my := Mouse.y ms in
  let left_pressed := Mouse.left_button ms in
  let left_just_pressed := (left_pressed && negb (prev_left s))%bool in
  let left_just_released := (negb left_pressed && prev_left s)%bool in
  '(l, d) ← (if (left_just_pressed && negb (dragging (drag s)))%bool then press (length (windows s)) mx my (windows s) (drag s) else Ret (windows s, drag s));
  l ← (if (dragging d && left_pressed)%bool then move_window d mx my l else Ret l);
  let d := if left_just_released then mkDrag false (window_index d) (offset_x d) (offset_y d) else d in
  Ret (mkState l d left_pressed (frame_count s)).

(** ** The loop *)
Definition render_frame (sh : shown) (rtc : Cmos.DateTime) (mx my : Z) (l : list Window) (c : Canvas) : outcome Canvas :=
  c ← render_desktop rtc c;
  c ← render_windows sh c l;
  draw_cursor c mx my.

(** One turn of the loop: [None] when the session ends. *)
Section Loop.
Context {H : Type} {HW : Hardware H}.
Definition turn (fuel cpus : nat) (exit_requested : bool) (sh : shown) (ms : Mouse.MouseState) (b : Bga.bga) (ser : Serial.serial) (vram : Z -> Z) (c : Canvas) (s : state) : hwo H (option (Serial.serial * (Z -> Z) * Canvas * state)) :=
  if exit_requested then mret None else
  key ← dev Serial.receive_byte_lockfree;
  if match key with Some k => ((k =? 0x1B) || (k =? 113) || (k =? 81))%bool | None => false end then mret None else
  ser ← Serial.serial_flush_all fuel cpus ser;
  s ← pure_ (on_mouse ms s);
  let next := mkState (windows s) (drag s) (prev_left s) (wrap 32 (frame_count s + 1)) in
  if frame_count s mod 2 =? 0 then
    rtc ← dev Cmos.read_rtc;
    c ← pure_ (render_frame sh rtc (Mouse.x ms) (Mouse.y ms) (windows s) c);
    mret (Some (ser, Bga.present b c vram, c, next))
  else mret (Some (ser, vram, c, next)).
End Loop.

(** ** Dragging *)
Fixpoint feed (l : list Mouse.MouseState) (s : state) : outcome state :=
  match l with [] => Ret s | ms :: l' => s ← on_mouse ms s; feed l' s end.

(** Window [i] is the one in front whose title bar is at the point, off its close button. *)
Record grabbed (l : list Window) (i : nat) (w : Window) (mx my : Z) : Prop := {
  gr_at : l !! i = Some w;
  gr_visible : visible w = true;
  gr_title : on_title_bar w mx my = true;
  gr_close : on_close w mx my = false;
  gr_front : forall j w', (i < j)%nat -> l !! j = Some w' -> visible w' = true -> on_title_bar w' mx my = false
}.

Definition focus (i : nat) (l : list Window) : list Window := imap (fun j w => set_active w (Nat.eqb j i)) l.

Lemma press_grabs n l d i w mx my : grabbed l i w mx my -> (i < n <= length l)%nat -> press n mx my l d = Ret (focus i l, mkDrag true i (mx - wx w) (my - wy w)).
Proof.
  intros [G1 G2 G3 G4 G5]. induction n as [|n IH]; intros Hn; [lia|]. cbn [press]. destruct (decide (i = n)) as [<-|Hne].
  - rewrite (at_Ret _ _ _ G1). cbn [mbind outcome_bind]. by rewrite G2, G3, G4.
  - destruct (lookup_lt_is_Some_2 l n) as [w' Hw']; [lia|]. rewrite (at_Ret _ _ _ Hw'). cbn [mbind outcome_bind]. destruct (visible w') eqn:Ev; [|apply IH; lia].
    rewrite (G5 n w') by (done || lia). apply IH. lia.
Qed.

Lemma lookup_focus i l j : focus i l !! j = (fun w => set_active w (Nat.eqb j i)) <$> l !! j.
Proof. unfold focus. by rewrite list_lookup_imap. Qed.

(** The state while window [i] is dragged, [(mx, my)] being where the mouse is. *)
Definition dragged (s0 : state) (i : nat) (w : Window) (mx0 my0 mx my : Z) : state :=
  mkState (<[i := set_place (set_active w true) (wx w + (mx - mx0)) (Z.max (wy w + (my - my0)) 0)]> (focus i (windows s0))) (mkDrag true i (mx0 - wx w) (my0 - wy w)) true (frame_count s0).

Lemma placed_by v a b mx my mx0 my0 : set_place v (mx - (mx0 - a)) (Z.max (my - (my0 - b)) 0) = set_place v (a + (mx - mx0)) (Z.max (b + (my - my0)) 0).
Proof. unfold set_place. f_equal; lia. Qed.

Lemma drag_move s0 i w mx0 my0 mx my ms : (i < length (windows s0))%nat -> Mouse.left_button ms = true ->
  on_mouse ms (dragged s0 i w mx0 my0 mx my) = Ret (dragged s0 i w mx0 my0 (Mouse.x ms) (Mouse.y ms)).
Proof.
  intros Hi Hl. unfold on_mouse. rewrite Hl. cbn [dragged prev_left drag dragging windows negb andb mbind outcome_bind frame_count]. unfold move_window. cbn [window_index offset_x offset_y].
  erewrite update_Ret by (apply list_lookup_insert_eq; unfold focus; by rewrite length_imap). cbn [mbind outcome_bind]. unfold dragged. rewrite list_insert_insert_eq, placed_by. done.
Qed.

Lemma feed_drag l s0 i w mx0 my0 mx my : (i < length (windows s0))%nat -> Forall (fun ms => Mouse.left_button ms = true) l ->
  exists mx' my', feed l (dragged s0 i w mx0 my0 mx my) = Ret (dragged s0 i w mx0 my0 mx' my') /\ (mx', my') = default (mx, my) ((fun ms => (Mouse.x ms, Mouse.y ms)) <$> last l).
Proof.
  intros Hi. revert mx my. induction l as [|ms l IH]; intros mx my Hl; cbn [feed]; [by exists mx, my|]. apply Forall_cons_1 in Hl as [Hm Hl]. rewrite drag_move by done. cbn [mbind outcome_bind].
  destruct (IH (Mouse.x ms) (Mouse.y ms) Hl) as (mx' & my' & E & Hlast). exists mx', my'. split; [done|]. rewrite Hlast, last_cons. by destruct (last l).
Qed.

(** When the button goes down on a title bar the window in front there is grabbed: through
    any sequence of movements with the button down it follows the mouse, kept below the upper
    edge, the other windows stay where they are and lose the focus; when the button is released
    all windows stay. *)
Theorem dragged_window_follows s i w press_at moves release mx my : dragging (drag s) = false -> prev_left s = false -> Mouse.left_button press_at = true ->
  grabbed (windows s) i w (Mouse.x press_at) (Mouse.y press_at) -> Forall (fun ms => Mouse.left_button ms = true) moves -> Mouse.left_button release = false ->
  (mx, my) = default (Mouse.x press_at, Mouse.y press_at) ((fun ms => (Mouse.x ms, Mouse.y ms)) <$> last moves) ->
  exists s', feed (press_at :: moves ++ [release]) s = Ret s' /\ dragging (drag s') = false /\ length (windows s') = length (windows s) /\
    windows s' !! i = Some (set_place (set_active w true) (wx w + (mx - Mouse.x press_at)) (Z.max (wy w + (my - Mouse.y press_at)) 0)) /\
    (forall j w', j <> i -> windows s !! j = Some w' -> windows s' !! j = Some (set_active w' false)).
Proof.
  intros Hd Hp Hl G Hm Hr Hlast. pose proof (lookup_lt_Some _ _ _ (gr_at _ _ _ _ _ G)) as Hi. set (mx0 := Mouse.x press_at) in *. set (my0 := Mouse.y press_at) in *.
  assert (E1 : on_mouse press_at s = Ret (dragged s i w mx0 my0 mx0 my0)).
  { unfold on_mouse. rewrite Hl, Hp, Hd. fold mx0 my0. cbn [negb andb]. rewrite (press_grabs _ _ _ i w) by (done || lia). cbn [mbind outcome_bind dragging andb]. unfold move_window. cbn [window_index offset_x offset_y].
    erewrite update_Ret by (rewrite lookup_focus, (gr_at _ _ _ _ _ G); reflexivity). cbn [mbind outcome_bind]. unfold dragged. by rewrite Nat.eqb_refl, placed_by. }
  destruct (feed_drag moves s i w mx0 my0 mx0 my0 Hi Hm) as (mx' & my' & E2 & Hlast'). assert (Hfeed : forall a b t, feed (a ++ b) t = (t' ← feed a t; feed b t')).
  { clear. induction a as [|m a IH]; intros b t; [done|]. cbn [app feed]. destruct (on_mouse m t); [|done..]. cbn [mbind outcome_bind]. apply IH. }
  rewrite <- Hlast in Hlast'. injection Hlast' as -> ->. cbn [feed]. rewrite E1. cbn [mbind outcome_bind]. rewrite Hfeed, E2. cbn [mbind outcome_bind feed].
  unfold on_mouse. rewrite Hr. cbn [dragged prev_left drag dragging windows negb andb mbind outcome_bind]. eexists. split; [reflexivity|]. cbn [windows drag dragging]. split; [done|].
  split; [by rewrite length_insert; unfold focus; rewrite length_imap|]. split; [apply list_lookup_insert_eq; unfold focus; by rewrite length_imap|].
  intros j w' Hne Hw'. rewrite list_lookup_insert_ne by done. rewrite lookup_focus, Hw'. cbn. by rewrite (proj2 (Nat.eqb_neq _ _)).
Qed.

Definition at_ms (b : bool) (mx my : Z) : Mouse.MouseState := Mouse.mkMouse mx my b false false.
Lemma dragged_window_witness : exists s', feed (at_ms true 200 60 :: [at_ms true 210 50; at_ms true 150 20] ++ [at_ms false 300 300]) initial = Ret s' /\
  (wx <$> windows s' !! 0%nat) = Some 0 /\ (wy <$> windows s' !! 0%nat) = Some 10.
Proof.
  destruct (dragged_window_follows initial 0 (mkWindow 50 50 420 320 SHELL_TITLE true true) (at_ms true 200 60) [at_ms true 210 50; at_ms true 150 20] (at_ms false 300 300) 150 20)
    as (s' & E & _ & _ & Hw & _); [done|done|done| |by repeat constructor|done|done|].
  - constructor; [done|done|done|done|]. intros [|[|j]] w' Hj Hw'; [lia| |done]. injection Hw' as <-. done.
  - exists s'. split; [exact E|]. rewrite Hw. done.
Defined.

(** ** Frames *)
Lemma fill_rect_draws c x y w h v : canvas_ok c -> fits x y w h -> draws c (fill_rect c x y w h v).
Proof. intros. by eapply draws_paints, fill_rect_paints. Qed.
Lemma fill_rect_alpha_draws c x y w h v a : canvas_ok c -> fits x y w h -> draws c (fill_rect_alpha c x y w h v a).
Proof. intros. by eapply draws_paints, fill_rect_alpha_paints. Qed.
Lemma fill_gradient_draws c x y w h t b : canvas_ok c -> fits x y w h -> draws c (fill_gradient_v c x y w h t b).
Proof. intros. by eapply draws_paints, fill_gradient_paints. Qed.
Lemma fill_circle_draws c cx cy r v : canvas_ok c -> 0 <= cx < 2 ^ 31 -> 0 <= r < 2 ^ 31 -> 0 <= cy < 2 ^ 31 -> draws c (fill_circle c cx cy r v).
Proof. intros. eapply draws_paints, fill_circle_paints; [done|lia..]. Qed.
Lemma fill_rounded_rect_draws c x y w h r v : canvas_ok c -> small x y w h -> 0 < r -> draws c (fill_rounded_rect c x y w h r v).
Proof. intros. by eapply draws_paints, fill_rounded_rect_paints. Qed.
Lemma fill_rounded_rect_alpha_draws c x y w h r v a : canvas_ok c -> small x y w h -> 0 <= r -> draws c (fill_rounded_rect_alpha c x y w h r v a).
Proof. intros. by eapply draws_paints, fill_rounded_rect_alpha_paints. Qed.
Lemma draw_text_draws c x y s v : canvas_ok c -> draws c (draw_text c x y s v).
Proof. apply draw_string_draws. Qed.

Create HintDb gui.
#[local] Hint Resolve fill_rect_draws fill_rect_alpha_draws fill_gradient_draws fill_circle_draws fill_rounded_rect_draws fill_rounded_rect_alpha_draws draw_text_draws draw_rect_outline_draws : gui.
#[local] Hint Extern 1 (fits _ _ _ _) => unfold fits; lia : gui.
#[local] Hint Extern 1 (small _ _ _ _) => unfold small; lia : gui.
#[local] Hint Extern 1 (_ <= _ < _) => lia : gui.
#[local] Hint Extern 1 (_ <= _) => lia : gui.
#[local] Hint Extern 1 (_ < _) => lia : gui.
#[local] Hint Extern 1 (draws _ (draw_str _ _ _ _ _)) => apply draw_text_draws : gui.

(** One drawing after the other. *)
Ltac drawing := repeat (apply draws_bind; [by auto with gui|let c := fresh "c" in intros c (? & ? & ?)]); try by auto with gui.

Lemma draw_window_frame_draws c x y w h t b : canvas_ok c -> 0 <= x < 2 ^ 30 -> 0 <= y < 2 ^ 30 -> 0 <= w < 2 ^ 29 -> 0 <= h < 2 ^ 29 -> draws c (draw_window_frame c x y w h t b).
Proof.
  intros Hc Hx Hy Hw Hh. unfold draw_window_frame. cbv zeta. rewrite !(u64_add_small x), !(u64_add_small y) by (lia || (unfold saturating_sub; pose proof (Z.div_pos (Z.max 0 (w - Z.of_nat (length t) * 8)) 2); assert (Z.max 0 (w - Z.of_nat (length t) * 8) / 2 <= w) by (apply Z.div_le_upper_bound; lia); lia)).
  rewrite (isize_small (y + 15)), (isize_small (x + 18)), (isize_small (x + 18 + 18)), (isize_small (x + 18 + 18 + 18)) by lia. drawing.
Qed.

Lemma render_shell_draws u t c x y : canvas_ok c -> draws c (render_shell_content u t c x y).
Proof. intros Hc. unfold render_shell_content. cbv zeta. drawing. Qed.

Definition labels_ok (names : option (list (list Z))) : Prop := match names with Some l => Forall (fun n => exists t, label n = Ret t) l | None => True end.

Lemma folders_draws l c x w gx fx fy : canvas_ok c -> Forall (fun n => exists t, label n = Ret t) l -> 0 <= gx < 2 ^ 30 -> 0 <= fx -> fx + 64 * Z.of_nat (length l) < 2 ^ 30 -> gx + 64 * Z.of_nat (length l) < 2 ^ 30 -> 0 <= fy -> fy + 60 * Z.of_nat (length l) < 2 ^ 30 ->
  draws c (folders l c x w gx fx fy).
Proof.
  revert c fx fy. induction l as [|n l IH]; intros c fx fy Hc Hl Hg Hf Hfx Hgx Hy Hfy; cbn [folders]; [by apply draws_ret|]. cbn [length] in *. apply Forall_cons_1 in Hl as [[t Ht] Hl].
  rewrite !(u64_add_small fx), !(u64_add_small fy) by lia. do 2 (apply draws_bind; [by auto with gui|intros ? (? & ? & ?)]). rewrite Ht. cbn [mbind outcome_bind]. apply draws_bind; [by auto with gui|intros ? (? & ? & ?)].
  destruct (_ <? _); apply IH; try done; lia.
Qed.

Lemma render_files_draws names c x y w h : canvas_ok c -> labels_ok names -> 0 <= x < 2 ^ 29 -> 0 <= y < 2 ^ 29 -> 0 <= w < 2 ^ 29 -> 0 <= h < 2 ^ 29 -> draws c (render_files_content names c x y w h).
Proof.
  intros Hc Hn Hx Hy Hw Hh. unfold render_files_content. cbv zeta. unfold saturating_sub. rewrite !(u64_add_small x), !(u64_add_small y), !(u64_add_small (x + 110)) by lia. drawing.
  destruct names as [l|]; [|by apply draws_ret]. assert (length (take 6 l) <= 6)%nat by (rewrite length_take; lia). apply folders_draws; [done|by apply Forall_take|lia..].
Qed.

Record window_ok (w : Window) : Prop := { wo_x : - 2 ^ 20 <= wx w < 2 ^ 20; wo_y : 0 <= wy w < 2 ^ 20; wo_w : 0 <= ww w < 2 ^ 20; wo_h : 0 <= wh w < 2 ^ 20 }.

Lemma render_window_draws s c w b : canvas_ok c -> labels_ok (names s) -> window_ok w -> draws c (render_window s c w b).
Proof.
  intros Hc Hn [H1 H2 H3 H4]. unfold render_window. destruct (_ || _)%bool; [by apply draws_ret|]. cbv zeta. rewrite !wrap_small by (unfold in_u; lia).
  apply draws_bind; [apply draw_window_frame_draws; [done|lia..]|]. intros c1 (? & ? & ?). destruct (decide _); [by apply render_shell_draws|]. destruct (decide _); [apply render_files_draws; [done|done|lia..]|by apply draws_ret].
Qed.

Lemma render_windows_draws s c l : canvas_ok c -> labels_ok (names s) -> Forall window_ok l -> draws c (render_windows s c l).
Proof.
  intros Hc Hn. revert c Hc. induction l as [|w l IH]; intros c Hc Hl; cbn [render_windows]; [by apply draws_ret|]. apply Forall_cons_1 in Hl as [Hw Hl].
  apply draws_bind; [by apply render_window_draws|]. intros c1 (? & _). by apply IH.
Qed.

Lemma blend_pixel_draws c x y v a : canvas_ok c -> 0 <= x -> 0 <= y -> draws c (blend_pixel c x y v a).
Proof.
  intros Hc Hx Hy. destruct (in_canvas c x y) eqn:E; [|unfold blend_pixel; rewrite E; by apply draws_ret]. unfold in_canvas in E. eapply draws_paints, blend_paints; [done|lia|lia].
Qed.

Lemma for_rows_draws bm f row c : canvas_ok c -> (forall r k p c', canvas_ok c' -> draws c' (f r k p c')) -> draws c (for_rows bm row f c).
Proof.
  intros Hc Hf. revert row c Hc. induction bm as [|line bm IH]; intros row c Hc; cbn [for_rows]; [by apply draws_ret|]. apply draws_bind; [|intros c' (? & _); by apply IH].
  generalize 0. induction line as [|p line IHl] in c, Hc |- *; intros k; cbn [for_cols]; [by apply draws_ret|]. apply draws_bind; [by apply Hf|]. intros c' (? & _). by apply IHl.
Qed.

Lemma draw_cursor_draws c mx my : canvas_ok c -> draws c (draw_cursor c mx my).
Proof.
  intros Hc. unfold draw_cursor. apply draws_bind; [|intros c1 (? & _)]; (apply for_rows_draws; [done|]; intros r k p c' Hc').
  - destruct (p =? 0); [by apply draws_ret|]. apply blend_pixel_draws; [done|apply in_u_add|apply in_u_add].
  - destruct (p =? 1); [apply set_pixel_draws; [done|apply in_u_add|apply in_u_add]|]. destruct (p =? 2); [apply set_pixel_draws; [done|apply in_u_add|apply in_u_add]|by apply draws_ret].
Qed.

Lemma dock_icons_draws l i c dx dy sp : canvas_ok c -> 0 <= i -> i + Z.of_nat (length l) <= 5 -> 0 <= dx < 2 ^ 30 -> 0 <= dy < 2 ^ 30 -> 0 <= sp < 100 -> draws c (dock_icons l i c dx dy 60 sp).
Proof.
  revert i c. induction l as [|[[name col] run] l IH]; intros i c Hc Hi Hl Hx Hy Hs; cbn [dock_icons]; [by apply draws_ret|]. cbn [length] in Hl. cbv zeta.
  assert (Hm : 0 <= (i + 1) * sp < 1000) by nia. rewrite (u64_mul_small (i + 1) sp) by lia. rewrite (u64_add_small dx) by lia. unfold saturating_sub. set (cx := dx + (i + 1) * sp) in *.
  rewrite !(u64_add_small dy), !(u64_add_small (Z.max 0 (cx - 18))), !(u64_add_small (dy + 8)), u64_sub_small, !isize_small by lia.
  do 3 (apply draws_bind; [by auto with gui|intros ? (? & ? & ?)]). apply draws_bind; [|intros c4 (? & _); apply IH; try done; lia]. destruct run; [by auto with gui|by apply draws_ret].
Qed.

Lemma render_desktop_draws rtc c : canvas_ok c -> 44 <= width c < 2 ^ 30 -> height c < 2 ^ 30 -> draws c (render_desktop rtc c).
Proof.
  intros Hc Hw Hh. pose proof (ok_height _ Hc) as Hh0. unfold render_desktop. cbv zeta. assert (H3 : 0 <= height c / 3 <= height c) by (split; [apply Z.div_pos; lia|apply Z.div_le_upper_bound; lia]).
  assert (H4 : 0 <= height c / 4 <= height c) by (split; [apply Z.div_pos; lia|apply Z.div_le_upper_bound; lia]). drawing.
  unfold render_dock. cbv zeta. unfold saturating_sub. set (dw := Z.min 460 (Z.max 0 (width c - 40))). assert (Hdw : 4 <= dw <= 460) by lia.
  assert (Hdx : 0 <= Z.max 0 (width c - dw) / 2 <= width c) by (split; [apply Z.div_pos; lia|apply Z.div_le_upper_bound; lia]). set (dx := Z.max 0 (width c - dw) / 2) in *. set (dy := Z.max 0 (height c - (60 + 16))).
  rewrite (u64_add_small dx), (u64_add_small dy), (u64_sub_small dw) by lia. drawing.
  apply dock_icons_draws; [done|lia|done|lia|lia|]. split; [apply Z.div_pos; lia|apply Z.div_lt_upper_bound; lia].
Qed.

(** ** The invariant of the event loop *)
Definition wins_ok (l : list Window) : Prop := Forall (fun w => - 2 ^ 19 <= wx w < 2 ^ 19 /\ 0 <= wy w < 2 ^ 19 /\ 0 <= ww w < 2 ^ 19 /\ 0 <= wh w < 2 ^ 19) l.
Definition drag_ok (l : list Window) (d : DragState) : Prop := dragging d = true -> (window_index d < length l)%nat /\ 0 <= offset_x d < 2 ^ 19 /\ 0 <= offset_y d < 30.
Record state_ok (s : state) : Prop := { so_windows : wins_ok (windows s); so_drag : drag_ok (windows s) (drag s) }.

Lemma press_ok n mx my l d : wins_ok l -> drag_ok l d -> (n <= length l)%nat -> exists l' d', press n mx my l d = Ret (l', d') /\ wins_ok l' /\ drag_ok l' d'.
Proof.
  intros Hl Hd. induction n as [|n IH]; intros Hn; cbn [press]; [by exists l, d|]. destruct (lookup_lt_is_Some_2 l n) as [w Hw]; [lia|]. rewrite (at_Ret _ _ _ Hw). cbn [mbind outcome_bind].
  destruct (visible w); cbn [negb]; [|apply IH; lia]. destruct (on_title_bar w mx my) eqn:Et; [|apply IH; lia]. pose proof (Forall_lookup_1 _ _ _ _ Hl Hw) as Hwo. cbv beta in Hwo. destruct (on_close w mx my).
  - rewrite (update_Ret _ _ _ _ Hw). cbn [mbind outcome_bind]. eexists _, d. split; [reflexivity|]. split; [by apply Forall_insert|]. unfold drag_ok in *. by rewrite length_insert.
  - eexists _, _. split; [reflexivity|]. split.
    + apply Forall_lookup_2. intros j w' Hw'. rewrite list_lookup_imap in Hw'. destruct (l !! j) as [w0|] eqn:Ej; [|done]. injection Hw' as <-. exact (Forall_lookup_1 _ _ _ _ Hl Ej).
    + intros _. cbn [window_index offset_x offset_y]. rewrite length_imap. unfold on_title_bar in Et. split; [lia|]. split; lia.
Qed.

Lemma on_mouse_ok ms s : state_ok s -> Mouse.on_screen ms -> exists s', on_mouse ms s = Ret s' /\ state_ok s'.
Proof.
  intros [S1 S2] [Hmx Hmy]. unfold on_mouse. set (o := if (_ && _)%bool then press _ _ _ _ _ else _).
  assert (Ho : exists l d, o = Ret (l, d) /\ wins_ok l /\ drag_ok l d) by (unfold o; destruct (_ && _)%bool; [by apply press_ok|by exists (windows s), (drag s)]).
  destruct Ho as (l & d & -> & Hl & Hd). cbn [mbind outcome_bind].
  assert (Hm : exists l', (if (dragging d && Mouse.left_button ms)%bool then move_window d (Mouse.x ms) (Mouse.y ms) l else Ret l) = Ret l' /\ wins_ok l' /\ length l' = length l).
  { destruct (dragging d) eqn:Ed; cbn [andb]; [|by exists l]. destruct (Mouse.left_button ms); [|by exists l]. destruct (Hd Ed) as (Hi & Hox & Hoy). destruct (lookup_lt_is_Some_2 l (window_index d) Hi) as [w Hw].
    unfold move_window. rewrite (update_Ret _ _ _ _ Hw). eexists. split; [reflexivity|]. split; [|by rewrite length_insert]. apply Forall_insert; [done|]. pose proof (Forall_lookup_1 _ _ _ _ Hl Hw). cbv beta in *. cbn. lia. }
  destruct Hm as (l' & -> & Hl' & Hlen). cbn [mbind outcome_bind]. eexists. split; [reflexivity|]. constructor; [done|]. cbn [drag windows]. unfold drag_ok. rewrite Hlen. destruct (_ && _)%bool; [done|exact Hd].
Qed.

Lemma feed_ok l s : state_ok s -> Forall Mouse.on_screen l -> exists s', feed l s = Ret s' /\ state_ok s'.
Proof.
  revert s. induction l as [|ms l IH]; intros s Hs Hl; cbn [feed]; [by exists s|]. apply Forall_cons_1 in Hl as [Hm Hl]. destruct (on_mouse_ok ms s Hs Hm) as (s1 & -> & H1). by apply IH.
Qed.

(** C33: whatever the mouse does on the screen, from the first frame on the desktop handles it
    and draws a frame without an index out of range: no window is ever dragged to where its
    frame, buttons or text would be drawn outside the pixels, as long as the names of the
    files can be cut after six bytes. *)
Theorem desktop_never_panics mice c sh rtc mx my : Forall Mouse.on_screen mice -> canvas_ok c -> width c = 1024 -> height c = 768 -> labels_ok (names sh) ->
  exists s c', feed mice initial = Ret s /\ render_frame sh rtc mx my (windows s) c = Ret c' /\ canvas_ok c' /\ width c' = 1024 /\ height c' = 768.
Proof.
  intros Hm Hc Hw Hh Hn. destruct (feed_ok mice initial) as (s & E & Hs); [|done|].
  - constructor; [|done]. repeat constructor; cbn; lia.
  - assert (Hd : draws c (render_frame sh rtc mx my (windows s) c)).
    { unfold render_frame. apply draws_bind; [apply render_desktop_draws; [done|lia|lia]|]. intros c1 (? & ? & ?). apply draws_bind.
      - apply render_windows_draws; [done|done|]. eapply Forall_impl; [exact (so_windows _ Hs)|]. intros w Hwo. cbv beta in Hwo. constructor; lia.
      - intros c2 (? & ? & ?). by apply draw_cursor_draws. }
    destruct Hd as (c' & E2 & K1 & K2 & K3). exists s, c'. split; [done|]. split; [done|]. split; [done|]. split; congruence.
Qed.
Lemma desktop_witness : exists s c', feed [at_ms true 60 60; at_ms true 0 0] initial = Ret s /\ render_frame (mkShown 0 0 (Some [ascii_bytes "bin"])) Cmos.zero 3 4 (windows s) (new 1024 768) = Ret c'.
Proof.
  destruct (desktop_never_panics [at_ms true 60 60; at_ms true 0 0] (new 1024 768) (mkShown 0 0 (Some [ascii_bytes "bin"])) Cmos.zero 3 4) as (s & c' & E1 & E2 & _).
  - repeat constructor; cbn; lia.
  - constructor; [cbn; lia|cbn; lia|]. unfold new. cbn [pixels width height]. rewrite length_replicate. rewrite u64_mul_small by lia. lia.
  - reflexivity.
  - reflexivity.
  - constructor; [|constructor]. exists (ascii_bytes "bin"). reflexivity.
  - exists s, c'. split; [exact E1|exact E2].
Defined.
End Gui.
