(* ===== verification/E1000.v ===== *)
(** * The e1000 network card (src/src/drivers/e1000.rs)

    The driver state with its transmit and receive rings, register accesses over
    any [Hardware], the initialisation, [send_packet] and [receive_packet].  The
    transmit ring is related to the queue of frames the card still has to send,
    the receive ring to the frames the card has stored; the address the driver
    settles on is shown to be a usable one whatever the card answers. *)

From Stdlib Require Import ZifyNat.
From stdpp Require Import prelude numbers list.
From S2P Require Import Prelude Io Pci.

Module E1000.
Import Pci.

Definition E1000_VENDOR_ID : Z := 0x8086.
Definition E1000_DEVICE_82540EM : Z := 0x100E.
Definition E1000_DEVICE_82545EM : Z := 0x100F.
Definition E1000_DEVICE_82543GC : Z := 0x1004.
Definition E1000_DEVICE_I217 : Z := 0x1539.

Definition REG_CTRL : Z := 0x0000.
Definition REG_EERD : Z := 0x0014.
Definition REG_ICR : Z := 0x00C0.
Definition REG_IMC : Z := 0x00D8.
Definition REG_RCTL : Z := 0x0100.
Definition REG_TCTL : Z := 0x0400.
Definition REG_TIPG : Z := 0x0410.
Definition REG_RDBAL : Z := 0x2800.
Definition REG_RDBAH : Z := 0x2804.
Definition REG_RDLEN : Z := 0x2808.
Definition REG_RDH : Z := 0x2810.
Definition REG_RDT : Z := 0x2818.
Definition REG_TDBAL : Z := 0x3800.
Definition REG_TDBAH : Z := 0x3804.
Definition REG_TDLEN : Z := 0x3808.
Definition REG_TDH : Z := 0x3810.
Definition REG_TDT : Z := 0x3818.
Definition REG_RAL0 : Z := 0x5400.
Definition REG_RAH0 : Z := 0x5404.

(** CTRL_SLU | CTRL_ASDE | CTRL_FD; RCTL_EN | RCTL_BAM | RCTL_SECRC | RCTL_BSIZE_2048;
    TCTL_EN | TCTL_PSP | TCTL_CT | TCTL_COLD. *)
Definition CTRL_RST : Z := Z.shiftl 1 26.
Definition CTRL_UP : Z := Z.lor (Z.lor (Z.shiftl 1 6) (Z.shiftl 1 5)) (Z.shiftl 1 0).
Definition RCTL_ON : Z := Z.lor (Z.lor (Z.lor (Z.shiftl 1 1) (Z.shiftl 1 15)) (Z.shiftl 1 26)) 0.
Definition TCTL_ON : Z := Z.lor (Z.lor (Z.lor (Z.shiftl 1 1) (Z.shiftl 1 3)) (Z.shiftl 0x10 4)) (Z.shiftl 0x40 12).

Definition RX_DESC_COUNT : nat := 8.
Definition TX_DESC_COUNT : nat := 8.
Definition PACKET_BUFFER_SIZE : nat := Z.to_nat 2048.

Record RxDesc := mkRx { rx_addr : Z; rx_length : Z; rx_checksum : Z; rx_status : Z; rx_errors : Z; rx_special : Z }.
Record TxDesc := mkTx { tx_addr : Z; tx_length : Z; tx_cso : Z; tx_cmd : Z; tx_status : Z; tx_css : Z; tx_special : Z }.
Definition rx_default : RxDesc := mkRx 0 0 0 0 0 0.
Definition tx_default : TxDesc := mkTx 0 0 0 0 0 0 0.

Record E1000 := mkE1000 {
  pci_bus : Z; pci_slot : Z; pci_func : Z; mmio_base : Z; io_base : Z; mac : list Z; is_initialized : bool;
  rx_descs : option (list RxDesc); rx_buffers : list (list Z); rx_cur : nat;
  tx_descs : option (list TxDesc); tx_buffers : list (list Z); tx_cur : nat;
  rx_packets_count : Z; tx_packets_count : Z; rx_bytes_count : Z; tx_bytes_count : Z
}.

Definition DEFAULT_MAC : list Z := [0x52; 0x54; 0x00; 0x12; 0x34; 0x56].

Definition new : E1000 := mkE1000 0 0 0 0 0 DEFAULT_MAC false None [] 0 None [] 0 0 0 0 0.

Definition set_mac (d : E1000) (m : list Z) : E1000 :=
  mkE1000 (pci_bus d) (pci_slot d) (pci_func d) (mmio_base d) (io_base d) m (is_initialized d) (rx_descs d) (rx_buffers d) (rx_cur d)
    (tx_descs d) (tx_buffers d) (tx_cur d) (rx_packets_count d) (tx_packets_count d) (rx_bytes_count d) (tx_bytes_count d).

(** [buf[..n].copy_from_slice(packet)] where [n] is the length of the packet. *)
Definition blit (packet buf : list Z) : outcome (list Z) :=
  if (length packet <=? length buf)%nat then Ret (packet ++ drop (length packet) buf) else Panic.
(** [buf[..n].to_vec()] *)
Definition prefix_of (n : nat) (buf : list Z) : outcome (list Z) :=
  if (n <=? length buf)%nat then Ret (take n buf) else Panic.

Section Driver.
Context {H : Type} `{Hardware H}.

Definition read_reg (d : E1000) (reg : Z) : hw H Z :=
  if negb (io_base d =? 0) then port_out (io_base d) reg;; port_in (wrap 16 (io_base d + 4))
  else if negb (mmio_base d =? 0) then fun h => read_volatile h (u64_add (mmio_base d) reg)
  else mret 0.

Definition write_reg (d : E1000) (reg value : Z) : hw H () :=
  if negb (io_base d =? 0) then port_out (io_base d) reg;; port_out (wrap 16 (io_base d + 4)) value
  else if negb (mmio_base d =? 0) then fun h => (tt, write_volatile h (u64_add (mmio_base d) reg) value)
  else mret tt.

(** [while (res & 0x12) == 0 && attempts < 2000]: [left] is what remains of 2000. *)
Fixpoint wait_eerd (d : E1000) (left : nat) (res : Z) : hw H Z :=
  if Z.land res 0x12 =? 0 then
    match left with
    | O => mret res
    | S left' => res' ← read_reg d REG_EERD; wait_eerd d left' res'
    end
  else mret res.

(** One access to the EEPROM with the address shifted by [sh]. *)
Definition read_eerd (d : E1000) (word sh : Z) : hw H Z :=
  write_reg d REG_EERD (Z.lor 1 (Z.shiftl word sh));;
  res ← read_reg d REG_EERD; wait_eerd d (Z.to_nat 2000) res.

(** The loop over the three words; [None] is [success = false]. *)
Definition read_word (d : E1000) (word : Z) : hw H (option (list Z)) :=
  res ← read_eerd d word 2;
  res ← (if Z.land res 0x12 =? 0 then read_eerd d word 8 else mret res);
  mret (if negb (Z.land res 0x12 =? 0) then
          let val := wrap 16 (Z.shiftr res 16) in Some [Z.land val 0xFF; Z.land (Z.shiftr val 8) 0xFF]
        else None).

Definition any_nonzero (m : list Z) : bool := existsb (fun b => negb (b =? 0)) m.
Definition is_broadcast (m : list Z) : bool := bool_decide (m = replicate 6 0xFF).

Definition mac_of_eeprom (w0 w1 w2 : option (list Z)) : option (list Z) :=
  match w0, w1, w2 with
  | Some a, Some b, Some c =>
    let m := a ++ b ++ c in if (any_nonzero m && negb (is_broadcast m))%bool then Some m else None
  | _, _, _ => None
  end.

(** The six bytes in the two receive-address registers, and back. *)
Definition mac_of_regs (ral rah : Z) : list Z :=
  [Z.land ral 0xFF; Z.land (Z.shiftr ral 8) 0xFF; Z.land (Z.shiftr ral 16) 0xFF; Z.land (Z.shiftr ral 24) 0xFF;
   Z.land rah 0xFF; Z.land (Z.shiftr rah 8) 0xFF].
Definition mac_byte (m : list Z) (i : nat) : Z := nth i m 0.
Definition ral_of_mac (m : list Z) : Z :=
  Z.lor (Z.lor (Z.lor (mac_byte m 0) (Z.shiftl (mac_byte m 1) 8)) (Z.shiftl (mac_byte m 2) 16)) (Z.shiftl (mac_byte m 3) 24).
Definition rah_of_mac (m : list Z) : Z :=
  Z.lor (Z.lor (mac_byte m 4) (Z.shiftl (mac_byte m 5) 8)) (Z.shiftl 1 31).

Definition read_mac_address (d : E1000) : hw H E1000 :=
  ral ← read_reg d REG_RAL0;
  rah ← read_reg d REG_RAH0;
  m ← (if (negb (ral =? 0) || negb (Z.land rah 0xFFFF =? 0))%bool then mret (mac_of_regs ral rah) else
         w0 ← read_word d 0; w1 ← read_word d 1; w2 ← read_word d 2;
         mret (from_option id (mac d) (mac_of_eeprom w0 w1 w2)));
  let m' := if (negb (any_nonzero m) || is_broadcast m)%bool then DEFAULT_MAC else m in
  write_reg d REG_RAL0 (ral_of_mac m');;
  write_reg d REG_RAH0 (rah_of_mac m');;
  mret (set_mac d m').

(** The controllers the driver accepts. *)
Definition is_e1000 (dev : PciDevice) : bool :=
  ((vendor_id dev =? E1000_VENDOR_ID) &&
   ((device_id dev =? E1000_DEVICE_82540EM) || (device_id dev =? E1000_DEVICE_82545EM) ||
    (device_id dev =? E1000_DEVICE_82543GC) || (device_id dev =? E1000_DEVICE_I217)))%bool.

(** The physical addresses of the rings and buffers [init] allocates on the heap. *)
Record DmaMemory := mkDma { rx_ring : Z; rx_bufs : list Z; tx_ring : Z; tx_bufs : list Z }.

Definition with_device (d : E1000) (dev : PciDevice) (bar0 bar1 : Z * bool) : E1000 :=
  let io := if (snd bar1 && negb (fst bar1 =? 0))%bool then Some (wrap 16 (fst bar1))
            else if (snd bar0 && negb (fst bar0 =? 0))%bool then Some (wrap 16 (fst bar0)) else None in
  mkE1000 (bus dev) (slot dev) (func dev) (if io then mmio_base d else fst bar0) (from_option id (io_base d) io) (mac d)
    (is_initialized d) (rx_descs d) (rx_buffers d) (rx_cur d) (tx_descs d) (tx_buffers d) (tx_cur d)
    (rx_packets_count d) (tx_packets_count d) (rx_bytes_count d) (tx_bytes_count d).

Definition with_rings (d : E1000) (m : DmaMemory) : E1000 :=
  mkE1000 (pci_bus d) (pci_slot d) (pci_func d) (mmio_base d) (io_base d) (mac d) true
    (Some ((fun a => mkRx a 0 0 0 0 0) <$> rx_bufs m)) (replicate RX_DESC_COUNT (replicate PACKET_BUFFER_SIZE 0)) 0
    (Some ((fun a => mkTx a 0 0 0 1 0 0) <$> tx_bufs m)) (replicate TX_DESC_COUNT (replicate PACKET_BUFFER_SIZE 0)) 0
    (rx_packets_count d) (tx_packets_count d) (rx_bytes_count d) (tx_bytes_count d).

Definition init (m : DmaMemory) (d : E1000) : hw H (bool * E1000) :=
  pci_devices ← scan_pci_bus;
  match List.find is_e1000 pci_devices with
  | None => mret (false, d)
  | Some dev =>
    pci_enable_bus_master (bus dev) (slot dev) (func dev);;
    bar0 ← pci_get_bar (bus dev) (slot dev) (func dev) 0;
    bar1 ← pci_get_bar (bus dev) (slot dev) (func dev) 1;
    let d1 := with_device d dev bar0 bar1 in
    write_reg d1 REG_CTRL CTRL_RST;;
    write_reg d1 REG_CTRL CTRL_UP;;
    write_reg d1 REG_IMC 0xFFFFFFFF;;
    _ ← read_reg d1 REG_ICR;
    d2 ← read_mac_address d1;
    write_reg d2 REG_RDBAL (wrap 32 (rx_ring m));;
    write_reg d2 REG_RDBAH (wrap 32 (Z.shiftr (rx_ring m) 32));;
    write_reg d2 REG_RDLEN (Z.of_nat RX_DESC_COUNT * 16);;
    write_reg d2 REG_RDH 0;;
    write_reg d2 REG_RDT (Z.of_nat RX_DESC_COUNT - 1);;
    write_reg d2 REG_RCTL RCTL_ON;;
    write_reg d2 REG_TDBAL (wrap 32 (tx_ring m));;
    write_reg d2 REG_TDBAH (wrap 32 (Z.shiftr (tx_ring m) 32));;
    write_reg d2 REG_TDLEN (Z.of_nat TX_DESC_COUNT * 16);;
    write_reg d2 REG_TDH 0;;
    write_reg d2 REG_TDT 0;;
    write_reg d2 REG_TIPG (Z.lor (Z.lor 10 (Z.shiftl 10 10)) (Z.shiftl 10 20));;
    write_reg d2 REG_TCTL TCTL_ON;;
    mret (true, with_rings d2 m)
  end.

Definition send_packet (d : E1000) (packet : list Z) (h : H) : outcome (bool * E1000 * H) :=
  if (negb (is_initialized d) || (length packet =? 0)%nat || (PACKET_BUFFER_SIZE <? length packet)%nat)%bool then Ret (false, d, h) else
  match tx_descs d with
  | None => Ret (false, d, h)
  | Some descs =>
    let cur := tx_cur d in
    buf ← at_ (tx_buffers d) cur;
    buf' ← blit packet buf;
    descs' ← update descs cur (fun t => mkTx (tx_addr t) (wrap 16 (Z.of_nat (length packet))) (tx_cso t)
                                 (Z.lor (Z.lor (Z.shiftl 1 0) (Z.shiftl 1 1)) (Z.shiftl 1 3)) 0 (tx_css t) (tx_special t));
    let cur' := ((cur + 1) mod TX_DESC_COUNT)%nat in
    let '(_, h') := write_reg d REG_TDT (Z.of_nat cur') h in
    Ret (true,
      mkE1000 (pci_bus d) (pci_slot d) (pci_func d) (mmio_base d) (io_base d) (mac d) (is_initialized d) (rx_descs d) (rx_buffers d) (rx_cur d)
        (Some descs') (<[cur := buf']> (tx_buffers d)) cur' (rx_packets_count d) (u64_add (tx_packets_count d) 1) (rx_bytes_count d)
        (u64_add (tx_bytes_count d) (Z.of_nat (length packet))), h')
  end.

Definition receive_packet (d : E1000) (h : H) : outcome (option (list Z) * E1000 * H) :=
  if negb (is_initialized d) then Ret (None, d, h) else
  match rx_descs d with
  | None => Ret (None, d, h)
  | Some descs =>
    let cur := rx_cur d in
    r ← at_ descs cur;
    if Z.land (rx_status r) 1 =? 0 then Ret (None, d, h) else
    let len := Z.to_nat (rx_length r) in
    buf ← at_ (rx_buffers d) cur;
    packet ← prefix_of len buf;
    let descs' := <[cur := mkRx (rx_addr r) (rx_length r) (rx_checksum r) 0 (rx_errors r) (rx_special r)]> descs in
    let '(_, h') := write_reg d REG_RDT (Z.of_nat cur) h in
    Ret (Some packet,
      mkE1000 (pci_bus d) (pci_slot d) (pci_func d) (mmio_base d) (io_base d) (mac d) (is_initialized d) (Some descs') (rx_buffers d)
        ((cur + 1) mod RX_DESC_COUNT)%nat (tx_descs d) (tx_buffers d) (tx_cur d)
        (u64_add (rx_packets_count d) 1) (tx_packets_count d) (u64_add (rx_bytes_count d) (rx_length r)) (tx_bytes_count d), h')
  end.

End Driver.

(** ** The rings *)
Ltac Zify.zify_post_hook ::= Z.to_euclidean_division_equations.

(** The buffers are arrays of 2048 bytes, one for each of the eight descriptors. *)
Definition tx_ok (d : E1000) : Prop :=
  is_initialized d = true /\ (tx_cur d < TX_DESC_COUNT)%nat /\ length (tx_buffers d) = TX_DESC_COUNT /\
  Forall (fun b => length b = PACKET_BUFFER_SIZE) (tx_buffers d) /\
  exists descs, tx_descs d = Some descs /\ length descs = TX_DESC_COUNT.
Definition rx_ok (d : E1000) : Prop :=
  is_initialized d = true /\ (rx_cur d < RX_DESC_COUNT)%nat /\ length (rx_buffers d) = RX_DESC_COUNT /\
  exists descs, rx_descs d = Some descs /\ length descs = RX_DESC_COUNT.

(** The card owns the descriptors from its head register up to, and without, the
    tail register: equal registers are an empty ring.  The frames in them are what
    the card still has to send. *)
Definition in_use (d : E1000) (head : nat) : nat := ((tx_cur d + TX_DESC_COUNT - head) mod TX_DESC_COUNT)%nat.
Definition frame_at (descs : list TxDesc) (bufs : list (list Z)) (j : nat) : list Z :=
  match descs !! j, bufs !! j with Some t, Some b => take (Z.to_nat (tx_length t)) b | _, _ => [] end.
Definition queued (d : E1000) (head : nat) : list (list Z) :=
  (fun i => frame_at (default [] (tx_descs d)) (tx_buffers d) ((head + i) mod TX_DESC_COUNT)) <$> seq 0 (in_use d head).

Lemma blit_ok packet buf : (length packet <= length buf)%nat -> blit packet buf = Ret (packet ++ drop (length packet) buf).
Proof. intros Hl. unfold blit. by rewrite (proj2 (Nat.leb_le _ _)). Qed.

(** A descriptor in use other than the current one is untouched by a store at the current one. *)
Lemma frame_at_other descs bufs cur j t b :
  j <> cur -> frame_at (<[cur := t]> descs) (<[cur := b]> bufs) j = frame_at descs bufs j.
Proof. intros Hne. unfold frame_at. by rewrite !list_lookup_insert_ne. Qed.

Lemma frame_at_same descs bufs cur t b :
  (cur < length descs)%nat -> (cur < length bufs)%nat ->
  frame_at (<[cur := t]> descs) (<[cur := b]> bufs) cur = take (Z.to_nat (tx_length t)) b.
Proof. intros H1 H2. unfold frame_at. by rewrite !list_lookup_insert_eq. Qed.

Section Rings.
Context {H : Type} `{Hardware H}.

(** The whole effect of an accepted packet. *)
Lemma send_packet_step (d : E1000) packet (h : H) :
  tx_ok d -> (0 < length packet <= PACKET_BUFFER_SIZE)%nat ->
  exists descs t b d',
    tx_descs d = Some descs /\ length descs = TX_DESC_COUNT /\
    send_packet d packet h = Ret (true, d', snd (write_reg d REG_TDT (Z.of_nat (tx_cur d')) h)) /\
    tx_descs d' = Some (<[tx_cur d := t]> descs) /\ Z.to_nat (tx_length t) = length packet /\
    tx_buffers d' = <[tx_cur d := packet ++ b]> (tx_buffers d) /\
    tx_cur d' = ((tx_cur d + 1) mod TX_DESC_COUNT)%nat /\ is_initialized d' = true /\ tx_ok d' /\
    rx_descs d' = rx_descs d /\ rx_buffers d' = rx_buffers d /\ rx_cur d' = rx_cur d.
Proof.
  intros (Hi & Hc & Hb & Hbl & descs & Hd & Hdl) Hp. unfold TX_DESC_COUNT in *.
  destruct (lookup_lt_is_Some_2 (tx_buffers d) (tx_cur d)) as [buf Ebuf]; [lia|].
  destruct (lookup_lt_is_Some_2 descs (tx_cur d)) as [t Et]; [lia|].
  pose proof (proj1 (Forall_lookup _ _) Hbl _ _ Ebuf) as Hbuf. cbn beta in Hbuf.
  unfold send_packet. rewrite Hi, Hd. cbn [negb orb].
  rewrite (proj2 (Nat.eqb_neq _ _)), (proj2 (Nat.ltb_ge _ _)) by lia. cbn [orb].
  rewrite (at_Ret _ _ _ Ebuf). cbn [mbind outcome_bind]. rewrite blit_ok by lia. cbn [mbind outcome_bind].
  rewrite (update_Ret _ _ _ _ Et). cbn [mbind outcome_bind].
  rewrite (surjective_pairing (write_reg d REG_TDT _ h)). 
  match goal with |- context [Ret (true, ?x, _)] => eexists descs, _, (drop (length packet) buf), x end. split; [done|]. split; [done|].
  split; [reflexivity|]. cbn [tx_descs tx_buffers tx_cur is_initialized rx_descs rx_buffers rx_cur].
  split; [reflexivity|]. cbn [tx_length]. split.
  { rewrite wrap_small; [lia|]. unfold PACKET_BUFFER_SIZE in Hp. split; [lia|]. change (2 ^ 16) with 65536. lia. }
  split; [done|]. split; [done|]. split; [done|]. split; [|done].
  unfold tx_ok, TX_DESC_COUNT. cbn [tx_descs tx_buffers tx_cur is_initialized]. rewrite length_insert.
  split; [done|]. split; [lia|]. split; [done|]. split.
  - apply Forall_insert; [done|]. rewrite length_app, length_drop. lia.
  - eexists. split; [done|]. by rewrite length_insert.
Qed.

Lemma queued_send (d : E1000) packet (h : H) head :
  tx_ok d -> (0 < length packet <= PACKET_BUFFER_SIZE)%nat -> (head < TX_DESC_COUNT)%nat -> (length (queued d head) < 7)%nat ->
  exists d', send_packet d packet h = Ret (true, d', snd (write_reg d REG_TDT (Z.of_nat (tx_cur d')) h)) /\
    queued d' head = queued d head ++ [packet] /\ tx_ok d' /\
    rx_descs d' = rx_descs d /\ rx_buffers d' = rx_buffers d /\ rx_cur d' = rx_cur d.
Proof.
  intros Hok Hp Hh Hn. destruct (send_packet_step d packet h Hok Hp) as (descs & t & b & d' & Hd & Hdl & Es & Hd' & Ht & Hb' & Hc' & _ & Hok' & Hrx).
  exists d'. split; [done|]. split; [|done]. unfold queued in *. rewrite length_fmap, length_seq in Hn.
  destruct Hok as (_ & Hc & Hbl & _). unfold TX_DESC_COUNT in *.
  assert (Hu : in_use d' head = S (in_use d head)) by (unfold in_use, TX_DESC_COUNT in *; rewrite Hc'; lia).
  rewrite Hu, seq_S, fmap_app, Hd, Hd', Hb'. cbn [from_option fmap list_fmap]. unfold id, TX_DESC_COUNT. f_equal.
  - apply list_fmap_ext. intros i x Hx. apply lookup_seq in Hx as [-> Hx]. apply frame_at_other.
    unfold in_use, TX_DESC_COUNT in *. lia.
  - replace ((head + (0 + in_use d head)) mod 8)%nat with (tx_cur d) by (unfold in_use, TX_DESC_COUNT in *; lia).
    rewrite frame_at_same by lia. by rewrite Ht, take_app_length.
Qed.

(** *** Reception *)

(** [p] is stored in the descriptor [i] places after the current one. *)
Definition stored_at (d : E1000) (i : nat) (p : list Z) : Prop :=
  exists descs r b, rx_descs d = Some descs /\ descs !! ((rx_cur d + i) mod RX_DESC_COUNT)%nat = Some r /\
    rx_buffers d !! ((rx_cur d + i) mod RX_DESC_COUNT)%nat = Some b /\
    Z.land (rx_status r) 1 <> 0 /\ rx_length r = Z.of_nat (length p) /\ (length p <= length b)%nat /\ take (length p) b = p.

Lemma receive_packet_step (d : E1000) (h : H) p :
  rx_ok d -> stored_at d 0 p ->
  exists d', receive_packet d h = Ret (Some p, d', snd (write_reg d REG_RDT (Z.of_nat (rx_cur d)) h)) /\ rx_ok d' /\
    rx_cur d' = ((rx_cur d + 1) mod RX_DESC_COUNT)%nat /\
    (forall i q, (1 <= i < RX_DESC_COUNT)%nat -> stored_at d i q -> stored_at d' (i - 1) q) /\
    (exists descs r, rx_descs d' = Some descs /\ descs !! rx_cur d = Some r /\ rx_status r = 0) /\
    tx_descs d' = tx_descs d /\ tx_buffers d' = tx_buffers d /\ tx_cur d' = tx_cur d.
Proof.
  intros (Hi & Hc & Hbl & descs0 & Hd0 & Hdl) (descs & r & b & Hd & Hr & Hb & Hst & Hln & Hle & Htk).
  rewrite Hd in Hd0. injection Hd0 as <-. unfold RX_DESC_COUNT in *.
  replace ((rx_cur d + 0) mod 8)%nat with (rx_cur d) in * by lia.
  unfold receive_packet. rewrite Hi, Hd. cbn [negb]. rewrite (at_Ret _ _ _ Hr). cbn [mbind outcome_bind].
  rewrite (proj2 (Z.eqb_neq _ _)) by done. rewrite (at_Ret _ _ _ Hb). cbn [mbind outcome_bind]. unfold prefix_of.
  rewrite Hln, Nat2Z.id, (proj2 (Nat.leb_le _ _)) by done. cbn [mbind outcome_bind].
  rewrite (surjective_pairing (write_reg d REG_RDT _ h)). eexists. split; [rewrite Htk; reflexivity|].
  cbn [rx_descs rx_buffers rx_cur is_initialized tx_descs tx_buffers tx_cur]. unfold RX_DESC_COUNT. split.
  { split; [done|]. split; [cbn [rx_cur]; unfold RX_DESC_COUNT; lia|]. split; [done|]. eexists. split; [done|]. by rewrite length_insert. }
  split; [done|]. split.
  - intros i q Hi' (descs' & r' & b' & Hd' & Hr' & Hb' & Hst' & Hrest). rewrite Hd in Hd'. injection Hd' as <-.
    unfold RX_DESC_COUNT in *. eexists _, r', b'. split; [reflexivity|]. cbn [rx_cur rx_buffers]. unfold RX_DESC_COUNT.
    replace (((rx_cur d + 1) mod 8 + (i - 1)) mod 8)%nat with ((rx_cur d + i) mod 8)%nat by lia.
    rewrite list_lookup_insert_ne by lia. done.
  - split; [|done]. eexists _, _. split; [reflexivity|]. split; [apply list_lookup_insert_eq; lia|done].
Qed.

(** [n] calls of [receive_packet]. *)
Fixpoint receive_many (n : nat) (d : E1000) (h : H) : outcome (list (list Z) * E1000 * H) :=
  match n with
  | O => Ret ([], d, h)
  | S n' =>
    r ← receive_packet d h;
    match r with
    | (Some p, d', h') => r' ← receive_many n' d' h'; let '(ps, d'', h'') := r' in Ret (p :: ps, d'', h'')
    | (None, d', h') => Ret ([], d', h')
    end
  end.

Lemma receive_many_stored ps (d : E1000) (h : H) :
  rx_ok d -> (length ps <= RX_DESC_COUNT)%nat -> (forall i p, ps !! i = Some p -> stored_at d i p) ->
  exists d' h', receive_many (length ps) d h = Ret (ps, d', h') /\ rx_ok d' /\ rx_cur d' = ((rx_cur d + length ps) mod RX_DESC_COUNT)%nat /\
    tx_descs d' = tx_descs d /\ tx_buffers d' = tx_buffers d /\ tx_cur d' = tx_cur d.
Proof.
  revert d h. induction ps as [|p ps IH]; intros d h Hok Hl Hs.
  - exists d, h. split; [done|]. split; [done|]. destruct Hok as (_ & Hc & _). unfold RX_DESC_COUNT in *. cbn [length]. split; [lia|done].
  - destruct (receive_packet_step d h p Hok (Hs 0%nat p eq_refl)) as (d1 & E1 & Hok1 & Hc1 & Hs1 & _ & T1 & T2 & T3).
    unfold RX_DESC_COUNT in *. cbn [length] in *.
    destruct (IH d1 (snd (write_reg d REG_RDT (Z.of_nat (rx_cur d)) h)) Hok1) as (d2 & h2 & E2 & Hok2 & Hc2 & T4 & T5 & T6); [lia| |].
    { intros i q Hq. assert (i < length ps)%nat by (by apply lookup_lt_is_Some; eexists).
      replace i with (S i - 1)%nat by lia. apply Hs1; [lia|]. by apply Hs. }
    exists d2, h2. cbn [receive_many]. rewrite E1. cbn [mbind outcome_bind]. rewrite E2. cbn [mbind outcome_bind].
    split; [done|]. split; [done|]. split; [rewrite Hc2, Hc1; lia|]. split_and!; congruence.
Qed.

End Rings.

(** [init] leaves rings that satisfy both invariants, with nothing to send. *)
Lemma with_rings_ok d m :
  length (rx_bufs m) = RX_DESC_COUNT -> length (tx_bufs m) = TX_DESC_COUNT ->
  tx_ok (with_rings d m) /\ rx_ok (with_rings d m) /\ queued (with_rings d m) 0 = [].
Proof.
  intros Hr Ht. unfold tx_ok, rx_ok, with_rings.
  cbn [is_initialized tx_cur tx_buffers tx_descs rx_cur rx_buffers rx_descs]. split; [|split; [|done]].
  - split; [done|]. split; [unfold TX_DESC_COUNT; lia|]. split; [apply length_replicate|].
    split; [apply Forall_replicate, length_replicate|]. eexists. split; [done|]. by rewrite length_fmap.
  - split; [done|]. split; [unfold RX_DESC_COUNT; lia|]. split; [apply length_replicate|]. eexists. split; [done|]. by rewrite length_fmap.
Qed.

(** ** The address of the card *)
Definition is_mac (m : list Z) : Prop := length m = 6%nat /\ Forall (in_u 8) m.
Definition usable (m : list Z) : Prop := is_mac m /\ m <> replicate 6 0 /\ m <> replicate 6 0xFF.

Lemma byte_of_mask x : in_u 8 (Z.land x 0xFF).
Proof. change 0xFF with (2 ^ 8 - 1). rewrite land_mask by lia. apply in_u_mod. lia. Qed.

Lemma any_nonzero_zeros n : any_nonzero (replicate n 0) = false.
Proof. by induction n. Qed.

Lemma mac_of_regs_ok ral rah : is_mac (mac_of_regs ral rah).
Proof. split; [done|]. repeat constructor; apply byte_of_mask. Qed.

Definition word_ok (w : option (list Z)) : Prop := forall l, w = Some l -> length l = 2%nat /\ Forall (in_u 8) l.

Lemma mac_of_eeprom_ok w0 w1 w2 m : word_ok w0 -> word_ok w1 -> word_ok w2 -> mac_of_eeprom w0 w1 w2 = Some m -> is_mac m.
Proof.
  intros H0 H1 H2. unfold mac_of_eeprom. destruct w0 as [a|], w1 as [b|], w2 as [c|]; try done.
  destruct (any_nonzero _ && _); [|done]. intros [= <-]. destruct (H0 a eq_refl) as [La Fa], (H1 b eq_refl) as [Lb Fb], (H2 c eq_refl) as [Lc Fc].
  split; [by rewrite !length_app, La, Lb, Lc|]. by repeat apply Forall_app_2.
Qed.

(** The last correction of [read_mac_address]. *)
Lemma corrected_usable m : is_mac m -> usable (if (negb (any_nonzero m) || is_broadcast m)%bool then DEFAULT_MAC else m).
Proof.
  intros Hm. destruct (any_nonzero m) eqn:En; cbn [negb orb]; [|repeat split; try done; repeat constructor; lia].
  unfold is_broadcast. destruct (bool_decide_reflect (m = replicate 6 255)); [repeat split; try done; repeat constructor; lia|].
  repeat split; [apply Hm..| |done]. intros ->. by rewrite any_nonzero_zeros in En.
Qed.

Section Mac.
Context {H : Type} `{Hardware H}.

Lemma read_word_ok (d : E1000) w (h : H) : word_ok (fst (read_word d w h)).
Proof.
  unfold read_word, mbind, hw_bind, mret, hw_ret. destruct (read_eerd d w 2 h) as [r1 h1].
  destruct (if Z.land r1 18 =? 0 then read_eerd d w 8 else (fun h => (r1, h))) as [r2 h2]. cbn [fst].
  intros l. destruct (negb _); [|done]. intros [= <-]. split; [done|]. repeat constructor; apply byte_of_mask.
Qed.

Lemma read_mac_shape (d : E1000) (h : H) :
  is_mac (mac d) ->
  exists m h1, is_mac m /\ read_mac_address d h =
    (let m' := if (negb (any_nonzero m) || is_broadcast m)%bool then DEFAULT_MAC else m in
     (set_mac d m', snd (write_reg d REG_RAH0 (rah_of_mac m') (snd (write_reg d REG_RAL0 (ral_of_mac m') h1))))).
Proof.
  intros Hd. unfold read_mac_address, mbind, hw_bind, mret, hw_ret.
  destruct (read_reg d REG_RAL0 h) as [ral h1]. destruct (read_reg d REG_RAH0 h1) as [rah h2]. cbv zeta.
  destruct (negb (ral =? 0) || _)%bool.
  - exists (mac_of_regs ral rah), h2. split; [apply mac_of_regs_ok|].
    destruct (write_reg _ REG_RAL0 _ _) as [[] h3]. cbn [snd]. destruct (write_reg _ REG_RAH0 _ _) as [[] h4]. done.
  - pose proof (read_word_ok d 0 h2) as W0. destruct (read_word d 0 h2) as [w0 h3].
    pose proof (read_word_ok d 1 h3) as W1. destruct (read_word d 1 h3) as [w1 h4].
    pose proof (read_word_ok d 2 h4) as W2. destruct (read_word d 2 h4) as [w2 h5]. cbn [fst] in *.
    exists (from_option id (mac d) (mac_of_eeprom w0 w1 w2)), h5. split.
    { destruct (mac_of_eeprom w0 w1 w2) as [m|] eqn:E; [|done]. exact (mac_of_eeprom_ok w0 w1 w2 m W0 W1 W2 E). }
    destruct (write_reg _ REG_RAL0 _ _) as [[] h6]. cbn [snd]. destruct (write_reg _ REG_RAH0 _ _) as [[] h7]. done.
Qed.

End Mac.

(** The two registers hold the six bytes, and the valid bit. *)
Lemma mac_regs_roundtrip m : is_mac m -> mac_of_regs (ral_of_mac m) (rah_of_mac m) = m /\ Z.testbit (rah_of_mac m) 31 = true.
Proof.
  intros [Hl Hb]. destruct m as [|a [|b [|c [|e [|f [|g [|]]]]]]]; try done.
  assert (in_u 8 a /\ in_u 8 b /\ in_u 8 c /\ in_u 8 e /\ in_u 8 f /\ in_u 8 g) as (Ha & Hb' & Hc & He & Hf & Hg).
  { repeat match goal with H : Forall _ (_ :: _) |- _ => apply Forall_cons_1 in H as [? H] end. done. }
  unfold mac_of_regs, ral_of_mac, rah_of_mac, mac_byte. cbn [nth]. split.
  - assert (Hbit : forall x i, in_u 8 x -> 8 <= i -> Z.testbit x i = false) by (intros x i Hx Hi; by apply (testbit_high 8)).
    assert (Hm : forall i, 0 <= i -> Z.testbit 255 i = (i <? 8)).
    { intros i Hi. change 255 with (Z.ones 8). destruct (Z.ltb_spec i 8); [by apply Z.ones_spec_low|by apply Z.ones_spec_high]. }
    repeat f_equal; apply (word_ext 8); auto using byte_of_mask; intros i Hi;
      rewrite Z.land_spec, ?Z.shiftr_spec, !Z.lor_spec, Hm by lia; rewrite (proj2 (Z.ltb_lt i 8)) by lia; rewrite andb_true_r;
      repeat match goal with
      | |- context [Z.testbit (Z.shiftl ?x ?n) ?j] =>
        first [rewrite (Z.shiftl_spec_low x n j) by lia | rewrite (Z.shiftl_spec_high x n j) by lia]
      end;
      repeat match goal with
      | Hx : in_u 8 ?x |- context [Z.testbit ?x ?j] => rewrite (Hbit x j Hx) by lia
      end; rewrite ?orb_false_r, ?orb_false_l; try (f_equal; lia); try (apply Z.bits_above_log2; lia).
  - rewrite !Z.lor_spec. rewrite (Z.shiftl_spec_high 1) by lia. apply orb_true_r.
Qed.

(** ** Properties *)

(** Transmission is a queue: while the card has fewer than seven frames to
    send, [send_packet] of a packet of 1 to 2048 bytes returns true, appends it
    to the frames between the card's head and the new tail without changing the
    others, and tells the card the new tail last. *)
Theorem send_packet_queues {H} `{Hardware H} (d : E1000) packet (h : H) head :
  tx_ok d -> (0 < length packet <= PACKET_BUFFER_SIZE)%nat -> (head < TX_DESC_COUNT)%nat -> (length (queued d head) < 7)%nat ->
  exists d', send_packet d packet h = Ret (true, d', snd (write_reg d REG_TDT (Z.of_nat (tx_cur d')) h)) /\
    queued d' head = queued d head ++ [packet] /\ tx_ok d'.
Proof.
  intros Hok Hp Hh Hn. destruct (queued_send d packet h head Hok Hp Hh Hn) as (d' & E & Hq & Hok' & _). by exists d'.
Qed.

(** The ring is never checked for room: with seven frames not yet sent,
    [send_packet] answers true, moves the tail onto the card's head and so leaves
    the card an empty ring: the eight frames are lost. *)
Theorem send_packet_overruns {H} `{Hardware H} (d : E1000) packet (h : H) head :
  tx_ok d -> (0 < length packet <= PACKET_BUFFER_SIZE)%nat -> (head < TX_DESC_COUNT)%nat -> length (queued d head) = 7%nat ->
  exists d' h', send_packet d packet h = Ret (true, d', h') /\ queued d' head = [].
Proof.
  intros Hok Hp Hh Hn. destruct (send_packet_step d packet h Hok Hp) as (descs & t & b & d' & _ & _ & Es & _ & _ & _ & Hc' & _).
  exists d', (snd (write_reg d REG_TDT (Z.of_nat (tx_cur d')) h)). split; [done|]. unfold queued in *. rewrite length_fmap, length_seq in Hn.
  destruct Hok as (_ & Hc & _). replace (in_use d' head) with 0%nat; [done|]. unfold in_use, TX_DESC_COUNT in *. rewrite Hc'. lia.
Qed.

(** Reception is in order and complete: when the card has stored frames
    (at most eight) in the descriptors from the current one on, that many calls
    of [receive_packet] return exactly these frames in this order, and leave the
    transmit side alone. *)
Theorem receive_in_order {H} `{Hardware H} ps (d : E1000) (h : H) :
  rx_ok d -> (length ps <= RX_DESC_COUNT)%nat -> (forall i p, ps !! i = Some p -> stored_at d i p) ->
  exists d' h', receive_many (length ps) d h = Ret (ps, d', h') /\ rx_ok d' /\
    rx_cur d' = ((rx_cur d + length ps) mod RX_DESC_COUNT)%nat /\
    tx_descs d' = tx_descs d /\ tx_buffers d' = tx_buffers d /\ tx_cur d' = tx_cur d.
Proof. apply receive_many_stored. Qed.

(** Whatever the card answers, the driver ends with a usable address: six
    bytes, neither all zero nor broadcast, and the values it writes last to the
    receive-address registers are that address with the valid bit set. *)
Theorem mac_always_usable {H} `{Hardware H} (d : E1000) (h : H) :
  is_mac (mac d) ->
  exists m h1, read_mac_address d h =
      (set_mac d m, snd (write_reg d REG_RAH0 (rah_of_mac m) (snd (write_reg d REG_RAL0 (ral_of_mac m) h1)))) /\
    usable m /\ mac_of_regs (ral_of_mac m) (rah_of_mac m) = m /\ Z.testbit (rah_of_mac m) 31 = true.
Proof.
  intros Hd. destruct (read_mac_shape d h Hd) as (m & h1 & Hm & E). pose proof (corrected_usable m Hm) as Hu.
  eexists _, h1. split; [exact E|]. split; [exact Hu|]. apply mac_regs_roundtrip. apply Hu.
Qed.

(** *** Witnesses *)
Definition dma : DmaMemory := mkDma 0x100000 ((fun i => 0x200000 + 2048 * i) <$> range 8) 0x101000 ((fun i => 0x300000 + 2048 * i) <$> range 8).
Definition fresh_nic : E1000 := with_rings new dma.

(** The card has stored two frames. *)
Definition stored_nic : E1000 :=
  mkE1000 0 0 0 0 0 DEFAULT_MAC true
    (Some (mkRx 0 3 0 3 0 0 :: mkRx 0 2 0 3 0 0 :: replicate 6 rx_default))
    (([1; 2; 3] ++ replicate 2045 0) :: ([4; 5] ++ replicate 2046 0) :: replicate 6 (replicate PACKET_BUFFER_SIZE 0)) 0
    (tx_descs fresh_nic) (tx_buffers fresh_nic) 0 0 0 0 0.

(** Seven frames sent before the card has sent the first. *)
Definition busy_nic : E1000 :=
  Nat.iter 7 (fun d => match send_packet d [1; 2; 3] one_card with Ret (_, d', _) => d' | _ => d end) fresh_nic.

Lemma tx_ok_nic (d : E1000) descs :
  is_initialized d = true -> (tx_cur d <? 8)%nat = true -> forallb (fun b => length b =? PACKET_BUFFER_SIZE)%nat (tx_buffers d) = true ->
  length (tx_buffers d) = 8%nat -> tx_descs d = Some descs -> length descs = 8%nat -> tx_ok d.
Proof.
  intros Hi Hc Hb Hl Hd Hdl. split; [done|]. split; [by apply Nat.ltb_lt|]. split; [done|]. split; [|by exists descs].
  apply Forall_forall. intros b Hin. rewrite forallb_forall in Hb. apply Nat.eqb_eq, Hb. by apply list_elem_of_In.
Qed.

Lemma send_packet_queues_witness :
  exists d', send_packet fresh_nic [1; 2; 3] one_card =
      Ret (true, d', snd (write_reg fresh_nic REG_TDT (Z.of_nat (tx_cur d')) one_card)) /\
    queued d' 0 = queued fresh_nic 0 ++ [[1; 2; 3]] /\ tx_ok d'.
Proof.
  apply send_packet_queues; [apply (with_rings_ok new dma); reflexivity|unfold PACKET_BUFFER_SIZE; cbn [length]; lia
    |unfold TX_DESC_COUNT; lia|apply Nat.ltb_lt; vm_compute; reflexivity].
Defined.

Lemma send_packet_overruns_witness :
  exists d' h', send_packet busy_nic [9] one_card = Ret (true, d', h') /\ queued d' 0 = [].
Proof.
  apply send_packet_overruns; [eapply tx_ok_nic; vm_compute; reflexivity|unfold PACKET_BUFFER_SIZE; cbn [length]; lia
    |unfold TX_DESC_COUNT; lia|vm_compute; reflexivity].
Defined.

Lemma receive_in_order_witness :
  exists d' h', receive_many 2 stored_nic one_card = Ret ([[1; 2; 3]; [4; 5]], d', h') /\ rx_ok d' /\
    rx_cur d' = ((rx_cur stored_nic + 2) mod RX_DESC_COUNT)%nat /\
    tx_descs d' = tx_descs stored_nic /\ tx_buffers d' = tx_buffers stored_nic /\ tx_cur d' = tx_cur stored_nic.
Proof.
  apply (receive_in_order [[1; 2; 3]; [4; 5]]).
  - split; [done|]. split; [unfold RX_DESC_COUNT; cbn [rx_cur stored_nic]; lia|]. split; [done|]. eexists. split; reflexivity.
  - unfold RX_DESC_COUNT. cbn [length]. lia.
  - intros i p Hp. destruct i as [|[|i]]; [| |done]; injection Hp as <-;
      (eexists _, _, _; split; [reflexivity|]; split; [reflexivity|]; split; [reflexivity|]; split; [done|]; split; [reflexivity|];
       split; [cbn [length]; rewrite length_app; cbn [length]; lia|reflexivity]).
Defined.

Lemma mac_always_usable_witness :
  exists m h1, read_mac_address new one_card =
      (set_mac new m, snd (write_reg new REG_RAH0 (rah_of_mac m) (snd (write_reg new REG_RAL0 (ral_of_mac m) h1)))) /\
    usable m /\ mac_of_regs (ral_of_mac m) (rah_of_mac m) = m /\ Z.testbit (rah_of_mac m) 31 = true.
Proof. apply mac_always_usable. unfold is_mac. split; [done|]. by_compute. Defined.

End E1000.
