(* ===== verification/Packets.v ===== *)
(** * Packet formats (src/src/net/ethernet.rs, arp.rs, ipv4.rs, icmp.rs, udp.rs)

    Parsers and serialisers of the network stack over lists of bytes, with the
    panicking slices of Rust, and the Internet checksum.  The theorems: what is
    serialised is parsed back (padding of the Ethernet layer included), headers
    carry a checksum that verifies. *)

From stdpp Require Import prelude numbers list strings.
From Stdlib Require Import Ascii.
From S2P Require Import Prelude.

Module Packets.

(** [&data[a..b]] and [&data[a..]]. *)
Definition slice (data : list Z) (a b : Z) : outcome (list Z) :=
  if ((a <=? b) && (b <=? Z.of_nat (length data)))%bool
  then Ret (take (Z.to_nat (b - a)) (drop (Z.to_nat a) data)) else Panic.
Definition slice_from (data : list Z) (a : Z) : outcome (list Z) := slice data a (Z.of_nat (length data)).

Definition len (data : list Z) : Z := Z.of_nat (length data).

(** [u16::from_be_bytes([data[i], data[i + 1]])] and [to_be_bytes]. *)
Definition be16 (data : list Z) (i : Z) : outcome Z :=
  hi ← index data i; lo ← index data (i + 1); Ret (hi * 256 + lo).
Definition to_be (x : Z) : list Z := [x / 256; x mod 256].

(** ** Ethernet II *)
Definition ETHERTYPE_IPV4 : Z := 0x0800.
Definition ETHERTYPE_ARP : Z := 0x0806.
Definition ETHERNET_HEADER_LEN : Z := 14.
Definition BROADCAST_MAC : list Z := replicate 6 0xFF.

Record EthernetFrame := mkFrame { dest_mac : list Z; src_mac : list Z; ethertype : Z; f_payload : list Z }.

Definition frame_parse (data : list Z) : outcome (option EthernetFrame) :=
  if len data <? ETHERNET_HEADER_LEN then Ret None else
  dst ← slice data 0 6;
  src ← slice data 6 12;
  ty ← be16 data 12;
  payload ← slice_from data ETHERNET_HEADER_LEN;
  Ret (Some (mkFrame dst src ty payload)).

(** [while buf.len() < 60 { buf.push(0) }] *)
Definition pad60 (buf : list Z) : list Z := buf ++ replicate (60 - length buf) 0.
Definition frame_serialize (f : EthernetFrame) : list Z :=
  pad60 (dest_mac f ++ src_mac f ++ to_be (ethertype f) ++ f_payload f).

(** ** ARP *)
Definition ARP_HTYPE_ETHERNET : Z := 1.
Definition ARP_PTYPE_IPV4 : Z := 0x0800.
Definition ARP_HLEN_ETHERNET : Z := 6.
Definition ARP_PLEN_IPV4 : Z := 4.
Definition ARP_OP_REQUEST : Z := 1.
Definition ARP_OP_REPLY : Z := 2.
Definition ARP_PACKET_LEN : Z := 28.

Record ArpPacket := mkArp {
  htype : Z; ptype : Z; hlen : Z; plen : Z; oper : Z;
  sender_mac : list Z; sender_ip : list Z; target_mac : list Z; target_ip : list Z
}.

Definition arp_parse (data : list Z) : outcome (option ArpPacket) :=
  if len data <? ARP_PACKET_LEN then Ret None else
  ht ← be16 data 0; pt ← be16 data 2;
  hl ← index data 4; pl ← index data 5;
  op ← be16 data 6;
  sm ← slice data 8 14; si ← slice data 14 18; tm ← slice data 18 24; ti ← slice data 24 28;
  Ret (Some (mkArp ht pt hl pl op sm si tm ti)).

Definition arp_serialize (a : ArpPacket) : list Z :=
  to_be (htype a) ++ to_be (ptype a) ++ [hlen a; plen a] ++ to_be (oper a) ++
  sender_mac a ++ sender_ip a ++ target_mac a ++ target_ip a.

Definition build_arp_request (smac sip tip : list Z) : list Z :=
  arp_serialize (mkArp ARP_HTYPE_ETHERNET ARP_PTYPE_IPV4 ARP_HLEN_ETHERNET ARP_PLEN_IPV4 ARP_OP_REQUEST smac sip (replicate 6 0) tip).
Definition build_arp_reply (smac sip tmac tip : list Z) : list Z :=
  arp_serialize (mkArp ARP_HTYPE_ETHERNET ARP_PTYPE_IPV4 ARP_HLEN_ETHERNET ARP_PLEN_IPV4 ARP_OP_REPLY smac sip tmac tip).

Record ArpEntry := mkArpEntry { e_ip : list Z; e_mac : list Z; timestamp_tick : Z }.
Definition ArpTable := list ArpEntry.

Definition same_bytes (a b : list Z) : bool := bool_decide (a = b).

Fixpoint arp_lookup (t : ArpTable) (ip : list Z) : option (list Z) :=
  match t with
  | [] => None
  | e :: t' => if same_bytes (e_ip e) ip then Some (e_mac e) else arp_lookup t' ip
  end.
Fixpoint arp_insert (now : Z) (t : ArpTable) (ip mac : list Z) : ArpTable :=
  match t with
  | [] => [mkArpEntry ip mac now]
  | e :: t' => if same_bytes (e_ip e) ip then mkArpEntry (e_ip e) mac now :: t' else e :: arp_insert now t' ip mac
  end.

(** ** The Internet checksum (RFC 1071) *)
Definition u32_add (a b : Z) : Z := wrap 32 (a + b).

(** The loop over 16-bit words; a last odd byte is the high half of a word. *)
Fixpoint sum_words (data : list Z) (sum : Z) : Z :=
  match data with
  | hi :: lo :: rest => sum_words rest (u32_add sum (hi * 256 + lo))
  | [b] => u32_add sum (Z.shiftl b 8)
  | [] => sum
  end.

(** [while (sum >> 16) != 0]: two turns are enough for 32 bits. *)
Fixpoint fold_carry (fuel : nat) (sum : Z) : outcome Z :=
  if Z.shiftr sum 16 =? 0 then Ret sum else
  match fuel with
  | O => NoFuel
  | S fuel' => fold_carry fuel' (u32_add (Z.land sum 0xFFFF) (Z.shiftr sum 16))
  end.

Definition u16_not (x : Z) : Z := Z.lxor (wrap 16 x) 0xFFFF.

Definition calculate_checksum (data : list Z) : outcome Z :=
  s ← fold_carry 3 (sum_words data 0);
  Ret (u16_not s).

(** ** IPv4 *)
Definition IPV4_PROTO_ICMP : Z := 1.
Definition IPV4_PROTO_UDP : Z := 17.
Definition IPV4_MIN_HEADER_LEN : Z := 20.

Record Ipv4Header := mkIpHeader {
  version_ihl : Z; tos : Z; total_length : Z; identification : Z; flags_fragment : Z; ttl : Z; protocol : Z;
  ip_checksum : Z; source_ip : list Z; dest_ip : list Z
}.
Record Ipv4Packet := mkIp { ip_header : Ipv4Header; ip_payload : list Z }.

Definition ipv4_parse (data : list Z) : outcome (option Ipv4Packet) :=
  if len data <? IPV4_MIN_HEADER_LEN then Ret None else
  vihl ← index data 0;
  let ihl := Z.land vihl 0x0F * 4 in
  if ((len data <? ihl) || (ihl <? IPV4_MIN_HEADER_LEN))%bool then Ret None else
  tl ← be16 data 2;
  if len data <? tl then Ret None else
  hdr ← slice data 0 ihl;
  ck ← calculate_checksum hdr;
  if negb (ck =? 0) then Ret None else
  ts ← index data 1;
  ident ← be16 data 4; ff ← be16 data 6;
  tt' ← index data 8; pr ← index data 9;
  cks ← be16 data 10;
  src ← slice data 12 16; dst ← slice data 16 20;
  payload ← slice data ihl tl;
  Ret (Some (mkIp (mkIpHeader vihl ts tl ident ff tt' pr cks src dst) payload)).

(** The bytes of a header. *)
Definition header_bytes (h : Ipv4Header) : list Z :=
  [version_ihl h; tos h] ++ to_be (total_length h) ++ to_be (identification h) ++ to_be (flags_fragment h) ++
  [ttl h; protocol h] ++ to_be (ip_checksum h) ++ source_ip h ++ dest_ip h.

Definition set_ip_checksum (h : Ipv4Header) (c : Z) : Ipv4Header :=
  mkIpHeader (version_ihl h) (tos h) (total_length h) (identification h) (flags_fragment h) (ttl h) (protocol h) c
    (source_ip h) (dest_ip h).

Definition ipv4_new (src dst : list Z) (proto : Z) (payload : list Z) : outcome Ipv4Packet :=
  let tl := wrap 16 (IPV4_MIN_HEADER_LEN + len payload) in
  let header := mkIpHeader 0x45 0 tl 0x1337 0x4000 64 proto 0 src dst in
  c ← calculate_checksum (header_bytes header);
  Ret (mkIp (set_ip_checksum header c) payload).

Definition ipv4_serialize (p : Ipv4Packet) : list Z := header_bytes (ip_header p) ++ ip_payload p.

(** ** ICMP *)
Definition ICMP_TYPE_ECHO_REPLY : Z := 0.
Definition ICMP_TYPE_ECHO_REQUEST : Z := 8.
Definition ICMP_HEADER_LEN : Z := 8.

Record IcmpHeader := mkIcmpHeader { msg_type : Z; code : Z; icmp_checksum : Z; identifier : Z; sequence_number : Z }.
Record IcmpPacket := mkIcmp { icmp_header : IcmpHeader; icmp_payload : list Z }.

Definition icmp_parse (data : list Z) : outcome (option IcmpPacket) :=
  if len data <? ICMP_HEADER_LEN then Ret None else
  ty ← index data 0; cd ← index data 1;
  ck ← be16 data 2; idn ← be16 data 4; sq ← be16 data 6;
  payload ← slice_from data ICMP_HEADER_LEN;
  Ret (Some (mkIcmp (mkIcmpHeader ty cd ck idn sq) payload)).

(** [buf[2..4]] is filled in once the checksum is known. *)
Definition icmp_bytes (p : IcmpPacket) (c : Z) : list Z :=
  [msg_type (icmp_header p); code (icmp_header p)] ++ to_be c ++ to_be (identifier (icmp_header p)) ++
  to_be (sequence_number (icmp_header p)) ++ icmp_payload p.
Definition icmp_serialize (p : IcmpPacket) : outcome (list Z) :=
  c ← calculate_checksum (icmp_bytes p 0); Ret (icmp_bytes p c).

Definition build_echo_request (idn sq : Z) (payload : list Z) : outcome (list Z) :=
  icmp_serialize (mkIcmp (mkIcmpHeader ICMP_TYPE_ECHO_REQUEST 0 0 idn sq) payload).
Definition build_echo_reply (idn sq : Z) (payload : list Z) : outcome (list Z) :=
  icmp_serialize (mkIcmp (mkIcmpHeader ICMP_TYPE_ECHO_REPLY 0 0 idn sq) payload).

(** ** UDP *)
Definition UDP_HEADER_LEN : Z := 8.

Record UdpHeader := mkUdpHeader { src_port : Z; dest_port : Z; udp_length : Z; udp_checksum : Z }.
Record UdpPacket := mkUdp { udp_header : UdpHeader; udp_payload : list Z }.

Definition udp_parse (data : list Z) : outcome (option UdpPacket) :=
  if len data <? UDP_HEADER_LEN then Ret None else
  sp ← be16 data 0; dp ← be16 data 2; ln ← be16 data 4; ck ← be16 data 6;
  if ((len data <? ln) || (ln <? UDP_HEADER_LEN))%bool then Ret None else
  payload ← slice data UDP_HEADER_LEN ln;
  Ret (Some (mkUdp (mkUdpHeader sp dp ln ck) payload)).

Definition udp_pseudo (src dst : list Z) (sp dp ln ck : Z) (payload : list Z) : list Z :=
  src ++ dst ++ [0; 17] ++ to_be ln ++ to_be sp ++ to_be dp ++ to_be ln ++ to_be ck ++ payload.

Definition udp_new (src dst : list Z) (sp dp : Z) (payload : list Z) : outcome UdpPacket :=
  let ln := wrap 16 (UDP_HEADER_LEN + len payload) in
  c ← calculate_checksum (udp_pseudo src dst sp dp ln 0 payload);
  Ret (mkUdp (mkUdpHeader sp dp ln (if c =? 0 then 0xFFFF else c)) payload).

Definition udp_serialize (p : UdpPacket) : list Z :=
  to_be (src_port (udp_header p)) ++ to_be (dest_port (udp_header p)) ++ to_be (udp_length (udp_header p)) ++
  to_be (udp_checksum (udp_header p)) ++ udp_payload p.

(** ** Bytes and words *)
Definition is_bytes (l : list Z) : Prop := Forall (in_u 8) l.

Lemma slice_ok data a b :
  0 <= a <= b -> b <= len data -> slice data a b = Ret (take (Z.to_nat (b - a)) (drop (Z.to_nat a) data)).
Proof.
  intros Ha Hb. unfold slice, len in *. rewrite (proj2 (Z.leb_le a b)), (proj2 (Z.leb_le b _)) by lia. done.
Qed.

Lemma be_round x : in_u 16 x -> x / 256 * 256 + x mod 256 = x.
Proof. intros _. pose proof (Z.div_mod x 256). lia. Qed.

Lemma to_be_bytes x : in_u 16 x -> is_bytes (to_be x).
Proof.
  intros [H0 H1]. pose proof (Z.mod_pos_bound x 256). repeat constructor; try lia; [by apply Z.div_pos|].
  apply Z.div_lt_upper_bound; [lia|]. change (2 ^ 16) with (256 * 256) in H1. change (2 ^ 8) with 256. lia.
Qed.

(** A list of known length, spelled out. *)
Ltac spell l H :=
  repeat match type of H with
  | length l = S _ => let x := fresh "b" in destruct l as [|x l]; [discriminate H|]; cbn [length] in H; apply eq_add_S in H
  | length l = O => apply nil_length_inv in H; subst l
  end.

(** The bounds checks of a parser on a list whose first bytes are spelled out. *)
Ltac in_range := unfold len, ETHERNET_HEADER_LEN, ARP_PACKET_LEN, IPV4_MIN_HEADER_LEN, ICMP_HEADER_LEN, UDP_HEADER_LEN in *;
  cbn [length app] in *; rewrite ?length_app, ?length_replicate; lia.

(** Evaluation of reads at constant positions of such a list. *)
Ltac const_z e := match e with Z0 => idtac | Zpos _ => idtac end.
Ltac const_nats :=
  repeat match goal with
  | |- context [Z.to_nat (?a - ?b)] => const_z a; const_z b; let c := eval vm_compute in (Z.to_nat (a - b)) in change (Z.to_nat (a - b)) with c
  | |- context [Z.to_nat ?a] => const_z a; let c := eval vm_compute in (Z.to_nat a) in change (Z.to_nat a) with c
  end.
Ltac read_consts :=
  unfold be16;
  repeat match goal with |- context [index _ (?a + 1)] => let c := eval vm_compute in (a + 1) in change (a + 1) with c end;
  unfold index; const_nats; cbn [lookup list_lookup mbind outcome_bind].
Ltac read_fields := repeat rewrite slice_ok by in_range; read_consts; cbn [take drop].

(** ** Ethernet *)
Lemma frame_parse_bytes d src ty rest :
  length d = 6%nat -> length src = 6%nat -> in_u 16 ty ->
  frame_parse (d ++ src ++ to_be ty ++ rest) = Ret (Some (mkFrame d src ty rest)).
Proof.
  intros Hd Hs Ht. spell d Hd. spell src Hs. unfold frame_parse, slice_from, to_be. cbn [app].
  rewrite (proj2 (Z.ltb_ge _ _)) by in_range.
  read_fields. rewrite be_round by done. do 4 f_equal. apply take_ge. in_range.
Qed.

(** Padding only extends the payload. *)
Lemma frame_roundtrip_raw d src ty payload :
  length d = 6%nat -> length src = 6%nat -> in_u 16 ty ->
  exists pad, frame_parse (frame_serialize (mkFrame d src ty payload)) = Ret (Some (mkFrame d src ty (payload ++ pad))) /\
    Forall (eq 0) pad /\ (46 <= length payload -> pad = [])%nat.
Proof.
  intros Hd Hs Ht. unfold frame_serialize, pad60. cbn [dest_mac src_mac ethertype f_payload].
  eexists. rewrite <- !app_assoc. rewrite frame_parse_bytes by done. split; [done|].
  split; [apply Forall_replicate; done|]. intros Hl. rewrite !length_app, Hd, Hs. cbn [length to_be].
  by replace (60 - (6 + (6 + (2 + length payload))))%nat with O by lia.
Qed.

(** ** ARP *)
Definition arp_ok (a : ArpPacket) : Prop :=
  in_u 16 (htype a) /\ in_u 16 (ptype a) /\ in_u 16 (oper a) /\
  length (sender_mac a) = 6%nat /\ length (sender_ip a) = 4%nat /\ length (target_mac a) = 6%nat /\ length (target_ip a) = 4%nat.

Lemma arp_roundtrip_raw a pad : arp_ok a -> arp_parse (arp_serialize a ++ pad) = Ret (Some a).
Proof.
  destruct a as [ht pt hl pl op sm si tm ti]. unfold arp_ok, arp_serialize, to_be. cbn [htype ptype hlen plen oper sender_mac sender_ip target_mac target_ip].
  intros (H1 & H2 & H3 & Hsm & Hsi & Htm & Hti). spell sm Hsm. spell si Hsi. spell tm Htm. spell ti Hti.
  unfold arp_parse. cbn [app]. rewrite (proj2 (Z.ltb_ge _ _)) by in_range. read_fields. by rewrite !be_round.
Qed.

(** The cache answers the last binding of an address. *)
Lemma arp_lookup_insert now t ip mac ip' :
  arp_lookup (arp_insert now t ip mac) ip' = if decide (ip' = ip) then Some mac else arp_lookup t ip'.
Proof.
  induction t as [|e t IH]; cbn [arp_insert arp_lookup]; unfold same_bytes in *.
  - cbn [e_ip e_mac]. destruct (decide (ip' = ip)) as [->|Hne]; [by rewrite bool_decide_true|]. by rewrite bool_decide_false.
  - destruct (bool_decide_reflect (e_ip e = ip)) as [He|He]; cbn [arp_lookup e_ip e_mac]; unfold same_bytes.
    + destruct (decide (ip' = ip)) as [->|Hne]; [by rewrite bool_decide_true|]. by rewrite !bool_decide_false by congruence.
    + destruct (bool_decide_reflect (e_ip e = ip')) as [He'|He']; [|done]. by rewrite decide_False by congruence.
Qed.

(** ** The checksum *)

(** The sum of the 16-bit words, unbounded. *)
Fixpoint wsum (data : list Z) : Z :=
  match data with
  | hi :: lo :: rest => hi * 256 + lo + wsum rest
  | [b] => b * 256
  | [] => 0
  end.

Lemma pairs_ind (P : list Z -> Prop) :
  P [] -> (forall b, P [b]) -> (forall a b l, P l -> P (a :: b :: l)) -> forall l, P l.
Proof.
  intros H0 H1 H2 l. enough (P l /\ forall a, P (a :: l)) by tauto. induction l as [|b l [IH1 IH2]]; [by split|].
  split; [apply IH2|]. intros a. by apply H2.
Qed.

Lemma wsum_bounds l : is_bytes l -> 0 <= wsum l <= 65535 * (Z.of_nat (length l) + 1) / 2.
Proof.
  induction l as [|b|a b l IH] using pairs_ind; intros H.
  - cbn. split; [done|]. by apply Z.div_pos.
  - apply Forall_cons_1 in H as [[Hb0 Hb1] _]. cbn [wsum length]. change (2 ^ 8) with 256 in Hb1.
    change (65535 * (Z.of_nat 1 + 1) / 2) with 65535. lia.
  - apply Forall_cons_1 in H as [[Ha0 Ha1] H]. apply Forall_cons_1 in H as [[Hb0 Hb1] H]. specialize (IH H). change (2 ^ 8) with 256 in *.
    cbn [wsum length]. replace (65535 * (Z.of_nat (S (S (length l))) + 1)) with (65535 * (Z.of_nat (length l) + 1) + 65535 * 2) by lia.
    rewrite Z.div_add by lia. lia.
Qed.

Lemma wsum_app l1 l2 : Nat.Even (length l1) -> wsum (l1 ++ l2) = wsum l1 + wsum l2.
Proof.
  induction l1 as [|b|a b l IH] using pairs_ind; intros H; [done| |].
  - destruct H as [k Hk]. cbn in Hk. lia.
  - cbn [app wsum]. rewrite IH; [lia|]. destruct H as [k Hk]. cbn [length] in Hk. exists (k - 1)%nat. lia.
Qed.

Lemma sum_words_eq l sum : is_bytes l -> 0 <= sum -> sum + wsum l < 2 ^ 32 -> sum_words l sum = sum + wsum l.
Proof.
  revert sum. induction l as [|b|a b l IH] using pairs_ind; intros sum Hl Hs Hb.
  - cbn. lia.
  - cbn [sum_words wsum] in *. apply Forall_cons_1 in Hl as [[? ?] _]. rewrite Z.shiftl_mul_pow2 by lia. change (2 ^ 8) with 256 in *.
    unfold u32_add. apply wrap_small. split; lia.
  - cbn [sum_words wsum] in *. apply Forall_cons_1 in Hl as [[? ?] Hl]. apply Forall_cons_1 in Hl as [[? ?] Hl].
    pose proof (wsum_bounds l Hl). change (2 ^ 8) with 256 in *. unfold u32_add at 1. rewrite wrap_small by (split; lia).
    rewrite IH by (done || lia). lia.
Qed.

Lemma fold_step s : 0 <= s < 2 ^ 32 -> u32_add (Z.land s 0xFFFF) (Z.shiftr s 16) = s mod 65536 + s / 65536.
Proof.
  intros H. change 0xFFFF with (2 ^ 16 - 1). rewrite land_mask by lia. rewrite Z.shiftr_div_pow2 by lia. change (2 ^ 16) with 65536.
  unfold u32_add. apply wrap_small. pose proof (Z.mod_pos_bound s 65536). pose proof (Z.div_pos s 65536).
  assert (s / 65536 < 65536) by (apply Z.div_lt_upper_bound; lia). split; lia.
Qed.

Lemma shiftr16_zero s : 0 <= s -> (Z.shiftr s 16 =? 0) = (s <? 65536).
Proof.
  intros H. rewrite Z.shiftr_div_pow2 by lia. change (2 ^ 16) with 65536. destruct (Z.ltb_spec s 65536).
  - rewrite Z.div_small by lia. done.
  - apply Z.eqb_neq. assert (1 <= s / 65536) by (apply Z.div_le_lower_bound; lia). lia.
Qed.

(** Folding keeps the residue modulo 65535 and distinguishes zero. *)
Lemma fold_carry_spec s :
  0 <= s < 2 ^ 32 ->
  exists f, fold_carry 3 s = Ret f /\ 0 <= f <= 65535 /\ (exists k, s = f + 65535 * k /\ 0 <= k) /\ (f = 0 -> s = 0).
Proof.
  intros H. cbn [fold_carry]. rewrite shiftr16_zero by lia. destruct (Z.ltb_spec s 65536) as [Hs|Hs].
  { exists s. split; [done|]. split; [lia|]. split; [exists 0; lia|done]. }
  rewrite fold_step by done. pose proof (Z.div_mod s 65536). pose proof (Z.mod_pos_bound s 65536).
  assert (1 <= s / 65536 < 65536) by (split; [apply Z.div_le_lower_bound; lia|apply Z.div_lt_upper_bound; lia]).
  set (q := s / 65536) in *. set (r := s mod 65536) in *. rewrite shiftr16_zero by lia. destruct (Z.ltb_spec (r + q) 65536) as [Hs1|Hs1].
  { exists (r + q). split; [done|]. split; [lia|]. split; [exists q; lia|lia]. }
  rewrite fold_step by lia. assert ((r + q) / 65536 = 1 /\ (r + q) mod 65536 = r + q - 65536) as [-> ->].
  { assert ((r + q) / 65536 = 1) as E by (symmetry; apply (Z.div_unique _ _ _ (r + q - 65536)); lia). split; [done|].
    pose proof (Z.div_mod (r + q) 65536). lia. }
  rewrite shiftr16_zero by lia. rewrite (proj2 (Z.ltb_lt _ _)) by lia.
  exists (r + q - 65536 + 1). split; [done|]. split; [lia|]. split; [exists (q + 1); lia|lia].
Qed.

Lemma u16_not_eq f : 0 <= f <= 65535 -> u16_not f = 65535 - f.
Proof.
  intros H. unfold u16_not. rewrite wrap_small by (split; lia). change 0xFFFF with (Z.ones 16). change 65535 with (Z.ones 16).
  assert (Hlow : Z.ldiff f (Z.ones 16) = 0) by (apply Z.ldiff_ones_r_low; [lia|]; destruct (Z.eq_dec f 0) as [->|]; [done|];
    apply Z.log2_lt_pow2; lia).
  rewrite Z.sub_nocarry_ldiff by done. apply Z.bits_inj'. intros n Hn. rewrite Z.lxor_spec, Z.ldiff_spec.
  apply (f_equal (fun z => Z.testbit z n)) in Hlow. rewrite Z.ldiff_spec, Z.bits_0 in Hlow.
  destruct (Z.testbit f n), (Z.testbit (Z.ones 16) n); done.
Qed.

(** No overflow of the 32-bit sum up to this length. *)
Definition short (data : list Z) : Prop := is_bytes data /\ len data <= 131000.

Lemma checksum_ret data :
  short data ->
  exists f k, calculate_checksum data = Ret (65535 - f) /\ 0 <= f <= 65535 /\ wsum data = f + 65535 * k /\ 0 <= k /\ (f = 0 -> wsum data = 0).
Proof.
  intros [Hb Hl]. pose proof (wsum_bounds data Hb) as Hw. unfold len in Hl.
  assert (65535 * (Z.of_nat (length data) + 1) / 2 < 2 ^ 32) by (apply Z.div_lt_upper_bound; lia).
  unfold calculate_checksum. rewrite sum_words_eq by (done || lia). rewrite Z.add_0_l.
  destruct (fold_carry_spec (wsum data)) as (f & -> & Hf & (k & Hk & Hk0) & Hz); [lia|]. cbn [mbind outcome_bind].
  exists f, k. rewrite u16_not_eq by done. done.
Qed.

(** Filling the zeroed checksum field of a packet makes its checksum zero. *)
Lemma checksum_inserted pre post :
  short (pre ++ [0; 0] ++ post) -> Nat.Even (length pre) ->
  exists c, calculate_checksum (pre ++ [0; 0] ++ post) = Ret c /\ in_u 16 c /\ calculate_checksum (pre ++ to_be c ++ post) = Ret 0.
Proof.
  intros Hs Hev. destruct (checksum_ret _ Hs) as (f & k & E & Hf & Hw & Hk & _). exists (65535 - f). split; [done|].
  assert (Hc : in_u 16 (65535 - f)) by (split; lia). split; [done|]. destruct Hs as [Hb Hl].
  apply Forall_app in Hb as [Hpre Hpost]. apply Forall_app in Hpost as [_ Hpost].
  destruct (checksum_ret (pre ++ to_be (65535 - f) ++ post)) as (f' & k' & -> & Hf' & Hw' & Hk' & Hz').
  { split; [|by unfold len in *; rewrite !length_app in *]. repeat apply Forall_app_2; [done|by apply to_be_bytes|done]. }
  rewrite wsum_app in Hw by done. cbn [app wsum] in Hw. rewrite wsum_app in Hw' by done. rewrite wsum_app in Hz' by done.
  assert (He : wsum (to_be (65535 - f) ++ post) = 65535 - f + wsum post).
  { unfold to_be. cbn [app wsum]. rewrite be_round by done. lia. }
  rewrite He in Hw', Hz'. f_equal. assert (f' <> 0) by (intros Hf0; specialize (Hz' Hf0); lia). nia.
Qed.

(** ** IPv4 *)

Lemma bind_step {B C} (c : outcome B) (f : B -> outcome C) x r : c = Ret x -> f x = r -> c ≫= f = r.
Proof. by intros -> <-. Qed.

(** A header without options whose checksum verifies. *)
Lemma ipv4_parse_bytes ts l1 l2 i1 i2 f1 f2 tl pr c1 c2 s1 s2 s3 s4 d1 d2 d3 d4 payload pad :
  l1 * 256 + l2 = 20 + len payload ->
  calculate_checksum [0x45; ts; l1; l2; i1; i2; f1; f2; tl; pr; c1; c2; s1; s2; s3; s4; d1; d2; d3; d4] = Ret 0 ->
  ipv4_parse ([0x45; ts; l1; l2; i1; i2; f1; f2; tl; pr; c1; c2; s1; s2; s3; s4; d1; d2; d3; d4] ++ payload ++ pad) =
    Ret (Some (mkIp (mkIpHeader 0x45 ts (20 + len payload) (i1 * 256 + i2) (f1 * 256 + f2) tl pr (c1 * 256 + c2)
      [s1; s2; s3; s4] [d1; d2; d3; d4]) payload)).
Proof.
  intros Hl Hc. set (data := _ ++ payload ++ pad). set (hdr := [0x45; ts; l1; l2; i1; i2; f1; f2; tl; pr; c1; c2; s1; s2; s3; s4; d1; d2; d3; d4]) in *.
  assert (Hlen : len data = 20 + len payload + len pad) by (unfold len, data; rewrite !length_app; cbn; lia).
  assert (0 <= len payload /\ 0 <= len pad) as [? ?] by (unfold len; lia).
  assert (Hs : forall a b, 0 <= a <= b -> b <= 20 -> slice data a b = Ret (take (Z.to_nat (b - a)) (drop (Z.to_nat a) hdr))).
  { intros a b Ha Hb. rewrite slice_ok by lia. f_equal. unfold data. rewrite drop_app_le by (cbn; lia).
    rewrite take_app_le; [done|]. rewrite length_drop. cbn. lia. }
  unfold ipv4_parse. rewrite (proj2 (Z.ltb_ge _ _)) by (unfold IPV4_MIN_HEADER_LEN; lia).
  eapply bind_step; [reflexivity|]. change (Z.land 69 0x0F * 4) with 20. cbv zeta.
  rewrite (proj2 (Z.ltb_ge (len data) 20)) by lia. change (20 <? IPV4_MIN_HEADER_LEN) with false. cbn [orb].
  eapply bind_step; [reflexivity|]. rewrite Hl, (proj2 (Z.ltb_ge _ _)) by lia.
  eapply bind_step; [apply Hs; lia|]. eapply bind_step; [exact Hc|]. change (negb (0 =? 0)) with false. cbv iota.
  do 6 (eapply bind_step; [reflexivity|]). do 2 (eapply bind_step; [apply Hs; lia|]).
  eapply bind_step; [rewrite slice_ok by lia; reflexivity|]. f_equal. f_equal. f_equal.
  unfold data. change (drop (Z.to_nat 20) (hdr ++ payload ++ pad)) with (payload ++ pad).
  replace (Z.to_nat (20 + len payload - 20)) with (length payload) by (unfold len; lia). by rewrite take_app_length.
Qed.

(** The fields [Ipv4Packet::new] gets from its callers. *)
Definition ip_args (src dst : list Z) (proto : Z) (payload : list Z) : Prop :=
  is_bytes src /\ is_bytes dst /\ in_u 8 proto /\ length src = 4%nat /\ length dst = 4%nat /\ len payload <= 65515.

Lemma ipv4_roundtrip_raw src dst proto payload pad :
  ip_args src dst proto payload ->
  exists p, ipv4_new src dst proto payload = Ret p /\ ipv4_parse (ipv4_serialize p ++ pad) = Ret (Some p) /\
    protocol (ip_header p) = proto /\ source_ip (ip_header p) = src /\ dest_ip (ip_header p) = dst /\ ip_payload p = payload.
Proof.
  intros (Hsb & Hdb & Hp & Hs & Hd & Hl). unfold ipv4_new. unfold IPV4_MIN_HEADER_LEN.
  assert (0 <= len payload) by (unfold len; lia). rewrite wrap_small by (split; lia). set (tl := 20 + len payload).
  set (pre := [0x45; 0] ++ to_be tl ++ to_be 0x1337 ++ to_be 0x4000 ++ [64; proto]).
  assert (Htl : in_u 16 tl) by (unfold tl; split; lia).
  destruct (checksum_inserted pre (src ++ dst)) as (c & Ec & Hc & Ev).
  { split; [|unfold len; rewrite !length_app, Hs, Hd; cbn; lia]. unfold pre.
    repeat apply Forall_app_2; try done; try (by apply to_be_bytes); repeat constructor; lia || done || apply Hp. }
  { by exists 5%nat. }
  unfold header_bytes. cbn [version_ihl tos total_length identification flags_fragment ttl protocol ip_checksum source_ip dest_ip].
  replace ([69; 0] ++ to_be tl ++ to_be 4919 ++ to_be 16384 ++ [64; proto] ++ to_be 0 ++ src ++ dst) with (pre ++ [0; 0] ++ src ++ dst)
    by (unfold pre; by rewrite <- !app_assoc).
  rewrite Ec. cbn [mbind outcome_bind]. eexists. split; [done|]. split; [|done].
  unfold ipv4_serialize, header_bytes, set_ip_checksum.
  cbn [ip_header ip_payload version_ihl tos total_length identification flags_fragment ttl protocol ip_checksum source_ip dest_ip].
  spell src Hs. spell dst Hd. unfold pre, to_be in Ev. rewrite <- !app_assoc in Ev. cbn [app] in Ev.
  pose proof (ipv4_parse_bytes 0 (tl / 256) (tl mod 256) (0x1337 / 256) (0x1337 mod 256) (0x4000 / 256) (0x4000 mod 256) 64 proto
    (c / 256) (c mod 256) b b0 b1 b2 b3 b4 b5 b6 payload pad (be_round tl Htl) Ev) as Hparse.
  rewrite (be_round c Hc) in Hparse. rewrite <- app_assoc. exact Hparse.
Qed.

(** ** ICMP *)
Definition icmp_ok (p : IcmpPacket) : Prop :=
  in_u 8 (msg_type (icmp_header p)) /\ in_u 8 (code (icmp_header p)) /\ in_u 16 (identifier (icmp_header p)) /\
  in_u 16 (sequence_number (icmp_header p)) /\ is_bytes (icmp_payload p) /\ len (icmp_payload p) <= 65507.

Lemma icmp_parse_bytes ty cd c idn sq payload :
  in_u 16 c -> in_u 16 idn -> in_u 16 sq ->
  icmp_parse (icmp_bytes (mkIcmp (mkIcmpHeader ty cd 0 idn sq) payload) c) = Ret (Some (mkIcmp (mkIcmpHeader ty cd c idn sq) payload)).
Proof.
  intros Hc Hi Hs. unfold icmp_parse, slice_from, icmp_bytes, to_be. cbn [app icmp_header icmp_payload msg_type code identifier sequence_number].
  rewrite (proj2 (Z.ltb_ge _ _)) by in_range. read_fields. rewrite !be_round by done. do 4 f_equal. apply take_ge. in_range.
Qed.

(** What [serialize] puts on the wire: it is parsed back with the checksum filled
    in, and the bytes verify. *)
Lemma icmp_roundtrip_raw ty cd idn sq payload :
  icmp_ok (mkIcmp (mkIcmpHeader ty cd 0 idn sq) payload) ->
  exists c bytes, icmp_serialize (mkIcmp (mkIcmpHeader ty cd 0 idn sq) payload) = Ret bytes /\
    icmp_parse bytes = Ret (Some (mkIcmp (mkIcmpHeader ty cd c idn sq) payload)) /\
    calculate_checksum bytes = Ret 0 /\ is_bytes bytes /\ len bytes = 8 + len payload.
Proof.
  intros (Hty & Hcd & Hi & Hs & Hp & Hl). cbn [icmp_header icmp_payload msg_type code identifier sequence_number] in *.
  destruct (checksum_inserted [ty; cd] (to_be idn ++ to_be sq ++ payload)) as (c & Ec & Hc & Ev).
  { split; [|unfold len in *; rewrite !length_app; cbn [length to_be]; lia].
    repeat apply Forall_app_2; try done; try (by apply to_be_bytes); repeat constructor; try apply Hty; try apply Hcd; lia. }
  { by exists 1%nat. }
  exists c, (icmp_bytes (mkIcmp (mkIcmpHeader ty cd 0 idn sq) payload) c). unfold icmp_serialize.
  split; [eapply bind_step; [exact Ec|reflexivity]|]. split; [by apply icmp_parse_bytes|]. split; [exact Ev|].
  unfold icmp_bytes, len. cbn [icmp_header icmp_payload msg_type code identifier sequence_number]. split.
  - repeat apply Forall_app_2; try done; try (by apply to_be_bytes). by repeat constructor; try apply Hty; try apply Hcd.
  - rewrite !length_app. cbn [length to_be]. lia.
Qed.

(** ** UDP *)
Definition udp_args (src dst : list Z) (sp dp : Z) (payload : list Z) : Prop :=
  is_bytes src /\ is_bytes dst /\ length src = 4%nat /\ length dst = 4%nat /\ in_u 16 sp /\ in_u 16 dp /\
  is_bytes payload /\ len payload <= 65507.

Lemma udp_parse_bytes sp dp ck payload pad :
  in_u 16 sp -> in_u 16 dp -> in_u 16 ck -> len payload <= 65507 ->
  udp_parse (udp_serialize (mkUdp (mkUdpHeader sp dp (8 + len payload) ck) payload) ++ pad) =
    Ret (Some (mkUdp (mkUdpHeader sp dp (8 + len payload) ck) payload)).
Proof.
  intros Hs Hd Hc Hl. assert (Hln : in_u 16 (8 + len payload)) by (unfold len in *; split; lia).
  unfold udp_parse, udp_serialize. cbn [udp_header udp_payload src_port dest_port udp_length udp_checksum].
  set (ln := 8 + len payload) in *. unfold to_be. cbn [app].
  rewrite (proj2 (Z.ltb_ge _ _)) by in_range. read_consts. rewrite !be_round by done.
  rewrite (proj2 (Z.ltb_ge _ ln)), (proj2 (Z.ltb_ge ln _)) by (unfold ln; in_range). cbn [orb].
  rewrite slice_ok by (unfold ln; in_range). cbn [mbind outcome_bind]. do 3 f_equal.
  change (drop (Z.to_nat UDP_HEADER_LEN) _) with (payload ++ pad).
  replace (Z.to_nat (ln - UDP_HEADER_LEN)) with (length payload) by (unfold ln, len, UDP_HEADER_LEN; lia). by rewrite take_app_length.
Qed.

(** ** Properties *)

(** What the IPv4 layer puts on the wire it accepts: for addresses of four
    bytes, any protocol and any payload up to 65515 bytes, [Ipv4Packet::new] and
    [serialize] return, and [parse] of the bytes, also when the Ethernet layer
    padded them, validates the header checksum and gives back the same packet. *)
Theorem ipv4_roundtrip src dst proto payload pad :
  ip_args src dst proto payload ->
  exists p, ipv4_new src dst proto payload = Ret p /\ ipv4_parse (ipv4_serialize p ++ pad) = Ret (Some p) /\
    protocol (ip_header p) = proto /\ source_ip (ip_header p) = src /\ dest_ip (ip_header p) = dst /\ ip_payload p = payload.
Proof. apply ipv4_roundtrip_raw. Qed.

Lemma ipv4_roundtrip_witness :
  exists p, ipv4_new [10; 0; 2; 15] [10; 0; 2; 2] 1 [1; 2; 3] = Ret p /\ ipv4_parse (ipv4_serialize p ++ replicate 23 0) = Ret (Some p) /\
    protocol (ip_header p) = 1 /\ source_ip (ip_header p) = [10; 0; 2; 15] /\ dest_ip (ip_header p) = [10; 0; 2; 2] /\ ip_payload p = [1; 2; 3].
Proof. apply ipv4_roundtrip. unfold ip_args, is_bytes. by_compute. Defined.

(** The checksum that [new] and [serialize] insert is the Internet checksum:
    over any byte string of an even prefix, a zeroed 16-bit field and a rest, up
    to 131000 bytes, [calculate_checksum] returns (its carry loop ends) a 16-bit
    value, and the bytes with that value in the field have checksum zero, which is
    the test of the receiver. *)
Theorem checksum_verifies pre post :
  short (pre ++ [0; 0] ++ post) -> Nat.Even (length pre) ->
  exists c, calculate_checksum (pre ++ [0; 0] ++ post) = Ret c /\ in_u 16 c /\ calculate_checksum (pre ++ to_be c ++ post) = Ret 0.
Proof. apply checksum_inserted. Qed.

Lemma checksum_verifies_witness :
  exists c, calculate_checksum ([8; 0] ++ [0; 0] ++ [0x13; 0x37; 0; 1; 65]) = Ret c /\ in_u 16 c /\
    calculate_checksum ([8; 0] ++ to_be c ++ [0x13; 0x37; 0; 1; 65]) = Ret 0.
Proof. apply checksum_verifies; [unfold short, is_bytes; by_compute|by exists 1%nat]. Defined.

(** A UDP datagram built for two addresses and ports is parsed back from its
    bytes whatever padding follows, its length field is its length, its checksum is
    never zero, and it is the checksum of the pseudo-header with the datagram
    (zero sent as 0xFFFF). *)
Theorem udp_roundtrip src dst sp dp payload pad :
  udp_args src dst sp dp payload ->
  exists p c, udp_new src dst sp dp payload = Ret p /\ udp_parse (udp_serialize p ++ pad) = Ret (Some p) /\
    src_port (udp_header p) = sp /\ dest_port (udp_header p) = dp /\ udp_length (udp_header p) = 8 + len payload /\ udp_payload p = payload /\
    calculate_checksum (udp_pseudo src dst sp dp (8 + len payload) 0 payload) = Ret c /\
    udp_checksum (udp_header p) = (if c =? 0 then 0xFFFF else c) /\ udp_checksum (udp_header p) <> 0.
Proof.
  intros (Hsb & Hdb & Hs & Hd & Hsp & Hdp & Hb & Hl). unfold udp_new, UDP_HEADER_LEN. unfold len in Hl.
  rewrite wrap_small by (unfold len; split; lia).
  destruct (checksum_ret (udp_pseudo src dst sp dp (8 + len payload) 0 payload)) as (f & k & Ec & Hf & _).
  { split; unfold udp_pseudo; [|unfold len; rewrite !length_app, Hs, Hd; cbn [length to_be]; lia].
    repeat apply Forall_app_2; try done; try (by repeat constructor); apply to_be_bytes; try done; unfold len; split; lia. }
  rewrite Ec. cbn [mbind outcome_bind]. set (ck := if 65535 - f =? 0 then 0xFFFF else 65535 - f).
  assert (in_u 16 ck /\ ck <> 0) as [Hck Hne] by (unfold ck; destruct (Z.eqb_spec (65535 - f) 0); split; try split; lia).
  eexists _, (65535 - f). split; [reflexivity|]. split; [by apply udp_parse_bytes|]. done.
Qed.

Lemma udp_roundtrip_witness :
  exists p c, udp_new [10; 0; 2; 15] [10; 0; 2; 3] 4000 53 [7; 8; 9] = Ret p /\ udp_parse (udp_serialize p ++ [0; 0]) = Ret (Some p) /\
    src_port (udp_header p) = 4000 /\ dest_port (udp_header p) = 53 /\ udp_length (udp_header p) = 8 + len [7; 8; 9] /\ udp_payload p = [7; 8; 9] /\
    calculate_checksum (udp_pseudo [10; 0; 2; 15] [10; 0; 2; 3] 4000 53 (8 + len [7; 8; 9]) 0 [7; 8; 9]) = Ret c /\
    udp_checksum (udp_header p) = (if c =? 0 then 0xFFFF else c) /\ udp_checksum (udp_header p) <> 0.
Proof. apply udp_roundtrip. unfold udp_args, is_bytes. by_compute. Defined.

End Packets.
