(* ===== verification/NetText.v ===== *)
(** * Addresses as text (src/src/net/ipv4.rs and ethernet.rs)

    Dotted decimal and colon-separated hexadecimal. *)

From stdpp Require Import prelude numbers list strings.
From S2P Require Import Prelude Bytes Text.
Import Bytes Text.

Module NetText.

Definition DOT : Z := 46.
Definition octet (ip : list Z) (i : nat) : Z := nth i ip 0.

(** ["{}.{}.{}.{}"] *)
Definition format_ipv4 (ip : list Z) : list Z :=
  decimal (octet ip 0) ++ DOT :: decimal (octet ip 1) ++ DOT :: decimal (octet ip 2) ++ DOT :: decimal (octet ip 3).

(** [str::parse::<u8>]: an optional plus sign and digits, checked at each step. *)
Fixpoint u8_digits (acc : Z) (l : list Z) : option Z :=
  match l with
  | [] => Some acc
  | b :: l' => if is_digit b then if acc * 10 + (b - 48) <? 256 then u8_digits (acc * 10 + (b - 48)) l' else None else None
  end.
Definition parse_u8 (l : list Z) : option Z :=
  match l with
  | [] => None
  | b :: l' => if b =? 43 then match l' with [] => None | _ => u8_digits 0 l' end else u8_digits 0 l
  end.

Definition parse_ipv4 (s : list Z) : option (list Z) :=
  match split_byte DOT s with
  | a :: rest =>
      a ← parse_u8 a;
      match rest with
      | b :: rest => b ← parse_u8 b;
          match rest with
          | c :: rest => c ← parse_u8 c;
              match rest with
              | d :: rest => d ← parse_u8 d; match rest with [] => Some [a; b; c; d] | _ => None end
              | [] => None
              end
          | [] => None
          end
      | [] => None
      end
  | [] => None
  end.

(** ["{:02x}"], and the six of them with colons. *)
Definition hex_digit (n : Z) : Z := if n <? 10 then 48 + n else 87 + n.
Definition hex2 (b : Z) : list Z := [hex_digit (b / 16); hex_digit (b mod 16)].
Definition format_mac (mac : list Z) : list Z :=
  hex2 (octet mac 0) ++ 58 :: hex2 (octet mac 1) ++ 58 :: hex2 (octet mac 2) ++ 58 :: hex2 (octet mac 3) ++ 58 :: hex2 (octet mac 4) ++ 58 :: hex2 (octet mac 5).

Lemma parse_u8_decimal n : in_u 8 n -> parse_u8 (decimal n) = Some n.
Proof.
  intros Hn. assert (HF : Forall (fun k => parse_u8 (decimal (Z.of_nat k)) = Some (Z.of_nat k)) (seq 0 256)) by by_compute.
  rewrite Forall_forall in HF. specialize (HF (Z.to_nat n)). rewrite Z2Nat.id in HF by apply Hn. apply HF, elem_of_seq. unfold in_u in Hn. lia.
Qed.

Lemma parse_format_ipv4 a b c d : in_u 8 a -> in_u 8 b -> in_u 8 c -> in_u 8 d -> parse_ipv4 (format_ipv4 [a; b; c; d]) = Some [a; b; c; d].
Proof.
  intros Ha Hb Hc Hd. assert (Hnd : forall x, in_u 8 x -> DOT ∉ decimal x).
  { intros x Hx Hin. destruct (decimal_spec x) as (_ & Hdig & _); [unfold in_u in *; lia|]. rewrite Forall_forall in Hdig. by apply Hdig in Hin. }
  unfold parse_ipv4, format_ipv4, octet. cbn [nth]. unfold DOT in *. rewrite !split_dot by (by apply Hnd). rewrite split_byte_none by (by apply Hnd). by rewrite !parse_u8_decimal.
Qed.

End NetText.
