(* ===== verification/Network.v ===== *)
(** * The network manager (src/src/net/mod.rs)

    [NetworkManager] with all its handlers, over the interface [NetDevice] that a
    network card promises: a bounded transmit queue and received frames.  The
    e1000 driver is an instance.  The theorems follow a frame from the card
    through every layer and back: echo requests and ARP requests are answered,
    and one frame makes the kernel panic. *)

From stdpp Require Import prelude numbers list.
From S2P Require Import Prelude Io Pci E1000 Packets.

(** ** What the stack expects of a card

    [nd_queue] are the frames accepted and not yet on the wire; there is room for
    seven.  [nd_next] is the frame the next call of [receive_packet] returns. *)
Class NetDevice (D : Type) := {
  nd_send : D -> list Z -> outcome (bool * D);
  nd_receive : D -> outcome (option (list Z) * D);
  nd_mac : D -> list Z;
  nd_queue : D -> list (list Z);
  nd_ready : D -> Prop;
  nd_next : D -> list Z -> Prop;
  nd_send_law d p :
    nd_ready d -> (0 < length p <= E1000.PACKET_BUFFER_SIZE)%nat -> (length (nd_queue d) < 7)%nat ->
    exists d', nd_send d p = Ret (true, d') /\ nd_queue d' = nd_queue d ++ [p] /\ nd_ready d';
  nd_receive_law d p :
    nd_ready d -> nd_next d p -> exists d', nd_receive d = Ret (Some p, d') /\ nd_queue d' = nd_queue d /\ nd_ready d';
  nd_send_next d p b d' f : nd_send d p = Ret (b, d') -> nd_next d f -> nd_next d' f
}.

(** The e1000 driver with the machine it runs on and the head of its transmit
    ring, which the card advances. *)
Record card (H : Type) := mkCard { driver : E1000.E1000; machine_of : H; head : nat }.
Arguments mkCard {H} _ _ _.
Arguments driver {H} _.
Arguments machine_of {H} _.
Arguments head {H} _.

Section Card.
Context {H : Type} `{Hardware H}.

Definition card_send (c : card H) (p : list Z) : outcome (bool * card H) :=
  r ← E1000.send_packet (driver c) p (machine_of c); let '(ok, d, h) := r in Ret (ok, mkCard d h (head c)).
Definition card_receive (c : card H) : outcome (option (list Z) * card H) :=
  r ← E1000.receive_packet (driver c) (machine_of c); let '(p, d, h) := r in Ret (p, mkCard d h (head c)).
Definition card_ready (c : card H) : Prop :=
  E1000.tx_ok (driver c) /\ E1000.rx_ok (driver c) /\ (head c < E1000.TX_DESC_COUNT)%nat.

(** Sending does not touch the receive side, nor receiving the transmit side. *)
Lemma rx_ok_ext (d d' : E1000.E1000) :
  E1000.is_initialized d' = true -> E1000.rx_descs d' = E1000.rx_descs d -> E1000.rx_buffers d' = E1000.rx_buffers d ->
  E1000.rx_cur d' = E1000.rx_cur d -> E1000.rx_ok d -> E1000.rx_ok d'.
Proof. unfold E1000.rx_ok. intros Hi -> -> -> (_ & ?). done. Qed.

Lemma tx_ok_ext (d d' : E1000.E1000) :
  E1000.is_initialized d' = true -> E1000.tx_descs d' = E1000.tx_descs d -> E1000.tx_buffers d' = E1000.tx_buffers d ->
  E1000.tx_cur d' = E1000.tx_cur d -> E1000.tx_ok d -> E1000.tx_ok d'.
Proof. unfold E1000.tx_ok. intros Hi -> -> -> (_ & ?). done. Qed.

Lemma card_send_law c p :
  card_ready c -> (0 < length p <= E1000.PACKET_BUFFER_SIZE)%nat -> (length (E1000.queued (driver c) (head c)) < 7)%nat ->
  exists c', card_send c p = Ret (true, c') /\ E1000.queued (driver c') (head c') = E1000.queued (driver c) (head c) ++ [p] /\ card_ready c'.
Proof.
  intros (Ht & Hr & Hh) Hp Hn.
  destruct (E1000.queued_send (driver c) p (machine_of c) (head c) Ht Hp Hh Hn) as (d' & E & Hq & Ht' & R1 & R2 & R3).
  exists (mkCard d' (snd (E1000.write_reg (driver c) E1000.REG_TDT (Z.of_nat (E1000.tx_cur d')) (machine_of c))) (head c)).
  unfold card_send. rewrite E. split; [done|]. split; [done|]. split; [done|]. split; [|done]. cbn [driver].
  eapply rx_ok_ext; [apply Ht'|exact R1|exact R2|exact R3|exact Hr].
Qed.

Lemma card_receive_law c p :
  card_ready c -> E1000.stored_at (driver c) 0 p ->
  exists c', card_receive c = Ret (Some p, c') /\ E1000.queued (driver c') (head c') = E1000.queued (driver c) (head c) /\ card_ready c'.
Proof.
  intros (Ht & Hr & Hh) Hp.
  destruct (E1000.receive_packet_step (driver c) (machine_of c) p Hr Hp) as (d' & E & Hr' & _ & _ & _ & T1 & T2 & T3).
  eexists. unfold card_receive. rewrite E. split; [reflexivity|]. cbn [driver head]. split.
  - unfold E1000.queued, E1000.in_use. by rewrite T1, T2, T3.
  - split; [|done]. cbn [driver]. eapply tx_ok_ext; [apply Hr'|exact T1|exact T2|exact T3|exact Ht].
Qed.

Lemma card_send_next c p b c' f : card_send c p = Ret (b, c') -> E1000.stored_at (driver c) 0 f -> E1000.stored_at (driver c') 0 f.
Proof.
  unfold card_send, E1000.send_packet. destruct (_ || _)%bool; [by intros [= <- <-]|]. destruct (E1000.tx_descs (driver c)) as [descs|]; [|by intros [= <- <-]].
  destruct (at_ _ _) as [buf| |]; cbn [mbind outcome_bind]; [|done..]. destruct (E1000.blit p buf) as [buf'| |]; cbn [mbind outcome_bind]; [|done..].
  destruct (update _ _ _) as [descs'| |]; cbn [mbind outcome_bind]; [|done..]. destruct (E1000.write_reg _ _ _ _) as [u h']. cbn. by intros [= <- <-].
Qed.

#[global] Instance e1000_device : NetDevice (card H) := {
  nd_send := card_send; nd_receive := card_receive;
  nd_mac c := E1000.mac (driver c);
  nd_queue c := E1000.queued (driver c) (head c);
  nd_ready := card_ready;
  nd_next c p := E1000.stored_at (driver c) 0 p;
  nd_send_law := card_send_law; nd_receive_law := card_receive_law; nd_send_next := card_send_next
}.

End Card.

Module Network.
Import Packets.

Record NetworkManager := mkNet {
  mac : list Z; ip : list Z; subnet : list Z; gateway : list Z; dns : list Z; arp_table : ArpTable;
  is_enabled : bool; pings_sent : Z; pings_received : Z; last_ping_seq : Z; last_ping_sent_tick : Z; last_ping_rtt_ms : option Z;
  packets_rx : Z; packets_tx : Z; bytes_rx : Z; bytes_tx : Z
}.

Definition new : NetworkManager :=
  mkNet [0x52; 0x54; 0x00; 0x12; 0x34; 0x56] [10; 0; 2; 15] [255; 255; 255; 0] [10; 0; 2; 2] [10; 0; 2; 3] []
    false 0 0 0 0 None 0 0 0 0.

Definition set_arp (n : NetworkManager) (t : ArpTable) : NetworkManager :=
  mkNet (mac n) (ip n) (subnet n) (gateway n) (dns n) t (is_enabled n) (pings_sent n) (pings_received n) (last_ping_seq n)
    (last_ping_sent_tick n) (last_ping_rtt_ms n) (packets_rx n) (packets_tx n) (bytes_rx n) (bytes_tx n).
Definition set_tx (n : NetworkManager) (packets bytes : Z) : NetworkManager :=
  mkNet (mac n) (ip n) (subnet n) (gateway n) (dns n) (arp_table n) (is_enabled n) (pings_sent n) (pings_received n) (last_ping_seq n)
    (last_ping_sent_tick n) (last_ping_rtt_ms n) (packets_rx n) packets (bytes_rx n) bytes.
Definition set_rx (n : NetworkManager) (packets bytes : Z) : NetworkManager :=
  mkNet (mac n) (ip n) (subnet n) (gateway n) (dns n) (arp_table n) (is_enabled n) (pings_sent n) (pings_received n) (last_ping_seq n)
    (last_ping_sent_tick n) (last_ping_rtt_ms n) packets (packets_tx n) bytes (bytes_tx n).
Definition set_ping (n : NetworkManager) (sent received seq tick : Z) (rtt : option Z) : NetworkManager :=
  mkNet (mac n) (ip n) (subnet n) (gateway n) (dns n) (arp_table n) (is_enabled n) sent received seq tick rtt
    (packets_rx n) (packets_tx n) (bytes_rx n) (bytes_tx n).

Section Stack.
Context {D : Type} `{NetDevice D}.

(** [now] is [crate::arch::idt::ticks()] at the time of the call; [nic_ok] and the
    card are what [e1000::init] left. *)
Definition init (now : Z) (nic_ok : bool) (nic : D) (n : NetworkManager) : bool * NetworkManager :=
  if nic_ok then
    let t1 := arp_insert now (arp_table n) [10; 0; 2; 2] [0x52; 0x54; 0x00; 0x12; 0x34; 0x56] in
    let t2 := arp_insert now t1 [10; 0; 2; 3] [0x52; 0x54; 0x00; 0x12; 0x34; 0x56] in
    (true, mkNet (nd_mac nic) (ip n) (subnet n) (gateway n) (dns n) t2 true (pings_sent n) (pings_received n) (last_ping_seq n)
      (last_ping_sent_tick n) (last_ping_rtt_ms n) (packets_rx n) (packets_tx n) (bytes_rx n) (bytes_tx n))
  else (is_enabled n, n).

Definition send_frame (n : NetworkManager) (nic : D) (dest_mac : list Z) (ethertype : Z) (payload : list Z)
  : outcome (bool * NetworkManager * D) :=
  let raw := frame_serialize (mkFrame dest_mac (mac n) ethertype payload) in
  r ← nd_send nic raw;
  let '(ok, nic') := r in
  Ret (ok, if (ok : bool) then set_tx n (u64_add (packets_tx n) 1) (u64_add (bytes_tx n) (len raw)) else n, nic').

Definition same_subnet (a b : list Z) : outcome bool :=
  a0 ← index a 0; b0 ← index b 0; a1 ← index a 1; b1 ← index b 1; a2 ← index a 2; b2 ← index b 2;
  Ret ((a0 =? b0) && (a1 =? b1) && (a2 =? b2))%bool.

Definition send_ipv4 (n : NetworkManager) (nic : D) (dest_ip : list Z) (protocol : Z) (payload : list Z)
  : outcome (bool * NetworkManager * D) :=
  let is_broadcast := same_bytes dest_ip [255; 255; 255; 255] in
  is_same_subnet ← same_subnet dest_ip (ip n);
  let target_ip_for_arp := if is_broadcast then dest_ip else if (is_same_subnet : bool) then dest_ip else gateway n in
  r ← (if is_broadcast then Ret (BROADCAST_MAC, n, nic)
       else match arp_lookup (arp_table n) target_ip_for_arp with
            | Some m => Ret (m, n, nic)
            | None =>
              s ← send_frame n nic BROADCAST_MAC ETHERTYPE_ARP (build_arp_request (mac n) (ip n) target_ip_for_arp);
              let '(_, n1, nic1) := s in Ret (BROADCAST_MAC, n1, nic1)
            end);
  let '(dest_mac, n1, nic1) := r in
  packet ← ipv4_new (ip n1) dest_ip protocol payload;
  send_frame n1 nic1 dest_mac ETHERTYPE_IPV4 (ipv4_serialize packet).

(** [b"AuraOS-Ping-Packet-2026"] *)
Definition PING_PAYLOAD : list Z :=
  [65; 117; 114; 97; 79; 83; 45; 80; 105; 110; 103; 45; 80; 97; 99; 107; 101; 116; 45; 50; 48; 50; 54].

Definition send_ping (now : Z) (n : NetworkManager) (nic : D) (target_ip : list Z) : outcome (bool * NetworkManager * D) :=
  let seq := wrap 16 (last_ping_seq n + 1) in
  icmp_data ← build_echo_request 0x1337 seq PING_PAYLOAD;
  send_ipv4 (set_ping n (u64_add (pings_sent n) 1) (pings_received n) seq now None) nic target_ip IPV4_PROTO_ICMP icmp_data.

Definition send_udp (n : NetworkManager) (nic : D) (dest_ip : list Z) (src_port dest_port : Z) (data : list Z)
  : outcome (bool * NetworkManager * D) :=
  udp_pkt ← udp_new (ip n) dest_ip src_port dest_port data;
  send_ipv4 n nic dest_ip IPV4_PROTO_UDP (udp_serialize udp_pkt).

Definition handle_arp (now : Z) (n : NetworkManager) (nic : D) (payload : list Z) : outcome (NetworkManager * D) :=
  r ← arp_parse payload;
  match r with
  | None => Ret (n, nic)
  | Some arp =>
    let n1 := set_arp n (arp_insert now (arp_table n) (sender_ip arp) (sender_mac arp)) in
    if ((oper arp =? ARP_OP_REQUEST) && same_bytes (target_ip arp) (ip n1))%bool then
      s ← send_frame n1 nic (sender_mac arp) ETHERTYPE_ARP (build_arp_reply (mac n1) (ip n1) (sender_mac arp) (sender_ip arp));
      let '(_, n2, nic2) := s in Ret (n2, nic2)
    else Ret (n1, nic)
  end.

Definition handle_icmp (now : Z) (n : NetworkManager) (nic : D) (ip_hdr : Ipv4Header) (payload : list Z) : outcome (NetworkManager * D) :=
  r ← icmp_parse payload;
  match r with
  | None => Ret (n, nic)
  | Some icmp =>
    if msg_type (icmp_header icmp) =? ICMP_TYPE_ECHO_REQUEST then
      reply_payload ← build_echo_reply (identifier (icmp_header icmp)) (sequence_number (icmp_header icmp)) (icmp_payload icmp);
      s ← send_ipv4 n nic (source_ip ip_hdr) IPV4_PROTO_ICMP reply_payload;
      let '(_, n1, nic1) := s in Ret (n1, nic1)
    else if msg_type (icmp_header icmp) =? ICMP_TYPE_ECHO_REPLY then
      let ticks_diff := saturating_sub now (last_ping_sent_tick n) in
      let ms := u64_mul ticks_diff 10 in
      Ret (set_ping n (pings_sent n) (u64_add (pings_received n) 1) (last_ping_seq n) (last_ping_sent_tick n) (Some ms), nic)
    else Ret (n, nic)
  end.

(** A datagram is parsed and only reported on the serial line. *)
Definition handle_udp (n : NetworkManager) (nic : D) (ip_hdr : Ipv4Header) (payload : list Z) : outcome (NetworkManager * D) :=
  _ ← udp_parse payload; Ret (n, nic).

Definition handle_ipv4 (now : Z) (n : NetworkManager) (nic : D) (payload : list Z) : outcome (NetworkManager * D) :=
  r ← ipv4_parse payload;
  match r with
  | None => Ret (n, nic)
  | Some ip_pkt =>
    if protocol (ip_header ip_pkt) =? IPV4_PROTO_ICMP then handle_icmp now n nic (ip_header ip_pkt) (ip_payload ip_pkt)
    else if protocol (ip_header ip_pkt) =? IPV4_PROTO_UDP then handle_udp n nic (ip_header ip_pkt) (ip_payload ip_pkt)
    else Ret (n, nic)
  end.

Definition poll (now : Z) (n : NetworkManager) (nic : D) : outcome (NetworkManager * D) :=
  r ← nd_receive nic;
  match r with
  | (None, nic1) => Ret (n, nic1)
  | (Some raw, nic1) =>
    let n1 := set_rx n (u64_add (packets_rx n) 1) (u64_add (bytes_rx n) (len raw)) in
    f ← frame_parse raw;
    match f with
    | None => Ret (n1, nic1)
    | Some frame =>
      if ethertype frame =? ETHERTYPE_ARP then handle_arp now n1 nic1 (f_payload frame)
      else if ethertype frame =? ETHERTYPE_IPV4 then handle_ipv4 now n1 nic1 (f_payload frame)
      else Ret (n1, nic1)
    end
  end.

(** ** Sending *)
Definition net_ok (n : NetworkManager) : Prop :=
  length (mac n) = 6%nat /\ length (ip n) = 4%nat /\ is_bytes (ip n) /\ length (gateway n) = 4%nat /\
  Forall (fun e => length (e_mac e) = 6%nat) (arp_table n).

(** The largest payload of a frame that fits a buffer of the card. *)
Definition MTU : Z := 2034.

Lemma length_frame d s ty payload :
  length d = 6%nat -> length s = 6%nat -> (60 <= length (frame_serialize (mkFrame d s ty payload)) <= Nat.max 60 (14 + length payload))%nat.
Proof.
  intros Hd Hs. unfold frame_serialize, pad60. cbn [dest_mac src_mac Packets.ethertype f_payload].
  rewrite !length_app, length_replicate, Hd, Hs. cbn [length to_be]. lia.
Qed.

Lemma send_frame_ok n nic dst ty payload :
  nd_ready nic -> length (mac n) = 6%nat -> length dst = 6%nat -> len payload <= MTU -> (length (nd_queue nic) < 7)%nat ->
  exists p b nic', send_frame n nic dst ty payload = Ret (true, set_tx n p b, nic') /\
    nd_queue nic' = nd_queue nic ++ [frame_serialize (mkFrame dst (mac n) ty payload)] /\ nd_ready nic'.
Proof.
  intros Hr Hm Hd Hl Hq. pose proof (length_frame dst (mac n) ty payload Hd Hm) as Hf.
  destruct (nd_send_law nic (frame_serialize (mkFrame dst (mac n) ty payload)) Hr) as (nic' & E & Hq' & Hr'); [|done|].
  { unfold E1000.PACKET_BUFFER_SIZE. unfold len, MTU in Hl. lia. }
  unfold send_frame. rewrite E. cbn [mbind outcome_bind]. eexists _, _, nic'. done.
Qed.

Lemma arp_lookup_mac t a m : Forall (fun e => length (e_mac e) = 6%nat) t -> arp_lookup t a = Some m -> length m = 6%nat.
Proof.
  induction t as [|e t IH]; [done|]. intros Ht. apply Forall_cons_1 in Ht as [He Ht]. cbn [arp_lookup].
  destruct (same_bytes _ _); [by intros [= <-]|by apply IH].
Qed.

Lemma same_subnet_ret a b : length a = 4%nat -> length b = 4%nat -> exists r, same_subnet a b = Ret r.
Proof.
  intros Ha Hb. destruct a as [|a0 [|a1 [|a2 [|a3 [|]]]]]; try done. destruct b as [|b0 [|b1 [|b2 [|b3 [|]]]]]; try done. by eexists.
Qed.

Lemma length_ipv4 src dst proto payload p :
  length src = 4%nat -> length dst = 4%nat -> ipv4_new src dst proto payload = Ret p -> len (ipv4_serialize p) = 20 + len payload.
Proof.
  intros Hs Hd. unfold ipv4_new. cbv zeta. set (h := mkIpHeader _ _ _ _ _ _ _ _ _ _). destruct (calculate_checksum _) as [c| |]; [|done..].
  cbn [mbind outcome_bind]. intros [= <-]. unfold ipv4_serialize, header_bytes, set_ip_checksum, len. cbn [ip_header ip_payload].
  unfold h. cbn [source_ip dest_ip]. rewrite !length_app, Hs, Hd. cbn [length to_be]. lia.
Qed.

(** An IPv4 packet leaves in the last frame queued, to some station, perhaps after
    an ARP request. *)
Lemma send_ipv4_ok n nic dst proto payload :
  net_ok n -> nd_ready nic -> is_bytes dst -> length dst = 4%nat -> in_u 8 proto -> len payload <= MTU - 20 -> (length (nd_queue nic) < 6)%nat ->
  exists n' nic' pre m p, send_ipv4 n nic dst proto payload = Ret (true, n', nic') /\ ipv4_new (ip n) dst proto payload = Ret p /\
    length m = 6%nat /\ nd_queue nic' = nd_queue nic ++ pre ++ [frame_serialize (mkFrame m (mac n) ETHERTYPE_IPV4 (ipv4_serialize p))] /\
    (pre = [] \/ exists a, pre = [frame_serialize (mkFrame BROADCAST_MAC (mac n) ETHERTYPE_ARP (build_arp_request (mac n) (ip n) a))]) /\
    nd_ready nic' /\ net_ok n' /\ ip n' = ip n /\ mac n' = mac n.
Proof.
  intros Hn Hr Hdb Hd Hp Hl Hq. pose proof Hn as (Hm & Hi & Hib & Hg & Ha). unfold send_ipv4.
  destruct (same_subnet_ret dst (ip n) Hd Hi) as [b ->]. cbn [mbind outcome_bind]. cbv zeta.
  set (target := if same_bytes dst [255; 255; 255; 255] then dst else if b then dst else gateway n).
  assert (Ht : length target = 4%nat) by (unfold target; by destruct (same_bytes _ _), b).
  destruct (ipv4_roundtrip_raw (ip n) dst proto payload []) as (p & Ep & _).
  { unfold ip_args, MTU in *. repeat (split; [done|]). lia. }
  pose proof (length_ipv4 (ip n) dst proto payload p Hi Hd Ep) as Hlp.
  assert (Hfin : forall pre n1 nic1 m, length m = 6%nat -> nd_ready nic1 -> nd_queue nic1 = nd_queue nic ++ pre -> (length pre <= 1)%nat ->
    (exists x y, n1 = set_tx n x y) ->
    exists x y nic', (packet ← ipv4_new (ip n1) dst proto payload; send_frame n1 nic1 m ETHERTYPE_IPV4 (ipv4_serialize packet)) =
      Ret (true, set_tx n x y, nic') /\
      nd_queue nic' = nd_queue nic ++ pre ++ [frame_serialize (mkFrame m (mac n) ETHERTYPE_IPV4 (ipv4_serialize p))] /\ nd_ready nic').
  { intros pre n1 nic1 m Hm6 Hr1 Hq1 Hpre (x & y & ->). cbn [ip set_tx]. rewrite Ep. cbn [mbind outcome_bind].
    destruct (send_frame_ok (set_tx n x y) nic1 m ETHERTYPE_IPV4 (ipv4_serialize p)) as (x' & y' & nic' & E & Hq' & Hr'); try done.
    { unfold MTU in *. lia. } { rewrite Hq1, length_app. lia. }
    eexists _, _, nic'. rewrite E. split; [reflexivity|]. split; [|done]. rewrite Hq', Hq1, <- app_assoc. done. }
  assert (Hself : exists x y, n = set_tx n x y) by (exists (packets_tx n), (bytes_tx n); by destruct n).
  destruct (same_bytes dst [255; 255; 255; 255]) eqn:Eb; [|destruct (arp_lookup (arp_table n) target) as [m|] eqn:El].
  - destruct (Hfin [] n nic BROADCAST_MAC) as (x & y & nic' & E & Hq' & Hr'); try done; [by rewrite app_nil_r|cbn; lia|].
    eexists _, nic', [], BROADCAST_MAC, p. cbn [mbind outcome_bind]. rewrite E. repeat (split; [done|]). split; [by left|]. done.
  - pose proof (arp_lookup_mac _ _ _ Ha El) as Hm6.
    destruct (Hfin [] n nic m) as (x & y & nic' & E & Hq' & Hr'); try done; [by rewrite app_nil_r|cbn; lia|].
    eexists _, nic', [], m, p. cbn [mbind outcome_bind]. rewrite E. repeat (split; [done|]). split; [by left|]. done.
  - destruct (send_frame_ok n nic BROADCAST_MAC ETHERTYPE_ARP (build_arp_request (mac n) (ip n) target)) as (x1 & y1 & nic1 & E1 & Hq1 & Hr1); try done.
    { unfold len, build_arp_request, arp_serialize. cbn [sender_mac sender_ip target_mac target_ip]. rewrite !length_app, Hm, Hi, Ht.
      rewrite length_replicate. unfold MTU. cbn [length to_be]. lia. } { lia. }
    rewrite E1. cbn [mbind outcome_bind].
    destruct (Hfin _ (set_tx n x1 y1) nic1 BROADCAST_MAC eq_refl Hr1 Hq1) as (x & y & nic' & E & Hq' & Hr'); [cbn; lia|by eexists _, _|].
    eexists _, nic', _, BROADCAST_MAC, p. rewrite E. split; [done|]. split; [done|]. split; [done|]. split; [exact Hq'|].
    split; [right; by eexists|]. done.
Qed.

(** Sending leaves the frame that waits. *)
Lemma send_frame_next n nic dst ty payload r n' nic' f : send_frame n nic dst ty payload = Ret (r, n', nic') -> nd_next nic f -> nd_next nic' f.
Proof.
  unfold send_frame. destruct (nd_send nic _) as [[ok nic1]| |] eqn:E; cbn [mbind outcome_bind]; [|done..]. intros [= <- <- <-]. by eapply nd_send_next.
Qed.
Lemma send_ipv4_next n nic dst proto payload r n' nic' f : send_ipv4 n nic dst proto payload = Ret (r, n', nic') -> nd_next nic f -> nd_next nic' f.
Proof.
  unfold send_ipv4. destruct (same_subnet dst (ip n)) as [b| |]; cbn [mbind outcome_bind]; [|done..]. cbv zeta. intros E Hf.
  assert (Hlast : forall n1 nic1 m, nd_next nic1 f -> (packet ← ipv4_new (ip n1) dst proto payload; send_frame n1 nic1 m ETHERTYPE_IPV4 (ipv4_serialize packet)) = Ret (r, n', nic') -> nd_next nic' f).
  { intros n1 nic1 m H1. destruct (ipv4_new _ _ _ _) as [q| |]; cbn [mbind outcome_bind]; [|done..]. intros E1. by eapply send_frame_next. }
  destruct (same_bytes dst _); [by eapply Hlast|]. destruct (arp_lookup _ _) as [m|]; [by eapply Hlast|].
  destruct (send_frame _ _ _ _ _) as [[[ok n1] nic1]| |] eqn:Es; cbn [mbind outcome_bind] in E; [|done..]. eapply Hlast; [by eapply send_frame_next|exact E].
Qed.

(** Sending counts and changes nothing else of the manager. *)
Lemma send_frame_tx n nic dst ty payload r n' nic' : send_frame n nic dst ty payload = Ret (r, n', nic') -> exists x y, n' = set_tx n x y.
Proof.
  unfold send_frame. destruct (nd_send nic _) as [[ok nic1]| |]; cbn [mbind outcome_bind]; [|done..]. intros [= <- <- <-].
  destruct ok; [by eexists _, _|]. exists (packets_tx n), (bytes_tx n). by destruct n.
Qed.
Lemma send_ipv4_tx n nic dst proto payload r n' nic' : send_ipv4 n nic dst proto payload = Ret (r, n', nic') -> exists x y, n' = set_tx n x y.
Proof.
  unfold send_ipv4. destruct (same_subnet dst (ip n)) as [b| |]; cbn [mbind outcome_bind]; [|done..]. cbv zeta. intros E.
  assert (Hlast : forall n1 nic1 m, (exists x y, n1 = set_tx n x y) -> (packet ← ipv4_new (ip n1) dst proto payload; send_frame n1 nic1 m ETHERTYPE_IPV4 (ipv4_serialize packet)) = Ret (r, n', nic') -> exists x y, n' = set_tx n x y).
  { intros n1 nic1 m (x & y & ->). destruct (ipv4_new _ _ _ _) as [q| |]; cbn [mbind outcome_bind]; [|done..]. intros (x' & y' & ->)%send_frame_tx. by eexists _, _. }
  assert (Hself : exists x y, n = set_tx n x y) by (exists (packets_tx n), (bytes_tx n); by destruct n).
  destruct (same_bytes dst _); [by eapply Hlast|]. destruct (arp_lookup _ _) as [m|]; [by eapply Hlast|].
  destruct (send_frame _ _ _ _ _) as [[[ok n1] nic1]| |] eqn:Es; cbn [mbind outcome_bind] in E; [|done..]. eapply Hlast; [by eapply send_frame_tx|exact E].
Qed.

(** ** Receiving *)

(** [poll] on a frame that some station serialised with [payload]. *)
Lemma poll_frame now n nic d s ty payload :
  nd_ready nic -> nd_next nic (frame_serialize (mkFrame d s ty payload)) -> length d = 6%nat -> length s = 6%nat -> in_u 16 ty ->
  exists nic1 x y pad, nd_ready nic1 /\ nd_queue nic1 = nd_queue nic /\
    poll now n nic = if ty =? ETHERTYPE_ARP then handle_arp now (set_rx n x y) nic1 (payload ++ pad)
                     else if ty =? ETHERTYPE_IPV4 then handle_ipv4 now (set_rx n x y) nic1 (payload ++ pad) else Ret (set_rx n x y, nic1).
Proof.
  intros Hr Hn Hd Hs Ht. destruct (nd_receive_law nic _ Hr Hn) as (nic1 & E & Hq & Hr1).
  destruct (frame_roundtrip_raw d s ty payload Hd Hs Ht) as (pad & Ef & _).
  eexists nic1, _, _, pad. split; [done|]. split; [done|]. unfold poll. rewrite E. cbn [mbind outcome_bind]. cbv zeta.
  rewrite Ef. cbn [mbind outcome_bind Packets.ethertype f_payload]. reflexivity.
Qed.

(** The handlers below the Ethernet layer on an echo request. *)
Lemma handle_echo now n nic src dst idn sq data icmp p pad :
  net_ok n -> nd_ready nic -> is_bytes src -> length src = 4%nat -> is_bytes dst -> length dst = 4%nat ->
  in_u 16 idn -> in_u 16 sq -> is_bytes data -> len data <= MTU - 28 -> (length (nd_queue nic) < 6)%nat ->
  build_echo_request idn sq data = Ret icmp -> ipv4_new src dst IPV4_PROTO_ICMP icmp = Ret p ->
  exists reply, build_echo_reply idn sq data = Ret reply /\ len reply <= MTU - 20 /\
    handle_ipv4 now n nic (ipv4_serialize p ++ pad) =
      (s ← send_ipv4 n nic src IPV4_PROTO_ICMP reply; let '(_, n1, nic1) := s in Ret (n1, nic1)).
Proof.
  intros Hn Hr Hsb Hs Hdb Hd Hi Hq Hb Hl Hroom Hreq Hip. unfold MTU in *.
  assert (Hok : forall ty, in_u 8 ty -> icmp_ok (mkIcmp (mkIcmpHeader ty 0 0 idn sq) data)).
  { intros ty Hty. unfold icmp_ok. cbn [icmp_header icmp_payload msg_type code identifier sequence_number]. repeat (split; [done|]). lia. }
  destruct (icmp_roundtrip_raw ICMP_TYPE_ECHO_REQUEST 0 idn sq data) as (c & bytes & Eb & Ep & _ & _ & Hlb); [by apply Hok|].
  unfold build_echo_request in Hreq. rewrite Eb in Hreq. injection Hreq as ->.
  destruct (icmp_roundtrip_raw ICMP_TYPE_ECHO_REPLY 0 idn sq data) as (c' & reply & Er & _ & _ & _ & Hlr); [by apply Hok|].
  exists reply. split; [exact Er|]. split; [lia|].
  destruct (ipv4_roundtrip_raw src dst IPV4_PROTO_ICMP icmp pad) as (p' & Enew & Eparse & Hproto & Hsrc & _ & Hpay).
  { unfold ip_args. repeat (split; [done|]). lia. }
  rewrite Hip in Enew. injection Enew as <-. unfold handle_ipv4. rewrite Eparse. cbn [mbind outcome_bind].
  rewrite Hproto, Hpay. change (IPV4_PROTO_ICMP =? IPV4_PROTO_ICMP) with true. cbn [andb]. unfold handle_icmp. rewrite Ep. cbn [mbind outcome_bind].
  cbn [icmp_header icmp_payload msg_type identifier sequence_number]. change (ICMP_TYPE_ECHO_REQUEST =? ICMP_TYPE_ECHO_REQUEST) with true. cbv iota.
  unfold build_echo_reply. rewrite Er, Hsrc. reflexivity.
Qed.

(** The same on an echo reply. *)
Lemma handle_reply now n nic src dst idn sq data icmp p pad :
  is_bytes src -> length src = 4%nat -> is_bytes dst -> length dst = 4%nat -> in_u 16 idn -> in_u 16 sq -> is_bytes data -> len data <= MTU - 28 ->
  build_echo_reply idn sq data = Ret icmp -> ipv4_new src dst IPV4_PROTO_ICMP icmp = Ret p ->
  handle_ipv4 now n nic (ipv4_serialize p ++ pad) =
    Ret (set_ping n (pings_sent n) (u64_add (pings_received n) 1) (last_ping_seq n) (last_ping_sent_tick n) (Some (u64_mul (saturating_sub now (last_ping_sent_tick n)) 10)), nic).
Proof.
  intros Hsb Hs Hdb Hd Hi Hq Hb Hl Hrep Hip. unfold MTU in *.
  destruct (icmp_roundtrip_raw ICMP_TYPE_ECHO_REPLY 0 idn sq data) as (c & bytes & Eb & Ep & _ & _ & Hlb).
  { unfold icmp_ok. cbn [icmp_header icmp_payload msg_type code identifier sequence_number]. repeat (split; [done|]). lia. }
  unfold build_echo_reply in Hrep. rewrite Eb in Hrep. injection Hrep as ->.
  destruct (ipv4_roundtrip_raw src dst IPV4_PROTO_ICMP icmp pad) as (p' & Enew & Eparse & Hproto & Hsrc & _ & Hpay).
  { unfold ip_args. repeat (split; [done|]). lia. }
  rewrite Hip in Enew. injection Enew as <-. unfold handle_ipv4. rewrite Eparse. cbn [mbind outcome_bind].
  rewrite Hproto, Hpay. change (IPV4_PROTO_ICMP =? IPV4_PROTO_ICMP) with true. cbn [andb]. unfold handle_icmp. rewrite Ep. reflexivity.
Qed.

(** ** Properties *)

(** C23: the stack answers pings end to end: when the card holds an echo request
    that some station serialised (any identifier, sequence number and payload that
    fit a frame), [poll] returns without panic and the last frame it queues on the
    card parses, layer by layer, as an echo reply from this host to the sender with
    the same identifier, sequence number and payload and with checksums that
    verify; at most an ARP request is queued before it. *)
Theorem echo_answered now n nic d s src dst idn sq data icmp p :
  net_ok n -> nd_ready nic -> (length (nd_queue nic) < 6)%nat ->
  length d = 6%nat -> length s = 6%nat -> is_bytes src -> length src = 4%nat -> is_bytes dst -> length dst = 4%nat ->
  in_u 16 idn -> in_u 16 sq -> is_bytes data -> len data <= MTU - 28 ->
  build_echo_request idn sq data = Ret icmp -> ipv4_new src dst IPV4_PROTO_ICMP icmp = Ret p ->
  nd_next nic (frame_serialize (mkFrame d s ETHERTYPE_IPV4 (ipv4_serialize p))) ->
  exists n' nic' pre reply m pl q c, poll now n nic = Ret (n', nic') /\
    nd_queue nic' = nd_queue nic ++ pre ++ [reply] /\ (length pre <= 1)%nat /\
    frame_parse reply = Ret (Some (mkFrame m (mac n) ETHERTYPE_IPV4 pl)) /\
    ipv4_parse pl = Ret (Some q) /\ source_ip (ip_header q) = ip n /\ dest_ip (ip_header q) = src /\
    protocol (ip_header q) = IPV4_PROTO_ICMP /\
    icmp_parse (ip_payload q) = Ret (Some (mkIcmp (mkIcmpHeader ICMP_TYPE_ECHO_REPLY 0 c idn sq) data)) /\
    calculate_checksum (ip_payload q) = Ret 0.
Proof.
  intros Hn Hr Hroom Hd Hs Hsb Hsl Hdb Hdl Hi Hq Hb Hl Hreq Hip Hnext.
  destruct (poll_frame now n nic d s ETHERTYPE_IPV4 (ipv4_serialize p) Hr Hnext Hd Hs) as (nic1 & x & y & pad & Hr1 & Hq1 & Ep); [done|].
  change (ETHERTYPE_IPV4 =? ETHERTYPE_ARP) with false in Ep. change (ETHERTYPE_IPV4 =? ETHERTYPE_IPV4) with true in Ep. cbv iota in Ep.
  destruct (handle_echo now (set_rx n x y) nic1 src dst idn sq data icmp p pad) as (reply & Er & Hlr & Eh); try done; [by rewrite Hq1|].
  destruct (send_ipv4_ok (set_rx n x y) nic1 src IPV4_PROTO_ICMP reply) as (n' & nic' & pre & m & q & Es & Eq & Hm & Hqueue & Hpre & _); try done;
    [by rewrite Hq1|].
  destruct (icmp_roundtrip_raw ICMP_TYPE_ECHO_REPLY 0 idn sq data) as (c & bytes & Eb & Eparse & Hck & _).
  { unfold icmp_ok, MTU in *. cbn [icmp_header icmp_payload msg_type code identifier sequence_number]. repeat (split; [done|]). lia. }
  unfold build_echo_reply in Er. rewrite Eb in Er. injection Er as ->.
  destruct (frame_roundtrip_raw m (mac n) ETHERTYPE_IPV4 (ipv4_serialize q)) as (pad' & Ef & _); [done|apply Hn|done|].
  destruct (ipv4_roundtrip_raw (ip n) src IPV4_PROTO_ICMP reply pad') as (q' & Eq' & Eparse' & Hproto & Hsrc & Hdst & Hpay).
  { destruct Hn as (_ & ? & ? & _). unfold ip_args, MTU in *. repeat (split; [done|]). lia. }
  cbn [ip set_rx mac] in Eq, Hqueue. rewrite Eq' in Eq. injection Eq as ->.
  exists n', nic', pre, (frame_serialize (mkFrame m (mac n) ETHERTYPE_IPV4 (ipv4_serialize q))), m, (ipv4_serialize q ++ pad'), q, c.
  rewrite Ep, Eh, Es. split; [done|]. split; [by rewrite Hqueue, Hq1|]. split; [destruct Hpre as [->|[a ->]]; cbn; lia|].
  rewrite Hpay. done.
Qed.

(** The stack answers ARP: when the card holds a request for this host's
    address, [poll] records the sender's binding, leaves the other bindings as
    they were and queues exactly one frame, to the sender, that parses as a reply
    with this host's hardware address. *)
Theorem arp_answered now n nic smac sip :
  net_ok n -> nd_ready nic -> (length (nd_queue nic) < 7)%nat -> length smac = 6%nat -> length sip = 4%nat ->
  nd_next nic (frame_serialize (mkFrame BROADCAST_MAC smac ETHERTYPE_ARP (build_arp_request smac sip (ip n)))) ->
  exists n' nic' reply pl, poll now n nic = Ret (n', nic') /\ nd_queue nic' = nd_queue nic ++ [reply] /\
    frame_parse reply = Ret (Some (mkFrame smac (mac n) ETHERTYPE_ARP pl)) /\
    arp_parse pl = Ret (Some (mkArp ARP_HTYPE_ETHERNET ARP_PTYPE_IPV4 ARP_HLEN_ETHERNET ARP_PLEN_IPV4 ARP_OP_REPLY (mac n) (ip n) smac sip)) /\
    (forall a, arp_lookup (arp_table n') a = if decide (a = sip) then Some smac else arp_lookup (arp_table n) a).
Proof.
  intros Hn Hr Hroom Hsm Hsi Hnext. pose proof Hn as (Hm & Hi & _).
  destruct (poll_frame now n nic BROADCAST_MAC smac ETHERTYPE_ARP _ Hr Hnext eq_refl Hsm) as (nic1 & x & y & pad & Hr1 & Hq1 & Ep); [done|].
  change (ETHERTYPE_ARP =? ETHERTYPE_ARP) with true in Ep. cbv iota in Ep. rewrite Ep. unfold handle_arp, build_arp_request.
  rewrite arp_roundtrip_raw by (unfold arp_ok; cbn [htype ptype oper sender_mac sender_ip target_mac target_ip]; by rewrite length_replicate).
  cbn [mbind outcome_bind oper sender_mac sender_ip target_ip]. change (ARP_OP_REQUEST =? ARP_OP_REQUEST) with true.
  unfold same_bytes. rewrite bool_decide_true by done. cbn [andb]. cbv zeta. set (n1 := set_arp _ _).
  assert (Hlen : len (build_arp_reply (mac n) (ip n) smac sip) <= MTU).
  { unfold len, build_arp_reply, arp_serialize. cbn [sender_mac sender_ip target_mac target_ip]. rewrite !length_app, Hm, Hi, Hsm, Hsi.
    unfold MTU. cbn [length to_be]. lia. }
  destruct (send_frame_ok n1 nic1 smac ETHERTYPE_ARP (build_arp_reply (mac n1) (ip n1) smac sip)) as (x1 & y1 & nic2 & Es & Hq2 & _); try done;
    [by rewrite Hq1|].
  destruct (frame_roundtrip_raw smac (mac n) ETHERTYPE_ARP (build_arp_reply (mac n) (ip n) smac sip)) as (pad' & Ef & _); try done.
  eexists _, nic2, _, _. rewrite Es. split; [reflexivity|]. rewrite Hq2, Hq1. split; [reflexivity|]. split; [exact Ef|]. split.
  - unfold build_arp_reply. by rewrite arp_roundtrip_raw.
  - intros a. cbn [set_tx n1 set_arp set_rx arp_table]. apply arp_lookup_insert.
Qed.

(** The frame of an IPv4 header that announces fewer bytes than it has. *)
Definition short_packet : list Z := [0x45; 0; 0; 19; 0; 0; 0; 0; 64; 1; 0x62; 0xda; 10; 0; 2; 2; 10; 0; 2; 15].

(** One frame from any station stops the kernel: an IPv4 header of twenty
    bytes with a correct checksum and a total length of nineteen makes [poll]
    panic on the slice of its payload, whatever the state of the stack. *)
Theorem short_total_length_panics now n nic d s :
  nd_ready nic -> length d = 6%nat -> length s = 6%nat ->
  nd_next nic (frame_serialize (mkFrame d s ETHERTYPE_IPV4 short_packet)) -> poll now n nic = Panic.
Proof.
  intros Hr Hd Hs Hnext. destruct (nd_receive_law nic _ Hr Hnext) as (nic1 & E & _). unfold poll. rewrite E. cbn [mbind outcome_bind].
  unfold frame_serialize, pad60. cbn [dest_mac src_mac Packets.ethertype f_payload]. rewrite !length_app, Hd, Hs, <- !app_assoc.
  rewrite frame_parse_bytes by done. cbn [mbind outcome_bind Packets.ethertype f_payload].
  change (ETHERTYPE_IPV4 =? ETHERTYPE_ARP) with false. change (ETHERTYPE_IPV4 =? ETHERTYPE_IPV4) with true. cbv iota.
  unfold handle_ipv4. by change (ipv4_parse _) with (@Panic (option Ipv4Packet)).
Qed.

End Stack.

(** *** Witnesses: an e1000 whose first descriptor holds a frame *)
Definition holding (frame : list Z) : card Pci.machine :=
  mkCard (E1000.mkE1000 0 0 0 0 0 E1000.DEFAULT_MAC true
    (Some (E1000.mkRx 0 (len frame) 0 3 0 0 :: replicate 7 E1000.rx_default))
    ((frame ++ replicate (E1000.PACKET_BUFFER_SIZE - length frame) 0) :: replicate 7 (replicate E1000.PACKET_BUFFER_SIZE 0)) 0
    (E1000.tx_descs E1000.fresh_nic) (E1000.tx_buffers E1000.fresh_nic) 0 0 0 0 0) Pci.one_card 0.

Lemma holding_ready frame : nd_ready (holding frame).
Proof.
  destruct (E1000.with_rings_ok E1000.new E1000.dma eq_refl eq_refl) as (Ht & _). cbn [nd_ready e1000_device]. split; [|split].
  - eapply tx_ok_ext; [reflexivity..|exact Ht].
  - split; [done|]. split; [cbn; unfold E1000.RX_DESC_COUNT; lia|]. split; [done|]. by eexists.
  - cbn. unfold E1000.TX_DESC_COUNT. lia.
Qed.

Lemma holding_next frame : (length frame <= E1000.PACKET_BUFFER_SIZE)%nat -> nd_next (holding frame) frame.
Proof.
  intros Hl. cbn [nd_next e1000_device]. eexists _, _, _. split; [reflexivity|]. split; [reflexivity|]. split; [reflexivity|].
  split; [done|]. split; [done|]. split; [rewrite length_app; lia|apply take_app_length].
Qed.

Definition peer_mac : list Z := [2; 0; 0; 0; 0; 7].
Definition ping_bytes : list Z := match build_echo_request 1 1 [7; 7] with Ret b => b | _ => [] end.
Definition ping_packet : Ipv4Packet :=
  match ipv4_new [10; 0; 2; 9] [10; 0; 2; 15] 1 ping_bytes with Ret p => p | _ => mkIp (mkIpHeader 0 0 0 0 0 0 0 0 [] []) [] end.
Definition ping_frame : list Z := frame_serialize (mkFrame E1000.DEFAULT_MAC peer_mac ETHERTYPE_IPV4 (ipv4_serialize ping_packet)).

Lemma new_ok : net_ok new.
Proof. unfold net_ok, is_bytes. by_compute. Qed.

Lemma echo_answered_witness :
  exists n' nic' pre reply m pl q c, poll 0 new (holding ping_frame) = Ret (n', nic') /\
    nd_queue nic' = nd_queue (holding ping_frame) ++ pre ++ [reply] /\ (length pre <= 1)%nat /\
    frame_parse reply = Ret (Some (mkFrame m (mac new) ETHERTYPE_IPV4 pl)) /\
    ipv4_parse pl = Ret (Some q) /\ source_ip (ip_header q) = ip new /\ dest_ip (ip_header q) = [10; 0; 2; 9] /\
    protocol (ip_header q) = IPV4_PROTO_ICMP /\
    icmp_parse (ip_payload q) = Ret (Some (mkIcmp (mkIcmpHeader ICMP_TYPE_ECHO_REPLY 0 c 1 1) [7; 7])) /\
    calculate_checksum (ip_payload q) = Ret 0.
Proof.
  apply (echo_answered 0 new (holding ping_frame) E1000.DEFAULT_MAC peer_mac [10; 0; 2; 9] [10; 0; 2; 15] 1 1 [7; 7] ping_bytes ping_packet);
    [apply new_ok|apply holding_ready|apply Nat.ltb_lt; vm_compute; reflexivity|reflexivity|reflexivity
    |unfold is_bytes; by_compute|reflexivity|unfold is_bytes; by_compute|reflexivity|split; lia|split; lia|unfold is_bytes; by_compute
    |vm_compute; discriminate|vm_compute; reflexivity|vm_compute; reflexivity|apply holding_next, Nat.leb_le; vm_compute; reflexivity].
Defined.

Definition who_has : list Z := frame_serialize (mkFrame BROADCAST_MAC peer_mac ETHERTYPE_ARP (build_arp_request peer_mac [10; 0; 2; 9] [10; 0; 2; 15])).

Lemma arp_answered_witness :
  exists n' nic' reply pl, poll 5 new (holding who_has) = Ret (n', nic') /\ nd_queue nic' = nd_queue (holding who_has) ++ [reply] /\
    frame_parse reply = Ret (Some (mkFrame peer_mac (mac new) ETHERTYPE_ARP pl)) /\
    arp_parse pl = Ret (Some (mkArp ARP_HTYPE_ETHERNET ARP_PTYPE_IPV4 ARP_HLEN_ETHERNET ARP_PLEN_IPV4 ARP_OP_REPLY (mac new) (ip new) peer_mac [10; 0; 2; 9])) /\
    (forall a, arp_lookup (arp_table n') a = if decide (a = [10; 0; 2; 9]) then Some peer_mac else arp_lookup (arp_table new) a).
Proof.
  apply arp_answered; [apply new_ok|apply holding_ready|apply Nat.ltb_lt; vm_compute; reflexivity|reflexivity|reflexivity
    |apply holding_next, Nat.leb_le; vm_compute; reflexivity].
Defined.

Lemma short_total_length_panics_witness :
  poll 0 new (holding (frame_serialize (mkFrame BROADCAST_MAC peer_mac ETHERTYPE_IPV4 short_packet))) = Panic.
Proof.
  apply (short_total_length_panics 0 new _ BROADCAST_MAC peer_mac); [apply holding_ready|reflexivity|reflexivity
    |apply holding_next, Nat.leb_le; vm_compute; reflexivity].
Defined.

End Network.
