(* ===== verification/NetCommands.v ===== *)
(** * The network commands of the shell (src/src/shell/mod.rs: [Shell::execute])

    [ifconfig], [ping], [arp], [udpsend] and [netstat] over the network manager and its
    card.  A command answers the lines it prints and the new state.  [time k] is the
    [k]-th reading of the tick counter. *)

From stdpp Require Import prelude numbers list strings.
From Stdlib Require Import ZifyBool.
From S2P Require Import Prelude Bytes Text Io Vfs Errors Ata Fat32 FatFs Shell Commands Pci E1000 Packets Network.
Import Bytes Text.

Module NetCommands.
Import Commands Packets Network.

(** [{}.{}.{}.{}] and [{:02x}:...:{:02x}] *)
Definition octet (l : list Z) (i : nat) : list Z := decimal (nth i l 0).
Definition ip_text (l : list Z) : list Z := octet l 0 ++ [46] ++ octet l 1 ++ [46] ++ octet l 2 ++ [46] ++ octet l 3.
Definition mac_byte (l : list Z) (i : nat) : list Z := hex2 (nth i l 0).
Definition mac_text (l : list Z) : list Z := mac_byte l 0 ++ [58] ++ mac_byte l 1 ++ [58] ++ mac_byte l 2 ++ [58] ++ mac_byte l 3 ++ [58] ++ mac_byte l 4 ++ [58] ++ mac_byte l 5.

Section Net.
Context {D : Type} `{NetDevice D}.
Notation answer := (outcome (list (list Z) * NetworkManager * D)).

Definition cmd_ifconfig (n : NetworkManager) : list (list Z) :=
  [txt "--- AURAOS NETWORK INTERFACE (eth0) ---"; txt "  Status       : " ++ txt (if is_enabled n then "UP (e1000 Active)" else "DOWN (No NIC)");
   txt "  MAC Address  : " ++ mac_text (mac n); txt "  IPv4 Address : " ++ ip_text (ip n); txt "  Subnet Mask  : " ++ ip_text (subnet n);
   txt "  Gateway      : " ++ ip_text (gateway n); txt "  DNS Server   : " ++ ip_text (dns n);
   txt "  TX Packets   : " ++ decimal (packets_tx n) ++ txt " (" ++ decimal (bytes_tx n) ++ txt " bytes)";
   txt "  RX Packets   : " ++ decimal (packets_rx n) ++ txt " (" ++ decimal (bytes_rx n) ++ txt " bytes)"; txt "---------------------------------------"].

(** The loop that waits for the reply; [k] counts the readings of the clock. *)
Fixpoint await_reply (guard : nat) (time : nat -> Z) (k : nat) (start : Z) (target_ip : list Z) (n : NetworkManager) (nic : D) : outcome (option (list Z) * NetworkManager * D) :=
  match guard with
  | O => Ret (None, n, nic)
  | S guard' =>
      if 200 <=? saturating_sub (time k) start then Ret (None, n, nic) else
      '(n, nic) ← poll (time (S k)) n nic;
      match last_ping_rtt_ms n with
      | Some rtt => Ret (Some (txt "Reply from " ++ ip_text target_ip ++ txt ": time=" ++ decimal rtt ++ txt " ms (seq=" ++ decimal (last_ping_seq n) ++ txt ")"), n, nic)
      | None => await_reply guard' time (S (S k)) start target_ip n nic
      end
  end.
Definition cmd_ping (time : nat -> Z) (args : list (list Z)) (n : NetworkManager) (nic : D) : answer :=
  let ip_str := default (txt "10.0.2.2") (args !! 0%nat) in
  match Shell.parse_ipv4 ip_str with
  | Some target_ip =>
      let first := txt "PING " ++ ip_text target_ip ++ txt " — sending ICMP Echo Request..." in
      if negb (is_enabled n) then Ret ([first; txt "ping: network interface is DOWN. No e1000 NIC detected."], n, nic) else
      '(sent, n, nic) ← send_ping (time 0%nat) n nic target_ip;
      if negb sent then Ret ([first], n, nic) else
      '(reply, n, nic) ← await_reply (Z.to_nat 100000) time 2 (time 1%nat) target_ip n nic;
      Ret ([first; default (txt "Request timed out (no reply in 2000 ms).") reply], n, nic)
  | None => Ret ([txt "ping: invalid IP address '" ++ ip_str ++ txt "'. Usage: ping 10.0.2.2"], n, nic)
  end.

Definition arp_line (now : Z) (e : ArpEntry) : list Z :=
  txt "  " ++ octet (e_ip e) 0 ++ [46] ++ octet (e_ip e) 1 ++ [46] ++ octet (e_ip e) 2 ++ [46] ++ pad_right 8 (octet (e_ip e) 3) ++ txt "  " ++ mac_text (e_mac e) ++ txt "      " ++
  decimal (saturating_sub now (timestamp_tick e)).
Definition cmd_arp (now : Z) (n : NetworkManager) : list (list Z) :=
  [txt "--- AURAOS ARP CACHE TABLE ---"] ++
  (if bool_decide (arp_table n = []) then [txt "  (empty — no resolved entries)"]
   else [txt "  IP ADDRESS         MAC ADDRESS           AGE (ticks)"; txt "  ---------------    -----------------     -----------"] ++ (arp_line now <$> arp_table n)) ++
  [txt "  Total entries: " ++ decimal (Z.of_nat (length (arp_table n))); txt "------------------------------"].

Definition cmd_udpsend (args : list (list Z)) (n : NetworkManager) (nic : D) : answer :=
  let ip_str := default [] (args !! 0%nat) in
  let port_str := default [] (args !! 1%nat) in
  let text := join_words (drop 2 args) in
  if (bool_decide (ip_str = []) || bool_decide (port_str = []))%bool then Ret ([txt "Usage: udpsend <ip> <port> <text>"; txt "  Example: udpsend 10.0.2.2 9999 Hello from AuraOS!"], n, nic) else
  match Shell.parse_ipv4 ip_str, Shell.parse_u64 port_str with
  | Some dest_ip, Some dest_port =>
      let msg := if bool_decide (text = []) then txt "AuraOS UDP Test" else text in
      if negb (is_enabled n) then Ret ([txt "udpsend: network interface is DOWN."], n, nic) else
      '(ok, n, nic) ← send_udp n nic dest_ip 12345 (wrap 16 dest_port) msg;
      Ret ([if (ok : bool) then txt "UDP: Sent " ++ decimal (Z.of_nat (length msg)) ++ txt " bytes to " ++ ip_text dest_ip ++ txt ":" ++ decimal dest_port
            else txt "udpsend: failed to transmit UDP datagram."], n, nic)
  | _, _ => Ret ([txt "udpsend: invalid IP or port. Usage: udpsend <ip> <port> <text>"], n, nic)
  end.

Definition cmd_netstat (n : NetworkManager) : list (list Z) :=
  [txt "=== AURAOS NETWORK STATISTICS ==="; txt "  Interface    : eth0 (Intel e1000 Gigabit)"; txt "  Status       : " ++ txt (if is_enabled n then "UP" else "DOWN");
   txt "  TX Packets   : " ++ decimal (packets_tx n); txt "  TX Bytes     : " ++ decimal (bytes_tx n) ++ txt " (" ++ decimal (bytes_tx n / 1024) ++ txt " KiB)";
   txt "  RX Packets   : " ++ decimal (packets_rx n); txt "  RX Bytes     : " ++ decimal (bytes_rx n) ++ txt " (" ++ decimal (bytes_rx n / 1024) ++ txt " KiB)";
   txt "  Pings Sent   : " ++ decimal (pings_sent n); txt "  Pings Received: " ++ decimal (pings_received n)] ++
  match last_ping_rtt_ms n with Some rtt => [txt "  Last RTT     : " ++ decimal rtt ++ txt " ms"] | None => [] end ++
  [txt "  ARP Entries  : " ++ decimal (Z.of_nat (length (arp_table n))); txt "================================="].

(** The arms above; the other commands answer [None]. *)
Definition execute_net (time : nat -> Z) (cmd : list Z) (n : NetworkManager) (nic : D) : option answer :=
  let words := split_whitespace cmd in
  let command := default [] (words !! 0%nat) in
  let args := drop 1 words in
  if is_word command "ifconfig" then Some (Ret (cmd_ifconfig n, n, nic)) else
  if is_word command "ping" then Some (cmd_ping time args n nic) else
  if is_word command "arp" then Some (Ret (cmd_arp (time 0%nat) n, n, nic)) else
  if is_word command "udpsend" then Some (cmd_udpsend args n nic) else
  if is_word command "netstat" then Some (Ret (cmd_netstat n, n, nic)) else None.

(** ** Whose reply *)
Lemma digit_graphic l : Forall (fun b => is_digit b = true) l -> Forall graphic l.
Proof. intros Hl. eapply Forall_impl; [exact Hl|]. intros b. unfold is_digit, graphic, between. lia. Qed.
Lemma ip_text_word a b c d : in_u 8 a -> in_u 8 b -> in_u 8 c -> in_u 8 d -> word (ip_text [a; b; c; d]).
Proof.
  intros Ha Hb Hc Hd. assert (Hw : forall x, in_u 8 x -> decimal x <> [] /\ Forall graphic (decimal x)).
  { intros x [H1 H2]. destruct (decimal_spec x) as (_ & H3 & H4); [split; lia|]. split; [done|by apply digit_graphic]. }
  destruct (Hw a Ha) as [Hne Ga]. unfold ip_text, octet. cbn [nth]. split; [destruct (decimal a); done|].
  repeat (apply Forall_app; split; [by apply Hw|]; apply Forall_app; split; [by repeat constructor|]). by apply Hw.
Qed.
Lemma exec_ping time w n nic : word w -> execute_net time (join_words [txt "ping"; w]) n nic = Some (cmd_ping time [w] n nic).
Proof. intros Hw. unfold execute_net. by rewrite split_words by (by repeat (apply Forall_cons_2; [apply Hw || word_by_compute|])). Qed.

(** The first poll finds the reply. *)
Lemma await_first guard time k start target n nic dmac smac src dst idn sq data icmp p :
  nd_ready nic -> saturating_sub (time k) start < 200 ->
  length dmac = 6%nat -> length smac = 6%nat -> is_bytes src -> length src = 4%nat -> is_bytes dst -> length dst = 4%nat -> in_u 16 idn -> in_u 16 sq -> is_bytes data -> len data <= MTU - 28 ->
  build_echo_reply idn sq data = Ret icmp -> ipv4_new src dst IPV4_PROTO_ICMP icmp = Ret p ->
  nd_next nic (frame_serialize (mkFrame dmac smac ETHERTYPE_IPV4 (ipv4_serialize p))) ->
  exists n' nic', await_reply (S guard) time k start target n nic =
    Ret (Some (txt "Reply from " ++ ip_text target ++ txt ": time=" ++ decimal (u64_mul (saturating_sub (time (S k)) (last_ping_sent_tick n)) 10) ++ txt " ms (seq=" ++ decimal (last_ping_seq n) ++ txt ")"), n', nic').
Proof.
  intros Hr Ht Hd Hs Hsb Hsl Hdb Hdl Hi Hq Hb Hl Hrep Hip Hnext. cbn [await_reply]. rewrite (proj2 (Z.leb_gt _ _)) by lia.
  destruct (poll_frame (time (S k)) n nic dmac smac ETHERTYPE_IPV4 (ipv4_serialize p) Hr Hnext Hd Hs) as (nic1 & x & y & pad & _ & _ & ->); [done|].
  change (ETHERTYPE_IPV4 =? ETHERTYPE_ARP) with false. change (ETHERTYPE_IPV4 =? ETHERTYPE_IPV4) with true. cbv iota.
  rewrite (handle_reply (time (S k)) (set_rx n x y) nic1 src dst idn sq data icmp p pad) by done. cbn [mbind outcome_bind]. by eexists _, nic1.
Qed.

(** The request goes out; what waits on the card stays there. *)
Lemma send_ping_ok now n nic target f : net_ok n -> nd_ready nic -> (length (nd_queue nic) < 6)%nat -> is_bytes target -> length target = 4%nat -> nd_next nic f ->
  exists n' nic', send_ping now n nic target = Ret (true, n', nic') /\ nd_ready nic' /\ nd_next nic' f /\ last_ping_sent_tick n' = now /\ last_ping_seq n' = wrap 16 (last_ping_seq n + 1).
Proof.
  intros Hn Hr Hq Htb Ht Hf. unfold send_ping. cbv zeta.
  destruct (icmp_roundtrip_raw ICMP_TYPE_ECHO_REQUEST 0 0x1337 (wrap 16 (last_ping_seq n + 1)) PING_PAYLOAD) as (c & bytes & Eb & _ & _ & _ & Hl).
  { unfold icmp_ok, is_bytes. cbn [icmp_header icmp_payload msg_type code identifier sequence_number]. do 3 (split; [done|]). split; [apply (in_u_mod 16); lia|]. split; [by_compute|done]. }
  unfold build_echo_request. rewrite Eb. cbn [mbind outcome_bind]. set (n0 := set_ping _ _ _ _ _ _).
  destruct (send_ipv4_ok n0 nic target IPV4_PROTO_ICMP bytes) as (n' & nic' & pre & m & p & E & _ & _ & _ & _ & Hr' & _); [done|done|done|done|done|rewrite Hl; by vm_compute|done|].
  exists n', nic'. split; [exact E|]. split; [done|]. split; [by eapply send_ipv4_next|]. destruct (send_ipv4_tx _ _ _ _ _ _ _ _ E) as (x & y & ->). done.
Qed.

(** C40: [ping] takes any echo reply for the answer of its target.  When an echo reply is
    waiting on the card, whoever sent it, whatever its identifier and sequence number, and
    even when it was there before the request, [ping <a.b.c.d>] reports it as the reply
    of that address. *)
Theorem ping_believes_any_reply time n nic a b c d dmac smac src dst idn sq data icmp p (target := [a; b; c; d]) :
  in_u 8 a -> in_u 8 b -> in_u 8 c -> in_u 8 d -> is_enabled n = true -> net_ok n -> nd_ready nic -> (length (nd_queue nic) < 6)%nat -> saturating_sub (time 2%nat) (time 1%nat) < 200 ->
  length dmac = 6%nat -> length smac = 6%nat -> is_bytes src -> length src = 4%nat -> is_bytes dst -> length dst = 4%nat -> in_u 16 idn -> in_u 16 sq -> is_bytes data -> len data <= MTU - 28 ->
  build_echo_reply idn sq data = Ret icmp -> ipv4_new src dst IPV4_PROTO_ICMP icmp = Ret p ->
  nd_next nic (frame_serialize (mkFrame dmac smac ETHERTYPE_IPV4 (ipv4_serialize p))) ->
  exists n' nic', execute_net time (join_words [txt "ping"; ip_text target]) n nic = Some (Ret (
    [txt "PING " ++ ip_text target ++ txt " — sending ICMP Echo Request...";
     txt "Reply from " ++ ip_text target ++ txt ": time=" ++ decimal (u64_mul (saturating_sub (time 3%nat) (time 0%nat)) 10) ++ txt " ms (seq=" ++ decimal (wrap 16 (last_ping_seq n + 1)) ++ txt ")"], n', nic')).
Proof.
  intros Ha Hb Hc Hd Hen Hn Hr Hroom Ht Hdm Hsm Hsb Hsl Hdb Hdl Hi Hq Hbt Hl Hrep Hip Hnext. rewrite exec_ping by (by apply ip_text_word).
  assert (Hp : Shell.parse_ipv4 (ip_text target) = Some target) by (exact (Shell.parse_ipv4_decimal a b c d Ha Hb Hc Hd)).
  assert (Htb : is_bytes target) by (unfold is_bytes, target; by rewrite !Forall_cons, Forall_nil).
  unfold cmd_ping. change (default (txt "10.0.2.2") ([ip_text target] !! 0%nat)) with (ip_text target). rewrite Hp, Hen. cbn [negb].
  destruct (send_ping_ok (time 0%nat) n nic target _ Hn Hr Hroom Htb eq_refl Hnext) as (n1 & nic1 & E & Hr1 & Hf1 & Htick & Hseq).
  rewrite E. cbn [mbind outcome_bind negb]. change (Z.to_nat 100000) with (S (Z.to_nat 99999)).
  destruct (await_first (Z.to_nat 99999) time 2 (time 1%nat) target n1 nic1 dmac smac src dst idn sq data icmp p) as (n2 & nic2 & ->); try done.
  cbn [mbind outcome_bind default from_option id]. rewrite Htick, Hseq. by eexists n2, nic2.
Qed.
End Net.

(** ** Witness: a reply of another host, with another identifier, for an address that has
    not answered *)
Definition stray : list Z := match build_echo_reply 7 9 [1; 2] with Ret b => b | _ => [] end.
Definition stray_packet : Ipv4Packet := match ipv4_new [10; 0; 2; 9] [10; 0; 2; 15] 1 stray with Ret p => p | _ => mkIp (mkIpHeader 0 0 0 0 0 0 0 0 [] []) [] end.
Definition stray_frame : list Z := frame_serialize (mkFrame E1000.DEFAULT_MAC peer_mac ETHERTYPE_IPV4 (ipv4_serialize stray_packet)).
Definition up : NetworkManager := (init 0 true (holding stray_frame) new).2.
Lemma ping_believes_witness : exists n' nic', execute_net (fun k => Z.of_nat k) (txt "ping 8.8.8.8") up (holding stray_frame) =
  Some (Ret ([txt "PING 8.8.8.8 — sending ICMP Echo Request..."; txt "Reply from 8.8.8.8: time=30 ms (seq=1)"], n', nic')).
Proof.
  apply (ping_believes_any_reply (fun k => Z.of_nat k) up (holding stray_frame) 8 8 8 8 E1000.DEFAULT_MAC peer_mac [10; 0; 2; 9] [10; 0; 2; 15] 7 9 [1; 2] stray stray_packet);
    [done|done|done|done|reflexivity|unfold net_ok, is_bytes; by_compute|apply holding_ready|apply Nat.ltb_lt; vm_compute; reflexivity|reflexivity|reflexivity|reflexivity
    |unfold is_bytes; by_compute|reflexivity|unfold is_bytes; by_compute|reflexivity|done|done|unfold is_bytes; by_compute|done|vm_compute; reflexivity|vm_compute; reflexivity
    |apply holding_next, Nat.leb_le; vm_compute; reflexivity].
Defined.
End NetCommands.
