(* ===== verification/Reports.v ===== *)
(** * The remaining commands of the shell (src/src/shell/mod.rs: [Shell::execute])

    The reports on the machine and its subsystems, the commands that act on the
    consoles, the demonstration of a user process, the desktop and the power commands,
    over the state of the system calls and the devices. *)

From stdpp Require Import prelude numbers list strings.
From Stdlib Require Import ZifyBool.
From S2P Require Import Prelude Bytes Text Pmm Allocator Paging UserSpace Io Serial Vga Keyboard Mouse Clock Acpi Apic Descriptors SmpBoot SyscallEntry Context Task Vfs Syscall Handlers Power Shell Commands Proc TaskCommands Sleep Pci Canvas Bga Gui.
Import Bytes Text.

Module Reports.
Import Commands Syscall.
Notation hex := TaskCommands.hex.

(** [{:02x}] and [{:04x}] without a prefix, [{:04}] and [{:02}] in decimal, [{:>2}]. *)
Definition hex4 (n : Z) : list Z := hex2 (n / 256) ++ hex2 (n mod 256).
Definition zeros (w : nat) (n : Z) : list Z := let d := decimal n in replicate (w - length d) 48 ++ d.
Definition date_time (t : Cmos.DateTime) : list Z :=
  zeros 4 (Cmos.year t) ++ txt "-" ++ zeros 2 (Cmos.month t) ++ txt "-" ++ zeros 2 (Cmos.day t) ++ txt " " ++
  zeros 2 (Cmos.hour t) ++ txt ":" ++ zeros 2 (Cmos.minute t) ++ txt ":" ++ zeros 2 (Cmos.second t) ++ txt " UTC".

(** ** Texts *)
Definition help_text : list (list Z) :=
  [txt "Available commands in AuraOS v0.1.0:";
   txt "  help        - Display this help message";
   txt "  clear       - Clear the VGA screen";
   txt "  info        - Display system and CPU status";
   txt "  sysinfo     - Display PIT, TSS, and syscall subsystem metrics";
   txt "  cpu         - Display detailed CPUID processor features";
   txt "  pci / lspci - Enumerate and inspect PCI hardware devices";
   txt "  tasks / ps  - Display kernel tasks, states, and stack pointers";
   txt "  ipc [cmd]   - Inter-Process Communication (status, send, recv)";
   txt "  userdemo    - Spawn and benchmark Ring 3 user process";
   txt "  exec <path> - Execute a 64-bit ELF binary in Ring 3 userspace";
   txt "  elfinfo <p> - Inspect 64-bit ELF executable header & segments";
   txt "  sleep <ms>  - Put current task to sleep for N milliseconds";
   txt "  spawn <name>- Spawn a background worker task";
   txt "  kill <id>   - Terminate a task by its numeric ID";
   txt "  yield       - Cooperatively yield CPU slice to background worker";
   txt "  time / date - Display hardware RTC calendar date & time";
   txt "  mem         - Display physical/virtual memory & heap usage";
   txt "  serial <msg>- Send a message to the COM1 serial port";
   txt "  ticks       - Display system timer ticks (PIT IRQ0)";
   txt "  manifesto   - AuraOS 10-year roadmap & architecture vision";
   txt "  ls [path]   - List directory contents (files & folders)";
   txt "  cd <path>   - Change current working directory";
   txt "  pwd         - Print current working directory";
   txt "  cat <file>  - Display contents of a text file";
   txt "  touch <file>- Create a new empty file in RAMFS";
   txt "  mkdir <dir> - Create a new directory";
   txt "  write <f> <t> Write text content into a file";
   txt "  rm <name>   - Remove a file or directory entry";
   txt "  readsec <lba> Read 512-byte raw disk sector via ATA PIO";
   txt "  writesec <lba> <t> Write text into raw ATA disk sector";
   txt "  formatfat [lba] [sec] Format a FAT32 partition on ATA disk";
   txt "  mountfat [lba]        Mount an existing FAT32 volume";
   txt "  fatinfo               Display mounted FAT32 volume metrics";
   txt "  fatls [path]          List files/folders on FAT32 volume";
   txt "  fatcat <path>         Display contents of a FAT32 file";
   txt "  fatwrite <p> <text>   Write text to a persistent FAT32 file";
   txt "  fatmkdir <path>       Create a directory on FAT32 volume";
   txt "  fatrm <path>          Delete a file from FAT32 volume";
   txt "  gui / desktop- Render and benchmark macOS-style Desktop UI";
   txt "  ifconfig    - Display network interface configuration";
   txt "  ping <ip>   - Send ICMP Echo Request (ping) to an IP address";
   txt "  arp         - Display the ARP translation cache table";
   txt "  udpsend <ip> <port> <text> Send a UDP datagram";
   txt "  netstat     - Display network interface statistics";
   txt "  acpi        - Display ACPI hardware description tables & power info";
   txt "  cores / smp - Display enumerated CPU cores & Local APIC metrics";
   txt "  test        - Run automated kernel subsystem self-tests";
   txt "  reboot      - Reset and restart the computer";
   txt "  shutdown    - Power off the system / virtual machine";
   txt "  halt        - Put the CPU into deep sleep"].
Definition manifesto_text : list (list Z) :=
  [txt "--- AURAOS: 10-YEAR VISION & CORE PRINCIPLES ---";
   txt "1. 100% Pure Rust bare-metal: compile-time memory safety without GC.";
   txt "2. Ultra-lightweight: complete core kernel < 1 MB.";
   txt "3. Modular microkernel architecture with isolated Ring 3 drivers.";
   txt "4. Fluid vector graphics compositor with modern typography.";
   txt "------------------------------------------------"].
Definition RULE : list Z := txt "============================================================".

Definition cpu_report (cpu : Cpuid.CpuInfo) (cycles : Z) : list (list Z) :=
  let support (b : bool) := txt (if b then "Supported" else "No") in
  [txt "--- AURAOS CPUID HARDWARE REPORT ---"; txt "  Brand String   : " ++ Cpuid.brand_str cpu; txt "  Vendor ID      : " ++ Cpuid.vendor_str cpu; txt "  TSC Cycles     : " ++ decimal cycles;
   txt "  Feature Flags  :"; txt "    * FPU        : " ++ support (Cpuid.has_fpu cpu); txt "    * TSC        : " ++ support (Cpuid.has_tsc cpu); txt "    * APIC       : " ++ support (Cpuid.has_apic cpu);
   txt "    * SSE / SSE2 : " ++ support (Cpuid.has_sse cpu && Cpuid.has_sse2 cpu)%bool; txt "    * SSE3       : " ++ support (Cpuid.has_sse3 cpu); txt "    * AVX        : " ++ support (Cpuid.has_avx cpu);
   txt "    * RDRAND     : " ++ support (Cpuid.has_rdrand cpu); txt "------------------------------------"].
Definition pci_line (d : Pci.PciDevice) : list Z :=
  txt "[" ++ hex2 (Pci.bus d) ++ txt ":" ++ hex2 (Pci.slot d) ++ txt "." ++ decimal (Pci.func d) ++ txt "] " ++ hex4 (Pci.vendor_id d) ++ txt ":" ++ hex4 (Pci.device_id d) ++ txt " | " ++
  txt (Pci.vendor_name d) ++ txt " - " ++ txt (Pci.class_name d).
Definition pci_report (devices : list Pci.PciDevice) : list (list Z) :=
  [txt "--- DISCOVERED PCI BUS DEVICES (" ++ decimal (Z.of_nat (length devices)) ++ txt ") ---"] ++
  (if bool_decide (length devices = 0%nat) then [txt "  No PCI devices found on scanned buses."] else pci_line <$> devices) ++ [txt "---------------------------------------"].
Definition acpi_report (a : Acpi.AcpiInfo) : list (list Z) :=
  [txt "--- AURAOS ACPI POWER & CONFIGURATION TABLES ---"] ++
  (if negb (Acpi.is_initialized a) then [txt "  ACPI status: Not detected or uninitialized."] else
   [txt "  OEM ID         : " ++ Cpuid.from_utf8 (Acpi.oem_id a) "???"; txt "  RSDP Address   : " ++ hex (Acpi.rsdp_addr a);
    if Acpi.xsdt_addr a =? 0 then txt "  RSDT Address   : " ++ hex (Acpi.rsdt_addr a) ++ txt " (32-bit)" else txt "  XSDT Address   : " ++ hex (Acpi.xsdt_addr a) ++ txt " (64-bit)";
    txt "  Tables Count   : " ++ decimal (Acpi.tables_count a); txt "  FADT Address   : " ++ hex (Acpi.fadt_addr a); txt "  DSDT Address   : " ++ hex (Acpi.dsdt_addr a);
    txt "  MADT Address   : " ++ hex (Acpi.madt_addr a); txt "  SMI Command    : " ++ hex (Acpi.smi_cmd a) ++ txt " (ACPI Enable: " ++ hex (Acpi.acpi_enable a) ++ txt ")";
    txt "  PM1a Control   : " ++ hex (Acpi.pm1a_cnt_blk a)] ++
   (if Acpi.pm1b_cnt_blk a =? 0 then [] else [txt "  PM1b Control   : " ++ hex (Acpi.pm1b_cnt_blk a)]) ++
   [txt "  Soft-Off (_S5) : " ++ txt (if Acpi.has_s5 a then "Discovered" else "Not found in DSDT")] ++
   (if Acpi.has_s5 a then [txt "    * SLP_TYPa   : " ++ hex (Acpi.slp_typa a); txt "    * SLP_TYPb   : " ++ hex (Acpi.slp_typb a)] else [])) ++
  [txt "------------------------------------------------"].
Definition core_line (per_cpu : list SmpBoot.PerCpu) (idx : nat) (c : Acpi.CpuCore) : list Z :=
  let smp_online := match per_cpu !! idx with Some p => SmpBoot.online p | None => false end in
  txt "    [Core " ++ decimal (Z.of_nat idx) ++ txt "] ACPI ProcID: " ++ decimal (Acpi.processor_id c) ++ txt ", APIC ID: " ++ decimal (Acpi.apic_id c) ++
  txt ", MADT: " ++ txt (if Acpi.is_enabled c then "Enabled" else "Disabled") ++ txt ", SMP: " ++ txt (if smp_online then "ONLINE" else "offline").
Definition io_apic_line (i : Acpi.IoApicInfo) : list Z :=
  txt "    [I/O APIC " ++ decimal (Acpi.io_id i) ++ txt "] MMIO Address: " ++ hex (Acpi.address i) ++ txt ", GSI Base: " ++ decimal (Acpi.gsi_base i).
(** [per_cpu] has one block for each of the [MAX_CPUS] processors. *)
Definition cores_report (a : Acpi.AcpiInfo) (lapic : Apic.LocalApic) (online_cpus : Z) (per_cpu : list SmpBoot.PerCpu) : list (list Z) :=
  let n := decimal (Z.of_nat (length (Acpi.cores a))) in
  [txt "--- AURAOS MULTIPROCESSOR (SMP) & APIC REPORT ---"; txt "  Online CPUs    : " ++ decimal online_cpus ++ txt " / " ++ n ++ txt " (MADT)"; txt "  Local APIC Base: " ++ hex (Apic.base_addr lapic);
   txt "  Bootstrap CPU  : APIC ID " ++ decimal (Apic.apic_id lapic); txt "  LAPIC Version  : " ++ hex (Apic.version lapic); txt "  Software Enable: " ++ txt (if Apic.is_enabled lapic then "Yes (SVR active)" else "No");
   txt "  Discovered Cores (MADT): " ++ n] ++ imap (core_line per_cpu) (Acpi.cores a) ++
  (if bool_decide (length (Acpi.io_apics a) = 0%nat) then [] else (txt "  Discovered I/O APICs: " ++ decimal (Z.of_nat (length (Acpi.io_apics a)))) :: (io_apic_line <$> Acpi.io_apics a)) ++
  [txt "-------------------------------------------------"].

(** [res.name], [res.passed] and [res.detail] of the self tests. *)
Record TestResult := mkResult { name : list Z; passed : bool; detail : list Z }.
Definition test_lines (n i : nat) (r : TestResult) : list (list Z) :=
  let tag := txt "  [" ++ pad_left 2 (decimal (Z.of_nat (S i))) ++ txt "/" ++ decimal (Z.of_nat n) ++ txt "] " in
  if passed r then [tag ++ txt "PASS  " ++ name r] else [tag ++ txt "FAIL  " ++ name r; txt "         -> " ++ detail r].
Definition test_report (results : list TestResult) : list (list Z) :=
  let n := decimal (Z.of_nat (length results)) in
  let pass_count := Z.of_nat (length (filter (fun r => passed r = true) results)) in
  let fail_count := Z.of_nat (length results) - pass_count in
  [txt "============ AURAOS KERNEL SELF-TEST SUITE ============"] ++ concat (imap (test_lines (length results)) results) ++
  [txt "======================================================="; 
   txt "  Result: " ++ decimal pass_count ++ txt "/" ++ n ++ (if fail_count =? 0 then txt " PASSED | System integrity: 100%% OK" else txt " PASSED, " ++ decimal fail_count ++ txt " FAILED");
   txt "======================================================="].

(** ** Commands *)
(** What the commands read of the machine and of the other components. *)
Record machine := mkMachine {
  cpuid : Z -> Z -> Cpuid.CpuidResult; tsc : Z * Z; CR3 : Z; msrs : Descriptors.msrs; heap : Allocator.LinkedListAllocator; acpi : Acpi.AcpiInfo; lapic : Apic.LocalApic;
  per_cpu : list SmpBoot.PerCpu; tss : Descriptors.Tss64; TSS_LOADED : bool; SYSCALL_CONFIGURED : bool
}.
Definition read_cr3 (cr3 : Z) : Z := Z.land cr3 0x000FFFFFFFFFF000.
Definition sysinfo_report (m : machine) (ticks calls : Z) : list (list Z) :=
  [txt "=== AURAOS SUBSYSTEM DIAGNOSTICS & METRICS ==="; txt "[PIT 8254 Timer]"; txt "  Target Frequency: " ++ decimal Pit.TARGET_FREQUENCY ++ txt " Hz"; txt "  Actual Frequency: " ++ decimal Pit.actual_frequency ++ txt " Hz";
   txt "  Tick Interval   : " ++ decimal Pit.tick_interval_ms ++ txt " ms"; txt "  Elapsed Ticks   : " ++ decimal ticks;
   txt "[Task State Segment (TSS)]"; txt "  Loaded          : " ++ txt (if TSS_LOADED m then "ACTIVE (Ring 0 / IST enabled)" else "NOT LOADED");
   txt "  IST1 Stack Top  : " ++ hex (Descriptors.tss_ist1 (tss m)); txt "  RSP0 Stack Top  : " ++ hex (Descriptors.tss_rsp0 (tss m));
   txt "[Native Syscall Interface]"; txt "  Status          : " ++ txt (if SYSCALL_CONFIGURED m then "CONFIGURED (Fast MSR syscall/sysret)" else "DISABLED");
   txt "  Invocations     : " ++ decimal calls; txt "  LSTAR Target    : " ++ hex (Descriptors.read_lstar (msrs m));
   txt "[Heap Memory]"; txt "  Used Memory     : " ++ decimal (Allocator.used_memory (heap m)) ++ txt " bytes"; txt "=============================================="].
Definition info_report (m : machine) (rtc : Cmos.DateTime) (ticks : Z) : list (list Z) :=
  let cpu := Cpuid.get_cpu_info (cpuid m) in
  [RULE; txt "                    AURA OPERATING SYSTEM                   "; RULE; txt "  Version        : v0.1.0 (Bare-Metal Prototype)"; txt "  Architecture   : x86_64 Long Mode (64-bit pure Rust)";
   txt "  Processor      : " ++ Cpuid.brand_str cpu ++ txt " (" ++ Cpuid.vendor_str cpu ++ txt ")"; txt "  RTC Clock      : " ++ date_time rtc;
   txt "  Memory Model   : 4-Level Paging (PML4 at " ++ hex (read_cr3 (CR3 m)) ++ txt ")"; txt "  Heap Allocator : 8 MiB Linked List Allocator (Dynamic)"; txt "  Serial Port    : COM1 (UART 16550 at 0x3F8, 115200 baud)";
   txt "  Video Driver   : VGA Text Mode 80x25 (Buffer 0xb8000)"; txt "  IRQ Controller : Dual 8259 PIC remapped (32..47)"; txt "  Protection     : 64-bit GDT + 256-entry IDT"; txt "  Keyboard       : PS/2 Driver (Set 1 Make/Break)";
   txt "  Timer Ticks    : " ++ decimal ticks; RULE].
Definition mem_report (m : machine) : list (list Z) :=
  let free := Allocator.free_memory (heap m) in
  [txt "--- AURAOS MEMORY SUBSYSTEM ---"; txt "  Paging Model : x86_64 4-Level Paging (4 KiB pages)"; txt "  Active PML4  : CR3 base = " ++ hex (read_cr3 (CR3 m)); txt "  Heap Strategy: Linked List Allocator (Coalescing)";
   txt "  Heap Total   : " ++ decimal (Allocator.HEAP_SIZE / 1024) ++ txt " KiB (" ++ decimal Allocator.HEAP_SIZE ++ txt " bytes)"; txt "  Heap Used    : " ++ decimal (Allocator.used_memory (heap m)) ++ txt " bytes";
   txt "  Heap Free    : " ++ decimal free ++ txt " bytes (" ++ decimal (free / 1024) ++ txt " KiB)"; txt "-------------------------------"].

(** The program of [userdemo]. *)
Definition demo_code : list Z :=
  [0x48; 0xc7; 0xc0; 0x27; 0x00; 0x00; 0x00; 0x0f; 0x05; 0x48; 0xc7; 0xc0; 0x18; 0x00; 0x00; 0x00; 0x0f; 0x05; 0x48; 0xc7; 0xc0; 0x01; 0x00; 0x00; 0x00; 0x48; 0x31; 0xff; 0x0f; 0x05].
Definition truth (b : bool) : list Z := txt (if b then "true" else "false").

(** How a command ends: with the prompt, in [sleep_ms], or never. *)
Inductive ending := Prompt | Sleeps (ms : Z) | Halts | PowersOff | Reboots.
(** The display adapter and the words of its memory. *)
Record desk := mkDesk { adapter : Bga.bga; vram : Z -> Z }.

Section Commands.
Context {A : Type} `{FA : Pmm.FrameAllocator A} {H : Type} {HW : Hardware H}.
Context (fuel cpu : nat) (user_trampoline : Z).
Notation sys := (sys A).
Notation println_ := Handlers.println_.
Notation serial_println := Handlers.serial_println.

Fixpoint say (l : list (list Z)) (s : sys) : hwo H sys := match l with [] => mret s | x :: l' => s ← println_ fuel cpu x s; say l' s end.

Definition clear_screen (s : sys) : hwo H sys := w ← pure_ (Vga.clear_screen (screen s)); mret (set_screen s w).

(** The desktop: [env i] is what turn [i] finds, the request to leave, what the windows
    show, and the mouse. *)
Fixpoint desktop_loop (turns cpus : nat) (env : nat -> bool * Gui.shown * Mouse.MouseState) (i : nat) (b : Bga.bga) (ser : Serial.serial) (v : Z -> Z) (c : Canvas.Canvas) (st : Gui.state) : hwo H (Serial.serial * (Z -> Z)) :=
  match turns with
  | O => spin
  | S turns' =>
      let '(exit_requested, sh, ms) := env i in
      r ← Gui.turn fuel cpus exit_requested sh ms b ser v c st;
      match r with Some (ser, v, c, st) => desktop_loop turns' cpus env (S i) b ser v c st | None => mret (ser, v) end
  end.
Definition run_interactive_desktop (turns : nat) (env : nat -> bool * Gui.shown * Mouse.MouseState) (s : sys) (d : desk) : hwo H (sys * desk) :=
  '(ok, b) ← dev (Bga.init_graphics_mode 1024 768 (adapter d));
  if negb ok then
    s ← serial_println fuel cpu (txt "[GUI] BGA graphics initialization failed! Returning to text mode.") s;
    s ← println_ fuel cpu (txt "[ERROR] BGA graphics adapter not available. Cannot launch desktop.") s;
    mret (s, mkDesk b (vram d))
  else
    s ← serial_println fuel cpu (txt "[OK] BGA initialized: 1024x768x32bpp at " ++ hex (Bga.framebuffer_ptr b)) s;
    '(ser, v) ← desktop_loop turns (Task.cpu_count (kern s)) env 0 b (serial s) (vram d) (Canvas.new 1024 768) Gui.initial;
    b ← dev (Bga.disable_graphics_mode b);
    s ← serial_println fuel cpu (txt "[GUI] Desktop session ended. Returned to VGA text mode.") (set_serial s ser);
    mret (s, mkDesk b v).
Definition cmd_gui (turns : nat) (env : nat -> bool * Gui.shown * Mouse.MouseState) (s : sys) (d : desk) : hwo H (sys * desk) :=
  s ← say [txt "--- AURAOS GRAPHICAL DESKTOP ---"; txt "  Switching to BGA 1024x768x32bpp TrueColor mode..."; txt "  Press ESC to return to the text shell."; txt "---"] s;
  '(s, d) ← run_interactive_desktop turns env s d;
  s ← clear_screen s;
  s ← say [RULE; txt "        AuraOS v0.1.0 — Returned to Text Console            "; RULE] s;
  mret (s, d).

(** [base] is where the heap puts the kernel stack of the new task. *)
Definition cmd_userdemo (base : Z) (s : sys) : hwo H sys :=
  s ← say [txt "--- AURAOS RING 3 USER SPACE DEMO ---"; txt "  1. Allocating isolated per-process AddressSpace (PML4)..."] s;
  let '(space, w) := UserSpace.new (Task.kworld (kern s)) in
  s ← (match space with
       | Some space =>
           let user_code_virt := 0x40000000 in
           let user_stack_top := 0x80000000 in
           s ← say [txt "     [OK] User PML4 root allocated at " ++ hex (UserSpace.pml4 space); txt "  2. Mapping User Code at " ++ hex user_code_virt ++ txt " (USER_ACCESSIBLE)..."] s;
           '(code_ok, w, space) ← pure_ (UserSpace.allocate_user_code w space user_code_virt demo_code);
           s ← say [txt "     [OK] User code mapped: " ++ truth code_ok; txt "  3. Mapping User Stack at " ++ hex user_stack_top ++ txt " (16 KiB, USER_ACCESSIBLE)..."] s;
           let '(stack_ok, w, space) := UserSpace.allocate_user_stack w space user_stack_top 4 in
           let '(cs_ok, ss_ok, rflags_ok) := SyscallEntry.validate_ring3_frame Descriptors.USER_CS Descriptors.USER_DS 0x202 in
           s ← say [txt "     [OK] User stack mapped: " ++ truth stack_ok;
                    txt "  4. Validating CPU Ring 3 iretq frame (CS=" ++ hex Descriptors.USER_CS ++ txt ", SS=" ++ hex Descriptors.USER_DS ++ txt ", RFLAGS=0x202)...";
                    txt "     [OK] Ring 3 selectors: CS=" ++ truth cs_ok ++ txt " (" ++ hex Descriptors.USER_CS ++ txt "), SS=" ++ truth ss_ok ++ txt " (" ++ hex Descriptors.USER_DS ++ txt "), IF=" ++ truth rflags_ok;
                    txt "  5. Spawning Ring 3 User Process in scheduler..."] s;
           '(pid, k) ← pure_ (Task.spawn_user (Task.set_world (kern s) w) user_trampoline "user-app-demo" user_code_virt user_stack_top (UserSpace.pml4 space) base);
           say [txt "     [OK] User process PID " ++ decimal pid ++ txt " spawned in Ring 3!"] (set_kern s k)
       | None => say [txt "  [FAIL] Could not allocate user address space"] (set_kern s (Task.set_world (kern s) w))
       end);
  say [txt "--------------------------------------"] s.

Definition cmd_serial (cmd : list Z) (s : sys) : hwo H sys :=
  let msg := trim (default [] (strip_prefix (txt "serial") cmd)) in
  if bool_decide (msg = []) then say [txt "  Usage: serial <message to send to COM1>"] s
  else s ← serial_println fuel cpu (txt "[SERIAL COM1] " ++ msg) s; say [txt "  [OK] Sent to COM1: " ++ [34] ++ msg ++ [34]] s.

(** [sleep] up to the call of [sleep_ms], and the whole command of the shell's task [tid]. *)
Definition cmd_sleep (args : list (list Z)) (s : sys) : hwo H (ending * sys) :=
  let ms := default 1000 (Shell.parse_u64 (default (txt "1000") (args !! 0%nat))) in
  s ← say [txt "Sleeping for " ++ decimal ms ++ txt " ms..."] s; mret (Sleeps ms, s).
Definition slept (tid : Z) (args : list (list Z)) (s : sys) (h : H) (s' : sys) (h' : H) : Prop :=
  exists ms s1 h1 k, cmd_sleep args s h = Ret (Sleeps ms, s1, h1) /\ Sleep.sleep_ms tid cpu ms (kern s1) k /\ say [txt "Woke up!"] (set_kern s1 k) h1 = Ret (s', h').

Definition on_screen (m : hwo H sys) (d : desk) : hwo H (ending * sys * desk) := s ← m; mret (Prompt, s, d).
(** The arms above; the last one is the default of the whole match. *)
Definition execute_reports (turns : nat) (env : nat -> bool * Gui.shown * Mouse.MouseState) (results : list TestResult) (base : Z) (m : machine) (cmd : list Z) (s : sys) (d : desk) : hwo H (ending * sys * desk) :=
  let command := default [] (head (split_whitespace cmd)) in
  let named := is_word command in
  if named "help" then on_screen (say help_text s) d else
  if (named "gui" || named "desktop")%bool then '(s, d) ← cmd_gui turns env s d; mret (Prompt, s, d) else
  if named "clear" then on_screen (clear_screen s) d else
  if named "info" then rtc ← dev Cmos.read_rtc; on_screen (say (info_report m rtc (Task.TICKS (kern s))) s) d else
  if named "cpu" then on_screen (say (cpu_report (Cpuid.get_cpu_info (cpuid m)) (Cpuid.rdtsc (tsc m).1 (tsc m).2)) s) d else
  if (named "pci" || named "lspci")%bool then devices ← dev Pci.scan_pci_bus; on_screen (say (pci_report devices) s) d else
  if named "acpi" then on_screen (say (acpi_report (acpi m)) s) d else
  if (named "cores" || named "smp")%bool then on_screen (say (cores_report (acpi m) (lapic m) (Z.of_nat (Task.cpu_count (kern s))) (per_cpu m)) s) d else
  if named "sysinfo" then on_screen (say (sysinfo_report m (Task.TICKS (kern s)) (SYSCALL_COUNT s)) s) d else
  if named "userdemo" then on_screen (cmd_userdemo base s) d else
  if named "sleep" then '(e, s) ← cmd_sleep (drop 1 (split_whitespace cmd)) s; mret (e, s, d) else
  if (named "time" || named "date")%bool then rtc ← dev Cmos.read_rtc; on_screen (say [txt "Hardware RTC Clock: " ++ date_time rtc] s) d else
  if named "mem" then on_screen (say (mem_report m) s) d else
  if named "serial" then on_screen (cmd_serial cmd s) d else
  if named "ticks" then on_screen (say [txt "System timer (IRQ0): " ++ decimal (Task.TICKS (kern s)) ++ txt " ticks"] s) d else
  if (named "manifesto" || named "manifeste")%bool then on_screen (say manifesto_text s) d else
  if (named "test" || named "selftest")%bool then on_screen (say (test_report results) s) d else
  if named "reboot" then s ← Power.reboot fuel cpu s; mret (Reboots, s, d) else
  if (named "shutdown" || named "poweroff")%bool then s ← Power.shutdown fuel cpu (acpi m) s; mret (PowersOff, s, d) else
  if named "halt" then s ← say [txt "AuraOS halted. CPU entering deep sleep state."] s; mret (Halts, s, d) else
  on_screen (say [txt "Unknown command: '" ++ cmd ++ txt "'. Type 'help' for a list."] s) d.
End Commands.
End Reports.
