(* ===== verification/Console.v ===== *)
(** * The console (src/src/shell/mod.rs: [Shell::execute]; src/src/drivers/keyboard.rs: [process_pending_keys]; src/src/main.rs: the kernel's loop)

    The whole of [execute] over the state of all components, the keys that drive it, and
    one turn of the loop in which the kernel stays after booting.  The theorem follows a
    session from the scancodes to the characters on the screen. *)

From stdpp Require Import prelude numbers list strings.
From Stdlib Require Import ZifyBool.
From S2P Require Import Prelude Bytes Text Pmm Paging UserSpace Io Serial Vga Keyboard Mouse Allocator Vfs VfsTree VfsPath Errors Ata Fat32 FatFs Ipc Context Task Network Shell Commands Proc TaskCommands NetCommands Acpi Apic Descriptors E1000 Pci Bga Gui Syscall Handlers Reports.
Import Bytes Text Ata.

Module Console.
Import Commands Syscall Reports.

Section Console.
Context {H : Type} {HW : Hardware H} {D : Type} {DK : Disk D} {N : Type} {ND : Network.NetDevice N}.
Context (fuel cpu : nat).
Notation sys := (sys Pmm.Pmm).

(** The state that commands change. *)
Record console := mkConsole { system : sys; store : files (D := D); net : Network.NetworkManager; nic : N; display : desk; heartbeats : Z }.
Definition set_system (c : console) (s : sys) : console := mkConsole s (store c) (net c) (nic c) (display c) (heartbeats c).
Definition set_store (c : console) (f : files) : console := mkConsole (system c) f (net c) (nic c) (display c) (heartbeats c).
Definition set_net (c : console) (n : Network.NetworkManager) (d : N) : console := mkConsole (system c) (store c) n d (display c) (heartbeats c).
Definition set_display (c : console) (d : desk) : console := mkConsole (system c) (store c) (net c) (nic c) d (heartbeats c).

(** What commands find around them: the machine, the disk's bound on chains, the readings
    of the clock, the draw of /dev/random, the memory behind a file, the entries and the
    place of new tasks, the events of the desktop, and the results of the self tests. *)
Record scene := mkScene {
  mach : machine; chain_fuel : nat; clock : nat -> Z; random : list Z; outside : Z -> Z; worker_entry : Z; user_trampoline : Z; stack_base : Z;
  turns : nat; events : nat -> bool * Gui.shown * Mouse.MouseState; results : list TestResult
}.
Definition generators (sc : scene) (c : console) : Vfs.Generator -> list Z :=
  let k := kern (system c) in
  Proc.generate (cpuid (mach sc)) (heap (mach sc)) (UserSpace.fa (Task.kworld k)) k (default (Task.sched_new 0) (Task.CPU_SCHEDULERS k !! 0%nat)).

(** [print!] *)
Definition print (text : list Z) (s : sys) : hwo H sys := w ← pure_ (Vga.write_string (screen s) text); serial_print fuel cpu text (set_screen s w).

(** ** [execute] *)
Fixpoint effects (l : list TaskCommands.effect) (s : sys) : hwo H sys :=
  match l with
  | [] => mret s
  | TaskCommands.Line x :: l' => s ← say fuel cpu [x] s; effects l' s
  | TaskCommands.Yielded _ :: l' => effects l' s
  end.
Definition execute (sc : scene) (cmd : list Z) (c : console) : hwo H (ending * console) :=
  let run := generators sc c in
  let s := system c in
  match execute_files run (random sc) (chain_fuel sc) cmd (store c) with
  | Some o => '(l, f) ← pure_ o; s ← say fuel cpu l s; mret (Prompt, set_store (set_system c s) f)
  | None =>
  match TaskCommands.execute_tasks (worker_entry sc) (user_trampoline sc) (outside sc) run (random sc) (stack_base sc) cpu cmd (TaskCommands.mkState (kern s) (router s) (vfs (store c)) (heartbeats c)) with
  | Some o => '(l, st) ← pure_ o; s ← effects l (set_router (set_kern s (TaskCommands.kern st)) (TaskCommands.router st)); mret (Prompt, set_store (set_system c s) (set_vfs (store c) (TaskCommands.files st)))
  | None =>
  match NetCommands.execute_net (clock sc) cmd (net c) (nic c) with
  | Some o => '(l, n, d) ← pure_ o; s ← say fuel cpu l s; mret (Prompt, set_net (set_system c s) n d)
  | None => '(e, s, d) ← execute_reports fuel cpu (user_trampoline sc) (turns sc) (events sc) (results sc) (stack_base sc) (mach sc) cmd s (display c); mret (e, set_display (set_system c s) d)
  end end end.

(** ** The keys, and the loop *)
(** What the shell asked for, in order; a command that does not come back ends the list. *)
Fixpoint perform (sc : scene) (l : list Shell.effect) (c : console) : hwo H (ending * console) :=
  match l with
  | [] => mret (Prompt, c)
  | Shell.Print text :: l' => s ← print text (system c); perform sc l' (set_system c s)
  | Shell.EraseLast :: l' => w ← pure_ (Vga.backspace (screen (system c))); perform sc l' (set_system c (set_screen (system c) w))
  | Shell.Execute cmd :: l' => '(e, c) ← execute sc cmd c; match e with Prompt => perform sc l' c | _ => mret (e, c) end
  end.
Definition process_pending_keys (sc : scene) (k : Keyboard.keyboard) (sh : Shell.Shell) (c : console) : hwo H (ending * Keyboard.keyboard * Shell.Shell * console) :=
  '(l, k, sh) ← Shell.process_pending_keys k sh; '(e, c) ← perform sc l c; mret (e, k, sh, c).
(** One turn of the loop of [kernel_main], up to [sti; hlt]. *)
Definition main_turn (sc : scene) (k : Keyboard.keyboard) (sh : Shell.Shell) (c : console) : hwo H (ending * Keyboard.keyboard * Shell.Shell * console) :=
  '(e, k, sh, c) ← process_pending_keys sc k sh c;
  match e with
  | Prompt =>
      '(n, d) ← pure_ (Network.poll (clock sc 0%nat) (net c) (nic c));
      let s := system c in
      ser ← Serial.serial_flush_all fuel (Task.cpu_count (kern s)) (serial s);
      mret (Prompt, k, sh, set_net (set_system c (set_serial s ser)) n d)
  | _ => mret (e, k, sh, c)
  end.

(** ** What the screen shows *)
Definition showing (t : list Z) (s : sys) : Prop :=
  Serial.percpu_ready (serial s) = true /\ (exists b, Serial.buffers (serial s) !! cpu = Some b) /\ (cpu < Task.MAX_CPUS)%nat /\ Vga.shows (screen s) t.

Lemma serial_print_showing text t (s : sys) (h : H) : showing t s -> exists s', serial_print fuel cpu text s h = Ret (s', h) /\ showing t s' /\ screen s' = screen s.
Proof.
  intros (Hr & (b & Hb) & Hc & Hs). unfold serial_print, Serial.print_, Serial.is_percpu_buffering_active. rewrite Hr. rewrite decide_True by done. unfold mbind, hwo_bind, pure_. rewrite (at_Ret _ _ _ Hb). cbn [mbind outcome_bind].
  eexists. split; [reflexivity|]. split; [|done]. split; [done|]. split; [|done]. eexists. cbn [set_serial serial Serial.set_buffers Serial.buffers]. apply list_lookup_insert_eq. by apply lookup_lt_Some in Hb.
Qed.
Lemma print_shows text t (s : sys) (h : H) : showing t s -> exists s', print text s h = Ret (s', h) /\ showing (t ++ (Vga.printable <$> text)) s'.
Proof.
  intros (Hr & Hb & Hc & Hs). destruct (Vga.write_string_shows text (screen s) t Hs) as (w & Ew & Hw & _). unfold print. rewrite (run_pure _ _ w h Ew).
  destruct (serial_print_showing text (t ++ (Vga.printable <$> text)) (set_screen s w) h) as (s' & E & Hs' & _); [done|]. by exists s'.
Qed.
Lemma say_shows l : forall t (s : sys) (h : H), showing t s -> exists s', say fuel cpu l s h = Ret (s', h) /\ showing (t ++ (Vga.printable <$> (l ≫= fun x => x ++ [10]))) s'.
Proof.
  induction l as [|x l IH]; intros t s h Hs; cbn [say mbind list_bind]; [exists s; split; [done|by rewrite app_nil_r]|].
  destruct (print_shows (x ++ [10]) t s h Hs) as (s1 & E1 & Hs1). destruct (IH _ s1 h Hs1) as (s2 & E2 & Hs2). exists s2. split; [|by rewrite fmap_app, app_assoc].
  unfold mbind, hwo_bind. change (Handlers.println_ fuel cpu x s h) with (print (x ++ [10]) s h). by rewrite E1.
Qed.
Lemma perform_prints sc l rest : forall t c (h : H), showing t (system c) ->
  exists c', perform sc (((fun b => Shell.Print [b]) <$> l) ++ rest) c h = perform sc rest c' h /\ showing (t ++ (Vga.printable <$> l)) (system c') /\ store c' = store c.
Proof.
  induction l as [|b l IH]; intros t c h Hs; cbn [fmap list_fmap app]; [exists c; split; [done|]; split; [by rewrite app_nil_r|done]|].
  destruct (print_shows [b] t (system c) h Hs) as (s1 & E1 & Hs1). destruct (IH _ (set_system c s1) h Hs1) as (c' & E & Hc' & Hst).
  exists c'. split; [|split; [by rewrite <- app_assoc in Hc'|done]]. cbn [perform]. unfold mbind, hwo_bind. by rewrite E1.
Qed.

(** A file command, with the console showing [t]. *)
Lemma execute_file_shows sc cmd l f c t (h : H) : (forall run, execute_files run (random sc) (chain_fuel sc) cmd (store c) = Some (Ret (l, f))) -> showing t (system c) ->
  exists c', execute sc cmd c h = Ret (Prompt, c', h) /\ showing (t ++ (Vga.printable <$> (l ≫= fun x => x ++ [10]))) (system c') /\ store c' = f.
Proof.
  intros He Hs. destruct (say_shows l t (system c) h Hs) as (s' & E & Hs'). exists (set_store (set_system c s') f). split; [|done].
  unfold execute. cbv zeta. rewrite He. unfold pure_, mbind, hwo_bind. cbn [mbind outcome_bind]. by rewrite E.
Qed.

(** ** A typed line *)
Definition at_prompt (k : Keyboard.keyboard) (sh : Shell.Shell) : Prop :=
  Keyboard.shift_active k = false /\ Keyboard.queue_ok (Keyboard.queue k) /\ Keyboard.keys (Keyboard.queue k) = [] /\ Shell.shell_ok sh /\ Shell.length_ sh = 0%nat.
(** The scancodes of a line and Enter. *)
Definition typed (l : list Z) (k : Keyboard.keyboard) : Keyboard.keyboard := fold_left Keyboard.on_scancode ((l ++ [10]) ≫= Keyboard.stroke) k.
(** States of the machine in which nothing comes in on the serial line, however often
    its status is read. *)
Definition quiet (P : H -> Prop) : Prop := forall h, P h -> exists v h', inb h (Serial.COM1_BASE + 5) = (v, h') /\ Z.land v 1 = 0 /\ P h'.

Lemma line_runs P sc k sh c (h : H) cmd l f t : quiet P -> P h -> at_prompt k sh -> showing t (system c) ->
  Forall (fun b => 0x20 <= b <= 0x7E) cmd -> (length cmd <= 126)%nat -> cmd <> [] -> trim cmd = cmd ->
  (forall run, execute_files run (random sc) (chain_fuel sc) cmd (store c) = Some (Ret (l, f))) ->
  exists k' sh' c' h', process_pending_keys sc (typed cmd k) sh c h = Ret (Prompt, k', sh', c', h') /\ P h' /\ at_prompt k' sh' /\ store c' = f /\
    showing (t ++ (Vga.printable <$> (cmd ++ [10] ++ (l ≫= fun x => x ++ [10]) ++ Shell.PROMPT))) (system c').
Proof.
  intros Hq Hh (K1 & K2 & K3 & S1 & S2) Hs Hcmd Hlen Hne Htrim He. destruct (Hq h Hh) as (v & h' & Hin & Hv & Hh').
  destruct (Shell.typed_line h h' k sh cmd v Hin Hv K1 K2 K3 S1 S2 Hcmd Hlen) as (k' & sh' & E & Hp).
  rewrite Htrim, bool_decide_false in E by done. cbn [app] in E. set (tail := [Shell.Print [10]; Shell.Execute cmd; Shell.Print Shell.PROMPT]) in *.
  destruct (perform_prints sc cmd tail t c h' Hs) as (c1 & E1 & Hs1 & St1). unfold tail in E1. cbn [perform] in E1.
  destruct (print_shows [10] _ (system c1) h' Hs1) as (s2 & E2 & Hs2). destruct (execute_file_shows sc cmd l f (set_system c1 s2) _ h' ltac:(cbn [store set_system]; by rewrite St1) Hs2) as (c3 & E3 & Hs3 & St3).
  destruct (print_shows Shell.PROMPT _ (system c3) h' Hs3) as (s4 & E4 & Hs4). exists k', sh', (set_system c3 s4), h'. split.
  - unfold process_pending_keys, mbind, hwo_bind. unfold typed. rewrite E. fold tail. unfold tail. rewrite E1. unfold mbind, hwo_bind. rewrite E2, E3, E4. done.
  - split; [exact Hh'|]. split; [exact Hp|]. split; [exact St3|]. rewrite !fmap_app, !app_assoc. exact Hs4.
Qed.

Lemma seen text : Forall (fun b => 0x20 <= b <= 0x7E \/ b = 10) text -> Vga.printable <$> text = text.
Proof. induction 1 as [|b l Hb _ IH]; [done|]. cbn [fmap list_fmap]. f_equal; [|exact IH]. unfold Vga.printable, Vga.LF. destruct Hb as [?| ->]; [|done]. by replace ((32 <=? b) && (b <=? 126))%bool with true by lia. Qed.
Lemma graphic_seen l : Forall graphic l -> Forall (fun b => 0x20 <= b <= 0x7E) l.
Proof. intros Hl. eapply Forall_impl; [exact Hl|]. intros b. unfold graphic. lia. Qed.

(** The keys of [write <name> <text>] and of [cat <name>], each line processed when it is complete. *)
Lemma session_runs P sc k sh c (h : H) w text b t (l1 := txt "write " ++ w ++ 32 :: text) (l2 := txt "cat " ++ w) :
  quiet P -> P h -> at_prompt k sh -> showing t (system c) -> VfsTree.fs_ok (vfs (store c)) -> file_name w -> can_hold (vfs (store c)) (str w) ->
  Forall (fun b => 0x20 <= b <= 0x7E) text -> last text = Some b -> graphic b -> (length w + length text <= 119)%nat ->
  exists k1 sh1 c1 h1 k2 sh2 c2 h2, process_pending_keys sc (typed l1 k) sh c h = Ret (Prompt, k1, sh1, c1, h1) /\
    process_pending_keys sc (typed l2 k1) sh1 c1 h1 = Ret (Prompt, k2, sh2, c2, h2) /\ P h2 /\ at_prompt k2 sh2 /\
    Vga.shows (screen (system c2)) (t ++ l1 ++ [10] ++ txt "Wrote " ++ decimal (Z.of_nat (length text)) ++ txt " bytes to '" ++ w ++ txt "'" ++ [10] ++ Shell.PROMPT ++ l2 ++ [10] ++ text ++ [10] ++ Shell.PROMPT).
Proof.
  intros Hq Hh Hp Hs Hok Hw Hhold Ht Hlast Hb Hlen. pose proof Hw as ([Hne Hg] & _). assert (Hstr : is_str text = true) by (by apply ascii_utf8).
  destruct (write_cat_run (fun _ => []) (random sc) (chain_fuel sc) (store c) w text Hok Hw Hhold Hstr) as (i & v & E1 & E2 & _).
  assert (P1 : Forall (fun b => 0x20 <= b <= 0x7E) l1) by (apply Forall_app; split; [by_compute|]; apply Forall_app; split; [by apply graphic_seen|]; constructor; [lia|done]).
  assert (P2 : Forall (fun b => 0x20 <= b <= 0x7E) l2) by (apply Forall_app; split; [by_compute|by apply graphic_seen]).
  assert (T1 : trim l1 = l1) by (apply (trim_edges l1 119 b); [done|unfold l1; by rewrite !last_app, last_cons, Hlast|unfold graphic; lia|done]).
  assert (T2 : trim l2 = l2).
  { destruct (last w) as [e|] eqn:He; [|by apply last_None in He]. apply (trim_edges l2 99 e); [done|unfold l2; by rewrite last_app, He|unfold graphic; lia|]. apply last_Some_elem_of in He. by eapply Forall_forall in Hg. }
  destruct (line_runs P sc k sh c h l1 _ _ t Hq Hh Hp Hs P1 ltac:(unfold l1; rewrite !length_app; change (length (txt "write ")) with 6%nat; cbn [length]; lia) ltac:(done) T1 E1) as (k1 & sh1 & c1 & h1 & R1 & Hh1 & Hp1 & St1 & Hs1).
  destruct (line_runs P sc k1 sh1 c1 h1 l2 [text] (store c1) _ Hq Hh1 Hp1 Hs1 P2 ltac:(unfold l2; rewrite length_app; change (length (txt "cat ")) with 4%nat; lia) ltac:(done) T2) as (k2 & sh2 & c2 & h2 & R2 & Hh2 & Hp2 & _ & (_ & _ & _ & Hs2)).
  { intros run. rewrite St1. exact (E2 run). }
  exists k1, sh1, c1, h1, k2, sh2, c2, h2. split; [exact R1|]. split; [exact R2|]. split; [exact Hh2|]. split; [exact Hp2|]. cbn [mbind list_bind] in Hs2. rewrite !app_nil_r in Hs2.
  assert (Hd : Forall (fun b => 0x20 <= b <= 0x7E) (decimal (Z.of_nat (length text)))).
  { destruct (decimal_spec (Z.of_nat (length text)) ltac:(split; lia)) as (_ & Hd & _). eapply Forall_impl; [exact Hd|]. intros x. unfold is_digit, between. lia. }
  pose proof (graphic_seen w Hg) as Hgs. rewrite !seen in Hs2.
  - rewrite <- !app_assoc in *. exact Hs2.
  - rewrite !Forall_app. split_and!; first [eapply Forall_impl; [eassumption|by left]|by_compute].
  - rewrite !Forall_app. split_and!; first [eapply Forall_impl; [eassumption|by left]|by_compute].
Qed.

(** From the keys to the screen.  At the prompt, with nothing coming in on the serial
    line, whatever the screen shows so far: when the line [write <name> <text>] is typed
    on the keyboard, then [cat <name>], and each time the pending keys are processed, the
    console is back at the prompt and the screen shows the two lines as typed, the answer
    of the first, and the text between them and the prompts, in this order and nothing
    else. *)
Theorem typed_session P sc k sh c (h : H) w text b t (l1 := txt "write " ++ w ++ 32 :: text) (l2 := txt "cat " ++ w) :
  quiet P -> P h -> at_prompt k sh -> showing t (system c) -> VfsTree.fs_ok (vfs (store c)) -> file_name w -> can_hold (vfs (store c)) (str w) ->
  Forall (fun b => 0x20 <= b <= 0x7E) text -> last text = Some b -> graphic b -> (length w + length text <= 119)%nat ->
  exists k1 sh1 c1 h1 k2 sh2 c2 h2, process_pending_keys sc (typed l1 k) sh c h = Ret (Prompt, k1, sh1, c1, h1) /\
    process_pending_keys sc (typed l2 k1) sh1 c1 h1 = Ret (Prompt, k2, sh2, c2, h2) /\ P h2 /\ at_prompt k2 sh2 /\
    Vga.shows (screen (system c2)) (t ++ l1 ++ [10] ++ txt "Wrote " ++ decimal (Z.of_nat (length text)) ++ txt " bytes to '" ++ w ++ txt "'" ++ [10] ++ Shell.PROMPT ++ l2 ++ [10] ++ text ++ [10] ++ Shell.PROMPT).
Proof. apply session_runs. Qed.
End Console.

(** ** Witness: an empty screen, an empty directory, and [write notes hi] then [cat notes] *)
Definition demo_machine : machine := mkMachine (fun _ _ => Cpuid.mkResult 0 0 0 0) (0, 0) 0 (fun _ => 0) (Allocator.new 0) Acpi.new Apic.new [] Descriptors.tss_new false false.
Definition demo_scene : scene := mkScene demo_machine 0 (fun _ => 0) [] (fun _ => 0) 0 0 0 0 (fun _ => (false, Gui.mkShown 0 0 None, Mouse.MOUSE)) [].
Definition demo_console : console (D := Ata.ide) (N := Network.card Pci.machine) :=
  mkConsole (demo_sys Task.Ready) (start_files FatFs.new_disk) Network.new (Network.holding []) (mkDesk (Bga.mkBga 0 false) (fun _ => 0)) 0.
Lemma typed_session_witness : exists s, Vga.shows s (txt "write notes hi" ++ [10] ++ txt "Wrote 2 bytes to 'notes'" ++ [10] ++ txt "auraos> cat notes" ++ [10] ++ txt "hi" ++ [10] ++ txt "auraos> ").
Proof.
  destruct (typed_session (H := Serial.uart) (DK := ata_disk) 0 0 (fun _ => True) demo_scene Shell.idle_keyboard Shell.new demo_console line0 (txt "notes") (txt "hi") 105 []) as (k1 & sh1 & c1 & h1 & k2 & sh2 & c2 & h2 & _ & _ & _ & _ & E).
  - intros h _. eexists _, _. split; [reflexivity|]. split; [|done]. by destruct (Serial.busy h).
  - done.
  - destruct Shell.idle_queue as [Hq Hk]. split; [done|]. split; [exact Hq|]. split; [exact Hk|]. split; [apply Shell.new_shell_ok|done].
  - split; [done|]. split; [by exists Serial.new|]. split; [unfold Task.MAX_CPUS; lia|]. apply demo_shows.
  - exact VfsTree.cwd_fs_ok.
  - exact name_notes.
  - exists (Vfs.mkInode 1 0 "a" (Vfs.Directory [])). split; [reflexivity|]. split; [reflexivity|]. intros i m (Hin & _). by apply elem_of_nil in Hin.
  - by_compute.
  - reflexivity.
  - unfold graphic. lia.
  - change (length (txt "notes")) with 5%nat. change (length (txt "hi")) with 2%nat. lia.
  - exists (screen (system c2)). exact E.
Defined.
End Console.
