(* ===== verification/Main.v ===== *)
(** * Booting (src/src/main.rs: [kernel_main] and the panic handler)

    [kernel_main] from its first line to the prompt over the state of every component, in
    two parts: the initialisation, and the report that follows the self tests.  The
    theorems say in which state the initialisation leaves the components, and that the
    shell then answers what is typed.

    Of the initialisers this file has what they print on the screen and on the serial
    line; the lines that [acpi], [apic], the e1000 driver and the wake-up of a processor
    write on the serial line only are left out.  The heap is the one of [init_heap]: the
    allocations of the containers of the kernel are not followed. *)

From stdpp Require Import prelude numbers list strings.
From Stdlib Require Import ZifyBool.
From S2P Require Import Prelude Bytes Text Pmm Paging UserSpace Io Packets Serial Vga Klog Keyboard Mouse Clock Allocator Smp FatFs Ipc Fat32 Vfs VfsTree VfsPath Ata Elf Context Task Network Shell Commands Proc TaskCommands NetCommands Acpi AcpiMapped Descriptors Pic Apic SmpBoot SyscallEntry E1000 Pci Bga Gui Syscall Uefi Handlers Reports Console.
Import Bytes Text Ata.

Module Main.
Import Commands Syscall Reports Console Boot.

(** What the linker and the loader place: tables, stacks, entries, the trampoline, the
    buffers of the card, the bytes of the firmware tables, and the addresses that the loader
    has mapped when they are read. *)
Record layout := mkLayout {
  gdt_at : Z; tss_at : Z; ist1_stack : Z; kernel_stack : Z; interrupt_handlers : Descriptors.handlers; syscall_entry : Z; heap_storage : Z;
  sentinel_entry : Z; sentinel_stack : Z; per_cpu_base : Z; ap_entry : Z; lapic_phys : Z; stub : list Z; dma : E1000.DmaMemory; rom : Z -> Z; rom_mapped : Z -> bool
}.

(** The line of exclamation marks of the panic handler. *)
Definition PANIC_RULE : list Z := replicate 62 33.

Section Main.
Context {H : Type} {HW : Hardware H} {D : Type} {DK : Disk D} {HN : Type} {HWN : Hardware HN} {HA : Type} {HWA : Hardware HA} {LA : SmpBoot.Lapic HA}.
Context (fuel : nat) (ly : layout).
Notation sys := (sys Pmm.Pmm).
Notation console := (console (D := D) (N := Network.card HN)).
Notation say := (say fuel 0).
Notation serial_println := (Handlers.serial_println fuel 0).

(** The state of the whole machine while it boots. *)
Record kernel := mkKernel {
  cons : console; mach : machine; gdt : list Z; gdtr : Descriptors.GdtPointer; idt : list Descriptors.IdtEntry; smp : SmpBoot.machine HA; active_boot_info : option BootInfo
}.
Definition set_cons (k : kernel) (c : console) : kernel := mkKernel c (mach k) (gdt k) (gdtr k) (idt k) (smp k) (active_boot_info k).
Definition set_mach (k : kernel) (m : machine) : kernel := mkKernel (cons k) m (gdt k) (gdtr k) (idt k) (smp k) (active_boot_info k).
Definition set_idt (k : kernel) (l : list Descriptors.IdtEntry) : kernel := mkKernel (cons k) (mach k) (gdt k) (gdtr k) l (smp k) (active_boot_info k).
Definition set_info (k : kernel) (i : option BootInfo) : kernel := mkKernel (cons k) (mach k) (gdt k) (gdtr k) (idt k) (smp k) i.
Definition the_sys (k : kernel) : sys := system (cons k).
Definition set_sys (k : kernel) (s : sys) : kernel := set_cons k (set_system (cons k) s).
Definition the_world (k : kernel) : UserSpace.world Pmm.Pmm := Task.kworld (kern (the_sys k)).
Definition set_world (k : kernel) (w : UserSpace.world Pmm.Pmm) : kernel := set_sys k (set_kern (the_sys k) (Task.set_world (kern (the_sys k)) w)).
Definition on_sys (f : sys -> hwo H sys) (k : kernel) : hwo H kernel := s ← f (the_sys k); mret (set_sys k s).

Definition with_msrs (m : machine) (r : Descriptors.msrs) : machine := mkMachine (cpuid m) (tsc m) (CR3 m) r (heap m) (acpi m) (lapic m) (per_cpu m) (tss m) (TSS_LOADED m) (SYSCALL_CONFIGURED m).
Definition with_heap (m : machine) (a : Allocator.LinkedListAllocator) : machine := mkMachine (cpuid m) (tsc m) (CR3 m) (msrs m) a (acpi m) (lapic m) (per_cpu m) (tss m) (TSS_LOADED m) (SYSCALL_CONFIGURED m).
Definition with_acpi (m : machine) (a : Acpi.AcpiInfo) : machine := mkMachine (cpuid m) (tsc m) (CR3 m) (msrs m) (heap m) a (lapic m) (per_cpu m) (tss m) (TSS_LOADED m) (SYSCALL_CONFIGURED m).
Definition with_lapic (m : machine) (l : Apic.LocalApic) : machine := mkMachine (cpuid m) (tsc m) (CR3 m) (msrs m) (heap m) (acpi m) l (per_cpu m) (tss m) (TSS_LOADED m) (SYSCALL_CONFIGURED m).
Definition with_cpus (m : machine) (l : list SmpBoot.PerCpu) : machine := mkMachine (cpuid m) (tsc m) (CR3 m) (msrs m) (heap m) (acpi m) (lapic m) l (tss m) (TSS_LOADED m) (SYSCALL_CONFIGURED m).
Definition with_tss (m : machine) (t : Descriptors.Tss64) : machine := mkMachine (cpuid m) (tsc m) (CR3 m) (msrs m) (heap m) (acpi m) (lapic m) (per_cpu m) t true (SYSCALL_CONFIGURED m).
Definition configured (m : machine) : machine := mkMachine (cpuid m) (tsc m) (CR3 m) (msrs m) (heap m) (acpi m) (lapic m) (per_cpu m) (tss m) (TSS_LOADED m) true.

Definition klog (level : Klog.LogLevel) (subsystem : string) (text : list Z) (s : sys) : hwo H sys :=
  x ← Klog.log fuel (log_level s) 0 level (txt subsystem) text (Task.TICKS (kern s)) (serial s); mret (set_serial s x).
Definition info (subsystem : string) (text : list Z) : sys -> hwo H sys := klog Klog.Info_ subsystem text.

(** ** The initialisers, with what they print *)
Definition serial_init (k : kernel) : hwo H kernel :=
  dev (Serial.init Serial.COM1_BASE);; on_sys (say [txt "[OK] Serial    : COM1 (UART 16550 at 0x3F8, 115200 baud) active."]) k.
Definition MIB : Z := 1024 * 1024.
Definition pmm_init (memory_map : list Pmm.MemoryRegion) (k : kernel) : hwo H kernel :=
  let w := the_world k in
  p ← pure_ (Pmm.init (UserSpace.fa w) memory_map);
  let usable_mib := decimal (Pmm.total_memory p / MIB) in
  let free_mib := decimal (Pmm.free_memory_locked p / MIB) in
  let used_mib := decimal (Pmm.used_memory_locked p / MIB) in
  let regions_all := decimal (Pmm.region_count p) in
  let k := set_world k (UserSpace.mkWorld p (UserSpace.mem w) (UserSpace.KERNEL_CR3 w) (UserSpace.active_cr3 w)) in
  k ← on_sys (say [txt "[OK] Memory     : Physical RAM: " ++ usable_mib ++ txt " MiB detected (E820, " ++ regions_all ++ txt " regions), " ++ free_mib ++ txt " MiB free frames."]) k;
  on_sys (info "pmm" (txt "E820 map loaded: " ++ regions_all ++ txt " usable regions, " ++ usable_mib ++ txt " MiB total, " ++ free_mib ++ txt " MiB free (" ++ used_mib ++ txt " MiB used).")) k.
Definition gdt_init (k : kernel) : hwo H kernel :=
  let '(g, t, p) := Descriptors.gdt_init (gdt_at ly) (tss_at ly) (ist1_stack ly) (kernel_stack ly) (tss (mach k)) in
  let k := mkKernel (cons k) (with_tss (mach k) t) g p (idt k) (smp k) (active_boot_info k) in
  k ← on_sys (say [txt "[OK] GDT       : Global Descriptor Table loaded (7 entries + TSS)."]) k;
  on_sys (serial_println (txt "[OK] GDT loaded with TSS (IST1=" ++ decimal (Descriptors.IST1_STACK_SIZE / 1024) ++ txt " KiB, RSP0=" ++ decimal (Descriptors.KERNEL_STACK_SIZE / 1024) ++ txt " KiB).")) k.
Definition pic_init (k : kernel) : hwo H kernel :=
  dev Pic.pic_init;; on_sys (say [txt "[OK] PIC 8259  : Remapped successfully (IRQs 32..47)."]) k.
Definition idt_init (k : kernel) : hwo H kernel :=
  l ← pure_ (Descriptors.idt_init (interrupt_handlers ly) (idt k));
  on_sys (say [txt "[OK] IDT       : 5 CPU exceptions + IRQ0 (Timer) + IRQ1 (Keyboard) + IRQ12 (Mouse) active."]) (set_idt k l).
Definition pit_init (k : kernel) : hwo H kernel :=
  dev Pit.init;;
  k ← on_sys (say [txt "[OK] PIT 8254  : Reprogrammed to " ++ decimal Pit.TARGET_FREQUENCY ++ txt " Hz (" ++ decimal (1000000 / Pit.TARGET_FREQUENCY) ++ txt " us per tick, divisor=" ++ decimal Pit.DIVISOR ++ txt ")."]) k;
  on_sys (serial_println (txt "[OK] PIT 8254: " ++ decimal Pit.TARGET_FREQUENCY ++ txt "Hz (divisor=" ++ decimal Pit.DIVISOR ++ txt ")")) k.
Definition syscall_init (k : kernel) : hwo H kernel :=
  let m := mach k in
  let k := set_mach k (configured (with_msrs m (Descriptors.init_on_cpu (msrs m) (syscall_entry ly)))) in
  k ← on_sys (say [txt "[OK] Syscall   : MSRs configured (EFER.SCE, STAR, LSTAR, FMASK)."]) k;
  on_sys (serial_println (txt "[OK] Syscall: syscall/sysret MSRs configured.")) k.
Definition init_heap (k : kernel) : hwo H kernel :=
  let k := set_mach k (with_heap (mach k) (Allocator.init (heap (mach k)) (heap_storage ly) Allocator.HEAP_SIZE)) in
  on_sys (say [txt "[OK] Heap      : 8 MiB Linked List Allocator initialized."]) k.
Definition user_space_init (k : kernel) : hwo H kernel :=
  let w := UserSpace.init (the_world k) in
  let cr3 := hex (UserSpace.KERNEL_CR3 w) in
  k ← on_sys (say [txt "[OK] UserSpace : Memory isolation manager initialized (Kernel CR3: " ++ cr3 ++ txt ")."]) (set_world k w);
  on_sys (serial_println (txt "[OK] UserSpace: Memory manager ready (CR3: " ++ cr3 ++ txt ")")) k.
Definition init_hardware_mappings (k : kernel) : kernel :=
  let w := the_world k in
  set_world k (UserSpace.mkWorld (UserSpace.fa w) (Paging.init_hardware_mappings (UserSpace.mem w) (read_cr3 (CR3 (mach k)))) (UserSpace.KERNEL_CR3 w) (UserSpace.active_cr3 w)).
(** A page fault on a firmware table stops the machine. *)
Definition acpi_init (rsdp : option Z) (k : kernel) : hwo H kernel :=
  '(_, a) ← pure_ (match AcpiMapped.init_with_rsdp (rom ly) (rom_mapped ly) rsdp (acpi (mach k)) with Some r => r | None => Panic end);
  mret (set_mach k (with_acpi (mach k) a)).
Definition apic_init (k : kernel) : hwo H kernel :=
  let m := mach k in
  '(_, r, l) ← dev (Apic.apic_init (Cpuid.has_apic (Cpuid.get_cpu_info (cpuid m))) (msrs m) (lapic m));
  mret (set_mach k (with_lapic (with_msrs m r) l)).
Definition task_init (k : kernel) : hwo H kernel :=
  t ← pure_ (Task.init (kern (the_sys k)) (sentinel_entry ly) (sentinel_stack ly));
  n ← pure_ (q ← at_ (Task.CPU_SCHEDULERS t) 0; Ret (Z.of_nat (length (Task.tasks q))));
  on_sys (serial_println (txt "[Multitasking] BSP Scheduler initialized with " ++ decimal n ++ txt " tasks")) (set_sys k (set_kern (the_sys k) t)).
(** The machine of the wake-up gets the run queues and the registers of this processor,
    and gives them back. *)
Definition smp_before (k : kernel) : SmpBoot.machine HA := SmpBoot.with_msrs (SmpBoot.with_scheds (smp k) (Task.CPU_SCHEDULERS (kern (the_sys k)))) (msrs (mach k)).
Definition smp_after (m : SmpBoot.machine HA) (k : kernel) : kernel :=
  let t := kern (the_sys k) in
  let t := Task.mkKernel (SmpBoot.schedulers m) (Task.NEXT_TASK_ID t) (Z.to_nat (SmpBoot.ONLINE_CPUS m)) (Task.TICKS t) (Task.kworld t) (Task.hw t) in
  let k := set_sys k (set_kern (the_sys k) t) in
  mkKernel (cons k) (with_cpus (with_msrs (mach k) (SmpBoot.bsp_msrs m)) (SmpBoot.PER_CPU m)) (gdt k) (gdtr k) (idt k) m (active_boot_info k).
Definition smp_line (a : Acpi.AcpiInfo) (r : SmpBoot.report) : list Z :=
  match r with
  | SmpBoot.NotNeeded => txt "[OK] SMP       : " ++ decimal (if Acpi.is_initialized a then Z.of_nat (length (Acpi.cores a)) else 1) ++ txt " core(s), no APs to wake."
  | SmpBoot.BspOnly => txt "[OK] SMP       : 1 core (BSP only)."
  | SmpBoot.Woken total ap_count online_count => txt "[OK] SMP       : " ++ decimal total ++ txt " CPU(s) online (BSP + " ++ decimal ap_count ++ txt " AP(s) woken, " ++ decimal online_count ++ txt " responded)."
  end.
Definition smp_init (k : kernel) : hwo H kernel :=
  let a := acpi (mach k) in
  '(r, m) ← pure_ (SmpBoot.init (per_cpu_base ly) (ap_entry ly) (syscall_entry ly) (stub ly) (CR3 (mach k)) (lapic_phys ly) a (Apic.apic_id (lapic (mach k))) (smp_before k));
  on_sys (say [smp_line a r]) (smp_after m k).
Definition fs_init (k : kernel) : hwo H kernel :=
  v ← pure_ (Vfs.init Elf.build_hello_elf Elf.build_counter_elf Elf.build_init_elf (vfs (store (cons k))));
  let k := set_cons k (set_store (cons k) (set_vfs (store (cons k)) v)) in
  on_sys (serial_println (txt "[VFS] Virtual File System & RAMFS mounted at '/' with " ++ decimal (Z.of_nat (length (Vfs.inodes v))) ++ txt " inodes")) k.
Definition net_init (k : kernel) : hwo H (bool * kernel) :=
  let c := cons k in
  let '(nic_ok, driver, h) := E1000.init (dma ly) (Network.driver (nic c)) (Network.machine_of (nic c)) in
  let card := Network.mkCard driver h (Network.head (nic c)) in
  let '(ok, n) := Network.init (Task.TICKS (kern (system c))) nic_ok card (net c) in
  k ← on_sys (serial_println (if nic_ok then txt "[Network] Stack initialized. IP: " ++ NetCommands.ip_text (Network.ip n) ++ txt ", MAC: " ++ NetCommands.mac_text (Network.mac n)
                              else txt "[Network] e1000 hardware not present; network stack in loopback mode.")) (set_cons k (set_net c n card));
  mret (ok, k).

(** ** [kernel_main] up to the self tests *)
Definition banner : list (list Z) := [RULE; txt "        AuraOS Kernel v0.1.0 - Booting Up...                "; RULE].
Fixpoint serial_lines (l : list (list Z)) (s : sys) : hwo H sys := match l with [] => mret s | x :: l' => s ← serial_println x s; serial_lines l' s end.

(** Steps 0 to 4b: memory, descriptors, interrupts, the clock, the mouse, the heap. *)
Definition boot_memory (boot_info : BootInfo) (k : kernel) : hwo H kernel :=
  k ← serial_init (set_info k (set_active_boot_info boot_info (active_boot_info k)));
  k ← on_sys (serial_lines banner) k;
  k ← pmm_init (memory_map boot_info) k;
  k ← on_sys (say (banner ++ [[]])) k;
  k ← gdt_init k;
  k ← pic_init k; k ← on_sys (info "pic" (txt "PIC remapped.")) k;
  k ← idt_init k; k ← on_sys (info "idt" (txt "IDT loaded.")) k;
  k ← pit_init k;
  dev Mouse.init;;
  k ← on_sys (say [txt "[OK] Mouse     : PS/2 Mouse initialized (IRQ 12 active)."]) k; k ← on_sys (info "mouse" (txt "PS/2 Mouse initialized.")) k;
  k ← syscall_init k;
  k ← init_heap k; k ← on_sys (info "allocator" (txt "8 MiB heap initialized.")) k;
  user_space_init k.

(** Steps 5 to 7: the first allocations, the processor, the clock and the bus. *)
Definition device_line (d : Pci.PciDevice) : list Z := txt "      " ++ pci_line d.
Definition boot_devices (k : kernel) : hwo H kernel :=
  k ← on_sys (say [txt "[OK] Allocator : Box(42), Vec([0, 10, 20]), String ready."; txt "                 AuraOS Dynamic String (Vec len = 5)"]) k;
  k ← on_sys (klog Klog.Debug_ "allocator" (txt "Dynamic allocations verified: Box, Vec, String.")) k;
  let cpu := Cpuid.get_cpu_info (cpuid (mach k)) in
  rtc ← dev Cmos.read_rtc;
  let processor := Cpuid.brand_str cpu ++ txt " (" ++ Cpuid.vendor_str cpu ++ txt ")" in
  k ← on_sys (say [txt "[OK] Processor : " ++ processor; txt "[OK] RTC Clock : " ++ date_time rtc]) k;
  k ← on_sys (info "cpu" (txt "Processor: " ++ processor)) k; k ← on_sys (info "rtc" (txt "RTC Clock: " ++ date_time rtc)) k;
  pci_devices ← dev Pci.scan_pci_bus;
  let n := decimal (Z.of_nat (length pci_devices)) in
  k ← on_sys (say [txt "[OK] PCI Bus   : Discovered " ++ n ++ txt " active hardware device(s)."]) k;
  k ← on_sys (info "pci" (n ++ txt " active device(s) enumerated.")) k;
  on_sys (serial_lines (device_line <$> pci_devices)) k.

(** Step 7b to 7e: firmware tables, the local controller, tasks, processors, display. *)
Definition start_display (k : kernel) : hwo H (bool * kernel) :=
  let d := display (cons k) in
  avail ← dev Bga.is_available;
  if negb avail then mret (false, k) else
  '(ok, b) ← dev (Bga.init_graphics_mode Bga.SCREEN_WIDTH Bga.SCREEN_HEIGHT (adapter d));
  let k := if ok : bool then init_hardware_mappings k else k in
  mret (ok, set_cons k (set_display (cons k) (mkDesk b (vram d)))).
Definition acpi_line (a : Acpi.AcpiInfo) : list Z :=
  if Acpi.is_initialized a then txt "[OK] ACPI       : " ++ decimal (Acpi.tables_count a) ++ txt " tables (FADT: " ++ hex (Acpi.fadt_addr a) ++ txt ", MADT: " ++ hex (Acpi.madt_addr a) ++ txt ", " ++ decimal (Z.of_nat (length (Acpi.cores a))) ++ txt " core(s))"
  else txt "[--] ACPI       : RSDP not detected (legacy PC mode).".
Definition boot_processors (boot_info : BootInfo) (k : kernel) : hwo H (bool * kernel) :=
  k ← acpi_init (acpi_rsdp boot_info) (init_hardware_mappings k);
  k ← apic_init k;
  k ← task_init k;
  k ← on_sys (say [txt "[OK] Tasks     : Per-CPU Round-Robin scheduler initialized (TCBs ready)."]) k; k ← on_sys (info "scheduler" (txt "Multitasking initialized.")) k;
  k ← smp_init k;
  '(bga_active, k) ← start_display k;
  k ← (if bga_active : bool then k ← on_sys (say [txt "[OK] Video     : BGA 1024x768x32bpp framebuffer active (TrueColor)."]) k; on_sys (info "video" (txt "BGA 1024x768x32bpp activated at boot.")) k
       else on_sys (say [txt "[--] Video     : BGA not available, staying in VGA text mode."]) k);
  k ← on_sys (say [acpi_line (acpi (mach k))]) k;
  mret (bga_active, k).

(** Steps 8 to 10d: files, interrupts, the network, timers and the other processors. *)
Definition network_line (n : Network.NetworkManager) (ok : bool) : list Z :=
  if ok then txt "[OK] Network   : e1000 NIC active (" ++ NetCommands.mac_text (Network.mac n) ++ txt ", " ++ NetCommands.ip_text (Network.ip n) ++ txt ")" else txt "[--] Network   : No e1000 NIC detected (loopback mode).".
Definition start_aps (k : kernel) : kernel := mkKernel (cons k) (mach k) (gdt k) (gdtr k) (idt k) (SmpBoot.start_aps (smp k)) (active_boot_info k).
Definition boot_services (k : kernel) : hwo H kernel :=
  k ← fs_init k;
  k ← on_sys (say [txt "[OK] VFS       : Root RAM disk mounted at '/' (hierarchy ready)."]) k; k ← on_sys (info "vfs" (txt "VFS & RAMFS mounted.")) k;
  k ← on_sys (say [txt "[OK] CPU       : Hardware interrupts enabled (sti)."]) k; k ← on_sys (info "cpu" (txt "Interrupts enabled (sti).")) k;
  '(net_ok, k) ← net_init k;
  k ← on_sys (say [network_line (net (cons k)) net_ok]) k;
  dev (Apic.init_timer Descriptors.LAPIC_TIMER_VECTOR 1000000);;
  let k := start_aps k in
  let s := the_sys k in
  on_sys (say [txt "[OK] SMP       : Multi-core scheduling active across all online CPUs."]) (set_sys k (set_serial s (Serial.enable_percpu_buffering (serial s)))).

Definition kernel_main (boot_info : BootInfo) (k : kernel) : hwo H (bool * kernel) :=
  k ← boot_memory boot_info k; k ← boot_devices k; '(bga_active, k) ← boot_processors boot_info k; k ← boot_services k; mret (bga_active, k).

(** ** From the results of the self tests to the prompt *)
Definition flush (k : kernel) : hwo H kernel := on_sys (fun s => x ← Serial.serial_flush_all fuel (Task.cpu_count (kern s)) (serial s); mret (set_serial s x)) k.
Fixpoint report_tests (l : list TestResult) (k : kernel) : hwo H kernel :=
  match l with
  | [] => mret k
  | r :: l' =>
      k ← (if passed r then k ← on_sys (say [txt "  [PASS] " ++ name r]) k; on_sys (info "tests" (txt "PASS: " ++ name r ++ txt " -- " ++ detail r)) k
           else k ← on_sys (say [txt "  [FAIL] " ++ name r ++ txt " (" ++ detail r ++ txt ")"]) k; on_sys (klog Klog.Warn_ "tests" (txt "FAIL: " ++ name r ++ txt " -- " ++ detail r)) k);
      k ← flush k; report_tests l' k
  end.
Definition diagnostics (results : list TestResult) (k : kernel) : hwo H kernel :=
  let n := decimal (Z.of_nat (length results)) in
  k ← on_sys (serial_println (txt "[DEBUG] Automated self-tests finished (total: " ++ n ++ txt ").")) k;
  k ← report_tests results k;
  k ← (if forallb passed results then k ← on_sys (say [txt "[OK] All " ++ n ++ txt " subsystem tests PASSED. System verified 100%."]) k; on_sys (info "tests" (txt "All " ++ n ++ txt " automated self-tests passed.")) k
       else on_sys (say [txt "[WARN] One or more diagnostic checks reported issues."]) k);
  flush k.

Definition status_report (boot_info : BootInfo) (p : Pmm.Pmm) : list (list Z) :=
  let uefi := match boot_method boot_info with Bios => false | Uefi => true end in
  [[]; txt "[OK] Mode      : x86_64 Bare-Metal Long Mode (64-bit)"; txt "[OK] Boot Mode : " ++ txt (if uefi then "Native UEFI" else "BIOS / Legacy") ++ txt " (Unified BootInfo)"; txt "[OK] Memory    : 8 MiB Heap, 4 KiB Paging abstractions";
   txt "[OK] RAM       : Physical RAM " ++ decimal (Pmm.total_memory p / MIB) ++ txt " MiB detected (" ++ txt (if uefi then "UEFI" else "E820") ++ txt "), " ++ decimal (Pmm.free_memory_locked p / MIB) ++ txt " MiB free frames via PMM";
   txt "[OK] Filesystem: Virtual Inode VFS mounted at '/'"; txt "[OK] Storage   : ATA / IDE PIO 28-bit driver active"; txt "[OK] Network   : Intel e1000 Gigabit Ethernet (ARP/IPv4/ICMP/UDP)"; txt "[OK] Power/ACPI: S5 Soft-Off ready, Local APIC initialized";
   txt "[OK] Serial    : COM1 UART at 0x3F8 (115200 baud)"; txt "[OK] Keyboard  : PS/2 driver active (direct typing)"; []].
Definition LINE : list Z := txt "------------------------------------------------------------".
Definition desktop_session (turns : nat) (events : nat -> bool * Gui.shown * Mouse.MouseState) (k : kernel) : hwo H kernel :=
  k ← on_sys (say [LINE; txt "  AuraOS v0.1.0 — Launching graphical desktop (ESC to return)"; LINE]) k;
  '(s, d) ← run_interactive_desktop fuel 0 turns events (the_sys k) (display (cons k));
  let k := set_sys (set_cons k (set_display (cons k) d)) s in
  k ← on_sys clear_screen k;
  on_sys (say [RULE; txt "        AuraOS v0.1.0 — Graphical session ended."; RULE; []]) k.
Definition ready_lines : list (list Z) := [LINE; txt "  AuraOS v0.1.0 ready. Interactive console active:"; LINE].
(** Lines 199 to 279 with the self tests, which give their results and leave the machine in
    another state. *)
Definition to_prompt (boot_info : BootInfo) (run_all_tests : kernel -> hwo H (list TestResult * kernel)) (turns : nat) (events : nat -> bool * Gui.shown * Mouse.MouseState) (bga_active : bool) (k : kernel) : hwo H kernel :=
  k ← on_sys (say [[]; txt "[DIAG] Running AuraOS automated self-test verification..."]) k;
  '(results, k) ← run_all_tests k;
  k ← diagnostics results k;
  k ← on_sys (say (status_report boot_info (UserSpace.fa (the_world k)))) k;
  k ← (if bga_active then desktop_session turns events k else mret k);
  k ← on_sys (say ready_lines) k;
  k ← on_sys (print fuel 0 Shell.PROMPT) k;
  on_sys (info "shell" (txt "Interactive console ready.")) k.

(** ** The panic handler, up to the halt: the first panic reports, a panic inside it halts
    at once. *)
Definition panic (PANICKING : bool) (message : list Z) (s : sys) : hwo H (bool * sys) :=
  if PANICKING then mret (true, s) else
  s ← serial_println (10 :: txt "[KERNEL PANIC] " ++ message) (Handlers.force_unlock s);
  s ← say [[]; PANIC_RULE; txt "  KERNEL PANIC - AuraOS encountered a fatal error!"; txt "  " ++ message; PANIC_RULE] s;
  mret (true, s).

End Main.

(** ** Boards: machines whose other devices leave the serial line alone
    [clear p n q]: an access of [n] bytes at port [p] does not touch port [q].  A board keeps
    the serial line as it is at accesses to the other ports, those in [guard] apart. *)
Definition clear (p n q : Z) : Prop := p + n <= q \/ q < p.
Definition other (guard : list Z) (p n : Z) : Prop := (p + n <= Serial.COM1_BASE \/ Serial.COM1_BASE + 8 <= p) /\ Forall (clear p n) guard.
#[global] Instance clear_dec p n q : Decision (clear p n q).
Proof. unfold clear. apply _. Defined.
#[global] Instance other_dec guard p n : Decision (other guard p n).
Proof. unfold other. apply _. Defined.
Class Board (H : Type) {HW : Hardware H} {HU : Serial.Uart H} (guard : list Z) := {
  board_outb h p v : Serial.uart_ok h -> other guard p 1 -> Serial.uart_ok (outb h p v);
  board_inb h p : Serial.uart_ok h -> other guard p 1 -> Serial.uart_ok (snd (inb h p));
  board_outw h p v : Serial.uart_ok h -> other guard p 2 -> Serial.uart_ok (outw h p v);
  board_inw h p : Serial.uart_ok h -> other guard p 2 -> Serial.uart_ok (snd (inw h p));
  board_outl h p v : Serial.uart_ok h -> other guard p 4 -> Serial.uart_ok (outl h p v);
  board_inl h p : Serial.uart_ok h -> other guard p 4 -> Serial.uart_ok (snd (inl h p));
  board_write h a v : Serial.uart_ok h -> Serial.uart_ok (write_volatile h a v);
  board_read h a : Serial.uart_ok h -> Serial.uart_ok (snd (read_volatile h a));
  (** nobody sends on the line *)
  board_quiet h : Serial.uart_ok h -> Z.land (fst (inb h (Serial.COM1_BASE + 5))) 1 = 0
}.
(** Programming the port makes it usable. *)
Class Powered (H : Type) {HW : Hardware H} {HU : Serial.Uart H} := { board_init h : Serial.uart_ok (snd (Serial.init Serial.COM1_BASE h)) }.

(** What holds of the machine as long as nobody touches the ports [g]. *)
Record stays {H : Type} {HW : Hardware H} (g : list Z) (P : H -> Prop) : Prop := {
  stay_outb h p v : P h -> Forall (clear p 1) g -> P (outb h p v);
  stay_inb h p : P h -> Forall (clear p 1) g -> P (snd (inb h p));
  stay_outw h p v : P h -> Forall (clear p 2) g -> P (outw h p v);
  stay_inw h p : P h -> Forall (clear p 2) g -> P (snd (inw h p));
  stay_outl h p v : P h -> Forall (clear p 4) g -> P (outl h p v);
  stay_inl h p : P h -> Forall (clear p 4) g -> P (snd (inl h p));
  stay_write h a v : P h -> P (write_volatile h a v);
  stay_read h a : P h -> P (snd (read_volatile h a))
}.
(** The two interrupt controllers and the interval timer: programming them sets them up,
    and they stay so. *)
Definition PIC_PORTS : list Z := [0x20; 0x21; 0xA0; 0xA1].
Definition PIT_PORTS : list Z := [0x40; 0x41; 0x42; 0x43].
Class Chips (H : Type) {HW : Hardware H} := {
  pic_ok : H -> Prop; pic_stays : stays PIC_PORTS pic_ok; pic_set h : pic_ok (snd (Pic.pic_init h));
  pit_ok : H -> Prop; pit_stays : stays PIT_PORTS pit_ok; pit_set h : pit_ok (snd (Pit.init h))
}.

Section Guarded.
Context {H : Type} {HW : Hardware H}.
(** The serial line together with such a property is a serial line whose board keeps off
    those ports. *)
Lemma com1_clear g o : Forall (clear Serial.COM1_BASE 8) g -> 0 <= o < 8 -> Forall (clear (Serial.COM1_BASE + o) 1) g.
Proof. intros Hg Ho. eapply Forall_impl; [exact Hg|]. unfold clear. intros q Hq. lia. Qed.
Program Definition guarded (U : Serial.Uart H) (g : list Z) (P : H -> Prop) (HP : stays g P) (Hg : Forall (clear Serial.COM1_BASE 8) g) : Serial.Uart H :=
  {| Serial.uart_ok h := Serial.uart_ok h /\ P h; Serial.line := Serial.line; Serial.polls := Serial.polls; Serial.max_polls := Serial.max_polls |}.
Next Obligation. intros U g P HP Hg h [Hh _]. by apply Serial.polls_bound. Qed.
Next Obligation.
  intros U g P HP Hg h v h' [Hh Hp] E. destruct (Serial.status_law h v h' Hh E) as (H1 & H2). split; [|exact H2]. split; [exact H1|].
  pose proof (stay_inb g P HP h (Serial.COM1_BASE + 5) Hp ltac:(by apply com1_clear)) as Hr. by rewrite E in Hr.
Qed.
Next Obligation.
  intros U g P HP Hg h b [Hh Hp] Hb. destruct (Serial.transmit_law h b Hh Hb) as [H1 H2]. split; [|exact H2]. split; [exact H1|].
  apply (stay_outb g P HP); [exact Hp|]. rewrite <- (Z.add_0_r Serial.COM1_BASE). by apply com1_clear.
Qed.
Lemma guarded_board U g0 g P HP Hg : Board H (HU := U) g0 -> Board H (HU := guarded U g P HP Hg) (g0 ++ g).
Proof.
  intros B. split; cbn [Serial.uart_ok guarded]; [intros h p v|intros h p|intros h p v|intros h p|intros h p v|intros h p|intros h a v|intros h a|intros h]; intros [Hh Hp];
    [intros [Ho [Hf0 Hf]%Forall_app]..| | |].
  - split; [by apply B|by apply (stay_outb g P HP)].
  - split; [by apply B|by apply (stay_inb g P HP)].
  - split; [by apply B|by apply (stay_outw g P HP)].
  - split; [by apply B|by apply (stay_inw g P HP)].
  - split; [by apply B|by apply (stay_outl g P HP)].
  - split; [by apply B|by apply (stay_inl g P HP)].
  - split; [by apply B|by apply (stay_write g P HP)].
  - split; [by apply B|by apply (stay_read g P HP)].
  - by apply B.
Qed.
Lemma board_weaken U g g' : g ⊆ g' -> Board H (HU := U) g -> Board H (HU := U) g'.
Proof.
  intros Hs B. assert (Hw : forall p n, other g' p n -> other g p n) by (intros p n [Ho Hf]; split; [exact Ho|]; rewrite Forall_forall in Hf |- *; auto).
  split; intros; apply B; auto.
Qed.
End Guarded.
Definition GUARD : list Z := PIC_PORTS ++ PIT_PORTS.

Section Keeps.
Context {H : Type} {HW : Hardware H} {HU : Serial.Uart H} {guard : list Z} {HB : Board H guard}.
Definition keeps {A} (m : hw H A) : Prop := forall h, Serial.uart_ok h -> Serial.uart_ok (snd (m h)).
Lemma keeps_ret {A} (a : A) : keeps (mret a).
Proof. by intros h Hh. Qed.
Lemma keeps_bind {A B} (m : hw H A) (f : A -> hw H B) : keeps m -> (forall a, keeps (f a)) -> keeps (m ≫= f).
Proof. intros Hm Hf h Hh. unfold mbind, hw_bind. specialize (Hm h Hh). destruct (m h) as [a h1]. by apply Hf. Qed.
Lemma keeps_outb p v : other guard p 1 -> keeps (port_outb p v).
Proof. intros Hp h Hh. by apply HB. Qed.
Lemma keeps_inb p : other guard p 1 -> keeps (port_inb p).
Proof. intros Hp h Hh. by apply HB. Qed.
Lemma keeps_outw p v : other guard p 2 -> keeps (port_outw p v).
Proof. intros Hp h Hh. by apply HB. Qed.
Lemma keeps_inw p : other guard p 2 -> keeps (port_inw p).
Proof. intros Hp h Hh. by apply HB. Qed.
Lemma keeps_out p v : other guard p 4 -> keeps (port_out p v).
Proof. intros Hp h Hh. by apply HB. Qed.
Lemma keeps_in p : other guard p 4 -> keeps (port_in p).
Proof. intros Hp h Hh. by apply HB. Qed.
Lemma keeps_write a v : keeps (Apic.mmio_write a v).
Proof. intros h Hh. by apply HB. Qed.
Lemma keeps_read a : keeps (Apic.mmio_read a).
Proof. intros h Hh. by apply HB. Qed.
Lemma keeps_collect {A B} (l : list A) (body : A -> hw H (list B)) : (forall x, keeps (body x)) -> keeps (collect l body).
Proof. intros Hb. induction l as [|x l IH]; [apply keeps_ret|]. apply keeps_bind; [apply Hb|]. intros y. apply keeps_bind; [exact IH|]. intros ys. apply keeps_ret. Qed.
End Keeps.

(** Straight-line driver code: every port it names is another one. *)
Ltac keep :=
  repeat lazymatch goal with
    | |- keeps (mbind _ _) => apply keeps_bind; [|intros]
    | |- keeps (mret _) => apply keeps_ret
    | |- keeps (port_outb _ _) => eapply keeps_outb; by_compute
    | |- keeps (port_inb _) => eapply keeps_inb; by_compute
    | |- keeps (port_outw _ _) => eapply keeps_outw; by_compute
    | |- keeps (port_inw _) => eapply keeps_inw; by_compute
    | |- keeps (port_out _ _) => eapply keeps_out; by_compute
    | |- keeps (port_in _) => eapply keeps_in; by_compute
    | |- keeps (Apic.mmio_write _ _) => eapply keeps_write
    | |- keeps (Apic.mmio_read _) => eapply keeps_read
    | |- keeps (collect _ _) => apply keeps_collect; intros
    | |- keeps (if _ then _ else _) => case_match
    | |- keeps (let '(_, _) := _ in _) => case_match
    | |- keeps _ => solve [eauto with keeps]
    end.
Create HintDb keeps.

(** Only the initialisation of the controllers and of the timer touch their ports. *)
Lemma keeps_pic {H} {HW : Hardware H} {HU : Serial.Uart H} {HB : Board H nil} : keeps Pic.pic_init.
Proof. unfold Pic.pic_init, io_wait. keep. Qed.
Lemma keeps_pit {H} {HW : Hardware H} {HU : Serial.Uart H} {HB : Board H PIC_PORTS} : keeps Pit.init.
Proof. unfold Pit.init. keep. Qed.

Section Drivers.
Context {H : Type} {HW : Hardware H} {HU : Serial.Uart H} {HB : Board H GUARD}.
Lemma keeps_poll n mask set : keeps (Mouse.poll_status n mask set).
Proof. induction n as [|n IH]; cbn [Mouse.poll_status]; unfold io_wait; keep. Qed.
#[local] Hint Resolve keeps_poll : keeps.
Lemma keeps_mouse : keeps Mouse.init.
Proof. unfold Mouse.init, Mouse.read_data, Mouse.write_mouse_cmd, Mouse.wait_input_ready, Mouse.wait_output_ready. generalize (Z.to_nat Mouse.POLLS). intros n. keep. Qed.
Lemma keeps_cmos r : keeps (Cmos.read_cmos_register r).
Proof. unfold Cmos.read_cmos_register. keep. Qed.
#[local] Hint Resolve keeps_cmos : keeps.
Lemma keeps_wait_update n : keeps (Cmos.wait_update n).
Proof. induction n as [|n IH]; cbn [Cmos.wait_update]; unfold Cmos.is_update_in_progress; keep. Qed.
#[local] Hint Resolve keeps_wait_update : keeps.
Lemma keeps_raw_rtc : keeps Cmos.read_raw_rtc.
Proof. unfold Cmos.read_raw_rtc. generalize (Z.to_nat Cmos.TIMEOUT). intros n. keep. Qed.
#[local] Hint Resolve keeps_raw_rtc : keeps.
Lemma keeps_reread n : forall last, keeps (Cmos.reread n last).
Proof. induction n as [|n IH]; intros last; cbn [Cmos.reread]; keep. Qed.
#[local] Hint Resolve keeps_reread : keeps.
Lemma keeps_rtc : keeps Cmos.read_rtc.
Proof. unfold Cmos.read_rtc. keep. Qed.
Lemma keeps_config b s f o : keeps (Pci.pci_read_config_u32 b s f o).
Proof. unfold Pci.pci_read_config_u32. keep. Qed.
#[local] Hint Resolve keeps_config : keeps.
Lemma keeps_scan : keeps Pci.scan_pci_bus.
Proof. unfold Pci.scan_pci_bus, Pci.scan_slot, Pci.scan_function, Pci.pci_read_config_u16, Pci.pci_read_config_u8. keep. Qed.
Lemma keeps_apic has m l : keeps (Apic.apic_init has m l).
Proof. unfold Apic.apic_init, Apic.lapic_send_eoi, Apic.read_reg, Apic.write_reg. cbv zeta. keep. Qed.
Lemma keeps_timer v n : keeps (Apic.init_timer v n).
Proof. unfold Apic.init_timer. keep. Qed.
Lemma keeps_available : keeps Bga.is_available.
Proof. unfold Bga.is_available, Bga.bga_read. keep. Qed.
#[local] Hint Resolve keeps_scan keeps_available : keeps.
Lemma keeps_framebuffer l : forall b, keeps (Bga.find_framebuffer l b).
Proof. induction l as [|d l IH]; intros b; cbn [Bga.find_framebuffer]; keep. Qed.
#[local] Hint Resolve keeps_framebuffer : keeps.
Lemma keeps_graphics w h b : keeps (Bga.init_graphics_mode w h b).
Proof. unfold Bga.init_graphics_mode, Bga.bga_write. keep. Qed.
End Drivers.

(** ** Boot code: it returns, the serial port still works, and [Q] holds of the result *)
Section Leads.
Context {H : Type}.
(** From a machine with [P] the code returns, with [Q] of the result and [P'] of the machine. *)
Definition leads {A} (P P' : H -> Prop) (m : hwo H A) (Q : A -> Prop) : Prop := forall h, P h -> exists a h', m h = Ret (a, h') /\ P' h' /\ Q a.
Lemma leads_bind {A B} (m : hwo H A) (f : A -> hwo H B) P0 P1 P2 P Q : leads P0 P1 m P -> (forall a, P a -> leads P1 P2 (f a) Q) -> leads P0 P2 (m ≫= f) Q.
Proof. intros Hm Hf h Hh. destruct (Hm h Hh) as (a & h1 & E & H1 & Ha). destruct (Hf a Ha h1 H1) as (b & h2 & E2 & Hb). exists b, h2. split; [|exact Hb]. unfold mbind, hwo_bind. by rewrite E. Qed.
Lemma leads_weaken {A} (m : hwo H A) P P' P'' (Q Q' : A -> Prop) : leads P P' m Q -> (forall h, P' h -> P'' h) -> (forall a, Q a -> Q' a) -> leads P P'' m Q'.
Proof. intros Hm HP HQ h Hh. destruct (Hm h Hh) as (a & h1 & E & H1 & Ha). exists a, h1. eauto. Qed.
Lemma leads_dev {A B} (m : hw H A) (f : A -> hwo H B) P0 P1 P2 Q : (forall h, P0 h -> P1 (snd (m h))) -> (forall a, leads P1 P2 (f a) Q) -> leads P0 P2 (dev m ≫= f) Q.
Proof. intros Hm Hf h Hh. specialize (Hm h Hh). unfold mbind, hwo_bind, dev. destruct (m h) as [a h1]. by apply Hf. Qed.
End Leads.

Section Runs.
Context {H : Type} {HW : Hardware H} {HU : Serial.Uart H} {HB : Board H GUARD}.
Definition runs {A} (m : hwo H A) (Q : A -> Prop) : Prop := leads Serial.uart_ok Serial.uart_ok m Q.
Lemma runs_ret {A} (a : A) (Q : A -> Prop) : Q a -> runs (mret a) Q.
Proof. intros Ha h Hh. by exists a, h. Qed.
Lemma runs_bind {A B} (m : hwo H A) (f : A -> hwo H B) P Q : runs m P -> (forall a, P a -> runs (f a) Q) -> runs (m ≫= f) Q.
Proof. apply leads_bind. Qed.
Lemma runs_then {A B} (m : hwo H A) (f : A -> hwo H B) P P2 Q : runs m P -> (forall a, P a -> leads Serial.uart_ok P2 (f a) Q) -> leads Serial.uart_ok P2 (m ≫= f) Q.
Proof. apply leads_bind. Qed.
Lemma runs_dev {A B} (m : hw H A) (f : A -> hwo H B) Q : keeps m -> (forall a, runs (f a) Q) -> runs (dev m ≫= f) Q.
Proof. apply leads_dev. Qed.
Lemma runs_pure {A B} (o : outcome A) a (f : A -> hwo H B) Q : o = Ret a -> runs (f a) Q -> runs (pure_ o ≫= f) Q.
Proof. intros -> Hf. exact Hf. Qed.
Lemma runs_weaken {A} (m : hwo H A) (P Q : A -> Prop) : runs m P -> (forall a, P a -> Q a) -> runs m Q.
Proof. intros Hm HQ. by eapply leads_weaken. Qed.

(** Before the buffers are in use the text goes to the port and to the screen. *)
Context (fuel : nat) (Hfuel : (Serial.max_polls < fuel)%nat).
Notation sys := (sys Pmm.Pmm).
Definition direct (s : sys) : Prop := Serial.percpu_ready (serial s) = false /\ Serial.serial1_held (serial s) = false.
(** [s], whatever its screen shows. *)
Definition shown (s s' : sys) : Prop := exists w t, s' = set_screen s w /\ Vga.shows w t.

Lemma runs_string l : runs (Serial.send_string Serial.COM1_BASE fuel l) (fun _ => True).
Proof.
  assert (Hb : forall b, runs (Serial.send_byte Serial.COM1_BASE fuel b) (fun _ => True)) by (intros b h Hh; destruct (Serial.sends_byte fuel Hfuel b h Hh) as (h' & E & Hh' & _); by exists tt, h').
  induction l as [|b l IH]; [by apply runs_ret|]. cbn [Serial.send_string]. eapply runs_bind; [case_match; [apply Hb|by apply runs_ret]|]. intros _ _. eapply runs_bind; [apply Hb|]. by intros _ _.
Qed.
Lemma runs_serial_print text s : direct s -> runs (serial_print fuel 0 text s) (eq s).
Proof.
  intros [Hr Hh]. unfold serial_print, Serial.print_, Serial.is_percpu_buffering_active. rewrite Hr, Hh. eapply runs_bind; [eapply (runs_bind _ _ (fun _ => True)); [apply runs_string|]; intros _ _; by apply (runs_ret _ (eq (serial s)))|].
  intros x <-. apply runs_ret. by destruct s.
Qed.
Lemma runs_println l s s1 : direct s -> shown s s1 -> runs (Handlers.println_ fuel 0 l s1) (shown s).
Proof.
  intros Hd (w & t & -> & Hw). unfold Handlers.println_, println. destruct (Vga.write_string_shows (l ++ [10]) w t Hw) as (w' & E & Hw' & _). eapply runs_pure; [exact E|].
  eapply runs_weaken; [by apply runs_serial_print|]. intros s' <-. by exists w', (t ++ (Vga.printable <$> l ++ [10])).
Qed.
Lemma runs_say l s : forall s1, direct s -> shown s s1 -> runs (say fuel 0 l s1) (shown s).
Proof. induction l as [|x l IH]; intros s1 Hd Hs; [by apply runs_ret|]. cbn [say]. eapply runs_bind; [by eapply runs_println|]. intros s2 Hs2. by apply IH. Qed.
Lemma runs_serial_println l s s1 : direct s -> shown s s1 -> runs (Handlers.serial_println fuel 0 l s1) (shown s).
Proof. intros Hd (w & t & -> & Hw). eapply runs_weaken; [by apply runs_serial_print|]. intros s' <-. by exists w, t. Qed.
Lemma runs_serial_lines l s : forall s1, direct s -> shown s s1 -> runs (serial_lines fuel l s1) (shown s).
Proof. induction l as [|x l IH]; intros s1 Hd Hs; [by apply runs_ret|]. cbn [serial_lines]. eapply runs_bind; [by eapply runs_serial_println|]. intros s2 Hs2. by apply IH. Qed.
Lemma runs_klog lv sub l s s1 : direct s -> shown s s1 -> runs (klog fuel lv sub l s1) (shown s).
Proof.
  intros Hd (w & t & -> & Hw). assert (Hsame : shown s (set_serial (set_screen s w) (serial (set_screen s w)))) by (exists w, t; by destruct s). unfold klog, Klog.log. case_match.
  - eapply runs_bind; [by apply (runs_ret _ (eq (serial (set_screen s w))))|]. intros x <-. by apply runs_ret.
  - eapply runs_weaken; [eapply (runs_serial_print _ (set_screen s w)), Hd|]. intros s' <-. by exists w, t.
Qed.
End Runs.

(** ** The initialisers, one by one
    [seems k k']: [k'] is [k], whatever the screen shows. *)
Section Steps.
Context {H : Type} {HW : Hardware H} {HU : Serial.Uart H} {HB : Board H GUARD} {D : Type} {DK : Disk D} {HN : Type} {HWN : Hardware HN} {HA : Type} {HWA : Hardware HA} {LA : SmpBoot.Lapic HA}.
Context (fuel : nat) (Hfuel : (Serial.max_polls < fuel)%nat) (ly : layout).
Notation kernel := (kernel (D := D) (HN := HN) (HA := HA)).
Implicit Types k : kernel.
Definition seen (k : kernel) (w : Vga.Writer) : kernel := set_sys k (set_screen (the_sys k) w).
Definition seems (k k' : kernel) : Prop := exists w t, k' = seen k w /\ Vga.shows w t.
Definition calm (k : kernel) : Prop := direct (the_sys k).

Lemma runs_on_sys f k k' : (forall s, shown (the_sys k) s -> runs (f s) (shown (the_sys k))) -> seems k k' -> runs (on_sys f k') (seems k).
Proof.
  intros Hf (w & t & -> & Hw). eapply runs_bind; [exact (Hf (set_screen (the_sys k) w) (ex_intro _ w (ex_intro _ t (conj eq_refl Hw))))|].
  intros s' (w' & t' & -> & Hw'). apply runs_ret. by exists w', t'.
Qed.
Lemma step_say l k k' : calm k -> seems k k' -> runs (on_sys (say fuel 0 l) k') (seems k).
Proof. intros Hc. apply runs_on_sys. intros s Hs. by apply runs_say. Qed.
Lemma step_serial l k k' : calm k -> seems k k' -> runs (on_sys (Handlers.serial_println fuel 0 l) k') (seems k).
Proof. intros Hc. apply runs_on_sys. intros s Hs. by apply runs_serial_println. Qed.
Lemma step_lines l k k' : calm k -> seems k k' -> runs (on_sys (serial_lines fuel l) k') (seems k).
Proof. intros Hc. apply runs_on_sys. intros s Hs. by apply runs_serial_lines. Qed.
Lemma step_klog lv sub l k k' : calm k -> seems k k' -> runs (on_sys (klog fuel lv sub l) k') (seems k).
Proof. intros Hc. apply runs_on_sys. intros s Hs. by apply runs_klog. Qed.
Lemma step_info sub l k k' : calm k -> seems k k' -> runs (on_sys (info fuel sub l) k') (seems k).
Proof. apply step_klog. Qed.
(** A change of the state that neither reads nor writes the screen. *)
Lemma seems_change (f : kernel -> kernel) k k' : (forall w, f (seen k w) = seen (f k) w) -> seems k k' -> seems (f k) (f k').
Proof. intros Hf (w & t & -> & Hw). rewrite Hf. by exists w, t. Qed.

Ltac prints := first [eapply step_say | eapply step_serial | eapply step_lines | eapply step_info | eapply step_klog]; [|eassumption]; assumption.

(** The states the initialisers lead to. *)
Definition with_frames (p : Pmm.Pmm) (k : kernel) : kernel := let w := the_world k in set_world k (UserSpace.mkWorld p (UserSpace.mem w) (UserSpace.KERNEL_CR3 w) (UserSpace.active_cr3 w)).
Definition tables (k : kernel) : list Z * Descriptors.Tss64 * Descriptors.GdtPointer := Descriptors.gdt_init (gdt_at ly) (tss_at ly) (ist1_stack ly) (kernel_stack ly) (tss (mach k)).
Definition with_gdt (k : kernel) : kernel := mkKernel (cons k) (with_tss (mach k) (tables k).1.2) (tables k).1.1 (tables k).2 (idt k) (smp k) (active_boot_info k).
Definition with_syscalls (k : kernel) : kernel := let m := mach k in set_mach k (configured (with_msrs m (Descriptors.init_on_cpu (msrs m) (syscall_entry ly)))).
Definition with_heap_at (k : kernel) : kernel := set_mach k (with_heap (mach k) (Allocator.init (heap (mach k)) (heap_storage ly) Allocator.HEAP_SIZE)).
Definition with_cr3 (k : kernel) : kernel := set_world k (UserSpace.init (the_world k)).

Lemma step_pmm mm p k k' : calm k -> Pmm.init (UserSpace.fa (the_world k)) mm = Ret p -> seems k k' -> runs (pmm_init fuel mm k') (seems (with_frames p k)).
Proof.
  intros Hc Hp Hk. assert (Hw : the_world k' = the_world k) by (by destruct Hk as (w & t & -> & _)). unfold pmm_init. rewrite Hw. eapply runs_pure; [exact Hp|].
  pose proof (seems_change (with_frames p) k k' ltac:(done) Hk) as Hk1. unfold with_frames in Hk1 at 2. cbv zeta in *. rewrite Hw in Hk1. assert (Hc1 : calm (with_frames p k)) by exact Hc.
  eapply runs_bind; [prints|]. intros k2 Hk2. prints.
Qed.
Lemma step_gdt k k' : calm k -> seems k k' -> runs (gdt_init fuel ly k') (seems (with_gdt k)).
Proof.
  intros Hc Hk. assert (Hc1 : calm (with_gdt k)) by exact Hc. pose proof (seems_change with_gdt k k' ltac:(done) Hk) as Hk1. unfold gdt_init. unfold with_gdt in Hk1 at 2. unfold tables in Hk1.
  destruct (Descriptors.gdt_init _ _ _ _ (tss (mach k'))) as [[g t] p]. cbn [fst snd] in Hk1. eapply runs_bind; [prints|]. intros k2 Hk2. prints.
Qed.
Lemma step_idt l k k' : calm k -> Descriptors.idt_init (interrupt_handlers ly) (idt k) = Ret l -> seems k k' -> runs (idt_init fuel ly k') (seems (set_idt k l)).
Proof.
  intros Hc Hl Hk. assert (Hi : idt k' = idt k) by (by destruct Hk as (w & t & -> & _)). unfold idt_init. rewrite Hi. eapply runs_pure; [exact Hl|].
  pose proof (seems_change (fun k => set_idt k l) k k' ltac:(done) Hk) as Hk1. assert (Hc1 : calm (set_idt k l)) by exact Hc. prints.
Qed.
Lemma step_syscall k k' : calm k -> seems k k' -> runs (syscall_init fuel ly k') (seems (with_syscalls k)).
Proof. intros Hc Hk. pose proof (seems_change with_syscalls k k' ltac:(done) Hk) as Hk1. assert (Hc1 : calm (with_syscalls k)) by exact Hc. eapply runs_bind; [prints|]. intros k2 Hk2. prints. Qed.
Lemma step_heap k k' : calm k -> seems k k' -> runs (init_heap fuel ly k') (seems (with_heap_at k)).
Proof. intros Hc Hk. pose proof (seems_change with_heap_at k k' ltac:(done) Hk) as Hk1. assert (Hc1 : calm (with_heap_at k)) by exact Hc. unfold init_heap. prints. Qed.
Lemma step_user_space k k' : calm k -> seems k k' -> runs (user_space_init fuel k') (seems (with_cr3 k)).
Proof. intros Hc Hk. pose proof (seems_change with_cr3 k k' ltac:(done) Hk) as Hk1. assert (Hc1 : calm (with_cr3 k)) by exact Hc. eapply runs_bind; [prints|]. intros k2 Hk2. prints. Qed.
End Steps.


(** ** The wake-up of the other processors leaves the boot processor's queue alone *)
Section Processors.
Context {HA : Type} {HWA : Hardware HA} {LA : SmpBoot.Lapic HA}.
Import SmpBoot.
Context (per_cpu_base ap_entry_addr syscall_entry_addr : Z) (stub : list Z) (kernel_cr3 lapic_phys : Z).
Context (q : Task.CpuScheduler) (entry : Z).
Notation smp_machine := (SmpBoot.machine HA).
Notation run_aps := (SmpBoot.run_aps per_cpu_base ap_entry_addr syscall_entry_addr).
Notation triple := (SmpBoot.triple (H := HA)).
Notation stable := (SmpBoot.stable per_cpu_base ap_entry_addr syscall_entry_addr).

(** No processor has taken the block of the boot processor, and none will. *)
Definition elsewhere (c : ap_pc) : bool := match c with Indexed i | Prepared i | Online i | Counted i | Idle i => negb (Nat.eqb i 0) | _ => true end.
Definition resting (c : ap_pc) : bool := match c with Halted | WaitSipi | Lost => true | _ => false end.
Record kept (m : smp_machine) : Prop := {
  k_lens : lens m;
  k_queue : schedulers m !! 0%nat = Some q;
  k_lstar : Descriptors.read_lstar (bsp_msrs m) = entry;
  k_else : Forall (fun a => elsewhere (pc a) = true) (aps m);
  k_index : AP_CPU_INDEX m <> 0%nat \/ Forall (fun a => resting (pc a) = true) (aps m)
}.

Lemma put_kept m j a a' : kept m -> aps m !! j = Some a -> elsewhere (pc a') = true -> (resting (pc a) = true -> resting (pc a') = true) -> kept (put_ap m j a').
Proof.
  intros [K1 K2 K3 K4 K5] Ha He Hr. constructor; try done.
  - cbn. by apply Forall_insert.
  - destruct K5 as [?|Hf]; [by left|right]. cbn. apply Forall_insert; [done|]. apply Hr. by apply (Forall_lookup_1 _ _ _ _ Hf Ha).
Qed.
Lemma entry_kept j m : kept m -> kept (ap_entry per_cpu_base ap_entry_addr syscall_entry_addr j m).
Proof.
  intros K. pose proof (ap_entry_lens per_cpu_base ap_entry_addr syscall_entry_addr j m (k_lens m K)) as Hl. unfold ap_entry in *. destruct (aps m !! j) as [a|] eqn:Ha; [|done]. pose proof (Forall_lookup_1 _ _ _ _ (k_else m K) Ha) as He. cbv beta in He.
  destruct (pc a) as [| | | | |i|i|i|i|i] eqn:Epc; try done; cbn [elsewhere] in He.
  - destruct (scratch m) as [[cr3 rsp] en]. apply (put_kept _ _ a); [done|done|cbn; by case_match|by rewrite Epc].
  - apply (put_kept _ _ a); [done|done| |by rewrite Epc]. cbn [set_pc pc elsewhere]. destruct (k_index m K) as [Hi|Hr]; [apply negb_true_iff, Nat.eqb_neq; exact Hi|]. pose proof (Forall_lookup_1 _ _ _ _ Hr Ha) as Hx. cbv beta in Hx. by rewrite Epc in Hx.
  - unfold prepare in *. destruct (PER_CPU m !! i) as [p|]; [|by apply (put_kept _ _ a); rewrite ?Epc]. destruct (schedulers m !! i) as [s|]; [|by apply (put_kept _ _ a); rewrite ?Epc].
    destruct (init_block per_cpu_base i p (ap_msrs a)) as [p' r]. apply negb_true_iff, Nat.eqb_neq in He. destruct K as [K1 K2 K3 K4 K5]. constructor; [exact Hl|cbn; by rewrite list_lookup_insert_ne|done| |].
    + cbn. apply Forall_insert; [done|]. cbn [pc elsewhere]. by apply negb_true_iff, Nat.eqb_neq.
    + left. destruct K5 as [?|Hr]; [done|]. pose proof (Forall_lookup_1 _ _ _ _ Hr Ha) as Hx. cbv beta in Hx. by rewrite Epc in Hx.
  - pose proof (put_kept m j a (set_pc (Online i) a) K Ha He ltac:(by rewrite Epc)) as [K1 K2 K3 K4 K5]. by constructor.
  - pose proof (put_kept m j a (set_pc (Counted i) a) K Ha He ltac:(by rewrite Epc)) as [K1 K2 K3 K4 K5]. by constructor.
  - destruct (SMP_STARTED m); [|done]. apply (put_kept _ _ a); [done|done|done|by rewrite Epc].
Qed.
Definition indexed (m : smp_machine) : Prop := kept m /\ AP_CPU_INDEX m <> 0%nat.
Lemma entry_index j m : AP_CPU_INDEX (ap_entry per_cpu_base ap_entry_addr syscall_entry_addr j m) = AP_CPU_INDEX m.
Proof. unfold ap_entry, prepare. repeat case_match; done. Qed.
Lemma kept_stable : stable kept.
Proof. split; [|by intros s b m [K1 K2 K3 K4 K5]]. intros l. induction l as [|j l IH]; intros m Hm; [done|]. cbn [SmpBoot.run_aps fold_left]. by apply IH, entry_kept. Qed.
Lemma indexed_stable : stable indexed.
Proof.
  split; [|by intros s b m [[K1 K2 K3 K4 K5] Hi]]. intros l. induction l as [|j l IH]; intros m [Hm Hi]; [done|]. cbn [SmpBoot.run_aps fold_left]. apply IH. split; [by apply entry_kept|by rewrite entry_index].
Qed.
Lemma write_indexed a v m : indexed m -> indexed (write_lapic stub lapic_phys a v m).
Proof.
  intros [[K1 K2 K3 K4 K5] Hi]. unfold write_lapic. repeat case_match; [split; [by constructor|done]| |split; [by constructor|done]]. split; [|done]. constructor; [done|done|done| |by left]. cbn.
  apply Forall_fmap. eapply Forall_impl; [exact K4|]. intros b Hb. cbn. unfold receive. repeat case_match; done.
Qed.
Lemma send_indexed b id v : triple indexed (send_ipi per_cpu_base ap_entry_addr syscall_entry_addr stub lapic_phys b id v) (fun _ => indexed).
Proof. unfold send_ipi. eapply triple_bind; [apply triple_modify; [apply indexed_stable|apply write_indexed]|]. intros []. apply triple_modify; [apply indexed_stable|apply write_indexed]. Qed.
Lemma poll_indexed i : (i < MAX_CPUS)%nat -> triple indexed (poll_online per_cpu_base ap_entry_addr syscall_entry_addr i) (fun _ => indexed).
Proof.
  intros Hi. unfold poll_online. eapply triple_bind; [apply triple_fetch, indexed_stable|]. intros o m [Ho Hm]. destruct (lookup_lt_is_Some_2 (PER_CPU m) i) as [p Hp]; [by rewrite (k_lens m (proj1 Hm))|]. rewrite Ho, Hp. by eexists _, _.
Qed.
Lemma wake_indexed b id i : (i < MAX_CPUS)%nat -> triple indexed (wake_up per_cpu_base ap_entry_addr syscall_entry_addr stub lapic_phys b id i) (fun _ => indexed).
Proof.
  intros Hi. pose proof indexed_stable as HS. unfold wake_up. cbv zeta.
  do 3 (eapply triple_bind; [apply send_indexed|]; intros []; eapply triple_bind; [by apply triple_wait|]; intros []; eapply triple_bind; [by apply triple_others|]; intros []).
  eapply triple_bind; [by apply poll_indexed|]. intros [|]; [apply triple_skip|]. eapply triple_bind; [apply send_indexed|]. intros []. by apply triple_wait.
Qed.
Lemma wait_indexed n i : (i < MAX_CPUS)%nat -> triple indexed (wait_online per_cpu_base ap_entry_addr syscall_entry_addr n i) (fun _ => indexed).
Proof.
  intros Hi. induction n as [|n IH]; cbn [wait_online]; [apply triple_skip|]. eapply triple_bind; [by apply poll_indexed|]. intros [|]; [apply triple_skip|].
  eapply triple_bind; [apply triple_others, indexed_stable|]. intros []. exact IH.
Qed.
Lemma start_kept b id i : (0 < i < MAX_CPUS)%nat -> triple kept (start_one per_cpu_base ap_entry_addr syscall_entry_addr stub kernel_cr3 lapic_phys b id i) (fun _ => kept).
Proof.
  intros Hi. unfold start_one. eapply triple_bind; [apply (triple_modify _ _ _ _ _ kept); [apply kept_stable|]|].
  { intros m [K1 K2 K3 K4 K5]. constructor; try done. unfold lens. cbn. by rewrite length_alter. }
  intros []. eapply triple_bind; [apply (triple_modify _ _ _ _ _ indexed); [apply kept_stable|]|].
  { intros m [K1 K2 K3 K4 K5]. split; [constructor; try done; left|]; cbn; lia. }
  intros []. eapply triple_bind; [apply (triple_modify _ _ _ _ _ indexed); [apply indexed_stable|]|].
  { intros m [[K1 K2 K3 K4 K5] Hx]. split; [by constructor|done]. }
  intros []. eapply triple_bind; [apply wake_indexed; lia|]. intros []. eapply triple_weaken; [apply wait_indexed; lia|done|]. by intros x m [? _].
Qed.
Lemma cores_kept b bsp l : forall i count, (0 < i)%nat -> triple kept (start_cores per_cpu_base ap_entry_addr syscall_entry_addr stub kernel_cr3 lapic_phys b bsp l i count) (fun _ => kept).
Proof.
  induction l as [|c l IH]; intros i count Hi; cbn [start_cores]; [apply triple_skip|]. case_match; [by apply IH|]. destruct (Nat.leb_spec MAX_CPUS i); [apply triple_skip|].
  eapply triple_bind; [apply start_kept; lia|]. intros x. apply IH. lia.
Qed.
Lemma init_kept acpi bsp : Z.of_nat (length stub) <= 0x1000 ->
  triple kept (SmpBoot.init per_cpu_base ap_entry_addr syscall_entry_addr stub kernel_cr3 lapic_phys acpi bsp) (fun _ => kept).
Proof.
  intros Hs. pose proof kept_stable as HS. unfold SmpBoot.init. eapply triple_bind; [apply (triple_modify _ _ _ _ _ kept); [done|]|].
  { intros m [K1 K2 K3 K4 K5]. constructor; try done. unfold lens. cbn. by rewrite length_alter. }
  intros []. eapply triple_bind; [apply (triple_modify _ _ _ _ _ kept); [done|]|].
  { intros m [K1 K2 K3 K4 K5]. by constructor. }
  intros []. case_match; [apply triple_skip|]. cbv zeta. case_match; [apply triple_skip|]. eapply (triple_bind _ _ (fun _ => kept)).
  - unfold copy_trampoline. rewrite (proj2 (Z.ltb_ge _ _)) by done. apply triple_modify; [done|]. by intros m [K1 K2 K3 K4 K5].
  - intros []. eapply triple_bind; [apply cores_kept; lia|]. intros n. eapply triple_bind; [apply triple_fetch, HS|]. intros total. eapply triple_weaken; [apply triple_skip|by intros m [_ ?]|done].
Qed.
End Processors.

(** ** The parts of [kernel_main] *)
Section Phases.
Context {H : Type} {HW : Hardware H} {HU : Serial.Uart H} {HB : Board H GUARD} {D : Type} {DK : Disk D} {HN : Type} {HWN : Hardware HN} {HA : Type} {HWA : Hardware HA} {LA : SmpBoot.Lapic HA}.
Context (fuel : nat) (Hfuel : (Serial.max_polls < fuel)%nat) (ly : layout).
Notation kernel := (kernel (D := D) (HN := HN) (HA := HA)).
Implicit Types k : kernel.
Ltac prints := first [eapply step_say | eapply step_serial | eapply step_lines | eapply step_info | eapply step_klog]; [exact Hfuel| |eassumption]; assumption.
Ltac then_prints := eapply runs_bind; [prints|]; let k' := fresh "kp" in let Hk := fresh "Hkp" in intros k' Hk.

Definition after_memory (boot_info : BootInfo) (p : Pmm.Pmm) (l : list Descriptors.IdtEntry) (k : kernel) : kernel :=
  with_cr3 (with_heap_at ly (with_syscalls ly (set_idt (with_gdt ly (with_frames p (set_info k (set_active_boot_info boot_info (active_boot_info k))))) l))).
Lemma devices_run k k' : calm k -> seems k k' -> runs (boot_devices fuel k') (seems k).
Proof.
  intros Hc Hk. unfold boot_devices. then_prints. then_prints. cbv zeta. eapply runs_dev; [apply keeps_rtc|]. intros rtc. then_prints. then_prints. then_prints.
  eapply runs_dev; [apply keeps_scan|]. intros l. then_prints. then_prints. prints.
Qed.

(** ** Tables, tasks, processors and display *)
Definition with_tables (a : Acpi.AcpiInfo) (r : Descriptors.msrs) (l : Apic.LocalApic) (k : kernel) : kernel := set_mach k (with_lapic (with_msrs (with_acpi (mach k) a) r) l).
Definition with_tasks (t : Task.kernel Pmm.Pmm) (k : kernel) : kernel := set_sys k (set_kern (the_sys k) t).
Definition with_display (m : Paging.memory) (d : desk) (k : kernel) : kernel :=
  let w := the_world k in let k := set_world k (UserSpace.mkWorld (UserSpace.fa w) m (UserSpace.KERNEL_CR3 w) (UserSpace.active_cr3 w)) in set_cons k (set_display (cons k) d).

Lemma apic_lstar has m l (h : H) : Descriptors.read_lstar (Apic.apic_init has m l h).1.1.2 = Descriptors.read_lstar m.
Proof.
  unfold Apic.apic_init. cbv zeta. destruct has; [|done]. cbn [negb]. unfold mbind, hw_bind, mret, hw_ret. repeat (match goal with |- context [let '(_, _) := ?e in _] => destruct e end). cbn [fst snd].
  case_match; [unfold Descriptors.read_lstar; by rewrite Descriptors.rdmsr_other|done].
Qed.
(** The controller is on, at an address. *)
Definition enabled (l : Apic.LocalApic) : Prop := Apic.is_enabled l = true /\ Apic.base_addr l <> 0.
Lemma apic_enabled m l (h : H) : enabled (Apic.apic_init true m l h).1.2.
Proof.
  split; [|apply Apic.apic_base_nonzero]. unfold Apic.apic_init. cbn [negb]. cbv zeta. unfold mbind, hw_bind, mret, hw_ret.
  repeat (match goal with |- context [let '(_, _) := ?e in _] => destruct e end). reflexivity.
Qed.
Lemma step_apic k k' a : calm k -> seems (set_mach k (with_acpi (mach k) a)) k' ->
  runs (apic_init k') (fun k2 => exists r l, Descriptors.read_lstar r = Descriptors.read_lstar (msrs (mach k)) /\ (Cpuid.has_apic (Cpuid.get_cpu_info (cpuid (mach k))) = true -> enabled l) /\ seems (with_tables a r l k) k2).
Proof.
  intros Hc Hk. assert (Hm : mach k' = with_acpi (mach k) a) by (by destruct Hk as (w & t & -> & _)). unfold apic_init. rewrite Hm. intros h Hh.
  pose proof (keeps_apic (Cpuid.has_apic (Cpuid.get_cpu_info (cpuid (mach k)))) (msrs (mach k)) (lapic (mach k)) h Hh) as Hu.
  pose proof (apic_lstar (Cpuid.has_apic (Cpuid.get_cpu_info (cpuid (mach k)))) (msrs (mach k)) (lapic (mach k)) h) as Hl. pose proof (apic_enabled (msrs (mach k)) (lapic (mach k)) h) as Hen. unfold mbind, hwo_bind, dev. cbn [cpuid msrs lapic with_acpi].
  destruct (Cpuid.has_apic _); destruct (Apic.apic_init _ _ _ h) as [[[ok r] l] h1]; eexists _, h1; (split; [reflexivity|]); (split; [exact Hu|]); exists r, l; (split; [exact Hl|]); (split; [done|]); destruct Hk as (w & t & -> & Hw); by exists w, t.
Qed.
Lemma step_acpi rsdp k k' : Acpi.byte_memory (rom ly) -> AcpiMapped.init_with_rsdp (rom ly) (rom_mapped ly) rsdp (acpi (mach k)) <> None -> seems k k' -> runs (acpi_init ly rsdp k') (fun k2 => exists b a, Acpi.init_with_rsdp (rom ly) rsdp (acpi (mach k)) = Ret (b, a) /\ seems (set_mach k (with_acpi (mach k) a)) k2).
Proof.
  intros Hrom Hmap Hk. assert (Hm : mach k' = mach k) by (by destruct Hk as (w & t & -> & _)). destruct (Acpi.init_with_rsdp_safe (rom ly) rsdp (acpi (mach k)) Hrom) as (b & a & E). unfold acpi_init. rewrite Hm.
  pose proof (AcpiMapped.init_agrees (rom ly) (rom_mapped ly) rsdp (acpi (mach k))) as Hagree. destruct (AcpiMapped.init_with_rsdp _ _ _ _) as [r|]; [|done]. cbn in Hagree. rewrite E in Hagree. subst r.
  eapply runs_pure; [reflexivity|]. apply runs_ret. exists b, a. split; [exact E|]. by apply (seems_change (fun k => set_mach k (with_acpi (mach k) a))) in Hk; [rewrite Hm in Hk|].
Qed.
Lemma step_task k k' t q : calm k -> Task.init (kern (the_sys k)) (sentinel_entry ly) (sentinel_stack ly) = Ret t -> Task.CPU_SCHEDULERS t !! 0%nat = Some q -> seems k k' -> runs (task_init fuel ly k') (seems (with_tasks t k)).
Proof.
  intros Hc Ht Hq Hk. assert (Hs : kern (the_sys k') = kern (the_sys k)) by (by destruct Hk as (w & x & -> & _)). unfold task_init. rewrite Hs. eapply runs_pure; [exact Ht|]. eapply runs_pure; [rewrite (at_Ret _ _ _ Hq); reflexivity|].
  pose proof (seems_change (with_tasks t) k k' ltac:(done) Hk) as Hk1. assert (Hc1 : calm (with_tasks t k)) by exact Hc. unfold with_tasks in Hk1 at 2. prints.
Qed.
Lemma step_smp k k' q : calm k -> Z.of_nat (length (stub ly)) <= 0x1000 -> kept q (Descriptors.read_lstar (msrs (mach k))) (smp_before k) -> seems k k' ->
  runs (smp_init fuel ly k') (fun k2 => exists m, kept q (Descriptors.read_lstar (msrs (mach k))) m /\ seems (smp_after m k) k2).
Proof.
  intros Hc Hst Hkept Hk. assert (Hm : mach k' = mach k /\ smp_before k' = smp_before k) by (by destruct Hk as (w & t & -> & _)). destruct Hm as [Hm Hb]. unfold smp_init. rewrite Hm, Hb.
  destruct (init_kept (per_cpu_base ly) (ap_entry ly) (syscall_entry ly) (stub ly) (CR3 (mach k)) (lapic_phys ly) q _ (acpi (mach k)) (Apic.apic_id (lapic (mach k))) Hst _ Hkept) as (r & m & E & Hm').
  eapply runs_pure; [exact E|]. pose proof (seems_change (smp_after m) k k' ltac:(done) Hk) as Hk1. assert (Hc1 : calm (smp_after m k)) by exact Hc.
  eapply runs_weaken; [apply step_say; [exact Hfuel|exact Hc1|exact Hk1]|]. intros k2 Hk2. by exists m.
Qed.
(** Machines without the graphics adapter. *)
Definition text_only : Prop := forall h : H, fst (Bga.is_available h) = false.
Lemma step_display k k' : calm k -> seems k k' -> runs (start_display k') (fun x => (text_only -> x.1 = false) /\ exists m d, seems (with_display m d k) x.2).
Proof.
  intros Hc Hk h Hh. assert (Hsame : exists m d, seems (with_display m d k) k').
  { exists (UserSpace.mem (the_world k)), (display (cons k)). destruct Hk as (w & t & -> & Hw). exists w, t. split; [|exact Hw]. unfold seen, with_display, set_world, set_sys, set_cons, the_world, the_sys. destruct k as [[[[? ? ? ? [] ?] ? ? ? ? ? ?] ? ? ? ? ?] ? ? ? ? ? ?]. done. }
  unfold start_display. pose proof (keeps_available h Hh) as Hu. unfold mbind at 1, hwo_bind at 1, dev at 1. unfold text_only. destruct (Bga.is_available h) as [avail h1] eqn:Ea. cbn [snd] in Hu.
  destruct avail; cbn [negb]; [|by exists (false, k'), h1]. pose proof (keeps_graphics Bga.SCREEN_WIDTH Bga.SCREEN_HEIGHT (adapter (display (cons k'))) h1 Hu) as Hg.
  unfold mbind, hwo_bind, dev. destruct (Bga.init_graphics_mode _ _ _ h1) as [[ok b] h2]. cbn [snd] in Hg. eexists _, h2. split; [reflexivity|]. split; [exact Hg|]. cbn [fst snd]. split; [intros Hno; specialize (Hno h); by rewrite Ea in Hno|].
  destruct Hk as (w & t & -> & Hw). destruct ok; [by eexists _, _, w, t|]. exists (UserSpace.mem (the_world k)), (mkDesk b (vram (display (cons k)))), w, t. split; [|exact Hw].
  unfold seen, with_display, set_world, set_sys, set_cons, the_world, the_sys. destruct k as [[[[? ? ? ? [] ?] ? ? ? ? ? ?] ? ? ? ? ?] ? ? ? ? ? ?]. done.
Qed.

Definition mapped (k : kernel) : kernel := init_hardware_mappings k.
(** The first run queue after [task::init], from the empty one. *)
Definition first_queue (q : Task.CpuScheduler) (id : Z) : Prop :=
  exists t, Task.tasks q = [Task.root "kernel-shell"; t] /\ Task.current q = 0%nat /\ Task.id t = id /\ Task.name t = "sentinel-worker" /\ Task.state t = Task.Ready.
Lemma task_init_queue (kk : Task.kernel Pmm.Pmm) e b l : Task.CPU_SCHEDULERS kk = Task.sched_new 0 :: l ->
  exists t q, Task.init kk e b = Ret t /\ Task.CPU_SCHEDULERS t = q :: l /\ first_queue q (Task.NEXT_TASK_ID kk) /\ UserSpace.fa (Task.kworld t) = UserSpace.fa (Task.kworld kk) /\
    UserSpace.KERNEL_CR3 (Task.kworld t) = UserSpace.KERNEL_CR3 (Task.kworld kk) /\ UserSpace.active_cr3 (Task.kworld t) = UserSpace.active_cr3 (Task.kworld kk).
Proof.
  intros El. unfold Task.init, Task.next_id, Task.task_new. cbn [Task.kworld]. destruct (Context.init_frame _ _ _) as [m r]. unfold Task.with_sched. cbn [Task.CPU_SCHEDULERS]. rewrite El. eexists _, _. split; [reflexivity|]. split; [reflexivity|]. split; [by eexists|done].
Qed.

(** What the processors' part leaves. *)
Record processors_ready (boot_info : BootInfo) (k0 k : kernel) : Prop := {
  pr_same : gdt k = gdt k0 /\ idt k = idt k0 /\ active_boot_info k = active_boot_info k0 /\ serial (the_sys k) = serial (the_sys k0) /\ TSS_LOADED (mach k) = TSS_LOADED (mach k0) /\ SYSCALL_CONFIGURED (mach k) = SYSCALL_CONFIGURED (mach k0);
  pr_lstar : Descriptors.read_lstar (msrs (mach k)) = Descriptors.read_lstar (msrs (mach k0));
  pr_frames : UserSpace.fa (the_world k) = UserSpace.fa (the_world k0) /\ UserSpace.KERNEL_CR3 (the_world k) = UserSpace.KERNEL_CR3 (the_world k0) /\ UserSpace.active_cr3 (the_world k) = UserSpace.active_cr3 (the_world k0);
  pr_queue : exists q, Task.CPU_SCHEDULERS (kern (the_sys k)) !! 0%nat = Some q /\ first_queue q (Task.NEXT_TASK_ID (kern (the_sys k0)));
  pr_store : store (cons k) = store (cons k0) /\ net (cons k) = net (cons k0) /\ nic (cons k) = nic (cons k0) /\ heap (mach k) = heap (mach k0);
  pr_acpi : exists b, Acpi.init_with_rsdp (rom ly) (acpi_rsdp boot_info) (acpi (mach k0)) = Ret (b, acpi (mach k));
  pr_apic : cpuid (mach k) = cpuid (mach k0) /\ (Cpuid.has_apic (Cpuid.get_cpu_info (cpuid (mach k0))) = true -> enabled (lapic (mach k)))
}.
(** Before the wake-up the other processors are halted. *)
Definition smp_reset (m : SmpBoot.machine HA) : Prop := SmpBoot.lens m /\ Forall (fun a => SmpBoot.pc a = SmpBoot.Halted) (SmpBoot.aps m).

Lemma smp_before_kept k q l : smp_reset (smp k) -> Task.CPU_SCHEDULERS (kern (the_sys k)) = q :: l -> kept q (Descriptors.read_lstar (msrs (mach k))) (smp_before k).
Proof.
  intros [Hl Ha] Hq. constructor; [exact Hl|cbn; by rewrite Hq|done| |right]; cbn; (eapply Forall_impl; [exact Ha|]); intros a Hpc; cbv beta in *; by rewrite Hpc.
Qed.
Lemma processors_run boot_info k k' l : calm k -> Acpi.byte_memory (rom ly) -> AcpiMapped.init_with_rsdp (rom ly) (rom_mapped ly) (acpi_rsdp boot_info) (acpi (mach k)) <> None -> Z.of_nat (length (stub ly)) <= 0x1000 -> smp_reset (smp k) -> Task.CPU_SCHEDULERS (kern (the_sys k)) = Task.sched_new 0 :: l -> seems k k' ->
  runs (boot_processors fuel ly boot_info k') (fun x => (text_only -> x.1 = false) /\ exists k2, seems k2 x.2 /\ processors_ready boot_info k k2).
Proof.
  intros Hc Hrom Hrd Hstub Hsmp Hq Hk. unfold boot_processors. pose proof (seems_change mapped k k' ltac:(done) Hk) as Hk1. set (a1 := mapped k) in Hk1.
  eapply runs_bind; [apply (step_acpi _ a1); [exact Hrom|exact Hrd|exact Hk1]|]. intros k2 (b & a & Ea & Hk2). eapply runs_bind; [by apply (step_apic a1)|]. intros k3 (r & lapic' & Hr & Hen & Hk3). set (a3 := with_tables a r lapic' a1) in Hk3.
  destruct (task_init_queue (kern (the_sys a3)) (sentinel_entry ly) (sentinel_stack ly) l Hq) as (t & q & Et & Eq & Hfirst & Ew). assert (Hc3 : calm a3) by exact Hc.
  eapply runs_bind; [eapply (step_task a3 _ t q); [exact Hc3|exact Et|by rewrite Eq|exact Hk3]|]. intros k4 Hk4. set (a4 := with_tasks t a3) in Hk4. assert (Hc4 : calm a4) by exact Hc. then_prints. then_prints.
  eapply runs_bind; [eapply (step_smp a4 _ q); [exact Hc4|exact Hstub|by apply (smp_before_kept a4 q l)|eassumption]|]. intros k5 (m & [_ Hmq Hml _ _] & Hk5). set (a5 := smp_after m a4) in Hk5.
  eapply runs_bind; [by apply (step_display a5)|]. intros [bga k6] [Hno (mem & d & Hk6)]. cbn [fst snd] in *. set (a6 := with_display mem d a5) in Hk6. assert (Hc6 : calm a6) by exact Hc.
  eapply (runs_bind _ _ (seems a6)); [destruct bga; [then_prints; prints|prints]|]. intros k7 Hk7. then_prints. apply runs_ret. split; [exact Hno|]. exists a6. split; [eassumption|].
  constructor; [done|cbn; by rewrite Hml|exact Ew| |done|by exists b|by split]. exists q. split; [exact Hmq|exact Hfirst].
Qed.

(** ** With the buffers in use
    [over k k']: [k'] is [k], whatever the screen shows and the buffers hold. *)
Definition buffered (x : Serial.serial) : Prop := Serial.percpu_ready x = true /\ Serial.serial1_held x = false /\ length (Serial.buffers x) = Task.MAX_CPUS /\ Forall Serial.buf_ok (Serial.buffers x).
Definition drawn (k : kernel) (x : Serial.serial) (w : Vga.Writer) : kernel := set_sys k (set_screen (set_serial (the_sys k) x) w).
Definition over (k k' : kernel) : Prop := exists x w t, k' = drawn k x w /\ buffered x /\ Vga.shows w t.

Lemma write_str_ok text : forall b, Serial.buf_ok b -> Serial.buf_ok (Serial.write_str b text).
Proof. induction text as [|c text IH]; intros b Hb; [done|]. cbn [Serial.write_str]. apply IH. apply Serial.push_byte_spec. case_match; [by apply Serial.push_byte_spec|done]. Qed.
Lemma buffered_print text x : buffered x -> exists x', buffered x' /\ runs (Serial.print_ fuel 0 text x) (eq x') (H := H).
Proof.
  intros (Hr & Hh & Hl & Hb). destruct (lookup_lt_is_Some_2 (Serial.buffers x) 0) as [b E]; [rewrite Hl; unfold Task.MAX_CPUS; lia|]. exists (Serial.set_buffers x (<[0%nat := Serial.write_str b text]> (Serial.buffers x))). split.
  - split; [done|]. split; [done|]. cbn. rewrite length_insert. split; [done|]. apply Forall_insert; [done|]. apply write_str_ok. by apply (Forall_lookup_1 _ _ _ _ Hb E).
  - unfold Serial.print_, Serial.is_percpu_buffering_active. rewrite Hr, decide_True by (unfold Task.MAX_CPUS; lia). eapply runs_pure; [exact (at_Ret _ _ _ E)|]. by apply runs_ret.
Qed.
Lemma over_serial text k k' : over k k' -> runs (on_sys (serial_print fuel 0 text) k') (over k).
Proof.
  intros (x & w & t & -> & Hx & Hw). destruct (buffered_print text x Hx) as (x' & Hx' & Hr). unfold on_sys, serial_print. eapply (runs_bind _ _ (eq (set_screen (set_serial (the_sys k) x') w))).
  - eapply runs_bind; [exact Hr|]. intros y <-. by apply runs_ret.
  - intros s <-. apply runs_ret. by exists x', w, t.
Qed.
Lemma over_print text k k' : over k k' -> runs (on_sys (print fuel 0 text) k') (over k).
Proof.
  intros (x & w & t & -> & Hx & Hw). destruct (Vga.write_string_shows text w t Hw) as (w' & E & Hw' & _). destruct (buffered_print text x Hx) as (x' & Hx' & Hr). unfold on_sys, print. eapply (runs_bind _ _ (eq (set_screen (set_serial (the_sys k) x') w'))).
  - eapply runs_pure; [exact E|]. eapply runs_bind; [exact Hr|]. intros y <-. by apply runs_ret.
  - intros s <-. apply runs_ret. by exists x', w', (t ++ (Vga.printable <$> text)).
Qed.
Lemma over_say l : forall k k', over k k' -> runs (on_sys (say fuel 0 l) k') (over k).
Proof.
  induction l as [|x l IH]; intros k k' Hk.
  - intros h Hh. exists (set_sys k' (the_sys k')), h. split; [done|]. split; [done|]. destruct Hk as (y & w & t & -> & Hy & Hw). by exists y, w, t.
  - intros h Hh. destruct (over_print (x ++ [10]) k k' Hk h Hh) as (k1 & h1 & E1 & Hh1 & Hk1). destruct (IH k k1 Hk1 h1 Hh1) as (k2 & h2 & E2 & Hh2 & Hk2). exists k2, h2. split; [|done].
    unfold on_sys, mbind, hwo_bind in *. cbn [say]. unfold mbind, hwo_bind. change (Handlers.println_ fuel 0 x (the_sys k') h) with (print fuel 0 (x ++ [10]) (the_sys k') h).
    destruct (print fuel 0 (x ++ [10]) (the_sys k') h) as [[s1 g1]| |]; [|done|done]. injection E1 as <- <-. exact E2.
Qed.
Lemma over_klog lv sub l k k' : over k k' -> runs (on_sys (klog fuel lv sub l) k') (over k).
Proof.
  intros Hk. unfold klog, Klog.log. intros h Hh. destruct (Klog.level_byte lv <? Klog.level_byte (Klog.min_level (log_level (the_sys k')))) eqn:El.
  - exists (set_sys k' (set_serial (the_sys k') (serial (the_sys k')))), h. unfold on_sys. rewrite El. split; [done|]. split; [done|]. destruct Hk as (y & w & t & -> & Hy & Hw). by exists y, w, t.
  - destruct (over_serial (Klog.format_line lv (txt sub) l (Task.TICKS (kern (the_sys k')))) k k' Hk h Hh) as (k1 & h1 & E & Hr). exists k1, h1. split; [|exact Hr]. unfold on_sys. rewrite El. exact E.
Qed.
Lemma over_flush k k' : over k k' -> runs (flush fuel k') (over k).
Proof.
  intros (x & w & t & -> & (Hr & Hh & Hl & Hb) & Hw). set (n := Serial.online (Task.cpu_count (kern (the_sys k)))). assert (Hn : (n <= Task.MAX_CPUS)%nat) by (unfold n, Serial.online; lia).
  destruct (Serial.any_pending_false (Serial.buffers x) n 0 Hb ltac:(lia)) as (p & Hp & _). destruct (Serial.sends_flush_cpus fuel Hfuel n (Serial.buffers x) 0 Hb ltac:(lia)) as (l' & Hlen' & Hl' & _ & _ & Hs).
  assert (Hx : forall y, buffered y -> over k (set_sys (drawn k x w) (set_serial (the_sys (drawn k x w)) y))) by (intros y Hy; by exists y, w, t). assert (Hsame : buffered x) by done.
  unfold flush, on_sys, Serial.serial_flush_all, Serial.is_percpu_buffering_active. cbn [the_sys drawn set_sys set_cons cons set_system system set_screen set_serial serial kern]. fold n. rewrite Hr, Hh. cbn [negb]. unfold hwo.
  eapply (runs_bind _ _ (fun s => exists y, buffered y /\ s = set_serial (the_sys (drawn k x w)) y)).
  - eapply (runs_bind _ _ (buffered)); [|intros y Hy; apply runs_ret; by exists y]. eapply runs_pure; [exact Hp|]. destruct (negb p); [by apply runs_ret|].
    eapply (runs_bind _ _ (eq l')); [intros h Hu; destruct (Hs h Hu) as (h' & E & Hu' & _); by exists l', h'|]. intros y <-. apply runs_ret. split; [exact Hr|]. split; [exact Hh|]. cbn. split; [by rewrite Hlen'|done].
  - intros s (y & Hy & ->). apply runs_ret. by apply Hx.
Qed.

(** ** Files, network, timers and the shell's console *)
Definition with_files (v : Vfs.Vfs) (k : kernel) : kernel := set_cons k (set_store (cons k) (set_vfs (store (cons k)) v)).
Definition with_net (n : Network.NetworkManager) (card : Network.card HN) (k : kernel) : kernel := set_cons k (set_net (cons k) n card).
Definition with_buffers (k : kernel) : kernel := set_sys k (set_serial (the_sys k) (Serial.enable_percpu_buffering (serial (the_sys k)))).

Lemma step_fs k k' v : calm k -> Vfs.init Elf.build_hello_elf Elf.build_counter_elf Elf.build_init_elf (vfs (store (cons k))) = Ret v -> seems k k' -> runs (fs_init fuel k') (seems (with_files v k)).
Proof.
  intros Hc Hv Hk. assert (Hs : store (cons k') = store (cons k)) by (by destruct Hk as (w & t & -> & _)). unfold fs_init. rewrite Hs. eapply runs_pure; [exact Hv|].
  pose proof (seems_change (with_files v) k k' ltac:(done) Hk) as Hk1. assert (Hc1 : calm (with_files v k)) by exact Hc. unfold with_files in Hk1 at 2. rewrite Hs in Hk1. prints.
Qed.
(** What [net::init] leaves of the card and of the stack. *)
Definition network_of (now : Z) (c0 : Network.card HN) (n0 : Network.NetworkManager) : Network.NetworkManager * Network.card HN :=
  let '(found, driver, h) := E1000.init (dma ly) (Network.driver c0) (Network.machine_of c0) in
  let card := Network.mkCard driver h (Network.head c0) in ((Network.init now found card n0).2, card).
Definition networked (now : Z) (k : kernel) : kernel := let x := network_of now (nic (cons k)) (net (cons k)) in with_net x.1 x.2 k.
Lemma step_net k k' : calm k -> seems k k' -> runs (net_init fuel ly k') (fun x => exists now, seems (networked now k) x.2).
Proof.
  intros Hc Hk. set (now := Task.TICKS (kern (system (cons k')))). pose proof (seems_change (networked now) k k' ltac:(done) Hk) as Hk1. assert (Hc1 : calm (networked now k)) by exact Hc.
  unfold net_init. cbv zeta. destruct (E1000.init _ _ _) as [[found driver] h'] eqn:Ei. fold now. set (card := Network.mkCard _ _ _). destruct (Network.init now found card _) as [ok n] eqn:En.
  assert (E : networked now k' = set_cons k' (set_net (cons k') n card)) by (unfold networked, network_of, with_net; rewrite Ei; cbv zeta; fold card; rewrite En; reflexivity).
  rewrite E in Hk1. eapply runs_bind; [prints|]. intros k2 Hk2. apply runs_ret. by exists now.
Qed.
Record services_ready (k0 k : kernel) : Prop := {
  sr_same : gdt k = gdt k0 /\ idt k = idt k0 /\ active_boot_info k = active_boot_info k0 /\ mach k = mach k0 /\ kern (the_sys k) = kern (the_sys k0);
  sr_started : SmpBoot.SMP_STARTED (smp k) = true;
  sr_network : exists now, (net (cons k), nic (cons k)) = network_of now (nic (cons k0)) (net (cons k0));
  sr_files : Vfs.init Elf.build_hello_elf Elf.build_counter_elf Elf.build_init_elf (vfs (store (cons k0))) = Ret (vfs (store (cons k)))
}.
Lemma services_run k k' : calm k -> length (Serial.buffers (serial (the_sys k))) = Task.MAX_CPUS -> Forall Serial.buf_ok (Serial.buffers (serial (the_sys k))) -> seems k k' ->
  runs (boot_services fuel ly k') (fun k3 => exists k2, over k2 k3 /\ services_ready k k2).
Proof.
  intros Hc Hl Hb Hk. destruct (VfsPath.init_tree Elf.build_hello_elf Elf.build_counter_elf Elf.build_init_elf (vfs (store (cons k))) (fun _ => []) []) as (v & Ev & _). unfold boot_services.
  eapply runs_bind; [eapply (step_fs k _ v); [exact Hc|exact Ev|exact Hk]|]. intros k1 Hk1. set (a1 := with_files v k) in Hk1. assert (Hc1 : calm a1) by exact Hc. do 4 then_prints.
  eapply runs_bind; [eapply (step_net a1); [exact Hc1|eassumption]|]. intros [ok k2] (now & Hk2). cbn [snd] in Hk2. set (a2 := networked now a1) in Hk2. assert (Hc2 : calm a2) by exact Hc. then_prints.
  eapply runs_dev; [apply keeps_timer|]. intros _. cbv zeta.
  eapply runs_weaken; [apply (over_say _ (with_buffers (start_aps a2)))|].
  - destruct Hkp3 as (w & t & -> & Hw). exists (Serial.enable_percpu_buffering (serial (the_sys k))), w, t. split; [done|]. split; [|exact Hw]. split; [done|]. split; [exact (proj2 Hc)|]. by split.
  - intros k4 Hk4. exists (with_buffers (start_aps a2)). split; [exact Hk4|]. assert (E3 : vfs (store (cons (with_buffers (start_aps a2)))) = v) by reflexivity. constructor; [by split_and!|reflexivity| |rewrite E3; exact Ev].
    exists now. exact (eq_sym (surjective_pairing _)).
Qed.

(** ** The state the initialisation leaves *)
Record booted (boot_info : BootInfo) (k0 k : kernel) : Prop := {
  bt_info : active_boot_info k = Some boot_info;
  (** the frames that are free are those of the usable regions *)
  bt_frames : let p := UserSpace.fa (the_world k) in Pmm.wf p /\
    forall a, Pmm.addr_free p a <-> Pmm.is_frame a /\ exists r, r ∈ take 64 (memory_map boot_info) /\ Pmm.is_usable r = true /\ Pmm.mr_start r <= a < Pmm.mr_end r;
  (** the segments and the gates are the kernel's *)
  bt_gdt : Descriptors.gdt_ok (gdt k) (tss_at ly) /\ TSS_LOADED (mach k) = true;
  bt_idt : forall v, (v < 256)%nat -> exists e, idt k !! v = Some e /\ Descriptors.gate e = Descriptors.vector (interrupt_handlers ly) v;
  bt_syscall : SYSCALL_CONFIGURED (mach k) = true /\ Descriptors.read_lstar (msrs (mach k)) = syscall_entry ly;
  bt_cr3 : UserSpace.KERNEL_CR3 (the_world k) = Z.land (UserSpace.active_cr3 (the_world k)) Paging.ADDR_MASK;
  (** the whole heap is free *)
  bt_heap : Allocator.heap_inv (heap_storage ly) (heap_storage ly + Allocator.HEAP_SIZE) (Allocator.mkHeap (heap (mach k)) []);
  (** the firmware tables have been read, and the local controller is on if there is one *)
  bt_acpi : exists b, Acpi.init_with_rsdp (rom ly) (acpi_rsdp boot_info) Acpi.new = Ret (b, acpi (mach k));
  bt_apic : Cpuid.has_apic (Cpuid.get_cpu_info (cpuid (mach k))) = true -> enabled (lapic (mach k));
  (** the shell and the sentinel are the tasks of this processor, the others may go on *)
  bt_tasks : exists q, Task.CPU_SCHEDULERS (kern (the_sys k)) !! 0%nat = Some q /\ first_queue q 1;
  bt_started : SmpBoot.SMP_STARTED (smp k) = true;
  (** the file system is the initial tree *)
  bt_files : exists v0, Vfs.init Elf.build_hello_elf Elf.build_counter_elf Elf.build_init_elf v0 = Ret (vfs (store (cons k)));
  (** the card has been searched; if it is there the stack has its address, and the
      addresses of the gateway and of the name server *)
  bt_network : let '(found, driver, m) := E1000.init (dma ly) (Network.driver (nic (cons k0))) (Network.machine_of (nic (cons k0))) in
    Network.driver (nic (cons k)) = driver /\ Network.machine_of (nic (cons k)) = m /\
    let n := net (cons k) in let peer := [0x52; 0x54; 0x00; 0x12; 0x34; 0x56] in
    if found then Network.is_enabled n = true /\ Network.mac n = E1000.mac driver /\
      Packets.arp_lookup (Network.arp_table n) (Network.gateway n) = Some peer /\ Packets.arp_lookup (Network.arp_table n) (Network.dns n) = Some peer
    else n = Network.new;
  (** text goes to the screen and to the buffers of the serial line *)
  bt_serial : buffered (serial (the_sys k));
  bt_screen : exists t, Vga.shows (screen (the_sys k)) t
}.
(** The statics before the first instruction, and a screen that shows something. *)
Record at_reset (k : kernel) : Prop := {
  rs_frames : UserSpace.fa (the_world k) = Pmm.new;
  rs_idt : idt k = Descriptors.IDT;
  rs_heap : exists at_, heap (mach k) = Allocator.new at_;
  rs_acpi : acpi (mach k) = Acpi.new;
  rs_tasks : Task.CPU_SCHEDULERS (kern (the_sys k)) = Task.sched_new <$> seq 0 8;
  rs_id : Task.NEXT_TASK_ID (kern (the_sys k)) = 1;
  rs_serial : serial (the_sys k) = Serial.boot;
  rs_net : net (cons k) = Network.new;
  rs_smp : smp_reset (smp k);
  rs_screen : exists t, Vga.shows (screen (the_sys k)) t
}.
(** What linker, loader and firmware provide. *)
Record placed (boot_info : BootInfo) : Prop := {
  pl_tss : in_u 64 (tss_at ly);
  pl_entry : in_u 64 (syscall_entry ly);
  pl_handlers : Descriptors.handlers_ok (interrupt_handlers ly);
  pl_heap : Allocator.region_ok (heap_storage ly) (heap_storage ly + Allocator.HEAP_SIZE);
  pl_stub : Z.of_nat (length (stub ly)) <= 0x1000;
  pl_rom : Acpi.byte_memory (rom ly);
  (** no table the initialisation follows lies outside mapped memory *)
  pl_tables : AcpiMapped.init_with_rsdp (rom ly) (rom_mapped ly) (acpi_rsdp boot_info) Acpi.new <> None
}.

Lemma tables_ok k : in_u 64 (tss_at ly) -> Descriptors.gdt_ok (tables ly k).1.1 (tss_at ly).
Proof. intros Ht. pose proof (Descriptors.gdt_init_ok (gdt_at ly) (tss_at ly) (ist1_stack ly) (kernel_stack ly) (tss (mach k)) Ht) as Hg. unfold tables. destruct (Descriptors.gdt_init _ _ _ _ _) as [[g ts] pt]. exact (proj1 Hg). Qed.
Lemma network_of_new now c0 n c : network_of now c0 Network.new = (n, c) ->
  let '(found, driver, m) := E1000.init (dma ly) (Network.driver c0) (Network.machine_of c0) in
    Network.driver c = driver /\ Network.machine_of c = m /\ let peer := [0x52; 0x54; 0x00; 0x12; 0x34; 0x56] in
    if found then Network.is_enabled n = true /\ Network.mac n = E1000.mac driver /\
      Packets.arp_lookup (Network.arp_table n) (Network.gateway n) = Some peer /\ Packets.arp_lookup (Network.arp_table n) (Network.dns n) = Some peer
    else n = Network.new.
Proof. unfold network_of. destruct (E1000.init _ _ _) as [[found driver] m]. destruct found; intros [= <- <-]; split_and!; reflexivity. Qed.
Lemma heap_ready at_ : Allocator.region_ok (heap_storage ly) (heap_storage ly + Allocator.HEAP_SIZE) ->
  Allocator.heap_inv (heap_storage ly) (heap_storage ly + Allocator.HEAP_SIZE) (Allocator.mkHeap (Allocator.init (Allocator.new at_) (heap_storage ly) Allocator.HEAP_SIZE) []).
Proof. intros Hr. pose proof (Allocator.fresh_heap_inv at_ _ _ Hr) as Hi. unfold Allocator.fresh_heap in Hi. by rewrite Z.add_simpl_l in Hi. Qed.

(** The components of the state after the memory part, where the later parts start. *)
Lemma booted_parts boot_info p l k a3 a4 x w t at_ : at_reset k -> placed boot_info ->
  Pmm.wf p -> (forall a, Pmm.addr_free p a <-> Pmm.is_frame a /\ exists r, r ∈ take 64 (memory_map boot_info) /\ Pmm.is_usable r = true /\ Pmm.mr_start r <= a < Pmm.mr_end r) ->
  (forall v, (v < 256)%nat -> exists e, l !! v = Some e /\ Descriptors.gate e = Descriptors.vector (interrupt_handlers ly) v) -> heap (mach k) = Allocator.new at_ ->
  processors_ready boot_info (after_memory boot_info p l k) a3 -> services_ready a3 a4 -> buffered x -> Vga.shows w t -> booted boot_info k (drawn a4 x w).
Proof.
  intros [R1 R2 _ R3 R4 R5 R6 R7 R8 R9] [P1 P2 P3 P4 P5 P6 P7] Hwf Hfree Hgates Hheap [S1 S2 S3 S4 S5 S6 S7] [(T1 & T2 & T3 & T4 & T5) T6 T7 T8] Hx Hw.
  destruct S1 as (G1 & G2 & G3 & G4 & G5 & G6). destruct S3 as (F1 & F2 & F3). destruct S5 as (E1 & E2 & E3 & E4). destruct S7 as [C1 C2]. destruct T7 as [now T7]. pose proof (tables_ok k P1) as Hgdt.
  assert (Hw4 : the_world (drawn a4 x w) = the_world a3) by (unfold the_world; cbn; by rewrite T5).
  constructor; try (cbn; rewrite T4).
  - cbn. by rewrite T3, G3.
  - rewrite Hw4, F1. by split.
  - cbn. rewrite T1, G1, G5. split; [exact Hgdt|done].
  - cbn. rewrite T2, G2. exact Hgates.
  - rewrite G6, S2. split; [done|]. cbn. by apply Descriptors.init_on_cpu_lstar.
  - rewrite Hw4, F2, F3. done.
  - rewrite E4. cbn. rewrite Hheap. by apply heap_ready.
  - cbn in S6. by rewrite R3 in S6.
  - rewrite C1. exact C2.
  - cbn. rewrite T5. destruct S4 as (q & Hq & Hf). exists q. split; [exact Hq|]. by rewrite <- R5.
  - exact T6.
  - eexists. exact T8.
  - rewrite E2, E3 in T7. cbn in T7. rewrite R7 in T7. exact (network_of_new _ _ _ _ (eq_sym T7)).
  - exact Hx.
  - by exists t.
Qed.

(** ** The report and the prompt *)
Lemma tests_run l : forall k k', over k k' -> runs (report_tests fuel l k') (over k).
Proof.
  induction l as [|r l IH]; intros k k' Hk; [by apply runs_ret|]. cbn [report_tests]. eapply (runs_bind _ _ (over k)).
  - destruct (passed r); (eapply runs_bind; [by apply over_say|]); intros k1 Hk1; by apply over_klog.
  - intros k1 Hk1. eapply runs_bind; [by apply over_flush|]. intros k2 Hk2. by apply IH.
Qed.
(** What the shell needs: its console, and files among which [nm] can be written. *)
Record usable (nm : string) (k : kernel) : Prop := {
  us_serial : buffered (serial (the_sys k)); us_screen : exists t, Vga.shows (screen (the_sys k)) t;
  us_tree : VfsTree.fs_ok (vfs (store (cons k))); us_room : can_hold (vfs (store (cons k))) nm
}.
Lemma usable_over nm k : usable nm k -> over k k.
Proof. intros [Hs (t & Ht) _ _]. exists (serial (the_sys k)), (screen (the_sys k)), t. split; [|by split]. unfold drawn, set_sys, set_cons, the_sys. by destruct k as [[[] ? ? ? ? ?] ? ? ? ? ? ?]. Qed.
Lemma over_usable nm k k' : usable nm k -> over k k' -> usable nm k'.
Proof. intros [Hs _ H1 H2] (x & w & t & -> & Hx & Hw). split; [exact Hx|by exists t|exact H1|exact H2]. Qed.
(** Self tests that return and leave the shell what it needs. *)
Definition tests_leave (nm : string) (run_all_tests : kernel -> hwo H (list TestResult * kernel)) : Prop := forall k, usable nm k -> runs (run_all_tests k) (fun x => usable nm x.2).
Lemma prompt_runs boot_info tests turns events nm k : tests_leave nm tests -> usable nm k -> runs (to_prompt fuel boot_info tests turns events false k) (usable nm).
Proof.
  intros Ht Hk. unfold to_prompt. eapply runs_bind; [by apply over_say, (usable_over nm)|]. intros k1 Hk1. eapply runs_bind; [by apply Ht, (over_usable nm k)|]. intros [results k2] Hk2. cbn [snd] in Hk2.
  pose proof (usable_over _ _ Hk2) as Ho. eapply runs_weaken; [|intros k' Hk'; exact (over_usable nm k2 k' Hk2 Hk')]. eapply (runs_bind _ _ (over k2)).
  - unfold diagnostics. eapply runs_bind; [by apply over_serial|]. intros k3 Hk3. eapply runs_bind; [by apply tests_run|]. intros k4 Hk4. eapply (runs_bind _ _ (over k2)); [|intros k5 Hk5; by apply over_flush].
    destruct (forallb passed results); [|by apply over_say]. eapply runs_bind; [by apply over_say|]. intros k5 Hk5. by apply over_klog.
  - intros k3 Hk3. eapply runs_bind; [by apply over_say|]. intros k4 Hk4. eapply runs_bind; [by apply (runs_ret k4 (over k2))|]. intros k5 Hk5.
    eapply runs_bind; [by apply over_say|]. intros k6 Hk6. eapply runs_bind; [by apply over_print|]. intros k7 Hk7. by apply over_klog.
Qed.
Lemma booted_usable boot_info k0 k nm : booted boot_info k0 k -> nm ∉ VfsPath.root_names -> usable nm k.
Proof.
  intros B Hnm. destruct (bt_files _ _ _ B) as (v0 & E0). destruct (VfsPath.init_tree Elf.build_hello_elf Elf.build_counter_elf Elf.build_init_elf v0 (fun _ => []) []) as (v & E & Hok & _ & Hcwd & (n & Hn & Hd & Hnames) & _).
  rewrite E in E0. injection E0 as E0. split; [exact (bt_serial _ _ _ B)|exact (bt_screen _ _ _ B)| |]; rewrite <- E0; [exact Hok|]. exists n. split; [by rewrite Hcwd|]. split; [exact Hd|]. intros i m Hc. destruct Hnm. exact (Hnames _ _ Hc).
Qed.
Lemma board_silent : quiet (H := H) Serial.uart_ok.
Proof. intros h Hh. pose proof (board_quiet h Hh) as Hq. destruct (inb h (Serial.COM1_BASE + 5)) as [v h'] eqn:E. exists v, h'. split; [reflexivity|]. split; [exact Hq|]. exact (proj1 (Serial.status_law h v h' Hh E)). Qed.
End Phases.

(** ** The whole of it: the line alone, then with the controllers, then with the timer *)
Section Whole.
Context {H : Type} {HW : Hardware H} {U0 : Serial.Uart H} {B0 : Board H nil} {PW : Powered H} {CH : Chips H}.
Context {D : Type} {DK : Disk D} {HN : Type} {HWN : Hardware HN} {HA : Type} {HWA : Hardware HA} {LA : SmpBoot.Lapic HA}.
Context (fuel : nat) (Hfuel : (Serial.max_polls < fuel)%nat) (ly : layout).
Notation kernel := (kernel (D := D) (HN := HN) (HA := HA)).
Implicit Types k : kernel.

Lemma pic_clear : Forall (clear Serial.COM1_BASE 8) PIC_PORTS.
Proof. by_compute. Qed.
Lemma pit_clear : Forall (clear Serial.COM1_BASE 8) PIT_PORTS.
Proof. by_compute. Qed.
Definition U1 : Serial.Uart H := guarded U0 PIC_PORTS pic_ok pic_stays pic_clear.
Definition U2 : Serial.Uart H := guarded U1 PIT_PORTS pit_ok pit_stays pit_clear.
Lemma B1 : Board H (HU := U1) PIC_PORTS.
Proof. exact (guarded_board U0 nil PIC_PORTS pic_ok pic_stays pic_clear B0). Qed.
#[local] Instance B2 : Board H (HU := U2) GUARD.
Proof. exact (guarded_board U1 PIC_PORTS PIT_PORTS pit_ok pit_stays pit_clear B1). Qed.
#[local] Instance B0_weak : Board H (HU := U0) GUARD.
Proof. apply (board_weaken U0 nil); [|exact B0]. intros x Hx. by apply elem_of_nil in Hx. Qed.
#[local] Instance B1_weak : Board H (HU := U1) GUARD.
Proof. apply (board_weaken U1 PIC_PORTS); [|exact B1]. intros x Hx. apply elem_of_app. by left. Qed.
Notation ok U := (Serial.uart_ok (Uart := U)).

Ltac prints := first [eapply step_say | eapply step_serial | eapply step_lines | eapply step_info | eapply step_klog]; [exact Hfuel| |eassumption]; assumption.
Ltac then_prints := eapply runs_then; [prints|]; let k' := fresh "kp" in let Hk := fresh "Hkp" in intros k' Hk.

Lemma step_serial_init k k' : calm k -> seems k k' -> leads (fun _ => True) (ok U0) (serial_init fuel k') (seems k).
Proof. intros Hc Hk. unfold serial_init. eapply (leads_dev _ _ _ (ok U0)); [intros h _; apply board_init|]. intros _. prints. Qed.
Lemma step_pic k k' : calm k -> seems k k' -> leads (ok U0) (ok U1) (pic_init fuel k') (seems k).
Proof. intros Hc Hk. unfold pic_init. eapply (leads_dev _ _ _ (ok U1)); [intros h Hh; exact (conj (keeps_pic h Hh) (pic_set h))|]. intros _. prints. Qed.
Lemma step_pit k k' : calm k -> seems k k' -> leads (ok U1) (ok U2) (pit_init fuel k') (seems k).
Proof.
  intros Hc Hk. unfold pit_init. eapply (leads_dev _ _ _ (ok U2)); [intros h Hh; exact (conj (keeps_pit (HB := B1) h Hh) (pit_set h))|]. intros _. then_prints. prints.
Qed.
(** Nothing is assumed of the machine before it is programmed. *)
Lemma memory_runs boot_info p l k : calm k -> seems k k -> Pmm.init (UserSpace.fa (the_world k)) (memory_map boot_info) = Ret p -> Descriptors.idt_init (interrupt_handlers ly) (idt k) = Ret l ->
  leads (fun _ => True) (ok U2) (boot_memory fuel ly boot_info k) (seems (after_memory ly boot_info p l k)).
Proof.
  intros Hc Hk Hp Hl. unfold boot_memory. set (k0 := set_info k _). assert (Hk0 : seems k0 k0) by (by apply (seems_change (fun k => set_info k (set_active_boot_info boot_info (active_boot_info k)))) in Hk).
  assert (Hc0 : calm k0) by exact Hc. eapply leads_bind; [by apply step_serial_init|]. intros k1 Hk1. then_prints.
  eapply runs_then; [by apply step_pmm|]. intros k2 Hk2. assert (Hc2 : calm (with_frames p k0)) by exact Hc. then_prints.
  eapply runs_then; [by apply step_gdt|]. intros k4 Hk4. set (a4 := with_gdt ly _) in Hk4. assert (Hc4 : calm a4) by exact Hc.
  eapply leads_bind; [by apply step_pic|]. intros k5 Hk5. then_prints. eapply runs_then; [by apply (step_idt (HU := U1) fuel Hfuel ly l)|]. intros k7 Hk7. set (a7 := set_idt a4 l) in Hk7. assert (Hc7 : calm a7) by exact Hc.
  then_prints. eapply leads_bind; [by apply step_pit|]. intros k9 Hk9. apply (runs_dev (HU := U2)); [apply keeps_mouse|]. intros _. then_prints. then_prints.
  eapply runs_then; [by apply step_syscall|]. intros k12 Hk12. set (a12 := with_syscalls ly a7) in Hk12. assert (Hc12 : calm a12) by exact Hc.
  eapply runs_then; [by apply step_heap|]. intros k13 Hk13. assert (Hc13 : calm (with_heap_at ly a12)) by exact Hc. then_prints. by apply step_user_space.
Qed.
Lemma kernel_runs boot_info k : at_reset k -> placed ly boot_info -> Forall (fun r => Pmm.region_ok (Pmm.mr_start r, Pmm.mr_end r)) (memory_map boot_info) ->
  leads (fun _ => True) (ok U2) (kernel_main fuel ly boot_info k) (fun x => (text_only (H := H) -> x.1 = false) /\ booted ly boot_info k x.2).
Proof.
  intros R P Hmap. pose proof R as [R1 R2 (at_ & Ra) R3 R4 R5 R6 R7 R8 (t & R9)]. assert (Hc : calm k) by (split; by rewrite R6).
  destruct (Pmm.init_view Pmm.new (memory_map boot_info) eq_refl Hmap) as (p & Ep & Hwf & _ & _ & Hfree). destruct (Descriptors.gates_installed _ (pl_handlers _ _ P)) as (l & El & _ & Hgates).
  assert (Hk : seems k k). { exists (screen (the_sys k)), t. split; [|exact R9]. unfold seen, set_sys, set_cons, the_sys. by destruct k as [[[] ? ? ? ? ?] ? ? ? ? ? ?]. }
  unfold kernel_main. eapply leads_bind; [apply (memory_runs _ p l); [exact Hc|exact Hk|by rewrite R1|by rewrite R2]|]. intros k1 Hk1. set (a1 := after_memory ly boot_info p l k) in Hk1. assert (Hc1 : calm a1) by exact Hc.
  eapply runs_then; [by apply (devices_run (HU := U2) fuel Hfuel a1)|]. intros k2 Hk2. eapply runs_then; [eapply (processors_run (HU := U2) fuel Hfuel ly boot_info a1 _ (Task.sched_new <$> seq 1 7)); [exact Hc1|exact (pl_rom _ _ P)|cbn; rewrite R3; exact (pl_tables _ _ P)|exact (pl_stub _ _ P)|exact R8|exact R4|exact Hk2]|].
  intros [bga k3] [Hno (a3 & Hk3 & S)]. cbn [fst snd] in *.
  assert (Hs3 : serial (the_sys a3) = Serial.boot) by (destruct (pr_same _ _ _ _ S) as (_ & _ & _ & G4 & _); rewrite G4; exact R6). assert (Hc3 : calm a3) by (split; by rewrite Hs3).
  eapply runs_then; [apply (services_run (HU := U2) fuel Hfuel ly a3); [exact Hc3|by rewrite Hs3|rewrite Hs3; apply Forall_replicate, Serial.new_buf_ok|exact Hk3]|].
  intros k4 (a4 & (x & w & t4 & -> & Hx & Hw) & T). apply (runs_ret (HU := U2)). split; [exact Hno|]. cbn [snd]. by eapply booted_parts.
Qed.


(** C15: from power on to an answered command.  On a board without a graphics adapter and
    with nobody sending on the serial line, [kernel_main] runs to its prompt with any self
    tests, whatever they report, that return and leave the console working and a well-formed
    tree in which the name can be written; the keys of [write <name> <text>] and of
    [cat <name>], for any name that is not one of the initial directories, then put the two
    lines, the answer and the text on the screen. *)
Theorem boots_to_shell boot_info k tests turns events sc w text b (l1 := txt "write " ++ w ++ 32 :: text) (l2 := txt "cat " ++ w) :
  at_reset k -> placed ly boot_info -> Forall (fun r => Pmm.region_ok (Pmm.mr_start r, Pmm.mr_end r)) (memory_map boot_info) -> text_only (H := H) -> tests_leave (str w) tests ->
  file_name w -> str w ∉ VfsPath.root_names -> Forall (fun b => 0x20 <= b <= 0x7E) text -> last text = Some b -> graphic b -> (length w + length text <= 119)%nat ->
  forall h : H, exists k1 h1 k2 h2, kernel_main fuel ly boot_info k h = Ret (false, k1, h1) /\ to_prompt fuel boot_info tests turns events false k1 h1 = Ret (k2, h2) /\
    exists t kb1 sh1 c1 h3 kb2 sh2 c2 h4, Vga.shows (screen (the_sys k2)) t /\
      process_pending_keys fuel 0 sc (typed l1 Shell.idle_keyboard) Shell.new (cons k2) h2 = Ret (Prompt, kb1, sh1, c1, h3) /\
      process_pending_keys fuel 0 sc (typed l2 kb1) sh1 c1 h3 = Ret (Prompt, kb2, sh2, c2, h4) /\
      Vga.shows (screen (system c2)) (t ++ l1 ++ [10] ++ txt "Wrote " ++ decimal (Z.of_nat (length text)) ++ txt " bytes to '" ++ w ++ txt "'" ++ [10] ++ Shell.PROMPT ++ l2 ++ [10] ++ text ++ [10] ++ Shell.PROMPT).
Proof.
  intros Hr Hp Hm Hno Htests Hw Hnm Ht Hlast Hb Hlen h. destruct (kernel_runs boot_info k Hr Hp Hm h I) as ([bga k1] & h1 & E1 & [[Hu1 _] _] & Hbga & B). cbn [fst snd] in *. rewrite (Hbga Hno) in E1.
  destruct (prompt_runs fuel Hfuel boot_info tests turns events (str w) k1 Htests (booted_usable _ _ _ _ _ B Hnm) h1 Hu1) as (k2 & h2 & E2 & Hu2 & [(X1 & X2 & X3 & X4) (t & Hs) Hok Hhold]).
  exists k1, h1, k2, h2. split; [exact E1|]. split; [exact E2|]. destruct Shell.idle_queue as [Q1 Q2].
  destruct (session_runs (ND := Network.e1000_device) fuel 0 Serial.uart_ok sc Shell.idle_keyboard Shell.new (cons k2) h2 w text b t) as (kb1 & sh1 & c1 & h3 & kb2 & sh2 & c2 & h4 & S1 & S2 & _ & _ & S3); try done.
  - exact board_silent.
  - split; [done|]. split; [exact Q1|]. split; [exact Q2|]. split; [apply Shell.new_shell_ok|done].
  - split; [exact X1|]. split; [apply lookup_lt_is_Some_2; change (0 < length (Serial.buffers (serial (the_sys k2))))%nat; rewrite X3; unfold Task.MAX_CPUS; lia|]. split; [unfold Task.MAX_CPUS; lia|exact Hs].
  - exists t, kb1, sh1, c1, h3, kb2, sh2, c2, h4. split; [exact Hs|]. by split.
Qed.
End Whole.

(** ** Witness: a serial port and a record of what is written to every port as the whole
    board, and two other processors *)
Record logged := mkLogged { port : Serial.uart; writes : list (Z * Z) }.
Definition written (u : logged) (p v : Z) : list (Z * Z) := writes u ++ [(p, v)].
#[global] Instance logged_hardware : Hardware logged := {
  outb u p v := mkLogged (outb (port u) p v) (written u p v); inb u p := let '(v, x) := inb (port u) p in (v, mkLogged x (writes u));
  outw u p v := mkLogged (port u) (written u p v); inw u _ := (0, u); outl u p v := mkLogged (port u) (written u p v); inl u _ := (0, u);
  write_volatile u _ _ := u; read_volatile u _ := (0, u)
}.
#[global] Program Instance logged_uart : Serial.Uart logged := { Serial.uart_ok u := Serial.uart_ok (port u); Serial.line u := Serial.line (port u); Serial.polls u := Serial.polls (port u); Serial.max_polls := 2 }.
Next Obligation. intros h Hh. exact (Serial.polls_bound (port h) Hh). Qed.
Next Obligation. intros h v h' Hh. cbn [inb logged_hardware]. destruct (inb (port h) (Serial.COM1_BASE + 5)) as [v1 u1] eqn:E. intros [= <- <-]. exact (Serial.status_law (port h) v1 u1 Hh E). Qed.
Next Obligation. intros h b. exact (Serial.transmit_law (port h) b). Qed.
#[global] Program Instance logged_board : Board logged nil.
Next Obligation. intros h p v Hh [Hp _]. cbn. destruct (Z.eqb_spec p Serial.COM1_BASE); [lia|done]. Qed.
Next Obligation. intros h p Hh [Hp _]. cbn [inb logged_hardware Serial.uart_hardware]. destruct (Z.eqb_spec p (Serial.COM1_BASE + 5)); [lia|done]. Qed.
Next Obligation. done. Qed.
Next Obligation. done. Qed.
Next Obligation. done. Qed.
Next Obligation. done. Qed.
Next Obligation. done. Qed.
Next Obligation. done. Qed.
Next Obligation. intros h Hh. cbn. by destruct (Serial.busy (port h)). Qed.
#[global] Instance logged_powered : Powered logged.
Proof. split. intros h. cbn [Serial.uart_ok logged_uart Serial.uart_uart]. assert (E : Serial.busy (port (snd (Serial.init Serial.COM1_BASE h))) = 2%nat) by (vm_compute; reflexivity). lia. Qed.

(** The last writes to the ports of the chip are the given ones. *)
Definition to_ports (ports : list Z) (l : list (Z * Z)) : list (Z * Z) := filter (fun x => x.1 ∈ ports) l.
Definition ends_in (ports : list Z) (l : list (Z * Z)) (h : logged) : Prop := exists l0, to_ports ports (writes h) = l0 ++ l.
Definition PIC_WRITES : list (Z * Z) := [(0x20, 0x11); (0xA0, 0x11); (0x21, 32); (0xA1, 40); (0x21, 4); (0xA1, 2); (0x21, 1); (0xA1, 1); (0x21, 0xF8); (0xA1, 0xEF)].
Definition PIT_WRITES : list (Z * Z) := [(0x43, 0x36); (0x40, 0x9B); (0x40, 0x2E)].
Lemma ends_stays ports l : stays ports (ends_in ports l).
Proof.
  assert (Hw : forall h p v u, ends_in ports l h -> p ∉ ports -> ends_in ports l (mkLogged u (written h p v))).
  { intros h p v u [l0 E] Hp. exists l0. cbn [writes]. unfold written, to_ports in *. rewrite filter_app, E. rewrite filter_cons_False by done. by rewrite filter_nil, app_nil_r. }
  assert (Hc : forall p n, 0 < n -> Forall (clear p n) ports -> p ∉ ports) by (intros p n Hn Hf Hp; rewrite Forall_forall in Hf; specialize (Hf p Hp); unfold clear in Hf; lia).
  split; intros h p v; try done.
  - intros Hh Hf. apply Hw; [done|]. by apply (Hc p 1).
  - intros Hf. destruct h as [u w]. cbn [inb logged_hardware port] in *. by destruct (inb u p).
  - intros Hh Hf. apply Hw; [done|]. by apply (Hc p 2).
  - intros Hh Hf. apply Hw; [done|]. by apply (Hc p 4).
Qed.
Lemma to_ports_app ports l1 l2 : to_ports ports (l1 ++ l2) = to_ports ports l1 ++ to_ports ports l2.
Proof. apply filter_app. Qed.
#[global] Program Instance logged_chips : Chips logged := { pic_ok := ends_in PIC_PORTS PIC_WRITES; pit_ok := ends_in PIT_PORTS PIT_WRITES }.
Next Obligation. apply ends_stays. Qed.
Next Obligation. intros [u w]. exists (to_ports PIC_PORTS w). cbv -[to_ports app PIC_PORTS PIC_WRITES]. rewrite <- !app_assoc, to_ports_app. f_equal. Qed.
Next Obligation. apply ends_stays. Qed.
Next Obligation. intros [u w]. exists (to_ports PIT_PORTS w). cbv -[to_ports app PIT_PORTS PIT_WRITES]. rewrite <- !app_assoc, to_ports_app. f_equal. Qed.

Definition demo_layout : layout := mkLayout 0x1000 0x2000 0x3000 0x8000 Descriptors.demo_handlers 0x100000 0x400000 0x100200 0x500000 0x200000 0x100100 0xFEE00000 [0xFA] E1000.dma (fun _ => 0) (fun a => a <? 0x20000000).
Definition reset_sys : sys Pmm.Pmm :=
  mkSys (Task.mkKernel (Task.sched_new <$> seq 0 8) 1 1 0 (UserSpace.mkWorld Pmm.new (fun _ => 0) 0 0x5000) (Task.hw Smp.demo_kernel)) Ipc.new Serial.boot demo_screen 0 1 demo_user.
Definition reset_console : console (D := Ata.ide) (N := Network.card Pci.machine) := mkConsole reset_sys (start_files FatFs.new_disk) Network.new (Network.holding []) (mkDesk Bga.boot (fun _ => 0)) 0.
Definition reset_machine : machine := with_heap demo_machine (Allocator.new 0x3F0000).
Definition reset_kernel : kernel := mkKernel reset_console reset_machine [] (Descriptors.mkGdtr 0 0) Descriptors.IDT (SmpBoot.demo_machine (replicate 100 [0%nat; 1%nat])) None.
Definition demo_info : BootInfo := mkBootInfo BOOT_INFO_MAGIC Pmm.demo_map None Bios.
Definition line1 : logged := mkLogged line0 [].
Lemma reset_ok : at_reset reset_kernel.
Proof. constructor; try reflexivity; [by eexists|split; [reflexivity|by repeat constructor]|exists []; by split]. Qed.
Lemma demo_placed : placed demo_layout demo_info.
Proof.
  constructor; [done|done|by_compute|by vm_compute|done|done|].
  assert (E : (match AcpiMapped.init_with_rsdp (rom demo_layout) (rom_mapped demo_layout) (acpi_rsdp demo_info) Acpi.new with Some _ => true | None => false end) = true) by (vm_compute; reflexivity).
  by destruct (AcpiMapped.init_with_rsdp _ _ _ _).
Qed.
Lemma demo_map_ok : Forall (fun r => Pmm.region_ok (Pmm.mr_start r, Pmm.mr_end r)) (memory_map demo_info).
Proof. repeat constructor; simpl; unfold Pmm.PAGE_SIZE; lia. Qed.

Lemma three_polls : (Serial.max_polls (H := logged) < 3)%nat.
Proof. cbn. lia. Qed.
(** Self tests that print a line and report a failure. *)
Definition demo_kernel : Type := kernel (D := Ata.ide) (HN := Pci.machine) (HA := SmpBoot.chip).
Definition demo_tests (k : demo_kernel) : hwo logged (list TestResult * demo_kernel) :=
  k ← on_sys (say 3 0 [txt "[TEST] Spinlock"]) k; mret ([mkResult (txt "Spinlock") false (txt "not reentrant")], k).
Lemma demo_tests_leave nm : tests_leave (D := Ata.ide) (HN := Pci.machine) (HA := SmpBoot.chip) nm demo_tests.
Proof.
  intros k Hk. unfold demo_tests. eapply runs_bind; [eapply (over_say 3 three_polls), (usable_over nm), Hk|]. intros k1 Hk1. apply runs_ret. cbn [snd]. by apply (over_usable nm k).
Qed.

Lemma boots_to_shell_witness : exists k1 h1 k2 h2 t c2, kernel_main (H := logged) 3 demo_layout demo_info reset_kernel line1 = Ret (false, k1, h1) /\
  to_prompt 3 demo_info demo_tests 0 (fun _ => (false, Gui.mkShown 0 0 None, Mouse.MOUSE)) false k1 h1 = Ret (k2, h2) /\ Vga.shows (screen (the_sys k2)) t /\
  Vga.shows (screen (system (D := Ata.ide) (N := Network.card Pci.machine) c2)) (t ++ txt "write notes hi" ++ [10] ++ txt "Wrote 2 bytes to 'notes'" ++ [10] ++ txt "auraos> cat notes" ++ [10] ++ txt "hi" ++ [10] ++ txt "auraos> ").
Proof.
  destruct (boots_to_shell (H := logged) (DK := ata_disk) 3 three_polls demo_layout demo_info reset_kernel demo_tests 0 (fun _ => (false, Gui.mkShown 0 0 None, Mouse.MOUSE)) demo_scene (txt "notes") (txt "hi") 105)
    with (h := line1) as (k1 & h1 & k2 & h2 & E1 & E2 & t & kb1 & sh1 & c1 & h3 & kb2 & sh2 & c2 & h4 & Ht & _ & _ & E).
  - exact reset_ok.
  - exact demo_placed.
  - exact demo_map_ok.
  - done.
  - exact (demo_tests_leave _).
  - exact name_notes.
  - by_compute.
  - by_compute.
  - reflexivity.
  - unfold graphic. lia.
  - change (length (txt "notes")) with 5%nat. change (length (txt "hi")) with 2%nat. lia.
  - exists k1, h1, k2, h2, t, c2. exact (conj E1 (conj E2 (conj Ht E))).
Defined.

End Main.
